(* ===== verification/_CoqProject ===== *)
-Q . S2P
Prelude.v
Chacha.v
ChachaRef.v
Poly1305.v
Aead.v
Crypto.v
Key.v
Protocol.v
IpPool.v
HashTable.v
Dlist.v
Uthash.v
UthashTable.v
Libc.v
Session.v
Auth.v
User.v
Io.v
Payload.v
Receive.v
Fsm.v
Stats.v
Server.v
ServerDemo.v
ServerRx.v
ServerData.v
Maintenance.v
ServerRun.v
Sys.v
Tun.v
Udp.v
KeyFile.v
Client.v
ClientRx.v
ClientRun.v
Handshake.v
Text.v
Option.v
Printf.v
Log.v
Args.v
Cmd.v
Status.v
CmdEngine.v
CmdNet.v
Lifecycle.v
Program.v
ClientProgram.v
Reflex.v
Sends.v
Request.v
Utf8.v
Linenoise.v
LineDraw.v
LineEdit.v
LineKeys.v
LineSession.v
Console.v
