(* ===== verification/Prelude.v ===== *)
(** * A verification development for cleveldb, the vfast UDP tunnel

    The program is a point-to-multipoint VPN in C.  A server and its clients
    exchange packets over UDP, each sealed with XChaCha20-Poly1305; what is
    inside goes to and comes from a TUN device.  Both ends are driven by one
    event loop over io_uring with a fixed pool of packet buffers.

    ** How the parts interact

    [vf_io_run] (io.c) hands a received packet, in the buffer of a task, to a
    callback.  The server's callback (vfast_server.c) finds the session of the
    packet (session.c), removes the masking of the header, opens the packet
    under the session's keys (protocol.c over crypto.c over monocypher.c, keys
    from key.c) and calls the handler of its type; handlers answer in fresh
    tasks of the pool, allocate virtual addresses (ippool.c), authenticate
    users (user.c, auth.c) and write payloads to the TUN device.  Packets read
    from the TUN device take the way back.  A timer (vfast.c) probes idle
    sessions and removes dead ones.  The client (vfast_client.c) is the mirror
    image with one session, and a thread that runs a state machine (fsm.c) and
    starts rekeying.  Sockets (udp.c), the TUN device (tun.c), the key file
    (vfast.c) and the configuration (option.c) are set up before the loop.
    Two [main]s put this together; a third program (vfreflex.c) is a console
    that sends lines to the server's management socket (cmd.c, cmdengine.c).

    ** Files and what they model (all sources under src/src/)

    - Prelude: machine words, byte strings, little-endian codecs, automation.
    - Chacha, Poly1305, Aead: the part of monocypher.c the program calls.
      [crypto_chacha20_djb] and the like are on lists of bytes;
      [crypto_chacha20_djb_mem] is the same loop on one buffer that holds
      input and output, since the program always encrypts in place.
      ChachaRef: the block function of RFC 8439, written from the RFC, which
      the sealing functions are proved against.
    - Crypto: crypto.c.  A packet is nonce, cipher text, tag.
    - Key: key.c, key.h.  Active, previous and next key of a session.
    - Protocol: protocol.c, protocol.h.  Header layout, padding, masking,
      [vf_pack], [vf_unpack]; a buffer is the whole list of its bytes, and an
      access outside it is [None].
    - IpPool: ippool.c.  HashTable: what uthash promises (a class and its
      laws).  Dlist, Uthash, UthashTable: uthash.h itself, the macros the
      program uses, on a store of element handles whose locations are the
      elements' addresses.  Session: session.c, sixteen shards, two tables over one heap
      whose locations are the C pointers.
    - Libc, Text, Sys: what the source uses of the C library (strings,
      numbers, addresses) and the system calls, as a state monad.
    - Auth, User: auth.c, user.c.
    - Io: io.c.  Pool, task states, submission queue, the loop.  liburing is
      the class [IoUring].
    - Payload, Receive: the structures of protocol.h inside a task's buffer,
      and what every receive callback may assume.
    - Stats: the counters of cmdengine.c that the data path updates.
    - Server, ServerRx, ServerData, Maintenance, ServerRun: vfast_server.c's
      handlers and receive paths, the timer of vfast.c, and their composition
      with the loop; ServerDemo holds a concrete server for the witnesses.
    - Fsm: fsm.c.  Client, ClientRx, ClientRun: vfast_client.c, its
      invariant, and its composition with the loop.
    - Handshake: client and server together, with a network between them.
    - Tun, Udp, KeyFile: tun.c, udp.c, the key file of vfast.c, over Sys.
    - Option: option.c.
    - Printf: the [printf] formats in use.  Log: log.c.  Args, Cmd: cmd.c without the
      network: parsing of the command line in place, the response buffer, the
      table, help and the dispatcher.  CmdNet: cmd.c's messages and its serving
      thread, over Sys.  CmdEngine: cmdengine.c's table and executors; Status:
      what STATUS reads of /proc.
    - Lifecycle: the initialisation and the end of both programs, composed of
      the set-up code above.  Program, ClientProgram: their [main]s, from the
      command line to the exit status.  Reflex: the callbacks and a request of
      vfreflex.c; Sends: what a request says, with the kernel's answers; Request: a request at both
      ends; Console: the console's [main].
    - Utf8, Linenoise: linenoise.c, the line editor of the console, over a
      terminal that is a list of bytes; in the console's mode, one line and
      nothing masked.  LineDraw: a refresh.  LineEdit: an editor of characters
      ([zed]) and each command of the program against it.  LineKeys: keys and
      their byte sequences.  LineSession: a whole line, its callbacks, input
      that is not a terminal, and the history file.

    ** What the theorems show

    - Packets: what [vf_pack] makes [vf_unpack] opens; unpacking never leaves
      the buffer on any input; [vf_decrypt] accepts exactly what was sealed
      under its key and leaves the buffer alone otherwise; in-place operation
      equals operation on separate buffers; sealing is the construction of
      RFC 8439 over its block function, next key included; Poly1305 on limbs
      is polynomial evaluation modulo 2^130 - 5; no nonce of a process repeats.
    - State of the server: address pool, session tables, token table refine
      finite maps or sets, over every sequence of operations.  They are proved
      against the interface of the hash table; [uthash_refines] shows that
      uthash's pointers implement the interface's list instance.
    - The loop: every buffer is at all times free, with the kernel, or with
      the running callback, whatever the events are.  [server_run_safe] and
      [client_run_safe] instantiate this with the real callbacks: no run of
      either program leaves its memory, frees twice or loses the invariant,
      up to the faults the statements name: the datagrams that trigger one are
      excluded by [control_packet] and [no_data], and nothing else.
    - Replies: [replied] says exactly what is queued, one request if the
      submission queue has room and none if it is full; a silent server is
      sent a HELLO again within thirty-two seconds ([fsm_worker_retries]).
    - Handlers: the result of each on every branch (hello, authentication,
      data both ways, rekeying, maintenance), errors included.
    - Composition: a client connects to a server, and both ends then hold the
      same key; rekeying ends with both on the new key.
    - Set-up code: no system call sequence leaks a descriptor or leaves an
      interface half configured; transfer loops end; a key file is complete
      or absent; a configuration file loads into bounds or is refused, and a
      printed configuration reads back.
    - Management: the in-place parser is a tokenizer; the dispatcher answers
      every line within its buffer and changes what the line's tokens ask for
      and nothing else; the serving thread runs without a fault or a leak for
      every client and every kernel, except that a cancelled thread leaves its
      listener open; [request_served] takes a line from the console through the
      engine and its answer back.
    - Whole programs: [server_main_ends] and [client_main_ends] follow each
      program from its command line through configuration, initialisation,
      loop and clean-up, for every kernel and every traffic, and say what is
      left open in each outcome; [console_typed] follows the console from the
      keys of its user to the requests and the history file, and
      [completion_callback_exact] says what it completes.
    - The line editor: [linenoise_edits] refines it to an editor of characters:
      the bytes of any keys give the line, the history and the rest of the
      input that editor gives.  What is written to the history file is read
      back; a line from a pipe comes whole, however long.

    Where the code does something it does not mean to, the theorem states what
    it does: the index of the task pool overflows, the padding flag is lost,
    the size guard of the padding is too small, a forged acknowledgement
    commits a key, a packed credential is never accepted, a client whose wait
    fails never leaves [main], a failed start closes descriptor 0, a cut
    character moves the editor's cursor out of its line.

    ** Conventions

    A w-bit unsigned integer is a [Z] with [wrap w] where C wraps; an [int] is
    a [Z] with [to_int32] where the code narrows to it.  A byte string is a
    list of [Z] below 256 ([bytes_ok]).  A function whose C text could touch
    memory out of bounds, use a stale pointer or run into undefined behaviour
    returns [option], and [None] is that fault; a theorem that the result is
    [Some] is a memory-safety theorem.  C error returns are values of the
    result.  The state a function changes is passed explicitly; [sys] is a
    state monad over an operating system whose answers ([os_kernel]) are an
    arbitrary function of the call's number, so every theorem over it is for
    every behaviour of the kernel the documented interface permits.

    Locks make an operation atomic, so an operation is one step.  The state
    machine's thread and the client's loop share state without a lock: the
    model lets turns of the thread ([fsm_tick], rekey checks) happen at timer
    events between callbacks.  Calls of the log (modelled in Log) are left out of
    the other parts; they keep errno.

    ** Fuel

    Loops with a C bound use it: the pool search runs pool-size times, the
    acquisition of a task pool-size times, the checksum folds three times
    (no carry of a 32-bit sum is left after two).  [udp_send_loop] and
    [udp_recv_loop] can be interrupted by signals without bound; the theorem
    gives the fuel that is enough when the kernel interrupts fewer than [n]
    times in a row.  The configuration loop needs one step more than the file
    has bytes.  A walk along the links of a hash table needs no more steps than
    there are handles.  A round of the line editor reads a byte or ends it; the
    trimming loops of a refresh shorten the line, or never end.  The event loop runs over a list of completions, any list.

    ** Parameters

    The hash table ([HashTable], [HashTableLaws]), liburing ([IoUring],
    [IoUringLaws], and [IoUringDrains], that a submission empties the queue,
    which only the certain sending of a HELLO uses), the RADIUS exchange, HMAC, the clock, the random source and
    the kernel are arguments.  Each class has an instance, used by the
    witnesses, that shows its laws can hold.

    ** What the surroundings must give

    The theorems on whole programs assume that memory and the ring of the loop
    are there (the programs do not look at what [vf_io_init] answers), that
    descriptor 0 is open, and that the configuration's MTU, backlog and pools
    are within the bounds [main_start] and [client_main_start] name.  Those on
    the management socket assume that the texts of /proc are as
    [stat_documented] says.  Those on tokens compare with a map as long as no
    login draws a token that is in use.  The editor's are for characters
    without joiners and regional indicators.

    ** Not modelled

    Vendored code the program never calls: the multi-line and mask modes and
    the multiplexing calls of linenoise.c (its terminal settings, too, are
    only a success or a failure), the macros of uthash.h the program does not
    use (sorting, selection, replacement, Bloom filters, other hash
    functions), and BLAKE2, Argon2, X25519, EdDSA and Elligator of
    monocypher.c.  logo.h and zmalloc.c are output and an allocator
    wrapper.  The banners, the texts of usage and version and the debug printer of protocol.c
    are output.  The client's
    signal handler also submits an empty request to wake the ring; the model's
    wait ends on the signal anyway.  The quotient of two doubles in STATUS is
    an argument of the model, and what it prints is the text of that
    argument.  The heap of Sys counts the blocks of sockets and of the
    management code; sessions and users have heaps of their own, and the
    strings of the configuration are only listed when they are freed.  The
    descriptors of the management thread are its own, not [main]'s. *)
From Stdlib Require Export ZArith Lia.
From stdpp Require Export base tactics numbers list gmap strings option.

#[global] Open Scope Z_scope.
#[global] Set Default Goal Selector "!".

(** * Machine words

    An unsigned [w]-bit C integer is a [Z] in [0, 2^w); [wrap w] is the
    conversion the C abstract machine applies to an arithmetic result. *)

Definition wrap (w x : Z) : Z := x mod 2 ^ w.

Declare Scope word_scope.
Delimit Scope word_scope with word.
Notation "'u8' x" := (wrap 8 x) (at level 9, x at level 9) : word_scope.
Notation "'u16' x" := (wrap 16 x) (at level 9, x at level 9) : word_scope.
Notation "'u32' x" := (wrap 32 x) (at level 9, x at level 9) : word_scope.
Notation "'u64' x" := (wrap 64 x) (at level 9, x at level 9) : word_scope.
#[global] Open Scope word_scope.

Definition word_ok (w x : Z) : Prop := 0 <= x < 2 ^ w.

(** Conversion to a signed 32-bit [int] (gcc: modulo 2^32). *)
Definition to_int32 (x : Z) : Z := (x + 2 ^ 31) mod 2 ^ 32 - 2 ^ 31.

(** Bitwise complement at width [w], and left shift with the bits that leave
    the word dropped. *)
Definition wnot (w x : Z) : Z := Z.lxor x (2 ^ w - 1).
Definition wshl (w x n : Z) : Z := wrap w (Z.shiftl x n).

Lemma wrap_range w x : 0 <= w -> 0 <= wrap w x < 2 ^ w.
Proof. intros Hw. apply Z.mod_pos_bound, Z.pow_pos_nonneg; lia. Qed.

Lemma wrap_ok w x : 0 <= w -> word_ok w (wrap w x).
Proof. apply wrap_range. Qed.

Lemma wrap_small w x : 0 <= x < 2 ^ w -> wrap w x = x.
Proof. apply Z.mod_small. Qed.

Lemma to_int32_small x : - 2 ^ 31 <= x < 2 ^ 31 -> to_int32 x = x.
Proof. intros Hx. unfold to_int32. rewrite Z.mod_small by lia. lia. Qed.

Lemma wrap_wrap w x : wrap w (wrap w x) = wrap w x.
Proof. apply Zmod_mod. Qed.

Lemma wrap_add_l w x y : wrap w (wrap w x + y) = wrap w (x + y).
Proof. apply Zplus_mod_idemp_l. Qed.

Lemma wrap_add_r w x y : wrap w (x + wrap w y) = wrap w (x + y).
Proof. apply Zplus_mod_idemp_r. Qed.

Lemma wrap_testbit w x i :
  0 <= w -> Z.testbit (wrap w x) i = (i <? w) && Z.testbit x i.
Proof.
  intros Hw. unfold wrap.
  destruct (Z.ltb_spec i w).
  - destruct (decide (0 <= i)).
    + rewrite Z.mod_pow2_bits_low by lia. done.
    + rewrite !Z.testbit_neg_r by lia. done.
  - rewrite Z.mod_pow2_bits_high by lia. done.
Qed.

(** A value is in range iff it has no bit at or above the width. *)
Lemma word_ok_testbit w x :
  0 <= w -> word_ok w x <-> 0 <= x /\ forall i, w <= i -> Z.testbit x i = false.
Proof.
  intros Hw. split.
  - intros [H0 H1]. split; [done|]. intros i Hi.
    rewrite <- (Z.mod_small x (2 ^ w)) by lia. apply Z.mod_pow2_bits_high; lia.
  - intros [H0 Hb]. assert (x = wrap w x) as ->; [|apply wrap_ok; lia].
    apply Z.bits_inj'. intros i Hi. rewrite wrap_testbit by lia.
    destruct (Z.ltb_spec i w); [done|]. rewrite Hb by lia. done.
Qed.

Section bitops.
Context (w : Z) (Hw : 0 <= w).

Lemma lxor_ok x y : word_ok w x -> word_ok w y -> word_ok w (Z.lxor x y).
Proof.
    rewrite !word_ok_testbit by done. intros [Hx Bx] [Hy By]. split.
    - apply Z.lxor_nonneg. tauto.
    - intros i Hi. rewrite Z.lxor_spec, Bx, By by done. done.
Qed.

Lemma lor_ok x y : word_ok w x -> word_ok w y -> word_ok w (Z.lor x y).
Proof.
    rewrite !word_ok_testbit by done. intros [Hx Bx] [Hy By]. split.
    - apply Z.lor_nonneg. tauto.
    - intros i Hi. rewrite Z.lor_spec, Bx, By by done. done.
Qed.

Lemma land_ok_l x y : word_ok w x -> word_ok w (Z.land x y).
Proof.
    rewrite !word_ok_testbit by done. intros [Hx Bx]. split.
    - apply Z.land_nonneg. tauto.
    - intros i Hi. rewrite Z.land_spec, Bx by done. done.
Qed.

Lemma shiftr_ok x n : 0 <= n -> word_ok w x -> word_ok w (Z.shiftr x n).
Proof.
    rewrite !word_ok_testbit by done. intros Hn [Hx Bx]. split.
    - by apply Z.shiftr_nonneg.
    - intros i Hi. rewrite Z.shiftr_spec, Bx by lia. done.
Qed.
End bitops.

Lemma lxor_cancel a b : Z.lxor (Z.lxor a b) b = a.
Proof. by rewrite Z.lxor_assoc, Z.lxor_nilpotent, Z.lxor_0_r. Qed.

(** * Bytes and little-endian images *)

Definition byte_ok (b : Z) : Prop := 0 <= b < 256.
Definition bytes_ok (l : list Z) : Prop := Forall byte_ok l.

#[export] Instance byte_ok_dec b : Decision (byte_ok b).
Proof. unfold byte_ok. apply _. Defined.
#[export] Instance bytes_ok_dec l : Decision (bytes_ok l).
Proof. unfold bytes_ok. apply _. Defined.
#[export] Instance word_ok_dec w x : Decision (word_ok w x).
Proof. unfold word_ok. apply _. Defined.

(** [b[i]] in a context where the index was checked. *)
Definition byte_at (i : nat) (buf : list Z) : Z := nth i buf 0.

Fixpoint le_bytes (n : nat) (x : Z) : list Z :=
  match n with
  | O => []
  | S n' => x mod 256 :: le_bytes n' (x / 256)
  end.

Fixpoint le_val (l : list Z) : Z :=
  match l with
  | [] => 0
  | b :: l' => b + 256 * le_val l'
  end.

Lemma length_le_bytes n x : length (le_bytes n x) = n.
Proof. revert x. induction n; intros x; simpl; auto. Qed.

Lemma le_bytes_ok n x : bytes_ok (le_bytes n x).
Proof.
  revert x. induction n; intros x; simpl; constructor; [|apply IHn].
  apply Z.mod_pos_bound. lia.
Qed.

Lemma le_val_bytes n x :
  0 <= x < 2 ^ (8 * Z.of_nat n) -> le_val (le_bytes n x) = x.
Proof.
  revert x. induction n as [|n IH]; intros x Hx; simpl.
  - change (2 ^ (8 * Z.of_nat 0)) with 1 in Hx. lia.
  - rewrite IH.
    + pose proof (Z.div_mod x 256). lia.
    + replace (8 * Z.of_nat (S n)) with (8 + 8 * Z.of_nat n) in Hx by lia.
      rewrite Z.pow_add_r in Hx by lia. change (2 ^ 8) with 256 in Hx.
      split; [apply Z.div_pos; lia|apply Z.div_lt_upper_bound; lia].
Qed.

Lemma le_val_range l : bytes_ok l -> 0 <= le_val l < 2 ^ (8 * Z.of_nat (length l)).
Proof.
  induction 1 as [|b l Hb Hl IH]; simpl.
  - change (2 ^ (8 * Z.of_nat 0)) with 1. lia.
  - replace (8 * Z.of_nat (S (length l))) with (8 + 8 * Z.of_nat (length l)) by lia.
    rewrite Z.pow_add_r by lia. change (2 ^ 8) with 256. unfold byte_ok in Hb. lia.
Qed.

Lemma le_bytes_val l : bytes_ok l -> le_bytes (length l) (le_val l) = l.
Proof.
  induction 1 as [|b l Hb Hl IH]; [done|]. cbn [length le_bytes le_val].
  unfold byte_ok in Hb.
  replace (b + 256 * le_val l) with (b + le_val l * 256) by lia.
  rewrite Z.mod_add, Z.div_add by lia.
  rewrite Z.mod_small, Z.div_small, Z.add_0_l by lia. by rewrite IH.
Qed.

Lemma le_val_inj l1 l2 :
  bytes_ok l1 -> bytes_ok l2 -> length l1 = length l2 ->
  le_val l1 = le_val l2 -> l1 = l2.
Proof.
  intros H1 H2 Hlen Hv.
  apply le_bytes_val in H1, H2. by rewrite <- H1, <- H2, Hlen, Hv.
Qed.

(** Byte-order conversions of a little-endian host (the source's
    [__BYTE_ORDER == __LITTLE_ENDIAN] branch, and x86-64's [htons]/[htonl]):
    the byte image reversed. *)
Definition bswap (n : nat) (x : Z) : Z := le_val (reverse (le_bytes n x)).
Definition htons (x : Z) : Z := bswap 2 x.
Definition ntohs (x : Z) : Z := bswap 2 x.
Definition htonl (x : Z) : Z := bswap 4 x.
Definition ntohl (x : Z) : Z := bswap 4 x.
Definition htonll (x : Z) : Z := bswap 8 x.
Definition ntohll (x : Z) : Z := bswap 8 x.

Lemma bytes_ok_take n l : bytes_ok l -> bytes_ok (take n l).
Proof. apply Forall_take. Qed.
Lemma bytes_ok_drop n l : bytes_ok l -> bytes_ok (drop n l).
Proof. apply Forall_drop. Qed.
Lemma bytes_ok_app l1 l2 : bytes_ok l1 -> bytes_ok l2 -> bytes_ok (l1 ++ l2).
Proof. apply Forall_app_2. Qed.
Lemma bytes_ok_replicate n b : byte_ok b -> bytes_ok (replicate n b).
Proof. apply Forall_replicate. Qed.
Lemma byte_at_ok i l : bytes_ok l -> byte_ok (byte_at i l).
Proof.
  intros H. unfold byte_at. destruct (decide (i < length l)%nat).
  - by apply (proj1 (Forall_nth _ _) H).
  - rewrite nth_overflow by lia. unfold byte_ok. lia.
Qed.

Lemma bytes_ok_reverse l : bytes_ok l -> bytes_ok (reverse l).
Proof. apply Forall_reverse. Qed.

Lemma bswap_ok n x : word_ok (8 * Z.of_nat n) (bswap n x).
Proof.
  unfold bswap, word_ok.
  pose proof (le_val_range (reverse (le_bytes n x))) as H.
  rewrite length_reverse, length_le_bytes in H.
  apply H, bytes_ok_reverse, le_bytes_ok.
Qed.

Lemma bswap_involutive n x : word_ok (8 * Z.of_nat n) x -> bswap n (bswap n x) = x.
Proof.
  intros Hx. unfold bswap at 1.
  assert (le_bytes n (bswap n x) = reverse (le_bytes n x)) as ->.
  { unfold bswap.
    rewrite <- (length_le_bytes n x) at 1. rewrite <- length_reverse.
    apply le_bytes_val, bytes_ok_reverse, le_bytes_ok. }
  rewrite reverse_involutive. by apply le_val_bytes.
Qed.

Lemma bswap_inj n x y :
  word_ok (8 * Z.of_nat n) x -> word_ok (8 * Z.of_nat n) y ->
  bswap n x = bswap n y -> x = y.
Proof.
  intros Hx Hy E. rewrite <- (bswap_involutive n x), <- (bswap_involutive n y) by done.
  by rewrite E.
Qed.

(** * Buffers

    A C object of [n] bytes is a list of [n] bytes.  An access outside of it
    is undefined behaviour, [None] in the [option] monad; every function of
    the development that reads or writes raw memory lives in that monad, and
    [Some] results are exactly the executions without such an access. *)

Definition get_bytes (off n : nat) (buf : list Z) : option (list Z) :=
  if decide (off + n <= length buf)%nat then Some (take n (drop off buf)) else None.

Definition put_bytes (off : nat) (bs buf : list Z) : option (list Z) :=
  if decide (off + length bs <= length buf)%nat
  then Some (take off buf ++ bs ++ drop (off + length bs) buf) else None.

Definition get_le (off n : nat) (buf : list Z) : option Z :=
  le_val <$> get_bytes off n buf.
Definition put_le (off n : nat) (x : Z) (buf : list Z) : option (list Z) :=
  put_bytes off (le_bytes n x) buf.

Lemma get_bytes_Some off n buf :
  (off + n <= length buf)%nat -> get_bytes off n buf = Some (take n (drop off buf)).
Proof. intros H. unfold get_bytes. by rewrite decide_True. Qed.

Lemma get_bytes_None off n buf :
  (length buf < off + n)%nat -> get_bytes off n buf = None.
Proof. intros H. unfold get_bytes. rewrite decide_False by lia. done. Qed.

Lemma put_bytes_Some off bs buf :
  (off + length bs <= length buf)%nat ->
  put_bytes off bs buf = Some (take off buf ++ bs ++ drop (off + length bs) buf).
Proof. intros H. unfold put_bytes. by rewrite decide_True. Qed.

Lemma put_bytes_None off bs buf :
  (length buf < off + length bs)%nat -> put_bytes off bs buf = None.
Proof. intros H. unfold put_bytes. rewrite decide_False by lia. done. Qed.

Lemma put_bytes_is_Some off bs buf :
  (off + length bs <= length buf)%nat <-> is_Some (put_bytes off bs buf).
Proof.
  unfold put_bytes. case_decide; split; intros H0; try done.
Qed.

Lemma put_bytes_ex off bs buf :
  (off + length bs <= length buf)%nat -> exists b, put_bytes off bs buf = Some b.
Proof. intros H. by apply put_bytes_is_Some. Qed.

Lemma put_bytes_length off bs buf buf' :
  put_bytes off bs buf = Some buf' -> length buf' = length buf.
Proof.
  unfold put_bytes. case_decide; [|done]. intros [= <-].
  rewrite !length_app, length_take, length_drop. lia.
Qed.

Lemma put_bytes_ok off bs buf buf' :
  put_bytes off bs buf = Some buf' -> bytes_ok bs -> bytes_ok buf -> bytes_ok buf'.
Proof.
  unfold put_bytes. case_decide; [|done]. intros [= <-] Hb Hbuf.
  auto using bytes_ok_app, bytes_ok_take, bytes_ok_drop.
Qed.

Lemma get_bytes_length off n buf bs :
  get_bytes off n buf = Some bs -> length bs = n.
Proof.
  unfold get_bytes. case_decide; [|done]. intros [= <-].
  rewrite length_take, length_drop. lia.
Qed.

Lemma get_bytes_ok off n buf bs :
  get_bytes off n buf = Some bs -> bytes_ok buf -> bytes_ok bs.
Proof.
  unfold get_bytes. case_decide; [|done]. intros [= <-] Hb.
  by apply bytes_ok_take, bytes_ok_drop.
Qed.

(** Reading back what was written, and what a write leaves alone. *)
Lemma get_put_same off bs buf buf' :
  put_bytes off bs buf = Some buf' -> get_bytes off (length bs) buf' = Some bs.
Proof.
  intros H. pose proof (put_bytes_length _ _ _ _ H) as Hl. revert H.
  unfold put_bytes, get_bytes. case_decide; [|done]. intros [= E].
  rewrite decide_True by lia. f_equal. rewrite <- E.
  rewrite drop_app_length' by (rewrite length_take; lia).
  by rewrite take_app_length.
Qed.

Lemma get_put_before off bs buf buf' o n :
  put_bytes off bs buf = Some buf' -> (o + n <= off)%nat ->
  get_bytes o n buf' = get_bytes o n buf.
Proof.
  intros H Hle. pose proof (put_bytes_length _ _ _ _ H) as Hl. revert H.
  unfold put_bytes, get_bytes. case_decide; [|done]. intros [= E].
  rewrite !decide_True by lia. f_equal. rewrite <- E.
  rewrite !take_drop_commute. f_equal.
  rewrite take_app_le by (rewrite length_take; lia).
  rewrite take_take. f_equal. lia.
Qed.

Lemma get_put_after off bs buf buf' o n :
  put_bytes off bs buf = Some buf' -> (off + length bs <= o)%nat ->
  get_bytes o n buf' = get_bytes o n buf.
Proof.
  intros H Hle. pose proof (put_bytes_length _ _ _ _ H) as Hl. revert H.
  unfold put_bytes, get_bytes. case_decide; [|done]. intros [= E].
  rewrite Hl. case_decide; [|done]. f_equal. rewrite <- E.
  rewrite app_assoc.
  rewrite drop_app_ge by (rewrite length_app, length_take; lia).
  rewrite drop_drop. f_equal. f_equal. rewrite length_app, length_take. lia.
Qed.

Lemma put_le_length off n x buf buf' :
  put_le off n x buf = Some buf' -> length buf' = length buf.
Proof. apply put_bytes_length. Qed.

Lemma put_le_ok off n x buf buf' :
  put_le off n x buf = Some buf' -> bytes_ok buf -> bytes_ok buf'.
Proof. intros H. apply (put_bytes_ok _ _ _ _ H), le_bytes_ok. Qed.

Lemma put_le_Some off n x buf :
  (off + n <= length buf)%nat -> exists buf', put_le off n x buf = Some buf'.
Proof.
  intros H. apply put_bytes_is_Some. by rewrite length_le_bytes.
Qed.

Lemma get_put_le_same off n x buf buf' :
  put_le off n x buf = Some buf' -> word_ok (8 * Z.of_nat n) x ->
  get_le off n buf' = Some x.
Proof.
  intros H Hx. apply get_put_same in H. rewrite length_le_bytes in H.
  unfold get_le. rewrite H. simpl. by rewrite le_val_bytes.
Qed.

Lemma get_put_le_before off m x buf buf' o n :
  put_le off m x buf = Some buf' -> (o + n <= off)%nat ->
  get_le o n buf' = get_le o n buf.
Proof. intros H Hle. unfold get_le. by erewrite get_put_before by eauto. Qed.

Lemma get_put_le_after off m x buf buf' o n :
  put_le off m x buf = Some buf' -> (off + m <= o)%nat ->
  get_le o n buf' = get_le o n buf.
Proof.
  intros H Hle. unfold get_le.
  erewrite get_put_after by (eauto; rewrite length_le_bytes; lia). done.
Qed.

Lemma get_le_Some off n buf :
  (off + n <= length buf)%nat -> exists x, get_le off n buf = Some x.
Proof.
  intros H. unfold get_le. rewrite get_bytes_Some by done. eauto.
Qed.

Lemma get_le_ok off n buf x :
  get_le off n buf = Some x -> bytes_ok buf -> word_ok (8 * Z.of_nat n) x.
Proof.
  unfold get_le. intros H Hb. apply fmap_Some in H as (bs & Hg & ->).
  pose proof (get_bytes_length _ _ _ _ Hg) as <-.
  apply le_val_range. by eapply get_bytes_ok.
Qed.

(** Two writes of the same image leave the second one. *)
Lemma put_bytes_id off n bs buf :
  get_bytes off n buf = Some bs -> put_bytes off bs buf = Some buf.
Proof.
  intros H. pose proof (get_bytes_length _ _ _ _ H) as Hl.
  unfold get_bytes in H. case_decide; [|done]. injection H as Hbs.
  rewrite put_bytes_Some by lia. f_equal. rewrite Hl, <- Hbs.
  rewrite <- drop_drop, take_drop. by rewrite take_drop.
Qed.

Lemma put_put_same off bs1 bs2 buf buf1 :
  put_bytes off bs1 buf = Some buf1 -> length bs1 = length bs2 ->
  put_bytes off bs2 buf1 = put_bytes off bs2 buf.
Proof.
  intros H Hlen. pose proof (put_bytes_length _ _ _ _ H) as Hl.
  unfold put_bytes in *. case_decide; [|done]. injection H as E.
  rewrite !decide_True by lia. f_equal. rewrite <- E.
  rewrite take_app_le by (rewrite length_take; lia).
  rewrite take_take, Nat.min_id. f_equal. f_equal.
  rewrite app_assoc, drop_app_ge by (rewrite length_app, length_take; lia).
  rewrite length_app, length_take.
  replace (off + length bs2 - (off `min` length buf + length bs1))%nat with 0%nat by lia.
  rewrite drop_0. f_equal. lia.
Qed.

(** Consecutive writes are one write of the concatenation. *)
Lemma put_put_app dst bs1 bs2 buf buf1 :
  put_bytes dst bs1 buf = Some buf1 ->
  put_bytes (dst + length bs1) bs2 buf1 = put_bytes dst (bs1 ++ bs2) buf.
Proof.
  intros H. pose proof (put_bytes_length _ _ _ _ H) as Hl. revert H.
  unfold put_bytes. case_decide as Hd; [|done]. intros [= <-].
  rewrite Hl, length_app, Nat.add_assoc. case_decide; [|done].
  f_equal. rewrite (app_assoc (take dst buf) bs1 (drop _ buf)).
  rewrite take_app_le by (rewrite length_app, length_take; lia).
  rewrite (take_ge (_ ++ _)) by (rewrite length_app, length_take; lia).
  rewrite drop_app_ge by (rewrite length_app, length_take; lia).
  rewrite drop_drop, <- !app_assoc. do 4 f_equal. rewrite length_app, length_take. lia.
Qed.

Lemma put_put_front dst bs1 bs2 buf buf1 :
  put_bytes (dst + length bs1) bs2 buf = Some buf1 ->
  put_bytes dst bs1 buf1 = put_bytes dst (bs1 ++ bs2) buf.
Proof.
  intros H. pose proof (put_bytes_length _ _ _ _ H) as Hl. revert H.
  unfold put_bytes. case_decide as Hd; [|done]. intros [= <-].
  rewrite Hl, length_app, Nat.add_assoc. rewrite !decide_True by lia.
  f_equal. rewrite take_app_le by (rewrite length_take; lia).
  rewrite take_take, Nat.min_l by lia. f_equal. rewrite <- app_assoc. f_equal.
  rewrite drop_app_ge by (rewrite length_take; lia).
  rewrite length_take, Nat.min_l by lia. by rewrite Nat.sub_diag, drop_0.
Qed.

(** Reading inside of what was written. *)
Lemma get_put_sub off i n bs buf buf' :
  put_bytes off bs buf = Some buf' -> (i + n <= length bs)%nat ->
  get_bytes (off + i) n buf' = Some (take n (drop i bs)).
Proof.
  intros H Hn. pose proof (put_bytes_length _ _ _ _ H) as Hl. revert H.
  unfold put_bytes. case_decide as Hd; [|done]. intros [= <-].
  rewrite get_bytes_Some by lia. f_equal.
  rewrite drop_app_ge by (rewrite length_take; lia).
  rewrite length_take, Nat.min_l by lia. replace (off + i - off)%nat with i by lia.
  rewrite drop_app_le by lia. rewrite take_app_le; [done|]. rewrite length_drop. lia.
Qed.

Lemma get_bytes_bound off n buf bs : get_bytes off n buf = Some bs -> (off + n <= length buf)%nat.
Proof. unfold get_bytes. by case_decide. Qed.

Lemma get_bytes_sub off i n m buf bs :
  get_bytes off m buf = Some bs -> (i + n <= m)%nat ->
  get_bytes (off + i) n buf = Some (take n (drop i bs)).
Proof.
  intros H Hn. pose proof (get_bytes_bound _ _ _ _ H).
  rewrite get_bytes_Some in H by done. injection H as <-.
  rewrite get_bytes_Some by lia. f_equal.
  rewrite skipn_firstn_comm, drop_drop, take_take. f_equal. lia.
Qed.

(** *** Fields: the same facts on little-endian images *)

Lemma get_le_bytes off n buf x :
  get_le off n buf = Some x -> bytes_ok buf -> get_bytes off n buf = Some (le_bytes n x).
Proof.
  unfold get_le. intros H Hb. apply fmap_Some in H as (bs & Hg & ->). rewrite Hg.
  rewrite <- (get_bytes_length _ _ _ _ Hg). f_equal. symmetry.
  eapply le_bytes_val, get_bytes_ok; eauto.
Qed.

Lemma put_le_id off n buf x :
  get_le off n buf = Some x -> bytes_ok buf -> put_le off n x buf = Some buf.
Proof.
  intros H Hb. apply get_le_bytes in H; [|done]. by eapply put_bytes_id.
Qed.

Lemma put_put_le_same off n x y buf buf1 :
  put_le off n x buf = Some buf1 -> put_le off n y buf1 = put_le off n y buf.
Proof. intros H. eapply put_put_same; [exact H|by rewrite !length_le_bytes]. Qed.

Lemma get_bytes_put_le_before off m x buf buf' o n :
  put_le off m x buf = Some buf' -> (o + n <= off)%nat -> get_bytes o n buf' = get_bytes o n buf.
Proof. intros H Hle. eapply get_put_before; eauto. Qed.

Lemma get_bytes_put_le_after off m x buf buf' o n :
  put_le off m x buf = Some buf' -> (off + m <= o)%nat -> get_bytes o n buf' = get_bytes o n buf.
Proof. intros H Hle. eapply get_put_after; [eauto|by rewrite length_le_bytes]. Qed.

(** ** Buffers that agree on their first [n] bytes: a packet as sent and as
    received, in buffers that differ behind it. *)
Definition agree (n : nat) (b1 b2 : list Z) : Prop :=
  (n <= length b1)%nat /\ (n <= length b2)%nat /\ take n b1 = take n b2.

Lemma agree_sym n b1 b2 : agree n b1 b2 -> agree n b2 b1.
Proof. intros (? & ? & ?). by split_and!. Qed.

Lemma agree_get n b1 b2 o k :
  agree n b1 b2 -> (o + k <= n)%nat -> get_bytes o k b1 = get_bytes o k b2.
Proof.
  intros (L1 & L2 & E) Hn. rewrite !get_bytes_Some by lia. f_equal.
  rewrite !take_drop_commute. f_equal.
  apply (f_equal (take (o + k))) in E. rewrite !take_take, Nat.min_l in E by lia.
  by replace (o + k)%nat with (o + k)%nat in E by lia.
Qed.

Lemma agree_get_le n b1 b2 o k :
  agree n b1 b2 -> (o + k <= n)%nat -> get_le o k b1 = get_le o k b2.
Proof. intros. unfold get_le. by erewrite agree_get by eauto. Qed.

Lemma agree_put n b1 b2 o bs b1' :
  agree n b1 b2 -> (o + length bs <= n)%nat -> put_bytes o bs b1 = Some b1' ->
  exists b2', put_bytes o bs b2 = Some b2' /\ agree n b1' b2'.
Proof.
  intros (L1 & L2 & E) Hn H. destruct (put_bytes_ex o bs b2) as [b2' H2]; [lia|].
  exists b2'. split; [done|].
  pose proof (put_bytes_length _ _ _ _ H). pose proof (put_bytes_length _ _ _ _ H2).
  split_and!; [lia|lia|].
  rewrite put_bytes_Some in H by lia. rewrite put_bytes_Some in H2 by lia.
  injection H as <-. injection H2 as <-.
  rewrite !app_assoc.
  assert (forall b : list Z, (n <= length b)%nat ->
    take n ((take o b ++ bs) ++ drop (o + length bs) b) =
    take o (take n b) ++ bs ++ drop (o + length bs) (take n b)) as Hb.
  { intros b Lb. rewrite take_app, (take_ge (_ ++ _)) by (rewrite length_app, length_take; lia).
    rewrite <- app_assoc, take_take, Nat.min_l by lia. do 2 f_equal.
    rewrite length_app, length_take, skipn_firstn_comm. f_equal. lia. }
  by rewrite !Hb, E by lia.
Qed.

Lemma agree_put_le n b1 b2 o k x b1' :
  agree n b1 b2 -> (o + k <= n)%nat -> put_le o k x b1 = Some b1' ->
  exists b2', put_le o k x b2 = Some b2' /\ agree n b1' b2'.
Proof. intros H Hn. apply agree_put; [done|by rewrite length_le_bytes]. Qed.

Create HintDb bytes.
Create Rewrite HintDb lens.
#[export] Hint Resolve le_bytes_ok bytes_ok_reverse bytes_ok_take
  bytes_ok_drop bytes_ok_app byte_at_ok bswap_ok wrap_ok : bytes.
#[export] Hint Rewrite @length_le_bytes @length_app @length_take @length_drop
  @length_reverse @length_replicate : lens.

(** * The development's tactics *)

(** Goals on lengths and bounds of concatenated buffers. *)
Ltac len := autorewrite with lens in *; first [lia | cbn [length app] in *; lia | simpl in *; try lia].

(** Split a conjunction, without unfolding what it is made of. *)
Ltac conjs := repeat match goal with |- _ /\ _ => split end.

(** Decide a closed proposition by evaluation. *)
Ltac closed_term P := match P with context [?x] => is_var x; fail 1 | _ => idtac end.
Ltac by_compute :=
  match goal with |- ?P => closed_term P; apply (@bool_decide_unpack P _); vm_compute; exact I end.

(** Split every conjunction and boolean test in sight. *)
Ltac bool_cases :=
  repeat match goal with
    | H : (_ && _)%bool = true |- _ => apply andb_true_iff in H as [? ?]
    | H : (_ || _)%bool = false |- _ => apply orb_false_iff in H as [? ?]
    | H : (_ <=? _) = true |- _ => apply Z.leb_le in H
    | H : (_ <=? _) = false |- _ => apply Z.leb_gt in H
    | H : (_ <? _) = true |- _ => apply Z.ltb_lt in H
    | H : (_ <? _) = false |- _ => apply Z.ltb_ge in H
    | H : (_ =? _) = true |- _ => apply Z.eqb_eq in H
    | H : (_ =? _) = false |- _ => apply Z.eqb_neq in H
    end.

(** Push reads of a field through writes of other fields, at constant
    offsets. *)
Ltac frame :=
  repeat match goal with
    | H : put_le ?o ?n ?x ?b = Some ?b' |- context [get_le ?o' ?n' ?b'] =>
        first
          [ rewrite (get_put_le_before o n x b b' o' n' H) by (cbv; lia)
          | rewrite (get_put_le_after o n x b b' o' n' H) by (cbv; lia)
          | rewrite (get_put_le_same o n x b b' H) ]
    end.

(** Reads of raw fields through writes, and adjacent fields together. *)
Lemma get_bytes_app o n m buf x y :
  get_bytes o n buf = Some x -> get_bytes (o + n) m buf = Some y -> get_bytes o (n + m) buf = Some (x ++ y).
Proof.
  intros Hx Hy. pose proof (get_bytes_bound _ _ _ _ Hx). pose proof (get_bytes_bound _ _ _ _ Hy).
  rewrite get_bytes_Some in Hx, Hy by lia. apply (inj Some) in Hx, Hy. subst.
  rewrite get_bytes_Some by lia. by rewrite Nat.add_comm, <- drop_drop, take_take_drop, Nat.add_comm.
Qed.

Lemma get_put_le_bytes off n x buf buf' :
  put_le off n x buf = Some buf' -> get_bytes off n buf' = Some (le_bytes n x).
Proof. intros H. apply get_put_same in H. by rewrite length_le_bytes in H. Qed.

Ltac frame_bytes :=
  repeat match goal with
    | H : put_le ?o ?n ?x ?b = Some ?b' |- context [get_bytes ?o' ?n' ?b'] =>
        first
          [ rewrite (get_bytes_put_le_before o n x b b' o' n' H) by (cbv; lia)
          | rewrite (get_bytes_put_le_after o n x b b' o' n' H) by (cbv; lia)
          | exact (get_put_le_bytes o n x b b' H) ]
    | H : put_bytes ?o ?bs ?b = Some ?b' |- context [get_bytes ?o' ?n' ?b'] =>
        first
          [ rewrite (get_put_before o bs b b' o' n' H) by (cbv; lia)
          | rewrite (get_put_after o bs b b' o' n' H) by (rewrite ?length_le_bytes; cbv -[length] in *; lia) ]
    end.

(** Walk through a computation in the [option] monad that succeeded. *)
Ltac mon_inv H :=
  repeat match type of H with
    | mbind _ _ = Some _ => apply bind_Some in H as (? & ? & H)
    | Some _ = Some _ => simplify_eq H
    end.

(** Open [bytes_ok] of an explicit list into one bound per byte. *)
Ltac bytes_inv :=
  unfold bytes_ok in *;
  repeat match goal with
    | H : Forall byte_ok (_ :: _) |- _ =>
        let H' := fresh in apply Forall_cons_iff in H as [H' H]
    end;
  unfold byte_ok in *.
