(* ===== verification/Chacha.v ===== *)
(** Monocypher's utilities and ChaCha20 (src/src/monocypher.c, lines 80-298):
    word loads and stores, constant-time comparison, the block function and
    the djb, IETF and X stream ciphers, with the keystream specification they
    implement. *)
From S2P Require Import Prelude.

(** * Utilities *)

Definition gap (x pow_2 : Z) : Z :=
  Z.land (wrap 64 (wnot 64 x + 1)) (pow_2 - 1).

Definition load32_le (s : list Z) : Z :=
  Z.lor (Z.lor (Z.lor (byte_at 0 s) (Z.shiftl (byte_at 1 s) 8))
               (Z.shiftl (byte_at 2 s) 16))
        (Z.shiftl (byte_at 3 s) 24).

Definition load64_le (s : list Z) : Z :=
  Z.lor (load32_le s) (Z.shiftl (load32_le (drop 4 s)) 32).

Definition store32_le (x : Z) : list Z :=
  [u8 x; u8 (Z.shiftr x 8); u8 (Z.shiftr x 16); u8 (Z.shiftr x 24)].

Definition store64_le (x : Z) : list Z :=
  store32_le (u32 x) ++ store32_le (u32 (Z.shiftr x 32)).

Fixpoint load32_le_buf (size : nat) (src : list Z) : list Z :=
  match size with
  | O => []
  | S n => load32_le src :: load32_le_buf n (drop 4 src)
  end.

Fixpoint store32_le_buf (src : list Z) : list Z :=
  match src with
  | [] => []
  | x :: l => store32_le x ++ store32_le_buf l
  end.

Definition rotl32 (x n : Z) : Z :=
  Z.lxor (wshl 32 x n) (Z.shiftr x (32 - n)).

Definition neq0 (diff : Z) : Z :=
  let half := Z.lor (Z.shiftr diff 32) (u32 diff) in
  let eq0 := Z.land 1 (Z.shiftr (u64 (half - 1)) 32) in
  eq0 - 1.

Definition x16 (a b : list Z) : Z :=
  Z.lor (Z.lxor (load64_le a) (load64_le b))
        (Z.lxor (load64_le (drop 8 a)) (load64_le (drop 8 b))).

Definition crypto_verify16 (a b : list Z) : Z := neq0 (x16 a b).

(** [crypto_wipe] on a buffer of [size] bytes leaves zeros. *)
Definition crypto_wipe (secret : list Z) (size : nat) : list Z :=
  replicate size 0 ++ drop size secret.

(** ** Little-endian loads and stores are [le_val] and [le_bytes] *)

Lemma shiftl_lor_add a b n : 0 <= n -> 0 <= a < 2 ^ n -> Z.lor a (Z.shiftl b n) = a + 2 ^ n * b.
Proof.
  intros Hn Ha. assert (Z.land a (Z.shiftl b n) = 0) as Hz.
  { apply Z.bits_inj'. intros i Hi. rewrite Z.land_spec, Z.bits_0, Z.shiftl_spec by lia.
    apply (word_ok_testbit n) in Ha as [_ Hb]; [|lia].
    destruct (decide (n <= i)); [by rewrite Hb|].
    rewrite (Z.testbit_neg_r b) by lia. apply andb_false_r. }
  rewrite <- Z.lxor_lor, <- Z.add_nocarry_lxor by done.
  rewrite Z.shiftl_mul_pow2 by lia. ring.
Qed.

Lemma load32_le_val b0 b1 b2 b3 l :
  bytes_ok [b0; b1; b2; b3] -> load32_le (b0 :: b1 :: b2 :: b3 :: l) = le_val [b0; b1; b2; b3].
Proof.
  intros H. unfold load32_le. cbn [byte_at nth].
  bytes_inv.
  rewrite (shiftl_lor_add b0 b1 8) by lia.
  rewrite (shiftl_lor_add _ b2 16) by lia.
  rewrite (shiftl_lor_add _ b3 24) by lia.
  cbn [le_val]. lia.
Qed.

Lemma take4_inv (s : list Z) :
  (4 <= length s)%nat -> exists a b c d l, s = a :: b :: c :: d :: l.
Proof. destruct s as [|a [|b [|c [|d l]]]]; simpl; try lia. eauto 10. Qed.

Lemma load32_le_spec s :
  bytes_ok s -> (4 <= length s)%nat -> load32_le s = le_val (take 4 s).
Proof.
  intros Hs Hl. destruct (take4_inv s Hl) as (a & b & c & d & l & ->).
  rewrite load32_le_val; [done|]. by apply (bytes_ok_take 4) in Hs.
Qed.

Lemma load64_le_spec s :
  bytes_ok s -> (8 <= length s)%nat -> load64_le s = le_val (take 8 s).
Proof.
  intros Hs Hl. unfold load64_le. rewrite !load32_le_spec by (auto with bytes; len).
  rewrite shiftl_lor_add; [|lia|].
  - destruct s as [|a [|b [|c [|d [|e [|f [|g [|h l]]]]]]]]; simpl in Hl; try lia.
    cbn [take drop le_val]. lia.
  - pose proof (le_val_range (take 4 s) (bytes_ok_take _ _ Hs)) as Hr.
    rewrite length_take, Nat.min_l in Hr by lia. exact Hr.
Qed.

Lemma store32_le_spec x : store32_le x = le_bytes 4 x.
Proof.
  unfold store32_le, wrap. rewrite !Z.shiftr_div_pow2 by lia. cbn [le_bytes].
  rewrite !Z.div_div by lia. done.
Qed.

Lemma store32_le_length x : length (store32_le x) = 4%nat.
Proof. done. Qed.

Lemma le_bytes_app m n x :
  le_bytes (m + n) x = le_bytes m x ++ le_bytes n (x / 2 ^ (8 * Z.of_nat m)).
Proof.
  revert x. induction m as [|m IH]; intros x; simpl.
  - by rewrite Z.div_1_r.
  - f_equal. rewrite IH. f_equal. rewrite Z.div_div by lia. do 2 f_equal.
    replace (8 * Z.of_nat (S m)) with (8 + 8 * Z.of_nat m) by lia.
    rewrite Z.pow_add_r by lia. done.
Qed.

Lemma le_bytes_wrap n w x : 8 * Z.of_nat n <= w -> le_bytes n (wrap w x) = le_bytes n x.
Proof.
  revert w x. induction n as [|n IH]; intros w x Hw; [done|]. cbn [le_bytes].
  assert (2 ^ w = 256 * 2 ^ (w - 8)) as Hp.
  { replace w with (8 + (w - 8)) at 1 by lia. rewrite Z.pow_add_r by lia. done. }
  f_equal.
  - unfold wrap. rewrite Hp. assert (0 < 2 ^ (w - 8)) by (apply Z.pow_pos_nonneg; lia).
    rewrite Z.mod_mod_divide; [done|].
    exists (2 ^ (w - 8)). lia.
  - assert (wrap w x / 256 = wrap (w - 8) (x / 256)) as ->; [|apply IH; lia].
    unfold wrap. rewrite Hp. assert (0 < 2 ^ (w - 8)) by (apply Z.pow_pos_nonneg; lia).
    rewrite Z.rem_mul_r by lia.
    replace (x mod 256 + 256 * ((x / 256) mod 2 ^ (w - 8)))
      with (x mod 256 + (x / 256) mod 2 ^ (w - 8) * 256) by lia.
    rewrite Z.div_add by lia. rewrite (Z.div_small (x mod 256)) by (apply Z.mod_pos_bound; lia).
    lia.
Qed.

Lemma store64_le_spec x : store64_le x = le_bytes 8 x.
Proof.
  unfold store64_le. rewrite !store32_le_spec, !le_bytes_wrap by lia.
  rewrite (le_bytes_app 4 4). rewrite Z.shiftr_div_pow2 by lia. done.
Qed.

(** ** Constant-time comparison *)

Lemma load64_le_ok s : bytes_ok s -> (8 <= length s)%nat -> word_ok 64 (load64_le s).
Proof.
  intros Hs Hl. rewrite load64_le_spec by done.
  pose proof (le_val_range (take 8 s) (bytes_ok_take _ _ Hs)) as Hr.
  rewrite length_take, Nat.min_l in Hr by lia. exact Hr.
Qed.

Lemma neq0_spec d : word_ok 64 d -> neq0 d = if decide (d = 0) then 0 else -1.
Proof.
  intros Hd. unfold neq0. case_decide as Hz; [by subst|].
  set (half := Z.lor _ _).
  assert (0 < half < 2 ^ 32) as Hh.
  { assert (word_ok 32 (Z.shiftr d 32)) as H1.
    { unfold word_ok in *. rewrite Z.shiftr_div_pow2 by lia.
      split; [apply Z.div_pos; lia|apply Z.div_lt_upper_bound; lia]. }
    assert (word_ok 32 (u32 d)) as H2 by (apply wrap_ok; lia).
    pose proof (lor_ok 32 ltac:(lia) _ _ H1 H2) as [H3 H4]. fold half in H3, H4.
    enough (half <> 0) by lia. intros E. apply Z.lor_eq_0_iff in E as [E1 E2].
    unfold wrap in E2. rewrite Z.shiftr_div_pow2 in E1 by lia.
    pose proof (Z.div_mod d (2 ^ 32)). lia. }
  rewrite (wrap_small 64) by lia. rewrite Z.shiftr_div_pow2 by lia.
  rewrite Z.div_small by lia. done.
Qed.

Lemma lxor_eq_0 a b : Z.lxor a b = 0 <-> a = b.
Proof. split; [apply Z.lxor_eq|intros ->; apply Z.lxor_nilpotent]. Qed.

Lemma le_val_take_eq n a b :
  bytes_ok a -> bytes_ok b -> (n <= length a)%nat -> (n <= length b)%nat ->
  le_val (take n a) = le_val (take n b) <-> take n a = take n b.
Proof.
  intros Ha Hb La Lb. split; [|by intros ->].
  apply le_val_inj; auto with bytes. len.
Qed.

(** [crypto_verify16] is 0 exactly on equal 16-byte tags, -1 otherwise. *)
Lemma crypto_verify16_spec a b :
  bytes_ok a -> bytes_ok b -> length a = 16%nat -> length b = 16%nat ->
  crypto_verify16 a b = if decide (a = b) then 0 else -1.
Proof.
  intros Ha Hb La Lb. unfold crypto_verify16, x16.
  rewrite neq0_spec.
  - apply decide_ext. rewrite Z.lor_eq_0_iff, !lxor_eq_0.
    rewrite !load64_le_spec by (auto with bytes; len).
    rewrite !le_val_take_eq by (auto with bytes; len).
    split; [|by intros ->]. intros [E1 E2].
    rewrite <- (take_drop 8 a), <- (take_drop 8 b), E1. f_equal.
    rewrite !take_ge in E2 by len. done.
  - apply lor_ok; [lia| |]; apply lxor_ok; try lia;
      apply load64_le_ok; auto with bytes; len.
Qed.

(** * ChaCha20 *)

Definition add32 (x y : Z) : Z := u32 (x + y).

Definition quarterround (a b c d : Z) : Z * Z * Z * Z :=
  let a := add32 a b in let d := rotl32 (Z.lxor d a) 16 in
  let c := add32 c d in let b := rotl32 (Z.lxor b c) 12 in
  let a := add32 a b in let d := rotl32 (Z.lxor d a) 8 in
  let c := add32 c d in let b := rotl32 (Z.lxor b c) 7 in
  (a, b, c, d).

(** One iteration of the loop of [chacha20_rounds]: a column and a diagonal
    round. *)
Definition chacha20_double_round (t : list Z) : list Z :=
  match t with
  | [t0; t1; t2; t3; t4; t5; t6; t7; t8; t9; t10; t11; t12; t13; t14; t15] =>
      let '(t0, t4, t8, t12) := quarterround t0 t4 t8 t12 in
      let '(t1, t5, t9, t13) := quarterround t1 t5 t9 t13 in
      let '(t2, t6, t10, t14) := quarterround t2 t6 t10 t14 in
      let '(t3, t7, t11, t15) := quarterround t3 t7 t11 t15 in
      let '(t0, t5, t10, t15) := quarterround t0 t5 t10 t15 in
      let '(t1, t6, t11, t12) := quarterround t1 t6 t11 t12 in
      let '(t2, t7, t8, t13) := quarterround t2 t7 t8 t13 in
      let '(t3, t4, t9, t14) := quarterround t3 t4 t9 t14 in
      [t0; t1; t2; t3; t4; t5; t6; t7; t8; t9; t10; t11; t12; t13; t14; t15]
  | _ => t
  end.

Definition chacha20_rounds (input : list Z) : list Z :=
  Nat.iter 10 chacha20_double_round input.

(** "expand 32-byte k" *)
Definition chacha20_constant : list Z :=
  [101; 120; 112; 97; 110; 100; 32; 51; 50; 45; 98; 121; 116; 101; 32; 107].

Definition crypto_chacha20_h (key inp : list Z) : list Z :=
  let block := load32_le_buf 4 chacha20_constant ++ load32_le_buf 8 key ++ load32_le_buf 4 inp in
  let block := chacha20_rounds block in
  store32_le_buf (take 4 block) ++ store32_le_buf (drop 12 block).

(** [input[12]++; if (input[12] == 0) input[13]++;] *)
Definition chacha20_next (input : list Z) : list Z :=
  let c := add32 (byte_at 12 input) 1 in
  let input := <[12%nat := c]> input in
  if c =? 0 then <[13%nat := add32 (byte_at 13 input) 1]> input else input.

(** The inner loop over the 16 words of a whole block; [plain] is the
    [plain_text] pointer, [None] for NULL. *)
Fixpoint chacha20_xor_words (pool input : list Z) (plain : option (list Z)) : list Z :=
  match pool, input with
  | x :: pool', y :: input' =>
      let p := add32 x y in
      match plain with
      | Some s => store32_le (Z.lxor p (load32_le s)) ++
                  chacha20_xor_words pool' input' (Some (drop 4 s))
      | None => store32_le p ++ chacha20_xor_words pool' input' None
      end
  | _, _ => []
  end.

(** The loop over whole blocks: the output bytes, and the [input] block and
    [plain_text] pointer it leaves. *)
Fixpoint chacha20_whole_blocks (nb_blocks : nat) (input : list Z) (plain : option (list Z))
    : list Z * list Z * option (list Z) :=
  match nb_blocks with
  | O => ([], input, plain)
  | S n =>
      let out := chacha20_xor_words (chacha20_rounds input) input plain in
      let '(rest, input', plain') :=
        chacha20_whole_blocks n (chacha20_next input) (drop 64 <$> plain) in
      (out ++ rest, input', plain')
  end.

Definition chacha20_block_bytes (input : list Z) : list Z :=
  store32_le_buf (zip_with add32 (chacha20_rounds input) input).

Definition chacha20_setup (key nonce : list Z) (ctr : Z) : list Z :=
  load32_le_buf 4 chacha20_constant ++ load32_le_buf 8 key ++
  [u32 ctr; u32 (Z.shiftr ctr 32)] ++ load32_le_buf 2 nonce.

Definition crypto_chacha20_djb (plain_text : option (list Z)) (text_size : Z)
    (key nonce : list Z) (ctr : Z) : list Z * Z :=
  let input := chacha20_setup key nonce ctr in
  let nb_blocks := Z.to_nat (Z.shiftr text_size 6) in
  let '(out, input, plain) := chacha20_whole_blocks nb_blocks input plain_text in
  let text_size := Z.to_nat (Z.land text_size 63) in
  let tail :=
    if decide (0 < text_size)%nat then
      let plain := default (replicate 128 0) plain in
      take text_size (zip_with Z.lxor (chacha20_block_bytes input) plain)
    else [] in
  (out ++ tail,
   u64 (byte_at 12 input + u64 (Z.shiftl (byte_at 13 input) 32) +
        (if decide (0 < text_size)%nat then 1 else 0))).

Definition crypto_chacha20_ietf (plain_text : option (list Z)) (text_size : Z)
    (key nonce : list Z) (ctr : Z) : list Z * Z :=
  let big_ctr := u64 (ctr + u64 (Z.shiftl (load32_le nonce) 32)) in
  let '(out, c) := crypto_chacha20_djb plain_text text_size key (drop 4 nonce) big_ctr in
  (out, u32 c).

Definition crypto_chacha20_x (plain_text : option (list Z)) (text_size : Z)
    (key nonce : list Z) (ctr : Z) : list Z * Z :=
  let sub_key := crypto_chacha20_h key nonce in
  crypto_chacha20_djb plain_text text_size sub_key (drop 16 nonce) ctr.

(** RFC 8439, section 2.3.2. *)
Example chacha20_rfc8439_block :
  take 16 (fst (crypto_chacha20_ietf None 64 (Z.of_nat <$> seq 0 32)
                  [0; 0; 0; 9; 0; 0; 0; 74; 0; 0; 0; 0] 1))
  = [16; 241; 231; 228; 209; 59; 89; 21; 80; 15; 221; 31; 163; 32; 113; 196].
Proof. by vm_compute. Qed.

(** ** The keystream specification *)

Fixpoint chacha20_keystream (nb : nat) (input : list Z) : list Z :=
  match nb with
  | O => []
  | S n => chacha20_block_bytes input ++ chacha20_keystream n (chacha20_next input)
  end.

(** Bytewise exclusive or with as much keystream as there is text. *)
Definition xor_bytes : list Z -> list Z -> list Z := zip_with Z.lxor.

Lemma le_bytes_lxor n x y :
  le_bytes n (Z.lxor x y) = xor_bytes (le_bytes n x) (le_bytes n y).
Proof.
  revert x y. induction n as [|n IH]; intros x y; [done|]. simpl. f_equal.
  - change 256 with (2 ^ 8). apply Z.bits_inj'. intros i Hi.
    rewrite Z.lxor_spec. pose proof wrap_testbit as W. unfold wrap in W.
    rewrite !W, Z.lxor_spec by lia. by destruct (i <? 8).
  - change 256 with (2 ^ 8). rewrite <- !Z.shiftr_div_pow2, Z.shiftr_lxor by lia.
    rewrite IH, !Z.shiftr_div_pow2 by lia. done.
Qed.

Lemma store32_xor_load p s :
  bytes_ok s -> (4 <= length s)%nat ->
  store32_le (Z.lxor p (load32_le s)) = xor_bytes (store32_le p) (take 4 s).
Proof.
  intros Hs Hl. rewrite load32_le_spec by done. rewrite !store32_le_spec, le_bytes_lxor.
  f_equal. pose proof (le_bytes_val (take 4 s) (bytes_ok_take _ _ Hs)) as E.
  rewrite length_take, Nat.min_l in E by lia. exact E.
Qed.

Lemma zip_with_app_split {A B C} (f : A -> B -> C) l1 l2 k :
  (length l1 <= length k)%nat ->
  zip_with f (l1 ++ l2) k =
  zip_with f l1 (take (length l1) k) ++ zip_with f l2 (drop (length l1) k).
Proof.
  intros H. rewrite <- (take_drop (length l1) k) at 1.
  apply zip_with_app. len.
Qed.

Lemma length_store32_le_buf l : length (store32_le_buf l) = (4 * length l)%nat.
Proof. induction l; simpl; lia. Qed.

Lemma chacha20_xor_words_spec pool input s :
  bytes_ok s -> (4 * Nat.min (length pool) (length input) <= length s)%nat ->
  chacha20_xor_words pool input (Some s) =
  xor_bytes (store32_le_buf (zip_with add32 pool input)) s.
Proof.
  revert input s. induction pool as [|x pool IH]; intros [|y input] s Hs Hl; try done.
  cbn [chacha20_xor_words zip_with store32_le_buf]. simpl in Hl.
  rewrite store32_xor_load by (done || lia). unfold xor_bytes.
  rewrite zip_with_app_split by (simpl; lia). f_equal.
  apply IH; auto with bytes. len.
Qed.

Lemma chacha20_xor_words_null pool input :
  chacha20_xor_words pool input None = store32_le_buf (zip_with add32 pool input).
Proof.
  revert input. induction pool as [|x pool IH]; intros [|y input]; try done.
  cbn [chacha20_xor_words zip_with store32_le_buf]. by rewrite IH.
Qed.

Lemma chacha20_next_length input : length (chacha20_next input) = length input.
Proof. unfold chacha20_next. case_match; by rewrite ?length_insert. Qed.

Lemma chacha20_double_round_length t :
  length t = 16%nat -> length (chacha20_double_round t) = 16%nat.
Proof.
  intros H. do 16 (destruct t as [|? t]; [done|]). destruct t; [|done].
  unfold chacha20_double_round. repeat destruct (quarterround _ _ _ _) as [[[? ?] ?] ?].
  done.
Qed.

Lemma chacha20_rounds_length t : length t = 16%nat -> length (chacha20_rounds t) = 16%nat.
Proof.
  intros H. apply (Nat.iter_invariant _ _ _ (fun t => length t = 16%nat)); [|done].
  apply chacha20_double_round_length.
Qed.

Lemma chacha20_block_bytes_length input :
  length input = 16%nat -> length (chacha20_block_bytes input) = 64%nat.
Proof.
  intros H. unfold chacha20_block_bytes.
  rewrite length_store32_le_buf, length_zip_with, chacha20_rounds_length, H by done. done.
Qed.

Lemma chacha20_xor_block input s :
  length input = 16%nat -> bytes_ok s -> (64 <= length s)%nat ->
  chacha20_xor_words (chacha20_rounds input) input (Some s) =
  xor_bytes (chacha20_block_bytes input) s.
Proof.
  intros Hi Hs Hl. apply chacha20_xor_words_spec; [done|].
  rewrite chacha20_rounds_length, Hi by done. exact Hl.
Qed.

Lemma chacha20_null_block input :
  chacha20_xor_words (chacha20_rounds input) input None = chacha20_block_bytes input.
Proof. apply chacha20_xor_words_null. Qed.

Lemma store32_le_buf_ok l : bytes_ok (store32_le_buf l).
Proof.
  induction l; [constructor|]. cbn [store32_le_buf]. apply bytes_ok_app; [|done].
  rewrite store32_le_spec. apply le_bytes_ok.
Qed.

Lemma chacha20_block_bytes_ok input : bytes_ok (chacha20_block_bytes input).
Proof. apply store32_le_buf_ok. Qed.

#[local] Opaque chacha20_rounds chacha20_block_bytes chacha20_next.

Lemma chacha20_keystream_length nb input :
  length input = 16%nat -> length (chacha20_keystream nb input) = (64 * nb)%nat.
Proof.
  revert input. induction nb as [|nb IH]; intros input H; simpl; [done|].
  rewrite length_app, chacha20_block_bytes_length, IH by (rewrite ?chacha20_next_length; done).
  lia.
Qed.

Lemma chacha20_setup_length key nonce ctr : length (chacha20_setup key nonce ctr) = 16%nat.
Proof. done. Qed.

Lemma Nat_iter_comm {A} (f : A -> A) n x : Nat.iter n f (f x) = f (Nat.iter n f x).
Proof. apply Nat.iter_swap. Qed.

Lemma chacha20_whole_blocks_spec nb input s :
  length input = 16%nat -> bytes_ok s -> (64 * nb <= length s)%nat ->
  chacha20_whole_blocks nb input (Some s) =
  (xor_bytes (chacha20_keystream nb input) s, Nat.iter nb chacha20_next input,
   Some (drop (64 * nb) s)).
Proof.
  revert input s. induction nb as [|nb IH]; intros input s Hi Hs Hl; [done|].
  cbn [chacha20_whole_blocks fmap option_fmap option_map].
  rewrite IH; [|by rewrite chacha20_next_length|auto with bytes|len].
  rewrite chacha20_xor_block by (done || lia).
  rewrite drop_drop, Nat_iter_comm. f_equal; [f_equal|f_equal; f_equal; lia].
  pose proof (chacha20_block_bytes_length input Hi) as Hb.
  cbn [chacha20_keystream]. unfold xor_bytes.
  rewrite zip_with_app_split, Hb by lia. f_equal.
  rewrite <- (zip_with_take_r _ _ s), Hb. done.
Qed.

Lemma chacha20_whole_blocks_null nb input :
  chacha20_whole_blocks nb input None =
  (chacha20_keystream nb input, Nat.iter nb chacha20_next input, None).
Proof.
  revert input. induction nb as [|nb IH]; intros input; [done|].
  cbn [chacha20_whole_blocks fmap option_fmap option_map].
  by rewrite IH, chacha20_null_block, Nat_iter_comm.
Qed.

Lemma chacha20_keystream_app m n input :
  chacha20_keystream (m + n) input =
  chacha20_keystream m input ++ chacha20_keystream n (Nat.iter m chacha20_next input).
Proof.
  revert input. induction m as [|m IH]; intros input; simpl; [done|].
  by rewrite IH, Nat_iter_comm, app_assoc.
Qed.

(** The bytes [crypto_chacha20_djb] xors into [text_size] bytes of text. *)
Definition chacha20_stream (key nonce : list Z) (ctr text_size : Z) : list Z :=
  take (Z.to_nat text_size)
    (chacha20_keystream (S (Z.to_nat (text_size / 64))) (chacha20_setup key nonce ctr)).

Lemma text_size_split n : 0 <= n ->
  Z.to_nat n = (64 * Z.to_nat (Z.shiftr n 6) + Z.to_nat (Z.land n 63))%nat.
Proof.
  intros H. change 63 with (Z.ones 6). rewrite Z.land_ones, Z.shiftr_div_pow2 by lia.
  change (2 ^ 6) with 64. pose proof (Z.div_mod n 64). pose proof (Z.mod_pos_bound n 64).
  pose proof (Z.div_pos n 64). lia.
Qed.

(** A stream cipher is correct when the text it produces is the input xored
    with bytes that depend only on key, nonce and counter. *)
Lemma chacha20_stream_split key nonce ctr n : 0 <= n ->
  let nb := Z.to_nat (Z.shiftr n 6) in
  let input := chacha20_setup key nonce ctr in
  chacha20_stream key nonce ctr n =
  chacha20_keystream nb input ++
  take (Z.to_nat (Z.land n 63)) (chacha20_block_bytes (Nat.iter nb chacha20_next input)).
Proof.
  intros Hn nb input. unfold chacha20_stream. fold input.
  rewrite (text_size_split n Hn). fold nb.
  change (n / 64) with (n / 2 ^ 6). rewrite <- Z.shiftr_div_pow2 by lia. fold nb.
  replace (S nb) with (nb + 1)%nat by lia. rewrite chacha20_keystream_app.
  cbn [chacha20_keystream]. rewrite app_nil_r.
  pose proof (chacha20_keystream_length nb input (chacha20_setup_length _ _ _)) as Hl.
  rewrite take_app, Hl. f_equal; [apply take_ge; lia|f_equal; lia].
Qed.

Lemma chacha20_stream_length key nonce ctr n :
  0 <= n -> length (chacha20_stream key nonce ctr n) = Z.to_nat n.
Proof.
  intros Hn. unfold chacha20_stream.
  rewrite length_take, chacha20_keystream_length by done.
  rewrite (text_size_split n Hn). change (n / 64) with (n / 2 ^ 6).
  rewrite <- Z.shiftr_div_pow2 by lia.
  assert (0 <= Z.land n 63 < 64); [|lia].
  change 63 with (Z.ones 6). rewrite Z.land_ones by lia. apply Z.mod_pos_bound. lia.
Qed.

Lemma crypto_chacha20_djb_text s n key nonce ctr :
  0 <= n -> bytes_ok s -> (Z.to_nat n <= length s)%nat ->
  fst (crypto_chacha20_djb (Some s) n key nonce ctr) =
  xor_bytes (chacha20_stream key nonce ctr n) s.
Proof.
  intros Hn Hs Hl. rewrite chacha20_stream_split by done.
  pose proof (text_size_split n Hn) as Hsplit.
  unfold crypto_chacha20_djb. cbv zeta.
  rewrite chacha20_whole_blocks_spec by (done || lia).
  cbn [default fst].
  set (input := chacha20_setup key nonce ctr) in *.
  set (nb := Z.to_nat (Z.shiftr n 6)) in *.
  set (m := Z.to_nat (Z.land n 63)) in *.
  pose proof (chacha20_keystream_length nb input eq_refl) as Hk.
  unfold xor_bytes. rewrite zip_with_app_split, Hk by lia. f_equal.
  - by rewrite <- Hk, zip_with_take_r.
  - trans (take m (zip_with Z.lxor (chacha20_block_bytes (Nat.iter nb chacha20_next input))
                     (drop (64 * nb) s))).
    2: { rewrite zip_with_take. apply zip_with_take_r'. rewrite !length_take. lia. }
    case_decide; [done|]. by replace m with 0%nat by lia.
Qed.

Lemma xor_bytes_involutive k s :
  (length s <= length k)%nat -> xor_bytes k (xor_bytes k s) = s.
Proof.
  revert s. induction k as [|x k IH]; intros [|y s] H; simpl in *; try done; [lia|].
  unfold xor_bytes in *. simpl. rewrite IH by lia. f_equal.
  by rewrite <- Z.lxor_assoc, Z.lxor_nilpotent.
Qed.

Lemma xor_bytes_ok k s : bytes_ok k -> bytes_ok s -> bytes_ok (xor_bytes k s).
Proof.
  intros Hk. revert s. induction Hk as [|x k Hx Hk IH]; intros [|y s] Hs; try by constructor.
  apply Forall_cons_iff in Hs as [Hy Hs]. constructor; [|by apply IH].
  apply (lxor_ok 8); [lia|exact Hx|exact Hy].
Qed.

Lemma xor_bytes_length k s : length (xor_bytes k s) = Nat.min (length k) (length s).
Proof. apply length_zip_with. Qed.

Lemma chacha20_keystream_ok nb input : bytes_ok (chacha20_keystream nb input).
Proof.
  revert input. induction nb as [|nb IH]; intros input; [constructor|].
  cbn [chacha20_keystream]. apply bytes_ok_app; [apply chacha20_block_bytes_ok|done].
Qed.

Lemma chacha20_stream_ok key nonce ctr n : bytes_ok (chacha20_stream key nonce ctr n).
Proof. apply bytes_ok_take, chacha20_keystream_ok. Qed.

#[export] Hint Resolve store32_le_buf_ok chacha20_stream_ok chacha20_keystream_ok
  xor_bytes_ok : bytes.

(** Encrypting twice under the same key, nonce and counter is the identity. *)
Lemma crypto_chacha20_djb_involutive s n key nonce ctr :
  bytes_ok s -> n = Z.of_nat (length s) ->
  fst (crypto_chacha20_djb
         (Some (fst (crypto_chacha20_djb (Some s) n key nonce ctr))) n key nonce ctr) = s.
Proof.
  intros Hs ->. pose proof (chacha20_stream_length key nonce ctr (Z.of_nat (length s))) as Hk.
  rewrite !crypto_chacha20_djb_text; auto with bytes; try lia.
  - apply xor_bytes_involutive. lia.
  - rewrite crypto_chacha20_djb_text by (done || lia). auto with bytes.
  - rewrite crypto_chacha20_djb_text by (done || lia). rewrite xor_bytes_length. lia.
Qed.

Lemma crypto_chacha20_djb_null n key nonce ctr :
  0 <= n -> Z.land n 63 = 0 ->
  fst (crypto_chacha20_djb None n key nonce ctr) = chacha20_stream key nonce ctr n.
Proof.
  intros Hn Ha. rewrite chacha20_stream_split by done.
  unfold crypto_chacha20_djb. cbv zeta. rewrite chacha20_whole_blocks_null, Ha.
  rewrite decide_False by lia. by rewrite take_0, app_nil_r.
Qed.
