(* ===== verification/ChachaRef.v ===== *)
(** ChaCha20 as RFC 8439 describes it (section 2.3), with the 64-bit counter
    and nonce that src/src/monocypher.c uses: a block function of key, nonce
    and block number, and the key stream of [crypto_chacha20_djb] as its
    blocks. *)
From S2P Require Import Prelude Chacha.

(** * The block function *)

Definition ref_rotl (x n : Z) : Z := Z.lxor (x * 2 ^ n mod 2 ^ 32) (x / 2 ^ (32 - n)).

(** The quarter round on four words of the state. *)
Definition ref_quarter (s : list Z) (q : nat * nat * nat * nat) : list Z :=
  let '(a, b, c, d) := q in
  let step (n : Z) (x y z : nat) s :=
    let s := <[x := (byte_at x s + byte_at y s) mod 2 ^ 32]> s in
    <[z := ref_rotl (Z.lxor (byte_at z s) (byte_at x s)) n]> s in
  step 7 c d b (step 8 a b d (step 12 c d b (step 16 a b d s))).

(** Columns and diagonals. *)
Definition ref_quarters : list (nat * nat * nat * nat) :=
  [(0, 4, 8, 12); (1, 5, 9, 13); (2, 6, 10, 14); (3, 7, 11, 15);
   (0, 5, 10, 15); (1, 6, 11, 12); (2, 7, 8, 13); (3, 4, 9, 14)]%nat.

Definition ref_words (n : nat) (bs : list Z) : list Z := (fun i => le_val (take 4 (drop (4 * i) bs))) <$> seq 0 n.

(** "expand 32-byte k" *)
Definition ref_constant : list Z :=
  (fun a => Z.of_N (Ascii.N_of_ascii a)) <$> String.list_ascii_of_string "expand 32-byte k".

Definition ref_state (key nonce : list Z) (block : Z) : list Z :=
  ref_words 4 ref_constant ++ ref_words 8 key ++ [block mod 2 ^ 32; block / 2 ^ 32 mod 2 ^ 32] ++ ref_words 2 nonce.

Definition chacha20_block (key nonce : list Z) (block : Z) : list Z :=
  let s := ref_state key nonce block in
  let t := Nat.iter 10 (fun t => fold_left ref_quarter ref_quarters t) s in
  concat (le_bytes 4 <$> zip_with (fun x y => (x + y) mod 2 ^ 32) t s).

(** RFC 8439, section 2.3.2: key 0 to 31, block 1 and nonce 09 00 00 00 4a 00 00 00,
    with the first four bytes of the nonce as the upper half of the block
    number. *)
Example chacha20_block_rfc :
  chacha20_block (Z.of_nat <$> seq 0 32) [0; 0; 0; 74; 0; 0; 0; 0] (1 + 0x09000000 * 2 ^ 32) =
  [16; 241; 231; 228; 209; 59; 89; 21; 80; 15; 221; 31; 163; 32; 113; 196;
   199; 209; 244; 199; 51; 192; 104; 3; 4; 34; 170; 154; 195; 212; 108; 78;
   210; 130; 100; 70; 7; 159; 170; 9; 20; 194; 215; 5; 217; 139; 2; 162;
   181; 18; 156; 209; 222; 22; 78; 185; 203; 208; 131; 232; 162; 80; 60; 78].
Proof. by vm_compute. Qed.

(** * The code's blocks are those of the reference *)

Lemma ref_rotl_ok x n : 0 <= n <= 32 -> ref_rotl x n = rotl32 x n.
Proof.
  intros Hn. unfold ref_rotl, rotl32, wshl, wrap. by rewrite Z.shiftl_mul_pow2, Z.shiftr_div_pow2 by lia.
Qed.

(** One quarter round, where the words are read and written back. *)
Lemma ref_quarter_ok s q x y z w :
  (let '(a, b, c, d) := q in quarterround (byte_at a s) (byte_at b s) (byte_at c s) (byte_at d s)) = (x, y, z, w) ->
  q ∈ ref_quarters -> length s = 16%nat ->
  ref_quarter s q = let '(a, b, c, d) := q in <[a := x]> (<[b := y]> (<[c := z]> (<[d := w]> s))).
Proof.
  intros E Hq H. unfold quarterround, add32, wrap in E. do 16 (destruct s as [|? s]; [done|]). destruct s; [|done].
  apply list_elem_of_In in Hq. cbn [In ref_quarters] in Hq.
  repeat destruct Hq as [<-|Hq]; try done; injection E as <- <- <- <-;
    cbv beta iota zeta delta [ref_quarter byte_at nth insert list_insert]; rewrite !ref_rotl_ok by lia; reflexivity.
Qed.

Lemma fold_cons {A B} (f : A -> B -> A) x l a : fold_left f (x :: l) a = fold_left f l (f a x).
Proof. done. Qed.

Ltac ref_step :=
  rewrite fold_cons;
  match goal with |- context [quarterround ?a ?b ?c ?d] => destruct (quarterround a b c d) as [[[? ?] ?] ?] eqn:? end;
  erewrite ref_quarter_ok by (first [eassumption|by_compute|reflexivity]); cbn [insert list_insert].

Lemma ref_quarters_ok t : length t = 16%nat -> fold_left ref_quarter ref_quarters t = chacha20_double_round t.
Proof.
  intros H. do 16 (destruct t as [|? t]; [done|]). destruct t; [|done]. clear H.
  unfold chacha20_double_round. unfold ref_quarters at 1. do 8 ref_step. done.
Qed.

Lemma ref_rounds_ok t : length t = 16%nat -> Nat.iter 10 (fun t => fold_left ref_quarter ref_quarters t) t = chacha20_rounds t.
Proof.
  intros H. unfold chacha20_rounds. generalize 10%nat. intros n.
  assert (Nat.iter n (fun t => fold_left ref_quarter ref_quarters t) t = Nat.iter n chacha20_double_round t /\
    length (Nat.iter n chacha20_double_round t) = 16%nat) as [? _]; [|done].
  induction n as [|n [IH Hl]]; [done|]. rewrite !Nat.iter_succ, IH, ref_quarters_ok by done.
  split; [done|by apply chacha20_double_round_length].
Qed.

Lemma ref_words_ok n bs : bytes_ok bs -> (4 * n <= length bs)%nat -> load32_le_buf n bs = ref_words n bs.
Proof.
  unfold ref_words. revert bs. induction n as [|n IH]; intros bs Hb Hl; [done|].
  cbn [load32_le_buf seq fmap list_fmap]. rewrite Nat.mul_0_r, drop_0, load32_le_spec by (done || lia). f_equal.
  rewrite IH by (auto with bytes; rewrite ?length_drop; lia). rewrite <- seq_shift, <- list_fmap_compose. apply list_fmap_ext.
  intros i x _. cbn. rewrite drop_drop. do 3 f_equal. lia.
Qed.

Lemma ref_state_ok key nonce c :
  bytes_ok key -> length key = 32%nat -> bytes_ok nonce -> length nonce = 8%nat ->
  chacha20_setup key nonce c = ref_state key nonce c.
Proof.
  intros Hk Lk Hn Ln. unfold chacha20_setup, ref_state, wrap. rewrite Z.shiftr_div_pow2 by lia.
  rewrite (ref_words_ok 8 key), (ref_words_ok 2 nonce) by (done || lia). reflexivity.
Qed.

Lemma block_bytes_ok s : length s = 16%nat ->
  chacha20_block_bytes s =
    concat (le_bytes 4 <$> zip_with (fun x y => (x + y) mod 2 ^ 32) (Nat.iter 10 (fun t => fold_left ref_quarter ref_quarters t) s) s).
Proof.
  intros H. unfold chacha20_block_bytes. rewrite ref_rounds_ok by done.
  change (zip_with add32) with (zip_with (fun x y => (x + y) mod 2 ^ 32)).
  generalize (zip_with (fun x y => (x + y) mod 2 ^ 32) (chacha20_rounds s) s). intros l.
  induction l as [|x l IH]; [done|]. cbn [store32_le_buf fmap list_fmap concat]. by rewrite store32_le_spec, IH.
Qed.

Section stream.
Context (key nonce : list Z).
Context (Hkey : bytes_ok key) (Lkey : length key = 32%nat) (Hnonce : bytes_ok nonce) (Lnonce : length nonce = 8%nat).

Lemma setup_block c : chacha20_block_bytes (chacha20_setup key nonce c) = chacha20_block key nonce c.
Proof using All. unfold chacha20_block. rewrite <- ref_state_ok by done. by apply block_bytes_ok. Qed.

#[local] Opaque chacha20_rounds chacha20_block_bytes chacha20_block.

Lemma chacha20_block_length c : length (chacha20_block key nonce c) = 64%nat.
Proof using All. rewrite <- setup_block. by apply chacha20_block_bytes_length. Qed.

(** The counter wraps around at 64 bits. *)
Lemma setup_u64 c : chacha20_setup key nonce (u64 c) = chacha20_setup key nonce c.
Proof.
  unfold chacha20_setup. rewrite !Z.shiftr_div_pow2 by lia.
  assert (u32 (u64 c) = u32 c) as -> by (unfold wrap; rewrite <- (Z.mod_mod_divide c (2 ^ 64) (2 ^ 32)) by (by exists (2 ^ 32)); done).
  assert (u32 (u64 c / 2 ^ 32) = u32 (c / 2 ^ 32)) as ->; [|done].
  unfold wrap. change (2 ^ 64) with (2 ^ 32 * 2 ^ 32). rewrite Z.rem_mul_r by lia.
  rewrite Z.mul_comm, Z.div_add by lia. rewrite Z.div_small by (apply Z.mod_pos_bound; lia). by rewrite Z.add_0_l, Z.mod_mod.
Qed.

Lemma next_setup c : chacha20_next (chacha20_setup key nonce c) = chacha20_setup key nonce (c + 1).
Proof.
  unfold chacha20_next.
  change (byte_at 12 (chacha20_setup key nonce c)) with (u32 c). change (byte_at 13 _) with (u32 (Z.shiftr c 32)).
  unfold add32. rewrite !wrap_add_l. unfold chacha20_setup. rewrite !Z.shiftr_div_pow2 by lia.
  pose proof (Z.div_mod c (2 ^ 32)) as Hc. pose proof (Z.mod_pos_bound c (2 ^ 32)) as Hb.
  assert (u32 (c + 1) = if decide (c mod 2 ^ 32 = 2 ^ 32 - 1) then 0 else c mod 2 ^ 32 + 1) as E1.
  { unfold wrap. case_decide.
    - symmetry. apply (Z.mod_unique_pos _ _ (c / 2 ^ 32 + 1)); lia.
    - symmetry. apply (Z.mod_unique_pos _ _ (c / 2 ^ 32)); lia. }
  assert ((c + 1) / 2 ^ 32 = if decide (c mod 2 ^ 32 = 2 ^ 32 - 1) then c / 2 ^ 32 + 1 else c / 2 ^ 32) as E2.
  { case_decide; symmetry; [apply (Z.div_unique_pos _ _ _ 0)|apply (Z.div_unique_pos _ _ _ (c mod 2 ^ 32 + 1))]; lia. }
  rewrite E1, E2. case_decide as Hd; [done|]. destruct (Z.eqb_spec (c mod 2 ^ 32 + 1) 0); [lia|]. done.
Qed.

(** Byte [i] of the key stream. *)
Lemma keystream_block nb : forall c i, (i < 64 * nb)%nat ->
  chacha20_keystream nb (chacha20_setup key nonce c) !! i = chacha20_block key nonce (c + Z.of_nat (i / 64)) !! (i mod 64)%nat.
Proof using All.
  induction nb as [|nb IH]; intros c i Hi; [lia|]. cbn [chacha20_keystream]. rewrite setup_block, next_setup.
  pose proof (chacha20_block_length c) as Hl. destruct (decide (i < 64)%nat).
  - rewrite lookup_app_l by lia. rewrite Nat.div_small, Nat.mod_small by done. by rewrite Z.add_0_r.
  - rewrite lookup_app_r, Hl by lia. rewrite IH by lia.
    assert (i / 64 = S ((i - 64) / 64) /\ i mod 64 = (i - 64) mod 64)%nat as [-> ->].
    { replace i with ((i - 64) + 1 * 64)%nat at 1 3 by lia. rewrite Nat.div_add, Nat.Div0.mod_add by done. split; [lia|done]. }
    by replace (c + 1 + Z.of_nat ((i - 64) / 64)) with (c + Z.of_nat (S ((i - 64) / 64))) by lia.
Qed.

Lemma stream_block c n i : (i < n)%nat ->
  chacha20_stream key nonce c (Z.of_nat n) !! i = chacha20_block key nonce (c + Z.of_nat (i / 64)) !! (i mod 64)%nat.
Proof using All.
  intros Hi. unfold chacha20_stream. rewrite Nat2Z.id, lookup_take_lt by done. apply keystream_block.
  change 64 with (Z.of_nat 64) at 1. rewrite <- Nat2Z.inj_div, Nat2Z.id. pose proof (Nat.div_mod_eq n 64). pose proof (Nat.mod_upper_bound n 64). lia.
Qed.
End stream.
