(* ===== verification/Poly1305.v ===== *)
(** Monocypher's Poly1305 (src/src/monocypher.c, lines 300-450): the
    incremental authenticator on 32-bit limbs, and its equivalence with
    polynomial evaluation modulo 2^130 - 5. *)
From S2P Require Import Prelude Chacha.

(** [crypto_poly1305_ctx]; [c] always holds 16 bytes. *)
Record crypto_poly1305_ctx := {
  pc_c : list Z;        (** chunk of the message *)
  pc_c_idx : nat;       (** how many bytes are there in the chunk *)
  pc_r : list Z;        (** constant multiplier, 4 words *)
  pc_pad : list Z;      (** random number added at the end, 4 words *)
  pc_h : list Z         (** accumulated hash, 5 words *)
}.

Definition set_h (h : list Z) (ctx : crypto_poly1305_ctx) : crypto_poly1305_ctx :=
  {| pc_c := pc_c ctx; pc_c_idx := pc_c_idx ctx; pc_r := pc_r ctx; pc_pad := pc_pad ctx;
     pc_h := h |}.
Definition set_chunk (c : list Z) (i : nat) (ctx : crypto_poly1305_ctx) : crypto_poly1305_ctx :=
  {| pc_c := c; pc_c_idx := i; pc_r := pc_r ctx; pc_pad := pc_pad ctx; pc_h := pc_h ctx |}.

(** One iteration of the loop of [poly_blocks] on the block at [inp]. *)
Definition poly_block (r h : list Z) (inp : list Z) (endb : Z) : list Z :=
  match r, h with
  | [r0; r1; r2; r3], [h0; h1; h2; h3; h4] =>
      let rr0 := u32 (Z.shiftr r0 2 * 5) in
      let rr1 := u32 (Z.shiftr r1 2 + r1) in
      let rr2 := u32 (Z.shiftr r2 2 + r2) in
      let rr3 := u32 (Z.shiftr r3 2 + r3) in
      let rr4 := Z.land r0 3 in
      (* h + c, without carry propagation *)
      let s0 := u64 (h0 + load32_le inp) in
      let s1 := u64 (h1 + load32_le (drop 4 inp)) in
      let s2 := u64 (h2 + load32_le (drop 8 inp)) in
      let s3 := u64 (h3 + load32_le (drop 12 inp)) in
      let s4 := u32 (h4 + endb) in
      (* (h + c) * r, without carry propagation *)
      let x0 := u64 (s0*r0 + s1*rr3 + s2*rr2 + s3*rr1 + u32 (s4*rr0)) in
      let x1 := u64 (s0*r1 + s1*r0 + s2*rr3 + s3*rr2 + u32 (s4*rr1)) in
      let x2 := u64 (s0*r2 + s1*r1 + s2*r0 + s3*rr3 + u32 (s4*rr2)) in
      let x3 := u64 (s0*r3 + s1*r2 + s2*r1 + s3*r0 + u32 (s4*rr3)) in
      let x4 := u32 (s4*rr4) in
      (* partial reduction modulo 2^130 - 5 *)
      let u5 := u32 (u32 (Z.shiftr x3 32) + x4) in
      let u0 := u64 (u32 (Z.shiftr u5 2 * 5) + Z.land x0 0xffffffff) in
      let u1 := u64 (u32 (Z.shiftr u0 32) + Z.land x1 0xffffffff + Z.shiftr x0 32) in
      let u2 := u64 (u32 (Z.shiftr u1 32) + Z.land x2 0xffffffff + Z.shiftr x1 32) in
      let u3 := u64 (u32 (Z.shiftr u2 32) + Z.land x3 0xffffffff + Z.shiftr x2 32) in
      let u4 := u32 (u32 (Z.shiftr u3 32) + Z.land u5 3) in
      [Z.land u0 0xffffffff; Z.land u1 0xffffffff; Z.land u2 0xffffffff;
       Z.land u3 0xffffffff; u4]
  | _, _ => h
  end.

Fixpoint poly_loop (r h : list Z) (inp : list Z) (nb_blocks : nat) (endb : Z) : list Z :=
  match nb_blocks with
  | O => h
  | S n => poly_loop r (poly_block r h inp endb) (drop 16 inp) n endb
  end.

Definition poly_blocks (ctx : crypto_poly1305_ctx) (inp : list Z) (nb_blocks : nat) (endb : Z)
    : crypto_poly1305_ctx :=
  set_h (poly_loop (pc_r ctx) (pc_h ctx) inp nb_blocks endb) ctx.

Definition poly_clamp (r : list Z) : list Z :=
  match r with
  | [r0; r1; r2; r3] =>
      [Z.land r0 0x0fffffff; Z.land r1 0x0ffffffc; Z.land r2 0x0ffffffc; Z.land r3 0x0ffffffc]
  | _ => r
  end.

(** The chunk [c] of an automatic variable is not initialised by the source;
    its bytes are an argument, which no result depends on. *)
Definition crypto_poly1305_init (c0 key : list Z) : crypto_poly1305_ctx :=
  {| pc_c := c0; pc_c_idx := 0;
     pc_r := poly_clamp (load32_le_buf 4 key);
     pc_pad := load32_le_buf 4 (drop 16 key);
     pc_h := [0; 0; 0; 0; 0] |}.

(** [FOR (i, 0, n) { ctx->c[ctx->c_idx] = *message; ctx->c_idx++; ... }] *)
Fixpoint poly_fill (n : nat) (message : list Z) (c : list Z) (i : nat) : list Z * nat :=
  match n, message with
  | S n', b :: message' => poly_fill n' message' (<[i := b]> c) (S i)
  | _, _ => (c, i)
  end.

Definition crypto_poly1305_update (ctx : crypto_poly1305_ctx) (message : list Z)
    (message_size : nat) : crypto_poly1305_ctx :=
  if decide (message_size = 0%nat) then ctx else
  (* Align ourselves with block boundaries *)
  let aligned := Nat.min (Z.to_nat (gap (Z.of_nat (pc_c_idx ctx)) 16)) message_size in
  let '(c, i) := poly_fill aligned message (pc_c ctx) (pc_c_idx ctx) in
  let ctx := set_chunk c i ctx in
  let message := drop aligned message in
  let message_size := (message_size - aligned)%nat in
  (* If block is complete, process it *)
  let ctx :=
    if decide (pc_c_idx ctx = 16%nat)
    then set_chunk (pc_c ctx) 0 (poly_blocks ctx (pc_c ctx) 1 1) else ctx in
  (* Process the message block by block *)
  let nb_blocks := (message_size / 16)%nat in
  let ctx := poly_blocks ctx message nb_blocks 1 in
  let message := drop (16 * nb_blocks) message in
  let message_size := (message_size mod 16)%nat in
  (* remaining bytes (we never complete a block here) *)
  let '(c, i) := poly_fill message_size message (pc_c ctx) (pc_c_idx ctx) in
  set_chunk c i ctx.

(** The carry loop of [crypto_poly1305_final]: 1 when the hash is at least
    2^130 - 5, as a multiple of 5. *)
Definition poly_final_carry (h : list Z) : Z :=
  let step c x := Z.shiftr (u64 (c + x)) 32 in
  let c := fold_left step (take 4 h) 5 in
  let c := u64 (c + byte_at 4 h) in
  u64 (Z.shiftr c 2 * 5).

Fixpoint poly_final_store (c : Z) (h pad : list Z) : list Z :=
  match h, pad with
  | x :: h', p :: pad' =>
      let c := u64 (c + (x + p)) in
      store32_le (u32 c) ++ poly_final_store (Z.shiftr c 32) h' pad'
  | _, _ => []
  end.

Definition crypto_poly1305_final (ctx : crypto_poly1305_ctx) : list Z :=
  let ctx :=
    if decide (pc_c_idx ctx = 0%nat) then ctx else
      let c := take (pc_c_idx ctx) (pc_c ctx) ++ replicate (16 - pc_c_idx ctx) 0 in
      let c := <[pc_c_idx ctx := 1]> c in
      poly_blocks (set_chunk c (pc_c_idx ctx) ctx) c 1 0 in
  poly_final_store (poly_final_carry (pc_h ctx)) (take 4 (pc_h ctx)) (pc_pad ctx).

Definition crypto_poly1305 (c0 message : list Z) (message_size : nat) (key : list Z) : list Z :=
  crypto_poly1305_final
    (crypto_poly1305_update (crypto_poly1305_init c0 key) message message_size).

(** RFC 8439, section 2.5.2: "Cryptographic Forum Research Group". *)
Example poly1305_rfc8439 :
  crypto_poly1305 (replicate 16 0)
    [67;114;121;112;116;111;103;114;97;112;104;105;99;32;70;111;114;117;109;32;82;101;115;101;
     97;114;99;104;32;71;114;111;117;112] 34
    [0x85;0xd6;0xbe;0x78;0x57;0x55;0x6d;0x33;0x7f;0x44;0x52;0xfe;0x42;0xd5;0x06;0xa8;
     0x01;0x03;0x80;0x8a;0xfb;0x0d;0xb2;0xfd;0x4a;0xbf;0xf6;0xaf;0x41;0x49;0xf5;0x1b]
  = [0xa8;0x06;0x1d;0xc1;0x30;0x51;0x36;0xc6;0xc2;0x2b;0x8b;0xaf;0x0c;0x01;0x27;0xa9].
Proof. by vm_compute. Qed.

(** * The mathematical authenticator *)

Definition p1305 : Z := 2 ^ 130 - 5.

Definition limbs_val (h : list Z) : Z :=
  match h with
  | [h0; h1; h2; h3] => h0 + 2 ^ 32 * h1 + 2 ^ 64 * h2 + 2 ^ 96 * h3
  | [h0; h1; h2; h3; h4] => h0 + 2 ^ 32 * h1 + 2 ^ 64 * h2 + 2 ^ 96 * h3 + 2 ^ 128 * h4
  | _ => 0
  end.

(** The documented precondition of [poly_blocks] on the hash and on [r]. *)
Definition hash_ok (h : list Z) : Prop :=
  match h with
  | [h0; h1; h2; h3; h4] =>
      0 <= h0 < 2 ^ 32 /\ 0 <= h1 < 2 ^ 32 /\ 0 <= h2 < 2 ^ 32 /\ 0 <= h3 < 2 ^ 32 /\
      0 <= h4 <= 4
  | _ => False
  end.

Definition mult_ok (r : list Z) : Prop :=
  match r with
  | [r0; r1; r2; r3] =>
      0 <= r0 <= 0x0fffffff /\ 0 <= r1 <= 0x0ffffffc /\ 0 <= r2 <= 0x0ffffffc /\
      0 <= r3 <= 0x0ffffffc /\ r1 mod 4 = 0 /\ r2 mod 4 = 0 /\ r3 mod 4 = 0
  | _ => False
  end.

(** Quotient and remainder of [x] by 2^32 as facts on opaque values. *)
Ltac split_word x :=
  pose proof (Z.div_mod x (2 ^ 32) ltac:(lia));
  pose proof (Z.mod_pos_bound x (2 ^ 32) ltac:(lia)).

(** A 64-bit sum that does not overflow, split in word and carry. *)
Ltac carry u :=
  rewrite !(Z.mod_small u (2 ^ 64)) by lia; split_word u;
  rewrite !(Z.mod_small (u / 2 ^ 32) (2 ^ 32)) by lia.

(** Carry propagation and partial reduction, on limbs already known not to
    overflow. *)
Lemma poly_reduce x0 x1 x2 x3 x4 :
  0 <= x0 < 2 ^ 64 - 2 ^ 36 -> 0 <= x1 < 2 ^ 64 - 2 ^ 36 -> 0 <= x2 < 2 ^ 64 - 2 ^ 36 ->
  0 <= x3 < 2 ^ 63 + 2 ^ 34 -> 0 <= x4 <= 15 ->
  let u5 := u32 (u32 (Z.shiftr x3 32) + x4) in
  let u0 := u64 (u32 (Z.shiftr u5 2 * 5) + Z.land x0 0xffffffff) in
  let u1 := u64 (u32 (Z.shiftr u0 32) + Z.land x1 0xffffffff + Z.shiftr x0 32) in
  let u2 := u64 (u32 (Z.shiftr u1 32) + Z.land x2 0xffffffff + Z.shiftr x1 32) in
  let u3 := u64 (u32 (Z.shiftr u2 32) + Z.land x3 0xffffffff + Z.shiftr x2 32) in
  let u4 := u32 (u32 (Z.shiftr u3 32) + Z.land u5 3) in
  let h := [Z.land u0 0xffffffff; Z.land u1 0xffffffff; Z.land u2 0xffffffff;
            Z.land u3 0xffffffff; u4] in
  hash_ok h /\
  limbs_val h + p1305 * (u5 / 4) =
  x0 + 2 ^ 32 * x1 + 2 ^ 64 * x2 + 2 ^ 96 * x3 + 2 ^ 128 * x4.
Proof.
  intros B0 B1 B2 B3 B4. change 0xffffffff with (Z.ones 32). change 3 with (Z.ones 2).
  rewrite !Z.land_ones, !Z.shiftr_div_pow2 by lia.
  unfold wrap, p1305. change (2 ^ 2) with 4.
  split_word x0. split_word x1. split_word x2. split_word x3.
  rewrite (Z.mod_small (x3 / 2 ^ 32)) by lia.
  rewrite (Z.mod_small (x3 / 2 ^ 32 + x4)) by lia.
  cbv zeta. rewrite !Z.land_ones, !Z.shiftr_div_pow2 by lia. change (2 ^ 2) with 4.
  pose proof (Z.div_mod (x3 / 2 ^ 32 + x4) 4 ltac:(lia)).
  pose proof (Z.mod_pos_bound (x3 / 2 ^ 32 + x4) 4 ltac:(lia)).
  set (q5 := (x3 / 2 ^ 32 + x4) / 4) in *. set (m5 := (x3 / 2 ^ 32 + x4) mod 4) in *.
  clearbody q5 m5. rewrite (Z.mod_small (q5 * 5)) by lia.
  carry (q5 * 5 + x0 mod 2 ^ 32).
  carry ((q5 * 5 + x0 mod 2 ^ 32) / 2 ^ 32 + x1 mod 2 ^ 32 + x0 / 2 ^ 32).
  match goal with |- context [?a / 2 ^ 32 + x2 mod 2 ^ 32 + x1 / 2 ^ 32] =>
    carry (a / 2 ^ 32 + x2 mod 2 ^ 32 + x1 / 2 ^ 32) end.
  match goal with |- context [?a / 2 ^ 32 + x3 mod 2 ^ 32 + x2 / 2 ^ 32] =>
    carry (a / 2 ^ 32 + x3 mod 2 ^ 32 + x2 / 2 ^ 32) end.
  match goal with |- context [(?a + m5) mod 2 ^ 32] => rewrite (Z.mod_small (a + m5)) by lia end.
  unfold hash_ok, limbs_val. lia.
Qed.

Lemma le_val_app l1 l2 :
  le_val (l1 ++ l2) = le_val l1 + 2 ^ (8 * Z.of_nat (length l1)) * le_val l2.
Proof.
  induction l1 as [|b l1 IH]; cbn [app le_val length].
  - change (2 ^ (8 * Z.of_nat 0)) with 1. lia.
  - rewrite IH. replace (8 * Z.of_nat (S (length l1))) with (8 + 8 * Z.of_nat (length l1)) by lia.
    rewrite Z.pow_add_r by lia. change (2 ^ 8) with 256. ring.
Qed.

Lemma load32_le_range s : bytes_ok s -> (4 <= length s)%nat -> 0 <= load32_le s < 2 ^ 32.
Proof.
  intros Hs Hl. rewrite load32_le_spec by done.
  pose proof (le_val_range (take 4 s) (bytes_ok_take _ _ Hs)) as Hr.
  rewrite length_take, Nat.min_l in Hr by lia. exact Hr.
Qed.

Lemma block_limbs inp : bytes_ok inp -> (16 <= length inp)%nat ->
  le_val (take 16 inp) =
  load32_le inp + 2 ^ 32 * load32_le (drop 4 inp) +
  2 ^ 64 * load32_le (drop 8 inp) + 2 ^ 96 * load32_le (drop 12 inp).
Proof.
  intros Hs Hl. rewrite !load32_le_spec by (auto with bytes; len).
  do 16 (destruct inp as [|? inp]; [simpl in Hl; lia|]). cbn [take drop le_val]. lia.
Qed.

(** The product of the five hash limbs and the four limbs of [r], folded with
    2^130 = 5 (mod 2^130 - 5): what the 32-bit arithmetic computes. *)
Lemma poly_product s0 s1 s2 s3 s4 q0 q1 q2 q3 t :
  let r0 := 4 * q0 + t in let r1 := 4 * q1 in let r2 := 4 * q2 in let r3 := 4 * q3 in
  let x0 := s0*r0 + s1*(5*q3) + s2*(5*q2) + s3*(5*q1) + s4*(5*q0) in
  let x1 := s0*r1 + s1*r0 + s2*(5*q3) + s3*(5*q2) + s4*(5*q1) in
  let x2 := s0*r2 + s1*r1 + s2*r0 + s3*(5*q3) + s4*(5*q2) in
  let x3 := s0*r3 + s1*r2 + s2*r1 + s3*r0 + s4*(5*q3) in
  let x4 := s4*t in
  exists k,
    (s0 + 2^32*s1 + 2^64*s2 + 2^96*s3 + 2^128*s4) * (r0 + 2^32*r1 + 2^64*r2 + 2^96*r3) =
    x0 + 2^32*x1 + 2^64*x2 + 2^96*x3 + 2^128*x4 + p1305 * k.
Proof.
  exists (s1*q3 + s2*q2 + s3*q1 + s4*q0 + 2^32*(s2*q3 + s3*q2 + s4*q1) +
          2^64*(s3*q3 + s4*q2) + 2^96*(s4*q3)).
  unfold p1305. ring.
Qed.

Lemma mul_bound a b A B : 0 <= a <= A -> 0 <= b <= B -> 0 <= a * b <= A * B.
Proof. intros. split; [apply Z.mul_nonneg_nonneg; lia|apply Z.mul_le_mono_nonneg; lia]. Qed.

(** The bounds that make every product sum of [poly_block] fit. *)
Lemma poly_bounds s a b c d e f g h' S4 :
  0 <= s <= 2 ^ 33 - 2 -> 0 <= a <= 2 ^ 33 - 2 -> 0 <= b <= 2 ^ 33 - 2 ->
  0 <= c <= 2 ^ 33 - 2 -> 0 <= S4 <= 5 ->
  0 <= d <= 5 * 2 ^ 26 -> 0 <= e <= 5 * 2 ^ 26 -> 0 <= f <= 5 * 2 ^ 26 ->
  0 <= g <= 2 ^ 28 -> 0 <= h' <= 5 * 2 ^ 26 ->
  0 <= s * g + a * d + b * e + c * f + S4 * h' < 2 ^ 64 - 2 ^ 36.
Proof.
  intros. pose proof (mul_bound s g _ _ ltac:(eassumption) ltac:(eassumption)).
  pose proof (mul_bound a d _ _ ltac:(eassumption) ltac:(eassumption)).
  pose proof (mul_bound b e _ _ ltac:(eassumption) ltac:(eassumption)).
  pose proof (mul_bound c f _ _ ltac:(eassumption) ltac:(eassumption)).
  pose proof (mul_bound S4 h' _ _ ltac:(eassumption) ltac:(eassumption)). lia.
Qed.

Lemma poly_bounds_top s a b c d e f g h' S4 :
  0 <= s <= 2 ^ 33 - 2 -> 0 <= a <= 2 ^ 33 - 2 -> 0 <= b <= 2 ^ 33 - 2 ->
  0 <= c <= 2 ^ 33 - 2 -> 0 <= S4 <= 5 ->
  0 <= d <= 2 ^ 28 -> 0 <= e <= 2 ^ 28 -> 0 <= f <= 2 ^ 28 ->
  0 <= g <= 2 ^ 28 -> 0 <= h' <= 5 * 2 ^ 26 ->
  0 <= s * g + a * d + b * e + c * f + S4 * h' < 2 ^ 63 + 2 ^ 34.
Proof.
  intros. pose proof (mul_bound s g _ _ ltac:(eassumption) ltac:(eassumption)).
  pose proof (mul_bound a d _ _ ltac:(eassumption) ltac:(eassumption)).
  pose proof (mul_bound b e _ _ ltac:(eassumption) ltac:(eassumption)).
  pose proof (mul_bound c f _ _ ltac:(eassumption) ltac:(eassumption)).
  pose proof (mul_bound S4 h' _ _ ltac:(eassumption) ltac:(eassumption)). lia.
Qed.

Lemma limb_shift q t : 0 <= t < 4 -> Z.shiftr (4 * q + t) 2 = q.
Proof.
  intros. rewrite Z.shiftr_div_pow2 by lia. change (2 ^ 2) with 4.
  rewrite Z.mul_comm, Z.div_add_l, Z.div_small; lia.
Qed.

Lemma limb_low q t : 0 <= t < 4 -> Z.land (4 * q + t) 3 = t.
Proof.
  intros. change 3 with (Z.ones 2). rewrite Z.land_ones by lia. change (2 ^ 2) with 4.
  rewrite Z.add_comm, Z.mul_comm, Z.mod_add, Z.mod_small; lia.
Qed.

Lemma wrap_top a b : 0 <= a <= 5 -> 0 <= b <= 5 * 2 ^ 26 -> wrap 32 (a * b) = a * b.
Proof.
  intros Ha Hb. apply wrap_small. pose proof (mul_bound a b _ _ Ha Hb). lia.
Qed.

(** [poly_block] with the wrap-arounds that cannot happen removed. *)
Lemma poly_block_nowrap t q0 q1 q2 q3 h0 h1 h2 h3 h4 inp endb :
  let r := [4 * q0 + t; 4 * q1; 4 * q2; 4 * q3] in
  let h := [h0; h1; h2; h3; h4] in
  0 <= t < 4 -> mult_ok r -> hash_ok h -> bytes_ok inp -> (16 <= length inp)%nat ->
  0 <= endb <= 1 ->
  let s0 := h0 + load32_le inp in let s1 := h1 + load32_le (drop 4 inp) in
  let s2 := h2 + load32_le (drop 8 inp) in let s3 := h3 + load32_le (drop 12 inp) in
  let s4 := h4 + endb in
  exists k, hash_ok (poly_block r h inp endb) /\
    limbs_val (poly_block r h inp endb) + p1305 * k =
    (s0 + 2^32*s1 + 2^64*s2 + 2^96*s3 + 2^128*s4) * limbs_val r.
Proof.
  intros r h Ht Hr Hh Hin Hl He s0 s1 s2 s3 s4.
  destruct Hr as (R0 & R1 & R2 & R3 & _). destruct Hh as (H0 & H1 & H2 & H3 & H4).
  pose proof (load32_le_range inp Hin ltac:(lia)) as I0.
  pose proof (load32_le_range (drop 4 inp) ltac:(auto with bytes) ltac:(len)) as I1.
  pose proof (load32_le_range (drop 8 inp) ltac:(auto with bytes) ltac:(len)) as I2.
  pose proof (load32_le_range (drop 12 inp) ltac:(auto with bytes) ltac:(len)) as I3.
  destruct (poly_product s0 s1 s2 s3 s4 q0 q1 q2 q3 t) as [k Hk].
  unfold poly_block, r, h.
  rewrite (limb_shift q0 t), (limb_low q0 t) by done.
  rewrite <- (Z.add_0_r (4 * q1)), <- (Z.add_0_r (4 * q2)), <- (Z.add_0_r (4 * q3)).
  rewrite !limb_shift by lia. rewrite !Z.add_0_r.
  rewrite (Z.mul_comm 4 q1), (Z.mul_comm 4 q2), (Z.mul_comm 4 q3).
  rewrite (wrap_small 32 (q0 * 5)), (wrap_small 32 (q1 + q1 * 4)), (wrap_small 32 (q2 + q2 * 4)),
    (wrap_small 32 (q3 + q3 * 4)), !(wrap_small 64 (_ + load32_le _)), (wrap_small 32 (h4 + endb)) by lia.
  fold s0 s1 s2 s3 s4.
  assert (0 <= s0 <= 2 ^ 33 - 2) by lia. assert (0 <= s1 <= 2 ^ 33 - 2) by lia.
  assert (0 <= s2 <= 2 ^ 33 - 2) by lia. assert (0 <= s3 <= 2 ^ 33 - 2) by lia.
  assert (0 <= s4 <= 5) by lia. clearbody s0 s1 s2 s3 s4.
  replace (q1 + q1 * 4) with (5 * q1) by ring. replace (q2 + q2 * 4) with (5 * q2) by ring.
  replace (q3 + q3 * 4) with (5 * q3) by ring. replace (q0 * 5) with (5 * q0) by ring.
  rewrite !(wrap_top s4) by lia.
  pose proof (poly_bounds s0 s1 s2 s3 (5 * q3) (5 * q2) (5 * q1) (4 * q0 + t) (5 * q0) s4
    ltac:(lia) ltac:(lia) ltac:(lia) ltac:(lia) ltac:(lia) ltac:(lia) ltac:(lia) ltac:(lia)
    ltac:(lia) ltac:(lia)) as B0.
  pose proof (poly_bounds s0 s1 s2 s3 (4 * q0 + t) (5 * q3) (5 * q2) (q1 * 4) (5 * q1) s4
    ltac:(lia) ltac:(lia) ltac:(lia) ltac:(lia) ltac:(lia) ltac:(lia) ltac:(lia) ltac:(lia)
    ltac:(lia) ltac:(lia)) as B1.
  pose proof (poly_bounds s0 s1 s2 s3 (q1 * 4) (4 * q0 + t) (5 * q3) (q2 * 4) (5 * q2) s4
    ltac:(lia) ltac:(lia) ltac:(lia) ltac:(lia) ltac:(lia) ltac:(lia) ltac:(lia) ltac:(lia)
    ltac:(lia) ltac:(lia)) as B2.
  pose proof (poly_bounds_top s0 s1 s2 s3 (q2 * 4) (q1 * 4) (4 * q0 + t) (q3 * 4) (5 * q3) s4
    ltac:(lia) ltac:(lia) ltac:(lia) ltac:(lia) ltac:(lia) ltac:(lia) ltac:(lia) ltac:(lia)
    ltac:(lia) ltac:(lia)) as B3.
  rewrite !(wrap_small 64 (s0 * _ + _ + _ + _ + _)) by lia.
  destruct (poly_reduce _ _ _ _ (s4 * t) B0 B1 B2 B3 (mul_bound s4 t 5 3 ltac:(lia) ltac:(lia))) as [Hok Hval].
  cbv zeta in Hok, Hval, Hk.
  match type of Hval with _ + _ * ?x = _ => exists (x + k) end. split; [exact Hok|].
  rewrite (Z.mul_add_distr_l p1305), Z.add_assoc, Hval. cbn [limbs_val].
  rewrite !(Z.mul_comm _ 4). rewrite !(Z.mul_comm 4 q1), !(Z.mul_comm 4 q2), !(Z.mul_comm 4 q3) in Hk.
  lia.
Qed.

(** One block: [h := (h + c) * r] modulo 2^130 - 5, with the documented pre-
    and postcondition on the limbs. *)
Lemma poly_block_spec r h inp endb :
  mult_ok r -> hash_ok h -> bytes_ok inp -> (16 <= length inp)%nat -> 0 <= endb <= 1 ->
  hash_ok (poly_block r h inp endb) /\
  limbs_val (poly_block r h inp endb) mod p1305 =
  ((limbs_val h + le_val (take 16 inp) + endb * 2 ^ 128) * limbs_val r) mod p1305.
Proof.
  intros Hr Hh Hin Hl He.
  destruct r as [|r0 [|r1 [|r2 [|r3 [|]]]]]; try done.
  destruct h as [|h0 [|h1 [|h2 [|h3 [|h4 [|]]]]]]; try done.
  pose proof Hr as (R0 & R1 & R2 & R3 & M1 & M2 & M3).
  assert ([r0; r1; r2; r3] = [4 * (r0 / 4) + r0 mod 4; 4 * (r1 / 4); 4 * (r2 / 4); 4 * (r3 / 4)])
    as Er by (repeat f_equal; Z.div_mod_to_equations; lia).
  rewrite Er in Hr |- *.
  destruct (poly_block_nowrap (r0 mod 4) (r0 / 4) (r1 / 4) (r2 / 4) (r3 / 4) h0 h1 h2 h3 h4 inp endb)
    as (k & Hok & Hval); auto.
  { apply Z.mod_pos_bound. lia. }
  split; [exact Hok|].
  rewrite block_limbs by done.
  match type of Hval with ?l + _ = _ =>
    rewrite <- (Z.mod_add l k p1305) by done; rewrite (Z.mul_comm k), Hval end.
  f_equal. f_equal. cbn [limbs_val]. ring.
Qed.

(** ** Whole messages *)

(** Horner evaluation of [n] full blocks of [m]. *)
Fixpoint poly_eval (r : Z) (n : nat) (acc : Z) (m : list Z) : Z :=
  match n with
  | O => acc mod p1305
  | S n' => poly_eval r n' ((acc + le_val (take 16 m) + 2 ^ 128) * r) (drop 16 m)
  end.

(** The Poly1305 tag of RFC 8439, on numbers: full blocks, the last partial
    block with its end bit, plus the pad. *)
Definition poly1305_spec (r pad : Z) (m : list Z) : Z :=
  let n := (length m / 16)%nat in
  let acc := poly_eval r n 0 m in
  let tail := drop (16 * n) m in
  let acc :=
    if decide (tail = []) then acc
    else ((acc + le_val tail + 2 ^ (8 * Z.of_nat (length tail))) * r) mod p1305 in
  (acc + pad) mod 2 ^ 128.

Lemma poly_eval_mod r n acc m : poly_eval r n (acc mod p1305) m = poly_eval r n acc m.
Proof.
  revert acc m. induction n as [|n IH]; intros acc m; simpl.
  - by rewrite Zmod_mod.
  - rewrite <- IH. symmetry. rewrite <- IH. f_equal.
    rewrite Z.mul_mod, (Z.mul_mod (_ mod _ + _ + _)) by done. do 2 f_equal.
    rewrite <- !Z.add_assoc. by rewrite Zplus_mod_idemp_l.
Qed.

Lemma poly_eval_range r n acc m : 0 <= poly_eval r n acc m < p1305.
Proof.
  revert acc m. induction n as [|n IH]; intros acc m; simpl; [|done].
  by apply Z.mod_pos_bound.
Qed.

Lemma poly_eval_app r n k acc m :
  poly_eval r (n + k) acc m = poly_eval r k (poly_eval r n acc m) (drop (16 * n) m).
Proof.
  revert acc m. induction n as [|n IH]; intros acc m; cbn [Nat.add poly_eval].
  - by rewrite poly_eval_mod.
  - rewrite IH, drop_drop. do 2 f_equal. lia.
Qed.

Lemma poly_eval_take r n acc m : poly_eval r n acc (take (16 * n) m) = poly_eval r n acc m.
Proof.
  revert acc m. induction n as [|n IH]; intros acc m; [done|]. cbn [poly_eval].
  rewrite take_take, Nat.min_l by lia. rewrite skipn_firstn_comm.
  replace (16 * S n - 16)%nat with (16 * n)%nat by lia. apply IH.
Qed.

Lemma poly_loop_spec r h inp n :
  mult_ok r -> hash_ok h -> bytes_ok inp -> (16 * n <= length inp)%nat ->
  hash_ok (poly_loop r h inp n 1) /\
  limbs_val (poly_loop r h inp n 1) mod p1305 = poly_eval (limbs_val r) n (limbs_val h) inp.
Proof.
  intros Hr. revert h inp. induction n as [|n IH]; intros h inp Hh Hi Hl; [done|].
  cbn [poly_loop poly_eval].
  destruct (poly_block_spec r h inp 1) as [Hok Hv]; auto; [lia|lia|].
  destruct (IH (poly_block r h inp 1) (drop 16 inp)) as [Hok' Hv']; auto with bytes; [len|].
  split; [done|]. rewrite Hv', <- poly_eval_mod, Hv, poly_eval_mod, Z.mul_1_l. done.
Qed.

(** ** The incremental interface *)

(** [ctx] has absorbed the message [m]: [k] blocks are in the hash, the rest
    is in the chunk. *)
Record poly_absorbed (r pad : list Z) (k : nat) (ctx : crypto_poly1305_ctx) (m : list Z) : Prop := {
  pa_r : pc_r ctx = r;
  pa_pad : pc_pad ctx = pad;
  pa_mult : mult_ok r;
  pa_hash : hash_ok (pc_h ctx);
  pa_val : limbs_val (pc_h ctx) mod p1305 = poly_eval (limbs_val r) k 0 m;
  pa_c : length (pc_c ctx) = 16%nat;
  pa_c_ok : bytes_ok (pc_c ctx);
  pa_m_ok : bytes_ok m;
  pa_len : length m = (16 * k + pc_c_idx ctx)%nat;
  pa_idx : (pc_c_idx ctx <= 16)%nat;
  pa_tail : take (pc_c_idx ctx) (pc_c ctx) = drop (16 * k) m
}.

Lemma poly_fill_spec n s c i :
  (i + n <= length c)%nat -> (n <= length s)%nat ->
  poly_fill n s c i = (take i c ++ take n s ++ drop (i + n) c, (i + n)%nat).
Proof.
  revert s c i. induction n as [|n IH]; intros s c i Hc Hs.
  - simpl. rewrite Nat.add_0_r. by rewrite take_drop.
  - destruct s as [|b s]; simpl in Hs; [lia|]. cbn [poly_fill].
    rewrite IH by (rewrite ?length_insert; lia). f_equal; [|lia].
    rewrite (take_S_r _ _ b) by (apply list_lookup_insert_eq; lia).
    rewrite take_insert_ge by lia. rewrite drop_insert_lt by lia.
    rewrite <- app_assoc. cbn [take app]. do 3 f_equal. f_equal. lia.
Qed.

Lemma poly_eval_prefix r k acc m s :
  (16 * k <= length m)%nat -> poly_eval r k acc (m ++ s) = poly_eval r k acc m.
Proof.
  intros H. rewrite <- poly_eval_take, take_app_le by done. apply poly_eval_take.
Qed.

Lemma absorb_fill r pad k ctx m n s :
  poly_absorbed r pad k ctx m -> bytes_ok s ->
  (pc_c_idx ctx + n <= 16)%nat -> (n <= length s)%nat ->
  let '(c, i) := poly_fill n s (pc_c ctx) (pc_c_idx ctx) in
  i = (pc_c_idx ctx + n)%nat /\ poly_absorbed r pad k (set_chunk c i ctx) (m ++ take n s).
Proof.
  intros [] Hs Hi Hn. rewrite poly_fill_spec by lia. split; [done|].
  assert (bytes_ok (take n s)) by auto with bytes.
  split; cbn; auto.
  - by rewrite poly_eval_prefix by lia.
  - len.
  - auto with bytes.
  - auto with bytes.
  - len.
  - rewrite app_assoc, take_app_le by len. rewrite take_ge by len.
    rewrite drop_app_le by lia. by rewrite pa_tail0.
Qed.

Lemma absorb_flush r pad k ctx m :
  poly_absorbed r pad k ctx m -> pc_c_idx ctx = 16%nat ->
  poly_absorbed r pad (S k) (set_chunk (pc_c ctx) 0 (poly_blocks ctx (pc_c ctx) 1 1)) m.
Proof.
  intros [] Hi. rewrite Hi in *. rewrite take_ge in pa_tail0 by lia.
  destruct (poly_loop_spec (pc_r ctx) (pc_h ctx) (pc_c ctx) 1) as [Hok Hv];
    rewrite ?pa_r0; auto; [lia|]. rewrite pa_r0 in *.
  split; cbn [pc_r pc_pad pc_h pc_c pc_c_idx set_chunk poly_blocks set_h]; auto.
  - by rewrite pa_r0.
  - rewrite pa_r0, Hv. replace (S k) with (k + 1)%nat by lia.
    rewrite poly_eval_app, <- pa_tail0, <- pa_val0, poly_eval_mod. done.
  - lia.
  - lia.
  - rewrite take_0. symmetry. apply drop_ge. lia.
Qed.

Lemma absorb_blocks r pad k ctx m n s :
  poly_absorbed r pad k ctx m -> pc_c_idx ctx = 0%nat -> bytes_ok s ->
  (16 * n <= length s)%nat ->
  poly_absorbed r pad (k + n) (poly_blocks ctx s n 1) (m ++ take (16 * n) s).
Proof.
  intros [] Hi Hs Hn. rewrite Hi in *.
  destruct (poly_loop_spec (pc_r ctx) (pc_h ctx) s n) as [Hok Hv];
    rewrite ?pa_r0; auto. rewrite pa_r0 in *.
  split; cbn [pc_r pc_pad pc_h pc_c pc_c_idx set_chunk poly_blocks set_h]; auto.
  - by rewrite pa_r0.
  - rewrite pa_r0, Hv, poly_eval_app, poly_eval_prefix by lia.
    rewrite drop_app_ge by lia.
    rewrite <- pa_val0, poly_eval_mod.
    replace (16 * k - length m)%nat with 0%nat by lia. by rewrite drop_0, poly_eval_take.
  - auto with bytes.
  - len.
  - lia.
  - rewrite Hi, take_0. symmetry. apply drop_ge. len.
Qed.

Lemma gap_spec x : 0 <= x < 2 ^ 64 -> gap x 16 = (- x) mod 16.
Proof.
  intros Hx. unfold gap, wnot. change (16 - 1) with (Z.ones 4). rewrite Z.land_ones by lia.
  assert (Z.lxor x (2 ^ 64 - 1) = 2 ^ 64 - 1 - x) as ->.
  { change (2 ^ 64 - 1) with (Z.ones 64).
    assert (Z.land x (Z.lxor x (Z.ones 64)) = 0) as Hl.
    { apply Z.bits_inj'. intros i Hi. rewrite Z.land_spec, Z.lxor_spec, Z.bits_0.
      rewrite Z.testbit_ones_nonneg by lia.
      destruct (Z.ltb_spec i 64); [by destruct (Z.testbit x i)|].
      apply (word_ok_testbit 64) in Hx as [_ Hb]; [|lia]. by rewrite Hb. }
    apply Z.add_nocarry_lxor in Hl. rewrite <- Z.lxor_assoc, Z.lxor_nilpotent, Z.lxor_0_l in Hl.
    lia. }
  unfold wrap. change (2 ^ 4) with 16. change (2 ^ 64) with (16 * 2 ^ 60).
  rewrite Z.mod_mod_divide by (exists (2 ^ 60); lia). Z.div_mod_to_equations. lia.
Qed.

Lemma gap_fill i : (i < 16)%nat -> Z.to_nat ((- Z.of_nat i) mod 16) = ((16 - i) mod 16)%nat.
Proof. intros H. do 16 (destruct i as [|i]; [reflexivity|]). lia. Qed.

(** [crypto_poly1305_update] absorbs [message_size] bytes. *)
Lemma crypto_poly1305_update_spec r pad k ctx m s n :
  poly_absorbed r pad k ctx m -> (pc_c_idx ctx < 16)%nat -> bytes_ok s ->
  (n <= length s)%nat ->
  let ctx' := crypto_poly1305_update ctx s n in
  (pc_c_idx ctx' < 16)%nat /\
  exists k', poly_absorbed r pad k' ctx' (m ++ take n s).
Proof.
  intros Ha Hi Hs Hn. unfold crypto_poly1305_update.
  case_decide as Hz; [subst; cbn; rewrite take_0, app_nil_r; eauto|].
  rewrite gap_spec by lia.
  set (aligned := Nat.min _ n).
  assert (aligned = Nat.min ((16 - pc_c_idx ctx) mod 16) n) as Eal.
  { unfold aligned. f_equal. by apply gap_fill. }
  clearbody aligned.
  assert (pc_c_idx ctx + aligned <= 16)%nat as Hle.
  { pose proof (Nat.Div0.mod_le (16 - pc_c_idx ctx) 16). lia. }
  pose proof (absorb_fill r pad k ctx m aligned s Ha Hs Hle ltac:(lia)) as Hf.
  destruct (poly_fill aligned s _ _) as [c i]. destruct Hf as [Ei Hf].
  cbv zeta. set (ctx1 := set_chunk c i ctx) in *.
  assert (pc_c_idx ctx1 = i) as E1 by done.
  set (ctx2 := if decide (pc_c_idx ctx1 = 16%nat) then _ else ctx1).
  assert (exists k2, poly_absorbed r pad k2 ctx2 (m ++ take aligned s) /\
          (pc_c_idx ctx2 < 16)%nat /\ (pc_c_idx ctx2 = 0%nat \/ aligned = n)) as (k2 & H2 & L2 & C2).
  { unfold ctx2. case_decide as E16.
    - exists (S k). split; [by apply absorb_flush|]. cbn. lia.
    - exists k. split; [done|]. split; [pose proof (pa_idx _ _ _ _ _ Hf); lia|].
      destruct (decide (pc_c_idx ctx = 0%nat)) as [Z0|Z0].
      + rewrite Z0 in *. change ((16 - 0) mod 16)%nat with 0%nat in Eal. lia.
      + rewrite Nat.mod_small in Eal by lia. lia. }
  clearbody ctx2. clear Hf E1 ctx1 Ei Hle.
  set (rest := drop aligned s). set (left := (n - aligned)%nat).
  pose proof (Nat.div_mod_eq left 16) as Hdm. pose proof (Nat.mod_upper_bound left 16).
  assert (pc_c_idx ctx2 = 0%nat \/ left = 0%nat) as [Z2|Z2] by (unfold left; lia).
  - pose proof (absorb_blocks r pad k2 ctx2 _ (left / 16) rest H2 Z2
      ltac:(unfold rest; auto with bytes) ltac:(unfold rest, left in *; len)) as Hb.
    set (ctx3 := poly_blocks ctx2 rest (left / 16) 1) in *.
    assert (pc_c_idx ctx3 = 0%nat) as Z3 by done. clearbody ctx3.
    pose proof (absorb_fill r pad _ ctx3 _ (left mod 16) (drop (16 * (left / 16)) rest) Hb
      ltac:(unfold rest; auto with bytes) ltac:(lia) ltac:(unfold rest, left in *; len)) as Hf.
    destruct (poly_fill _ _ _ _) as [c' i']. destruct Hf as [Ei Hf].
    split; [cbn; lia|]. eexists. rewrite <- !app_assoc in Hf.
    assert (take aligned s ++ take (16 * (left / 16)) rest ++
            take (left mod 16) (drop (16 * (left / 16)) rest) = take n s) as <-; [|exact Hf].
    rewrite take_take_drop, <- Hdm. unfold rest, left. rewrite take_take_drop. f_equal. lia.
  - rewrite Z2. cbn [Nat.div Nat.modulo Nat.divmod fst snd Nat.sub poly_fill].
    unfold left in Z2. replace aligned with n in H2 by lia.
    split; [done|]. exists k2. destruct H2. by split.
Qed.

(** ** Initialisation and final tag *)

Lemma land_mask_le x c : 0 <= c -> 0 <= Z.land x c <= c.
Proof.
  intros Hc. split; [apply Z.land_nonneg; lia|].
  assert (Z.land x c + Z.land (Z.lnot x) c = c) as E.
  { rewrite Z.add_nocarry_lxor.
    - apply Z.bits_inj'. intros i Hi. rewrite Z.lxor_spec, !Z.land_spec, Z.lnot_spec by lia.
      by destruct (Z.testbit x i), (Z.testbit c i).
    - apply Z.bits_inj'. intros i Hi. rewrite !Z.land_spec, Z.lnot_spec, Z.bits_0 by lia.
      by destruct (Z.testbit x i), (Z.testbit c i). }
  assert (0 <= Z.land (Z.lnot x) c) by (apply Z.land_nonneg; lia). lia.
Qed.

Lemma poly_clamp_ok r0 r1 r2 r3 : mult_ok (poly_clamp [r0; r1; r2; r3]).
Proof.
  cbn [poly_clamp mult_ok].
  assert (forall x, Z.land x 0x0ffffffc mod 4 = 0) as Hm.
  { intros x. change 4 with (2 ^ 2). rewrite <- Z.land_ones, <- Z.land_assoc by lia.
    apply Z.land_0_r. }
  pose proof (land_mask_le r0 0x0fffffff). pose proof (land_mask_le r1 0x0ffffffc).
  pose proof (land_mask_le r2 0x0ffffffc). pose proof (land_mask_le r3 0x0ffffffc).
  rewrite !Hm. lia.
Qed.

Lemma crypto_poly1305_init_spec c0 key :
  length c0 = 16%nat -> bytes_ok c0 ->
  poly_absorbed (poly_clamp (load32_le_buf 4 key)) (load32_le_buf 4 (drop 16 key)) 0
    (crypto_poly1305_init c0 key) [].
Proof.
  intros Hl Hc. split; cbn [crypto_poly1305_init pc_r pc_pad pc_h pc_c pc_c_idx]; auto.
  - apply poly_clamp_ok.
  - cbn. lia.
  - constructor.
  - lia.
Qed.

Lemma poly_final_carry_spec h :
  hash_ok h -> poly_final_carry h = if decide (p1305 <= limbs_val h) then 5 else 0.
Proof.
  destruct h as [|h0 [|h1 [|h2 [|h3 [|h4 [|]]]]]]; try done. intros (H0 & H1 & H2 & H3 & H4).
  unfold poly_final_carry. cbn [take fold_left byte_at nth limbs_val].
  unfold wrap. rewrite !Z.shiftr_div_pow2 by lia. change (2 ^ 2) with 4.
  rewrite (Z.mod_small (5 + h0)) by lia. split_word (5 + h0).
  set (c0 := (5 + h0) / 2 ^ 32) in *.
  rewrite (Z.mod_small (c0 + h1)) by lia. split_word (c0 + h1).
  set (c1 := (c0 + h1) / 2 ^ 32) in *.
  rewrite (Z.mod_small (c1 + h2)) by lia. split_word (c1 + h2).
  set (c2 := (c1 + h2) / 2 ^ 32) in *.
  rewrite (Z.mod_small (c2 + h3)) by lia. split_word (c2 + h3).
  set (c3 := (c2 + h3) / 2 ^ 32) in *.
  rewrite (Z.mod_small (c3 + h4)) by lia.
  unfold p1305. case_decide as Hd.
  - replace ((c3 + h4) / 4) with 1; [done|]. apply Z.div_unique with (c3 + h4 - 4); lia.
  - replace ((c3 + h4) / 4) with 0; [done|]. symmetry. apply Z.div_small. lia.
Qed.

Lemma word_list_bytes w0 w1 w2 w3 :
  word_ok 32 w0 -> word_ok 32 w1 -> word_ok 32 w2 -> word_ok 32 w3 ->
  le_bytes 4 w0 ++ le_bytes 4 w1 ++ le_bytes 4 w2 ++ le_bytes 4 w3 =
  le_bytes 16 (limbs_val [w0; w1; w2; w3]).
Proof.
  intros. set (l := _ ++ _). assert (bytes_ok l) as Hl by (unfold l; auto with bytes).
  assert (le_val l = limbs_val [w0; w1; w2; w3]) as <-.
  { unfold l. rewrite !le_val_app, !length_le_bytes, !le_val_bytes by assumption.
    cbn [limbs_val]. change (2 ^ (8 * Z.of_nat 4)) with (2 ^ 32). lia. }
  symmetry. exact (le_bytes_val l Hl).
Qed.

Lemma poly_final_store_spec c h0 h1 h2 h3 p0 p1 p2 p3 :
  0 <= c <= 5 ->
  word_ok 32 h0 -> word_ok 32 h1 -> word_ok 32 h2 -> word_ok 32 h3 ->
  word_ok 32 p0 -> word_ok 32 p1 -> word_ok 32 p2 -> word_ok 32 p3 ->
  poly_final_store c [h0; h1; h2; h3] [p0; p1; p2; p3] =
  le_bytes 16 ((c + limbs_val [h0; h1; h2; h3] + limbs_val [p0; p1; p2; p3]) mod 2 ^ 128).
Proof.
  unfold word_ok. intros. cbn [poly_final_store].
  unfold wrap. rewrite !Z.shiftr_div_pow2 by lia.
  rewrite (Z.mod_small (c + (h0 + p0)) (2 ^ 64)) by lia. split_word (c + (h0 + p0)).
  set (c0 := (c + (h0 + p0)) / 2 ^ 32) in *.
  rewrite (Z.mod_small (c0 + (h1 + p1)) (2 ^ 64)) by lia. split_word (c0 + (h1 + p1)).
  set (c1 := (c0 + (h1 + p1)) / 2 ^ 32) in *.
  rewrite (Z.mod_small (c1 + (h2 + p2)) (2 ^ 64)) by lia. split_word (c1 + (h2 + p2)).
  set (c2 := (c1 + (h2 + p2)) / 2 ^ 32) in *.
  rewrite (Z.mod_small (c2 + (h3 + p3)) (2 ^ 64)) by lia. split_word (c2 + (h3 + p3)).
  rewrite !store32_le_spec, app_nil_r, word_list_bytes by (unfold word_ok; lia).
  f_equal. cbn [limbs_val].
  apply Z.mod_unique with ((c2 + (h3 + p3)) / 2 ^ 32); [left|]; lia.
Qed.

Lemma hash_ok_limbs h : hash_ok h -> exists h0 h1 h2 h3 h4,
  h = [h0; h1; h2; h3; h4] /\ word_ok 32 h0 /\ word_ok 32 h1 /\ word_ok 32 h2 /\
  word_ok 32 h3 /\ 0 <= h4 <= 4.
Proof.
  destruct h as [|h0 [|h1 [|h2 [|h3 [|h4 [|]]]]]]; try done.
  intros (? & ? & ? & ? & ?). exists h0, h1, h2, h3, h4. done.
Qed.

(** The last additions: full reduction of the hash, plus the pad. *)
Lemma poly_final_reduce h p0 p1 p2 p3 :
  hash_ok h -> word_ok 32 p0 -> word_ok 32 p1 -> word_ok 32 p2 -> word_ok 32 p3 ->
  poly_final_store (poly_final_carry h) (take 4 h) [p0; p1; p2; p3] =
  le_bytes 16 ((limbs_val h mod p1305 + limbs_val [p0; p1; p2; p3]) mod 2 ^ 128).
Proof.
  intros Hh P0 P1 P2 P3. rewrite poly_final_carry_spec by done.
  destruct (hash_ok_limbs h Hh) as (h0 & h1 & h2 & h3 & h4 & -> & H0 & H1 & H2 & H3 & H4).
  cbn [take]. rewrite poly_final_store_spec by (auto; case_decide; lia).
  f_equal. set (pad := limbs_val [p0; p1; p2; p3]). cbn [limbs_val].
  set (v := h0 + _ + _ + _). unfold word_ok in *.
  assert (0 <= v < 2 ^ 128) by (unfold v; lia). clearbody v pad.
  unfold p1305 in *. case_decide as Hd.
  - rewrite <- (Z.mod_unique (v + 2 ^ 128 * h4) (2 ^ 130 - 5) 1 (v + 2 ^ 128 * h4 - (2 ^ 130 - 5)))
      by lia.
    replace (v + 2 ^ 128 * h4 - (2 ^ 130 - 5) + pad) with (5 + v + pad + (h4 - 4) * 2 ^ 128) by lia.
    by rewrite Z.mod_add by lia.
  - rewrite (Z.mod_small (v + 2 ^ 128 * h4)) by lia.
    replace (v + 2 ^ 128 * h4 + pad) with (0 + v + pad + h4 * 2 ^ 128) by lia.
    by rewrite Z.mod_add by lia.
Qed.

Lemma le_val_zeros n : le_val (replicate n 0) = 0.
Proof. induction n as [|n IH]; [done|]. cbn [replicate le_val]. by rewrite IH. Qed.

(** The padded last block: the message bytes, a 1, and zeros. *)
Lemma final_block_val c i :
  (i < 16)%nat -> length c = 16%nat -> bytes_ok c ->
  let b := <[i := 1]> (take i c ++ replicate (16 - i) 0) in
  length b = 16%nat /\ bytes_ok b /\ le_val b = le_val (take i c) + 2 ^ (8 * Z.of_nat i).
Proof.
  intros Hi Hl Hc b.
  assert (b = take i c ++ 1 :: replicate (15 - i) 0) as ->.
  { unfold b. rewrite insert_app_r_alt by len. f_equal.
    replace (i - length (take i c))%nat with 0%nat by len.
    replace (16 - i)%nat with (S (15 - i)) by lia. done. }
  split; [rewrite length_app; cbn [length]; len|]. split.
  - apply bytes_ok_app; [auto with bytes|]. constructor; [done|].
    apply bytes_ok_replicate. done.
  - rewrite le_val_app. cbn [le_val]. rewrite le_val_zeros, length_take, Nat.min_l by lia. lia.
Qed.

Lemma crypto_poly1305_final_spec r pad k ctx m p0 p1 p2 p3 :
  poly_absorbed r pad k ctx m -> (pc_c_idx ctx < 16)%nat -> pad = [p0; p1; p2; p3] ->
  word_ok 32 p0 -> word_ok 32 p1 -> word_ok 32 p2 -> word_ok 32 p3 ->
  crypto_poly1305_final ctx = le_bytes 16 (poly1305_spec (limbs_val r) (limbs_val pad) m).
Proof.
  intros [] Hi -> P0 P1 P2 P3. unfold crypto_poly1305_final, poly1305_spec.
  assert (length m / 16 = k)%nat as ->.
  { rewrite pa_len0. rewrite Nat.add_comm, Nat.mul_comm, Nat.div_add, Nat.div_small by lia. done. }
  rewrite <- pa_tail0. case_decide as Hz.
  - rewrite Hz, take_0. rewrite decide_True by done.
    rewrite pa_pad0, poly_final_reduce by done. by rewrite pa_val0.
  - rewrite decide_False; [|intros E; apply (f_equal length) in E; len].
    destruct (final_block_val (pc_c ctx) (pc_c_idx ctx) Hi pa_c0 pa_c_ok0) as (Lb & Ob & Vb).
    set (b := <[_ := _]> _) in *. clearbody b.
    cbn [poly_blocks set_chunk set_h pc_r pc_pad pc_h pc_c poly_loop].
    rewrite pa_pad0, pa_r0.
    destruct (poly_block_spec r (pc_h ctx) b 0) as [Hok Hv]; auto; [lia|lia|].
    rewrite poly_final_reduce by done. rewrite Hv. rewrite take_ge by lia.
    do 3 f_equal. rewrite Vb, length_take, Nat.min_l by lia.
    rewrite <- Zmult_mod_idemp_l.
    rewrite <- (Zmult_mod_idemp_l (poly_eval _ _ _ _ + _ + _)). f_equal. f_equal.
    rewrite <- pa_val0. rewrite <- !Z.add_assoc, Zplus_mod_idemp_l. f_equal. lia.
Qed.

(** The key split of the RFC: 16 bytes of clamped multiplier, 16 of pad. *)
Definition poly_key_r (key : list Z) : Z := limbs_val (poly_clamp (load32_le_buf 4 key)).
Definition poly_key_pad (key : list Z) : Z := limbs_val (load32_le_buf 4 (drop 16 key)).

Lemma crypto_poly1305_final_key key k ctx m :
  bytes_ok key -> length key = 32%nat ->
  poly_absorbed (poly_clamp (load32_le_buf 4 key)) (load32_le_buf 4 (drop 16 key)) k ctx m ->
  (pc_c_idx ctx < 16)%nat ->
  crypto_poly1305_final ctx = le_bytes 16 (poly1305_spec (poly_key_r key) (poly_key_pad key) m).
Proof.
  intros Hk Hl Ha Hi. unfold poly_key_r, poly_key_pad.
  eapply crypto_poly1305_final_spec; [done|done|reflexivity|..];
    apply load32_le_range; auto with bytes; len.
Qed.

(** One-shot and incremental use agree with the mathematical tag. *)
Lemma crypto_poly1305_spec c0 m key :
  length c0 = 16%nat -> bytes_ok c0 -> bytes_ok m -> bytes_ok key -> length key = 32%nat ->
  crypto_poly1305 c0 m (length m) key =
  le_bytes 16 (poly1305_spec (poly_key_r key) (poly_key_pad key) m).
Proof.
  intros Lc Oc Om Ok Lk. unfold crypto_poly1305.
  pose proof (crypto_poly1305_init_spec c0 key Lc Oc) as H0.
  destruct (crypto_poly1305_update_spec _ _ _ _ _ m (length m) H0) as (Hi & k & Hk);
    [cbn; lia|done|lia|].
  rewrite take_ge in Hk by lia. by apply (crypto_poly1305_final_key key k).
Qed.

(** * Property *)

(** C5 The incremental authenticator computes Poly1305: however a message is
    cut into updates, and whatever the uninitialised chunk held, the tag on
    32-bit limbs is the polynomial of the message at the clamped multiplier
    modulo 2^130 - 5, plus the pad, modulo 2^128. *)
Theorem crypto_poly1305_incremental c0 key chunks :
  length c0 = 16%nat -> bytes_ok c0 -> bytes_ok key -> length key = 32%nat ->
  Forall bytes_ok chunks ->
  crypto_poly1305_final
    (fold_left (fun ctx s => crypto_poly1305_update ctx s (length s)) chunks
       (crypto_poly1305_init c0 key)) =
  le_bytes 16 (poly1305_spec (poly_key_r key) (poly_key_pad key) (concat chunks)).
Proof.
  intros Lc Oc Ok Lk Hch.
  assert (forall chunks m k ctx, Forall bytes_ok chunks -> (pc_c_idx ctx < 16)%nat ->
    poly_absorbed (poly_clamp (load32_le_buf 4 key)) (load32_le_buf 4 (drop 16 key)) k ctx m ->
    crypto_poly1305_final
      (fold_left (fun ctx s => crypto_poly1305_update ctx s (length s)) chunks ctx) =
    le_bytes 16 (poly1305_spec (poly_key_r key) (poly_key_pad key) (m ++ concat chunks))) as Hall.
  { clear chunks Hch. induction chunks as [|s chunks IH]; intros m k ctx Hch Hi Ha.
    - cbn [fold_left concat]. rewrite app_nil_r. by apply (crypto_poly1305_final_key key k).
    - apply Forall_cons_iff in Hch as [Hs Hch]. cbn [fold_left concat].
      destruct (crypto_poly1305_update_spec _ _ _ _ _ s (length s) Ha) as (Hi' & k' & Ha'); [done..|].
      rewrite take_ge in Ha' by lia. rewrite app_assoc. by apply (IH _ k'). }
  apply (Hall chunks [] 0%nat); [done|cbn; lia|by apply crypto_poly1305_init_spec].
Qed.

Lemma crypto_poly1305_incremental_witness :
  crypto_poly1305_final
    (fold_left (fun ctx s => crypto_poly1305_update ctx s (length s))
       [[1; 2; 3]; replicate 20 9; []; replicate 9 255]
       (crypto_poly1305_init (replicate 16 7) (replicate 32 11))) =
  le_bytes 16 (poly1305_spec (poly_key_r (replicate 32 11)) (poly_key_pad (replicate 32 11))
                 (concat [[1; 2; 3]; replicate 20 9; []; replicate 9 255])).
Proof. apply crypto_poly1305_incremental; by_compute. Defined.
