(* ===== verification/Aead.v ===== *)
(** Monocypher's authenticated encryption (src/src/monocypher.c, lines
    2856-2953), on separate buffers and on one buffer in which the plain text
    and the cipher text overlap, as [vf_pack] and [vf_unpack] use it. *)
From S2P Require Import Prelude Chacha ChachaRef Poly1305.

(** [crypto_aead_ctx] *)
Record crypto_aead_ctx := {
  ac_counter : Z;
  ac_key : list Z;      (** 32 bytes *)
  ac_nonce : list Z     (** 8 bytes *)
}.

Definition set_ac_key (k : list Z) (ctx : crypto_aead_ctx) : crypto_aead_ctx :=
  {| ac_counter := ac_counter ctx; ac_key := k; ac_nonce := ac_nonce ctx |}.

(** The static [zero] block. *)
Definition zero_block : list Z := replicate 128 0.

(** [c0] is the uninitialised chunk of the automatic [poly_ctx]. *)
Definition lock_auth (c0 auth_key ad : list Z) (ad_size : nat)
    (cipher_text : list Z) (text_size : nat) : list Z :=
  let sizes := store64_le (Z.of_nat ad_size) ++ store64_le (Z.of_nat text_size) in
  let poly_ctx := crypto_poly1305_init c0 auth_key in
  let poly_ctx := crypto_poly1305_update poly_ctx ad ad_size in
  let poly_ctx := crypto_poly1305_update poly_ctx zero_block
                    (Z.to_nat (gap (Z.of_nat ad_size) 16)) in
  let poly_ctx := crypto_poly1305_update poly_ctx cipher_text text_size in
  let poly_ctx := crypto_poly1305_update poly_ctx zero_block
                    (Z.to_nat (gap (Z.of_nat text_size) 16)) in
  let poly_ctx := crypto_poly1305_update poly_ctx sizes 16 in
  crypto_poly1305_final poly_ctx.

(** What the callers pass for the uninitialised chunk; [lock_auth_spec] shows
    that no tag depends on it. *)
Definition stack_chunk : list Z := replicate 16 0.

Definition crypto_aead_init_x (key nonce : list Z) : crypto_aead_ctx :=
  {| ac_counter := 0; ac_key := crypto_chacha20_h key nonce;
     ac_nonce := take 8 (drop 16 nonce) |}.

Definition crypto_aead_init_djb (key nonce : list Z) : crypto_aead_ctx :=
  {| ac_counter := 0; ac_key := take 32 key; ac_nonce := take 8 nonce |}.

Definition crypto_aead_init_ietf (key nonce : list Z) : crypto_aead_ctx :=
  {| ac_counter := u64 (Z.shiftl (load32_le nonce) 32);
     ac_key := take 32 key; ac_nonce := take 8 (drop 4 nonce) |}.

(** The 64 bytes of [auth_key]: 32 of authentication key, 32 of the next key. *)
Definition aead_auth_key (ctx : crypto_aead_ctx) : list Z :=
  fst (crypto_chacha20_djb None 64 (ac_key ctx) (ac_nonce ctx) (ac_counter ctx)).

(** Returns the new context, the cipher text and the mac. *)
Definition crypto_aead_write (ctx : crypto_aead_ctx) (ad : list Z) (ad_size : nat)
    (plain_text : list Z) (text_size : nat) : crypto_aead_ctx * list Z * list Z :=
  let auth_key := aead_auth_key ctx in
  let cipher_text := fst (crypto_chacha20_djb (Some plain_text) (Z.of_nat text_size)
                            (ac_key ctx) (ac_nonce ctx) (u64 (ac_counter ctx + 1))) in
  let mac := lock_auth stack_chunk auth_key ad ad_size cipher_text text_size in
  (set_ac_key (take 32 (drop 32 auth_key)) ctx, cipher_text, mac).

(** Returns the new context, the mismatch code and the plain text, [None]
    when [plain_text] is left unwritten. *)
Definition crypto_aead_read (ctx : crypto_aead_ctx) (mac ad : list Z) (ad_size : nat)
    (cipher_text : list Z) (text_size : nat) : crypto_aead_ctx * Z * option (list Z) :=
  let auth_key := aead_auth_key ctx in
  let real_mac := lock_auth stack_chunk auth_key ad ad_size cipher_text text_size in
  let mismatch := crypto_verify16 mac real_mac in
  if decide (mismatch = 0) then
    let plain_text := fst (crypto_chacha20_djb (Some cipher_text) (Z.of_nat text_size)
                             (ac_key ctx) (ac_nonce ctx) (u64 (ac_counter ctx + 1))) in
    (set_ac_key (take 32 (drop 32 auth_key)) ctx, mismatch, Some plain_text)
  else (ctx, mismatch, None).

Definition crypto_aead_lock (key nonce ad : list Z) (ad_size : nat)
    (plain_text : list Z) (text_size : nat) : list Z * list Z :=
  let '(_, cipher_text, mac) :=
    crypto_aead_write (crypto_aead_init_x key nonce) ad ad_size plain_text text_size in
  (cipher_text, mac).

Definition crypto_aead_unlock (mac key nonce ad : list Z) (ad_size : nat)
    (cipher_text : list Z) (text_size : nat) : Z * option (list Z) :=
  let '(_, mismatch, plain_text) :=
    crypto_aead_read (crypto_aead_init_x key nonce) mac ad ad_size cipher_text text_size in
  (mismatch, plain_text).

(** * On one buffer

    The same routines when both texts live in [buf] at byte offsets [dst] and
    [src] and may overlap: each word is loaded before it is stored, in
    ascending order. *)

Fixpoint chacha20_mem_words (ps : list Z) (buf : list Z) (dst src : nat) : option (list Z) :=
  match ps with
  | [] => Some buf
  | p :: ps' =>
      w ← get_bytes src 4 buf;
      buf ← put_bytes dst (store32_le (Z.lxor p (load32_le w))) buf;
      chacha20_mem_words ps' buf (dst + 4) (src + 4)
  end.

Fixpoint chacha20_mem_blocks (nb : nat) (input : list Z) (buf : list Z) (dst src : nat)
    : option (list Z * list Z) :=
  match nb with
  | O => Some (buf, input)
  | S n =>
      buf ← chacha20_mem_words (zip_with add32 (chacha20_rounds input) input) buf dst src;
      chacha20_mem_blocks n (chacha20_next input) buf (dst + 64) (src + 64)
  end.

Fixpoint chacha20_mem_tail (tmp : list Z) (buf : list Z) (dst src : nat) : option (list Z) :=
  match tmp with
  | [] => Some buf
  | t :: tmp' =>
      p ← get_bytes src 1 buf;
      buf ← put_bytes dst [Z.lxor t (byte_at 0 p)] buf;
      chacha20_mem_tail tmp' buf (dst + 1) (src + 1)
  end.

Definition crypto_chacha20_djb_mem (buf : list Z) (dst src : nat) (text_size : Z)
    (key nonce : list Z) (ctr : Z) : option (list Z) :=
  let input := chacha20_setup key nonce ctr in
  let nb := Z.to_nat (Z.shiftr text_size 6) in
  '(buf, input) ← chacha20_mem_blocks nb input buf dst src;
  chacha20_mem_tail (take (Z.to_nat (Z.land text_size 63)) (chacha20_block_bytes input)) buf
    (dst + 64 * nb) (src + 64 * nb).

(** [crypto_aead_lock] with [cipher_text = buf + dst], [plain_text = buf + src]
    and [mac = buf + mac_off]; no additional data. *)
Definition crypto_aead_lock_mem (buf : list Z) (dst mac_off : nat) (key nonce : list Z)
    (src text_size : nat) : option (list Z) :=
  let ctx := crypto_aead_init_x key nonce in
  let auth_key := aead_auth_key ctx in
  buf ← crypto_chacha20_djb_mem buf dst src (Z.of_nat text_size)
          (ac_key ctx) (ac_nonce ctx) (u64 (ac_counter ctx + 1));
  cipher_text ← get_bytes dst text_size buf;
  put_bytes mac_off (lock_auth stack_chunk auth_key [] 0 cipher_text text_size) buf.

(** [crypto_aead_unlock] with [plain_text = buf + dst], [mac = buf + mac_off],
    [nonce = buf + nonce_off] and [cipher_text = buf + src]: the nonce is
    consumed and the mac compared before the first byte is written. *)
Definition crypto_aead_unlock_mem (buf : list Z) (dst mac_off : nat) (key : list Z)
    (nonce_off src text_size : nat) : option (Z * list Z) :=
  nonce ← get_bytes nonce_off 24 buf;
  let ctx := crypto_aead_init_x key nonce in
  let auth_key := aead_auth_key ctx in
  cipher_text ← get_bytes src text_size buf;
  mac ← get_bytes mac_off 16 buf;
  let real_mac := lock_auth stack_chunk auth_key [] 0 cipher_text text_size in
  let mismatch := crypto_verify16 mac real_mac in
  if decide (mismatch = 0) then
    buf ← crypto_chacha20_djb_mem buf dst src (Z.of_nat text_size)
            (ac_key ctx) (ac_nonce ctx) (u64 (ac_counter ctx + 1));
    Some (0, buf)
  else Some (mismatch, buf).

(** * The tag of RFC 8439 *)

Definition pad16 (l : list Z) : list Z := replicate (Z.to_nat ((- Z.of_nat (length l)) mod 16)) 0.

Definition aead_mac_data (ad text : list Z) : list Z :=
  ad ++ pad16 ad ++ text ++ pad16 text ++
  le_bytes 8 (Z.of_nat (length ad)) ++ le_bytes 8 (Z.of_nat (length text)).

(** The tag as a number-theoretic function of the one-time key and the data. *)
Definition aead_tag (auth_key ad text : list Z) : list Z :=
  le_bytes 16 (poly1305_spec (poly_key_r (take 32 auth_key)) (poly_key_pad (take 32 auth_key))
                 (aead_mac_data ad text)).

(** [ctx] is between blocks or inside one, having absorbed [m] under [key]. *)
Definition poly_at (key m : list Z) (ctx : crypto_poly1305_ctx) : Prop :=
  (pc_c_idx ctx < 16)%nat /\
  exists k, poly_absorbed (poly_clamp (load32_le_buf 4 key)) (load32_le_buf 4 (drop 16 key)) k ctx m.

Lemma poly_at_update key m ctx s n s' :
  poly_at key m ctx -> bytes_ok s -> (n <= length s)%nat -> take n s = s' ->
  poly_at key (m ++ s') (crypto_poly1305_update ctx s n).
Proof.
  intros [Hi [k Hk]] Hs Hn <-.
  by apply (crypto_poly1305_update_spec _ _ k).
Qed.

Lemma poly_at_pad key m ctx l :
  poly_at key m ctx -> Z.of_nat (length l) < 2 ^ 64 ->
  poly_at key (m ++ pad16 l)
    (crypto_poly1305_update ctx zero_block (Z.to_nat (gap (Z.of_nat (length l)) 16))).
Proof.
  intros H Hl. rewrite gap_spec by lia.
  pose proof (Z.mod_pos_bound (- Z.of_nat (length l)) 16 ltac:(lia)).
  apply poly_at_update; [done|by apply bytes_ok_replicate|unfold zero_block; len|].
  unfold zero_block, pad16. rewrite take_replicate. f_equal. lia.
Qed.

Lemma load32_le_buf_take n s : load32_le_buf n (take (4 * n) s) = load32_le_buf n s.
Proof.
  revert s. induction n as [|n IH]; intros s; [done|]. cbn [load32_le_buf].
  replace (4 * S n)%nat with (4 + 4 * n)%nat by lia. f_equal.
  - destruct s as [|a [|b [|c [|d s]]]]; reflexivity.
  - rewrite skipn_firstn_comm. replace (4 + 4 * n - 4)%nat with (4 * n)%nat by lia. apply IH.
Qed.

(** The init only reads the first 32 bytes of the 64-byte key block. *)
Lemma crypto_poly1305_init_take c0 key :
  crypto_poly1305_init c0 key = crypto_poly1305_init c0 (take 32 key).
Proof.
  unfold crypto_poly1305_init. f_equal.
  - f_equal. rewrite <- load32_le_buf_take, <- (load32_le_buf_take 4 (take 32 key)).
    by rewrite take_take.
  - rewrite <- load32_le_buf_take, <- (load32_le_buf_take 4 (drop 16 (take 32 key))).
    by rewrite skipn_firstn_comm, take_take.
Qed.

Lemma lock_auth_spec c0 auth_key ad text :
  length c0 = 16%nat -> bytes_ok c0 -> bytes_ok auth_key -> (32 <= length auth_key)%nat ->
  bytes_ok ad -> bytes_ok text ->
  Z.of_nat (length ad) < 2 ^ 64 -> Z.of_nat (length text) < 2 ^ 64 ->
  lock_auth c0 auth_key ad (length ad) text (length text) = aead_tag auth_key ad text.
Proof.
  intros Lc Oc Ok Lk Oa Ot La Lt. unfold lock_auth, aead_tag.
  rewrite crypto_poly1305_init_take. set (key := take 32 auth_key).
  assert (bytes_ok key) as Oky by (unfold key; auto with bytes).
  assert (length key = 32%nat) as Lky by (unfold key; len).
  assert (poly_at key [] (crypto_poly1305_init c0 key)) as H.
  { split; [cbn; lia|]. exists 0%nat. by apply crypto_poly1305_init_spec. }
  clearbody key.
  apply (poly_at_update _ _ _ ad (length ad) ad) in H; [|done|lia|by apply take_ge].
  apply (poly_at_pad _ _ _ ad) in H; [|done].
  apply (poly_at_update _ _ _ text (length text) text) in H; [|done|lia|by apply take_ge].
  apply (poly_at_pad _ _ _ text) in H; [|done].
  rewrite !store64_le_spec.
  set (sizes := le_bytes 8 (Z.of_nat (length ad)) ++ _).
  apply (poly_at_update _ _ _ sizes 16 sizes) in H;
    [|unfold sizes; auto with bytes|unfold sizes; len|apply take_ge; unfold sizes; len].
  destruct H as [Hi [k Hk]].
  rewrite (crypto_poly1305_final_key key k _ _ Oky Lky Hk Hi).
  f_equal. f_equal. unfold aead_mac_data. by rewrite app_nil_l, <- !app_assoc.
Qed.

Lemma aead_tag_length k ad text : length (aead_tag k ad text) = 16%nat.
Proof. apply length_le_bytes. Qed.
Lemma aead_tag_ok k ad text : bytes_ok (aead_tag k ad text).
Proof. apply le_bytes_ok. Qed.
#[export] Hint Rewrite aead_tag_length : lens.
#[export] Hint Resolve aead_tag_ok : bytes.

Lemma aead_auth_key_length ctx : length (aead_auth_key ctx) = 64%nat.
Proof.
  unfold aead_auth_key. rewrite crypto_chacha20_djb_null by done.
  by rewrite chacha20_stream_length.
Qed.
Lemma aead_auth_key_ok ctx : bytes_ok (aead_auth_key ctx).
Proof.
  unfold aead_auth_key. rewrite crypto_chacha20_djb_null by done. auto with bytes.
Qed.

(** The tag the callers compute. *)
Lemma lock_auth_tag ctx ad text :
  bytes_ok ad -> bytes_ok text ->
  Z.of_nat (length ad) < 2 ^ 64 -> Z.of_nat (length text) < 2 ^ 64 ->
  lock_auth stack_chunk (aead_auth_key ctx) ad (length ad) text (length text) =
  aead_tag (aead_auth_key ctx) ad text.
Proof.
  intros. apply lock_auth_spec; auto using aead_auth_key_ok.
  - by apply bytes_ok_replicate.
  - rewrite aead_auth_key_length. lia.
Qed.

Definition aead_xor (ctx : crypto_aead_ctx) (text : list Z) : list Z :=
  xor_bytes (chacha20_stream (ac_key ctx) (ac_nonce ctx) (u64 (ac_counter ctx + 1))
               (Z.of_nat (length text))) text.

Lemma aead_xor_length ctx text : length (aead_xor ctx text) = length text.
Proof.
  unfold aead_xor. rewrite xor_bytes_length, chacha20_stream_length by lia. lia.
Qed.
Lemma aead_xor_ok ctx text : bytes_ok text -> bytes_ok (aead_xor ctx text).
Proof. unfold aead_xor. auto with bytes. Qed.
Lemma aead_xor_involutive ctx text : aead_xor ctx (aead_xor ctx text) = text.
Proof.
  unfold aead_xor at 1. rewrite aead_xor_length. unfold aead_xor.
  apply xor_bytes_involutive. rewrite chacha20_stream_length; lia.
Qed.
#[export] Hint Rewrite aead_xor_length : lens.
#[export] Hint Resolve aead_xor_ok : bytes.

Lemma aead_djb ctx text :
  bytes_ok text ->
  fst (crypto_chacha20_djb (Some text) (Z.of_nat (length text))
         (ac_key ctx) (ac_nonce ctx) (u64 (ac_counter ctx + 1))) = aead_xor ctx text.
Proof. intros H. rewrite crypto_chacha20_djb_text by (auto; lia). done. Qed.

(** [crypto_aead_write] and [crypto_aead_read] in terms of key stream and tag. *)
Lemma crypto_aead_write_spec ctx ad text :
  bytes_ok ad -> bytes_ok text ->
  Z.of_nat (length ad) < 2 ^ 64 -> Z.of_nat (length text) < 2 ^ 64 ->
  crypto_aead_write ctx ad (length ad) text (length text) =
  (set_ac_key (take 32 (drop 32 (aead_auth_key ctx))) ctx, aead_xor ctx text,
   aead_tag (aead_auth_key ctx) ad (aead_xor ctx text)).
Proof.
  intros Oa Ot La Lt. unfold crypto_aead_write. rewrite aead_djb by done.
  rewrite <- (aead_xor_length ctx text). rewrite lock_auth_tag by (auto with bytes; len). done.
Qed.

Lemma crypto_aead_read_spec ctx mac ad text :
  bytes_ok ad -> bytes_ok text -> bytes_ok mac -> length mac = 16%nat ->
  Z.of_nat (length ad) < 2 ^ 64 -> Z.of_nat (length text) < 2 ^ 64 ->
  crypto_aead_read ctx mac ad (length ad) text (length text) =
  if decide (mac = aead_tag (aead_auth_key ctx) ad text)
  then (set_ac_key (take 32 (drop 32 (aead_auth_key ctx))) ctx, 0, Some (aead_xor ctx text))
  else (ctx, -1, None).
Proof.
  intros Oa Ot Om Lm La Lt. unfold crypto_aead_read.
  rewrite lock_auth_tag, aead_djb by done.
  rewrite crypto_verify16_spec by (auto with bytes; apply aead_tag_length).
  destruct (decide (mac = _)); [by rewrite decide_True|by rewrite decide_False].
Qed.

(** ** Overlapping buffers *)

#[local] Opaque chacha20_rounds chacha20_next.

(** Both loops as one: xor the pieces [ks] of the key stream from [src] to [dst]. *)
Fixpoint mem_xor (ks : list (list Z)) (buf : list Z) (dst src : nat) : option (list Z) :=
  match ks with
  | [] => Some buf
  | k :: ks' =>
      p ← get_bytes src (length k) buf;
      buf ← put_bytes dst (xor_bytes k p) buf;
      mem_xor ks' buf (dst + length k) (src + length k)
  end.

Lemma drop_put_before off bs buf buf' n :
  put_bytes off bs buf = Some buf' -> (off + length bs <= n)%nat -> drop n buf' = drop n buf.
Proof.
  intros H Hn. revert H. unfold put_bytes. case_decide; [|done]. intros [= <-].
  rewrite app_assoc, drop_app_ge by (rewrite length_app, length_take; lia).
  rewrite drop_drop. f_equal. rewrite length_app, length_take. lia.
Qed.

(** Moving data downwards, or in place, is safe: the result is the xor of the
    original source bytes, although the regions may overlap. *)
Lemma mem_xor_spec ks buf dst src :
  (dst <= src)%nat -> (src + length (concat ks) <= length buf)%nat ->
  mem_xor ks buf dst src =
  put_bytes dst (xor_bytes (concat ks) (take (length (concat ks)) (drop src buf))) buf.
Proof.
  revert buf dst src. induction ks as [|k ks IH]; intros buf dst src Hd Hl.
  - symmetry. apply (put_bytes_id dst 0). rewrite get_bytes_Some by (simpl in *; lia). done.
  - cbn [mem_xor concat] in *. rewrite length_app in Hl.
    rewrite get_bytes_Some by lia. cbn [mbind option_bind].
    set (p := take (length k) (drop src buf)).
    assert (length p = length k) as Lp by (unfold p; rewrite length_take, length_drop; lia).
    assert (length (xor_bytes k p) = length k) as Lx by (rewrite xor_bytes_length; lia).
    destruct (put_bytes dst (xor_bytes k p) buf) as [buf1|] eqn:E.
    2: { unfold put_bytes in E. rewrite Lx in E. case_decide; [done|lia]. }
    cbn [mbind option_bind]. pose proof (put_bytes_length _ _ _ _ E) as L1.
    rewrite IH by lia.
    rewrite (drop_put_before _ _ _ _ _ E) by lia.
    rewrite <- Lx at 1. rewrite (put_put_app _ _ _ _ _ E). f_equal.
    rewrite length_app, <- take_take_drop, drop_drop. fold p.
    unfold xor_bytes. rewrite zip_with_app; [done|lia].
Qed.

Lemma mem_xor_app ks1 ks2 buf dst src :
  mem_xor (ks1 ++ ks2) buf dst src =
  (buf ← mem_xor ks1 buf dst src;
   mem_xor ks2 buf (dst + length (concat ks1)) (src + length (concat ks1))).
Proof.
  revert buf dst src. induction ks1 as [|k ks1 IH]; intros buf dst src.
  - cbn. by rewrite !Nat.add_0_r.
  - cbn [app mem_xor concat]. destruct (get_bytes src (length k) buf) as [p|]; [|done].
    cbn [mbind option_bind]. destruct (put_bytes dst (xor_bytes k p) buf) as [buf1|]; [|done].
    cbn [mbind option_bind]. rewrite IH, length_app, !Nat.add_assoc. done.
Qed.

Lemma mem_xor_ok ks buf dst src buf' :
  Forall bytes_ok ks -> mem_xor ks buf dst src = Some buf' -> bytes_ok buf -> bytes_ok buf'.
Proof.
  intros Hk. revert buf dst src. induction Hk as [|k ks Hk Hks IH]; intros buf dst src H Hb.
  - cbn in H. by simplify_eq.
  - cbn [mem_xor] in H. mon_inv H. apply (IH _ _ _ H). eapply put_bytes_ok; eauto.
    apply xor_bytes_ok; eauto using get_bytes_ok.
Qed.

Lemma chacha20_mem_words_xor ps buf dst src :
  bytes_ok buf -> chacha20_mem_words ps buf dst src = mem_xor (store32_le <$> ps) buf dst src.
Proof.
  revert buf dst src. induction ps as [|p ps IH]; intros buf dst src Hb; [done|].
  cbn [chacha20_mem_words mem_xor fmap list_fmap]. rewrite store32_le_length.
  destruct (get_bytes src 4 buf) as [w|] eqn:E; [|done]. cbn [mbind option_bind].
  rewrite store32_xor_load, (take_ge w) by (rewrite ?(get_bytes_length _ _ _ _ E); eauto using get_bytes_ok).
  destruct (put_bytes _ _ _) as [buf1|] eqn:E1; [|done]. cbn [mbind option_bind].
  apply IH. eapply put_bytes_ok; eauto. apply xor_bytes_ok; eauto using get_bytes_ok.
  rewrite store32_le_spec. auto with bytes.
Qed.

Lemma chacha20_mem_tail_xor tmp buf dst src :
  chacha20_mem_tail tmp buf dst src = mem_xor ((fun t => [t]) <$> tmp) buf dst src.
Proof.
  revert buf dst src. induction tmp as [|t tmp IH]; intros buf dst src; [done|].
  cbn [chacha20_mem_tail mem_xor fmap list_fmap length].
  destruct (get_bytes src 1 buf) as [p|] eqn:E; [|done]. cbn [mbind option_bind].
  apply get_bytes_length in E. destruct p as [|b [|]]; try done. cbn [byte_at nth xor_bytes zip_with].
  destruct (put_bytes _ _ _) as [buf1|]; [|done]. cbn [mbind option_bind]. apply IH.
Qed.

Lemma concat_singletons (l : list Z) : concat ((fun t => [t]) <$> l) = l.
Proof. induction l as [|x l IH]; [done|]. cbn. by rewrite IH. Qed.

Lemma concat_store32 l : concat (store32_le <$> l) = store32_le_buf l.
Proof. induction l as [|x l IH]; [done|]. cbn [fmap list_fmap concat store32_le_buf]. by rewrite IH. Qed.

Definition block_words (input : list Z) : list (list Z) :=
  store32_le <$> zip_with add32 (chacha20_rounds input) input.

Lemma block_words_ok input : Forall bytes_ok (block_words input).
Proof.
  apply Forall_fmap, Forall_true. intros x. cbn. rewrite store32_le_spec. auto with bytes.
Qed.

Lemma concat_block_words input : concat (block_words input) = chacha20_block_bytes input.
Proof. unfold block_words. rewrite concat_store32. by unfold chacha20_block_bytes. Qed.

Fixpoint keystream_words (nb : nat) (input : list Z) : list (list Z) :=
  match nb with
  | O => []
  | S n => block_words input ++ keystream_words n (chacha20_next input)
  end.

Lemma concat_keystream_words nb input : concat (keystream_words nb input) = chacha20_keystream nb input.
Proof.
  revert input. induction nb as [|nb IH]; intros input; [done|].
  cbn [keystream_words chacha20_keystream]. rewrite concat_app, IH. f_equal. apply concat_block_words.
Qed.

Lemma chacha20_mem_blocks_xor nb input buf dst src :
  length input = 16%nat -> bytes_ok buf ->
  chacha20_mem_blocks nb input buf dst src =
  ((., Nat.iter nb chacha20_next input) <$> mem_xor (keystream_words nb input) buf dst src).
Proof.
  revert input buf dst src. induction nb as [|nb IH]; intros input buf dst src Hi Hb; [done|].
  cbn [chacha20_mem_blocks keystream_words]. rewrite chacha20_mem_words_xor, mem_xor_app by done.
  fold (block_words input).
  assert (length (concat (block_words input)) = 64%nat) as ->.
  { by rewrite concat_block_words, chacha20_block_bytes_length. }
  destruct (mem_xor (block_words input) buf dst src) as [buf1|] eqn:E; [|done].
  cbn [mbind option_bind].
  rewrite IH by (rewrite ?chacha20_next_length; eauto using mem_xor_ok, block_words_ok).
  rewrite Nat.iter_succ_r. done.
Qed.

(** [crypto_chacha20_djb] reads every source byte before it is overwritten
    when the output starts at or below the input. *)
Lemma crypto_chacha20_djb_mem_spec buf dst src n key nonce ctr :
  0 <= n -> (dst <= src)%nat -> (src + Z.to_nat n <= length buf)%nat -> bytes_ok buf ->
  crypto_chacha20_djb_mem buf dst src n key nonce ctr =
  put_bytes dst (xor_bytes (chacha20_stream key nonce ctr n) (take (Z.to_nat n) (drop src buf))) buf.
Proof.
  intros Hn Hd Hl Hb. unfold crypto_chacha20_djb_mem.
  pose proof (chacha20_stream_length key nonce ctr n Hn) as Ls.
  rewrite (chacha20_stream_split key nonce ctr n Hn) in *.
  set (nb := Z.to_nat (Z.shiftr n 6)) in *. set (input := chacha20_setup key nonce ctr) in *.
  set (tmp := take _ (chacha20_block_bytes (Nat.iter nb chacha20_next input))) in *.
  rewrite chacha20_mem_blocks_xor by done.
  transitivity (mem_xor (keystream_words nb input ++ ((fun t => [t]) <$> tmp)) buf dst src).
  - rewrite mem_xor_app, concat_keystream_words, chacha20_keystream_length by done.
    destruct (mem_xor _ _ _ _) as [buf1|]; [|done]. cbn [fmap option_fmap option_map mbind option_bind].
    apply chacha20_mem_tail_xor.
  - rewrite mem_xor_spec; rewrite ?concat_app, ?concat_keystream_words, ?concat_singletons, ?Ls; done.
Qed.

(** In place, or shifted down, [lock] writes what the separate-buffer version
    returns. *)
Lemma crypto_aead_lock_mem_spec buf dst mac_off key nonce src n text :
  (dst <= src)%nat -> get_bytes src n buf = Some text -> bytes_ok buf ->
  Z.of_nat n < 2 ^ 64 ->
  let '(c, mac) := crypto_aead_lock key nonce [] 0 text n in
  crypto_aead_lock_mem buf dst mac_off key nonce src n =
  (buf ← put_bytes dst c buf; put_bytes mac_off mac buf).
Proof.
  intros Hd Hg Hb Hn.
  pose proof (get_bytes_length _ _ _ _ Hg) as Lt. pose proof (get_bytes_ok _ _ _ _ Hg Hb) as Ot.
  assert (src + n <= length buf)%nat as Hl.
  { unfold get_bytes in Hg. by case_decide. }
  rewrite get_bytes_Some in Hg by done. injection Hg as Hg.
  unfold crypto_aead_lock, crypto_aead_lock_mem. set (ctx := crypto_aead_init_x key nonce).
  rewrite <- Lt. change 0%nat with (length (@nil Z)).
  rewrite crypto_aead_write_spec by (try done; try lia; constructor).
  rewrite crypto_chacha20_djb_mem_spec by lia || done.
  rewrite Nat2Z.id, Lt, Hg, <- Lt. fold (aead_xor ctx text).
  destruct (put_bytes dst (aead_xor ctx text) buf) as [buf1|] eqn:E; [|done].
  cbn [mbind option_bind]. apply get_put_same in E. rewrite <- (aead_xor_length ctx text), E.
  cbn [mbind option_bind]. f_equal. apply lock_auth_tag; auto with bytes; try constructor.
  len.
Qed.

Lemma crypto_aead_unlock_mem_spec buf dst mac_off key nonce_off src n nonce text mac :
  (dst <= src)%nat -> get_bytes nonce_off 24 buf = Some nonce ->
  get_bytes src n buf = Some text -> get_bytes mac_off 16 buf = Some mac ->
  bytes_ok buf -> Z.of_nat n < 2 ^ 64 ->
  crypto_aead_unlock_mem buf dst mac_off key nonce_off src n =
  match crypto_aead_unlock mac key nonce [] 0 text n with
  | (_, Some plain) => buf ← put_bytes dst plain buf; Some (0, buf)
  | (mismatch, None) => Some (mismatch, buf)
  end.
Proof.
  intros Hd Hno Hg Hm Hb Hn.
  pose proof (get_bytes_length _ _ _ _ Hg) as Lt. pose proof (get_bytes_ok _ _ _ _ Hg Hb) as Ot.
  unfold crypto_aead_unlock, crypto_aead_unlock_mem. rewrite Hno, Hg, Hm. cbn [mbind option_bind].
  unfold crypto_aead_read. set (ctx := crypto_aead_init_x key nonce).
  rewrite <- Lt. change 0%nat with (length (@nil Z)).
  rewrite lock_auth_tag by (try done; try lia; constructor).
  destruct (decide (crypto_verify16 mac _ = 0)) as [E|E]; [|done].
  rewrite aead_djb by done.
  assert (src + n <= length buf)%nat as Hl.
  { unfold get_bytes in Hg. by case_decide. }
  rewrite get_bytes_Some in Hg by done. injection Hg as Hg.
  rewrite crypto_chacha20_djb_mem_spec by lia || done.
  by rewrite Nat2Z.id, Lt, Hg, <- Lt.
Qed.

(** * Locking and unlocking *)

Lemma crypto_aead_lock_spec key nonce text :
  bytes_ok text -> Z.of_nat (length text) < 2 ^ 64 ->
  let ctx := crypto_aead_init_x key nonce in
  crypto_aead_lock key nonce [] 0 text (length text) =
  (aead_xor ctx text, aead_tag (aead_auth_key ctx) [] (aead_xor ctx text)).
Proof.
  intros Ot Lt. unfold crypto_aead_lock. change 0%nat with (length (@nil Z)).
  rewrite crypto_aead_write_spec by (try done; constructor). done.
Qed.

Lemma crypto_aead_unlock_spec mac key nonce text :
  bytes_ok text -> Z.of_nat (length text) < 2 ^ 64 -> bytes_ok mac -> length mac = 16%nat ->
  let ctx := crypto_aead_init_x key nonce in
  crypto_aead_unlock mac key nonce [] 0 text (length text) =
  if decide (mac = aead_tag (aead_auth_key ctx) [] text)
  then (0, Some (aead_xor ctx text)) else (-1, None).
Proof.
  intros Ot Lt Om Lm ctx. unfold crypto_aead_unlock. change 0%nat with (length (@nil Z)).
  rewrite crypto_aead_read_spec by (try done; constructor).
  by destruct (decide (mac = aead_tag _ _ _)).
Qed.

(** * Properties *)

(** Decryption in place is safe: when the output starts at or below the
    input of the same buffer (at any distance, so that the regions may
    overlap), the word-by-word loops of [crypto_chacha20_djb] succeed, write
    the xor of the key stream with the bytes the input had before the call,
    and change no other byte. *)
Theorem crypto_chacha20_djb_overlap buf dst src n key nonce ctr text :
  (dst <= src)%nat -> get_bytes src n buf = Some text -> bytes_ok buf ->
  exists buf',
    crypto_chacha20_djb_mem buf dst src (Z.of_nat n) key nonce ctr = Some buf' /\
    get_bytes dst n buf' =
      Some (fst (crypto_chacha20_djb (Some text) (Z.of_nat n) key nonce ctr)) /\
    length buf' = length buf /\
    (forall i m, (i + m <= dst \/ dst + n <= i)%nat -> get_bytes i m buf' = get_bytes i m buf).
Proof.
  intros Hd Hg Hb.
  pose proof (get_bytes_length _ _ _ _ Hg) as Lt. pose proof (get_bytes_ok _ _ _ _ Hg Hb) as Ot.
  pose proof (get_bytes_bound _ _ _ _ Hg) as Hl.
  rewrite crypto_chacha20_djb_mem_spec by (auto; lia).
  rewrite get_bytes_Some in Hg by done. injection Hg as Hg. rewrite Nat2Z.id, Hg.
  rewrite crypto_chacha20_djb_text by (auto; lia).
  set (out := xor_bytes _ text).
  assert (length out = n) as Lo.
  { unfold out. rewrite xor_bytes_length, chacha20_stream_length by lia. lia. }
  destruct (put_bytes_ex dst out buf) as [buf' E]; [lia|]. exists buf'.
  split_and!; [done| | |].
  - apply get_put_same in E. by rewrite Lo in E.
  - by eapply put_bytes_length.
  - intros i m [H|H]; [by eapply get_put_before|].
    eapply get_put_after; [done|lia].
Qed.

Lemma crypto_chacha20_djb_overlap_witness :
  exists buf',
    crypto_chacha20_djb_mem (replicate 24 0 ++ replicate 70 5) 0 24 70 (replicate 32 1) (replicate 8 2) 3
      = Some buf' /\
    get_bytes 0 70 buf' =
      Some (fst (crypto_chacha20_djb (Some (replicate 70 5)) 70 (replicate 32 1) (replicate 8 2) 3)) /\
    length buf' = 94%nat /\
    (forall i m, (i + m <= 0 \/ 0 + 70 <= i)%nat ->
       get_bytes i m buf' = get_bytes i m (replicate 24 0 ++ replicate 70 5)).
Proof.
  apply (crypto_chacha20_djb_overlap (replicate 24 0 ++ replicate 70 5) 0 24 70
           (replicate 32 1) (replicate 8 2) 3 (replicate 70 5)); [lia|reflexivity|by_compute].
Defined.

(** The context of a key and a nonce of their sizes. *)
Definition aead_ctx_ok (ctx : crypto_aead_ctx) : Prop :=
  length (ac_key ctx) = 32%nat /\ bytes_ok (ac_key ctx) /\ length (ac_nonce ctx) = 8%nat /\ bytes_ok (ac_nonce ctx).

#[export] Instance aead_ctx_ok_dec ctx : Decision (aead_ctx_ok ctx).
Proof. unfold aead_ctx_ok. apply _. Defined.

Lemma aead_auth_key_block ctx : aead_ctx_ok ctx -> aead_auth_key ctx = chacha20_block (ac_key ctx) (ac_nonce ctx) (ac_counter ctx).
Proof.
  intros (Lk & Ok & Ln & On). unfold aead_auth_key. rewrite crypto_chacha20_djb_null by done.
  apply list_eq. intros i. destruct (decide (i < 64)%nat).
  - change 64 with (Z.of_nat 64). rewrite stream_block by done. rewrite Nat.div_small, Nat.mod_small by done. by rewrite Z.add_0_r.
  - rewrite !lookup_ge_None_2; [done|rewrite chacha20_block_length by done; lia|rewrite chacha20_stream_length by lia; lia].
Qed.

(** The byte of the text at [i], xored with byte [i mod 64] of block [1 + i / 64]. *)
Lemma aead_xor_block ctx text i x : aead_ctx_ok ctx -> text !! i = Some x ->
  exists k, chacha20_block (ac_key ctx) (ac_nonce ctx) (ac_counter ctx + (1 + Z.of_nat (i / 64))) !! (i mod 64)%nat = Some k /\
    aead_xor ctx text !! i = Some (Z.lxor k x).
Proof.
  intros (Lk & Ok & Ln & On) Hx. pose proof (lookup_lt_Some _ _ _ Hx) as Hi.
  destruct (lookup_lt_is_Some_2 (chacha20_block (ac_key ctx) (ac_nonce ctx) (ac_counter ctx + (1 + Z.of_nat (i / 64)))) (i mod 64)) as [k Hk].
  { rewrite chacha20_block_length by done. apply Nat.mod_upper_bound. lia. }
  exists k. split; [done|]. unfold aead_xor, chacha20_stream. rewrite setup_u64 by done. fold (chacha20_stream (ac_key ctx) (ac_nonce ctx) (ac_counter ctx + 1) (Z.of_nat (length text))).
  unfold xor_bytes. rewrite lookup_zip_with, stream_block by done. rewrite Z.add_assoc in Hk. rewrite Hk, Hx. done.
Qed.

#[local] Opaque chacha20_block crypto_chacha20_djb.

(** C6 [crypto_aead_write] is the construction of RFC 8439 over the block
    function of ChaCha20.  Byte [i] of the cipher text is byte [i] of the text
    xored with byte [i mod 64] of block [1 + i / 64] behind the context's
    counter; the tag is Poly1305, under the first half of the block at the
    counter, of the additional data and the cipher text, each padded to 16
    bytes, and their two 64-bit lengths; the next key is the second half of
    that block.  [crypto_aead_read] of it gives back the text and the same
    next context, and with any other tag it returns -1, no text, and the
    context it was given. *)
Theorem crypto_aead_write_read ctx ad text :
  aead_ctx_ok ctx -> bytes_ok ad -> bytes_ok text ->
  Z.of_nat (length ad) < 2 ^ 64 -> Z.of_nat (length text) < 2 ^ 64 ->
  let block i := chacha20_block (ac_key ctx) (ac_nonce ctx) (ac_counter ctx + i) in
  let '(ctx', c, mac) := crypto_aead_write ctx ad (length ad) text (length text) in
  length c = length text /\
  (forall i x, text !! i = Some x -> exists k, block (1 + Z.of_nat (i / 64)) !! (i mod 64)%nat = Some k /\ c !! i = Some (Z.lxor k x)) /\
  mac = le_bytes 16 (poly1305_spec (poly_key_r (take 32 (block 0))) (poly_key_pad (take 32 (block 0))) (aead_mac_data ad c)) /\
  ctx' = {| ac_counter := ac_counter ctx; ac_key := drop 32 (block 0); ac_nonce := ac_nonce ctx |} /\
  forall tag, length tag = 16%nat -> bytes_ok tag ->
    crypto_aead_read ctx tag ad (length ad) c (length c) =
      if decide (tag = mac) then (ctx', 0, Some text) else (ctx, -1, None).
Proof.
  intros Hc Oa Ot La Lt. cbv zeta. rewrite crypto_aead_write_spec by done. rewrite Z.add_0_r, <- aead_auth_key_block by done.
  split; [apply aead_xor_length|]. split; [intros i x; by apply aead_xor_block|]. split; [reflexivity|]. split.
  { unfold set_ac_key. rewrite (take_ge (drop 32 (aead_auth_key ctx))) by (rewrite length_drop, aead_auth_key_length; lia). reflexivity. }
  intros tag Lg Og. rewrite crypto_aead_read_spec by (auto with bytes; len). by rewrite aead_xor_involutive.
Qed.

#[local] Transparent chacha20_block crypto_chacha20_djb.

(** A text of more than one block. *)
Lemma crypto_aead_write_read_witness :
  let ctx := crypto_aead_init_ietf (replicate 32 1) (replicate 12 2) in
  let block i := chacha20_block (ac_key ctx) (ac_nonce ctx) (ac_counter ctx + i) in
  let '(ctx', c, mac) := crypto_aead_write ctx [1; 2; 3] 3 (replicate 70 5) 70 in
  length c = 70%nat /\ (exists k, block 2 !! 4%nat = Some k /\ c !! 68%nat = Some (Z.lxor k 5)) /\
  ac_key ctx' = drop 32 (block 0) /\
  crypto_aead_read ctx mac [1; 2; 3] 3 c (length c) = (ctx', 0, Some (replicate 70 5)).
Proof.
  intros ctx block.
  assert (aead_ctx_ok (crypto_aead_init_ietf (replicate 32 1) (replicate 12 2))) as Hc by by_compute.
  pose proof (crypto_aead_write_read ctx [1; 2; 3] (replicate 70 5) Hc ltac:(by_compute) ltac:(by_compute) eq_refl eq_refl) as H.
  cbv zeta in H. change (length [1; 2; 3]) with 3%nat in H. change (length (replicate 70 5)) with 70%nat in H.
  destruct (crypto_aead_write ctx [1; 2; 3] 3 (replicate 70 5) 70) as [[ctx' c] mac].
  destruct H as (Hl & Hx & Hm & -> & Hr). split; [exact Hl|]. split; [exact (Hx 68%nat 5 eq_refl)|]. split; [reflexivity|].
  rewrite Hr; [by rewrite decide_True|rewrite Hm; apply length_le_bytes|rewrite Hm; apply le_bytes_ok].
Defined.
