(* ===== verification/Crypto.v ===== *)
(** The packet cipher (src/src/crypto.c): nonce generation, [vf_encrypt] and
    [vf_decrypt] on the packet layout nonce (24) | cipher text | tag (16). *)
From S2P Require Import Prelude Chacha Poly1305 Aead.

Definition CRYPTO_KEY_SIZE : nat := 32.
Definition CRYPTO_NONCE_SIZE : nat := 24.
Definition CRYPTO_TAG_SIZE : nat := 16.

(** The three static variables of [get_fast_nonce]. *)
Record nonce_state := {
  ns_counter : Z;        (** [_Atomic uint64_t counter] *)
  ns_prefix : list Z;    (** [uint8_t prefix\[16\]] *)
  ns_initialized : bool
}.

Definition nonce_state0 : nonce_state :=
  {| ns_counter := 0; ns_prefix := replicate 16 0; ns_initialized := false |}.

(** What opening and reading /dev/urandom did: [None] when [open] failed, else
    the bytes [read] stored (none when it failed). *)
Definition urandom_result := option (list Z).

(** The initialisation branch. *)
Definition nonce_init (st : nonce_state) (u : urandom_result) : nonce_state :=
  if ns_initialized st then st else
  match u with
  | None => st
  | Some bs =>
      let bs := take 16 bs in
      {| ns_counter := ns_counter st;
         ns_prefix := bs ++ drop (length bs) (ns_prefix st);
         ns_initialized := bool_decide (length bs = 16%nat) |}
  end.

Definition get_fast_nonce (st : nonce_state) (u : urandom_result) : list Z * nonce_state :=
  let st := nonce_init st u in
  (ns_prefix st ++ le_bytes 8 (ns_counter st),
   {| ns_counter := u64 (ns_counter st + 1); ns_prefix := ns_prefix st;
      ns_initialized := ns_initialized st |}).

(** [vf_encrypt] into [out_packet = buf + off]; [plain] is [None] when it is
    the same pointer.  Returns the code, [*out_len], the buffer and the nonce
    state. *)
Definition vf_encrypt (st : nonce_state) (u : urandom_result) (key : list Z)
    (plain : option (list Z)) (len : nat) (buf : list Z) (off : nat)
    : option (Z * nat * list Z * nonce_state) :=
  let '(local_nonce, st) := get_fast_nonce st u in
  let cipher_ptr := (off + CRYPTO_NONCE_SIZE)%nat in
  let tag_ptr := (cipher_ptr + len)%nat in
  buf ←
    match plain with
    | None =>
        p ← get_bytes off len buf;
        buf ← put_bytes cipher_ptr p buf;
        crypto_aead_lock_mem buf cipher_ptr tag_ptr key local_nonce cipher_ptr len
    | Some plain =>
        let '(cipher, tag) := crypto_aead_lock key local_nonce [] 0 plain len in
        buf ← put_bytes cipher_ptr cipher buf;
        put_bytes tag_ptr tag buf
    end;
  buf ← put_bytes off local_nonce buf;
  Some (0, (CRYPTO_NONCE_SIZE + len + CRYPTO_TAG_SIZE)%nat, buf, st).

(** [vf_decrypt] of [packet = buf + off] into [out_plain = buf + out_off].
    [out_len] tells whether the caller gave a length pointer; the result is
    the code, [*out_len] and the buffer. *)
Definition vf_decrypt (key : list Z) (buf : list Z) (off packet_len out_off : nat)
    (out_len : bool) : option (Z * nat * list Z) :=
  if negb out_len then Some (-1, 0%nat, buf) else
  if decide (packet_len < CRYPTO_NONCE_SIZE + CRYPTO_TAG_SIZE)%nat then Some (-1, 0%nat, buf) else
  let cipher := (off + CRYPTO_NONCE_SIZE)%nat in
  let plain_len := (packet_len - CRYPTO_NONCE_SIZE - CRYPTO_TAG_SIZE)%nat in
  let tag := (cipher + plain_len)%nat in
  '(mismatch, buf) ← crypto_aead_unlock_mem buf out_off tag key off cipher plain_len;
  if decide (mismatch <> 0) then Some (-2, 0%nat, buf)
  else Some (0, plain_len, buf).

(** [getrandom] stored the bytes [ret], or failed. *)
Definition vf_generate_key (ret : option (list Z)) (out_key : list Z) : Z * list Z :=
  match ret with
  | None => (-1, out_key)
  | Some bs =>
      let bs := take 32 bs in
      ((if decide (length bs <> 32%nat) then -1 else 0), bs ++ drop (length bs) out_key)
  end.

(** [key] is [None] for NULL. *)
Definition vf_secure_cleanup (key : option (list Z)) (size : nat) : option (list Z) :=
  (fun k => crypto_wipe k size) <$> key.

(** * Nonces *)

(** The nonces of a sequence of calls, with the outcome each call had on
    /dev/urandom. *)
Fixpoint nonces (st : nonce_state) (us : list urandom_result) : list (list Z) :=
  match us with
  | [] => []
  | u :: us' => let '(n, st') := get_fast_nonce st u in n :: nonces st' us'
  end.

Definition nonce_state_ok (st : nonce_state) : Prop :=
  word_ok 64 (ns_counter st) /\ length (ns_prefix st) = 16%nat /\ bytes_ok (ns_prefix st).

Definition urandom_ok (u : urandom_result) : Prop :=
  match u with None => True | Some bs => bytes_ok bs end.

#[export] Instance urandom_ok_dec u : Decision (urandom_ok u).
Proof. destruct u; cbn; apply _. Defined.
#[export] Instance nonce_state_ok_dec st : Decision (nonce_state_ok st).
Proof. unfold nonce_state_ok. apply _. Defined.

Lemma nonce_init_ok st u : urandom_ok u -> nonce_state_ok st -> nonce_state_ok (nonce_init st u).
Proof.
  intros Hu (Hc & Hl & Hb). unfold nonce_init. destruct (ns_initialized st); [done|].
  destruct u as [bs|]; [|done]. split; [done|]. split; cbn.
  - rewrite length_app, length_drop, length_take. lia.
  - auto with bytes.
Qed.

Lemma nonce_init_counter st u : ns_counter (nonce_init st u) = ns_counter st.
Proof. unfold nonce_init. by destruct (ns_initialized st), u. Qed.

Lemma get_fast_nonce_ok st u n st' :
  urandom_ok u -> nonce_state_ok st -> get_fast_nonce st u = (n, st') ->
  length n = CRYPTO_NONCE_SIZE /\ bytes_ok n /\ nonce_state_ok st' /\
  le_val (drop 16 n) = ns_counter st /\ ns_counter st' = u64 (ns_counter st + 1).
Proof.
  intros Hu Hst. unfold get_fast_nonce.
  pose proof (nonce_init_ok st u Hu Hst) as (Hc & Hl & Hb). rewrite nonce_init_counter in *.
  intros [<- <-]%pair_equal_spec.
  split; [by rewrite length_app, length_le_bytes, Hl|]. split; [auto with bytes|].
  split; [split_and!; cbn; auto; apply wrap_ok; lia|].
  rewrite drop_app_length' by done. split; [by apply le_val_bytes|done].
Qed.

Lemma nonces_counters st us :
  Forall urandom_ok us -> nonce_state_ok st ->
  (fun n => le_val (drop 16 n)) <$> nonces st us =
  (fun i => u64 (ns_counter st + Z.of_nat i)) <$> seq 0 (length us).
Proof.
  intros Hus. revert st. induction Hus as [|u us Hu Hus IH]; intros st Hst; [done|].
  cbn [nonces length seq]. destruct (get_fast_nonce st u) as [n st'] eqn:E.
  destruct (get_fast_nonce_ok _ _ _ _ Hu Hst E) as (_ & _ & Hst' & Hv & Hc).
  rewrite !fmap_cons. f_equal.
  - rewrite Hv, Z.add_0_r. symmetry. apply wrap_small, Hst.
  - rewrite IH by done. rewrite <- fmap_S_seq, <- list_fmap_compose. apply list_fmap_ext.
    intros i j _. cbn. rewrite Hc, wrap_add_l. f_equal. lia.
Qed.

Lemma nonces_NoDup st us :
  Forall urandom_ok us -> nonce_state_ok st -> Z.of_nat (length us) <= 2 ^ 64 ->
  NoDup (nonces st us).
Proof.
  intros Hus Hst Hl. apply (NoDup_fmap_1 (fun n => le_val (drop 16 n))).
  rewrite nonces_counters by done. apply NoDup_fmap_2_strong; [|apply NoDup_seq].
  intros i j Hi%elem_of_seq Hj%elem_of_seq E. unfold wrap in E.
  destruct Hst as (Hc & _). unfold word_ok in Hc.
  assert ((Z.of_nat i - Z.of_nat j) mod 2 ^ 64 = 0) as Hm.
  { replace (Z.of_nat i - Z.of_nat j)
      with ((ns_counter st + Z.of_nat i) - (ns_counter st + Z.of_nat j)) by lia.
    rewrite Zminus_mod, E, Z.sub_diag. done. }
  apply Z.mod_divide in Hm as [k Hk]; [|lia]. assert (k = 0) by lia. lia.
Qed.

(** * Sealing and opening packets *)

(** What [vf_encrypt] puts on the wire, and what [vf_decrypt] accepts. *)
Definition vf_seal (key nonce text : list Z) : list Z :=
  let ctx := crypto_aead_init_x key nonce in
  let c := aead_xor ctx text in
  nonce ++ c ++ aead_tag (aead_auth_key ctx) [] c.

Definition vf_open (key pkt : list Z) : option (list Z) :=
  if decide (length pkt < 40)%nat then None else
  let ctx := crypto_aead_init_x key (take 24 pkt) in
  let c := take (length pkt - 40) (drop 24 pkt) in
  if decide (drop (length pkt - 16) pkt = aead_tag (aead_auth_key ctx) [] c)
  then Some (aead_xor ctx c) else None.

Lemma vf_seal_length key nonce text :
  length nonce = 24%nat -> length (vf_seal key nonce text) = (40 + length text)%nat.
Proof. intros H. unfold vf_seal. rewrite !length_app, aead_xor_length, aead_tag_length. lia. Qed.

Lemma vf_seal_ok key nonce text : bytes_ok nonce -> bytes_ok text -> bytes_ok (vf_seal key nonce text).
Proof. intros. unfold vf_seal. auto with bytes. Qed.

Lemma vf_open_seal key nonce text :
  length nonce = 24%nat -> vf_open key (vf_seal key nonce text) = Some text.
Proof.
  intros Hn. unfold vf_open. rewrite vf_seal_length by done.
  rewrite decide_False by lia.
  replace (40 + length text - 40)%nat with (length text) by lia.
  replace (40 + length text - 16)%nat with (24 + length text)%nat by lia.
  unfold vf_seal. set (ctx := crypto_aead_init_x key nonce).
  rewrite (take_app_length' nonce) by lia. fold ctx. rewrite <- drop_drop.
  rewrite !(drop_app_length' nonce) by lia.
  rewrite take_app_length', drop_app_length' by (by rewrite aead_xor_length).
  by rewrite decide_True, aead_xor_involutive.
Qed.

Lemma vf_open_length key pkt text : vf_open key pkt = Some text -> length pkt = (40 + length text)%nat.
Proof.
  unfold vf_open. case_decide; [done|]. case_decide; [|done]. intros [= <-].
  rewrite aead_xor_length, length_take, length_drop. lia.
Qed.

Lemma vf_open_ok key pkt text : bytes_ok pkt -> vf_open key pkt = Some text -> bytes_ok text.
Proof.
  intros Hp. unfold vf_open. case_decide; [done|]. case_decide; [|done]. intros [= <-].
  auto with bytes.
Qed.

(** Whoever knows the key can only open what verifies: opening is injective
    in the packet for a fixed nonce. *)
Lemma vf_open_inv key pkt text :
  vf_open key pkt = Some text -> vf_seal key (take 24 pkt) text = pkt.
Proof.
  unfold vf_open. case_decide as Hl; [done|]. case_decide as Ht; [|done]. intros [= <-].
  unfold vf_seal. set (ctx := crypto_aead_init_x key (take 24 pkt)) in *.
  rewrite aead_xor_involutive, <- Ht.
  transitivity (take 24 pkt ++ drop 24 pkt); [f_equal|apply take_drop].
  transitivity (take (length pkt - 40) (drop 24 pkt) ++ drop (length pkt - 40) (drop 24 pkt));
    [f_equal|apply take_drop].
  rewrite drop_drop. f_equal. lia.
Qed.

(** In place (the [memmove] branch): the packet replaces the plain text. *)

Lemma vf_encrypt_inplace st u key len buf off text nonce st' :
  nonce_state_ok st -> urandom_ok u -> get_fast_nonce st u = (nonce, st') ->
  get_bytes off len buf = Some text -> bytes_ok buf -> Z.of_nat len < 2 ^ 64 ->
  (off + 40 + len <= length buf)%nat ->
  vf_encrypt st u key None len buf off =
  (fun b => (0, (40 + len)%nat, b, st')) <$> put_bytes off (vf_seal key nonce text) buf.
Proof.
  intros Hst Hu Hn Hg Hb Hlen Hroom. unfold vf_encrypt. rewrite Hn.
  destruct (get_fast_nonce_ok _ _ _ _ Hu Hst Hn) as (Ln & On & _).
  pose proof (get_bytes_length _ _ _ _ Hg) as Lt. pose proof (get_bytes_ok _ _ _ _ Hg Hb) as Ot.
  unfold CRYPTO_NONCE_SIZE, CRYPTO_TAG_SIZE in *.
  rewrite Hg. cbn [mbind option_bind].
  destruct (put_bytes_ex (off + 24) text buf) as [b1 E1]; [lia|]. rewrite E1.
  pose proof (put_bytes_ok _ _ _ _ E1 Ot Hb) as Ob1.
  pose proof (get_put_same _ _ _ _ E1) as G1. rewrite Lt in G1. cbn [mbind option_bind].
  pose proof (crypto_aead_lock_mem_spec b1 (off + 24) (off + 24 + len) key nonce (off + 24) len text
    ltac:(lia) G1 Ob1 Hlen) as HL.
  rewrite <- Lt, crypto_aead_lock_spec in HL by (auto; lia). rewrite Lt in HL. rewrite HL.
  rewrite (put_put_same _ _ _ _ _ E1) by (by rewrite aead_xor_length).
  set (ctx := crypto_aead_init_x key nonce). set (c := aead_xor ctx text).
  assert (length c = len) as Lc by (unfold c; rewrite aead_xor_length; lia).
  destruct (put_bytes_ex (off + 24) c buf) as [b2 E2]; [lia|]. rewrite E2.
  cbn [mbind option_bind]. rewrite <- Lc, (put_put_app _ _ _ _ _ E2).
  set (tag := aead_tag _ _ _).
  assert (length tag = 16%nat) as Lg by apply aead_tag_length.
  destruct (put_bytes_ex (off + 24) (c ++ tag) buf) as [b3 E3]; [rewrite length_app; lia|].
  rewrite E3.
  cbn [mbind option_bind]. rewrite <- Ln in E3. rewrite (put_put_front _ _ _ _ _ E3).
  unfold vf_seal. fold ctx c tag.
  destruct (put_bytes off _ buf); [|done].
  cbn [mbind option_bind fmap option_fmap option_map].
  by replace (24 + length c + 16)%nat with (40 + length c)%nat by lia.
Qed.

(** It needs room for the 40 bytes it adds: without it the tag, or the
    shifted text, is written outside of the object. *)
Lemma vf_encrypt_inplace_bound st u key len buf off r :
  bytes_ok buf -> Z.of_nat len < 2 ^ 64 ->
  vf_encrypt st u key None len buf off = Some r -> (off + 40 + len <= length buf)%nat.
Proof.
  intros Hb Hn. unfold vf_encrypt, CRYPTO_NONCE_SIZE.
  destruct (get_fast_nonce st u) as [nonce st'].
  destruct (get_bytes off len buf) as [text|] eqn:G; [|done]. cbn [mbind option_bind].
  pose proof (get_bytes_length _ _ _ _ G) as Lt. pose proof (get_bytes_ok _ _ _ _ G Hb) as Ot.
  destruct (put_bytes (off + 24) text buf) as [b1|] eqn:E1; [|done]. cbn [mbind option_bind].
  pose proof (put_bytes_length _ _ _ _ E1) as L1. pose proof (put_bytes_ok _ _ _ _ E1 Ot Hb) as Ob1.
  pose proof (get_put_same _ _ _ _ E1) as G1. rewrite Lt in G1.
  pose proof (crypto_aead_lock_mem_spec b1 (off + 24) (off + 24 + len) key nonce (off + 24) len text
    ltac:(lia) G1 Ob1 Hn) as HL.
  rewrite <- Lt, crypto_aead_lock_spec in HL by (auto; lia). rewrite Lt in HL. rewrite HL.
  destruct (put_bytes (off + 24) _ b1) as [b2|] eqn:E2; [|done]. cbn [mbind option_bind].
  pose proof (put_bytes_length _ _ _ _ E2) as L2.
  destruct (put_bytes (off + 24 + len) _ b2) as [b3|] eqn:E3; [|done]. intros _.
  assert (is_Some (put_bytes (off + 24 + len) (aead_tag
    (aead_auth_key (crypto_aead_init_x key nonce)) [] (aead_xor (crypto_aead_init_x key nonce) text)) b2))
    as H by eauto.
  apply put_bytes_is_Some in H. rewrite aead_tag_length in H. lia.
Qed.

(** Every outcome of [vf_decrypt] with the output at or below the cipher text. *)
Lemma vf_decrypt_spec key buf off n out_off pkt :
  get_bytes off n buf = Some pkt -> bytes_ok buf -> (out_off <= off + 24)%nat ->
  Z.of_nat n < 2 ^ 64 ->
  vf_decrypt key buf off n out_off true =
  if decide (n < 40)%nat then Some (-1, 0%nat, buf) else
  match vf_open key pkt with
  | Some text => (fun b => (0, length text, b)) <$> put_bytes out_off text buf
  | None => Some (-2, 0%nat, buf)
  end.
Proof.
  intros Hg Hb Hd Hn. unfold vf_decrypt, CRYPTO_NONCE_SIZE, CRYPTO_TAG_SIZE. cbn [negb].
  pose proof (get_bytes_length _ _ _ _ Hg) as Lp. pose proof (get_bytes_ok _ _ _ _ Hg Hb) as Op.
  change (24 + 16)%nat with 40%nat. case_decide as Hs; [done|].
  replace (n - 24 - 16)%nat with (n - 40)%nat by lia.
  pose proof (get_bytes_sub off 0 24 n buf pkt Hg ltac:(lia)) as G0. rewrite Nat.add_0_r, drop_0 in G0.
  pose proof (get_bytes_sub off 24 (n - 40) n buf pkt Hg ltac:(lia)) as G1.
  pose proof (get_bytes_sub off (n - 16) 16 n buf pkt Hg ltac:(lia)) as G2.
  replace (off + (n - 16))%nat with (off + 24 + (n - 40))%nat in G2 by lia.
  rewrite (take_ge (drop (n - 16) pkt)) in G2 by (rewrite length_drop; lia).
  rewrite (crypto_aead_unlock_mem_spec _ _ _ _ _ _ _ _ _ _ Hd G0 G1 G2 Hb) by lia.
  set (c := take (n - 40) (drop 24 pkt)).
  assert (length c = (n - 40)%nat) as Lc by (unfold c; rewrite length_take, length_drop; lia).
  pose proof (crypto_aead_unlock_spec (drop (n - 16) pkt) key (take 24 pkt) c
    ltac:(unfold c; auto with bytes) ltac:(lia) ltac:(auto with bytes)
    ltac:(rewrite length_drop; lia)) as HU.
  cbv zeta in HU. rewrite Lc in HU. rewrite HU.
  unfold vf_open. rewrite Lp. destruct (decide (n < 40)%nat); [lia|]. fold c.
  destruct (decide (drop (n - 16) pkt = _)); [|done].
  cbn [mbind option_bind]. destruct (put_bytes _ _ _); [|done]. cbn. by rewrite aead_xor_length, Lc.
Qed.

(** * Properties *)

(** In-place encryption followed by in-place decryption under the same key
    gives back the plain text at its place: [vf_encrypt] with
    [plain == out_packet] succeeds, reports [len + 40] bytes, and
    [vf_decrypt] of that packet into its own buffer returns 0, the original
    length and the original bytes, although its output overlaps the nonce and
    the cipher text. *)
Theorem vf_decrypt_vf_encrypt st u key len buf off text :
  nonce_state_ok st -> urandom_ok u ->
  get_bytes off len buf = Some text -> bytes_ok buf -> bytes_ok key ->
  Z.of_nat len < 2 ^ 63 -> (off + 40 + len <= length buf)%nat ->
  exists buf1 st1 buf2,
    vf_encrypt st u key None len buf off = Some (0, (40 + len)%nat, buf1, st1) /\
    nonce_state_ok st1 /\
    vf_decrypt key buf1 off (40 + len) off true = Some (0, len, buf2) /\
    get_bytes off len buf2 = Some text.
Proof.
  intros Hst Hu Hg Hb Hk Hlen Hroom.
  destruct (get_fast_nonce st u) as [nonce st1] eqn:Hn.
  destruct (get_fast_nonce_ok _ _ _ _ Hu Hst Hn) as (Ln & On & Hst1 & _).
  pose proof (get_bytes_length _ _ _ _ Hg) as Lt. pose proof (get_bytes_ok _ _ _ _ Hg Hb) as Ot.
  pose proof (vf_seal_length key nonce text Ln) as Ls. rewrite Lt in Ls.
  destruct (put_bytes_ex off (vf_seal key nonce text) buf) as [buf1 E1]; [lia|].
  pose proof (put_bytes_ok _ _ _ _ E1 (vf_seal_ok _ _ _ On Ot) Hb) as Ob1.
  pose proof (put_bytes_length _ _ _ _ E1) as L1.
  pose proof (get_put_same _ _ _ _ E1) as G1. rewrite Ls in G1.
  destruct (put_bytes_ex off text buf1) as [buf2 E2]; [lia|].
  exists buf1, st1, buf2. split_and!; auto.
  - by rewrite (vf_encrypt_inplace _ _ _ _ _ _ _ _ _ Hst Hu Hn Hg Hb), E1 by lia.
  - rewrite (vf_decrypt_spec _ _ _ _ _ _ G1 Ob1) by lia.
    rewrite decide_False by lia. rewrite vf_open_seal by done.
    by rewrite E2, <- Lt.
  - apply get_put_same in E2. by rewrite Lt in E2.
Qed.

Lemma vf_decrypt_vf_encrypt_witness :
  exists buf1 st1 buf2,
    vf_encrypt nonce_state0 (Some (replicate 16 7)) (replicate 32 1) None 5
      ([0; 0; 104; 101; 108; 108; 111] ++ replicate 50 9) 2 = Some (0, 45%nat, buf1, st1) /\
    nonce_state_ok st1 /\
    vf_decrypt (replicate 32 1) buf1 2 45 2 true = Some (0, 5%nat, buf2) /\
    get_bytes 2 5 buf2 = Some [104; 101; 108; 108; 111].
Proof.
  apply (vf_decrypt_vf_encrypt nonce_state0 (Some (replicate 16 7)) (replicate 32 1) 5
           ([0; 0; 104; 101; 108; 108; 111] ++ replicate 50 9) 2 [104; 101; 108; 108; 111]).
  - by_compute.
  - by_compute.
  - reflexivity.
  - by_compute.
  - by_compute.
  - lia.
  - vm_compute. lia.
Defined.

(** C3 [vf_decrypt] accepts exactly the packets some text seals to under the
    key and the nonce the packet carries; it returns -1 for a packet shorter
    than nonce and tag, -2 for every other one, and in both error cases the
    reported length is 0 and no byte of the buffer is changed. *)
Theorem vf_decrypt_authentic key buf off n pkt :
  get_bytes off n buf = Some pkt -> bytes_ok buf -> Z.of_nat n < 2 ^ 63 ->
  (exists text buf', (40 <= n)%nat /\ pkt = vf_seal key (take 24 pkt) text /\
     vf_decrypt key buf off n off true = Some (0, length text, buf') /\
     put_bytes off text buf = Some buf') \/
  ((n < 40)%nat /\ vf_decrypt key buf off n off true = Some (-1, 0%nat, buf)) \/
  ((40 <= n)%nat /\ (forall nonce text, length nonce = 24%nat -> pkt <> vf_seal key nonce text) /\
     vf_decrypt key buf off n off true = Some (-2, 0%nat, buf)).
Proof.
  intros Hg Hb Hn. pose proof (get_bytes_length _ _ _ _ Hg) as Lp.
  rewrite (vf_decrypt_spec _ _ _ _ _ _ Hg Hb) by lia.
  destruct (decide (n < 40)%nat); [by right; left|].
  destruct (vf_open key pkt) as [text|] eqn:E.
  - left. pose proof (vf_open_length _ _ _ E) as Lt.
    destruct (put_bytes_ex off text buf) as [buf' E'].
    { apply get_bytes_bound in Hg. lia. }
    exists text, buf'. rewrite E'. split_and!; [lia| |done..]. by rewrite (vf_open_inv _ _ _ E).
  - right. right. split_and!; [lia| |done]. intros nonce text Hno ->.
    by rewrite vf_open_seal in E.
Qed.

Lemma vf_decrypt_authentic_witness :
  (exists text buf', (40 <= 41)%nat /\
     replicate 41 0 = vf_seal (replicate 32 1) (take 24 (replicate 41 0)) text /\
     vf_decrypt (replicate 32 1) (replicate 50 0) 3 41 3 true = Some (0, length text, buf') /\
     put_bytes 3 text (replicate 50 0) = Some buf') \/
  ((41 < 40)%nat /\
     vf_decrypt (replicate 32 1) (replicate 50 0) 3 41 3 true = Some (-1, 0%nat, replicate 50 0)) \/
  ((40 <= 41)%nat /\
     (forall nonce text, length nonce = 24%nat -> replicate 41 0 <> vf_seal (replicate 32 1) nonce text) /\
     vf_decrypt (replicate 32 1) (replicate 50 0) 3 41 3 true = Some (-2, 0%nat, replicate 50 0)).
Proof.
  apply (vf_decrypt_authentic (replicate 32 1) (replicate 50 0) 3 41 (replicate 41 0)).
  - reflexivity.
  - by_compute.
  - lia.
Defined.

(** C7 No two nonces of a process are equal: whatever /dev/urandom does on
    each call (fails to open, gives a short read, or 16 bytes), the first 2^64
    calls of [get_fast_nonce] give pairwise different 24-byte nonces. *)
Theorem get_fast_nonce_distinct us :
  Forall urandom_ok us -> Z.of_nat (length us) <= 2 ^ 64 ->
  NoDup (nonces nonce_state0 us) /\ length (nonces nonce_state0 us) = length us.
Proof.
  intros Hus Hl. assert (nonce_state_ok nonce_state0) as H0 by by_compute.
  split; [by apply nonces_NoDup|].
  pose proof (nonces_counters nonce_state0 us Hus H0) as E.
  apply (f_equal length) in E. by rewrite !length_fmap, length_seq in E.
Qed.

Lemma get_fast_nonce_distinct_witness :
  NoDup (nonces nonce_state0 [None; Some [1; 2]; Some (replicate 16 7); None]) /\
  length (nonces nonce_state0 [None; Some [1; 2]; Some (replicate 16 7); None]) = 4%nat.
Proof.
  apply (get_fast_nonce_distinct [None; Some [1; 2]; Some (replicate 16 7); None]).
  - by_compute.
  - simpl; lia.
Defined.
