(* ===== verification/Key.v ===== *)
(** The key schedule of a session (src/src/key.c, src/src/key.h): an active,
    a previous and a next key, prepared and committed in two phases. *)
From S2P Require Import Prelude.

Definition REKEY_KEY_SIZE : nat := 32.
Definition REKEY_TIMEOUT_SEC : Z := 300.
Definition REKEY_DATA_THRESHOLD : Z := 2 ^ 30.

(** [vfast_key_t] *)
Record vfast_key_t := {
  k_raw : list Z;            (** [uint8_t raw\[32\]] *)
  k_id : Z;                  (** [uint32_t] *)
  k_bytes_processed : Z;     (** [atomic_ulong] *)
  k_created_at : Z           (** [time_t] *)
}.

(** [vfast_sec_ctx_t] *)
Record vfast_sec_ctx_t := {
  active_key : vfast_key_t;
  previous_key : vfast_key_t;
  next_key : vfast_key_t;
  sec_sid : Z;
  rekey_pending : bool
}.

(** The all-zero image [memset] leaves. *)
Definition zero_key : vfast_key_t :=
  {| k_raw := replicate REKEY_KEY_SIZE 0; k_id := 0; k_bytes_processed := 0; k_created_at := 0 |}.

Definition zero_sec_ctx : vfast_sec_ctx_t :=
  {| active_key := zero_key; previous_key := zero_key; next_key := zero_key;
     sec_sid := 0; rekey_pending := false |}.

#[export] Instance vfast_key_eq_dec : EqDecision vfast_key_t.
Proof. solve_decision. Defined.
#[export] Instance vfast_sec_ctx_eq_dec : EqDecision vfast_sec_ctx_t.
Proof. solve_decision. Defined.

(** One [getrandom] call: a failure with its errno, or the bytes it stored. *)
Inductive getrandom_result :=
  | GrErr (errno : Z)
  | GrBytes (bs : list Z).

Definition EINTR : Z := 4.

(** The calls' results are an argument; the loop ends when [left] bytes are
    there or a call fails.  [None]: the results given do not suffice.  Besides
    the code, the bytes stored so far. *)
Fixpoint vfast_crypto_fill_random (calls : list getrandom_result) (left : nat)
    : option (Z * list Z) :=
  match left with
  | O => Some (0, [])
  | S _ =>
      match calls with
      | [] => None
      | GrErr e :: calls' =>
          if e =? EINTR then vfast_crypto_fill_random calls' left else Some (-1, [])
      | GrBytes bs :: calls' =>
          let bs := take left bs in
          '(rc, rest) ← vfast_crypto_fill_random calls' (left - length bs);
          Some (rc, bs ++ rest)
      end
  end.

(** [memset] of the whole context, then the first key; [now] is [time(NULL)]. *)
Definition vf_rekey_init (calls : list getrandom_result) (now : Z) (sid : Z)
    : option vfast_sec_ctx_t :=
  '(rc, bs) ← vfast_crypto_fill_random calls REKEY_KEY_SIZE;
  let raw := bs ++ drop (length bs) (k_raw zero_key) in
  let active :=
    if rc =? 0
    then {| k_raw := raw; k_id := 1; k_bytes_processed := 0; k_created_at := now |}
    else {| k_raw := raw; k_id := 0; k_bytes_processed := 0; k_created_at := 0 |} in
  Some {| active_key := active; previous_key := zero_key; next_key := zero_key;
          sec_sid := sid; rekey_pending := false |}.

Definition vf_rekey_needed (now : Z) (ctx : vfast_sec_ctx_t) : bool :=
  if rekey_pending ctx then false else
  if REKEY_TIMEOUT_SEC <=? now - k_created_at (active_key ctx) then true else
  if REKEY_DATA_THRESHOLD <=? k_bytes_processed (active_key ctx) then true else
  false.

Definition set_next_key (k : vfast_key_t) (pending : bool) (ctx : vfast_sec_ctx_t) : vfast_sec_ctx_t :=
  {| active_key := active_key ctx; previous_key := previous_key ctx; next_key := k;
     sec_sid := sec_sid ctx; rekey_pending := pending |}.

Definition vf_rekey_prepare_next (calls : list getrandom_result) (now : Z) (ctx : vfast_sec_ctx_t)
    : option (Z * vfast_sec_ctx_t) :=
  '(rc, bs) ← vfast_crypto_fill_random calls REKEY_KEY_SIZE;
  let raw := bs ++ drop (length bs) (k_raw zero_key) in
  if negb (rc =? 0) then
    Some (-1, set_next_key {| k_raw := raw; k_id := 0; k_bytes_processed := 0; k_created_at := 0 |}
                (rekey_pending ctx) ctx)
  else
    Some (0, set_next_key {| k_raw := raw; k_id := u32 (k_id (active_key ctx) + 1);
                             k_bytes_processed := 0; k_created_at := now |} true ctx).

Definition vf_rekey_commit (ctx : vfast_sec_ctx_t) : vfast_sec_ctx_t :=
  {| active_key := next_key ctx; previous_key := active_key ctx; next_key := zero_key;
     sec_sid := sec_sid ctx; rekey_pending := false |}.

Definition vf_rekey_get_key (ctx : vfast_sec_ctx_t) : list Z := k_raw (active_key ctx).
Definition vf_rekey_get_keyid (ctx : vfast_sec_ctx_t) : Z := k_id (active_key ctx).

Definition vf_rekey_get_decrypt_key (ctx : vfast_sec_ctx_t) (wire_kid : Z) : option (list Z) :=
  if wire_kid =? u8 (Z.land (k_id (active_key ctx)) 0xFF) then Some (k_raw (active_key ctx)) else
  if negb (k_id (previous_key ctx) =? 0) &&
     (wire_kid =? u8 (Z.land (k_id (previous_key ctx)) 0xFF))
  then Some (k_raw (previous_key ctx)) else None.

(** [atomic_fetch_add] on the bytes the active key has processed. *)
Definition add_processed (n : Z) (c : vfast_sec_ctx_t) : vfast_sec_ctx_t :=
  {| active_key := {| k_raw := k_raw (active_key c); k_id := k_id (active_key c);
                      k_bytes_processed := u64 (k_bytes_processed (active_key c) + n);
                      k_created_at := k_created_at (active_key c) |};
     previous_key := previous_key c; next_key := next_key c; sec_sid := sec_sid c;
     rekey_pending := rekey_pending c |}.

(** * Well-formedness *)

Definition key_ok (k : vfast_key_t) : Prop :=
  length (k_raw k) = REKEY_KEY_SIZE /\ bytes_ok (k_raw k) /\ word_ok 32 (k_id k) /\
  word_ok 64 (k_bytes_processed k).

Definition sec_ok (ctx : vfast_sec_ctx_t) : Prop :=
  key_ok (active_key ctx) /\ key_ok (previous_key ctx) /\ key_ok (next_key ctx) /\
  word_ok 32 (sec_sid ctx).

Definition calls_ok (calls : list getrandom_result) : Prop :=
  Forall (fun r => match r with GrErr _ => True | GrBytes bs => bytes_ok bs end) calls.

#[export] Instance key_ok_dec k : Decision (key_ok k).
Proof. unfold key_ok. apply _. Defined.
#[export] Instance sec_ok_dec ctx : Decision (sec_ok ctx).
Proof. unfold sec_ok. apply _. Defined.
#[export] Instance calls_ok_dec calls : Decision (calls_ok calls).
Proof. apply Forall_dec. intros [e|bs]; [by left|apply bytes_ok_dec]. Defined.

Lemma mk_key_ok raw id b t :
  length raw = REKEY_KEY_SIZE /\ bytes_ok raw -> word_ok 32 id -> word_ok 64 b ->
  key_ok {| k_raw := raw; k_id := id; k_bytes_processed := b; k_created_at := t |}.
Proof. intros [? ?] ? ?. done. Qed.

Lemma word_ok_0 w : 0 <= w -> word_ok w 0.
Proof. intros. split; [lia|]. apply Z.pow_pos_nonneg; lia. Qed.
#[export] Hint Resolve mk_key_ok word_ok_0 : bytes.

Lemma zero_key_ok : key_ok zero_key.
Proof. by_compute. Qed.
#[export] Hint Resolve zero_key_ok : bytes.

Lemma add_processed_ok n c : sec_ok c -> sec_ok (add_processed n c).
Proof.
  intros ((? & ? & ? & ?) & ? & ? & ?). split; [|done]. apply mk_key_ok; [done|done|]. apply wrap_ok. lia.
Qed.

Lemma fill_random_spec calls n rc bs :
  calls_ok calls -> vfast_crypto_fill_random calls n = Some (rc, bs) ->
  bytes_ok bs /\ (length bs <= n)%nat /\ (rc = 0 /\ length bs = n \/ rc = -1).
Proof.
  intros Hc. revert n rc bs. induction Hc as [|r calls Hr Hc IH]; intros [|n] rc bs H.
  - cbn in H. simplify_eq. split_and!; [constructor|done|by left].
  - done.
  - cbn in H. simplify_eq. split_and!; [constructor|done|by left].
  - cbn [vfast_crypto_fill_random] in H. destruct r as [e|b].
    + destruct (e =? EINTR); [by apply IH|]. simplify_eq.
      split_and!; [constructor|cbn; lia|by right].
    + destruct (vfast_crypto_fill_random calls _) as [[rc' rest]|] eqn:E; [|done].
      cbn in H. injection H as <- <-. apply IH in E as (Hb & Hl & Hrc).
      pose proof (length_take b (S n)).
      split_and!; [apply bytes_ok_app; auto with bytes|rewrite length_app; lia|].
      destruct Hrc as [[-> Hl']|]; [left; split; [done|]|by right].
      rewrite length_app. lia.
Qed.

Lemma filled_ok bs n (l : list Z) :
  bytes_ok bs -> (length bs <= n)%nat -> length l = n -> bytes_ok l ->
  length (bs ++ drop (length bs) l) = n /\ bytes_ok (bs ++ drop (length bs) l).
Proof.
  intros. split; [rewrite length_app, length_drop; lia|auto with bytes].
Qed.

Lemma vf_rekey_init_ok calls now sid ctx :
  calls_ok calls -> word_ok 32 sid -> vf_rekey_init calls now sid = Some ctx -> sec_ok ctx.
Proof.
  intros Hc Hs H. unfold vf_rekey_init in H.
  destruct (vfast_crypto_fill_random calls _) as [[rc bs]|] eqn:E; [|done].
  cbn [mbind option_bind] in H. injection H as <-.
  apply fill_random_spec in E as (Hb & Hl & _); [|done].
  pose proof (filled_ok bs 32 (k_raw zero_key) Hb Hl ltac:(done) ltac:(by_compute)) as HL.
  split; [|split; [apply zero_key_ok|split; [apply zero_key_ok|done]]].
  destruct (rc =? 0); apply mk_key_ok; auto; by_compute.
Qed.

Lemma vf_rekey_prepare_next_ok calls now ctx rc ctx' :
  calls_ok calls -> sec_ok ctx -> vf_rekey_prepare_next calls now ctx = Some (rc, ctx') -> sec_ok ctx'.
Proof.
  intros Hc Hs H. unfold vf_rekey_prepare_next in H.
  destruct (vfast_crypto_fill_random calls _) as [[rc' bs]|] eqn:E; [|done].
  cbn [mbind option_bind] in H.
  apply fill_random_spec in E as (Hb & Hl & _); [|done].
  pose proof (filled_ok bs 32 (k_raw zero_key) Hb Hl ltac:(done) ltac:(by_compute)) as HL.
  destruct Hs as (Ha & Hp & Hn & Hsid).
  destruct (negb _); injection H as <- <-.
  - split; [exact Ha|split; [exact Hp|split; [|exact Hsid]]].
    apply mk_key_ok; [exact HL|by_compute..].
  - split; [exact Ha|split; [exact Hp|split; [|exact Hsid]]].
    apply mk_key_ok; [exact HL|apply wrap_ok; lia|by_compute].
Qed.

Lemma vf_rekey_commit_ok ctx : sec_ok ctx -> sec_ok (vf_rekey_commit ctx).
Proof. intros (Ha & Hp & Hn & Hs). split; [done|split; [done|split; [apply zero_key_ok|done]]]. Qed.

Lemma land_ff x : Z.land x 0xFF = x mod 256.
Proof. change 0xFF with (Z.ones 8). by rewrite Z.land_ones. Qed.

Lemma u8_land x : u8 (Z.land x 0xFF) = x mod 256.
Proof. rewrite land_ff. unfold wrap. change (2 ^ 8) with 256. apply Zmod_mod. Qed.

(** A packet sealed under the current key finds it, also after one commit:
    the two generations have neighbouring identifiers. *)
Lemma decrypt_key_active ctx :
  vf_rekey_get_decrypt_key ctx (vf_rekey_get_keyid ctx mod 256) = Some (vf_rekey_get_key ctx).
Proof.
  unfold vf_rekey_get_decrypt_key, vf_rekey_get_keyid. rewrite u8_land, Z.eqb_refl. done.
Qed.

Lemma wire_kid_succ id : word_ok 32 id -> u32 (id + 1) mod 256 <> id mod 256.
Proof.
  intros Hid. unfold wrap. change (2 ^ 32) with (256 * 2 ^ 24).
  rewrite Z.mod_mod_divide by (exists (2 ^ 24); lia). Z.div_mod_to_equations. lia.
Qed.

Lemma vf_rekey_prepare_next_success calls now ctx ctx' :
  calls_ok calls -> vf_rekey_prepare_next calls now ctx = Some (0, ctx') ->
  exists raw, vfast_crypto_fill_random calls REKEY_KEY_SIZE = Some (0, raw) /\ length raw = REKEY_KEY_SIZE /\ bytes_ok raw /\
    ctx' = set_next_key {| k_raw := raw; k_id := u32 (k_id (active_key ctx) + 1);
                           k_bytes_processed := 0; k_created_at := now |} true ctx.
Proof.
  intros Hc H. unfold vf_rekey_prepare_next in H.
  destruct (vfast_crypto_fill_random calls _) as [[rc bs]|] eqn:E; [|done].
  cbn [mbind option_bind] in H. destruct (Z.eqb_spec rc 0) as [->|]; [|done]. cbn [negb] in H. injection H as <-.
  apply fill_random_spec in E as (Hb & _ & [[_ Hl]|?]); [|done|done].
  exists bs. split; [done|]. split; [done|]. split; [done|].
  rewrite drop_ge, app_nil_r; [done|]. rewrite Hl. done.
Qed.

(** C8 Key rotation keeps both generations readable: after a successful
    [vf_rekey_prepare_next] and [vf_rekey_commit] the context is well-formed,
    its identifier is the successor of the old one, a packet marked with the
    old 8-bit identifier is opened with the old key (unless that was the
    uninitialised key 0), one marked with the new identifier with the new key,
    any other identifier is refused, and no rotation is requested while one
    is pending. *)
Theorem vf_rekey_rotation calls now ctx ctx' wire :
  sec_ok ctx -> calls_ok calls -> vf_rekey_prepare_next calls now ctx = Some (0, ctx') ->
  let c := vf_rekey_commit ctx' in
  sec_ok c /\ vf_rekey_get_keyid c = u32 (vf_rekey_get_keyid ctx + 1) /\
  vf_rekey_get_decrypt_key c (vf_rekey_get_keyid c mod 256) = Some (vf_rekey_get_key c) /\
  (vf_rekey_get_keyid ctx <> 0 ->
   vf_rekey_get_decrypt_key c (vf_rekey_get_keyid ctx mod 256) = Some (vf_rekey_get_key ctx)) /\
  (wire <> vf_rekey_get_keyid c mod 256 -> wire <> vf_rekey_get_keyid ctx mod 256 ->
   vf_rekey_get_decrypt_key c wire = None) /\
  (forall t, vf_rekey_needed t ctx' = false).
Proof.
  intros Hs Hc H c.
  pose proof (vf_rekey_commit_ok _ (vf_rekey_prepare_next_ok _ _ _ _ _ Hc Hs H)) as Hok.
  apply vf_rekey_prepare_next_success in H as (raw & _ & Hl & Hb & Ectx); [|done].
  assert (k_id (active_key c) = u32 (k_id (active_key ctx) + 1)) as Eid by (unfold c; by rewrite Ectx).
  assert (previous_key c = active_key ctx) as Eprev by (unfold c; by rewrite Ectx).
  split; [exact Hok|]. split; [exact Eid|]. split; [apply decrypt_key_active|].
  unfold vf_rekey_get_decrypt_key, vf_rekey_get_keyid, vf_rekey_get_key.
  rewrite !u8_land, Eid, Eprev.
  assert (word_ok 32 (k_id (active_key ctx))) as Hid by apply Hs.
  split; [|split].
  - intros Hz. pose proof (wire_kid_succ _ Hid).
    destruct (Z.eqb_spec (k_id (active_key ctx) mod 256) (u32 (k_id (active_key ctx) + 1) mod 256));
      [congruence|].
    rewrite Z.eqb_refl. apply Z.eqb_neq in Hz. by rewrite Hz.
  - intros H1 H2. apply Z.eqb_neq in H1, H2. by rewrite H1, H2, andb_false_r.
  - intros t. by rewrite Ectx.
Qed.

Lemma vf_rekey_rotation_witness :
  let ctx := {| active_key := {| k_raw := replicate 32 1; k_id := 255; k_bytes_processed := 0;
                                 k_created_at := 5 |};
                previous_key := zero_key; next_key := zero_key; sec_sid := 9; rekey_pending := false |} in
  let ctx' := set_next_key {| k_raw := replicate 32 2; k_id := 256; k_bytes_processed := 0;
                              k_created_at := 400 |} true ctx in
  let c := vf_rekey_commit ctx' in
  sec_ok c /\ vf_rekey_get_keyid c = u32 (vf_rekey_get_keyid ctx + 1) /\
  vf_rekey_get_decrypt_key c (vf_rekey_get_keyid c mod 256) = Some (vf_rekey_get_key c) /\
  (vf_rekey_get_keyid ctx <> 0 ->
   vf_rekey_get_decrypt_key c (vf_rekey_get_keyid ctx mod 256) = Some (vf_rekey_get_key ctx)) /\
  (7 <> vf_rekey_get_keyid c mod 256 -> 7 <> vf_rekey_get_keyid ctx mod 256 ->
   vf_rekey_get_decrypt_key c 7 = None) /\
  (forall t, vf_rekey_needed t ctx' = false).
Proof.
  intros ctx ctx' c.
  apply (vf_rekey_rotation [GrBytes (replicate 20 2); GrErr 4; GrBytes (replicate 40 2)] 400 ctx ctx' 7).
  - unfold ctx. by_compute.
  - by_compute.
  - vm_compute. reflexivity.
Defined.
