(* ===== verification/Protocol.v ===== *)
(** The tunnel protocol (src/src/protocol.h, src/src/protocol.c): the packed
    header, padding, header obfuscation, and the packing and unpacking of
    packets in their buffer. *)
From S2P Require Import Prelude Chacha Poly1305 Aead Crypto Key.

Definition BUF_SIZE : Z := 2048.
Definition VPN_TNL_HLEN : Z := 20.
Definition HLEN : nat := 20.
Definition VPN_VERSION : Z := 1.
Definition VPN_HDR_FLAG_PADDING : Z := 1.
Definition VF_MAGIC : Z := 0x5646.
Definition VF_RTT_THRESHOLD_MS : Z := 1000.
Definition VF_OK : Z := 0.
Definition VF_ERR_GENERIC : Z := -1.
Definition VF_ERR_INVALID_PARAM : Z := -6.

(** [vf_msg_t] *)
Definition VPN_MSG_DATA : Z := 1.
Definition VPN_MSG_HELLO : Z := 2.
Definition VPN_MSG_KEEPALIVE : Z := 3.
Definition VPN_MSG_DISCONNECT : Z := 4.
Definition VPN_DPD_REQUEST : Z := 5.
Definition VPN_DPD_RESPONSE : Z := 6.
Definition VPN_MSG_REKEY_REQ : Z := 7.
Definition VPN_MSG_REKEY_ACK : Z := 8.
Definition VPN_MSG_AUTH_REQ : Z := 9.
Definition VPN_MSG_AUTH_ACK : Z := 10.
Definition VPN_MSG_LOGOUT : Z := 11.

(** ** [vf_hdr_t]: byte offsets of the packed fields *)

Definition H_MAGIC : nat := 0.
Definition H_VERSION : nat := 2.
Definition H_MSG_TYPE : nat := 3.
Definition H_TOTAL_LEN : nat := 4.
Definition H_KEY_ID : nat := 6.
Definition H_FLAGS : nat := 7.
Definition H_SESSION_ID : nat := 8.
Definition H_SEQ_NUM : nat := 12.
Definition H_PADDING_LEN : nat := 16.

(** Arithmetic on header offsets. *)
Ltac hlia := unfold H_MAGIC, H_VERSION, H_MSG_TYPE, H_TOTAL_LEN, H_KEY_ID, H_FLAGS,
  H_SESSION_ID, H_SEQ_NUM, H_PADDING_LEN, HLEN in *; lia.

Definition _calculate_checksum_fold (fuel : nat) (sum : Z) : Z :=
  Nat.iter fuel (fun s => if Z.shiftr s 16 =? 0 then s
                          else u32 (Z.land s 0xFFFF + Z.shiftr s 16)) sum.

Fixpoint _calculate_checksum_sum (buf : list Z) (sum : Z) : Z :=
  match buf with
  | a :: b :: rest => _calculate_checksum_sum rest (u32 (sum + (a + 256 * b)))
  | [a] => u32 (sum + a)
  | [] => sum
  end.

(** Three folding steps suffice: [_calculate_checksum_folded]. *)
Definition _calculate_checksum (buf : list Z) : Z :=
  u16 (wnot 32 (_calculate_checksum_fold 3 (_calculate_checksum_sum buf 0))).

(** ** Padding *)

Definition vpn_fast_rand (seed : Z) : Z :=
  let x := Z.lxor seed (wshl 32 seed 13) in
  let x := Z.lxor x (Z.shiftr x 17) in
  Z.lxor x (wshl 32 x 5).

Definition LOCAL_SEED : Z := 0x5EED5EED.

(** The noise loop: [n] bytes from index [i], [noise_block] being the current
    32-bit block; the bytes and the seed left. *)
Fixpoint padding_noise (n : nat) (i seed noise_block : Z) : list Z * Z :=
  match n with
  | O => ([], seed)
  | S n' =>
      let seed' := if Z.land i 3 =? 0 then vpn_fast_rand seed else seed in
      let noise_block := if Z.land i 3 =? 0 then seed' else noise_block in
      let b := u8 (Z.shiftr noise_block (Z.shiftl (Z.land i 3) 3)) in
      let '(rest, s) := padding_noise n' (i + 1) seed' noise_block in
      (b :: rest, s)
  end.

(** The new length, the buffer and the thread's seed.  A modulus of 0 (never
    passed) is undefined behaviour. *)
Definition vf_apply_padding (buf : list Z) (raw_len max_pad seed : Z)
    : option (Z * list Z * Z) :=
  if raw_len <=? 0 then Some (raw_len, buf, seed) else
  let consumed := VPN_TNL_HLEN + raw_len in
  let spare := BUF_SIZE - consumed - 32 in
  if spare <=? 0 then
    buf ← put_le H_PADDING_LEN 1 0 buf;
    Some (raw_len, buf, seed)
  else
    let bound := if max_pad <? spare then max_pad else spare in
    if bound =? 0 then None else
    let seed := vpn_fast_rand seed in
    let p_len := u8 (seed mod bound) in
    if p_len =? 0 then
      buf ← put_le H_PADDING_LEN 1 0 buf;
      Some (raw_len, buf, seed)
    else
      let '(noise, seed) := padding_noise (Z.to_nat p_len) 0 seed 0 in
      buf ← put_bytes (Z.to_nat consumed) noise buf;
      buf ← put_le H_PADDING_LEN 1 p_len buf;
      flags ← get_le H_FLAGS 1 buf;
      buf ← put_le H_FLAGS 1 (Z.lor flags VPN_HDR_FLAG_PADDING) buf;
      Some (raw_len + p_len, buf, seed).

Definition vf_remove_padding (buf : list Z) (p_len : Z) : option (Z * Z * list Z) :=
  if p_len <? VPN_TNL_HLEN then Some (-1, p_len, buf) else
  flags ← get_le H_FLAGS 1 buf;
  if negb (Z.land flags VPN_HDR_FLAG_PADDING =? 0) then
    padding_val ← get_le H_PADDING_LEN 1 buf;
    if padding_val + VPN_TNL_HLEN <=? p_len then
      buf ← put_le H_FLAGS 1 (Z.land flags (wnot 8 VPN_HDR_FLAG_PADDING)) buf;
      Some (0, p_len - padding_val, buf)
    else Some (-1, p_len, buf)
  else Some (0, p_len, buf).

(** ** Header obfuscation *)

Definition obfs_mask (obfs_key : Z) : Z := Z.lor (wshl 32 obfs_key 8) (Z.shiftr obfs_key 24).

Definition vf_apply_header_obfs (buf : list Z) (wire_len : Z) : option (list Z) :=
  if wire_len <? VPN_TNL_HLEN then Some buf else
  rolling_seq ← get_le H_SEQ_NUM 4 buf;
  let obfs_key := Z.lxor rolling_seq 0xDEADBEEF in
  session_id ← get_le H_SESSION_ID 4 buf;
  buf ← put_le H_SESSION_ID 4 (Z.lxor session_id obfs_key) buf;
  head_block ← get_le 0 4 buf;
  put_le 0 4 (Z.lxor head_block (obfs_mask obfs_key)) buf.

Definition vf_remove_header_obfs (buf : list Z) (wire_len : Z) : option (list Z) :=
  if wire_len <? VPN_TNL_HLEN then Some buf else
  rolling_seq ← get_le H_SEQ_NUM 4 buf;
  let obfs_key := Z.lxor rolling_seq 0xDEADBEEF in
  head_block ← get_le 0 4 buf;
  buf ← put_le 0 4 (Z.lxor head_block (obfs_mask obfs_key)) buf;
  session_id ← get_le H_SESSION_ID 4 buf;
  put_le H_SESSION_ID 4 (Z.lxor session_id obfs_key) buf.

(** ** Header construction *)

(** [total_sz] is the [uint64_t] the caller's [int] converts to. *)
Definition vf_fill_header (buf : list Z) (total_sz type sid kid : Z) : option (Z * list Z) :=
  if BUF_SIZE <? u64 total_sz then Some (VF_ERR_INVALID_PARAM, buf) else
  buf ← put_le H_MAGIC 2 (htons VF_MAGIC) buf;
  buf ← put_le H_VERSION 1 VPN_VERSION buf;
  buf ← put_le H_MSG_TYPE 1 (u8 type) buf;
  buf ← put_le H_TOTAL_LEN 2 (htons (u16 total_sz)) buf;
  buf ← put_le H_KEY_ID 1 (Z.land kid 0xFF) buf;
  buf ← put_le H_FLAGS 1 0 buf;
  buf ← put_le H_SESSION_ID 4 (htonl sid) buf;
  Some (VF_OK, buf).

(** ** Packing and unpacking *)

(** The sender's thread-local seed and the cipher's static nonce state. *)
Record pack_state := { ps_seed : Z; ps_nonce : nonce_state }.

Definition pack_plain_type (type : Z) : bool :=
  (type =? VPN_MSG_HELLO) || (type =? VPN_MSG_KEEPALIVE) ||
  (type =? VPN_MSG_AUTH_REQ) || (type =? VPN_MSG_AUTH_ACK).

(** [u] is what /dev/urandom answers if the nonce prefix must be read; the
    result is the length or -1, the buffer and the new state. *)
Definition vf_pack (st : pack_state) (u : urandom_result) (sec : option vfast_sec_ctx_t)
    (buf : list Z) (plen max_size type sid : Z) : option (Z * list Z * pack_state) :=
  '(i_plen, buf, seed) ← vf_apply_padding buf plen 32 (ps_seed st);
  '(out_len, kid, buf, nst) ←
    match sec with
    | Some s =>
        if pack_plain_type type then Some (i_plen, 0, buf, ps_nonce st)
        else if i_plen <? 0 then None (* a [memmove] of almost 2^64 bytes *)
        else
          '(_, out_len, buf, nst) ←
            vf_encrypt (ps_nonce st) u (vf_rekey_get_key s) None (Z.to_nat i_plen) buf HLEN;
          Some (Z.of_nat out_len, vf_rekey_get_keyid s, buf, nst)
    | None => Some (i_plen, 0, buf, ps_nonce st)
    end;
  let st := {| ps_seed := seed; ps_nonce := nst |} in
  let tlen := VPN_TNL_HLEN + out_len in
  '(_, buf) ← vf_fill_header buf tlen type sid kid;
  if max_size <? tlen then Some (-1, buf, st) else
  buf ← vf_apply_header_obfs buf (u64 tlen);
  Some (tlen, buf, st).

(** [None] inside is the NULL result, [Some plen] the payload pointer
    [buf + HLEN] and [*out_plen]. *)
Definition vf_unpack (sec : option vfast_sec_ctx_t) (buf : list Z) (res : Z)
    : option (option Z * list Z) :=
  if res <? VPN_TNL_HLEN then Some (None, buf) else
  msg_type ← get_le H_MSG_TYPE 1 buf;
  key_id ← get_le H_KEY_ID 1 buf;
  let rlen := res - VPN_TNL_HLEN in
  '(dlen, buf) ←
    (if pack_plain_type msg_type then Some (Some rlen, buf) else
     match sec with
     | None => Some (None, buf)
     | Some s =>
         match vf_rekey_get_decrypt_key s key_id with
         | None => Some (None, buf)
         | Some key =>
             '(rc, dlen, buf) ← vf_decrypt key buf HLEN (Z.to_nat rlen) HLEN true;
             Some (if rc =? 0 then Some (Z.of_nat dlen) else None, buf)
         end
     end);
  match dlen with
  | None => Some (None, buf)
  | Some dlen =>
      '(rc, tlen, buf) ← vf_remove_padding buf (dlen + VPN_TNL_HLEN);
      if negb (rc =? 0) then Some (None, buf) else
      Some (Some (tlen - VPN_TNL_HLEN), buf)
  end.

(** * Header obfuscation *)

Lemma checksum_fold_small s :
  0 <= s < 2 ^ 32 ->
  (if Z.shiftr s 16 =? 0 then s else u32 (Z.land s 0xFFFF + Z.shiftr s 16))
  = if s / 2 ^ 16 =? 0 then s else s mod 2 ^ 16 + s / 2 ^ 16.
Proof.
  intros Hs. rewrite Z.shiftr_div_pow2 by lia. change 0xFFFF with (Z.ones 16). rewrite Z.land_ones by lia.
  destruct (_ =? 0); [done|]. unfold wrap. apply Z.mod_small.
  pose proof (Z.mod_pos_bound s (2 ^ 16) eq_refl). pose proof (Z.div_lt_upper_bound s (2 ^ 16) (2 ^ 16) eq_refl ltac:(lia)).
  pose proof (Z.div_pos s (2 ^ 16) ltac:(lia) eq_refl). lia.
Qed.

(** The C loop runs while a carry is left; after three steps none is. *)
Lemma _calculate_checksum_folded s : 0 <= s < 2 ^ 32 -> 0 <= _calculate_checksum_fold 3 s < 2 ^ 16.
Proof.
  intros Hs. unfold _calculate_checksum_fold. cbn [Nat.iter nat_rect].
  rewrite (checksum_fold_small s Hs).
  set (a := if s / 2 ^ 16 =? 0 then s else _).
  assert (0 <= a <= 2 * (2 ^ 16 - 1)) as Ha.
  { subst a. pose proof (Z.mod_pos_bound s (2 ^ 16) eq_refl). pose proof (Z.div_lt_upper_bound s (2 ^ 16) (2 ^ 16) eq_refl ltac:(lia)).
    pose proof (Z.div_pos s (2 ^ 16) ltac:(lia) eq_refl). destruct (Z.eqb_spec (s / 2 ^ 16) 0) as [E|]; [|lia].
    apply Z.div_small_iff in E; lia. }
  rewrite (checksum_fold_small a) by lia.
  set (b := if a / 2 ^ 16 =? 0 then a else _).
  assert (0 <= b < 2 ^ 16) as Hb.
  { subst b. pose proof (Z.mod_pos_bound a (2 ^ 16) eq_refl). pose proof (Z_div_mod_eq_full a (2 ^ 16)).
    destruct (Z.eqb_spec (a / 2 ^ 16) 0) as [E|]; [|nia]. apply Z.div_small_iff in E; lia. }
  rewrite (checksum_fold_small b) by lia. rewrite Z.div_small by lia. done.
Qed.

Lemma vf_apply_header_obfs_ok buf w :
  (HLEN <= length buf)%nat -> bytes_ok buf ->
  exists buf', vf_apply_header_obfs buf w = Some buf' /\ length buf' = length buf /\ bytes_ok buf'.
Proof.
  unfold HLEN. intros Hl Hb. unfold vf_apply_header_obfs. case_match; [by eauto|].
  destruct (get_le_Some H_SEQ_NUM 4 buf) as [seq Es]; [hlia|]. rewrite Es. cbn [mbind option_bind].
  destruct (get_le_Some H_SESSION_ID 4 buf) as [s E]; [hlia|]. rewrite E. cbn [mbind option_bind].
  destruct (put_le_Some H_SESSION_ID 4 (Z.lxor s (Z.lxor seq 0xDEADBEEF)) buf) as [b1 E1]; [hlia|].
  rewrite E1. cbn [mbind option_bind]. pose proof (put_le_length _ _ _ _ _ E1) as L1.
  destruct (get_le_Some 0 4 b1) as [h Eh]; [lia|]. rewrite Eh. cbn [mbind option_bind].
  destruct (put_le_Some 0 4 (Z.lxor h (obfs_mask (Z.lxor seq 0xDEADBEEF))) b1) as [b2 E2]; [lia|].
  exists b2. split; [done|]. split; [apply put_le_length in E2; lia|].
  eauto using put_le_ok.
Qed.

(** The two passes cancel. *)
Lemma header_obfs_cancel buf w buf' :
  bytes_ok buf -> vf_apply_header_obfs buf w = Some buf' ->
  vf_remove_header_obfs buf' w = Some buf.
Proof.
  intros Hb. unfold vf_apply_header_obfs, vf_remove_header_obfs. case_match; [by intros [= ->]|].
  intros H'. mon_inv H'. rename x into seq, x0 into s, x1 into b1, x2 into h.
  rename H0 into Es, H1 into E, H2 into E1, H3 into Eh, H' into E2.
  set (k := Z.lxor seq 0xDEADBEEF) in *.
  assert (bytes_ok b1) as Hb1 by eauto using put_le_ok.
  assert (word_ok 32 seq /\ word_ok 32 s /\ word_ok 32 h) as (Wq & Ws & Wh).
  { split_and!; eapply (get_le_ok _ 4); eauto. }
  assert (word_ok 32 k) as Wk by (apply lxor_ok; [lia|done|by_compute]).
  assert (word_ok 32 (obfs_mask k)) as Wm.
  { apply lor_ok; [lia|apply wrap_ok; lia|apply shiftr_ok; [lia|lia|done]]. }
  frame. 2: { by apply lxor_ok. }
  rewrite Es. cbn [mbind option_bind]. fold k.
  cbn [mbind option_bind]. rewrite lxor_cancel.
  rewrite (put_put_le_same _ _ _ _ _ _ E2), (put_le_id _ _ _ _ Eh Hb1). cbn [mbind option_bind].
  frame. 2: { by apply lxor_ok. }
  cbn [mbind option_bind]. rewrite lxor_cancel.
  rewrite (put_put_le_same _ _ _ _ _ _ E1). by apply put_le_id.
Qed.

Lemma header_obfs_frame buf w buf' o n :
  vf_apply_header_obfs buf w = Some buf' -> ((4 <= o /\ o + n <= 8) \/ 12 <= o)%nat ->
  get_bytes o n buf' = get_bytes o n buf.
Proof.
  unfold vf_apply_header_obfs. case_match; [by intros [= ->]|].
  intros H' Ho. mon_inv H'.
  rewrite (get_bytes_put_le_after _ _ _ _ _ _ _ H') by lia.
  destruct Ho.
  - by rewrite (get_bytes_put_le_before _ _ _ _ _ _ _ H2) by hlia.
  - by rewrite (get_bytes_put_le_after _ _ _ _ _ _ _ H2) by hlia.
Qed.

(** Removing the mask depends on the header only. *)
Lemma vf_remove_header_obfs_agree n b1 b2 w b1' :
  agree n b1 b2 -> (HLEN <= n)%nat -> vf_remove_header_obfs b1 w = Some b1' ->
  exists b2', vf_remove_header_obfs b2 w = Some b2' /\ agree n b1' b2'.
Proof.
  unfold HLEN. intros Ha Hn. unfold vf_remove_header_obfs. case_match; [intros [= <-]; by eauto|].
  intros H'. mon_inv H'.
  rewrite (agree_get_le n b1 b2) in H0 by (done || hlia).
  rewrite (agree_get_le n b1 b2) in H1 by (done || hlia).
  rewrite H0, H1. cbn [mbind option_bind].
  destruct (agree_put_le n b1 b2 0 4 _ _ Ha ltac:(lia) H2) as (c & Ec & Ha1).
  rewrite Ec. cbn [mbind option_bind].
  rewrite (agree_get_le n _ c _ _ Ha1) in H3 by hlia. rewrite H3. cbn [mbind option_bind].
  eapply agree_put_le; eauto. hlia.
Qed.

Lemma vf_remove_header_obfs_ok buf w :
  (HLEN <= length buf)%nat -> bytes_ok buf ->
  exists buf', vf_remove_header_obfs buf w = Some buf' /\ length buf' = length buf /\ bytes_ok buf'.
Proof.
  unfold HLEN. intros Hl Hb. unfold vf_remove_header_obfs. case_match; [by eauto|].
  destruct (get_le_Some H_SEQ_NUM 4 buf) as [seq Es]; [hlia|]. rewrite Es. cbn [mbind option_bind].
  destruct (get_le_Some 0 4 buf) as [h Eh]; [lia|]. rewrite Eh. cbn [mbind option_bind].
  destruct (put_le_Some 0 4 (Z.lxor h (obfs_mask (Z.lxor seq 0xDEADBEEF))) buf) as [b1 E1]; [lia|].
  rewrite E1. cbn [mbind option_bind]. pose proof (put_le_length _ _ _ _ _ E1) as L1.
  destruct (get_le_Some H_SESSION_ID 4 b1) as [s E]; [hlia|]. rewrite E. cbn [mbind option_bind].
  destruct (put_le_Some H_SESSION_ID 4 (Z.lxor s (Z.lxor seq 0xDEADBEEF)) b1) as [b2 E2]; [hlia|].
  exists b2. split; [done|]. split; [apply put_le_length in E2; lia|].
  eauto using put_le_ok.
Qed.

(** * Padding *)

Lemma vpn_fast_rand_ok s : word_ok 32 s -> word_ok 32 (vpn_fast_rand s).
Proof.
  intros Hs. unfold vpn_fast_rand, wshl.
  repeat (apply lxor_ok || apply wrap_ok || apply shiftr_ok); lia || done.
Qed.

Lemma padding_noise_spec n i seed nb bs s :
  word_ok 32 seed -> padding_noise n i seed nb = (bs, s) ->
  length bs = n /\ bytes_ok bs /\ word_ok 32 s.
Proof.
  revert i seed nb bs s. induction n as [|n IH]; intros i seed nb bs s Hs H.
  - injection H as <- <-. split_and!; [done|constructor|done..].
  - cbn [padding_noise] in H.
    destruct (padding_noise n _ _ _) as [rest s'] eqn:E. injection H as <- <-.
    apply IH in E as (Hl & Hb & Hw).
    + split_and!; [cbn; lia| |done..]. constructor; [|done]. apply (wrap_ok 8). lia.
    + case_match; auto using vpn_fast_rand_ok.
Qed.

Lemma vf_apply_padding_spec buf raw seed :
  length buf = 2048%nat -> bytes_ok buf -> word_ok 32 seed -> 0 <= raw <= 2028 ->
  exists p buf' seed', vf_apply_padding buf raw 32 seed = Some (raw + p, buf', seed') /\
    0 <= p < 32 /\ (p = 0 \/ raw + p < 1996) /\
    length buf' = 2048%nat /\ bytes_ok buf' /\ word_ok 32 seed' /\
    get_bytes HLEN (Z.to_nat raw) buf' = get_bytes HLEN (Z.to_nat raw) buf.
Proof.
  intros Hl Hb Hs Hr. unfold vf_apply_padding, VPN_TNL_HLEN, BUF_SIZE.
  destruct (Z.leb_spec raw 0).
  { exists 0, buf, seed. rewrite Z.add_0_r. split_and!; auto; lia. }
  destruct (put_le_Some H_PADDING_LEN 1 0 buf) as [bz Ez]; [hlia|].
  pose proof (put_le_length _ _ _ _ _ Ez) as Lz. pose proof (put_le_ok _ _ _ _ _ Ez Hb) as Oz.
  pose proof (fun n => get_bytes_put_le_after _ _ _ _ _ HLEN n Ez ltac:(hlia)) as Gz.
  destruct (Z.leb_spec (2048 - (20 + raw) - 32) 0).
  { exists 0, bz, seed. rewrite Ez, Z.add_0_r. split_and!; auto; lia. }
  set (bound := if 32 <? 2048 - (20 + raw) - 32 then 32 else 2048 - (20 + raw) - 32).
  assert (0 < bound <= 32 /\ bound <= 1996 - raw) as Hbound.
  { unfold bound. case_match; bool_cases; lia. }
  clearbody bound. destruct (Z.eqb_spec bound 0); [lia|].
  pose proof (vpn_fast_rand_ok seed Hs) as Hs1. set (seed1 := vpn_fast_rand seed) in *. clearbody seed1.
  pose proof (Z.mod_pos_bound seed1 bound ltac:(lia)) as Hm.
  rewrite (wrap_small 8) by lia. set (p := seed1 mod bound) in *. clearbody p.
  destruct (Z.eqb_spec p 0) as [->|Hp].
  { exists 0, bz, seed1. rewrite Ez, Z.add_0_r. split_and!; auto; lia. }
  destruct (padding_noise (Z.to_nat p) 0 seed1 0) as [noise seed2] eqn:En.
  apply padding_noise_spec in En as (Ln & On & Hs2); [|done].
  destruct (put_bytes_ex (Z.to_nat (20 + raw)) noise buf) as [b1 E1]; [lia|]. rewrite E1.
  cbn [mbind option_bind]. pose proof (put_bytes_length _ _ _ _ E1) as L1.
  destruct (put_le_Some H_PADDING_LEN 1 p b1) as [b2 E2]; [hlia|]. rewrite E2.
  cbn [mbind option_bind]. pose proof (put_le_length _ _ _ _ _ E2) as L2.
  destruct (get_le_Some H_FLAGS 1 b2) as [fl Ef]; [hlia|]. rewrite Ef. cbn [mbind option_bind].
  destruct (put_le_Some H_FLAGS 1 (Z.lor fl VPN_HDR_FLAG_PADDING) b2) as [b3 E3]; [hlia|]. rewrite E3.
  cbn [mbind option_bind]. pose proof (put_le_length _ _ _ _ _ E3) as L3.
  exists p, b3, seed2. split_and!; try lia; auto.
  - eauto using put_le_ok, put_bytes_ok.
  - rewrite (get_bytes_put_le_after _ _ _ _ _ _ _ E3), (get_bytes_put_le_after _ _ _ _ _ _ _ E2) by hlia.
    eapply get_put_before; [exact E1|hlia].
Qed.

(** No input makes [vf_remove_padding] read or write outside of a packet, or
    underflow the length. *)
Lemma vf_remove_padding_spec buf n :
  (HLEN <= length buf)%nat -> bytes_ok buf -> VPN_TNL_HLEN <= n ->
  exists rc m buf', vf_remove_padding buf n = Some (rc, m, buf') /\
    (rc = 0 /\ VPN_TNL_HLEN <= m <= n \/ rc = -1 /\ m = n) /\
    length buf' = length buf /\ bytes_ok buf' /\
    (forall o k, (o + k <= H_FLAGS \/ H_FLAGS < o)%nat -> get_bytes o k buf' = get_bytes o k buf).
Proof.
  unfold VPN_TNL_HLEN. intros Hl Hb Hn. unfold vf_remove_padding, VPN_TNL_HLEN.
  destruct (Z.ltb_spec n 20); [lia|].
  destruct (get_le_Some H_FLAGS 1 buf) as [fl Ef]; [hlia|]. rewrite Ef. cbn [mbind option_bind].
  destruct (negb _).
  - destruct (get_le_Some H_PADDING_LEN 1 buf) as [p Ep]; [hlia|]. rewrite Ep. cbn [mbind option_bind].
    pose proof (get_le_ok _ 1 _ _ Ep Hb) as Hp. unfold word_ok in Hp.
    destruct (Z.leb_spec (p + 20) n).
    + destruct (put_le_Some H_FLAGS 1 (Z.land fl (wnot 8 VPN_HDR_FLAG_PADDING)) buf) as [b E]; [hlia|].
      rewrite E. cbn [mbind option_bind]. do 3 eexists. split; [done|].
      split; [left; lia|]. split; [by eapply put_le_length|]. split; [by eapply put_le_ok|].
      intros o k [Ho|Ho]; [eapply get_bytes_put_le_before|eapply get_bytes_put_le_after]; try exact E; lia.
    + do 3 eexists. split; [done|]. split; [by right|]. done.
  - do 3 eexists. split; [done|]. split; [left; lia|]. done.
Qed.

(** * The header *)

Lemma vf_fill_header_spec buf n type sid kid :
  (HLEN <= length buf)%nat -> bytes_ok buf -> 0 <= n <= BUF_SIZE -> word_ok 32 sid ->
  exists buf', vf_fill_header buf n type sid kid = Some (VF_OK, buf') /\
    length buf' = length buf /\ bytes_ok buf' /\
    get_le H_MAGIC 2 buf' = Some (htons VF_MAGIC) /\
    get_le H_VERSION 1 buf' = Some VPN_VERSION /\
    get_le H_MSG_TYPE 1 buf' = Some (u8 type) /\
    get_le H_TOTAL_LEN 2 buf' = Some (htons n) /\
    get_le H_KEY_ID 1 buf' = Some (Z.land kid 0xFF) /\
    get_le H_FLAGS 1 buf' = Some 0 /\
    get_le H_SESSION_ID 4 buf' = Some (htonl sid) /\
    (forall o k, (H_SEQ_NUM <= o)%nat -> get_bytes o k buf' = get_bytes o k buf).
Proof.
  unfold BUF_SIZE. intros Hl Hb Hn Hs. unfold vf_fill_header, BUF_SIZE.
  rewrite !wrap_small by lia. destruct (Z.ltb_spec 2048 n); [lia|].
  destruct (put_le_Some H_MAGIC 2 (htons VF_MAGIC) buf) as [b1 E1]; [hlia|]. rewrite E1. cbn [mbind option_bind].
  pose proof (put_le_length _ _ _ _ _ E1).
  destruct (put_le_Some H_VERSION 1 VPN_VERSION b1) as [b2 E2]; [hlia|]. rewrite E2. cbn [mbind option_bind].
  pose proof (put_le_length _ _ _ _ _ E2).
  destruct (put_le_Some H_MSG_TYPE 1 (u8 type) b2) as [b3 E3]; [hlia|]. rewrite E3. cbn [mbind option_bind].
  pose proof (put_le_length _ _ _ _ _ E3).
  destruct (put_le_Some H_TOTAL_LEN 2 (htons n) b3) as [b4 E4]; [hlia|]. rewrite E4. cbn [mbind option_bind].
  pose proof (put_le_length _ _ _ _ _ E4).
  destruct (put_le_Some H_KEY_ID 1 (Z.land kid 0xFF) b4) as [b5 E5]; [hlia|]. rewrite E5. cbn [mbind option_bind].
  pose proof (put_le_length _ _ _ _ _ E5).
  destruct (put_le_Some H_FLAGS 1 0 b5) as [b6 E6]; [hlia|]. rewrite E6. cbn [mbind option_bind].
  pose proof (put_le_length _ _ _ _ _ E6).
  destruct (put_le_Some H_SESSION_ID 4 (htonl sid) b6) as [b7 E7]; [hlia|]. rewrite E7. cbn [mbind option_bind].
  pose proof (put_le_length _ _ _ _ _ E7).
  assert (word_ok 8 (Z.land kid 0xFF)) by (rewrite land_ff; apply (Z.mod_pos_bound kid 256); lia).
  exists b7. split; [done|]. split; [congruence|]. split; [eauto 8 using put_le_ok|].
  frame. all: try (by_compute || apply wrap_ok; lia).
  - split_and!; auto. intros o k Ho.
    rewrite (get_bytes_put_le_after _ _ _ _ _ _ _ E7), (get_bytes_put_le_after _ _ _ _ _ _ _ E6),
      (get_bytes_put_le_after _ _ _ _ _ _ _ E5), (get_bytes_put_le_after _ _ _ _ _ _ _ E4),
      (get_bytes_put_le_after _ _ _ _ _ _ _ E3), (get_bytes_put_le_after _ _ _ _ _ _ _ E2),
      (get_bytes_put_le_after _ _ _ _ _ _ _ E1) by hlia. done.
  - apply (bswap_ok 4).
  - done.
  - apply (bswap_ok 2).
Qed.

(** * Packing and unpacking *)

Definition pack_state_ok (st : pack_state) : Prop :=
  word_ok 32 (ps_seed st) /\ nonce_state_ok (ps_nonce st).

#[export] Instance pack_state_ok_dec st : Decision (pack_state_ok st).
Proof. unfold pack_state_ok. apply _. Defined.

(** What a packet on the wire is, before the mask: its header fields and its
    body of [n] bytes. *)
Record packet_at (buf : list Z) (type sid kid : Z) (body : list Z) : Prop := {
  pk_len : length buf = 2048%nat;
  pk_ok : bytes_ok buf;
  pk_type : get_le H_MSG_TYPE 1 buf = Some (u8 type);
  pk_kid : get_le H_KEY_ID 1 buf = Some (Z.land kid 0xFF);
  pk_flags : get_le H_FLAGS 1 buf = Some 0;
  pk_sid : get_le H_SESSION_ID 4 buf = Some (htonl sid);
  pk_body : get_bytes HLEN (length body) buf = Some body
}.

(** Header and mask over a buffer that holds the body. *)
Lemma finish_packet buf n type sid kid body max :
  length buf = 2048%nat -> bytes_ok buf -> word_ok 32 sid ->
  get_bytes HLEN (length body) buf = Some body ->
  n = VPN_TNL_HLEN + Z.of_nat (length body) -> n <= max ->
  exists b1 b2, vf_fill_header buf n type sid kid = Some (VF_OK, b1) /\
    packet_at b1 type sid kid body /\
    vf_apply_header_obfs b1 (u64 n) = Some b2 /\ bytes_ok b2 /\ length b2 = 2048%nat.
Proof.
  unfold VPN_TNL_HLEN. intros Hl Hb Hs Hg Hn Hmax.
  pose proof (get_bytes_bound _ _ _ _ Hg) as Hbd.
  destruct (vf_fill_header_spec buf n type sid kid) as
    (b1 & E & L1 & O1 & _ & _ & Ft & _ & Fk & Ff & Fs & Fr); auto; [hlia|unfold BUF_SIZE; hlia|].
  destruct (vf_apply_header_obfs_ok b1 (u64 n)) as (b2 & E2 & L2 & O2); [hlia|done|].
  exists b1, b2. split_and!; auto; [|congruence].
  split; auto; [congruence|]. rewrite Fr by hlia. done.
Qed.

(** Everything but the messages that bypass the cipher. *)
Lemma vf_pack_sealed st u s buf raw type sid payload :
  pack_state_ok st -> urandom_ok u -> sec_ok s ->
  length buf = 2048%nat -> bytes_ok buf -> word_ok 32 sid -> pack_plain_type type = false ->
  0 <= raw <= 1957 -> get_bytes HLEN (Z.to_nat raw) buf = Some payload ->
  exists noise nonce b1 b2 st', let n := 60 + raw + Z.of_nat (length noise) in
    (length noise < 32)%nat /\ length nonce = 24%nat /\ bytes_ok noise /\
    vf_pack st u (Some s) buf raw BUF_SIZE type sid = Some (n, b2, st') /\ n <= BUF_SIZE /\
    pack_state_ok st' /\ bytes_ok b2 /\ length b2 = 2048%nat /\
    packet_at b1 type sid (vf_rekey_get_keyid s)
      (vf_seal (vf_rekey_get_key s) nonce (payload ++ noise)) /\
    vf_apply_header_obfs b1 (u64 n) = Some b2.
Proof.
  intros [Hseed Hnst] Hu Hsec Hl Hb Hsid Hty Hraw Hg.
  destruct (vf_apply_padding_spec buf raw (ps_seed st) Hl Hb Hseed ltac:(lia))
    as (p & b & seed' & Ep & Hp & _ & Lb & Ob & Hseed' & Gb). rewrite Hg in Gb.
  pose proof (get_bytes_length _ _ _ _ Hg) as Lp.
  destruct (get_bytes HLEN (Z.to_nat (raw + p)) b) as [text|] eqn:Gt.
  2: { unfold get_bytes in Gt. case_decide; [done|hlia]. }
  pose proof (get_bytes_length _ _ _ _ Gt) as Lt. pose proof (get_bytes_ok _ _ _ _ Gt Ob) as Ot.
  pose proof (get_bytes_sub HLEN 0 (Z.to_nat raw) _ _ _ Gt ltac:(lia)) as Gs.
  rewrite Nat.add_0_r, Gb, drop_0 in Gs. injection Gs as ->.
  destruct (get_fast_nonce (ps_nonce st) u) as [nonce nst] eqn:En.
  destruct (get_fast_nonce_ok _ _ _ _ Hu Hnst En) as (Ln & On & Hnst' & _).
  pose proof (vf_seal_length (vf_rekey_get_key s) nonce text Ln) as Ls.
  destruct (put_bytes_ex HLEN (vf_seal (vf_rekey_get_key s) nonce text) b) as [be Ee]; [hlia|].
  pose proof (vf_encrypt_inplace (ps_nonce st) u (vf_rekey_get_key s) _ b HLEN text nonce nst
    Hnst Hu En Gt Ob ltac:(lia) ltac:(hlia)) as Henc. rewrite Ee in Henc.
  pose proof (put_bytes_length _ _ _ _ Ee) as Le.
  pose proof (put_bytes_ok _ _ _ _ Ee (vf_seal_ok _ _ _ On Ot) Ob) as Oe.
  destruct (finish_packet be (20 + Z.of_nat (40 + Z.to_nat (raw + p))) type sid (vf_rekey_get_keyid s)
    (vf_seal (vf_rekey_get_key s) nonce text) BUF_SIZE) as (b1 & b2 & Ef & Hpk & Eo & Ob2 & Lb2);
    auto; [congruence|by eapply get_put_same|unfold VPN_TNL_HLEN; lia|unfold BUF_SIZE; lia|].
  exists (drop (Z.to_nat raw) text), nonce, b1, b2, {| ps_seed := seed'; ps_nonce := nst |}.
  assert (60 + raw + Z.of_nat (length (drop (Z.to_nat raw) text)) =
          20 + Z.of_nat (40 + Z.to_nat (raw + p))) as -> by (rewrite length_drop; lia).
  rewrite take_drop. split; [rewrite length_drop; lia|]. split; [done|].
  split; [auto with bytes|]. split; [|conjs; auto; try done; unfold BUF_SIZE; lia].
  unfold vf_pack. rewrite Ep. cbn [mbind option_bind]. rewrite Hty.
  destruct (Z.ltb_spec (raw + p) 0); [lia|]. rewrite Henc.
  cbn [mbind option_bind fmap option_fmap option_map]. unfold VPN_TNL_HLEN. rewrite Ef.
  cbn [mbind option_bind]. rewrite Eo. destruct (Z.ltb_spec BUF_SIZE (20 + Z.of_nat (40 + Z.to_nat (raw + p))));
    [unfold BUF_SIZE in *; lia|done].
Qed.

(** The messages that bypass the cipher: the body is the payload and noise. *)
Lemma vf_pack_plain st u sec buf raw type sid payload :
  pack_state_ok st -> length buf = 2048%nat -> bytes_ok buf -> word_ok 32 sid ->
  sec = None \/ pack_plain_type type = true ->
  0 <= raw <= 1957 -> get_bytes HLEN (Z.to_nat raw) buf = Some payload ->
  exists noise b1 b2 st', let n := 20 + raw + Z.of_nat (length noise) in
    (length noise < 32)%nat /\ bytes_ok noise /\
    vf_pack st u sec buf raw BUF_SIZE type sid = Some (n, b2, st') /\ n <= BUF_SIZE /\
    pack_state_ok st' /\ bytes_ok b2 /\ length b2 = 2048%nat /\
    packet_at b1 type sid 0 (payload ++ noise) /\
    vf_apply_header_obfs b1 (u64 n) = Some b2.
Proof.
  intros [Hseed Hnst] Hl Hb Hsid Hty Hraw Hg.
  destruct (vf_apply_padding_spec buf raw (ps_seed st) Hl Hb Hseed ltac:(lia))
    as (p & b & seed' & Ep & Hp & _ & Lb & Ob & Hseed' & Gb). rewrite Hg in Gb.
  pose proof (get_bytes_length _ _ _ _ Hg) as Lp.
  destruct (get_bytes HLEN (Z.to_nat (raw + p)) b) as [text|] eqn:Gt.
  2: { unfold get_bytes in Gt. case_decide; [done|hlia]. }
  pose proof (get_bytes_length _ _ _ _ Gt) as Lt. pose proof (get_bytes_ok _ _ _ _ Gt Ob) as Ot.
  pose proof (get_bytes_sub HLEN 0 (Z.to_nat raw) _ _ _ Gt ltac:(lia)) as Gs.
  rewrite Nat.add_0_r, Gb, drop_0 in Gs. injection Gs as ->.
  destruct (finish_packet b (20 + (raw + p)) type sid 0 text BUF_SIZE)
    as (b1 & b2 & Ef & Hpk & Eo & Ob2 & Lb2);
    auto; [by rewrite Lt|unfold VPN_TNL_HLEN; lia|unfold BUF_SIZE; lia|].
  exists (drop (Z.to_nat raw) text), b1, b2, {| ps_seed := seed'; ps_nonce := ps_nonce st |}.
  assert (20 + raw + Z.of_nat (length (drop (Z.to_nat raw) text)) = 20 + (raw + p)) as ->
    by (rewrite length_drop; lia).
  rewrite take_drop. split; [rewrite length_drop; lia|].
  split; [auto with bytes|]. split; [|conjs; auto; try done; unfold BUF_SIZE; lia].
  unfold vf_pack. rewrite Ep. cbn [mbind option_bind].
  assert (match sec with
          | Some s => if pack_plain_type type then Some (raw + p, 0, b, ps_nonce st) else None
          | None => Some (raw + p, 0, b, ps_nonce st)
          end = Some (raw + p, 0, b, ps_nonce st)) as Hbr.
  { destruct Hty as [-> | ->]; [done|]. by destruct sec. }
  destruct sec as [s|]; [destruct (pack_plain_type type); [|done]|];
    cbn [mbind option_bind]; unfold VPN_TNL_HLEN; rewrite Ef;
    cbn [mbind option_bind]; rewrite Eo;
    (destruct (Z.ltb_spec BUF_SIZE (20 + (raw + p))); [unfold BUF_SIZE in *; lia|done]).
Qed.

(** [vf_unpack] is total on whatever arrives: it never touches memory outside
    of the [res] bytes received, and the length it reports fits them. *)
Lemma vf_unpack_total sec buf res :
  bytes_ok buf -> res <= Z.of_nat (length buf) -> res < 2 ^ 31 ->
  exists r buf', vf_unpack sec buf res = Some (r, buf') /\
    length buf' = length buf /\ bytes_ok buf' /\
    match r with None => True | Some plen => 0 <= plen <= res - VPN_TNL_HLEN end /\
    (forall o k, (o + k <= H_FLAGS \/ H_FLAGS < o /\ o + k <= HLEN)%nat -> get_bytes o k buf' = get_bytes o k buf).
Proof.
  unfold VPN_TNL_HLEN. intros Hb Hl Hr. unfold vf_unpack, VPN_TNL_HLEN.
  destruct (Z.ltb_spec res 20) as [|Hres]; [by eauto 10|].
  destruct (get_le_Some H_MSG_TYPE 1 buf) as [ty Et]; [hlia|]. rewrite Et. cbn [mbind option_bind].
  destruct (get_le_Some H_KEY_ID 1 buf) as [kid Ek]; [hlia|]. rewrite Ek. cbn [mbind option_bind].
  set (m := if pack_plain_type ty then _ else _).
  assert (exists d b, m = Some (d, b) /\ length b = length buf /\ bytes_ok b /\
    match d with None => True | Some n => 0 <= n <= res - 20 end /\
    forall o k, (o + k <= HLEN)%nat -> get_bytes o k b = get_bytes o k buf) as (d & b & -> & Lb & Ob & Hd & Hh).
  { unfold m. destruct (pack_plain_type ty).
    - do 2 eexists. split; [done|]. split_and!; auto; lia.
    - destruct sec as [s|]; [|by eauto 10].
      destruct (vf_rekey_get_decrypt_key s kid) as [key|]; [|by eauto 10].
      destruct (get_bytes HLEN (Z.to_nat (res - 20)) buf) as [pkt|] eqn:G.
      2: { unfold get_bytes in G. case_decide; [done|hlia]. }
      pose proof (get_bytes_length _ _ _ _ G) as Lp.
      rewrite (vf_decrypt_spec _ _ _ _ _ _ G Hb) by hlia.
      case_decide; [cbn; by eauto 10|].
      destruct (vf_open key pkt) as [text|] eqn:Eo; [|cbn; by eauto 10].
      pose proof (vf_open_length _ _ _ Eo) as Lo.
      pose proof (vf_open_ok _ _ _ (get_bytes_ok _ _ _ _ G Hb) Eo) as Oo.
      destruct (put_bytes_ex HLEN text buf) as [b Eb]; [hlia|]. rewrite Eb. cbn.
      do 2 eexists. split; [done|]. split; [by eapply put_bytes_length|].
      split; [eauto using put_bytes_ok|]. split; [lia|].
      intros o k Ho. by eapply get_put_before. }
  cbn [mbind option_bind]. 
  assert (H_FLAGS < HLEN)%nat as HF by hlia.
  destruct d as [n|]; [|do 2 eexists; split; [done|]; split_and!; auto; intros o k Ho; apply Hh; lia].
  destruct (vf_remove_padding_spec b (n + 20)) as (rc & k & b' & E & Hrc & Lb' & Ob' & Hp);
    [hlia|done|unfold VPN_TNL_HLEN; lia|].
  rewrite E. cbn [mbind option_bind]. unfold VPN_TNL_HLEN in Hrc.
  assert (forall o k0, (o + k0 <= H_FLAGS \/ H_FLAGS < o /\ o + k0 <= HLEN)%nat ->
    get_bytes o k0 b' = get_bytes o k0 buf) as Hk.
  { intros o k0 Ho. rewrite Hp by lia. apply Hh. lia. }
  destruct (negb (rc =? 0)) eqn:Erc; [do 2 eexists; split; [done|]; split_and!; auto; congruence|].
  do 2 eexists. split; [done|]. split; [congruence|]. split; [done|]. split; [|done].
  apply negb_false_iff, Z.eqb_eq in Erc. lia.
Qed.

Lemma get_bytes_drop off buf :
  (off <= length buf)%nat -> get_bytes off (length buf - off) buf = Some (drop off buf).
Proof. intros H. rewrite get_bytes_Some by lia. by rewrite take_ge by (rewrite length_drop; lia). Qed.

(** Unmasking and, for the types that travel in the clear, unpacking keep the
    body. *)
Lemma vf_remove_header_obfs_body buf w buf' :
  (HLEN <= length buf)%nat -> bytes_ok buf -> vf_remove_header_obfs buf w = Some buf' -> drop HLEN buf' = drop HLEN buf.
Proof.
  intros Hl Hb E. destruct (vf_remove_header_obfs_ok buf w Hl Hb) as (b & E' & Lb & _).
  rewrite E in E'. injection E' as <-. apply (inj Some).
  rewrite <- !get_bytes_drop by lia. rewrite Lb.
  unfold vf_remove_header_obfs in E. case_match; [by injection E as <-|].
  mon_inv E. erewrite get_bytes_put_le_after by (exact E || hlia).
  by erewrite get_bytes_put_le_after by (eassumption || hlia).
Qed.

Lemma vf_unpack_plain_body sec buf res type r buf' :
  bytes_ok buf -> res <= Z.of_nat (length buf) -> VPN_TNL_HLEN <= res ->
  get_le H_MSG_TYPE 1 buf = Some type -> pack_plain_type type = true ->
  vf_unpack sec buf res = Some (r, buf') -> drop HLEN buf' = drop HLEN buf.
Proof.
  unfold VPN_TNL_HLEN. intros Hb Hl Hr Et Hp. unfold vf_unpack, VPN_TNL_HLEN. rewrite Et.
  destruct (Z.ltb_spec res 20); [lia|]. cbn [mbind option_bind].
  destruct (get_le H_KEY_ID 1 buf); [|done]. cbn [mbind option_bind]. rewrite Hp. cbn [mbind option_bind].
  destruct (vf_remove_padding_spec buf (res - 20 + 20)) as (rc & k & b & E & _ & Lb & _ & Hk);
    [hlia|done|unfold VPN_TNL_HLEN; lia|].
  rewrite E. cbn [mbind option_bind]. intros HE. assert (buf' = b) as ->.
  { destruct (negb _); by injection HE. }
  apply (inj Some). rewrite <- !get_bytes_drop by hlia. rewrite Lb. apply Hk. hlia.
Qed.

Lemma remove_padding_unflagged buf n :
  VPN_TNL_HLEN <= n -> get_le H_FLAGS 1 buf = Some 0 -> vf_remove_padding buf n = Some (0, n, buf).
Proof.
  intros Hn Hf. unfold vf_remove_padding. destruct (Z.ltb_spec n VPN_TNL_HLEN); [lia|].
  by rewrite Hf.
Qed.

Lemma get_le_put_before off bs buf buf' o n :
  put_bytes off bs buf = Some buf' -> (o + n <= off)%nat -> get_le o n buf' = get_le o n buf.
Proof. intros. unfold get_le. by erewrite get_put_before by eauto. Qed.

Lemma vf_unpack_sealed s buf type kid key pkt text :
  bytes_ok buf -> length buf = 2048%nat -> pack_plain_type type = false ->
  get_le H_MSG_TYPE 1 buf = Some type -> get_le H_KEY_ID 1 buf = Some kid ->
  get_le H_FLAGS 1 buf = Some 0 -> vf_rekey_get_decrypt_key s kid = Some key ->
  get_bytes HLEN (length pkt) buf = Some pkt -> vf_open key pkt = Some text ->
  exists buf', vf_unpack (Some s) buf (VPN_TNL_HLEN + Z.of_nat (length pkt)) =
                 Some (Some (Z.of_nat (length text)), buf') /\
    get_bytes HLEN (length text) buf' = Some text.
Proof.
  unfold VPN_TNL_HLEN. intros Hb Hl Hty Ht Hk Hf Hkey Hg Ho.
  pose proof (vf_open_length _ _ _ Ho) as Lo. pose proof (get_bytes_bound _ _ _ _ Hg) as Hbd.
  unfold vf_unpack, VPN_TNL_HLEN. destruct (Z.ltb_spec (20 + Z.of_nat (length pkt)) 20); [lia|].
  rewrite Ht, Hk. cbn [mbind option_bind]. rewrite Hty, Hkey.
  replace (20 + Z.of_nat (length pkt) - 20) with (Z.of_nat (length pkt)) by lia. rewrite Nat2Z.id.
  rewrite (vf_decrypt_spec _ _ _ _ _ _ Hg Hb) by hlia. rewrite decide_False, Ho by lia.
  destruct (put_bytes_ex HLEN text buf) as [b Eb]; [hlia|]. rewrite Eb.
  cbn [fmap option_fmap option_map mbind option_bind Z.eqb].
  rewrite remove_padding_unflagged; [|unfold VPN_TNL_HLEN; lia|].
  2: { by rewrite (get_le_put_before _ _ _ _ _ _ Eb) by hlia. }
  cbn [mbind option_bind Z.eqb negb]. exists b. split; [do 3 f_equal; lia|].
  by eapply get_put_same.
Qed.

Lemma vf_unpack_plain sec buf type kid body :
  bytes_ok buf -> length buf = 2048%nat -> pack_plain_type type = true ->
  get_le H_MSG_TYPE 1 buf = Some type -> get_le H_KEY_ID 1 buf = Some kid ->
  get_le H_FLAGS 1 buf = Some 0 -> get_bytes HLEN (length body) buf = Some body ->
  vf_unpack sec buf (VPN_TNL_HLEN + Z.of_nat (length body)) =
    Some (Some (Z.of_nat (length body)), buf).
Proof.
  unfold VPN_TNL_HLEN. intros Hb Hl Hty Ht Hk Hf Hg. unfold vf_unpack, VPN_TNL_HLEN.
  destruct (Z.ltb_spec (20 + Z.of_nat (length body)) 20); [lia|].
  rewrite Ht, Hk. cbn [mbind option_bind]. rewrite Hty. cbn [mbind option_bind].
  rewrite remove_padding_unflagged; [|unfold VPN_TNL_HLEN; lia|done].
  cbn [mbind option_bind Z.eqb negb]. do 3 f_equal. lia.
Qed.

(** A receiver's buffer that holds the packet sees its fields. *)
Lemma packet_at_agree n b1 b2 type sid kid body :
  packet_at b1 type sid kid body -> agree n b1 b2 -> (HLEN + length body <= n)%nat ->
  get_le H_MSG_TYPE 1 b2 = Some (u8 type) /\ get_le H_KEY_ID 1 b2 = Some (Z.land kid 0xFF) /\
  get_le H_FLAGS 1 b2 = Some 0 /\ get_le H_SESSION_ID 4 b2 = Some (htonl sid) /\
  get_bytes HLEN (length body) b2 = Some body.
Proof.
  intros [] Ha Hn.
  rewrite <- !(agree_get_le n b1 b2) by (done || hlia).
  rewrite <- (agree_get n b1 b2) by (done || hlia). done.
Qed.

(** Receiving: unmask the buffer a packet was copied to. *)
Lemma receive_packet b1 b2 rb w type sid kid body :
  packet_at b1 type sid kid body -> vf_apply_header_obfs b1 w = Some b2 ->
  agree (HLEN + length body) b2 rb -> bytes_ok rb ->
  exists rb1, vf_remove_header_obfs rb w = Some rb1 /\ bytes_ok rb1 /\ length rb1 = length rb /\
    agree (HLEN + length body) b1 rb1.
Proof.
  intros Hpk Eo Ha Hrb.
  pose proof (header_obfs_cancel _ _ _ (pk_ok _ _ _ _ _ Hpk) Eo) as Er.
  destruct (vf_remove_header_obfs_agree _ _ _ _ _ Ha ltac:(lia) Er) as (rb1 & Er1 & Ha1).
  destruct Ha as (_ & Hl & _).
  destruct (vf_remove_header_obfs_ok rb w) as (rb1' & Er1' & Hl' & Ho'); [lia|done|].
  rewrite Er1 in Er1'. injection Er1' as <-. by exists rb1.
Qed.

Lemma vf_pack_sealed_bound st u s buf raw type sid r :
  pack_state_ok st -> length buf = 2048%nat -> bytes_ok buf -> pack_plain_type type = false ->
  0 <= raw <= 2028 -> vf_pack st u (Some s) buf raw BUF_SIZE type sid = Some r -> raw <= 1988.
Proof.
  intros [Hseed _] Hl Hb Hty Hraw H.
  destruct (vf_apply_padding_spec buf raw (ps_seed st) Hl Hb Hseed ltac:(lia))
    as (p & b & seed' & Ep & Hp & _ & Lb & Ob & _).
  unfold vf_pack in H. rewrite Ep in H. cbn [mbind option_bind] in H. rewrite Hty in H.
  destruct (Z.ltb_spec (raw + p) 0); [lia|].
  destruct (vf_encrypt _ _ _ _ _ _ _) as [r'|] eqn:E; [|done].
  apply vf_encrypt_inplace_bound in E; [|done|lia]. hlia.
Qed.

(** ** Delivery *)

(** A receiver with the context [sec'] can open what was packed under
    [sec]. *)
Definition accepts (sec sec' : option vfast_sec_ctx_t) (type : Z) : Prop :=
  pack_plain_type type = true \/
  exists s s', sec = Some s /\ sec' = Some s' /\ pack_plain_type type = false /\
    vf_rekey_get_decrypt_key s' (Z.land (vf_rekey_get_keyid s) 0xFF) = Some (vf_rekey_get_key s).

(** The first [n] bytes of [b] are a packet: whoever receives them under
    [sec'] unpacks the payload, followed by less than 32 bytes of noise. *)
Definition delivers (b : list Z) (n : Z) (sec' : option vfast_sec_ctx_t) (type sid : Z) (payload : list Z) : Prop :=
  VPN_TNL_HLEN <= n <= BUF_SIZE /\
  forall rb, agree (Z.to_nat n) b rb -> length rb = 2048%nat -> bytes_ok rb ->
    exists rb1 rb2 noise, vf_remove_header_obfs rb n = Some rb1 /\
      get_le H_SESSION_ID 4 rb1 = Some (htonl sid) /\ get_le H_MSG_TYPE 1 rb1 = Some type /\
      (length noise < 32)%nat /\
      vf_unpack sec' rb1 n = Some (Some (Z.of_nat (length (payload ++ noise))), rb2) /\
      get_bytes HLEN (length (payload ++ noise)) rb2 = Some (payload ++ noise).

Lemma vf_pack_delivers st u sec buf raw type sid payload :
  pack_state_ok st -> urandom_ok u -> match sec with Some s => sec_ok s | None => True end ->
  length buf = 2048%nat -> bytes_ok buf -> word_ok 32 sid -> word_ok 8 type -> 0 <= raw <= 1957 ->
  get_bytes HLEN (Z.to_nat raw) buf = Some payload ->
  exists n b st', vf_pack st u sec buf raw BUF_SIZE type sid = Some (n, b, st') /\ 0 < n <= BUF_SIZE /\
    pack_state_ok st' /\ bytes_ok b /\ length b = 2048%nat /\
    forall sec', accepts sec sec' type -> delivers b n sec' type sid payload.
Proof.
  intros Hst Hu Hs Hl Hb Hsid Hty8 Hraw Hg. pose proof (get_bytes_length _ _ _ _ Hg) as Lp.
  destruct (match sec with Some s => negb (pack_plain_type type) | None => false end) eqn:Em.
  - destruct sec as [s|]; [|done]. apply negb_true_iff in Em as Hty.
    destruct (vf_pack_sealed st u s buf raw type sid payload)
      as (noise & nonce & b1 & b2 & st' & Lno & Ln & On & Ep & Hn & Hst' & Ob2 & Lb2 & Hpk & Eo); auto.
    set (n := 60 + raw + Z.of_nat (length noise)) in *. rewrite (wrap_small 64 n) in Eo by (unfold BUF_SIZE in *; lia).
    exists n, b2, st'. split; [done|]. split; [lia|]. split; [done|]. split; [done|]. split; [done|].
    intros sec' [Hp|(s0 & s' & [= <-] & -> & _ & Hkey)]; [congruence|].
    split; [unfold VPN_TNL_HLEN; lia|]. intros rb Ha Lrb Orb. set (body := vf_seal _ _ _) in *.
    assert (length body = (40 + Z.to_nat raw + length noise)%nat) as Lbody.
    { unfold body. rewrite vf_seal_length, length_app by done. lia. }
    assert (Z.to_nat n = HLEN + length body)%nat as En by hlia. rewrite En in Ha.
    destruct (receive_packet _ _ _ _ _ _ _ _ Hpk Eo Ha Orb) as (rb1 & Er & Or & Lr & Ha1).
    destruct (packet_at_agree _ _ _ _ _ _ _ Hpk Ha1 ltac:(lia)) as (Ft & Fk & Ff & Fs & Fb).
    rewrite (wrap_small 8 type) in Ft by done.
    destruct (vf_unpack_sealed s' rb1 type _ _ body (payload ++ noise) Or ltac:(lia) Hty Ft Fk Ff Hkey Fb)
      as (rb2 & Eu & Gu); [by apply vf_open_seal|].
    exists rb1, rb2, noise. do 4 (split; [done|]). split; [|done].
    unfold VPN_TNL_HLEN in Eu. replace n with (20 + Z.of_nat (length body)) by (unfold n; lia). done.
  - assert (sec = None \/ pack_plain_type type = true) as Hty.
    { destruct sec; [right|by left]. by apply negb_false_iff. }
    destruct (vf_pack_plain st u sec buf raw type sid payload)
      as (noise & b1 & b2 & st' & Lno & On & Ep & Hn & Hst' & Ob2 & Lb2 & Hpk & Eo); auto.
    set (n := 20 + raw + Z.of_nat (length noise)) in *. rewrite (wrap_small 64 n) in Eo by (unfold BUF_SIZE in *; lia).
    exists n, b2, st'. split; [done|]. split; [lia|]. split; [done|]. split; [done|]. split; [done|].
    intros sec' Hacc. assert (pack_plain_type type = true) as Hp.
    { destruct Hacc as [?|(s & s' & -> & _ & Hf & _)]; [done|]. by destruct Hty as [?|?]; [|congruence]. }
    split; [unfold VPN_TNL_HLEN; lia|]. intros rb Ha Lrb Orb.
    assert (Z.to_nat n = HLEN + length (payload ++ noise))%nat as En by (rewrite length_app; hlia). rewrite En in Ha.
    destruct (receive_packet _ _ _ _ _ _ _ _ Hpk Eo Ha Orb) as (rb1 & Er & Or & Lr & Ha1).
    destruct (packet_at_agree _ _ _ _ _ _ _ Hpk Ha1 ltac:(lia)) as (Ft & Fk & Ff & Fs & Fb).
    rewrite (wrap_small 8 type) in Ft by done.
    exists rb1, rb1, noise. do 4 (split; [done|]). split; [|done].
    pose proof (vf_unpack_plain sec' rb1 type _ _ Or ltac:(lia) Hp Ft Fk Ff Fb) as E. unfold VPN_TNL_HLEN in E.
    replace n with (20 + Z.of_nat (length (payload ++ noise))) by (unfold n; rewrite length_app; lia). done.
Qed.

(** * Properties *)

(** C1 A sealed packet survives the wire: when [vf_pack] packs a payload of
    at most 1957 bytes under a session key, it succeeds, and in whatever
    buffer a peer receives those bytes, unmasking and [vf_unpack] under a
    context whose selected key is the sender's give back the payload at its
    place and the sender's session identifier.  The length [vf_unpack]
    reports also counts the noise [vf_apply_padding] added.  The payload is
    any sequence of bytes, for DATA packets too: the comment of [vf_unpack] in
    protocol.h says that it inspects the inner IPv4 header of these and
    refuses a malformed one, and the code does not look at it. *)
Theorem vf_unpack_vf_pack st u s s' buf raw type sid payload :
  pack_state_ok st -> urandom_ok u -> sec_ok s -> length buf = 2048%nat -> bytes_ok buf ->
  word_ok 32 sid -> word_ok 8 type -> pack_plain_type type = false -> 0 <= raw <= 1957 ->
  get_bytes HLEN (Z.to_nat raw) buf = Some payload ->
  vf_rekey_get_decrypt_key s' (Z.land (vf_rekey_get_keyid s) 0xFF) = Some (vf_rekey_get_key s) ->
  exists tlen b st', vf_pack st u (Some s) buf raw BUF_SIZE type sid = Some (tlen, b, st') /\
    raw + 60 <= tlen < raw + 92 /\ tlen <= BUF_SIZE /\
    forall rb, agree (Z.to_nat tlen) b rb -> length rb = 2048%nat -> bytes_ok rb ->
      exists rb1 rb2, vf_remove_header_obfs rb tlen = Some rb1 /\
        get_le H_SESSION_ID 4 rb1 = Some (htonl sid) /\
        vf_unpack (Some s') rb1 tlen = Some (Some (tlen - 60), rb2) /\
        get_bytes HLEN (Z.to_nat raw) rb2 = Some payload.
Proof.
  intros Hst Hu Hs Hl Hb Hsid Hty8 Hty Hraw Hg Hkey.
  pose proof (get_bytes_length _ _ _ _ Hg) as Lp.
  destruct (vf_pack_sealed st u s buf raw type sid payload)
    as (noise & nonce & b1 & b2 & st' & Lno & Ln & On & Ep & Hn & Hst' & Ob2 & Lb2 & Hpk & Eo); auto.
  set (n := 60 + raw + Z.of_nat (length noise)) in *. rewrite (wrap_small 64 n) in Eo by (unfold BUF_SIZE in *; lia).
  exists n, b2, st'. split; [done|]. split; [lia|]. split; [done|].
  intros rb Ha Lrb Orb. set (body := vf_seal _ _ _) in *.
  assert (length body = (40 + Z.to_nat raw + length noise)%nat) as Lbody.
  { unfold body. rewrite vf_seal_length, length_app by done. lia. }
  assert (Z.to_nat n = HLEN + length body)%nat as En by hlia. rewrite En in Ha.
  destruct (receive_packet _ _ _ _ _ _ _ _ Hpk Eo Ha Orb) as (rb1 & Er & Or & Lr & Ha1).
  destruct (packet_at_agree _ _ _ _ _ _ _ Hpk Ha1 ltac:(lia)) as (Ft & Fk & Ff & Fs & Fb).
  rewrite (wrap_small 8 type) in Ft by done.
  destruct (vf_unpack_sealed s' rb1 type _ _ body (payload ++ noise) Or ltac:(lia) Hty Ft Fk Ff Hkey Fb)
    as (rb2 & Eu & Gu); [by apply vf_open_seal|].
  exists rb1, rb2. split; [done|]. split; [done|]. rewrite length_app in *.
  unfold VPN_TNL_HLEN in Eu. split.
  - replace n with (20 + Z.of_nat (length body)) by (unfold n; lia). rewrite Eu. do 3 f_equal. lia.
  - pose proof (get_bytes_sub HLEN 0 (Z.to_nat raw) _ _ _ Gu ltac:(lia)) as Gs.
    rewrite Nat.add_0_r, drop_0 in Gs. rewrite Gs. f_equal. by rewrite take_app_length'.
Qed.

Definition demo_sec : vfast_sec_ctx_t :=
  {| active_key := {| k_raw := replicate 32 1; k_id := 7; k_bytes_processed := 0; k_created_at := 0 |};
     previous_key := zero_key; next_key := zero_key; sec_sid := 9; rekey_pending := false |}.

Definition demo_state : pack_state := {| ps_seed := LOCAL_SEED; ps_nonce := nonce_state0 |}.

Definition demo_buf : list Z := replicate 20 0 ++ [69; 0; 0; 4] ++ replicate 2024 0.

Lemma vf_unpack_vf_pack_witness :
  exists tlen b st', vf_pack demo_state None (Some demo_sec) demo_buf 4 BUF_SIZE VPN_MSG_DATA 5 = Some (tlen, b, st') /\
    4 + 60 <= tlen < 4 + 92 /\ tlen <= BUF_SIZE /\
    forall rb, agree (Z.to_nat tlen) b rb -> length rb = 2048%nat -> bytes_ok rb ->
      exists rb1 rb2, vf_remove_header_obfs rb tlen = Some rb1 /\
        get_le H_SESSION_ID 4 rb1 = Some (htonl 5) /\
        vf_unpack (Some demo_sec) rb1 tlen = Some (Some (tlen - 60), rb2) /\
        get_bytes HLEN (Z.to_nat 4) rb2 = Some [69; 0; 0; 4].
Proof.
  apply (vf_unpack_vf_pack demo_state None demo_sec demo_sec demo_buf 4 VPN_MSG_DATA 5 [69; 0; 0; 4]);
    first [by_compute | reflexivity].
Defined.

(** C2 Unpacking is memory-safe on arbitrary input: for any bytes from the
    network, any received length within the buffer and any (or no) session
    context, [vf_unpack] accesses no byte outside of the buffer, does not
    change its length, and a payload length it reports is between 0 and the
    received length less the header. *)
Theorem vf_unpack_safe sec buf res :
  bytes_ok buf -> res <= Z.of_nat (length buf) -> res < 2 ^ 31 ->
  exists r buf', vf_unpack sec buf res = Some (r, buf') /\
    length buf' = length buf /\ bytes_ok buf' /\
    match r with None => True | Some plen => 0 <= plen <= res - VPN_TNL_HLEN end.
Proof.
  intros Hb Hl Hr. destruct (vf_unpack_total sec buf res Hb Hl Hr) as (r & buf' & E & ? & ? & ? & _). eauto 10.
Qed.

Lemma vf_unpack_safe_witness :
  exists r buf', vf_unpack (Some demo_sec) (replicate 100 255) 100 = Some (r, buf') /\
    length buf' = length (replicate 100 255) /\ bytes_ok buf' /\
    match r with None => True | Some plen => 0 <= plen <= 100 - VPN_TNL_HLEN end.
Proof. apply (vf_unpack_safe (Some demo_sec) (replicate 100 255) 100); by_compute. Defined.

(** The header mask is its own inverse and covers the documented fields
    only: applied to any buffer of at least a header it succeeds, leaves the
    bytes 4 to 7 (total length, key identifier, flags) and everything from
    the sequence number on as they are, and [vf_remove_header_obfs] restores
    the buffer exactly. *)
Theorem header_obfs_roundtrip buf wire_len :
  (HLEN <= length buf)%nat -> bytes_ok buf ->
  exists buf', vf_apply_header_obfs buf wire_len = Some buf' /\
    vf_remove_header_obfs buf' wire_len = Some buf /\ length buf' = length buf /\
    (forall o n, ((4 <= o /\ o + n <= 8) \/ 12 <= o)%nat -> get_bytes o n buf' = get_bytes o n buf).
Proof.
  intros Hl Hb. destruct (vf_apply_header_obfs_ok buf wire_len Hl Hb) as (b & E & L & O).
  exists b. split; [done|]. split; [by eapply header_obfs_cancel|]. split; [done|].
  intros o n. by eapply header_obfs_frame.
Qed.

Lemma header_obfs_roundtrip_witness :
  exists buf', vf_apply_header_obfs (replicate 24 170) 24 = Some buf' /\
    vf_remove_header_obfs buf' 24 = Some (replicate 24 170) /\
    length buf' = length (replicate 24 170) /\
    (forall o n, ((4 <= o /\ o + n <= 8) \/ 12 <= o)%nat ->
       get_bytes o n buf' = get_bytes o n (replicate 24 170)).
Proof. apply (header_obfs_roundtrip (replicate 24 170) 24); by_compute. Defined.

(** C9 The capacity guard of [vf_apply_padding] is too weak for the 40 bytes
    [vf_encrypt] adds: in the 2048-byte task buffer, packing a payload of at
    most 1957 bytes is memory-safe whatever the padding, and packing one of
    1989 to 2028 bytes, which [vf_io_read] can deliver, always writes outside
    of the buffer, before the [tlen > max_size] test is reached. *)
Theorem vf_pack_capacity st u s buf raw type sid :
  pack_state_ok st -> urandom_ok u -> sec_ok s -> length buf = 2048%nat -> bytes_ok buf ->
  word_ok 32 sid -> pack_plain_type type = false -> 0 <= raw <= 2028 ->
  (raw <= 1957 -> exists tlen b st', vf_pack st u (Some s) buf raw BUF_SIZE type sid = Some (tlen, b, st') /\
     raw + 60 <= tlen <= BUF_SIZE) /\
  (1989 <= raw -> vf_pack st u (Some s) buf raw BUF_SIZE type sid = None).
Proof.
  intros Hst Hu Hs Hl Hb Hsid Hty Hraw. split.
  - intros Hr. destruct (get_bytes HLEN (Z.to_nat raw) buf) as [payload|] eqn:Hg.
    2: { unfold get_bytes in Hg. case_decide; [done|hlia]. }
    destruct (vf_pack_sealed st u s buf raw type sid payload)
      as (noise & nonce & b1 & b2 & st' & _ & _ & _ & Ep & Hn & _); auto; [lia|].
    do 3 eexists. split; [exact Ep|lia].
  - intros Hr. destruct (vf_pack _ _ _ _ _ _ _ _) as [r|] eqn:E; [|done].
    apply vf_pack_sealed_bound in E; auto. lia.
Qed.

Lemma vf_pack_capacity_witness :
  (2028 <= 1957 -> exists tlen b st',
     vf_pack demo_state None (Some demo_sec) demo_buf 2028 BUF_SIZE VPN_MSG_DATA 5 = Some (tlen, b, st') /\
     2028 + 60 <= tlen <= BUF_SIZE) /\
  (1989 <= 2028 -> vf_pack demo_state None (Some demo_sec) demo_buf 2028 BUF_SIZE VPN_MSG_DATA 5 = None).
Proof.
  apply (vf_pack_capacity demo_state None demo_sec demo_buf 2028 VPN_MSG_DATA 5);
    first [by_compute | reflexivity].
Defined.

(** The noise is never stripped: [vf_fill_header] clears the flag that
    [vf_apply_padding] set, so a receiver of a packet that bypasses the
    cipher gets payload and noise, and a length larger than the payload's
    whenever noise was added. *)
Theorem vf_pack_padding_kept st u sec buf raw type sid payload :
  pack_state_ok st -> length buf = 2048%nat -> bytes_ok buf -> word_ok 32 sid -> word_ok 8 type ->
  pack_plain_type type = true -> 0 <= raw <= 1957 ->
  get_bytes HLEN (Z.to_nat raw) buf = Some payload ->
  exists noise b st', (length noise < 32)%nat /\
    vf_pack st u sec buf raw BUF_SIZE type sid = Some (20 + raw + Z.of_nat (length noise), b, st') /\
    exists rb, vf_remove_header_obfs b (20 + raw + Z.of_nat (length noise)) = Some rb /\
      vf_unpack None rb (20 + raw + Z.of_nat (length noise)) =
        Some (Some (raw + Z.of_nat (length noise)), rb) /\
      get_bytes HLEN (length (payload ++ noise)) rb = Some (payload ++ noise).
Proof.
  intros Hst Hl Hb Hsid Hty8 Hty Hraw Hg. pose proof (get_bytes_length _ _ _ _ Hg) as Lp.
  destruct (vf_pack_plain st u sec buf raw type sid payload)
    as (noise & b1 & b2 & st' & Lno & On & Ep & Hn & _ & Ob2 & Lb2 & Hpk & Eo); auto.
  exists noise, b2, st'. split; [done|]. split; [done|].
  rewrite (wrap_small 64) in Eo by (unfold BUF_SIZE in *; lia).
  exists b1. split; [eapply header_obfs_cancel; [apply Hpk|done]|].
  destruct Hpk. rewrite (wrap_small 8 type) in pk_type0 by done. split; [|done].
  pose proof (vf_unpack_plain None b1 type _ _ pk_ok0 pk_len0 Hty pk_type0 pk_kid0 pk_flags0 pk_body0) as E.
  rewrite length_app in E. unfold VPN_TNL_HLEN in E.
  replace (20 + raw + Z.of_nat (length noise)) with (20 + Z.of_nat (length payload + length noise)) by lia.
  rewrite E. do 3 f_equal. lia.
Qed.

Lemma vf_pack_padding_kept_witness :
  exists noise b st', (length noise < 32)%nat /\
    vf_pack demo_state None None demo_buf 4 BUF_SIZE VPN_MSG_KEEPALIVE 5 =
      Some (20 + 4 + Z.of_nat (length noise), b, st') /\
    exists rb, vf_remove_header_obfs b (20 + 4 + Z.of_nat (length noise)) = Some rb /\
      vf_unpack None rb (20 + 4 + Z.of_nat (length noise)) =
        Some (Some (4 + Z.of_nat (length noise)), rb) /\
      get_bytes HLEN (length ([69; 0; 0; 4] ++ noise)) rb = Some ([69; 0; 0; 4] ++ noise).
Proof.
  apply (vf_pack_padding_kept demo_state None None demo_buf 4 VPN_MSG_KEEPALIVE 5 [69; 0; 0; 4]);
    first [by_compute | reflexivity].
Defined.
