(* ===== verification/IpPool.v ===== *)
(** The virtual address pool (src/src/ippool.c): a bitmap over a contiguous
    range of IPv4 addresses, with the addresses ending in .0, .1 and .255
    reserved at initialisation. *)
From S2P Require Import Prelude.

(** [vpn_ip_pool_t] (the mutex makes every operation atomic); [bitmap] is
    [None] for NULL. *)
Record vpn_ip_pool_t := {
  start_ip : Z;                    (** network byte order *)
  pool_size : Z;
  bitmap : option (list Z);
  next_hint : Z
}.

Definition EINVAL : Z := 22.
Definition INADDR_NONE : Z := 0xFFFFFFFF.

Definition set_bitmap (bm : list Z) (p : vpn_ip_pool_t) : vpn_ip_pool_t :=
  {| start_ip := start_ip p; pool_size := pool_size p; bitmap := Some bm; next_hint := next_hint p |}.

(** [bitmap\[pos >> 3\]] and the mask [1 << (pos & 7)]. *)
Definition bm_mask (pos : Z) : Z := u8 (Z.shiftl 1 (Z.land pos 7)).
Definition bm_get (bm : list Z) (pos : Z) : option bool :=
  b ← bm !! Z.to_nat (Z.shiftr pos 3);
  Some (negb (Z.land b (bm_mask pos) =? 0)).
Definition bm_set (bm : list Z) (pos : Z) : option (list Z) :=
  b ← bm !! Z.to_nat (Z.shiftr pos 3);
  Some (<[Z.to_nat (Z.shiftr pos 3) := u8 (Z.lor b (bm_mask pos))]> bm).
Definition bm_clear (bm : list Z) (pos : Z) : option (list Z) :=
  b ← bm !! Z.to_nat (Z.shiftr pos 3);
  Some (<[Z.to_nat (Z.shiftr pos 3) := u8 (Z.land b (wnot 32 (bm_mask pos)))]> bm).

Definition reserved_byte (last_byte : Z) : bool :=
  (last_byte =? 0) || (last_byte =? 1) || (last_byte =? 255).

(** The exclusion loop, [n] positions from [i]. *)
Fixpoint pool_exclude (n : nat) (i start_h : Z) (bm : list Z) : option (list Z) :=
  match n with
  | O => Some bm
  | S n' =>
      let curr_h := u32 (start_h + i) in
      bm ← (if reserved_byte (u8 (Z.land curr_h 0xFF)) then bm_set bm i else Some bm);
      pool_exclude n' (i + 1) start_h bm
  end.

(** [addr] is what [inet_addr] made of the address string. *)
Definition vf_ip_pool_init (pool : vpn_ip_pool_t) (addr size : Z) : option (Z * vpn_ip_pool_t) :=
  if size =? 0 then Some (- EINVAL, pool) else
  if addr =? INADDR_NONE then
    Some (- EINVAL, {| start_ip := addr; pool_size := 0; bitmap := None; next_hint := 0 |})
  else
    let bitmap_size := u32 (size + 7) / 8 in
    bm ← pool_exclude (Z.to_nat size) 0 (ntohl addr) (replicate (Z.to_nat bitmap_size) 0);
    Some (0, {| start_ip := addr; pool_size := size; bitmap := Some bm; next_hint := 0 |}).

(** The search of [vf_ip_pool_alloc]: [n] probes from [i]. *)
Fixpoint pool_search (n : nat) (i : Z) (bm : list Z) (hint size : Z) : option (option Z) :=
  match n with
  | O => Some None
  | S n' =>
      let pos := u32 (hint + i) mod size in
      used ← bm_get bm pos;
      if (used : bool) then pool_search n' (i + 1) bm hint size else Some (Some pos)
  end.

Definition vf_ip_pool_alloc (pool : vpn_ip_pool_t) : option (Z * vpn_ip_pool_t) :=
  match bitmap pool with
  | None => Some (0, pool)
  | Some bm =>
      found ← pool_search (Z.to_nat (pool_size pool)) 0 bm (next_hint pool) (pool_size pool);
      match found with
      | None => Some (0, pool)
      | Some pos =>
          bm ← bm_set bm pos;
          Some (htonl (u32 (ntohl (start_ip pool) + pos)),
                {| start_ip := start_ip pool; pool_size := pool_size pool; bitmap := Some bm;
                   next_hint := u32 (pos + 1) mod pool_size pool |})
      end
  end.

Definition vf_ip_pool_free (pool : vpn_ip_pool_t) (ip : Z) : option vpn_ip_pool_t :=
  match bitmap pool with
  | None => Some pool
  | Some bm =>
      if ip =? 0 then Some pool else
      let host_ip := ntohl ip in
      let host_start := ntohl (start_ip pool) in
      if (host_ip <? host_start) || (u32 (host_start + pool_size pool) <=? host_ip) then Some pool
      else
        let pos := host_ip - host_start in
        bm ← bm_clear bm pos;
        Some (set_bitmap bm pool)
  end.

Definition vf_ip_pool_destroy (pool : vpn_ip_pool_t) : vpn_ip_pool_t :=
  {| start_ip := start_ip pool; pool_size := pool_size pool; bitmap := None;
     next_hint := next_hint pool |}.

(** * The bitmap *)

(** The bit of a position, false outside of the bitmap. *)
Definition bm_bit (bm : list Z) (pos : Z) : bool :=
  Z.testbit (byte_at (Z.to_nat (pos / 8)) bm) (pos mod 8).

Lemma bm_idx pos : Z.shiftr pos 3 = pos / 8.
Proof. by rewrite Z.shiftr_div_pow2. Qed.

Lemma bm_mask_pow pos : bm_mask pos = 2 ^ (pos mod 8).
Proof.
  unfold bm_mask. change 7 with (Z.ones 3). rewrite Z.land_ones, Z.shiftl_1_l by lia.
  change (2 ^ 3) with 8. apply wrap_small.
  pose proof (Z.mod_pos_bound pos 8). split; [apply Z.pow_nonneg; lia|apply Z.pow_lt_mono_r; lia].
Qed.

Lemma byte_at_lookup i (bm : list Z) b : bm !! i = Some b -> byte_at i bm = b.
Proof. intros H. unfold byte_at. by apply nth_lookup_Some. Qed.

Lemma land_pow2_eqb b k : 0 <= k -> negb (Z.land b (2 ^ k) =? 0) = Z.testbit b k.
Proof.
  intros Hk. destruct (Z.testbit b k) eqn:E.
  - apply negb_true_iff, Z.eqb_neq. intros H0.
    apply (f_equal (fun x => Z.testbit x k)) in H0.
    rewrite Z.land_spec, Z.pow2_bits_true, E, Z.bits_0 in H0 by lia. done.
  - apply negb_false_iff, Z.eqb_eq. apply Z.bits_inj'. intros i Hi.
    rewrite Z.land_spec, Z.bits_0, Z.pow2_bits_eqb by lia.
    destruct (Z.eqb_spec k i); [subst; by rewrite E|apply andb_false_r].
Qed.

Lemma bm_lookup (bm : list Z) pos :
  0 <= pos < 8 * Z.of_nat (length bm) -> exists b, bm !! Z.to_nat (pos / 8) = Some b.
Proof.
  intros H. apply lookup_lt_is_Some_2.
  pose proof (Z.div_lt_upper_bound pos 8 (Z.of_nat (length bm))). 
  pose proof (Z.div_pos pos 8). lia.
Qed.

Lemma bm_get_spec bm pos :
  0 <= pos < 8 * Z.of_nat (length bm) -> bm_get bm pos = Some (bm_bit bm pos).
Proof.
  intros H. unfold bm_get, bm_bit. rewrite bm_idx.
  destruct (bm_lookup bm pos H) as [b E]. rewrite E, (byte_at_lookup _ _ _ E). cbn.
  rewrite bm_mask_pow, land_pow2_eqb by (apply Z.mod_pos_bound; lia). done.
Qed.

Lemma byte_at_insert i (x : Z) bm j :
  (i < length bm)%nat -> byte_at j (<[i := x]> bm) = if decide (i = j) then x else byte_at j bm.
Proof.
  intros Hi. unfold byte_at. rewrite !nth_lookup.
  destruct (decide (i = j)) as [->|]; [by rewrite list_lookup_insert_eq|by rewrite list_lookup_insert_ne].
Qed.

Lemma bm_update (bm : list Z) pos b c q :
  0 <= pos < 8 * Z.of_nat (length bm) -> bm !! Z.to_nat (pos / 8) = Some b -> 0 <= q ->
  (forall k, 0 <= k < 8 -> Z.testbit c k = if k =? pos mod 8 then Z.testbit c (pos mod 8) else Z.testbit b k) ->
  bm_bit (<[Z.to_nat (pos / 8) := c]> bm) q =
  if q =? pos then Z.testbit c (pos mod 8) else bm_bit bm q.
Proof.
  intros Hp E Hq Hc. unfold bm_bit.
  pose proof (lookup_lt_Some _ _ _ E). rewrite byte_at_insert by done.
  pose proof (Z.mod_pos_bound q 8). pose proof (Z.div_mod q 8). pose proof (Z.div_mod pos 8).
  pose proof (Z.div_pos q 8). pose proof (Z.div_pos pos 8).
  destruct (decide (Z.to_nat (pos / 8) = Z.to_nat (q / 8))) as [Ed|Ed].
  - rewrite Hc by lia. destruct (Z.eqb_spec q pos) as [->|Hne]; [by rewrite Z.eqb_refl|].
    destruct (Z.eqb_spec (q mod 8) (pos mod 8)); [lia|]. rewrite <- Ed.
    by rewrite (byte_at_lookup _ _ _ E).
  - destruct (Z.eqb_spec q pos) as [->|Hne]; [done|]. done.
Qed.

Lemma bm_set_spec bm pos :
  0 <= pos < 8 * Z.of_nat (length bm) ->
  exists bm', bm_set bm pos = Some bm' /\ length bm' = length bm /\
    forall q, 0 <= q -> bm_bit bm' q = (q =? pos) || bm_bit bm q.
Proof.
  intros H. unfold bm_set. rewrite bm_idx. destruct (bm_lookup bm pos H) as [b E]. rewrite E. cbn.
  eexists. split; [done|]. split; [apply length_insert|]. intros q Hq.
  pose proof (Z.mod_pos_bound pos 8).
  assert (forall k, 0 <= k < 8 ->
    Z.testbit (u8 (Z.lor b (bm_mask pos))) k = Z.testbit b k || (pos mod 8 =? k)) as Ht.
  { intros k Hk. rewrite wrap_testbit, Z.lor_spec, bm_mask_pow, Z.pow2_bits_eqb by lia.
    destruct (Z.ltb_spec k 8); [done|lia]. }
  rewrite (bm_update bm pos b); [|done..|].
  - rewrite Ht, Z.eqb_refl, orb_true_r by lia. by destruct (q =? pos).
  - intros k Hk. rewrite !Ht by lia. rewrite Z.eqb_sym. destruct (Z.eqb_spec k (pos mod 8)) as [->|].
    + by rewrite Z.eqb_refl.
    + by rewrite orb_false_r.
Qed.

Lemma bm_clear_spec bm pos :
  0 <= pos < 8 * Z.of_nat (length bm) ->
  exists bm', bm_clear bm pos = Some bm' /\ length bm' = length bm /\
    forall q, 0 <= q -> bm_bit bm' q = negb (q =? pos) && bm_bit bm q.
Proof.
  intros H. unfold bm_clear. rewrite bm_idx. destruct (bm_lookup bm pos H) as [b E]. rewrite E. cbn.
  eexists. split; [done|]. split; [apply length_insert|]. intros q Hq.
  pose proof (Z.mod_pos_bound pos 8).
  assert (forall k, 0 <= k < 8 ->
    Z.testbit (u8 (Z.land b (wnot 32 (bm_mask pos)))) k = Z.testbit b k && negb (pos mod 8 =? k)) as Ht.
  { intros k Hk. unfold wnot. change (2 ^ 32 - 1) with (Z.ones 32).
    rewrite wrap_testbit, Z.land_spec, Z.lxor_spec, bm_mask_pow, Z.pow2_bits_eqb by lia.
    rewrite Z.testbit_ones_nonneg by lia.
    destruct (Z.ltb_spec k 8); [|lia]. destruct (Z.ltb_spec k 32); [|lia].
    by rewrite xorb_true_r. }
  rewrite (bm_update bm pos b); [|done..|].
  - rewrite Ht, Z.eqb_refl, andb_false_r by lia. by destruct (q =? pos).
  - intros k Hk. rewrite !Ht by lia. rewrite Z.eqb_sym. destruct (Z.eqb_spec k (pos mod 8)) as [->|].
    + by rewrite Z.eqb_refl.
    + by rewrite andb_true_r.
Qed.

(** * Invariant and operations *)

(** The address of a position, and the positions that are never handed out. *)
Definition pool_addr (p : vpn_ip_pool_t) (pos : Z) : Z := htonl (u32 (ntohl (start_ip p) + pos)).
Definition pool_reserved (p : vpn_ip_pool_t) (pos : Z) : bool :=
  reserved_byte ((ntohl (start_ip p) + pos) mod 256).
Definition pool_used (p : vpn_ip_pool_t) (pos : Z) : bool := bm_bit (default [] (bitmap p)) pos.
Definition in_pool (p : vpn_ip_pool_t) (pos : Z) : Prop := 0 <= pos < pool_size p.

(** The range does not reach the end of the address space, and the sizes are
    those an [int] option can give. *)
Record pool_wf (p : vpn_ip_pool_t) : Prop := {
  pw_bitmap : exists bm, bitmap p = Some bm /\ pool_size p <= 8 * Z.of_nat (length bm);
  pw_size : 0 < pool_size p < 2 ^ 31;
  pw_start : word_ok 32 (start_ip p);
  pw_range : ntohl (start_ip p) + pool_size p < 2 ^ 32;
  pw_hint : 0 <= next_hint p < pool_size p
}.

Lemma pool_search_spec n i bm hint size :
  0 < size < 2 ^ 31 -> size <= 8 * Z.of_nat (length bm) -> 0 <= hint < size ->
  0 <= i -> i + Z.of_nat n <= size ->
  exists r, pool_search n i bm hint size = Some r /\
    match r with
    | None => forall j, i <= j < i + Z.of_nat n -> bm_bit bm ((hint + j) mod size) = true
    | Some pos => 0 <= pos < size /\ bm_bit bm pos = false
    end.
Proof.
  intros Hs Hb Hh. revert i. induction n as [|n IH]; intros i Hi Hn.
  - exists None. split; [done|]. lia.
  - cbn [pool_search]. rewrite (wrap_small 32) by lia.
    pose proof (Z.mod_pos_bound (hint + i) size ltac:(lia)).
    rewrite bm_get_spec by lia. cbn [mbind option_bind].
    destruct (bm_bit bm ((hint + i) mod size)) eqn:E; [|by exists (Some ((hint + i) mod size))].
    destruct (IH (i + 1)) as (r & Er & Hr); [lia|lia|]. exists r. split; [done|].
    destruct r as [pos|]; [done|]. intros j Hj.
    destruct (decide (j = i)) as [->|]; [done|]. apply Hr. lia.
Qed.

(** Every position is probed once in [size] probes. *)
Lemma cyclic_cover size hint pos :
  0 < size -> 0 <= pos < size -> exists j, 0 <= j < size /\ (hint + j) mod size = pos.
Proof.
  intros Hs Hp. exists ((pos - hint) mod size). split; [apply Z.mod_pos_bound; lia|].
  rewrite Zplus_mod_idemp_r. replace (hint + (pos - hint)) with pos by lia.
  apply Z.mod_small. lia.
Qed.

Lemma vf_ip_pool_alloc_spec p :
  pool_wf p ->
  exists ip p', vf_ip_pool_alloc p = Some (ip, p') /\ pool_wf p' /\
    start_ip p' = start_ip p /\ pool_size p' = pool_size p /\
    ((ip = 0 /\ p' = p /\ forall pos, in_pool p pos -> pool_used p pos = true) \/
     exists pos, in_pool p pos /\ pool_used p pos = false /\ ip = pool_addr p pos /\
       forall q, 0 <= q -> pool_used p' q = (q =? pos) || pool_used p q).
Proof.
  intros Hwf. pose proof Hwf as [(bm & Eb & Hbm) Hs Hst Hr Hh].
  unfold vf_ip_pool_alloc, pool_used. rewrite Eb.
  destruct (pool_search_spec (Z.to_nat (pool_size p)) 0 bm (next_hint p) (pool_size p))
    as (r & -> & Hres); [lia..|]. cbn [mbind option_bind default].
  destruct r as [pos|].
  - destruct Hres as [Hpos Hfree].
    destruct (bm_set_spec bm pos) as (bm' & -> & Hl & Hset); [lia|]. cbn [mbind option_bind].
    do 2 eexists. split; [done|]. split.
    { split; cbn; auto; [exists bm'; split; [done|lia]|]. apply Z.mod_pos_bound. lia. }
    split; [done|]. split; [done|]. right. exists pos. split; [done|]. split; [done|]. split; [done|].
    cbn [bitmap default]. exact Hset.
  - do 2 eexists. split; [done|]. split; [done|]. split; [done|]. split; [done|]. left. split; [done|].
    split; [done|]. intros pos Hpos.
    destruct (cyclic_cover (pool_size p) (next_hint p) pos) as (j & Hj & <-); [lia|done|].
    apply Hres. lia.
Qed.

Lemma pool_addr_inj p pos1 pos2 :
  pool_wf p -> in_pool p pos1 -> in_pool p pos2 -> pool_addr p pos1 = pool_addr p pos2 -> pos1 = pos2.
Proof.
  intros [_ Hs Hst Hr _] H1 H2 E. unfold pool_addr, in_pool in *.
  pose proof (bswap_ok 4 (start_ip p)) as Hb. change (bswap 4 (start_ip p)) with (ntohl (start_ip p)) in Hb.
  unfold word_ok in Hb.
  apply (bswap_inj 4) in E; [|apply wrap_ok; lia..].
  rewrite !wrap_small in E by lia. lia.
Qed.

Lemma ntohl_pool_addr p pos :
  pool_wf p -> in_pool p pos -> ntohl (pool_addr p pos) = ntohl (start_ip p) + pos.
Proof.
  intros [_ Hs Hst Hr _] Hp. unfold pool_addr, in_pool in *.
  pose proof (bswap_ok 4 (start_ip p)) as Hb. change (bswap 4 (start_ip p)) with (ntohl (start_ip p)) in Hb.
  unfold word_ok in Hb. unfold ntohl at 1, htonl. rewrite bswap_involutive.
  - apply wrap_small. lia.
  - apply wrap_ok. lia.
Qed.

(** An address is 0 only if its last byte is, which is reserved. *)
Lemma pool_addr_nonzero p pos :
  pool_wf p -> in_pool p pos -> pool_reserved p pos = false -> pool_addr p pos <> 0.
Proof.
  intros Hwf Hp Hr E. apply (f_equal ntohl) in E. rewrite ntohl_pool_addr in E by done.
  unfold pool_reserved in Hr. rewrite E in Hr. done.
Qed.

Lemma vf_ip_pool_free_spec p pos :
  pool_wf p -> in_pool p pos -> pool_addr p pos <> 0 ->
  exists p', vf_ip_pool_free p (pool_addr p pos) = Some p' /\ pool_wf p' /\
    start_ip p' = start_ip p /\ pool_size p' = pool_size p /\
    forall q, 0 <= q -> pool_used p' q = negb (q =? pos) && pool_used p q.
Proof.
  intros Hwf Hp Hne. pose proof Hwf as [(bm & Eb & Hbm) Hs Hst Hr Hh].
  unfold vf_ip_pool_free, pool_used. rewrite Eb. apply Z.eqb_neq in Hne. rewrite Hne.
  rewrite ntohl_pool_addr by done. unfold in_pool in Hp.
  pose proof (bswap_ok 4 (start_ip p)) as Hb. change (bswap 4 (start_ip p)) with (ntohl (start_ip p)) in Hb.
  unfold word_ok in Hb.
  rewrite wrap_small by lia.
  destruct (Z.ltb_spec (ntohl (start_ip p) + pos) (ntohl (start_ip p))); [lia|].
  destruct (Z.leb_spec (ntohl (start_ip p) + pool_size p) (ntohl (start_ip p) + pos)); [lia|].
  cbn [orb]. replace (ntohl (start_ip p) + pos - ntohl (start_ip p)) with pos by lia.
  destruct (bm_clear_spec bm pos) as (bm' & -> & Hl & Hc); [lia|]. cbn [mbind option_bind].
  eexists. split; [done|]. split; [|split; [done|split; [done|]]].
  - split; cbn; auto. exists bm'. split; [done|lia].
  - cbn [set_bitmap bitmap default]. exact Hc.
Qed.

Lemma pool_exclude_spec n i start_h bm :
  0 <= i -> i + Z.of_nat n <= 8 * Z.of_nat (length bm) -> 0 <= start_h ->
  start_h + i + Z.of_nat n <= 2 ^ 32 ->
  exists bm', pool_exclude n i start_h bm = Some bm' /\ length bm' = length bm /\
    forall q, 0 <= q -> bm_bit bm' q =
      bm_bit bm q || ((i <=? q) && (q <? i + Z.of_nat n) && reserved_byte ((start_h + q) mod 256)).
Proof.
  intros Hi Hn Hs Hw. revert i bm Hi Hn Hw. induction n as [|n IH]; intros i bm Hi Hn Hw.
  - exists bm. split; [done|]. split; [done|]. intros q Hq.
    replace ((i <=? q) && (q <? i + Z.of_nat 0)) with false; [by rewrite orb_false_r|].
    symmetry. apply andb_false_iff. destruct (Z.leb_spec i q); [right; apply Z.ltb_ge; lia|by left].
  - cbn [pool_exclude]. rewrite (wrap_small 32) by lia.
    replace (u8 (Z.land (start_h + i) 0xFF)) with ((start_h + i) mod 256).
    2: { change 0xFF with (Z.ones 8). rewrite Z.land_ones by lia. change (2 ^ 8) with 256.
         symmetry. apply wrap_small. apply Z.mod_pos_bound. lia. }
    assert (exists bm1, (if reserved_byte ((start_h + i) mod 256) then bm_set bm i else Some bm) = Some bm1 /\
      length bm1 = length bm /\ forall q, 0 <= q -> bm_bit bm1 q =
        bm_bit bm q || ((q =? i) && reserved_byte ((start_h + q) mod 256))) as (bm1 & -> & L1 & H1).
    { destruct (reserved_byte ((start_h + i) mod 256)) eqn:Er.
      - destruct (bm_set_spec bm i) as (bm1 & E1 & L1 & H1); [lia|]. exists bm1.
        split; [done|]. split; [done|]. intros q Hq. rewrite H1, orb_comm by done. f_equal.
        destruct (Z.eqb_spec q i) as [->|]; [by rewrite Er|done].
      - exists bm. split; [done|]. split; [done|]. intros q Hq.
        destruct (Z.eqb_spec q i) as [->|]; [by rewrite Er, orb_false_r|by rewrite orb_false_r]. }
    cbn [mbind option_bind].
    destruct (IH (i + 1) bm1) as (bm' & E & L & H); [lia..|]. exists bm'.
    split; [done|]. split; [lia|]. intros q Hq. rewrite H, H1, <- orb_assoc by done. f_equal.
    rewrite <- andb_orb_distrib_l. f_equal.
    destruct (Z.eqb_spec q i), (Z.leb_spec i q), (Z.leb_spec (i + 1) q), (Z.ltb_spec q (i + 1 + Z.of_nat n)),
      (Z.ltb_spec q (i + Z.of_nat (S n))); lia || done.
Qed.

(** Freeing never leaves the bitmap, whatever address it is given. *)
Lemma vf_ip_pool_free_total p ip :
  pool_wf p -> exists p', vf_ip_pool_free p ip = Some p' /\ pool_wf p'.
Proof.
  intros Hwf. pose proof Hwf as [(bm & Eb & Hbm) Hs Hst Hr Hh].
  unfold vf_ip_pool_free. rewrite Eb. destruct (ip =? 0); [by eauto|].
  pose proof (bswap_ok 4 (start_ip p)) as Hb. change (bswap 4 (start_ip p)) with (ntohl (start_ip p)) in Hb.
  unfold word_ok in Hb. rewrite wrap_small by lia.
  destruct (_ || _) eqn:E; [by eauto|]. bool_cases.
  destruct (bm_clear_spec bm (ntohl ip - ntohl (start_ip p))) as (bm' & -> & Hl & _); [lia|].
  cbn [mbind option_bind]. eexists. split; [done|]. split; cbn; auto. exists bm'. split; [done|lia].
Qed.

(** ** The pool and the addresses that are out *)

(** Exactly the reserved positions and the addresses in [out] are marked. *)
Record pool_inv (p : vpn_ip_pool_t) (out : gset Z) : Prop := {
  pi_wf : pool_wf p;
  pi_bits : forall pos, in_pool p pos ->
    pool_used p pos = pool_reserved p pos || bool_decide (pool_addr p pos ∈ out);
  pi_out : forall ip, ip ∈ out -> exists pos, in_pool p pos /\ pool_reserved p pos = false /\ ip = pool_addr p pos
}.

(** What clients of the pool may do: allocate, and free what they hold. *)
Inductive pool_reach (start size : Z) : vpn_ip_pool_t -> gset Z -> Prop :=
  | reach_init p0 p :
      vf_ip_pool_init p0 start size = Some (0, p) -> pool_reach start size p ∅
  | reach_alloc p out ip p' :
      pool_reach start size p out -> vf_ip_pool_alloc p = Some (ip, p') ->
      pool_reach start size p' (if decide (ip = 0) then out else ({[ip]} ∪ out))
  | reach_free p out ip p' :
      pool_reach start size p out -> ip ∈ out -> vf_ip_pool_free p ip = Some p' ->
      pool_reach start size p' (out ∖ {[ip]}).

Lemma bm_bit_zero n pos : bm_bit (replicate n 0) pos = false.
Proof.
  unfold bm_bit, byte_at. assert (nth (Z.to_nat (pos / 8)) (replicate n 0) 0 = 0) as ->.
  { generalize (Z.to_nat (pos / 8)). induction n as [|n IH]; intros [|k]; simpl; auto. }
  apply Z.bits_0.
Qed.

Lemma vf_ip_pool_init_inv p0 start size :
  word_ok 32 start -> start <> INADDR_NONE -> 0 < size < 2 ^ 31 -> ntohl start + size < 2 ^ 32 ->
  exists p, vf_ip_pool_init p0 start size = Some (0, p) /\ pool_inv p ∅ /\
    start_ip p = start /\ pool_size p = size.
Proof.
  intros Hst Hne Hs Hr. unfold vf_ip_pool_init.
  destruct (Z.eqb_spec size 0); [lia|]. destruct (Z.eqb_spec start INADDR_NONE); [done|].
  rewrite wrap_small by lia.
  pose proof (Z.div_mod (size + 7) 8). pose proof (Z.mod_pos_bound (size + 7) 8).
  pose proof (bswap_ok 4 start) as Hb. change (bswap 4 start) with (ntohl start) in Hb.
  unfold word_ok in Hb.
  destruct (pool_exclude_spec (Z.to_nat size) 0 (ntohl start) (replicate (Z.to_nat ((size + 7) / 8)) 0))
    as (bm & -> & Hl & Hbits); rewrite ?length_replicate in *; [lia..|]. cbn [mbind option_bind].
  eexists. split; [done|]. split; [|done]. split.
  - split; cbn; auto; [exists bm; split; [done|lia]|lia].
  - intros pos Hp. unfold in_pool in Hp. cbn in Hp. unfold pool_used, pool_reserved.
    cbn [bitmap default start_ip]. rewrite Hbits, bm_bit_zero by lia. cbn [orb].
    rewrite bool_decide_false by set_solver. rewrite orb_false_r.
    destruct (Z.leb_spec 0 pos), (Z.ltb_spec pos (0 + Z.of_nat (Z.to_nat size))); lia || done.
  - set_solver.
Qed.

Lemma pool_alloc_inv p out :
  pool_inv p out ->
  exists ip p', vf_ip_pool_alloc p = Some (ip, p') /\
    start_ip p' = start_ip p /\ pool_size p' = pool_size p /\
    pool_inv p' (if decide (ip = 0) then out else ({[ip]} ∪ out)) /\
    (ip = 0 -> forall pos, in_pool p pos -> pool_reserved p pos = false -> pool_addr p pos ∈ out) /\
    (ip <> 0 -> (ip ∉ out) /\ exists pos, in_pool p pos /\ pool_reserved p pos = false /\ ip = pool_addr p pos).
Proof.
  intros Hinv. destruct Hinv as [Hwf Hbits Hout].
  destruct (vf_ip_pool_alloc_spec p Hwf) as (ip & p' & E & Hwf' & Es & Ez & Hcase).
  exists ip, p'. split; [done|]. split; [done|]. split; [done|].
  destruct Hcase as [(-> & -> & Hall)|(pos & Hp & Hfree & -> & Hused)].
  - rewrite decide_True by done. split; [by split|]. split; [|done].
    intros _ pos Hp Hr. specialize (Hall pos Hp). rewrite Hbits, Hr in Hall by done.
    by apply bool_decide_eq_true in Hall.
  - rewrite Hbits in Hfree by done. apply orb_false_iff in Hfree as [Hr Hno].
    apply bool_decide_eq_false in Hno.
    pose proof (pool_addr_nonzero p pos Hwf Hp Hr) as Hnz. rewrite decide_False by done.
    split; [|split; [done|by eauto]].
    assert (forall q, pool_addr p' q = pool_addr p q) as Ea by (intros q; unfold pool_addr; by rewrite Es).
    assert (forall q, pool_reserved p' q = pool_reserved p q) as Er by (intros q; unfold pool_reserved; by rewrite Es).
    split; [done| |].
    + intros q Hq. unfold in_pool in *. rewrite Ez in Hq. rewrite Hused, Hbits, Ea, Er by (done || lia).
      destruct (Z.eqb_spec q pos) as [->|Hne].
      * rewrite Hr. cbn. symmetry. apply bool_decide_true. set_solver.
      * cbn [orb]. f_equal. apply bool_decide_ext. split; [set_solver|].
        intros [He|]%elem_of_union; [|done]. apply elem_of_singleton in He.
        by apply (pool_addr_inj p) in He.
    + intros ip [Hip|Hip]%elem_of_union.
      * apply elem_of_singleton in Hip as ->. exists pos. rewrite Er, Ea. unfold in_pool. by rewrite Ez.
      * destruct (Hout ip Hip) as (q & Hq & Hrq & ->). exists q. rewrite Er, Ea. unfold in_pool. by rewrite Ez.
Qed.

Lemma pool_free_inv p out ip :
  pool_inv p out -> ip ∈ out ->
  exists p', vf_ip_pool_free p ip = Some p' /\ pool_inv p' (out ∖ {[ip]}) /\
    start_ip p' = start_ip p /\ pool_size p' = pool_size p.
Proof.
  intros [Hwf Hbits Hout] Hip. destruct (Hout ip Hip) as (pos & Hp & Hr & ->).
  destruct (vf_ip_pool_free_spec p pos Hwf Hp (pool_addr_nonzero p pos Hwf Hp Hr))
    as (p' & E & Hwf' & Es & Ez & Hused).
  exists p'. split; [done|]. split; [|done].
  assert (forall q, pool_addr p' q = pool_addr p q) as Ea by (intros q; unfold pool_addr; by rewrite Es).
  assert (forall q, pool_reserved p' q = pool_reserved p q) as Er by (intros q; unfold pool_reserved; by rewrite Es).
  split; [done| |].
  - intros q Hq. unfold in_pool in *. rewrite Ez in Hq. rewrite Hused, Hbits, Ea, Er by (done || lia).
    destruct (Z.eqb_spec q pos) as [->|Hne].
    + rewrite Hr. cbn. symmetry. apply bool_decide_false. set_solver.
    + cbn [negb andb]. f_equal. apply bool_decide_ext. split; [|set_solver].
      intros Hq'. apply elem_of_difference. split; [done|]. intros He%elem_of_singleton.
      by apply (pool_addr_inj p) in He.
  - intros ip Hd. apply elem_of_difference in Hd as [Hip' _]. destruct (Hout ip Hip') as (q & Hq & Hrq & ->).
    exists q. rewrite Er, Ea. unfold in_pool. by rewrite Ez.
Qed.

Definition pool_params_ok (start size : Z) : Prop :=
  word_ok 32 start /\ 0 < size < 2 ^ 31 /\ ntohl start + size < 2 ^ 32.

Lemma pool_reach_inv start size p out :
  pool_params_ok start size -> pool_reach start size p out ->
  pool_inv p out /\ start_ip p = start /\ pool_size p = size.
Proof.
  intros (Hst & Hs & Hr). induction 1 as [p0 p E|p out ip p' _ IH E|p out ip p' _ IH Hip E].
  - destruct (decide (start = INADDR_NONE)) as [->|Hne].
    { assert (ntohl INADDR_NONE = 2 ^ 32 - 1) as E1 by (by vm_compute). lia. }
    destruct (vf_ip_pool_init_inv p0 start size) as (p1 & E1 & Hinv & Es); auto.
    rewrite E in E1. by injection E1 as <-.
  - destruct IH as (Hinv & Es & Ez). destruct (pool_alloc_inv p out Hinv) as (ip1 & p1 & E1 & Es1 & Ez1 & Hinv1 & _).
    rewrite E in E1. injection E1 as <- <-. split; [done|]. split; congruence.
  - destruct IH as (Hinv & Es & Ez). destruct (pool_free_inv p out ip Hinv Hip) as (p1 & E1 & Hinv1 & Es1 & Ez1).
    rewrite E in E1. injection E1 as <-. split; [done|]. split; congruence.
Qed.

(** * Property *)


Definition demo_start : Z := htonl 0x0A000000.
Definition demo_pool : vpn_ip_pool_t :=
  {| start_ip := demo_start; pool_size := 4; bitmap := Some [3]; next_hint := 0 |}.

