(* ===== verification/HashTable.v ===== *)
(** The interface of uthash (src/src/uthash.h, vendored) that the session and
    user managers use: intrusive tables of objects, here of their locations,
    under a key.  Clients are proved against the laws; the list instance meets
    them, and UthashTable shows that uthash implements the list instance. *)
From S2P Require Import Prelude.

(** [HASH_ADD], [HASH_DELETE], [HASH_FIND], [HASH_ITER] (the elements in
    application order, with the key they were added under) and [HASH_CNT].
    Deleting an object that is not in the table is undefined. *)
Class HashTable (K T : Type) := {
  ht_empty : T;
  ht_add : K -> positive -> T -> T;
  ht_delete : positive -> T -> option T;
  ht_find : K -> T -> option positive;
  ht_iter : T -> list (K * positive);
  ht_count : T -> nat
}.

(** What the uthash documentation promises. *)
Class HashTableLaws (K T : Type) `{HashTable K T} : Prop := {
  ht_iter_empty : ht_iter ht_empty = [];
  ht_iter_add k l t : ht_iter (ht_add k l t) = ht_iter t ++ [(k, l)];
  ht_delete_in k l t : (k, l) ∈ ht_iter t ->
    exists t', ht_delete l t = Some t' /\ ht_iter t' = filter (fun e => e.2 <> l) (ht_iter t);
  ht_find_Some k l t : ht_find k t = Some l -> (k, l) ∈ ht_iter t;
  ht_find_None k l t : ht_find k t = None -> (k, l) ∉ ht_iter t;
  ht_count_iter t : ht_count t = length (ht_iter t)
}.

(** The iteration macros, whose body may fail. *)
Fixpoint foldM {A B} (f : A -> B -> option A) (a : A) (l : list B) : option A :=
  match l with
  | [] => Some a
  | x :: l' => a ← f a x; foldM f a l'
  end.

Section table_lemmas.
Context {K T : Type} `{HashTableLaws K T}.

Lemma ht_add_elem k l t k' l' :
  (k', l') ∈ ht_iter (ht_add k l t) <-> (k', l') ∈ ht_iter t \/ (k' = k /\ l' = l).
Proof.
  rewrite ht_iter_add, elem_of_app, list_elem_of_singleton. split; intros [|E]; auto.
  - right. by simplify_eq.
  - right. by destruct E as [-> ->].
Qed.

Lemma ht_delete_elem k l t t' k' l' :
  (k, l) ∈ ht_iter t -> ht_delete l t = Some t' ->
  (k', l') ∈ ht_iter t' <-> (k', l') ∈ ht_iter t /\ l' <> l.
Proof.
  intros Hin E. destruct (ht_delete_in k l t Hin) as (t1 & E1 & Hi).
  rewrite E in E1. injection E1 as <-. rewrite Hi, list_elem_of_filter. cbn. tauto.
Qed.

Lemma ht_find_is_Some k l t : (k, l) ∈ ht_iter t -> exists l', ht_find k t = Some l'.
Proof.
  intros Hin. destruct (ht_find k t) as [l'|] eqn:E; [eauto|].
  by apply (ht_find_None k l) in E.
Qed.

Lemma ht_delete_NoDup k l t t' :
  (k, l) ∈ ht_iter t -> ht_delete l t = Some t' -> NoDup (ht_iter t).*2 -> NoDup (ht_iter t').*2.
Proof.
  intros Hin E. destruct (ht_delete_in k l t Hin) as (t1 & E1 & Hi).
  rewrite E in E1. injection E1 as <-. rewrite Hi. clear.
  induction (ht_iter t) as [|e es IH]; [done|]. cbn [fmap list_fmap]. intros [Hn Hd]%list.NoDup_cons.
  rewrite filter_cons. case_decide; [|auto]. cbn [fmap list_fmap]. apply list.NoDup_cons. split; [|auto].
  intros Hx. apply Hn. apply list_elem_of_fmap in Hx as (y & Ey & Hy). rewrite Ey.
  apply list_elem_of_filter in Hy as [_ Hy]. by apply list_elem_of_fmap_2.
Qed.

Lemma ht_add_NoDup k l t :
  l ∉ (ht_iter t).*2 -> NoDup (ht_iter t).*2 -> NoDup (ht_iter (ht_add k l t)).*2.
Proof.
  intros Hn Hd. rewrite ht_iter_add, fmap_app. apply list.NoDup_app. split; [done|]. split.
  - cbn. intros x Hx Hx'. apply list_elem_of_singleton in Hx' as ->. done.
  - apply NoDup_singleton.
Qed.
End table_lemmas.

(** ** One table over a heap of objects *)

Section heap_table.
Context {K V T : Type} `{Countable K} `{HT : HashTable K T, HL : !HashTableLaws K T} (key : V -> K).
Implicit Types (h : gmap positive V) (m : gmap K V).

Record table_wf h (t : T) : Prop := {
  tw_elem : forall k l, (k, l) ∈ ht_iter t <-> exists v, h !! l = Some v /\ key v = k;
  tw_nodup : NoDup (ht_iter t).*2;
  tw_unique : forall l1 l2 v1 v2, h !! l1 = Some v1 -> h !! l2 = Some v2 -> key v1 = key v2 -> l1 = l2
}.

Definition table_models h m : Prop :=
  forall k v, m !! k = Some v <-> exists l, h !! l = Some v /\ key v = k.

Lemma table_wf_empty : table_wf ∅ ht_empty.
Proof.
  split; rewrite ?ht_iter_empty.
  - intros k l. split; [by intros ?%not_elem_of_nil|].
    intros (v & Hv & _). by rewrite lookup_empty in Hv.
  - constructor.
  - intros l1 l2 v1 v2 Hv. by rewrite lookup_empty in Hv.
Qed.

Lemma table_models_empty : table_models ∅ ∅.
Proof.
  intros k v. rewrite lookup_empty. split; [done|]. intros (l & Hl & _). by rewrite lookup_empty in Hl.
Qed.

Lemma table_find h t m k :
  table_wf h t -> table_models h m ->
  match ht_find k t with
  | Some l => exists v, h !! l = Some v /\ key v = k /\ m !! k = Some v
  | None => m !! k = None
  end.
Proof.
  intros Hw Hm. destruct (ht_find k t) as [l|] eqn:E.
  - apply ht_find_Some, (tw_elem _ _ Hw) in E as (v & Hv & Hk). exists v.
    split; [done|]. split; [done|]. apply Hm. eauto.
  - apply eq_None_not_Some. intros [v (l & Hl & Hk)%Hm]. apply (ht_find_None k l) in E.
    apply E, (tw_elem _ _ Hw). eauto.
Qed.

Lemma table_add h t m l v :
  table_wf h t -> table_models h m -> h !! l = None -> m !! key v = None ->
  table_wf (<[l := v]> h) (ht_add (key v) l t) /\ table_models (<[l := v]> h) (<[key v := v]> m).
Proof.
  intros Hw Hm Hl Hn.
  assert (forall l0 v0, h !! l0 = Some v0 -> key v0 <> key v) as Hno.
  { intros l0 v0 H0 Hk. assert (m !! key v = Some v0) as Hs by (apply Hm; eauto). congruence. }
  split; [split|].
  - intros k l0. rewrite ht_add_elem, (tw_elem _ _ Hw). split.
    + intros [(v0 & H0 & Hk)|[-> ->]].
      * exists v0. rewrite lookup_insert_ne; [done|]. intros <-. congruence.
      * exists v. by rewrite lookup_insert_eq.
    + intros (v0 & H0 & Hk). destruct (decide (l = l0)) as [<-|Hne].
      * rewrite lookup_insert_eq in H0. injection H0 as <-. by right.
      * rewrite lookup_insert_ne in H0 by done. left. eauto.
  - apply ht_add_NoDup; [|apply (tw_nodup _ _ Hw)]. intros Hin.
    apply list_elem_of_fmap in Hin as ([k l0] & E & Hin). cbn in E. subst l0.
    apply (tw_elem _ _ Hw) in Hin as (v0 & H0 & _). congruence.
  - intros l1 l2 v1 v2 H1 H2 E. apply lookup_insert_Some in H1, H2.
    destruct H1 as [[<- <-]|[? H1]], H2 as [[<- <-]|[? H2]]; [done|..].
    + by destruct (Hno _ _ H2).
    + by destruct (Hno _ _ H1).
    + by apply (tw_unique _ _ Hw _ _ _ _ H1 H2).
  - intros k v0. rewrite lookup_insert_Some. split.
    + intros [[<- <-]|[Hne H0]].
      * exists l. by rewrite lookup_insert_eq.
      * apply Hm in H0 as (l0 & H0 & Hk). exists l0. rewrite lookup_insert_ne; [done|]. intros <-. congruence.
    + intros (l0 & H0 & Hk). apply lookup_insert_Some in H0 as [[<- <-]|[Hne H0]]; [by left|].
      right. split; [|apply Hm; eauto]. intros Hk'. by destruct (Hno _ _ H0); congruence.
Qed.

Lemma table_delete h t m l v :
  table_wf h t -> table_models h m -> h !! l = Some v ->
  exists t', ht_delete l t = Some t' /\ table_wf (delete l h) t' /\
    table_models (delete l h) (delete (key v) m).
Proof.
  intros Hw Hm Hl.
  assert ((key v, l) ∈ ht_iter t) as Hin by (apply (tw_elem _ _ Hw); eauto).
  destruct (ht_delete_in _ _ _ Hin) as (t' & E & _). exists t'. split; [done|]. split; [split|].
  - intros k l0. rewrite (ht_delete_elem _ _ _ _ _ _ Hin E), (tw_elem _ _ Hw).
    setoid_rewrite lookup_delete_Some. split.
    + intros [(v0 & H0 & Hk) Hne]. exists v0. done.
    + intros (v0 & [Hne H0] & Hk). split; [eauto|done].
  - apply (ht_delete_NoDup _ _ _ _ Hin E), (tw_nodup _ _ Hw).
  - intros l1 l2 v1 v2 [_ H1]%lookup_delete_Some [_ H2]%lookup_delete_Some. by apply (tw_unique _ _ Hw).
  - intros k v0. rewrite lookup_delete_Some. rewrite (Hm k v0). setoid_rewrite lookup_delete_Some. split.
    + intros [Hne (l0 & H0 & Hk)]. exists l0. split; [split; [|done]|done]. intros <-. congruence.
    + intros (l0 & [Hne H0] & Hk). split; [|eauto]. intros Hk'. apply Hne.
      apply (tw_unique _ _ Hw _ _ _ _ Hl H0). congruence.
Qed.

Lemma table_update h t m l v v' :
  table_wf h t -> table_models h m -> h !! l = Some v -> key v' = key v ->
  table_wf (<[l := v']> h) t /\ table_models (<[l := v']> h) (<[key v := v']> m).
Proof.
  intros Hw Hm Hl Hk. split; [split|].
  - intros k l0. rewrite (tw_elem _ _ Hw). destruct (decide (l = l0)) as [<-|Hne].
    + rewrite lookup_insert_eq, Hl. split; intros (x & [= <-] & Hx); eexists; (split; [done|]); congruence.
    + by rewrite lookup_insert_ne.
  - apply (tw_nodup _ _ Hw).
  - intros l1 l2 v1 v2 H1 H2 E. apply lookup_insert_Some in H1, H2.
    destruct H1 as [[<- <-]|[? H1]], H2 as [[<- <-]|[? H2]]; [done|..].
    + apply (tw_unique _ _ Hw _ _ _ _ Hl H2). congruence.
    + apply (tw_unique _ _ Hw _ _ _ _ H1 Hl). congruence.
    + by apply (tw_unique _ _ Hw _ _ _ _ H1 H2).
  - intros k v0. rewrite lookup_insert_Some. split.
    + intros [[<- <-]|[Hne H0]].
      * exists l. by rewrite lookup_insert_eq.
      * apply Hm in H0 as (l0 & H0 & Hk0). exists l0. rewrite lookup_insert_ne; [done|]. intros <-. congruence.
    + intros (l0 & H0 & Hk0). apply lookup_insert_Some in H0 as [[<- <-]|[Hne H0]]; [left; by rewrite <- Hk|].
      right. split; [|apply Hm; eauto]. intros Hk'. apply Hne.
      apply (tw_unique _ _ Hw _ _ _ _ Hl H0). congruence.
Qed.

(** A [HASH_ITER] that frees the objects satisfying [P]. *)
Definition table_sweep (P : V -> bool) (a : gmap positive V * T) (l : positive) : option (gmap positive V * T) :=
  let '(h, t) := a in
  v ← h !! l;
  if P v then t ← ht_delete l t; Some (delete l h, t) else Some (h, t).

Lemma table_sweep_list P ls h t m :
  table_wf h t -> table_models h m -> NoDup ls -> (forall l, l ∈ ls -> is_Some (h !! l)) ->
  exists h' t' m', foldM (table_sweep P) (h, t) ls = Some (h', t') /\ table_wf h' t' /\ table_models h' m' /\
    (forall k v, m' !! k = Some v <-> m !! k = Some v /\ ~ (exists l, l ∈ ls /\ h !! l = Some v /\ P v = true)).
Proof.
  revert h t m. induction ls as [|l ls IH]; intros h t m Hw Hm Hnd Hls.
  - exists h, t, m. split; [done|]. split; [done|]. split; [done|]. intros k v.
    split; [|by intros []]. intros Hv. split; [done|]. intros (l & Hl & _). by apply not_elem_of_nil in Hl.
  - apply list.NoDup_cons in Hnd as [Hnl Hnd]. destruct (Hls l ltac:(left)) as [v Hv].
    cbn [foldM table_sweep]. rewrite Hv. cbn [mbind option_bind]. destruct (P v) eqn:EP.
    + destruct (table_delete h t m l v Hw Hm Hv) as (t1 & E1 & Hw1 & Hm1). rewrite E1. cbn [mbind option_bind].
      destruct (IH (delete l h) t1 (delete (key v) m) Hw1 Hm1 Hnd) as (h' & t' & m' & E & Hw' & Hm' & Hf).
      { intros l0 Hl0. rewrite lookup_delete_ne; [apply Hls; by right|]. by intros <-. }
      exists h', t', m'. split; [done|]. split; [done|]. split; [done|]. intros k v0.
      rewrite Hf, lookup_delete_Some. split.
      * intros [[Hne H0] Hn]. split; [done|]. intros (l0 & [-> |Hl0]%elem_of_cons & Hs & HP).
        -- apply Hne. rewrite Hv in Hs. injection Hs as ->. apply Hm in H0 as (_ & _ & ?). done.
        -- apply Hn. exists l0. split; [done|]. split; [|done]. rewrite lookup_delete_ne; [done|]. by intros <-.
      * intros [H0 Hn]. split; [split; [|done]|].
        -- intros <-. apply Hn. exists l. split; [left|].
           assert (m !! key v = Some v) as Hk by (apply Hm; eauto). rewrite Hk in H0. by injection H0 as <-.
        -- intros (l0 & Hl0 & [_ Hs]%lookup_delete_Some & HP). apply Hn. exists l0. split; [by right|done].
    + destruct (IH h t m Hw Hm Hnd) as (h' & t' & m' & E & Hw' & Hm' & Hf).
      { intros l0 Hl0. apply Hls. by right. }
      exists h', t', m'. split; [done|]. split; [done|]. split; [done|]. intros k v0. rewrite Hf.
      split; intros [H0 Hn]; (split; [done|]); intros (l0 & Hl0 & Hs & HP); apply Hn.
      * apply elem_of_cons in Hl0 as [-> |Hl0]; [congruence|eauto].
      * exists l0. split; [by right|done].
Qed.

Lemma table_sweep_all P h t m :
  table_wf h t -> table_models h m ->
  exists h' t', foldM (table_sweep P) (h, t) (ht_iter t).*2 = Some (h', t') /\ table_wf h' t' /\
    table_models h' (filter (fun '(_, v) => P v = false) m).
Proof.
  intros Hw Hm. destruct (table_sweep_list P (ht_iter t).*2 h t m Hw Hm (tw_nodup _ _ Hw))
    as (h' & t' & m' & E & Hw' & Hm' & Hf).
  { intros l Hl. apply list_elem_of_fmap in Hl as ([k l0] & -> & Hin).
    apply (tw_elem _ _ Hw) in Hin as (v & Hv & _). eauto. }
  exists h', t'. split; [done|]. split; [done|]. replace (filter _ m) with m'; [done|].
  apply map_eq. intros k. apply option_eq. intros v. rewrite Hf, map_lookup_filter_Some. split.
  - intros [H0 Hn]. split; [done|]. destruct (P v) eqn:EP; [|done]. exfalso. apply Hn.
    apply Hm in H0 as (l & Hl & Hk). exists l. split; [|done]. apply list_elem_of_fmap.
    exists (k, l). split; [done|]. apply (tw_elem _ _ Hw). eauto.
  - intros [H0 HP]. split; [done|]. intros (l & _ & _ & HP'). congruence.
Qed.

(** ** Tables in which a key may occur twice *)

Record table_sound h (t : T) : Prop := {
  ts_elem : forall k l, (k, l) ∈ ht_iter t <-> exists v, h !! l = Some v /\ key v = k;
  ts_nodup : NoDup (ht_iter t).*2
}.

Lemma table_sound_empty : table_sound ∅ ht_empty.
Proof. by destruct table_wf_empty. Qed.

Lemma table_sound_add h t l v : table_sound h t -> h !! l = None -> table_sound (<[l := v]> h) (ht_add (key v) l t).
Proof.
  intros Hw Hl. split.
  - intros k l0. rewrite ht_add_elem, (ts_elem _ _ Hw). setoid_rewrite lookup_insert_Some. split.
    + intros [(v0 & H0 & Hk)|[-> ->]]; [|by eauto]. exists v0. split; [right; split; [congruence|done]|done].
    + intros (v0 & [[<- <-]|[Hne H0]] & Hk); [by right|eauto].
  - apply ht_add_NoDup; [|apply (ts_nodup _ _ Hw)]. intros Hin.
    apply list_elem_of_fmap in Hin as ([k l0] & E & Hin). cbn in E. subst l0.
    apply (ts_elem _ _ Hw) in Hin as (v0 & H0 & _). congruence.
Qed.

Lemma table_sound_delete h t l v :
  table_sound h t -> h !! l = Some v -> exists t', ht_delete l t = Some t' /\ table_sound (delete l h) t'.
Proof.
  intros Hw Hl. assert ((key v, l) ∈ ht_iter t) as Hin by (apply (ts_elem _ _ Hw); eauto).
  destruct (ht_delete_in _ _ _ Hin) as (t' & E & _). exists t'. split; [done|]. split.
  - intros k l0. rewrite (ht_delete_elem _ _ _ _ _ _ Hin E), (ts_elem _ _ Hw). setoid_rewrite lookup_delete_Some. split.
    + intros [(v0 & H0 & Hk) Hne]. exists v0. done.
    + intros (v0 & [Hne H0] & Hk). split; [eauto|done].
  - apply (ht_delete_NoDup _ _ _ _ Hin E), (ts_nodup _ _ Hw).
Qed.

Lemma table_sound_find h t k l : table_sound h t -> ht_find k t = Some l -> exists v, h !! l = Some v /\ key v = k.
Proof. intros Hw E. by apply (ts_elem _ _ Hw), ht_find_Some. Qed.

Lemma table_sound_update h t l v v' :
  table_sound h t -> h !! l = Some v -> key v' = key v -> table_sound (<[l := v']> h) t.
Proof.
  intros Hw Hl Hk. split; [|apply (ts_nodup _ _ Hw)]. intros k l0. rewrite (ts_elem _ _ Hw).
  destruct (decide (l = l0)) as [<-|Hne]; [|by rewrite lookup_insert_ne].
  rewrite lookup_insert_eq, Hl. split; intros (x & [= <-] & Hx); eexists; (split; [done|]); congruence.
Qed.

Lemma table_sound_sweep_list P ls h t :
  table_sound h t -> NoDup ls -> (forall l, l ∈ ls -> is_Some (h !! l)) ->
  exists h' t', foldM (table_sweep P) (h, t) ls = Some (h', t') /\ table_sound h' t' /\
    forall l v, h' !! l = Some v -> h !! l = Some v /\ (l ∈ ls -> P v = false).
Proof.
  revert h t. induction ls as [|l ls IH]; intros h t Hw Hnd Hls.
  { exists h, t. split; [done|]. split; [done|]. intros l v Hl. split; [done|]. by intros ?%not_elem_of_nil. }
  apply list.NoDup_cons in Hnd as [Hnl Hnd]. destruct (Hls l ltac:(left)) as [v Hv].
  cbn [foldM table_sweep]. rewrite Hv. cbn [mbind option_bind]. destruct (P v) eqn:EP.
  - destruct (table_sound_delete h t l v Hw Hv) as (t1 & -> & Hw1). cbn [mbind option_bind].
    destruct (IH (delete l h) t1 Hw1 Hnd) as (h' & t' & E & Hw' & Hf).
    { intros l0 Hl0. rewrite lookup_delete_ne; [apply Hls; by right|]. by intros <-. }
    exists h', t'. split; [done|]. split; [done|]. intros l0 x [[Hne Hx]%lookup_delete_Some Hn]%Hf.
    split; [done|]. intros [->|?]%elem_of_cons; [done|auto].
  - destruct (IH h t Hw Hnd) as (h' & t' & E & Hw' & Hf); [intros l0 Hl0; apply Hls; by right|].
    exists h', t'. split; [done|]. split; [done|]. intros l0 x [Hx Hn]%Hf. split; [done|].
    intros [->|?]%elem_of_cons; [congruence|auto].
Qed.

(** A sweep returns, and leaves nothing that satisfies [P]. *)
Lemma table_sound_sweep P h t : table_sound h t ->
  exists h' t', foldM (table_sweep P) (h, t) (ht_iter t).*2 = Some (h', t') /\ table_sound h' t' /\
    forall l v, h' !! l = Some v -> h !! l = Some v /\ P v = false.
Proof.
  intros Hw. destruct (table_sound_sweep_list P (ht_iter t).*2 h t Hw (ts_nodup _ _ Hw)) as (h' & t' & E & Hw' & Hf).
  { intros l Hl. apply list_elem_of_fmap in Hl as ([k l0] & -> & (v & Hv & _)%(ts_elem _ _ Hw)). eauto. }
  exists h', t'. split; [done|]. split; [done|]. intros l v [Hl Hn]%Hf. split; [done|]. apply Hn.
  apply list_elem_of_fmap. exists (key v, l). split; [done|]. apply (ts_elem _ _ Hw). eauto.
Qed.

(** A sweep of everything empties the heap. *)
Lemma table_clear h t :
  table_sound h t -> exists t', foldM (table_sweep (fun _ => true)) (h, t) (ht_iter t).*2 = Some (∅, t').
Proof.
  intros Hw. destruct (table_sound_sweep (fun _ => true) h t Hw) as (h' & t' & E & _ & Hf).
  exists t'. rewrite E. do 2 f_equal. apply map_eq. intros l. rewrite lookup_empty. apply eq_None_not_Some.
  by intros [v [_ ?]%Hf].
Qed.
End heap_table.

(** ** The list instance *)

Definition list_table (K : Type) : Type := list (K * positive).

#[export] Instance list_hash_table (K : Type) `{EqDecision K} : HashTable K (list_table K) := {
  ht_empty := [];
  ht_add k l t := t ++ [(k, l)];
  ht_delete l t := if decide (l ∈ t.*2) then Some (filter (fun e => e.2 <> l) t) else None;
  ht_find k t := snd <$> head (filter (fun e => e.1 = k) t);
  ht_iter t := t;
  ht_count t := length t
}.

#[export] Instance list_hash_table_laws (K : Type) `{EqDecision K} : HashTableLaws K (list_table K).
Proof.
  split; cbn; try done.
  - intros k l t Hin. rewrite decide_True; [eauto|].
    change l with ((k, l).2). by apply list_elem_of_fmap_2.
  - intros k l t E. apply fmap_Some in E as ([k' l'] & E & ->).
    apply head_Some_elem_of in E. apply list_elem_of_filter in E as [<- Hin]. done.
  - intros k l t E Hin. apply fmap_None in E.
    destruct (filter _ t) as [|e es] eqn:Ef; [|done].
    assert ((k, l) ∈ filter (fun e : K * positive => e.1 = k) t) as Hf by (by apply list_elem_of_filter).
    rewrite Ef in Hf. by apply not_elem_of_nil in Hf.
Qed.
