(* ===== verification/Dlist.v ===== *)
(** Doubly linked lists in a store, for uthash: segments, how they split, and
    what the three kinds of pointer update do to them. *)
From S2P Require Import Prelude.

(** The two links of a node: the previous node, the next. *)
Abbreviation links := (gmap positive (option positive * option positive)).
Implicit Types (L : links) (p q : positive) (pv nx : option positive) (l : list positive).

(** The first node of a list that [nx] follows, the last of one [pv] precedes. *)
Definition first_of l nx : option positive := match l with [] => nx | p :: _ => Some p end.
Fixpoint last_of pv l : option positive := match l with [] => pv | p :: l => last_of (Some p) l end.

(** [l] is linked in [L], between [pv] and [nx]. *)
Fixpoint seg L pv l nx : Prop :=
  match l with
  | [] => True
  | p :: l => L !! p = Some (pv, first_of l nx) /\ seg L (Some p) l nx
  end.

Definition dll L l : Prop := NoDup l /\ seg L None l None.

Lemma first_of_app l1 l2 nx : first_of (l1 ++ l2) nx = first_of l1 (first_of l2 nx).
Proof. by destruct l1. Qed.
Lemma last_of_app pv l1 l2 : last_of pv (l1 ++ l2) = last_of (last_of pv l1) l2.
Proof. revert pv. induction l1; intros pv; cbn; auto. Qed.

Lemma last_of_elem pv l q : last_of pv l = Some q -> pv = Some q /\ l = [] \/ exists l', l = l' ++ [q].
Proof.
  revert pv. induction l as [|p l IH]; intros pv; cbn [last_of]; [by left|]. intros [[[= ->] ->]|[l' ->]]%IH.
  - right. by exists [].
  - right. by exists (p :: l').
Qed.
Lemma last_of_none l : last_of None l = None -> l = [].
Proof. destruct l as [|p l] using rev_ind; [done|]. by rewrite last_of_app. Qed.

Lemma seg_app L pv l1 l2 nx : seg L pv (l1 ++ l2) nx <-> seg L pv l1 (first_of l2 nx) /\ seg L (last_of pv l1) l2 nx.
Proof.
  revert pv. induction l1 as [|p l1 IH]; intros pv; cbn [seg app last_of]; [tauto|]. rewrite IH, first_of_app. tauto.
Qed.

Lemma seg_frame L L' pv l nx : (forall p, p ∈ l -> L' !! p = L !! p) -> seg L pv l nx -> seg L' pv l nx.
Proof.
  revert pv. induction l as [|p l IH]; intros pv Hf; cbn [seg]; [done|]. intros [Hp Hl].
  rewrite Hf by left. split; [done|]. apply IH; [|done]. intros q Hq. apply Hf. by right.
Qed.

Lemma seg_insert L pv l nx p x : p ∉ l -> seg L pv l nx -> seg (<[p := x]> L) pv l nx.
Proof. intros Hp. apply seg_frame. intros q Hq. apply lookup_insert_ne. by intros ->. Qed.

Lemma seg_lookup L pv l nx p : seg L pv l nx -> p ∈ l -> is_Some (L !! p).
Proof.
  intros Hs (l1 & l2 & ->)%list_elem_of_split. apply seg_app in Hs as [_ [-> _]]. by eexists.
Qed.

(** Another node in front. *)
Lemma seg_first L pv pv' p l nx nx' : p ∉ l -> seg L pv (p :: l) nx -> L !! p = Some (pv, nx') -> seg (<[p := (pv', nx')]> L) pv' (p :: l) nx.
Proof.
  intros Hp [Hx Hl] E. rewrite Hx in E. injection E as E. cbn [seg]. rewrite lookup_insert_eq, E. split; [done|]. by apply seg_insert.
Qed.

(** Another node behind. *)
Lemma seg_last L pv pv' p l nx nx' : p ∉ l -> seg L pv (l ++ [p]) nx -> L !! p = Some (pv', nx) -> seg (<[p := (pv', nx')]> L) pv (l ++ [p]) nx'.
Proof.
  intros Hp [Hl [Hx _]]%seg_app E. rewrite Hx in E. cbn in E. injection E as <-. apply seg_app. split; [by apply seg_insert|].
  cbn [seg first_of]. by rewrite lookup_insert_eq.
Qed.

(** ** Stores of one link, of a node that is there *)

Lemma alter_insert (f : option positive * option positive -> option positive * option positive) q L x :
  L !! q = Some x -> alter f q L = <[q := f x]> L.
Proof.
  intros Hq. apply map_eq. intros i. destruct (decide (q = i)) as [<-|Hne].
  - by rewrite lookup_alter_eq, lookup_insert_eq, Hq.
  - by rewrite lookup_alter_ne, lookup_insert_ne.
Qed.

(** The previous link of the node in front of which something is put, when
    there is one; the next link of the one behind. *)
Definition set_prev (q : option positive) pv L : links :=
  match q with Some q => alter (fun x => (pv, x.2)) q L | None => L end.
Definition set_next (q : option positive) nx L : links :=
  match q with Some q => alter (fun x => (x.1, nx)) q L | None => L end.

Lemma seg_set_prev L pv pv' l nx : NoDup l -> seg L pv l nx -> seg (set_prev (first_of l None) pv' L) pv' l nx.
Proof.
  destruct l as [|q l]; [done|]. intros [Hn _]%list.NoDup_cons Hs. pose proof Hs as [Hx _]. cbn [first_of set_prev].
  rewrite (alter_insert _ _ _ _ Hx). by eapply seg_first.
Qed.

Lemma seg_set_next L l nx nx' : NoDup l -> seg L None l nx -> seg (set_next (last_of None l) nx' L) None l nx'.
Proof.
  destruct l as [|q l _] using rev_ind; [done|]. intros [_ [Hn _]]%list.NoDup_app Hs. rewrite last_of_app. cbn [last_of set_next].
  pose proof Hs as [_ [Hx _]]%seg_app. rewrite (alter_insert _ _ _ _ Hx). eapply seg_last; [|exact Hs|exact Hx].
  intros Hq. apply (Hn q Hq). left.
Qed.

Lemma seg_set_prev_other L pv pv' l nx (q : option positive) : (forall p, q = Some p -> p ∉ l) -> seg L pv l nx -> seg (set_prev q pv' L) pv l nx.
Proof.
  intros Hq. destruct q as [q|]; [|done]. apply seg_frame. intros p Hp. cbn. apply lookup_alter_ne. intros ->. by eapply Hq.
Qed.
Lemma seg_set_next_other L pv nx' l nx (q : option positive) : (forall p, q = Some p -> p ∉ l) -> seg L pv l nx -> seg (set_next q nx' L) pv l nx.
Proof.
  intros Hq. destruct q as [q|]; [|done]. apply seg_frame. intros p Hp. cbn. apply lookup_alter_ne. intros ->. by eapply Hq.
Qed.

Lemma set_prev_lookup (q : option positive) pv L p : q <> Some p -> set_prev q pv L !! p = L !! p.
Proof. destruct q as [q|]; [|done]. intros Hne. apply lookup_alter_ne. congruence. Qed.
Lemma set_next_lookup (q : option positive) nx L p : q <> Some p -> set_next q nx L !! p = L !! p.
Proof. destruct q as [q|]; [|done]. intros Hne. apply lookup_alter_ne. congruence. Qed.

Lemma first_of_in l p : first_of l None = Some p -> p ∈ l.
Proof. destruct l; [done|]. intros [= ->]. left. Qed.
Lemma last_of_in l p : last_of None l = Some p -> p ∈ l.
Proof.
  destruct l as [|q l _] using rev_ind; [done|]. rewrite last_of_app. intros [= ->]. apply elem_of_app. right. left.
Qed.

(** ** The three updates *)

(** A node that is new, put in front. *)
Lemma dll_push L l p : dll L l -> p ∉ l -> dll (set_prev (first_of l None) (Some p) (<[p := (None, first_of l None)]> L)) (p :: l).
Proof.
  intros [Hnd Hs] Hp. split; [by apply list.NoDup_cons|]. cbn [seg]. split.
  - rewrite set_prev_lookup; [by rewrite lookup_insert_eq|]. intros E. by apply Hp, first_of_in.
  - eapply seg_set_prev; [done|]. by apply seg_insert.
Qed.

(** Behind. *)
Lemma dll_append L l p : dll L l -> p ∉ l -> dll (set_next (last_of None l) (Some p) (<[p := (last_of None l, None)]> L)) (l ++ [p]).
Proof.
  intros [Hnd Hs] Hp. split; [apply list.NoDup_app; split_and!; [done| |by apply NoDup_singleton]|].
  { intros q Hq ->%list_elem_of_singleton. done. }
  apply seg_app. split; [apply (seg_set_next _ _ None); [done|by apply seg_insert]|]. cbn [seg first_of]. split; [|done].
  rewrite set_next_lookup; [by rewrite lookup_insert_eq|]. intros E. by apply Hp, last_of_in.
Qed.

(** A node taken out. *)
Lemma dll_remove L l1 p l2 :
  dll L (l1 ++ p :: l2) ->
  L !! p = Some (last_of None l1, first_of l2 None) /\
  dll (set_prev (first_of l2 None) (last_of None l1) (set_next (last_of None l1) (first_of l2 None) L)) (l1 ++ l2).
Proof.
  intros [Hnd Hs]. apply list.NoDup_app in Hnd as (Hnd1 & Hn & [Hp Hnd2]%list.NoDup_cons). apply seg_app in Hs as (Hs1 & Hx & Hs2). split; [done|].
  assert (NoDup (l1 ++ l2)) as Hnd.
  { apply list.NoDup_app. split_and!; [done| |done]. intros q Hq1 Hq2. apply (Hn q Hq1). by right. }
  split; [done|]. apply seg_app. split.
  - apply seg_set_prev_other; [intros q E Hq; apply (Hn q Hq); right; by apply first_of_in|]. by eapply seg_set_next.
  - eapply seg_set_prev; [done|]. eapply seg_set_next_other; [|exact Hs2].
    intros q E Hq. apply last_of_in in E. apply (Hn q E). by right.
Qed.

(** What does not concern the nodes does not matter. *)
Lemma dll_frame L L' l : (forall p, p ∈ l -> L' !! p = L !! p) -> dll L l -> dll L' l.
Proof. intros Hf [Hnd Hs]. split; [done|]. by eapply seg_frame. Qed.
