(* ===== verification/Uthash.v ===== *)
(** uthash (src/src/uthash.h), as far as the program uses it: the handles of
    the elements, linked in the order of their addition and in their bucket,
    in a store whose locations are the elements' addresses; and what each of
    the pieces of the macros does to the two kinds of list.  The operations as
    a whole are in UthashTable. *)
From S2P Require Import Prelude HashTable Dlist.

(** * HASH_JEN *)

(** The bytes of a key, little-endian, four at [k]. *)
Definition jen_byte (key : list Z) (k : nat) : option Z := key !! k.
Definition jen_word (key : list Z) (k : nat) : option Z :=
  a ← jen_byte key k; b ← jen_byte key (k + 1); c ← jen_byte key (k + 2); d ← jen_byte key (k + 3);
  Some (u32 (u32 (u32 (a + u32 (Z.shiftl b 8)) + u32 (Z.shiftl c 16)) + u32 (Z.shiftl d 24))).

Definition HASH_JEN_MIX (a b c : Z) : Z * Z * Z :=
  let a := u32 (a - b) in let a := u32 (a - c) in let a := Z.lxor a (Z.shiftr c 13) in
  let b := u32 (b - c) in let b := u32 (b - a) in let b := Z.lxor b (u32 (Z.shiftl a 8)) in
  let c := u32 (c - a) in let c := u32 (c - b) in let c := Z.lxor c (Z.shiftr b 13) in
  let a := u32 (a - b) in let a := u32 (a - c) in let a := Z.lxor a (Z.shiftr c 12) in
  let b := u32 (b - c) in let b := u32 (b - a) in let b := Z.lxor b (u32 (Z.shiftl a 16)) in
  let c := u32 (c - a) in let c := u32 (c - b) in let c := Z.lxor c (Z.shiftr b 5) in
  let a := u32 (a - b) in let a := u32 (a - c) in let a := Z.lxor a (Z.shiftr c 3) in
  let b := u32 (b - c) in let b := u32 (b - a) in let b := Z.lxor b (u32 (Z.shiftl a 10)) in
  let c := u32 (c - a) in let c := u32 (c - b) in let c := Z.lxor c (Z.shiftr b 15) in
  (a, b, c).

(** The loop over twelve bytes at a time: what is left of the key, and the
    state. *)
Fixpoint jen_loop (fuel : nat) (key : list Z) (i j hashv : Z) : option (list Z * Z * Z * Z) :=
  if (length key <? 12)%nat then Some (key, i, j, hashv) else
  match fuel with
  | O => None
  | S fuel =>
      a ← jen_word key 0; b ← jen_word key 4; c ← jen_word key 8;
      let '(i, j, hashv) := HASH_JEN_MIX (u32 (i + a)) (u32 (j + b)) (u32 (hashv + c)) in
      jen_loop fuel (drop 12 key) i j hashv
  end.

(** [switch (_hj_k)]: the byte at [n], shifted, if the key has one. *)
Definition jen_tail (key : list Z) (n : nat) (sh x : Z) : Z :=
  match key !! n with Some b => u32 (x + u32 (Z.shiftl b sh)) | None => x end.

Definition HASH_JEN (key : list Z) : option Z :=
  '(rest, i, j, hashv) ← jen_loop (length key) key 0x9e3779b9 0x9e3779b9 0xfeedbeef;
  let hashv := u32 (hashv + u32 (Z.of_nat (length key))) in
  let hashv := jen_tail rest 8 8 (jen_tail rest 9 16 (jen_tail rest 10 24 hashv)) in
  let j := jen_tail rest 4 0 (jen_tail rest 5 8 (jen_tail rest 6 16 (jen_tail rest 7 24 j))) in
  let i := jen_tail rest 0 0 (jen_tail rest 1 8 (jen_tail rest 2 16 (jen_tail rest 3 24 i))) in
  let '(_, _, hashv) := HASH_JEN_MIX i j hashv in
  Some hashv.

(** * Data *)

(** [keylen] is the length of the key. *)
Record UT_hash_handle := {
  prev : option positive; next : option positive; hh_prev : option positive; hh_next : option positive;
  hh_key : list Z; hashv : Z
}.
Record UT_hash_bucket := { hh_head : option positive; bkt_count : Z; expand_mult : Z }.
Record UT_hash_table := {
  buckets : list UT_hash_bucket; num_buckets : Z; log2_num_buckets : Z; num_items : Z; tail : positive;
  ideal_chain_maxlen : Z; nonideal_items : Z; ineff_expands : Z; noexpand : bool
}.

(** A table: its head, NULL when it is empty, with what the head's handle
    points to; and the handles. *)
Record uthash := { ut_head : option (positive * UT_hash_table); ut_heap : gmap positive UT_hash_handle }.
Definition ut_empty : uthash := {| ut_head := None; ut_heap := ∅ |}.

#[local] Abbreviation heap := (gmap positive UT_hash_handle).

Definition put_prev (x : option positive) (h : UT_hash_handle) : UT_hash_handle :=
  {| prev := x; next := next h; hh_prev := hh_prev h; hh_next := hh_next h; hh_key := hh_key h; hashv := hashv h |}.
Definition put_next (x : option positive) (h : UT_hash_handle) : UT_hash_handle :=
  {| prev := prev h; next := x; hh_prev := hh_prev h; hh_next := hh_next h; hh_key := hh_key h; hashv := hashv h |}.
Definition put_hh_prev (x : option positive) (h : UT_hash_handle) : UT_hash_handle :=
  {| prev := prev h; next := next h; hh_prev := x; hh_next := hh_next h; hh_key := hh_key h; hashv := hashv h |}.
Definition put_hh_next (x : option positive) (h : UT_hash_handle) : UT_hash_handle :=
  {| prev := prev h; next := next h; hh_prev := hh_prev h; hh_next := x; hh_key := hh_key h; hashv := hashv h |}.

(** A store through a pointer, which must be to a handle; and the same guarded
    by a test for NULL. *)
Definition store (f : UT_hash_handle -> UT_hash_handle) (p : positive) (h : heap) : option heap := x ← h !! p; Some (<[p := f x]> h).
Definition store_if (f : UT_hash_handle -> UT_hash_handle) (p : option positive) (h : heap) : option heap :=
  match p with Some p => store f p h | None => Some h end.

Definition put_bkts (b : list UT_hash_bucket) (t : UT_hash_table) : UT_hash_table :=
  {| buckets := b; num_buckets := num_buckets t; log2_num_buckets := log2_num_buckets t; num_items := num_items t; tail := tail t;
     ideal_chain_maxlen := ideal_chain_maxlen t; nonideal_items := nonideal_items t; ineff_expands := ineff_expands t; noexpand := noexpand t |}.
Definition put_items (n : Z) (t : UT_hash_table) : UT_hash_table :=
  {| buckets := buckets t; num_buckets := num_buckets t; log2_num_buckets := log2_num_buckets t; num_items := n; tail := tail t;
     ideal_chain_maxlen := ideal_chain_maxlen t; nonideal_items := nonideal_items t; ineff_expands := ineff_expands t; noexpand := noexpand t |}.
Definition put_tail (p : positive) (t : UT_hash_table) : UT_hash_table :=
  {| buckets := buckets t; num_buckets := num_buckets t; log2_num_buckets := log2_num_buckets t; num_items := num_items t; tail := p;
     ideal_chain_maxlen := ideal_chain_maxlen t; nonideal_items := nonideal_items t; ineff_expands := ineff_expands t; noexpand := noexpand t |}.

Definition HASH_INITIAL_NUM_BUCKETS : Z := 32.
Definition HASH_INITIAL_NUM_BUCKETS_LOG2 : Z := 5.
Definition HASH_BKT_CAPACITY_THRESH : Z := 10.
Definition SIZEOF_TABLE : Z := 64.
Definition SIZEOF_BUCKET : Z := 16.

Definition zero_bucket : UT_hash_bucket := {| hh_head := None; bkt_count := 0; expand_mult := 0 |}.

(** * The macros *)

(** Out of memory ends the process. *)
Inductive or_exit (A : Type) := Exits | Goes (x : A).
Arguments Exits {A}.
Arguments Goes {A}.

Definition HASH_TO_BKT (hashv num_bkts : Z) : nat := Z.to_nat (Z.land hashv (u32 (num_bkts - 1))).

Section uthash.
(** Whether an allocation of so many bytes succeeds. *)
Variable mem : Z -> bool.

(** The loop of [HASH_FIND_IN_BKT], from [out]. *)
Fixpoint find_in_bkt (fuel : nat) (h : heap) (key : list Z) (hashval : Z) (out : option positive) : option (option positive) :=
  match out with
  | None => Some None
  | Some p =>
      match fuel with
      | O => None
      | S fuel =>
          x ← h !! p;
          if (hashv x =? hashval) && (length (hh_key x) =? length key)%nat && bool_decide (hh_key x = key) then Some (Some p)
          else find_in_bkt fuel h key hashval (hh_next x)
      end
  end.

Definition HASH_FIND (key : list Z) (u : uthash) : option (option positive) :=
  match ut_head u with
  | None => Some None
  | Some (_, tbl) =>
      hashval ← HASH_JEN key;
      bkt ← buckets tbl !! HASH_TO_BKT hashval (num_buckets tbl);
      find_in_bkt (S (size (ut_heap u))) (ut_heap u) key hashval (hh_head bkt)
  end.

Definition HASH_MAKE_TABLE (p : positive) : or_exit UT_hash_table :=
  if negb (mem SIZEOF_TABLE) then Exits else
  if negb (mem (HASH_INITIAL_NUM_BUCKETS * SIZEOF_BUCKET)) then Exits else
  Goes {| buckets := replicate (Z.to_nat HASH_INITIAL_NUM_BUCKETS) zero_bucket; num_buckets := HASH_INITIAL_NUM_BUCKETS;
          log2_num_buckets := HASH_INITIAL_NUM_BUCKETS_LOG2; num_items := 0; tail := p; ideal_chain_maxlen := 0;
          nonideal_items := 0; ineff_expands := 0; noexpand := false |}.

(** Moving the chain that starts at [thh] to the new buckets, with the count
    of those that are not ideally placed. *)
Fixpoint expand_chain (fuel : nat) (num2 ideal : Z) (thh : option positive) (st : heap * list UT_hash_bucket * Z)
    : option (heap * list UT_hash_bucket * Z) :=
  match thh with
  | None => Some st
  | Some p =>
      match fuel with
      | O => None
      | S fuel =>
          let '(h, nb, nonideal) := st in
          x ← h !! p;
          let hh_nxt := hh_next x in
          let i := HASH_TO_BKT (hashv x) num2 in
          bkt ← nb !! i;
          let count := u32 (bkt_count bkt + 1) in
          let over := ideal <? count in
          let nonideal := if over then u32 (nonideal + 1) else nonideal in
          let mult := if over && (u32 (expand_mult bkt * ideal) <? count) then u32 (expand_mult bkt + 1) else expand_mult bkt in
          h ← store (put_hh_prev None) p h;
          h ← store (put_hh_next (hh_head bkt)) p h;
          h ← store_if (put_hh_prev (Some p)) (hh_head bkt) h;
          expand_chain fuel num2 ideal hh_nxt
            (h, <[i := {| hh_head := Some p; bkt_count := count; expand_mult := mult |}]> nb, nonideal)
      end
  end.

(** A shift by the width of the type is undefined. *)
Definition HASH_EXPAND_BUCKETS (tbl : UT_hash_table) (h : heap) : option (or_exit (UT_hash_table * heap)) :=
  if negb (mem (SIZEOF_BUCKET * num_buckets tbl * 2)) then Some Exits else
  let num2 := u32 (num_buckets tbl * 2) in
  if 32 <=? log2_num_buckets tbl + 1 then None else
  let ideal := u32 (Z.shiftr (num_items tbl) (log2_num_buckets tbl + 1) + (if Z.land (num_items tbl) (u32 (num2 - 1)) =? 0 then 0 else 1)) in
  '(h, nb, nonideal) ← foldM (fun st bkt => expand_chain (S (size h)) num2 ideal (hh_head bkt) st)
    (h, replicate (Z.to_nat (num_buckets tbl * 2)) zero_bucket, 0) (buckets tbl);
  let ineff := if Z.shiftr (num_items tbl) 1 <? nonideal then u32 (ineff_expands tbl + 1) else 0 in
  Some (Goes ({| buckets := nb; num_buckets := num2; log2_num_buckets := log2_num_buckets tbl + 1; num_items := num_items tbl;
                 tail := tail tbl; ideal_chain_maxlen := ideal; nonideal_items := nonideal; ineff_expands := ineff;
                 noexpand := (1 <? ineff) || noexpand tbl |}, h)).

Definition HASH_ADD_TO_BKT (i : nat) (p : positive) (tbl : UT_hash_table) (h : heap) : option (or_exit (UT_hash_table * heap)) :=
  bkt ← buckets tbl !! i;
  let count := u32 (bkt_count bkt + 1) in
  h ← store (put_hh_next (hh_head bkt)) p h;
  h ← store (put_hh_prev None) p h;
  h ← store_if (put_hh_prev (Some p)) (hh_head bkt) h;
  let tbl := put_bkts (<[i := {| hh_head := Some p; bkt_count := count; expand_mult := expand_mult bkt |}]> (buckets tbl)) tbl in
  if (u32 (u32 (expand_mult bkt + 1) * HASH_BKT_CAPACITY_THRESH) <=? count) && negb (noexpand tbl)
  then HASH_EXPAND_BUCKETS tbl h
  else Some (Goes (tbl, h)).

Definition HASH_ADD_TO_TABLE (hashval : Z) (p : positive) (tbl : UT_hash_table) (h : heap) : option (or_exit (UT_hash_table * heap)) :=
  let tbl := put_items (u32 (num_items tbl + 1)) tbl in
  HASH_ADD_TO_BKT (HASH_TO_BKT hashval (num_buckets tbl)) p tbl h.

(** [p->next = NULL; p->prev = tail; tail->next = p; tail = p] *)
Definition HASH_APPEND_LIST (p : positive) (tbl : UT_hash_table) (h : heap) : option (UT_hash_table * heap) :=
  h ← store (put_next None) p h;
  h ← store (put_prev (Some (tail tbl))) p h;
  h ← store (put_next (Some p)) (tail tbl) h;
  Some (put_tail p tbl, h).

(** The handle the caller's element [p] brings; what its links hold is
    overwritten before it is read. *)
Definition HASH_ADD (key : list Z) (p : positive) (u : uthash) : option (or_exit uthash) :=
  hashval ← HASH_JEN key;
  let h := <[p := {| prev := None; next := None; hh_prev := None; hh_next := None; hh_key := key; hashv := hashval |}]> (ut_heap u) in
  match ut_head u with
  | None =>
      match HASH_MAKE_TABLE p with
      | Exits => Some Exits
      | Goes tbl =>
          r ← HASH_ADD_TO_TABLE hashval p tbl h;
          Some (match r with Exits => Exits | Goes (tbl, h) => Goes {| ut_head := Some (p, tbl); ut_heap := h |} end)
      end
  | Some (hd, tbl) =>
      '(tbl, h) ← HASH_APPEND_LIST p tbl h;
      r ← HASH_ADD_TO_TABLE hashval p tbl h;
      Some (match r with Exits => Exits | Goes (tbl, h) => Goes {| ut_head := Some (hd, tbl); ut_heap := h |} end)
  end.

Definition HASH_DEL_IN_BKT (i : nat) (p : positive) (tbl : UT_hash_table) (h : heap) : option (UT_hash_table * heap) :=
  bkt ← buckets tbl !! i;
  x ← h !! p;
  let head := if bool_decide (hh_head bkt = Some p) then hh_next x else hh_head bkt in
  h ← store_if (put_hh_next (hh_next x)) (hh_prev x) h;
  h ← store_if (put_hh_prev (hh_prev x)) (hh_next x) h;
  Some (put_bkts (<[i := {| hh_head := head; bkt_count := u32 (bkt_count bkt - 1); expand_mult := expand_mult bkt |}]> (buckets tbl)) tbl, h).

(** On an element with no neighbours the table goes. *)
Definition HASH_DELETE (p : positive) (u : uthash) : option uthash :=
  x ← ut_heap u !! p;
  match prev x, next x with
  | None, None => _ ← ut_head u; Some {| ut_head := None; ut_heap := ut_heap u |}
  | _, _ =>
      '(hd, tbl) ← ut_head u;
      tbl ← (if bool_decide (p = tail tbl) then q ← prev x; Some (put_tail q tbl) else Some tbl);
      '(hd, h) ← (match prev x with
                  | Some q => h ← store (put_next (next x)) q (ut_heap u); Some (hd, h)
                  | None => n ← next x; Some (n, ut_heap u)
                  end);
      h ← store_if (put_prev (prev x)) (next x) h;
      '(tbl, h) ← HASH_DEL_IN_BKT (HASH_TO_BKT (hashv x) (num_buckets tbl)) p tbl h;
      Some {| ut_head := Some (hd, put_items (u32 (num_items tbl - 1)) tbl); ut_heap := h |}
  end.

(** [for (el = head, tmp = head ? head->next : NULL; el; el = tmp, tmp = tmp ?
    tmp->next : NULL) body]: the body may delete and free [el]. *)
Definition next_of (el : option positive) (u : uthash) : option (option positive) :=
  match el with Some p => x ← ut_heap u !! p; Some (next x) | None => Some None end.
Fixpoint iter_loop {A} (body : positive -> uthash * A -> option (uthash * A)) (fuel : nat) (el tmp : option positive) (s : uthash * A)
    : option (uthash * A) :=
  match el with
  | None => Some s
  | Some p =>
      match fuel with
      | O => None
      | S fuel => s ← body p s; tmp' ← next_of tmp s.1; iter_loop body fuel tmp tmp' s
      end
  end.
Definition HASH_ITER {A} (body : positive -> uthash * A -> option (uthash * A)) (s : uthash * A) : option (uthash * A) :=
  let head := fst <$> ut_head s.1 in
  tmp ← next_of head s.1;
  iter_loop body (S (size (ut_heap s.1))) head tmp s.

Definition HASH_CNT (u : uthash) : Z := match ut_head u with Some (_, tbl) => num_items tbl | None => 0 end.
End uthash.

(** * Views of the store: the two lists' links, and what does not change *)

Definition app_links (h : heap) : gmap positive (option positive * option positive) := (fun x => (prev x, next x)) <$> h.
Definition bkt_links (h : heap) : gmap positive (option positive * option positive) := (fun x => (hh_prev x, hh_next x)) <$> h.
Definition entries (h : heap) : gmap positive (list Z * Z) := (fun x => (hh_key x, hashv x)) <$> h.

Lemma entries_some h p : is_Some (entries h !! p) <-> is_Some (h !! p).
Proof. unfold entries. rewrite lookup_fmap. apply fmap_is_Some. Qed.

(** A guarded store, and what it does to a view. *)
Definition stored (f : UT_hash_handle -> UT_hash_handle) (p : option positive) (h : heap) : heap :=
  match p with Some p => alter f p h | None => h end.

Lemma store_if_stored f p h : (forall q, p = Some q -> is_Some (entries h !! q)) -> store_if f p h = Some (stored f p h).
Proof.
  intros Hp. destruct p as [p|]; [|done]. destruct (proj1 (entries_some h p) (Hp p eq_refl)) as [x Hx]. unfold store_if, store, stored.
  rewrite Hx. cbn [mbind option_bind]. f_equal. apply map_eq. intros q. destruct (decide (p = q)) as [<-|Hne].
  - by rewrite lookup_insert_eq, lookup_alter_eq, Hx.
  - by rewrite lookup_insert_ne, lookup_alter_ne.
Qed.

Lemma store_stored f p h : is_Some (entries h !! p) -> store f p h = Some (stored f (Some p) h).
Proof. intros Hp. apply (store_if_stored f (Some p)). by intros q [= <-]. Qed.

Lemma view_stored {B} (g : UT_hash_handle -> B) (f' : B -> B) f p h :
  (forall x, g (f x) = f' (g x)) -> g <$> stored f p h = match p with Some p => alter f' p (g <$> h) | None => g <$> h end.
Proof.
  intros Hg. destruct p as [p|]; [|done]. apply map_eq. intros q. cbn [stored]. rewrite lookup_fmap. destruct (decide (p = q)) as [<-|Hne].
  - rewrite !lookup_alter_eq, lookup_fmap. destruct (h !! p); cbn; by rewrite ?Hg.
  - by rewrite !lookup_alter_ne, lookup_fmap.
Qed.
Lemma view_same {B} (g : UT_hash_handle -> B) f p h : (forall x, g (f x) = g x) -> g <$> stored f p h = g <$> h.
Proof.
  intros Hg. rewrite (view_stored g id) by done. destruct p as [p|]; [|done]. apply map_eq. intros q. destruct (decide (p = q)) as [<-|Hne].
  - rewrite lookup_alter_eq. by destruct (_ !! _).
  - by rewrite lookup_alter_ne.
Qed.

Section views.
Variables (v p : option positive) (h : heap).

Lemma app_next : app_links (stored (put_next v) p h) = set_next p v (app_links h).
Proof. by apply view_stored. Qed.
Lemma app_prev : app_links (stored (put_prev v) p h) = set_prev p v (app_links h).
Proof. by apply view_stored. Qed.
Lemma app_hh_next : app_links (stored (put_hh_next v) p h) = app_links h.
Proof. by apply view_same. Qed.
Lemma app_hh_prev : app_links (stored (put_hh_prev v) p h) = app_links h.
Proof. by apply view_same. Qed.
Lemma bkt_next : bkt_links (stored (put_next v) p h) = bkt_links h.
Proof. by apply view_same. Qed.
Lemma bkt_prev : bkt_links (stored (put_prev v) p h) = bkt_links h.
Proof. by apply view_same. Qed.
Lemma bkt_hh_next : bkt_links (stored (put_hh_next v) p h) = set_next p v (bkt_links h).
Proof. by apply view_stored. Qed.
Lemma bkt_hh_prev : bkt_links (stored (put_hh_prev v) p h) = set_prev p v (bkt_links h).
Proof. by apply view_stored. Qed.
Lemma entries_next : entries (stored (put_next v) p h) = entries h.
Proof. by apply view_same. Qed.
Lemma entries_prev : entries (stored (put_prev v) p h) = entries h.
Proof. by apply view_same. Qed.
Lemma entries_hh_next : entries (stored (put_hh_next v) p h) = entries h.
Proof. by apply view_same. Qed.
Lemma entries_hh_prev : entries (stored (put_hh_prev v) p h) = entries h.
Proof. by apply view_same. Qed.
End views.

Create Rewrite HintDb views.
#[export] Hint Rewrite app_next app_prev app_hh_next app_hh_prev bkt_next bkt_prev bkt_hh_next bkt_hh_prev
  entries_next entries_prev entries_hh_next entries_hh_prev : views.
Ltac views := autorewrite with views.

Lemma heap_size h : size (entries h) = size h.
Proof. apply map_size_fmap. Qed.

(** A list of different elements is no longer than the store. *)
Lemma fuel_enough h (l : list positive) : NoDup l -> (forall p, p ∈ l -> is_Some (entries h !! p)) -> (length l <= size h)%nat.
Proof.
  intros Hnd Hl. rewrite <- heap_size, <- size_dom, <- (size_list_to_set (C := gset positive) l) by done. apply subseteq_size.
  intros p Hp%elem_of_list_to_set. apply elem_of_dom. by apply Hl.
Qed.

(** * Buckets *)

Definition bucket_ok (b : UT_hash_bucket) (c : list positive) : Prop :=
  hh_head b = first_of c None /\ bkt_count b = Z.of_nat (length c).

(** The [n] buckets [bs] hold the elements [l], each in the bucket of its hash,
    as the chains [cs]. *)
Record bkts_ok (h : heap) (bs : list UT_hash_bucket) (n : Z) (cs : list (list positive)) (l : list positive) : Prop := {
  bo_n : exists k, 0 <= k < 32 /\ n = 2 ^ k;
  bo_len : length cs = Z.to_nat n;
  bo_bkts : Forall2 bucket_ok bs cs;
  bo_chains : Forall (dll (bkt_links h)) cs;
  bo_perm : concat cs ≡ₚ l;
  bo_nodup : NoDup l;
  bo_hash : forall i c p, cs !! i = Some c -> p ∈ c -> exists k hv, entries h !! p = Some (k, hv) /\ i = HASH_TO_BKT hv n
}.

Lemma to_bkt_range hv n : (exists k, 0 <= k < 32 /\ n = 2 ^ k) -> (HASH_TO_BKT hv n < Z.to_nat n)%nat.
Proof.
  intros (k & Hk & ->). unfold HASH_TO_BKT, wrap. pose proof (Z.pow_pos_nonneg 2 k).
  assert (2 ^ k < 2 ^ 32) by (apply Z.pow_lt_mono_r; lia). rewrite Z.mod_small by lia.
  replace (2 ^ k - 1) with (Z.ones k) by (rewrite Z.ones_equiv; lia). rewrite Z.land_ones by lia. pose proof (Z.mod_pos_bound hv (2 ^ k)). lia.
Qed.

Lemma bo_index h bs n cs l hv : bkts_ok h bs n cs l -> exists b c, bs !! HASH_TO_BKT hv n = Some b /\ cs !! HASH_TO_BKT hv n = Some c /\ bucket_ok b c.
Proof.
  intros Hb. pose proof (to_bkt_range hv n (bo_n _ _ _ _ _ Hb)) as Hi. rewrite <- (bo_len _ _ _ _ _ Hb) in Hi.
  apply lookup_lt_is_Some in Hi as [c Hc]. destruct (Forall2_lookup_r _ _ _ _ _ (bo_bkts _ _ _ _ _ Hb) Hc) as (b & Hb' & Ho). by exists b, c.
Qed.

Lemma concat_at (cs : list (list positive)) i c c' :
  cs !! i = Some c -> exists a b, concat cs = a ++ c ++ b /\ concat (<[i := c']> cs) = a ++ c' ++ b.
Proof.
  intros Hc. exists (concat (take i cs)), (concat (drop (S i) cs)). pose proof (lookup_lt_Some _ _ _ Hc) as Hi.
  rewrite <- (take_drop_middle cs i c Hc) at 1. rewrite insert_take_drop by done. by rewrite !concat_app.
Qed.

(** Chains that share no element. *)
Lemma chains_disjoint cs i j (c d : list positive) p :
  NoDup (concat cs) -> cs !! i = Some c -> cs !! j = Some d -> p ∈ c -> p ∈ d -> i = j.
Proof.
  revert i j. induction cs as [|e cs IH]; [done|]. cbn [concat]. intros i j (_ & Hdis & Hnd)%list.NoDup_app Hc Hd Hpc Hpd.
  assert (forall k f, cs !! k = Some f -> p ∈ f -> p ∈ concat cs) as Hin.
  { intros k f Hf Hp. destruct (concat_at cs k f f Hf) as (a & b & -> & _). apply elem_of_app. right. apply elem_of_app. by left. }
  destruct i as [|i], j as [|j]; cbn in Hc, Hd; [done| | |f_equal; by eapply IH].
  - injection Hc as ->. destruct (Hdis p Hpc). by eapply Hin.
  - injection Hd as ->. destruct (Hdis p Hpd). by eapply Hin.
Qed.

Lemma bo_nodup_concat h bs n cs l : bkts_ok h bs n cs l -> NoDup (concat cs).
Proof. intros Hb. rewrite (bo_perm _ _ _ _ _ Hb). apply Hb. Qed.

Lemma bo_in_chain h bs n cs l i c p : bkts_ok h bs n cs l -> cs !! i = Some c -> p ∈ c -> p ∈ l.
Proof.
  intros Hb Hc Hp. rewrite <- (bo_perm _ _ _ _ _ Hb). destruct (concat_at cs i c c Hc) as (a & b & -> & _). apply elem_of_app. right. apply elem_of_app. by left.
Qed.

(** The stores that put [p] in front of a bucket. *)
Definition pushed (h : heap) (p : positive) (head : option positive) (h' : heap) : Prop :=
  bkt_links h' = set_prev head (Some p) (<[p := (None, head)]> (bkt_links h)) /\ app_links h' = app_links h /\ entries h' = entries h.

Lemma bkt_links_some h p : is_Some (entries h !! p) -> is_Some (bkt_links h !! p).
Proof. rewrite entries_some. unfold bkt_links. rewrite lookup_fmap. apply fmap_is_Some. Qed.
Lemma app_links_some h p : is_Some (entries h !! p) -> is_Some (app_links h !! p).
Proof. rewrite entries_some. unfold app_links. rewrite lookup_fmap. apply fmap_is_Some. Qed.

Lemma set_both (L : gmap positive (option positive * option positive)) p a b :
  is_Some (L !! p) -> set_next (Some p) b (set_prev (Some p) a L) = <[p := (a, b)]> L /\ set_prev (Some p) a (set_next (Some p) b L) = <[p := (a, b)]> L.
Proof.
  intros [x Hx]. cbn [set_next set_prev]. split; apply map_eq; intros q; (destruct (decide (p = q)) as [<-|Hne];
    [by rewrite !lookup_alter_eq, lookup_insert_eq, Hx|by rewrite !lookup_alter_ne, lookup_insert_ne]).
Qed.

Lemma push_stores h p head :
  is_Some (entries h !! p) -> (forall q, head = Some q -> is_Some (entries h !! q)) ->
  pushed h p head (stored (put_hh_prev (Some p)) head (stored (put_hh_prev None) (Some p) (stored (put_hh_next head) (Some p) h))) /\
  pushed h p head (stored (put_hh_prev (Some p)) head (stored (put_hh_next head) (Some p) (stored (put_hh_prev None) (Some p) h))).
Proof.
  intros Hp Hh. destruct (set_both (bkt_links h) p None head (bkt_links_some _ _ Hp)) as [E1 E2].
  split; (split; [|split]); views; by rewrite ?E1, ?E2.
Qed.

Lemma push_ok h bs n cs l p k hv b c h' mult :
  bkts_ok h bs n cs l -> p ∉ l -> entries h !! p = Some (k, hv) -> Z.of_nat (length l) + 1 < 2 ^ 32 ->
  bs !! HASH_TO_BKT hv n = Some b -> cs !! HASH_TO_BKT hv n = Some c -> bucket_ok b c -> pushed h p (hh_head b) h' ->
  bkts_ok h' (<[HASH_TO_BKT hv n := {| hh_head := Some p; bkt_count := u32 (bkt_count b + 1); expand_mult := mult |}]> bs) n
    (<[HASH_TO_BKT hv n := p :: c]> cs) (p :: l).
Proof.
  intros Hb Hp Hk Hlen Eb Ec [Hhead Hcount] (El & _ & Ee). set (i := HASH_TO_BKT hv n) in *.
  assert (p ∉ c) as Hpc by (intros Hin; apply Hp; by eapply bo_in_chain).
  assert (length c <= length l)%nat as Hcl.
  { rewrite <- (bo_perm _ _ _ _ _ Hb). destruct (concat_at cs i c c Ec) as (a & b' & -> & _). rewrite !length_app. lia. }
  split.
  - apply Hb.
  - rewrite length_insert. apply Hb.
  - apply Forall2_insert; [apply Hb|]. split; [done|]. cbn [bkt_count length]. rewrite Hcount. unfold wrap. rewrite Z.mod_small; lia.
  - apply list.Forall_lookup. intros j d Hd. rewrite El, Hhead. apply list_lookup_insert_Some in Hd as [(<- & <- & _)|[Hne Hd]].
    + apply dll_push; [|done]. eapply (list.Forall_lookup_1 _ _ _ _ (bo_chains _ _ _ _ _ Hb) Ec).
    + pose proof (list.Forall_lookup_1 _ _ _ _ (bo_chains _ _ _ _ _ Hb) Hd) as Hdll. eapply dll_frame; [|exact Hdll]. intros q Hq.
      rewrite set_prev_lookup, lookup_insert_ne; [done| |].
      * intros ->. apply Hp. by eapply bo_in_chain.
      * intros E. apply first_of_in in E. apply Hne. eapply (chains_disjoint cs i j c d q); [by eapply bo_nodup_concat|done..].
  - destruct (concat_at cs i c (p :: c) Ec) as (a & b' & E1 & ->). rewrite <- (bo_perm _ _ _ _ _ Hb), E1. cbn [app]. symmetry. apply Permutation_middle.
  - apply list.NoDup_cons. split; [done|apply Hb].
  - intros j d q Hd Hq. rewrite Ee. apply list_lookup_insert_Some in Hd as [(<- & <- & _)|[Hne Hd]].
    + apply elem_of_cons in Hq as [->|Hq]; [by exists k, hv|]. by eapply (bo_hash _ _ _ _ _ Hb).
    + by eapply (bo_hash _ _ _ _ _ Hb).
Qed.

Lemma bo_same h bs n cs l l' : bkts_ok h bs n cs l -> l ≡ₚ l' -> bkts_ok h bs n cs l'.
Proof.
  intros Hb Hp. split; try apply Hb.
  - transitivity l; [apply Hb|done].
  - rewrite <- Hp. apply Hb.
Qed.

Lemma pushed_other h p head h' q : pushed h p head h' -> q <> p -> head <> Some q -> bkt_links h' !! q = bkt_links h !! q.
Proof. intros (E & _) Hp Hh. rewrite E, set_prev_lookup, lookup_insert_ne by done. done. Qed.

(** What follows a push, in the two orders the macros write it. *)
Lemma push_run h p head :
  is_Some (entries h !! p) -> (forall q, head = Some q -> is_Some (entries h !! q)) ->
  exists h1 h2, pushed h p head h1 /\ pushed h p head h2 /\
    (forall B (k : heap -> option B),
      (h ← store (put_hh_next head) p h; h ← store (put_hh_prev None) p h; h ← store_if (put_hh_prev (Some p)) head h; k h) = k h1) /\
    (forall B (k : heap -> option B),
      (h ← store (put_hh_prev None) p h; h ← store (put_hh_next head) p h; h ← store_if (put_hh_prev (Some p)) head h; k h) = k h2).
Proof.
  intros Hp Hh. destruct (push_stores h p head Hp Hh) as [P1 P2]. do 2 eexists. split; [exact P1|]. split; [exact P2|].
  split; intros B k; rewrite store_stored by done; cbn [mbind option_bind]; rewrite store_stored by (by views);
    cbn [mbind option_bind]; (rewrite store_if_stored; [done|views; done]).
Qed.

Lemma bo_head h bs n cs l i b c q : bkts_ok h bs n cs l -> cs !! i = Some c -> bucket_ok b c -> hh_head b = Some q -> q ∈ l.
Proof. intros Hb Hc [Hh _] E. rewrite Hh in E. eapply bo_in_chain; [done|done|]. by apply first_of_in. Qed.

Lemma bo_entry h bs n cs l q : bkts_ok h bs n cs l -> q ∈ l -> is_Some (entries h !! q).
Proof.
  intros Hb Hq. rewrite <- (bo_perm _ _ _ _ _ Hb) in Hq. apply list_elem_of_In, in_concat in Hq as (c & Hc%list_elem_of_In & Hq%list_elem_of_In).
  apply list_elem_of_lookup in Hc as [i Hc]. destruct (bo_hash _ _ _ _ _ Hb i c q Hc Hq) as (k & hv & -> & _). by eexists.
Qed.

(** * Expansion *)

(** The rest [c] of an old chain goes to the new buckets. *)
Lemma expand_chain_ok fuel n2 ideal c : forall h pv nb cs l ni,
  (length c <= fuel)%nat -> seg (bkt_links h) pv c None -> NoDup c -> (forall p, p ∈ c -> p ∉ l) -> (forall p, p ∈ c -> is_Some (entries h !! p)) ->
  bkts_ok h nb n2 cs l -> Z.of_nat (length c + length l) < 2 ^ 32 ->
  exists h' nb' cs' ni', expand_chain fuel n2 ideal (first_of c None) (h, nb, ni) = Some (h', nb', ni') /\
    bkts_ok h' nb' n2 cs' (c ++ l) /\ app_links h' = app_links h /\ entries h' = entries h /\
    (forall q, q ∉ c -> q ∉ l -> bkt_links h' !! q = bkt_links h !! q).
Proof.
  revert fuel. induction c as [|p c IH]; intros fuel h pv nb cs l ni Hf Hs Hnd Hdis He Hb Hlen.
  { exists h, nb, cs, ni. by destruct fuel. }
  destruct fuel as [|fuel]; cbn [length] in Hf, Hlen; [lia|]. apply list.NoDup_cons in Hnd as [Hpc Hnd]. cbn [seg] in Hs. destruct Hs as [Hx Hs].
  assert (p ∉ l) as Hpl by (apply Hdis; left). assert (is_Some (entries h !! p)) as Hep by (apply He; left).
  pose proof Hep as [x Ex]%entries_some. cbn [expand_chain first_of]. rewrite Ex. cbn [mbind option_bind].
  pose proof (lookup_fmap (fun x => (hh_prev x, hh_next x)) h p) as Hl. fold (bkt_links h) in Hl. rewrite Hx, Ex in Hl. injection Hl as _ Hnx.
  rewrite <- Hnx. pose proof (lookup_fmap (fun x => (hh_key x, hashv x)) h p) as Hl. fold (entries h) in Hl. rewrite Ex in Hl. cbn in Hl.
  destruct (bo_index _ _ _ _ _ (hashv x) Hb) as (b & d & Eb & Ed & Hbd). rewrite Eb. cbn [mbind option_bind].
  destruct (push_run h p (hh_head b) Hep) as (_ & h1 & _ & Hpush & _ & ->).
  { intros q Hq. eapply bo_entry; [done|]. by eapply bo_head. }
  pose proof Hpush as (_ & Eapp & Eent). match goal with |- context [{| hh_head := _; bkt_count := _; expand_mult := ?m |}] => set (mult := m) end.
  match goal with |- context [(h1, _, ?m)] => set (ni1 := m) end. pose proof (push_ok _ _ _ _ _ _ _ _ _ _ _ mult Hb Hpl Hl ltac:(lia) Eb Ed Hbd Hpush) as Hb1.
  assert (forall q, q ∈ c -> bkt_links h1 !! q = bkt_links h !! q) as Hfr.
  { intros q Hq. apply (pushed_other _ _ _ _ _ Hpush); [by intros ->|]. intros E. apply (Hdis q); [by right|]. by eapply bo_head. }
  assert (forall q, q ∈ c -> q ∉ p :: l) as Hdis1.
  { intros q Hq [->|Hql]%elem_of_cons; [done|]. apply (Hdis q); [by right|done]. }
  assert (forall q, q ∈ c -> is_Some (entries h1 !! q)) as He1 by (intros q Hq; rewrite Eent; apply He; by right).
  destruct (IH fuel h1 (Some p) _ _ _ ni1 ltac:(lia) (seg_frame _ _ _ _ _ Hfr Hs) Hnd Hdis1 He1 Hb1) as (h' & nb' & cs' & ni' & E & Hb' & Ea & Ee & Hfr').
  { cbn [length]. lia. }
  exists h', nb', cs', ni'. split; [exact E|]. split; [|split; [|split]].
  - eapply bo_same; [exact Hb'|]. cbn [app]. symmetry. apply Permutation_middle.
  - by rewrite Ea.
  - by rewrite Ee.
  - intros q [Hqp Hqc]%not_elem_of_cons Hql. rewrite Hfr' by (rewrite ?not_elem_of_cons; done). apply (pushed_other _ _ _ _ _ Hpush); [done|].
    intros E'. apply Hql. by eapply bo_head.
Qed.

Lemma bo_seg h bs n cs l i c : bkts_ok h bs n cs l -> cs !! i = Some c -> seg (bkt_links h) None c None /\ NoDup c.
Proof. intros Hb Hc. destruct (list.Forall_lookup_1 _ _ _ _ (bo_chains _ _ _ _ _ Hb) Hc) as [Hnd Hs]. done. Qed.

Lemma expand_all fuel n2 ideal bs old : Forall2 bucket_ok bs old -> forall h nb cs l ni,
  Forall (dll (bkt_links h)) old -> Forall (fun c => length c <= fuel)%nat old -> NoDup (concat old ++ l) ->
  (forall p, p ∈ concat old -> is_Some (entries h !! p)) -> bkts_ok h nb n2 cs l -> Z.of_nat (length (concat old ++ l)) < 2 ^ 32 ->
  exists h' nb' cs' ni', foldM (fun st bkt => expand_chain fuel n2 ideal (hh_head bkt) st) (h, nb, ni) bs = Some (h', nb', ni') /\
    bkts_ok h' nb' n2 cs' (concat old ++ l) /\ app_links h' = app_links h /\ entries h' = entries h.
Proof.
  induction 1 as [|b c bs old [Hb _] Hbs IH]; intros h nb cs l ni Hd Hf Hnd He Ho Hlen; [by exists h, nb, cs, ni|].
  apply list.Forall_cons in Hd as [[Hc Hs] Hd], Hf as [Hfc Hf]. cbn [concat] in *. rewrite <- app_assoc, length_app in *.
  pose proof Hnd as (_ & Hdis & Hnd')%list.NoDup_app. cbn [foldM]. rewrite Hb.
  destruct (expand_chain_ok fuel n2 ideal c h None nb cs l ni Hfc Hs Hc) as (h1 & nb1 & cs1 & ni1 & E1 & Hb1 & Ea1 & Ee1 & Hfr); [..|rewrite E1].
  { intros p Hp Hl. apply (Hdis p Hp). apply elem_of_app. by right. }
  { intros p Hp. apply He, elem_of_app. by left. }
  { done. }
  { rewrite length_app in Hlen. lia. }
  cbn [mbind option_bind]. assert (c ++ concat old ++ l ≡ₚ concat old ++ c ++ l) as Hp by (rewrite !app_assoc; f_equiv; apply Permutation_app_comm).
  destruct (IH h1 nb1 cs1 (c ++ l) ni1) as (h' & nb' & cs' & ni' & E & Hb' & Ea & Ee).
  - apply list.Forall_lookup. intros j d Hj. eapply dll_frame; [|by eapply (list.Forall_lookup_1 _ _ _ _ Hd)]. intros q Hq.
    assert (q ∈ concat old) as Hqo by (destruct (concat_at old j d d Hj) as (a & b' & -> & _); rewrite !elem_of_app; tauto).
    apply Hfr; intros Hin.
    + apply (Hdis q Hin), elem_of_app. by left.
    + apply list.NoDup_app in Hnd' as (_ & Hdis' & _). by apply (Hdis' q).
  - done.
  - by rewrite <- Hp.
  - intros p Hin. rewrite Ee1. apply He, elem_of_app. by right.
  - done.
  - rewrite <- Hp, length_app. done.
  - exists h', nb', cs', ni'. split; [exact E|]. split; [|by rewrite Ea, Ee]. eapply bo_same; [exact Hb'|]. by symmetry.
Qed.

Lemma bkts_ok_zero h n : (exists k, 0 <= k < 32 /\ n = 2 ^ k) -> bkts_ok h (replicate (Z.to_nat n) zero_bucket) n (replicate (Z.to_nat n) []) [].
Proof.
  intros Hn. split; [done|by rewrite length_replicate| | | |constructor|].
  - induction (Z.to_nat n); cbn; [done|]. by constructor.
  - apply list.Forall_replicate. split; [constructor|done].
  - induction (Z.to_nat n); [done|]. done.
  - intros i c p [-> _]%lookup_replicate Hp%not_elem_of_nil. done.
Qed.

(** What an operation on a table leaves alone. *)
Definition expanded (tbl tbl' : UT_hash_table) : Prop :=
  tail tbl' = tail tbl /\ num_items tbl' = num_items tbl /\ log2_num_buckets tbl <= log2_num_buckets tbl' <= log2_num_buckets tbl + 1.
Definition log_ok (tbl : UT_hash_table) : Prop := 0 <= log2_num_buckets tbl < 32 /\ num_buckets tbl = 2 ^ log2_num_buckets tbl.

Lemma bo_fuel h bs n cs l : bkts_ok h bs n cs l -> Forall (fun c => length c <= S (size h))%nat cs.
Proof.
  intros Hb. apply list.Forall_lookup. intros i c Hc. transitivity (size h); [|lia]. apply fuel_enough; [by eapply bo_seg|].
  intros p Hp. eapply bo_entry; [done|]. by eapply bo_in_chain.
Qed.

Lemma expand_ok mem tbl h cs l :
  (forall n, mem n = true -> n < 2 ^ 36) -> bkts_ok h (buckets tbl) (num_buckets tbl) cs l -> log_ok tbl -> Z.of_nat (length l) < 2 ^ 32 ->
  exists r, HASH_EXPAND_BUCKETS mem tbl h = Some r /\
    match r with
    | Exits => mem (2 ^ (log2_num_buckets tbl + 5)) = false
    | Goes (tbl', h') => (exists cs', bkts_ok h' (buckets tbl') (num_buckets tbl') cs' l) /\ log_ok tbl' /\ expanded tbl tbl' /\
        app_links h' = app_links h /\ entries h' = entries h
    end.
Proof.
  intros Hmem Hb [Hlog Hn] Hlen. unfold HASH_EXPAND_BUCKETS. assert (SIZEOF_BUCKET * num_buckets tbl * 2 = 2 ^ (log2_num_buckets tbl + 5)) as ->.
  { rewrite Hn, Z.pow_add_r by lia. change SIZEOF_BUCKET with 16. lia. }
  destruct (mem _) eqn:Em; cbn [negb]; [|by eexists]. apply Hmem in Em.
  assert (0 <= log2_num_buckets tbl + 1 < 32) as Hlog1.
  { split; [lia|]. apply Z.pow_lt_mono_r_iff in Em; lia. }
  assert (num_buckets tbl * 2 = 2 ^ (log2_num_buckets tbl + 1)) as En2 by (rewrite Hn, Z.pow_add_r; lia).
  assert (u32 (num_buckets tbl * 2) = 2 ^ (log2_num_buckets tbl + 1)) as En.
  { rewrite En2. apply Z.mod_small. split; [lia|apply Z.pow_lt_mono_r; lia]. }
  destruct (32 <=? log2_num_buckets tbl + 1) eqn:E32; [lia|].
  rewrite En, En2. match goal with |- context [expand_chain _ _ ?i] => set (ideal := i) end.
  pose proof (bkts_ok_zero h (2 ^ (log2_num_buckets tbl + 1)) ltac:(eauto)) as Hz. pose proof (bo_perm _ _ _ _ _ Hb) as Hp.
  assert (NoDup (concat cs ++ [])) as Hnd by (rewrite app_nil_r; by eapply bo_nodup_concat).
  assert (forall p, p ∈ concat cs -> is_Some (entries h !! p)) as He by (intros p; rewrite Hp; by apply (bo_entry _ _ _ _ _ _ Hb)).
  destruct (expand_all (S (size h)) (2 ^ (log2_num_buckets tbl + 1)) ideal _ _ (bo_bkts _ _ _ _ _ Hb) h _ _ _ 0 (bo_chains _ _ _ _ _ Hb)
    (bo_fuel _ _ _ _ _ Hb) Hnd He Hz) as (h' & nb' & cs' & ni' & -> & Hb' & Ea & Ee); [by rewrite app_nil_r, Hp|].
  cbn [mbind option_bind]. eexists. split; [done|]. split; [exists cs'; eapply bo_same; [exact Hb'|by rewrite app_nil_r]|].
  split; [split; [exact Hlog1|done]|]. split; [|done]. split; [done|]. split; [done|]. cbn. lia.
Qed.

(** * The bucket of one element *)

Lemma add_to_table_ok mem tbl h cs l p k hv :
  (forall n, mem n = true -> n < 2 ^ 36) -> bkts_ok h (buckets tbl) (num_buckets tbl) cs l -> log_ok tbl ->
  p ∉ l -> entries h !! p = Some (k, hv) -> Z.of_nat (length l) + 1 < 2 ^ 32 ->
  exists r, HASH_ADD_TO_TABLE mem hv p tbl h = Some r /\
    match r with
    | Exits => mem (2 ^ (log2_num_buckets tbl + 5)) = false
    | Goes (tbl', h') => (exists cs', bkts_ok h' (buckets tbl') (num_buckets tbl') cs' (p :: l)) /\ log_ok tbl' /\
        expanded (put_items (u32 (num_items tbl + 1)) tbl) tbl' /\ app_links h' = app_links h /\ entries h' = entries h
    end.
Proof.
  intros Hmem Hb Hlog Hp Ek Hlen. unfold HASH_ADD_TO_TABLE, HASH_ADD_TO_BKT. cbn [num_buckets buckets put_items].
  destruct (bo_index _ _ _ _ _ hv Hb) as (b & c & Eb & Ec & Hbc). rewrite Eb. cbn [mbind option_bind].
  destruct (push_run h p (hh_head b)) as (h1 & _ & Hpush & _ & -> & _); [by rewrite Ek|intros q Hq; eapply bo_entry; [done|by eapply bo_head]|].
  pose proof (push_ok _ _ _ _ _ _ _ _ _ _ _ (expand_mult b) Hb Hp Ek Hlen Eb Ec Hbc Hpush) as Hb1. destruct Hpush as (_ & Ea & Ee).
  destruct (_ && _).
  - match goal with |- context [HASH_EXPAND_BUCKETS mem ?t h1] => destruct (expand_ok mem t h1 _ (p :: l) Hmem Hb1 Hlog) as (r & -> & Hr) end; [cbn [length]; lia|].
    exists r. split; [done|]. destruct r as [|[tbl' h']]; [done|]. by rewrite Ea, Ee in Hr.
  - eexists. split; [done|]. split; [by eexists|]. split; [done|]. split; [|done]. split; [done|]. split; [done|]. cbn. lia.
Qed.

Lemma concat_remove (cs : list (list positive)) i c1 p c2 :
  cs !! i = Some (c1 ++ p :: c2) -> concat cs ≡ₚ p :: concat (<[i := c1 ++ c2]> cs).
Proof.
  intros Hc. destruct (concat_at cs i _ (c1 ++ c2) Hc) as (a & b & -> & ->). rewrite <- !app_assoc. cbn [app]. symmetry.
  rewrite !(app_assoc a c1). apply Permutation_middle.
Qed.

Lemma remove_ok h bs n cs l l' p k hv b c1 c2 h' :
  bkts_ok h bs n cs l -> l ≡ₚ p :: l' -> entries h' = entries h -> Z.of_nat (length l) < 2 ^ 32 ->
  bs !! HASH_TO_BKT hv n = Some b -> cs !! HASH_TO_BKT hv n = Some (c1 ++ p :: c2) -> bucket_ok b (c1 ++ p :: c2) -> entries h !! p = Some (k, hv) ->
  bkt_links h' = set_prev (first_of c2 None) (last_of None c1) (set_next (last_of None c1) (first_of c2 None) (bkt_links h)) ->
  bkts_ok h' (<[HASH_TO_BKT hv n := {| hh_head := first_of (c1 ++ c2) None; bkt_count := u32 (bkt_count b - 1); expand_mult := expand_mult b |}]> bs) n
    (<[HASH_TO_BKT hv n := c1 ++ c2]> cs) l'.
Proof.
  intros Hb Hl Ee Hlen Eb Ec [_ Hcount] Ek El. set (i := HASH_TO_BKT hv n) in *. set (c := c1 ++ p :: c2) in *.
  assert (concat (<[i := c1 ++ c2]> cs) ≡ₚ l') as Hp'.
  { apply (Permutation_cons_inv (a := p)). rewrite <- Hl, <- (bo_perm _ _ _ _ _ Hb). symmetry. by apply concat_remove. }
  assert (length c <= length l)%nat as Hcl.
  { rewrite <- (bo_perm _ _ _ _ _ Hb). destruct (concat_at cs i c c Ec) as (a & b' & -> & _). rewrite !length_app. lia. }
  pose proof (list.Forall_lookup_1 _ _ _ _ (bo_chains _ _ _ _ _ Hb) Ec) as Hdc. split.
  - apply Hb.
  - rewrite length_insert. apply Hb.
  - apply Forall2_insert; [apply Hb|]. split; [done|]. cbn [bkt_count]. rewrite Hcount. unfold c in *. rewrite !length_app in *. cbn [length] in *.
    unfold wrap. rewrite Z.mod_small; lia.
  - apply list.Forall_lookup. intros j d Hd. rewrite El. apply list_lookup_insert_Some in Hd as [(<- & <- & _)|[Hne Hd]].
    + by apply (dll_remove (bkt_links h) c1 p c2).
    + pose proof (list.Forall_lookup_1 _ _ _ _ (bo_chains _ _ _ _ _ Hb) Hd) as Hdll. eapply dll_frame; [|exact Hdll]. intros q Hq.
      assert (q ∉ c) as Hqc by (intros Hin; apply Hne; eapply (chains_disjoint cs i j c d q); [by eapply bo_nodup_concat|done..]).
      unfold c in Hqc. rewrite elem_of_app, elem_of_cons in Hqc. rewrite set_prev_lookup, set_next_lookup; [done|..].
      * intros E%last_of_in. tauto.
      * intros E%first_of_in. tauto.
  - done.
  - rewrite <- Hp'. assert (NoDup (p :: concat (<[i:=c1 ++ c2]> cs))) as [_ Hn]%list.NoDup_cons; [|done].
    rewrite <- (concat_remove cs i c1 p c2 Ec). by eapply bo_nodup_concat.
  - intros j d q Hd Hq. rewrite Ee. apply list_lookup_insert_Some in Hd as [(<- & <- & _)|[Hne Hd]]; [|by eapply (bo_hash _ _ _ _ _ Hb)].
    apply (bo_hash _ _ _ _ _ Hb i c q Ec). unfold c. rewrite elem_of_app, elem_of_cons. apply elem_of_app in Hq. tauto.
Qed.

Lemma bkt_link_of h p x l : h !! p = Some x -> bkt_links h !! p = Some l -> l = (hh_prev x, hh_next x).
Proof. intros Ex. unfold bkt_links. rewrite lookup_fmap, Ex. by intros [= <-]. Qed.
Lemma app_link_of h p x l : h !! p = Some x -> app_links h !! p = Some l -> l = (prev x, next x).
Proof. intros Ex. unfold app_links. rewrite lookup_fmap, Ex. by intros [= <-]. Qed.
Lemma entry_of h p x e : h !! p = Some x -> entries h !! p = Some e -> e = (hh_key x, hashv x).
Proof. intros Ex. unfold entries. rewrite lookup_fmap, Ex. by intros [= <-]. Qed.

Lemma bo_chain_of h bs n cs l p k hv :
  bkts_ok h bs n cs l -> p ∈ l -> entries h !! p = Some (k, hv) -> exists c1 c2, cs !! HASH_TO_BKT hv n = Some (c1 ++ p :: c2).
Proof.
  intros Hb Hp Ek. rewrite <- (bo_perm _ _ _ _ _ Hb) in Hp. apply list_elem_of_In, in_concat in Hp as (c & Hc%list_elem_of_In & Hp%list_elem_of_In).
  apply list_elem_of_lookup in Hc as [i Hc]. destruct (bo_hash _ _ _ _ _ Hb i c p Hc Hp) as (k' & hv' & E & ->). rewrite Ek in E. injection E as <- <-.
  apply list_elem_of_split in Hp as (c1 & c2 & ->). eauto.
Qed.

Lemma del_in_bkt_ok tbl h cs l l' p k hv :
  bkts_ok h (buckets tbl) (num_buckets tbl) cs l -> l ≡ₚ p :: l' -> Z.of_nat (length l) < 2 ^ 32 -> entries h !! p = Some (k, hv) ->
  exists tbl' h', HASH_DEL_IN_BKT (HASH_TO_BKT hv (num_buckets tbl)) p tbl h = Some (tbl', h') /\
    (exists cs', bkts_ok h' (buckets tbl') (num_buckets tbl') cs' l') /\ (log_ok tbl -> log_ok tbl') /\
    (tail tbl' = tail tbl /\ num_items tbl' = num_items tbl /\ log2_num_buckets tbl' = log2_num_buckets tbl) /\
    app_links h' = app_links h /\ entries h' = entries h.
Proof.
  intros Hb Hl Hlen Ek. assert (p ∈ l) as Hp by (rewrite Hl; left). destruct (bo_chain_of _ _ _ _ _ _ _ _ Hb Hp Ek) as (c1 & c2 & Ec).
  destruct (bo_index _ _ _ _ _ hv Hb) as (b & c & Eb & Ec' & Hbc). rewrite Ec in Ec'. injection Ec' as <-.
  pose proof (list.Forall_lookup_1 _ _ _ _ (bo_chains _ _ _ _ _ Hb) Ec) as Hd. destruct (dll_remove _ _ _ _ Hd) as [Hlk _].
  destruct (proj1 (entries_some h p) (bo_entry _ _ _ _ _ _ Hb Hp)) as [x Ex]. pose proof (bkt_link_of _ _ _ _ Ex Hlk) as E. injection E as E1 E2.
  unfold HASH_DEL_IN_BKT. rewrite Eb, Ex. cbn [mbind option_bind]. rewrite <- E1, <- E2.
  assert (forall q, q ∈ c1 ++ p :: c2 -> is_Some (entries h !! q)) as Hin.
  { intros q Hq. eapply bo_entry; [done|]. by eapply bo_in_chain. }
  rewrite store_if_stored; [|intros q Hq%last_of_in; apply Hin; rewrite elem_of_app; tauto]. cbn [mbind option_bind].
  rewrite store_if_stored; [|views; intros q Hq%first_of_in; apply Hin; rewrite elem_of_app, elem_of_cons; tauto]. cbn [mbind option_bind].
  match goal with |- context [Some (put_bkts _ _, ?m)] => set (h' := m) end.
  assert (bkt_links h' = set_prev (first_of c2 None) (last_of None c1) (set_next (last_of None c1) (first_of c2 None) (bkt_links h))) as El by (unfold h'; by views).
  assert (entries h' = entries h) as Ee by (unfold h'; by views).
  pose proof (remove_ok _ _ _ _ _ _ _ _ _ _ _ _ _ Hb Hl Ee Hlen Eb Ec Hbc Ek El) as Hb'.
  assert ((if bool_decide (hh_head b = Some p) then first_of c2 None else hh_head b) = first_of (c1 ++ c2) None) as ->.
  { destruct Hbc as [-> _], Hd as [Hnd _]. destruct c1 as [|q c1]; cbn [first_of app]; [by rewrite bool_decide_eq_true_2|].
    rewrite bool_decide_eq_false_2; [done|]. intros [= ->]. apply list.NoDup_cons in Hnd as [Hn _]. apply Hn. rewrite elem_of_app, elem_of_cons. tauto. }
  do 2 eexists. split; [done|]. split; [eexists; exact Hb'|]. split; [done|]. split; [split; [done|]; split; [done|cbn; lia]|]. split; [unfold h'; by views|done].
Qed.
