(* ===== verification/UthashTable.v ===== *)
(** A table of src/src/uthash.h as a whole: what it holds, what each macro does
    to that, and that it implements the table [HashTable.list_hash_table]
    that the clients' interface describes. *)
From S2P Require Import Prelude HashTable Dlist Uthash.

#[local] Abbreviation heap := (gmap positive UT_hash_handle).

(** * The hash *)

Lemma jen_word_total key k : (k + 3 < length key)%nat -> exists w, jen_word key k = Some w.
Proof.
  intros Hk. unfold jen_word, jen_byte.
  destruct (lookup_lt_is_Some_2 key k ltac:(lia)) as [a ->], (lookup_lt_is_Some_2 key (k + 1) ltac:(lia)) as [b ->],
    (lookup_lt_is_Some_2 key (k + 2) ltac:(lia)) as [c ->], (lookup_lt_is_Some_2 key (k + 3) ltac:(lia)) as [d ->].
  by eexists.
Qed.

Lemma jen_loop_total fuel : forall key i j hv, (length key <= fuel)%nat -> exists r, jen_loop fuel key i j hv = Some r.
Proof.
  induction fuel as [|fuel IH]; intros key i j hv Hl; cbn [jen_loop].
  - destruct (Nat.ltb_spec (length key) 12); [by eexists|lia].
  - destruct (Nat.ltb_spec (length key) 12); [by eexists|].
    destruct (jen_word_total key 0 ltac:(lia)) as [a ->], (jen_word_total key 4 ltac:(lia)) as [b ->], (jen_word_total key 8 ltac:(lia)) as [c ->].
    cbn [mbind option_bind]. destruct (HASH_JEN_MIX _ _ _) as [[i' j'] hv']. apply IH. rewrite length_drop. lia.
Qed.

Lemma jen_total key : exists hv, HASH_JEN key = Some hv.
Proof.
  unfold HASH_JEN. destruct (jen_loop_total (length key) key 0x9e3779b9 0x9e3779b9 0xfeedbeef ltac:(lia)) as [[[[rest i] j] hv] ->].
  cbn [mbind option_bind]. destruct (HASH_JEN_MIX _ _ _) as [[i' j'] hv']. by eexists.
Qed.

(** * The representation *)

(** The elements' handles hold their keys and their keys' hashes. *)
Definition entry_ok (h : heap) (e : list Z * positive) : Prop := exists hv, HASH_JEN e.1 = Some hv /\ entries h !! e.2 = Some (e.1, hv).

Record tbl_ok (h : heap) (tbl : UT_hash_table) (hd : positive) (l : list positive) : Prop := {
  tb_app : dll (app_links h) l;
  tb_head : first_of l None = Some hd;
  tb_tail : last_of None l = Some (tail tbl);
  tb_log : log_ok tbl;
  tb_items : num_items tbl = Z.of_nat (length l);
  tb_bkts : exists cs, bkts_ok h (buckets tbl) (num_buckets tbl) cs l
}.

(** The table holds the entries [es], in the order of their addition. *)
Record ut_ok (u : uthash) (es : list (list Z * positive)) : Prop := {
  uk_entries : Forall (entry_ok (ut_heap u)) es;
  uk_count : Z.of_nat (length es) < 2 ^ 32;
  uk_table : match ut_head u with None => es = [] | Some (hd, tbl) => tbl_ok (ut_heap u) tbl hd es.*2 end
}.

Lemma ut_ok_empty : ut_ok ut_empty [].
Proof. split; [constructor|done|done]. Qed.

Lemma entry_keep h h' e : entries h' = entries h -> entry_ok h e -> entry_ok h' e.
Proof. intros E (hv & Hj & He). exists hv. by rewrite E. Qed.
Lemma entries_keep h h' es : entries h' = entries h -> Forall (entry_ok h) es -> Forall (entry_ok h') es.
Proof. intros E He. eapply list.Forall_impl; [exact He|]. intros e. by apply entry_keep. Qed.

Lemma uk_heap u es p : ut_ok u es -> p ∈ es.*2 -> is_Some (entries (ut_heap u) !! p).
Proof.
  intros Hu (e & -> & He)%list_elem_of_fmap. destruct (proj1 (list.Forall_forall _ _) (uk_entries _ _ Hu) e He) as (hv & _ & E). eauto.
Qed.

Lemma uk_nodup u es : ut_ok u es -> NoDup es.*2.
Proof.
  intros Hu. pose proof (uk_table _ _ Hu) as Ht. destruct (ut_head u) as [[hd tbl]|]; [apply Ht|]. rewrite Ht. constructor.
Qed.

(** * Looking up *)

Lemma find_in_bkt_ok h key hv c : forall fuel pv,
  (length c <= fuel)%nat -> seg (bkt_links h) pv c None -> HASH_JEN key = Some hv ->
  (forall p, p ∈ c -> exists k hv', HASH_JEN k = Some hv' /\ entries h !! p = Some (k, hv')) ->
  exists r, find_in_bkt fuel h key hv (first_of c None) = Some r /\
    match r with Some p => p ∈ c /\ entries h !! p = Some (key, hv) | None => forall p, p ∈ c -> entries h !! p <> Some (key, hv) end.
Proof.
  induction c as [|p c IH]; intros fuel pv Hf Hs Hj Hc.
  { exists None. split; [by destruct fuel|]. by intros p ?%not_elem_of_nil. }
  destruct fuel as [|fuel]; cbn [length] in Hf; [lia|]. destruct Hs as [Hx Hs]. destruct (Hc p ltac:(left)) as (k & hv' & Hj' & Ee).
  destruct (proj1 (entries_some h p) ltac:(by rewrite Ee)) as [x Ex]. pose proof (bkt_link_of _ _ _ _ Ex Hx) as [= -> En].
  pose proof (entry_of _ _ _ _ Ex Ee) as [= E1 E2]. cbn [find_in_bkt first_of]. rewrite Ex. cbn [mbind option_bind]. rewrite <- E1, <- E2.
  destruct ((hv' =? hv) && _ && _) eqn:Eq.
  - exists (Some p). split; [done|]. split; [left|]. apply andb_true_iff in Eq as [[Eh _]%andb_true_iff ->%bool_decide_eq_true].
    by rewrite Ee, (proj1 (Z.eqb_eq _ _) Eh).
  - rewrite <- En. destruct (IH fuel (Some p) ltac:(lia) Hs Hj) as (r & -> & Hr); [intros q Hq; apply Hc; by right|].
    exists r. split; [done|]. destruct r as [q|]; [destruct Hr; split; [by right|done]|]. intros q [->|Hq]%elem_of_cons; [|by apply Hr].
    rewrite Ee. intros [= -> ->]. by rewrite Z.eqb_refl, Nat.eqb_refl, bool_decide_eq_true_2 in Eq.
Qed.

Lemma find_ok u es key : ut_ok u es ->
  exists r, HASH_FIND key u = Some r /\ match r with Some p => (key, p) ∈ es | None => forall p, (key, p) ∉ es end.
Proof.
  intros Hu. pose proof (uk_table _ _ Hu) as Ht. unfold HASH_FIND. destruct (ut_head u) as [[hd tbl]|].
  2: { exists None. rewrite Ht. split; [done|]. intros p. apply not_elem_of_nil. }
  destruct (tb_bkts _ _ _ _ Ht) as [cs Hb]. destruct (jen_total key) as [hv Hj]. rewrite Hj. cbn [mbind option_bind].
  destruct (bo_index _ _ _ _ _ hv Hb) as (b & c & -> & Ec & [Hhd _]). cbn [mbind option_bind]. rewrite Hhd.
  assert (forall p, p ∈ c -> p ∈ es.*2) as Hin by (intros p; by apply (bo_in_chain _ _ _ _ _ _ _ _ Hb Ec)).
  assert (forall p, p ∈ es.*2 -> exists k hv', (k, p) ∈ es /\ HASH_JEN k = Some hv' /\ entries (ut_heap u) !! p = Some (k, hv')) as Hes.
  { intros p ([k p'] & -> & He)%list_elem_of_fmap. destruct (proj1 (list.Forall_forall _ _) (uk_entries _ _ Hu) _ He) as (hv' & Hj' & E). by exists k, hv'. }
  destruct (find_in_bkt_ok (ut_heap u) key hv c (S (size (ut_heap u))) None) as (r & -> & Hr).
  - eapply (list.Forall_lookup_1 _ _ _ _ (bo_fuel _ _ _ _ _ Hb) Ec).
  - by eapply bo_seg.
  - done.
  - intros p Hp. destruct (Hes p (Hin p Hp)) as (k & hv' & _ & H). eauto.
  - exists r. split; [done|]. destruct r as [p|].
    + destruct Hr as [Hp E]. destruct (Hes p (Hin p Hp)) as (k & hv' & He & _ & E'). rewrite E in E'. by injection E' as <- <-.
    + intros p He. destruct (proj1 (list.Forall_forall _ _) (uk_entries _ _ Hu) _ He) as (hv' & Hj' & E). cbn [fst snd] in Hj', E. rewrite Hj in Hj'. injection Hj' as <-.
      apply (Hr p); [|done]. assert (p ∈ es.*2) as Hp by (by apply (list_elem_of_fmap_2' snd _ (key, p))).
      destruct (bo_chain_of _ _ _ _ _ _ _ _ Hb Hp E) as (c1 & c2 & Ec'). rewrite Ec in Ec'. injection Ec' as ->. rewrite elem_of_app, elem_of_cons. tauto.
Qed.

Lemma cnt_ok u es : ut_ok u es -> HASH_CNT u = Z.of_nat (length es).
Proof.
  intros Hu. pose proof (uk_table _ _ Hu) as Ht. unfold HASH_CNT. destruct (ut_head u) as [[hd tbl]|]; [|by rewrite Ht].
  by rewrite (tb_items _ _ _ _ Ht), length_fmap.
Qed.

(** * Adding *)

Lemma bo_frame h h' bs n cs l :
  bkts_ok h bs n cs l -> (forall q, q ∈ l -> bkt_links h' !! q = bkt_links h !! q /\ entries h' !! q = entries h !! q) -> bkts_ok h' bs n cs l.
Proof.
  intros Hb Hf. split; try apply Hb.
  - apply list.Forall_lookup. intros j d Hd. eapply dll_frame; [|by eapply (list.Forall_lookup_1 _ _ _ _ (bo_chains _ _ _ _ _ Hb))].
    intros q Hq. apply Hf. by eapply bo_in_chain.
  - intros i c p Hc Hp. destruct (Hf p) as [_ ->]; [by eapply bo_in_chain|]. by eapply (bo_hash _ _ _ _ _ Hb).
Qed.

(** The store with the handle of a new element. *)
Definition fresh_handle (key : list Z) (hv : Z) : UT_hash_handle :=
  {| prev := None; next := None; hh_prev := None; hh_next := None; hh_key := key; hashv := hv |}.

Lemma views_insert h p x :
  app_links (<[p := x]> h) = <[p := (prev x, next x)]> (app_links h) /\ bkt_links (<[p := x]> h) = <[p := (hh_prev x, hh_next x)]> (bkt_links h) /\
  entries (<[p := x]> h) = <[p := (hh_key x, hashv x)]> (entries h).
Proof. unfold app_links, bkt_links, entries. by rewrite !fmap_insert. Qed.

Lemma entries_new h p hv key es :
  HASH_JEN key = Some hv -> p ∉ es.*2 -> Forall (entry_ok h) es -> Forall (entry_ok (<[p := fresh_handle key hv]> h)) (es ++ [(key, p)]).
Proof.
  intros Hj Hp He. destruct (views_insert h p (fresh_handle key hv)) as (_ & _ & E). apply list.Forall_app. split.
  - apply list.Forall_forall. intros [k q] Hin. destruct (proj1 (list.Forall_forall _ _) He _ Hin) as (hv' & Hj' & Eq). exists hv'. split; [done|].
    rewrite E. cbn [snd] in *. rewrite lookup_insert_ne; [done|]. intros ->. apply Hp. by apply (list_elem_of_fmap_2' snd _ (k, q)).
  - apply list.Forall_singleton. exists hv. split; [done|]. rewrite E. cbn [snd]. by rewrite lookup_insert_eq.
Qed.

(** Linking behind the tail. *)
Lemma append_list_ok h tbl l p :
  dll (app_links h) l -> p ∉ l -> last_of None l = Some (tail tbl) -> is_Some (entries h !! p) -> is_Some (entries h !! tail tbl) ->
  exists h', HASH_APPEND_LIST p tbl h = Some (put_tail p tbl, h') /\ dll (app_links h') (l ++ [p]) /\ bkt_links h' = bkt_links h /\ entries h' = entries h.
Proof.
  intros Hd Hp Ht Ep Et. unfold HASH_APPEND_LIST. rewrite store_stored by done. cbn [mbind option_bind].
  rewrite store_stored by (by views). cbn [mbind option_bind]. rewrite store_stored by (by views). cbn [mbind option_bind].
  eexists. split; [done|]. views. split; [|done]. destruct (set_both (app_links h) p (Some (tail tbl)) None (app_links_some _ _ Ep)) as [_ ->].
  rewrite <- Ht. by apply dll_append.
Qed.

Lemma to_log_exists tbl : log_ok tbl -> exists k, 0 <= k < 32 /\ num_buckets tbl = 2 ^ k.
Proof. intros [Hl Hn]. eauto. Qed.

Definition ut_log (u : uthash) : Z := match ut_head u with Some (_, tbl) => log2_num_buckets tbl | None => HASH_INITIAL_NUM_BUCKETS_LOG2 end.

Section memory.
Context (mem : Z -> bool) (Hmem : forall n, mem n = true -> n < 2 ^ 36).

(** The last step of an addition. *)
Lemma add_finish h tbl hd l p key hv es :
  dll (app_links h) (l ++ [p]) -> first_of (l ++ [p]) None = Some hd -> tail tbl = p -> log_ok tbl -> num_items tbl = Z.of_nat (length l) ->
  (exists cs, bkts_ok h (buckets tbl) (num_buckets tbl) cs l) -> entries h !! p = Some (key, hv) -> Z.of_nat (length l) + 1 < 2 ^ 32 ->
  Forall (entry_ok h) es -> es.*2 = l ++ [p] ->
  exists r, HASH_ADD_TO_TABLE mem hv p tbl h = Some r /\
    match r with
    | Exits => mem (2 ^ (log2_num_buckets tbl + 5)) = false
    | Goes (tbl', h') => ut_ok {| ut_head := Some (hd, tbl'); ut_heap := h' |} es /\ log2_num_buckets tbl <= log2_num_buckets tbl' <= log2_num_buckets tbl + 1
    end.
Proof.
  intros Hd Hhd Ht Hlog Hit [cs Hb] Ep Hlen He Hes.
  assert (p ∉ l) as Hpl by (destruct Hd as [(_ & Hn & _)%list.NoDup_app _]; intros Hin; apply (Hn p Hin); left).
  destruct (add_to_table_ok mem tbl h cs l p key hv Hmem Hb Hlog Hpl Ep Hlen) as (r & -> & Hr). exists r. split; [done|].
  destruct r as [|[tbl' h']]; [done|]. destruct Hr as ([cs' Hb'] & Hlog' & (Ht' & Hi' & Hg) & Ea & Ee). split; [|done].
  assert (p :: l ≡ₚ l ++ [p]) as Hp by (by rewrite Permutation_app_comm).
  assert (length es = S (length l)) as Hle by (rewrite <- (length_fmap snd es), Hes, length_app; cbn; lia).
  split; cbn [ut_head ut_heap]; [by eapply entries_keep|lia|]. rewrite Hes. split; [by rewrite Ea|done| |done| |].
  - rewrite last_of_app, Ht'. cbn. by rewrite Ht.
  - rewrite Hi'. cbn [num_items put_items]. rewrite Hit, length_app. cbn [length]. unfold wrap. rewrite Z.mod_small; lia.
  - exists cs'. by eapply bo_same.
Qed.

Lemma add_ok u es key p :
  ut_ok u es -> p ∉ es.*2 -> Z.of_nat (length es) + 1 < 2 ^ 32 -> 5 <= ut_log u ->
  exists r, HASH_ADD mem key p u = Some r /\
    match r with
    | Exits => exists n, mem n = false /\ n <= 2 ^ (ut_log u + 5)
    | Goes u' => ut_ok u' (es ++ [(key, p)]) /\ ut_log u <= ut_log u' <= ut_log u + 1
    end.
Proof.
  intros Hu Hp Hlen Hlog. destruct (jen_total key) as [hv Hj]. unfold HASH_ADD. rewrite Hj. cbn [mbind option_bind].
  fold (fresh_handle key hv). destruct (views_insert (ut_heap u) p (fresh_handle key hv)) as (Ea & Eb & Ee).
  pose proof (entries_new _ _ _ _ _ Hj Hp (uk_entries _ _ Hu)) as He. set (h := <[p := fresh_handle key hv]> (ut_heap u)) in *.
  assert (entries h !! p = Some (key, hv)) as Ep by (rewrite Ee; apply lookup_insert_eq).
  pose proof (uk_table _ _ Hu) as Ht. unfold ut_log in *. destruct (ut_head u) as [[hd tbl]|].
  - destruct (append_list_ok h tbl es.*2 p) as (h1 & -> & Hd1 & Eb1 & Ee1).
    { eapply dll_frame; [|apply Ht]. intros q Hq. rewrite Ea. apply lookup_insert_ne. by intros ->. }
    { done. }
    { apply Ht. }
    { by rewrite Ep. }
    { rewrite Ee. destruct (decide (p = tail tbl)) as [<-|Hne]; [by rewrite lookup_insert_eq|]. rewrite lookup_insert_ne by done.
      eapply uk_heap; [done|]. apply last_of_in, Ht. }
    cbn [mbind option_bind]. destruct (add_finish h1 (put_tail p tbl) hd es.*2 p key hv (es ++ [(key, p)])) as (r & -> & Hr); try done.
    + rewrite first_of_app. destruct es as [|e es]; [by pose proof (tb_head _ _ _ _ Ht)|]. apply Ht.
    + apply Ht.
    + apply Ht.
    + destruct (tb_bkts _ _ _ _ Ht) as [cs Hb]. exists cs. eapply bo_frame; [exact Hb|]. intros q Hq. rewrite Eb1, Ee1, Eb, Ee.
      by rewrite !lookup_insert_ne by (intros ->; done).
    + by rewrite Ee1.
    + by rewrite length_fmap.
    + by eapply entries_keep.
    + by rewrite fmap_app.
    + cbn [mbind option_bind]. eexists. split; [done|]. destruct r as [|[tbl' h']]; [|done]. cbn in Hr. by eexists.
  - unfold HASH_MAKE_TABLE. destruct (mem SIZEOF_TABLE) eqn:E1; cbn [negb]; [|by eexists; split; [done|]; exists SIZEOF_TABLE].
    destruct (mem (_ * _)) eqn:E2; cbn [negb]; [|by eexists; split; [done|]; exists (HASH_INITIAL_NUM_BUCKETS * SIZEOF_BUCKET)].
    match goal with |- context [HASH_ADD_TO_TABLE mem hv p ?t h] => destruct (add_finish h t p [] p key hv (es ++ [(key, p)])) as (r & -> & Hr) end; try done; subst es.
    + rewrite Ea. split; [apply NoDup_singleton|]. cbn. by rewrite lookup_insert_eq.
    + exists (replicate (Z.to_nat HASH_INITIAL_NUM_BUCKETS) []). apply bkts_ok_zero. exists 5. done.
    + done.
    + cbn [mbind option_bind]. eexists. split; [done|]. destruct r as [|[tbl' h']]; [|done]. by eexists.
Qed.
End memory.

(** * Deleting *)

Lemma app_last_none l1 (p : positive) l2 : last_of None l1 = None -> first_of l2 None = None -> l1 ++ p :: l2 = [p].
Proof. intros ->%last_of_none H. by destruct l2. Qed.

(** The tail after the removal of [p]. *)
Lemma tail_after l1 p l2 q (r : positive) :
  NoDup (l1 ++ p :: l2) -> last_of None (l1 ++ p :: l2) = Some q -> (p = q -> last_of None l1 = Some r) -> (p <> q -> r = q) -> last_of None (l1 ++ l2) = Some r.
Proof.
  intros Hnd Hq He Hne. destruct l2 as [|x l2 _] using rev_ind.
  - rewrite last_of_app in Hq. injection Hq as ->. rewrite app_nil_r. by apply He.
  - rewrite app_assoc, last_of_app. rewrite app_comm_cons, app_assoc, last_of_app in Hq. cbn in *. injection Hq as ->. f_equal. symmetry. apply Hne. intros ->.
    apply list.NoDup_app in Hnd as (_ & _ & [Hn _]%list.NoDup_cons). apply Hn, elem_of_app. right. left.
Qed.

Lemma filter_away (es1 es2 : list (list Z * positive)) k p :
  NoDup (es1 ++ (k, p) :: es2).*2 -> filter (fun e => e.2 <> p) (es1 ++ (k, p) :: es2) = es1 ++ es2.
Proof.
  rewrite fmap_app. cbn [fmap list_fmap snd]. intros (_ & H1 & [H2 _]%list.NoDup_cons)%list.NoDup_app.
  assert (forall es : list (list Z * positive), p ∉ es.*2 -> filter (fun e => e.2 <> p) es = es) as Hall.
  { intros es Hn. induction es as [|e es IH]; [done|]. cbn in Hn. apply not_elem_of_cons in Hn as [Hne Hn]. rewrite filter_cons_True by done. by rewrite IH. }
  rewrite list.filter_app, filter_cons_False by (cbn; intros H; by apply H). f_equal; apply Hall; [|done]. intros Hin. apply (H1 p Hin). left.
Qed.

Lemma last_here l1 (p : positive) l2 : NoDup (l1 ++ p :: l2) -> last_of None (l1 ++ p :: l2) = Some p -> l2 = [].
Proof.
  destruct l2 as [|x l2 _] using rev_ind; [done|]. rewrite app_comm_cons, app_assoc, last_of_app. intros Hnd [= ->].
  apply list.NoDup_app in Hnd as (_ & Hn & _). destruct (Hn p); [|left]. apply elem_of_app. right. left.
Qed.

(** The stores of the application order's links. *)
Lemma unlink_ok h l1 p l2 hd x :
  dll (app_links h) (l1 ++ p :: l2) -> (forall q, q ∈ l1 ++ p :: l2 -> is_Some (entries h !! q)) -> h !! p = Some x -> first_of (l1 ++ p :: l2) None = Some hd ->
  l1 ++ p :: l2 <> [p] ->
  prev x = last_of None l1 /\ next x = first_of l2 None /\
  exists hd' h1 h', (match prev x with Some q => h ← store (put_next (next x)) q h; Some (hd, h) | None => n ← next x; Some (n, h) end) = Some (hd', h1) /\
    store_if (put_prev (prev x)) (next x) h1 = Some h' /\ dll (app_links h') (l1 ++ l2) /\ first_of (l1 ++ l2) None = Some hd' /\
    bkt_links h' = bkt_links h /\ entries h' = entries h.
Proof.
  intros Hd Hin Ex Hhd Hlone. destruct (dll_remove _ _ _ _ Hd) as [Hlk Hd']. pose proof (app_link_of _ _ _ _ Ex Hlk) as [= E1 E2].
  rewrite <- E1, <- E2. do 2 (split; [done|]).
  assert (exists hd', match last_of None l1 with Some q => h ← store (put_next (first_of l2 None)) q h; Some (hd, h) | None => n ← first_of l2 None; Some (n, h) end
    = Some (hd', stored (put_next (first_of l2 None)) (last_of None l1) h) /\ first_of (l1 ++ l2) None = Some hd') as (hd' & -> & Hhd').
  { destruct (last_of None l1) as [q|] eqn:El.
    - exists hd. rewrite store_stored by (apply Hin, elem_of_app; left; by apply last_of_in). split; [done|]. by destruct l1.
    - apply last_of_none in El as ->. destruct l2 as [|n l2]; [done|]. by exists n. }
  exists hd'. do 2 eexists. split; [done|]. split.
  - apply store_if_stored. views. intros q Hq%first_of_in. apply Hin. rewrite elem_of_app, elem_of_cons. tauto.
  - by views.
Qed.

Lemma put_tail_ok (tbl : UT_hash_table) (p : positive) (q : option positive) :
  (p = tail tbl -> is_Some q) ->
  exists r, (if bool_decide (p = tail tbl) then q ← q; Some (put_tail q tbl) else Some tbl) = Some (put_tail r tbl) /\
    (p = tail tbl -> q = Some r) /\ (p <> tail tbl -> r = tail tbl).
Proof.
  intros Hq. case_bool_decide as E.
  - destruct (Hq E) as [r ->]. by exists r.
  - exists (tail tbl). split; [by destruct tbl|]. done.
Qed.

Lemma delete_ok u es p : ut_ok u es -> p ∈ es.*2 -> 5 <= ut_log u ->
  exists u', HASH_DELETE p u = Some u' /\ ut_ok u' (filter (fun e => e.2 <> p) es) /\ 5 <= ut_log u' <= ut_log u.
Proof.
  intros Hu Hp Hlog. pose proof (uk_nodup _ _ Hu) as Hnd. pose proof Hp as ([k p0] & E & (es1 & es2 & ->)%list_elem_of_split)%list_elem_of_fmap.
  cbn [snd] in E. subst p0. rewrite filter_away by done. rewrite fmap_app in *. cbn [fmap list_fmap snd] in *.
  pose proof (uk_entries _ _ Hu) as He. pose proof He as [_ [(hv & _ & Ee) _]%list.Forall_cons]%list.Forall_app. cbn [fst snd] in Ee.
  assert (Forall (entry_ok (ut_heap u)) (es1 ++ es2)) as He'.
  { apply list.Forall_app in He as [He1 [_ He2]%list.Forall_cons]. by apply list.Forall_app. }
  assert (Z.of_nat (length (es1 ++ es2)) < 2 ^ 32) as Hcnt.
  { pose proof (uk_count _ _ Hu) as Hc. rewrite length_app in *. cbn [length] in Hc. lia. }
  pose proof (uk_table _ _ Hu) as Ht. unfold ut_log in *. unfold HASH_DELETE. destruct (ut_head u) as [[hd tbl]|]; [|by destruct es1].
  rewrite fmap_app in Ht. cbn [fmap list_fmap snd] in Ht. change (snd <$> es2) with es2.*2 in *. set (l1 := es1.*2) in *. set (l2 := es2.*2) in *.
  destruct (proj1 (entries_some (ut_heap u) p) ltac:(by rewrite Ee)) as [x Ex]. rewrite Ex. cbn [mbind option_bind].
  assert (forall q, q ∈ l1 ++ p :: l2 -> is_Some (entries (ut_heap u) !! q)) as Hin.
  { intros q Hq. eapply uk_heap; [done|]. rewrite fmap_app. exact Hq. }
  destruct (decide (l1 ++ p :: l2 = [p])) as [Hlone|Hlone].
  - destruct es1 as [|? [|]], es2; try done. destruct (dll_remove _ [] p [] (tb_app _ _ _ _ Ht)) as [Hlk _].
    pose proof (app_link_of _ _ _ _ Ex Hlk) as [= <- <-]. eexists. split; [done|]. split; [split; done|]. cbn. change HASH_INITIAL_NUM_BUCKETS_LOG2 with 5. lia.
  - destruct (unlink_ok _ _ _ _ _ _ (tb_app _ _ _ _ Ht) Hin Ex (tb_head _ _ _ _ Ht) Hlone) as (Epv & Enx & hd' & h1 & h' & E1 & E2 & Hd' & Hhd' & Eb & Ee').
    assert (forall A (a b : A), match prev x, next x with None, None => a | _, _ => b end = b) as ->.
    { intros A a b. destruct (prev x) , (next x); done. }
    destruct (put_tail_ok tbl p (prev x)) as (r & -> & Hr1 & Hr2).
    { intros E. rewrite Epv. destruct (last_of None l1) as [q|] eqn:El; [by eexists|]. apply last_of_none in El. pose proof (tb_tail _ _ _ _ Ht) as Hlast.
      rewrite <- E in Hlast. apply last_here in Hlast; [|done]. by rewrite El, Hlast in Hlone. }
    cbn [mbind option_bind]. rewrite E1. cbn [mbind option_bind]. rewrite E2. cbn [mbind option_bind].
    pose proof (entry_of _ _ _ _ Ex Ee) as [= _ <-]. destruct (tb_bkts _ _ _ _ Ht) as [cs Hb].
    destruct (del_in_bkt_ok (put_tail r tbl) h' cs (l1 ++ p :: l2) (l1 ++ l2) p k hv) as (tbl' & h2 & -> & Hb' & Hlog' & (Ht' & Hi' & Hl') & Ea & Ee2).
    { eapply bo_frame; [exact Hb|]. intros q _. by rewrite Eb, Ee'. }
    { symmetry. apply Permutation_middle. }
    { pose proof (uk_count _ _ Hu) as Hc. rewrite <- (length_fmap snd), fmap_app in Hc. exact Hc. }
    { by rewrite Ee'. }
    cbn [mbind option_bind]. eexists. split; [done|]. split; [|cbn in Hl' |- *; lia]. split; cbn [ut_head ut_heap].
    + eapply entries_keep; [|exact He']. by rewrite Ee2.
    + done.
    + rewrite fmap_app. split; cbn [tail num_items put_items buckets num_buckets]; [by rewrite Ea|done| |by apply Hlog', Ht| |done].
      * rewrite Ht'. eapply tail_after; [done|apply Ht| |done]. intros E. change es1.*2 with l1. rewrite <- Epv. by apply Hr1.
      * rewrite Hi'. cbn [num_items put_tail]. rewrite (tb_items _ _ _ _ Ht). unfold l1, l2. rewrite !length_app. cbn [length]. rewrite !length_fmap in *.
        rewrite length_app in Hcnt. unfold wrap. rewrite Z.mod_small; lia.
Qed.

(** * Iterating *)

(** The program's loop bodies: the entry is looked at, and when it satisfies
    [P] deleted, and its memory given back. *)
Definition ut_free (p : positive) (u : uthash) : uthash := {| ut_head := ut_head u; ut_heap := delete p (ut_heap u) |}.
Definition visit (P : list Z -> positive -> bool) (p : positive) (s : uthash * list (list Z * positive)) : option (uthash * list (list Z * positive)) :=
  let '(u, seen) := s in
  x ← ut_heap u !! p;
  u ← (if P (hh_key x) p then u ← HASH_DELETE p u; Some (ut_free p u) else Some u);
  Some (u, seen ++ [(hh_key x, p)]).

Lemma free_ok u es p : ut_ok u es -> p ∉ es.*2 -> ut_ok (ut_free p u) es.
Proof.
  intros Hu Hp. assert (forall q, q ∈ es.*2 -> delete p (ut_heap u) !! q = ut_heap u !! q) as Hq.
  { intros q Hq. apply lookup_delete_ne. by intros ->. }
  assert (forall B (g : UT_hash_handle -> B) q, q ∈ es.*2 -> (g <$> delete p (ut_heap u)) !! q = (g <$> ut_heap u) !! q) as Hv.
  { intros B g q Hin. by rewrite !lookup_fmap, Hq. }
  split; [|apply Hu|].
  - apply list.Forall_forall. intros e He. destruct (proj1 (list.Forall_forall _ _) (uk_entries _ _ Hu) e He) as (hv & Hj & Ee). exists hv. split; [done|].
    rewrite <- Ee. apply Hv. by apply list_elem_of_fmap_2.
  - pose proof (uk_table _ _ Hu) as Ht. cbn [ut_head ut_heap ut_free]. destruct (ut_head u) as [[hd tbl]|]; [|done]. destruct Ht as [Ha ? ? ? ? [cs Hb]].
    split; [by eapply dll_frame; [intros q; apply Hv|]|done..|]. exists cs. eapply bo_frame; [exact Hb|]. intros q Hin. split; by apply Hv.
Qed.

(** The handle of an entry of the table. *)
Lemma next_ok u es1 k p es2 : ut_ok u (es1 ++ (k, p) :: es2) -> exists x, ut_heap u !! p = Some x /\ hh_key x = k /\ next x = first_of es2.*2 None.
Proof.
  intros Hu. pose proof (uk_entries _ _ Hu) as [_ [(hv & _ & Ee) _]%list.Forall_cons]%list.Forall_app. cbn [fst snd] in Ee.
  destruct (proj1 (entries_some (ut_heap u) p) ltac:(by rewrite Ee)) as [x Ex]. exists x. split; [done|].
  pose proof (entry_of _ _ _ _ Ex Ee) as [= <- _]. split; [done|]. pose proof (uk_table _ _ Hu) as Ht.
  destruct (ut_head u) as [[hd tbl]|]; [|by destruct es1]. pose proof (tb_app _ _ _ _ Ht) as Hd. rewrite fmap_app in Hd. cbn [fmap list_fmap snd] in Hd.
  destruct (dll_remove _ _ _ _ Hd) as [Hlk _]. by pose proof (app_link_of _ _ _ _ Ex Hlk) as [= _ <-].
Qed.

Lemma next_of_ok u es1 es2 : ut_ok u (es1 ++ es2) -> next_of (first_of es2.*2 None) u = Some (first_of (tl es2).*2 None).
Proof.
  destruct es2 as [|[k p] es2]; [done|]. intros Hu. destruct (next_ok u es1 k p es2 Hu) as (x & Ex & _ & En).
  cbn [fmap list_fmap snd first_of next_of tl]. rewrite Ex. cbn [mbind option_bind]. by rewrite En.
Qed.

Lemma filter_middle (es1 es2 : list (list Z * positive)) k p :
  NoDup (es1 ++ (k, p) :: es2).*2 -> filter (fun e => e.2 <> p) (es1 ++ (k, p) :: es2) = es1 ++ es2 /\ p ∉ (es1 ++ es2).*2.
Proof.
  intros Hnd. split; [by apply (filter_away _ _ k)|]. rewrite fmap_app in *. cbn [fmap list_fmap snd] in Hnd.
  apply list.NoDup_app in Hnd as (_ & H1 & [H2 _]%list.NoDup_cons). rewrite elem_of_app. intros [Hin|Hin]; [|done]. apply (H1 p Hin). left.
Qed.

(** One turn: the current entry, at the front of [es2], stays or goes. *)
Lemma visit_ok P u es1 k p es2 seen :
  ut_ok u (es1 ++ (k, p) :: es2) -> 5 <= ut_log u ->
  exists u', visit P p (u, seen) = Some (u', seen ++ [(k, p)]) /\ ut_ok u' ((es1 ++ if P k p then [] else [(k, p)]) ++ es2) /\ 5 <= ut_log u' <= ut_log u.
Proof.
  intros Hu Hlog. destruct (next_ok u es1 k p es2 Hu) as (x & Ex & <- & _). unfold visit. rewrite Ex. cbn [mbind option_bind]. destruct (P (hh_key x) p).
  - assert (p ∈ (es1 ++ (hh_key x, p) :: es2).*2) as Hp by (rewrite fmap_app; apply elem_of_app; right; left).
    destruct (delete_ok u _ p Hu Hp Hlog) as (u' & -> & Hu' & Hl). cbn [mbind option_bind].
    destruct (filter_middle es1 es2 (hh_key x) p (uk_nodup _ _ Hu)) as [E Hn]. rewrite E in Hu'. exists (ut_free p u'). split; [done|]. rewrite app_nil_r.
    split; [by apply free_ok|done].
  - exists u. split; [done|]. split; [|lia]. by rewrite <- app_assoc.
Qed.

Lemma iter_loop_ok P es2 : forall fuel u es1 seen,
  (length es2 <= fuel)%nat -> ut_ok u (es1 ++ es2) -> 5 <= ut_log u ->
  exists u', iter_loop (visit P) fuel (first_of es2.*2 None) (first_of (tl es2).*2 None) (u, seen) = Some (u', seen ++ es2) /\
    ut_ok u' (es1 ++ filter (fun e => P e.1 e.2 = false) es2) /\ 5 <= ut_log u' <= ut_log u.
Proof.
  induction es2 as [|[k p] es2 IH]; intros fuel u es1 seen Hf Hu Hlog.
  { exists u. rewrite app_nil_r in *. split; [by destruct fuel|]. rewrite app_nil_r. split; [done|lia]. }
  destruct fuel as [|fuel]; cbn [length] in Hf; [lia|]. destruct (visit_ok P u es1 k p es2 seen Hu Hlog) as (u1 & E1 & Hu1 & Hl1).
  cbn [fmap list_fmap snd first_of tl iter_loop]. rewrite E1. cbn [mbind option_bind fst]. change (snd <$> es2) with es2.*2.
  rewrite (next_of_ok _ _ _ Hu1). cbn [mbind option_bind]. destruct (IH fuel u1 _ (seen ++ [(k, p)]) ltac:(lia) Hu1 ltac:(lia)) as (u' & -> & Hu' & Hl').
  exists u'. rewrite <- app_assoc. split; [done|]. split; [|lia]. rewrite filter_cons. cbn [fst snd]. rewrite <- app_assoc in Hu'.
  destruct (P k p); [by rewrite decide_False|by rewrite decide_True].
Qed.

Lemma iter_ok P u es : ut_ok u es -> 5 <= ut_log u ->
  exists u', HASH_ITER (visit P) (u, []) = Some (u', es) /\ ut_ok u' (filter (fun e => P e.1 e.2 = false) es) /\ 5 <= ut_log u' <= ut_log u.
Proof.
  intros Hu Hlog. unfold HASH_ITER. cbn [fst]. assert (fst <$> ut_head u = first_of es.*2 None) as ->.
  { pose proof (uk_table _ _ Hu) as Ht. destruct (ut_head u) as [[hd tbl]|]; [by rewrite (tb_head _ _ _ _ Ht)|by rewrite Ht]. }
  rewrite (next_of_ok u [] es Hu). cbn [mbind option_bind]. apply (iter_loop_ok P es _ u [] []); [|done|done].
  rewrite <- (length_fmap snd es). transitivity (size (ut_heap u)); [|lia]. apply fuel_enough; [by eapply uk_nodup|].
  intros p. by apply uk_heap.
Qed.

(** * Sequences of operations *)

(** An addition, a deletion, a loop that deletes and frees what satisfies [P]. *)
Inductive ut_op := OpAdd (key : list Z) (p : positive) | OpDelete (p : positive) | OpSweep (P : list Z -> positive -> bool).

Definition ut_step (mem : Z -> bool) (o : ut_op) (u : uthash) : option (or_exit uthash) :=
  match o with
  | OpAdd key p => HASH_ADD mem key p u
  | OpDelete p => u' ← HASH_DELETE p u; Some (Goes u')
  | OpSweep P => s ← HASH_ITER (visit P) (u, []); Some (Goes s.1)
  end.
Fixpoint ut_run (mem : Z -> bool) (ops : list ut_op) (u : uthash) : option (or_exit uthash) :=
  match ops with
  | [] => Some (Goes u)
  | o :: ops => r ← ut_step mem o u; match r with Exits => Some Exits | Goes u => ut_run mem ops u end
  end.

(** The same on the interface's table, for a client that adds elements that
    are not in the table, fewer than 2^32, and deletes ones that are. *)
Definition ht_sweep (P : list Z -> positive -> bool) (t : list_table (list Z)) (e : list Z * positive) : option (list_table (list Z)) :=
  if P e.1 e.2 then ht_delete (K := list Z) e.2 t else Some t.
Definition ht_step (o : ut_op) (t : list_table (list Z)) : option (list_table (list Z)) :=
  match o with
  | OpAdd key p => if decide (p ∈ (ht_iter t).*2) then None else if Z.of_nat (ht_count t) + 1 <? 2 ^ 32 then Some (ht_add key p t) else None
  | OpDelete p => ht_delete p t
  | OpSweep P => foldM (ht_sweep P) t (ht_iter t)
  end.
Fixpoint ht_run (ops : list ut_op) (t : list_table (list Z)) : option (list_table (list Z)) :=
  match ops with [] => Some t | o :: ops => t' ← ht_step o t; ht_run ops t' end.

(** What a client can observe of a table. *)
Definition ut_shows (u : uthash) (t : list_table (list Z)) : Prop :=
  (snd <$> HASH_ITER (visit (fun _ _ => false)) (u, [])) = Some (ht_iter t) /\ HASH_CNT u = Z.of_nat (ht_count t) /\
  (forall key, exists r, HASH_FIND key u = Some r /\
    match r with Some p => (key, p) ∈ ht_iter t | None => forall p, (key, p) ∉ ht_iter t end) /\
  (forall key, (forall p p', (key, p) ∈ ht_iter t -> (key, p') ∈ ht_iter t -> p = p') -> HASH_FIND key u = Some (ht_find key t)).

Lemma ut_shows_ok u (es : list_table (list Z)) : ut_ok u es -> 5 <= ut_log u -> ut_shows u es.
Proof.
  intros Hu Hlog. split; [by destruct (iter_ok (fun _ _ => false) u es Hu Hlog) as (u' & -> & _)|]. split; [by apply cnt_ok|]. split; [intros key; by apply find_ok|].
  intros key Hk. destruct (find_ok u es key Hu) as (r & -> & Hr). f_equal. destruct (ht_find key es) as [q|] eqn:Eq, r as [p|]; [| | |done].
  - f_equal. apply Hk; [done|]. by apply ht_find_Some in Eq.
  - apply ht_find_Some in Eq. by destruct (Hr q).
  - by apply (ht_find_None _ p) in Eq.
Qed.

Lemma ht_sweep_step P (es1 es : list (list Z * positive)) k p : NoDup (es1 ++ (k, p) :: es).*2 ->
  ht_sweep P (es1 ++ (k, p) :: es) (k, p) = Some ((es1 ++ if P k p then [] else [(k, p)]) ++ es).
Proof.
  intros Hnd. unfold ht_sweep. cbn [fst snd]. destruct (P k p); [|by rewrite <- app_assoc]. unfold ht_delete, list_hash_table.
  rewrite decide_True by (rewrite fmap_app; apply elem_of_app; right; left). rewrite app_nil_r. f_equal. by apply (filter_middle _ _ k).
Qed.

Lemma ht_sweep_list P (es : list (list Z * positive)) : forall es1 : list (list Z * positive), NoDup (es1 ++ es).*2 ->
  foldM (ht_sweep P) (es1 ++ es) es = Some (es1 ++ filter (fun e => P e.1 e.2 = false) es).
Proof.
  induction es as [|[k p] es IH]; intros es1 Hnd; [done|]. cbn [foldM]. rewrite (ht_sweep_step P es1 es k p Hnd). cbn [mbind option_bind].
  rewrite IH, filter_cons; cbn [fst snd]; [rewrite <- app_assoc; by destruct (P k p); [rewrite decide_False|rewrite decide_True]|].
  destruct (P k p); [|by rewrite <- app_assoc]. rewrite app_nil_r. rewrite fmap_app in *. apply list.NoDup_app in Hnd as (H1 & H2 & [_ H3]%list.NoDup_cons).
  apply list.NoDup_app. split; [done|]. split; [|done]. intros q Hq Hq'. apply (H2 q Hq). by right.
Qed.

Lemma ut_step_ok mem o u (t t' : list_table (list Z)) :
  (forall n, mem n = true -> n < 2 ^ 36) -> ut_ok u t -> 5 <= ut_log u -> ht_step o t = Some t' ->
  exists r, ut_step mem o u = Some r /\
    match r with
    | Exits => exists n, mem n = false /\ n <= 2 ^ (ut_log u + 5)
    | Goes u' => ut_ok u' t' /\ 5 <= ut_log u' <= ut_log u + 1
    end.
Proof.
  intros Hmem Hu Hlog. destruct o as [key p|p|P]; cbn [ht_step ut_step].
  - case_decide as Hp; [done|]. destruct (Z.ltb_spec (Z.of_nat (ht_count t) + 1) (2 ^ 32)) as [Hlen|]; [|done]. intros [= <-].
    destruct (add_ok mem Hmem u t key p Hu Hp Hlen Hlog) as (r & -> & Hr). exists r. split; [done|].
    destruct r as [|u']; [done|]. destruct Hr as [Hu' Hl]. split; [exact Hu'|lia].
  - cbn [ht_delete list_hash_table]. case_decide as Hp; [|done]. intros [= <-].
    destruct (delete_ok u t p Hu Hp Hlog) as (u' & -> & Hu' & Hl). eexists. split; [done|]. split; [done|lia].
  - pose proof (ht_sweep_list P t [] (uk_nodup _ _ Hu)) as E. cbn [app] in E. change (ht_iter t) with t. rewrite E. intros [= <-].
    destruct (iter_ok P u t Hu Hlog) as (u' & -> & Hu' & Hl). eexists. split; [done|]. split; [exact Hu'|cbn; lia].
Qed.

Lemma ut_run_ok mem ops : (forall n, mem n = true -> n < 2 ^ 36) -> forall u t t',
  ut_ok u t -> 5 <= ut_log u -> ht_run ops t = Some t' ->
  exists r, ut_run mem ops u = Some r /\
    match r with
    | Exits => exists n, mem n = false /\ n <= 2 ^ (ut_log u + 4 + Z.of_nat (length ops))
    | Goes u' => ut_ok u' t' /\ 5 <= ut_log u'
    end.
Proof.
  intros Hmem. induction ops as [|o ops IH]; intros u t t' Hu Hlog; cbn [ht_run ut_run length].
  { intros [= <-]. by eexists. }
  destruct (ht_step o t) as [t1|] eqn:E1; [|done]. cbn [mbind option_bind]. intros E2.
  destruct (ut_step_ok mem o u t t1 Hmem Hu Hlog E1) as (r & -> & Hr). cbn [mbind option_bind]. destruct r as [|u1].
  - eexists. split; [done|]. destruct Hr as (n & Hn & Hle). exists n. split; [done|]. etransitivity; [exact Hle|]. apply Z.pow_le_mono_r; lia.
  - destruct Hr as [Hu1 Hl1]. destruct (IH u1 t1 t' Hu1 ltac:(lia) E2) as (r & -> & Hr). exists r. split; [done|]. destruct r as [|u']; [|done].
    destruct Hr as (n & Hn & Hle). exists n. split; [done|]. etransitivity; [exact Hle|]. apply Z.pow_le_mono_r; lia.
Qed.

(** C30 uthash implements the table its clients are verified against: after
    additions, deletions and loops that delete and free what they visit, in
    any order, [HASH_ITER] visits the interface's entries in the order of their
    addition, [HASH_CNT] counts them, and [HASH_FIND] finds an entry of the key
    exactly when there is one, the interface's when there is only one, however
    the elements hash and however often the buckets were doubled.  No pointer
    read or written is outside an element.  The process exits only when an
    allocation fails that is no larger than the number of operations explains.
    No allocation of 2^36 bytes succeeds. *)
Theorem uthash_refines mem ops t :
  (forall n, mem n = true -> n < 2 ^ 36) -> ht_run ops ht_empty = Some t ->
  exists r, ut_run mem ops ut_empty = Some r /\
    match r with
    | Exits => exists n, mem n = false /\ n <= 2 ^ (9 + Z.of_nat (length ops))
    | Goes u => ut_shows u t
    end.
Proof.
  intros Hmem Hrun. destruct (ut_run_ok mem ops Hmem ut_empty [] t ut_ok_empty ltac:(done) Hrun) as (r & -> & Hr).
  exists r. split; [done|]. destruct r as [|u]; [done|]. destruct Hr. by apply ut_shows_ok.
Qed.

(** Eleven elements whose keys fall into one of the 32 buckets, so that the
    buckets are doubled, the deletion of the last, the first and one in
    between, and of those with a large key. *)
Definition demo_mem (n : Z) : bool := n <? 2 ^ 20.
Definition demo_ops : list ut_op :=
  imap (fun i b => OpAdd [b; 0; 0; 0] (Pos.of_succ_nat i)) [0; 1; 4; 21; 39; 57; 117; 125; 167; 217; 232] ++ [OpDelete 11; OpDelete 1; OpDelete 5; OpSweep (fun key _ => bool_decide (Exists (fun b => 150 < b) key))].
Definition demo_table : list_table (list Z) :=
  [([1; 0; 0; 0], 2%positive); ([4; 0; 0; 0], 3%positive); ([21; 0; 0; 0], 4%positive); ([57; 0; 0; 0], 6%positive);
   ([117; 0; 0; 0], 7%positive); ([125; 0; 0; 0], 8%positive)].

Example demo_doubles :
  (r ← ut_run demo_mem demo_ops ut_empty; match r with Goes u => prod_map id num_buckets <$> ut_head u | Exits => None end) = Some (2%positive, 64).
Proof. by vm_compute. Qed.

Lemma uthash_refines_witness :
  exists r, ut_run demo_mem demo_ops ut_empty = Some r /\
    match r with
    | Exits => exists n, demo_mem n = false /\ n <= 2 ^ (9 + Z.of_nat (length demo_ops))
    | Goes u => ut_shows u demo_table
    end.
Proof. apply (uthash_refines demo_mem demo_ops demo_table); [|by vm_compute]. intros n Hn%Z.ltb_lt. change (n < 2 ^ 20) in Hn. lia. Defined.
