(* ===== verification/Libc.v ===== *)
(** What the source uses of the C library and the socket headers. *)
From S2P Require Import Prelude.

(** ** Socket addresses: [struct sockaddr_in], in network byte order; the
    family is always AF_INET. *)
Record sockaddr_in := { sin_addr : Z; sin_port : Z }.

#[export] Instance sockaddr_in_eq_dec : EqDecision sockaddr_in.
Proof. solve_decision. Defined.

Definition sockaddr_ok (a : sockaddr_in) : Prop := word_ok 32 (sin_addr a) /\ word_ok 16 (sin_port a).
#[export] Instance sockaddr_ok_dec a : Decision (sockaddr_ok a).
Proof. unfold sockaddr_ok. apply _. Defined.

(** The size of an interface name with its NUL. *)
Definition IFNAMSIZ : nat := 16.

(** ** Strings.  A [char *] is the list of bytes from the pointer to the end
    of the object it points into. *)

(** [None]: there is no terminating NUL in the object. *)
Fixpoint strlen (s : list Z) : option nat :=
  match s with
  | [] => None
  | c :: s' => if c =? 0 then Some 0%nat else S <$> strlen s'
  end.

Definition cstr (s : list Z) : option (list Z) := n ← strlen s; Some (take n s).

(** The [n] bytes [strncpy] stores. *)
Fixpoint strncpy (src : list Z) (n : nat) {struct n} : option (list Z) :=
  match n with
  | O => Some []
  | S n' =>
      match src with
      | [] => None
      | c :: src' => if c =? 0 then Some (replicate n 0) else (c ::.) <$> strncpy src' n'
      end
  end.

(** [memcmp(a, b, n) == 0] on objects of at least [n] bytes. *)
Definition memcmp_eq (n : nat) (a b : list Z) : bool := bool_decide (take n a = take n b).

Lemma strlen_app s r : Forall (fun c => c <> 0) s -> strlen (s ++ 0 :: r) = Some (length s).
Proof.
  induction 1 as [|c s Hc _ IH]; [done|]. cbn. destruct (Z.eqb_spec c 0); [done|]. by rewrite IH.
Qed.

Lemma cstr_app s r : Forall (fun c => c <> 0) s -> cstr (s ++ 0 :: r) = Some s.
Proof. intros Hs. unfold cstr. rewrite strlen_app by done. cbn. by rewrite take_app_length. Qed.

Lemma strncpy_length src n bs : strncpy src n = Some bs -> length bs = n.
Proof.
  revert src bs. induction n as [|n IH]; intros src bs; cbn; [intros Hb; by injection Hb as <-|].
  destruct src as [|c src]; [done|]. destruct (c =? 0).
  - intros Hb. injection Hb as <-. cbn. by rewrite length_replicate.
  - intros (bs' & E & ->)%fmap_Some. cbn. f_equal. eauto.
Qed.

(** A copy never fails when the source is terminated or long enough. *)
Lemma strncpy_is_Some src n :
  is_Some (strlen src) \/ (n <= length src)%nat -> is_Some (strncpy src n).
Proof.
  revert src. induction n as [|n IH]; intros src H; cbn; [eauto|].
  destruct src as [|c src].
  { destruct H as [[? [=]]|H]; cbn in *; lia. }
  cbn in H. case_match; [eauto|]. apply fmap_is_Some, IH.
  destruct H as [H|H]; [left; by apply fmap_is_Some in H|right; cbn in H; lia].
Qed.

(** The prefix of the string that fits. *)
Lemma strncpy_app s r n :
  Forall (fun c => c <> 0) s -> (length s <= n)%nat ->
  strncpy (s ++ 0 :: r) n = Some (s ++ replicate (n - length s) 0).
Proof.
  intros Hs. revert n. induction Hs as [|c s Hc _ IH]; intros n Hn.
  - rewrite Nat.sub_0_r. by destruct n.
  - destruct n as [|n]; cbn in Hn; [lia|]. cbn. destruct (Z.eqb_spec c 0); [done|].
    rewrite IH by lia. done.
Qed.

(** A tail's terminator terminates the whole. *)
Lemma strlen_suffix a b : is_Some (strlen b) -> is_Some (strlen (a ++ b)).
Proof.
  intros Hb. induction a as [|c a IH]; [done|]. cbn. case_match; [eauto|]. by apply fmap_is_Some.
Qed.

Lemma strlen_drop n k s : (n <= k)%nat -> is_Some (strlen (drop k s)) -> is_Some (strlen (drop n s)).
Proof.
  intros Hn Hs. rewrite <- (take_drop (k - n) (drop n s)). apply strlen_suffix.
  rewrite drop_drop. by replace (n + (k - n))%nat with k by lia.
Qed.

Lemma strlen_prefix a b : is_Some (strlen a) -> is_Some (strlen (a ++ b)).
Proof.
  induction a as [|c a IH]; [by intros [? [=]]|]. cbn. case_match; [eauto|].
  intros Ha. apply fmap_is_Some, IH. by apply fmap_is_Some in Ha.
Qed.

(** [strnlen] *)
Fixpoint strnlen (s : list Z) (n : nat) {struct n} : option nat :=
  match n with
  | O => Some O
  | S n' => match s with
            | [] => None
            | c :: s' => if c =? 0 then Some O else S <$> strnlen s' n'
            end
  end.

(** A string literal, without its NUL. *)
Definition str (s : string) : list Z := (fun a => Z.of_N (Ascii.N_of_ascii a)) <$> String.list_ascii_of_string s.
Arguments str _%_string_scope.

Lemma strnlen_is_Some s n : is_Some (strlen s) -> is_Some (strnlen s n).
Proof.
  revert s. induction n as [|n IH]; intros s Hs; cbn; [eauto|]. destruct s as [|c s]; [by apply is_Some_None in Hs|].
  cbn in Hs. destruct (c =? 0); [eauto|]. rewrite fmap_is_Some in Hs |- *. by apply IH.
Qed.

Lemma cstr_terminated s : is_Some (strlen s) -> is_Some (cstr s).
Proof. intros [n E]. exists (take n s). unfold cstr. by rewrite E. Qed.

Lemma strnlen_strlen s k n : strlen s = Some k -> (k < n)%nat -> strnlen s n = Some k.
Proof.
  revert s k. induction n as [|n IH]; intros s k Hs Hk; [lia|]. destruct s as [|c s]; [done|]. cbn in *.
  destruct (c =? 0); [done|]. apply fmap_Some in Hs as (k' & Hs & ->). rewrite (IH s k'); [done|done|lia].
Qed.
