(* ===== verification/Session.v ===== *)
(** The session manager (src/src/session.c): sixteen shards, each with a table
    by virtual address and a table by session identifier over the same heap
    objects.  A shard's read-write lock makes every operation atomic. *)
From S2P Require Import Prelude Key IpPool HashTable Libc.

Definition VPN_SESSION_SHARD_COUNT : Z := 16.

(** [vf_session_t], without the two intrusive table handles. *)
Record vf_session_t := {
  ss_sid : Z;
  ss_vip : Z;                       (** network byte order *)
  ss_remote_addr : sockaddr_in;
  ss_next_seq : Z;
  ss_sec_ctx : vfast_sec_ctx_t;
  ss_last_seen : Z
}.

(** [vf_expired_node_t] *)
Record vf_expired_node_t := {
  ex_sid : Z; ex_vip : Z; ex_remote_addr : sockaddr_in; ex_is_dead : bool
}.

Definition vpn_get_shard_idx (ip : Z) : Z :=
  Z.land (Z.lxor ip (Z.shiftr ip 16)) (VPN_SESSION_SHARD_COUNT - 1).

(** [rnd] is what [getrandom] stored, [None] when it did not give four bytes,
    and [libc_rand] what [rand] returns then. *)
Definition vf_ss_generate_sid (v_ip : Z) (rnd : option Z) (libc_rand : Z) : Z :=
  let target_idx := vpn_get_shard_idx v_ip in
  let raw_rand := match rnd with Some r => r | None => u32 libc_rand end in
  let high_bits := Z.land raw_rand 0xFFFF0000 in
  let needed_bits := Z.land (Z.lxor target_idx (Z.shiftr high_bits 16)) (VPN_SESSION_SHARD_COUNT - 1) in
  Z.lor (Z.lor high_bits (Z.land raw_rand 0x0000FFF0)) needed_bits.

Definition set_sid (sid : Z) (s : vf_session_t) : vf_session_t :=
  {| ss_sid := sid; ss_vip := ss_vip s; ss_remote_addr := ss_remote_addr s;
     ss_next_seq := ss_next_seq s; ss_sec_ctx := ss_sec_ctx s; ss_last_seen := ss_last_seen s |}.
Definition set_seen (addr : sockaddr_in) (now : Z) (s : vf_session_t) : vf_session_t :=
  {| ss_sid := ss_sid s; ss_vip := ss_vip s; ss_remote_addr := addr;
     ss_next_seq := ss_next_seq s; ss_sec_ctx := ss_sec_ctx s; ss_last_seen := now |}.
Definition set_sec_ctx (c : vfast_sec_ctx_t) (s : vf_session_t) : vf_session_t :=
  {| ss_sid := ss_sid s; ss_vip := ss_vip s; ss_remote_addr := ss_remote_addr s;
     ss_next_seq := ss_next_seq s; ss_sec_ctx := c; ss_last_seen := ss_last_seen s |}.

Section session.
Context {T : Type} `{HT : HashTable Z T}.

(** [vf_session_shard_t] *)
Record vf_session_shard_t := { ip_table : T; sid_table : T }.

(** [g_shards] and the heap of session objects. *)
Record sessions := {
  ss_heap : gmap positive vf_session_t;
  g_shards : list vf_session_shard_t
}.

Definition set_heap (h : gmap positive vf_session_t) (st : sessions) : sessions :=
  {| ss_heap := h; g_shards := g_shards st |}.
Definition set_shard (i : nat) (sh : vf_session_shard_t) (st : sessions) : sessions :=
  {| ss_heap := ss_heap st; g_shards := <[i := sh]> (g_shards st) |}.

Definition vf_ss_init (h : gmap positive vf_session_t) : sessions :=
  {| ss_heap := h;
     g_shards := replicate (Z.to_nat VPN_SESSION_SHARD_COUNT)
                   {| ip_table := ht_empty; sid_table := ht_empty |} |}.

(** What a call reads from its surroundings: [time(NULL)], the answers of
    [getrandom], and the bytes a fresh allocation happens to hold. *)
Record ss_env := {
  se_now : Z;
  se_getrandom : list getrandom_result;
  se_next_seq0 : Z
}.

Definition shard_of (st : sessions) (key : Z) : option (nat * vf_session_shard_t) :=
  let i := Z.to_nat (vpn_get_shard_idx key) in
  sh ← g_shards st !! i; Some (i, sh).

(** [addr] is [None] for NULL.  The result is [None] only for undefined
    behaviour, or when the key generation blocks for ever. *)
Definition vf_ss_update (st : sessions) (v_ip s_id : Z) (addr : option sockaddr_in) (e : ss_env)
    : option sessions :=
  match addr with
  | None => Some st
  | Some addr =>
      '(i, sh) ← shard_of st v_ip;
      match ht_find v_ip (ip_table sh) with
      | None =>
          let l := fresh (dom (ss_heap st)) in
          sec ← vf_rekey_init (se_getrandom e) (se_now e) s_id;
          let s := {| ss_sid := s_id; ss_vip := v_ip; ss_remote_addr := addr;
                      ss_next_seq := se_next_seq0 e; ss_sec_ctx := sec; ss_last_seen := se_now e |} in
          let sh := {| ip_table := ht_add v_ip l (ip_table sh); sid_table := ht_add s_id l (sid_table sh) |} in
          Some (set_heap (<[l := s]> (ss_heap st)) (set_shard i sh st))
      | Some l =>
          s ← ss_heap st !! l;
          '(s, sh) ←
            (if negb (ss_sid s =? s_id) then
               t ← ht_delete l (sid_table sh);
               Some (set_sid s_id s, {| ip_table := ip_table sh; sid_table := ht_add s_id l t |})
             else Some (s, sh));
          Some (set_heap (<[l := set_seen addr (se_now e) s]> (ss_heap st)) (set_shard i sh st))
      end
  end.

Definition vf_ss_update_by_sid (st : sessions) (s_id : Z) (addr : option sockaddr_in) (now : Z)
    : option sessions :=
  match addr with
  | None => Some st
  | Some addr =>
      '(_, sh) ← shard_of st s_id;
      match ht_find s_id (sid_table sh) with
      | None => Some st
      | Some l =>
          s ← ss_heap st !! l;
          let moved := negb (sin_addr (ss_remote_addr s) =? sin_addr addr) ||
                       negb (sin_port (ss_remote_addr s) =? sin_port addr) in
          let s := set_seen (if moved then addr else ss_remote_addr s) now s in
          Some (set_heap (<[l := s]> (ss_heap st)) st)
      end
  end.

(** Detach an object from both tables of a shard and free it. *)
Definition ss_drop (i : nat) (l : positive) (st : sessions) : option sessions :=
  sh ← g_shards st !! i;
  ipt ← ht_delete l (ip_table sh);
  sidt ← ht_delete l (sid_table sh);
  Some (set_heap (delete l (ss_heap st)) (set_shard i {| ip_table := ipt; sid_table := sidt |} st)).

Definition vf_ss_delete (st : sessions) (v_ip : Z) : option sessions :=
  '(i, sh) ← shard_of st v_ip;
  match ht_find v_ip (ip_table sh) with
  | None => Some st
  | Some l => ss_drop i l st
  end.

Definition vf_ss_lookup_by_sid (st : sessions) (sid : Z) : option (option positive) :=
  '(_, sh) ← shard_of st sid;
  Some (ht_find sid (sid_table sh)).

Definition vf_ss_lookup_by_ip (st : sessions) (vip : Z) : option (option positive) :=
  '(_, sh) ← shard_of st vip;
  Some (ht_find vip (ip_table sh)).

(** One object of the [HASH_ITER] loops of [vf_ss_clean_timeout] and
    [vf_ss_destroy]; the pool argument is [None] for NULL. *)
Definition ss_clean_one (now timeout_sec : Z) (i : nat) (acc : sessions * option vpn_ip_pool_t) (l : positive)
    : option (sessions * option vpn_ip_pool_t) :=
  let '(st, ipp) := acc in
  s ← ss_heap st !! l;
  if timeout_sec <? now - ss_last_seen s then
    ipp ← match ipp with
          | None => Some None
          | Some p => Some <$> vf_ip_pool_free p (ss_vip s)
          end;
    st ← ss_drop i l st;
    Some (st, ipp)
  else Some (st, ipp).

Definition ss_clean_shard (now timeout_sec : Z) (acc : sessions * option vpn_ip_pool_t) (i : nat)
    : option (sessions * option vpn_ip_pool_t) :=
  sh ← g_shards (fst acc) !! i;
  foldM (ss_clean_one now timeout_sec i) acc (ht_iter (ip_table sh)).*2.

Definition vf_ss_clean_timeout (st : sessions) (ipp : option vpn_ip_pool_t) (timeout_sec now : Z)
    : option (sessions * option vpn_ip_pool_t) :=
  foldM (ss_clean_shard now timeout_sec) (st, ipp) (seq 0 (Z.to_nat VPN_SESSION_SHARD_COUNT)).

Definition ss_destroy_shard (st : sessions) (i : nat) : option sessions :=
  sh ← g_shards st !! i;
  foldM (fun st l => ss_drop i l st) st (ht_iter (ip_table sh)).*2.

Definition vf_ss_destroy (st : sessions) : option sessions :=
  foldM ss_destroy_shard st (seq 0 (Z.to_nat VPN_SESSION_SHARD_COUNT)).

(** One shard of [vf_ss_get_expired]: the nodes written so far, newest last,
    and whether [max_count] was reached. *)
Fixpoint ss_expired_shard (h : gmap positive vf_session_t) (ls : list positive)
    (max_count : nat) (probe_sec dead_sec now : Z) (acc : list vf_expired_node_t)
    : option (list vf_expired_node_t) :=
  match ls with
  | [] => Some acc
  | l :: ls' =>
      s ← h !! l;
      let idle := now - ss_last_seen s in
      if probe_sec <=? idle then
        let acc := acc ++ [{| ex_sid := ss_sid s; ex_vip := ss_vip s; ex_remote_addr := ss_remote_addr s;
                              ex_is_dead := dead_sec <=? idle |}] in
        if decide (max_count <= length acc)%nat then Some acc
        else ss_expired_shard h ls' max_count probe_sec dead_sec now acc
      else ss_expired_shard h ls' max_count probe_sec dead_sec now acc
  end.

Fixpoint ss_expired_shards (h : gmap positive vf_session_t) (shs : list vf_session_shard_t)
    (max_count : nat) (probe_sec dead_sec now : Z) (acc : list vf_expired_node_t)
    : option (list vf_expired_node_t) :=
  match shs with
  | [] => Some acc
  | sh :: shs' =>
      acc ← ss_expired_shard h (ht_iter (ip_table sh)).*2 max_count probe_sec dead_sec now acc;
      if decide (max_count <= length acc)%nat then Some acc
      else ss_expired_shards h shs' max_count probe_sec dead_sec now acc
  end.

Definition vf_ss_get_expired (st : sessions) (max_count : nat) (probe_sec dead_sec now : Z)
    : option (list vf_expired_node_t) :=
  ss_expired_shards (ss_heap st) (g_shards st) max_count probe_sec dead_sec now [].

Definition vf_ss_get_total_count (st : sessions) : Z :=
  fold_left (fun total sh => u32 (total + Z.of_nat (ht_count (ip_table sh)))) (g_shards st) 0.
End session.

Arguments vf_session_shard_t : clear implicits.
Arguments sessions : clear implicits.

(** * Shard alignment *)

Lemma shard_idx_range ip : 0 <= vpn_get_shard_idx ip < VPN_SESSION_SHARD_COUNT.
Proof.
  unfold vpn_get_shard_idx, VPN_SESSION_SHARD_COUNT. change (16 - 1) with (Z.ones 4).
  rewrite Z.land_ones by lia. apply Z.mod_pos_bound. lia.
Qed.

Lemma shard_idx_bits ip i :
  0 <= i < 4 -> Z.testbit (vpn_get_shard_idx ip) i = xorb (Z.testbit ip i) (Z.testbit ip (i + 16)).
Proof.
  intros Hi. unfold vpn_get_shard_idx, VPN_SESSION_SHARD_COUNT. change (16 - 1) with (Z.ones 4).
  rewrite Z.land_spec, Z.lxor_spec, Z.shiftr_spec, Z.testbit_ones_nonneg by lia.
  destruct (Z.ltb_spec i 4); [by rewrite andb_true_r|lia].
Qed.

Lemma shard_idx_eq a b :
  (forall i, 0 <= i < 4 -> Z.testbit (vpn_get_shard_idx a) i = Z.testbit (vpn_get_shard_idx b) i) ->
  vpn_get_shard_idx a = vpn_get_shard_idx b.
Proof.
  intros H. apply Z.bits_inj'. intros i Hi. destruct (Z.ltb_spec i 4); [apply H; lia|].
  unfold vpn_get_shard_idx, VPN_SESSION_SHARD_COUNT. change (16 - 1) with (Z.ones 4).
  rewrite !Z.land_spec, !Z.testbit_ones_nonneg by lia.
  destruct (Z.ltb_spec i 4); [lia|]. by rewrite !andb_false_r.
Qed.

Lemma testbit_const_range c lo hi i :
  0 <= lo <= hi -> c = Z.shiftl (Z.ones (hi - lo)) lo -> 0 <= i -> Z.testbit c i = (lo <=? i) && (i <? hi).
Proof.
  intros H -> Hi. rewrite Z.shiftl_spec by lia.
  destruct (Z.leb_spec lo i).
  - rewrite Z.testbit_ones_nonneg by lia. cbn.
    destruct (Z.ltb_spec (i - lo) (hi - lo)), (Z.ltb_spec i hi); lia || done.
  - rewrite Z.testbit_neg_r by lia. done.
Qed.

(** The identifier falls in the shard of its address, for any randomness. *)
Lemma generate_sid_aligned v_ip rnd r :
  vpn_get_shard_idx (vf_ss_generate_sid v_ip rnd r) = vpn_get_shard_idx v_ip.
Proof.
  apply shard_idx_eq. intros i Hi. rewrite (shard_idx_bits (vf_ss_generate_sid _ _ _)) by done.
  unfold vf_ss_generate_sid. set (raw := match rnd with Some x => x | None => u32 r end). clearbody raw.
  set (t := vpn_get_shard_idx v_ip). unfold VPN_SESSION_SHARD_COUNT. change (16 - 1) with (Z.ones 4).
  rewrite !Z.lor_spec, !Z.land_spec, !Z.lxor_spec, !Z.shiftr_spec, !Z.land_spec by lia.
  rewrite !Z.testbit_ones_nonneg by lia.
  rewrite !(testbit_const_range 0xFFFF0000 16 32) by (lia || done).
  rewrite !(testbit_const_range 0x0000FFF0 4 16) by (lia || done).
  destruct (Z.leb_spec 16 i), (Z.ltb_spec i 32), (Z.leb_spec 4 i), (Z.ltb_spec i 16), (Z.ltb_spec i 4),
    (Z.leb_spec 16 (i + 16)), (Z.ltb_spec (i + 16) 32), (Z.leb_spec 4 (i + 16)), (Z.ltb_spec (i + 16) 16),
    (Z.ltb_spec (i + 16) 4); try lia.
  rewrite !andb_false_r, !andb_true_r, !orb_false_r, !orb_false_l.
  by destruct (Z.testbit t i), (Z.testbit raw (i + 16)).
Qed.

Lemma generate_sid_ok v_ip rnd r :
  match rnd with Some x => word_ok 32 x | None => True end -> word_ok 32 (vf_ss_generate_sid v_ip rnd r).
Proof.
  intros Hr. unfold vf_ss_generate_sid.
  set (raw := match rnd with Some x => x | None => u32 r end).
  assert (word_ok 32 raw) as Hraw by (unfold raw; destruct rnd; [done|apply wrap_ok; lia]).
  apply lor_ok; [lia|apply lor_ok; [lia|..]; apply land_ok_l; done || lia|].
  rewrite Z.land_comm. apply land_ok_l; [lia|]. unfold word_ok, VPN_SESSION_SHARD_COUNT. lia.
Qed.

(** * The invariant: both tables of a shard index exactly the sessions whose
    address falls in it *)

Section invariant.
Context {T : Type} `{HT : HashTable Z T, HL : !HashTableLaws Z T}.
Implicit Type st : sessions T.

Record ss_wf (st : sessions T) : Prop := {
  sw_shards : length (g_shards st) = 16%nat;
  sw_ip : forall i sh, g_shards st !! i = Some sh -> forall k l,
    (k, l) ∈ ht_iter (ip_table sh) <->
    exists s, ss_heap st !! l = Some s /\ ss_vip s = k /\ Z.to_nat (vpn_get_shard_idx k) = i;
  sw_sid : forall i sh, g_shards st !! i = Some sh -> forall k l,
    (k, l) ∈ ht_iter (sid_table sh) <->
    exists s, ss_heap st !! l = Some s /\ ss_sid s = k /\ Z.to_nat (vpn_get_shard_idx k) = i;
  sw_nodup_ip : forall i sh, g_shards st !! i = Some sh -> NoDup (ht_iter (ip_table sh)).*2;
  sw_nodup_sid : forall i sh, g_shards st !! i = Some sh -> NoDup (ht_iter (sid_table sh)).*2;
  sw_unique : forall l1 l2 s1 s2, ss_heap st !! l1 = Some s1 -> ss_heap st !! l2 = Some s2 ->
    ss_vip s1 = ss_vip s2 -> l1 = l2;
  sw_align : forall l s, ss_heap st !! l = Some s ->
    vpn_get_shard_idx (ss_sid s) = vpn_get_shard_idx (ss_vip s)
}.

(** The abstract state: the sessions by virtual address. *)
Definition ss_models st (m : gmap Z vf_session_t) : Prop :=
  forall v s, m !! v = Some s <-> exists l, ss_heap st !! l = Some s /\ ss_vip s = v.

Lemma shard_of_wf st k :
  ss_wf st -> exists sh, shard_of st k = Some (Z.to_nat (vpn_get_shard_idx k), sh) /\
    g_shards st !! Z.to_nat (vpn_get_shard_idx k) = Some sh.
Proof.
  intros Hwf. pose proof (shard_idx_range k) as Hk. unfold VPN_SESSION_SHARD_COUNT in Hk.
  destruct (lookup_lt_is_Some_2 (g_shards st) (Z.to_nat (vpn_get_shard_idx k))) as [sh E].
  { rewrite (sw_shards _ Hwf). lia. }
  exists sh. split; [|done]. unfold shard_of. by rewrite E.
Qed.

Lemma lookup_by_ip_wf st v :
  ss_wf st -> exists r, vf_ss_lookup_by_ip st v = Some r /\
    match r with
    | Some l => exists s, ss_heap st !! l = Some s /\ ss_vip s = v
    | None => forall l s, ss_heap st !! l = Some s -> ss_vip s <> v
    end.
Proof.
  intros Hwf. destruct (shard_of_wf st v Hwf) as (sh & E & Ei). unfold vf_ss_lookup_by_ip. rewrite E.
  cbn [mbind option_bind]. eexists. split; [done|].
  destruct (ht_find v (ip_table sh)) as [l|] eqn:Ef.
  - apply ht_find_Some, (sw_ip _ Hwf _ _ Ei) in Ef as (s & Hs & Hv & _). eauto.
  - intros l s Hs Hv. apply (ht_find_None v l) in Ef. apply Ef, (sw_ip _ Hwf _ _ Ei). eauto.
Qed.

Lemma lookup_by_sid_wf st sid :
  ss_wf st -> exists r, vf_ss_lookup_by_sid st sid = Some r /\
    match r with
    | Some l => exists s, ss_heap st !! l = Some s /\ ss_sid s = sid
    | None => forall l s, ss_heap st !! l = Some s -> ss_sid s <> sid
    end.
Proof.
  intros Hwf. destruct (shard_of_wf st sid Hwf) as (sh & E & Ei). unfold vf_ss_lookup_by_sid. rewrite E.
  cbn [mbind option_bind]. eexists. split; [done|].
  destruct (ht_find sid (sid_table sh)) as [l|] eqn:Ef.
  - apply ht_find_Some, (sw_sid _ Hwf _ _ Ei) in Ef as (s & Hs & Hv & _). eauto.
  - intros l s Hs Hv. apply (ht_find_None sid l) in Ef. apply Ef, (sw_sid _ Hwf _ _ Ei). eauto.
Qed.

Lemma vf_ss_init_wf : ss_wf (vf_ss_init (T := T) ∅).
Proof.
  split; cbn [vf_ss_init ss_heap g_shards]; try done.
  - intros i sh Hi k l. apply lookup_replicate in Hi as [-> _]. cbn. rewrite ht_iter_empty.
    split; [by intros ?%not_elem_of_nil|intros (s & Hs & _); by rewrite lookup_empty in Hs].
  - intros i sh Hi k l. apply lookup_replicate in Hi as [-> _]. cbn. rewrite ht_iter_empty.
    split; [by intros ?%not_elem_of_nil|intros (s & Hs & _); by rewrite lookup_empty in Hs].
  - intros i sh Hi. apply lookup_replicate in Hi as [-> _]. cbn. rewrite ht_iter_empty. constructor.
  - intros i sh Hi. apply lookup_replicate in Hi as [-> _]. cbn. rewrite ht_iter_empty. constructor.
Qed.

(** Changing an object without touching its keys keeps the tables valid. *)
Lemma ss_wf_touch st l s s' :
  ss_wf st -> ss_heap st !! l = Some s -> ss_vip s' = ss_vip s -> ss_sid s' = ss_sid s ->
  ss_wf (set_heap (<[l := s']> (ss_heap st)) st).
Proof.
  intros Hwf Hl Hv Hsid.
  assert (forall (P : vf_session_t -> Prop) l0, P s' <-> P s ->
    (exists x, <[l := s']> (ss_heap st) !! l0 = Some x /\ P x) <-> (exists x, ss_heap st !! l0 = Some x /\ P x)) as Hex.
  { intros P l0 HP. destruct (decide (l = l0)) as [<-|Hne].
    - rewrite lookup_insert_eq, Hl. split; intros (x & [= <-] & Hx); eexists; (split; [done|]); tauto.
    - by rewrite lookup_insert_ne. }
  destruct Hwf. split; cbn [set_heap ss_heap g_shards]; auto.
  - intros i sh Hi k l0. rewrite (sw_ip0 i sh Hi). symmetry. apply Hex. by rewrite Hv.
  - intros i sh Hi k l0. rewrite (sw_sid0 i sh Hi). symmetry. apply Hex. by rewrite Hsid.
  - intros l1 l2 s1 s2 H1 H2 Heq.
    assert (exists x1, ss_heap st !! l1 = Some x1 /\ ss_vip x1 = ss_vip s1) as (x1 & ? & ?).
    { apply (Hex (fun x => ss_vip x = ss_vip s1)); [by rewrite Hv|eauto]. }
    assert (exists x2, ss_heap st !! l2 = Some x2 /\ ss_vip x2 = ss_vip s2) as (x2 & ? & ?).
    { apply (Hex (fun x => ss_vip x = ss_vip s2)); [by rewrite Hv|eauto]. }
    apply (sw_unique0 l1 l2 x1 x2); congruence.
  - intros l0 s0 H0. destruct (decide (l = l0)) as [<-|Hne].
    + rewrite lookup_insert_eq in H0. injection H0 as <-. rewrite Hv, Hsid. eauto.
    + rewrite lookup_insert_ne in H0 by done. eauto.
Qed.

Lemma ss_models_touch st m l s s' :
  ss_wf st -> ss_models st m -> ss_heap st !! l = Some s -> ss_vip s' = ss_vip s ->
  ss_models (set_heap (<[l := s']> (ss_heap st)) st) (<[ss_vip s := s']> m).
Proof.
  intros Hwf Hm Hl Hv v x. cbn [set_heap ss_heap].
  destruct (decide (ss_vip s = v)) as [<-|Hne].
  - rewrite lookup_insert_eq. split.
    + intros [= <-]. exists l. by rewrite lookup_insert_eq.
    + intros (l0 & H0 & Hx). destruct (decide (l = l0)) as [<-|Hn].
      * by rewrite lookup_insert_eq in H0.
      * rewrite lookup_insert_ne in H0 by done. exfalso. apply Hn. by apply (sw_unique _ Hwf _ _ s x).
  - rewrite lookup_insert_ne by done. rewrite (Hm v x). split; intros (l0 & H0 & Hx); exists l0.
    + rewrite lookup_insert_ne; [done|]. intros <-. congruence.
    + destruct (decide (l = l0)) as [<-|Hn]; [|by rewrite lookup_insert_ne in H0].
      rewrite lookup_insert_eq in H0. injection H0 as <-. congruence.
Qed.

(** The shard table after one shard changed. *)
Lemma set_shard_lookup st i sh' j sh :
  (i < length (g_shards st))%nat -> <[i := sh']> (g_shards st) !! j = Some sh ->
  (j = i /\ sh = sh') \/ (j <> i /\ g_shards st !! j = Some sh).
Proof.
  intros Hi Hj. destruct (decide (j = i)) as [->|Hne].
  - rewrite list_lookup_insert_eq in Hj by done. injection Hj as <-. by left.
  - rewrite list_lookup_insert_ne in Hj by done. by right.
Qed.

Lemma ss_wf_add st i sh l s :
  ss_wf st -> g_shards st !! i = Some sh -> i = Z.to_nat (vpn_get_shard_idx (ss_vip s)) ->
  vpn_get_shard_idx (ss_sid s) = vpn_get_shard_idx (ss_vip s) -> ss_heap st !! l = None ->
  (forall l0 s0, ss_heap st !! l0 = Some s0 -> ss_vip s0 <> ss_vip s) ->
  ss_wf (set_heap (<[l := s]> (ss_heap st))
    (set_shard i {| ip_table := ht_add (ss_vip s) l (ip_table sh);
                    sid_table := ht_add (ss_sid s) l (sid_table sh) |} st)).
Proof.
  intros Hwf Hi Ei Hal Hl Hv. pose proof (lookup_lt_Some _ _ _ Hi) as Hlt.
  split; cbn [set_heap set_shard ss_heap g_shards].
  - rewrite length_insert. apply (sw_shards _ Hwf).
  - intros j shj Hj k l0. apply (set_shard_lookup st) in Hj as [[-> ->]|[Hne Hj]]; [| |done]; cbn [ip_table].
    + rewrite ht_add_elem, (sw_ip _ Hwf _ _ Hi). split.
      * intros [(s0 & H0 & ? & ?)|[-> ->]].
        -- exists s0. rewrite lookup_insert_ne; [done|]. intros ->. congruence.
        -- exists s. by rewrite lookup_insert_eq.
      * intros (s0 & H0 & <- & ?). destruct (decide (l = l0)) as [<-|Hn].
        -- rewrite lookup_insert_eq in H0. injection H0 as <-. by right.
        -- rewrite lookup_insert_ne in H0 by done. left. eauto.
    + rewrite (sw_ip _ Hwf _ _ Hj). split; intros (s0 & H0 & <- & ?).
      * exists s0. rewrite lookup_insert_ne; [done|]. intros ->. congruence.
      * destruct (decide (l = l0)) as [<-|Hn].
        -- rewrite lookup_insert_eq in H0. injection H0 as <-. congruence.
        -- rewrite lookup_insert_ne in H0 by done. eauto.
  - intros j shj Hj k l0. apply (set_shard_lookup st) in Hj as [[-> ->]|[Hne Hj]]; [| |done]; cbn [sid_table].
    + rewrite ht_add_elem, (sw_sid _ Hwf _ _ Hi). split.
      * intros [(s0 & H0 & ? & ?)|[-> ->]].
        -- exists s0. rewrite lookup_insert_ne; [done|]. intros ->. congruence.
        -- exists s. rewrite lookup_insert_eq. split; [done|]. split; [done|]. by rewrite Hal.
      * intros (s0 & H0 & <- & ?). destruct (decide (l = l0)) as [<-|Hn].
        -- rewrite lookup_insert_eq in H0. injection H0 as <-. by right.
        -- rewrite lookup_insert_ne in H0 by done. left. eauto.
    + rewrite (sw_sid _ Hwf _ _ Hj). split; intros (s0 & H0 & <- & ?).
      * exists s0. rewrite lookup_insert_ne; [done|]. intros ->. congruence.
      * destruct (decide (l = l0)) as [<-|Hn].
        -- rewrite lookup_insert_eq in H0. injection H0 as <-. congruence.
        -- rewrite lookup_insert_ne in H0 by done. eauto.
  - intros j shj Hj. apply (set_shard_lookup st) in Hj as [[-> ->]|[Hne Hj]]; [| |done]; cbn [ip_table].
    + apply ht_add_NoDup; [|by eapply (sw_nodup_ip _ Hwf)].
      intros Hin. apply list_elem_of_fmap in Hin as ([k l0] & E & Hin). cbn in E. subst l0.
      apply (sw_ip _ Hwf _ _ Hi) in Hin as (s0 & H0 & _). congruence.
    + by eapply (sw_nodup_ip _ Hwf).
  - intros j shj Hj. apply (set_shard_lookup st) in Hj as [[-> ->]|[Hne Hj]]; [| |done]; cbn [sid_table].
    + apply ht_add_NoDup; [|by eapply (sw_nodup_sid _ Hwf)].
      intros Hin. apply list_elem_of_fmap in Hin as ([k l0] & E & Hin). cbn in E. subst l0.
      apply (sw_sid _ Hwf _ _ Hi) in Hin as (s0 & H0 & _). congruence.
    + by eapply (sw_nodup_sid _ Hwf).
  - intros l1 l2 s1 s2 H1 H2 E.
    destruct (decide (l = l1)) as [<-|N1], (decide (l = l2)) as [<-|N2]; [done|..];
      rewrite ?lookup_insert_eq, ?lookup_insert_ne in H1 by done;
      rewrite ?lookup_insert_eq, ?lookup_insert_ne in H2 by done; simplify_eq.
    + exfalso. eapply (Hv l2 s2); [done|]. congruence.
    + exfalso. eapply (Hv l1 s1); [done|]. congruence.
    + by apply (sw_unique _ Hwf _ _ s1 s2).
  - intros l0 s0 H0. destruct (decide (l = l0)) as [<-|Hn].
    + rewrite lookup_insert_eq in H0. by injection H0 as <-.
    + rewrite lookup_insert_ne in H0 by done. by eapply (sw_align _ Hwf).
Qed.

Lemma ss_drop_spec st l s :
  ss_wf st -> ss_heap st !! l = Some s ->
  exists st', ss_drop (Z.to_nat (vpn_get_shard_idx (ss_vip s))) l st = Some st' /\ ss_wf st' /\
    ss_heap st' = delete l (ss_heap st).
Proof.
  intros Hwf Hl. destruct (shard_of_wf st (ss_vip s) Hwf) as (sh & _ & Hi).
  set (i := Z.to_nat (vpn_get_shard_idx (ss_vip s))) in *.
  assert ((ss_vip s, l) ∈ ht_iter (ip_table sh)) as Hip by (apply (sw_ip _ Hwf _ _ Hi); eauto).
  assert ((ss_sid s, l) ∈ ht_iter (sid_table sh)) as Hsid.
  { apply (sw_sid _ Hwf _ _ Hi). exists s. split; [done|]. split; [done|]. by rewrite (sw_align _ Hwf l s Hl). }
  destruct (ht_delete_in _ _ _ Hip) as (t1 & E1 & _). destruct (ht_delete_in _ _ _ Hsid) as (t2 & E2 & _).
  unfold ss_drop. rewrite Hi. cbn [mbind option_bind]. rewrite E1. cbn [mbind option_bind]. rewrite E2.
  cbn [mbind option_bind]. eexists. split; [done|]. split; [|done].
  pose proof (lookup_lt_Some _ _ _ Hi) as Hlt.
  assert (forall l0 (x : vf_session_t), delete l (ss_heap st) !! l0 = Some x <-> ss_heap st !! l0 = Some x /\ l0 <> l) as Hdel.
  { intros l0 x. rewrite lookup_delete_Some. split; intros [? ?]; by split. }
  split; cbn [set_heap set_shard ss_heap g_shards].
  - rewrite length_insert. apply (sw_shards _ Hwf).
  - intros j shj Hj k l0. setoid_rewrite Hdel.
    apply (set_shard_lookup st) in Hj as [[-> ->]|[Hne Hj]]; [| |done]; cbn [ip_table].
    + rewrite (ht_delete_elem _ _ _ _ _ _ Hip E1), (sw_ip _ Hwf _ _ Hi). split.
      * intros [(s0 & ? & ? & ?) ?]. eauto.
      * intros (s0 & [? ?] & ? & ?). eauto.
    + rewrite (sw_ip _ Hwf _ _ Hj). split; [|intros (s0 & [? ?] & ? & ?); eauto].
      intros (s0 & H0 & <- & Hj').
      exists s0. split; [split; [done|]|done]. intros ->. rewrite Hl in H0. injection H0 as <-. by apply Hne.
  - intros j shj Hj k l0. setoid_rewrite Hdel.
    apply (set_shard_lookup st) in Hj as [[-> ->]|[Hne Hj]]; [| |done]; cbn [sid_table].
    + rewrite (ht_delete_elem _ _ _ _ _ _ Hsid E2), (sw_sid _ Hwf _ _ Hi). split.
      * intros [(s0 & ? & ? & ?) ?]. eauto.
      * intros (s0 & [? ?] & ? & ?). eauto.
    + rewrite (sw_sid _ Hwf _ _ Hj). split; [|intros (s0 & [? ?] & ? & ?); eauto].
      intros (s0 & H0 & <- & Hj').
      exists s0. split; [split; [done|]|done]. intros ->. rewrite Hl in H0. injection H0 as <-.
      rewrite (sw_align _ Hwf l s Hl) in Hj'. by apply Hne.
  - intros j shj Hj. apply (set_shard_lookup st) in Hj as [[-> ->]|[Hne Hj]]; [| |done]; cbn [ip_table].
    + apply (ht_delete_NoDup _ _ _ _ Hip E1), (sw_nodup_ip _ Hwf _ _ Hi).
    + by eapply (sw_nodup_ip _ Hwf).
  - intros j shj Hj. apply (set_shard_lookup st) in Hj as [[-> ->]|[Hne Hj]]; [| |done]; cbn [sid_table].
    + apply (ht_delete_NoDup _ _ _ _ Hsid E2), (sw_nodup_sid _ Hwf _ _ Hi).
    + by eapply (sw_nodup_sid _ Hwf).
  - intros l1 l2 s1 s2 [H1 _]%Hdel [H2 _]%Hdel. by apply (sw_unique _ Hwf).
  - intros l0 s0 [H0 _]%Hdel. by eapply (sw_align _ Hwf).
Qed.

Lemma ss_models_drop st st' m l s :
  ss_wf st -> ss_models st m -> ss_heap st !! l = Some s -> ss_heap st' = delete l (ss_heap st) ->
  ss_models st' (delete (ss_vip s) m).
Proof.
  intros Hwf Hm Hl Hh v x. rewrite Hh, lookup_delete_Some, (Hm v x). setoid_rewrite lookup_delete_Some.
  split.
  - intros [Hne (l0 & H0 & Hx)]. exists l0. split; [split; [|done]|done]. intros <-. congruence.
  - intros (l0 & [Hne H0] & Hx). split; [|eauto]. intros Hv. apply Hne.
    apply (sw_unique _ Hwf _ _ s x); congruence.
Qed.

(** Giving a session another identifier of its shard. *)
Lemma ss_wf_resid st i sh l s sid t :
  ss_wf st -> g_shards st !! i = Some sh -> i = Z.to_nat (vpn_get_shard_idx (ss_vip s)) ->
  ss_heap st !! l = Some s -> vpn_get_shard_idx sid = vpn_get_shard_idx (ss_vip s) ->
  ht_delete l (sid_table sh) = Some t ->
  ss_wf (set_heap (<[l := set_sid sid s]> (ss_heap st))
    (set_shard i {| ip_table := ip_table sh; sid_table := ht_add sid l t |} st)).
Proof.
  intros Hwf Hi Ei Hl Hal Et. pose proof (lookup_lt_Some _ _ _ Hi) as Hlt.
  assert ((ss_sid s, l) ∈ ht_iter (sid_table sh)) as Hsid.
  { apply (sw_sid _ Hwf _ _ Hi). exists s. split; [done|]. split; [done|]. rewrite (sw_align _ Hwf l s Hl). done. }
  assert (forall l0, ss_heap st !! l0 = Some s -> l0 = l) as Huniq.
  { intros l0 H0. by apply (sw_unique _ Hwf _ _ s s). }
  assert (forall (P : vf_session_t -> Prop) l0, (P (set_sid sid s) <-> P s) ->
    (exists x, <[l := set_sid sid s]> (ss_heap st) !! l0 = Some x /\ P x) <->
    (exists x, ss_heap st !! l0 = Some x /\ P x)) as Hex.
  { intros P l0 HP. destruct (decide (l = l0)) as [<-|Hne].
    - rewrite lookup_insert_eq, Hl. split; intros (x & [= <-] & Hx); eexists; (split; [done|]); tauto.
    - by rewrite lookup_insert_ne. }
  split; cbn [set_heap set_shard ss_heap g_shards].
  - rewrite length_insert. apply (sw_shards _ Hwf).
  - intros j shj Hj k l0.
    rewrite (Hex (fun x => ss_vip x = k /\ Z.to_nat (vpn_get_shard_idx k) = j)) by done.
    apply (set_shard_lookup st) in Hj as [[-> ->]|[Hne Hj]]; [| |done]; cbn [ip_table].
    + apply (sw_ip _ Hwf _ _ Hi).
    + apply (sw_ip _ Hwf _ _ Hj).
  - intros j shj Hj k l0. apply (set_shard_lookup st) in Hj as [[-> ->]|[Hne Hj]]; [| |done]; cbn [sid_table].
    + rewrite ht_add_elem, (ht_delete_elem _ _ _ _ _ _ Hsid Et), (sw_sid _ Hwf _ _ Hi). split.
      * intros [[(s0 & H0 & ? & ?) Hne]|[-> ->]].
        -- exists s0. by rewrite lookup_insert_ne.
        -- exists (set_sid sid s). rewrite lookup_insert_eq. split; [done|]. split; [done|]. by rewrite Hal.
      * intros (s0 & H0 & <- & ?). destruct (decide (l = l0)) as [<-|Hn].
        -- rewrite lookup_insert_eq in H0. injection H0 as <-. by right.
        -- rewrite lookup_insert_ne in H0 by done. left. split; [|done]. eauto.
    + rewrite (sw_sid _ Hwf _ _ Hj). split; intros (s0 & H0 & <- & ?).
      * exists s0. rewrite lookup_insert_ne; [done|]. intros <-. rewrite Hl in H0. injection H0 as <-.
        rewrite (sw_align _ Hwf l s Hl) in *. congruence.
      * destruct (decide (l = l0)) as [<-|Hn].
        -- rewrite lookup_insert_eq in H0. injection H0 as <-. cbn in *. congruence.
        -- rewrite lookup_insert_ne in H0 by done. eauto.
  - intros j shj Hj. apply (set_shard_lookup st) in Hj as [[-> ->]|[Hne Hj]]; [| |done]; cbn [ip_table];
      by eapply (sw_nodup_ip _ Hwf).
  - intros j shj Hj. apply (set_shard_lookup st) in Hj as [[-> ->]|[Hne Hj]]; [| |done]; cbn [sid_table].
    + apply ht_add_NoDup; [|apply (ht_delete_NoDup _ _ _ _ Hsid Et), (sw_nodup_sid _ Hwf _ _ Hi)].
      intros Hin. apply list_elem_of_fmap in Hin as ([k l0] & E & Hin). cbn in E. subst l0.
      by apply (ht_delete_elem _ _ _ _ _ _ Hsid Et) in Hin as [_ ?].
    + by eapply (sw_nodup_sid _ Hwf).
  - intros l1 l2 s1 s2 H1 H2 E.
    assert (exists x1, ss_heap st !! l1 = Some x1 /\ ss_vip x1 = ss_vip s1) as (x1 & ? & ?).
    { apply (Hex (fun x => ss_vip x = ss_vip s1)); [done|eauto]. }
    assert (exists x2, ss_heap st !! l2 = Some x2 /\ ss_vip x2 = ss_vip s2) as (x2 & ? & ?).
    { apply (Hex (fun x => ss_vip x = ss_vip s2)); [done|eauto]. }
    apply (sw_unique _ Hwf l1 l2 x1 x2); congruence.
  - intros l0 s0 H0. destruct (decide (l = l0)) as [<-|Hn].
    + rewrite lookup_insert_eq in H0. by injection H0 as <-.
    + rewrite lookup_insert_ne in H0 by done. by eapply (sw_align _ Hwf).
Qed.

(** ** The operations on the abstract map *)

Definition spec_update (m : gmap Z vf_session_t) (v sid : Z) (a : sockaddr_in) (e : ss_env)
    (sec : vfast_sec_ctx_t) : gmap Z vf_session_t :=
  <[v := match m !! v with
         | Some s => set_seen a (se_now e) (set_sid sid s)
         | None => {| ss_sid := sid; ss_vip := v; ss_remote_addr := a; ss_next_seq := se_next_seq0 e;
                      ss_sec_ctx := sec; ss_last_seen := se_now e |}
         end]> m.

Lemma ss_models_vip st m v s : ss_models st m -> m !! v = Some s -> ss_vip s = v.
Proof. intros Hm Hv. by apply Hm in Hv as (l & _ & ?). Qed.

Lemma ss_models_lookup st m l s :
  ss_models st m -> ss_heap st !! l = Some s -> m !! ss_vip s = Some s.
Proof. intros Hm Hl. apply Hm. eauto. Qed.

Lemma vf_ss_update_refines st m v sid a e sec :
  ss_wf st -> ss_models st m -> vpn_get_shard_idx sid = vpn_get_shard_idx v ->
  vf_rekey_init (se_getrandom e) (se_now e) sid = Some sec ->
  exists st', vf_ss_update st v sid (Some a) e = Some st' /\ ss_wf st' /\
    ss_models st' (spec_update m v sid a e sec).
Proof.
  intros Hwf Hm Hal Hsec. destruct (shard_of_wf st v Hwf) as (sh & E & Hi).
  unfold vf_ss_update, spec_update. rewrite E. cbn [mbind option_bind].
  destruct (ht_find v (ip_table sh)) as [l|] eqn:Ef.
  - apply ht_find_Some, (sw_ip _ Hwf _ _ Hi) in Ef as (s & Hs & Hv & _). subst v.
    rewrite Hs. cbn [mbind option_bind]. rewrite (ss_models_lookup _ _ _ _ Hm Hs).
    destruct (Z.eqb_spec (ss_sid s) sid) as [<-|Hne]; cbn [negb mbind option_bind].
    + eexists. split; [done|]. replace (set_sid (ss_sid s) s) with s by (by destruct s).
      assert (set_shard (Z.to_nat (vpn_get_shard_idx (ss_vip s))) sh st = st) as ->.
      { unfold set_shard. rewrite list_insert_id by done. by destruct st. }
      split; [by eapply ss_wf_touch|]. by eapply (ss_models_touch st m l s).
    + assert ((ss_sid s, l) ∈ ht_iter (sid_table sh)) as Hin.
      { apply (sw_sid _ Hwf _ _ Hi). exists s. split; [done|]. split; [done|]. by rewrite (sw_align _ Hwf l s Hs). }
      destruct (ht_delete_in _ _ _ Hin) as (t & Et & _). rewrite Et. cbn [mbind option_bind].
      eexists. split; [done|].
      pose proof (ss_wf_resid st _ sh l s sid t Hwf Hi eq_refl Hs Hal Et) as Hwf1.
      set (st1 := set_heap (<[l := set_sid sid s]> (ss_heap st)) (set_shard _ _ st)) in *.
      assert (ss_heap st1 !! l = Some (set_sid sid s)) as H1 by (cbn; by rewrite lookup_insert_eq).
      split.
      * pose proof (ss_wf_touch st1 l _ (set_seen a (se_now e) (set_sid sid s)) Hwf1 H1 eq_refl eq_refl) as Hwf2.
        unfold set_heap in Hwf2 |- *. cbn [ss_heap g_shards st1 set_heap set_shard] in Hwf2 |- *.
        by rewrite insert_insert_eq in Hwf2.
      * apply (ss_models_touch st m l s (set_seen a (se_now e) (set_sid sid s)) Hwf Hm Hs eq_refl).
  - assert (forall l0 s0, ss_heap st !! l0 = Some s0 -> ss_vip s0 <> v) as Hno.
    { intros l0 s0 H0 Hv. apply (ht_find_None v l0) in Ef. apply Ef, (sw_ip _ Hwf _ _ Hi). eauto. }
    assert (m !! v = None) as ->.
    { apply eq_None_not_Some. intros [s Hs]. apply Hm in Hs as (l & Hl & Hv). by eapply Hno. }
    rewrite Hsec. cbn [mbind option_bind].
    set (l := fresh (dom (ss_heap st))). set (s := Build_vf_session_t _ _ _ _ _ _).
    assert (ss_heap st !! l = None) as Hl by (apply not_elem_of_dom, is_fresh).
    eexists. split; [done|]. split.
    + apply (ss_wf_add st _ sh l s Hwf Hi eq_refl Hal Hl Hno).
    + intros w x. cbn [set_heap set_shard ss_heap]. destruct (decide (v = w)) as [<-|Hne].
      * rewrite lookup_insert_eq. split.
        -- intros [= <-]. exists l. by rewrite lookup_insert_eq.
        -- intros (l0 & H0 & Hx). destruct (decide (l = l0)) as [<-|Hn].
           ++ by rewrite lookup_insert_eq in H0.
           ++ rewrite lookup_insert_ne in H0 by done. exfalso. by eapply Hno.
      * rewrite lookup_insert_ne by done. rewrite (Hm w x). split; intros (l0 & H0 & Hx); exists l0.
        -- rewrite lookup_insert_ne; [done|]. intros ->. congruence.
        -- destruct (decide (l = l0)) as [<-|Hn]; [|by rewrite lookup_insert_ne in H0].
           rewrite lookup_insert_eq in H0. injection H0 as <-. cbn in Hx. congruence.
Qed.

Lemma set_seen_moved a now s :
  set_seen (if negb (sin_addr (ss_remote_addr s) =? sin_addr a) ||
               negb (sin_port (ss_remote_addr s) =? sin_port a)
            then a else ss_remote_addr s) now s = set_seen a now s.
Proof.
  destruct s as [? ? [ra rp] ? ? ?], a as [aa ap]. cbn.
  destruct (Z.eqb_spec ra aa), (Z.eqb_spec rp ap); cbn; by subst.
Qed.

Lemma vf_ss_update_by_sid_refines st m sid a now :
  ss_wf st -> ss_models st m ->
  exists st', vf_ss_update_by_sid st sid (Some a) now = Some st' /\ ss_wf st' /\
    (((forall v s, m !! v = Some s -> ss_sid s <> sid) /\ ss_models st' m) \/
     exists v s, m !! v = Some s /\ ss_sid s = sid /\ ss_models st' (<[v := set_seen a now s]> m)).
Proof.
  intros Hwf Hm. destruct (shard_of_wf st sid Hwf) as (sh & E & Hi).
  unfold vf_ss_update_by_sid. rewrite E. cbn [mbind option_bind].
  destruct (ht_find sid (sid_table sh)) as [l|] eqn:Ef.
  - apply ht_find_Some, (sw_sid _ Hwf _ _ Hi) in Ef as (s & Hs & Hv & _).
    rewrite Hs. cbn [mbind option_bind]. rewrite set_seen_moved. eexists. split; [done|].
    split; [by eapply ss_wf_touch|]. right. exists (ss_vip s), s.
    split; [by eapply ss_models_lookup|]. split; [done|]. by apply (ss_models_touch st m l s).
  - exists st. split; [done|]. split; [done|]. left. split; [|done].
    intros v s Hs Hsid. apply Hm in Hs as (l & Hl & _).
    apply (ht_find_None sid l) in Ef. apply Ef, (sw_sid _ Hwf _ _ Hi). eauto.
Qed.

Lemma vf_ss_delete_refines st m v :
  ss_wf st -> ss_models st m ->
  exists st', vf_ss_delete st v = Some st' /\ ss_wf st' /\ ss_models st' (delete v m).
Proof.
  intros Hwf Hm. destruct (shard_of_wf st v Hwf) as (sh & E & Hi).
  unfold vf_ss_delete. rewrite E. cbn [mbind option_bind].
  destruct (ht_find v (ip_table sh)) as [l|] eqn:Ef.
  - apply ht_find_Some, (sw_ip _ Hwf _ _ Hi) in Ef as (s & Hs & <- & _).
    destruct (ss_drop_spec st l s Hwf Hs) as (st' & E' & Hwf' & Hh). exists st'.
    split; [done|]. split; [done|]. by apply (ss_models_drop st st' m l s).
  - exists st. split; [done|]. split; [done|]. rewrite delete_id; [done|].
    apply eq_None_not_Some. intros [s Hs]. apply Hm in Hs as (l & Hl & Hv).
    apply (ht_find_None v l) in Ef. apply Ef, (sw_ip _ Hwf _ _ Hi). eauto.
Qed.

(** ** Iterating over the tables *)

(** The locations a shard's address table lists. *)
Lemma ip_table_locs st i sh l :
  ss_wf st -> g_shards st !! i = Some sh ->
  l ∈ (ht_iter (ip_table sh)).*2 <->
  exists s, ss_heap st !! l = Some s /\ Z.to_nat (vpn_get_shard_idx (ss_vip s)) = i.
Proof.
  intros Hwf Hi. rewrite list_elem_of_fmap. split.
  - intros ([k l0] & -> & Hin). apply (sw_ip _ Hwf _ _ Hi) in Hin as (s & Hs & <- & ?). eauto.
  - intros (s & Hs & Hx). exists (ss_vip s, l). split; [done|]. apply (sw_ip _ Hwf _ _ Hi). eauto.
Qed.

Section sweep.
(** A traversal whose step frees exactly the objects that satisfy [P]; [pr]
    projects the session state out of the traversal's state. *)
Context {A : Type} (pr : A -> sessions T) (I : A -> Prop) (P : vf_session_t -> Prop).
Context `{HP : forall s, Decision (P s)} (f : nat -> A -> positive -> option A).
Context (Hf : forall i a l s, ss_wf (pr a) -> I a -> ss_heap (pr a) !! l = Some s ->
  i = Z.to_nat (vpn_get_shard_idx (ss_vip s)) ->
  exists a', f i a l = Some a' /\ I a' /\ ss_wf (pr a') /\
    ss_heap (pr a') = if decide (P s) then delete l (ss_heap (pr a)) else ss_heap (pr a)).

Lemma sweep_list i a ls :
  ss_wf (pr a) -> I a -> NoDup ls ->
  (forall l, l ∈ ls -> exists s, ss_heap (pr a) !! l = Some s /\ Z.to_nat (vpn_get_shard_idx (ss_vip s)) = i) ->
  exists a', foldM (f i) a ls = Some a' /\ I a' /\ ss_wf (pr a') /\
    (forall l s, ss_heap (pr a') !! l = Some s <-> ss_heap (pr a) !! l = Some s /\ ~ (l ∈ ls /\ P s)).
Proof.
  revert a. induction ls as [|l ls IH]; intros a Hwf HI Hnd Hls.
  - exists a. split; [done|]. split; [done|]. split; [done|]. intros l s. split; [|by intros []].
    intros Hs. split; [done|]. by intros [?%not_elem_of_nil _].
  - apply list.NoDup_cons in Hnd as [Hn Hnd].
    destruct (Hls l ltac:(left)) as (s & Hs & Hi).
    destruct (Hf i a l s Hwf HI Hs (eq_sym Hi)) as (a1 & E1 & HI1 & Hwf1 & Hh1).
    assert (forall l0 s0, ss_heap (pr a1) !! l0 = Some s0 <->
      ss_heap (pr a) !! l0 = Some s0 /\ ~ (l0 = l /\ P s0)) as Hh.
    { intros l0 s0. rewrite Hh1. case_decide as Hp.
      - rewrite lookup_delete_Some. split; intros [H1 H2].
        + split; [done|]. intros [-> _]. done.
        + split; [|done]. intros <-. apply H2. split; [done|]. by simplify_eq.
      - split; [|by intros []]. intros H0. split; [done|]. intros [-> Hp0]. apply Hp. by simplify_eq. }
    cbn [foldM]. rewrite E1. cbn [mbind option_bind].
    destruct (IH a1 Hwf1 HI1 Hnd) as (a' & E' & HI' & Hwf' & Hh').
    { intros l0 Hl0. destruct (Hls l0 ltac:(by right)) as (s0 & Hs0 & Hi0). exists s0. split; [|done].
      apply Hh. split; [done|]. intros [-> _]. done. }
    exists a'. split; [done|]. split; [done|]. split; [done|]. intros l0 s0. rewrite Hh', Hh, elem_of_cons.
    tauto.
Qed.

Lemma sweep_shards idxs a :
  ss_wf (pr a) -> I a -> Forall (fun i => (i < 16)%nat) idxs ->
  exists a', foldM (fun a i => sh ← g_shards (pr a) !! i; foldM (f i) a (ht_iter (ip_table sh)).*2) a idxs = Some a' /\
    I a' /\ ss_wf (pr a') /\
    (forall l s, ss_heap (pr a') !! l = Some s <->
       ss_heap (pr a) !! l = Some s /\ ~ (Z.to_nat (vpn_get_shard_idx (ss_vip s)) ∈ idxs /\ P s)).
Proof.
  intros Hwf HI Hix. revert a Hwf HI. induction Hix as [|i idxs Hi Hix IH]; intros a Hwf HI.
  - exists a. split; [done|]. split; [done|]. split; [done|]. intros l s. split; [|by intros []].
    intros Hs. split; [done|]. by intros [?%not_elem_of_nil _].
  - destruct (lookup_lt_is_Some_2 (g_shards (pr a)) i) as [sh Ei]; [by rewrite (sw_shards _ Hwf)|].
    destruct (sweep_list i a (ht_iter (ip_table sh)).*2 Hwf HI (sw_nodup_ip _ Hwf _ _ Ei))
      as (a1 & E1 & HI1 & Hwf1 & Hh1).
    { intros l Hl. by apply (ip_table_locs _ _ _ _ Hwf Ei). }
    cbn [foldM]. rewrite Ei. cbn [mbind option_bind]. rewrite E1. cbn [mbind option_bind].
    destruct (IH a1 Hwf1 HI1) as (a' & E' & HI' & Hwf' & Hh'). exists a'.
    split; [done|]. split; [done|]. split; [done|]. intros l s. rewrite Hh', Hh1, elem_of_cons.
    rewrite (ip_table_locs _ _ _ _ Hwf Ei). split.
    + intros [[Hs Hn1] Hn2]. split; [done|]. intros [[Hx|Hx] Hp]; [apply Hn1|apply Hn2]; eauto.
    + intros [Hs Hn]. split; [split; [done|]|].
      * intros [(s0 & Hs0 & Hx) Hp]. apply Hn. simplify_eq. eauto.
      * intros [Hx Hp]. apply Hn. eauto.
Qed.

Lemma sweep_all a :
  ss_wf (pr a) -> I a ->
  exists a', foldM (fun a i => sh ← g_shards (pr a) !! i; foldM (f i) a (ht_iter (ip_table sh)).*2) a
               (seq 0 (Z.to_nat VPN_SESSION_SHARD_COUNT)) = Some a' /\
    I a' /\ ss_wf (pr a') /\
    (forall l s, ss_heap (pr a') !! l = Some s <-> ss_heap (pr a) !! l = Some s /\ ~ P s).
Proof.
  intros Hwf HI. destruct (sweep_shards (seq 0 (Z.to_nat VPN_SESSION_SHARD_COUNT)) a Hwf HI)
    as (a' & E & HI' & Hwf' & Hh).
  { apply list.Forall_forall. intros i Hi%elem_of_seq.
    unfold VPN_SESSION_SHARD_COUNT in Hi. lia. }
  exists a'. split; [done|]. split; [done|]. split; [done|]. intros l s. rewrite Hh.
  assert (Z.to_nat (vpn_get_shard_idx (ss_vip s)) ∈ seq 0 (Z.to_nat VPN_SESSION_SHARD_COUNT)) as Hin.
  { apply elem_of_seq. pose proof (shard_idx_range (ss_vip s)). lia. }
  tauto.
Qed.
End sweep.

Definition pool_opt_wf (p : option vpn_ip_pool_t) : Prop :=
  match p with None => True | Some p => pool_wf p end.

Lemma vf_ss_clean_timeout_refines st ipp m timeout now :
  ss_wf st -> pool_opt_wf ipp -> ss_models st m ->
  exists st' ipp', vf_ss_clean_timeout st ipp timeout now = Some (st', ipp') /\ ss_wf st' /\
    pool_opt_wf ipp' /\ ss_models st' (filter (fun '(_, s) => now - ss_last_seen s <= timeout) m).
Proof.
  intros Hwf Hp Hm. unfold vf_ss_clean_timeout.
  destruct (sweep_all fst (fun a => pool_opt_wf a.2) (fun s => timeout < now - ss_last_seen s)
    (ss_clean_one now timeout)) with (a := (st, ipp)) as ([st' ipp'] & E & HI & Hwf' & Hh); [|done..|].
  - intros i [st0 p0] l s Hwf0 HI0 Hs ->. cbn [fst snd] in *. unfold ss_clean_one. rewrite Hs.
    cbn [mbind option_bind].
    destruct (Z.ltb_spec timeout (now - ss_last_seen s)) as [Hlt|Hge].
    + assert (exists p1, match p0 with None => Some None | Some p => Some <$> vf_ip_pool_free p (ss_vip s) end
               = Some p1 /\ pool_opt_wf p1) as (p1 & -> & Hp1).
      { destruct p0 as [p|]; [|by exists None]. destruct (vf_ip_pool_free_total p (ss_vip s) HI0) as (p1 & -> & ?).
        by exists (Some p1). }
      cbn [mbind option_bind]. destruct (ss_drop_spec st0 l s Hwf0 Hs) as (st1 & -> & Hwf1 & Hh1).
      cbn [mbind option_bind]. eexists. split; [done|]. rewrite decide_True by done. done.
    + eexists. split; [done|]. rewrite decide_False by lia. done.
  - exists st', ipp'. split; [exact E|]. split; [done|]. split; [done|].
    intros v s. rewrite map_lookup_filter_Some, (Hm v s). cbn [fst] in Hh. setoid_rewrite Hh. split.
    + intros [(l & Hl & Hv) Hle]. exists l. split; [split; [done|lia]|done].
    + intros (l & [Hl Hle] & Hv). split; [eauto|lia].
Qed.

Lemma vf_ss_destroy_refines st :
  ss_wf st -> exists st', vf_ss_destroy st = Some st' /\ ss_wf st' /\ ss_models st' ∅.
Proof.
  intros Hwf. unfold vf_ss_destroy.
  destruct (sweep_all (fun a : sessions T => a) (fun _ => True) (fun _ => True)
    (fun i st l => ss_drop i l st)) with (a := st) as (st' & E & _ & Hwf' & Hh); [|done..|].
  - intros i st0 l s Hwf0 _ Hs ->. destruct (ss_drop_spec st0 l s Hwf0 Hs) as (st1 & E1 & Hwf1 & Hh1).
    exists st1. rewrite decide_True by done. done.
  - exists st'. split; [exact E|]. split; [done|]. intros v s. rewrite lookup_empty. split; [done|].
    intros (l & [_ Hl]%Hh & _). by destruct Hl.
Qed.

(** ** Scanning *)

Lemma elem_of_concat {A} (x : A) (ls : list (list A)) :
  x ∈ concat ls <-> exists l, x ∈ l /\ l ∈ ls.
Proof.
  induction ls as [|l ls IH]; cbn.
  - split; [by intros ?%not_elem_of_nil|by intros (l & _ & ?%not_elem_of_nil)].
  - rewrite elem_of_app, IH. setoid_rewrite elem_of_cons. split.
    + intros [Hx|(l' & Hx & Hl)]; eauto.
    + intros (l' & Hx & [-> |Hl]); eauto.
Qed.

Lemma NoDup_concat {A} (ls : list (list A)) :
  (forall i l, ls !! i = Some l -> NoDup l) ->
  (forall i j li lj x, ls !! i = Some li -> ls !! j = Some lj -> x ∈ li -> x ∈ lj -> i = j) ->
  NoDup (concat ls).
Proof.
  induction ls as [|l ls IH]; intros Hn Hd; cbn; [constructor|].
  apply list.NoDup_app. split; [by apply (Hn 0%nat)|]. split.
  - intros x Hx Hx'. apply elem_of_concat in Hx' as (l' & Hxl & Hl').
    apply list_elem_of_lookup in Hl' as [i Hi].
    by specialize (Hd 0%nat (S i) l l' x eq_refl Hi Hx Hxl).
  - apply IH.
    + intros i l' Hi. by apply (Hn (S i)).
    + intros i j li lj x Hi Hj H1 H2. by specialize (Hd (S i) (S j) li lj x Hi Hj H1 H2) as [= ->].
Qed.

Definition all_locs (st : sessions T) : list positive :=
  concat ((fun sh => (ht_iter (ip_table sh)).*2) <$> g_shards st).

Lemma all_locs_perm st : ss_wf st -> all_locs st ≡ₚ (map_to_list (ss_heap st)).*1.
Proof.
  intros Hwf. apply NoDup_Permutation.
  - apply NoDup_concat.
    + intros i l Hi. apply list_lookup_fmap_Some in Hi as (sh & -> & Hi). by eapply (sw_nodup_ip _ Hwf).
    + intros i j li lj x Hi Hj H1 H2.
      apply list_lookup_fmap_Some in Hi as (sh1 & -> & Hi). apply list_lookup_fmap_Some in Hj as (sh2 & -> & Hj).
      pose proof (proj1 (ip_table_locs _ _ _ _ Hwf Hi) H1) as (s1 & Hs1 & <-).
      pose proof (proj1 (ip_table_locs _ _ _ _ Hwf Hj) H2) as (s2 & Hs2 & <-). by simplify_eq.
  - apply NoDup_fst_map_to_list.
  - intros l. unfold all_locs. rewrite elem_of_concat, list_elem_of_fmap. split.
    + intros (ls & Hl & Hls). apply list_elem_of_fmap in Hls as (sh & -> & Hsh).
      apply list_elem_of_lookup in Hsh as [i Hi].
      pose proof (proj1 (ip_table_locs _ _ _ _ Hwf Hi) Hl) as (s & Hs & _). exists (l, s). split; [done|].
      by apply elem_of_map_to_list.
    + intros ([l0 s] & -> & Hs). apply elem_of_map_to_list in Hs. cbn.
      destruct (shard_of_wf st (ss_vip s) Hwf) as (sh & _ & Hi).
      exists (ht_iter (ip_table sh)).*2. split; [apply (ip_table_locs _ _ _ _ Hwf Hi); eauto|].
      apply list_elem_of_fmap. exists sh. split; [done|]. by eapply list_elem_of_lookup_2.
Qed.

(** The node the scan writes for a session, if it is idle for long enough. *)
Definition expired_node (h : gmap positive vf_session_t) (probe_sec dead_sec now : Z) (l : positive)
    : option vf_expired_node_t :=
  s ← h !! l;
  let idle := now - ss_last_seen s in
  if probe_sec <=? idle
  then Some {| ex_sid := ss_sid s; ex_vip := ss_vip s; ex_remote_addr := ss_remote_addr s;
               ex_is_dead := dead_sec <=? idle |}
  else None.

Lemma ss_expired_shard_spec h ls n p d now acc :
  (length acc < n)%nat -> (forall l, l ∈ ls -> is_Some (h !! l)) ->
  ss_expired_shard h ls n p d now acc = Some (take n (acc ++ omap (expired_node h p d now) ls)).
Proof.
  revert acc. induction ls as [|l ls IH]; intros acc Hacc Hls.
  - cbn. rewrite app_nil_r, take_ge by lia. done.
  - destruct (Hls l ltac:(left)) as [s Hs]. cbn [ss_expired_shard omap list_omap]. rewrite Hs.
    unfold expired_node at 1. rewrite Hs. cbn [mbind option_bind].
    assert (forall l0, l0 ∈ ls -> is_Some (h !! l0)) as Hls' by (intros l0 Hl0; apply Hls; by right).
    destruct (p <=? now - ss_last_seen s); [|by apply IH].
    case_decide as Hd.
    + f_equal. rewrite length_app in Hd. cbn in Hd.
      match goal with |- ?l = take _ (acc ++ ?x :: ?r) => change (x :: r) with ([x] ++ r) end.
      rewrite app_assoc, take_app_le by (rewrite length_app; cbn; lia).
      rewrite take_ge by (rewrite length_app; cbn; lia). done.
    + rewrite IH by (lia || done). by rewrite <- app_assoc.
Qed.

(** With no room the first idle session is written all the same, and the scan
    ends with its shard. *)
Lemma ss_expired_shard_0 h ls p d now :
  (forall l, l ∈ ls -> is_Some (h !! l)) ->
  ss_expired_shard h ls 0 p d now [] = Some (take 1 (omap (expired_node h p d now) ls)).
Proof.
  induction ls as [|l ls IH]; intros Hls; [done|].
  destruct (Hls l ltac:(left)) as [s Hs]. cbn [ss_expired_shard omap list_omap]. rewrite Hs.
  unfold expired_node at 1. rewrite Hs. cbn [mbind option_bind]. destruct (p <=? now - ss_last_seen s).
  - by rewrite decide_True by lia.
  - apply IH. intros l0 Hl0. apply Hls. by right.
Qed.

Lemma ss_expired_shards_spec h shs n p d now acc :
  (length acc < n)%nat -> (forall l, l ∈ concat ((fun sh => (ht_iter (ip_table sh)).*2) <$> shs) -> is_Some (h !! l)) ->
  ss_expired_shards (T := T) h shs n p d now acc =
  Some (take n (acc ++ omap (expired_node h p d now) (concat ((fun sh => (ht_iter (ip_table sh)).*2) <$> shs)))).
Proof.
  revert acc. induction shs as [|sh shs IH]; intros acc Hacc Hls.
  - cbn. rewrite app_nil_r, take_ge by lia. done.
  - cbn [ss_expired_shards fmap list_fmap concat] in *. rewrite ss_expired_shard_spec; [|done|].
    2: { intros l Hl. apply Hls, elem_of_app. by left. }
    cbn [mbind option_bind]. rewrite omap_app, app_assoc.
    set (x := acc ++ omap _ (ht_iter (ip_table sh)).*2). case_decide as Hd.
    + rewrite length_take in Hd. rewrite take_app_le by lia. done.
    + rewrite length_take in Hd. rewrite (take_ge x) by lia. apply IH; [lia|].
      intros l Hl. apply Hls, elem_of_app. by right.
Qed.

Lemma vf_ss_get_expired_spec st n p d now :
  ss_wf st -> (0 < n)%nat ->
  vf_ss_get_expired st n p d now = Some (take n (omap (expired_node (ss_heap st) p d now) (all_locs st))).
Proof.
  intros Hwf Hn. unfold vf_ss_get_expired. rewrite ss_expired_shards_spec; [done|cbn; lia|].
  intros l Hl. change (l ∈ all_locs st) in Hl. rewrite (all_locs_perm st Hwf) in Hl.
  apply list_elem_of_fmap in Hl as ([l0 s] & -> & Hs). apply elem_of_map_to_list in Hs. cbn. eauto.
Qed.

Lemma total_count_length shs t :
  fold_left (fun total (sh : vf_session_shard_t T) => u32 (total + Z.of_nat (ht_count (ip_table sh)))) shs (u32 t) =
  u32 (t + Z.of_nat (length (concat ((fun sh => (ht_iter (ip_table sh)).*2) <$> shs)))).
Proof.
  revert t. induction shs as [|sh shs IH]; intros t; cbn [fold_left fmap list_fmap concat].
  - by rewrite Z.add_0_r.
  - rewrite wrap_add_l, IH. f_equal. rewrite length_app, length_fmap, ht_count_iter. lia.
Qed.

Lemma vf_ss_get_total_count_spec st :
  ss_wf st -> vf_ss_get_total_count st = u32 (Z.of_nat (size (ss_heap st))).
Proof.
  intros Hwf. unfold vf_ss_get_total_count. change 0 with (u32 0) at 1. rewrite total_count_length.
  f_equal. pose proof (all_locs_perm st Hwf) as Hp. apply Permutation_length in Hp.
  unfold all_locs in Hp. rewrite Hp, length_fmap, length_map_to_list. lia.
Qed.

Lemma ss_models_size st m : ss_wf st -> ss_models st m -> size m = size (ss_heap st).
Proof.
  intros Hwf Hm.
  assert ((map_to_list m).*2 ≡ₚ (map_to_list (ss_heap st)).*2) as Hp.
  { apply NoDup_Permutation.
    - apply NoDup_alt. intros i j s Hi Hj.
      apply list_lookup_fmap_Some in Hi as ([v1 s1] & E1 & Hi). apply list_lookup_fmap_Some in Hj as ([v2 s2] & E2 & Hj).
      cbn in E1, E2. subst s1 s2.
      pose proof (list_elem_of_lookup_2 _ _ _ Hi) as H1. apply elem_of_map_to_list in H1.
      pose proof (list_elem_of_lookup_2 _ _ _ Hj) as H2. apply elem_of_map_to_list in H2.
      apply (ss_models_vip _ _ _ _ Hm) in H1, H2. subst v1 v2.
      exact (NoDup_lookup _ _ _ _ (NoDup_map_to_list m) Hi Hj).
    - apply NoDup_alt. intros i j s Hi Hj.
      apply list_lookup_fmap_Some in Hi as ([v1 s1] & E1 & Hi). apply list_lookup_fmap_Some in Hj as ([v2 s2] & E2 & Hj).
      cbn in E1, E2. subst s1 s2.
      pose proof (list_elem_of_lookup_2 _ _ _ Hi) as H1. apply elem_of_map_to_list in H1.
      pose proof (list_elem_of_lookup_2 _ _ _ Hj) as H2. apply elem_of_map_to_list in H2.
      assert (v1 = v2) as -> by (by apply (sw_unique _ Hwf _ _ s s)).
      exact (NoDup_lookup _ _ _ _ (NoDup_map_to_list (ss_heap st)) Hi Hj).
    - intros s. rewrite !list_elem_of_fmap. split.
      + intros ([v s0] & -> & Hv). apply elem_of_map_to_list, Hm in Hv as (l & Hl & _).
        exists (l, s0). split; [done|]. by apply elem_of_map_to_list.
      + intros ([l s0] & -> & Hl). apply elem_of_map_to_list in Hl. exists (ss_vip s0, s0). split; [done|].
        apply elem_of_map_to_list. by eapply ss_models_lookup. }
  apply Permutation_length in Hp. by rewrite !length_fmap, !length_map_to_list in Hp.
Qed.

(** ** Runs of the manager against a finite map *)

(** The calls the handlers and the maintenance loop make. *)
Inductive ss_op :=
| OpUpdate (v sid : Z) (addr : option sockaddr_in) (e : ss_env)
| OpUpdateBySid (sid : Z) (addr : option sockaddr_in) (now : Z)
| OpDelete (v : Z)
| OpCleanTimeout (timeout_sec now : Z)
| OpDestroy.

Definition ss_step (a : sessions T * option vpn_ip_pool_t) (op : ss_op)
    : option (sessions T * option vpn_ip_pool_t) :=
  let '(st, ipp) := a in
  match op with
  | OpUpdate v sid addr e => st ← vf_ss_update st v sid addr e; Some (st, ipp)
  | OpUpdateBySid sid addr now => st ← vf_ss_update_by_sid st sid addr now; Some (st, ipp)
  | OpDelete v => st ← vf_ss_delete st v; Some (st, ipp)
  | OpCleanTimeout timeout now => vf_ss_clean_timeout st ipp timeout now
  | OpDestroy => st ← vf_ss_destroy st; Some (st, ipp)
  end.

(** What each call promises about the map from virtual addresses. *)
Inductive spec_step : gmap Z vf_session_t -> ss_op -> gmap Z vf_session_t -> Prop :=
| spec_null m v sid e : spec_step m (OpUpdate v sid None e) m
| spec_put m v sid a e sec :
    vf_rekey_init (se_getrandom e) (se_now e) sid = Some sec ->
    spec_step m (OpUpdate v sid (Some a) e) (spec_update m v sid a e sec)
| spec_sid_null m sid now : spec_step m (OpUpdateBySid sid None now) m
| spec_sid_miss m sid a now :
    (forall v s, m !! v = Some s -> ss_sid s <> sid) -> spec_step m (OpUpdateBySid sid (Some a) now) m
| spec_sid_hit m sid a now v s :
    m !! v = Some s -> ss_sid s = sid ->
    spec_step m (OpUpdateBySid sid (Some a) now) (<[v := set_seen a now s]> m)
| spec_delete m v : spec_step m (OpDelete v) (delete v m)
| spec_clean m timeout now :
    spec_step m (OpCleanTimeout timeout now) (filter (fun '(_, s) => now - ss_last_seen s <= timeout) m)
| spec_destroy m : spec_step m OpDestroy ∅.

Inductive spec_run : gmap Z vf_session_t -> list ss_op -> gmap Z vf_session_t -> Prop :=
| spec_run_nil m : spec_run m [] m
| spec_run_cons m op m1 ops m2 : spec_step m op m1 -> spec_run m1 ops m2 -> spec_run m (op :: ops) m2.

(** The identifier of a call is in the shard of its address, as
    [vf_ss_generate_sid] makes it, and the key generation returns. *)
Definition op_ok (op : ss_op) : Prop :=
  match op with
  | OpUpdate v sid (Some _) e =>
      vpn_get_shard_idx sid = vpn_get_shard_idx v /\
      is_Some (vf_rekey_init (se_getrandom e) (se_now e) sid)
  | _ => True
  end.

#[export] Instance op_ok_dec op : Decision (op_ok op).
Proof. destruct op as [v sid [a|] e|sid [a|] now|v|t n|]; cbn; apply _. Defined.

Lemma ss_step_refines st ipp m op :
  ss_wf st -> pool_opt_wf ipp -> ss_models st m -> op_ok op ->
  exists st' ipp' m', ss_step (st, ipp) op = Some (st', ipp') /\ ss_wf st' /\ pool_opt_wf ipp' /\
    ss_models st' m' /\ spec_step m op m'.
Proof.
  intros Hwf Hp Hm Hop. destruct op as [v sid [a|] e|sid [a|] now|v|t n|]; cbn [ss_step].
  - destruct Hop as [Hal [sec Hsec]].
    destruct (vf_ss_update_refines st m v sid a e sec Hwf Hm Hal Hsec) as (st' & -> & ? & ?).
    exists st', ipp. eexists. repeat (split; [done|]). by constructor.
  - exists st, ipp, m. repeat (split; [done|]). constructor.
  - destruct (vf_ss_update_by_sid_refines st m sid a now Hwf Hm) as (st' & -> & ? & [[? ?]|(v & s & ? & ? & ?)]).
    + exists st', ipp, m. repeat (split; [done|]). by constructor.
    + exists st', ipp. eexists. repeat (split; [done|]). by econstructor.
  - exists st, ipp, m. repeat (split; [done|]). constructor.
  - destruct (vf_ss_delete_refines st m v Hwf Hm) as (st' & -> & ? & ?).
    exists st', ipp. eexists. repeat (split; [done|]). constructor.
  - destruct (vf_ss_clean_timeout_refines st ipp m t n Hwf Hp Hm) as (st' & ipp' & -> & ? & ? & ?).
    exists st', ipp'. eexists. repeat (split; [done|]). constructor.
  - destruct (vf_ss_destroy_refines st Hwf) as (st' & -> & ? & ?).
    exists st', ipp, ∅. repeat (split; [done|]). constructor.
Qed.

Lemma ss_run_refines st ipp m ops :
  ss_wf st -> pool_opt_wf ipp -> ss_models st m -> Forall op_ok ops ->
  exists st' ipp' m', foldM ss_step (st, ipp) ops = Some (st', ipp') /\ ss_wf st' /\ pool_opt_wf ipp' /\
    ss_models st' m' /\ spec_run m ops m'.
Proof.
  intros Hwf Hp Hm Hops. revert st ipp m Hwf Hp Hm.
  induction Hops as [|op ops Hop _ IH]; intros st ipp m Hwf Hp Hm.
  - exists st, ipp, m. repeat (split; [done|]). constructor.
  - destruct (ss_step_refines st ipp m op Hwf Hp Hm Hop) as (st1 & ipp1 & m1 & E & Hwf1 & Hp1 & Hm1 & Hs).
    cbn [foldM]. rewrite E. cbn [mbind option_bind].
    destruct (IH st1 ipp1 m1 Hwf1 Hp1 Hm1) as (st' & ipp' & m' & E' & ? & ? & ? & ?).
    exists st', ipp', m'. repeat (split; [done|]). by econstructor.
Qed.

(** The session a lookup reaches through the pointer it returns. *)
Definition find_by_ip st (v : Z) : option (option vf_session_t) :=
  r ← vf_ss_lookup_by_ip st v; Some (l ← r; ss_heap st !! l).
Definition find_by_sid st (sid : Z) : option (option vf_session_t) :=
  r ← vf_ss_lookup_by_sid st sid; Some (l ← r; ss_heap st !! l).

Lemma find_by_ip_models st m v : ss_wf st -> ss_models st m -> find_by_ip st v = Some (m !! v).
Proof.
  intros Hwf Hm. unfold find_by_ip. destruct (lookup_by_ip_wf st v Hwf) as ([l|] & -> & Hr); cbn.
  - destruct Hr as (s & Hs & <-). rewrite Hs. f_equal. symmetry. by eapply ss_models_lookup.
  - f_equal. symmetry. apply eq_None_not_Some. intros [s (l & Hl & Hv)%Hm]. by eapply Hr.
Qed.

Lemma find_by_sid_models st m sid :
  ss_wf st -> ss_models st m ->
  exists r, find_by_sid st sid = Some r /\
    match r with
    | Some s => ss_sid s = sid /\ m !! ss_vip s = Some s
    | None => forall v s, m !! v = Some s -> ss_sid s <> sid
    end.
Proof.
  intros Hwf Hm. unfold find_by_sid. destruct (lookup_by_sid_wf st sid Hwf) as ([l|] & -> & Hr); cbn.
  - destruct Hr as (s & Hs & Hv). rewrite Hs. eexists. split; [done|]. split; [done|]. by eapply ss_models_lookup.
  - eexists. split; [done|]. intros v s (l & Hl & _)%Hm. by eapply Hr.
Qed.

(** C10 The session manager refines a finite map from virtual addresses to
    sessions.  Every sequence of calls from [vf_ss_init] (updates by address
    and by identifier, deletions, timeouts that hand addresses back to the
    pool, destruction) completes; the map follows the calls as
    [spec_step] says; a lookup by address returns exactly the map's session;
    a lookup by identifier returns a session of the map that bears it, and
    fails only when none does; and the count is the size of the map. *)
Theorem sessions_refine_map ops ipp :
  Forall op_ok ops -> pool_opt_wf ipp ->
  exists st ipp' m, foldM ss_step (vf_ss_init ∅, ipp) ops = Some (st, ipp') /\ spec_run ∅ ops m /\
    pool_opt_wf ipp' /\
    (forall v, find_by_ip st v = Some (m !! v)) /\
    (forall sid, exists r, find_by_sid st sid = Some r /\
       match r with
       | Some s => ss_sid s = sid /\ m !! ss_vip s = Some s
       | None => forall v s, m !! v = Some s -> ss_sid s <> sid
       end) /\
    vf_ss_get_total_count st = u32 (Z.of_nat (size m)).
Proof.
  intros Hops Hp.
  destruct (ss_run_refines (vf_ss_init ∅) ipp ∅ ops vf_ss_init_wf Hp) as (st & ipp' & m & E & Hwf & Hp' & Hm & Hr);
    [|done|].
  { intros v s. rewrite lookup_empty. split; [done|]. intros (l & Hl & _). cbn in Hl. by rewrite lookup_empty in Hl. }
  exists st, ipp', m. split; [done|]. split; [done|]. split; [done|].
  split; [intros; by apply find_by_ip_models|]. split; [intros; by apply find_by_sid_models|].
  rewrite vf_ss_get_total_count_spec, (ss_models_size st m) by done. done.
Qed.

(** A session entered under an identifier that [vf_ss_generate_sid] made
    is found by both keys: whatever the random source returned, the
    identifier falls in the shard that holds the address, so the lookup by
    identifier searches the right shard and, when no other session bears the
    identifier, returns the very session the address gives, with the peer
    address and the time of the call. *)
Theorem generated_sid_routes st m v rnd r a e :
  ss_wf st -> ss_models st m ->
  let sid := vf_ss_generate_sid v rnd r in
  is_Some (vf_rekey_init (se_getrandom e) (se_now e) sid) ->
  (forall w s, w <> v -> m !! w = Some s -> ss_sid s <> sid) ->
  exists st' s, vf_ss_update st v sid (Some a) e = Some st' /\
    find_by_ip st' v = Some (Some s) /\ find_by_sid st' sid = Some (Some s) /\
    ss_sid s = sid /\ ss_vip s = v /\ ss_remote_addr s = a /\ ss_last_seen s = se_now e /\
    (forall w, w <> v -> find_by_ip st' w = find_by_ip st w).
Proof.
  intros Hwf Hm sid [sec Hsec] Hno.
  destruct (vf_ss_update_refines st m v sid a e sec Hwf Hm (generate_sid_aligned v rnd r) Hsec)
    as (st' & E & Hwf' & Hm').
  set (m' := spec_update m v sid a e sec) in *.
  assert (exists s, m' !! v = Some s /\ ss_sid s = sid /\ ss_vip s = v /\ ss_remote_addr s = a /\
    ss_last_seen s = se_now e) as (s & Hs & H1 & H2 & H3 & H4).
  { unfold m', spec_update. rewrite lookup_insert_eq. eexists. split; [done|].
    destruct (m !! v) as [s|] eqn:Ev; [|done]. by rewrite <- (ss_models_vip _ _ _ _ Hm Ev). }
  exists st', s. split; [done|]. rewrite (find_by_ip_models st' m' v Hwf' Hm'), Hs. split; [done|].
  split; [|repeat (split; [done|])].
  - destruct (find_by_sid_models st' m' sid Hwf' Hm') as ([s'|] & -> & Hr); [|by edestruct Hr].
    destruct Hr as [Hsid Hs']. destruct (decide (ss_vip s' = v)) as [Hv|Hv].
    { rewrite Hv, Hs in Hs'. by injection Hs' as ->. }
    unfold m', spec_update in Hs'. rewrite lookup_insert_ne in Hs' by done. by destruct (Hno _ _ Hv Hs').
  - intros w Hw. rewrite (find_by_ip_models st' m'), (find_by_ip_models st m) by done.
    unfold m', spec_update. by rewrite lookup_insert_ne.
Qed.

Lemma all_locs_NoDup st : ss_wf st -> NoDup (all_locs st).
Proof. intros Hwf. rewrite (all_locs_perm st Hwf). apply NoDup_fst_map_to_list. Qed.

Lemma expired_node_vip h p d now l nd :
  expired_node h p d now l = Some nd ->
  exists s, h !! l = Some s /\ ss_vip s = ex_vip nd /\ ss_sid s = ex_sid nd /\
    ss_remote_addr s = ex_remote_addr nd /\ p <= now - ss_last_seen s /\
    ex_is_dead nd = (d <=? now - ss_last_seen s).
Proof.
  unfold expired_node. destruct (h !! l) as [s|]; [|done]. cbn [mbind option_bind].
  destruct (Z.leb_spec p (now - ss_last_seen s)); [|done]. intros [= <-]. by exists s.
Qed.

Lemma expired_vips_NoDup st p d now ls :
  ss_wf st -> NoDup ls -> NoDup (ex_vip <$> omap (expired_node (ss_heap st) p d now) ls).
Proof.
  intros Hwf. induction ls as [|l ls IH]; [constructor|]. intros [Hn Hd]%list.NoDup_cons.
  cbn [omap list_omap]. destruct (expired_node _ p d now l) as [nd|] eqn:E; [|auto].
  cbn [fmap list_fmap]. apply list.NoDup_cons. split; [|auto].
  intros Hx. apply list_elem_of_fmap in Hx as (nd' & Ev & Hnd).
  apply list_elem_of_omap in Hnd as (l' & Hl' & E').
  apply expired_node_vip in E as (s & Hs & Hv & _). apply expired_node_vip in E' as (s' & Hs' & Hv' & _).
  apply Hn. by rewrite (sw_unique _ Hwf l l' s s' Hs Hs' ltac:(congruence)).
Qed.

Lemma idle_scan_exact st m n p d now :
  ss_wf st -> ss_models st m -> (0 < n)%nat ->
  exists nodes, vf_ss_get_expired st n p d now = Some nodes /\ (length nodes <= n)%nat /\
    NoDup (ex_vip <$> nodes) /\
    (forall nd, nd ∈ nodes -> exists s, m !! ex_vip nd = Some s /\ ss_sid s = ex_sid nd /\
       ss_remote_addr s = ex_remote_addr nd /\ p <= now - ss_last_seen s /\
       ex_is_dead nd = (d <=? now - ss_last_seen s)) /\
    ((length nodes < n)%nat -> forall v s, m !! v = Some s -> p <= now - ss_last_seen s ->
       v ∈ ex_vip <$> nodes).
Proof.
  intros Hwf Hm Hn. rewrite vf_ss_get_expired_spec by done. eexists. split; [done|].
  set (all := omap (expired_node (ss_heap st) p d now) (all_locs st)).
  assert (NoDup (ex_vip <$> all)) as Hnd by (apply expired_vips_NoDup; [done|by apply all_locs_NoDup]).
  split; [rewrite length_take; lia|]. split.
  { rewrite <- (take_drop n all), fmap_app in Hnd. by apply list.NoDup_app in Hnd as [? _]. }
  split.
  - intros nd Hin. assert (nd ∈ all) as Ha by (rewrite <- (take_drop n all); apply elem_of_app; by left).
    apply list_elem_of_omap in Ha as (l & _ & E). apply expired_node_vip in E as (s & Hs & Hv & H).
    exists s. split; [|done]. apply Hm. eauto.
  - intros Hlt v s Hv Hp. rewrite length_take in Hlt. rewrite take_ge by lia.
    apply Hm in Hv as (l & Hl & Hv).
    assert (l ∈ all_locs st) as Hin.
    { rewrite (all_locs_perm st Hwf). apply list_elem_of_fmap. exists (l, s). split; [done|].
      by apply elem_of_map_to_list. }
    apply list_elem_of_fmap. eexists. split; [|apply list_elem_of_omap; exists l; split; [done|]].
    2: { unfold expired_node. rewrite Hl. cbn [mbind option_bind].
         destruct (Z.leb_spec p (now - ss_last_seen s)); [done|lia]. }
    by cbn.
Qed.

(** The first shard alone. *)
Lemma idle_scan_0 st m p d now :
  ss_wf st -> ss_models st m ->
  exists nodes, vf_ss_get_expired st 0 p d now = Some nodes /\ (length nodes <= 1)%nat /\
    (forall nd, nd ∈ nodes -> exists s, m !! ex_vip nd = Some s /\ ss_sid s = ex_sid nd /\
       ss_remote_addr s = ex_remote_addr nd /\ p <= now - ss_last_seen s /\
       ex_is_dead nd = (d <=? now - ss_last_seen s) /\ vpn_get_shard_idx (ex_vip nd) = 0) /\
    (nodes = [] -> forall v s, m !! v = Some s -> vpn_get_shard_idx v = 0 -> now - ss_last_seen s < p).
Proof.
  intros Hwf Hm. assert (forall v, Z.to_nat (vpn_get_shard_idx v) = 0%nat <-> vpn_get_shard_idx v = 0) as Hidx.
  { intros v. assert (0 <= vpn_get_shard_idx v); [|lia]. unfold vpn_get_shard_idx. apply Z.land_nonneg. by right. }
  destruct (lookup_lt_is_Some_2 (g_shards st) 0) as [sh Esh]; [rewrite (sw_shards _ Hwf); lia|].
  assert (forall v l, (v, l) ∈ ht_iter (ip_table sh) <-> exists s, ss_heap st !! l = Some s /\ ss_vip s = v /\ vpn_get_shard_idx v = 0) as Hip.
  { intros v l. rewrite (sw_ip _ Hwf _ _ Esh). by setoid_rewrite Hidx. }
  set (ls := (ht_iter (ip_table sh)).*2).
  assert (forall l, l ∈ ls -> exists s, ss_heap st !! l = Some s /\ vpn_get_shard_idx (ss_vip s) = 0) as Hls.
  { intros l Hl. apply list_elem_of_fmap in Hl as ([v l0] & -> & Hin). apply Hip in Hin as (s & Hs & <- & H0). eauto. }
  exists (take 1 (omap (expired_node (ss_heap st) p d now) ls)). split.
  { unfold vf_ss_get_expired. destruct (g_shards st) as [|sh0 shs]; [done|]. injection Esh as ->. cbn [ss_expired_shards].
    fold ls. rewrite ss_expired_shard_0 by (intros l Hl; destruct (Hls l Hl) as (s & ? & _); eauto). cbn [mbind option_bind]. by rewrite decide_True by lia. }
  split; [rewrite length_take; lia|]. split.
  - intros nd Hnd. assert (nd ∈ omap (expired_node (ss_heap st) p d now) ls) as Ha by (rewrite <- (take_drop 1 (omap _ ls)); apply elem_of_app; by left).
    apply list_elem_of_omap in Ha as (l & Hl & E). apply expired_node_vip in E as (s & Hs & Hv & ? & ? & ? & ?).
    destruct (Hls l Hl) as (s2 & Hs2 & Hi0). rewrite Hs in Hs2. injection Hs2 as <-. exists s.
    split; [apply Hm; eauto|]. by rewrite <- Hv.
  - intros E v s Hv H0. apply Hm in Hv as (l & Hl & Hv). destruct (Z.lt_ge_cases (now - ss_last_seen s) p) as [|Hp]; [done|exfalso].
    destruct (omap (expired_node (ss_heap st) p d now) ls) as [|x xs] eqn:Eo; [|done].
    assert (l ∈ ls) as Hin by (apply list_elem_of_fmap; exists (v, l); split; [done|apply Hip; eauto]).
    assert (exists nd, nd ∈ omap (expired_node (ss_heap st) p d now) ls) as [nd Hnd]; [|rewrite Eo in Hnd; by apply not_elem_of_nil in Hnd].
    eexists. apply list_elem_of_omap. exists l. split; [done|]. unfold expired_node. rewrite Hl. cbn [mbind option_bind].
    destruct (Z.leb_spec p (now - ss_last_seen s)); [done|lia].
Qed.

(** C11 The idle scan, for every [max_count].  Every node it writes is the
    identifier, address and peer of a session idle for at least [probe_sec],
    marked dead exactly when it has been idle for [dead_sec], and no session
    is written twice.  With room for at least one node it never writes more
    than [max_count], and a scan that stays below the bound wrote every such
    session.  With room for none the bound is tested after the write: one node
    is written past the list as soon as the first shard holds a session that
    is idle, and no other shard is looked at. *)
Theorem get_expired_exact st m n p d now :
  ss_wf st -> ss_models st m ->
  exists nodes, vf_ss_get_expired st n p d now = Some nodes /\ NoDup (ex_vip <$> nodes) /\
    (forall nd, nd ∈ nodes -> exists s, m !! ex_vip nd = Some s /\ ss_sid s = ex_sid nd /\
       ss_remote_addr s = ex_remote_addr nd /\ p <= now - ss_last_seen s /\
       ex_is_dead nd = (d <=? now - ss_last_seen s)) /\
    ((0 < n)%nat -> (length nodes <= n)%nat /\
       ((length nodes < n)%nat -> forall v s, m !! v = Some s -> p <= now - ss_last_seen s -> v ∈ ex_vip <$> nodes)) /\
    (n = 0%nat -> (length nodes <= 1)%nat /\
       (length nodes = 1%nat <-> exists v s, m !! v = Some s /\ vpn_get_shard_idx v = 0 /\ p <= now - ss_last_seen s)).
Proof.
  intros Hwf Hm. destruct n as [|n].
  - destruct (idle_scan_0 st m p d now Hwf Hm) as (nodes & E & Hl & Hs & Hn). exists nodes. split; [done|].
    split; [destruct nodes as [|x [|]]; [constructor|apply NoDup_singleton|cbn in Hl; lia]|]. split.
    { intros nd Hnd. destruct (Hs nd Hnd) as (s & ? & ? & ? & ? & ? & _). by exists s. }
    split; [lia|]. intros _. split; [done|]. split.
    + intros H1. destruct nodes as [|nd]; [done|]. destruct (Hs nd ltac:(left)) as (s & Hv & _ & _ & Hp & _ & H0). by exists (ex_vip nd), s.
    + intros (v & s & Hv & H0 & Hp). destruct nodes as [|x [|]]; [|done|cbn in Hl; lia]. pose proof (Hn eq_refl v s Hv H0). lia.
  - destruct (idle_scan_exact st m (S n) p d now Hwf Hm ltac:(lia)) as (nodes & E & Hl & Hnd & Hs & Hc).
    exists nodes. by repeat (split; [done|]).
Qed.
End invariant.

(** * Instances *)

Definition demo_addr : sockaddr_in := {| sin_addr := 0x0100000A; sin_port := 0x5000 |}.
Definition demo_sid (v : Z) : Z := vf_ss_generate_sid v (Some 0xDEADBEEF) 0.
Definition demo_ss_env (now : Z) : ss_env :=
  {| se_now := now; se_getrandom := [GrErr EINTR; GrBytes (replicate 32 7)]; se_next_seq0 := 0 |}.
Definition demo_ops : list ss_op :=
  [OpUpdate 0x0202000A (demo_sid 0x0202000A) (Some demo_addr) (demo_ss_env 100);
   OpUpdate 0x0302000A (demo_sid 0x0302000A) (Some demo_addr) (demo_ss_env 110);
   OpUpdateBySid (demo_sid 0x0202000A) (Some demo_addr) 150;
   OpDelete 0x0402000A;
   OpCleanTimeout 30 160].

Lemma empty_models : ss_models (T := list_table Z) (vf_ss_init ∅) ∅.
Proof.
  intros v s. rewrite lookup_empty. split; [done|]. intros (l & Hl & _). cbn in Hl. by rewrite lookup_empty in Hl.
Qed.

(** The second session timed out, the first was refreshed by its identifier. *)
Example demo_run_result :
  (fun st => (vf_ss_get_total_count (T := list_table Z) st, find_by_ip st 0x0302000A,
              ss_last_seen <$> mjoin (find_by_sid st (demo_sid 0x0202000A)))) ∘ fst
    <$> foldM (ss_step (T := list_table Z)) (vf_ss_init ∅, None) demo_ops
  = Some (1, Some None, Some 150).
Proof. vm_compute. reflexivity. Qed.

Lemma sessions_refine_map_witness :
  Forall op_ok demo_ops /\
  exists st ipp' m, foldM (ss_step (T := list_table Z)) (vf_ss_init ∅, None) demo_ops = Some (st, ipp') /\
    spec_run ∅ demo_ops m /\ pool_opt_wf ipp' /\
    (forall v, find_by_ip st v = Some (m !! v)) /\
    (forall sid, exists r, find_by_sid st sid = Some r /\
       match r with
       | Some s => ss_sid s = sid /\ m !! ss_vip s = Some s
       | None => forall v s, m !! v = Some s -> ss_sid s <> sid
       end) /\
    vf_ss_get_total_count st = u32 (Z.of_nat (size m)).
Proof.
  assert (Forall op_ok demo_ops) as Hok by by_compute.
  split; [exact Hok|]. exact (sessions_refine_map demo_ops None Hok I).
Defined.

Lemma generated_sid_routes_witness :
  exists st' s, vf_ss_update (T := list_table Z) (vf_ss_init ∅) 0x0202000A (demo_sid 0x0202000A)
      (Some demo_addr) (demo_ss_env 5) = Some st' /\
    find_by_ip st' 0x0202000A = Some (Some s) /\ find_by_sid st' (demo_sid 0x0202000A) = Some (Some s) /\
    ss_sid s = demo_sid 0x0202000A /\ ss_vip s = 0x0202000A /\ ss_remote_addr s = demo_addr /\
    ss_last_seen s = 5 /\ (forall w, w <> 0x0202000A -> find_by_ip st' w = find_by_ip (vf_ss_init ∅) w).
Proof.
  apply (generated_sid_routes (T := list_table Z) (vf_ss_init ∅) ∅ 0x0202000A (Some 0xDEADBEEF) 0 demo_addr
    (demo_ss_env 5) vf_ss_init_wf empty_models).
  - by_compute.
  - intros w s _ Hw. by rewrite lookup_empty in Hw.
Defined.

Lemma get_expired_exact_witness :
  exists st m, ss_wf (T := list_table Z) st /\ ss_models st m /\ is_Some (m !! 0x0202000A) /\
  exists nodes, vf_ss_get_expired st 4 30 300 1000 = Some nodes /\ NoDup (ex_vip <$> nodes) /\
    (forall nd, nd ∈ nodes -> exists s, m !! ex_vip nd = Some s /\ ss_sid s = ex_sid nd /\
       ss_remote_addr s = ex_remote_addr nd /\ 30 <= 1000 - ss_last_seen s /\
       ex_is_dead nd = (300 <=? 1000 - ss_last_seen s)) /\
    ((0 < 4)%nat -> (length nodes <= 4)%nat /\
       ((length nodes < 4)%nat -> forall v s, m !! v = Some s -> 30 <= 1000 - ss_last_seen s -> v ∈ ex_vip <$> nodes)) /\
    (4%nat = 0%nat -> (length nodes <= 1)%nat /\
       (length nodes = 1%nat <-> exists v s, m !! v = Some s /\ vpn_get_shard_idx v = 0 /\ 30 <= 1000 - ss_last_seen s)).
Proof.
  destruct (vf_rekey_init (se_getrandom (demo_ss_env 5)) 5 (demo_sid 0x0202000A)) as [sec|] eqn:E;
    [|by vm_compute in E].
  destruct (vf_ss_update_refines (T := list_table Z) (vf_ss_init ∅) ∅ 0x0202000A (demo_sid 0x0202000A) demo_addr
    (demo_ss_env 5) sec vf_ss_init_wf empty_models (generate_sid_aligned _ _ _) E) as (st & _ & Hwf & Hm).
  exists st. eexists. split; [exact Hwf|]. split; [exact Hm|]. split.
  - unfold spec_update. rewrite lookup_insert_eq. eauto.
  - apply (get_expired_exact (T := list_table Z)); [exact Hwf|exact Hm].
Defined.
