(* ===== verification/Auth.v ===== *)
(** The wire form of credentials (src/src/auth.c, auth.h). *)
From S2P Require Import Prelude Libc.

Definition VFAST_MAGIC : Z := 0x56465354.

(** [vpn_auth_t]: the values its fields hold in memory. *)
Record vpn_auth_t := {
  au_magic : Z;
  au_vip : Z;
  au_token : list Z;
  au_ts : Z;
  au_key_id : Z;
  au_init_key : list Z
}.

(** [memset] of the structure. *)
Definition zero_auth : vpn_auth_t :=
  {| au_magic := 0; au_vip := 0; au_token := replicate 16 0; au_ts := 0; au_key_id := 0;
     au_init_key := replicate 32 0 |}.

(** NULL pointers are [None]; the result is [None] when a copy reads past its
    source.  [now] is [time(NULL)]. *)
Definition vf_auth_pack (auth : option vpn_auth_t) (vip : Z) (token : option (list Z)) (key_id : Z)
    (init_key : option (list Z)) (ts now : Z) : option (option vpn_auth_t) :=
  match auth with
  | None => Some None
  | Some _ =>
      let final_ts := if negb (ts =? 0) then ts else u64 now in
      init_key ← match init_key with
                 | Some k => bs ← get_bytes 0 32 k; put_bytes 0 bs (au_init_key zero_auth)
                 | None => Some (au_init_key zero_auth)
                 end;
      token ← match token with
              | Some t => bs ← get_bytes 0 12 t; put_bytes 0 bs (au_token zero_auth)
              | None => Some (au_token zero_auth)
              end;
      Some (Some {| au_magic := htonl VFAST_MAGIC; au_vip := vip; au_token := token;
                    au_ts := htonll final_ts; au_key_id := htonl key_id; au_init_key := init_key |})
  end.

Definition vf_auth_verify (auth : option vpn_auth_t) (expected_token : option (list Z)) : Z :=
  match auth with
  | None => -1
  | Some auth =>
      if negb (ntohl (au_magic auth) =? VFAST_MAGIC) then -2
      else match expected_token with
           | Some t => if negb (memcmp_eq 12 (au_token auth) t) then -3 else 0
           | None => 0
           end
  end.

(** What is stored through the output pointers. *)
Definition vf_auth_parse (auth : option vpn_auth_t) : option (Z * Z) :=
  match auth with
  | None => None
  | Some auth => Some (au_vip auth, au_ts auth)
  end.

(** The packed structure in memory. *)
Definition auth_bytes (a : vpn_auth_t) : list Z :=
  le_bytes 4 (au_magic a) ++ le_bytes 4 (au_vip a) ++ au_token a ++ le_bytes 8 (au_ts a) ++
  le_bytes 4 (au_key_id a) ++ au_init_key a.

Lemma magic_swap : ntohl (htonl VFAST_MAGIC) = VFAST_MAGIC.
Proof. vm_compute. reflexivity. Qed.

Lemma vf_auth_pack_total a vip tok kid key ts now :
  (16 <= length tok)%nat -> (32 <= length key)%nat ->
  exists r, vf_auth_pack (Some a) vip (Some tok) kid (Some key) ts now = Some (Some r) /\
    au_magic r = htonl VFAST_MAGIC /\ au_vip r = vip /\
    au_token r = take 12 tok ++ replicate 4 0 /\
    au_ts r = htonll (if negb (ts =? 0) then ts else u64 now) /\
    au_key_id r = htonl kid /\ au_init_key r = take 32 key.
Proof.
  intros Ht Hk. unfold vf_auth_pack.
  rewrite (get_bytes_Some 0 32 key), (get_bytes_Some 0 12 tok) by lia. rewrite !drop_0. cbn [mbind option_bind].
  rewrite !put_bytes_Some by (cbn; rewrite ?length_take; lia). cbn [mbind option_bind].
  eexists. split; [done|]. cbn [au_magic au_vip au_token au_ts au_key_id au_init_key].
  repeat (split; [done|]). rewrite take_0, app_nil_l. split.
  - rewrite length_take, Nat.min_l by lia. done.
  - split; [done|]. split; [done|]. rewrite length_take, Nat.min_l by lia. cbn. by rewrite app_nil_r.
Qed.

(** Packing and verifying agree on twelve bytes of the token.  A packed
    structure passes verification against exactly the tokens that share its
    first twelve bytes, the last four bytes of the sixteen-byte token being
    neither sent nor compared; it is refused with -3 otherwise; its address
    is read back as packed, and the timestamp in network byte order. *)
Theorem vf_auth_verify_pack a vip tok kid key ts now exp :
  (16 <= length tok)%nat -> (32 <= length key)%nat ->
  exists r, vf_auth_pack (Some a) vip (Some tok) kid (Some key) ts now = Some (Some r) /\
    vf_auth_verify (Some r) (Some exp) = (if decide (take 12 exp = take 12 tok) then 0 else -3) /\
    vf_auth_parse (Some r) = Some (vip, htonll (if negb (ts =? 0) then ts else u64 now)) /\
    length (auth_bytes r) = 68%nat.
Proof.
  intros Ht Hk. destruct (vf_auth_pack_total a vip tok kid key ts now Ht Hk)
    as (r & E & Em & Ev & Et & Ets & Ek & Eik).
  exists r. split; [done|]. split; [|split].
  - unfold vf_auth_verify, memcmp_eq. rewrite Em, magic_swap, Et. cbn [negb].
    rewrite take_app_le by (rewrite length_take; lia). rewrite take_take. change (12 `min` 12)%nat with 12%nat.
    case_decide as Hd; [rewrite bool_decide_eq_true_2 by done|rewrite bool_decide_eq_false_2 by congruence]; done.
  - unfold vf_auth_parse. by rewrite Ev, Ets.
  - unfold auth_bytes. rewrite !length_app, !length_le_bytes, Et, Eik, length_app, !length_take, length_replicate. lia.
Qed.

(** Two tokens that differ in their last byte only are accepted alike. *)
Lemma vf_auth_verify_pack_witness :
  let tok := replicate 15 7 ++ [1] in let other := replicate 15 7 ++ [2] in
  (16 <= length tok)%nat /\ (32 <= length (replicate 32 9))%nat /\
  exists r, vf_auth_pack (Some zero_auth) 5 (Some tok) 1 (Some (replicate 32 9)) 0 77 = Some (Some r) /\
    vf_auth_verify (Some r) (Some other) = (if decide (take 12 other = take 12 tok) then 0 else -3) /\
    vf_auth_parse (Some r) = Some (5, htonll (u64 77)) /\ length (auth_bytes r) = 68%nat.
Proof.
  split; [cbn; lia|]. split; [cbn; lia|].
  apply (vf_auth_verify_pack zero_auth 5 (replicate 15 7 ++ [1]) 1 (replicate 32 9) 0 77 (replicate 15 7 ++ [2])); cbn; lia.
Defined.
