(* ===== verification/User.v ===== *)
(** The user manager (src/src/user.c): RADIUS authentication and the table of
    session tokens.  The read-write lock makes every operation atomic. *)
From S2P Require Import Prelude HashTable Libc Auth.

Definition VF_USER_TOKEN_INTER : Z := 3600.
Definition VF_USER_TOKEN_MIN : Z := 900.
Definition VF_TOKEN_LEN : nat := 16.
Definition VF_ROLE_USER : Z := 1.

(** error.h *)
Definition VF_ERR_AUTH_DENIED : Z := -2.
Definition VF_ERR_AUTH_TIMEOUT : Z := -3.
Definition VF_ERR_SYSTEM : Z := -5.
Definition VF_ERR_CONFIG : Z := -7.

Record vf_user_t := { u_name : list Z; u_role : Z }.

(** [vf_node_t], without the table handle. *)
Record vf_node_t := { n_token : list Z; n_user : vf_user_t; n_expire : Z }.

Definition set_expire (e : Z) (n : vf_node_t) : vf_node_t :=
  {| n_token := n_token n; n_user := n_user n; n_expire := e |}.

(** The codes of libradcli, and the state of its handle. *)
Inductive rc_result := OK_RC | BADRESP_RC | REJECT_RC | TIMEOUT_RC | OTHER_RC.
Inductive rc_handle := RhNull | RhLive | RhDestroyed.

Section user.
Context {T : Type} `{HT : HashTable (list Z) T}.
(** The RADIUS exchange for a user name and a password. *)
Variable rc_auth : list Z -> list Z -> rc_result.

(** [g_user_mgr] and the heap of its nodes; [um_lock] tells whether the lock
    is initialised. *)
Record user_mgr := {
  um_urandom_fd : Z;
  um_rh : rc_handle;
  um_heap : gmap positive vf_node_t;
  user_node : T;
  um_lock : bool
}.

Definition set_table (m : user_mgr) (h : gmap positive vf_node_t) (t : T) : user_mgr :=
  {| um_urandom_fd := um_urandom_fd m; um_rh := um_rh m; um_heap := h; user_node := t; um_lock := um_lock m |}.

(** The three [rc_avpair_add] calls succeed or not; each takes the length of
    its string with [strlen]. *)
Definition vf_radius_authenticate (m : user_mgr) (user pass : list Z) (add1 add2 add3 : bool) : option Z :=
  match um_rh m with
  | RhNull => Some VF_ERR_CONFIG
  | RhDestroyed => None
  | RhLive =>
      u ← cstr user;
      if negb add1 then Some VF_ERR_SYSTEM else
      p ← cstr pass;
      if negb add2 then Some VF_ERR_SYSTEM else
      if negb add3 then Some VF_ERR_SYSTEM else
      Some (match rc_auth u p with
            | OK_RC => 0
            | BADRESP_RC | REJECT_RC => VF_ERR_AUTH_DENIED
            | TIMEOUT_RC => VF_ERR_AUTH_TIMEOUT
            | OTHER_RC => -1
            end)
  end.

(** What the calls of [vf_user_init] answer. *)
Record init_env := {
  ie_lock : bool; ie_apath : bool; ie_config : bool; ie_dictionary : bool; ie_urandom : Z
}.

(** The result, the manager, and whether the path string is still allocated. *)
Definition vf_user_init (e : init_env) : bool * user_mgr * bool :=
  let g rh fd lk := {| um_urandom_fd := fd; um_rh := rh; um_heap := ∅; user_node := ht_empty; um_lock := lk |} in
  if negb (ie_lock e) then (false, g RhNull 0 false, false)
  else if negb (ie_config e) then (false, g RhNull 0 false, ie_apath e)
  else if negb (ie_dictionary e) then (false, g RhDestroyed 0 false, ie_apath e)
  else if ie_urandom e <? 0 then (false, g RhLive (ie_urandom e) false, ie_apath e)
  else (true, g RhLive (ie_urandom e) true, false).

(** What a login reads from its surroundings. *)
Record login_env := {
  le_adds : bool * bool * bool;
  le_urandom : list Z;               (** what [read] stored, at most [VF_TOKEN_LEN] bytes *)
  le_now : Z
}.

(** The code, the new manager and [tk_out]. *)
Definition vf_user_login (m : user_mgr) (user pass : option (list Z)) (tk_out : option (list Z)) (e : login_env)
    : option (Z * user_mgr * option (list Z)) :=
  match user, pass, tk_out with
  | Some user, Some pass, Some tk =>
      let '(a1, a2, a3) := le_adds e in
      rc ← vf_radius_authenticate m user pass a1 a2 a3;
      if negb (rc =? 0) then Some (-2, m, Some tk) else
      tk ← put_bytes 0 (le_urandom e) tk;
      if negb (length (le_urandom e) =? VF_TOKEN_LEN)%nat then Some (-3, m, Some tk) else
      token ← get_bytes 0 VF_TOKEN_LEN tk;
      name ← strncpy user 31;
      let n := {| n_token := token; n_user := {| u_name := name ++ [0]; u_role := VF_ROLE_USER |};
                  n_expire := le_now e + VF_USER_TOKEN_INTER |} in
      let l := fresh (dom (um_heap m)) in
      Some (0, set_table m (<[l := n]> (um_heap m)) (ht_add token l (user_node m)), Some tk)
  | _, _, _ => Some (-3, m, tk_out)
  end.

(** The validity, the user copied through [info], and the new manager. *)
Definition vf_user_verify_pkt (m : user_mgr) (pkt : option vpn_auth_t) (now : Z)
    : option (bool * option vf_user_t * user_mgr) :=
  match pkt with
  | None => Some (false, None, m)
  | Some pkt =>
      if negb (au_magic pkt =? VFAST_MAGIC) then Some (false, None, m) else
      match ht_find (au_token pkt) (user_node m) with
      | None => Some (false, None, m)
      | Some l =>
          s ← um_heap m !! l;
          if now <=? n_expire s then
            let m := if n_expire s - now <? VF_USER_TOKEN_MIN
                     then set_table m (<[l := set_expire (now + VF_USER_TOKEN_INTER) s]> (um_heap m)) (user_node m)
                     else m in
            Some (true, Some (n_user s), m)
          else Some (false, None, m)
      end
  end.

Definition vf_user_logout (m : user_mgr) (token : option (list Z)) : option (Z * user_mgr) :=
  match token with
  | None => Some (-1, m)
  | Some token =>
      match ht_find token (user_node m) with
      | None => Some (-1, m)
      | Some l => t ← ht_delete l (user_node m); Some (0, set_table m (delete l (um_heap m)) t)
      end
  end.

Definition vf_user_clean_expired (m : user_mgr) (now : Z) : option user_mgr :=
  '(h, t) ← foldM (table_sweep (fun n => n_expire n <? now)) (um_heap m, user_node m) (ht_iter (user_node m)).*2;
  Some (set_table m h t).

(** The descriptor it closes, and the manager. *)
Definition vf_user_uninit (m : user_mgr) : option (list Z * user_mgr) :=
  let closed := if 0 <=? um_urandom_fd m then [um_urandom_fd m] else [] in
  rh ← match um_rh m with RhNull => Some RhNull | RhLive => Some RhNull | RhDestroyed => None end;
  '(h, t) ← foldM (table_sweep (fun _ => true)) (um_heap m, user_node m) (ht_iter (user_node m)).*2;
  Some (closed, {| um_urandom_fd := um_urandom_fd m; um_rh := rh; um_heap := h; user_node := t; um_lock := false |}).

(** ** The token table as a finite map *)

Definition um_wf (m : user_mgr) : Prop := table_wf n_token (um_heap m) (user_node m).
Definition um_models (m : user_mgr) (s : gmap (list Z) vf_node_t) : Prop := table_models n_token (um_heap m) s.

(** The same, but for tokens that occur twice. *)
Definition um_sound (m : user_mgr) : Prop := table_sound n_token (um_heap m) (user_node m).

(** The calls after a successful [vf_user_init]. *)
Inductive user_op :=
| OpLogin (user pass : list Z) (tk : list Z) (e : login_env)
| OpVerify (pkt : vpn_auth_t) (now : Z)
| OpLogout (token : list Z)
| OpCleanExpired (now : Z).

Inductive user_out := OutCode (c : Z) | OutValid (b : bool) (u : option vf_user_t) | OutUnit.

Definition user_step (m : user_mgr) (op : user_op) : option (user_out * user_mgr) :=
  match op with
  | OpLogin u p tk e => '(c, m, _) ← vf_user_login m (Some u) (Some p) (Some tk) e; Some (OutCode c, m)
  | OpVerify pkt now => '(b, u, m) ← vf_user_verify_pkt m (Some pkt) now; Some (OutValid b u, m)
  | OpLogout tk => '(c, m) ← vf_user_logout m (Some tk); Some (OutCode c, m)
  | OpCleanExpired now => m ← vf_user_clean_expired m now; Some (OutUnit, m)
  end.

Fixpoint user_run (m : user_mgr) (ops : list user_op) : option (list user_out * user_mgr) :=
  match ops with
  | [] => Some ([], m)
  | op :: ops => '(o, m) ← user_step m op; '(os, m) ← user_run m ops; Some (o :: os, m)
  end.

(** A login the manager accepts: the attributes are built, the server says
    yes, and a whole token is read. *)
Definition login_code (u p : list Z) (e : login_env) : Z :=
  let '(a1, a2, a3) := le_adds e in
  if a1 && a2 && a3 && match rc_auth u p with OK_RC => true | _ => false end
  then if (length (le_urandom e) =? VF_TOKEN_LEN)%nat then 0 else -3
  else -2.

(** The C string a buffer starts with. *)
Definition c_prefix (s : list Z) : list Z := default [] (cstr s).

Definition user_spec (s : gmap (list Z) vf_node_t) (op : user_op) : user_out * gmap (list Z) vf_node_t :=
  match op with
  | OpLogin u p _ e =>
      let c := login_code (c_prefix u) (c_prefix p) e in
      (OutCode c,
       if c =? 0 then
         <[le_urandom e := {| n_token := le_urandom e;
             n_user := {| u_name := default [] (strncpy u 31) ++ [0]; u_role := VF_ROLE_USER |};
             n_expire := le_now e + VF_USER_TOKEN_INTER |}]> s
       else s)
  | OpVerify pkt now =>
      match s !! au_token pkt with
      | Some n =>
          if (au_magic pkt =? VFAST_MAGIC) && (now <=? n_expire n) then
            (OutValid true (Some (n_user n)),
             if n_expire n - now <? VF_USER_TOKEN_MIN
             then <[au_token pkt := set_expire (now + VF_USER_TOKEN_INTER) n]> s else s)
          else (OutValid false None, s)
      | None => (OutValid false None, s)
      end
  | OpLogout tk => match s !! tk with Some _ => (OutCode 0, delete tk s) | None => (OutCode (-1), s) end
  | OpCleanExpired now => (OutUnit, filter (fun '(_, n) => (n_expire n <? now) = false) s)
  end.

Fixpoint user_spec_run (s : gmap (list Z) vf_node_t) (ops : list user_op)
    : list user_out * gmap (list Z) vf_node_t :=
  match ops with
  | [] => ([], s)
  | op :: ops =>
      let '(o, s) := user_spec s op in
      let '(os, s) := user_spec_run s ops in (o :: os, s)
  end.

(** The strings are terminated and the token buffer has its size. *)
Definition user_op_ok (op : user_op) : Prop :=
  match op with
  | OpLogin u p tk e =>
      is_Some (strlen u) /\ is_Some (strlen p) /\ length tk = VF_TOKEN_LEN /\
      (length (le_urandom e) <= VF_TOKEN_LEN)%nat
  | _ => True
  end.

(** An accepted login does not draw a token that is in the table. *)
Definition token_fresh (s : gmap (list Z) vf_node_t) (op : user_op) : Prop :=
  match op with
  | OpLogin u p _ e => login_code (c_prefix u) (c_prefix p) e = 0 -> s !! le_urandom e = None
  | _ => True
  end.
Fixpoint tokens_fresh (s : gmap (list Z) vf_node_t) (ops : list user_op) : Prop :=
  match ops with
  | [] => True
  | op :: ops => token_fresh s op /\ tokens_fresh (user_spec s op).2 ops
  end.
End user.

Arguments user_mgr : clear implicits.

#[export] Instance user_op_ok_dec op : Decision (user_op_ok op).
Proof. destruct op; cbn; apply _. Defined.

(** * The manager refines the map *)

Section refinement.
Context {T : Type} `{HT : HashTable (list Z) T, HL : !HashTableLaws (list Z) T}.
Variable rc_auth : list Z -> list Z -> rc_result.
Implicit Types (m : user_mgr T) (s : gmap (list Z) vf_node_t).

Lemma cstr_is_Some u : is_Some (strlen u) -> cstr u = Some (c_prefix u).
Proof. intros [n E]. unfold c_prefix, cstr. by rewrite E. Qed.

Lemma vf_radius_authenticate_live m u p a1 a2 a3 :
  um_rh m = RhLive -> is_Some (strlen u) -> is_Some (strlen p) ->
  exists rc, vf_radius_authenticate rc_auth m u p a1 a2 a3 = Some rc /\
    (rc = 0 <-> a1 && a2 && a3 && match rc_auth (c_prefix u) (c_prefix p) with OK_RC => true | _ => false end = true).
Proof.
  intros Hr Hu Hp. unfold vf_radius_authenticate. rewrite Hr, (cstr_is_Some u), (cstr_is_Some p) by done.
  cbn [mbind option_bind]. destruct a1, a2, a3; cbn; eexists; (split; [done|]); try done.
  by destruct (rc_auth _ _).
Qed.

(** A login returns, with the code the inputs determine. *)
Lemma vf_user_login_total m u p tk e :
  um_rh m = RhLive -> is_Some (strlen u) -> is_Some (strlen p) -> length tk = VF_TOKEN_LEN -> bytes_ok tk ->
  (length (le_urandom e) <= VF_TOKEN_LEN)%nat -> bytes_ok (le_urandom e) ->
  exists m' tk', vf_user_login rc_auth m (Some u) (Some p) (Some tk) e =
      Some (login_code rc_auth (c_prefix u) (c_prefix p) e, m', Some tk') /\
    um_rh m' = RhLive /\ length tk' = VF_TOKEN_LEN /\ bytes_ok tk' /\
    (login_code rc_auth (c_prefix u) (c_prefix p) e = 0 -> tk' = le_urandom e).
Proof.
  intros Hr Hu Hp Ltk Otk Hlen Hok. unfold vf_user_login, login_code. destruct (le_adds e) as [[a1 a2] a3].
  destruct (vf_radius_authenticate_live m u p a1 a2 a3 Hr Hu Hp) as (rc & -> & Hrc). cbn [mbind option_bind].
  destruct (Z.eqb_spec rc 0) as [E0|Hne]; cbn [negb].
  2: { destruct (a1 && a2 && a3 && _); [by destruct Hne; apply Hrc|]. by exists m, tk. }
  rewrite (proj1 Hrc E0).
  destruct (put_bytes_ex 0 (le_urandom e) tk) as [tk' Etk]; [lia|]. rewrite Etk. cbn [mbind option_bind].
  assert (length tk' = VF_TOKEN_LEN) as Ltk' by (apply put_bytes_length in Etk; congruence).
  assert (bytes_ok tk') as Otk' by (by eapply put_bytes_ok).
  destruct (Nat.eqb_spec (length (le_urandom e)) VF_TOKEN_LEN) as [El|]; cbn [negb]; [|by exists m, tk'].
  pose proof (get_put_same _ _ _ _ Etk) as Eg. rewrite El in Eg. rewrite Eg. cbn [mbind option_bind].
  destruct (strncpy_is_Some u 31 (or_introl Hu)) as [name En]. rewrite En. cbn [mbind option_bind].
  eexists _, tk'. split; [done|]. split; [done|]. split; [done|]. split; [done|]. intros _.
  rewrite get_bytes_Some in Eg by lia. injection Eg as <-. rewrite drop_0, take_ge by lia. done.
Qed.

Lemma vf_user_login_returns m u p tk e :
  um_rh m = RhLive -> is_Some (strlen u) -> is_Some (strlen p) -> length tk = VF_TOKEN_LEN ->
  (length (le_urandom e) <= VF_TOKEN_LEN)%nat ->
  exists c m' tk', vf_user_login rc_auth m (Some u) (Some p) (Some tk) e = Some (c, m', tk').
Proof.
  intros Hr Hu Hp Ltk Hlen. unfold vf_user_login. destruct (le_adds e) as [[a1 a2] a3].
  destruct (vf_radius_authenticate_live m u p a1 a2 a3 Hr Hu Hp) as (rc & -> & _). cbn [mbind option_bind].
  destruct (negb (rc =? 0)); [eauto|].
  destruct (put_bytes_ex 0 (le_urandom e) tk) as [tk' Etk]; [lia|]. rewrite Etk. cbn [mbind option_bind].
  destruct (negb _); [eauto|]. apply put_bytes_length in Etk.
  rewrite get_bytes_Some by (unfold VF_TOKEN_LEN in *; lia). cbn [mbind option_bind].
  destruct (strncpy_is_Some u 31 (or_introl Hu)) as [name ->]. cbn [mbind option_bind]. eauto.
Qed.

Lemma user_step_refines m s op :
  um_rh m = RhLive -> um_wf m -> um_models m s -> user_op_ok op ->
  token_fresh rc_auth s op ->
  exists m', user_step rc_auth m op = Some ((user_spec rc_auth s op).1, m') /\
    um_rh m' = RhLive /\ um_urandom_fd m' = um_urandom_fd m /\ um_wf m' /\
    um_models m' (user_spec rc_auth s op).2.
Proof.
  intros Hr Hw Hm Hop Hfresh. destruct op as [u p tk e|pkt now|tk|now]; cbn [user_step user_spec].
  - destruct Hop as (Hu & Hp & Htk & Hlen). revert Hfresh. cbn [token_fresh]. unfold vf_user_login, login_code.
    destruct (le_adds e) as [[a1 a2] a3]. intros Hfresh.
    destruct (vf_radius_authenticate_live m u p a1 a2 a3 Hr Hu Hp) as (rc & -> & Hrc). cbn [mbind option_bind].
    destruct (Z.eqb_spec rc 0) as [E0|Hne]; cbn [negb].
    2: { clear Hfresh. destruct (a1 && a2 && a3 && _); [by destruct Hne; apply Hrc|]. cbn. by exists m. }
    rewrite (proj1 Hrc E0) in *.
    destruct (put_bytes_ex 0 (le_urandom e) tk) as [tk' Etk]; [lia|]. rewrite Etk. cbn [mbind option_bind].
    destruct (Nat.eqb_spec (length (le_urandom e)) VF_TOKEN_LEN) as [El|]; cbn [negb]; [|cbn; by exists m].
    pose proof (get_put_same _ _ _ _ Etk) as Eg. rewrite El in Eg. rewrite Eg. cbn [mbind option_bind].
    destruct (strncpy_is_Some u 31 (or_introl Hu)) as [name En]. rewrite En. cbn [mbind option_bind default Z.eqb].
    eexists. split; [done|]. split; [done|]. split; [done|].
    apply (table_add n_token (um_heap m) (user_node m) s _
      {| n_token := le_urandom e; n_user := _; n_expire := _ |}); [done|done| |].
    + apply not_elem_of_dom, is_fresh.
    + by apply Hfresh.
  - unfold vf_user_verify_pkt.
    pose proof (table_find n_token (um_heap m) (user_node m) s (au_token pkt) Hw Hm) as Hf.
    destruct (au_magic pkt =? VFAST_MAGIC); cbn [negb andb].
    2: { exists m. by destruct (s !! au_token pkt). }
    destruct (ht_find _ _) as [l|]; [|rewrite Hf; cbn; by exists m].
    destruct Hf as (n & Hl & Hk & ->). rewrite Hl. cbn [mbind option_bind].
    destruct (now <=? n_expire n); [|cbn; by exists m].
    destruct (n_expire n - now <? VF_USER_TOKEN_MIN); [|cbn; by exists m].
    eexists. split; [done|]. split; [done|]. split; [done|]. rewrite <- Hk. by eapply (table_update n_token).
  - unfold vf_user_logout.
    pose proof (table_find n_token (um_heap m) (user_node m) s tk Hw Hm) as Hf.
    destruct (ht_find _ _) as [l|]; [|rewrite Hf; cbn; by exists m].
    destruct Hf as (n & Hl & Hk & ->).
    destruct (table_delete n_token _ _ _ l n Hw Hm Hl) as (t' & -> & ? & ?). cbn [mbind option_bind].
    eexists. split; [done|]. by rewrite <- Hk.
  - unfold vf_user_clean_expired.
    destruct (table_sweep_all n_token (fun n => n_expire n <? now) _ _ _ Hw Hm) as (h' & t' & -> & ? & ?).
    cbn [mbind option_bind]. eexists. by split.
Qed.

Lemma user_run_refines m s ops :
  um_rh m = RhLive -> um_wf m -> um_models m s -> Forall user_op_ok ops -> tokens_fresh rc_auth s ops ->
  exists m', user_run rc_auth m ops = Some ((user_spec_run rc_auth s ops).1, m') /\ um_models m' (user_spec_run rc_auth s ops).2.
Proof.
  intros Hr Hw Hm Hops. revert m s Hr Hw Hm.
  induction Hops as [|op ops Hop _ IH]; intros m s Hr Hw Hm Hfr; [by exists m|]. destruct Hfr as [Hfr1 Hfr].
  destruct (user_step_refines m s op Hr Hw Hm Hop Hfr1) as (m1 & E1 & Hr1 & Hf1 & Hw1 & Hm1).
  cbn [user_run user_spec_run]. rewrite E1. cbn [mbind option_bind].
  destruct (user_spec rc_auth s op) as [o s1] eqn:Es. cbn [fst snd] in *.
  destruct (IH m1 s1 Hr1 Hw1 Hm1 Hfr) as (m' & E & Hm').
  rewrite E. cbn [mbind option_bind]. destruct (user_spec_run rc_auth s1 ops). by exists m'.
Qed.

(** A login keeps the table in order even when the token is not new, and
    leaves the handles alone. *)
Lemma vf_user_login_keeps m u p tk e c m' tk' :
  vf_user_login rc_auth m u p tk e = Some (c, m', tk') -> um_sound m ->
  um_sound m' /\ um_rh m' = um_rh m /\ um_urandom_fd m' = um_urandom_fd m.
Proof.
  unfold vf_user_login. intros E Hs. destruct u as [u|], p as [p|], tk as [tk|]; try by injection E as _ <- _.
  destruct (le_adds e) as [[a1 a2] a3]. apply bind_Some in E as (rc & _ & E). destruct (negb (rc =? 0)); [by injection E as _ <- _|].
  apply bind_Some in E as (tk1 & _ & E). destruct (negb _); [by injection E as _ <- _|].
  apply bind_Some in E as (token & _ & E). apply bind_Some in E as (name & _ & E). injection E as _ <- _.
  split; [|done]. apply (table_sound_add n_token _ _ _ {| n_token := token |}); [done|].
  apply not_elem_of_dom, is_fresh.
Qed.

Lemma vf_user_uninit_total m :
  um_sound m -> um_rh m <> RhDestroyed ->
  exists m', vf_user_uninit m = Some (if 0 <=? um_urandom_fd m then [um_urandom_fd m] else [], m') /\ um_heap m' = ∅.
Proof.
  intros Hs Hr. unfold vf_user_uninit.
  assert (exists h, match um_rh m with RhNull => Some RhNull | RhLive => Some RhNull | RhDestroyed => None end = Some h) as [rh ->]
    by (destruct (um_rh m); eauto; done).
  cbn [mbind option_bind]. destruct (table_clear n_token _ _ Hs) as (t' & ->). cbn [mbind option_bind]. eauto.
Qed.

(** A step returns, whatever the tokens. *)
Lemma user_step_total m op : um_rh m = RhLive -> um_sound m -> user_op_ok op ->
  exists o m', user_step rc_auth m op = Some (o, m') /\ um_rh m' = RhLive /\ um_urandom_fd m' = um_urandom_fd m /\ um_sound m'.
Proof.
  intros Hr Hs Hop. destruct op as [u p tk e|pkt now|tk|now]; cbn [user_step].
  - destruct Hop as (Hu & Hp & Htk & Hlen).
    destruct (vf_user_login_returns m u p tk e Hr Hu Hp Htk Hlen) as (c & m' & tk' & E). rewrite E. cbn [mbind option_bind].
    destruct (vf_user_login_keeps _ _ _ _ _ _ _ _ E Hs) as (? & ? & ?). eexists _, m'. split_and!; congruence || done.
  - unfold vf_user_verify_pkt. destruct (negb _); [by eexists _, m|].
    destruct (ht_find _ _) as [l|] eqn:Ef; [|by eexists _, m]. destruct (table_sound_find n_token _ _ _ _ Hs Ef) as (n & Hl & _).
    rewrite Hl. cbn [mbind option_bind]. destruct (now <=? n_expire n); [|by eexists _, m]. cbn [mbind option_bind].
    destruct (_ <? _); [|by eexists _, m]. eexists _, _. split; [done|]. split; [done|]. split; [done|]. by apply (table_sound_update n_token _ _ _ n).
  - unfold vf_user_logout. destruct (ht_find _ _) as [l|] eqn:Ef; [|by eexists _, m]. destruct (table_sound_find n_token _ _ _ _ Hs Ef) as (n & Hl & _).
    destruct (table_sound_delete n_token _ _ _ _ Hs Hl) as (t' & -> & Hs'). cbn [mbind option_bind]. by eexists _, _.
  - unfold vf_user_clean_expired. destruct (table_sound_sweep n_token (fun n => n_expire n <? now) _ _ Hs) as (h' & t' & -> & Hs' & _).
    cbn [mbind option_bind]. by eexists _, _.
Qed.

Lemma user_run_total ops m : um_rh m = RhLive -> um_sound m -> Forall user_op_ok ops ->
  exists os m', user_run rc_auth m ops = Some (os, m') /\ um_rh m' = RhLive /\ um_urandom_fd m' = um_urandom_fd m /\ um_sound m'.
Proof.
  revert m. induction ops as [|op ops IH]; intros m Hr Hs Hok; [by exists [], m|]. apply Forall_cons_iff in Hok as [Hop Hok].
  destruct (user_step_total m op Hr Hs Hop) as (o & m1 & E1 & Hr1 & Hf1 & Hs1). cbn [user_run]. rewrite E1. cbn [mbind option_bind].
  destruct (IH m1 Hr1 Hs1 Hok) as (os & m' & E & ? & ? & ?). rewrite E. cbn [mbind option_bind]. eexists _, m'. split_and!; congruence || done.
Qed.

(** C12 The user manager is a finite map from tokens.  After a successful
    initialisation every sequence of logins, verifications, logouts and
    clean-ups over terminated strings completes, and tear-down then frees
    every node and closes the random source, whatever the tokens are.  As
    long as no accepted login draws a token that is still in the table (the
    source enters it a second time; sixteen random bytes make that unlikely),
    the calls return exactly what the map says: a login enters its token for
    one hour when the RADIUS server accepts and the random source gives
    sixteen bytes, and changes nothing otherwise; a verification succeeds
    exactly for a packet whose magic is the constant in host order and whose
    token is in the map and not expired, hands out the user entered with it
    and extends a life of less than fifteen minutes; a logout removes the
    token; a clean-up removes the expired ones. *)
Theorem tokens_refine_map e m path ops :
  vf_user_init e = (true, m, path) -> Forall user_op_ok ops ->
  path = false /\ um_lock m = true /\
  exists os m', user_run rc_auth m ops = Some (os, m') /\
    (exists m'', vf_user_uninit m' = Some ([ie_urandom e], m'') /\ um_heap m'' = ∅) /\
    (tokens_fresh rc_auth ∅ ops -> os = (user_spec_run rc_auth ∅ ops).1 /\ um_models m' (user_spec_run rc_auth ∅ ops).2).
Proof.
  unfold vf_user_init. intros E Hops.
  destruct (ie_lock e); [|done]. cbn [negb] in E. destruct (ie_config e); [|done].
  destruct (ie_dictionary e); [|done]. cbn [negb] in E. destruct (Z.ltb_spec (ie_urandom e) 0) as [|Hfd]; [done|].
  injection E as <- <-. set (m0 := {| um_urandom_fd := ie_urandom e; um_rh := RhLive; um_heap := ∅; user_node := ht_empty; um_lock := true |}).
  split; [done|]. split; [done|].
  destruct (user_run_total ops m0 eq_refl (table_sound_empty n_token) Hops) as (os & m' & Er & Hr & Hf & Hs).
  exists os, m'. split; [done|]. split.
  - destruct (vf_user_uninit_total m' Hs) as (m'' & -> & Hm); [by rewrite Hr|]. exists m''. rewrite Hf. cbn [m0 um_urandom_fd].
    by destruct (Z.leb_spec 0 (ie_urandom e)); [|lia].
  - intros Hfr. destruct (user_run_refines m0 ∅ ops eq_refl (table_wf_empty n_token) (table_models_empty n_token) Hops Hfr) as (m1 & E1 & Hm1).
    rewrite Er in E1. by injection E1 as -> ->.
Qed.

Lemma magic_differs : (htonl VFAST_MAGIC =? VFAST_MAGIC) = false.
Proof. vm_compute. reflexivity. Qed.

(** A structure that the packer made is never accepted: [vf_user_verify_pkt]
    compares the magic without converting it from network byte order, so it
    refuses every packet [vf_auth_pack] builds, whatever the token. *)
Theorem vf_user_verify_pkt_rejects_packed m a vip tok kid key ts now r t :
  vf_auth_pack (Some a) vip tok kid key ts now = Some (Some r) ->
  vf_user_verify_pkt m (Some r) t = Some (false, None, m).
Proof.
  unfold vf_auth_pack. intros (ik & _ & (tk & _ & H)%bind_Some)%bind_Some.
  apply (inj Some), (inj Some) in H. subst r. unfold vf_user_verify_pkt. cbn [au_magic].
  rewrite magic_differs. reflexivity.
Qed.
End refinement.

(** * Instances *)

Definition demo_rc (user pass : list Z) : rc_result := if decide (pass = [112; 119]) then OK_RC else REJECT_RC.
Definition demo_init_env : init_env :=
  {| ie_lock := true; ie_apath := true; ie_config := true; ie_dictionary := true; ie_urandom := 7 |}.
Definition demo_login (tok : list Z) (now : Z) : login_env :=
  {| le_adds := (true, true, true); le_urandom := tok; le_now := now |}.
Definition demo_pkt (tok : list Z) : vpn_auth_t :=
  {| au_magic := VFAST_MAGIC; au_vip := 0; au_token := tok; au_ts := 0; au_key_id := 0; au_init_key := [] |}.
Definition demo_user_ops : list user_op :=
  [OpLogin [98; 111; 98; 0] [112; 119; 0] (replicate 16 0) (demo_login (replicate 16 1) 100);
   OpLogin [101; 118; 101; 0] [120; 0] (replicate 16 0) (demo_login (replicate 16 2) 100);
   OpVerify (demo_pkt (replicate 16 1)) 3000;
   OpCleanExpired 6000;
   OpVerify (demo_pkt (replicate 16 1)) 6000;
   OpLogout (replicate 16 1);
   OpVerify (demo_pkt (replicate 16 1)) 6001].

(** The token outlives its first hour because it was used in time. *)
Example demo_user_outcomes :
  (user_spec_run demo_rc ∅ demo_user_ops).1 =
  let bob := {| u_name := [98; 111; 98] ++ replicate 29 0; u_role := 1 |} in
  [OutCode 0; OutCode (-2); OutValid true (Some bob); OutUnit; OutValid true (Some bob); OutCode 0; OutValid false None].
Proof. vm_compute. reflexivity. Qed.

Lemma demo_tokens_fresh : tokens_fresh demo_rc ∅ demo_user_ops.
Proof. cbn [tokens_fresh demo_user_ops]. split_and!; by vm_compute. Qed.

Lemma tokens_refine_map_witness :
  exists m path m', vf_user_init (T := list_table (list Z)) demo_init_env = (true, m, path) /\
    user_run demo_rc m demo_user_ops = Some ((user_spec_run demo_rc ∅ demo_user_ops).1, m') /\
    um_models m' (user_spec_run demo_rc ∅ demo_user_ops).2 /\ path = false /\ um_lock m = true /\
    exists m'', vf_user_uninit m' = Some ([7], m'') /\ um_heap m'' = ∅.
Proof.
  destruct (vf_user_init (T := list_table (list Z)) demo_init_env) as [[b m] path] eqn:E.
  assert (b = true) as -> by (vm_compute in E; by injection E as <- _ _).
  destruct (tokens_refine_map demo_rc demo_init_env m path demo_user_ops E) as (Hp & Hl & os & m' & Hr & Hu & Hf).
  - by_compute.
  - destruct (Hf demo_tokens_fresh) as [-> Hm]. exists m, path, m'. exact (conj eq_refl (conj Hr (conj Hm (conj Hp (conj Hl Hu))))).
Defined.

Lemma vf_user_verify_pkt_rejects_packed_witness :
  exists m r, vf_auth_pack (Some zero_auth) 5 (Some (replicate 16 1)) 1 None 9 0 = Some (Some r) /\
    vf_user_verify_pkt (T := list_table (list Z)) m (Some r) 0 = Some (false, None, m).
Proof.
  exists (vf_user_init (T := list_table (list Z)) demo_init_env).1.2. eexists.
  split; [vm_compute; reflexivity|].
  eapply (vf_user_verify_pkt_rejects_packed _ zero_auth 5 (Some (replicate 16 1)) 1 None 9 0).
  vm_compute. reflexivity.
Defined.
