(* ===== verification/Io.v ===== *)
(** The I/O engine (src/src/io.c, io.h): a pool of tasks, each a packet buffer
    with its request, and the event loop over an io_uring.  liburing is behind
    an interface. *)
From S2P Require Import Prelude HashTable Libc Protocol.

Definition OP_TUN_READ : Z := 1.
Definition OP_TUN_WRITE : Z := 2.
Definition OP_UDP_RECV : Z := 3.
Definition OP_UDP_SEND : Z := 4.

Inductive vf_task_state_t := IO_TASK_DONE | IO_TASK_USE.

(** ** Pointers into the pool *)

(** A data pointer: [task_pool\[dp_task\].buf + dp_off]. *)
Record dptr := { dp_task : nat; dp_off : nat }.
(** A task pointer: [tp_shift] bytes after [task_pool\[tp_task\]]; code that
    keeps to the calling conventions has no shift. *)
Record tptr := { tp_task : nat; tp_shift : nat }.

Definition vfast_data_to_task (d : dptr) : tptr := {| tp_task := dp_task d; tp_shift := dp_off d |}.

(** [vf_task_t]: on x86-64 [buf] lies at offset 4, [in_use] at 2148, and the
    size is 2152.  [msg] always points to the task's own [addr] and [iov]. *)
Record vf_task_t := {
  t_op : Z;
  t_buf : list Z;
  t_iov_base : dptr;
  t_iov_len : Z;
  t_addr : sockaddr_in;
  t_in_use : bool
}.

Definition set_op (o : Z) (t : vf_task_t) : vf_task_t :=
  {| t_op := o; t_buf := t_buf t; t_iov_base := t_iov_base t; t_iov_len := t_iov_len t;
     t_addr := t_addr t; t_in_use := t_in_use t |}.
Definition set_buf (b : list Z) (t : vf_task_t) : vf_task_t :=
  {| t_op := t_op t; t_buf := b; t_iov_base := t_iov_base t; t_iov_len := t_iov_len t;
     t_addr := t_addr t; t_in_use := t_in_use t |}.
Definition set_iov (p : dptr) (n : Z) (t : vf_task_t) : vf_task_t :=
  {| t_op := t_op t; t_buf := t_buf t; t_iov_base := p; t_iov_len := n;
     t_addr := t_addr t; t_in_use := t_in_use t |}.
Definition set_addr (a : sockaddr_in) (t : vf_task_t) : vf_task_t :=
  {| t_op := t_op t; t_buf := t_buf t; t_iov_base := t_iov_base t; t_iov_len := t_iov_len t;
     t_addr := a; t_in_use := t_in_use t |}.
Definition set_in_use (b : bool) (t : vf_task_t) : vf_task_t :=
  {| t_op := t_op t; t_buf := t_buf t; t_iov_base := t_iov_base t; t_iov_len := t_iov_len t;
     t_addr := t_addr t; t_in_use := b |}.

(** ** Requests *)

Inductive request :=
| ReqRecvmsg (t : nat)                 (** into the task's [iov] and [addr] *)
| ReqSendmsg (t : nat)
| ReqRead (p : dptr) (len : Z)
| ReqWrite (p : dptr) (len : Z)
| ReqSendto (data : list Z) (dst : sockaddr_in).

(** A submission queue entry: the request, the registered file and the user
    data, NULL for raw requests. *)
Record sqe := { sq_req : request; sq_file : Z; sq_data : option tptr }.

#[export] Instance dptr_eq_dec : EqDecision dptr. Proof. solve_decision. Defined.
#[export] Instance tptr_eq_dec : EqDecision tptr. Proof. solve_decision. Defined.
#[export] Instance request_eq_dec : EqDecision request. Proof. solve_decision. Defined.
#[export] Instance sqe_eq_dec : EqDecision sqe. Proof. solve_decision. Defined.

(** liburing.  [ring_push] is [io_uring_get_sqe] with the filling of the entry,
    [None] when the submission queue is full; [ring_pending] the entries
    prepared or in flight; [ring_reap] the ring after the entry completed. *)
Class IoUring (R : Type) := {
  ring_push : sqe -> R -> option R;
  ring_submit : R -> R;
  ring_reap : sqe -> R -> R;
  ring_pending : R -> list sqe
}.

Class IoUringLaws (R : Type) `{IoUring R} : Prop := {
  ring_push_pending e r r' : ring_push e r = Some r' -> ring_pending r' ≡ₚ e :: ring_pending r;
  ring_submit_pending r : ring_pending (ring_submit r) = ring_pending r;
  ring_reap_pending e r : e ∈ ring_pending r -> ring_pending r ≡ₚ e :: ring_pending (ring_reap e r)
}.

(** Handing the queue to the kernel empties it, so that there is room again;
    without this, [IoUringLaws] lets a queue stay full for ever. *)
Class IoUringDrains (R : Type) `{IoUring R} : Prop := {
  ring_drains_push e e' r r' : ring_push e r = Some r' -> is_Some (ring_push e' (ring_submit r'));
  ring_drains e e' r : is_Some (ring_push e r) -> is_Some (ring_push e' (ring_submit r))
}.

(** A ring with [depth] submission entries. *)
Record list_ring := { lr_depth : nat; lr_queue : list sqe; lr_flight : list sqe }.

Fixpoint remove_one (e : sqe) (l : list sqe) : list sqe :=
  match l with
  | [] => []
  | x :: l' => if decide (x = e) then l' else x :: remove_one e l'
  end.

#[export] Instance list_io_uring : IoUring list_ring := {
  ring_push e r := if (length (lr_queue r) <? lr_depth r)%nat
                   then Some {| lr_depth := lr_depth r; lr_queue := lr_queue r ++ [e]; lr_flight := lr_flight r |}
                   else None;
  ring_submit r := {| lr_depth := lr_depth r; lr_queue := []; lr_flight := lr_flight r ++ lr_queue r |};
  ring_reap e r := if decide (e ∈ lr_flight r)
                   then {| lr_depth := lr_depth r; lr_queue := lr_queue r; lr_flight := remove_one e (lr_flight r) |}
                   else {| lr_depth := lr_depth r; lr_queue := remove_one e (lr_queue r); lr_flight := lr_flight r |};
  ring_pending r := lr_flight r ++ lr_queue r
}.

Lemma remove_one_perm e l : e ∈ l -> l ≡ₚ e :: remove_one e l.
Proof.
  induction l as [|x l IH]; [by intros ?%not_elem_of_nil|]. cbn. destruct (decide (x = e)) as [->|Hne]; [done|].
  intros [->|Hin]%elem_of_cons; [done|]. rewrite (IH Hin) at 1. apply Permutation_swap.
Qed.

#[export] Instance list_io_uring_laws : IoUringLaws list_ring.
Proof.
  split.
  - intros e r r'. cbn. case_match; [|done]. intros [= <-]. cbn. rewrite app_assoc.
    by rewrite Permutation_app_comm.
  - intros r. cbn. by rewrite app_nil_r.
  - intros e r Hin. cbn. case_decide as Hd; cbn in *.
    + by rewrite (remove_one_perm e (lr_flight r) Hd) at 1.
    + apply elem_of_app in Hin as [?|Hin]; [done|].
      rewrite (remove_one_perm e (lr_queue r) Hin) at 1. by rewrite Permutation_middle.
Qed.

#[export] Instance list_io_uring_drains : IoUringDrains list_ring.
Proof.
  split; intros e e' r; cbn [ring_push ring_submit list_io_uring lr_queue lr_depth].
  - intros r'. destruct (Nat.ltb_spec (length (lr_queue r)) (lr_depth r)); [|done]. intros [= <-]. cbn [lr_queue lr_depth length].
    destruct (Nat.ltb_spec 0 (lr_depth r)); [by eexists|lia].
  - destruct (Nat.ltb_spec (length (lr_queue r)) (lr_depth r)); [|intros [? E]; discriminate E]. intros _. cbn [length].
    destruct (Nat.ltb_spec 0 (lr_depth r)); [by eexists|lia].
Qed.

(** ** The engine *)

Section io.
Context {R : Type} `{HR : IoUring R}.

(** [vf_io_t].  [io_batch] is the thread-local counter of [vf_io_write]; the
    callback pointers are arguments of the loop, and [timer_cb], [pmtud_cb]
    say whether they are set. *)
Record vf_io_t := {
  ring : R;
  udp_fd : Z;
  tun_fd : Z;
  running : bool;
  task_pool : list vf_task_t;
  pool_idx : Z;
  pool_size : Z;
  io_batch : Z;
  timer_cb : bool;
  timer_interval_ms : Z;
  pmtud_cb : bool;
  last_pmtud_check_ms : Z
}.

Definition set_ring (r : R) (io : vf_io_t) : vf_io_t :=
  {| ring := r; udp_fd := udp_fd io; tun_fd := tun_fd io; running := running io; task_pool := task_pool io;
     pool_idx := pool_idx io; pool_size := pool_size io; io_batch := io_batch io; timer_cb := timer_cb io;
     timer_interval_ms := timer_interval_ms io; pmtud_cb := pmtud_cb io;
     last_pmtud_check_ms := last_pmtud_check_ms io |}.
Definition set_pool (p : list vf_task_t) (io : vf_io_t) : vf_io_t :=
  {| ring := ring io; udp_fd := udp_fd io; tun_fd := tun_fd io; running := running io; task_pool := p;
     pool_idx := pool_idx io; pool_size := pool_size io; io_batch := io_batch io; timer_cb := timer_cb io;
     timer_interval_ms := timer_interval_ms io; pmtud_cb := pmtud_cb io;
     last_pmtud_check_ms := last_pmtud_check_ms io |}.
Definition set_idx (i : Z) (io : vf_io_t) : vf_io_t :=
  {| ring := ring io; udp_fd := udp_fd io; tun_fd := tun_fd io; running := running io; task_pool := task_pool io;
     pool_idx := i; pool_size := pool_size io; io_batch := io_batch io; timer_cb := timer_cb io;
     timer_interval_ms := timer_interval_ms io; pmtud_cb := pmtud_cb io;
     last_pmtud_check_ms := last_pmtud_check_ms io |}.
Definition set_batch (n : Z) (io : vf_io_t) : vf_io_t :=
  {| ring := ring io; udp_fd := udp_fd io; tun_fd := tun_fd io; running := running io; task_pool := task_pool io;
     pool_idx := pool_idx io; pool_size := pool_size io; io_batch := n; timer_cb := timer_cb io;
     timer_interval_ms := timer_interval_ms io; pmtud_cb := pmtud_cb io;
     last_pmtud_check_ms := last_pmtud_check_ms io |}.
Definition set_running (b : bool) (io : vf_io_t) : vf_io_t :=
  {| ring := ring io; udp_fd := udp_fd io; tun_fd := tun_fd io; running := b; task_pool := task_pool io;
     pool_idx := pool_idx io; pool_size := pool_size io; io_batch := io_batch io; timer_cb := timer_cb io;
     timer_interval_ms := timer_interval_ms io; pmtud_cb := pmtud_cb io;
     last_pmtud_check_ms := last_pmtud_check_ms io |}.
Definition set_pmtud_check (ms : Z) (io : vf_io_t) : vf_io_t :=
  {| ring := ring io; udp_fd := udp_fd io; tun_fd := tun_fd io; running := running io; task_pool := task_pool io;
     pool_idx := pool_idx io; pool_size := pool_size io; io_batch := io_batch io; timer_cb := timer_cb io;
     timer_interval_ms := timer_interval_ms io; pmtud_cb := pmtud_cb io;
     last_pmtud_check_ms := ms |}.

(** Update a task in place; out of the pool it is undefined. *)
Definition alter_task (i : nat) (f : vf_task_t -> vf_task_t) (io : vf_io_t) : option vf_io_t :=
  t ← task_pool io !! i; Some (set_pool (<[i := f t]> (task_pool io)) io).

(** Accesses through a task pointer.  A shifted [op] lies in the task's own
    buffer, a shifted [in_use] in the buffer of the next task. *)
Definition load_op (p : tptr) (io : vf_io_t) : option Z :=
  t ← task_pool io !! tp_task p;
  if (tp_shift p =? 0)%nat then Some (t_op t)
  else if (4 <=? tp_shift p)%nat then to_int32 <$> get_le (tp_shift p - 4) 4 (t_buf t)
  else None.

Definition store_op (p : tptr) (op : Z) (io : vf_io_t) : option vf_io_t :=
  if (tp_shift p =? 0)%nat then alter_task (tp_task p) (set_op op) io
  else if (4 <=? tp_shift p)%nat then
    t ← task_pool io !! tp_task p;
    b ← put_le (tp_shift p - 4) 4 (u32 op) (t_buf t);
    alter_task (tp_task p) (set_buf b) io
  else None.

Definition store_in_use (p : tptr) (v : bool) (io : vf_io_t) : option vf_io_t :=
  if (tp_shift p =? 0)%nat then alter_task (tp_task p) (set_in_use v) io
  else if (8 <=? tp_shift p)%nat then
    t ← task_pool io !! S (tp_task p);
    b ← put_le (tp_shift p - 8) 1 (if v then 1 else 0) (t_buf t);
    alter_task (S (tp_task p)) (set_buf b) io
  else None.

(** ** Acquiring a task *)

(** [n] more slots are tried.  A negative index, or one past the pool, is
    undefined. *)
Fixpoint get_task_loop (n : nat) (io : vf_io_t) : option (option nat * vf_io_t) :=
  match n with
  | O => Some (None, io)
  | S n' =>
      let idx := Z.rem (pool_idx io) (pool_size io) in
      let io := set_idx (to_int32 (pool_idx io + 1)) io in
      if idx <? 0 then None else
      t ← task_pool io !! Z.to_nat idx;
      if t_in_use t then get_task_loop n' io
      else io ← alter_task (Z.to_nat idx) (fun t => set_op 0 (set_in_use true t)) io;
           Some (Some (Z.to_nat idx), io)
  end.

Definition get_task_from_instance (io : vf_io_t) : option (option nat * vf_io_t) :=
  get_task_loop (Z.to_nat (pool_size io)) io.

Definition vf_io_task : vf_io_t -> option (option nat * vf_io_t) := get_task_from_instance.

(** ** Posting requests *)

Definition f_idx (io : vf_io_t) (fd : Z) : Z := if fd =? udp_fd io then 0 else 1.

Definition vf_io_read (io : vf_io_t) (fd op : Z) : option vf_io_t :=
  '(t, io) ← get_task_from_instance io;
  match t with
  | None => Some io
  | Some i =>
      let p := {| tp_task := i; tp_shift := 0 |} in
      let base := {| dp_task := i; dp_off := 0 |} in
      let req := if op =? OP_UDP_RECV then ReqRecvmsg i
                 else ReqRead {| dp_task := i; dp_off := HLEN |} (BUF_SIZE - VPN_TNL_HLEN) in
      match ring_push {| sq_req := req; sq_file := f_idx io fd; sq_data := Some p |} (ring io) with
      | None => store_in_use p false io
      | Some r =>
          io ← store_op p op (set_ring r io);
          if op =? OP_UDP_RECV then alter_task i (set_iov base BUF_SIZE) io else Some io
      end
  end.

(** Submit at once for small pools, every eighth write for large ones. *)
Definition maybe_submit (io : vf_io_t) : vf_io_t :=
  if pool_size io <=? 64 then set_ring (ring_submit (ring io)) io
  else let n := io_batch io + 1 in
       if 8 <=? n then set_batch 0 (set_ring (ring_submit (ring io)) io) else set_batch n io.

(** [dest] is [None] for NULL.  A datagram from a shifted pointer would store
    its message header over other tasks: undefined here, no caller does it. *)
Definition vf_io_write (io : vf_io_t) (fd op : Z) (data : dptr) (len : Z) (dest : option sockaddr_in)
    : option vf_io_t :=
  let p := vfast_data_to_task data in
  let req := if op =? OP_UDP_SEND then ReqSendmsg (tp_task p) else ReqWrite data len in
  match ring_push {| sq_req := req; sq_file := f_idx io fd; sq_data := Some p |} (ring io) with
  | None => store_in_use p false io
  | Some r =>
      io ← store_op p op (set_ring r io);
      io ← (if op =? OP_UDP_SEND then
              if negb (tp_shift p =? 0)%nat then None else
              dest ← dest;
              alter_task (tp_task p) (fun t => set_addr dest (set_iov data (u64 len) t)) io
            else Some io);
      Some (maybe_submit io)
  end.

Definition vf_io_raw (io : vf_io_t) (fd : Z) (data : option (list Z)) (dst : sockaddr_in) : vf_io_t :=
  match data with
  | None | Some [] => io
  | Some data =>
      let e := {| sq_req := ReqSendto data dst; sq_file := f_idx io fd; sq_data := None |} in
      match ring_push e (ring io) with
      | Some r => set_ring (ring_submit r) io
      | None =>
          let io := set_ring (ring_submit (ring io)) io in
          match ring_push e (ring io) with
          | Some r => set_ring (ring_submit r) io
          | None => io
          end
      end
  end.

(** ** Monitoring *)

(** The counts of busy tasks: TUN reads, UDP receives, TUN writes, UDP sends,
    others. *)
Definition vf_monitor_pool_status (io : vf_io_t) : Z * Z * Z * Z * Z :=
  fold_left (fun acc t =>
    let '(tr, ur, tw, us, un) := acc in
    if t_in_use t then
      if t_op t =? OP_TUN_READ then (tr + 1, ur, tw, us, un)
      else if t_op t =? OP_UDP_RECV then (tr, ur + 1, tw, us, un)
      else if t_op t =? OP_TUN_WRITE then (tr, ur, tw + 1, us, un)
      else if t_op t =? OP_UDP_SEND then (tr, ur, tw, us + 1, un)
      else (tr, ur, tw, us, un + 1)
    else acc) (task_pool io) (0, 0, 0, 0, 0).

(** ** Path-MTU errors *)

(** A control message of the error queue. *)
Record cmsg := {
  cm_level : Z; cm_type : Z; ee_origin : Z; ee_errno : Z; ee_type : Z; ee_code : Z; ee_info : Z
}.

Definition icmp_mtu (c : cmsg) : option Z :=
  let is_v4_err := (cm_level c =? 0) && (cm_type c =? 11) in
  let is_v6_err := (cm_level c =? 41) && (cm_type c =? 25) in
  if is_v4_err || is_v6_err then
    let is_icmp_mtu :=
      if ee_origin c =? 2 then (ee_type c =? 3) && (ee_code c =? 4)
      else if ee_origin c =? 3 then ee_type c =? 2
      else (ee_origin c =? 1) && (ee_errno c =? 90) in
    if is_icmp_mtu && (0 <? ee_info c) then Some (ee_info c) else None
  else None.

(** The MTUs reported for the messages that were queued. *)
Definition vfast_check_icmp_errors (fd : Z) (msgs : list (list cmsg)) : list Z :=
  if fd <? 0 then [] else omap icmp_mtu (concat msgs).

(** ** Set-up and tear-down *)

Definition zero_task : vf_task_t :=
  {| t_op := 0; t_buf := replicate (Z.to_nat BUF_SIZE) 0; t_iov_base := {| dp_task := 0; dp_off := 0 |};
     t_iov_len := 0; t_addr := {| sin_addr := 0; sin_port := 0 |}; t_in_use := false |}.

(** [memset] of the structure, around a ring that is not set up yet. *)
Definition zero_io (r : R) : vf_io_t :=
  {| ring := r; udp_fd := 0; tun_fd := 0; running := false; task_pool := []; pool_idx := 0; pool_size := 0;
     io_batch := 0; timer_cb := false; timer_interval_ms := 0; pmtud_cb := false; last_pmtud_check_ms := 0 |}.

Definition set_fds (u t size : Z) (io : vf_io_t) : vf_io_t :=
  {| ring := ring io; udp_fd := u; tun_fd := t; running := running io; task_pool := task_pool io;
     pool_idx := pool_idx io; pool_size := size; io_batch := io_batch io; timer_cb := timer_cb io;
     timer_interval_ms := timer_interval_ms io; pmtud_cb := pmtud_cb io;
     last_pmtud_check_ms := last_pmtud_check_ms io |}.

(** [mem] tells whether the allocation succeeds, [queue] what
    [io_uring_queue_init] gives; the registrations may fail without effect. *)
Definition vf_io_init (io : vf_io_t) (udp_fd tun_fd pool_size : Z) (mem : bool) (queue : Z + R) : Z * vf_io_t :=
  let io := set_fds udp_fd tun_fd pool_size io in
  if negb mem then (-1, io) else
  match queue with
  | inl err => (err, set_pool [] io)
  | inr r => (0, set_ring r (set_pool (replicate (Z.to_nat pool_size) zero_task) io))
  end.

Definition vf_io_set_timer (io : vf_io_t) (ms : Z) (cb : bool) : vf_io_t :=
  {| ring := ring io; udp_fd := udp_fd io; tun_fd := tun_fd io; running := running io; task_pool := task_pool io;
     pool_idx := pool_idx io; pool_size := pool_size io; io_batch := io_batch io; timer_cb := cb;
     timer_interval_ms := ms; pmtud_cb := pmtud_cb io; last_pmtud_check_ms := last_pmtud_check_ms io |}.

Definition vf_io_set_pmtud_callback (io : vf_io_t) (cb : bool) : vf_io_t :=
  {| ring := ring io; udp_fd := udp_fd io; tun_fd := tun_fd io; running := running io; task_pool := task_pool io;
     pool_idx := pool_idx io; pool_size := pool_size io; io_batch := io_batch io; timer_cb := timer_cb io;
     timer_interval_ms := timer_interval_ms io; pmtud_cb := cb; last_pmtud_check_ms := 0 |}.

(** The descriptors it closes. *)
Definition vf_io_exit (io : vf_io_t) : list Z * vf_io_t :=
  ((if 0 <=? udp_fd io then [udp_fd io] else []) ++ (if 0 <=? tun_fd io then [tun_fd io] else []),
   set_pool [] io).

(** ** Completions *)

(** A completed request: the result and, for reads, the bytes that arrived
    and their sender. *)
Record completion := { co_sqe : sqe; co_res : Z; co_data : list Z; co_from : sockaddr_in }.

(** What the kernel stores before it posts the completion. *)
Definition kernel_complete (io : vf_io_t) (c : completion) : option vf_io_t :=
  let io := set_ring (ring_reap (co_sqe c) (ring io)) io in
  match sq_req (co_sqe c) with
  | ReqRecvmsg i =>
      t ← task_pool io !! i;
      b ← put_bytes (dp_off (t_iov_base t)) (co_data c) (t_buf t);
      alter_task i (fun t => set_addr (co_from c) (set_buf b t)) io
  | ReqRead p _ =>
      t ← task_pool io !! dp_task p;
      b ← put_bytes (dp_off p) (co_data c) (t_buf t);
      alter_task (dp_task p) (set_buf b) io
  | _ => Some io
  end.

Section loop.
(** The rest of the program, and its callbacks: the data callbacks get the
    task whose buffer holds the packet and the length. *)
Context {W : Type}.
Variable on_udp_data on_tun_data : W -> vf_io_t -> nat -> Z -> option (W * vf_io_t * vf_task_state_t).
Variable on_timer : W -> vf_io_t -> option (W * vf_io_t).
Variable on_pmtud : W -> vf_io_t -> Z -> option (W * vf_io_t).

Definition EAGAIN : Z := 11.
Definition ETIME : Z := 62.
Definition EINTR : Z := 4.

(** One round of [io_uring_for_each_cqe]: the user data and the result. *)
Definition process_cqe (a : W * vf_io_t) (c : option tptr * Z) : option (W * vf_io_t) :=
  let '(w, io) := a in
  let '(data, res) := c in
  match data with
  | None => Some (w, io)
  | Some p =>
      op ← load_op p io;
      '(w, io, st) ←
        (if 0 <=? res then
           if op =? OP_TUN_READ then
             if negb (tp_shift p =? 0)%nat then None else
             '(w, io, st) ← on_tun_data w io (tp_task p) res;
             io ← vf_io_read io (tun_fd io) OP_TUN_READ;
             Some (w, io, st)
           else if op =? OP_UDP_RECV then
             if negb (tp_shift p =? 0)%nat then None else
             '(w, io, st) ← on_udp_data w io (tp_task p) res;
             io ← vf_io_read io (udp_fd io) OP_UDP_RECV;
             Some (w, io, st)
           else Some (w, io, IO_TASK_DONE)
         else
           io ← (if (op =? OP_TUN_READ) || (op =? OP_UDP_RECV)
                 then vf_io_read io (if op =? OP_TUN_READ then tun_fd io else udp_fd io) op
                 else Some io);
           Some (w, io, IO_TASK_DONE));
      match st with
      | IO_TASK_DONE => io ← store_in_use p false io; Some (w, io)
      | IO_TASK_USE => Some (w, io)
      end
  end.

(** What one iteration of the loop meets: the result of the wait, the clock,
    the queued socket errors, the completions, and whether a signal arrives
    before the next iteration. *)
Record io_event := {
  ev_ret : Z; ev_now : Z; ev_icmp : list (list cmsg); ev_batch : list completion; ev_signal : bool
}.

(** The loop's own variables. *)
Record loop_state := { ls_world : W; ls_io : vf_io_t; ls_last_tick : Z; ls_last_stat : Z }.

Inductive loop_next := LoopContinue | LoopBreak.

Definition vf_io_iter (s : loop_state) (e : io_event) : option (loop_next * loop_state) :=
  io ← foldM kernel_complete (ls_io s) (ev_batch e);
  let now := ev_now e in
  '(w, io) ←
    (if pmtud_cb io && (1000 <=? u64 (now - last_pmtud_check_ms io)) then
       '(w, io) ← foldM (fun '(w, io) mtu => on_pmtud w io mtu) (ls_world s, io)
                    (vfast_check_icmp_errors (udp_fd io) (ev_icmp e));
       Some (w, set_pmtud_check (u32 now) io)
     else Some (ls_world s, io));
  '(w, io, tick) ←
    (if timer_cb io && (0 <? timer_interval_ms io) && (timer_interval_ms io <=? u64 (now - ls_last_tick s)) then
       '(w, io) ← on_timer w io; Some (w, io, now)
     else Some (w, io, ls_last_tick s));
  let st w io stat := {| ls_world := w; ls_io := io; ls_last_tick := tick; ls_last_stat := stat |} in
  if ev_ret e <? 0 then
    Some (if (ev_ret e =? - ETIME) || (ev_ret e =? - EINTR) then LoopContinue else LoopBreak,
          st w io (ls_last_stat s))
  else
    '(w, io) ← foldM process_cqe (w, io)
                 ((fun c => (sq_data (co_sqe c), co_res c)) <$> ev_batch e);
    let io := if (0 <? length (ev_batch e))%nat then set_ring (ring_submit (ring io)) io else io in
    Some (LoopContinue, st w io (if 1000 <=? u64 (now - ls_last_stat s) then now else ls_last_stat s)).

(** The signal handler clears [running]. *)
Definition after_signal (e : io_event) (s : loop_state) : loop_state :=
  if ev_signal e
  then {| ls_world := ls_world s; ls_io := set_running false (ls_io s);
          ls_last_tick := ls_last_tick s; ls_last_stat := ls_last_stat s |}
  else s.

(** A failed wait that ends the loop. *)
Definition fatal (e : io_event) : bool := (ev_ret e <? 0) && negb ((ev_ret e =? - ETIME) || (ev_ret e =? - EINTR)).
Definition stopping (e : io_event) : bool := ev_signal e || fatal e.

(** What [running] holds when the loop is over. *)
Fixpoint running_after (es : list io_event) : bool :=
  match es with
  | [] => true
  | e :: es => if ev_signal e then false else fatal e || running_after es
  end.

(** The loop over the events it meets; it stops early on a fatal error or
    when [running] is cleared. *)
Fixpoint vf_io_loop (s : loop_state) (es : list io_event) : option loop_state :=
  match es with
  | [] => Some s
  | e :: es =>
      if negb (running (ls_io s)) then Some s else
      '(nx, s) ← vf_io_iter s e;
      let s := after_signal e s in
      match nx with LoopBreak => Some s | LoopContinue => vf_io_loop s es end
  end.

Definition vf_io_warm_up (io : vf_io_t) : option vf_io_t :=
  io ← foldM (fun io (_ : nat) => io ← vf_io_read io (tun_fd io) OP_TUN_READ; vf_io_read io (udp_fd io) OP_UDP_RECV)
         io (seq 0 16);
  Some (set_ring (ring_submit (ring io)) io).

Definition vf_io_run (w : W) (io : vf_io_t) (now0 : Z) (es : list io_event) : option loop_state :=
  io ← vf_io_warm_up (set_running true io);
  vf_io_loop {| ls_world := w; ls_io := io; ls_last_tick := now0; ls_last_stat := 0 |} es.
End loop.
End io.

Arguments vf_io_t : clear implicits.

(** * Ownership *)

Section ownership.
Context {R : Type} `{HR : IoUring R, HL : !IoUringLaws R}.
Implicit Type io : vf_io_t R.

Definition own (i : nat) : tptr := {| tp_task := i; tp_shift := 0 |}.

(** The tasks the kernel works on. *)
Definition flight io : list tptr := omap sq_data (ring_pending (ring io)).

Definition task_busy io (i : nat) : Prop := exists t, task_pool io !! i = Some t /\ t_in_use t = true.
Definition task_size (t : vf_task_t) : Prop := length (t_buf t) = Z.to_nat BUF_SIZE /\ bytes_ok (t_buf t).

(** A request belongs to the task that its user data names. *)
Definition req_ok (pool : list vf_task_t) (e : sqe) : Prop :=
  match sq_data e with
  | None => exists d a, sq_req e = ReqSendto d a
  | Some p =>
      exists t, pool !! tp_task p = Some t /\
      match sq_req e with
      | ReqRecvmsg j => j = tp_task p /\ t_op t = OP_UDP_RECV /\
                        t_iov_base t = {| dp_task := j; dp_off := 0 |} /\ t_iov_len t = BUF_SIZE
      | ReqSendmsg j => j = tp_task p /\ t_op t = OP_UDP_SEND
      | ReqRead d n => d = {| dp_task := tp_task p; dp_off := HLEN |} /\ n = BUF_SIZE - VPN_TNL_HLEN /\
                       t_op t = OP_TUN_READ
      | ReqWrite d _ => dp_task d = tp_task p /\ t_op t = OP_TUN_WRITE
      | ReqSendto _ _ => False
      end
  end.

(** [held] are the tasks the thread itself works on: a task is in use exactly
    when the thread or the kernel holds it, and never held twice. *)
Record io_inv io (held : list nat) : Prop := {
  ii_size : Z.of_nat (length (task_pool io)) = pool_size io;
  ii_bufs : Forall task_size (task_pool io);
  ii_flight : exists fl, flight io = own <$> fl /\ NoDup (held ++ fl) /\
    forall i, i ∈ held ++ fl <-> task_busy io i;
  ii_reqs : Forall (req_ok (task_pool io)) (ring_pending (ring io))
}.

(** [n] more acquisitions before the index overflows. *)
Definition io_budget io (n : nat) : Prop :=
  0 <= pool_idx io /\ pool_idx io + Z.of_nat n * pool_size io < 2 ^ 31.

(** Everything but the pool, the ring, the index and the batch counter. *)
Definition same_io io io' : Prop :=
  udp_fd io' = udp_fd io /\ tun_fd io' = tun_fd io /\ running io' = running io /\
  pool_size io' = pool_size io /\ timer_cb io' = timer_cb io /\
  timer_interval_ms io' = timer_interval_ms io /\ pmtud_cb io' = pmtud_cb io /\
  last_pmtud_check_ms io' = last_pmtud_check_ms io.

#[export] Instance same_io_preorder : PreOrder same_io.
Proof.
  split; [by intros io|]. unfold same_io. intros a b c (?&?&?&?&?&?&?&?) (?&?&?&?&?&?&?&?).
  repeat split; congruence.
Qed.

Lemma io_inv_perm io h h' : h ≡ₚ h' -> io_inv io h -> io_inv io h'.
Proof.
  intros Hp [? ? (fl & Hf & Hn & Hb) ?]. split; [done|done| |done].
  exists fl. split; [done|]. split; [by rewrite <- Hp|]. intros i. by rewrite <- Hp.
Qed.

(** The pool index and the loop's settings play no role. *)
Lemma io_inv_same io io' h :
  task_pool io' = task_pool io -> ring io' = ring io -> pool_size io' = pool_size io ->
  io_inv io h -> io_inv io' h.
Proof.
  intros Ep Er Es [? ? (fl & Hf & Hn & Hb) ?]. split; [congruence|congruence| |congruence].
  exists fl. split; [unfold flight in *; congruence|]. split; [done|]. intros i. rewrite Hb.
  unfold task_busy. by rewrite Ep.
Qed.

Lemma budget_le io n m : (m <= n)%nat -> 0 <= pool_size io -> io_budget io n -> io_budget io m.
Proof. intros Hm Hs [H1 H2]. split; [done|]. nia. Qed.

(** ** Acquisition *)

Lemma get_task_ring n io r io' : get_task_loop n io = Some (r, io') -> ring io' = ring io.
Proof.
  revert io. induction n as [|n IH]; intros io; cbn [get_task_loop].
  - by intros [= <- <-].
  - destruct (_ <? 0); [done|]. cbn [set_idx task_pool].
    destruct (task_pool io !! _) as [t|] eqn:Et; [|done]. cbn [mbind option_bind].
    destruct (t_in_use t); [by intros ->%IH|]. unfold alter_task. cbn [set_idx task_pool]. rewrite Et.
    cbn [mbind option_bind]. by intros [= <- <-].
Qed.

(** The search: where it ends, and that it passed busy tasks only. *)
Lemma get_task_loop_spec n io :
  Z.of_nat (length (task_pool io)) = pool_size io -> 0 <= pool_idx io ->
  (n = 0%nat \/ 0 < pool_size io) -> pool_idx io + Z.of_nat n < 2 ^ 31 ->
  exists (k : nat) r,
    (k <= n)%nat /\
    (forall j, (j < k)%nat -> task_busy io (Z.to_nat ((pool_idx io + Z.of_nat j) mod pool_size io))) /\
    match r with
    | None => k = n /\ get_task_loop n io = Some (None, set_idx (pool_idx io + Z.of_nat k) io)
    | Some i =>
        (k < n)%nat /\ i = Z.to_nat ((pool_idx io + Z.of_nat k) mod pool_size io) /\
        exists t, task_pool io !! i = Some t /\ t_in_use t = false /\
        get_task_loop n io = Some (Some i, set_pool (<[i := set_op 0 (set_in_use true t)]> (task_pool io))
                                             (set_idx (pool_idx io + Z.of_nat (S k)) io))
    end.
Proof.
  revert io. induction n as [|n IH]; intros io Hl Hi Hs Hb.
  - exists 0%nat, None. split; [done|]. split; [lia|]. split; [done|]. cbn.
    rewrite Z.add_0_r. by destruct io.
  - destruct Hs as [|Hs]; [done|]. cbn [get_task_loop].
    rewrite Z.rem_mod_nonneg by lia.
    pose proof (Z.mod_pos_bound (pool_idx io) (pool_size io) Hs) as Hm.
    destruct (Z.ltb_spec (pool_idx io mod pool_size io) 0); [lia|].
    rewrite to_int32_small by lia.
    destruct (lookup_lt_is_Some_2 (task_pool io) (Z.to_nat (pool_idx io mod pool_size io))) as [t Ht]; [lia|].
    cbn [set_idx task_pool mbind option_bind]. rewrite Ht. cbn [mbind option_bind].
    destruct (t_in_use t) eqn:Eu.
    + destruct (IH (set_idx (pool_idx io + 1) io)) as (k & r & Hk & Hbusy & Hr); [done|cbn; lia|by right|cbn; lia|].
      cbn [set_idx pool_idx pool_size task_pool] in *.
      exists (S k), r. split; [lia|]. split.
      * intros [|j] Hj.
        -- rewrite Z.add_0_r. by exists t.
        -- specialize (Hbusy j ltac:(lia)). by replace (pool_idx io + 1 + Z.of_nat j) with
             (pool_idx io + Z.of_nat (S j)) in Hbusy by lia.
      * replace (pool_idx io + Z.of_nat (S k)) with (pool_idx io + 1 + Z.of_nat k) by lia.
        destruct r as [i|].
        -- destruct Hr as (Hk' & Hi' & t' & Ht' & Hu' & E). split; [lia|]. split; [done|].
           exists t'. split; [done|]. split; [done|]. rewrite E. f_equal. f_equal. unfold set_pool, set_idx. cbn.
           f_equal. lia.
        -- destruct Hr as [-> E]. split; [done|]. rewrite E. done.
    + exists 0%nat, (Some (Z.to_nat (pool_idx io mod pool_size io))). split; [lia|]. split; [lia|].
      split; [lia|]. rewrite Z.add_0_r. split; [done|]. exists t. split; [done|]. split; [done|].
      unfold alter_task. cbn [set_idx task_pool mbind option_bind]. rewrite Ht. cbn [mbind option_bind]. done.
Qed.

Lemma req_ok_insert pool e i t :
  (forall p, sq_data e = Some p -> tp_task p <> i) -> req_ok pool e -> req_ok (<[i := t]> pool) e.
Proof.
  unfold req_ok. destruct (sq_data e) as [p|]; [|done]. intros Hne (t0 & Ht & Hr).
  exists t0. split; [|done]. rewrite list_lookup_insert_ne; [done|]. by apply not_eq_sym, Hne.
Qed.

(** No request is affected by a task the kernel does not hold. *)
Lemma reqs_insert io i t fl :
  flight io = own <$> fl -> i ∉ fl -> Forall (req_ok (task_pool io)) (ring_pending (ring io)) ->
  Forall (req_ok (<[i := t]> (task_pool io))) (ring_pending (ring io)).
Proof.
  intros Hf Hi Hr. rewrite list.Forall_forall in Hr |- *. intros e He. apply req_ok_insert; [|by apply Hr].
  intros p Hp Hpi. apply Hi.
  assert (p ∈ flight io) as Hin by (apply list_elem_of_omap; eauto).
  rewrite Hf in Hin. apply list_elem_of_fmap in Hin as (j & -> & Hj). by rewrite <- Hpi.
Qed.

Lemma task_busy_insert io i t' j :
  is_Some (task_pool io !! i) ->
  task_busy (set_pool (<[i := t']> (task_pool io)) io) j <->
  (j = i /\ t_in_use t' = true) \/ (j <> i /\ task_busy io j).
Proof.
  intros [t Ht]. unfold task_busy. cbn [set_pool task_pool].
  pose proof (lookup_lt_Some _ _ _ Ht) as Hlt. destruct (decide (j = i)) as [->|Hne].
  - rewrite list_lookup_insert_eq by done. split.
    + intros (x & [= <-] & Hx). by left.
    + intros [[_ Hx]|[? _]]; [by eauto|done].
  - rewrite list_lookup_insert_ne by done. split; [by right|]. intros [[-> _]|[_ ?]]; done.
Qed.

Lemma bufs_insert pool i t : Forall task_size pool -> task_size t -> Forall task_size (<[i := t]> pool).
Proof. apply Forall_insert. Qed.

(** Changing a held task that stays in use. *)
Lemma io_inv_alter io held i t t' :
  io_inv io held -> i ∈ held -> task_pool io !! i = Some t -> t_in_use t' = t_in_use t -> task_size t' ->
  io_inv (set_pool (<[i := t']> (task_pool io)) io) held.
Proof.
  intros Hinv Hi Ht Hu Hs. destruct Hinv as [? ? (fl & Hf & Hn & Hb) Hr].
  split; cbn [set_pool task_pool pool_size ring].
  - by rewrite length_insert.
  - by apply bufs_insert.
  - exists fl. split; [done|]. split; [done|]. intros j. rewrite task_busy_insert by eauto. rewrite Hb.
    destruct (decide (j = i)) as [->|Hne]; [|tauto]. split; [|intros [[_ Hx]|[? _]]; [|done]].
    + intros (x & Hx & Hxu). left. split; [done|]. congruence.
    + exists t. split; [done|congruence].
  - apply (reqs_insert io i t' fl); [done| |done]. intros Hfl.
    apply list.NoDup_app in Hn as (_ & Hd & _). by apply (Hd i).
Qed.

Lemma io_inv_acquire io held i t :
  io_inv io held -> task_pool io !! i = Some t -> t_in_use t = false ->
  io_inv (set_pool (<[i := set_op 0 (set_in_use true t)]> (task_pool io)) io) (i :: held).
Proof.
  intros [? Hbf (fl & Hf & Hn & Hb) Hr] Ht Hu.
  assert (i ∉ held ++ fl) as Hni by (rewrite Hb; intros (x & Hx & Hxu); congruence).
  split; cbn [set_pool task_pool pool_size ring].
  - by rewrite length_insert.
  - apply bufs_insert; [done|]. rewrite list.Forall_forall in Hbf. by apply (Hbf t), list_elem_of_lookup_2 with i.
  - exists fl. split; [done|]. split; [by apply list.NoDup_cons|]. intros j. cbn [app].
    rewrite task_busy_insert, elem_of_cons by eauto. cbn [set_op set_in_use t_in_use]. rewrite <- Hb.
    destruct (decide (j = i)) as [->|]; tauto.
  - apply (reqs_insert io i _ fl); [done| |done]. intros Hfl. by apply Hni, elem_of_app; right.
Qed.

Lemma io_inv_release io held i t :
  io_inv io (i :: held) -> task_pool io !! i = Some t ->
  io_inv (set_pool (<[i := set_in_use false t]> (task_pool io)) io) held.
Proof.
  intros [? Hbf (fl & Hf & Hn & Hb) Hr] Ht. cbn [app] in Hn. apply list.NoDup_cons in Hn as [Hni Hn].
  split; cbn [set_pool task_pool pool_size ring].
  - by rewrite length_insert.
  - apply bufs_insert; [done|]. rewrite list.Forall_forall in Hbf. by apply (Hbf t), list_elem_of_lookup_2 with i.
  - exists fl. split; [done|]. split; [done|]. intros j.
    rewrite task_busy_insert by eauto. cbn [set_in_use t_in_use]. specialize (Hb j). cbn [app] in Hb.
    rewrite elem_of_cons in Hb. split.
    + intros Hj. right. split; [by intros ->|]. apply Hb. by right.
    + intros [[_ [=]]|[Hne Hj]]. apply Hb in Hj as [->|?]; done.
  - apply (reqs_insert io i _ fl); [done| |done]. intros Hfl. by apply Hni, elem_of_app; right.
Qed.

Lemma held_lookup io held i : io_inv io held -> i ∈ held -> exists t, task_pool io !! i = Some t /\ task_size t.
Proof.
  intros [_ Hbf (fl & _ & _ & Hb) _] Hi. assert (i ∈ held ++ fl) as Hx by (apply elem_of_app; by left).
  apply Hb in Hx as (t & Ht & _). exists t. split; [done|]. rewrite list.Forall_forall in Hbf.
  by apply Hbf, list_elem_of_lookup_2 with i.
Qed.

Lemma store_in_use_release io held i :
  io_inv io (i :: held) ->
  exists io', store_in_use (own i) false io = Some io' /\ io_inv io' held /\ same_io io io' /\
    pool_idx io' = pool_idx io.
Proof.
  intros Hinv. destruct (held_lookup io _ i Hinv) as (t & Ht & _); [left|].
  unfold store_in_use, alter_task. cbn. rewrite Ht. cbn [mbind option_bind].
  eexists. split; [done|]. split; [by apply io_inv_release|]. done.
Qed.

(** The search finds a task whenever there is one. *)
Lemma get_task_inv io held n :
  io_inv io held -> io_budget io (S n) ->
  exists r io', get_task_from_instance io = Some (r, io') /\ same_io io io' /\ io_budget io' n /\
    match r with
    | Some i => io_inv io' (i :: held) /\ ~ task_busy io i /\
        exists t, task_pool io !! i = Some t /\ task_pool io' = <[i := set_op 0 (set_in_use true t)]> (task_pool io)
    | None => io_inv io' held /\ task_pool io' = task_pool io /\
        forall i, (i < length (task_pool io))%nat -> task_busy io i
    end.
Proof.
  intros Hinv [Hi Hbud]. pose proof (ii_size _ _ Hinv) as Hs. unfold get_task_from_instance.
  destruct (get_task_loop_spec (Z.to_nat (pool_size io)) io) as (k & r & Hk & Hbusy & Hr); [done|done|lia|lia|].
  destruct r as [i|].
  - destruct Hr as (Hk' & Ei & t & Ht & Hu & E). exists (Some i). eexists. split; [exact E|]. split; [done|].
    split; [split; cbn; nia|]. split; [|split].
    + apply (io_inv_same (set_pool (<[i := set_op 0 (set_in_use true t)]> (task_pool io)) io)); [done..|].
      by apply io_inv_acquire.
    + intros (x & Hx & Hxu). congruence.
    + eauto.
  - destruct Hr as [-> E]. exists None. eexists. split; [exact E|]. split; [done|].
    split; [split; cbn; nia|]. split; [by apply (io_inv_same io)|]. split; [done|].
    intros i Hlt. set (S := pool_size io) in *. assert (0 < S) as HS by lia.
    set (j := (Z.of_nat i - pool_idx io) mod S). pose proof (Z.mod_pos_bound (Z.of_nat i - pool_idx io) S HS) as Hj.
    specialize (Hbusy (Z.to_nat j) ltac:(lia)).
    rewrite Z2Nat.id in Hbusy by lia. unfold j in Hbusy. rewrite Zplus_mod_idemp_r in Hbusy.
    replace (pool_idx io + (Z.of_nat i - pool_idx io)) with (Z.of_nat i) in Hbusy by lia.
    rewrite Z.mod_small in Hbusy by lia. by rewrite Nat2Z.id in Hbusy.
Qed.

(** ** Requests *)

Lemma own_perm l fl : l ≡ₚ own <$> fl -> exists fl', l = own <$> fl' /\ fl' ≡ₚ fl.
Proof.
  intros Hp. exists (tp_task <$> l). split.
  - rewrite <- list_fmap_compose. rewrite <- (list_fmap_id l) at 1. apply list_fmap_ext.
    intros k p Hk. apply list_elem_of_lookup_2 in Hk. rewrite Hp in Hk.
    by apply list_elem_of_fmap in Hk as (j & -> & _).
  - rewrite Hp, <- list_fmap_compose. apply reflexive_eq. by apply list_fmap_id.
Qed.

Lemma io_inv_push io held i e r t t' :
  io_inv io (i :: held) -> ring_push e (ring io) = Some r -> sq_data e = Some (own i) ->
  task_pool io !! i = Some t -> t_in_use t' = true -> task_size t' ->
  req_ok (<[i := t']> (task_pool io)) e ->
  io_inv (set_pool (<[i := t']> (task_pool io)) (set_ring r io)) held.
Proof.
  intros [? Hbf (fl & Hf & Hn & Hb) Hr] Hpush Hd Ht Hu Hs He. cbn [app] in *.
  pose proof (ring_push_pending _ _ _ Hpush) as Hp.
  pose proof Hn as Hn'. apply list.NoDup_cons in Hn' as [Hni Hn'].
  split; cbn [set_pool set_ring task_pool pool_size ring].
  - by rewrite length_insert.
  - by apply bufs_insert.
  - assert (flight (set_pool (<[i := t']> (task_pool io)) (set_ring r io)) ≡ₚ own <$> i :: fl) as Hfl.
    { unfold flight. cbn [set_pool set_ring ring]. rewrite Hp. cbn [omap list_omap]. rewrite Hd.
      unfold flight in Hf. by rewrite Hf. }
    destruct (own_perm _ _ Hfl) as (fl' & Efl & Hpf).
    exists fl'. split; [done|]. split.
    + rewrite Hpf. by rewrite <- Permutation_middle.
    + intros j. rewrite Hpf. setoid_rewrite <- Permutation_middle.
      change (set_ring r io) with (set_ring r io).
      rewrite (Hb j). unfold task_busy. cbn [set_pool set_ring task_pool].
      pose proof (lookup_lt_Some _ _ _ Ht) as Hlt. destruct (decide (j = i)) as [->|Hne].
      * rewrite list_lookup_insert_eq by done. split; [eauto|]. intros _. apply Hb. left.
      * by rewrite list_lookup_insert_ne.
  - rewrite Hp. constructor; [done|]. apply (reqs_insert io i t' fl); [done| |done].
    intros Hx. by apply Hni, elem_of_app; right.
Qed.

Lemma set_pool_pool p q io : set_pool p (set_pool q io) = set_pool p io.
Proof. by destruct io. Qed.

(** Posting a read takes a task from the pool and hands it to the kernel, or
    leaves the pool as it was. *)
Lemma vf_io_read_inv io held n fd op :
  io_inv io held -> io_budget io (S n) -> op = OP_TUN_READ \/ op = OP_UDP_RECV ->
  exists io', vf_io_read io fd op = Some io' /\ io_inv io' held /\ io_budget io' n /\ same_io io io' /\
    forall j, j ∈ held -> task_pool io' !! j = task_pool io !! j.
Proof.
  intros Hinv Hbud Hop. unfold vf_io_read.
  destruct (get_task_inv io held n Hinv Hbud) as (r & io1 & -> & Hs1 & Hb1 & Hr). cbn [mbind option_bind].
  destruct r as [i|].
  2: { destruct Hr as (Hi1 & Hp & _). exists io1. split; [done|]. split; [done|]. split; [done|].
       split; [done|]. intros j _. by rewrite Hp. }
  destruct Hr as (Hi1 & Hnb & t & Ht & Hp).
  assert (forall j, j ∈ held -> j <> i) as Hne.
  { intros j Hj ->. apply Hnb. destruct Hinv as [_ _ (fl & _ & _ & Hb) _]. apply Hb, elem_of_app. by left. }
  assert (forall io', (forall j, j <> i -> task_pool io' !! j = task_pool io1 !! j) ->
    forall j, j ∈ held -> task_pool io' !! j = task_pool io !! j) as Hframe.
  { intros io' H j Hj. rewrite H by auto. rewrite Hp. rewrite list_lookup_insert_ne; [done|].
    by apply not_eq_sym, Hne. }
  change {| tp_task := i; tp_shift := 0 |} with (own i).
  destruct (ring_push _ (ring io1)) as [rg|] eqn:Epush.
  2: { destruct (store_in_use_release io1 held i Hi1) as (io2 & E2 & Hi2 & Hs2 & Hx2).
       exists io2. split; [done|]. split; [done|]. split; [split; [by rewrite Hx2; apply Hb1|]|].
       { rewrite Hx2. destruct Hs2 as (_ & _ & _ & -> & _). apply Hb1. }
       split; [by transitivity io1|]. apply Hframe. intros j Hj.
       revert E2. unfold store_in_use, alter_task. cbn. destruct (task_pool io1 !! i); [|done].
       cbn. intros [= <-]. cbn. by rewrite list_lookup_insert_ne. }
  pose proof (lookup_lt_Some _ _ _ Ht) as Hlt.
  set (t1 := set_op 0 (set_in_use true t)) in *.
  assert (task_pool io1 !! i = Some t1) as Ht1 by (rewrite Hp; by rewrite list_lookup_insert_eq).
  destruct (held_lookup io1 _ i Hi1) as (t1' & Ht1' & Hsz); [left|]. rewrite Ht1 in Ht1'. injection Ht1' as <-.
  unfold store_op, alter_task. cbn [own tp_shift tp_task Nat.eqb set_ring task_pool].
  rewrite Ht1. cbn [mbind option_bind set_pool task_pool].
  destruct Hop as [-> | ->]; cbn [Z.eqb OP_TUN_READ OP_UDP_RECV Pos.eqb] in *.
  - eexists. split; [done|]. split; [|split; [done|split; [done|]]].
    + eapply (io_inv_push io1 held i _ rg t1 (set_op 1 t1)); [done|exact Epush|done|done|done|done|].
      exists (set_op 1 t1). cbn [sq_data sq_req tp_task own]. split; [|done].
      apply list_lookup_insert_eq. by apply lookup_lt_Some in Ht1.
    + apply Hframe. intros j Hj. cbn. by rewrite list_lookup_insert_ne.
  - rewrite list_lookup_insert_eq by (by apply lookup_lt_Some in Ht1). cbn [mbind option_bind].
    rewrite list_insert_insert_eq.
    eexists. split; [done|]. split; [|split; [done|split; [done|]]].
    + change (set_pool ?p (set_pool ?q ?x)) with (set_pool p x).
      eapply (io_inv_push io1 held i _ rg t1 (set_iov {| dp_task := i; dp_off := 0 |} BUF_SIZE (set_op 3 t1)));
        [done|exact Epush|done|done|done|done|].
      eexists. cbn [sq_data sq_req tp_task own]. split;
        [apply list_lookup_insert_eq; by apply lookup_lt_Some in Ht1|by repeat split].
    + apply Hframe. intros j Hj. cbn. by rewrite list_lookup_insert_ne.
Qed.

Lemma maybe_submit_inv io held :
  io_inv io held -> io_inv (maybe_submit io) held /\ same_io io (maybe_submit io) /\
    pool_idx (maybe_submit io) = pool_idx io /\ task_pool (maybe_submit io) = task_pool io.
Proof.
  intros Hinv.
  assert (forall io, io_inv io held -> io_inv (set_ring (ring_submit (ring io)) io) held) as Hsub.
  { clear -HL. intros io [? ? (fl & Hf & Hn & Hb) Hr]. split; cbn; [done|done| |by rewrite ring_submit_pending].
    exists fl. split; [|done]. unfold flight in *. cbn. by rewrite ring_submit_pending. }
  unfold maybe_submit. repeat case_match; (split; [|done]).
  - by apply Hsub.
  - eapply (io_inv_same (set_ring (ring_submit (ring io)) io)); [done..|]. by apply Hsub.
  - by eapply (io_inv_same io).
Qed.

(** Writing from the start of a held buffer hands the task to the kernel, or
    releases it when the queue is full. *)
Lemma vf_io_write_inv io held i fd op len dest :
  io_inv io (i :: held) -> (op = OP_UDP_SEND /\ is_Some dest) \/ op = OP_TUN_WRITE ->
  exists io', vf_io_write io fd op {| dp_task := i; dp_off := 0 |} len dest = Some io' /\
    io_inv io' held /\ same_io io io' /\ pool_idx io' = pool_idx io /\
    (forall j, j <> i -> task_pool io' !! j = task_pool io !! j).
Proof.
  intros Hinv Hop. unfold vf_io_write, vfast_data_to_task. cbn [dp_task dp_off tp_task tp_shift].
  change {| tp_task := i; tp_shift := 0 |} with (own i).
  destruct (held_lookup io _ i Hinv) as (t & Ht & Hsz); [left|].
  pose proof (lookup_lt_Some _ _ _ Ht) as Hlt.
  assert (t_in_use t = true) as Hu.
  { destruct Hinv as [_ _ (fl & _ & _ & Hb) _]. destruct (proj1 (Hb i)) as (x & Hx & Hxu); [left|]. congruence. }
  destruct (ring_push _ (ring io)) as [rg|] eqn:Epush.
  2: { destruct (store_in_use_release io held i Hinv) as (io2 & E2 & Hi2 & Hs2 & Hx2). exists io2.
       repeat (split; [done|]). intros j Hj.
       revert E2. unfold store_in_use, alter_task. cbn. rewrite Ht.
       cbn. intros [= <-]. cbn. by rewrite list_lookup_insert_ne. }
  unfold store_op, alter_task. cbn [own tp_shift tp_task Nat.eqb set_ring task_pool negb].
  rewrite Ht. cbn [mbind option_bind set_pool task_pool].
  destruct Hop as [[-> [a ->]] | ->]; cbn [Z.eqb OP_UDP_SEND OP_TUN_WRITE Pos.eqb mbind option_bind] in *.
  - rewrite list_lookup_insert_eq by done. cbn [mbind option_bind]. rewrite list_insert_insert_eq.
    eexists. split; [done|]. match goal with |- io_inv (maybe_submit ?x) _ /\ _ =>
      assert (io_inv x held) as Hx; [|destruct (maybe_submit_inv x held Hx) as (H1 & H2 & H3 & H4)] end.
    + change (set_pool ?p (set_pool ?q ?x)) with (set_pool p x).
      eapply (io_inv_push io held i _ rg t); [done|exact Epush|done|done|done|done|].
      eexists. cbn [sq_data sq_req tp_task own]. split; [by apply list_lookup_insert_eq|done].
    + split; [done|]. split; [by etransitivity; [|exact H2]|]. split; [done|]. intros j Hj. rewrite H4.
      cbn. by rewrite list_lookup_insert_ne.
  - eexists. split; [done|]. match goal with |- io_inv (maybe_submit ?x) _ /\ _ =>
      assert (io_inv x held) as Hx; [|destruct (maybe_submit_inv x held Hx) as (H1 & H2 & H3 & H4)] end.
    + eapply (io_inv_push io held i _ rg t); [done|exact Epush|done|done|done|done|].
      eexists. cbn [sq_data sq_req tp_task own]. split; [by apply list_lookup_insert_eq|done].
    + split; [done|]. split; [by etransitivity; [|exact H2]|]. split; [done|]. intros j Hj. rewrite H4.
      cbn. by rewrite list_lookup_insert_ne.
Qed.

(** ** Completions *)

Lemma submit_inv io held : io_inv io held -> io_inv (set_ring (ring_submit (ring io)) io) held.
Proof.
  intros [? ? (fl & Hf & Hn & Hb) Hr]. split; cbn; [done|done| |by rewrite ring_submit_pending].
  exists fl. split; [|done]. unfold flight in *. cbn. by rewrite ring_submit_pending.
Qed.

Lemma vf_io_init_inv io u t size r :
  0 <= size -> ring_pending r = [] ->
  exists io', vf_io_init io u t size true (inr r) = (0, io') /\ io_inv io' [] /\ pool_size io' = size /\
    pool_idx io' = pool_idx io.
Proof.
  intros Hs Hr. eexists. split; [done|]. split; [|done].
  split; cbn [set_ring set_pool set_fds task_pool pool_size ring].
  - rewrite length_replicate. lia.
  - apply Forall_replicate. split; [by rewrite <- (length_replicate (Z.to_nat BUF_SIZE) 0)|].
    apply bytes_ok_replicate. unfold byte_ok. lia.
  - exists []. unfold flight. cbn. rewrite Hr. split; [done|]. split; [constructor|]. intros i.
    split; [by intros ?%not_elem_of_nil|]. intros (x & Hx & Hu). cbn in Hx.
    apply lookup_replicate in Hx as [-> _]. done.
  - by rewrite Hr.
Qed.

(** The largest packet the TUN device passes, and what is known of the
    datagrams that arrive. *)
Context (mtu : Z) (udp_ok : list Z -> Prop).

(** The kernel answers a read with at most the bytes asked for, and the count
    as its result. *)
Definition completion_ok (c : completion) : Prop :=
  bytes_ok (co_data c) /\ (0 <= co_res c -> co_res c = Z.of_nat (length (co_data c))) /\
  match sq_req (co_sqe c) with
  | ReqRecvmsg _ => Z.of_nat (length (co_data c)) <= BUF_SIZE /\ udp_ok (co_data c)
  | ReqRead _ n => Z.of_nat (length (co_data c)) <= Z.min n mtu
  | _ => True
  end.

(** A completion to process belongs to a held task, with a length that its
    buffer can have. *)
Definition cqe_ok io (c : option tptr * Z) : Prop :=
  match c.1 with
  | None => True
  | Some p => exists t, p = own (tp_task p) /\ task_pool io !! tp_task p = Some t /\
      (t_op t = OP_TUN_READ -> c.2 <= Z.max 0 (Z.min (BUF_SIZE - VPN_TNL_HLEN) mtu)) /\
      (t_op t = OP_UDP_RECV -> c.2 <= BUF_SIZE /\ (0 <= c.2 -> udp_ok (take (Z.to_nat c.2) (t_buf t))))
  end.

Definition cqe_task (c : option tptr * Z) : option nat := tp_task <$> c.1.

Lemma flight_reap io held e i :
  io_inv io held -> e ∈ ring_pending (ring io) -> sq_data e = Some (own i) ->
  io_inv (set_ring (ring_reap e (ring io)) io) (i :: held).
Proof.
  intros [? ? (fl & Hf & Hn & Hb) Hr] He Hd. pose proof (ring_reap_pending e _ He) as Hp.
  assert (own i :: omap sq_data (ring_pending (ring_reap e (ring io))) ≡ₚ own <$> fl) as Hfl.
  { rewrite <- Hf. unfold flight. rewrite Hp. cbn [omap list_omap]. by rewrite Hd. }
  destruct (own_perm _ _ Hfl) as ([|i' fl'] & Efl & Hpf); [done|].
  cbn in Efl. injection Efl as <- Efl.
  split; cbn [set_ring task_pool pool_size ring]; [done|done| |].
  - exists fl'. split; [done|]. rewrite <- Hpf in Hn. rewrite <- Permutation_middle in Hn.
    split; [done|]. intros j. unfold task_busy. cbn [set_ring task_pool]. fold (task_busy io j). rewrite <- Hb.
    rewrite <- Hpf. rewrite !elem_of_app, !elem_of_cons. tauto.
  - rewrite Hp in Hr. by apply Forall_cons_iff in Hr as [_ ?].
Qed.

Lemma reap_raw io held e :
  io_inv io held -> e ∈ ring_pending (ring io) -> sq_data e = None ->
  io_inv (set_ring (ring_reap e (ring io)) io) held.
Proof.
  intros [? ? (fl & Hf & Hn & Hb) Hr] He Hd. pose proof (ring_reap_pending e _ He) as Hp.
  assert (omap sq_data (ring_pending (ring_reap e (ring io))) ≡ₚ own <$> fl) as Hfl.
  { rewrite <- Hf. unfold flight. rewrite Hp. cbn [omap list_omap]. by rewrite Hd. }
  destruct (own_perm _ _ Hfl) as (fl' & Efl & Hpf).
  split; cbn [set_ring task_pool pool_size ring]; [done|done| |].
  - exists fl'. split; [done|]. rewrite Hpf. split; [done|]. intros j.
    unfold task_busy. cbn [set_ring task_pool]. fold (task_busy io j). rewrite <- Hb.
    by rewrite !elem_of_app, Hpf.
  - rewrite Hp in Hr. by apply Forall_cons_iff in Hr as [_ ?].
Qed.

Lemma put_task_size t off bs b :
  task_size t -> bytes_ok bs -> put_bytes off bs (t_buf t) = Some b -> task_size (set_buf b t).
Proof.
  intros [Hl Hb] Hbs E. split; cbn.
  - apply put_bytes_length in E. congruence.
  - by eapply put_bytes_ok.
Qed.

Lemma kernel_complete_inv io held c :
  io_inv io held -> co_sqe c ∈ ring_pending (ring io) -> completion_ok c ->
  exists io', kernel_complete io c = Some io' /\ same_io io io' /\ pool_idx io' = pool_idx io /\
    ring io' = ring_reap (co_sqe c) (ring io) /\
    (forall j, j ∈ held -> task_pool io' !! j = task_pool io !! j) /\
    cqe_ok io' (sq_data (co_sqe c), co_res c) /\
    match sq_data (co_sqe c) with
    | None => io_inv io' held
    | Some p => io_inv io' (tp_task p :: held)
    end.
Proof.
  intros Hinv He (Hdata & Hres & Hlen). set (e := co_sqe c) in *.
  pose proof (ii_reqs _ _ Hinv) as Hrq. rewrite list.Forall_forall in Hrq. specialize (Hrq e He).
  unfold req_ok in Hrq. destruct (sq_data e) as [p|] eqn:Ed.
  - destruct Hrq as (t & Ht & Hreq).
    assert (p = own (tp_task p)) as Ep.
    { destruct Hinv as [_ _ (fl & Hf & _) _].
      assert (p ∈ flight io) as Hin by (apply list_elem_of_omap; eauto).
      rewrite Hf in Hin. by apply list_elem_of_fmap in Hin as (j & -> & _). }
    assert (io_inv (set_ring (ring_reap e (ring io)) io) (tp_task p :: held)) as Hinv1.
    { apply flight_reap; [done|done|]. by rewrite <- Ep. }
    set (io1 := set_ring (ring_reap e (ring io)) io) in *. set (i := tp_task p) in *.
    assert (forall j, j ∈ held -> j <> i) as Hne.
    { intros j Hj ->. destruct Hinv1 as [_ _ (fl & _ & Hn & _) _]. cbn in Hn.
      apply list.NoDup_cons in Hn as [Hn _]. apply Hn, elem_of_app. by left. }
    pose proof (lookup_lt_Some _ _ _ Ht) as Hlt.
    assert (task_size t) as Hsz.
    { pose proof (ii_bufs _ _ Hinv) as Hbf. rewrite list.Forall_forall in Hbf.
      by apply Hbf, list_elem_of_lookup_2 with i. }
    assert (co_res c <= Z.of_nat (length (co_data c)) \/ co_res c < 0) as Hcr by lia.
    unfold kernel_complete. change (co_sqe c) with e. fold io1.
    destruct (sq_req e) as [j|j|d n|d n|]; [| | | |done].
    + destruct Hreq as (-> & Hop & Hiov & _). fold i. cbn [io1 set_ring task_pool]. rewrite Ht. cbn [mbind option_bind].
      rewrite Hiov. cbn [dp_off].
      destruct (put_bytes_ex 0 (co_data c) (t_buf t)) as [b Eb];
        [destruct Hsz, Hlen; unfold BUF_SIZE in *; lia|].
      rewrite Eb. cbn [mbind option_bind]. unfold alter_task. cbn [task_pool io1 set_ring]. rewrite Ht.
      cbn [mbind option_bind]. eexists. split; [done|]. do 3 (split; [done|]). split; [|split].
      * intros j Hj. cbn. rewrite list_lookup_insert_ne; [done|]. by apply not_eq_sym, Hne.
      * eexists. cbn [fst snd]. split; [done|]. cbn. split; [by apply list_lookup_insert_eq|]. cbn.
        rewrite Hop. split; [done|]. intros _. destruct Hlen as [Hlen Hok]. split; [unfold BUF_SIZE in *; lia|].
        intros Hpos. apply get_put_same in Eb. rewrite get_bytes_Some, drop_0 in Eb by (eapply get_bytes_bound; exact Eb).
        apply (inj Some) in Eb. rewrite (Hres Hpos), Nat2Z.id. by rewrite Eb.
      * change (task_pool io) with (task_pool io1). eapply (io_inv_alter io1 _ i t); [done|left|done|done|].
        apply (put_task_size t _ _ b Hsz Hdata Eb).
    + destruct Hreq as (-> & Hop). eexists. split; [done|]. do 3 (split; [done|]). split; [done|]. split; [|done].
      exists t. cbn. split; [done|]. split; [done|]. by rewrite Hop.
    + destruct Hreq as (-> & -> & Hop). cbn [dp_task dp_off]. fold i. cbn [io1 set_ring task_pool]. rewrite Ht.
      cbn [mbind option_bind].
      destruct (put_bytes_ex HLEN (co_data c) (t_buf t)) as [b Eb];
        [destruct Hsz; unfold BUF_SIZE, VPN_TNL_HLEN, HLEN in *; lia|].
      rewrite Eb. cbn [mbind option_bind]. unfold alter_task. cbn [task_pool io1 set_ring]. rewrite Ht.
      cbn [mbind option_bind]. eexists. split; [done|]. do 3 (split; [done|]). split; [|split].
      * intros j Hj. cbn. rewrite list_lookup_insert_ne; [done|]. by apply not_eq_sym, Hne.
      * eexists. cbn [fst snd]. split; [done|]. cbn. split; [by apply list_lookup_insert_eq|]. cbn.
        rewrite Hop. split; [|done]. intros _. unfold BUF_SIZE, VPN_TNL_HLEN in *. lia.
      * change (task_pool io) with (task_pool io1). eapply (io_inv_alter io1 _ i t); [done|left|done|done|].
        apply (put_task_size t _ _ b Hsz Hdata Eb).
    + destruct Hreq as (Hd & Hop). eexists. split; [done|]. do 3 (split; [done|]). split; [done|]. split; [|done].
      exists t. cbn. split; [done|]. split; [done|]. by rewrite Hop.
  - destruct Hrq as (d & a & Hreq). unfold kernel_complete. change (co_sqe c) with e. rewrite Hreq.
    eexists. split; [done|]. do 4 (split; [done|]). split; [done|]. by apply reap_raw.
Qed.

(** ** The event loop *)

Section contract.
Context {W : Type} (P : W -> Prop).

(** What the loop expects of a data callback: it gets a task to itself, with
    bytes that [pre] tells about, and either keeps the task, or says that it
    handed it on. *)
Definition data_cb_ok (maxlen : Z) (pre : list Z -> Prop)
    (cb : W -> vf_io_t R -> nat -> Z -> option (W * vf_io_t R * vf_task_state_t)) : Prop :=
  forall w io i res held n t, P w -> io_inv io (i :: held) -> io_budget io n -> 0 <= res <= maxlen ->
  task_pool io !! i = Some t -> pre (take (Z.to_nat res) (t_buf t)) ->
  exists w' io' st, cb w io i res = Some (w', io', st) /\ P w' /\ io_budget io' n /\ same_io io io' /\
    io_inv io' (match st with IO_TASK_DONE => i :: held | IO_TASK_USE => held end) /\
    (forall j, j ∈ held -> task_pool io' !! j = task_pool io !! j).

(** And of the timer and MTU callbacks, which may acquire [c] tasks. *)
Definition idle_cb_ok (c : nat) (cb : W -> vf_io_t R -> option (W * vf_io_t R)) : Prop :=
  forall w io held n, P w -> io_inv io held -> io_budget io (c + n) ->
  exists w' io', cb w io = Some (w', io') /\ P w' /\ io_budget io' n /\ same_io io io' /\ io_inv io' held /\
    (forall j, j ∈ held -> task_pool io' !! j = task_pool io !! j).

Context (on_udp_data on_tun_data : W -> vf_io_t R -> nat -> Z -> option (W * vf_io_t R * vf_task_state_t)).
Context (on_timer : W -> vf_io_t R -> option (W * vf_io_t R)).
Context (on_pmtud : W -> vf_io_t R -> Z -> option (W * vf_io_t R)).
Context (timer_cost : nat).
Hypothesis Hudp : data_cb_ok BUF_SIZE udp_ok on_udp_data.
Hypothesis Htun : data_cb_ok (Z.max 0 (Z.min (BUF_SIZE - VPN_TNL_HLEN) mtu)) (fun _ => True) on_tun_data.
Hypothesis Htimer : idle_cb_ok timer_cost on_timer.
Hypothesis Hpmtud : forall mtu, idle_cb_ok 0 (fun w io => on_pmtud w io mtu).

Lemma cqe_ok_frame io io' (held : list nat) c :
  (forall j, j ∈ held -> task_pool io' !! j = task_pool io !! j) ->
  (forall i, cqe_task c = Some i -> i ∈ held) -> cqe_ok io c -> cqe_ok io' c.
Proof.
  intros Hf Hi. unfold cqe_ok. destruct c as [[p|] res]; [|done]. cbn. intros (t & Ep & Ht & H).
  exists t. split; [done|]. split; [|done]. rewrite Hf; [done|]. by apply Hi.
Qed.

Lemma process_cqe_inv w io c held n :
  P w -> cqe_ok io c -> io_inv io (match cqe_task c with Some i => i :: held | None => held end) ->
  io_budget io (S n) ->
  exists w' io', process_cqe on_udp_data on_tun_data (w, io) c = Some (w', io') /\ P w' /\ io_inv io' held /\
    io_budget io' n /\ same_io io io' /\ (forall j, j ∈ held -> task_pool io' !! j = task_pool io !! j).
Proof.
  intros Hw Hc Hinv Hbud. pose proof (ii_size _ _ Hinv) as Hsize.
  destruct c as [[p|] res]; cbn [cqe_task fmap option_fmap option_map fst] in Hinv.
  2: { exists w, io. split; [done|]. split; [done|]. split; [done|]. split; [|done].
       apply (budget_le io (S n) n); [lia|lia|done]. }
  destruct Hc as (t & Ep & Ht & Hlt & Hlu). cbn [fst snd] in *. set (i := tp_task p) in *.
  assert (forall io1, io_inv io1 (i :: held) -> io_budget io1 n -> same_io io io1 ->
    (forall j, j ∈ held -> task_pool io1 !! j = task_pool io !! j) ->
    exists io2, store_in_use p false io1 = Some io2 /\ io_inv io2 held /\ io_budget io2 n /\ same_io io io2 /\
      (forall j, j ∈ held -> task_pool io2 !! j = task_pool io !! j)) as Hrel.
  { intros io1 H1 [Hb1 Hb2] Hs1 Hf1. rewrite Ep. destruct (store_in_use_release io1 held i H1) as (io2 & E2 & H2 & Hs2 & Hx).
    exists io2. split; [done|]. split; [done|]. split.
    { split; rewrite Hx; [done|]. destruct Hs2 as (_ & _ & _ & -> & _). done. }
    split; [by transitivity io1|]. intros j Hj. rewrite <- Hf1 by done.
    assert (j <> i) as Hne.
    { intros ->. destruct H1 as [_ _ (fl & _ & Hn & _) _]. cbn in Hn. apply list.NoDup_cons in Hn as [Hn _].
      apply Hn, elem_of_app. by left. }
    revert E2. unfold store_in_use, alter_task. cbn. fold i. destruct (task_pool io1 !! i); [|done].
    cbn. intros [= <-]. cbn. by rewrite list_lookup_insert_ne. }
  cbn [process_cqe]. unfold load_op. fold i. rewrite Ht. cbn [mbind option_bind].
  assert (tp_shift p = 0%nat) as Esh by (by rewrite Ep). rewrite Esh. cbn [Nat.eqb negb mbind option_bind].
  assert (forall cb maxlen pre fd op, data_cb_ok maxlen pre cb -> 0 <= res <= maxlen ->
    pre (take (Z.to_nat res) (t_buf t)) -> op = OP_TUN_READ \/ op = OP_UDP_RECV ->
    exists w2 io2 st, ('(w, io, st) ← cb w io i res; io ← vf_io_read io (fd io) op; Some (w, io, st)) = Some (w2, io2, st) /\
    P w2 /\ io_budget io2 n /\ same_io io io2 /\
    io_inv io2 (match st with IO_TASK_DONE => i :: held | IO_TASK_USE => held end) /\
    (forall j, j ∈ held -> task_pool io2 !! j = task_pool io !! j)) as Hcb.
  { intros cb maxlen pre fd op Hcb Hres Hpre Hop. destruct (Hcb w io i res held (S n) t Hw Hinv Hbud Hres Ht Hpre)
      as (w1 & io1 & st & -> & Hw1 & Hb1 & Hs1 & Hi1 & Hf1). cbn [mbind option_bind].
    destruct (vf_io_read_inv io1 _ n (fd io1) op Hi1 Hb1 Hop) as (io2 & -> & Hi2 & Hb2 & Hs2 & Hf2).
    cbn [mbind option_bind]. exists w1, io2, st. split; [done|]. split; [done|]. split; [done|].
    split; [by transitivity io1|]. split; [done|]. intros j Hj. rewrite <- Hf1 by done. apply Hf2.
    destruct st; [by right|done]. }
  assert (forall r, (exists w2 io2 st, r = Some (w2, io2, st) /\ P w2 /\ io_budget io2 n /\ same_io io io2 /\
      io_inv io2 (match st with IO_TASK_DONE => i :: held | IO_TASK_USE => held end) /\
      (forall j, j ∈ held -> task_pool io2 !! j = task_pool io !! j)) ->
    exists w' io', ('(w, io, st) ← r; match st with
      | IO_TASK_DONE => io ← store_in_use p false io; Some (w, io) | IO_TASK_USE => Some (w, io) end) = Some (w', io') /\
      P w' /\ io_inv io' held /\ io_budget io' n /\ same_io io io' /\
      (forall j, j ∈ held -> task_pool io' !! j = task_pool io !! j)) as Hfin.
  { intros r (w2 & io2 & st & -> & Hw2 & Hb2 & Hs2 & Hi2 & Hf2). cbn [mbind option_bind]. destruct st.
    - destruct (Hrel io2 Hi2 Hb2 Hs2 Hf2) as (io3 & -> & ?). exists w2, io3. cbn [mbind option_bind]. done.
    - exists w2, io2. done. }
  apply Hfin. clear Hfin Hrel. destruct (Z.leb_spec 0 res) as [Hres|Hres].
  - destruct (Z.eqb_spec (t_op t) OP_TUN_READ) as [Eo|_].
    { apply (Hcb on_tun_data (Z.max 0 (Z.min (BUF_SIZE - VPN_TNL_HLEN) mtu)) (fun _ => True) (@tun_fd R)); auto. }
    destruct (Z.eqb_spec (t_op t) OP_UDP_RECV) as [Eo|_].
    { destruct (Hlu Eo). apply (Hcb on_udp_data BUF_SIZE udp_ok (@udp_fd R)); auto. }
    exists w, io, IO_TASK_DONE. split; [done|]. split; [done|]. split; [|done].
    apply (budget_le io (S n) n); [lia|lia|done].
  - destruct ((t_op t =? OP_TUN_READ) || (t_op t =? OP_UDP_RECV)) eqn:Eo.
    + destruct (vf_io_read_inv io (i :: held) n (if t_op t =? OP_TUN_READ then tun_fd io else udp_fd io) (t_op t) Hinv Hbud)
        as (io2 & -> & Hi2 & Hb2 & Hs2 & Hf2).
      { apply orb_true_iff in Eo as [?%Z.eqb_eq|?%Z.eqb_eq]; auto. }
      cbn [mbind option_bind]. exists w, io2, IO_TASK_DONE. repeat (split; [done|]).
      intros j Hj. apply Hf2. by right.
    + exists w, io, IO_TASK_DONE. split; [done|]. split; [done|]. split; [|done].
      apply (budget_le io (S n) n); [lia|lia|done].
Qed.

Lemma process_batch_inv cs w io n :
  P w -> Forall (cqe_ok io) cs -> io_inv io (omap cqe_task cs) -> io_budget io (length cs + n) ->
  exists w' io', foldM (process_cqe on_udp_data on_tun_data) (w, io) cs = Some (w', io') /\ P w' /\ io_inv io' [] /\
    io_budget io' n /\ same_io io io'.
Proof.
  revert w io. induction cs as [|c cs IH]; intros w io Hw Hc Hinv Hbud; [by exists w, io|].
  apply Forall_cons_iff in Hc as [Hc Hcs]. cbn [omap list_omap] in Hinv.
  destruct (process_cqe_inv w io c (omap cqe_task cs) (length cs + n) Hw Hc) as (w1 & io1 & E1 & Hw1 & Hi1 & Hb1 & Hs1 & Hf1).
  { by destruct (cqe_task c). }
  { done. }
  cbn [foldM]. rewrite E1. cbn [mbind option_bind].
  destruct (IH w1 io1 Hw1) as (w2 & io2 & E2 & Hw2 & Hi2 & Hb2 & Hs2); [|done|done|].
  - rewrite list.Forall_forall in Hcs |- *. intros c' Hc'. eapply cqe_ok_frame; [exact Hf1| |by apply Hcs].
    intros i Hi. apply list_elem_of_omap. eauto.
  - exists w2, io2. split; [done|]. split; [done|]. split; [done|]. split; [done|]. by transitivity io1.
Qed.

Lemma kernel_batch_inv batch io held rest :
  io_inv io held -> ring_pending (ring io) ≡ₚ (co_sqe <$> batch) ++ rest -> Forall completion_ok batch ->
  let cs := (fun c => (sq_data (co_sqe c), co_res c)) <$> batch in
  exists io', foldM kernel_complete io batch = Some io' /\ io_inv io' (omap cqe_task cs ++ held) /\
    Forall (cqe_ok io') cs /\ same_io io io' /\ pool_idx io' = pool_idx io /\
    (forall j, j ∈ held -> task_pool io' !! j = task_pool io !! j).
Proof.
  revert io held. induction batch as [|c batch IH]; intros io held Hinv Hp Hok; [by exists io|].
  apply Forall_cons_iff in Hok as [Hc Hok]. cbn [fmap list_fmap] in Hp.
  destruct (kernel_complete_inv io held c Hinv) as (io1 & E1 & Hs1 & Hx1 & Hr1 & Hf1 & Hq1 & Hi1); [|done|].
  { rewrite Hp. left. }
  cbn [foldM]. rewrite E1. cbn [mbind option_bind].
  set (held1 := omap cqe_task [(sq_data (co_sqe c), co_res c)] ++ held).
  assert (io_inv io1 held1) as Hi1' by (unfold held1, cqe_task; cbn; by destruct (sq_data (co_sqe c))).
  destruct (IH io1 held1 Hi1') as (io2 & E2 & Hi2 & Hq2 & Hs2 & Hx2 & Hf2); [|done|].
  { rewrite Hr1. apply (Permutation_cons_inv (a := co_sqe c)).
    rewrite <- ring_reap_pending; [by rewrite Hp|]. rewrite Hp. left. }
  exists io2. split; [done|]. cbn [fmap list_fmap]. split; [|split; [|split; [|split]]].
  - eapply io_inv_perm; [|exact Hi2]. unfold held1. cbn [omap list_omap].
    destruct (cqe_task (_, _)) as [i|]; cbn [app]; [by rewrite <- Permutation_middle|done].
  - constructor; [|done]. eapply cqe_ok_frame; [exact Hf2| |exact Hq1].
    intros i Hi. unfold held1. cbn [omap list_omap]. rewrite Hi. left.
  - by transitivity io1.
  - congruence.
  - intros j Hj. rewrite <- Hf1 by done. apply Hf2. unfold held1. apply elem_of_app. by right.
Qed.

(** The kernel answers requests that are pending, at most once, and nothing
    when the wait fails. *)
Definition event_ok io (e : io_event) : Prop :=
  (ev_ret e < 0 -> ev_batch e = []) /\ Forall completion_ok (ev_batch e) /\
  exists rest, ring_pending (ring io) ≡ₚ (co_sqe <$> ev_batch e) ++ rest.

Definition event_cost (e : io_event) : nat := timer_cost + length (ev_batch e).

Lemma budget_same io io' n :
  pool_idx io' = pool_idx io -> same_io io io' -> io_budget io n -> io_budget io' n.
Proof. intros Hx (_ & _ & _ & Hs & _) [H1 H2]. split; rewrite Hx; [done|]. by rewrite Hs. Qed.

Lemma pmtud_fold mtus w io held n :
  P w -> io_inv io held -> io_budget io n ->
  exists w' io', foldM (fun '(w, io) mtu => on_pmtud w io mtu) (w, io) mtus = Some (w', io') /\
    P w' /\ io_inv io' held /\ io_budget io' n /\ same_io io io' /\
    (forall j, j ∈ held -> task_pool io' !! j = task_pool io !! j).
Proof.
  revert w io. induction mtus as [|x mtus IH]; intros w io Hw Hi Hb; [by exists w, io|].
  destruct (Hpmtud x w io held n Hw Hi Hb) as (w1 & io1 & E1 & Hw1 & Hb1 & Hs1 & Hi1 & Hf1).
  cbn [foldM]. rewrite E1. cbn [mbind option_bind].
  destruct (IH w1 io1 Hw1 Hi1 Hb1) as (w2 & io2 & E2 & ? & ? & ? & ? & Hf2). exists w2, io2.
  split; [done|]. repeat (split; [done|]). split; [by transitivity io1|]. intros j Hj. by rewrite Hf2, Hf1.
Qed.

(** The settings that stay for the whole run. *)
Definition same_set io io' : Prop :=
  udp_fd io' = udp_fd io /\ tun_fd io' = tun_fd io /\ running io' = running io /\ pool_size io' = pool_size io.

#[export] Instance same_set_preorder : PreOrder same_set.
Proof.
  split; [by intros io|]. unfold same_set. intros a b c (?&?&?&?) (?&?&?&?). split_and!; congruence.
Qed.

Lemma same_io_set io io' : same_io io io' -> same_set io io'.
Proof. by intros (? & ? & ? & ? & _). Qed.

Lemma vf_io_iter_inv s e n :
  P (ls_world s) -> io_inv (ls_io s) [] -> event_ok (ls_io s) e -> io_budget (ls_io s) (event_cost e + n) ->
  exists nx s', vf_io_iter on_udp_data on_tun_data on_timer on_pmtud s e = Some (nx, s') /\
    P (ls_world s') /\ io_inv (ls_io s') [] /\ io_budget (ls_io s') n /\ same_set (ls_io s) (ls_io s').
Proof.
  intros Hw Hi (Hret & Hok & rest & Hp) Hb. destruct s as [w io tick stat]. cbn [ls_world ls_io] in *.
  destruct (kernel_batch_inv (ev_batch e) io [] rest Hi Hp Hok) as (io1 & E1 & Hi1 & Hq1 & Hs1 & Hx1 & _).
  rewrite app_nil_r in Hi1. set (cs := (fun c => (sq_data (co_sqe c), co_res c)) <$> ev_batch e) in *.
  set (H := omap cqe_task cs) in *.
  unfold vf_io_iter. cbn [ls_io ls_world ls_last_tick ls_last_stat]. rewrite E1. cbn [mbind option_bind].
  assert (io_budget io1 (event_cost e + n)) as Hb1 by by eapply budget_same.
  assert (exists w2 io2, (if pmtud_cb io1 && (1000 <=? u64 (ev_now e - last_pmtud_check_ms io1)) then
       '(w, io) ← foldM (fun '(w, io) mtu => on_pmtud w io mtu) (w, io1)
                    (vfast_check_icmp_errors (udp_fd io1) (ev_icmp e));
       Some (w, set_pmtud_check (u32 (ev_now e)) io)
     else Some (w, io1)) = Some (w2, io2) /\ P w2 /\ io_inv io2 H /\ io_budget io2 (event_cost e + n) /\
     same_set io1 io2 /\
     (forall j, j ∈ H -> task_pool io2 !! j = task_pool io1 !! j)) as (w2 & io2 & E2 & Hw2 & Hi2 & Hb2 & Hz2 & Hf2).
  { destruct (pmtud_cb io1 && _); [|by exists w, io1].
    destruct (pmtud_fold (vfast_check_icmp_errors (udp_fd io1) (ev_icmp e)) w io1 H _ Hw Hi1 Hb1)
      as (w2 & io2 & -> & Hw2 & Hi2 & Hb2 & Hz2%same_io_set & Hf2). cbn [mbind option_bind].
    eexists w2, _. split; [done|]. split; [done|]. split; [by eapply (io_inv_same io2)|]. done. }
  rewrite E2. cbn [mbind option_bind].
  assert (exists w3 io3 tk, (if timer_cb io2 && (0 <? timer_interval_ms io2) &&
        (timer_interval_ms io2 <=? u64 (ev_now e - tick)) then
       '(w, io) ← on_timer w2 io2; Some (w, io, ev_now e)
     else Some (w2, io2, tick)) = Some (w3, io3, tk) /\ P w3 /\ io_inv io3 H /\
     io_budget io3 (length (ev_batch e) + n) /\ same_set io2 io3 /\
     (forall j, j ∈ H -> task_pool io3 !! j = task_pool io2 !! j)) as (w3 & io3 & tk & E3 & Hw3 & Hi3 & Hb3 & Hz3 & Hf3).
  { unfold event_cost in Hb2. rewrite <- Nat.add_assoc in Hb2. destruct (timer_cb io2 && _ && _).
    - destruct (Htimer w2 io2 H _ Hw2 Hi2 Hb2) as (w3 & io3 & -> & Hw3 & Hb3 & Hz3%same_io_set & Hi3 & Hf3).
      cbn [mbind option_bind]. exists w3, io3, (ev_now e). done.
    - exists w2, io2, tick. do 3 (split; [done|]). split; [|done].
      eapply budget_le; [|rewrite <- (ii_size _ _ Hi2); lia|exact Hb2]. lia. }
  rewrite E3. cbn [mbind option_bind].
  assert (same_set io io3) as Hset by (transitivity io2; [transitivity io1; [by apply same_io_set|done]|done]).
  destruct (Z.ltb_spec (ev_ret e) 0) as [Hneg|Hnn].
  - eexists _, _. split; [done|]. cbn [ls_world ls_io]. split; [done|].
    rewrite (Hret Hneg) in Hb3. unfold H, cs in Hi3. rewrite (Hret Hneg) in Hi3. cbn in Hi3, Hb3.
    done.
  - assert (length cs = length (ev_batch e)) as Hlen by (unfold cs; by rewrite length_fmap).
    destruct (process_batch_inv cs w3 io3 n Hw3) as (w4 & io4 & E4 & Hw4 & Hi4 & Hb4 & Hs4); [|done|by rewrite Hlen|].
    { rewrite list.Forall_forall in Hq1 |- *. intros c Hc. apply (cqe_ok_frame io1 io3 H).
      - intros j Hj. by rewrite Hf3, Hf2.
      - intros i Hci. unfold H. apply list_elem_of_omap. eauto.
      - by apply Hq1. }
    fold cs. rewrite E4. cbn [mbind option_bind]. eexists _, _. split; [done|]. cbn [ls_world ls_io]. split; [done|].
    assert (same_set io io4) as Hset4 by (transitivity io3; [done|by apply same_io_set]).
    destruct (0 <? _)%nat; [|done]. split; [|done].
    destruct Hi4 as [? ? (fl & Hfl & Hn & Hbz) Hrq]. split; cbn; [done|done| |by rewrite ring_submit_pending].
    exists fl. split; [|done]. unfold flight in *. cbn. by rewrite ring_submit_pending.
Qed.

(** The kernel keeps to its side at every iteration of the run. *)
Fixpoint kernel_ok (s : loop_state) (es : list io_event) : Prop :=
  match es with
  | [] => True
  | e :: es =>
      event_ok (ls_io s) e /\
      forall nx s', vf_io_iter on_udp_data on_tun_data on_timer on_pmtud s e = Some (nx, s') ->
        kernel_ok (after_signal e s') es
  end.

Definition run_cost (es : list io_event) : nat := foldr (fun e n => event_cost e + n)%nat 0%nat es.

(** The two descriptors. *)
Definition same_fds (io io' : vf_io_t R) : Prop := udp_fd io' = udp_fd io /\ tun_fd io' = tun_fd io.

Lemma vf_io_iter_next s e nx s' :
  vf_io_iter on_udp_data on_tun_data on_timer on_pmtud s e = Some (nx, s') -> nx = if fatal e then LoopBreak else LoopContinue.
Proof.
  unfold vf_io_iter, fatal. intros (io & _ & E)%bind_Some. apply bind_Some in E as ([w1 io1] & _ & E).
  apply bind_Some in E as ([[w2 io2] tk] & _ & E). destruct (ev_ret e <? 0).
  - injection E as <- _. by destruct (_ || _).
  - by apply bind_Some in E as ([w3 io3] & _ & [= <- _]).
Qed.

Lemma vf_io_loop_inv es s :
  P (ls_world s) -> io_inv (ls_io s) [] -> kernel_ok s es -> io_budget (ls_io s) (run_cost es) -> running (ls_io s) = true ->
  exists s', vf_io_loop on_udp_data on_tun_data on_timer on_pmtud s es = Some s' /\
    P (ls_world s') /\ io_inv (ls_io s') [] /\ same_fds (ls_io s) (ls_io s') /\ running (ls_io s') = running_after es.
Proof.
  revert s. induction es as [|e es IH]; intros s Hw Hi Hk Hb Hr; [by exists s|].
  cbn [vf_io_loop running_after]. rewrite Hr. cbn [negb].
  destruct Hk as [He Hk]. cbn [run_cost foldr] in Hb.
  destruct (vf_io_iter_inv s e (run_cost es) Hw Hi He Hb) as (nx & s1 & E & Hw1 & Hi1 & Hb1 & (Hu1 & Ht1 & Hr1 & _)).
  rewrite E. cbn [mbind option_bind].
  assert (P (ls_world (after_signal e s1)) /\ io_inv (ls_io (after_signal e s1)) [] /\
    io_budget (ls_io (after_signal e s1)) (run_cost es) /\ same_fds (ls_io s) (ls_io (after_signal e s1)) /\
    running (ls_io (after_signal e s1)) = negb (ev_signal e)) as (Hw2 & Hi2 & Hb2 & Hf2 & Hr2).
  { unfold after_signal. destruct (ev_signal e); [|do 4 (split; [done|]); by rewrite Hr1, Hr]. split; [done|]. split; [|done].
    by eapply (io_inv_same (ls_io s1)). }
  rewrite (vf_io_iter_next _ _ _ _ E). destruct (ev_signal e) eqn:Es; cbn [negb] in Hr2.
  - exists (after_signal e s1). split; [|done]. destruct (fatal e); [done|]. destruct es; [done|]. cbn [vf_io_loop]. by rewrite Hr2.
  - destruct (fatal e); cbn [orb]; [eauto 8|].
    destruct (IH (after_signal e s1)) as (s2 & E2 & ? & ? & Hf3 & ?); [done|done|by eapply Hk|done|done|].
    exists s2. do 3 (split; [done|]). split; [|done]. destruct Hf2, Hf3. split; congruence.
Qed.

Lemma warm_up_inv io k n :
  io_inv io [] -> io_budget io (k + k + n) ->
  forall l : list nat, length l = k ->
  exists io', foldM (fun io (_ : nat) => io ← vf_io_read io (tun_fd io) OP_TUN_READ;
      vf_io_read io (udp_fd io) OP_UDP_RECV) io l = Some io' /\ io_inv io' [] /\ io_budget io' n /\ same_set io io'.
Proof.
  revert io. induction k as [|k IH]; intros io Hi Hb [|x l] Hl; try done; [by exists io|].
  cbn [foldM].
  destruct (vf_io_read_inv io [] (S (k + k + n)) (tun_fd io) OP_TUN_READ Hi) as (io1 & -> & Hi1 & Hb1 & Hs1%same_io_set & _); [|by left|].
  { eapply budget_le; [|rewrite <- (ii_size _ _ Hi); lia|exact Hb]. lia. }
  cbn [mbind option_bind].
  destruct (vf_io_read_inv io1 [] (k + k + n) (udp_fd io1) OP_UDP_RECV Hi1 Hb1) as (io2 & -> & Hi2 & Hb2 & Hs2%same_io_set & _); [by right|].
  cbn [mbind option_bind]. destruct (IH io2 Hi2 Hb2 l) as (io3 & E3 & ? & ? & Hs3); [by injection Hl|].
  exists io3. do 3 (split; [done|]). transitivity io1; [done|]. by transitivity io2.
Qed.

Lemma vf_io_run_inv w io u t size r now0 es :
  0 <= size -> ring_pending r = [] -> pool_idx io = 0 -> P w ->
  let io0 := (vf_io_init io u t size true (inr r)).2 in
  (32 + Z.of_nat (run_cost es)) * size < 2 ^ 31 ->
  (forall io1, vf_io_warm_up (set_running true io0) = Some io1 ->
     kernel_ok {| ls_world := w; ls_io := io1; ls_last_tick := now0; ls_last_stat := 0 |} es) ->
  exists s, vf_io_run on_udp_data on_tun_data on_timer on_pmtud w io0 now0 es = Some s /\
    P (ls_world s) /\ io_inv (ls_io s) [] /\ udp_fd (ls_io s) = u /\ tun_fd (ls_io s) = t /\ running (ls_io s) = running_after es.
Proof.
  intros Hs Hr Hx Hw io0 Hb Hk.
  assert (udp_fd io0 = u /\ tun_fd io0 = t) as [Eu Et] by done.
  destruct (vf_io_init_inv io u t size r Hs Hr) as (io' & E & Hi & Hz & Hxi). unfold io0 in *. rewrite E in *.
  cbn [snd] in *. unfold vf_io_run, vf_io_warm_up in *.
  destruct (warm_up_inv (set_running true io') 16 (run_cost es)) with (l := seq 0 16)
    as (io1 & E1 & Hi1 & Hb1 & Hu1 & Ht1 & Hr1 & _); [by eapply (io_inv_same io')| |done|].
  { split; cbn; rewrite Hxi, Hx; [done|]. rewrite Hz. lia. }
  rewrite E1 in *. cbn [mbind option_bind] in *. cbn in Hu1, Ht1, Hr1.
  edestruct vf_io_loop_inv as (s & Es & Hws & His & [Hus Hts] & Hrs); [..|exists s; split; [exact Es|]; cbn in Hus, Hts;
    split; [done|]; split; [done|]; split_and!; congruence]; cbn [ls_world ls_io].
  - done.
  - by apply submit_inv.
  - by apply Hk.
  - done.
  - done.
Qed.

(** C13 The event loop never loses, leaks or shares a buffer.  From an engine
    set up by [vf_io_init], with callbacks that keep their side (a callback
    that says it handed its task on did, and one that says it is done has no
    request pending on it) and a kernel that answers pending requests within
    their length and the device's MTU, with datagrams that satisfy what the
    callbacks rely on, every finite run of [vf_io_run] completes without an access
    outside the pool, whatever the ring refuses; between iterations each task
    is in use exactly when one pending request, of the operation recorded in
    the task and on the task's own buffer, belongs to it, and the callbacks'
    own invariant holds; the descriptors stay, and [running] holds, when the
    run is over, what the signals and the failed waits make of it.  The bound is the number of acquisitions the index
    counter can take. *)
Theorem vf_io_run_owned w io u t size r now0 es :
  0 <= size -> ring_pending r = [] -> pool_idx io = 0 -> P w ->
  let io0 := (vf_io_init io u t size true (inr r)).2 in
  (32 + Z.of_nat (run_cost es)) * size < 2 ^ 31 ->
  (forall io1, vf_io_warm_up (set_running true io0) = Some io1 ->
     kernel_ok {| ls_world := w; ls_io := io1; ls_last_tick := now0; ls_last_stat := 0 |} es) ->
  exists s, vf_io_run on_udp_data on_tun_data on_timer on_pmtud w io0 now0 es = Some s /\
    P (ls_world s) /\ io_inv (ls_io s) [] /\ udp_fd (ls_io s) = u /\ tun_fd (ls_io s) = t /\
    running (ls_io s) = running_after es.
Proof. apply vf_io_run_inv. Qed.
End contract.

(** Acquisition is total, exact and round-robin.  While the index does not
    overflow, [get_task_from_instance] returns, whatever the state of the
    pool: NULL exactly when every task is in use, and otherwise the first
    free task at or after the index, which it marks in use, with no
    operation, and changes nothing else. *)
Theorem get_task_exact io :
  Z.of_nat (length (task_pool io)) = pool_size io -> 0 <= pool_idx io ->
  pool_idx io + pool_size io < 2 ^ 31 ->
  exists r io', get_task_from_instance io = Some (r, io') /\
    match r with
    | None => (forall i, (i < length (task_pool io))%nat -> task_busy io i) /\ task_pool io' = task_pool io
    | Some i => exists (k : nat) t, Z.of_nat k < pool_size io /\ i = Z.to_nat ((pool_idx io + Z.of_nat k) mod pool_size io) /\
        (forall j, (j < k)%nat -> task_busy io (Z.to_nat ((pool_idx io + Z.of_nat j) mod pool_size io))) /\
        task_pool io !! i = Some t /\ t_in_use t = false /\
        task_pool io' = <[i := set_op 0 (set_in_use true t)]> (task_pool io)
    end.
Proof.
  intros Hs Hi Hb. unfold get_task_from_instance.
  destruct (get_task_loop_spec (Z.to_nat (pool_size io)) io) as (k & r & Hk & Hbusy & Hr); [done|done|lia|lia|].
  destruct r as [i|].
  - destruct Hr as (Hk' & Ei & t & Ht & Hu & E). exists (Some i). eexists. split; [exact E|].
    exists k, t. split; [lia|]. split; [done|]. split; [done|]. split; [done|]. split; [done|]. done.
  - destruct Hr as [-> E]. exists None. eexists. split; [exact E|]. split; [|done].
    intros i Hlt. set (S := pool_size io) in *. assert (0 < S) as HS by lia.
    pose proof (Z.mod_pos_bound (Z.of_nat i - pool_idx io) S HS) as Hj.
    specialize (Hbusy (Z.to_nat ((Z.of_nat i - pool_idx io) mod S)) ltac:(lia)).
    rewrite Z2Nat.id, Zplus_mod_idemp_r in Hbusy by lia.
    replace (pool_idx io + (Z.of_nat i - pool_idx io)) with (Z.of_nat i) in Hbusy by lia.
    rewrite Z.mod_small in Hbusy by lia. by rewrite Nat2Z.id in Hbusy.
Qed.

(** The index counter is an [int] that is never reset: the acquisition
    after the one that takes index 2^31 - 1 reads a negative index and leaves
    the pool, in every pool whose size does not divide 2^31. *)
Theorem get_task_index_overflow io :
  pool_idx io = - 2 ^ 31 -> 0 < pool_size io -> 2 ^ 31 mod pool_size io <> 0 ->
  get_task_from_instance io = None /\ to_int32 (2 ^ 31 - 1 + 1) = - 2 ^ 31.
Proof.
  intros Hi Hs Hd. split; [|done]. unfold get_task_from_instance.
  destruct (Z.to_nat (pool_size io)) as [|n] eqn:E; [lia|]. cbn [get_task_loop]. rewrite Hi.
  rewrite Z.rem_opp_l by lia. rewrite Z.rem_mod_nonneg by lia.
  pose proof (Z.mod_pos_bound (2 ^ 31) (pool_size io) Hs).
  destruct (Z.ltb_spec (- (2 ^ 31 mod pool_size io)) 0); [done|lia].
Qed.
End ownership.

(** * Instances *)

Definition ring0 : list_ring := {| lr_depth := 64; lr_queue := []; lr_flight := [] |}.

(** A server that echoes datagrams and drops what the TUN device delivers. *)
Definition echo_udp (w : Z) (io : vf_io_t list_ring) (i : nat) (res : Z)
    : option (Z * vf_io_t list_ring * vf_task_state_t) :=
  io ← vf_io_write io (udp_fd io) OP_UDP_SEND {| dp_task := i; dp_off := 0 |} res (Some {| sin_addr := 1; sin_port := 2 |});
  Some (w + 1, io, IO_TASK_USE).
Definition drop_tun (w : Z) (io : vf_io_t list_ring) (i : nat) (res : Z)
    : option (Z * vf_io_t list_ring * vf_task_state_t) := Some (w, io, IO_TASK_DONE).
Definition idle (w : Z) (io : vf_io_t list_ring) : option (Z * vf_io_t list_ring) := Some (w, io).

Lemma echo_udp_ok P pre : (forall w, P w -> P (w + 1)) -> data_cb_ok P BUF_SIZE pre echo_udp.
Proof.
  intros HP w io i res held n t Hw Hi Hb _ _ _. unfold echo_udp.
  destruct (vf_io_write_inv io held i (udp_fd io) OP_UDP_SEND res (Some {| sin_addr := 1; sin_port := 2 |}) Hi)
    as (io' & -> & Hi' & Hs & Hx & Hf); [by left|].
  cbn [mbind option_bind]. exists (w + 1), io', IO_TASK_USE. split; [done|]. split; [auto|].
  split; [by eapply budget_same|]. split; [done|]. split; [done|]. intros j Hj. apply Hf. intros ->.
  destruct Hi as [_ _ (fl & _ & Hn & _) _]. cbn in Hn. apply list.NoDup_cons in Hn as [Hn _].
  apply Hn, elem_of_app. by left.
Qed.

Lemma idle_ok P : idle_cb_ok P 0 idle.
Proof. intros w io held n Hw Hi Hb. exists w, io. done. Qed.

Lemma drop_tun_ok P m pre : data_cb_ok P m pre drop_tun.
Proof. intros w io i res held n t Hw Hi Hb _ _ _. by exists w, io, IO_TASK_DONE. Qed.

Definition demo_event : io_event :=
  {| ev_ret := 0; ev_now := 5; ev_icmp := []; ev_signal := false;
     ev_batch := [{| co_sqe := {| sq_req := ReqRecvmsg 1; sq_file := 0; sq_data := Some (own 1) |};
                     co_res := 30; co_data := replicate 30 9; co_from := {| sin_addr := 1; sin_port := 2 |} |}] |}.

(** Four tasks; after the event the echo is in flight, and no task is left
    for the read that follows it. *)
Example demo_run :
  (fun s => (ls_world s, t_op <$> task_pool (ls_io s), length (ring_pending (ring (ls_io s))))) <$>
    vf_io_run echo_udp drop_tun idle (fun w io _ => idle w io) 0
      (vf_io_init (zero_io ring0) 3 4 4 true (inr ring0)).2 0 [demo_event]
  = Some (1, [1; 4; 1; 3], 4%nat).
Proof. vm_compute. reflexivity. Qed.

Lemma demo_warm_up io1 :
  vf_io_warm_up (set_running true (vf_io_init (zero_io ring0) 3 4 4 true (inr ring0)).2) = Some io1 ->
  ring_pending (ring io1) =
    [{| sq_req := ReqRead {| dp_task := 0; dp_off := 20 |} 2028; sq_file := 1; sq_data := Some (own 0) |};
     {| sq_req := ReqRecvmsg 1; sq_file := 0; sq_data := Some (own 1) |};
     {| sq_req := ReqRead {| dp_task := 2; dp_off := 20 |} 2028; sq_file := 1; sq_data := Some (own 2) |};
     {| sq_req := ReqRecvmsg 3; sq_file := 0; sq_data := Some (own 3) |}].
Proof.
  intros E. apply (inj Some).
  change (Some (ring_pending (ring io1))) with ((fun io => ring_pending (ring io)) <$> Some io1). rewrite <- E.
  vm_compute. reflexivity.
Qed.

Lemma vf_io_run_owned_witness :
  exists s, vf_io_run echo_udp drop_tun idle (fun w io _ => idle w io) 0
      (vf_io_init (zero_io ring0) 3 4 4 true (inr ring0)).2 0 [demo_event] = Some s /\
    0 <= ls_world s /\ io_inv (ls_io s) [] /\ udp_fd (ls_io s) = 3 /\ tun_fd (ls_io s) = 4 /\ running (ls_io s) = true.
Proof.
  assert (forall w, 0 <= w -> 0 <= w + 1) as HP by lia.
  apply (vf_io_run_owned 1400 (fun _ => True) (fun w => 0 <= w) echo_udp drop_tun idle (fun w io _ => idle w io) 0
    (echo_udp_ok (fun w => 0 <= w) _ HP) (drop_tun_ok _ _ _) (idle_ok _) (fun _ => idle_ok _)); [lia|done|done|lia|vm_compute; done|].
  intros io1 E. split; [|done]. split; [done|]. split.
  - cbn [demo_event ev_batch]. constructor; [|constructor]. split; [|split].
    + cbn [co_data]. apply bytes_ok_replicate. unfold byte_ok. lia.
    + intros _. reflexivity.
    + cbn [co_sqe sq_req co_data]. rewrite length_replicate. unfold BUF_SIZE. split; [lia|done].
  - cbn [ls_io]. rewrite (demo_warm_up io1 E).
    eexists. cbn [demo_event ev_batch fmap list_fmap co_sqe app]. apply Permutation_swap.
Defined.

Lemma get_task_exact_witness :
  let io := (vf_io_init (zero_io ring0) 3 4 2 true (inr ring0)).2 in
  exists r io', get_task_from_instance io = Some (r, io') /\
    match r with
    | None => (forall i, (i < length (task_pool io))%nat -> task_busy io i) /\ task_pool io' = task_pool io
    | Some i => exists (k : nat) t, Z.of_nat k < pool_size io /\ i = Z.to_nat ((pool_idx io + Z.of_nat k) mod pool_size io) /\
        (forall j, (j < k)%nat -> task_busy io (Z.to_nat ((pool_idx io + Z.of_nat j) mod pool_size io))) /\
        task_pool io !! i = Some t /\ t_in_use t = false /\
        task_pool io' = <[i := set_op 0 (set_in_use true t)]> (task_pool io)
    end.
Proof.
  apply (get_task_exact (vf_io_init (zero_io ring0) 3 4 2 true (inr ring0)).2); [reflexivity|done|done].
Defined.

Lemma get_task_index_overflow_witness :
  let io := set_idx (- 2 ^ 31) (vf_io_init (zero_io ring0) 3 4 100 true (inr ring0)).2 in
  get_task_from_instance io = None /\ to_int32 (2 ^ 31 - 1 + 1) = - 2 ^ 31.
Proof.
  apply (get_task_index_overflow (set_idx (- 2 ^ 31) (vf_io_init (zero_io ring0) 3 4 100 true (inr ring0)).2));
    [reflexivity|reflexivity|vm_compute; discriminate].
Defined.
