(* ===== verification/Payload.v ===== *)
(** The control payloads (src/src/protocol.h): offsets of the packed
    structures from the start of the packet buffer, and accesses to the buffer
    of a task. *)
From S2P Require Import Prelude Libc Crypto Key Protocol Io.

Definition VF_DEFAULT_CAPS : Z := 1.
Definition VF_S_OK : Z := 0.

(** [vf_payload_hello_req_t] *)
Definition HELLO_REQ_SIZE : Z := 8.
Definition HELLO_REQ_TIMESTAMP : nat := HLEN + 0.

(** [vf_payload_hello_resp_t] *)
Definition HELLO_RESP_SIZE : Z := 32.
Definition HELLO_RESP_SERVER_TS : nat := HLEN + 0.
Definition HELLO_RESP_STATUS : nat := HLEN + 8.
Definition HELLO_RESP_CAPS : nat := HLEN + 12.
Definition HELLO_RESP_COOKIE : nat := HLEN + 16.

(** [vf_payload_auth_req_t] *)
Definition AUTH_REQ_SIZE : Z := 152.
Definition AUTH_REQ_TIMESTAMP : nat := HLEN + 0.
Definition AUTH_REQ_COOKIE : nat := HLEN + 8.
Definition AUTH_REQ_USERNAME : nat := HLEN + 24.
Definition AUTH_REQ_PASSWORD : nat := HLEN + 88.

(** [vf_payload_auth_resp_t] *)
Definition AUTH_RESP_SIZE : Z := 64.
Definition AUTH_RESP_STATUS : nat := HLEN + 0.
Definition AUTH_RESP_VIP : nat := HLEN + 4.
Definition AUTH_RESP_TOKEN : nat := HLEN + 8.
Definition AUTH_RESP_KEY_ID : nat := HLEN + 24.
Definition AUTH_RESP_KEEPALIVE : nat := HLEN + 28.
Definition AUTH_RESP_INIT_KEY : nat := HLEN + 32.

(** [vf_payload_echo_t] *)
Definition ECHO_SIZE : Z := 16.
Definition ECHO_ID : nat := HLEN + 0.
Definition ECHO_TIMESTAMP : nat := HLEN + 8.

Section bufs.
Context {R : Type} `{HR : IoUring R}.

Definition task_buf (i : nat) (io : vf_io_t R) : option (list Z) := t_buf <$> task_pool io !! i.
Definition set_task_buf (i : nat) (b : list Z) (io : vf_io_t R) : option (vf_io_t R) := alter_task i (set_buf b) io.

(** [vf_pack] on the buffer of a task, with the sender's state: the length or
    -1. *)
Definition pack_task (i : nat) (ps : pack_state) (u : urandom_result) (sec : option vfast_sec_ctx_t)
    (plen type sid : Z) (io : vf_io_t R) : option (Z * vf_io_t R * pack_state) :=
  b ← task_buf i io;
  '(n, b, ps) ← vf_pack ps u sec b plen BUF_SIZE type sid;
  io ← set_task_buf i b io;
  Some (n, io, ps).

Context {HL : IoUringLaws R}.

Lemma task_buf_held io held i :
  io_inv io held -> i ∈ held ->
  exists b, task_buf i io = Some b /\ length b = 2048%nat /\ bytes_ok b.
Proof.
  intros Hi Hin. destruct (held_lookup io held i Hi Hin) as (t & Ht & Hl & Hb). exists (t_buf t).
  unfold task_buf. rewrite Ht. split; [done|]. by split.
Qed.

Lemma set_task_buf_inv io held i b :
  io_inv io held -> i ∈ held -> length b = 2048%nat -> bytes_ok b ->
  exists io', set_task_buf i b io = Some io' /\ io_inv io' held /\ same_io io io' /\
    pool_idx io' = pool_idx io /\ task_buf i io' = Some b /\ ring io' = ring io /\
    (forall j, j <> i -> task_pool io' !! j = task_pool io !! j).
Proof.
  intros Hi Hin Hl Hb. destruct (held_lookup io held i Hi Hin) as (t & Ht & _).
  pose proof (lookup_lt_Some _ _ _ Ht). unfold set_task_buf, alter_task. rewrite Ht. cbn [mbind option_bind].
  eexists. split; [done|]. split; [by eapply io_inv_alter|]. split; [done|]. split; [done|].
  unfold task_buf. cbn [set_pool task_pool ring]. rewrite list_lookup_insert_eq by done.
  split; [done|]. split; [done|]. intros j Hj. by rewrite list_lookup_insert_ne.
Qed.

(** Packing in a held task succeeds for every payload that leaves room, and
    makes a packet that delivers it. *)
Lemma pack_task_delivers io held i ps u sec plen type sid payload :
  io_inv io held -> i ∈ held -> pack_state_ok ps -> urandom_ok u ->
  match sec with Some s => sec_ok s | None => True end -> word_ok 32 sid -> word_ok 8 type -> 0 <= plen <= 1957 ->
  (b ← task_buf i io; get_bytes HLEN (Z.to_nat plen) b) = Some payload ->
  exists n io' ps' b', pack_task i ps u sec plen type sid io = Some (n, io', ps') /\
    0 < n <= BUF_SIZE /\ pack_state_ok ps' /\ io_inv io' held /\ same_io io io' /\
    pool_idx io' = pool_idx io /\ ring io' = ring io /\
    (forall j, j <> i -> task_pool io' !! j = task_pool io !! j) /\
    task_buf i io' = Some b' /\ forall sec', accepts sec sec' type -> delivers b' n sec' type sid payload.
Proof.
  intros Hi Hin Hps Hu Hsec Hsid Hty Hplen Hp. destruct (task_buf_held io held i Hi Hin) as (b & Eb & Hl & Hb).
  unfold pack_task. rewrite Eb in Hp |- *. cbn [mbind option_bind] in Hp |- *.
  destruct (vf_pack_delivers ps u sec b plen type sid payload) as (n & b2 & ps' & -> & Hn & Hps' & Hb2 & Hl2 & Hd); auto.
  cbn [mbind option_bind].
  destruct (set_task_buf_inv io held i b2 Hi Hin Hl2 Hb2) as (io' & -> & ? & ? & ? & ? & ? & ?).
  cbn [mbind option_bind]. by exists n, io', ps', b2.
Qed.

Lemma task_payload io held i plen :
  io_inv io held -> i ∈ held -> 0 <= plen <= 2028 ->
  exists payload, (b ← task_buf i io; get_bytes HLEN (Z.to_nat plen) b) = Some payload.
Proof.
  intros Hi Hin Hp. destruct (task_buf_held io held i Hi Hin) as (b & -> & Hl & _). cbn [mbind option_bind].
  eexists. apply get_bytes_Some. unfold HLEN. lia.
Qed.

(** ** Sending *)

(** The request for the datagram in task [i]. *)
Definition send_sqe (i : nat) : sqe := {| sq_req := ReqSendmsg i; sq_file := 0; sq_data := Some (own i) |}.

(** The kernel was asked to send the first [n] bytes of task [i] to [dst]. *)
Definition sends io i n dst b : Prop :=
  send_sqe i ∈ ring_pending (ring io) /\
  exists t, task_pool io !! i = Some t /\ t_op t = OP_UDP_SEND /\ t_buf t = b /\
    t_iov_base t = {| dp_task := i; dp_off := 0 |} /\ t_iov_len t = n /\ t_addr t = dst.

(** The state of the queue of [io0] decides: where it has room, one request
    is queued, for a message packed in task [i]; where it is full, none is,
    and the message is dropped. *)
Definition replied io0 io i dst sec type sid payload : Prop :=
  match ring_push (send_sqe i) (ring io0) with
  | None => ring_pending (ring io) ≡ₚ ring_pending (ring io0)
  | Some _ => ring_pending (ring io) ≡ₚ send_sqe i :: ring_pending (ring io0) /\
      exists b n, sends io i n dst b /\ forall sec', accepts sec sec' type -> delivers b n sec' type sid payload
  end.

Lemma alter_ring i f (io io' : vf_io_t R) : alter_task i f io = Some io' -> ring io' = ring io.
Proof. unfold alter_task. intros (t & _ & [= <-])%bind_Some. done. Qed.

Lemma maybe_submit_keeps (io : vf_io_t R) :
  task_pool (maybe_submit io) = task_pool io /\ ring_pending (ring (maybe_submit io)) = ring_pending (ring io).
Proof. unfold maybe_submit. repeat case_match; cbn; by rewrite ?ring_submit_pending. Qed.

(** Handing a packed message to [vf_io_write]. *)
Lemma write_replied io0 io io' i n dst b sec type sid payload :
  ring io = ring io0 ->
  vf_io_write io (udp_fd io) OP_UDP_SEND {| dp_task := i; dp_off := 0 |} n (Some dst) = Some io' ->
  task_buf i io = Some b -> 0 <= n <= BUF_SIZE ->
  (forall sec', accepts sec sec' type -> delivers b n sec' type sid payload) ->
  replied io0 io' i dst sec type sid payload.
Proof.
  intros Hr. unfold vf_io_write, vfast_data_to_task, replied. rewrite <- Hr. cbn [dp_task dp_off tp_task tp_shift Z.eqb OP_UDP_SEND Pos.eqb].
  unfold f_idx. rewrite Z.eqb_refl. change {| tp_task := i; tp_shift := 0 |} with (own i). fold (send_sqe i). unfold BUF_SIZE.
  intros H Eb Hn Hd. destruct (ring_push (send_sqe i) (ring io)) as [rg|] eqn:Ep.
  2: { unfold store_in_use in H. cbn [own tp_shift Nat.eqb] in H. by rewrite (alter_ring _ _ _ _ H). }
  unfold task_buf in Eb. apply fmap_Some in Eb as (t & Ht & ->). pose proof (lookup_lt_Some _ _ _ Ht) as Hlt.
  revert H. unfold store_op, alter_task. cbn [own tp_shift tp_task Nat.eqb set_ring task_pool negb].
  rewrite Ht. cbn [mbind option_bind set_pool task_pool].
  rewrite list_lookup_insert_eq by done. cbn [mbind option_bind]. rewrite list_insert_insert_eq.
  intros H. apply (inj Some) in H. subst io'. rewrite (proj2 (maybe_submit_keeps _)).
  cbn [set_pool set_ring ring]. pose proof (ring_push_pending _ _ _ Ep) as Hq. split; [done|]. exists (t_buf t), n. split; [|done].
  split; [rewrite (proj2 (maybe_submit_keeps _)); cbn [set_pool set_ring ring]; rewrite Hq; left|].
  rewrite (proj1 (maybe_submit_keeps _)). cbn [set_pool set_ring task_pool]. eexists.
  split; [by apply list_lookup_insert_eq|]. cbn. rewrite wrap_small by lia. done.
Qed.

Lemma replied_submit io0 io i dst sec type sid payload :
  replied io0 io i dst sec type sid payload -> replied io0 (set_ring (ring_submit (ring io)) io) i dst sec type sid payload.
Proof.
  unfold replied, sends. cbn [set_ring ring task_pool]. by rewrite !ring_submit_pending.
Qed.

(** Filling a field of a held task's buffer. *)
Lemma put_ok off bs b :
  length b = 2048%nat -> bytes_ok b -> bytes_ok bs -> (off + length bs <= 2048)%nat ->
  exists b', put_bytes off bs b = Some b' /\ length b' = 2048%nat /\ bytes_ok b'.
Proof.
  intros Hl Hb Hbs Ho. destruct (put_bytes_ex off bs b) as [b' E]; [lia|]. exists b'. split; [done|].
  split; [apply put_bytes_length in E; congruence|by eapply put_bytes_ok].
Qed.

Lemma put_le_fits off n x b :
  length b = 2048%nat -> bytes_ok b -> (off + n <= 2048)%nat ->
  exists b', put_le off n x b = Some b' /\ length b' = 2048%nat /\ bytes_ok b'.
Proof. intros Hl Hb Ho. apply put_ok; [done|done|apply le_bytes_ok|by rewrite length_le_bytes]. Qed.
End bufs.
