(* ===== verification/Receive.v ===== *)
(** What every receive callback starts with: a packet in the buffer of the
    task the loop handed out. *)
From S2P Require Import Prelude Crypto Key Protocol Libc Io Payload.

(** The type of a received packet. *)
Definition udp_type (b : list Z) (len : Z) : option Z :=
  b ← vf_remove_header_obfs b len; get_le H_MSG_TYPE 1 b.

(** Its session identifier. *)
Definition udp_sid (b : list Z) (len : Z) : option Z :=
  b ← vf_remove_header_obfs b len; sn ← get_le H_SESSION_ID 4 b; Some (ntohl sn).

(** A packet of a sealed type is not accepted where there is no session, or
    where it is shorter than header, nonce and tag. *)
Definition never_accepted (ty sid len : Z) : Prop := pack_plain_type ty = false /\ (sid = 0 \/ len < 60).

Section receive.
Context {R : Type} `{HR : IoUring R, HRL : !IoUringLaws R}.
Implicit Types (io : vf_io_t R).

Lemma held_ne io i held j : io_inv io (i :: held) -> j ∈ held -> j <> i.
Proof.
  intros [_ _ (fl & _ & Hn & _) _] Hj ->. cbn in Hn. apply list.NoDup_cons in Hn as [Hn _].
  apply Hn, elem_of_app. by left.
Qed.

Lemma set_task_buf_frame io i b io' j : set_task_buf i b io = Some io' -> j <> i -> task_pool io' !! j = task_pool io !! j.
Proof. unfold set_task_buf, alter_task. intros (t & _ & [= <-])%bind_Some Hj. cbn [set_pool task_pool]. by rewrite list_lookup_insert_ne. Qed.

(** Filling the buffer is a suitable first step. *)
Lemma fill_step io i held b :
  io_inv io (i :: held) -> length b = 2048%nat -> bytes_ok b ->
  exists io1, set_task_buf i b io = Some io1 /\ task_buf i io1 = Some b /\
    (io_inv io1 (i :: held) /\ same_io io io1 /\ pool_idx io1 = pool_idx io /\ ring io1 = ring io /\
     forall j, j ∈ held -> task_pool io1 !! j = task_pool io !! j).
Proof.
  intros Hi Hl Hb. destruct (set_task_buf_inv io (i :: held) i b Hi) as (io1 & E & ? & ? & ? & Eb & ? & Hf); [left|done|done|].
  exists io1. split; [done|]. split; [done|]. split_and!; auto. intros j Hj. apply Hf. by eapply held_ne.
Qed.

Lemma unpack_needs_sec buf res r buf' ty :
  VPN_TNL_HLEN <= res -> get_le H_MSG_TYPE 1 buf = Some ty ->
  vf_unpack None buf res = Some (Some r, buf') -> pack_plain_type ty = true.
Proof.
  unfold VPN_TNL_HLEN. intros Hr Et. unfold vf_unpack, VPN_TNL_HLEN. rewrite Et.
  destruct (Z.ltb_spec res 20); [lia|]. cbn [mbind option_bind].
  destruct (get_le H_KEY_ID 1 buf); [|done]. cbn [mbind option_bind]. by destruct (pack_plain_type ty).
Qed.

Lemma unpack_short sec buf res r buf' ty :
  VPN_TNL_HLEN <= res < 60 -> get_le H_MSG_TYPE 1 buf = Some ty -> pack_plain_type ty = false ->
  vf_unpack sec buf res = Some (r, buf') -> r = None.
Proof.
  unfold VPN_TNL_HLEN. intros Hr Et Hp. unfold vf_unpack, VPN_TNL_HLEN. rewrite Et.
  destruct (Z.ltb_spec res 20); [lia|]. cbn [mbind option_bind]. destruct (get_le H_KEY_ID 1 buf); [|done]. cbn [mbind option_bind].
  rewrite Hp. destruct sec as [s|]; [|by intros [= <- _]]. destruct (vf_rekey_get_decrypt_key s z) as [key|]; [|by intros [= <- _]].
  unfold vf_decrypt. cbn [negb]. rewrite decide_True by (unfold CRYPTO_NONCE_SIZE, CRYPTO_TAG_SIZE; lia). by intros [= <- _].
Qed.

(** The front end: the packet unmasked and unpacked in place. *)
Lemma unpack_stage io i held len b sec :
  io_inv io (i :: held) -> task_buf i io = Some b -> VPN_TNL_HLEN <= len <= BUF_SIZE ->
  exists b1 sn r b2 io1 ty,
    vf_remove_header_obfs b len = Some b1 /\ get_le H_SESSION_ID 4 b1 = Some sn /\
    udp_type b len = Some ty /\ vf_unpack sec b1 len = Some (r, b2) /\
    set_task_buf i b2 io = Some io1 /\ task_buf i io1 = Some b2 /\ get_le H_MSG_TYPE 1 b2 = Some ty /\
    match r with Some plen => 0 <= plen <= len - VPN_TNL_HLEN | None => True end /\
    (sec = None -> is_Some r -> pack_plain_type ty = true) /\
    (pack_plain_type ty = true -> drop HLEN b2 = drop HLEN b) /\
    io_inv io1 (i :: held) /\ same_io io io1 /\ pool_idx io1 = pool_idx io /\ ring io1 = ring io /\
    (forall j, j <> i -> task_pool io1 !! j = task_pool io !! j).
Proof.
  intros Hi Eb Hlen. unfold BUF_SIZE in Hlen.
  destruct (task_buf_held io _ i Hi) as (b0 & Eb0 & Hl & Hb); [left|]. rewrite Eb in Eb0. injection Eb0 as <-.
  destruct (vf_remove_header_obfs_ok b len) as (b1 & E1 & Hl1 & Hb1); [hlia|done|].
  destruct (get_le_Some H_SESSION_ID 4 b1) as [sn Esn]; [hlia|].
  destruct (get_le_Some H_MSG_TYPE 1 b1) as [ty Ety]; [hlia|].
  destruct (vf_unpack_total sec b1 len Hb1) as (r & b2 & E2 & Hl2 & Hb2 & Hr & Hk); [lia|lia|].
  destruct (set_task_buf_inv io (i :: held) i b2 Hi) as (io1 & Es & Hi1 & Hs1 & Hx1 & Eb1 & Er1 & Hf1); [left|lia|done|].
  exists b1, sn, r, b2, io1, ty. split; [done|]. split; [done|].
  split; [unfold udp_type; by rewrite E1|]. split; [done|]. split; [done|]. split; [done|].
  split. { unfold get_le in *. rewrite Hk by hlia. done. }
  split; [done|]. split.
  { intros -> [plen ->]. by eapply unpack_needs_sec; [apply Hlen| |exact E2]. }
  split; [|done]. intros Hp. transitivity (drop HLEN b1).
  - eapply (vf_unpack_plain_body _ b1); [done| |apply Hlen|exact Ety|done|exact E2]. lia.
  - eapply vf_remove_header_obfs_body; [|exact Hb|exact E1]. hlia.
Qed.

(** What a callback does for its task, [data_cb_ok] at one call, and what it
    does besides. *)
Definition cb_result {W} (r : option (W * vf_io_t R * vf_task_state_t)) (io : vf_io_t R) (i : nat) (held : list nat)
    (Q : vf_task_state_t -> W -> vf_io_t R -> Prop) : Prop :=
  exists w' io' st, r = Some (w', io', st) /\ Q st w' io' /\ pool_idx io' = pool_idx io /\ same_io io io' /\
    io_inv io' (match st with IO_TASK_DONE => i :: held | IO_TASK_USE => held end) /\
    (forall j, j ∈ held -> task_pool io' !! j = task_pool io !! j).

Lemma replied_ring io0 io0' io i dst sec type sid payload :
  ring io0' = ring io0 -> replied io0' io i dst sec type sid payload -> replied io0 io i dst sec type sid payload.
Proof. unfold replied. by intros ->. Qed.

(** A delivered packet, unmasked and unpacked in place. *)
Lemma deliver_stage io i held rb len b sec ty sid payload :
  io_inv io (i :: held) -> task_buf i io = Some rb -> agree (Z.to_nat len) b rb -> delivers b len sec ty sid payload ->
  exists rb1 rb2 noise io1,
    vf_remove_header_obfs rb len = Some rb1 /\ get_le H_SESSION_ID 4 rb1 = Some (htonl sid) /\
    get_le H_MSG_TYPE 1 rb1 = Some ty /\ (length noise < 32)%nat /\
    vf_unpack sec rb1 len = Some (Some (Z.of_nat (length (payload ++ noise))), rb2) /\
    set_task_buf i rb2 io = Some io1 /\ task_buf i io1 = Some rb2 /\ get_le H_MSG_TYPE 1 rb2 = Some ty /\
    get_bytes HLEN (length (payload ++ noise)) rb2 = Some (payload ++ noise) /\ length rb2 = 2048%nat /\
    (io_inv io1 (i :: held) /\ same_io io io1 /\ pool_idx io1 = pool_idx io /\ ring io1 = ring io /\
     forall j, j ∈ held -> task_pool io1 !! j = task_pool io !! j).
Proof.
  intros Hi Eb Ha [Hlen Hd].
  destruct (task_buf_held io _ i Hi) as (b0 & Eb0 & Hl & Hb); [left|]. rewrite Eb in Eb0. apply (inj Some) in Eb0. subst b0.
  destruct (Hd rb Ha Hl Hb) as (rb1 & rb2 & noise & E1 & Esn & Ety & Hno & Eu & Ep).
  destruct (vf_remove_header_obfs_ok rb len) as (rb1' & E1' & Hl1 & Hb1); [unfold BUF_SIZE, VPN_TNL_HLEN in *; hlia|done|].
  rewrite E1 in E1'. apply (inj Some) in E1'. subst rb1'.
  destruct (vf_unpack_total sec rb1 len Hb1) as (r & rb2' & Eu' & Hl2 & Hb2 & _ & Hk);
    [unfold BUF_SIZE in *; lia|unfold BUF_SIZE in *; lia|].
  rewrite Eu in Eu'. apply (inj Some) in Eu'. assert (rb2 = rb2') as <- by congruence. clear Eu'.
  destruct (fill_step io i held rb2 Hi) as (io1 & Eset & Eb1 & Hst); [congruence|done|].
  exists rb1, rb2, noise, io1. do 7 (split; [done|]). split; [|split; [done|split; [congruence|done]]].
  unfold get_le in *. by rewrite Hk by hlia.
Qed.
End receive.

Lemma agree_refl n b : (n <= length b)%nat -> agree n b b.
Proof. by intros Hn. Qed.
