(* ===== verification/Fsm.v ===== *)
(** The client's connection state machine (src/src/fsm.c, fsm.h): the control
    packets it sends and the tick of its background thread. *)
From S2P Require Import Prelude HashTable Libc Crypto Key Protocol Io Payload Receive.

Definition FSM_AUTH_RETRY : Z := 5.
Definition FSM_KEEPALIVE : Z := 10.
Definition FSM_TIMEOUT : Z := 30.

Inductive vfast_state_t :=
| ST_IDLE | ST_HELLO_WAIT | ST_AUTH_SEND | ST_AUTH_WAIT | ST_CONNECTED | ST_RECONNECTING.

#[export] Instance vfast_state_eq_dec : EqDecision vfast_state_t.
Proof. solve_decision. Defined.

(** [vfast_fsm_t], without the pointers to the engine, to [running] and to the
    master key.  [f_sec] is the index of the security context that [sec]
    points to. *)
Record vfast_fsm_t := {
  f_state : vfast_state_t;
  f_sid : Z;
  last_rx_time : Z;
  last_tx_hello : Z;
  last_tx_auth : Z;
  last_tx_keep : Z;
  f_dst : sockaddr_in;
  f_sec : option bool;
  f_next_seq : Z;
  pass_word : list Z;
  user_name : list Z;
  f_cookie : list Z;
  server_ts : Z
}.

Definition set_state (s : vfast_state_t) (f : vfast_fsm_t) : vfast_fsm_t :=
  {| f_state := s; f_sid := f_sid f; last_rx_time := last_rx_time f; last_tx_hello := last_tx_hello f;
     last_tx_auth := last_tx_auth f; last_tx_keep := last_tx_keep f; f_dst := f_dst f; f_sec := f_sec f;
     f_next_seq := f_next_seq f; pass_word := pass_word f; user_name := user_name f; f_cookie := f_cookie f;
     server_ts := server_ts f |}.
Definition set_tx (h a k : Z) (f : vfast_fsm_t) : vfast_fsm_t :=
  {| f_state := f_state f; f_sid := f_sid f; last_rx_time := last_rx_time f; last_tx_hello := h;
     last_tx_auth := a; last_tx_keep := k; f_dst := f_dst f; f_sec := f_sec f;
     f_next_seq := f_next_seq f; pass_word := pass_word f; user_name := user_name f; f_cookie := f_cookie f;
     server_ts := server_ts f |}.
Definition set_seq (n : Z) (f : vfast_fsm_t) : vfast_fsm_t :=
  {| f_state := f_state f; f_sid := f_sid f; last_rx_time := last_rx_time f; last_tx_hello := last_tx_hello f;
     last_tx_auth := last_tx_auth f; last_tx_keep := last_tx_keep f; f_dst := f_dst f; f_sec := f_sec f;
     f_next_seq := n; pass_word := pass_word f; user_name := user_name f; f_cookie := f_cookie f;
     server_ts := server_ts f |}.
Definition set_rx (t : Z) (f : vfast_fsm_t) : vfast_fsm_t :=
  {| f_state := f_state f; f_sid := f_sid f; last_rx_time := t; last_tx_hello := last_tx_hello f;
     last_tx_auth := last_tx_auth f; last_tx_keep := last_tx_keep f; f_dst := f_dst f; f_sec := f_sec f;
     f_next_seq := f_next_seq f; pass_word := pass_word f; user_name := user_name f; f_cookie := f_cookie f;
     server_ts := server_ts f |}.
Definition set_hello (c : list Z) (ts : Z) (f : vfast_fsm_t) : vfast_fsm_t :=
  {| f_state := f_state f; f_sid := f_sid f; last_rx_time := last_rx_time f; last_tx_hello := last_tx_hello f;
     last_tx_auth := last_tx_auth f; last_tx_keep := last_tx_keep f; f_dst := f_dst f; f_sec := f_sec f;
     f_next_seq := f_next_seq f; pass_word := pass_word f; user_name := user_name f; f_cookie := c;
     server_ts := ts |}.
Definition set_session (sid : Z) (sec : option bool) (f : vfast_fsm_t) : vfast_fsm_t :=
  {| f_state := f_state f; f_sid := sid; last_rx_time := last_rx_time f; last_tx_hello := last_tx_hello f;
     last_tx_auth := last_tx_auth f; last_tx_keep := last_tx_keep f; f_dst := f_dst f; f_sec := sec;
     f_next_seq := f_next_seq f; pass_word := pass_word f; user_name := user_name f; f_cookie := f_cookie f;
     server_ts := server_ts f |}.

(** [time(NULL)], [vf_now_ms()] and what /dev/urandom answers. *)
Record fsm_env := { fe_time : Z; fe_now_ms : Z; fe_urandom : urandom_result }.

(** The payload of a control packet: the buffer, its length and the machine;
    no payload for the types that are not control packets. *)
Definition fsm_payload (f : vfast_fsm_t) (type : Z) (e : fsm_env) (buf : list Z)
    : option (option (list Z * Z * vfast_fsm_t)) :=
  if type =? VPN_MSG_HELLO then
    buf ← put_le HELLO_REQ_TIMESTAMP 8 (htonll (u64 (fe_time e))) buf;
    Some (Some (buf, HELLO_REQ_SIZE, f))
  else if type =? VPN_MSG_AUTH_REQ then
    buf ← put_le AUTH_REQ_TIMESTAMP 8 (htonll (server_ts f)) buf;
    c ← get_bytes 0 16 (f_cookie f);
    buf ← put_bytes AUTH_REQ_COOKIE c buf;
    u ← strncpy (user_name f) 63;
    buf ← put_bytes AUTH_REQ_USERNAME (u ++ [0]) buf;
    p ← strncpy (pass_word f) 63;
    buf ← put_bytes AUTH_REQ_PASSWORD (p ++ [0]) buf;
    Some (Some (buf, AUTH_REQ_SIZE, f))
  else if type =? VPN_MSG_KEEPALIVE then
    let seq := u32 (f_next_seq f) in
    let f := set_seq (u64 (f_next_seq f + 1)) f in
    buf ← put_le ECHO_ID 8 (htonll seq) buf;
    buf ← put_le ECHO_TIMESTAMP 8 (htonll (fe_now_ms e)) buf;
    Some (Some (buf, ECHO_SIZE, f))
  else Some None.

Section fsm.
Context {R : Type} `{HR : IoUring R}.

Definition submit (io : vf_io_t R) : vf_io_t R := set_ring (ring_submit (ring io)) io.

(** The packet is dropped when no task is free. *)
Definition fsm_send_pkt (f : vfast_fsm_t) (ps : pack_state) (io : vf_io_t R) (type : Z) (e : fsm_env)
    : option (vfast_fsm_t * pack_state * vf_io_t R) :=
  '(t, io) ← vf_io_task io;
  match t with
  | None => Some (f, ps, io)
  | Some i =>
      io ← set_task_buf i (replicate (Z.to_nat BUF_SIZE) 0) io;
      buf ← task_buf i io;
      pl ← fsm_payload f type e buf;
      match pl with
      | None => io ← store_in_use (own i) false io; Some (f, ps, io)
      | Some (buf, payload_len, f) =>
          io ← set_task_buf i buf io;
          '(total_len, io, ps) ← pack_task i ps (fe_urandom e) None payload_len type (f_sid f) io;
          if total_len <=? 0 then io ← store_in_use (own i) false io; Some (f, ps, io)
          else
            io ← vf_io_write io (udp_fd io) OP_UDP_SEND {| dp_task := i; dp_off := 0 |} total_len (Some (f_dst f));
            Some (f, ps, submit io)
      end
  end.

(** One turn of the loop of [fsm_worker]. *)
Definition fsm_tick (f : vfast_fsm_t) (ps : pack_state) (io : vf_io_t R) (e : fsm_env)
    : option (vfast_fsm_t * pack_state * vf_io_t R) :=
  let now := fe_time e in
  let last_rx := last_rx_time f in
  match f_state f with
  | ST_IDLE | ST_RECONNECTING =>
      '(f, ps, io) ← fsm_send_pkt f ps io VPN_MSG_HELLO e;
      Some (set_state ST_HELLO_WAIT (set_tx now (last_tx_auth f) (last_tx_keep f) f), ps, io)
  | ST_HELLO_WAIT =>
      Some (if FSM_AUTH_RETRY <=? now - last_tx_hello f then set_state ST_IDLE f else f, ps, io)
  | ST_AUTH_SEND =>
      '(f, ps, io) ← fsm_send_pkt f ps io VPN_MSG_AUTH_REQ e;
      Some (set_state ST_AUTH_WAIT (set_tx (last_tx_hello f) now (last_tx_keep f) f), ps, io)
  | ST_AUTH_WAIT =>
      Some (if FSM_AUTH_RETRY <=? now - last_tx_auth f then set_state ST_IDLE f else f, ps, io)
  | ST_CONNECTED =>
      '(f, ps, io) ←
        (if FSM_KEEPALIVE <=? now - last_tx_keep f then
           '(f, ps, io) ← fsm_send_pkt f ps io VPN_MSG_KEEPALIVE e;
           Some (set_tx (last_tx_hello f) (last_tx_auth f) now f, ps, io)
         else Some (f, ps, io));
      Some (if FSM_TIMEOUT <=? now - last_rx then set_state ST_RECONNECTING f else f, ps, io)
  end.

(** The worker's loop, one turn per second, without the other thread. *)
Definition fsm_worker (f : vfast_fsm_t) (ps : pack_state) (io : vf_io_t R) (es : list fsm_env)
    : option (vfast_fsm_t * pack_state * vf_io_t R) :=
  foldM (fun '(f, ps, io) e => fsm_tick f ps io e) (f, ps, io) es.

(** [inet_pton] gives the address; on a bad string it stays zero.  The result
    is that of [pthread_create]. *)
Definition vf_fsm_init (io_null : bool) (username pwd : list Z) (sip : option (option Z)) (sport now : Z)
    (f0 : vfast_fsm_t) : Z * vfast_fsm_t :=
  if io_null then (-1, f0) else
  match sip with
  | None => (-1, f0)
  | Some ip =>
      (0, {| f_state := ST_IDLE; f_sid := 0; last_rx_time := now; last_tx_hello := 0; last_tx_auth := 0;
             last_tx_keep := 0; f_dst := {| sin_addr := default 0 ip; sin_port := htons sport |};
             f_sec := None; f_next_seq := 0; pass_word := pwd; user_name := username;
             f_cookie := replicate 16 0; server_ts := 0 |})
  end.

Definition vf_fsm_update (now : Z) (f : vfast_fsm_t) : vfast_fsm_t := set_rx now f.
Definition vf_fsm_is_connected (f : vfast_fsm_t) : bool := bool_decide (f_state f = ST_CONNECTED).
Definition vf_fsm_force_reconnect (f : vfast_fsm_t) : vfast_fsm_t := set_session 0 (f_sec f) (set_state ST_IDLE f).

(** ** What a tick does *)

Definition fsm_ok (f : vfast_fsm_t) : Prop :=
  word_ok 32 (f_sid f) /\ length (f_cookie f) = 16%nat /\ bytes_ok (f_cookie f) /\ word_ok 64 (server_ts f) /\
  bytes_ok (user_name f) /\ bytes_ok (pass_word f) /\ is_Some (strlen (user_name f)) /\ is_Some (strlen (pass_word f)).

#[export] Instance fsm_ok_dec f : Decision (fsm_ok f).
Proof. unfold fsm_ok. apply _. Defined.

(** The transition table: the next state, and the packet that goes out. *)
Definition fsm_table (f : vfast_fsm_t) (now : Z) : vfast_state_t * option Z :=
  match f_state f with
  | ST_IDLE | ST_RECONNECTING => (ST_HELLO_WAIT, Some VPN_MSG_HELLO)
  | ST_HELLO_WAIT => (if 5 <=? now - last_tx_hello f then ST_IDLE else ST_HELLO_WAIT, None)
  | ST_AUTH_SEND => (ST_AUTH_WAIT, Some VPN_MSG_AUTH_REQ)
  | ST_AUTH_WAIT => (if 5 <=? now - last_tx_auth f then ST_IDLE else ST_AUTH_WAIT, None)
  | ST_CONNECTED => (if 30 <=? now - last_rx_time f then ST_RECONNECTING else ST_CONNECTED,
                     if 10 <=? now - last_tx_keep f then Some VPN_MSG_KEEPALIVE else None)
  end.

Context {HL : IoUringLaws R}.

Lemma strncpy_ok src n bs : bytes_ok src -> strncpy src n = Some bs -> bytes_ok bs.
Proof.
  revert src bs. induction n as [|n IH]; intros src bs Hs; cbn.
  - intros E. apply (inj Some) in E. subst bs. constructor.
  - destruct src as [|c src]; [done|]. apply Forall_cons_iff in Hs as [Hc Hs]. destruct (c =? 0).
    + intros E. apply (inj Some) in E. subst bs. apply (bytes_ok_replicate (S n)). unfold byte_ok. lia.
    + intros (bs' & E & ->)%fmap_Some. constructor; [done|]. by eapply IH.
Qed.

(** The payload a control packet carries, as fields. *)
Definition fsm_payload_is (f : vfast_fsm_t) (type : Z) (e : fsm_env) (payload : list Z) : Prop :=
  (type = VPN_MSG_HELLO -> payload = le_bytes 8 (htonll (u64 (fe_time e)))) /\
  (type = VPN_MSG_KEEPALIVE -> payload = le_bytes 8 (htonll (u32 (f_next_seq f))) ++ le_bytes 8 (htonll (fe_now_ms e))) /\
  (type = VPN_MSG_AUTH_REQ -> exists u p, strncpy (user_name f) 63 = Some u /\ strncpy (pass_word f) 63 = Some p /\
     payload = le_bytes 8 (htonll (server_ts f)) ++ f_cookie f ++ (u ++ [0]) ++ (p ++ [0])).

Lemma put_next off bs1 bs2 o2 buf buf1 :
  put_bytes off bs1 buf = Some buf1 -> o2 = (off + length bs1)%nat ->
  put_bytes o2 bs2 buf1 = put_bytes off (bs1 ++ bs2) buf.
Proof. intros H ->. by apply put_put_app. Qed.

Definition control_type (type : Z) : Prop :=
  type = VPN_MSG_HELLO \/ type = VPN_MSG_AUTH_REQ \/ type = VPN_MSG_KEEPALIVE.

Definition after_payload (f : vfast_fsm_t) (type : Z) : vfast_fsm_t :=
  if type =? VPN_MSG_KEEPALIVE then set_seq (u64 (f_next_seq f + 1)) f else f.

Lemma fsm_payload_spec f type e buf :
  length buf = 2048%nat -> bytes_ok buf -> fsm_ok f -> control_type type ->
  exists buf' payload, fsm_payload f type e buf = Some (Some (buf', Z.of_nat (length payload), after_payload f type)) /\
    (length payload <= 152)%nat /\ put_bytes HLEN payload buf = Some buf' /\ bytes_ok payload /\
    fsm_payload_is f type e payload.
Proof.
  intros Hl Hb (_ & Hc & Hcb & _ & Hub & Hpb & Hu & Hp) [-> |[-> | ->]]; unfold fsm_payload, after_payload.
  - cbn [Z.eqb VPN_MSG_HELLO VPN_MSG_KEEPALIVE Pos.eqb]. set (pl := le_bytes 8 (htonll (u64 (fe_time e)))).
    destruct (put_bytes_ex HLEN pl buf) as [b E]; [unfold pl, HLEN; rewrite length_le_bytes; lia|].
    unfold put_le. change HELLO_REQ_TIMESTAMP with HLEN. fold pl. rewrite E. cbn [mbind option_bind].
    exists b, pl. split; [done|]. split; [unfold pl; rewrite length_le_bytes; lia|].
    split; [done|]. split; [apply le_bytes_ok|]. split; [done|]. split; done.
  - cbn [Z.eqb VPN_MSG_HELLO VPN_MSG_AUTH_REQ VPN_MSG_KEEPALIVE Pos.eqb].
    destruct (strncpy_is_Some (user_name f) 63 (or_introl Hu)) as [u Eu].
    destruct (strncpy_is_Some (pass_word f) 63 (or_introl Hp)) as [p Ep].
    pose proof (strncpy_length _ _ _ Eu) as Lu. pose proof (strncpy_length _ _ _ Ep) as Lp.
    pose proof (strncpy_ok _ _ _ Hub Eu) as Ou. pose proof (strncpy_ok _ _ _ Hpb Ep) as Op.
    set (ts := le_bytes 8 (htonll (server_ts f))).
    assert (length ts = 8%nat) as Lts by apply length_le_bytes.
    assert (length ((((ts ++ f_cookie f) ++ (u ++ [0])) ++ (p ++ [0]))) = 152%nat) as Lall.
    { rewrite !length_app, Lts, Hc, Lu, Lp. done. }
    unfold put_le. change AUTH_REQ_TIMESTAMP with HLEN. fold ts.
    destruct (put_bytes_ex HLEN ts buf) as [b1 E1]; [unfold HLEN; lia|]. rewrite E1. cbn [mbind option_bind].
    assert (get_bytes 0 16 (f_cookie f) = Some (f_cookie f)) as ->.
    { rewrite get_bytes_Some by lia. by rewrite drop_0, take_ge by lia. }
    cbn [mbind option_bind]. rewrite (put_next _ _ _ _ _ _ E1) by (rewrite Lts; done).
    destruct (put_bytes_ex HLEN (ts ++ f_cookie f) buf) as [b2 E2]; [unfold HLEN; rewrite length_app; lia|].
    rewrite E2. cbn [mbind option_bind]. rewrite Eu. cbn [mbind option_bind].
    rewrite (put_next _ _ _ _ _ _ E2) by (rewrite length_app, Lts, Hc; done).
    destruct (put_bytes_ex HLEN ((ts ++ f_cookie f) ++ (u ++ [0])) buf) as [b3 E3].
    { unfold HLEN. rewrite !length_app, Lts, Hc, Lu. cbn. lia. }
    rewrite E3. cbn [mbind option_bind]. rewrite Ep. cbn [mbind option_bind].
    rewrite (put_next _ _ _ _ _ _ E3) by (rewrite !length_app, Lts, Hc, Lu; done).
    destruct (put_bytes_ex HLEN (((ts ++ f_cookie f) ++ (u ++ [0])) ++ (p ++ [0])) buf) as [b4 E4].
    { unfold HLEN. lia. }
    rewrite E4. cbn [mbind option_bind]. eexists b4, _. split; [by rewrite Lall|]. split; [lia|]. split; [done|].
    assert (bytes_ok [0]) as O0 by (constructor; [unfold byte_ok; lia|constructor]).
    split; [repeat apply bytes_ok_app; auto; apply le_bytes_ok|].
    split; [done|]. split; [done|]. intros _. exists u, p. split; [done|]. split; [done|]. by rewrite <- !app_assoc.
  - cbn [Z.eqb VPN_MSG_HELLO VPN_MSG_AUTH_REQ VPN_MSG_KEEPALIVE Pos.eqb].
    set (id := le_bytes 8 (htonll (u32 (f_next_seq f)))). set (ts := le_bytes 8 (htonll (fe_now_ms e))).
    assert (length id = 8%nat) as Lid by apply length_le_bytes.
    assert (length ts = 8%nat) as Lts by apply length_le_bytes.
    unfold put_le. change ECHO_ID with HLEN. fold id ts.
    destruct (put_bytes_ex HLEN id buf) as [b1 E1]; [unfold HLEN; lia|]. rewrite E1. cbn [mbind option_bind].
    rewrite (put_next _ _ _ _ _ _ E1) by (rewrite Lid; done).
    destruct (put_bytes_ex HLEN (id ++ ts) buf) as [b2 E2]; [unfold HLEN; rewrite length_app; lia|].
    rewrite E2. cbn [mbind option_bind]. exists b2, (id ++ ts). split; [by rewrite length_app, Lid, Lts|].
    split; [rewrite length_app; lia|]. split; [done|]. split; [apply bytes_ok_app; apply le_bytes_ok|].
    split; [done|]. split; done.
Qed.

(** The peer's address and the credentials. *)
Definition same_peer (f f' : vfast_fsm_t) : Prop :=
  f_dst f' = f_dst f /\ user_name f' = user_name f /\ pass_word f' = pass_word f.

Lemma after_payload_fields f type :
  fsm_ok f -> let f' := after_payload f type in
  fsm_ok f' /\ f_state f' = f_state f /\ f_sid f' = f_sid f /\ last_rx_time f' = last_rx_time f /\
  last_tx_hello f' = last_tx_hello f /\ last_tx_auth f' = last_tx_auth f /\ last_tx_keep f' = last_tx_keep f /\
  f_sec f' = f_sec f /\ f_cookie f' = f_cookie f /\ server_ts f' = server_ts f /\ same_peer f f'.
Proof. unfold after_payload. by destruct (type =? VPN_MSG_KEEPALIVE), f. Qed.

(** Sending a control packet is total and holds no task afterwards; the packet
    delivers the payload to the server, unless every task is busy or the
    submission queue full. *)
Definition fsm_sent f type e io io' f' : Prop :=
  (f' = f /\ (forall i, (i < length (task_pool io))%nat -> task_busy io i) /\ task_pool io' = task_pool io /\ ring io' = ring io) \/
  (f' = after_payload f type /\ exists i payload, ~ task_busy io i /\ fsm_payload_is f type e payload /\
     replied io io' i (f_dst f) None type (f_sid f) payload /\
     forall j, j <> i -> task_pool io' !! j = task_pool io !! j).

Lemma fsm_send_pkt_inv f ps io held n type e :
  fsm_ok f -> pack_state_ok ps -> urandom_ok (fe_urandom e) -> io_inv io held -> io_budget io (S n) -> control_type type ->
  exists ps' io' f', fsm_send_pkt f ps io type e = Some (f', ps', io') /\ pack_state_ok ps' /\ io_inv io' held /\
    io_budget io' n /\ same_io io io' /\ (forall j, j ∈ held -> task_pool io' !! j = task_pool io !! j) /\
    fsm_sent f type e io io' f'.
Proof.
  intros Hf Hps Hu Hi Hb Ht. unfold fsm_send_pkt, vf_io_task.
  destruct (get_task_inv io held n Hi Hb) as (r & io1 & Eg & Hs1 & Hb1 & Hr). rewrite Eg. cbn [mbind option_bind].
  pose proof (get_task_ring _ _ _ _ Eg) as Hr1.
  destruct r as [i|]; [|exists ps, io1, f; destruct Hr as (? & Ep & ?); split_and!; auto; [intros j _; by rewrite Ep|left; by split_and!]].
  destruct Hr as (Hi1 & Hbusy & t0 & _ & Ep1).
  destruct (set_task_buf_inv io1 _ i (replicate (Z.to_nat BUF_SIZE) 0) Hi1) as (io2 & -> & Hi2 & Hs2 & Hx2 & Eb2 & Hr2 & Hf2);
    [left|by rewrite length_replicate|apply bytes_ok_replicate; unfold byte_ok; lia|].
  cbn [mbind option_bind]. rewrite Eb2. cbn [mbind option_bind].
  destruct (fsm_payload_spec f type e (replicate (Z.to_nat BUF_SIZE) 0)) as (b & pl & Ep & Lp & Epb & Opl & Hpl);
    [by rewrite length_replicate|apply bytes_ok_replicate; unfold byte_ok; lia|done|done|].
  rewrite Ep. cbn [mbind option_bind].
  destruct (set_task_buf_inv io2 _ i b Hi2) as (io3 & -> & Hi3 & Hs3 & Hx3 & Eb3 & Hr3 & Hf3); [left| | |].
  { apply put_bytes_length in Epb. by rewrite Epb, length_replicate. }
  { eapply put_bytes_ok; [exact Epb|exact Opl|]. apply bytes_ok_replicate. unfold byte_ok. lia. }
  cbn [mbind option_bind].
  destruct (after_payload_fields f type Hf) as (Hf' & _ & Esid & _).
  assert (f_dst (after_payload f type) = f_dst f) as Edst by (unfold after_payload; by destruct (_ =? _), f).
  destruct (pack_task_delivers io3 _ i ps (fe_urandom e) None (Z.of_nat (length pl)) type (f_sid (after_payload f type)) pl Hi3)
    as (m & io4 & ps' & b4 & -> & Hm & Hps' & Hi4 & Hs4 & Hx4 & Hr4 & Hf4 & Eb4 & Hd);
    [left|done|done|done|apply Hf'|by destruct Ht as [-> |[-> | ->]]|lia| |].
  { rewrite Eb3. cbn [mbind option_bind]. rewrite Nat2Z.id. by eapply get_put_same. }
  cbn [mbind option_bind]. destruct (Z.leb_spec m 0); [lia|].
  destruct (vf_io_write_inv io4 held i (udp_fd io4) OP_UDP_SEND m (Some (f_dst (after_payload f type))) Hi4)
    as (io5 & Ew & Hi5 & Hs5 & Hx5 & Hf5); [by left|].
  rewrite Ew. cbn [mbind option_bind]. exists ps', (submit io5), (after_payload f type). split; [done|]. split; [done|].
  split; [by apply submit_inv|].
  assert (same_io io1 io5) as Hs15.
  { transitivity io2; [done|]. transitivity io3; [done|]. by transitivity io4. }
  split; [|split; [|split; [|right; split; [done|]]]].
  - assert (io_budget io5 n) as Hb5 by (apply (budget_same io1); [congruence|done|done]). done.
  - transitivity io1; [done|]. by transitivity io5.
  - intros j Hj. pose proof (held_ne io1 i held j Hi1 Hj). cbn [submit set_ring task_pool].
    rewrite Hf5, Hf4, Hf3, Hf2, Ep1 by done. by rewrite list_lookup_insert_ne.
  - exists i, pl. split; [done|]. split; [done|]. split.
    2: { intros j Hj. cbn [submit set_ring task_pool]. rewrite Hf5, Hf4, Hf3, Hf2, Ep1 by done. by rewrite list_lookup_insert_ne. }
    rewrite Esid, Edst in *. apply replied_submit. eapply (write_replied io io4); [congruence|exact Ew|exact Eb4|lia|done].
Qed.

(** The fields a tick never touches. *)
Definition same_session (f f' : vfast_fsm_t) : Prop :=
  f_sid f' = f_sid f /\ f_sec f' = f_sec f /\ f_cookie f' = f_cookie f /\ server_ts f' = server_ts f /\
  last_rx_time f' = last_rx_time f.

Lemma fsm_tick_inv f ps io held n e :
  fsm_ok f -> pack_state_ok ps -> urandom_ok (fe_urandom e) -> io_inv io held -> io_budget io (S n) ->
  exists f' ps' io', fsm_tick f ps io e = Some (f', ps', io') /\ fsm_ok f' /\ pack_state_ok ps' /\
    io_inv io' held /\ io_budget io' n /\ same_io io io' /\ same_session f f' /\ same_peer f f' /\
    (forall j, j ∈ held -> task_pool io' !! j = task_pool io !! j) /\
    f_state f' = (fsm_table f (fe_time e)).1 /\
    last_tx_hello f' = (if decide ((fsm_table f (fe_time e)).2 = Some VPN_MSG_HELLO) then fe_time e else last_tx_hello f) /\
    last_tx_auth f' = (if decide ((fsm_table f (fe_time e)).2 = Some VPN_MSG_AUTH_REQ) then fe_time e else last_tx_auth f) /\
    last_tx_keep f' = (if decide ((fsm_table f (fe_time e)).2 = Some VPN_MSG_KEEPALIVE) then fe_time e else last_tx_keep f) /\
    ((fsm_table f (fe_time e)).2 = None -> io' = io /\ ps' = ps) /\
    (forall type, (fsm_table f (fe_time e)).2 = Some type -> exists f1, fsm_sent f type e io io' f1).
Proof.
  intros Hf Hps Hu Hi Hb.
  assert (io_budget io n) as Hbn by (eapply budget_le; [|rewrite <- (ii_size _ _ Hi); lia|exact Hb]; lia).
  assert (forall type, control_type type -> exists ps' io' f', fsm_send_pkt f ps io type e = Some (f', ps', io') /\
    pack_state_ok ps' /\ io_inv io' held /\ io_budget io' n /\ same_io io io' /\
    fsm_ok f' /\ f_state f' = f_state f /\ f_sid f' = f_sid f /\ last_rx_time f' = last_rx_time f /\
    last_tx_hello f' = last_tx_hello f /\ last_tx_auth f' = last_tx_auth f /\ last_tx_keep f' = last_tx_keep f /\
    f_sec f' = f_sec f /\ f_cookie f' = f_cookie f /\ server_ts f' = server_ts f /\ same_peer f f' /\
    (forall j, j ∈ held -> task_pool io' !! j = task_pool io !! j) /\
    fsm_sent f type e io io' f') as Hsend.
  { intros type Ht. destruct (fsm_send_pkt_inv f ps io held n type e Hf Hps Hu Hi Hb Ht)
      as (ps' & io' & f' & E & ? & ? & ? & ? & ? & Hx). exists ps', io', f'. repeat (split; [done|]).
    destruct Hx as [[-> ?]|[-> ?]]; [by repeat (split; [done|]); left|].
    destruct (after_payload_fields f type Hf) as (? & ? & ? & ? & ? & ? & ? & ? & ? & ? & ?).
    by repeat (split; [done|]); right. }
  unfold fsm_tick, fsm_table, FSM_AUTH_RETRY, FSM_KEEPALIVE, FSM_TIMEOUT.
  destruct (f_state f) eqn:Es; cbn [fst snd].
  all: try (destruct (Hsend VPN_MSG_HELLO ltac:(by left)) as (ps' & io' & f' & E & ? & ? & ? & ? & ? & ? & ? & ? & ? & ? & ? & ? & ? & ? & (? & ? & ?) & ? & Hx);
    rewrite E; cbn [mbind option_bind]; eexists _, _, _; split; [done|];
    split_and!; try (by destruct f'); by intros ? [= <-]; eauto).
  - eexists _, _, _. split; [done|]. destruct (5 <=? _); by destruct f.
  - destruct (Hsend VPN_MSG_AUTH_REQ ltac:(by right; left)) as (ps' & io' & f' & E & ? & ? & ? & ? & ? & ? & ? & ? & ? & ? & ? & ? & ? & ? & (? & ? & ?) & ? & Hx).
    rewrite E. cbn [mbind option_bind]. eexists _, _, _. split; [done|].
    split_and!; try (by destruct f'); by intros ? [= <-]; eauto.
  - eexists _, _, _. split; [done|]. destruct (5 <=? _); by destruct f.
  - destruct (10 <=? _).
    + destruct (Hsend VPN_MSG_KEEPALIVE ltac:(by right; right)) as (ps' & io' & f' & E & ? & ? & ? & ? & ? & ? & ? & ? & ? & ? & ? & ? & ? & ? & (? & ? & ?) & ? & Hx).
      rewrite E. cbn [mbind option_bind]. eexists _, _, _. split; [done|].
      split_and!; try done; try (by clear Hx; destruct (30 <=? _); destruct f'; cbn in *; rewrite ?Es in *); by intros ? [= <-]; eauto.
    + cbn [mbind option_bind]. eexists _, _, _. split; [done|]. destruct (30 <=? _); destruct f; cbn in *; by rewrite ?Es in *.
Qed.

(** Ticks until the next HELLO when nothing is received. *)
Definition fsm_measure (f : vfast_fsm_t) (now : Z) : Z :=
  match f_state f with
  | ST_IDLE | ST_RECONNECTING => 1
  | ST_HELLO_WAIT => 2 + Z.max 0 (last_tx_hello f + 5 - now)
  | ST_AUTH_WAIT => 2 + Z.max 0 (last_tx_auth f + 5 - now)
  | ST_AUTH_SEND => 7
  | ST_CONNECTED => 2 + Z.max 0 (last_rx_time f + 30 - now)
  end.

Lemma fsm_measure_decreases f f' now :
  f_state f' = (fsm_table f now).1 -> last_rx_time f' = last_rx_time f ->
  last_tx_hello f' = (if decide ((fsm_table f now).2 = Some VPN_MSG_HELLO) then now else last_tx_hello f) ->
  last_tx_auth f' = (if decide ((fsm_table f now).2 = Some VPN_MSG_AUTH_REQ) then now else last_tx_auth f) ->
  ((fsm_table f now).2 = Some VPN_MSG_HELLO /\ f_state f' = ST_HELLO_WAIT /\ last_tx_hello f' = now) \/ fsm_measure f' (now + 1) <= fsm_measure f now - 1.
Proof.
  unfold fsm_table, fsm_measure. intros Es Er Eh Ea.
  destruct (f_state f); cbn [fst snd] in *; rewrite Es.
  - left. split; [done|]. split; [done|]. rewrite decide_True in Eh by done. done.
  - right. rewrite decide_False in Eh by done. destruct (Z.leb_spec 5 (now - last_tx_hello f)); lia.
  - right. rewrite decide_True in Ea by done. lia.
  - right. rewrite decide_False in Ea by done. destruct (Z.leb_spec 5 (now - last_tx_auth f)); lia.
  - right. rewrite Er. destruct (Z.leb_spec 30 (now - last_rx_time f)); lia.
  - left. split; [done|]. split; [done|]. rewrite decide_True in Eh by done. done.
Qed.

(** C15 A tick of the background thread is total, keeps the ownership of the
    task pool and follows the transition table: from idle or reconnecting it
    sends HELLO and waits, after five seconds without an answer it starts
    over, with a cookie it sends the authentication request and waits,
    connected it sends a keepalive every ten seconds and reconnects after
    thirty seconds of silence.  The packet delivers the payload of its type
    (the HELLO time, the cookie with the credentials, the sequence number),
    unless no task is free or the queue full.  Only the timer of the packet sent changes,
    session, cookie and receive time stay, and a tick that sends nothing
    leaves the engine alone. *)
Theorem fsm_tick_exact f ps io n e :
  fsm_ok f -> pack_state_ok ps -> urandom_ok (fe_urandom e) -> io_inv io [] -> io_budget io (S n) ->
  exists f' ps' io', fsm_tick f ps io e = Some (f', ps', io') /\
    io_inv io' [] /\ same_session f f' /\
    (f_state f', last_tx_hello f', last_tx_auth f', last_tx_keep f') =
      (let now := fe_time e in
       let '(st, pkt) := fsm_table f now in
       (st, if decide (pkt = Some VPN_MSG_HELLO) then now else last_tx_hello f,
        if decide (pkt = Some VPN_MSG_AUTH_REQ) then now else last_tx_auth f,
        if decide (pkt = Some VPN_MSG_KEEPALIVE) then now else last_tx_keep f)) /\
    ((fsm_table f (fe_time e)).2 = None -> io' = io /\ ps' = ps) /\
    (forall type, (fsm_table f (fe_time e)).2 = Some type -> exists f1, fsm_sent f type e io io' f1).
Proof.
  intros Hf Hps Hu Hi Hb.
  destruct (fsm_tick_inv f ps io [] n e Hf Hps Hu Hi Hb)
    as (f' & ps' & io' & E & _ & _ & Hi' & _ & _ & Hs & _ & _ & E1 & E2 & E3 & E4 & Hn).
  exists f', ps', io'. split; [done|]. split; [done|]. split; [done|]. split; [|done].
  cbv zeta. rewrite E1, E2, E3, E4. by destruct (fsm_table f (fe_time e)).
Qed.

Lemma fsm_worker_step f ps io e es :
  fsm_worker f ps io (e :: es) = ('(f, ps, io) ← fsm_tick f ps io e; fsm_worker f ps io es).
Proof. unfold fsm_worker. cbn [foldM]. by destruct (fsm_tick f ps io e) as [[[? ?] ?]|]. Qed.

(** ** Tasks and places in the queue *)

(** At least [n] tasks are free. *)
Definition free_tasks (n : nat) (io : vf_io_t R) : Prop :=
  exists l, NoDup l /\ (n <= length l)%nat /\ Forall (fun i => (i < length (task_pool io))%nat /\ ~ task_busy io i) l.

(** The submission queue takes another request. *)
Definition ring_room (io : vf_io_t R) : Prop := forall e, is_Some (ring_push e (ring io)).

Lemma filter_others (i : nat) (l : list nat) : i ∉ l -> filter (fun j => j <> i) l = l.
Proof.
  induction l as [|x l IH]; [done|]. intros [Hx Hl]%not_elem_of_cons. rewrite filter_cons_True by congruence. by rewrite IH.
Qed.

Lemma free_tasks_other n i io io' :
  length (task_pool io') = length (task_pool io) -> (forall j, j <> i -> task_pool io' !! j = task_pool io !! j) ->
  free_tasks (S n) io -> free_tasks n io'.
Proof.
  intros Hlen Hf (l & Hnd & Hl & Hall). exists (filter (fun j => j <> i) l). split; [by apply list.NoDup_filter|]. split.
  - clear Hall. revert n Hl. induction Hnd as [|x l Hx Hnd IH]; intros n Hl; [cbn in Hl; lia|].
    destruct (decide (x = i)) as [->|Hne].
    + rewrite filter_cons_False by (intros H; by apply H). rewrite filter_others by done. cbn in Hl. lia.
    + rewrite filter_cons_True by done. destruct n as [|n]; cbn in Hl |- *; [lia|]. specialize (IH n). lia.
  - apply list.Forall_forall. intros j [Hj Hin]%list_elem_of_filter. rewrite list.Forall_forall in Hall.
    destruct (Hall j Hin) as [? Hb]. rewrite Hlen. split; [done|]. unfold task_busy in *. by rewrite Hf.
Qed.

Lemma fsm_sent_free f type e io io' f1 n :
  same_io io io' -> length (task_pool io') = length (task_pool io) -> fsm_sent f type e io io' f1 -> free_tasks (S n) io -> free_tasks n io'.
Proof.
  intros _ Hlen [(_ & _ & Hp & _)|(_ & i & pl & _ & _ & _ & Hf)] H; [|by eapply free_tasks_other].
  apply (free_tasks_other n 0 io); [by rewrite Hp|by intros; rewrite Hp|done].
Qed.

Context {HD : IoUringDrains R}.

Lemma vf_io_write_room io i n dst io' :
  vf_io_write io (udp_fd io) OP_UDP_SEND {| dp_task := i; dp_off := 0 |} n dst = Some io' -> ring_room io -> ring_room (submit io').
Proof.
  unfold vf_io_write. intros E Hr e. destruct (ring_push _ (ring io)) as [r|] eqn:Ep.
  2: { destruct (Hr {| sq_req := ReqSendmsg i; sq_file := f_idx io (udp_fd io); sq_data := Some (own i) |}) as [r Hr1].
       cbn in Ep. unfold vfast_data_to_task, own in *. cbn in Ep. congruence. }
  cbn [Z.eqb OP_UDP_SEND Pos.eqb] in E. apply bind_Some in E as (io1 & E1 & E). apply bind_Some in E as (io2 & E2 & [= <-]).
  unfold store_op in E1. cbn [vfast_data_to_task tp_shift dp_off Nat.eqb] in E1. apply alter_ring in E1. cbn [set_ring ring] in E1.
  cbn [vfast_data_to_task tp_shift dp_off Nat.eqb negb] in E2. apply bind_Some in E2 as (d & _ & E2). apply alter_ring in E2.
  assert (ring io2 = r) as Er by congruence. unfold maybe_submit. cbn [submit set_ring ring].
  destruct (_ <=? 64); [|destruct (8 <=? _)]; cbn [set_ring set_batch ring]; rewrite Er;
    [apply (ring_drains e e)|apply (ring_drains e e)|]; by eapply ring_drains_push.
Qed.

Lemma fsm_send_room f ps io type e f' ps' io' :
  fsm_send_pkt f ps io type e = Some (f', ps', io') -> ring_room io -> ring_room io'.
Proof.
  unfold fsm_send_pkt, vf_io_task. intros ([t io1] & Eg & E)%bind_Some Hr. apply get_task_ring in Eg.
  assert (ring_room io1) as Hr1 by (unfold ring_room; by rewrite Eg). clear Eg Hr. destruct t as [i|]; [|by injection E as _ _ <-].
  apply bind_Some in E as (io2 & E2 & E). apply alter_ring in E2. apply bind_Some in E as (buf & _ & E).
  apply bind_Some in E as (pl & _ & E). destruct pl as [[[buf1 len] f1]|].
  2: { apply bind_Some in E as (io3 & E3 & [= _ _ <-]). apply alter_ring in E3. unfold ring_room. by rewrite E3, E2. }
  apply bind_Some in E as (io3 & E3 & E). apply alter_ring in E3. apply bind_Some in E as ([[n io4] ps1] & E4 & E).
  assert (ring io4 = ring io3) as Hr4.
  { unfold pack_task in E4. do 2 apply bind_Some in E4 as (? & _ & E4). destruct x0 as [[? ?] ?].
    apply bind_Some in E4 as (io5 & E5 & [= _ <- _]). by apply alter_ring in E5. }
  assert (ring_room io4) as Hr5 by (unfold ring_room; by rewrite Hr4, E3, E2). destruct (n <=? 0).
  { apply bind_Some in E as (io5 & E5 & [= _ _ <-]). apply alter_ring in E5. unfold ring_room. by rewrite E5. }
  apply bind_Some in E as (io5 & E5 & [= _ _ <-]). by eapply vf_io_write_room.
Qed.

Lemma fsm_tick_room f ps io e f' ps' io' :
  fsm_tick f ps io e = Some (f', ps', io') -> ring_room io -> ring_room io'.
Proof.
  unfold fsm_tick. intros E Hr. destruct (f_state f).
  1, 3, 6: apply bind_Some in E as ([[f1 ps1] io1] & E1 & [= _ _ <-]); by eapply fsm_send_room.
  1, 2: by injection E as _ _ <-.
  apply bind_Some in E as ([[f1 ps1] io1] & E1 & [= _ _ <-]). destruct (_ <=? _); [|by injection E1 as _ _ <-].
  apply bind_Some in E1 as ([[f2 ps2] io2] & E2 & [= _ _ <-]). by eapply fsm_send_room.
Qed.

Lemma fsm_worker_hello (m : nat) f ps io t0 es :
  fsm_ok f -> pack_state_ok ps -> Forall (fun e => urandom_ok (fe_urandom e)) es ->
  io_inv io [] -> io_budget io (length es) ->
  (forall j e, es !! j = Some e -> fe_time e = t0 + Z.of_nat j) ->
  fsm_measure f t0 <= Z.of_nat m -> (m <= length es)%nat ->
  exists (k : nat) e f0 ps0 io0 f1 f' ps' io', (k < m)%nat /\
    fsm_worker f ps io (take k es) = Some (f0, ps0, io0) /\ fsm_worker f ps io (take (S k) es) = Some (f', ps', io') /\
    (f_state f' = ST_HELLO_WAIT /\ last_tx_hello f' = t0 + Z.of_nat k /\ io_inv io' []) /\
    (fe_time e = t0 + Z.of_nat k /\ fsm_sent f0 VPN_MSG_HELLO e io0 io' f1) /\
    (f_dst f0 = f_dst f /\ f_sid f0 = f_sid f) /\ (ring_room io -> ring_room io0) /\
    (forall n, free_tasks (m + n) io -> free_tasks (S n) io0).
Proof.
  intros Hf Hps Hus. revert f ps io t0 es Hf Hps Hus.
  induction m as [|m IH]; intros f ps io t0 es Hf Hps Hus Hi Hb Ht Hm Hlen.
  - unfold fsm_measure in Hm. destruct (f_state f); lia.
  - destruct es as [|e es]; [cbn in Hlen; lia|]. apply Forall_cons_iff in Hus as [Hu Hus].
    destruct (fsm_tick_inv f ps io [] (length es) e Hf Hps Hu Hi Hb)
      as (f1 & ps1 & io1 & E1 & Hf1 & Hps1 & Hi1 & Hb1 & Hs1 & (Hsid & _ & _ & _ & Hrx) & (Hdst & _) & _ & Es & Eh & Ea & _ & Hidle & Hsent).
    assert (fe_time e = t0) as Et by (rewrite (Ht 0%nat e eq_refl); lia). rewrite Et in *.
    destruct (fsm_measure_decreases f f1 t0 Es Hrx Eh Ea) as [(Htab & Hst & Hh)|Hd].
    + destruct (Hsent _ Htab) as [f2 Hf2]. exists 0%nat, e, f, ps, io, f2, f1, ps1, io1. split; [lia|]. split; [done|].
      cbn [take]. rewrite take_0, fsm_worker_step, E1. cbn. rewrite Z.add_0_r. split_and!; try done.
      intros n (l & ? & ? & ?). exists l. split_and!; [done|lia|done].
    + destruct (IH f1 ps1 io1 (t0 + 1) es Hf1 Hps1 Hus Hi1 Hb1) as (k & e' & f0 & ps0 & io0 & f2 & f' & ps' & io' & Hk & E0 & Ek & (? & Hh & ?) & (Hte & ?) & (? & ?) & Hrm & Hfr).
      * intros j e' Hj. rewrite (Ht (S j) e' Hj). lia.
      * lia.
      * cbn in Hlen. lia.
      * exists (S k), e', f0, ps0, io0, f2, f', ps', io'. split; [lia|]. cbn [take]. rewrite !fsm_worker_step, E1. cbn [mbind option_bind].
        split; [done|]. split; [done|]. split; [split_and!; [done|lia|done]|]. split; [split; [lia|done]|]. split; [split; congruence|].
        split; [intros; by eapply Hrm, fsm_tick_room|]. intros n Hn. apply Hfr. destruct (fsm_table f t0).2 as [ty|] eqn:Ety.
        -- destruct (Hsent ty eq_refl) as [f3 Hf3]. eapply fsm_sent_free; [exact Hs1| |exact Hf3|exact Hn].
           pose proof (ii_size _ _ Hi) as Hz. pose proof (ii_size _ _ Hi1) as Hz1. destruct Hs1 as (? & ? & ? & ?). lia.
        -- destruct (Hidle eq_refl) as [-> _]. destruct Hn as (l & ? & ? & ?). exists l. split_and!; [done|lia|done].
Qed.

(** C14 The client never gives up and never gets stuck.  From any state whose
    timers are not in the future, with a server that stays silent, a worker
    that ticks once a second comes, within thirty-two ticks, so at most
    thirty-two seconds, to a tick that packs a HELLO for the server's address
    and hands it to the kernel, unless every task is busy or the submission
    queue full, and waits for the answer; no task is lost on the way.  When
    thirty-two tasks are free and the queue has room at the start, the HELLO
    is queued for certain: one request more, for a datagram that delivers the
    time of the tick as the payload of a HELLO, to every receiver. *)
Theorem fsm_worker_retries f ps io t0 es :
  fsm_ok f -> pack_state_ok ps -> Forall (fun e => urandom_ok (fe_urandom e)) es ->
  io_inv io [] -> io_budget io (length es) ->
  last_tx_hello f <= t0 -> last_tx_auth f <= t0 -> last_rx_time f <= t0 ->
  (forall j e, es !! j = Some e -> fe_time e = t0 + Z.of_nat j) -> (32 <= length es)%nat ->
  exists (k : nat) e f0 ps0 io0 f1 f' ps' io', (k < 32)%nat /\
    fsm_worker f ps io (take k es) = Some (f0, ps0, io0) /\ fsm_worker f ps io (take (S k) es) = Some (f', ps', io') /\
    f_state f' = ST_HELLO_WAIT /\ last_tx_hello f' = t0 + Z.of_nat k /\ io_inv io' [] /\
    f_dst f0 = f_dst f /\ fe_time e = t0 + Z.of_nat k /\ fsm_sent f0 VPN_MSG_HELLO e io0 io' f1 /\
    (ring_room io -> free_tasks 32 io -> exists i b n, ~ task_busy io0 i /\
       ring_pending (ring io') ≡ₚ send_sqe i :: ring_pending (ring io0) /\ sends io' i n (f_dst f) b /\
       forall sec', delivers b n sec' VPN_MSG_HELLO (f_sid f) (le_bytes 8 (htonll (u64 (t0 + Z.of_nat k))))).
Proof.
  intros Hf Hps Hus Hi Hb Hh Ha Hr Ht Hlen.
  destruct (fsm_worker_hello 32 f ps io t0 es) as (k & e & f0 & ps0 & io0 & f1 & f' & ps' & io' & Hk & E0 & E & (Hst & Hlt & Hi') & (Hte & Hs) & (Hd & Hsid) & Hroom & Hfree); auto.
  { unfold fsm_measure. destruct (f_state f); lia. }
  exists k, e, f0, ps0, io0, f1, f', ps', io'. do 9 (split; [done|]). intros Hrr Hfr.
  destruct (Hfree 0%nat Hfr) as (l & Hnd & Hl & Hall). destruct l as [|j l]; [cbn in Hl; lia|]. apply Forall_cons_iff in Hall as [[Hj Hjb] _].
  destruct Hs as [(_ & Hbusy & _)|(_ & i & pl & Hib & [Hpl _] & Hrep & _)]; [by destruct Hjb; apply Hbusy|].
  unfold replied in Hrep. destruct (Hroom Hrr (send_sqe i)) as [r Er]. rewrite Er in Hrep. destruct Hrep as (Hq & b & n & Hsend & Hdel).
  exists i, b, n. split; [done|]. split; [done|]. rewrite <- Hd, <- Hsid. split; [done|]. intros sec'. rewrite <- Hte, <- Hpl by done.
  apply Hdel. by left.
Qed.
End fsm.

(** * Instances *)

Definition demo_fsm : vfast_fsm_t :=
  (vf_fsm_init false [98; 111; 98; 0] [112; 119; 0] (Some (Some 0x0100007F)) 5887 100
     {| f_state := ST_IDLE; f_sid := 0; last_rx_time := 0; last_tx_hello := 0; last_tx_auth := 0; last_tx_keep := 0;
        f_dst := {| sin_addr := 0; sin_port := 0 |}; f_sec := None; f_next_seq := 0; pass_word := []; user_name := [];
        f_cookie := []; server_ts := 0 |}).2.
Definition demo_io (size : Z) : vf_io_t list_ring := (vf_io_init (zero_io ring0) 3 4 size true (inr ring0)).2.

Lemma demo_io_inv size : 0 <= size -> io_inv (demo_io size) [].
Proof.
  intros Hs. destruct (vf_io_init_inv (zero_io ring0) 3 4 size ring0) as (io' & E & Hi & _); [done|done|].
  unfold demo_io. by rewrite E.
Qed.

Definition demo_tick (t : Z) : fsm_env := {| fe_time := t; fe_now_ms := 1000 * t; fe_urandom := None |}.

Lemma fsm_tick_exact_witness :
  exists f' ps' io', fsm_tick demo_fsm demo_state (demo_io 4) (demo_tick 100) = Some (f', ps', io') /\
    io_inv io' [] /\ same_session demo_fsm f' /\
    (f_state f', last_tx_hello f', last_tx_auth f', last_tx_keep f') = (ST_HELLO_WAIT, 100, 0, 0) /\
    ((fsm_table demo_fsm 100).2 = None -> io' = demo_io 4 /\ ps' = demo_state) /\
    (forall type, (fsm_table demo_fsm 100).2 = Some type ->
       exists f1, fsm_sent demo_fsm type (demo_tick 100) (demo_io 4) io' f1).
Proof.
  apply (fsm_tick_exact demo_fsm demo_state (demo_io 4) 0 (demo_tick 100)); [by_compute|by_compute|done| |].
  - by apply demo_io_inv.
  - split; reflexivity || done.
Defined.

Lemma demo_io_free size : free_tasks (Z.to_nat size) (demo_io size).
Proof.
  exists (seq 0 (Z.to_nat size)). split; [apply NoDup_seq|]. split; [by rewrite length_seq|].
  apply list.Forall_forall. intros i Hi%elem_of_seq. unfold demo_io, vf_io_init, task_busy. cbn. rewrite length_replicate. split; [lia|].
  intros (t & [-> _]%lookup_replicate & H). discriminate H.
Qed.

Lemma fsm_worker_retries_witness :
  let es := demo_tick <$> seqZ 100 32 in
  exists (k : nat) (io0 : vf_io_t list_ring) f' ps' io', (k < 32)%nat /\
    fsm_worker (set_state ST_CONNECTED demo_fsm) demo_state (demo_io 64) (take (S k) es) = Some (f', ps', io') /\
    f_state f' = ST_HELLO_WAIT /\ last_tx_hello f' = 100 + Z.of_nat k /\ io_inv io' [] /\
    exists i b n, ~ task_busy io0 i /\ sends io' i n (f_dst demo_fsm) b /\
      forall sec', delivers b n sec' VPN_MSG_HELLO 0 (le_bytes 8 (htonll (u64 (100 + Z.of_nat k)))).
Proof.
  destruct (fsm_worker_retries (set_state ST_CONNECTED demo_fsm) demo_state (demo_io 64) 100 (demo_tick <$> seqZ 100 32))
    as (k & e & f0 & ps0 & io0 & f1 & f' & ps' & io' & Hk & _ & E & Hst & Ht & Hi & _ & _ & _ & Hsend).
  - by_compute.
  - by_compute.
  - apply Forall_fmap, list.Forall_forall. done.
  - by apply demo_io_inv.
  - split; by vm_compute.
  - vm_compute; discriminate.
  - vm_compute; discriminate.
  - vm_compute; discriminate.
  - intros j e Hj. apply list_lookup_fmap_Some in Hj as (t & -> & Hj). cbn.
    by apply lookup_seqZ in Hj as [-> _].
  - rewrite length_fmap, length_seqZ. lia.
  - destruct Hsend as (i & b & n & Hib & _ & Hs & Hd).
    + intros e'. by eexists.
    + destruct (demo_io_free 64) as (l & ? & ? & ?). exists l. split_and!; [done|lia|done].
    + exists k, io0, f', ps', io'. exact (conj Hk (conj E (conj Hst (conj Ht (conj Hi (ex_intro _ i (ex_intro _ b (ex_intro _ n (conj Hib (conj Hs Hd)))))))))).
Defined.
