(* ===== verification/Stats.v ===== *)
(** The counters the data plane shares with the command engine
    (src/src/cmdengine.c). *)
From S2P Require Import Prelude.

(** [reass_stats] *)
Record reass_stats := { rs_rx_pkts : Z; rs_tx_pkts : Z; rs_drops : Z }.

(** Each counter moves by one, whatever the argument. *)
Definition cmd_reass_stats_add (rx_pkts tx_pkts drops : Z) (s : reass_stats) : reass_stats :=
  {| rs_rx_pkts := if negb (rx_pkts =? 0) then u64 (rs_rx_pkts s + 1) else rs_rx_pkts s;
     rs_tx_pkts := if negb (tx_pkts =? 0) then u64 (rs_tx_pkts s + 1) else rs_tx_pkts s;
     rs_drops := if negb (drops =? 0) then u64 (rs_drops s + 1) else rs_drops s |}.
