(* ===== verification/Server.v ===== *)
(** The server (src/src/vfast_server.c): its message handlers, the receive
    paths from the socket and from the TUN device, and the maintenance timer
    of src/src/vfast.c. *)
From S2P Require Import Prelude Crypto Key Protocol IpPool HashTable Libc Session User Io Payload Receive Stats.

Section server.
Context {R : Type} `{HR : IoUring R}.
Context {T : Type} `{HT : HashTable Z T}.
Context {U : Type} `{HU : HashTable (list Z) U}.
(** OpenSSL's HMAC-SHA256, of a key and a message, and the RADIUS exchange. *)
Variable hmac_sha256 : list Z -> list Z -> list Z.
Variable rc_auth : list Z -> list Z -> rc_result.

(** [vfserver] with the state of the modules it calls; the statistics are
    received, sent, dropped. *)
Record server := {
  sv_sessions : sessions T;
  sv_ip_pool : vpn_ip_pool_t;
  sv_users : user_mgr U;
  master_key : list Z;
  sv_pack : pack_state;
  rx_pkts : Z;
  tx_pkts : Z;
  drops : Z;
  reass : reass_stats
}.

Definition with_sessions (s : sessions T) (w : server) : server :=
  {| sv_sessions := s; sv_ip_pool := sv_ip_pool w; sv_users := sv_users w; master_key := master_key w;
     sv_pack := sv_pack w; rx_pkts := rx_pkts w; tx_pkts := tx_pkts w; drops := drops w; reass := reass w |}.
Definition with_pool (p : vpn_ip_pool_t) (w : server) : server :=
  {| sv_sessions := sv_sessions w; sv_ip_pool := p; sv_users := sv_users w; master_key := master_key w;
     sv_pack := sv_pack w; rx_pkts := rx_pkts w; tx_pkts := tx_pkts w; drops := drops w; reass := reass w |}.
Definition with_users (u : user_mgr U) (w : server) : server :=
  {| sv_sessions := sv_sessions w; sv_ip_pool := sv_ip_pool w; sv_users := u; master_key := master_key w;
     sv_pack := sv_pack w; rx_pkts := rx_pkts w; tx_pkts := tx_pkts w; drops := drops w; reass := reass w |}.
Definition with_pack (ps : pack_state) (w : server) : server :=
  {| sv_sessions := sv_sessions w; sv_ip_pool := sv_ip_pool w; sv_users := sv_users w; master_key := master_key w;
     sv_pack := ps; rx_pkts := rx_pkts w; tx_pkts := tx_pkts w; drops := drops w; reass := reass w |}.
(** [atomic_fetch_add] on the server's own counters. *)
Definition add_stats (rx tx dr : Z) (w : server) : server :=
  {| sv_sessions := sv_sessions w; sv_ip_pool := sv_ip_pool w; sv_users := sv_users w; master_key := master_key w;
     sv_pack := sv_pack w; rx_pkts := u64 (rx_pkts w + rx); tx_pkts := u64 (tx_pkts w + tx);
     drops := u64 (drops w + dr); reass := reass w |}.
Definition add_reass (rx tx dr : Z) (w : server) : server :=
  {| sv_sessions := sv_sessions w; sv_ip_pool := sv_ip_pool w; sv_users := sv_users w; master_key := master_key w;
     sv_pack := sv_pack w; rx_pkts := rx_pkts w; tx_pkts := tx_pkts w; drops := drops w;
     reass := cmd_reass_stats_add rx tx dr (reass w) |}.
(** Both counters, as most places do. *)
Definition count_pkt (rx tx dr : Z) (w : server) : server := add_reass rx tx dr (add_stats rx tx dr w).

(** What a callback reads from its surroundings: the clocks, /dev/urandom for
    the nonce, the [getrandom] calls of the key generation, the random word
    and fallback for the session identifier, and the login's inputs. *)
Record sv_env := {
  e_now_ms : Z;
  e_time : Z;
  e_urandom : urandom_result;
  e_getrandom : list getrandom_result;
  e_sid_rnd : option Z;
  e_rand : Z;
  e_next_seq0 : Z;
  e_login : login_env
}.

Definition ss_env_of (e : sv_env) : ss_env :=
  {| se_now := e_time e; se_getrandom := e_getrandom e; se_next_seq0 := e_next_seq0 e |}.

Definition vfast_generate_cookie (src : sockaddr_in) (secret : list Z) : option (list Z) :=
  k ← get_bytes 0 16 secret;
  let input := le_bytes 4 (sin_addr src) ++ le_bytes 2 (sin_port src) ++ k in
  get_bytes 0 16 (hmac_sha256 k input).

(** ** Handlers.  The packet lies in the buffer of task [i], the payload at
    [HLEN]; the boolean is the return value. *)

Definition handler := option (bool * server * vf_io_t R).

Definition base (i : nat) : dptr := {| dp_task := i; dp_off := 0 |}.
Definition payload_ptr (i : nat) : dptr := {| dp_task := i; dp_off := HLEN |}.
Definition submit (io : vf_io_t R) : vf_io_t R := set_ring (ring_submit (ring io)) io.

(** The response [vfast_handle_hello] builds over the request. *)
Definition hello_response (now_ms : Z) (cookie b : list Z) : option (list Z) :=
  b ← put_bytes HLEN (replicate (Z.to_nat HELLO_RESP_SIZE) 0) b;
  b ← put_le HELLO_RESP_SERVER_TS 8 (htonll now_ms) b;
  b ← put_le HELLO_RESP_CAPS 4 (htonl VF_DEFAULT_CAPS) b;
  b ← put_le HELLO_RESP_STATUS 4 (htonl VF_S_OK) b;
  put_bytes HELLO_RESP_COOKIE cookie b.

Definition vfast_handle_hello (w : server) (io : vf_io_t R) (i : nat) (plen : Z) (src : sockaddr_in) (e : sv_env)
    : handler :=
  if plen <? HELLO_REQ_SIZE then Some (false, w, io) else
  b ← task_buf i io;
  cookie ← vfast_generate_cookie src (master_key w);
  b ← hello_response (e_now_ms e) cookie b;
  io ← set_task_buf i b io;
  '(tlen, io, ps) ← pack_task i (sv_pack w) (e_urandom e) None HELLO_RESP_SIZE VPN_MSG_HELLO 0 io;
  let w := with_pack ps w in
  if tlen <? 0 then Some (false, w, io) else
  io ← vf_io_write io (udp_fd io) OP_UDP_SEND (base i) tlen (Some src);
  Some (true, w, submit io).

(** The [err] label. *)
Definition auth_err (w : server) (vip : Z) (io : vf_io_t R) : handler :=
  if negb (vip =? 0) then p ← vf_ip_pool_free (sv_ip_pool w) vip; Some (false, with_pool p w, io)
  else Some (false, w, io).

(** The response [vfast_handle_auth] builds over the request. *)
Definition auth_response (vip : Z) (key : vfast_key_t) (token b : list Z) : option (list Z) :=
  b ← put_bytes HLEN (replicate (Z.to_nat AUTH_RESP_SIZE) 0) b;
  b ← put_le AUTH_RESP_STATUS 4 (htonl VF_S_OK) b;
  b ← put_le AUTH_RESP_VIP 4 vip b;
  b ← put_le AUTH_RESP_KEY_ID 4 (htonl (k_id key)) b;
  b ← put_le AUTH_RESP_KEEPALIVE 4 (htonl 300) b;
  k ← get_bytes 0 32 (k_raw key);
  b ← put_bytes AUTH_RESP_INIT_KEY k b;
  t ← get_bytes 0 VF_TOKEN_LEN token;
  put_bytes AUTH_RESP_TOKEN t b.

Definition vfast_handle_auth (w : server) (io : vf_io_t R) (i : nat) (plen : Z) (src : sockaddr_in) (e : sv_env)
    : handler :=
  if plen <? AUTH_REQ_SIZE then Some (false, w, io) else
  b ← task_buf i io;
  expected_cookie ← vfast_generate_cookie src (master_key w);
  cookie ← get_bytes AUTH_REQ_COOKIE 16 b;
  if negb (memcmp_eq 16 cookie expected_cookie) then Some (false, w, io) else
  let now_ms := e_now_ms e in
  ts ← get_le AUTH_REQ_TIMESTAMP 8 b;
  let client_ts := ntohll ts in
  if (u64 (client_ts + 300000) <? now_ms) || (now_ms <? u64 (client_ts - 5000)) then Some (false, w, io) else
  '(vip, pool) ← vf_ip_pool_alloc (sv_ip_pool w);
  let w := with_pool pool w in
  if vip =? 0 then auth_err w vip io else
  '(rc, users, token) ← vf_user_login rc_auth (sv_users w) (Some (drop AUTH_REQ_USERNAME b))
     (Some (drop AUTH_REQ_PASSWORD b)) (Some (replicate VF_TOKEN_LEN 0)) (e_login e);
  let w := with_users users w in
  if negb (rc =? 0) then Some (false, w, io) else
  token ← token;
  let sid := vf_ss_generate_sid vip (e_sid_rnd e) (e_rand e) in
  st ← vf_ss_update (sv_sessions w) vip sid (Some src) (ss_env_of e);
  let w := with_sessions st w in
  r ← vf_ss_lookup_by_sid st sid;
  match r with
  | None => auth_err w vip io
  | Some l =>
      s ← ss_heap st !! l;
      b ← auth_response vip (active_key (ss_sec_ctx s)) token b;
      io ← set_task_buf i b io;
      '(tlen, io, ps) ← pack_task i (sv_pack w) (e_urandom e) None AUTH_RESP_SIZE VPN_MSG_AUTH_ACK sid io;
      let w := with_pack ps w in
      if tlen <? 0 then auth_err w vip io else
      io ← vf_io_write io (udp_fd io) OP_UDP_SEND (base i) tlen (Some src);
      Some (true, w, submit io)
  end.

(** [s] is the session [server_on_udp] found. *)
Definition vfast_handle_echo (w : server) (io : vf_io_t R) (s : option positive) (sid : Z) (i : nat) (plen : Z)
    (src : sockaddr_in) (e : sv_env) : handler :=
  if plen <? ECHO_SIZE then Some (false, w, io) else
  match s with
  | None => Some (false, w, io)
  | Some l =>
      s ← ss_heap (sv_sessions w) !! l;
      st ← vf_ss_update (sv_sessions w) (ss_vip s) (ss_sid s) (Some src) (ss_env_of e);
      let w := with_sessions st w in
      '(tlen, io, ps) ← pack_task i (sv_pack w) (e_urandom e) None ECHO_SIZE VPN_MSG_KEEPALIVE sid io;
      let w := with_pack ps w in
      if tlen <? 0 then Some (false, w, io) else
      io ← vf_io_write io (udp_fd io) OP_UDP_SEND (base i) tlen (Some src);
      Some (true, w, io)
  end.

Definition vfast_handle_data (io : vf_io_t R) (i : nat) (plen : Z) : option (vf_io_t R) :=
  vf_io_write io (tun_fd io) OP_TUN_WRITE (payload_ptr i) plen None.

(** Change the security context of the session at [l]. *)
Definition with_sec (l : positive) (f : vfast_sec_ctx_t -> vfast_sec_ctx_t) (w : server) : option server :=
  s ← ss_heap (sv_sessions w) !! l;
  Some (with_sessions (set_heap (<[l := set_sec_ctx (f (ss_sec_ctx s)) s]> (ss_heap (sv_sessions w)))
                         (sv_sessions w)) w).

Definition stage_next (raw : list Z) (kid now : Z) (c : vfast_sec_ctx_t) : vfast_sec_ctx_t :=
  {| active_key := active_key c; previous_key := previous_key c;
     next_key := {| k_raw := raw; k_id := kid; k_bytes_processed := 0; k_created_at := now |};
     sec_sid := sec_sid c; rekey_pending := rekey_pending c |}.

Definition vfast_handle_rekey_req (w : server) (io : vf_io_t R) (l : option positive) (i : nat) (plen : Z)
    (src : sockaddr_in) (e : sv_env) : option (server * vf_io_t R) :=
  match l with
  | None => Some (w, io)
  | Some l =>
      if plen <? 4 + Z.of_nat REKEY_KEY_SIZE then Some (w, io) else
      b ← task_buf i io;
      s ← ss_heap (sv_sessions w) !! l;
      kid ← get_le HLEN 4 b;
      let r_kid := ntohl kid in
      if r_kid <=? k_id (active_key (ss_sec_ctx s)) then Some (w, io) else
      r_key ← get_bytes (HLEN + 4) REKEY_KEY_SIZE b;
      w ← with_sec l (stage_next r_key r_kid (e_time e)) w;
      b ← put_le HLEN 4 (htonl r_kid) b;
      io ← set_task_buf i b io;
      s ← ss_heap (sv_sessions w) !! l;
      '(flen, io, ps) ← pack_task i (sv_pack w) (e_urandom e) (Some (ss_sec_ctx s)) 4 VPN_MSG_REKEY_ACK (ss_sid s) io;
      let w := with_pack ps w in
      io ← (if 0 <? flen then vf_io_write io (udp_fd io) OP_UDP_SEND (base i) flen (Some src) else Some io);
      w ← with_sec l vf_rekey_commit w;
      Some (w, io)
  end.

(** The session pointer is dereferenced without a test. *)
Definition vfast_handle_rekey_ack (w : server) (l : option positive) : option server :=
  l ← l;
  s ← ss_heap (sv_sessions w) !! l;
  if rekey_pending (ss_sec_ctx s) then with_sec l vf_rekey_commit w else Some w.

(** ** The callbacks *)

(** Unknown types, LOGOUT and the client's types end without a handler. *)
Definition server_dispatch (w : server) (io : vf_io_t R) (s : option positive) (sid msg_type : Z) (i : nat)
    (b : list Z) (plen : Z) (src : sockaddr_in) (e : sv_env) : handler :=
  if msg_type =? VPN_MSG_DATA then
    io ← vfast_handle_data io i plen; Some (false, w, io)
  else if msg_type =? VPN_MSG_HELLO then vfast_handle_hello w io i plen src e
  else if msg_type =? VPN_MSG_AUTH_REQ then vfast_handle_auth w io i plen src e
  else if msg_type =? VPN_MSG_KEEPALIVE then vfast_handle_echo w io s sid i plen src e
  else if msg_type =? VPN_DPD_RESPONSE then
    sn ← get_le H_SESSION_ID 4 b;
    st ← vf_ss_update_by_sid (sv_sessions w) (ntohl sn) (Some src) (e_time e);
    Some (false, with_sessions st w, io)
  else if msg_type =? VPN_MSG_REKEY_ACK then
    w ← vfast_handle_rekey_ack w s; Some (false, w, io)
  else if msg_type =? VPN_MSG_REKEY_REQ then
    '(w, io) ← vfast_handle_rekey_req w io s i plen src e; Some (false, w, io)
  else Some (false, w, io).

(** The security context of a session. *)
Definition sec_of (w : server) (s : option positive) : option (option vfast_sec_ctx_t) :=
  match s with
  | None => Some None
  | Some l => s ← ss_heap (sv_sessions w) !! l; Some (Some (ss_sec_ctx s))
  end.

Definition server_on_udp (w : server) (io : vf_io_t R) (i : nat) (len : Z) (e : sv_env)
    : option (server * vf_io_t R * vf_task_state_t) :=
  t ← task_pool io !! i;
  let src := t_addr t in
  if len <? VPN_TNL_HLEN then Some (count_pkt 0 0 1 w, io, IO_TASK_DONE) else
  b ← task_buf i io;
  b ← vf_remove_header_obfs b len;
  sn ← get_le H_SESSION_ID 4 b;
  let sid := ntohl sn in
  '(s, w) ←
    (if negb (sid =? 0) then
       r ← vf_ss_lookup_by_sid (sv_sessions w) sid;
       Some (r, match r with Some _ => w | None => add_stats 0 0 1 w end)
     else Some (None, w));
  sec ← sec_of w s;
  '(r, b) ← vf_unpack sec b len;
  io ← set_task_buf i b io;
  match r with
  | None => Some (count_pkt 0 0 1 w, io, IO_TASK_DONE)
  | Some plen =>
      w ← match s with Some l => with_sec l (add_processed len) w | None => Some w end;
      msg_type ← get_le H_MSG_TYPE 1 b;
      '(isuse, w, io) ← server_dispatch w io s sid msg_type i b plen src e;
      Some (count_pkt 1 0 0 w, io, if isuse : bool then IO_TASK_USE else IO_TASK_DONE)
  end.

(** [data] is [buf + HLEN]; the destination address lies 16 bytes into the IP
    header. *)
Definition server_on_tun (w : server) (io : vf_io_t R) (i : nat) (len : Z) (e : sv_env)
    : option (server * vf_io_t R * vf_task_state_t) :=
  if (len <? 20) || (BUF_SIZE - VPN_TNL_HLEN <? len) then Some (count_pkt 0 0 1 w, io, IO_TASK_DONE) else
  b ← task_buf i io;
  dest_vip ← get_le (HLEN + 16) 4 b;
  r ← vf_ss_lookup_by_ip (sv_sessions w) dest_vip;
  match r with
  | None => Some (count_pkt 0 0 1 w, io, IO_TASK_DONE)
  | Some l =>
      s ← ss_heap (sv_sessions w) !! l;
      '(total_len, io, ps) ← pack_task i (sv_pack w) (e_urandom e) (Some (ss_sec_ctx s)) len VPN_MSG_DATA (ss_sid s) io;
      let w := with_pack ps w in
      if 0 <? total_len then
        io ← vf_io_write io (udp_fd io) OP_UDP_SEND (base i) total_len (Some (ss_remote_addr s));
        Some (count_pkt 0 1 0 w, io, IO_TASK_USE)
      else Some (count_pkt 0 0 1 w, io, IO_TASK_DONE)
  end.

(** ** Maintenance (src/src/vfast.c) *)

Definition maintain_node (e : sv_env) (a : server * vf_io_t R) (node : vf_expired_node_t)
    : option (server * vf_io_t R) :=
  let '(w, io) := a in
  if ex_is_dead node then
    st ← vf_ss_delete (sv_sessions w) (ex_vip node);
    p ← vf_ip_pool_free (sv_ip_pool w) (ex_vip node);
    Some (with_pool p (with_sessions st w), io)
  else
    '(t, io) ← vf_io_task io;
    match t with
    | None => Some (w, io)
    | Some i =>
        r ← vf_ss_lookup_by_sid (sv_sessions w) (ex_sid node);
        match r with
        | None => Some (w, io)
        | Some l =>
            s ← ss_heap (sv_sessions w) !! l;
            '(tlen, io, ps) ← pack_task i (sv_pack w) (e_urandom e) (Some (ss_sec_ctx s)) 0 VPN_DPD_REQUEST (ex_sid node) io;
            let w := with_pack ps w in
            if 0 <? tlen then
              io ← vf_io_write io (udp_fd io) OP_UDP_SEND (base i) tlen (Some (ex_remote_addr node));
              Some (w, io)
            else Some (w, io)
        end
    end.

Definition vfast_server_maintenance (w : server) (io : vf_io_t R) (e : sv_env) : option (server * vf_io_t R) :=
  nodes ← vf_ss_get_expired (sv_sessions w) 64 15 30 (e_time e);
  foldM (maintain_node e) (w, io) nodes.

(** The guard is [!!arg], so the body, which dereferences [arg], runs on NULL
    only. *)
Definition vfast_path_mtu_updated {A} (new_mtu : Z) (arg : option A) : option (option A) :=
  match arg with
  | Some io => Some (Some io)
  | None => None
  end.
End server.

Arguments server : clear implicits.
Arguments handler : clear implicits.

(** * The server's invariant *)

Definition session_ok (s : vf_session_t) : Prop :=
  sec_ok (ss_sec_ctx s) /\ word_ok 32 (ss_sid s).

(** Every session's address is out of the pool. *)
Definition leased (p : vpn_ip_pool_t) (m : gmap Z vf_session_t) : Prop :=
  exists out, pool_inv p out /\ forall v, is_Some (m !! v) -> v ∈ out.

Lemma leased_mono p m m' : leased p m -> (forall v, is_Some (m' !! v) -> is_Some (m !! v)) -> leased p m'.
Proof. intros (out & Hp & Hm) Hd. exists out. split; [done|]. intros v Hv. by apply Hm, Hd. Qed.

Lemma leased_insert p m v s s' : leased p m -> m !! v = Some s -> leased p (<[v := s']> m).
Proof.
  intros Hl Hv. eapply leased_mono; [done|]. intros w [x Hx].
  destruct (decide (w = v)) as [->|]; [eauto|]. rewrite lookup_insert_ne in Hx by done. eauto.
Qed.

(** What [vf_ip_pool_alloc] hands out belongs to no session. *)
Lemma leased_alloc p m :
  leased p m ->
  exists vip p', vf_ip_pool_alloc p = Some (vip, p') /\ leased p' m /\
    (vip <> 0 -> m !! vip = None /\ forall s, leased p' (<[vip := s]> m)).
Proof.
  intros (out & Hp & Hm). destruct (pool_alloc_inv p out Hp) as (vip & p' & E & _ & _ & Hi & _ & Hv).
  exists vip, p'. split; [done|]. case_decide as Hz.
  - split; [by exists out|done].
  - split; [exists ({[vip]} ∪ out); split; [done|]; intros v Hs; apply Hm in Hs; set_solver|]. intros _.
    destruct (Hv Hz) as [Hni _]. split.
    + apply eq_None_not_Some. intros Hs. by apply Hni, Hm.
    + intros s. exists ({[vip]} ∪ out). split; [done|]. intros v Hs. destruct (decide (v = vip)) as [->|]; [set_solver|].
      rewrite lookup_insert_ne in Hs by done. apply Hm in Hs. set_solver.
Qed.

Lemma leased_free p m v :
  leased p m -> is_Some (m !! v) -> exists p', vf_ip_pool_free p v = Some p' /\ leased p' (delete v m).
Proof.
  intros (out & Hp & Hm) Hv. destruct (pool_free_inv p out v Hp (Hm v Hv)) as (p' & E & Hp' & _).
  exists p'. split; [done|]. exists (out ∖ {[v]}). split; [done|]. intros u [x Hx].
  apply lookup_delete_Some in Hx as [Hne Hx]. apply elem_of_difference. split; [apply Hm; eauto|]. set_solver.
Qed.

Section server_proofs.
Context {R : Type} `{HR : IoUring R, HRL : !IoUringLaws R}.
Context {T : Type} `{HT : HashTable Z T, HTL : !HashTableLaws Z T}.
Context {U : Type} `{HU : HashTable (list Z) U}.
Variable hmac_sha256 : list Z -> list Z -> list Z.
Variable rc_auth : list Z -> list Z -> rc_result.
(** A SHA-256 code has thirty-two bytes. *)
Hypothesis hmac_ok : forall k m, length (hmac_sha256 k m) = 32%nat /\ bytes_ok (hmac_sha256 k m).

Implicit Types (w : server T U) (io : vf_io_t R).

(** The sessions are well-formed and model the map [m]. *)
Record sv_ok w (m : gmap Z vf_session_t) : Prop := {
  so_wf : ss_wf (sv_sessions w);
  so_models : ss_models (sv_sessions w) m;
  so_sess : forall v s, m !! v = Some s -> session_ok s;
  so_leased : leased (sv_ip_pool w) m;
  so_rh : um_rh (sv_users w) = RhLive;
  so_key : (16 <= length (master_key w))%nat;
  so_pack : pack_state_ok (sv_pack w)
}.

(** The random sources answer within their types, and the key generation is
    not blocked. *)
Record env_ok (e : sv_env) : Prop := {
  eo_urandom : urandom_ok (e_urandom e);
  eo_calls : calls_ok (e_getrandom e);
  eo_key : is_Some (vfast_crypto_fill_random (e_getrandom e) REKEY_KEY_SIZE);
  eo_sid : match e_sid_rnd e with Some r => word_ok 32 r | None => True end;
  eo_token : (length (le_urandom (e_login e)) <= VF_TOKEN_LEN)%nat /\ bytes_ok (le_urandom (e_login e))
}.

Lemma env_rekey_init e sid :
  env_ok e -> word_ok 32 sid ->
  exists sec, vf_rekey_init (se_getrandom (ss_env_of e)) (se_now (ss_env_of e)) sid = Some sec /\ sec_ok sec.
Proof.
  intros He Hs. destruct (eo_key _ He) as [[rc bs] E].
  assert (exists sec, vf_rekey_init (e_getrandom e) (e_time e) sid = Some sec) as [sec Es].
  { unfold vf_rekey_init. rewrite E. cbn [mbind option_bind]. eauto. }
  exists sec. split; [done|]. eapply vf_rekey_init_ok; [apply He|done|exact Es].
Qed.

(** Changes of the fields that the invariant does not mention, or mentions
    alone. *)
Lemma sv_ok_stats w m a b c : sv_ok w m -> sv_ok (add_stats a b c w) m.
Proof. by intros []. Qed.
Lemma sv_ok_count w m a b c : sv_ok w m -> sv_ok (count_pkt a b c w) m.
Proof. by intros []. Qed.
Lemma sv_ok_pack w m ps : sv_ok w m -> pack_state_ok ps -> sv_ok (with_pack ps w) m.
Proof. by intros []. Qed.
Lemma sv_ok_pool w m p : sv_ok w m -> leased p m -> sv_ok (with_pool p w) m.
Proof. by intros []. Qed.
Lemma sv_ok_users w m u : sv_ok w m -> um_rh u = RhLive -> sv_ok (with_users u w) m.
Proof. by intros []. Qed.

Lemma sv_ok_sessions w m st m' :
  sv_ok w m -> ss_wf st -> ss_models st m' -> (forall v s, m' !! v = Some s -> session_ok s) ->
  leased (sv_ip_pool w) m' ->
  sv_ok (with_sessions st w) m'.
Proof. by intros []. Qed.

Lemma so_heap w m l s :
  sv_ok w m -> ss_heap (sv_sessions w) !! l = Some s -> m !! ss_vip s = Some s /\ session_ok s.
Proof.
  intros Hw Hl. assert (m !! ss_vip s = Some s) as Hm by (eapply ss_models_lookup; [apply Hw|done]).
  split; [done|]. by eapply (so_sess _ _ Hw).
Qed.

(** Entering or refreshing a session. *)
Lemma sv_ok_update w m v sid a e :
  sv_ok w m -> env_ok e -> vpn_get_shard_idx sid = vpn_get_shard_idx v -> word_ok 32 sid ->
  (forall s, leased (sv_ip_pool w) (<[v := s]> m)) ->
  exists st sec, vf_ss_update (sv_sessions w) v sid (Some a) (ss_env_of e) = Some st /\ ss_wf st /\ sec_ok sec /\
    vf_rekey_init (e_getrandom e) (e_time e) sid = Some sec /\
    ss_models st (spec_update m v sid a (ss_env_of e) sec) /\
    sv_ok (with_sessions st w) (spec_update m v sid a (ss_env_of e) sec).
Proof.
  intros Hw He Hal Hsid Hlease. destruct (env_rekey_init e sid He Hsid) as (sec & Es & Hsec).
  destruct (vf_ss_update_refines (sv_sessions w) m v sid a (ss_env_of e) sec (so_wf _ _ Hw) (so_models _ _ Hw) Hal Es)
    as (st & E & Hwf & Hm).
  exists st, sec. do 5 (split; [done|]). eapply sv_ok_sessions; [done..| |apply Hlease].
  intros v' s. unfold spec_update. intros [[<- <-]|[_ Hs]]%lookup_insert_Some; [|by eapply (so_sess _ _ Hw)].
  destruct (m !! v) as [s|] eqn:Ev; [|done].
  destruct (so_sess _ _ Hw v s Ev) as [? ?]. split; [done|done].
Qed.

(** Changing the security context of a session. *)
Lemma sv_ok_with_sec w m l s f :
  sv_ok w m -> ss_heap (sv_sessions w) !! l = Some s -> sec_ok (f (ss_sec_ctx s)) ->
  exists w', with_sec l f w = Some w' /\ sv_ok w' (<[ss_vip s := set_sec_ctx (f (ss_sec_ctx s)) s]> m) /\
    ss_heap (sv_sessions w') !! l = Some (set_sec_ctx (f (ss_sec_ctx s)) s).
Proof.
  intros Hw Hl Hf. unfold with_sec. rewrite Hl. cbn [mbind option_bind]. eexists. split; [done|].
  split; [|by apply lookup_insert_eq].
  eapply sv_ok_sessions; [done| | | |eapply leased_insert; [apply Hw|by apply (so_heap w m l s Hw Hl)]].
  - by eapply (ss_wf_touch (sv_sessions w) l s); [apply Hw|..].
  - by eapply (ss_models_touch (sv_sessions w) m l s); [apply Hw|apply Hw|..].
  - intros v' s'. intros [[<- <-]|[_ Hs]]%lookup_insert_Some; [|by eapply (so_sess _ _ Hw)].
    split; [done|]. by apply (so_heap w m l s Hw Hl).
Qed.

Lemma generate_cookie_ok w m src :
  sv_ok w m ->
  exists c, vfast_generate_cookie hmac_sha256 src (master_key w) = Some c /\ length c = 16%nat /\ bytes_ok c.
Proof.
  intros Hw. pose proof (so_key _ _ Hw). unfold vfast_generate_cookie.
  rewrite (get_bytes_Some 0 16 (master_key w)) by lia. cbn [mbind option_bind].
  set (k := take 16 _). set (msg := _ ++ _ ++ _). destruct (hmac_ok k msg) as [Hl Hb].
  rewrite get_bytes_Some by lia. eexists. split; [done|]. rewrite length_take, length_drop, Hl. split; [done|].
  auto using bytes_ok_take, bytes_ok_drop.
Qed.

(** ** Ownership of the packet's task *)

(** A handler returned: with [true] it handed the task to the kernel. *)
Definition handled (r : handler R T U) io i held (Q : bool -> server T U -> vf_io_t R -> Prop) : Prop :=
  exists u w' io', r = Some (u, w', io') /\ Q u w' io' /\ pool_idx io' = pool_idx io /\ same_io io io' /\
    io_inv io' (if u : bool then held else i :: held) /\
    (forall j, j ∈ held -> task_pool io' !! j = task_pool io !! j).

Lemma handled_false w io i held (Q : bool -> server T U -> vf_io_t R -> Prop) :
  io_inv io (i :: held) -> Q false w io -> handled (Some (false, w, io)) io i held Q.
Proof. intros Hi HQ. exists false, w, io. done. Qed.

(** The common tail of the handlers: pack the reply and send it. *)
Lemma pack_and_send w m io0 io i held ps u sec plen type sid src payload
    (Q : bool -> server T U -> vf_io_t R -> Prop) fin alt :
  (io_inv io (i :: held) /\ same_io io0 io /\ pool_idx io = pool_idx io0 /\ ring io = ring io0 /\
   forall j, j ∈ held -> task_pool io !! j = task_pool io0 !! j) ->
  sv_ok w m -> ps = sv_pack w -> urandom_ok u -> match sec with Some s => sec_ok s | None => True end ->
  word_ok 32 sid -> word_ok 8 type -> 0 <= plen <= 1957 ->
  (b ← task_buf i io; get_bytes HLEN (Z.to_nat plen) b) = Some payload ->
  fin = submit \/ fin = id ->
  (forall ps' io', pack_state_ok ps' -> replied io0 io' i src sec type sid payload -> Q true (with_pack ps' w) io') ->
  handled ('(tlen, io, ps) ← pack_task i ps u sec plen type sid io;
           let w := with_pack ps w in
           if tlen <? 0 then alt w io else
           io ← vf_io_write io (udp_fd io) OP_UDP_SEND (base i) tlen (Some src);
           Some (true, w, fin io)) io0 i held Q.
Proof.
  intros (Hi & Hs & Hx & Hr & Hf) Hw -> Hu Hsec Hsid Hty Hplen Hp Hfin HQ.
  destruct (pack_task_delivers io (i :: held) i (sv_pack w) u sec plen type sid payload Hi)
    as (n & io1 & ps' & b & -> & Hn & Hps' & Hi1 & Hs1 & Hx1 & Hr1 & Hf1 & Eb & Hd);
    [left|apply Hw|done|done|done|done|done|done|].
  cbn [mbind option_bind]. destruct (Z.ltb_spec n 0); [lia|].
  destruct (vf_io_write_inv io1 held i (udp_fd io1) OP_UDP_SEND n (Some src) Hi1)
    as (io2 & E2 & Hi2 & Hs2 & Hx2 & Hf2); [by left|].
  unfold base. rewrite E2. cbn [mbind option_bind].
  assert (io_inv (fin io2) held /\ same_io io2 (fin io2) /\ pool_idx (fin io2) = pool_idx io2 /\
    task_pool (fin io2) = task_pool io2) as (Hi3 & Hs3 & Hx3 & Hp3).
  { destruct Hfin as [-> | ->]; (split; [|done]); [by apply submit_inv|done]. }
  exists true, (with_pack ps' w), (fin io2). split; [done|]. split; [apply HQ; [done|]|].
  { assert (replied io0 io2 i src sec type sid payload) as Hrep by (eapply (write_replied io0 io1); [congruence|exact E2|exact Eb|lia|done]).
    destruct Hfin as [-> | ->]; [by apply replied_submit|done]. }
  split; [congruence|]. split.
  - transitivity io; [done|]. transitivity io1; [done|]. by transitivity io2.
  - split; [done|]. intros j Hj. pose proof (held_ne io i held j Hi Hj).
    rewrite Hp3, Hf2, Hf1 by done. by apply Hf.
Qed.

(** The payload of the HELLO response. *)
Definition hello_payload (now_ms : Z) (cookie : list Z) : list Z :=
  le_bytes 8 (htonll now_ms) ++ le_bytes 4 (htonl VF_S_OK) ++ le_bytes 4 (htonl VF_DEFAULT_CAPS) ++ cookie.

Lemma hello_response_ok now_ms c b :
  length b = 2048%nat -> bytes_ok b -> length c = 16%nat -> bytes_ok c ->
  exists b', hello_response now_ms c b = Some b' /\ length b' = 2048%nat /\ bytes_ok b' /\
    get_bytes HLEN (Z.to_nat HELLO_RESP_SIZE) b' = Some (hello_payload now_ms c).
Proof.
  intros Hl Hb Hcl Hcb. unfold hello_response.
  destruct (put_ok HLEN (replicate (Z.to_nat HELLO_RESP_SIZE) 0) b Hl Hb) as (b1 & -> & Hl1 & Hb1);
    [apply bytes_ok_replicate; unfold byte_ok; lia|rewrite length_replicate; unfold HLEN, HELLO_RESP_SIZE; lia|].
  cbn [mbind option_bind].
  destruct (put_le_fits HELLO_RESP_SERVER_TS 8 (htonll now_ms) b1 Hl1 Hb1) as (b2 & E2 & Hl2 & Hb2);
    [unfold HELLO_RESP_SERVER_TS, HLEN; lia|]. rewrite E2. cbn [mbind option_bind].
  destruct (put_le_fits HELLO_RESP_CAPS 4 (htonl VF_DEFAULT_CAPS) b2 Hl2 Hb2) as (b3 & E3 & Hl3 & Hb3);
    [unfold HELLO_RESP_CAPS, HLEN; lia|]. rewrite E3. cbn [mbind option_bind].
  destruct (put_le_fits HELLO_RESP_STATUS 4 (htonl VF_S_OK) b3 Hl3 Hb3) as (b4 & E4 & Hl4 & Hb4);
    [unfold HELLO_RESP_STATUS, HLEN; lia|]. rewrite E4. cbn [mbind option_bind].
  destruct (put_ok HELLO_RESP_COOKIE c b4 Hl4 Hb4 Hcb) as (b5 & E5 & Hl5 & Hb5);
    [rewrite Hcl; unfold HELLO_RESP_COOKIE, HLEN; lia|].
  exists b5. split; [done|]. split; [done|]. split; [done|].
  apply (get_bytes_app HLEN 8 24); [by frame_bytes|].
  apply (get_bytes_app (HLEN + 8) 4 20); [by frame_bytes|].
  apply (get_bytes_app (HLEN + 8 + 4) 4 16); [by frame_bytes|].
  apply get_put_same in E5. by rewrite Hcl in E5.
Qed.

(** HELLO keeps no state: of the world only the sender's padding and nonce
    state changes, and the reply carries the cookie of the address. *)
Definition hello_outcome w io i (plen : Z) (src : sockaddr_in) (e : sv_env) (u : bool) (w' : server T U) io' : Prop :=
  (exists ps, pack_state_ok ps /\ w' = with_pack ps w) /\
  if decide (HELLO_REQ_SIZE <= plen) then
    u = true /\ exists c, vfast_generate_cookie hmac_sha256 src (master_key w) = Some c /\
      replied io io' i src None VPN_MSG_HELLO 0 (hello_payload (e_now_ms e) c)
  else u = false.

Lemma vfast_handle_hello_inv w m io i held plen src e :
  sv_ok w m -> env_ok e -> io_inv io (i :: held) ->
  handled (vfast_handle_hello hmac_sha256 w io i plen src e) io i held (hello_outcome w io i plen src e).
Proof.
  intros Hw He Hi. unfold vfast_handle_hello, hello_outcome. destruct (Z.ltb_spec plen HELLO_REQ_SIZE).
  { apply handled_false; [done|]. split; [|by rewrite decide_False by lia].
    exists (sv_pack w). split; [apply Hw|by destruct w]. }
  destruct (task_buf_held io _ i Hi) as (b & Eb & Hl & Hb); [left|]. rewrite Eb. cbn [mbind option_bind].
  destruct (generate_cookie_ok w m src Hw) as (c & Ec & Hcl & Hcb). rewrite Ec. cbn [mbind option_bind].
  destruct (hello_response_ok (e_now_ms e) c b Hl Hb Hcl Hcb) as (b1 & -> & Hl1 & Hb1 & Hp). cbn [mbind option_bind].
  destruct (fill_step io i held b1 Hi Hl1 Hb1) as (io1 & -> & Eb1 & Hst). cbn [mbind option_bind].
  eapply (pack_and_send w m io io1) with (fin := submit)
    (payload := hello_payload (e_now_ms e) c) (alt := fun w io => Some (false, w, io));
    [done|exact Hw|done|apply He|done|by apply word_ok_0|done|unfold HELLO_RESP_SIZE; lia|by rewrite Eb1|by left|].
  intros ps' io' Hps' Hr. split; [by exists ps'|]. rewrite decide_True by done. split; [done|]. by exists c.
Qed.

(** ** Authentication *)

Definition auth_payload (vip : Z) (k : vfast_key_t) (tk : list Z) : list Z :=
  le_bytes 4 (htonl VF_S_OK) ++ le_bytes 4 vip ++ tk ++ le_bytes 4 (htonl (k_id k)) ++ le_bytes 4 (htonl 300) ++ k_raw k.

Lemma auth_response_ok vip k tk b :
  length b = 2048%nat -> bytes_ok b -> key_ok k -> length tk = VF_TOKEN_LEN -> bytes_ok tk ->
  exists b', auth_response vip k tk b = Some b' /\ length b' = 2048%nat /\ bytes_ok b' /\
    get_bytes HLEN (Z.to_nat AUTH_RESP_SIZE) b' = Some (auth_payload vip k tk).
Proof.
  intros Hl Hb (Lk & Ok & _) Lt Ot. unfold auth_response, REKEY_KEY_SIZE, VF_TOKEN_LEN in *.
  destruct (put_ok HLEN (replicate (Z.to_nat AUTH_RESP_SIZE) 0) b Hl Hb) as (b1 & -> & Hl1 & Hb1);
    [apply bytes_ok_replicate; unfold byte_ok; lia|rewrite length_replicate; unfold HLEN, AUTH_RESP_SIZE; lia|].
  cbn [mbind option_bind].
  destruct (put_le_fits AUTH_RESP_STATUS 4 (htonl VF_S_OK) b1 Hl1 Hb1) as (b2 & E2 & Hl2 & Hb2);
    [unfold AUTH_RESP_STATUS, HLEN; lia|]. rewrite E2. cbn [mbind option_bind].
  destruct (put_le_fits AUTH_RESP_VIP 4 vip b2 Hl2 Hb2) as (b3 & E3 & Hl3 & Hb3);
    [unfold AUTH_RESP_VIP, HLEN; lia|]. rewrite E3. cbn [mbind option_bind].
  destruct (put_le_fits AUTH_RESP_KEY_ID 4 (htonl (k_id k)) b3 Hl3 Hb3) as (b4 & E4 & Hl4 & Hb4);
    [unfold AUTH_RESP_KEY_ID, HLEN; lia|]. rewrite E4. cbn [mbind option_bind].
  destruct (put_le_fits AUTH_RESP_KEEPALIVE 4 (htonl 300) b4 Hl4 Hb4) as (b5 & E5 & Hl5 & Hb5);
    [unfold AUTH_RESP_KEEPALIVE, HLEN; lia|]. rewrite E5. cbn [mbind option_bind].
  rewrite (get_bytes_Some 0 32 (k_raw k)) by lia. rewrite drop_0, take_ge by lia. cbn [mbind option_bind].
  destruct (put_ok AUTH_RESP_INIT_KEY (k_raw k) b5 Hl5 Hb5 Ok) as (b6 & E6 & Hl6 & Hb6);
    [unfold AUTH_RESP_INIT_KEY, HLEN; lia|]. rewrite E6. cbn [mbind option_bind].
  rewrite (get_bytes_Some 0 16 tk) by lia. rewrite drop_0, take_ge by lia. cbn [mbind option_bind].
  destruct (put_ok AUTH_RESP_TOKEN tk b6 Hl6 Hb6 Ot) as (b7 & E7 & Hl7 & Hb7); [unfold AUTH_RESP_TOKEN, HLEN; lia|].
  exists b7. split; [done|]. split; [done|]. split; [done|].
  assert (forall o n, (o + n <= AUTH_RESP_TOKEN \/ AUTH_RESP_KEY_ID <= o)%nat -> get_bytes o n b7 = get_bytes o n b6) as F7.
  { intros o n [Ho|Ho]; [by eapply get_put_before|eapply get_put_after; [exact E7|]].
    unfold AUTH_RESP_TOKEN, AUTH_RESP_KEY_ID in *. lia. }
  apply (get_bytes_app HLEN 4 60); [rewrite F7 by (left; cbv; lia); by frame_bytes|].
  apply (get_bytes_app (HLEN + 4) 4 56); [rewrite F7 by (left; cbv; lia); by frame_bytes|].
  apply (get_bytes_app (HLEN + 4 + 4) 16 40); [apply get_put_same in E7; by rewrite Lt in E7|].
  apply (get_bytes_app (HLEN + 4 + 4 + 16) 4 36); [rewrite F7 by (right; cbv; lia); by frame_bytes|].
  apply (get_bytes_app (HLEN + 4 + 4 + 16 + 4) 4 32); [rewrite F7 by (right; cbv; lia); by frame_bytes|].
  rewrite F7 by (right; cbv; lia). apply get_put_same in E6. by rewrite Lk in E6.
Qed.

(** An authentication request: the echoed cookie, the server's time it was
    issued at, user name and password. *)
Record auth_fields := { af_cookie : list Z; af_ts : Z; af_user : list Z; af_pass : list Z }.

Definition has_auth_fields (b : list Z) (a : auth_fields) : Prop :=
  get_bytes AUTH_REQ_COOKIE 16 b = Some (af_cookie a) /\
  ntohll <$> get_le AUTH_REQ_TIMESTAMP 8 b = Some (af_ts a) /\
  c_prefix (drop AUTH_REQ_USERNAME b) = af_user a /\ c_prefix (drop AUTH_REQ_PASSWORD b) = af_pass a.

(** The request is answered: the cookie is that of the address it came from,
    and the times wrap as in the code. *)
Definition auth_admitted w (a : auth_fields) (src : sockaddr_in) (now_ms : Z) : Prop :=
  vfast_generate_cookie hmac_sha256 src (master_key w) = Some (af_cookie a) /\
  now_ms <= u64 (af_ts a + 300000) /\ u64 (af_ts a - 5000) <= now_ms.

(** The outcome of [vfast_handle_auth] on a complete request. *)
Definition auth_outcome w m io i (a : auth_fields) (src : sockaddr_in) (e : sv_env) (u : bool)
    (w' : server T U) io' : Prop :=
  if decide (auth_admitted w a src (e_now_ms e)) then
    exists vip pool, vf_ip_pool_alloc (sv_ip_pool w) = Some (vip, pool) /\ sv_ip_pool w' = pool /\
    if decide (vip = 0) then u = false /\ sv_sessions w' = sv_sessions w /\ sv_users w' = sv_users w
    else if decide (login_code rc_auth (af_user a) (af_pass a) (e_login e) = 0) then
      let sid := vf_ss_generate_sid vip (e_sid_rnd e) (e_rand e) in
      m !! vip = None /\
      exists sec s, u = true /\ vf_rekey_init (e_getrandom e) (e_time e) sid = Some sec /\
        sv_ok w' (spec_update m vip sid src (ss_env_of e) sec) /\
        spec_update m vip sid src (ss_env_of e) sec !! ss_vip s = Some s /\ ss_sid s = sid /\
        exists tk, length tk = VF_TOKEN_LEN /\
          replied io io' i src None VPN_MSG_AUTH_ACK sid (auth_payload vip (active_key (ss_sec_ctx s)) tk)
    else u = false /\ sv_sessions w' = sv_sessions w
  else u = false /\ w' = w.

Lemma memcmp_16 a b : length a = 16%nat -> length b = 16%nat -> memcmp_eq 16 a b = bool_decide (a = b).
Proof. intros Ha Hb. unfold memcmp_eq. by rewrite !take_ge by lia. Qed.

Lemma vfast_handle_auth_inv w m io i held plen src e b a :
  sv_ok w m -> env_ok e -> io_inv io (i :: held) -> task_buf i io = Some b -> AUTH_REQ_SIZE <= plen ->
  has_auth_fields b a -> is_Some (strlen (drop AUTH_REQ_PASSWORD b)) ->
  handled (vfast_handle_auth hmac_sha256 rc_auth w io i plen src e) io i held
    (fun u w' io' => (exists m', sv_ok w' m') /\ auth_outcome w m io i a src e u w' io').
Proof.
  intros Hw He Hi Eb Hplen (Eck & Ets & Eus & Eps) Hstr. unfold vfast_handle_auth.
  destruct (Z.ltb_spec plen AUTH_REQ_SIZE); [lia|].
  destruct (task_buf_held io _ i Hi) as (b0 & Eb0 & Hl & Hb); [left|]. rewrite Eb in Eb0. injection Eb0 as <-.
  rewrite Eb. cbn [mbind option_bind].
  destruct (generate_cookie_ok w m src Hw) as (c & Ec & Hcl & Hcb). rewrite Ec. cbn [mbind option_bind].
  rewrite Eck. cbn [mbind option_bind].
  pose proof (get_bytes_length _ _ _ _ Eck) as Lck. rewrite memcmp_16 by done.
  unfold auth_outcome, auth_admitted. rewrite Ec.
  destruct (bool_decide_reflect (af_cookie a = c)) as [->|Hne]; cbn [negb].
  2: { apply handled_false; [done|]. split; [eauto|]. rewrite decide_False; [done|]. by intros [[= ->] _]. }
  apply fmap_Some in Ets as (ts & -> & Ets). cbn [mbind option_bind]. rewrite <- Ets.
  destruct (Z.ltb_spec (u64 (af_ts a + 300000)) (e_now_ms e)) as [|H1]; cbn [orb].
  { apply handled_false; [done|]. split; [eauto|]. rewrite decide_False; [done|]. intros (_ & ? & ?). lia. }
  destruct (Z.ltb_spec (e_now_ms e) (u64 (af_ts a - 5000))) as [|H2].
  { apply handled_false; [done|]. split; [eauto|]. rewrite decide_False; [done|]. intros (_ & ? & ?). lia. }
  assert (Some c = Some c /\ e_now_ms e <= u64 (af_ts a + 300000) /\ u64 (af_ts a - 5000) <= e_now_ms e) as Hgood
    by done.
  destruct (leased_alloc (sv_ip_pool w) m (so_leased _ _ Hw)) as (vip & pool & Ea & Hpool & Hfresh).
  rewrite Ea. cbn [mbind option_bind].
  assert (sv_ok (with_pool pool w) m) as Hw1 by by apply sv_ok_pool.
  destruct (Z.eqb_spec vip 0) as [->|Hvip].
  { unfold auth_err. cbn [Z.eqb negb]. apply handled_false; [done|]. split; [eauto|].
    rewrite decide_True by done. exists 0, pool. split; [done|]. split; [done|]. by rewrite decide_True. }
  destruct (vf_user_login_total rc_auth (sv_users w) (drop AUTH_REQ_USERNAME b) (drop AUTH_REQ_PASSWORD b)
    (replicate VF_TOKEN_LEN 0) (e_login e)) as (users & tk & El & Hrh & Ltk & Otk & _); [apply Hw| |done|..].
  { eapply strlen_drop; [|exact Hstr]. unfold AUTH_REQ_USERNAME, AUTH_REQ_PASSWORD. lia. }
  { by rewrite length_replicate. }
  { apply bytes_ok_replicate. unfold byte_ok. lia. }
  { apply He. }
  { apply He. }
  cbn [sv_users with_pool]. rewrite El, Eus, Eps. cbn [mbind option_bind].
  set (code := login_code rc_auth (af_user a) (af_pass a) (e_login e)).
  assert (sv_ok (with_users users (with_pool pool w)) m) as Hw2 by by apply sv_ok_users.
  destruct (Z.eqb_spec code 0) as [Hcode|Hcode]; cbn [negb].
  2: { apply handled_false; [done|]. split; [eauto|]. rewrite decide_True by done. exists vip, pool.
       split; [done|]. split; [done|]. rewrite !decide_False by done. done. }
  set (sid := vf_ss_generate_sid vip (e_sid_rnd e) (e_rand e)).
  assert (word_ok 32 sid) as Hsid by (apply generate_sid_ok; apply He).
  destruct (Hfresh Hvip) as [Hnone Hlease].
  destruct (sv_ok_update _ m vip sid src e Hw2 He (generate_sid_aligned _ _ _) Hsid Hlease)
    as (st & sec & Eu & Hwf & Hsec & Esec & Hm & Hw3).
  cbn [sv_sessions with_users with_pool] in *. rewrite Eu. cbn [mbind option_bind].
  set (m' := spec_update m vip sid src (ss_env_of e) sec) in *.
  destruct (lookup_by_sid_wf st sid Hwf) as (r & Er & Hr). rewrite Er. cbn [mbind option_bind].
  assert (exists l s, r = Some l /\ ss_heap st !! l = Some s /\ ss_sid s = sid) as (l & s & -> & Hl1 & Hsid1).
  { destruct r as [l|].
    - destruct Hr as (s & ? & ?). eauto.
    - exfalso. assert (exists s, m' !! vip = Some s /\ ss_sid s = sid) as (s & Hs & Hss).
      { unfold m', spec_update. rewrite lookup_insert_eq. destruct (m !! vip); eauto. }
      apply Hm in Hs as (l & Hl' & _). by apply (Hr l s). }
  rewrite Hl1. cbn [mbind option_bind].
  destruct (so_heap (with_sessions st (with_users users (with_pool pool w))) m' l s Hw3 Hl1) as [Hms [Hss _]].
  destruct (auth_response_ok vip (active_key (ss_sec_ctx s)) tk b) as (b' & -> & Hl' & Hb' & Hp');
    [done|done|apply Hss|done|done|].
  cbn [mbind option_bind].
  destruct (fill_step io i held b' Hi Hl' Hb') as (io1 & -> & Eb1 & Hst). cbn [mbind option_bind].
  eapply (pack_and_send (with_sessions st (with_users users (with_pool pool w))) m' io io1) with (fin := submit)
    (payload := auth_payload vip (active_key (ss_sec_ctx s)) tk) (alt := fun w io => auth_err w vip io);
    [done|exact Hw3|done|apply He|done|done|done|unfold AUTH_RESP_SIZE; lia|by rewrite Eb1|by left|].
  intros ps' io' Hps' Hr'. split; [exists m'; by apply sv_ok_pack|].
  rewrite decide_True by done. exists vip, pool. split; [done|]. split; [done|].
  rewrite decide_False, decide_True by done. split; [done|]. exists sec, s. split; [done|]. split; [done|].
  split; [by apply sv_ok_pack|]. split; [done|]. split; [done|]. by exists tk.
Qed.

(** ** Keep-alive, liveness and re-keying *)

Lemma heap_ok w m l :
  sv_ok w m -> is_Some (ss_heap (sv_sessions w) !! l) ->
  exists s, ss_heap (sv_sessions w) !! l = Some s /\ m !! ss_vip s = Some s /\ session_ok s /\
    vpn_get_shard_idx (ss_sid s) = vpn_get_shard_idx (ss_vip s).
Proof.
  intros Hw [s Hl]. exists s. destruct (so_heap w m l s Hw Hl). split; [done|]. split; [done|]. split; [done|].
  by eapply (sw_align _ (so_wf _ _ Hw)).
Qed.

(** A keep-alive moves its session to the address it came from and is echoed. *)
Definition echo_outcome w m io i (s : option positive) (sid plen : Z) (src : sockaddr_in) (e : sv_env) (u : bool)
    (w' : server T U) io' : Prop :=
  match s with
  | Some l => if decide (ECHO_SIZE <= plen) then
      exists x, ss_heap (sv_sessions w) !! l = Some x /\ u = true /\
        sv_ok w' (<[ss_vip x := set_seen src (e_time e) x]> m) /\
        exists pl, (b ← task_buf i io; get_bytes HLEN (Z.to_nat ECHO_SIZE) b) = Some pl /\
          replied io io' i src None VPN_MSG_KEEPALIVE sid pl
      else u = false /\ w' = w
  | None => u = false /\ w' = w
  end.

Lemma set_sid_id s : set_sid (ss_sid s) s = s.
Proof. by destruct s. Qed.

Lemma vfast_handle_echo_inv w m io i held s sid plen src e :
  sv_ok w m -> env_ok e -> io_inv io (i :: held) -> word_ok 32 sid ->
  match s with Some l => is_Some (ss_heap (sv_sessions w) !! l) | None => True end ->
  handled (vfast_handle_echo w io s sid i plen src e) io i held
    (fun u w' io' => (exists m', sv_ok w' m') /\ echo_outcome w m io i s sid plen src e u w' io').
Proof.
  intros Hw He Hi Hsid Hs. unfold vfast_handle_echo, echo_outcome. destruct (Z.ltb_spec plen ECHO_SIZE).
  { apply handled_false; [done|]. split; [by eauto|]. destruct s; [|done]. rewrite decide_False by lia. done. }
  destruct s as [l|]; [|apply handled_false; [done|]; by eauto].
  destruct (heap_ok w m l Hw Hs) as (x & Hl & Hm & [Hsec Hxs] & Hal). rewrite Hl. cbn [mbind option_bind].
  destruct (sv_ok_update w m (ss_vip x) (ss_sid x) src e Hw He Hal Hxs
      (fun s => leased_insert _ _ _ _ s (so_leased _ _ Hw) Hm))
    as (st & sec & Eu & _ & _ & _ & _ & Hw'). rewrite Eu. cbn [mbind option_bind].
  assert (spec_update m (ss_vip x) (ss_sid x) src (ss_env_of e) sec = <[ss_vip x := set_seen src (e_time e) x]> m) as Em.
  { unfold spec_update. rewrite Hm. cbn [se_now ss_env_of]. by rewrite set_sid_id. }
  rewrite Em in Hw'.
  destruct (task_payload io (i :: held) i ECHO_SIZE Hi) as [pl Hpl]; [left|unfold ECHO_SIZE; lia|].
  eapply (pack_and_send (with_sessions st w) _ io io) with (fin := id) (payload := pl)
    (alt := fun w io => Some (false, w, io));
    [by split_and!|exact Hw'|done|apply He|done|done|done|unfold ECHO_SIZE; lia|exact Hpl|by right|].
  intros ps' io' Hps' Hr. assert (sv_ok (with_pack ps' (with_sessions st w)) (<[ss_vip x := set_seen src (e_time e) x]> m))
    by by apply sv_ok_pack.
  split; [by eauto|]. rewrite decide_True by done. exists x. split; [done|]. split; [done|]. split; [done|]. by exists pl.
Qed.

Lemma vfast_handle_rekey_ack_ok w m l :
  sv_ok w m -> is_Some (ss_heap (sv_sessions w) !! l) ->
  exists w', vfast_handle_rekey_ack w (Some l) = Some w' /\ (exists m', sv_ok w' m').
Proof.
  intros Hw Hl. destruct (heap_ok w m l Hw Hl) as (x & Ex & _ & [Hsec _] & _).
  unfold vfast_handle_rekey_ack. cbn [mbind option_bind]. rewrite Ex. cbn [mbind option_bind].
  destruct (rekey_pending _); [|by eauto].
  destruct (sv_ok_with_sec w m l x vf_rekey_commit Hw Ex) as (w' & -> & Hw' & _); [by apply vf_rekey_commit_ok|].
  eauto.
Qed.

Lemma update_by_sid_ok w m sid src now :
  sv_ok w m ->
  exists st, vf_ss_update_by_sid (sv_sessions w) sid (Some src) now = Some st /\
    exists m', sv_ok (with_sessions st w) m'.
Proof.
  intros Hw. destruct (vf_ss_update_by_sid_refines (sv_sessions w) m sid src now (so_wf _ _ Hw) (so_models _ _ Hw))
    as (st & E & Hwf & Hm). exists st. split; [done|].
  destruct Hm as [[_ Hm]|(v & s & Hv & _ & Hm)].
  - exists m. eapply sv_ok_sessions; [done..| |apply Hw]. intros v s. by eapply (so_sess _ _ Hw).
  - exists (<[v:=set_seen src now s]> m). eapply sv_ok_sessions; [done..| |by eapply leased_insert; [apply Hw|]].
    intros v' s'. intros [[<- <-]|[_ Hs]]%lookup_insert_Some; [|by eapply (so_sess _ _ Hw)].
    by apply (so_sess _ _ Hw v s Hv).
Qed.
End server_proofs.
