(* ===== verification/ServerDemo.v ===== *)
(** A concrete server for the theorems about it: list tables, a list ring,
    one session, and received packets made by [vf_pack]. *)
From S2P Require Import Prelude Crypto Key Protocol IpPool HashTable Libc Session User Io Payload Receive Fsm Stats Server.

Definition demo_hmac (k m : list Z) : list Z := (fun x => x mod 256) <$> take 32 (m ++ replicate 32 7).

Lemma demo_hmac_ok k m : length (demo_hmac k m) = 32%nat /\ bytes_ok (demo_hmac k m).
Proof.
  split.
  - unfold demo_hmac. rewrite length_fmap, length_take, length_app, length_replicate. lia.
  - apply list.Forall_forall. intros x Hx. apply list_elem_of_fmap in Hx as (y & -> & _).
    unfold byte_ok. pose proof (Z.mod_pos_bound y 256). lia.
Qed.

Definition demo_env (now_ms now : Z) : sv_env :=
  {| e_now_ms := now_ms; e_time := now; e_urandom := None; e_getrandom := [GrBytes (replicate 32 7)];
     e_sid_rnd := Some 0xDEADBEEF; e_rand := 0; e_next_seq0 := 0; e_login := demo_login (replicate 16 1) now |}.

Lemma demo_env_ok now_ms now : env_ok (demo_env now_ms now).
Proof.
  split; cbn [e_urandom e_getrandom e_sid_rnd e_login demo_env demo_login le_urandom].
  - done.
  - by_compute.
  - vm_compute. eauto.
  - by_compute.
  - by_compute.
Qed.

Definition server0 : server (list_table Z) (list_table (list Z)) :=
  {| sv_sessions := vf_ss_init ∅; sv_ip_pool := demo_pool;
     sv_users := (vf_user_init demo_init_env).1.2; master_key := replicate 32 5; sv_pack := demo_state;
     rx_pkts := 0; tx_pkts := 0; drops := 0; reass := {| rs_rx_pkts := 0; rs_tx_pkts := 0; rs_drops := 0 |} |}.

Lemma demo_pool_inv : pool_inv demo_pool ∅.
Proof.
  destruct (vf_ip_pool_init_inv (vf_ip_pool_destroy demo_pool) demo_start 4) as (p & E & Hp & _);
    [by_compute|by_compute|lia|by_compute|].
  assert (vf_ip_pool_init (vf_ip_pool_destroy demo_pool) demo_start 4 = Some (0, demo_pool)) as E' by reflexivity.
  rewrite E' in E. apply (inj Some) in E. by injection E as ->.
Qed.

Lemma server0_ok : sv_ok server0 ∅.
Proof.
  split; cbn [sv_sessions sv_ip_pool sv_users master_key sv_pack server0].
  - apply vf_ss_init_wf.
  - apply empty_models.
  - intros v s Hs. by rewrite lookup_empty in Hs.
  - exists ∅. split; [apply demo_pool_inv|]. intros v [s Hs]. by rewrite lookup_empty in Hs.
  - reflexivity.
  - cbn. lia.
  - by_compute.
Qed.

(** One session, at 10.0.0.2. *)
Definition demo_vip : Z := htonl 0x0A000002.
Definition demo_vsid : Z := vf_ss_generate_sid demo_vip (Some 0xDEADBEEF) 0.
Definition demo_sec1 : vfast_sec_ctx_t :=
  {| active_key := {| k_raw := replicate 32 7; k_id := 1; k_bytes_processed := 0; k_created_at := 100 |};
     previous_key := zero_key; next_key := zero_key; sec_sid := demo_vsid; rekey_pending := false |}.
Definition demo_session : vf_session_t :=
  {| ss_sid := demo_vsid; ss_vip := demo_vip; ss_remote_addr := demo_addr; ss_next_seq := 0;
     ss_sec_ctx := demo_sec1; ss_last_seen := 100 |}.

Definition server1 : server (list_table Z) (list_table (list Z)) :=
  let pool := match vf_ip_pool_alloc demo_pool with Some (_, p) => p | None => demo_pool end in
  let st := match vf_ss_update (vf_ss_init ∅) demo_vip demo_vsid (Some demo_addr) (ss_env_of (demo_env 0 100)) with
            | Some st => st | None => vf_ss_init ∅ end in
  with_sessions st (with_pool pool server0).

Definition demo_map : gmap Z vf_session_t := <[demo_vip := demo_session]> ∅.

Lemma server1_ok : sv_ok server1 demo_map.
Proof.
  destruct (leased_alloc demo_pool ∅ (so_leased _ _ server0_ok)) as (vip & p & E & Hl & Hf).
  assert (fst <$> vf_ip_pool_alloc demo_pool = Some demo_vip) as Ev by (vm_compute; reflexivity).
  rewrite E in Ev. apply (inj Some) in Ev. cbn in Ev. subst vip.
  destruct (Hf ltac:(by_compute)) as [_ Hf'].
  pose proof (sv_ok_pool _ _ _ server0_ok Hl) as Hw.
  destruct (sv_ok_update (with_pool p server0) ∅ demo_vip demo_vsid demo_addr (demo_env 0 100) Hw (demo_env_ok _ _)
    (generate_sid_aligned _ _ _)) as (st & sec & Eu & _ & _ & Es & _ & Hw'); [by_compute|exact Hf'|].
  assert (vf_rekey_init (e_getrandom (demo_env 0 100)) (e_time (demo_env 0 100)) demo_vsid = Some demo_sec1) as Es'
    by (vm_compute; reflexivity).
  rewrite Es in Es'. apply (inj Some) in Es'. subst sec.
  unfold server1. rewrite E. cbn [sv_sessions with_pool server0] in Eu. rewrite Eu. exact Hw'.
Qed.

(** ** Received packets *)

(** The bytes and the length [vf_pack] makes. *)
Definition demo_pack (sec : option vfast_sec_ctx_t) (type sid : Z) (payload : list Z) : Z * list Z :=
  match vf_pack demo_state None sec (replicate 20 0 ++ payload ++ replicate (2028 - length payload) 0)
          (Z.of_nat (length payload)) BUF_SIZE type sid with
  | Some (n, b, _) => (n, b)
  | None => (0, [])
  end.

Lemma demo_pack_delivers sec sec' type sid payload :
  match sec with Some s => sec_ok s | None => True end -> word_ok 32 sid -> word_ok 8 type -> bytes_ok payload ->
  (length payload <= 1957)%nat -> accepts sec sec' type ->
  delivers (demo_pack sec type sid payload).2 (demo_pack sec type sid payload).1 sec' type sid payload /\
  length (demo_pack sec type sid payload).2 = 2048%nat /\ bytes_ok (demo_pack sec type sid payload).2.
Proof.
  intros Hs Hsid Hty Hb Hl Hacc. unfold demo_pack.
  set (buf := replicate 20 0 ++ payload ++ replicate (2028 - length payload) 0).
  assert (length buf = 2048%nat) as Lb by (unfold buf; rewrite !length_app, !length_replicate; lia).
  assert (bytes_ok buf) as Ob.
  { unfold buf. repeat apply bytes_ok_app; try done; apply bytes_ok_replicate; unfold byte_ok; lia. }
  destruct (vf_pack_delivers demo_state None sec buf (Z.of_nat (length payload)) type sid payload)
    as (n & b & st' & -> & _ & _ & Ob' & Lb' & Hd); try done; [by_compute|lia| |].
  { rewrite get_bytes_Some by (unfold HLEN; lia). unfold buf. rewrite drop_app_length' by by rewrite length_replicate.
    rewrite Nat2Z.id. by rewrite take_app_length. }
  split; [by apply Hd|done].
Qed.

(** ** An engine that received a packet *)

Definition demo_rx (b : list Z) : vf_io_t list_ring :=
  set_pool (<[0%nat := set_addr demo_addr (set_buf b (set_op 0 (set_in_use true zero_task)))]> (task_pool (demo_io 4)))
    (set_idx 1 (demo_io 4)).

Lemma demo_rx_inv b : length b = 2048%nat -> bytes_ok b -> io_inv (demo_rx b) [0%nat].
Proof.
  intros Hl Hb. destruct (get_task_inv (demo_io 4) [] 0 (demo_io_inv 4 ltac:(lia))) as (r & io' & E & _ & _ & Hr).
  { split; by vm_compute. }
  set (t0 := set_op 0 (set_in_use true zero_task)).
  assert (get_task_from_instance (demo_io 4) =
    Some (Some 0%nat, set_pool (<[0%nat := t0]> (task_pool (demo_io 4))) (set_idx 1 (demo_io 4)))) as E' by (vm_compute; reflexivity).
  rewrite E in E'. apply (inj Some) in E'. apply pair_equal_spec in E' as [-> ->]. destruct Hr as (Hi & _).
  pose proof (io_inv_alter _ [0%nat] 0 t0 (set_addr demo_addr (set_buf b t0)) Hi ltac:(left)) as Ha.
  cbn [set_pool task_pool] in Ha. rewrite list_lookup_insert_eq in Ha by (vm_compute; lia).
  rewrite list_insert_insert_eq in Ha. apply Ha; [done|done|]. by split.
Qed.

Lemma demo_rx_task b :
  task_pool (demo_rx b) !! 0%nat = Some (set_addr demo_addr (set_buf b (set_op 0 (set_in_use true zero_task)))).
Proof. unfold demo_rx. cbn [set_pool task_pool]. apply list_lookup_insert_eq. vm_compute. lia. Qed.

(** ** The session's packets *)

Lemma server1_session :
  vf_ss_lookup_by_sid (sv_sessions server1) demo_vsid = Some (Some 1%positive) /\
  ss_heap (sv_sessions server1) !! 1%positive = Some demo_session.
Proof. split; vm_compute; reflexivity. Qed.

Lemma demo_sealed type payload :
  word_ok 8 type -> pack_plain_type type = false -> bytes_ok payload -> (length payload <= 1957)%nat ->
  exists n b, delivers b n (Some demo_sec1) type demo_vsid payload /\ length b = 2048%nat /\ bytes_ok b /\
    agree (Z.to_nat n) b b.
Proof.
  intros Hty Hp Hb Hl. exists (demo_pack (Some demo_sec1) type demo_vsid payload).1, (demo_pack (Some demo_sec1) type demo_vsid payload).2.
  destruct (demo_pack_delivers (Some demo_sec1) (Some demo_sec1) type demo_vsid payload) as (Hd & Hl' & Hb');
    [by_compute|by_compute|done|done|done| |].
  { right. exists demo_sec1, demo_sec1. split; [done|]. split; [done|]. split; [done|]. by vm_compute. }
  split; [done|]. split; [done|]. split; [done|]. destruct Hd as [Hn _]. unfold BUF_SIZE in Hn. split; [lia|]. split; [lia|done].
Qed.
