(* ===== verification/ServerRx.v ===== *)
(** The server's receive path (src/src/vfast_server.c, [server_on_udp]):
    what a packet from the network does to the server and to the task it lies
    in. *)
From S2P Require Import Prelude Crypto Key Protocol IpPool HashTable Libc Session User Io Payload Receive Stats Server ServerDemo.

Section server_rx.
Context {R : Type} `{HR : IoUring R, HRL : !IoUringLaws R}.
Context {T : Type} `{HT : HashTable Z T, HTL : !HashTableLaws Z T}.
Context {U : Type} `{HU : HashTable (list Z) U}.
Variable hmac_sha256 : list Z -> list Z -> list Z.
Variable rc_auth : list Z -> list Z -> rc_result.
Hypothesis hmac_ok : forall k m, length (hmac_sha256 k m) = 32%nat /\ bytes_ok (hmac_sha256 k m).

Implicit Types (w : server T U) (io : vf_io_t R).

(** The packets whose handlers give the task to the kernel at most once, and
    report it: data and key requests are among them where they are not
    accepted.  An authentication request must hold a terminated password. *)
Definition well_owned (b : list Z) (len : Z) : Prop :=
  match udp_type b len, udp_sid b len with
  | Some ty, Some sid => (ty = VPN_MSG_DATA \/ ty = VPN_MSG_REKEY_REQ -> never_accepted ty sid len) /\
      (ty = VPN_MSG_AUTH_REQ -> len < VPN_TNL_HLEN + AUTH_REQ_SIZE \/ is_Some (strlen (drop AUTH_REQ_PASSWORD b)))
  | _, _ => True
  end.

Lemma handled_mono (r : handler R T U) io i held (Q Q' : bool -> server T U -> vf_io_t R -> Prop) :
  (forall u w io, Q u w io -> Q' u w io) -> handled r io i held Q -> handled r io i held Q'.
Proof. intros HQ (u & w & io' & E & H & Hr). exists u, w, io'. split; [done|]. split; [by apply HQ|done]. Qed.

Lemma vfast_handle_auth_short w io i plen src e :
  plen < AUTH_REQ_SIZE -> vfast_handle_auth hmac_sha256 rc_auth w io i plen src e = Some (false, w, io).
Proof. intros Hp. unfold vfast_handle_auth. by destruct (Z.ltb_spec plen AUTH_REQ_SIZE); [|lia]. Qed.

Lemma has_auth_fields_ex io held i b :
  io_inv io held -> i ∈ held -> task_buf i io = Some b -> exists a, has_auth_fields b a.
Proof.
  intros Hi Hin Eb. destruct (task_buf_held io _ i Hi Hin) as (b0 & Eb0 & Hl & _). rewrite Eb in Eb0.
  apply (inj Some) in Eb0. subst b0.
  destruct (get_le_Some AUTH_REQ_TIMESTAMP 8 b) as [ts Ets]; [unfold AUTH_REQ_TIMESTAMP, HLEN; lia|].
  exists {| af_cookie := take 16 (drop AUTH_REQ_COOKIE b); af_ts := ntohll ts;
            af_user := c_prefix (drop AUTH_REQ_USERNAME b); af_pass := c_prefix (drop AUTH_REQ_PASSWORD b) |}.
  split; [|by rewrite Ets]. apply get_bytes_Some. unfold AUTH_REQ_COOKIE, HLEN. lia.
Qed.

(** The dispatch keeps the invariants. *)
Lemma server_dispatch_inv w m io i held s sid ty b plen src e :
  sv_ok w m -> env_ok e -> io_inv io (i :: held) -> task_buf i io = Some b -> word_ok 32 sid ->
  match s with Some l => is_Some (ss_heap (sv_sessions w) !! l) | None => pack_plain_type ty = true end ->
  ty <> VPN_MSG_DATA -> ty <> VPN_MSG_REKEY_REQ ->
  (ty = VPN_MSG_AUTH_REQ -> plen < AUTH_REQ_SIZE \/ is_Some (strlen (drop AUTH_REQ_PASSWORD b))) ->
  handled (server_dispatch hmac_sha256 rc_auth w io s sid ty i b plen src e) io i held
    (fun _ w' _ => exists m', sv_ok w' m').
Proof.
  intros Hw He Hi Eb Hsid Hs Hd Hr Hp. unfold server_dispatch.
  destruct (Z.eqb_spec ty VPN_MSG_DATA); [done|]. destruct (Z.eqb_spec ty VPN_MSG_HELLO).
  { eapply handled_mono; [|by apply (vfast_handle_hello_inv hmac_sha256 hmac_ok w m)].
    intros u w' io' [(ps & Hps & ->) _]. exists m. by apply sv_ok_pack. }
  destruct (Z.eqb_spec ty VPN_MSG_AUTH_REQ).
  { destruct (decide (AUTH_REQ_SIZE <= plen)).
    - destruct (has_auth_fields_ex io _ i b Hi) as [a Ha]; [left|done|].
      destruct (Hp ltac:(done)) as [?|Hp']; [lia|].
      eapply handled_mono; [|by apply (vfast_handle_auth_inv hmac_sha256 rc_auth hmac_ok w m io i held plen src e b a); auto].
      by intros u w' io' [? _].
    - rewrite vfast_handle_auth_short by lia. apply handled_false; eauto. }
  destruct (Z.eqb_spec ty VPN_MSG_KEEPALIVE).
  { eapply handled_mono; [|apply (vfast_handle_echo_inv w m); [done..|by destruct s]]. by intros u w' io' [? _]. }
  destruct (Z.eqb_spec ty VPN_DPD_RESPONSE).
  { destruct (task_buf_held io _ i Hi) as (b0 & Eb0 & Hl & Hb); [left|]. rewrite Eb in Eb0. injection Eb0 as <-.
    destruct (get_le_Some H_SESSION_ID 4 b) as [sn ->]; [hlia|]. cbn [mbind option_bind].
    destruct (update_by_sid_ok w m (ntohl sn) src (e_time e) Hw) as (st & -> & Hst). cbn [mbind option_bind].
    by apply handled_false. }
  destruct (Z.eqb_spec ty VPN_MSG_REKEY_ACK) as [->|].
  { destruct s as [l|]; [|done].
    destruct (vfast_handle_rekey_ack_ok w m l Hw Hs) as (w' & -> & Hw'). cbn [mbind option_bind].
    by apply handled_false. }
  destruct (Z.eqb_spec ty VPN_MSG_REKEY_REQ); [done|]. apply handled_false; eauto.
Qed.

(** What [server_on_udp] does before the dispatch. *)
Lemma lookup_stage w m sid :
  sv_ok w m ->
  exists s w', (if negb (sid =? 0) then
       r ← vf_ss_lookup_by_sid (sv_sessions w) sid;
       Some (r, match r with Some _ => w | None => add_stats 0 0 1 w end)
     else Some (None, w)) = Some (s, w') /\ sv_ok w' m /\
    (w' = w \/ w' = add_stats 0 0 1 w) /\ (sid = 0 -> s = None) /\
    match s with
    | Some l => exists x, ss_heap (sv_sessions w') !! l = Some x /\ session_ok x /\ ss_sid x = sid
    | None => True
    end.
Proof.
  intros Hw. destruct (Z.eqb_spec sid 0) as [->|Hne]; cbn [negb]; [by exists None, w; auto|].
  destruct (lookup_by_sid_wf (sv_sessions w) sid (so_wf _ _ Hw)) as (r & -> & Hr). cbn [mbind option_bind].
  eexists _, _. split; [done|]. destruct r as [l|].
  - split; [done|]. split; [by left|]. split; [done|]. destruct Hr as (x & Hx & ?). exists x. split; [done|].
    split; [|done]. by apply (so_heap w m l x Hw Hx).
  - split; [by apply sv_ok_stats|]. split; [by right|]. by split.
Qed.

Lemma sec_stage w m s :
  sv_ok w m -> match s with Some l => is_Some (ss_heap (sv_sessions w) !! l) | None => True end ->
  exists sec, sec_of w s = Some sec /\ match sec with Some c => sec_ok c | None => True end /\
    (s = None -> sec = None).
Proof.
  intros Hw Hs. unfold sec_of. destruct s as [l|]; [|by exists None].
  destruct (heap_ok w m l Hw Hs) as (x & -> & _ & [Hx _] & _). by exists (Some (ss_sec_ctx x)).
Qed.

Lemma processed_stage w m s n :
  sv_ok w m -> match s with Some l => is_Some (ss_heap (sv_sessions w) !! l) | None => True end ->
  exists w' m', match s with Some l => with_sec l (add_processed n) w | None => Some w end = Some w' /\ sv_ok w' m' /\
    match s with Some l => is_Some (ss_heap (sv_sessions w') !! l) | None => True end.
Proof.
  intros Hw Hs. destruct s as [l|]; [|by exists w, m].
  destruct (heap_ok w m l Hw Hs) as (x & Ex & _ & [Hx _] & _).
  destruct (sv_ok_with_sec w m l x (add_processed n) Hw Ex) as (w' & -> & Hw' & Hl);
    [by apply add_processed_ok|]. eauto 10.
Qed.

(** Packets other than accepted data and key requests keep the buffer discipline, on
    any bytes of any length that fits the buffer. *)
Lemma server_on_udp_inv w m io i held len e b :
  sv_ok w m -> env_ok e -> io_inv io (i :: held) -> task_buf i io = Some b -> 0 <= len <= BUF_SIZE ->
  well_owned b len ->
  cb_result (server_on_udp hmac_sha256 rc_auth w io i len e) io i held (fun _ w' _ => exists m', sv_ok w' m').
Proof.
  intros Hw He Hi Eb Hlen Hty. unfold server_on_udp.
  destruct (held_lookup io _ i Hi) as (t & Ht & _); [left|]. rewrite Ht. cbn [mbind option_bind].
  destruct (Z.ltb_spec len VPN_TNL_HLEN).
  { eexists _, io, IO_TASK_DONE. split; [done|]. split; [exists m; by apply sv_ok_count|]. done. }
  rewrite Eb. cbn [mbind option_bind].
  destruct (unpack_stage io i held len b None Hi Eb) as (b1 & sn & _ & _ & _ & ty & E1 & Esn & _); [lia|].
  rewrite E1. cbn [mbind option_bind]. rewrite Esn. cbn [mbind option_bind].
  destruct (lookup_stage w m (ntohl sn) Hw) as (s & w1 & -> & Hw1 & _ & Hs0 & Hs1). cbn [mbind option_bind].
  assert (match s with Some l => is_Some (ss_heap (sv_sessions w1) !! l) | None => True end) as Hs1'.
  { destruct s; [|done]. destruct Hs1 as (x & -> & _). eauto. }
  destruct (sec_stage w1 m s Hw1 Hs1') as (sec & -> & _ & Hsec). cbn [mbind option_bind].
  clear ty. destruct (unpack_stage io i held len b sec Hi Eb)
    as (b1' & sn' & r & b2 & io1 & ty & E1' & Esn' & Ety & Eu & Eset & Eb2 & Ety2 & Hr & Hplain & Hbody & Hi1 & Hsm & Hx1 & _ & Hf1);
    [lia|].
  rewrite E1 in E1'. apply (inj Some) in E1'. subst b1'. clear Esn'. rewrite Eu. cbn [mbind option_bind].
  rewrite Eset. cbn [mbind option_bind].
  assert (forall j, j ∈ held -> task_pool io1 !! j = task_pool io !! j) as Hf.
  { intros j Hj. apply Hf1. by eapply held_ne. }
  destruct r as [plen|].
  2: { eexists _, io1, IO_TASK_DONE. split; [done|]. split; [exists m; by apply sv_ok_count|]. done. }
  destruct (processed_stage w1 m s len Hw1 Hs1') as (w2 & m2 & -> & Hw2 & Hs2). cbn [mbind option_bind].
  rewrite Ety2. cbn [mbind option_bind].
  unfold well_owned in Hty. rewrite Ety in Hty.
  assert (udp_sid b len = Some (ntohl sn)) as Esid by (unfold udp_sid; rewrite E1; cbn [mbind option_bind]; by rewrite Esn).
  rewrite Esid in Hty. destruct Hty as (Hna & Hau).
  assert (~ never_accepted ty (ntohl sn) len) as Hacc.
  { intros [Hp [Hz|Hshort]].
    - rewrite (Hplain (Hsec (Hs0 Hz)) ltac:(by eexists)) in Hp. discriminate Hp.
    - unfold udp_type in Ety. rewrite E1 in Ety. cbn [mbind option_bind] in Ety.
      discriminate (unpack_short _ _ _ _ _ _ (conj H Hshort) Ety Hp Eu). }
  assert (ty <> VPN_MSG_DATA) as Hd by (intros E; apply Hacc, Hna; by left).
  assert (ty <> VPN_MSG_REKEY_REQ) as Hrk by (intros E; apply Hacc, Hna; by right).
  destruct (server_dispatch_inv w2 m2 io1 i held s (ntohl sn) ty b2 plen (t_addr t) e Hw2 He Hi1 Eb2)
    as (u & w3 & io2 & -> & [m3 Hw3] & Hx2 & Hsm2 & Hi2 & Hf2); [apply (bswap_ok 4)| |done|done| |].
  { destruct s; [done|]. apply Hplain; [by apply Hsec|eauto]. }
  { intros ->. assert (drop AUTH_REQ_PASSWORD b2 = drop AUTH_REQ_PASSWORD b) as ->; [|destruct (Hau eq_refl); [left; lia|by right]].
    change AUTH_REQ_PASSWORD with (HLEN + 88)%nat. rewrite <- !drop_drop, Hbody; done. }
  cbn [mbind option_bind]. exists (count_pkt 1 0 0 w3), io2, (if u then IO_TASK_USE else IO_TASK_DONE).
  split; [done|]. split; [exists m3; by apply sv_ok_count|]. split; [congruence|].
  split; [by transitivity io1|]. split; [by destruct u|]. intros j Hj. rewrite Hf2, Hf; done.
Qed.

(** ** Packets of a well-behaved peer *)

(** The same server but for sessions and counters. *)
Definition same_config (w w' : server T U) : Prop :=
  master_key w' = master_key w /\ sv_ip_pool w' = sv_ip_pool w /\ sv_users w' = sv_users w /\ sv_pack w' = sv_pack w.

Lemma with_sec_config l f w w' : with_sec l f w = Some w' -> same_config w w'.
Proof. unfold with_sec. intros H. apply bind_Some in H as (s & _ & H). by injection H as <-. Qed.

(** The session the server selects for an identifier, and its context. *)
Definition selects w (sid : Z) (s : option positive) (sec : option vfast_sec_ctx_t) : Prop :=
  (if decide (sid = 0) then s = None else vf_ss_lookup_by_sid (sv_sessions w) sid = Some s) /\
  sec_of w s = Some sec.

(** A delivered packet reaches its handler with its payload in place. *)
Lemma server_on_udp_delivered w m io i held len e rb b s sec ty sid payload :
  sv_ok w m -> env_ok e -> io_inv io (i :: held) -> task_buf i io = Some rb -> agree (Z.to_nat len) b rb ->
  word_ok 32 sid -> selects w sid s sec -> delivers b len sec ty sid payload ->
  exists t w2 m2 io1 rb2 noise,
    task_pool io !! i = Some t /\ sv_ok w2 m2 /\ same_config w w2 /\ (length noise < 32)%nat /\
    match s with
    | Some l => exists x, ss_heap (sv_sessions w) !! l = Some x /\
        ss_heap (sv_sessions w2) !! l = Some (set_sec_ctx (add_processed len (ss_sec_ctx x)) x)
    | None => m2 = m /\ sv_sessions w2 = sv_sessions w
    end /\
    task_buf i io1 = Some rb2 /\ get_bytes HLEN (length (payload ++ noise)) rb2 = Some (payload ++ noise) /\
    (forall j, j <> i -> task_pool io1 !! j = task_pool io !! j) /\
    (io_inv io1 (i :: held) /\ same_io io io1 /\ pool_idx io1 = pool_idx io /\ ring io1 = ring io /\
     forall j, j ∈ held -> task_pool io1 !! j = task_pool io !! j) /\
    server_on_udp hmac_sha256 rc_auth w io i len e =
      '(isuse, w', io') ← server_dispatch hmac_sha256 rc_auth w2 io1 s sid ty i rb2
                            (Z.of_nat (length (payload ++ noise))) (t_addr t) e;
      Some (count_pkt 1 0 0 w', io', if isuse : bool then IO_TASK_USE else IO_TASK_DONE).
Proof.
  intros Hw He Hi Eb Ha Hsid [Hsel Esec] [Hlen Hd]. unfold server_on_udp.
  destruct (held_lookup io _ i Hi) as (t & Ht & _); [left|]. rewrite Ht. cbn [mbind option_bind].
  destruct (Z.ltb_spec len VPN_TNL_HLEN); [lia|]. rewrite Eb. cbn [mbind option_bind].
  destruct (deliver_stage io i held rb len b sec ty sid payload Hi Eb Ha (conj Hlen Hd))
    as (rb1 & rb2 & noise & io1 & E1 & Esn & Ety & Hno & Eu & Eset & Eb1 & Ety2 & Ep & Lrb2 & Hst).
  rewrite E1. cbn [mbind option_bind]. rewrite Esn. cbn [mbind option_bind].
  assert (ntohl (htonl sid) = sid) as -> by (by apply (bswap_involutive 4)).
  assert (exists w1, (if negb (sid =? 0) then
       r ← vf_ss_lookup_by_sid (sv_sessions w) sid;
       Some (r, match r with Some _ => w | None => add_stats 0 0 1 w end)
     else Some (None, w)) = Some (s, w1) /\ sv_ok w1 m /\ same_config w w1 /\ sv_sessions w1 = sv_sessions w)
    as (w1 & -> & Hw1 & Hc1 & Es1).
  { destruct (Z.eqb_spec sid 0) as [->|Hne]; cbn [negb].
    - rewrite decide_True in Hsel by done. subst s. by exists w.
    - rewrite decide_False in Hsel by done. rewrite Hsel. cbn [mbind option_bind]. eexists. split; [done|].
      destruct s; [done|]. split; [by apply sv_ok_stats|done]. }
  cbn [mbind option_bind].
  assert (sec_of w1 s = Some sec) as -> by (unfold sec_of in *; by rewrite Es1). cbn [mbind option_bind].
  rewrite Eu. cbn [mbind option_bind].
  rewrite Eset. cbn [mbind option_bind].
  assert (match s with Some l => is_Some (ss_heap (sv_sessions w1) !! l) | None => True end) as Hs1.
  { destruct s as [l|]; [|done]. rewrite Es1. unfold sec_of in Esec. by destruct (ss_heap _ !! l). }
  assert (exists w2 m2, match s with Some l => with_sec l (add_processed len) w1 | None => Some w1 end = Some w2 /\
    sv_ok w2 m2 /\ same_config w1 w2 /\
    match s with
    | Some l => exists x, ss_heap (sv_sessions w) !! l = Some x /\
        ss_heap (sv_sessions w2) !! l = Some (set_sec_ctx (add_processed len (ss_sec_ctx x)) x)
    | None => m2 = m /\ sv_sessions w2 = sv_sessions w
    end) as (w2 & m2 & -> & Hw2 & Hc2 & Hs2).
  { destruct s as [l|]; [|by exists w1, m].
    destruct (heap_ok w1 m l Hw1 Hs1) as (x & Ex & _ & [Hx _] & _).
    destruct (sv_ok_with_sec w1 m l x (add_processed len) Hw1 Ex) as (w2 & E2 & Hw2 & Hl2');
      [by apply add_processed_ok|].
    eexists w2, _. split; [done|]. split; [done|]. split; [by eapply with_sec_config|].
    exists x. by rewrite <- Es1. }
  cbn [mbind option_bind].
  rewrite Ety2. cbn [mbind option_bind].
  exists t, w2, m2, io1, rb2, noise. split; [done|]. split; [done|].
  split. { destruct Hc1 as (?&?&?&?), Hc2 as (?&?&?&?). split_and!; congruence. }
  split; [done|]. split; [done|]. split; [done|]. split; [done|].
  split; [intros j Hj; by eapply set_task_buf_frame|]. split; [done|]. done.
Qed.

(** From a handler's outcome to the callback's. *)
Lemma finish_on_udp (r : option (server T U * vf_io_t R * vf_task_state_t)) (h : handler R T U) io io1 i held
    (Q : bool -> server T U -> vf_io_t R -> Prop) (Q' : vf_task_state_t -> server T U -> vf_io_t R -> Prop) :
  r = ('(isuse, w', io') ← h; Some (count_pkt 1 0 0 w', io', if isuse : bool then IO_TASK_USE else IO_TASK_DONE)) ->
  same_io io io1 -> pool_idx io1 = pool_idx io ->
  (forall j, j ∈ held -> task_pool io1 !! j = task_pool io !! j) ->
  handled h io1 i held Q ->
  (forall (u : bool) w' io', Q u w' io' -> Q' (if u then IO_TASK_USE else IO_TASK_DONE) (count_pkt 1 0 0 w') io') ->
  cb_result r io i held Q'.
Proof.
  intros -> Hs Hx Hf (u & w' & io' & -> & HQ & Hx' & Hs' & Hi' & Hf') HQ'. cbn [mbind option_bind].
  exists (count_pkt 1 0 0 w'), io', (if u then IO_TASK_USE else IO_TASK_DONE). split; [done|]. split; [by apply HQ'|].
  split; [congruence|]. split; [by transitivity io1|]. split; [by destruct u|]. intros j Hj. rewrite Hf', Hf; done.
Qed.

Lemma server_on_udp_hello_inv w m io i held len e rb b s sec sid payload t :
  sv_ok w m -> env_ok e -> io_inv io (i :: held) -> task_pool io !! i = Some t -> t_buf t = rb ->
  agree (Z.to_nat len) b rb -> word_ok 32 sid -> selects w sid s sec ->
  delivers b len sec VPN_MSG_HELLO sid payload -> (8 <= length payload)%nat ->
  cb_result (server_on_udp hmac_sha256 rc_auth w io i len e) io i held (fun st w' io' =>
    st = IO_TASK_USE /\ (exists m', sv_ok w' m' /\ (s = None -> m' = m)) /\ sv_ip_pool w' = sv_ip_pool w /\ sv_users w' = sv_users w /\
    master_key w' = master_key w /\
    exists c, vfast_generate_cookie hmac_sha256 (t_addr t) (master_key w) = Some c /\
      replied io io' i (t_addr t) None VPN_MSG_HELLO 0 (hello_payload (e_now_ms e) c)).
Proof.
  intros Hw He Hi Ht Hrb Ha Hsid Hsel Hd Hlen.
  destruct (server_on_udp_delivered w m io i held len e rb b s sec VPN_MSG_HELLO sid payload)
    as (t' & w2 & m2 & io1 & rb2 & noise & Ht' & Hw2 & (Ek & Ep & Eus & _) & _ & Hs2 & Eb1 & _ & _ & (Hi1 & Hs1 & Hx1 & Hr1 & Hf1) & E);
    [done|done|done|unfold task_buf; rewrite Ht; cbn; congruence|done..|].
  rewrite Ht in Ht'. apply (inj Some) in Ht'. subst t'.
  eapply (finish_on_udp _ _ io io1); [exact E|done|done|done| |].
  - unfold server_dispatch. cbn [Z.eqb VPN_MSG_HELLO VPN_MSG_DATA Pos.eqb].
    by apply (vfast_handle_hello_inv hmac_sha256 hmac_ok w2 m2).
  - intros u w' io' [(ps & Hps & ->) Ho]. rewrite decide_True in Ho.
    2: { rewrite length_app. unfold HELLO_REQ_SIZE. lia. }
    destruct Ho as [-> (c & Ec & Hr)]. rewrite Ek in Ec. split; [done|].
    split; [exists m2; split; [by apply sv_ok_count, sv_ok_pack|]; intros ->; by destruct Hs2|]. do 3 (split; [done|]). exists c. split; [done|].
    by eapply replied_ring.
Qed.

(** Whoever sends HELLO gets the cookie of the address the datagram came
    from: for a packet that delivers a complete HELLO payload, under any
    session identifier, [server_on_udp] keeps the task for a reply to that
    address which carries the server's time and the cookie (unless the
    submission queue is full), and allocates nothing: address pool, users and
    master key stay. *)
Theorem server_on_udp_hello w m io i held len e rb b s sec sid payload t :
  sv_ok w m -> env_ok e -> io_inv io (i :: held) -> task_pool io !! i = Some t -> t_buf t = rb ->
  agree (Z.to_nat len) b rb -> word_ok 32 sid -> selects w sid s sec ->
  delivers b len sec VPN_MSG_HELLO sid payload -> (8 <= length payload)%nat ->
  cb_result (server_on_udp hmac_sha256 rc_auth w io i len e) io i held (fun st w' io' =>
    st = IO_TASK_USE /\ (exists m', sv_ok w' m') /\ sv_ip_pool w' = sv_ip_pool w /\ sv_users w' = sv_users w /\
    master_key w' = master_key w /\
    exists c, vfast_generate_cookie hmac_sha256 (t_addr t) (master_key w) = Some c /\
      replied io io' i (t_addr t) None VPN_MSG_HELLO 0 (hello_payload (e_now_ms e) c)).
Proof.
  intros Hw He Hi Ht Hrb Ha Hsid Hsel Hd Hlen.
  destruct (server_on_udp_hello_inv w m io i held len e rb b s sec sid payload t Hw He Hi Ht Hrb Ha Hsid Hsel Hd Hlen)
    as (w' & io' & st & E & (Est & (m' & Hw' & _) & Ho) & Hr).
  exists w', io', st. split; [done|]. split; [|done]. split; [done|]. split; [by exists m'|done].
Qed.

(** ** Authentication *)

Lemma c_prefix_app u r : 0 ∈ u -> c_prefix (u ++ r) = c_prefix u.
Proof.
  intros Hu. unfold c_prefix, cstr.
  assert (exists n, strlen u = Some n /\ strlen (u ++ r) = Some n /\ (n <= length u)%nat) as (n & -> & -> & Hn).
  { induction u as [|c u IH]; [by apply not_elem_of_nil in Hu|]. cbn. destruct (Z.eqb_spec c 0); [exists 0%nat; split_and!; [done|done|cbn; lia]|].
    apply elem_of_cons in Hu as [?|Hu]; [done|]. destruct (IH Hu) as (k & -> & -> & ?). exists (S k). split_and!; cbn; [done..|lia]. }
  cbn. by rewrite take_app_le.
Qed.

Lemma strlen_elem u : 0 ∈ u -> is_Some (strlen u).
Proof.
  induction u as [|c u IH]; [by intros ?%not_elem_of_nil|]. intros Hu. cbn. destruct (Z.eqb_spec c 0); [eauto|].
  apply elem_of_cons in Hu as [?|Hu]; [done|]. apply fmap_is_Some. auto.
Qed.

(** The payload of an authentication request. *)
Definition auth_request (ts : Z) (ck u p : list Z) : list Z := le_bytes 8 (htonll ts) ++ ck ++ u ++ p.

Lemma auth_request_fields b ts ck u p rest :
  length b = 2048%nat -> get_bytes HLEN (length (auth_request ts ck u p ++ rest)) b = Some (auth_request ts ck u p ++ rest) ->
  word_ok 64 ts -> length ck = 16%nat -> length u = 64%nat -> length p = 64%nat -> 0 ∈ u -> 0 ∈ p ->
  has_auth_fields b {| af_cookie := ck; af_ts := ts; af_user := c_prefix u; af_pass := c_prefix p |} /\
  is_Some (strlen (drop AUTH_REQ_PASSWORD b)).
Proof.
  intros Hl Hg Hts Lc Lu Lp Hu Hp. set (pl := auth_request ts ck u p ++ rest) in *.
  pose proof (length_le_bytes 8 (htonll ts)) as Lt.
  assert (length pl = (152 + length rest)%nat) as Lpl.
  { unfold pl, auth_request. rewrite !length_app, Lt, Lc, Lu, Lp. lia. }
  pose proof (get_bytes_bound _ _ _ _ Hg) as Hbd.
  assert (drop HLEN b = pl ++ drop (HLEN + length pl) b) as Eb.
  { rewrite get_bytes_Some in Hg by lia. apply (inj Some) in Hg. rewrite <- Hg at 1. by rewrite <- drop_drop, take_drop. }
  assert (forall k, drop (HLEN + k) b = drop k (pl ++ drop (HLEN + length pl) b)) as Ed.
  { intros k. by rewrite <- Eb, drop_drop. }
  assert (drop AUTH_REQ_USERNAME b = u ++ (p ++ rest ++ drop (HLEN + length pl) b)) as Du.
  { unfold AUTH_REQ_USERNAME. rewrite Ed. unfold pl, auth_request. rewrite <- !app_assoc, app_assoc.
    by rewrite drop_app_length' by (rewrite length_app, Lt, Lc; done). }
  assert (drop AUTH_REQ_PASSWORD b = p ++ (rest ++ drop (HLEN + length pl) b)) as Dp.
  { change AUTH_REQ_PASSWORD with (AUTH_REQ_USERNAME + 64)%nat. rewrite <- drop_drop, Du.
    by rewrite drop_app_length' by done. }
  split.
  - split; [|split; [|split]]; cbn [af_cookie af_ts af_user af_pass].
    + rewrite get_bytes_Some by (unfold AUTH_REQ_COOKIE, HLEN; lia). unfold AUTH_REQ_COOKIE. rewrite Ed.
      unfold pl, auth_request. rewrite <- !app_assoc. rewrite drop_app_length' by done. by rewrite take_app_length' by done.
    + unfold get_le. rewrite get_bytes_Some by (unfold AUTH_REQ_TIMESTAMP, HLEN; lia).
      unfold AUTH_REQ_TIMESTAMP. rewrite Ed, drop_0. unfold pl, auth_request. rewrite <- !app_assoc.
      rewrite take_app_length' by done. cbn [fmap option_fmap option_map].
      rewrite le_val_bytes by (apply (bswap_ok 8)). f_equal. by apply (bswap_involutive 8).
    + by rewrite Du, c_prefix_app.
    + by rewrite Dp, c_prefix_app.
  - rewrite Dp. apply strlen_elem, elem_of_app. by left.
Qed.

Lemma server_on_udp_auth_inv w m io i held len e rb b sid sec ts ck u p t :
  sv_ok w m -> env_ok e -> io_inv io (i :: held) -> task_pool io !! i = Some t -> t_buf t = rb ->
  agree (Z.to_nat len) b rb -> word_ok 32 sid -> selects w sid None sec ->
  delivers b len sec VPN_MSG_AUTH_REQ sid (auth_request ts ck u p) ->
  word_ok 64 ts -> length ck = 16%nat -> length u = 64%nat -> length p = 64%nat -> 0 ∈ u -> 0 ∈ p ->
  let src := t_addr t in
  let a := {| af_cookie := ck; af_ts := ts; af_user := c_prefix u; af_pass := c_prefix p |} in
  cb_result (server_on_udp hmac_sha256 rc_auth w io i len e) io i held (fun st w' io' =>
    (exists m', sv_ok w' m') /\
    if decide (auth_admitted hmac_sha256 w a src (e_now_ms e)) then
      exists vip, fst <$> vf_ip_pool_alloc (sv_ip_pool w) = Some vip /\
        snd <$> vf_ip_pool_alloc (sv_ip_pool w) = Some (sv_ip_pool w') /\
        if decide (vip = 0 \/ login_code rc_auth (c_prefix u) (c_prefix p) (e_login e) <> 0)
        then st = IO_TASK_DONE /\ sv_sessions w' = sv_sessions w
        else
          let sid' := vf_ss_generate_sid vip (e_sid_rnd e) (e_rand e) in
          st = IO_TASK_USE /\ m !! vip = None /\ exists k m', vf_rekey_init (e_getrandom e) (e_time e) sid' = Some k /\
            m' = spec_update m vip sid' src (ss_env_of e) k /\ sv_ok w' m' /\
            exists x tk, m' !! ss_vip x = Some x /\ ss_sid x = sid' /\ length tk = VF_TOKEN_LEN /\
              replied io io' i src None VPN_MSG_AUTH_ACK sid' (auth_payload vip (active_key (ss_sec_ctx x)) tk)
    else st = IO_TASK_DONE /\ sv_sessions w' = sv_sessions w /\ sv_ip_pool w' = sv_ip_pool w).
Proof.
  intros Hw He Hi Ht Hrb Ha Hsid Hsel Hd Hts Lc Lu Lp Hu Hp src a.
  destruct (server_on_udp_delivered w m io i held len e rb b None sec VPN_MSG_AUTH_REQ sid (auth_request ts ck u p))
    as (t' & w2 & m2 & io1 & rb2 & noise & Ht' & Hw2 & (Ek & Ep & Eus & _) & _ & [-> Ess] & Eb1 & Hg & _ & (Hi1 & Hs1 & Hx1 & Hr1 & Hf1) & E);
    [done|done|done|unfold task_buf; rewrite Ht; cbn; congruence|done..|].
  rewrite Ht in Ht'. apply (inj Some) in Ht'. subst t'.
  destruct (task_buf_held io1 _ i Hi1) as (b0 & Eb0 & Hl & _); [left|]. rewrite Eb1 in Eb0. apply (inj Some) in Eb0. subst b0.
  destruct (auth_request_fields rb2 ts ck u p noise Hl Hg Hts Lc Lu Lp Hu Hp) as [Hfs Hstr]. fold a in Hfs.
  eapply (finish_on_udp _ _ io io1); [exact E|done|done|done| |].
  - unfold server_dispatch. cbn [Z.eqb VPN_MSG_HELLO VPN_MSG_DATA VPN_MSG_AUTH_REQ Pos.eqb].
    apply (vfast_handle_auth_inv hmac_sha256 rc_auth hmac_ok w2 m io1 i held _ src e rb2 a); [done..| |done|done].
    pose proof (length_le_bytes 8 (htonll ts)). unfold auth_request, AUTH_REQ_SIZE. rewrite !length_app. lia.
  - intros us w' io' [[m' Hw'] Ho]. split; [exists m'; by apply sv_ok_count|].
    unfold auth_outcome, auth_admitted in Ho. rewrite Ek, Ep in Ho. unfold auth_admitted. fold src.
    case_decide; [|by destruct Ho as [-> ->]].
    destruct Ho as (vip & pool & Ev & Epl & Ho). exists vip. rewrite Ev. split; [done|].
    split; [cbn; by rewrite Epl|]. cbn [af_user af_pass a] in Ho.
    destruct (decide (vip = 0)) as [Hv|Hv].
    { rewrite decide_True by by left. destruct Ho as (-> & Hss & _). split; [done|]. cbn. congruence. }
    destruct (decide (login_code _ _ _ _ = 0)) as [Hc|Hc].
    2: { rewrite decide_True by by right. destruct Ho as [-> Hss]. split; [done|]. cbn. congruence. }
    rewrite decide_False by (intros [?|?]; done). destruct Ho as (Hnone & k & x & -> & Hk & Hok & Hx & Hxs & tk & Ltk & Hr).
    split; [done|]. split; [done|]. exists k, (spec_update m vip (vf_ss_generate_sid vip (e_sid_rnd e) (e_rand e)) src (ss_env_of e) k).
    split; [done|]. split; [done|]. split; [by apply sv_ok_count|]. exists x, tk. split; [done|]. split; [done|].
    split; [done|]. by eapply replied_ring.
Qed.
(** C17 An authentication request from a peer without a session is decided by
    cookie, age, address pool and login, in this order.  Unless the cookie is
    that of the address the datagram came from and the age (with the wrap of
    the code's arithmetic) in range, sessions and pool stay.  Otherwise an
    address is taken from the pool; none left, or credentials refused: no
    session is entered and nothing is sent (but the refused request keeps the
    address it took).  With the credentials accepted, the address is
    one that no session has, a session under the generated identifier is
    entered for it, and the reply carries the address, a token and the key of
    the session the identifier selects (the new one, unless two sessions share
    the identifier). *)
Theorem server_on_udp_auth w m io i held len e rb b sid sec ts ck u p t :
  sv_ok w m -> env_ok e -> io_inv io (i :: held) -> task_pool io !! i = Some t -> t_buf t = rb ->
  agree (Z.to_nat len) b rb -> word_ok 32 sid -> selects w sid None sec ->
  delivers b len sec VPN_MSG_AUTH_REQ sid (auth_request ts ck u p) ->
  word_ok 64 ts -> length ck = 16%nat -> length u = 64%nat -> length p = 64%nat -> 0 ∈ u -> 0 ∈ p ->
  let src := t_addr t in
  let a := {| af_cookie := ck; af_ts := ts; af_user := c_prefix u; af_pass := c_prefix p |} in
  cb_result (server_on_udp hmac_sha256 rc_auth w io i len e) io i held (fun st w' io' =>
    (exists m', sv_ok w' m') /\
    if decide (auth_admitted hmac_sha256 w a src (e_now_ms e)) then
      exists vip, fst <$> vf_ip_pool_alloc (sv_ip_pool w) = Some vip /\
        snd <$> vf_ip_pool_alloc (sv_ip_pool w) = Some (sv_ip_pool w') /\
        if decide (vip = 0 \/ login_code rc_auth (c_prefix u) (c_prefix p) (e_login e) <> 0)
        then st = IO_TASK_DONE /\ sv_sessions w' = sv_sessions w
        else
          let sid' := vf_ss_generate_sid vip (e_sid_rnd e) (e_rand e) in
          st = IO_TASK_USE /\ m !! vip = None /\ exists k m', vf_rekey_init (e_getrandom e) (e_time e) sid' = Some k /\
            m' = spec_update m vip sid' src (ss_env_of e) k /\ sv_ok w' m' /\
            exists x tk, m' !! ss_vip x = Some x /\ ss_sid x = sid' /\ length tk = VF_TOKEN_LEN /\
              replied io io' i src None VPN_MSG_AUTH_ACK sid' (auth_payload vip (active_key (ss_sec_ctx x)) tk)
    else st = IO_TASK_DONE /\ sv_sessions w' = sv_sessions w /\ sv_ip_pool w' = sv_ip_pool w).
Proof. apply server_on_udp_auth_inv. Qed.
End server_rx.

(** * Instances *)

Definition demo_hello : Z * list Z := demo_pack None VPN_MSG_HELLO 0 (replicate 8 1).

Lemma demo_hello_delivers :
  delivers demo_hello.2 demo_hello.1 None VPN_MSG_HELLO 0 (replicate 8 1) /\ length demo_hello.2 = 2048%nat /\
  bytes_ok demo_hello.2.
Proof.
  apply demo_pack_delivers; [done|by_compute|by_compute|by_compute|cbn; lia|by left].
Qed.

Lemma server_on_udp_hello_witness :
  exists w' io' c, server_on_udp demo_hmac demo_rc server0 (demo_rx demo_hello.2) 0 demo_hello.1 (demo_env 7 100)
      = Some (w', io', IO_TASK_USE) /\
    vfast_generate_cookie demo_hmac demo_addr (master_key server0) = Some c /\
    replied (demo_rx demo_hello.2) io' 0 demo_addr None VPN_MSG_HELLO 0 (hello_payload 7 c).
Proof.
  generalize demo_hello_delivers. generalize demo_hello.1 demo_hello.2. intros n b ([Hn Hd] & Hl & Hb).
  destruct (server_on_udp_hello demo_hmac demo_rc demo_hmac_ok server0 ∅ (demo_rx b) 0 [] n
    (demo_env 7 100) b b None None 0 (replicate 8 1) _ server0_ok (demo_env_ok _ _)
    (demo_rx_inv _ Hl Hb) (demo_rx_task _) eq_refl) as (w' & io' & st & E & (-> & _ & _ & _ & _ & c & Hc & Hr) & _).
  - apply agree_refl. unfold BUF_SIZE in Hn. lia.
  - by_compute.
  - done.
  - by split.
  - cbn. lia.
  - exists w', io', c. split; [exact E|]. split; [exact Hc|exact Hr].
Defined.

Definition demo_cookie : list Z := default [] (vfast_generate_cookie demo_hmac demo_addr (master_key server0)).
Definition demo_auth : Z * list Z :=
  demo_pack None VPN_MSG_AUTH_REQ 0
    (auth_request 10000 demo_cookie ([98; 111; 98] ++ replicate 61 0) ([112; 119] ++ replicate 62 0)).

Lemma demo_auth_delivers :
  delivers demo_auth.2 demo_auth.1 None VPN_MSG_AUTH_REQ 0
    (auth_request 10000 demo_cookie ([98; 111; 98] ++ replicate 61 0) ([112; 119] ++ replicate 62 0)) /\
  length demo_auth.2 = 2048%nat /\ bytes_ok demo_auth.2.
Proof.
  apply demo_pack_delivers; [done|by_compute|by_compute|by_compute|vm_compute; lia|by left].
Qed.

(** The first client gets 10.0.0.2 and its session. *)
Lemma server_on_udp_auth_witness :
  exists w' io' k m', server_on_udp demo_hmac demo_rc server0 (demo_rx demo_auth.2) 0 demo_auth.1 (demo_env 10000 100)
      = Some (w', io', IO_TASK_USE) /\
    m' = spec_update ∅ demo_vip demo_vsid demo_addr (ss_env_of (demo_env 10000 100)) k /\ sv_ok w' m'.
Proof.
  generalize demo_auth_delivers. generalize demo_auth.1 demo_auth.2. intros n b ([Hn Hd] & Hl & Hb).
  destruct (server_on_udp_auth demo_hmac demo_rc demo_hmac_ok server0 ∅ (demo_rx b) 0 [] n
    (demo_env 10000 100) b b 0 None 10000 demo_cookie ([98; 111; 98] ++ replicate 61 0)
    ([112; 119] ++ replicate 62 0) _ server0_ok (demo_env_ok _ _) (demo_rx_inv _ Hl Hb) (demo_rx_task _) eq_refl)
    as (w' & io' & st & E & (_ & Ho) & _);
    [apply agree_refl; unfold BUF_SIZE in Hn; lia|by_compute|done|by split|by_compute|reflexivity|reflexivity|reflexivity
    |repeat (try (by left); right)|repeat (try (by left); right)|].
  rewrite decide_True in Ho by (vm_compute; repeat split; intros; discriminate).
  destruct Ho as (vip & Ev & _ & Ho). assert (vip = demo_vip) as -> by (by apply (inj Some); rewrite <- Ev).
  rewrite decide_False in Ho by (vm_compute; intros [?|?]; congruence).
  destruct Ho as (-> & _ & k & m' & _ & Em & Hm & _).
  exists w', io', k, m'. split; [exact E|]. split; [exact Em|exact Hm].
Defined.
