(* ===== verification/ServerData.v ===== *)
(** The server's data path (src/src/vfast_server.c): packets from the tunnel
    to the TUN device, packets from the TUN device to the tunnel, and the
    rotation of a session's key on the client's request. *)
From S2P Require Import Prelude Crypto Key Protocol IpPool HashTable Libc Session User Io Payload Receive Stats Server ServerDemo ServerRx.

Section server_data.
Context {R : Type} `{HR : IoUring R, HRL : !IoUringLaws R}.
Context {T : Type} `{HT : HashTable Z T, HTL : !HashTableLaws Z T}.
Context {U : Type} `{HU : HashTable (list Z) U}.
Variable hmac_sha256 : list Z -> list Z -> list Z.
Variable rc_auth : list Z -> list Z -> rc_result.
Hypothesis hmac_ok : forall k m, length (hmac_sha256 k m) = 32%nat /\ bytes_ok (hmac_sha256 k m).

Implicit Types (w : server T U) (io : vf_io_t R).

(** ** From the tunnel to the TUN device *)

(** The write request of [vfast_handle_data]: the user data is what
    [vfast_data_to_task] makes of the payload's address. *)
Definition tun_write_sqe io (i : nat) (n : Z) : sqe :=
  {| sq_req := ReqWrite (payload_ptr i) n; sq_file := f_idx io (tun_fd io);
     sq_data := Some {| tp_task := i; tp_shift := HLEN |} |}.

Lemma vfast_handle_data_spec io i n b rg :
  ring_push (tun_write_sqe io i n) (ring io) = Some rg -> task_buf i io = Some b -> length b = 2048%nat ->
  exists io' b', vfast_handle_data io i n = Some io' /\
    ring_pending (ring io') ≡ₚ tun_write_sqe io i n :: ring_pending (ring io) /\
    task_buf i io' = Some b' /\ (forall o k, (HLEN <= o)%nat -> get_bytes o k b' = get_bytes o k b) /\
    (forall j, j <> i -> task_pool io' !! j = task_pool io !! j).
Proof.
  intros Ep Eb Hl. unfold vfast_handle_data, vf_io_write, vfast_data_to_task.
  cbn [dp_task dp_off tp_task tp_shift payload_ptr Z.eqb OP_TUN_WRITE OP_UDP_SEND Pos.eqb].
  unfold tun_write_sqe in Ep |- *. rewrite Ep.
  unfold task_buf in Eb. apply fmap_Some in Eb as (t & Ht & ->). pose proof (lookup_lt_Some _ _ _ Ht) as Hlt.
  unfold store_op, alter_task. cbn [tp_shift tp_task Nat.eqb Nat.leb HLEN set_ring task_pool Nat.sub].
  rewrite Ht. cbn [mbind option_bind].
  destruct (put_le_Some 16 4 (u32 2) (t_buf t)) as [b' Eb']; [lia|].
  change (put_le _ _ _ (t_buf t)) with (put_le 16 4 (u32 2) (t_buf t)). rewrite Eb'. cbn [mbind option_bind].
  eexists _, b'. split; [done|]. rewrite (proj2 (maybe_submit_keeps _)). unfold task_buf. rewrite (proj1 (maybe_submit_keeps _)).
  cbn [set_pool set_ring ring task_pool]. split; [by rewrite (ring_push_pending _ _ _ Ep)|].
  rewrite list_lookup_insert_eq by done. split; [done|]. split.
  - intros o k Ho. eapply get_bytes_put_le_after; [exact Eb'|]. unfold HLEN in Ho. lia.
  - intros j Hj. by rewrite list_lookup_insert_ne.
Qed.

(** With a full queue the packet is dropped.  What is meant to mark the task as
    free clears a byte of the buffer of the task behind it. *)
Definition next_task_hit io io' (i : nat) : Prop :=
  exists t b, task_pool io !! S i = Some t /\ put_le 12 1 0 (t_buf t) = Some b /\ task_buf (S i) io' = Some b.

Lemma vfast_handle_data_full io i n held :
  io_inv io held -> ring_push (tun_write_sqe io i n) (ring io) = None ->
  match task_pool io !! S i with
  | None => vfast_handle_data io i n = None
  | Some _ => exists io', vfast_handle_data io i n = Some io' /\ ring io' = ring io /\ next_task_hit io io' i /\
      forall j, j <> S i -> task_pool io' !! j = task_pool io !! j
  end.
Proof.
  intros Hi Ep. unfold vfast_handle_data, vf_io_write, vfast_data_to_task, next_task_hit.
  cbn [dp_task dp_off tp_task tp_shift payload_ptr Z.eqb OP_TUN_WRITE OP_UDP_SEND Pos.eqb].
  unfold tun_write_sqe in Ep |- *. rewrite Ep. unfold store_in_use. cbn [tp_shift tp_task Nat.eqb Nat.leb HLEN Nat.sub].
  destruct (task_pool io !! S i) as [t|] eqn:Ht; [|done]. cbn [mbind option_bind].
  pose proof (ii_bufs _ _ Hi) as Hb. rewrite list.Forall_forall in Hb. destruct (Hb t (list_elem_of_lookup_2 _ _ _ Ht)) as [Hl _].
  destruct (put_le_Some 12 1 0 (t_buf t)) as [b Eb]; [rewrite Hl; vm_compute; lia|].
  change (put_le _ _ _ (t_buf t)) with (put_le 12 1 0 (t_buf t)). rewrite Eb. cbn [mbind option_bind].
  unfold alter_task. rewrite Ht. cbn [mbind option_bind]. eexists. split; [done|]. split; [done|]. split.
  - exists t, b. split; [done|]. split; [done|]. unfold task_buf. cbn [set_pool task_pool].
    by rewrite list_lookup_insert_eq by (by eapply lookup_lt_Some).
  - intros j Hj. cbn [set_pool task_pool]. by rewrite list_lookup_insert_ne.
Qed.

(** C18 A data packet sealed under a session's key is opened, and what happens
    to it is the submission queue's state.  If the queue has room, one request
    and nothing else is added to it: the write to the TUN device of exactly
    the payload and the noise that the padding added, less than 32 bytes, from
    the task's own buffer; every other task is left alone.  If the queue is
    full, the packet is dropped, and byte 12 of the buffer of the next task in
    the pool is cleared, which is undefined behaviour for the last task, since
    the user data of the request points [HLEN] bytes into the task.  In both
    cases the callback answers [IO_TASK_DONE], so the loop frees the task,
    also while the request is pending, and of the session only the count of
    bytes changes.  The payload is not looked at: it need not be an IPv4
    packet, although the comment of [vf_unpack] in protocol.h says that it
    inspects the inner header. *)
Theorem server_on_udp_data w m io i held len e rb b l x ty_payload t :
  sv_ok w m -> env_ok e -> io_inv io (i :: held) -> task_pool io !! i = Some t -> t_buf t = rb ->
  agree (Z.to_nat len) b rb -> ss_sid x <> 0 ->
  vf_ss_lookup_by_sid (sv_sessions w) (ss_sid x) = Some (Some l) -> ss_heap (sv_sessions w) !! l = Some x ->
  delivers b len (Some (ss_sec_ctx x)) VPN_MSG_DATA (ss_sid x) ty_payload ->
  exists noise, let n := Z.of_nat (length (ty_payload ++ noise)) in (length noise < 32)%nat /\
    if decide (ring_push (tun_write_sqe io i n) (ring io) = None /\ task_pool io !! S i = None)
    then server_on_udp hmac_sha256 rc_auth w io i len e = None
    else exists w' io', server_on_udp hmac_sha256 rc_auth w io i len e = Some (w', io', IO_TASK_DONE) /\
      (exists m', sv_ok w' m') /\
      ss_heap (sv_sessions w') !! l = Some (set_sec_ctx (add_processed len (ss_sec_ctx x)) x) /\
      match ring_push (tun_write_sqe io i n) (ring io) with
      | Some _ => ring_pending (ring io') ≡ₚ tun_write_sqe io i n :: ring_pending (ring io) /\
          (exists b', task_buf i io' = Some b' /\ get_bytes HLEN (Z.to_nat n) b' = Some (ty_payload ++ noise)) /\
          (forall j, j <> i -> task_pool io' !! j = task_pool io !! j)
      | None => ring io' = ring io /\ next_task_hit io io' i /\
          (forall j, j <> i -> j <> S i -> task_pool io' !! j = task_pool io !! j)
      end.
Proof.
  intros Hw He Hi Ht Hrb Ha Hne Hsel Hl Hd.
  destruct (heap_ok w m l Hw) as (x' & Hx' & _ & [_ Hsid] & _); [eauto|]. rewrite Hl in Hx'. apply (inj Some) in Hx'. subst x'.
  destruct (server_on_udp_delivered hmac_sha256 rc_auth w m io i held len e rb b (Some l) (Some (ss_sec_ctx x))
    VPN_MSG_DATA (ss_sid x) ty_payload)
    as (t' & w2 & m2 & io1 & rb2 & noise & _ & Hw2 & _ & Hno & (x' & Hx' & Hl2) & Eb1 & Hg & Hfr & (Hi1 & Hs1 & _ & Hr1 & _) & E);
    [done|done|done|unfold task_buf; rewrite Ht; cbn; congruence|done|done| |done|].
  { split; [by rewrite decide_False|]. cbn. by rewrite Hl. }
  rewrite Hl in Hx'. apply (inj Some) in Hx'. subst x'.
  destruct (task_buf_held io1 _ i Hi1) as (b0 & Eb0 & Hlb & _); [left|]. rewrite Eb1 in Eb0. apply (inj Some) in Eb0. subst b0.
  exists noise. set (n := Z.of_nat (length (ty_payload ++ noise))) in *. cbv zeta. split; [done|].
  assert (tun_write_sqe io i n = tun_write_sqe io1 i n) as Eq.
  { unfold tun_write_sqe, f_idx. by destruct Hs1 as (-> & -> & _). }
  assert (exists m', sv_ok (count_pkt 1 0 0 w2) m') as Hw3 by (exists m2; by apply sv_ok_count).
  revert E. unfold server_dispatch. cbn [Z.eqb VPN_MSG_DATA Pos.eqb].
  destruct (ring_push (tun_write_sqe io i n) (ring io)) as [rg|] eqn:Ep.
  - rewrite decide_False by (intros [? _]; done). rewrite Eq, <- Hr1 in Ep.
    destruct (vfast_handle_data_spec io1 i n rb2 rg Ep Eb1 Hlb) as (io2 & b2 & -> & Hq & Eb2 & Hk & Hf2). cbn [mbind option_bind]. intros E.
    exists (count_pkt 1 0 0 w2), io2. split; [exact E|]. split; [done|]. split; [done|]. rewrite Eq, <- Hr1. split; [done|]. split.
    + exists b2. split; [done|]. unfold n. by rewrite Nat2Z.id, Hk.
    + intros j Hj. by rewrite Hf2, Hfr.
  - pose proof (vfast_handle_data_full io1 i n _ Hi1) as Hfull. rewrite <- Eq, Hr1, Hfr in Hfull by lia. specialize (Hfull Ep).
    unfold next_task_hit in *. rewrite Hfr in Hfull by lia. destruct (task_pool io !! S i) as [t1|] eqn:Et1.
    + destruct Hfull as (io2 & -> & Hr2 & Hhit & Hf2). rewrite decide_False by (intros [_ ?]; done). cbn [mbind option_bind]. intros E.
      exists (count_pkt 1 0 0 w2), io2. split; [exact E|]. split; [done|]. split; [done|]. split; [done|]. split; [done|].
      intros j Hj1 Hj2. by rewrite Hf2, Hfr.
    + rewrite Hfull, decide_True by done. cbn [mbind option_bind]. by intros ->.
Qed.

(** ** From the TUN device to the tunnel *)

(** The destination of the IPv4 packet behind the header. *)
Definition ip_dest (b : list Z) : option Z := get_le (HLEN + 16) 4 b.

(** What [server_on_tun] does with an IP packet: sealed for the session of its
    destination address, or dropped. *)
Definition tun_outcome w io i (len : Z) (st : vf_task_state_t) (w' : server T U) io' : Prop :=
  exists dst ip, (b ← task_buf i io; get_le (HLEN + 16) 4 b) = Some dst /\
    (b ← task_buf i io; get_bytes HLEN (Z.to_nat len) b) = Some ip /\
    match find_by_ip (sv_sessions w) dst with
    | Some (Some x) => st = IO_TASK_USE /\
        replied io io' i (ss_remote_addr x) (Some (ss_sec_ctx x)) VPN_MSG_DATA (ss_sid x) ip
    | _ => st = IO_TASK_DONE /\ io' = io
    end.

Lemma server_on_tun_inv w m io i held len e :
  sv_ok w m -> env_ok e -> io_inv io (i :: held) -> 20 <= len <= 1957 ->
  cb_result (server_on_tun w io i len e) io i held (fun st w' io' =>
    sv_ok w' m /\ sv_sessions w' = sv_sessions w /\ tun_outcome w io i len st w' io').
Proof.
  intros Hw He Hi Hlen. unfold server_on_tun, tun_outcome, BUF_SIZE, VPN_TNL_HLEN.
  destruct (Z.ltb_spec len 20); [lia|]. destruct (Z.ltb_spec (2048 - 20) len); [lia|]. cbn [orb].
  destruct (task_buf_held io _ i Hi) as (b & Eb & Hl & Hb); [left|]. rewrite Eb. cbn [mbind option_bind].
  destruct (get_le_Some (HLEN + 16) 4 b) as [dst Ed]; [hlia|]. rewrite Ed. cbn [mbind option_bind].
  destruct (task_payload io (i :: held) i len Hi) as [ip Hip]; [left|lia|]. rewrite Eb in Hip. cbn [mbind option_bind] in Hip.
  destruct (lookup_by_ip_wf (sv_sessions w) dst (so_wf _ _ Hw)) as (r & Er & Hr). rewrite Er. cbn [mbind option_bind].
  destruct r as [l|].
  - destruct Hr as (x & Ex & Hv). rewrite Ex. cbn [mbind option_bind fmap option_fmap option_map].
    assert (find_by_ip (sv_sessions w) dst = Some (Some x)) as Ef.
    { unfold find_by_ip. rewrite Er. cbn [mbind option_bind]. by rewrite Ex. }
    destruct (so_heap w m l x Hw Ex) as [_ [Hsec Hsid]].
    destruct (pack_task_delivers io (i :: held) i (sv_pack w) (e_urandom e) (Some (ss_sec_ctx x)) len VPN_MSG_DATA (ss_sid x) ip Hi)
      as (n & io1 & ps' & b1 & -> & Hn & Hps' & Hi1 & Hs1 & Hx1 & Hr1 & Hf1 & Eb1 & Hd);
      [left|apply Hw|apply He|done|done|done|lia|by rewrite Eb|].
    cbn [mbind option_bind]. destruct (Z.ltb_spec 0 n); [|lia].
    destruct (vf_io_write_inv io1 held i (udp_fd io1) OP_UDP_SEND n (Some (ss_remote_addr x)) Hi1)
      as (io2 & E2 & Hi2 & Hs2 & Hx2 & Hf2); [by left|].
    unfold base. rewrite E2. cbn [mbind option_bind].
    eexists _, io2, IO_TASK_USE. split; [done|]. split.
    { split; [by apply sv_ok_count, sv_ok_pack|]. split; [done|]. exists dst, ip. split; [done|]. split; [done|]. rewrite Ef. split; [done|].
      eapply (write_replied io io1); [done|exact E2|exact Eb1|lia|done]. }
    split; [congruence|]. split; [by transitivity io1|]. split; [done|].
    intros j Hj. pose proof (held_ne io i held j Hi Hj). by rewrite Hf2, Hf1.
  - eexists _, io, IO_TASK_DONE. split; [done|]. split; [|done].
    split; [by apply sv_ok_count|]. split; [done|]. exists dst, ip. split; [done|]. split; [done|]. unfold find_by_ip. by rewrite Er.
Qed.

(** C19 An IP packet from the TUN device goes to the session of its destination
    address and to no one else.  A packet of 20 to 1957 bytes whose destination
    has a session is handed to the submission queue: if the queue has room, one
    request and nothing else is added to it, for a datagram to that session's
    remote address which delivers, under the session's identifier and to
    whoever holds its current key, the IP packet followed by less than 32
    bytes of noise ([delivers]); if the queue is full, the packet is dropped
    and nothing is queued.  With no session for the address, and for a packet
    of less than 20 or more than 2028 bytes, nothing is sent and the engine is
    left as it was.  Sessions and the tasks of others do not change.  (What the
    lengths between do is [vf_pack_capacity].) *)
Theorem server_on_tun_forwards w m io i held len e :
  sv_ok w m -> env_ok e -> io_inv io (i :: held) ->
  (len < 20 \/ 2028 < len -> exists w', server_on_tun w io i len e = Some (w', io, IO_TASK_DONE) /\
     sv_ok w' m /\ sv_sessions w' = sv_sessions w) /\
  (20 <= len <= 1957 -> exists b dst ip w' io',
     task_buf i io = Some b /\ ip_dest b = Some dst /\ get_bytes HLEN (Z.to_nat len) b = Some ip /\
     sv_ok w' m /\ sv_sessions w' = sv_sessions w /\
     match m !! dst with
     | Some x =>
         server_on_tun w io i len e = Some (w', io', IO_TASK_USE) /\ ss_vip x = dst /\ io_inv io' held /\
         replied io io' i (ss_remote_addr x) (Some (ss_sec_ctx x)) VPN_MSG_DATA (ss_sid x) ip /\
         (forall j, j ∈ held -> task_pool io' !! j = task_pool io !! j)
     | None => server_on_tun w io i len e = Some (w', io, IO_TASK_DONE) /\ io' = io
     end).
Proof.
  intros Hw He Hi. split.
  { intros Hlen. unfold server_on_tun, BUF_SIZE, VPN_TNL_HLEN.
    assert ((len <? 20) || (2048 - 20 <? len) = true) as -> by (apply orb_true_iff; rewrite !Z.ltb_lt; lia).
    eexists. split; [done|]. split; [by apply sv_ok_count|done]. }
  intros Hlen. destruct (server_on_tun_inv w m io i held len e Hw He Hi Hlen)
    as (w' & io' & st & E & (Hw' & Hss & dst & ip & Ed & Eip & Ho) & _ & _ & Hi' & Hf).
  destruct (task_buf i io) as [b|]; [|done]. cbn [mbind option_bind] in Ed, Eip.
  rewrite (find_by_ip_models (sv_sessions w) m dst (so_wf _ _ Hw) (so_models _ _ Hw)) in Ho.
  exists b, dst, ip, w', io'. do 5 (split; [done|]). destruct (m !! dst) as [x|] eqn:Ex.
  - destruct Ho as [-> Hr]. split; [done|]. split; [by eapply ss_models_vip; [apply Hw|]|]. done.
  - by destruct Ho as [-> ->].
Qed.

(** ** Key rotation *)

(** The session's context after a rotation the client asked for. *)
Definition rotated (raw : list Z) (kid now : Z) (c : vfast_sec_ctx_t) : vfast_sec_ctx_t :=
  vf_rekey_commit (stage_next raw kid now c).

Lemma stage_next_ok raw kid now c :
  sec_ok c -> length raw = REKEY_KEY_SIZE -> bytes_ok raw -> word_ok 32 kid -> sec_ok (stage_next raw kid now c).
Proof.
  intros (? & ? & _ & ?) Hl Hb Hk. split; [done|]. split; [done|]. split; [|done].
  apply mk_key_ok; [done|done|by apply word_ok_0].
Qed.

(** The request is honoured: the session's key advances, and the
    acknowledgement, sealed under the old key, is handed to the kernel. *)
Lemma vfast_handle_rekey_req_spec w m io i held l x plen src e b kid raw :
  sv_ok w m -> env_ok e -> io_inv io (i :: held) -> ss_heap (sv_sessions w) !! l = Some x ->
  task_buf i io = Some b -> 36 <= plen -> get_le HLEN 4 b = Some (htonl kid) -> word_ok 32 kid ->
  get_bytes (HLEN + 4) REKEY_KEY_SIZE b = Some raw -> k_id (active_key (ss_sec_ctx x)) < kid ->
  exists w' io', vfast_handle_rekey_req w io (Some l) i plen src e = Some (w', io') /\
    (exists m', sv_ok w' m') /\
    ss_heap (sv_sessions w') !! l = Some (set_sec_ctx (rotated raw kid (e_time e) (ss_sec_ctx x)) x) /\
    replied io io' i src (Some (stage_next raw kid (e_time e) (ss_sec_ctx x))) VPN_MSG_REKEY_ACK (ss_sid x)
      (le_bytes 4 (htonl kid)) /\
    pool_idx io' = pool_idx io /\ same_io io io' /\ io_inv io' held /\
    (forall j, j ∈ held -> task_pool io' !! j = task_pool io !! j).
Proof.
  intros Hw He Hi Ex Eb Hplen Ekid Hkid Eraw Hnew. unfold vfast_handle_rekey_req, REKEY_KEY_SIZE in *.
  destruct (Z.ltb_spec plen (4 + Z.of_nat 32)); [lia|]. rewrite Eb. cbn [mbind option_bind].
  rewrite Ex. cbn [mbind option_bind]. rewrite Ekid. cbn [mbind option_bind].
  assert (ntohl (htonl kid) = kid) as -> by (by apply (bswap_involutive 4)).
  destruct (Z.leb_spec kid (k_id (active_key (ss_sec_ctx x)))); [lia|].
  rewrite Eraw. cbn [mbind option_bind].
  destruct (task_buf_held io _ i Hi) as (b0 & Eb0 & Hl & Hb); [left|]. rewrite Eb in Eb0. apply (inj Some) in Eb0. subst b0.
  destruct (so_heap w m l x Hw Ex) as [_ [Hsec Hsid]].
  set (c1 := stage_next raw kid (e_time e) (ss_sec_ctx x)).
  assert (sec_ok c1) as Hc1.
  { apply stage_next_ok; [done|by eapply get_bytes_length|by eapply get_bytes_ok|done]. }
  destruct (sv_ok_with_sec w m l x (stage_next raw kid (e_time e)) Hw Ex Hc1) as (w1 & -> & Hw1 & Ex1).
  cbn [mbind option_bind].
  destruct (put_le_fits HLEN 4 (htonl kid) b Hl Hb) as (b1 & Eb1 & Hl1 & Hb1); [unfold HLEN; lia|].
  rewrite Eb1. cbn [mbind option_bind].
  destruct (fill_step io i held b1 Hi Hl1 Hb1) as (io1 & -> & Et1 & (Hi1 & Hs1 & Hx1 & Hr1 & Hf1)). cbn [mbind option_bind].
  rewrite Ex1. cbn [mbind option_bind ss_sec_ctx set_sec_ctx ss_sid]. fold c1.
  destruct (pack_task_delivers io1 (i :: held) i (sv_pack w1) (e_urandom e) (Some c1) 4 VPN_MSG_REKEY_ACK (ss_sid x)
    (le_bytes 4 (htonl kid)) Hi1)
    as (n & io2 & ps' & b2 & -> & Hn & Hps' & Hi2 & Hs2 & Hx2 & Hr2 & Hf2 & Et2 & Hd);
    [left|apply Hw1|apply He|done|done|done|lia| |].
  { rewrite Et1. cbn [mbind option_bind]. apply get_put_same in Eb1. by rewrite length_le_bytes in Eb1. }
  cbn [mbind option_bind]. destruct (Z.ltb_spec 0 n); [|lia].
  destruct (vf_io_write_inv io2 held i (udp_fd io2) OP_UDP_SEND n (Some src) Hi2)
    as (io3 & E3 & Hi3 & Hs3 & Hx3 & Hf3); [by left|].
  unfold base. rewrite E3. cbn [mbind option_bind].
  destruct (sv_ok_with_sec (with_pack ps' w1) _ l (set_sec_ctx c1 x) vf_rekey_commit (sv_ok_pack _ _ _ Hw1 Hps') Ex1)
    as (w2 & -> & Hw2 & Ex2); [by apply vf_rekey_commit_ok|].
  cbn [mbind option_bind]. exists w2, io3. split; [done|]. split; [eauto|]. split; [done|]. split.
  { eapply (write_replied io io2); [congruence|exact E3|exact Et2|lia|done]. }
  split; [congruence|]. split; [transitivity io1; [done|]; by transitivity io2|]. split; [done|].
  intros j Hj. pose proof (held_ne io i held j Hi Hj). by rewrite Hf3, Hf2, Hf1.
Qed.

Lemma server_on_udp_rekey_inv w m io i held len e rb b l x t kid raw :
  sv_ok w m -> env_ok e -> io_inv io (i :: held) -> task_pool io !! i = Some t -> t_buf t = rb ->
  agree (Z.to_nat len) b rb -> ss_sid x <> 0 ->
  vf_ss_lookup_by_sid (sv_sessions w) (ss_sid x) = Some (Some l) -> ss_heap (sv_sessions w) !! l = Some x ->
  delivers b len (Some (ss_sec_ctx x)) VPN_MSG_REKEY_REQ (ss_sid x) (le_bytes 4 (htonl kid) ++ raw) ->
  length raw = REKEY_KEY_SIZE -> word_ok 32 kid -> k_id (active_key (ss_sec_ctx x)) < kid ->
  let c := add_processed len (ss_sec_ctx x) in
  exists w' io', server_on_udp hmac_sha256 rc_auth w io i len e = Some (w', io', IO_TASK_DONE) /\
    (exists m', sv_ok w' m') /\
    ss_heap (sv_sessions w') !! l = Some (set_sec_ctx (rotated raw kid (e_time e) c) x) /\
    replied io io' i (t_addr t) (Some (stage_next raw kid (e_time e) c)) VPN_MSG_REKEY_ACK (ss_sid x)
      (le_bytes 4 (htonl kid)) /\ io_inv io' held.
Proof.
  intros Hw He Hi Ht Hrb Ha Hne Hsel Hl Hd Lraw Hkid Hnew c.
  destruct (heap_ok w m l Hw) as (x' & Hx' & _ & [_ Hsid] & _); [eauto|]. rewrite Hl in Hx'. apply (inj Some) in Hx'. subst x'.
  pose proof (length_le_bytes 4 (htonl kid)) as Lk.
  destruct (server_on_udp_delivered hmac_sha256 rc_auth w m io i held len e rb b (Some l) (Some (ss_sec_ctx x))
    VPN_MSG_REKEY_REQ (ss_sid x) (le_bytes 4 (htonl kid) ++ raw))
    as (t' & w2 & m2 & io1 & rb2 & noise & Ht' & Hw2 & _ & Hno & (x' & Hx' & Hl2) & Eb1 & Hg & _ & (Hi1 & Hs1 & _ & Hr1 & Hf1) & E);
    [done|done|done|unfold task_buf; rewrite Ht; cbn; congruence|exact Ha|exact Hsid| |exact Hd|].
  { split; [by rewrite decide_False|]. cbn. by rewrite Hl. }
  rewrite Hl in Hx'. apply (inj Some) in Hx'. subst x'. rewrite Ht in Ht'. apply (inj Some) in Ht'. subst t'.
  rewrite !length_app in Hg. rewrite Lk, Lraw in Hg.
  pose proof (get_bytes_sub HLEN 0 4 _ _ _ Hg ltac:(lia)) as G1.
  pose proof (get_bytes_sub HLEN 4 32 _ _ _ Hg ltac:(unfold REKEY_KEY_SIZE; lia)) as G2.
  rewrite Nat.add_0_r, drop_0, <- app_assoc, take_app_length' in G1 by done.
  rewrite <- app_assoc, drop_app_length', take_app_length' in G2 by done.
  destruct (vfast_handle_rekey_req_spec w2 m2 io1 i held l (set_sec_ctx c x)
      (Z.of_nat (length ((le_bytes 4 (htonl kid) ++ raw) ++ noise))) (t_addr t) e rb2 kid raw)
    as (w3 & io3 & Eh & Hw3 & Hx3 & Hr3 & _ & _ & Hi3 & _); [done|done|done|done|done| | |done|exact G2|done|].
  { rewrite !length_app, Lk, Lraw. unfold REKEY_KEY_SIZE. lia. }
  { unfold get_le. rewrite G1. cbn [fmap option_fmap option_map]. by rewrite le_val_bytes by (apply (bswap_ok 4)). }
  revert E. unfold server_dispatch.
  cbn [Z.eqb VPN_MSG_DATA VPN_MSG_HELLO VPN_MSG_AUTH_REQ VPN_MSG_KEEPALIVE VPN_DPD_RESPONSE VPN_MSG_REKEY_ACK VPN_MSG_REKEY_REQ Pos.eqb].
  rewrite Eh. cbn [mbind option_bind]. intros E. exists (count_pkt 1 0 0 w3), io3. split; [done|].
  split; [destruct Hw3 as [m3 ?]; exists m3; by apply sv_ok_count|]. split; [done|]. split; [|done].
  by eapply replied_ring.
Qed.

(** What a message is sealed with is the active key and its identifier. *)
Lemma replied_same_key io0 io' i dst c1 c2 type sid payload :
  k_raw (active_key c1) = k_raw (active_key c2) -> k_id (active_key c1) = k_id (active_key c2) ->
  replied io0 io' i dst (Some c1) type sid payload -> replied io0 io' i dst (Some c2) type sid payload.
Proof.
  intros Hr Hk. unfold replied. destruct (ring_push _ _); [|done]. intros (Hq & b & n & Hs & Hd). split; [done|]. exists b, n. split; [done|].
  intros sec' Hacc. apply Hd. destruct Hacc as [?|(s & s' & [= <-] & -> & ? & Ha)]; [by left|right].
  exists c1, s'. do 3 (split; [done|]). unfold vf_rekey_get_keyid, vf_rekey_get_key in *. by rewrite Hr, Hk.
Qed.

(** C20 A client rotates its session's key with one packet.  When a REKEY_REQ
    sealed under the session's key brings an identifier above the current one,
    the session's active key becomes the key and identifier of the request,
    created now and with nothing processed; the key that was active, with the
    bytes of this packet counted, becomes the previous key; no next key is
    left, and nothing else of the session changes.  An acknowledgement with
    the identifier, sealed under the old key, is queued for the sender, one
    request and nothing else, if the submission queue has room; if it is full,
    the acknowledgement is dropped, and the session has rotated all the same.
    The callback answers [IO_TASK_DONE] although the task went to the kernel:
    no task is left for the caller to release. *)
Theorem server_on_udp_rekey w m io i held len e rb b l x t kid raw :
  sv_ok w m -> env_ok e -> io_inv io (i :: held) -> task_pool io !! i = Some t -> t_buf t = rb ->
  agree (Z.to_nat len) b rb -> ss_sid x <> 0 ->
  vf_ss_lookup_by_sid (sv_sessions w) (ss_sid x) = Some (Some l) -> ss_heap (sv_sessions w) !! l = Some x ->
  delivers b len (Some (ss_sec_ctx x)) VPN_MSG_REKEY_REQ (ss_sid x) (le_bytes 4 (htonl kid) ++ raw) ->
  length raw = REKEY_KEY_SIZE -> word_ok 32 kid -> k_id (active_key (ss_sec_ctx x)) < kid ->
  let old := active_key (ss_sec_ctx x) in
  exists w' io' c', server_on_udp hmac_sha256 rc_auth w io i len e = Some (w', io', IO_TASK_DONE) /\
    (exists m', sv_ok w' m') /\ ss_heap (sv_sessions w') !! l = Some (set_sec_ctx c' x) /\
    active_key c' = {| k_raw := raw; k_id := kid; k_bytes_processed := 0; k_created_at := e_time e |} /\
    previous_key c' = {| k_raw := k_raw old; k_id := k_id old; k_bytes_processed := u64 (k_bytes_processed old + len);
                         k_created_at := k_created_at old |} /\
    next_key c' = zero_key /\ sec_sid c' = sec_sid (ss_sec_ctx x) /\ rekey_pending c' = false /\
    replied io io' i (t_addr t) (Some (ss_sec_ctx x)) VPN_MSG_REKEY_ACK (ss_sid x) (le_bytes 4 (htonl kid)) /\
    io_inv io' held.
Proof.
  intros Hw He Hi Ht Hrb Ha Hne Hsel Hl Hd Lraw Hkid Hnew old.
  destruct (server_on_udp_rekey_inv w m io i held len e rb b l x t kid raw) as (w' & io' & E & Hw' & Hx' & Hr & Hi'); [done..|].
  exists w', io', (rotated raw kid (e_time e) (add_processed len (ss_sec_ctx x))). do 8 (split; [done|]). split; [|done].
  by eapply replied_same_key; [| |exact Hr].
Qed.
End server_data.

(** * Instances *)

Lemma server_on_udp_data_witness :
  exists n b w' io' noise, let len := Z.of_nat (length ([69; 0; 0; 4] ++ noise)) in
    server_on_udp demo_hmac demo_rc server1 (demo_rx b) 0 n (demo_env 7 101) = Some (w', io', IO_TASK_DONE) /\
    ring_pending (ring io') ≡ₚ tun_write_sqe (demo_rx b) 0 len :: ring_pending (ring (demo_rx b)).
Proof.
  destruct (demo_sealed VPN_MSG_DATA [69; 0; 0; 4]) as (n & b & Hd & Hl & Hb & Ha); [by_compute|done|by_compute|cbn; lia|].
  destruct (server_on_udp_data demo_hmac demo_rc server1 demo_map (demo_rx b) 0 [] n (demo_env 7 101) b b 1%positive
    demo_session [69; 0; 0; 4] _ server1_ok (demo_env_ok _ _) (demo_rx_inv _ Hl Hb) (demo_rx_task _) eq_refl Ha)
    as (noise & _ & H); [by_compute|apply server1_session|apply server1_session|exact Hd|].
  assert (forall k, is_Some (ring_push (tun_write_sqe (demo_rx b) 0 k) (ring (demo_rx b)))) as Hroom by (intros k; vm_compute; eauto).
  destruct (Hroom (Z.of_nat (length ([69; 0; 0; 4] ++ noise)))) as [rg Erg]. rewrite Erg in H.
  rewrite decide_False in H by (intros [E _]; discriminate E). destruct H as (w' & io' & E & _ & _ & Hq & _).
  exists n, b, w', io', noise. split; [exact E|exact Hq].
Defined.

(** A packet to 10.0.0.2 is sent to the client's address. *)
Lemma server_on_tun_forwards_witness :
  exists b ip w' io', server_on_tun server1 (demo_rx b) 0 24 (demo_env 7 101) = Some (w', io', IO_TASK_USE) /\
    replied (demo_rx b) io' 0 demo_addr (Some demo_sec1) VPN_MSG_DATA demo_vsid ip.
Proof.
  set (b := replicate 36 0 ++ le_bytes 4 demo_vip ++ replicate 2008 0).
  assert (bytes_ok b) as Hb.
  { unfold b. repeat apply bytes_ok_app; try apply le_bytes_ok; apply bytes_ok_replicate; unfold byte_ok; lia. }
  destruct (server_on_tun_forwards server1 demo_map (demo_rx b) 0 [] 24 (demo_env 7 101) server1_ok
    (demo_env_ok _ _) (demo_rx_inv b eq_refl Hb)) as [_ H].
  destruct (H ltac:(lia)) as (b' & dst & ip & w' & io' & Eb & Ed & _ & _ & _ & Ho).
  unfold task_buf in Eb. rewrite demo_rx_task in Eb. injection Eb as <-.
  assert (dst = demo_vip) as -> by (apply (inj Some); rewrite <- Ed; vm_compute; reflexivity).
  exists b, ip, w', io'. unfold demo_map in Ho. rewrite lookup_insert_eq in Ho.
  destruct Ho as (E & _ & _ & Hr & _). split; [exact E|exact Hr].
Defined.

Lemma server_on_udp_rekey_witness :
  exists n b w' io' c', server_on_udp demo_hmac demo_rc server1 (demo_rx b) 0 n (demo_env 7 200) = Some (w', io', IO_TASK_DONE) /\
    ss_heap (sv_sessions w') !! 1%positive = Some (set_sec_ctx c' demo_session) /\
    (k_id (active_key c'), k_raw (active_key c'), k_id (previous_key c')) = (2, replicate 32 9, 1).
Proof.
  destruct (demo_sealed VPN_MSG_REKEY_REQ (le_bytes 4 (htonl 2) ++ replicate 32 9)) as (n & b & Hd & Hl & Hb & Ha);
    [by_compute|done|by_compute|cbn; lia|].
  destruct (server_on_udp_rekey demo_hmac demo_rc server1 demo_map (demo_rx b) 0 [] n (demo_env 7 200) b b 1%positive
    demo_session _ 2 (replicate 32 9) server1_ok (demo_env_ok _ _) (demo_rx_inv _ Hl Hb) (demo_rx_task _) eq_refl Ha)
    as (w' & io' & c' & E & _ & Hs & Ha' & Hp' & _); [by_compute|apply server1_session|apply server1_session|exact Hd|reflexivity|by_compute|cbn; lia|].
  exists n, b, w', io', c'. split; [exact E|]. split; [exact Hs|]. by rewrite Ha', Hp'.
Defined.
