(* ===== verification/Maintenance.v ===== *)
(** The server's timer (src/src/vfast.c, [vfast_server_maintenance]): idle
    sessions are probed, dead ones removed and their addresses freed. *)
From S2P Require Import Prelude Crypto Key Protocol IpPool HashTable Libc Session User Io Payload Receive Fsm Stats Server ServerDemo.

Lemma NoDup_fmap_sublist {A B} (f : A -> B) (P : A -> Prop) `{!forall x, Decision (P x)} l :
  NoDup (f <$> l) -> NoDup (f <$> filter P l).
Proof.
  induction l as [|x l IH]; [done|]. cbn [fmap list_fmap]. intros [Hn Hd]%list.NoDup_cons.
  rewrite filter_cons. case_decide; [|auto]. cbn [fmap list_fmap]. apply list.NoDup_cons. split; [|auto].
  intros Hx. apply Hn. apply list_elem_of_fmap in Hx as (y & -> & Hy). apply list_elem_of_filter in Hy as [_ Hy].
  by apply list_elem_of_fmap_2.
Qed.

Section maintenance.
Context {R : Type} `{HR : IoUring R, HRL : !IoUringLaws R}.
Context {T : Type} `{HT : HashTable Z T, HTL : !HashTableLaws Z T}.
Context {U : Type} `{HU : HashTable (list Z) U}.

Implicit Types (w : server T U) (io : vf_io_t R).

(** The addresses of the dead nodes. *)
Definition dead_vips (nodes : list vf_expired_node_t) : list Z :=
  ex_vip <$> filter (fun nd => ex_is_dead nd = true) nodes.

Definition drop_vips (vs : list Z) (m : gmap Z vf_session_t) : gmap Z vf_session_t :=
  fold_left (fun m v => delete v m) vs m.

Lemma drop_vips_lookup vs m v : drop_vips vs m !! v = if decide (v ∈ vs) then None else m !! v.
Proof.
  revert m. induction vs as [|u vs IH]; intros m; [done|]. cbn [drop_vips fold_left]. fold (drop_vips vs (delete u m)).
  rewrite IH. destruct (decide (v = u)) as [->|Hne].
  - rewrite lookup_delete_eq, (decide_True (P := u ∈ u :: vs)) by left. by case_decide.
  - rewrite lookup_delete_ne by done. repeat case_decide; try done.
    + exfalso. apply H0. by right.
    + exfalso. by apply elem_of_cons in H0 as [?|?].
Qed.

(** A node of the scan whose session is still there. *)
Definition node_live (m : gmap Z vf_session_t) (nd : vf_expired_node_t) : Prop :=
  exists s, m !! ex_vip nd = Some s /\ ss_sid s = ex_sid nd.

Lemma maintain_dead w m io e nd :
  sv_ok w m -> ex_is_dead nd = true -> node_live m nd ->
  exists w', maintain_node e (w, io) nd = Some (w', io) /\ sv_ok w' (delete (ex_vip nd) m) /\
    vf_ip_pool_free (sv_ip_pool w) (ex_vip nd) = Some (sv_ip_pool w').
Proof.
  intros Hw Hd (s & Hs & _). unfold maintain_node. rewrite Hd.
  destruct (vf_ss_delete_refines (sv_sessions w) m (ex_vip nd) (so_wf _ _ Hw) (so_models _ _ Hw))
    as (st & -> & Hwf & Hm). cbn [mbind option_bind].
  destruct (leased_free (sv_ip_pool w) m (ex_vip nd) (so_leased _ _ Hw)) as (p & Ep & Hp); [eauto|].
  rewrite Ep. cbn [mbind option_bind]. eexists. split; [done|]. split; [|done].
  destruct Hw. split; try done. intros v x Hx. apply lookup_delete_Some in Hx as [_ Hx]. eauto.
Qed.

Lemma maintain_alive w m io held n e nd :
  sv_ok w m -> env_ok e -> io_inv io held -> io_budget io (S n) -> ex_is_dead nd = false -> node_live m nd ->
  word_ok 32 (ex_sid nd) ->
  exists w' io', maintain_node e (w, io) nd = Some (w', io') /\ sv_ok w' m /\ sv_ip_pool w' = sv_ip_pool w /\
    io_inv io' held /\ io_budget io' n /\ same_io io io' /\
    (forall j, j ∈ held -> task_pool io' !! j = task_pool io !! j).
Proof.
  intros Hw He Hi Hb Hd (s0 & Hs0 & Hsid0) Hsid. unfold maintain_node. rewrite Hd. unfold vf_io_task.
  destruct (get_task_inv io held n Hi Hb) as (r & io1 & -> & Hs1 & Hb1 & Hr). cbn [mbind option_bind].
  destruct r as [i|].
  2: { destruct Hr as (Hi1 & Hp & _). exists w, io1. do 3 (split; [done|]). split; [done|]. split; [done|].
       split; [done|]. intros j _. by rewrite Hp. }
  destruct Hr as (Hi1 & Hnb & t & Ht & Hp).
  assert (forall j, j ∈ held -> task_pool io1 !! j = task_pool io !! j) as Hf1.
  { intros j Hj. rewrite Hp, list_lookup_insert_ne; [done|]. intros ->. by destruct (held_ne io1 j held j Hi1 Hj). }
  destruct (lookup_by_sid_wf (sv_sessions w) (ex_sid nd) (so_wf _ _ Hw)) as (r & -> & Hr). cbn [mbind option_bind].
  destruct r as [l|].
  2: { exfalso. apply (so_models _ _ Hw) in Hs0 as (l & Hl & _). by apply (Hr l s0). }
  destruct Hr as (s & Hl & _). rewrite Hl. cbn [mbind option_bind].
  destruct (so_heap w m l s Hw Hl) as [_ [Hsec _]].
  destruct (task_payload io1 (i :: held) i 0 Hi1) as [pl Hpl]; [left|lia|].
  destruct (pack_task_delivers io1 (i :: held) i (sv_pack w) (e_urandom e) (Some (ss_sec_ctx s)) 0 VPN_DPD_REQUEST
    (ex_sid nd) pl Hi1)
    as (m0 & io2 & ps' & b2 & -> & Hm0 & Hps' & Hi2 & Hs2 & Hx2 & _ & Hf2 & _);
    [left|apply Hw|apply He|done|done|done|lia|done|].
  cbn [mbind option_bind]. destruct (Z.ltb_spec 0 m0); [|lia].
  destruct (vf_io_write_inv io2 held i (udp_fd io2) OP_UDP_SEND m0 (Some (ex_remote_addr nd)) Hi2)
    as (io3 & E3 & Hi3 & Hs3 & Hx3 & Hf3); [by left|].
  unfold base. rewrite E3. cbn [mbind option_bind]. exists (with_pack ps' w), io3. split; [done|].
  split; [by apply sv_ok_pack|]. split; [done|]. split; [done|].
  assert (same_io io1 io3) as Hs13 by by transitivity io2.
  split; [apply (budget_same io1); [congruence|done|done]|]. split; [by transitivity io1|].
  intros j Hj. pose proof (held_ne io1 i held j Hi1 Hj). by rewrite Hf3, Hf2, Hf1.
Qed.

Lemma maintain_nodes nodes w m io held n e :
  sv_ok w m -> env_ok e -> io_inv io held -> io_budget io (length nodes + n) -> NoDup (ex_vip <$> nodes) ->
  Forall (node_live m) nodes ->
  exists w' io', foldM (maintain_node e) (w, io) nodes = Some (w', io') /\ sv_ok w' (drop_vips (dead_vips nodes) m) /\
    foldM vf_ip_pool_free (sv_ip_pool w) (dead_vips nodes) = Some (sv_ip_pool w') /\
    io_inv io' held /\ io_budget io' n /\ same_io io io' /\
    (forall j, j ∈ held -> task_pool io' !! j = task_pool io !! j).
Proof.
  revert w m io. induction nodes as [|nd nodes IH]; intros w m io Hw He Hi Hb Hnd Hlv; [by exists w, io|].
  cbn [fmap list_fmap] in Hnd. apply list.NoDup_cons in Hnd as [Hni Hnd].
  apply Forall_cons_iff in Hlv as [Hl Hlv]. cbn [foldM].
  destruct (ex_is_dead nd) eqn:Ed.
  - destruct (maintain_dead w m io e nd Hw Ed Hl) as (w1 & -> & Hw1 & Ep). cbn [mbind option_bind].
    unfold dead_vips. rewrite filter_cons_True by done. cbn [fmap list_fmap foldM]. rewrite Ep. cbn [mbind option_bind].
    apply IH; [done|done|done| |done|].
    + eapply budget_le; [|rewrite <- (ii_size _ _ Hi); lia|exact Hb]. cbn. lia.
    + rewrite list.Forall_forall in Hlv |- *. intros x Hx. destruct (Hlv x Hx) as (s & Hs & Hsid). exists s.
      split; [|done]. rewrite lookup_delete_ne; [done|].
      intros E. apply Hni. rewrite E. by apply list_elem_of_fmap_2.
  - assert (word_ok 32 (ex_sid nd)) as Hsid.
    { destruct Hl as (s & Hs & <-). by apply (so_sess _ _ Hw) in Hs as [_ ?]. }
    destruct (maintain_alive w m io held (length nodes + n) e nd Hw He Hi Hb Ed Hl Hsid)
      as (w1 & io1 & -> & Hw1 & Ep & Hi1 & Hb1 & Hs1 & Hf1). cbn [mbind option_bind].
    destruct (IH w1 m io1 Hw1 He Hi1 Hb1 Hnd Hlv) as (w2 & io2 & -> & Hw2 & Ep2 & Hi2 & Hb2 & Hs2 & Hf2).
    unfold dead_vips in *. rewrite filter_cons_False by congruence. rewrite Ep in Ep2.
    exists w2, io2. split; [done|]. split; [done|]. split; [done|]. split; [done|]. split; [done|].
    split; [by transitivity io1|]. intros j Hj. by rewrite Hf2, Hf1.
Qed.

Lemma server_maintenance_inv w m io held n e :
  sv_ok w m -> env_ok e -> io_inv io held -> io_budget io (64 + n) ->
  exists w' io' vs, vfast_server_maintenance w io e = Some (w', io') /\ sv_ok w' (drop_vips vs m) /\
    foldM vf_ip_pool_free (sv_ip_pool w) vs = Some (sv_ip_pool w') /\ NoDup vs /\
    (forall v, v ∈ vs -> exists s, m !! v = Some s /\ 30 <= e_time e - ss_last_seen s) /\
    ((forall sel, NoDup sel -> (forall v, v ∈ sel -> exists s, m !! v = Some s /\ 15 <= e_time e - ss_last_seen s) ->
        (length sel < 64)%nat) ->
     forall v s, m !! v = Some s -> 30 <= e_time e - ss_last_seen s -> v ∈ vs) /\
    io_inv io' held /\ io_budget io' n /\ same_io io io' /\
    (forall j, j ∈ held -> task_pool io' !! j = task_pool io !! j).
Proof.
  intros Hw He Hi Hb. unfold vfast_server_maintenance.
  destruct (idle_scan_exact (sv_sessions w) m 64 15 30 (e_time e) (so_wf _ _ Hw) (so_models _ _ Hw))
    as (nodes & -> & Hlen & Hnd & Hn & Hall); [lia|]. cbn [mbind option_bind].
  destruct (maintain_nodes nodes w m io held n e Hw He Hi) as (w' & io' & E & Hw' & Ep & Hi' & Hb' & Hs' & Hf');
    [|done| |].
  { eapply budget_le; [|rewrite <- (ii_size _ _ Hi); lia|exact Hb]. lia. }
  { apply list.Forall_forall. intros nd Hin. destruct (Hn nd Hin) as (s & Hs & Hsid & _). by exists s. }
  exists w', io', (dead_vips nodes). split; [done|]. split; [done|]. split; [done|]. split; [|split; [|split; [|done]]].
  - unfold dead_vips. by apply NoDup_fmap_sublist.
  - intros v Hv. apply list_elem_of_fmap in Hv as (nd & -> & Hnd'). apply list_elem_of_filter in Hnd' as [Hd Hin].
    destruct (Hn nd Hin) as (s & Hs & _ & _ & _ & Hdead). exists s. split; [done|].
    rewrite Hd in Hdead. symmetry in Hdead. by apply Z.leb_le in Hdead.
  - intros Hfew v s Hs Hidle. assert (length nodes < 64)%nat as Hlt.
    { rewrite <- (length_fmap ex_vip). apply Hfew; [done|]. intros u Hu. apply list_elem_of_fmap in Hu as (nd & -> & Hin).
      destruct (Hn nd Hin) as (s' & ? & _ & _ & ? & _). eauto. }
    specialize (Hall Hlt v s Hs ltac:(lia)). apply list_elem_of_fmap in Hall as (nd & -> & Hin).
    apply list_elem_of_fmap. exists nd. split; [done|]. apply list_elem_of_filter. split; [|done].
    destruct (Hn nd Hin) as (s' & Hs2 & _ & _ & _ & ->). rewrite Hs in Hs2. injection Hs2 as <-. by apply Z.leb_le.
Qed.
(** C21 The maintenance timer collects dead sessions and nothing else.  It is
    total, acquires at most 64 tasks and loses none; afterwards the sessions
    are those from before without the ones it removed, each of which had been
    silent for thirty seconds, and when fewer than 64 sessions were idle all
    such are gone; the address of every removed session, and no other, is
    returned to the pool. *)
Theorem server_maintenance_exact w m io held n e :
  sv_ok w m -> env_ok e -> io_inv io held -> io_budget io (64 + n) ->
  exists w' io' vs, vfast_server_maintenance w io e = Some (w', io') /\ sv_ok w' (drop_vips vs m) /\
    foldM vf_ip_pool_free (sv_ip_pool w) vs = Some (sv_ip_pool w') /\ NoDup vs /\
    (forall v, v ∈ vs -> exists s, m !! v = Some s /\ 30 <= e_time e - ss_last_seen s) /\
    ((forall sel, NoDup sel -> (forall v, v ∈ sel -> exists s, m !! v = Some s /\ 15 <= e_time e - ss_last_seen s) ->
        (length sel < 64)%nat) ->
     forall v s, m !! v = Some s -> 30 <= e_time e - ss_last_seen s -> v ∈ vs) /\
    io_inv io' held /\ io_budget io' n /\ same_io io io' /\
    (forall j, j ∈ held -> task_pool io' !! j = task_pool io !! j).
Proof. apply server_maintenance_inv. Qed.
End maintenance.

(** After thirty silent seconds the session is gone. *)
Lemma server_maintenance_exact_witness :
  exists w' io' vs, vfast_server_maintenance server1 (demo_io 4) (demo_env 7 130) = Some (w', io') /\
    sv_ok w' (drop_vips vs demo_map) /\ demo_vip ∈ vs.
Proof.
  destruct (server_maintenance_exact server1 demo_map (demo_io 4) [] 0 (demo_env 7 130) server1_ok (demo_env_ok _ _)
    (demo_io_inv 4 ltac:(lia))) as (w' & io' & vs & E & Hw & _ & _ & _ & Hall & _).
  - split; vm_compute; [discriminate|reflexivity].
  - exists w', io', vs. split; [exact E|]. split; [exact Hw|].
    eapply Hall; [|apply lookup_insert_eq|vm_compute; discriminate].
    intros sel Hn Hs. assert (forall v, v ∈ sel -> v ∈ [demo_vip]) as Hin.
    { intros v Hv. destruct (Hs v Hv) as (s & Hm & _). unfold demo_map in Hm.
      apply lookup_insert_Some in Hm as [[<- _]|[_ Hm]]; [left|by rewrite lookup_empty in Hm]. }
    apply (list.NoDup_submseteq _ _ Hn) in Hin. apply submseteq_length in Hin. cbn in Hin. lia.
Defined.
