(* ===== verification/ServerRun.v ===== *)
(** The server under its event loop: the callbacks of src/src/vfast_server.c
    and src/src/vfast.c, as [vf_io_run] of src/src/io.c runs them. *)
From S2P Require Import Prelude Crypto Key Protocol IpPool HashTable Libc Session User Io Payload Receive Fsm Stats Server ServerDemo ServerRx ServerData Maintenance.

Section server_run.
Context {R : Type} `{HR : IoUring R, HRL : !IoUringLaws R}.
Context {T : Type} `{HT : HashTable Z T, HTL : !HashTableLaws Z T}.
Context {U : Type} `{HU : HashTable (list Z) U}.
Variable hmac_sha256 : list Z -> list Z -> list Z.
Variable rc_auth : list Z -> list Z -> rc_result.
(** What the surroundings answer at the [k]-th callback. *)
Variable env : nat -> sv_env.

(** The server and the number of callbacks so far. *)
Definition server_world : Type := server T U * nat.

Definition run_on_udp (w : server_world) (io : vf_io_t R) (i : nat) (len : Z)
    : option (server_world * vf_io_t R * vf_task_state_t) :=
  let '(w, k) := w in
  '(w, io, st) ← server_on_udp hmac_sha256 rc_auth w io i len (env k); Some (w, S k, io, st).
Definition run_on_tun (w : server_world) (io : vf_io_t R) (i : nat) (len : Z)
    : option (server_world * vf_io_t R * vf_task_state_t) :=
  let '(w, k) := w in
  '(w, io, st) ← server_on_tun w io i len (env k); Some (w, S k, io, st).
Definition run_on_timer (w : server_world) (io : vf_io_t R) : option (server_world * vf_io_t R) :=
  let '(w, k) := w in
  '(w, io) ← vfast_server_maintenance w io (env k); Some (w, S k, io).
(** [arg] is the engine itself, so the guard of [vfast_path_mtu_updated]
    always returns. *)
Definition run_on_pmtud (w : server_world) (io : vf_io_t R) (mtu : Z) : option (server_world * vf_io_t R) :=
  a ← vfast_path_mtu_updated mtu (Some io); io ← a; Some (w, io).

Hypothesis hmac_ok : forall k m, length (hmac_sha256 k m) = 32%nat /\ bytes_ok (hmac_sha256 k m).
Hypothesis envs_ok : forall k, env_ok (env k).

Definition world_ok (w : server_world) : Prop := exists m, sv_ok w.1 m.

(** The datagrams a run is safe with.  Excluded are: data and key requests
    that a session could accept, since they name one and have room for nonce
    and tag ([server_on_udp] gives their task to the kernel and then tells the
    loop that it is done with it, or with a data packet marks another task's
    buffer); and complete authentication requests without a NUL from the
    password field on, where [strlen] reads past the buffer.  Everything else
    is allowed: shorter or longer datagrams, unknown types, bad masks, and
    data and key requests for no session or too short to be opened. *)
Definition control_packet (d : list Z) : Prop :=
  let len := Z.of_nat (length d) in
  VPN_TNL_HLEN <= len ->
  match udp_type d len, udp_sid d len with
  | Some ty, Some sid => (ty = VPN_MSG_DATA \/ ty = VPN_MSG_REKEY_REQ -> never_accepted ty sid len) /\
      (ty = VPN_MSG_AUTH_REQ -> len < VPN_TNL_HLEN + AUTH_REQ_SIZE \/ is_Some (strlen (drop AUTH_REQ_PASSWORD d)))
  | _, _ => False
  end.

Lemma control_packet_owned b len :
  length b = 2048%nat -> 0 <= len <= BUF_SIZE -> control_packet (take (Z.to_nat len) b) ->
  VPN_TNL_HLEN <= len -> well_owned b len.
Proof.
  unfold control_packet, well_owned, BUF_SIZE. intros Hl Hlen Hc Hge. set (d := take (Z.to_nat len) b) in *.
  assert (length d = Z.to_nat len) as Ld by (unfold d; rewrite length_take; lia).
  cbn zeta in Hc. rewrite Ld, Z2Nat.id in Hc by lia. specialize (Hc Hge). unfold VPN_TNL_HLEN in Hge.
  destruct (udp_type d len) as [ty|] eqn:Et; [|done]. destruct (udp_sid d len) as [sid|] eqn:Es; [|done].
  assert (udp_type b len = Some ty /\ udp_sid b len = Some sid) as [-> ->].
  { unfold udp_type, udp_sid in *. apply bind_Some in Et as (d1 & E1 & Et). rewrite E1 in Es. cbn [mbind option_bind] in Es.
    destruct (vf_remove_header_obfs_agree (Z.to_nat len) d b len d1) as (b1 & -> & Ha); [|hlia|done|].
    - split; [lia|]. split; [lia|]. unfold d. by rewrite take_take, Nat.min_id.
    - cbn [mbind option_bind]. by rewrite <- !(agree_get_le (Z.to_nat len) d1 b1) by (done || hlia). }
  destruct Hc as (? & Ha). split; [done|]. intros Hty. destruct (Ha Hty) as [?|Hs]; [by left|right].
  rewrite <- (take_drop (Z.to_nat len) b), drop_app. fold d. by apply strlen_prefix.
Qed.

Lemma run_on_udp_ok : data_cb_ok world_ok BUF_SIZE control_packet run_on_udp.
Proof.
  intros [w k] io i res held n t [m Hw] Hi Hb Hres Ht Hpre. unfold run_on_udp.
  destruct (held_lookup io _ i Hi) as (t' & Ht' & Hl & Hbs); [left|]. rewrite Ht in Ht'. apply (inj Some) in Ht'. subst t'.
  assert (cb_result (server_on_udp hmac_sha256 rc_auth w io i res (env k)) io i held (fun _ w' _ => exists m', sv_ok w' m'))
    as (w' & io' & st & -> & Hw' & Hx & Hs & Hi' & Hf).
  { destruct (decide (VPN_TNL_HLEN <= res)) as [Hge|Hlt].
    - apply (server_on_udp_inv hmac_sha256 rc_auth hmac_ok w m io i held res (env k) (t_buf t)); try done.
      + unfold task_buf. by rewrite Ht.
      + by apply control_packet_owned.
    - unfold server_on_udp. rewrite Ht. cbn [mbind option_bind]. destruct (Z.ltb_spec res VPN_TNL_HLEN); [|lia].
      eexists _, io, IO_TASK_DONE. split; [done|]. split; [exists m; by apply sv_ok_count|done]. }
  cbn [mbind option_bind]. exists (w', S k), io', st. split; [done|]. split; [done|].
  split; [by eapply budget_same|]. done.
Qed.

Lemma run_on_tun_ok mtu :
  mtu <= 1957 -> data_cb_ok world_ok (Z.max 0 (Z.min (BUF_SIZE - VPN_TNL_HLEN) mtu)) (fun _ => True) run_on_tun.
Proof.
  intros Hmtu [w k] io i res held n t [m Hw] Hi Hb Hres Ht _. unfold run_on_tun.
  assert (cb_result (server_on_tun w io i res (env k)) io i held (fun _ w' _ => exists m', sv_ok w' m'))
    as (w' & io' & st & -> & Hw' & Hx & Hs & Hi' & Hf).
  { destruct (decide (20 <= res)) as [Hge|Hlt].
    - destruct (server_on_tun_inv w m io i held res (env k) Hw (envs_ok k) Hi) as (w' & io' & st & E & (Hw' & _) & Hr);
        [lia|]. exists w', io', st. split; [done|]. split; [by exists m|done].
    - unfold server_on_tun. destruct (Z.ltb_spec res 20); [|lia]. cbn [orb].
      eexists _, io, IO_TASK_DONE. split; [done|]. split; [exists m; by apply sv_ok_count|done]. }
  cbn [mbind option_bind]. exists (w', S k), io', st. split; [done|]. split; [done|].
  split; [by eapply budget_same|]. done.
Qed.

Lemma run_on_timer_ok : idle_cb_ok world_ok 64 run_on_timer.
Proof.
  intros [w k] io held n [m Hw] Hi Hb. unfold run_on_timer.
  destruct (server_maintenance_inv w m io held n (env k) Hw (envs_ok k) Hi Hb)
    as (w' & io' & vs & -> & Hw' & _ & _ & _ & _ & Hi' & Hb' & Hs' & Hf').
  cbn [mbind option_bind]. exists (w', S k), io'. split; [done|]. split; [by eexists|]. done.
Qed.

Lemma run_on_pmtud_ok mtu : idle_cb_ok world_ok 0 (fun w io => run_on_pmtud w io mtu).
Proof. intros w io held n Hw Hi Hb. exists w, io. done. Qed.

(** C16 The server runs.  From an engine set up by [vf_io_init] with a TUN device
    whose MTU is at most 1957, and any server state that satisfies the
    invariant, every finite run of the event loop with the server's four
    callbacks completes without undefined behaviour, whatever the TUN device
    delivers, whenever the timer fires, and whatever arrives, except two kinds
    of datagram, which [control_packet] excludes: data and key requests that
    name a session and are long enough to be opened (when they are accepted,
    the loop is told that a task is free which the kernel was given), and
    complete authentication requests whose password is not terminated (the
    copy reads past the buffer).  Afterwards the sessions, the address pool
    and the keys are consistent, and every task belongs to at most one pending
    request, the loop's descriptors are those it started with, and [running] is
    cleared if a signal stopped the loop.  The number of events is bounded by
    what an [int] index of the pool can count, and the kernel keeps to
    [kernel_ok]: it completes only requests that are pending, and stores and
    reports no more bytes than were asked for. *)
Theorem server_run_safe mtu w io u t size r now0 es :
  mtu <= 1957 -> 0 <= size -> ring_pending r = [] -> pool_idx io = 0 -> world_ok w ->
  let io0 := (vf_io_init io u t size true (inr r)).2 in
  (32 + Z.of_nat (run_cost 64 es)) * size < 2 ^ 31 ->
  (forall io1, vf_io_warm_up (set_running true io0) = Some io1 ->
     kernel_ok mtu control_packet run_on_udp run_on_tun run_on_timer run_on_pmtud
       {| ls_world := w; ls_io := io1; ls_last_tick := now0; ls_last_stat := 0 |} es) ->
  exists s, vf_io_run run_on_udp run_on_tun run_on_timer run_on_pmtud w io0 now0 es = Some s /\
    world_ok (ls_world s) /\ io_inv (ls_io s) [] /\ udp_fd (ls_io s) = u /\ tun_fd (ls_io s) = t /\
    running (ls_io s) = running_after es.
Proof.
  intros Hmtu Hs Hr Hx Hw io0 Hb Hk.
  apply (vf_io_run_inv mtu control_packet world_ok run_on_udp run_on_tun run_on_timer run_on_pmtud 64
    run_on_udp_ok (run_on_tun_ok mtu Hmtu) run_on_timer_ok run_on_pmtud_ok w io u t size r now0 es); done.
Qed.
End server_run.

(** * Instance: one unintelligible datagram *)

Lemma server_run_safe_witness :
  exists s, vf_io_run (run_on_udp demo_hmac demo_rc (fun _ => demo_env 7 130))
      (run_on_tun (fun _ => demo_env 7 130)) (run_on_timer (fun _ => demo_env 7 130)) run_on_pmtud (server1, 0%nat)
      (vf_io_init (zero_io ring0) 3 4 4 true (inr ring0)).2 0 [demo_event] = Some s /\
    world_ok (ls_world s) /\ io_inv (ls_io s) [] /\ udp_fd (ls_io s) = 3 /\ tun_fd (ls_io s) = 4 /\ running (ls_io s) = true.
Proof.
  apply (server_run_safe demo_hmac demo_rc (fun _ => demo_env 7 130) demo_hmac_ok (fun _ => demo_env_ok _ _) 1400
    (server1, 0%nat) (zero_io ring0) 3 4 4 ring0 0 [demo_event]);
    [lia|lia|reflexivity|reflexivity|exists demo_map; exact server1_ok|vm_compute; reflexivity|].
  intros io1 E. split; [|done]. split; [done|]. split.
  - cbn [demo_event ev_batch]. constructor; [|constructor]. split; [|split].
    + cbn [co_data]. apply bytes_ok_replicate. unfold byte_ok. lia.
    + intros _. reflexivity.
    + cbn [co_sqe sq_req co_data]. split; [rewrite length_replicate; unfold BUF_SIZE; lia|].
      intros _. vm_compute. split; [by intros [?|?]|]. discriminate.
  - cbn [ls_io]. rewrite (demo_warm_up io1 E).
    eexists. cbn [demo_event ev_batch fmap list_fmap co_sqe app]. apply Permutation_swap.
Defined.
