(* ===== verification/Sys.v ===== *)
(** The system calls that the source makes outside its event loop, as a
    state monad over an operating system whose answers are an argument, and
    the address functions of the C library. *)
From S2P Require Import Prelude Libc Key.

(** * The operating system *)

(** The union of [struct ifreq]. *)
Inductive ifr_data :=
| IfrNone
| IfrFlags (flags : Z)
| IfrMtu (mtu : Z)
| IfrAddr (a : sockaddr_in)
| IfrNetmask (a : sockaddr_in).

(** [struct ifreq]; [ifr_name] is the 16-byte field. *)
Record ifreq := { ifr_name : list Z; ifr_u : ifr_data }.

Inductive ioctl_req := TUNSETIFF | TUNGETIFF | SIOCSIFMTU | SIOCGIFFLAGS | SIOCSIFFLAGS | SIOCSIFADDR | SIOCSIFNETMASK | SIOCGIFINDEX.

(** Options by level and name. *)
Inductive sockopt :=
| SO_RCVBUF | SO_SNDBUF | SO_REUSEADDR | SO_REUSEPORT | SO_RCVTIMEO | SO_SNDTIMEO | SO_BROADCAST
| IP_MTU_DISCOVER | IP_RECVERR | IPV6_MTU_DISCOVER | IPV6_RECVERR.

Inductive syscall :=
| ScOpen (path : list Z) (flags mode : Z)
| ScSocket (domain type proto : Z)
| ScClose (fd : Z)
| ScIoctl (fd : Z) (req : ioctl_req) (arg : ifreq)
| ScGetfl (fd : Z)
| ScSetfl (fd flags : Z)
| ScSetsockopt (fd : Z) (opt : sockopt) (val : list Z)
| ScBind (fd : Z) (a : sockaddr_in)
| ScConnect (fd : Z) (a : option sockaddr_in)
| ScGetsockname (fd : Z)
| ScShutdown (fd : Z)
| ScSendto (fd : Z) (data : list Z) (a : sockaddr_in)
| ScSendtoLl (fd : Z) (data : list Z) (if_index : Z) (mac : list Z)
| ScRecvfrom (fd n : Z)
| ScUsleep (us : Z)
| ScFstat (fd : Z)
| ScRead (fd n : Z)
| ScWrite (fd : Z) (data : list Z)
| ScFchmod (fd mode : Z)
| ScFdatasync (fd : Z)
| ScUnlink (path : list Z)
| ScMalloc (size : Z)
| ScFree (p : Z)
| ScListen (fd backlog : Z)
| ScAccept (fd : Z)
| ScBindUn (fd : Z) (path : list Z)
| ScConnectUn (fd : Z) (path : list Z)
| ScSend (fd : Z) (data : list Z)
| ScRecv (fd n : Z)
| ScSleep (s : Z)
| ScSigIgn (sig : Z)
| ScSigaction (sig : Z)
| ScThreadCreate
| ScStat (path : list Z)
| ScRealpath (path : list Z).

#[export] Instance ifr_data_eq_dec : EqDecision ifr_data.
Proof. solve_decision. Defined.
#[export] Instance ifreq_eq_dec : EqDecision ifreq.
Proof. solve_decision. Defined.
#[export] Instance ioctl_req_eq_dec : EqDecision ioctl_req.
Proof. solve_decision. Defined.
#[export] Instance sockopt_eq_dec : EqDecision sockopt.
Proof. solve_decision. Defined.
#[export] Instance syscall_eq_dec : EqDecision syscall.
Proof. solve_decision. Defined.

(** An answer: the return value, [errno] when that is negative, and what the
    call stores through its pointers. *)
Record reply := { rp_ret : Z; rp_errno : Z; rp_val : Z; rp_bytes : list Z; rp_addr : sockaddr_in }.

(** [os_kernel] answers the calls one after another; the other fields are the
    open descriptors, the live heap blocks, the calls so far, latest first,
    and those of them that named a descriptor that was not open. *)
Record os := {
  os_kernel : nat -> reply;
  os_clock : nat;
  os_fds : list Z;
  os_heap : list Z;
  os_log : list syscall;
  os_stale : list syscall
}.

Definition EBADF : Z := 9.
Definition EINVAL : Z := 22.
Definition ENAMETOOLONG : Z := 36.
Definition EAGAIN : Z := 11.
Definition ENOPROTOOPT : Z := 92.
Definition ENOBUFS : Z := 105.
Definition ECONNREFUSED : Z := 111.
Definition EEXIST : Z := 17.

Definition sc_fd (c : syscall) : option Z :=
  match c with
  | ScClose fd | ScIoctl fd _ _ | ScGetfl fd | ScSetfl fd _ | ScSetsockopt fd _ _ | ScBind fd _ | ScConnect fd _
  | ScGetsockname fd | ScShutdown fd | ScSendto fd _ _ | ScSendtoLl fd _ _ _ | ScRecvfrom fd _ | ScFstat fd
  | ScRead fd _ | ScWrite fd _ | ScFchmod fd _ | ScFdatasync fd | ScListen fd _ | ScAccept fd | ScBindUn fd _
  | ScConnectUn fd _ | ScSend fd _ | ScRecv fd _ => Some fd
  | ScOpen _ _ _ | ScSocket _ _ _ | ScUsleep _ | ScUnlink _ | ScMalloc _ | ScFree _ | ScSleep _ | ScSigIgn _ | ScSigaction _ | ScThreadCreate | ScStat _ | ScRealpath _ => None
  end.

Definition sc_opens (c : syscall) : bool :=
  match c with ScOpen _ _ _ | ScSocket _ _ _ => true | _ => false end.

(** The lowest number that is not taken, as POSIX promises for descriptors. *)
Fixpoint lowest_free (fuel : nat) (n : Z) (taken : list Z) : Z :=
  match fuel with
  | O => n
  | S fuel => if decide (n ∈ taken) then lowest_free fuel (n + 1) taken else n
  end.
Definition new_fd (taken : list Z) : Z := lowest_free (length taken) 0 taken.

Definition with_ret (x e : Z) (r : reply) : reply :=
  {| rp_ret := x; rp_errno := e; rp_val := rp_val r; rp_bytes := rp_bytes r; rp_addr := rp_addr r |}.

(** * The monad.  [None]: undefined behaviour of the program. *)

Definition sys (A : Type) : Type := os -> option (A * os).
#[export] Instance sys_ret : MRet sys := fun A x o => Some (x, o).
#[export] Instance sys_bind : MBind sys := fun A B f m o => match m o with Some (x, o) => f x o | None => None end.
#[global] Typeclasses Opaque sys.

Definition sys_ub {A} : sys A := fun _ => None.
Definition sys_opt {A} (x : option A) : sys A := fun o => match x with Some x => Some (x, o) | None => None end.

Definition syscall_do (c : syscall) : sys reply := fun o =>
  let r := os_kernel o (os_clock o) in
  let log := c :: os_log o in
  let next fds heap stale :=
    {| os_kernel := os_kernel o; os_clock := S (os_clock o); os_fds := fds; os_heap := heap; os_log := log; os_stale := stale |} in
  match sc_fd c with
  | Some fd =>
      if decide (fd ∈ os_fds o) then
        match c with
        | ScClose _ => Some (r, next (filter (fun x => x <> fd) (os_fds o)) (os_heap o) (os_stale o))
        | ScAccept _ =>
            if rp_ret r <? 0 then Some (r, next (os_fds o) (os_heap o) (os_stale o))
            else let fd := new_fd (os_fds o) in Some (with_ret fd 0 r, next (fd :: os_fds o) (os_heap o) (os_stale o))
        | _ => Some (r, next (os_fds o) (os_heap o) (os_stale o))
        end
      else Some (with_ret (-1) EBADF r, next (os_fds o) (os_heap o) (c :: os_stale o))
  | None =>
      match c with
      | ScMalloc _ =>
          if rp_ret r <? 0 then Some (r, next (os_fds o) (os_heap o) (os_stale o))
          else let p := Z.of_nat (os_clock o) in
               Some (with_ret p 0 r, next (os_fds o) (p :: os_heap o) (os_stale o))
      | ScFree p =>
          if decide (p ∈ os_heap o) then
            Some (r, next (os_fds o) (filter (fun x => x <> p) (os_heap o)) (os_stale o))
          else None
      | _ =>
          if sc_opens c && negb (rp_ret r <? 0) then
            let fd := new_fd (os_fds o) in
            Some (with_ret fd 0 r, next (fd :: os_fds o) (os_heap o) (os_stale o))
          else Some (r, next (os_fds o) (os_heap o) (os_stale o))
      end
  end.

(** * Addresses as text *)

Definition char0 : Z := 48.
Definition char_dot : Z := 46.

(** A byte in decimal. *)
Definition dec_byte (b : Z) : list Z :=
  if b <? 10 then [char0 + b]
  else if b <? 100 then [char0 + b / 10; char0 + b mod 10]
  else [char0 + b / 100; char0 + b / 10 mod 10; char0 + b mod 10].

(** [inet_ntop(AF_INET, ...)] with a large enough buffer: the text and its
    NUL. *)
Definition inet_ntop (addr : Z) : list Z :=
  match dec_byte <$> le_bytes 4 addr with
  | [a; b; c; d] => a ++ char_dot :: b ++ char_dot :: c ++ char_dot :: d ++ [0]
  | _ => []
  end.

(** [inet_pton(AF_INET, ...)]: finished octets, and the one being read.
    Leading zeros are refused. *)
Fixpoint pton_loop (s : list Z) (octets : list Z) (cur : option Z) : option (list Z) :=
  match s with
  | [] => match cur with Some x => Some (octets ++ [x]) | None => None end
  | ch :: s =>
      if (char0 <=? ch) && (ch <=? 57) then
        match cur with
        | Some x =>
            if x =? 0 then None else
            let new := x * 10 + (ch - char0) in
            if 255 <? new then None else pton_loop s octets (Some new)
        | None => if (3 <? Z.of_nat (length octets)) then None else pton_loop s octets (Some (ch - char0))
        end
      else if ch =? char_dot then
        match cur with
        | Some x => if (3 <=? Z.of_nat (length octets)) then None else pton_loop s (octets ++ [x]) None
        | None => None
        end
      else None
  end.

(** The outer option: the string has no NUL. *)
Definition inet_pton (s : list Z) : option (option Z) :=
  s ← cstr s;
  Some (octets ← pton_loop s [] None;
        if (length octets =? 4)%nat then Some (le_val octets) else None).

Lemma pton_digit d cur s octets :
  0 <= d <= 9 ->
  pton_loop ((char0 + d) :: s) octets cur =
    match cur with
    | Some x => if x =? 0 then None else if 255 <? x * 10 + d then None else pton_loop s octets (Some (x * 10 + d))
    | None => if 3 <? Z.of_nat (length octets) then None else pton_loop s octets (Some d)
    end.
Proof.
  intros Hd. cbn [pton_loop]. unfold char0. destruct (Z.leb_spec 48 (48 + d)); [|lia]. destruct (Z.leb_spec (48 + d) 57); [|lia].
  cbn [andb]. by replace (48 + d - 48) with d by lia.
Qed.

(** The digits of an octet are read as that octet. *)
Lemma pton_octet b s octets :
  byte_ok b -> (length octets <= 3)%nat -> pton_loop (dec_byte b ++ s) octets None = pton_loop s octets (Some b).
Proof.
  unfold byte_ok, dec_byte. intros Hb Ho.
  pose proof (Z.div_mod b 10 ltac:(lia)) as E1. pose proof (Z.mod_pos_bound b 10 ltac:(lia)).
  destruct (Z.ltb_spec b 10); cbn [app].
  { rewrite pton_digit by lia. by destruct (Z.ltb_spec 3 (Z.of_nat (length octets))); [lia|]. }
  pose proof (Z.div_mod (b / 10) 10 ltac:(lia)) as E2. pose proof (Z.mod_pos_bound (b / 10) 10 ltac:(lia)).
  assert (b / 100 = b / 10 / 10) as E3 by (rewrite Z.div_div by lia; done).
  destruct (Z.ltb_spec b 100); cbn [app].
  - rewrite pton_digit by lia. destruct (Z.ltb_spec 3 (Z.of_nat (length octets))); [lia|].
    rewrite pton_digit by lia. destruct (Z.eqb_spec (b / 10) 0); [lia|]. destruct (Z.ltb_spec 255 (b / 10 * 10 + b mod 10)); [lia|].
    do 2 f_equal. lia.
  - rewrite E3. rewrite pton_digit by lia. destruct (Z.ltb_spec 3 (Z.of_nat (length octets))); [lia|].
    rewrite pton_digit by lia. destruct (Z.eqb_spec (b / 10 / 10) 0); [lia|].
    destruct (Z.ltb_spec 255 (b / 10 / 10 * 10 + b / 10 mod 10)); [lia|].
    rewrite pton_digit by lia. destruct (Z.eqb_spec (b / 10 / 10 * 10 + b / 10 mod 10) 0); [lia|].
    destruct (Z.ltb_spec 255 ((b / 10 / 10 * 10 + b / 10 mod 10) * 10 + b mod 10)); [lia|]. do 2 f_equal. lia.
Qed.

Lemma dec_byte_nonzero b : byte_ok b -> Forall (fun c => c <> 0) (dec_byte b).
Proof.
  unfold byte_ok, dec_byte, char0. intros Hb. repeat case_match; repeat constructor; bool_cases;
    pose proof (Z.mod_pos_bound b 10 ltac:(lia)); pose proof (Z.mod_pos_bound (b / 10) 10 ltac:(lia));
    pose proof (Z.div_pos b 10); pose proof (Z.div_pos b 100); lia.
Qed.

(** The text [inet_ntop] prints. *)
Lemma inet_ntop_text addr :
  exists s, inet_ntop addr = s ++ [0] /\ Forall (fun c => c <> 0) s /\ pton_loop s [] None = Some (le_bytes 4 addr).
Proof.
  unfold inet_ntop. pose proof (le_bytes_ok 4 addr) as Hb. pose proof (length_le_bytes 4 addr) as Hl.
  destruct (le_bytes 4 addr) as [|a [|b [|c [|d [|]]]]]; try done. cbn [fmap list_fmap].
  apply Forall_cons_iff in Hb as [Oa Hb]. apply Forall_cons_iff in Hb as [Ob Hb].
  apply Forall_cons_iff in Hb as [Oc Hb]. apply Forall_cons_iff in Hb as [Od _].
  assert (char_dot <> 0) as Hdot by done.
  exists (dec_byte a ++ char_dot :: dec_byte b ++ char_dot :: dec_byte c ++ char_dot :: dec_byte d).
  split; [do 4 (rewrite <- ?app_assoc; cbn [app]); done|].
  split; [repeat (apply Forall_app_2 || apply Forall_cons_2); auto using dec_byte_nonzero|].
  rewrite pton_octet by (done || (cbn; lia)). cbn [pton_loop].
  rewrite (pton_octet b) by (done || (cbn; lia)). cbn.
  rewrite (pton_octet c) by (done || (cbn; lia)). cbn.
  rewrite <- (app_nil_r (dec_byte d)), (pton_octet d) by (done || (cbn; lia)). done.
Qed.

Lemma inet_ntop_terminated addr : is_Some (strlen (inet_ntop addr)).
Proof. destruct (inet_ntop_text addr) as (s & -> & Hs & _). rewrite strlen_app by done. by eexists. Qed.

(** What [inet_ntop] prints, [inet_pton] reads back. *)
Lemma inet_pton_ntop addr : word_ok 32 addr -> inet_pton (inet_ntop addr) = Some (Some addr).
Proof.
  intros Ha. unfold inet_pton. destruct (inet_ntop_text addr) as (s & -> & Hs & E).
  rewrite cstr_app by done. cbn [mbind option_bind]. rewrite E. cbn [mbind option_bind].
  change (length (le_bytes 4 addr) =? 4)%nat with true. cbn iota. by rewrite (le_val_bytes 4 addr Ha).
Qed.

(** * Reasoning: a computation that ends with the descriptors and blocks it
    started with, plus those of its result *)

(** [Q] speaks of the result, the descriptors and the blocks afterwards; a
    computation never uses a descriptor that is not open. *)
Definition sys_ok {A} (m : sys A) (o : os) (Q : A -> os -> Prop) : Prop :=
  exists x o', m o = Some (x, o') /\ os_stale o' = os_stale o /\ os_kernel o' = os_kernel o /\ Q x o'.

Definition os_same (o o' : os) : Prop := os_fds o' = os_fds o /\ os_heap o' = os_heap o.

(** One call was made. *)
Definition ticks (c : syscall) (o o' : os) : Prop :=
  os_kernel o' = os_kernel o /\ os_clock o' = S (os_clock o) /\ os_log o' = c :: os_log o.

Lemma sys_ok_ret {A} (x : A) o (Q : A -> os -> Prop) : Q x o -> sys_ok (mret x) o Q.
Proof. intros H. by exists x, o. Qed.

Lemma sys_ok_opt {A B} (x : A) (f : A -> sys B) o (Q : B -> os -> Prop) :
  sys_ok (f x) o Q -> sys_ok (sys_opt (Some x) ≫= f) o Q.
Proof. done. Qed.

Lemma sys_ok_bind {A B} (m : sys A) (f : A -> sys B) o (Q : B -> os -> Prop) :
  sys_ok m o (fun x o' => sys_ok (f x) o' Q) -> sys_ok (m ≫= f) o Q.
Proof.
  intros (x & o1 & E & Hs & Hk & y & o2 & E2 & Hs2 & Hk2 & HQ). exists y, o2.
  split; [unfold mbind, sys_bind; by rewrite E|]. by rewrite Hs2, Hk2.
Qed.

Lemma sys_ok_mono {A} (m : sys A) o (P Q : A -> os -> Prop) :
  (forall x o', os_kernel o' = os_kernel o -> P x o' -> Q x o') -> sys_ok m o P -> sys_ok m o Q.
Proof. intros H (x & o' & E & Hs & Hk & HP). exists x, o'. auto. Qed.

(** Calls that neither open nor close a descriptor. *)
Definition sc_plain (c : syscall) : bool := match c with ScClose _ | ScAccept _ => false | _ => true end.

(** A call on an open descriptor other than [close] and [accept]. *)
Lemma sys_ok_on c fd o (Q : reply -> os -> Prop) :
  sc_fd c = Some fd -> sc_plain c = true -> fd ∈ os_fds o ->
  (forall o', os_same o o' -> ticks c o o' -> Q (os_kernel o (os_clock o)) o') ->
  sys_ok (syscall_do c) o Q.
Proof.
  intros Hc Hn Hin HQ. unfold sys_ok, syscall_do. rewrite Hc, decide_True by done.
  destruct c; try discriminate Hn; (eexists _, _; split; [done|]; split; [done|]; split; [done|]; by apply HQ).
Qed.

Lemma sys_ok_close fd o (Q : reply -> os -> Prop) :
  fd ∈ os_fds o ->
  (forall r o', os_fds o' = filter (fun x => x <> fd) (os_fds o) -> os_heap o' = os_heap o ->
     ticks (ScClose fd) o o' -> Q r o') ->
  sys_ok (syscall_do (ScClose fd)) o Q.
Proof.
  intros Hin HQ. unfold sys_ok, syscall_do. cbn [sc_fd]. rewrite decide_True by done. eexists _, _.
  do 3 (split; [done|]). by apply HQ.
Qed.

Lemma lowest_free_spec fuel n taken :
  n <= lowest_free fuel n taken /\
  (lowest_free fuel n taken ∉ taken \/ forall k, n <= k < n + Z.of_nat fuel -> k ∈ taken).
Proof.
  revert n. induction fuel as [|fuel IH]; intros n; cbn [lowest_free]; [split; [lia|right; lia]|].
  case_decide as Hd; [|split; [lia|by left]]. destruct (IH (n + 1)) as [Hle [?|Hall]]; (split; [lia|]); [by left|right].
  intros k Hk. destruct (decide (k = n)) as [->|]; [done|]. apply Hall. lia.
Qed.

(** The pigeons: [length taken] candidates all taken leave no room for the
    next. *)
Lemma lowest_free_fresh taken : 0 <= new_fd taken /\ new_fd taken ∉ taken.
Proof.
  unfold new_fd. destruct (lowest_free_spec (length taken) 0 taken) as [Hle H]. split; [done|].
  destruct H as [?|Hall]; [done|]. intros Hin.
  assert (forall fuel n t, lowest_free fuel n t <= n + Z.of_nat fuel) as Hub.
  { induction fuel as [|fuel IH]; intros n t; cbn [lowest_free]; [lia|]. case_decide; [|lia]. specialize (IH (n + 1) t). lia. }
  assert (forall fuel n t, (forall k, n <= k < n + Z.of_nat fuel -> k ∈ t) -> lowest_free fuel n t = n + Z.of_nat fuel) as Hall'.
  { induction fuel as [|fuel IH]; intros n t Ht; cbn [lowest_free]; [lia|].
    rewrite decide_True by (apply Ht; lia). rewrite IH; [lia|]. intros k Hk. apply Ht. lia. }
  rewrite Hall' in Hin by done. rewrite Z.add_0_l in Hin.
  assert (seqZ 0 (Z.of_nat (length taken) + 1) ⊆+ taken) as Hsub.
  { apply NoDup_submseteq; [apply NoDup_seqZ|]. intros k Hk.
    apply elem_of_seqZ in Hk. destruct (decide (k = Z.of_nat (length taken))) as [->|]; [done|]. apply Hall. lia. }
  apply submseteq_length in Hsub. rewrite length_seqZ in Hsub. lia.
Qed.

(** [open] and [socket]: a failure, or a fresh descriptor. *)
Lemma sys_ok_opens c o (Q : reply -> os -> Prop) :
  sc_opens c = true ->
  (forall o', let r := os_kernel o (os_clock o) in rp_ret r < 0 -> os_same o o' -> ticks c o o' -> Q r o') ->
  (forall r o', 0 <= rp_ret r -> rp_ret r ∉ os_fds o -> 0 <= rp_ret (os_kernel o (os_clock o)) ->
     os_fds o' = rp_ret r :: os_fds o -> os_heap o' = os_heap o -> ticks c o o' -> Q r o') ->
  sys_ok (syscall_do c) o Q.
Proof.
  intros Hc Hf Hs. unfold sys_ok, syscall_do. set (r := os_kernel o (os_clock o)).
  assert (sc_fd c = None) as -> by (by destruct c).
  destruct (Z.ltb_spec (rp_ret r) 0) as [Hr|Hr].
  - eexists r, _. split; [rewrite andb_false_r; by destruct c|]. split; [done|]. split; [done|]. by apply Hf.
  - destruct (lowest_free_fresh (os_fds o)) as [H0 Hni].
    eexists (with_ret (new_fd (os_fds o)) 0 r), _. split; [rewrite Hc; by destruct c|]. split; [done|]. split; [done|]. by apply Hs.
Qed.

(** [accept]. *)
Lemma sys_ok_accept fd o (Q : reply -> os -> Prop) :
  fd ∈ os_fds o ->
  (forall o', let r := os_kernel o (os_clock o) in rp_ret r < 0 -> os_same o o' -> ticks (ScAccept fd) o o' -> Q r o') ->
  (forall r o', 0 <= rp_ret r -> rp_ret r ∉ os_fds o ->
     os_fds o' = rp_ret r :: os_fds o -> os_heap o' = os_heap o -> ticks (ScAccept fd) o o' -> Q r o') ->
  sys_ok (syscall_do (ScAccept fd)) o Q.
Proof.
  intros Hin Hf Hs. unfold sys_ok, syscall_do. cbn [sc_fd]. rewrite decide_True by done. set (r := os_kernel o (os_clock o)).
  destruct (Z.ltb_spec (rp_ret r) 0) as [Hr|Hr].
  - eexists r, _. do 3 (split; [done|]). by apply Hf.
  - destruct (lowest_free_fresh (os_fds o)) as [H0 Hni]. eexists (with_ret (new_fd (os_fds o)) 0 r), _. do 3 (split; [done|]). by apply Hs.
Qed.

(** A call that concerns no descriptor and no block. *)
Lemma sys_ok_plain c o (Q : reply -> os -> Prop) :
  match c with ScUsleep _ | ScUnlink _ | ScSleep _ | ScSigIgn _ | ScSigaction _ | ScThreadCreate | ScStat _ | ScRealpath _ => True | _ => False end ->
  (forall o', os_same o o' -> ticks c o o' -> Q (os_kernel o (os_clock o)) o') ->
  sys_ok (syscall_do c) o Q.
Proof.
  intros Hc HQ. unfold sys_ok, syscall_do. destruct c; try done; cbn [sc_fd sc_opens andb];
    (eexists _, _; do 3 (split; [done|]); by apply HQ).
Qed.

Lemma filter_fresh (x : Z) l : x ∉ l -> filter (fun y => y <> x) (x :: l) = l.
Proof.
  intros Hx. rewrite filter_cons_False by (intros H; by apply H). induction l as [|y l IH]; [done|].
  apply not_elem_of_cons in Hx as [Hne Hx]. rewrite filter_cons_True by congruence. by rewrite IH.
Qed.

(** [malloc] and [free]. *)
Lemma sys_ok_malloc n o (Q : reply -> os -> Prop) :
  Forall (fun p => p < Z.of_nat (os_clock o)) (os_heap o) ->
  (forall r o', rp_ret r < 0 -> os_same o o' -> ticks (ScMalloc n) o o' -> Q r o') ->
  (forall r o', 0 <= rp_ret r -> rp_ret r ∉ os_heap o -> os_heap o' = rp_ret r :: os_heap o -> os_fds o' = os_fds o ->
     ticks (ScMalloc n) o o' -> Q r o') ->
  sys_ok (syscall_do (ScMalloc n)) o Q.
Proof.
  intros Hh Hf Hs. unfold sys_ok, syscall_do. cbn [sc_fd]. set (r := os_kernel o (os_clock o)).
  destruct (Z.ltb_spec (rp_ret r) 0).
  - eexists _, _. split; [done|]. split; [done|]. split; [done|]. by apply Hf.
  - eexists _, _. split; [done|]. split; [done|]. split; [done|]. apply Hs; cbn; try done; [lia|].
    intros Hin. rewrite list.Forall_forall in Hh. specialize (Hh _ Hin). lia.
Qed.

Lemma sys_ok_free p o (Q : reply -> os -> Prop) :
  p ∈ os_heap o ->
  (forall r o', os_heap o' = filter (fun x => x <> p) (os_heap o) -> os_fds o' = os_fds o ->
     ticks (ScFree p) o o' -> Q r o') ->
  sys_ok (syscall_do (ScFree p)) o Q.
Proof.
  intros Hin HQ. unfold sys_ok, syscall_do. cbn [sc_fd]. rewrite decide_True by done. eexists _, _.
  do 3 (split; [done|]). by apply HQ.
Qed.

(** Failing calls set [errno]. *)
Definition errnos_ok (k : nat -> reply) : Prop := forall n, rp_ret (k n) < 0 -> 0 < rp_errno (k n).

(** The calls from [o] up to the one before the last succeeded. *)
Definition acknowledged (o o' : os) : Prop :=
  forall k, (os_clock o <= k)%nat -> (S k < os_clock o')%nat -> 0 <= rp_ret (os_kernel o k).
