(* ===== verification/Tun.v ===== *)
(** The TUN device (src/src/tun.c) and the descriptor flags of
    src/src/utils.c, over the system calls of Sys. *)
From S2P Require Import Prelude Libc Sys.

Definition O_RDWR : Z := 2.
Definition O_WRONLY : Z := 1.
Definition O_CREAT : Z := 0x40.
Definition O_TRUNC : Z := 0x200.
Definition O_NONBLOCK : Z := 0x800.
Definition O_CLOEXEC : Z := 0x80000.
Definition IFF_TUN : Z := 0x1.
Definition IFF_NO_PI : Z := 0x1000.
Definition IFF_MULTI_QUEUE : Z := 0x100.
Definition IFF_UP : Z := 0x1.
Definition IFF_RUNNING : Z := 0x40.
Definition AF_INET : Z := 2.
Definition AF_PACKET : Z := 17.
Definition SOCK_DGRAM : Z := 2.
Definition SOCK_RAW : Z := 3.
Definition SOCK_CLOEXEC : Z := 0x80000.

(** [vpn_tun_ctx_t] *)
Record vpn_tun_ctx_t := { tun_ctx_fd : Z; tun_ctx_name : list Z }.

Definition VPN_TUN_DEVICE : list Z := str "/dev/net/tun".

Definition vf_set_nonblocking (fd : Z) : sys Z :=
  if fd <? 0 then mret (- EINVAL) else
  f ← syscall_do (ScGetfl fd);
  if rp_ret f =? -1 then mret (- rp_errno f) else
  r ← syscall_do (ScSetfl fd (Z.lor (rp_ret f) O_NONBLOCK));
  if rp_ret r =? -1 then mret (- rp_errno r) else
  mret 0.

Definition zero_name : list Z := replicate IFNAMSIZ 0.

(** [strncpy(ifr.ifr_name, name, IFNAMSIZ - 1)] over a zeroed field. *)
Definition ifr_set_name (name : list Z) : option (list Z) := (fun s => s ++ [0]) <$> strncpy name (IFNAMSIZ - 1).

(** The field after a request that returns a name. *)
Definition ifr_name_back (name : list Z) (r : reply) : list Z := take IFNAMSIZ (rp_bytes r ++ drop (length (rp_bytes r)) name).

(** The name requested: [None] when it is too long. *)
Definition tun_req_name (dev_name : option (list Z)) : option (option (list Z)) :=
  match dev_name with
  | None => Some (Some zero_name)
  | Some s =>
      c ← head s;
      if c =? 0 then Some (Some zero_name) else
      n ← strlen s;
      if (IFNAMSIZ <=? n)%nat then Some None else
      nm ← ifr_set_name s; Some (Some nm)
  end.

(** [error_cleanup] *)
Definition tun_fail (fd ret : Z) (ctx : option vpn_tun_ctx_t) : sys (Z * option vpn_tun_ctx_t) :=
  (if 0 <=? fd then _ ← syscall_do (ScClose fd); mret () else mret ());;
  mret (ret, ctx).

Definition vf_tun_init (ctx : option vpn_tun_ctx_t) (dev_name : option (list Z)) (multi_queue : bool)
    : sys (Z * option vpn_tun_ctx_t) :=
  match ctx with
  | None => mret (- EINVAL, None)
  | Some _ =>
      r ← syscall_do (ScOpen VPN_TUN_DEVICE (Z.lor O_RDWR O_CLOEXEC) 0);
      let fd := rp_ret r in
      if fd <? 0 then mret (- rp_errno r, ctx) else
      let flags := Z.lor IFF_TUN IFF_NO_PI in
      let flags := if multi_queue then Z.lor flags IFF_MULTI_QUEUE else flags in
      nm ← sys_opt (tun_req_name dev_name);
      match nm with
      | None => tun_fail fd (- ENAMETOOLONG) ctx
      | Some nm =>
          r ← syscall_do (ScIoctl fd TUNSETIFF {| ifr_name := nm; ifr_u := IfrFlags flags |});
          if rp_ret r <? 0 then tun_fail fd (- rp_errno r) ctx else
          let nm := ifr_name_back nm r in
          ret ← vf_set_nonblocking fd;
          if ret <? 0 then tun_fail fd ret ctx else
          n ← sys_opt (strncpy nm (IFNAMSIZ - 1));
          mret (0, Some {| tun_ctx_fd := fd; tun_ctx_name := n ++ [0] |})
      end
  end.

(** [strnlen(dev_name, IFNAMSIZ) >= IFNAMSIZ] *)
Definition name_too_long (dev_name : list Z) : option bool :=
  n ← strnlen dev_name IFNAMSIZ; Some (IFNAMSIZ <=? n)%nat.

(** The [cleanup] label: the socket is closed, the code returned. *)
Definition cleanup (sock ret : Z) : sys Z :=
  (if 0 <=? sock then _ ← syscall_do (ScClose sock); mret () else mret ());; mret ret.

Definition vf_tun_set_status (dev_name : option (list Z)) (mtu : Z) (up : bool) : sys Z :=
  match dev_name with
  | None => mret (- EINVAL)
  | Some name =>
      long ← sys_opt (name_too_long name);
      if long : bool then mret (- EINVAL) else
      r ← syscall_do (ScSocket AF_INET (Z.lor SOCK_DGRAM SOCK_CLOEXEC) 0);
      let sock := rp_ret r in
      if sock <? 0 then mret (- rp_errno r) else
      nm ← sys_opt (ifr_set_name name);
      let ifr := {| ifr_name := nm; ifr_u := if 0 <? mtu then IfrMtu mtu else IfrNone |} in
      m ← (if 0 <? mtu then syscall_do (ScIoctl sock SIOCSIFMTU ifr)
           else mret {| rp_ret := 0; rp_errno := 0; rp_val := 0; rp_bytes := []; rp_addr := {| sin_addr := 0; sin_port := 0 |} |});
      if rp_ret m <? 0 then cleanup sock (- rp_errno m) else
      g ← syscall_do (ScIoctl sock SIOCGIFFLAGS ifr);
      if rp_ret g <? 0 then cleanup sock (- rp_errno g) else
      let flags := if up then Z.lor (u16 (rp_val g)) (Z.lor IFF_UP IFF_RUNNING) else Z.land (u16 (rp_val g)) (Z.lnot IFF_UP) in
      s ← syscall_do (ScIoctl sock SIOCSIFFLAGS {| ifr_name := nm; ifr_u := IfrFlags flags |});
      cleanup sock (if rp_ret s <? 0 then - rp_errno s else 0)
  end.

Definition vf_tun_set_ip (dev_name ip_addr netmask : option (list Z)) : sys Z :=
  match dev_name, ip_addr with
  | Some name, Some ip =>
      long ← sys_opt (name_too_long name);
      if long : bool then mret (- EINVAL) else
      r ← syscall_do (ScSocket AF_INET (Z.lor SOCK_DGRAM SOCK_CLOEXEC) 0);
      let sock := rp_ret r in
      if sock <? 0 then mret (- rp_errno r) else
      nm ← sys_opt (ifr_set_name name);
      a ← sys_opt (inet_pton ip);
      match a with
      | None => cleanup sock (- EINVAL)
      | Some a =>
          s ← syscall_do (ScIoctl sock SIOCSIFADDR {| ifr_name := nm; ifr_u := IfrAddr {| sin_addr := a; sin_port := 0 |} |});
          if rp_ret s <? 0 then cleanup sock (- rp_errno s) else
          match netmask with
          | None => cleanup sock 0
          | Some mask =>
              m ← sys_opt (inet_pton mask);
              match m with
              | None => cleanup sock (- EINVAL)
              | Some m =>
                  s ← syscall_do (ScIoctl sock SIOCSIFNETMASK {| ifr_name := nm; ifr_u := IfrNetmask {| sin_addr := m; sin_port := 0 |} |});
                  cleanup sock (if rp_ret s <? 0 then - rp_errno s else 0)
              end
          end
      end
  | _, _ => mret (- EINVAL)
  end.

Definition vf_tun_destroy (ctx : option vpn_tun_ctx_t) : sys (option vpn_tun_ctx_t) :=
  match ctx with
  | None => mret None
  | Some c =>
      fd ← (if 0 <=? tun_ctx_fd c then _ ← syscall_do (ScClose (tun_ctx_fd c)); mret (-1) else mret (tun_ctx_fd c));
      mret (Some {| tun_ctx_fd := fd; tun_ctx_name := replicate IFNAMSIZ 0 |})
  end.

Definition vf_tun_set_mtu_by_name (dev_name : option (list Z)) (mtu : Z) : sys Z :=
  match dev_name with
  | None => mret (- EINVAL)
  | Some name =>
      if mtu <? 68 then mret (- EINVAL) else
      r ← syscall_do (ScSocket AF_INET SOCK_DGRAM 0);
      let sockfd := rp_ret r in
      if sockfd <? 0 then mret (- rp_errno r) else
      nm ← sys_opt (ifr_set_name name);
      s ← syscall_do (ScIoctl sockfd SIOCSIFMTU {| ifr_name := nm; ifr_u := IfrMtu mtu |});
      let result := if rp_ret s <? 0 then - rp_errno s else 0 in
      _ ← syscall_do (ScClose sockfd);
      mret result
  end.

(** [errno] is set in place of a code; it is not part of the result. *)
Definition vf_tun_set_mtu_by_fd (tun_fd mtu : Z) : sys Z :=
  if (tun_fd <? 0) || (mtu <=? 0) then mret (-1) else
  g ← syscall_do (ScIoctl tun_fd TUNGETIFF {| ifr_name := zero_name; ifr_u := IfrNone |});
  if rp_ret g <? 0 then mret (-1) else
  let nm := ifr_name_back zero_name g in
  r ← syscall_do (ScSocket AF_INET SOCK_DGRAM 0);
  let sockfd := rp_ret r in
  if sockfd <? 0 then mret (-1) else
  s ← syscall_do (ScIoctl sockfd SIOCSIFMTU {| ifr_name := nm; ifr_u := IfrMtu mtu |});
  _ ← syscall_do (ScClose sockfd);
  mret (if rp_ret s <? 0 then -1 else 0).

(** The path, cut to the 127 characters [snprintf] leaves; the stream is an
    open, a write and a close. *)
Definition vf_tun_disable_ipv6 (dev_name : list Z) : sys unit :=
  name ← sys_opt (cstr dev_name);
  let path := take 127 (str "/proc/sys/net/ipv6/conf/" ++ name ++ str "/disable_ipv6") in
  r ← syscall_do (ScOpen path (Z.lor O_WRONLY (Z.lor O_CREAT O_TRUNC)) 0x1B6);
  if rp_ret r <? 0 then mret () else
  _ ← syscall_do (ScWrite (rp_ret r) (str "1"));
  _ ← syscall_do (ScClose (rp_ret r));
  mret ().

(** * The configuration requests *)

Inductive tun_op :=
| OpStatus (dev_name : option (list Z)) (mtu : Z) (up : bool)
| OpIp (dev_name ip_addr netmask : option (list Z))
| OpMtuName (dev_name : option (list Z)) (mtu : Z)
| OpMtuFd (tun_fd mtu : Z).

Definition run_tun_op (op : tun_op) : sys Z :=
  match op with
  | OpStatus n m u => vf_tun_set_status n m u
  | OpIp n a m => vf_tun_set_ip n a m
  | OpMtuName n m => vf_tun_set_mtu_by_name n m
  | OpMtuFd fd m => vf_tun_set_mtu_by_fd fd m
  end.

(** A string argument is NULL or terminated. *)
Definition str_ok (s : option (list Z)) : Prop := match s with Some s => is_Some (strlen s) | None => True end.

Definition tun_op_ok (op : tun_op) (o : os) : Prop :=
  match op with
  | OpStatus n _ _ | OpMtuName n _ => str_ok n
  | OpIp n a m => str_ok n /\ str_ok a /\ str_ok m
  | OpMtuFd fd m => fd < 0 \/ fd ∈ os_fds o
  end.

(** Nothing is left open, and the code is zero exactly when the kernel did
    all that was asked. *)
Definition tun_done (o : os) (rc : Z) (o' : os) : Prop :=
  os_same o o' /\ rc <= 0 /\ (rc = 0 -> acknowledged o o').

Lemma cleanup_done o o1 fd rc :
  fd ∉ os_fds o -> os_fds o1 = fd :: os_fds o -> os_heap o1 = os_heap o -> 0 <= fd -> rc <= 0 ->
  (rc = 0 -> forall k, (os_clock o <= k)%nat -> (k < os_clock o1)%nat -> 0 <= rp_ret (os_kernel o k)) ->
  sys_ok (cleanup fd rc) o1 (tun_done o).
Proof.
  intros Hni Hf Hh H0 Hrc Hack. unfold cleanup. destruct (Z.leb_spec 0 fd); [|lia].
  do 2 apply sys_ok_bind. apply sys_ok_close; [rewrite Hf; left|]. intros r o' Hf' Hh' (_ & Hc & _).
  do 2 apply sys_ok_ret. split; [split; [|congruence]|].
  - by rewrite Hf', Hf, filter_fresh.
  - split; [done|]. intros Hz k Hk Hk'. apply Hack; [done|done|lia].
Qed.

Lemma name_too_long_total name : is_Some (strlen name) -> exists b, name_too_long name = Some b.
Proof. intros Hn. unfold name_too_long. destruct (strnlen_is_Some name IFNAMSIZ Hn) as [n ->]. by eexists. Qed.

Lemma ifr_set_name_total name : is_Some (strlen name) -> exists nm, ifr_set_name name = Some nm.
Proof.
  intros Hn. unfold ifr_set_name. destruct (strncpy_is_Some name (IFNAMSIZ - 1)) as [s ->]; [by left|]. by eexists.
Qed.

Lemma inet_pton_total s : is_Some (strlen s) -> exists r, inet_pton s = Some r.
Proof. intros Hs. unfold inet_pton. destruct (cstr_terminated s Hs) as [t ->]. by eexists. Qed.

(** A temporary socket is open in [o'], and every call since [o] succeeded. *)
Definition socket_open (o : os) (fd : Z) (o' : os) : Prop :=
 (fd ∉ os_fds o) /\ os_fds o' = fd :: os_fds o /\ os_heap o' = os_heap o /\ 0 <= fd /\ os_kernel o' = os_kernel o /\
  (os_clock o <= os_clock o')%nat /\
  (forall k, (os_clock o <= k)%nat -> (k < os_clock o')%nat -> 0 <= rp_ret (os_kernel o k)).

Lemma tun_failed o rc : rc < 0 -> tun_done o rc o.
Proof. intros Hrc. split; [done|]. split; [lia|]. lia. Qed.

(** Opening it. *)
Lemma socket_step c o (f : reply -> sys Z) :
  sc_opens c = true -> errnos_ok (os_kernel o) ->
  (forall o', let r := os_kernel o (os_clock o) in rp_ret r < 0 -> os_same o o' -> sys_ok (f r) o' (tun_done o)) ->
  (forall r o', 0 <= rp_ret r -> socket_open o (rp_ret r) o' -> sys_ok (f r) o' (tun_done o)) ->
  sys_ok (syscall_do c ≫= f) o (tun_done o).
Proof.
  intros Hc He Hfail Hgo. apply sys_ok_bind, sys_ok_opens; [done| |].
  - intros o' r Hr Hs _. by apply Hfail.
  - intros r o' H0 Hni Hr Hf Hh (Hk & Hcl & _). apply Hgo; [done|]. split_and!; auto; [lia|].
    intros k Hk1 Hk2. by replace k with (os_clock o) by lia.
Qed.

(** Using it. *)
Lemma request_step c o o1 fd (f : reply -> sys Z) :
  sc_fd c = Some fd -> sc_plain c = true -> errnos_ok (os_kernel o) -> socket_open o fd o1 ->
  (forall o', let r := os_kernel o1 (os_clock o1) in
     rp_ret r < 0 -> 0 < rp_errno r -> os_fds o' = fd :: os_fds o -> os_heap o' = os_heap o -> sys_ok (f r) o' (tun_done o)) ->
  (forall o', let r := os_kernel o1 (os_clock o1) in 0 <= rp_ret r -> socket_open o fd o' -> sys_ok (f r) o' (tun_done o)) ->
  sys_ok (syscall_do c ≫= f) o1 (tun_done o).
Proof.
  intros Hc Hnc He (Hni & Hf & Hh & H0 & Hk & Hcl & Hack) Hfail Hgo.
  apply sys_ok_bind. apply (sys_ok_on c fd); [done|done|rewrite Hf; left|].
  intros o' [Hf' Hh'] (Hk' & Hcl' & _). set (r := os_kernel o1 (os_clock o1)).
  destruct (Z.lt_ge_cases (rp_ret r) 0) as [Hr|Hr].
  - apply Hfail; [done| |congruence|congruence]. unfold r in *. rewrite Hk in *. by apply He.
  - apply Hgo; [done|]. split_and!; try congruence; [lia|]. intros k Hk1 Hk2.
    destruct (decide (k = os_clock o1)) as [->|]; [by rewrite <- Hk|]. apply Hack; [done|lia].
Qed.

Lemma fail_step o o1 fd rc :
  os_fds o1 = fd :: os_fds o -> os_heap o1 = os_heap o -> fd ∉ os_fds o -> 0 <= fd -> rc < 0 ->
  sys_ok (cleanup fd rc) o1 (tun_done o).
Proof. intros Hf Hh Hni H0 Hrc. apply cleanup_done; [done..|lia|]. lia. Qed.

Lemma last_step o o1 fd : socket_open o fd o1 -> sys_ok (cleanup fd 0) o1 (tun_done o).
Proof. intros (Hni & Hf & Hh & H0 & Hk & Hcl & Hack). by apply cleanup_done. Qed.

Lemma tun_set_status_done o name mtu up :
  str_ok name -> errnos_ok (os_kernel o) -> sys_ok (vf_tun_set_status name mtu up) o (tun_done o).
Proof.
  intros Hn He. destruct name as [name|]; [|by apply sys_ok_ret, tun_failed].
  unfold vf_tun_set_status. destruct (name_too_long_total name Hn) as [b ->]. apply sys_ok_opt.
  destruct b; [by apply sys_ok_ret, tun_failed|]. apply socket_step; [done|done| |].
  - intros o' r Hr [Hf Hh]. destruct (Z.ltb_spec (rp_ret r) 0); [|lia]. apply sys_ok_ret.
    pose proof (He (os_clock o) Hr). split; [done|]. fold r in H0. split; lia.
  - intros r o1 H0 Hso. destruct (Z.ltb_spec (rp_ret r) 0); [lia|].
    destruct (ifr_set_name_total name Hn) as [nm ->]. apply sys_ok_opt.
    set (ifr := {| ifr_name := nm; ifr_u := _ |}). pose proof Hso as (Hni & _).
    assert (forall m o2, 0 <= rp_ret m -> socket_open o (rp_ret r) o2 ->
      sys_ok (if rp_ret m <? 0 then cleanup (rp_ret r) (- rp_errno m) else
        g ← syscall_do (ScIoctl (rp_ret r) SIOCGIFFLAGS ifr);
        if rp_ret g <? 0 then cleanup (rp_ret r) (- rp_errno g) else
        let flags := if up then Z.lor (u16 (rp_val g)) (Z.lor IFF_UP IFF_RUNNING) else Z.land (u16 (rp_val g)) (Z.lnot IFF_UP) in
        s ← syscall_do (ScIoctl (rp_ret r) SIOCSIFFLAGS {| ifr_name := nm; ifr_u := IfrFlags flags |});
        cleanup (rp_ret r) (if rp_ret s <? 0 then - rp_errno s else 0)) o2 (tun_done o)) as Hrest.
    { intros m o2 Hm Hso2. destruct (Z.ltb_spec (rp_ret m) 0); [lia|].
      eapply request_step; [done|done|done|exact Hso2| |].
      - intros o3 g Hg Heg Hf Hh. destruct (Z.ltb_spec (rp_ret g) 0); [|lia]. apply fail_step; auto; lia.
      - intros o3 g Hg Hso3. destruct (Z.ltb_spec (rp_ret g) 0); [lia|].
        eapply request_step; [done|done|done|exact Hso3| |].
        + intros o4 s Hs Hes Hf Hh. destruct (Z.ltb_spec (rp_ret s) 0); [|lia]. apply fail_step; auto; lia.
        + intros o4 s Hs Hso4. destruct (Z.ltb_spec (rp_ret s) 0); [lia|]. by apply last_step. }
    destruct (0 <? mtu); [|by apply sys_ok_bind, sys_ok_ret, Hrest].
    eapply request_step; [done|done|done|exact Hso| |].
    + intros o2 m Hm Hem Hf Hh. destruct (Z.ltb_spec (rp_ret m) 0); [|lia]. apply fail_step; auto; lia.
    + intros o2 m Hm Hso2. by apply Hrest.
Qed.

Lemma tun_set_ip_done o name ip mask :
  str_ok name -> str_ok ip -> str_ok mask -> errnos_ok (os_kernel o) ->
  sys_ok (vf_tun_set_ip name ip mask) o (tun_done o).
Proof.
  intros Hn Hip Hmask He. destruct name as [name|]; [|by apply sys_ok_ret, tun_failed].
  destruct ip as [ip|]; [|by apply sys_ok_ret, tun_failed]. unfold vf_tun_set_ip.
  destruct (name_too_long_total name Hn) as [b ->]. apply sys_ok_opt.
  destruct b; [by apply sys_ok_ret, tun_failed|]. apply socket_step; [done|done| |].
  - intros o' r Hr [Hf Hh]. destruct (Z.ltb_spec (rp_ret r) 0); [|lia]. apply sys_ok_ret.
    pose proof (He (os_clock o) Hr) as Hpos. fold r in Hpos. split; [done|]. split; lia.
  - intros r o1 H0 Hso. destruct (Z.ltb_spec (rp_ret r) 0); [lia|]. pose proof Hso as (Hni & Hf1 & Hh1 & _).
    destruct (ifr_set_name_total name Hn) as [nm ->]. apply sys_ok_opt.
    destruct (inet_pton_total ip Hip) as [[a|] ->]; apply sys_ok_opt; [|by apply fail_step].
    eapply request_step; [done|done|done|exact Hso| |].
    + intros o2 s Hs Hes Hf Hh. destruct (Z.ltb_spec (rp_ret s) 0); [|lia]. apply fail_step; auto; lia.
    + intros o2 s Hs Hso2. destruct (Z.ltb_spec (rp_ret s) 0); [lia|]. pose proof Hso2 as (_ & Hf2 & Hh2 & _).
      destruct mask as [mask|]; [|by apply last_step].
      destruct (inet_pton_total mask Hmask) as [[m|] ->]; apply sys_ok_opt; [|by apply fail_step].
      eapply request_step; [done|done|done|exact Hso2| |].
      * intros o3 s' Hs' Hes' Hf Hh. destruct (Z.ltb_spec (rp_ret s') 0); [|lia]. apply fail_step; auto; lia.
      * intros o3 s' Hs' Hso3. destruct (Z.ltb_spec (rp_ret s') 0); [lia|]. by apply last_step.
Qed.

(** [close] without a look at its result. *)
Lemma close_step o o1 fd rc :
  os_fds o1 = fd :: os_fds o -> os_heap o1 = os_heap o -> fd ∉ os_fds o -> rc <= 0 ->
  (rc = 0 -> forall k, (os_clock o <= k)%nat -> (k < os_clock o1)%nat -> 0 <= rp_ret (os_kernel o k)) ->
  sys_ok (_ ← syscall_do (ScClose fd); mret rc) o1 (tun_done o).
Proof.
  intros Hf Hh Hni Hrc Hack. apply sys_ok_bind, sys_ok_close; [rewrite Hf; left|].
  intros r o' Hf' Hh' (_ & Hc & _). apply sys_ok_ret. split; [split; [|congruence]|].
  - by rewrite Hf', Hf, filter_fresh.
  - split; [done|]. intros Hz k Hk Hk'. apply Hack; [done|done|lia].
Qed.

Lemma tun_set_mtu_by_name_done o name mtu :
  str_ok name -> errnos_ok (os_kernel o) -> sys_ok (vf_tun_set_mtu_by_name name mtu) o (tun_done o).
Proof.
  intros Hn He. destruct name as [name|]; [|by apply sys_ok_ret, tun_failed]. unfold vf_tun_set_mtu_by_name.
  destruct (mtu <? 68); [by apply sys_ok_ret, tun_failed|]. apply socket_step; [done|done| |].
  - intros o' r Hr [Hf Hh]. destruct (Z.ltb_spec (rp_ret r) 0); [|lia]. apply sys_ok_ret.
    pose proof (He (os_clock o) Hr) as Hpos. fold r in Hpos. split; [done|]. split; lia.
  - intros r o1 H0 Hso. destruct (Z.ltb_spec (rp_ret r) 0); [lia|]. pose proof Hso as (Hni & _).
    destruct (ifr_set_name_total name Hn) as [nm ->]. apply sys_ok_opt.
    eapply request_step; [done|done|done|exact Hso| |].
    + intros o2 s Hs Hes Hf Hh. destruct (Z.ltb_spec (rp_ret s) 0); [|lia]. apply close_step; auto; lia.
    + intros o2 s Hs (_ & Hf & Hh & _ & _ & _ & Hack). destruct (Z.ltb_spec (rp_ret s) 0); [lia|]. by apply close_step.
Qed.

Lemma tun_set_mtu_by_fd_done o fd mtu :
  fd < 0 \/ fd ∈ os_fds o -> errnos_ok (os_kernel o) -> sys_ok (vf_tun_set_mtu_by_fd fd mtu) o (tun_done o).
Proof.
  intros Hfd He. unfold vf_tun_set_mtu_by_fd. destruct (Z.ltb_spec fd 0); [by apply sys_ok_ret, tun_failed|].
  destruct (mtu <=? 0); [by apply sys_ok_ret, tun_failed|]. cbn [orb]. destruct Hfd as [?|Hin]; [lia|].
  apply sys_ok_bind, (sys_ok_on _ fd); [done|done|done|]. set (g := os_kernel o (os_clock o)).
  intros o1 [Hf1 Hh1] (Hk1 & Hc1 & _). destruct (Z.ltb_spec (rp_ret g) 0) as [Hg|Hg].
  { apply sys_ok_ret. split; [done|]. split; lia. }
  apply sys_ok_bind, sys_ok_opens; [done| |].
  - intros o2 r Hr [Hf2 Hh2] _. destruct (Z.ltb_spec (rp_ret r) 0); [|lia]. apply sys_ok_ret.
    split; [split; congruence|]. split; lia.
  - intros r o2 H0 Hni Hr Hf2 Hh2 (Hk2 & Hc2 & _). destruct (Z.ltb_spec (rp_ret r) 0); [lia|].
    assert (socket_open o (rp_ret r) o2) as Hso.
    { split_and!; try congruence; [lia|]. intros k Hk Hk'. destruct (decide (k = os_clock o)) as [->|]; [done|].
      replace k with (os_clock o1) by lia. by rewrite <- Hk1. }
    eapply request_step; [done|done|done|exact Hso| |]; destruct Hso as (Hni' & _).
    + intros o3 s Hs Hes Hf Hh. destruct (Z.ltb_spec (rp_ret s) 0); [|lia]. apply close_step; auto; lia.
    + intros o3 s Hs (_ & Hf & Hh & _ & _ & _ & Hack). destruct (Z.ltb_spec (rp_ret s) 0); [lia|]. by apply close_step.
Qed.

(** C22 The interface is configured without leaks: whatever the kernel answers,
    each of the four requests (status, address, MTU by name, MTU by
    descriptor), with strings that are terminated, returns; it uses no
    descriptor that is not open, leaves exactly the descriptors and heap
    blocks it found, on every error path, and its code is never positive
    and zero only if the kernel carried out every step it took. *)
Theorem tun_ops_balanced op o :
  tun_op_ok op o -> errnos_ok (os_kernel o) -> sys_ok (run_tun_op op) o (tun_done o).
Proof.
  intros Hop He. destruct op; cbn [run_tun_op tun_op_ok] in *.
  - by apply tun_set_status_done.
  - destruct Hop as (? & ? & ?). by apply tun_set_ip_done.
  - by apply tun_set_mtu_by_name_done.
  - by apply tun_set_mtu_by_fd_done.
Qed.

(** The four calls that give the interface an address. *)
Definition ip_calls (nm : list Z) (a m fd : Z) : list syscall :=
  [ScClose fd;
   ScIoctl fd SIOCSIFNETMASK {| ifr_name := nm; ifr_u := IfrNetmask {| sin_addr := m; sin_port := 0 |} |};
   ScIoctl fd SIOCSIFADDR {| ifr_name := nm; ifr_u := IfrAddr {| sin_addr := a; sin_port := 0 |} |};
   ScSocket AF_INET (Z.lor SOCK_DGRAM SOCK_CLOEXEC) 0].

Lemma cleanup_log fd rc o (Q : Z -> os -> Prop) :
  0 <= fd -> fd ∈ os_fds o -> (forall o', os_log o' = ScClose fd :: os_log o -> Q rc o') -> sys_ok (cleanup fd rc) o Q.
Proof.
  intros H0 Hin HQ. unfold cleanup. destruct (Z.leb_spec 0 fd); [|lia].
  do 2 apply sys_ok_bind. apply sys_ok_close; [done|]. intros r o' _ _ (_ & _ & Hl). do 2 apply sys_ok_ret. by apply HQ.
Qed.

(** An address given as a text sets exactly that address. *)
Lemma vf_tun_set_ip_sets o name a mask m :
  is_Some (strlen name) -> word_ok 32 a -> inet_pton mask = Some (Some m) -> errnos_ok (os_kernel o) ->
  sys_ok (vf_tun_set_ip (Some name) (Some (inet_ntop a)) (Some mask)) o (fun rc o' =>
    rc = 0 -> exists nm fd, ifr_set_name name = Some nm /\ os_log o' = ip_calls nm a m fd ++ os_log o).
Proof.
  intros Hn Ha Hm He. unfold vf_tun_set_ip.
  destruct (name_too_long_total name Hn) as [b ->]. apply sys_ok_opt. destruct b; [by apply sys_ok_ret|].
  destruct (ifr_set_name_total name Hn) as [nm Enm]. rewrite Enm, inet_pton_ntop, Hm by done.
  apply sys_ok_bind, sys_ok_opens; [done| |].
  { intros o1 r Hr _ _. destruct (Z.ltb_spec (rp_ret r) 0); [|lia]. apply sys_ok_ret.
    pose proof (He (os_clock o) Hr) as Hp. fold r in Hp. lia. }
  intros r o1 H0 _ _ Hf1 _ (Hk1 & _ & Hl1). destruct (Z.ltb_spec (rp_ret r) 0); [lia|].
  apply sys_ok_opt, sys_ok_opt, sys_ok_bind. apply (sys_ok_on _ (rp_ret r)); [done|done|rewrite Hf1; left|].
  set (s := os_kernel o1 (os_clock o1)). intros o2 [Hf2 _] (Hk2 & _ & Hl2). destruct (Z.ltb_spec (rp_ret s) 0) as [Hs|_].
  { apply cleanup_log; [done|rewrite Hf2, Hf1; left|]. intros o' _.
    assert (0 < rp_errno s) by (unfold s in *; rewrite Hk1 in *; by apply He). lia. }
  apply sys_ok_opt, sys_ok_bind. apply (sys_ok_on _ (rp_ret r)); [done|done|rewrite Hf2, Hf1; left|].
  set (s' := os_kernel o2 (os_clock o2)). intros o3 [Hf3 _] (Hk3 & _ & Hl3).
  apply cleanup_log; [done|rewrite Hf3, Hf2, Hf1; left|]. intros o' Hl'. destruct (Z.ltb_spec (rp_ret s') 0) as [Hs'|_].
  - assert (0 < rp_errno s') by (unfold s' in *; rewrite Hk2, Hk1 in *; by apply He). lia.
  - intros _. exists nm, (rp_ret r). split; [done|]. rewrite Hl', Hl3, Hl2, Hl1. done.
Qed.

(** A kernel that refuses nothing makes it succeed. *)
Lemma vf_tun_set_ip_agreed o name n a mask m :
  strlen name = Some n -> (n < IFNAMSIZ)%nat -> word_ok 32 a -> inet_pton mask = Some (Some m) ->
  (forall k, 0 <= rp_ret (os_kernel o k)) ->
  sys_ok (vf_tun_set_ip (Some name) (Some (inet_ntop a)) (Some mask)) o (fun rc _ => rc = 0).
Proof.
  intros Hn Hlt Ha Hm Hk. unfold vf_tun_set_ip, name_too_long. rewrite (strnlen_strlen _ _ _ Hn Hlt). cbn [mbind option_bind].
  destruct (Nat.leb_spec IFNAMSIZ n); [lia|]. apply sys_ok_opt.
  destruct (ifr_set_name_total name) as [nm ->]; [by eexists|]. rewrite inet_pton_ntop, Hm by done.
  apply sys_ok_bind, sys_ok_opens; [done| |].
  { intros o1 r Hr. specialize (Hk (os_clock o)). fold r in Hk. lia. }
  intros r o1 H0 _ _ Hf1 _ (Hk1 & _). destruct (Z.ltb_spec (rp_ret r) 0); [lia|].
  apply sys_ok_opt, sys_ok_opt, sys_ok_bind, (sys_ok_on _ (rp_ret r)); [done|done|rewrite Hf1; left|].
  intros o2 [Hf2 _] (Hk2 & _). destruct (Z.ltb_spec (rp_ret (os_kernel o1 (os_clock o1))) 0) as [Hs|_].
  { rewrite Hk1 in Hs. specialize (Hk (os_clock o1)). lia. }
  apply sys_ok_opt, sys_ok_bind, (sys_ok_on _ (rp_ret r)); [done|done|rewrite Hf2, Hf1; left|].
  intros o3 [Hf3 _] _. apply cleanup_log; [done|rewrite Hf3, Hf2, Hf1; left|]. intros o' _.
  destruct (Z.ltb_spec (rp_ret (os_kernel o2 (os_clock o2))) 0) as [Hs|_]; [|done].
  rewrite Hk2, Hk1 in Hs. specialize (Hk (os_clock o2)). lia.
Qed.

Lemma set_nonblocking_ok fd o :
  0 <= fd -> fd ∈ os_fds o -> errnos_ok (os_kernel o) ->
  sys_ok (vf_set_nonblocking fd) o (fun rc o' => os_same o o' /\ rc <= 0).
Proof.
  intros H0 Hin He. unfold vf_set_nonblocking. destruct (Z.ltb_spec fd 0); [lia|].
  apply sys_ok_bind, (sys_ok_on _ fd); [done|done|done|]. set (f := os_kernel o (os_clock o)).
  intros o1 [Hf1 Hh1] (Hk1 & _). destruct (Z.eqb_spec (rp_ret f) (-1)) as [Hf|_].
  { apply sys_ok_ret. split; [done|]. assert (0 < rp_errno f) by (apply He; fold f; lia). lia. }
  apply sys_ok_bind, (sys_ok_on _ fd); [done|done|by rewrite Hf1|]. set (r := os_kernel o1 (os_clock o1)).
  intros o2 [Hf2 Hh2] _. destruct (Z.eqb_spec (rp_ret r) (-1)) as [Hr|_]; apply sys_ok_ret; (split; [split; congruence|]).
  - assert (0 < rp_errno r) by (unfold r in *; rewrite Hk1 in *; apply He; lia). lia.
  - done.
Qed.

(** What [vf_tun_init] leaves behind: one new descriptor exactly when it
    succeeds. *)
Definition tun_init_result (o : os) (c : vpn_tun_ctx_t) (x : Z * option vpn_tun_ctx_t) (o' : os) : Prop :=
  os_heap o' = os_heap o /\
  ((x.1 < 0 /\ x.2 = Some c /\ os_fds o' = os_fds o) \/
   (x.1 = 0 /\ exists fd nm, x.2 = Some {| tun_ctx_fd := fd; tun_ctx_name := nm |} /\ length nm = IFNAMSIZ /\
      is_Some (strlen nm) /\ 0 <= fd /\ (fd ∉ os_fds o) /\ os_fds o' = fd :: os_fds o)).

Lemma tun_req_name_total name : str_ok name -> exists nm, tun_req_name name = Some nm /\
  match nm with Some nm => length nm = IFNAMSIZ | None => True end.
Proof.
  intros Hn. unfold tun_req_name. destruct name as [s|]; [|by eexists]. destruct s as [|ch s]; [by apply is_Some_None in Hn|].
  cbn [head mbind option_bind]. destruct (ch =? 0); [by eexists|]. pose proof Hn as [n En]. rewrite En. cbn [mbind option_bind].
  destruct (IFNAMSIZ <=? n)%nat; [by eexists|]. unfold ifr_set_name.
  destruct (strncpy_is_Some (ch :: s) (IFNAMSIZ - 1)) as [nm Enm]; [by left|]. rewrite Enm. exists (Some (nm ++ [0])). split; [done|].
  rewrite length_app, (strncpy_length _ _ _ Enm). done.
Qed.

Lemma strlen_app_zero s : is_Some (strlen (s ++ [0])).
Proof. induction s as [|c s IH]; cbn; [eauto|]. destruct (c =? 0); [eauto|]. by apply fmap_is_Some. Qed.

Lemma vf_tun_init_owns o c name mq :
  str_ok name -> errnos_ok (os_kernel o) -> sys_ok (vf_tun_init (Some c) name mq) o (tun_init_result o c).
Proof.
  intros Hn He. unfold vf_tun_init. apply sys_ok_bind, sys_ok_opens; [done| |].
  { intros o1 r Hr [Hf Hh] _. destruct (Z.ltb_spec (rp_ret r) 0); [|lia]. apply sys_ok_ret.
    pose proof (He (os_clock o) Hr) as Hp. fold r in Hp. split; [done|]. left. split; [cbn; lia|]. done. }
  intros r o1 H0 Hni _ Hf1 Hh1 (Hk1 & Hc1 & _). destruct (Z.ltb_spec (rp_ret r) 0); [lia|].
  assert (forall rc o2, rc < 0 -> os_fds o2 = rp_ret r :: os_fds o -> os_heap o2 = os_heap o ->
    sys_ok (tun_fail (rp_ret r) rc (Some c)) o2 (tun_init_result o c)) as Hfail.
  { intros rc o2 Hrc Hf2 Hh2. unfold tun_fail. destruct (Z.leb_spec 0 (rp_ret r)); [|lia].
    do 2 apply sys_ok_bind. apply sys_ok_close; [rewrite Hf2; left|]. intros r' o3 Hf3 Hh3 _.
    do 2 apply sys_ok_ret. split; [congruence|]. left. split; [done|]. split; [done|]. by rewrite Hf3, Hf2, filter_fresh. }
  destruct (tun_req_name_total name Hn) as (nm & -> & Lnm). apply sys_ok_opt. destruct nm as [nm|]; [|by apply Hfail].
  apply sys_ok_bind, (sys_ok_on _ (rp_ret r)); [done|done|rewrite Hf1; left|].
  set (q := os_kernel o1 (os_clock o1)). intros o2 [Hf2 Hh2] (Hk2 & Hc2 & _). destruct (Z.ltb_spec (rp_ret q) 0) as [Hq|_].
  { assert (0 < rp_errno q) by (unfold q in *; rewrite Hk1 in *; by apply He). apply Hfail; [lia|congruence|congruence]. }
  apply sys_ok_bind. eapply sys_ok_mono; [|apply set_nonblocking_ok; [done|rewrite Hf2, Hf1; left|by rewrite Hk2, Hk1]].
  intros ret o3 Hk3 [[Hf3 Hh3] Hret]. cbn beta. destruct (Z.ltb_spec ret 0) as [|_]; [apply Hfail; [done|congruence|congruence]|].
  set (back := ifr_name_back nm q).
  assert (length back = IFNAMSIZ) as Lb.
  { unfold back, ifr_name_back. rewrite length_take, length_app, length_drop, Lnm. lia. }
  destruct (strncpy_is_Some back (IFNAMSIZ - 1)) as [n En]; [right; unfold IFNAMSIZ in *; lia|]. rewrite En.
  apply sys_ok_opt, sys_ok_ret. split; [congruence|]. right. split; [done|]. exists (rp_ret r), (n ++ [0]). split; [done|].
  split; [by rewrite length_app, (strncpy_length _ _ _ En)|]. split; [apply strlen_app_zero|].
  split; [done|]. split; [done|]. congruence.
Qed.

(** * Instance: a kernel that agrees to everything, then one that refuses the
    netmask *)

Definition demo_reply (ret e : Z) : reply :=
  {| rp_ret := ret; rp_errno := e; rp_val := 0; rp_bytes := []; rp_addr := {| sin_addr := 0; sin_port := 0 |} |}.
Definition demo_os (k : nat -> reply) : os :=
  {| os_kernel := k; os_clock := 0; os_fds := [0; 1; 2]; os_heap := []; os_log := []; os_stale := [] |}.

Lemma tun_ops_balanced_witness :
  let k n := if (n =? 2)%nat then demo_reply (-1) 1 else demo_reply 0 0 in
  sys_ok (run_tun_op (OpIp (Some (str "tun0" ++ [0])) (Some (inet_ntop 0x0200000A)) (Some (str "255.255.255.0" ++ [0]))))
    (demo_os k) (tun_done (demo_os k)) /\
  fst <$> run_tun_op (OpIp (Some (str "tun0" ++ [0])) (Some (inet_ntop 0x0200000A)) (Some (str "255.255.255.0" ++ [0])))
    (demo_os k) = Some (-1).
Proof.
  intros k. split; [|vm_compute; reflexivity]. apply tun_ops_balanced.
  - split; [|split]; vm_compute; eauto.
  - intros n. unfold k, demo_os. cbn [os_kernel]. destruct (n =? 2)%nat; cbn; lia.
Defined.
