(* ===== verification/Udp.v ===== *)
(** The UDP and raw sockets (src/src/udp.c) over the system calls of Sys. *)
From S2P Require Import Prelude Libc Key Sys Tun.

(** [udp_conn_t] in the heap block [uc_block]. *)
Record udp_conn_t := { uc_block : Z; uc_fd : Z; uc_port : Z; uc_timeout : Z }.
(** [raw_sock_t] *)
Record raw_sock_t := { rs_block : Z; rs_fd : Z; rs_index : Z; rs_name : list Z }.

Definition int_bytes (x : Z) : list Z := le_bytes 4 (u32 x).
Definition IP_PMTUDISC_DONT : Z := 0.
Definition IP_PMTUDISC_DO : Z := 2.
Definition ETH_P_ALL : Z := 3.
Definition ETH_ALEN : nat := 6.

(** [setsockopt] on an [int]: whether it failed. *)
Definition set_opt (fd : Z) (opt : sockopt) (x : Z) : sys reply := syscall_do (ScSetsockopt fd opt (int_bytes x)).

(** The socket's options and name; a signed overflow of the buffer size is
    undefined. *)
Definition udp_options (fd recv_buf_mb : Z) : sys unit :=
  (if 0 <? recv_buf_mb then
     let bytes := recv_buf_mb * 1024 * 1024 in
     if 2 ^ 31 <=? bytes then sys_ub else
     _ ← set_opt fd SO_RCVBUF bytes; _ ← set_opt fd SO_SNDBUF bytes; mret ()
   else mret ());;
  _ ← set_opt fd SO_REUSEADDR 1;
  _ ← set_opt fd SO_REUSEPORT 1;
  _ ← set_opt fd IP_MTU_DISCOVER IP_PMTUDISC_DONT;
  mret ().

Definition udp_init_listener (port recv_buf_mb : Z) : sys (option udp_conn_t) :=
  m ← syscall_do (ScMalloc 12);
  if rp_ret m <? 0 then mret None else
  let p := rp_ret m in
  s ← syscall_do (ScSocket AF_INET (Z.lor SOCK_DGRAM SOCK_CLOEXEC) 0);
  let fd := rp_ret s in
  if fd <? 0 then _ ← syscall_do (ScFree p); mret None else
  udp_options fd recv_buf_mb;;
  b ← syscall_do (ScBind fd {| sin_addr := htonl 0; sin_port := htons port |});
  if rp_ret b <? 0 then _ ← syscall_do (ScClose fd); _ ← syscall_do (ScFree p); mret None else
  pt ← (if port =? 0 then
          g ← syscall_do (ScGetsockname fd);
          mret (if rp_ret g =? 0 then ntohs (sin_port (rp_addr g)) else 0)
        else mret port);
  mret (Some {| uc_block := p; uc_fd := fd; uc_port := pt; uc_timeout := -1 |}).

(** The loop of [udp_send_raw] *)
Fixpoint udp_send_loop (fuel : nat) (fd : Z) (data : list Z) (dest : sockaddr_in) (retry : Z) : sys Z :=
  match fuel with
  | O => sys_ub
  | S fuel =>
      s ← syscall_do (ScSendto fd data dest);
      if 0 <=? rp_ret s then mret (rp_ret s) else
      if rp_errno s =? EINTR then udp_send_loop fuel fd data dest retry else
      if (rp_errno s =? EAGAIN) || (rp_errno s =? ENOBUFS) then
        let retry := retry + 1 in
        if 3 <? retry then mret (-1) else
        _ ← syscall_do (ScUsleep 1000);
        udp_send_loop fuel fd data dest retry
      else mret (-1)
  end.

Definition udp_send_raw (fuel : nat) (conn : option udp_conn_t) (dst_ip : option (list Z)) (dst_port : Z) (data : option (list Z))
    (len : Z) : sys Z :=
  match conn, dst_ip, data with
  | Some c, Some ip, Some data =>
      if (uc_fd c <? 0) || (len =? 0) then mret (-1) else
      a ← sys_opt (inet_pton ip);
      match a with
      | None => mret (-1)
      | Some a =>
          data ← sys_opt (get_bytes 0 (Z.to_nat len) data);
          udp_send_loop fuel (uc_fd c) data {| sin_addr := a; sin_port := htons dst_port |} 0
      end
  | _, _, _ => mret (-1)
  end.

(** The loop of [udp_recv_raw] *)
Fixpoint udp_recv_loop (fuel : nat) (fd buf_size : Z) : sys (Z * list Z * sockaddr_in) :=
  match fuel with
  | O => sys_ub
  | S fuel =>
      n ← syscall_do (ScRecvfrom fd buf_size);
      let res x := mret (x, rp_bytes n, rp_addr n) in
      if 0 <=? rp_ret n then res (rp_ret n) else
      if rp_errno n =? EINTR then udp_recv_loop fuel fd buf_size else
      if rp_errno n =? EAGAIN then res 0 else
      if rp_errno n =? ECONNREFUSED then res (-2) else
      res (-1)
  end.

(** The bytes and the address are what the kernel stored. *)
Definition udp_recv_raw (fuel : nat) (conn : option udp_conn_t) (buf_null : bool) (buf_size timeout_ms : Z)
    : sys (Z * list Z * sockaddr_in * option udp_conn_t) :=
  match conn with
  | None => mret (-1, [], {| sin_addr := 0; sin_port := 0 |}, None)
  | Some c =>
      if (uc_fd c <? 0) || buf_null || (buf_size =? 0) then mret (-1, [], {| sin_addr := 0; sin_port := 0 |}, Some c) else
      c ← (if (0 <=? timeout_ms) && negb (timeout_ms =? uc_timeout c) then
             r ← syscall_do (ScSetsockopt (uc_fd c) SO_RCVTIMEO
                   (le_bytes 8 (timeout_ms / 1000) ++ le_bytes 8 (timeout_ms mod 1000 * 1000)));
             mret (if rp_ret r =? 0 then {| uc_block := uc_block c; uc_fd := uc_fd c; uc_port := uc_port c; uc_timeout := timeout_ms |}
                   else c)
           else mret c);
      '(n, bs, a) ← udp_recv_loop fuel (uc_fd c) buf_size;
      mret (n, bs, a, Some c)
  end.

Definition udp_close (conn : option udp_conn_t) : sys unit :=
  match conn with
  | None => mret ()
  | Some c =>
      (if 0 <=? uc_fd c then _ ← syscall_do (ScShutdown (uc_fd c)); _ ← syscall_do (ScClose (uc_fd c)); mret ()
       else mret ());;
      _ ← syscall_do (ScFree (uc_block c)); mret ()
  end.

(** The [err] label. *)
Definition raw_sock_err (c : raw_sock_t) : sys (option raw_sock_t) :=
  (if 0 <=? rs_fd c then _ ← syscall_do (ScClose (rs_fd c)); mret () else mret ());;
  _ ← syscall_do (ScFree (rs_block c)); mret None.

Definition raw_sock_open (if_name : list Z) : sys (option raw_sock_t) :=
  m ← syscall_do (ScMalloc 24);
  if rp_ret m <? 0 then mret None else
  s ← syscall_do (ScSocket AF_PACKET SOCK_RAW (htons ETH_P_ALL));
  let ctx := {| rs_block := rp_ret m; rs_fd := rp_ret s; rs_index := 0; rs_name := zero_name |} in
  if rs_fd ctx <? 0 then raw_sock_err ctx else
  nm ← sys_opt (ifr_set_name if_name);
  i ← syscall_do (ScIoctl (rs_fd ctx) SIOCGIFINDEX {| ifr_name := nm; ifr_u := IfrNone |});
  if rp_ret i <? 0 then raw_sock_err ctx else
  mret (Some {| rs_block := rs_block ctx; rs_fd := rs_fd ctx; rs_index := rp_val i; rs_name := nm |}).

Definition raw_sock_send (ctx : option raw_sock_t) (dst_mac data : option (list Z)) (data_len : Z) : sys Z :=
  match ctx, data with
  | Some c, Some data =>
      if (rs_fd c <? 0) || (data_len =? 0) then mret (-1) else
      mac ← sys_opt (get_bytes 0 ETH_ALEN (default data dst_mac));
      bs ← sys_opt (get_bytes 0 (Z.to_nat data_len) data);
      r ← syscall_do (ScSendtoLl (rs_fd c) bs (rs_index c) mac);
      mret (rp_ret r)
  | _, _ => mret (-1)
  end.

Definition raw_sock_close (ctx : option raw_sock_t) : sys unit :=
  match ctx with
  | None => mret ()
  | Some c =>
      (if 0 <=? rs_fd c then _ ← syscall_do (ScClose (rs_fd c)); mret () else mret ());;
      _ ← syscall_do (ScFree (rs_block c)); mret ()
  end.

Definition udp_set_broadcast (conn : option udp_conn_t) (enable : Z) : sys Z :=
  match conn with
  | None => mret (-1)
  | Some c =>
      if uc_fd c <? 0 then mret (-1) else
      r ← set_opt (uc_fd c) SO_BROADCAST enable;
      mret (if rp_ret r <? 0 then -1 else 0)
  end.

Definition udp_set_connect (conn : option udp_conn_t) (dst_ip_n dst_port : Z) : sys Z :=
  match conn with
  | None => mret (-1)
  | Some c =>
      if (uc_fd c <? 0) || (dst_ip_n =? 0) then mret (-1) else
      r ← syscall_do (ScConnect (uc_fd c) (Some {| sin_addr := dst_ip_n; sin_port := htons dst_port |}));
      mret (if rp_ret r <? 0 then -1 else 0)
  end.

(** The address of family AF_UNSPEC. *)
Definition udp_reset_connect (conn : udp_conn_t) : sys Z :=
  r ← syscall_do (ScConnect (uc_fd conn) None); mret (rp_ret r).

Definition udp_set_mtu_discovery (conn : option udp_conn_t) (enable : bool) : sys Z :=
  match conn with
  | None => mret (-1)
  | Some c =>
      if uc_fd c <? 0 then mret (-1) else
      let mtu_disc := if enable then IP_PMTUDISC_DO else IP_PMTUDISC_DONT in
      let err_on := if enable then 1 else 0 in
      _ ← set_opt (uc_fd c) IP_MTU_DISCOVER mtu_disc;
      e ← set_opt (uc_fd c) IP_RECVERR err_on;
      if rp_ret e <? 0 then mret (-1) else
      _ ← set_opt (uc_fd c) IPV6_MTU_DISCOVER mtu_disc;
      _ ← set_opt (uc_fd c) IPV6_RECVERR err_on;
      mret 0
  end.

(** * Ownership *)

(** Blocks are numbered by the calls that made them. *)
Definition os_wf (o : os) : Prop := Forall (fun p => p < Z.of_nat (os_clock o)) (os_heap o).

(** The computation keeps descriptors and blocks. *)
Definition keeps (o : os) {A} (_ : A) (o' : os) : Prop := os_same o o'.

Lemma set_opt_keeps fd opt x o : fd ∈ os_fds o -> sys_ok (set_opt fd opt x) o (keeps o).
Proof. intros Hin. by apply (sys_ok_on _ fd). Qed.

(** A call whose result does not matter. *)
Lemma ignore_step {A B} (m : sys A) (f : sys B) o (Q : B -> os -> Prop) :
  sys_ok m o (keeps o) -> (forall o', os_same o o' -> os_kernel o' = os_kernel o -> sys_ok f o' Q) -> sys_ok (_ ← m; f) o Q.
Proof.
  intros Hm Hf. apply sys_ok_bind. eapply sys_ok_mono; [|exact Hm]. intros x o' Hk Hs. by apply Hf.
Qed.

Lemma udp_options_keeps fd mb o :
  fd ∈ os_fds o -> mb < 2048 -> sys_ok (udp_options fd mb) o (keeps o).
Proof.
  intros Hin Hmb. unfold udp_options. apply ignore_step.
  - destruct (Z.ltb_spec 0 mb); [|by apply sys_ok_ret]. destruct (Z.leb_spec (2 ^ 31) (mb * 1024 * 1024)); [lia|].
    apply ignore_step; [by apply set_opt_keeps|]. intros o1 [Hf1 Hh1] _.
    apply ignore_step; [apply set_opt_keeps; by rewrite Hf1|]. intros o2 [Hf2 Hh2] _. apply sys_ok_ret. split; congruence.
  - intros o1 [Hf1 Hh1] _. apply ignore_step; [apply set_opt_keeps; congruence|]. intros o2 [Hf2 Hh2] _.
    apply ignore_step; [apply set_opt_keeps; congruence|]. intros o3 [Hf3 Hh3] _.
    apply ignore_step; [apply set_opt_keeps; congruence|]. intros o4 [Hf4 Hh4] _. apply sys_ok_ret. split; congruence.
Qed.

(** A connection owns one descriptor and one block beyond those of [o]. *)
Definition udp_owns (o : os) (r : option udp_conn_t) (o' : os) : Prop :=
  match r with
  | None => os_same o o'
  | Some c => (uc_fd c ∉ os_fds o) /\ 0 <= uc_fd c /\ (uc_block c ∉ os_heap o) /\
      os_fds o' = uc_fd c :: os_fds o /\ os_heap o' = uc_block c :: os_heap o
  end.

Lemma udp_init_listener_owns o port mb :
  os_wf o -> mb < 2048 -> sys_ok (udp_init_listener port mb) o (udp_owns o).
Proof.
  intros Hwf Hmb. unfold udp_init_listener. apply sys_ok_bind, sys_ok_malloc; [done| |].
  { intros m o1 Hm Hs _. destruct (Z.ltb_spec (rp_ret m) 0); [|lia]. by apply sys_ok_ret. }
  intros m o1 Hm Hnp Hh1 Hf1 _. destruct (Z.ltb_spec (rp_ret m) 0); [lia|].
  apply sys_ok_bind, sys_ok_opens; [done| |].
  { intros o2 s Hs [Hf2 Hh2] _. destruct (Z.ltb_spec (rp_ret s) 0); [|lia].
    apply sys_ok_bind, sys_ok_free; [rewrite Hh2, Hh1; left|]. intros r o3 Hh3 Hf3 _. apply sys_ok_ret.
    split; [congruence|]. by rewrite Hh3, Hh2, Hh1, filter_fresh. }
  intros s o2 Hs Hns _ Hf2 Hh2 _. destruct (Z.ltb_spec (rp_ret s) 0); [lia|]. rewrite Hf1 in Hf2, Hns.
  apply ignore_step; [apply udp_options_keeps; [rewrite Hf2; left|done]|]. intros o3 [Hf3 Hh3] _.
  apply sys_ok_bind, (sys_ok_on _ (rp_ret s)); [done|done|rewrite Hf3, Hf2; left|].
  set (b := os_kernel o3 (os_clock o3)). intros o4 [Hf4 Hh4] _. destruct (Z.ltb_spec (rp_ret b) 0).
  { apply sys_ok_bind, sys_ok_close; [rewrite Hf4, Hf3, Hf2; left|]. intros r o5 Hf5 Hh5 _.
    apply sys_ok_bind, sys_ok_free; [rewrite Hh5, Hh4, Hh3, Hh2, Hh1; left|]. intros r' o6 Hh6 Hf6 _. apply sys_ok_ret.
    split; [by rewrite Hf6, Hf5, Hf4, Hf3, Hf2, filter_fresh|by rewrite Hh6, Hh5, Hh4, Hh3, Hh2, Hh1, filter_fresh]. }
  apply sys_ok_bind. destruct (port =? 0).
  - apply sys_ok_bind, (sys_ok_on _ (rp_ret s)); [done|done|rewrite Hf4, Hf3, Hf2; left|].
    intros o5 [Hf5 Hh5] _. do 2 apply sys_ok_ret. cbn. split_and!; congruence.
  - do 2 apply sys_ok_ret. cbn. split_and!; congruence.
Qed.

Lemma udp_close_releases o c o1 :
  udp_owns o (Some c) o1 -> sys_ok (udp_close (Some c)) o1 (keeps o).
Proof.
  intros (Hnf & H0 & Hnb & Hf & Hh). unfold udp_close. destruct (Z.leb_spec 0 (uc_fd c)); [|lia].
  apply sys_ok_bind, sys_ok_bind, (sys_ok_on _ (uc_fd c)); [done|done|rewrite Hf; left|]. intros o2 [Hf2 Hh2] _.
  apply sys_ok_bind, sys_ok_close; [rewrite Hf2, Hf; left|]. intros r o3 Hf3 Hh3 _. apply sys_ok_ret.
  apply sys_ok_bind, sys_ok_free; [rewrite Hh3, Hh2, Hh; left|]. intros r' o4 Hh4 Hf4 _. apply sys_ok_ret.
  split; [by rewrite Hf4, Hf3, Hf2, Hf, filter_fresh|by rewrite Hh4, Hh3, Hh2, Hh, filter_fresh].
Qed.

(** * The retry loops *)

(** [EINTR] is never answered [n] times in a row. *)
Definition interrupts_stop (k : nat -> reply) (n : nat) : Prop :=
  forall t, exists j, (j < n)%nat /\ ~ (rp_ret (k (t + j)%nat) < 0 /\ rp_errno (k (t + j)%nat) = EINTR).

(** One call of the loop that is not interrupted, after those that are. *)
Definition eintr (r : reply) : bool := (rp_ret r <? 0) && (rp_errno r =? EINTR).

Lemma interrupts_first k n t :
  interrupts_stop k n -> exists j, (j < n)%nat /\ eintr (k (t + j)%nat) = false.
Proof.
  intros H. destruct (H t) as (j & Hj & Hn). exists j. split; [done|]. unfold eintr. apply not_true_iff_false.
  intros [Hr He]%andb_true_iff. apply Hn. split; [by apply Z.ltb_lt|by apply Z.eqb_eq].
Qed.

(** The last call was answered [r]. *)
Definition last_reply (o o' : os) (r : reply) : Prop := exists t, (os_clock o' = S t)%nat /\ r = os_kernel o t.

Definition sent (o : os) (rc : Z) (o' : os) : Prop :=
  os_same o o' /\ (rc = -1 \/ 0 <= rc /\ exists r, last_reply o o' r /\ rp_ret r = rc).

Lemma sent_later o o1 rc o' : os_same o o1 -> os_kernel o1 = os_kernel o -> sent o1 rc o' -> sent o rc o'.
Proof.
  intros [Hf Hh] Hk [[Hf' Hh'] H]. split; [split; congruence|]. unfold last_reply in *. by rewrite <- Hk.
Qed.

Lemma udp_send_loop_total n fd data dest :
  forall (m j : nat) retry o fuel, fd ∈ os_fds o -> interrupts_stop (os_kernel o) n -> 0 <= retry -> 3 - retry <= Z.of_nat m ->
  (j < n)%nat -> eintr (os_kernel o (os_clock o + j)%nat) = false -> (S j + m * n <= fuel)%nat ->
  sys_ok (udp_send_loop fuel fd data dest retry) o (sent o).
Proof.
  induction m as [m IHm] using lt_wf_ind. induction j as [|j IHj]; intros retry o fuel Hin Hst H0 Hm Hj He Hfuel.
  all: destruct fuel as [|fuel]; [lia|]; cbn [udp_send_loop].
  all: apply sys_ok_bind, (sys_ok_on _ fd); [done|done|done|].
  all: set (s := os_kernel o (os_clock o)); intros o1 [Hf1 Hh1] (Hk1 & Hc1 & _).
  all: destruct (Z.leb_spec 0 (rp_ret s)) as [Hs|Hs];
    [apply sys_ok_ret; split; [done|right; split; [done|]]; exists s; split; [by exists (os_clock o)|done]|].
  all: assert (rp_errno s <> EINTR -> sys_ok (if (rp_errno s =? EAGAIN) || (rp_errno s =? ENOBUFS) then
        if 3 <? retry + 1 then mret (-1) else
        _ ← syscall_do (ScUsleep 1000);
        udp_send_loop fuel fd data dest (retry + 1)
      else mret (-1)) o1 (sent o)) as Hrest.
  1,3: intros Hne; destruct ((_ =? EAGAIN) || _); [|by apply sys_ok_ret; split; [|left]];
    destruct (Z.ltb_spec 3 (retry + 1)); [by apply sys_ok_ret; split; [|left]|];
    apply sys_ok_bind; unfold sys_ok at 1, syscall_do at 1; cbn [sc_fd sc_opens andb];
    eexists _, _; split; [done|]; split; [done|]; split; [done|]; cbn beta;
    match goal with |- sys_ok _ ?o2 _ =>
      destruct (interrupts_first (os_kernel o) n (os_clock o2) Hst) as (j' & Hj' & He');
      eapply (sys_ok_mono _ _ (sent o2)); [intros ? ? _; apply sent_later; [by split|done]|];
      apply (IHm (Nat.pred m)%nat ltac:(lia) j'); cbn; rewrite ?Hf1, ?Hk1; [done|done|lia|lia|done|by rewrite <- He'; cbn|nia] end.
  - destruct (Z.eqb_spec (rp_errno s) EINTR) as [E|E]; [|by apply Hrest].
    exfalso. rewrite Nat.add_0_r in He. fold s in He. unfold eintr in He. rewrite E in He.
    destruct (Z.ltb_spec (rp_ret s) 0); [done|lia].
  - destruct (Z.eqb_spec (rp_errno s) EINTR) as [E|E]; [|by apply Hrest].
    eapply (sys_ok_mono _ _ (sent o1)); [intros ? ? _; by apply sent_later|].
    apply IHj; rewrite ?Hf1, ?Hk1; [done|done|done|done|lia| |lia]. rewrite Hc1. by replace (S (os_clock o) + j)%nat with (os_clock o + S j)%nat by lia.
Qed.

Lemma udp_recv_loop_total n fd size :
  forall (j : nat) o fuel, fd ∈ os_fds o -> (j < n)%nat -> eintr (os_kernel o (os_clock o + j)%nat) = false -> (j < fuel)%nat ->
  sys_ok (udp_recv_loop fuel fd size) o (fun '(rc, bs, a) o' => os_same o o' /\ -2 <= rc /\
    exists r, last_reply o o' r /\ bs = rp_bytes r /\ a = rp_addr r /\
      rc = (if 0 <=? rp_ret r then rp_ret r else if rp_errno r =? EAGAIN then 0 else if rp_errno r =? ECONNREFUSED then -2 else -1)).
Proof.
  induction j as [|j IHj]; intros o fuel Hin Hj He Hfuel.
  all: destruct fuel as [|fuel]; [lia|]; cbn [udp_recv_loop].
  all: apply sys_ok_bind, (sys_ok_on _ fd); [done|done|done|].
  all: set (s := os_kernel o (os_clock o)); intros o1 [Hf1 Hh1] (Hk1 & Hc1 & _).
  all: assert (last_reply o o1 s) as Hl by (by exists (os_clock o)).
  all: destruct (Z.leb_spec 0 (rp_ret s)) as [Hs|Hs];
    [apply sys_ok_ret; split; [done|]; split; [lia|]; exists s; split; [done|]; split; [done|]; split; [done|]; by rewrite (proj2 (Z.leb_le _ _) Hs)|].
  all: destruct (Z.eqb_spec (rp_errno s) EINTR) as [E|E].
  - exfalso. rewrite Nat.add_0_r in He. fold s in He. unfold eintr in He. rewrite E in He.
    destruct (Z.ltb_spec (rp_ret s) 0); [done|lia].
  - destruct (rp_errno s =? EAGAIN) eqn:Ea; [|destruct (rp_errno s =? ECONNREFUSED) eqn:Ec]; apply sys_ok_ret;
      (split; [done|]; split; [lia|]; exists s; split; [done|]; split; [done|]; split; [done|]);
      destruct (Z.leb_spec 0 (rp_ret s)); try lia; by rewrite Ea, ?Ec.
  - eapply sys_ok_mono; [|apply IHj; rewrite ?Hf1, ?Hk1; [done|lia| |lia]].
    + intros [[rc bs] a] o' _ ([Hf2 Hh2] & Hrc & r & (t & Ht & Hr) & H). split; [split; congruence|]. split; [done|].
      exists r. split; [exists t; by rewrite <- Hk1|done].
    + rewrite Hc1. by replace (S (os_clock o) + j)%nat with (os_clock o + S j)%nat by lia.
  - destruct (rp_errno s =? EAGAIN) eqn:Ea; [|destruct (rp_errno s =? ECONNREFUSED) eqn:Ec]; apply sys_ok_ret;
      (split; [done|]; split; [lia|]; exists s; split; [done|]; split; [done|]; split; [done|]);
      destruct (Z.leb_spec 0 (rp_ret s)); try lia; by rewrite Ea, ?Ec.
Qed.

(** * Properties *)

(** The send and receive loops end.  If the kernel never interrupts [n]
    times in a row, [udp_send_raw] is done after at most [4 n] attempts,
    however often the kernel's buffers are full, and returns the number of
    bytes the kernel took in the last call or -1; [udp_recv_raw] is done
    after at most [n] attempts and returns what the last call delivered, 0
    after a timeout, -2 for an unreachable port, or -1.  No descriptor is
    opened, closed or misused. *)
Theorem udp_transfer_terminates o n c ip port data len size ms :
  interrupts_stop (os_kernel o) n -> uc_fd c ∈ os_fds o -> 0 <= uc_fd c -> is_Some (strlen ip) ->
  0 < len <= Z.of_nat (length data) -> 0 < size ->
  sys_ok (udp_send_raw (4 * n) (Some c) (Some ip) port (Some data) len) o (sent o) /\
  sys_ok (udp_recv_raw n (Some c) false size ms) o (fun '(rc, bs, a, c') o' =>
    os_same o o' /\ uc_fd <$> c' = Some (uc_fd c) /\
    exists r, last_reply o o' r /\ bs = rp_bytes r /\ a = rp_addr r /\
      rc = (if 0 <=? rp_ret r then rp_ret r else if rp_errno r =? EAGAIN then 0 else if rp_errno r =? ECONNREFUSED then -2 else -1)).
Proof.
  intros Hst Hin H0 Hip Hlen Hsize. split.
  - unfold udp_send_raw. destruct (Z.ltb_spec (uc_fd c) 0); [lia|]. destruct (Z.eqb_spec len 0); [lia|]. cbn [orb].
    destruct (inet_pton_total ip Hip) as [[a|] ->]; apply sys_ok_opt; [|by apply sys_ok_ret; split; [|left]].
    rewrite get_bytes_Some by lia. apply sys_ok_opt. destruct (interrupts_first (os_kernel o) n (os_clock o) Hst) as (j & Hj & He).
    apply (udp_send_loop_total n _ _ _ 3 j); auto; lia.
  - unfold udp_recv_raw. destruct (Z.ltb_spec (uc_fd c) 0); [lia|]. destruct (Z.eqb_spec size 0); [lia|]. cbn [orb].
    assert (forall c1 o1, uc_fd c1 = uc_fd c -> os_same o o1 -> os_kernel o1 = os_kernel o ->
      sys_ok ('(n0, bs, a) ← udp_recv_loop n (uc_fd c1) size; mret (n0, bs, a, Some c1)) o1 (fun '(rc, bs, a, c') o' =>
        os_same o o' /\ uc_fd <$> c' = Some (uc_fd c) /\
        exists r, last_reply o o' r /\ bs = rp_bytes r /\ a = rp_addr r /\
          rc = (if 0 <=? rp_ret r then rp_ret r else if rp_errno r =? EAGAIN then 0 else if rp_errno r =? ECONNREFUSED then -2 else -1))) as Hloop.
    { intros c1 o1 Ec [Hf1 Hh1] Hk1.
      assert (interrupts_stop (os_kernel o1) n) as Hst1 by by rewrite Hk1.
      destruct (interrupts_first (os_kernel o1) n (os_clock o1) Hst1) as (j & Hj & He).
      apply sys_ok_bind. eapply sys_ok_mono; [|apply (udp_recv_loop_total n _ _ j); [by rewrite Ec, Hf1|done|done|lia]].
      intros [[rc bs] a] o' Hk' ([Hf2 Hh2] & _ & r & (t & Ht & Hr) & Hb & Ha & Hrc). apply sys_ok_ret.
      split; [split; congruence|]. split; [by cbn; rewrite Ec|]. exists r. split; [exists t; by rewrite <- Hk1|done]. }
    destruct ((0 <=? ms) && _); [|by apply sys_ok_bind, sys_ok_ret, Hloop].
    apply sys_ok_bind, sys_ok_bind, (sys_ok_on _ (uc_fd c)); [done|done|done|]. intros o1 Hs1 (Hk1 & _).
    apply sys_ok_ret. destruct (_ =? 0); by apply Hloop.
Qed.

(** A kernel that interrupts every other call and has no buffers at first. *)
Definition busy_kernel (n : nat) : reply :=
  if (n <? 6)%nat then demo_reply (-1) (if Nat.even n then EINTR else EAGAIN) else demo_reply 3 0.

Lemma udp_transfer_terminates_witness :
  let o := demo_os busy_kernel in
  let c := {| uc_block := 0; uc_fd := 2; uc_port := 5887; uc_timeout := -1 |} in
  sys_ok (udp_send_raw 8 (Some c) (Some (inet_ntop 0x0100007F)) 5887 (Some [1; 2; 3]) 3) o (sent o) /\
  fst <$> udp_send_raw 8 (Some c) (Some (inet_ntop 0x0100007F)) 5887 (Some [1; 2; 3]) 3 o = Some 3.
Proof.
  intros o c. split; [|vm_compute; reflexivity].
  apply (udp_transfer_terminates o 2 c (inet_ntop 0x0100007F) 5887 [1; 2; 3] 3 1 (-1)); cbn; try lia.
  - intros t. exists (if Nat.even t then 1 else 0)%nat. unfold o, demo_os, busy_kernel. cbn [os_kernel].
    destruct (Nat.even t) eqn:Et.
    + split; [lia|]. rewrite Nat.add_1_r, Nat.even_succ, <- Nat.negb_even, Et. cbn.
      destruct (t <=? 4)%nat; vm_compute; intros [? ?]; done.
    + split; [lia|]. rewrite Nat.add_0_r, Et. destruct (t <? 6)%nat; vm_compute; intros [? ?]; done.
  - right; right; left.
  - vm_compute. eauto.
Defined.
