(* ===== verification/KeyFile.v ===== *)
(** The master key file (src/src/vfast.c): loading and generating it. *)
From S2P Require Import Prelude Libc Key Chacha Crypto Sys Tun.

Definition CRYPTO_KEY_SIZE : nat := 32.
Definition O_RDONLY : Z := 0.
Definition O_EXCL : Z := 0x80.
Definition EXIT_SUCCESS : Z := 0.
Definition EXIT_FAILURE : Z := 1.
(** [S_IRUSR | S_IWUSR] *)
Definition MODE_0600 : Z := 0x180.
Definition S_ISREG (mode : Z) : bool := Z.land mode 0xF000 =? 0x8000.

(** What [read] leaves in a buffer of at least [n] bytes. *)
Definition read_into (n : nat) (r : reply) (buf : list Z) : list Z :=
  let bs := take (Z.to_nat (rp_ret r)) (take n (rp_bytes r)) in bs ++ drop (length bs) buf.

Definition vfast_load_key (key_path out_key : option (list Z)) : sys (Z * option (list Z)) :=
  match key_path, out_key with
  | Some path, Some key =>
      path ← sys_opt (cstr path);
      o ← syscall_do (ScOpen path O_RDONLY 0);
      let fd := rp_ret o in
      if fd <? 0 then mret (-1, out_key) else
      st ← syscall_do (ScFstat fd);
      if (rp_ret st <? 0) || negb (S_ISREG (rp_val st)) then
        _ ← syscall_do (ScClose fd); mret (-1, out_key)
      else
        r ← syscall_do (ScRead fd (Z.of_nat CRYPTO_KEY_SIZE));
        let key := read_into CRYPTO_KEY_SIZE r key in
        _ ← syscall_do (ScClose fd);
        if negb (rp_ret r =? Z.of_nat CRYPTO_KEY_SIZE)
        then mret (-1, vf_secure_cleanup (Some key) CRYPTO_KEY_SIZE)
        else mret (0, Some key)
  | _, _ => mret (-1, out_key)
  end.

Definition key_file : list Z := str "vfast.key".

(** The status the process exits with, and the key buffer it leaves. *)
Definition vfast_cmd_keygen (entropy : option (list Z)) (tmp_key : list Z) : sys (Z * option (list Z)) :=
  let '(rc, tmp_key) := vf_generate_key entropy tmp_key in
  if negb (rc =? 0) then mret (EXIT_FAILURE, Some tmp_key) else
  let cleanup_fail := mret (EXIT_FAILURE, vf_secure_cleanup (Some tmp_key) CRYPTO_KEY_SIZE) in
  o ← syscall_do (ScOpen key_file (Z.lor O_WRONLY (Z.lor O_CREAT O_EXCL)) MODE_0600);
  let fd := rp_ret o in
  if fd <? 0 then cleanup_fail else
  c ← syscall_do (ScFchmod fd MODE_0600);
  if negb (rp_ret c =? 0) then
    _ ← syscall_do (ScClose fd); _ ← syscall_do (ScUnlink key_file); cleanup_fail
  else
    n ← syscall_do (ScWrite fd (take CRYPTO_KEY_SIZE tmp_key));
    if negb (rp_ret n =? Z.of_nat CRYPTO_KEY_SIZE) then
      _ ← syscall_do (ScClose fd); _ ← syscall_do (ScUnlink key_file); cleanup_fail
    else
      _ ← syscall_do (ScFdatasync fd);
      _ ← syscall_do (ScClose fd);
      mret (EXIT_SUCCESS, vf_secure_cleanup (Some tmp_key) CRYPTO_KEY_SIZE).

(** * Properties *)

Definition keygen_open : syscall := ScOpen key_file (Z.lor O_WRONLY (Z.lor O_CREAT O_EXCL)) MODE_0600.

(** The calls of a generation that succeeds, of one that fails after it
    created the file, and of one that created nothing; latest first. *)
Definition keygen_done (fd : Z) (key : list Z) : list syscall :=
  [ScClose fd; ScFdatasync fd; ScWrite fd key; ScFchmod fd MODE_0600; keygen_open].
Definition keygen_undone (fd : Z) (calls : list syscall) : list syscall := ScUnlink key_file :: ScClose fd :: calls.

(** The calls after which the run gives up, and takes the file back. *)
Definition keygen_refused (fd : Z) (calls : list syscall) (o : os) (x : Z * option (list Z)) (o' : os) : Prop :=
  x.1 = EXIT_FAILURE /\ os_log o' = keygen_undone fd (calls ++ keygen_open :: os_log o).

(** The status and the calls, by the answers of the kernel: [k0] to the opening
    of the file, [k1] to the change of its mode, [k2] to the write. *)
Definition keygen_verdict (key : list Z) (k0 k1 k2 : Z) (o : os) (x : Z * option (list Z)) (o' : os) : Prop :=
  if decide (k0 < 0) then x.1 = EXIT_FAILURE /\ os_log o' = keygen_open :: os_log o
  else exists fd, (fd ∉ os_fds o) /\
    (if decide (~ (k1 = 0)) then keygen_refused fd [ScFchmod fd MODE_0600] o x o'
     else if decide (~ (k2 = 32)) then keygen_refused fd [ScWrite fd key; ScFchmod fd MODE_0600] o x o'
     else x.1 = EXIT_SUCCESS /\ os_log o' = keygen_done fd key ++ os_log o).

(** What the run leaves. *)
Definition keygen_outcome (key : list Z) (o : os) (x : Z * option (list Z)) (o' : os) : Prop :=
  let answer i := rp_ret (os_kernel o (os_clock o + i)%nat) in
  os_same o o' /\ x.2 = Some (replicate CRYPTO_KEY_SIZE 0) /\ keygen_verdict key (answer 0%nat) (answer 1%nat) (answer 2%nat) o x o'.

Lemma wipe_key key : length key = CRYPTO_KEY_SIZE -> vf_secure_cleanup (Some key) CRYPTO_KEY_SIZE = Some (replicate CRYPTO_KEY_SIZE 0).
Proof.
  intros Hl. unfold vf_secure_cleanup, crypto_wipe. cbn [fmap option_fmap option_map]. f_equal.
  rewrite <- (app_nil_r (replicate _ _)). f_equal. apply drop_ge. rewrite Hl. unfold CRYPTO_KEY_SIZE in *. lia.
Qed.

Lemma unlink_step o (Q : Z * option (list Z) -> os -> Prop) x :
  (forall o', os_same o o' -> os_log o' = ScUnlink key_file :: os_log o -> Q x o') ->
  sys_ok (_ ← syscall_do (ScUnlink key_file); mret x) o Q.
Proof.
  intros H. apply sys_ok_bind. unfold sys_ok at 1, syscall_do. cbn [sc_fd sc_opens andb].
  eexists _, _. split; [done|]. split; [done|]. split; [done|]. apply sys_ok_ret. by apply H.
Qed.

(** The failure paths after the file was created. *)
Lemma keygen_undo fd o o1 calls :
  (fd ∉ os_fds o) -> os_fds o1 = fd :: os_fds o -> os_heap o1 = os_heap o -> os_log o1 = calls ++ keygen_open :: os_log o ->
  sys_ok (_ ← syscall_do (ScClose fd); _ ← syscall_do (ScUnlink key_file);
          mret (EXIT_FAILURE, Some (replicate CRYPTO_KEY_SIZE 0))) o1
    (fun x o' => os_same o o' /\ x.2 = Some (replicate CRYPTO_KEY_SIZE 0) /\ keygen_refused fd calls o x o').
Proof.
  intros Hni Hf1 Hh1 Hl1. apply sys_ok_bind, sys_ok_close; [rewrite Hf1; left|].
  intros r o2 Hf2 Hh2 (_ & _ & Hl2). apply unlink_step. intros o3 [Hf3 Hh3] Hl3.
  split; [split; [by rewrite Hf3, Hf2, Hf1, filter_fresh|congruence]|]. split; [done|]. split; [done|].
  unfold keygen_undone. by rewrite Hl3, Hl2, Hl1.
Qed.

Lemma keygen_complete bs buf o :
  length buf = CRYPTO_KEY_SIZE -> (CRYPTO_KEY_SIZE <= length bs)%nat ->
  sys_ok (vfast_cmd_keygen (Some bs) buf) o (keygen_outcome (take CRYPTO_KEY_SIZE bs) o).
Proof.
  intros Hbuf Hlen. unfold CRYPTO_KEY_SIZE in Hbuf, Hlen.
  unfold vfast_cmd_keygen, vf_generate_key. set (key := take 32 bs).
  assert (length key = 32%nat) as Lk by (unfold key; rewrite length_take; lia).
  rewrite decide_False by lia. cbn [negb Z.eqb]. rewrite (drop_ge buf) by lia. rewrite app_nil_r.
  rewrite (take_ge key) by (unfold CRYPTO_KEY_SIZE; lia). rewrite wipe_key by done. fold keygen_open.
  assert (forall x o', os_same o o' -> x.2 = Some (replicate CRYPTO_KEY_SIZE 0) ->
    keygen_verdict key (rp_ret (os_kernel o (os_clock o))) (rp_ret (os_kernel o (S (os_clock o)))) (rp_ret (os_kernel o (S (S (os_clock o))))) o x o' ->
    keygen_outcome key o x o') as Hout.
  { intros x o' H1 H2 H3. split; [exact H1|]. split; [exact H2|]. rewrite Nat.add_0_r, Nat.add_1_r.
    replace (os_clock o + 2)%nat with (S (S (os_clock o))) by lia. exact H3. }
  apply sys_ok_bind, sys_ok_opens; [done| |].
  { intros o1 r Hr Hs (_ & _ & Hl). destruct (Z.ltb_spec (rp_ret r) 0); [|lia]. apply sys_ok_ret. apply Hout; [done..|]. unfold keygen_verdict. by rewrite decide_True. }
  intros r o1 H0 Hni Hr0 Hf1 Hh1 (Hk1 & Hc1 & Hl1). destruct (Z.ltb_spec (rp_ret r) 0); [lia|]. set (fd := rp_ret r) in *.
  apply sys_ok_bind, (sys_ok_on _ fd); [done|done|rewrite Hf1; left|]. rewrite Hk1, Hc1.
  intros o2 [Hf2 Hh2] (Hk2 & Hc2 & Hl2). destruct (Z.eqb_spec (rp_ret (os_kernel o (S (os_clock o)))) 0) as [E1|E1]; cbn [negb].
  2: { eapply sys_ok_mono; [|eapply (keygen_undo fd o o2 [ScFchmod fd MODE_0600]); [done|congruence|congruence|by rewrite Hl2, Hl1]].
       intros x o' _ (? & ? & ?). apply Hout; [done..|]. unfold keygen_verdict. rewrite decide_False by lia. exists fd. by rewrite decide_True. }
  apply sys_ok_bind, (sys_ok_on _ fd); [done|done|rewrite Hf2, Hf1; left|]. rewrite Hk2, Hk1, Hc2, Hc1.
  intros o3 [Hf3 Hh3] (_ & _ & Hl3).
  destruct (Z.eqb_spec (rp_ret (os_kernel o (S (S (os_clock o))))) (Z.of_nat CRYPTO_KEY_SIZE)) as [E2|E2]; cbn [negb].
  2: { eapply sys_ok_mono; [|eapply (keygen_undo fd o o3 [ScWrite fd key; ScFchmod fd MODE_0600]); [done|congruence|congruence|by rewrite Hl3, Hl2, Hl1]].
       intros x o' _ (? & ? & ?). apply Hout; [done..|]. unfold keygen_verdict. rewrite decide_False by lia. exists fd. split; [done|]. rewrite decide_False by (intros []; done). by rewrite decide_True. }
  apply sys_ok_bind, (sys_ok_on _ fd); [done|done|rewrite Hf3, Hf2, Hf1; left|]. intros o4 [Hf4 Hh4] (_ & _ & Hl4).
  apply sys_ok_bind, sys_ok_close; [rewrite Hf4, Hf3, Hf2, Hf1; left|]. intros r' o5 Hf5 Hh5 (_ & _ & Hl5). apply sys_ok_ret.
  apply Hout; [split; [by rewrite Hf5, Hf4, Hf3, Hf2, Hf1, filter_fresh|congruence]|done|]. unfold keygen_verdict. rewrite decide_False by lia.
  exists fd. split; [done|]. rewrite !decide_False by (intros []; done). split; [done|].
  unfold keygen_done. by rewrite Hl5, Hl4, Hl3, Hl2, Hl1.
Qed.

Lemma keygen_short bs buf o :
  length buf = CRYPTO_KEY_SIZE -> (length bs < CRYPTO_KEY_SIZE)%nat ->
  vfast_cmd_keygen (Some bs) buf o = Some ((EXIT_FAILURE, Some (bs ++ drop (length bs) buf)), o).
Proof.
  intros Hbuf Hlen. unfold CRYPTO_KEY_SIZE in Hbuf, Hlen. unfold vfast_cmd_keygen, vf_generate_key.
  rewrite (take_ge bs) by lia. by rewrite decide_True by lia.
Qed.

(** C23 A key is generated completely or not at all.  When the entropy source
    gives 32 bytes, the run ends, keeps no descriptor open and leaves the key
    buffer wiped, and what it did is fixed by the answers of the kernel.  If
    the kernel does not create the file, which is asked for exclusively and
    with mode 0600, nothing else is called and the process fails.  If it
    refuses the change of the mode, or takes anything but 32 bytes of the one
    write of the key, the file is closed and removed again and the process
    fails.  Otherwise, and only then, the file is synchronised and closed and
    the process succeeds.  When the entropy source falls short, no file is
    touched and the process fails. *)
Theorem vfast_cmd_keygen_exact entropy buf o :
  length buf = CRYPTO_KEY_SIZE ->
  match entropy with
  | Some bs => if decide (CRYPTO_KEY_SIZE <= length bs)%nat
               then sys_ok (vfast_cmd_keygen entropy buf) o (keygen_outcome (take CRYPTO_KEY_SIZE bs) o)
               else vfast_cmd_keygen entropy buf o = Some ((EXIT_FAILURE, Some (bs ++ drop (length bs) buf)), o)
  | None => vfast_cmd_keygen entropy buf o = Some ((EXIT_FAILURE, Some buf), o)
  end.
Proof.
  intros Hbuf. destruct entropy as [bs|]; [|done]. case_decide; [by apply keygen_complete|apply keygen_short; [done|lia]].
Qed.

(** However it ends, nothing stays open. *)
Lemma keygen_same entropy buf o :
  length buf = CRYPTO_KEY_SIZE ->
  sys_ok (vfast_cmd_keygen entropy buf) o (fun x o' => os_same o o' /\ (x.1 = EXIT_SUCCESS \/ x.1 = EXIT_FAILURE)).
Proof.
  intros Hbuf. destruct entropy as [bs|]; [|exists (EXIT_FAILURE, Some buf), o; split_and!; try done; by right].
  destruct (decide (CRYPTO_KEY_SIZE <= length bs)%nat) as [Hl|Hl].
  - eapply sys_ok_mono; [|by apply keygen_complete]. intros x o' _ (Hs & _ & H). split; [done|]. unfold keygen_verdict in H.
    case_decide; [right; apply H|]. destruct H as (fd & _ & H). repeat case_decide; [right; apply H|right; apply H|left; apply H].
  - eexists _, o. split; [apply keygen_short; [done|lia]|]. split_and!; try done. by right.
Qed.

(** Loading leaves no descriptor behind, and gives the 32 bytes the kernel
    read, from a regular file, or a wiped or untouched buffer. *)
Lemma vfast_load_key_spec path key o :
  is_Some (strlen path) -> length key = CRYPTO_KEY_SIZE ->
  sys_ok (vfast_load_key (Some path) (Some key)) o (fun '(rc, k) o' => os_same o o' /\
    ((rc = -1 /\ (k = Some key \/ k = Some (replicate CRYPTO_KEY_SIZE 0))) \/
     (rc = 0 /\ exists r, r = os_kernel o (S (S (os_clock o))) /\ rp_ret r = Z.of_nat CRYPTO_KEY_SIZE /\
        k = Some (read_into CRYPTO_KEY_SIZE r key)))).
Proof.
  intros Hp Hl. unfold vfast_load_key. destruct (cstr_terminated path Hp) as [p ->]. apply sys_ok_opt.
  apply sys_ok_bind, sys_ok_opens; [done| |].
  { intros o1 r Hr Hs _. destruct (Z.ltb_spec (rp_ret r) 0); [|lia]. apply sys_ok_ret. split; [done|]. left. split; [done|by left]. }
  intros r o1 H0 Hni _ Hf1 Hh1 (Hk1 & Hc1 & _). destruct (Z.ltb_spec (rp_ret r) 0); [lia|]. set (fd := rp_ret r) in *.
  apply sys_ok_bind, (sys_ok_on _ fd); [done|done|rewrite Hf1; left|]. set (st := os_kernel o1 (os_clock o1)).
  intros o2 [Hf2 Hh2] (Hk2 & Hc2 & _). destruct ((rp_ret st <? 0) || _).
  { apply sys_ok_bind, sys_ok_close; [rewrite Hf2, Hf1; left|]. intros r' o3 Hf3 Hh3 _. apply sys_ok_ret.
    split; [split; [by rewrite Hf3, Hf2, Hf1, filter_fresh|congruence]|]. left. split; [done|by left]. }
  apply sys_ok_bind, (sys_ok_on _ fd); [done|done|rewrite Hf2, Hf1; left|]. set (rd := os_kernel o2 (os_clock o2)).
  intros o3 [Hf3 Hh3] _. apply sys_ok_bind, sys_ok_close; [rewrite Hf3, Hf2, Hf1; left|]. intros r' o4 Hf4 Hh4 _.
  assert (os_same o o4) as Hs by (split; [by rewrite Hf4, Hf3, Hf2, Hf1, filter_fresh|congruence]).
  assert (rd = os_kernel o (S (S (os_clock o)))) as Erd by (unfold rd; by rewrite Hk2, Hk1, Hc2, Hc1).
  destruct (Z.eqb_spec (rp_ret rd) (Z.of_nat CRYPTO_KEY_SIZE)); cbn [negb]; apply sys_ok_ret; (split; [done|]).
  - right. split; [done|]. by exists rd.
  - left. split; [done|]. right. apply wipe_key. unfold read_into. rewrite length_app, length_drop, Hl.
    rewrite !length_take. unfold CRYPTO_KEY_SIZE. lia.
Qed.

Lemma vfast_cmd_keygen_exact_witness :
  sys_ok (vfast_cmd_keygen (Some (replicate 32 7)) (replicate 32 1)) (demo_os (fun n => demo_reply (if (n =? 2)%nat then 32 else 0) 0))
    (keygen_outcome (replicate 32 7) (demo_os (fun n => demo_reply (if (n =? 2)%nat then 32 else 0) 0))).
Proof.
  exact (vfast_cmd_keygen_exact (Some (replicate 32 7)) (replicate 32 1)
    (demo_os (fun n => demo_reply (if (n =? 2)%nat then 32 else 0) 0)) eq_refl).
Defined.
