(* ===== verification/Client.v ===== *)
(** The client (src/src/vfast_client.c): its message handlers, the receive
    paths, the rekey timer, and the turns of the state machine's thread. *)
From S2P Require Import Prelude Crypto Key Protocol Libc Io Payload Receive Fsm Sys Tun.

(** [vfast_rekey_mgr_t]; [last_sent] is a [time_t]. *)
Record vfast_rekey_mgr_t := { last_sent : Z; retry_interval : Z; poll_ms : Z }.
Definition g_rekey_mgr : vfast_rekey_mgr_t := {| last_sent := 0; retry_interval := 2; poll_ms := 1000 |}.

(** [vfclient].  [active_ptr] tells which of the two contexts it points to;
    [cl_pack] is the I/O thread's sending state, [cl_seed] the padding state
    of the state machine's thread; [cl_os] is the operating system. *)
Record client := {
  cl_fsm : vfast_fsm_t;
  active_ptr : bool;
  sec_ctx0 : vfast_sec_ctx_t;
  sec_ctx1 : vfast_sec_ctx_t;
  cl_vip : Z;
  cl_tun_name : list Z;
  cl_rekey : vfast_rekey_mgr_t;
  cl_pack : pack_state;
  cl_seed : Z;
  cl_os : os
}.

Definition with_fsm (f : vfast_fsm_t) (w : client) : client :=
  {| cl_fsm := f; active_ptr := active_ptr w; sec_ctx0 := sec_ctx0 w; sec_ctx1 := sec_ctx1 w;
     cl_vip := cl_vip w; cl_tun_name := cl_tun_name w; cl_rekey := cl_rekey w; cl_pack := cl_pack w;
     cl_seed := cl_seed w; cl_os := cl_os w |}.
Definition with_active (b : bool) (w : client) : client :=
  {| cl_fsm := cl_fsm w; active_ptr := b; sec_ctx0 := sec_ctx0 w; sec_ctx1 := sec_ctx1 w;
     cl_vip := cl_vip w; cl_tun_name := cl_tun_name w; cl_rekey := cl_rekey w; cl_pack := cl_pack w;
     cl_seed := cl_seed w; cl_os := cl_os w |}.
(** The context at an index, and its update. *)
Definition ctx_at (b : bool) (w : client) : vfast_sec_ctx_t := if b then sec_ctx1 w else sec_ctx0 w.
Definition set_ctx (b : bool) (c : vfast_sec_ctx_t) (w : client) : client :=
  {| cl_fsm := cl_fsm w; active_ptr := active_ptr w; sec_ctx0 := if b then sec_ctx0 w else c;
     sec_ctx1 := if b then c else sec_ctx1 w; cl_vip := cl_vip w; cl_tun_name := cl_tun_name w;
     cl_rekey := cl_rekey w; cl_pack := cl_pack w; cl_seed := cl_seed w; cl_os := cl_os w |}.
Definition with_vip (v : Z) (w : client) : client :=
  {| cl_fsm := cl_fsm w; active_ptr := active_ptr w; sec_ctx0 := sec_ctx0 w; sec_ctx1 := sec_ctx1 w;
     cl_vip := v; cl_tun_name := cl_tun_name w; cl_rekey := cl_rekey w; cl_pack := cl_pack w;
     cl_seed := cl_seed w; cl_os := cl_os w |}.
Definition with_rekey (m : vfast_rekey_mgr_t) (w : client) : client :=
  {| cl_fsm := cl_fsm w; active_ptr := active_ptr w; sec_ctx0 := sec_ctx0 w; sec_ctx1 := sec_ctx1 w;
     cl_vip := cl_vip w; cl_tun_name := cl_tun_name w; cl_rekey := m; cl_pack := cl_pack w;
     cl_seed := cl_seed w; cl_os := cl_os w |}.
Definition with_cl_pack (ps : pack_state) (w : client) : client :=
  {| cl_fsm := cl_fsm w; active_ptr := active_ptr w; sec_ctx0 := sec_ctx0 w; sec_ctx1 := sec_ctx1 w;
     cl_vip := cl_vip w; cl_tun_name := cl_tun_name w; cl_rekey := cl_rekey w; cl_pack := ps;
     cl_seed := cl_seed w; cl_os := cl_os w |}.
Definition with_seed (x : Z) (w : client) : client :=
  {| cl_fsm := cl_fsm w; active_ptr := active_ptr w; sec_ctx0 := sec_ctx0 w; sec_ctx1 := sec_ctx1 w;
     cl_vip := cl_vip w; cl_tun_name := cl_tun_name w; cl_rekey := cl_rekey w; cl_pack := cl_pack w;
     cl_seed := x; cl_os := cl_os w |}.
Definition with_os (o : os) (w : client) : client :=
  {| cl_fsm := cl_fsm w; active_ptr := active_ptr w; sec_ctx0 := sec_ctx0 w; sec_ctx1 := sec_ctx1 w;
     cl_vip := cl_vip w; cl_tun_name := cl_tun_name w; cl_rekey := cl_rekey w; cl_pack := cl_pack w;
     cl_seed := cl_seed w; cl_os := o |}.

(** What the surroundings answer during one callback: [time(NULL)],
    [vf_now_ms()], /dev/urandom for the nonce, and [getrandom]. *)
Record cl_env := { ce_time : Z; ce_now_ms : Z; ce_urandom : urandom_result; ce_getrandom : list getrandom_result }.

Definition active_ctx (w : client) : vfast_sec_ctx_t := ctx_at (active_ptr w) w.

(** [VFAST_BROADCAST] *)
Definition VFAST_BROADCAST : list Z := str "255.255.255.0" ++ [0].

(** ** Handlers.  [payload] is the length [vf_unpack] reported, none when it
    returned NULL; the bytes lie at [HLEN] in the buffer [b] of task [i]. *)

Section client.
Context {R : Type} `{HR : IoUring R}.

(** A NULL payload makes a wild task pointer. *)
Definition client_handle_data (w : client) (io : vf_io_t R) (i : nat) (payload : option Z) : option (vf_io_t R) :=
  if negb (vf_fsm_is_connected (cl_fsm w)) then Some io else
  plen ← payload;
  vf_io_write io (tun_fd io) OP_TUN_WRITE {| dp_task := i; dp_off := HLEN |} plen None.

Definition client_handle_hello (w : client) (payload : option Z) (b : list Z) : option client :=
  if negb (bool_decide (f_state (cl_fsm w) = ST_HELLO_WAIT)) then Some w else
  match payload with
  | None => Some w
  | Some plen =>
      if plen <? HELLO_RESP_SIZE then Some w else
      status ← get_le HELLO_RESP_STATUS 4 b;
      if negb (ntohl status =? VF_S_OK) then Some (with_fsm (set_state ST_IDLE (cl_fsm w)) w) else
      cookie ← get_bytes HELLO_RESP_COOKIE 16 b;
      ts ← get_le HELLO_RESP_SERVER_TS 8 b;
      Some (with_fsm (set_state ST_AUTH_SEND (set_hello cookie (ntohll ts) (cl_fsm w))) w)
  end.

(** The context after an authentication response. *)
Definition install_key (raw : list Z) (kid sid now : Z) (c : vfast_sec_ctx_t) : vfast_sec_ctx_t :=
  {| active_key := {| k_raw := raw; k_id := kid; k_bytes_processed := 0; k_created_at := now |};
     previous_key := previous_key c; next_key := next_key c; sec_sid := sid; rekey_pending := false |}.

Definition client_handle_auth (w : client) (sid : Z) (payload : option Z) (b : list Z) (e : cl_env) : option client :=
  if negb (bool_decide (f_state (cl_fsm w) = ST_AUTH_WAIT)) then Some w else
  match payload with
  | None => Some w
  | Some plen =>
      if plen <? AUTH_RESP_SIZE then Some w else
      status ← get_le AUTH_RESP_STATUS 4 b;
      if negb (ntohl status =? VF_S_OK) then Some (with_fsm (set_state ST_IDLE (cl_fsm w)) w) else
      raw ← get_bytes AUTH_RESP_INIT_KEY REKEY_KEY_SIZE b;
      kid ← get_le AUTH_RESP_KEY_ID 4 b;
      vip ← get_le AUTH_RESP_VIP 4 b;
      let ctx := active_ptr w in
      let w := set_ctx ctx (install_key raw (ntohl kid) sid (ce_time e) (ctx_at ctx w)) w in
      let w := with_fsm (set_session sid (Some ctx) (cl_fsm w)) (with_vip vip w) in
      '(rc, o) ← vf_tun_set_ip (Some (cl_tun_name w)) (Some (inet_ntop vip)) (Some VFAST_BROADCAST) (cl_os w);
      let w := with_os o w in
      if rc =? 0 then Some (with_fsm (set_state ST_CONNECTED (cl_fsm w)) w) else Some w
  end.

(** The code, and whether the latency is reported. *)
Definition client_handle_keepalive (payload : option Z) (b : list Z) (e : cl_env) : option (Z * bool) :=
  match payload with
  | None => Some (-1, false)
  | Some plen =>
      if plen <? ECHO_SIZE then Some (-1, false) else
      ts ← get_le ECHO_TIMESTAMP 8 b;
      let sent_ms := ntohll ts in
      Some (0, (sent_ms <=? ce_now_ms e) && (VF_RTT_THRESHOLD_MS <? u64 (ce_now_ms e - sent_ms)))
  end.

Definition clear_pending (c : vfast_sec_ctx_t) : vfast_sec_ctx_t := set_next_key (next_key c) false c.

Definition vfast_handle_new_key (w : client) : client :=
  let curr := active_ptr w in
  let next_buf := negb curr in
  let w := set_ctx next_buf (ctx_at curr w) w in
  let w := set_ctx next_buf (vf_rekey_commit (ctx_at next_buf w)) w in
  let w := with_active next_buf w in
  let w := set_ctx curr (clear_pending (ctx_at curr w)) w in
  with_fsm (set_session (f_sid (cl_fsm w)) (Some next_buf) (cl_fsm w)) w.

(** The sixteen random bytes it draws are not put into the packet: the
    payload is what the buffer holds. *)
Definition client_handle_dpd (w : client) (io : vf_io_t R) (i : nat) (src : sockaddr_in) (e : cl_env)
    : option (bool * client * vf_io_t R) :=
  '(tlen, io, ps) ← pack_task i (cl_pack w) (ce_urandom e) (Some (active_ctx w)) 16 VPN_DPD_RESPONSE (f_sid (cl_fsm w)) io;
  let w := with_cl_pack ps w in
  if tlen <=? 0 then Some (false, w, io) else
  io ← vf_io_write io (udp_fd io) OP_UDP_SEND {| dp_task := i; dp_off := 0 |} tlen (Some src);
  Some (true, w, io).

(** ** The callbacks *)

Definition client_dispatch (w : client) (io : vf_io_t R) (sid msg_type : Z) (i : nat) (payload : option Z) (b : list Z)
    (src : sockaddr_in) (e : cl_env) : option (bool * client * vf_io_t R) :=
  if msg_type =? VPN_MSG_DATA then io ← client_handle_data w io i payload; Some (false, w, io)
  else if msg_type =? VPN_MSG_HELLO then w ← client_handle_hello w payload b; Some (false, w, io)
  else if msg_type =? VPN_MSG_KEEPALIVE then _ ← client_handle_keepalive payload b e; Some (false, w, io)
  else if msg_type =? VPN_DPD_REQUEST then client_handle_dpd w io i src e
  else if msg_type =? VPN_MSG_REKEY_ACK then Some (false, vfast_handle_new_key w, io)
  else if msg_type =? VPN_MSG_AUTH_ACK then w ← client_handle_auth w sid payload b e; Some (false, w, io)
  else Some (false, w, io).

Definition client_on_udp (w : client) (io : vf_io_t R) (i : nat) (len : Z) (e : cl_env)
    : option (client * vf_io_t R * vf_task_state_t) :=
  t ← task_pool io !! i;
  let src := t_addr t in
  if len <? VPN_TNL_HLEN then Some (w, io, IO_TASK_DONE) else
  b ← task_buf i io;
  b ← vf_remove_header_obfs b len;
  sn ← get_le H_SESSION_ID 4 b;
  let sid := ntohl sn in
  msg_type ← get_le H_MSG_TYPE 1 b;
  let sec := if msg_type =? VPN_MSG_HELLO then None else Some (active_ctx w) in
  '(payload, b) ← vf_unpack sec b len;
  io ← set_task_buf i b io;
  let w := with_fsm (vf_fsm_update (ce_time e) (cl_fsm w)) w in
  msg_type ← get_le H_MSG_TYPE 1 b;
  '(isuse, w, io) ← client_dispatch w io sid msg_type i payload b src e;
  Some (w, io, if isuse : bool then IO_TASK_USE else IO_TASK_DONE).

(** [data] is [buf + HLEN]. *)
Definition client_on_tun (w : client) (io : vf_io_t R) (i : nat) (len : Z) (e : cl_env)
    : option (client * vf_io_t R * vf_task_state_t) :=
  if negb (vf_fsm_is_connected (cl_fsm w)) then Some (w, io, IO_TASK_DONE) else
  let w := set_ctx (active_ptr w) (add_processed len (active_ctx w)) w in
  '(total_len, io, ps) ← pack_task i (cl_pack w) (ce_urandom e) (Some (active_ctx w)) len VPN_MSG_DATA (f_sid (cl_fsm w)) io;
  let w := with_cl_pack ps w in
  if total_len <? 0 then Some (w, io, IO_TASK_DONE) else
  io ← vf_io_write io (udp_fd io) OP_UDP_SEND {| dp_task := i; dp_off := 0 |} total_len (Some (f_dst (cl_fsm w)));
  Some (w, io, IO_TASK_USE).

(** ** The rekey timer *)

(** Filling the borrowed task and sending the request. *)
Definition rekey_send (w : client) (io : vf_io_t R) (i : nat) (e : cl_env) : option (client * vf_io_t R) :=
  let ctx := active_ctx w in
  b ← task_buf i io;
  b ← put_le HLEN 4 (htonl (k_id (next_key ctx))) b;
  raw ← get_bytes 0 REKEY_KEY_SIZE (k_raw (next_key ctx));
  b ← put_bytes (HLEN + 4) raw b;
  io ← set_task_buf i b io;
  '(total_len, io, ps) ← pack_task i (cl_pack w) (ce_urandom e) (Some ctx) (4 + Z.of_nat REKEY_KEY_SIZE) VPN_MSG_REKEY_REQ
     (f_sid (cl_fsm w)) io;
  let w := with_cl_pack ps w in
  io ← vf_io_write io (udp_fd io) OP_UDP_SEND {| dp_task := i; dp_off := 0 |} total_len (Some (f_dst (cl_fsm w)));
  Some (w, io).

Definition set_retry (n : Z) (m : vfast_rekey_mgr_t) : vfast_rekey_mgr_t :=
  {| last_sent := last_sent m; retry_interval := n; poll_ms := poll_ms m |}.
Definition set_sent (t : Z) (m : vfast_rekey_mgr_t) : vfast_rekey_mgr_t :=
  {| last_sent := t; retry_interval := retry_interval m; poll_ms := poll_ms m |}.

Definition vfast_rekey_timer_handler (w : client) (io : vf_io_t R) (e : cl_env) : option (client * vf_io_t R) :=
  if negb (vf_fsm_is_connected (cl_fsm w)) then Some (w, io) else
  let ctx := active_ctx w in
  let mgr := cl_rekey w in
  let now := ce_time e in
  let processed := k_bytes_processed (active_key ctx) in
  let pending := rekey_pending ctx in
  let expired := REKEY_TIMEOUT_SEC <=? now - k_created_at (active_key ctx) in
  let full := REKEY_DATA_THRESHOLD <=? processed in
  let should_init := negb pending && (expired || full) in
  let should_retry := pending && (retry_interval mgr <=? now - last_sent mgr) in
  if negb (should_init || should_retry) then Some (w, io) else
  '(rc, w) ←
    (if should_init then
       '(rc, c) ← vf_rekey_prepare_next (ce_getrandom e) now ctx;
       let w := set_ctx (active_ptr w) c w in
       Some (rc, if negb (rc =? 0) then w else with_rekey (set_retry 2 (cl_rekey w)) w)
     else Some (0, w));
  if negb (rc =? 0) then Some (w, io) else
  '(t, io) ← vf_io_task io;
  match t with
  | None => Some (w, io)
  | Some i =>
      '(w, io) ← rekey_send w io i e;
      let m := set_sent now (cl_rekey w) in
      let m := if should_retry && (retry_interval m <? 32) then set_retry (retry_interval m * 2) m else m in
      Some (with_rekey m w, io)
  end.

(** ** The state machine's thread, one turn of its loop *)

Definition client_tick (w : client) (io : vf_io_t R) (e : fsm_env) : option (client * vf_io_t R) :=
  '(f, ps, io) ← fsm_tick (cl_fsm w) {| ps_seed := cl_seed w; ps_nonce := ps_nonce (cl_pack w) |} io e;
  Some (with_cl_pack {| ps_seed := ps_seed (cl_pack w); ps_nonce := ps_nonce ps |} (with_seed (ps_seed ps) (with_fsm f w)), io).
End client.

(** ** Setup *)

Definition vfast_init_secctx (calls : list getrandom_result) (now : Z) (w : client) : option client :=
  let w := set_ctx true zero_sec_ctx (set_ctx false zero_sec_ctx w) in
  c ← vf_rekey_init calls now 0;
  Some (with_active false (set_ctx false c w)).
