(* ===== verification/ClientRx.v ===== *)
(** The client's invariant, and what its callbacks do to the task they get
    (src/src/vfast_client.c). *)
From S2P Require Import Prelude Crypto Key Protocol Libc Io Payload Receive Fsm Sys Tun Client.

(** * The invariant *)

(** The retry intervals the backoff goes through. *)
Definition backoff : list Z := [2; 4; 8; 16; 32].

(** Machine, keys and sending states are well-formed, the interface has a
    name, the standby context is never waiting for an acknowledgement, and
    the retry interval is one of the backoff's. *)
Record cl_ok (w : client) : Prop := {
  co_fsm : fsm_ok (cl_fsm w);
  co_sec0 : sec_ok (sec_ctx0 w);
  co_sec1 : sec_ok (sec_ctx1 w);
  co_pack : pack_state_ok (cl_pack w);
  co_seed : word_ok 32 (cl_seed w);
  co_name : is_Some (strlen (cl_tun_name w));
  co_os : errnos_ok (os_kernel (cl_os w));
  co_standby : rekey_pending (ctx_at (negb (active_ptr w)) w) = false;
  co_retry : retry_interval (cl_rekey w) ∈ backoff
}.

Record cl_env_ok (e : cl_env) : Prop := {
  ce_u : urandom_ok (ce_urandom e);
  ce_calls : calls_ok (ce_getrandom e);
  ce_key : is_Some (vfast_crypto_fill_random (ce_getrandom e) REKEY_KEY_SIZE)
}.

Lemma co_ctx w b : cl_ok w -> sec_ok (ctx_at b w).
Proof. intros Hw. destruct b; apply Hw. Qed.

Lemma cl_ok_fsm w f : cl_ok w -> fsm_ok f -> cl_ok (with_fsm f w).
Proof. by intros []. Qed.
Lemma cl_ok_pack w ps : cl_ok w -> pack_state_ok ps -> cl_ok (with_cl_pack ps w).
Proof. by intros []. Qed.
Lemma cl_ok_vip w v : cl_ok w -> cl_ok (with_vip v w).
Proof. by intros []. Qed.
Lemma cl_ok_os w o : cl_ok w -> errnos_ok (os_kernel o) -> cl_ok (with_os o w).
Proof. by intros []. Qed.
Lemma cl_ok_seed w x : cl_ok w -> word_ok 32 x -> cl_ok (with_seed x w).
Proof. by intros []. Qed.
Lemma cl_ok_rekey w m : cl_ok w -> retry_interval m ∈ backoff -> cl_ok (with_rekey m w).
Proof. by intros []. Qed.

(** Changing the active context. *)
Lemma cl_ok_active w c : cl_ok w -> sec_ok c -> cl_ok (set_ctx (active_ptr w) c w).
Proof. intros [] Hc. split; try done; cbn; destruct (active_ptr w); done. Qed.

Lemma active_set w c : active_ctx (set_ctx (active_ptr w) c w) = c.
Proof. unfold active_ctx, ctx_at, set_ctx. cbn. by destruct (active_ptr w). Qed.

Lemma fsm_ok_state f s : fsm_ok f -> fsm_ok (set_state s f).
Proof. by destruct f. Qed.
Lemma fsm_ok_rx f t : fsm_ok f -> fsm_ok (set_rx t f).
Proof. by destruct f. Qed.
Lemma fsm_ok_session f sid s : fsm_ok f -> word_ok 32 sid -> fsm_ok (set_session sid s f).
Proof. unfold fsm_ok. cbn. tauto. Qed.
Lemma fsm_ok_hello f c ts : fsm_ok f -> length c = 16%nat -> bytes_ok c -> word_ok 64 ts -> fsm_ok (set_hello c ts f).
Proof. unfold fsm_ok. cbn. tauto. Qed.

(** ** The key switch *)

(** [vfast_handle_new_key] promotes the next key in the standby buffer, makes
    that buffer the active one, and leaves the old one without a pending
    request. *)
Lemma vfast_handle_new_key_spec w :
  let w' := vfast_handle_new_key w in
  active_ptr w' = negb (active_ptr w) /\ active_ctx w' = vf_rekey_commit (active_ctx w) /\
  ctx_at (active_ptr w) w' = clear_pending (active_ctx w) /\
  cl_fsm w' = set_session (f_sid (cl_fsm w)) (Some (negb (active_ptr w))) (cl_fsm w) /\
  cl_vip w' = cl_vip w /\ cl_os w' = cl_os w /\ cl_rekey w' = cl_rekey w /\ cl_pack w' = cl_pack w.
Proof.
  unfold vfast_handle_new_key, active_ctx, ctx_at. destruct w as [f a c0 c1 ? ? ? ? ? ?]. by destruct a.
Qed.

Lemma vfast_handle_new_key_ok w : cl_ok w -> cl_ok (vfast_handle_new_key w).
Proof.
  intros []. unfold vfast_handle_new_key, active_ctx, ctx_at in *. destruct w as [f a c0 c1 ? ? ? ? ? ?]; cbn in *.
  destruct a; split; cbn; try done; try (by apply vf_rekey_commit_ok); by apply fsm_ok_session; [|apply co_fsm0].
Qed.

(** ** The handlers *)

Section client_rx.
Context {R : Type} `{HR : IoUring R, HRL : !IoUringLaws R}.
Implicit Types (io : vf_io_t R).

Lemma client_handle_hello_ok w payload b :
  cl_ok w -> length b = 2048%nat -> bytes_ok b -> exists w', client_handle_hello w payload b = Some w' /\ cl_ok w'.
Proof.
  intros Hw Hl Hb. unfold client_handle_hello. case_bool_decide; cbn [negb]; [|by eexists].
  destruct payload as [plen|]; [|by eexists]. destruct (plen <? HELLO_RESP_SIZE); [by eexists|].
  destruct (get_le_Some HELLO_RESP_STATUS 4 b) as [st ->]; [unfold HELLO_RESP_STATUS, HLEN; lia|]. cbn [mbind option_bind].
  destruct (ntohl st =? VF_S_OK); cbn [negb].
  2: { eexists. split; [done|]. apply cl_ok_fsm; [done|]. apply fsm_ok_state, Hw. }
  rewrite get_bytes_Some by (unfold HELLO_RESP_COOKIE, HLEN; lia). cbn [mbind option_bind].
  destruct (get_le_Some HELLO_RESP_SERVER_TS 8 b) as [ts ->]; [unfold HELLO_RESP_SERVER_TS, HLEN; lia|]. cbn [mbind option_bind].
  eexists. split; [done|]. apply cl_ok_fsm; [done|]. apply fsm_ok_state, fsm_ok_hello; [apply Hw| | |apply (bswap_ok 8)].
  - rewrite length_take, length_drop, Hl. unfold HELLO_RESP_COOKIE, HLEN. lia.
  - auto using bytes_ok_take, bytes_ok_drop.
Qed.

Lemma install_key_ok raw kid sid now c :
  sec_ok c -> length raw = REKEY_KEY_SIZE -> bytes_ok raw -> word_ok 32 kid -> word_ok 32 sid -> sec_ok (install_key raw kid sid now c).
Proof.
  intros (_ & ? & ? & _) ????. split; [apply mk_key_ok; [done|done|by apply word_ok_0]|done].
Qed.

(** The address request of [client_handle_auth] *)
Lemma client_set_ip w vip :
  cl_ok w -> exists rc o, vf_tun_set_ip (Some (cl_tun_name w)) (Some (inet_ntop vip)) (Some VFAST_BROADCAST) (cl_os w) = Some (rc, o) /\
    errnos_ok (os_kernel o) /\ os_same (cl_os w) o.
Proof.
  intros Hw. destruct (tun_set_ip_done (cl_os w) (Some (cl_tun_name w)) (Some (inet_ntop vip)) (Some VFAST_BROADCAST))
    as (rc & o & E & _ & Hk & Hs & _); [apply Hw| |vm_compute; by eexists|apply Hw|].
  - apply inet_ntop_terminated.
  - exists rc, o. split; [done|]. rewrite Hk. split; [apply Hw|done].
Qed.

Lemma client_handle_auth_ok w sid payload b e :
  cl_ok w -> length b = 2048%nat -> bytes_ok b -> word_ok 32 sid ->
  exists w', client_handle_auth w sid payload b e = Some w' /\ cl_ok w'.
Proof.
  intros Hw Hl Hb Hsid. unfold client_handle_auth. case_bool_decide; cbn [negb]; [|by eexists].
  destruct payload as [plen|]; [|by eexists]. destruct (plen <? AUTH_RESP_SIZE); [by eexists|].
  destruct (get_le_Some AUTH_RESP_STATUS 4 b) as [st ->]; [unfold AUTH_RESP_STATUS, HLEN; lia|]. cbn [mbind option_bind].
  destruct (ntohl st =? VF_S_OK); cbn [negb].
  2: { eexists. split; [done|]. apply cl_ok_fsm; [done|]. apply fsm_ok_state, Hw. }
  destruct (get_bytes AUTH_RESP_INIT_KEY REKEY_KEY_SIZE b) as [raw|] eqn:Er.
  2: { rewrite get_bytes_Some in Er by (unfold AUTH_RESP_INIT_KEY, REKEY_KEY_SIZE, HLEN; lia). done. }
  cbn [mbind option_bind].
  destruct (get_le_Some AUTH_RESP_KEY_ID 4 b) as [kid ->]; [unfold AUTH_RESP_KEY_ID, HLEN; lia|]. cbn [mbind option_bind].
  destruct (get_le_Some AUTH_RESP_VIP 4 b) as [vip ->]; [unfold AUTH_RESP_VIP, HLEN; lia|]. cbn [mbind option_bind].
  set (w1 := with_fsm _ _).
  assert (cl_ok w1) as Hw1.
  { apply cl_ok_fsm.
    - apply cl_ok_vip, cl_ok_active; [done|]. apply install_key_ok;
        [by apply co_ctx|by eapply get_bytes_length|by eapply get_bytes_ok|apply (bswap_ok 4)|done].
    - apply fsm_ok_session; [|done]. apply Hw. }
  destruct (client_set_ip w1 vip Hw1) as (rc & o & -> & Ho & _). cbn [mbind option_bind].
  destruct (rc =? 0); eexists; (split; [done|]); [|by apply cl_ok_os].
  apply cl_ok_fsm; [by apply cl_ok_os|]. apply fsm_ok_state, Hw1.
Qed.

(** A handler for the packet in task [i]: with [true] it gave the task to the
    kernel. *)
Definition cl_handled (r : option (bool * client * vf_io_t R)) io i held : Prop :=
  exists u w' io', r = Some (u, w', io') /\ cl_ok w' /\ pool_idx io' = pool_idx io /\ same_io io io' /\
    io_inv io' (if u : bool then held else i :: held) /\
    (forall j, j ∈ held -> task_pool io' !! j = task_pool io !! j).

Lemma client_handle_dpd_inv w io i held src e :
  cl_ok w -> cl_env_ok e -> io_inv io (i :: held) -> cl_handled (client_handle_dpd w io i src e) io i held.
Proof.
  intros Hw He Hi. unfold client_handle_dpd.
  destruct (task_payload io (i :: held) i 16 Hi) as [pl Hpl]; [left|lia|].
  destruct (pack_task_delivers io (i :: held) i (cl_pack w) (ce_urandom e) (Some (active_ctx w)) 16 VPN_DPD_RESPONSE
    (f_sid (cl_fsm w)) pl Hi) as (n & io1 & ps & b & -> & Hn & Hps & Hi1 & Hs1 & Hx1 & _ & Hf1 & _);
    [left|apply Hw|apply He|by apply co_ctx|apply (co_fsm _ Hw)|done|lia|done|].
  cbn [mbind option_bind]. destruct (Z.leb_spec n 0); [lia|].
  destruct (vf_io_write_inv io1 held i (udp_fd io1) OP_UDP_SEND n (Some src) Hi1) as (io2 & -> & Hi2 & Hs2 & Hx2 & Hf2); [by left|].
  cbn [mbind option_bind]. exists true, (with_cl_pack ps w), io2. split; [done|]. split; [by apply cl_ok_pack|].
  split; [congruence|]. split; [by transitivity io1|]. split; [done|].
  intros j Hj. pose proof (held_ne io i held j Hi Hj). by rewrite Hf2, Hf1.
Qed.

(** Everything but data while connected keeps the buffer discipline. *)
Lemma client_dispatch_inv w io i held sid ty payload b src e :
  cl_ok w -> cl_env_ok e -> io_inv io (i :: held) -> length b = 2048%nat -> bytes_ok b -> word_ok 32 sid ->
  (ty = VPN_MSG_DATA -> f_state (cl_fsm w) <> ST_CONNECTED) ->
  cl_handled (client_dispatch w io sid ty i payload b src e) io i held.
Proof.
  intros Hw He Hi Hl Hb Hsid Hd.
  assert (forall w', cl_ok w' -> cl_handled (Some (false, w', io)) io i held) as Hno by (intros w' Hw'; by exists false, w', io).
  unfold client_dispatch. destruct (Z.eqb_spec ty VPN_MSG_DATA) as [->|].
  { unfold client_handle_data, vf_fsm_is_connected. rewrite bool_decide_eq_false_2 by auto. by apply Hno. }
  destruct (ty =? VPN_MSG_HELLO).
  { destruct (client_handle_hello_ok w payload b Hw Hl Hb) as (w' & -> & Hw'). by apply Hno. }
  destruct (ty =? VPN_MSG_KEEPALIVE).
  { unfold client_handle_keepalive. destruct payload as [plen|]; [|by apply Hno]. destruct (plen <? ECHO_SIZE); [by apply Hno|].
    destruct (get_le_Some ECHO_TIMESTAMP 8 b) as [ts ->]; [unfold ECHO_TIMESTAMP, HLEN; lia|]. by apply Hno. }
  destruct (ty =? VPN_DPD_REQUEST); [by apply client_handle_dpd_inv|].
  destruct (ty =? VPN_MSG_REKEY_ACK); [by apply Hno, vfast_handle_new_key_ok|].
  destruct (ty =? VPN_MSG_AUTH_ACK); [|by apply Hno].
  destruct (client_handle_auth_ok w sid payload b e Hw Hl Hb Hsid) as (w' & -> & Hw'). by apply Hno.
Qed.

(** Any datagram that is not data: a client never misbehaves on it. *)
Lemma client_on_udp_inv w io i held len e b :
  cl_ok w -> cl_env_ok e -> io_inv io (i :: held) -> task_buf i io = Some b -> len <= BUF_SIZE ->
  (VPN_TNL_HLEN <= len -> udp_type b len = Some VPN_MSG_DATA -> f_state (cl_fsm w) <> ST_CONNECTED) ->
  cb_result (client_on_udp w io i len e) io i held (fun _ w' _ => cl_ok w').
Proof.
  intros Hw He Hi Eb Hlen Hty. unfold client_on_udp.
  destruct (held_lookup io _ i Hi) as (t & Ht & _); [left|]. rewrite Ht. cbn [mbind option_bind].
  destruct (Z.ltb_spec len VPN_TNL_HLEN); [by exists w, io, IO_TASK_DONE|].
  rewrite Eb. cbn [mbind option_bind].
  destruct (unpack_stage io i held len b None Hi Eb) as (b1 & sn & _ & _ & _ & ty & E1 & Esn & Ety & _); [lia|].
  rewrite E1. cbn [mbind option_bind]. rewrite Esn. cbn [mbind option_bind].
  assert (get_le H_MSG_TYPE 1 b1 = Some ty) as Et1 by (unfold udp_type in Ety; by rewrite E1 in Ety).
  rewrite Et1. cbn [mbind option_bind]. set (sec := if ty =? VPN_MSG_HELLO then None else Some (active_ctx w)).
  destruct (unpack_stage io i held len b sec Hi Eb)
    as (b1' & sn' & r & b2 & io1 & ty' & E1' & Esn' & Ety' & Eu & Eset & Eb2 & Ety2 & _ & _ & _ & Hi1 & Hsm & Hx1 & _ & Hf1); [lia|].
  rewrite E1 in E1'. apply (inj Some) in E1'. subst b1'. rewrite Ety in Ety'. apply (inj Some) in Ety'. subst ty'.
  rewrite Eu. cbn [mbind option_bind]. rewrite Eset. cbn [mbind option_bind]. rewrite Ety2. cbn [mbind option_bind].
  destruct (task_buf_held io1 _ i Hi1) as (b0 & Eb0 & Hl & Hb); [left|]. rewrite Eb2 in Eb0. apply (inj Some) in Eb0. subst b0.
  destruct (client_dispatch_inv (with_fsm (vf_fsm_update (ce_time e) (cl_fsm w)) w) io1 i held (ntohl sn) ty r b2 (t_addr t) e)
    as (u & w' & io2 & -> & Hw' & Hx2 & Hs2 & Hi2 & Hf2);
    [apply cl_ok_fsm; [done|apply fsm_ok_rx, Hw]|done|done|done|done|apply (bswap_ok 4)|intros ->; by apply Hty|].
  cbn [mbind option_bind]. exists w', io2, (if u then IO_TASK_USE else IO_TASK_DONE). split; [done|]. split; [done|].
  split; [congruence|]. split; [by transitivity io1|]. split; [by destruct u|].
  intros j Hj. rewrite Hf2 by done. apply Hf1. by eapply held_ne.
Qed.

(** ** From the TUN device *)

Lemma client_on_tun_inv w io i held len e :
  cl_ok w -> cl_env_ok e -> io_inv io (i :: held) -> 0 <= len <= 1957 ->
  cb_result (client_on_tun w io i len e) io i held (fun st w' io' => cl_ok w' /\ cl_fsm w' = cl_fsm w /\
    if decide (f_state (cl_fsm w) = ST_CONNECTED) then
      st = IO_TASK_USE /\ active_ctx w' = add_processed len (active_ctx w) /\
      exists ip, (b ← task_buf i io; get_bytes HLEN (Z.to_nat len) b) = Some ip /\
        replied io io' i (f_dst (cl_fsm w)) (Some (add_processed len (active_ctx w))) VPN_MSG_DATA (f_sid (cl_fsm w)) ip
    else st = IO_TASK_DONE /\ w' = w /\ io' = io).
Proof.
  intros Hw He Hi Hlen. unfold client_on_tun, vf_fsm_is_connected. case_bool_decide as Hc; cbn [negb].
  2: { exists w, io, IO_TASK_DONE. rewrite decide_False by done. done. }
  rewrite active_set. set (c := add_processed len (active_ctx w)).
  assert (sec_ok c) as Hsec by (by apply add_processed_ok, co_ctx).
  set (w1 := set_ctx (active_ptr w) c w). assert (cl_ok w1) as Hw1 by (by apply cl_ok_active).
  change (cl_pack w1) with (cl_pack w). change (cl_fsm w1) with (cl_fsm w).
  destruct (task_payload io (i :: held) i len Hi) as [ip Hip]; [left|lia|].
  destruct (pack_task_delivers io (i :: held) i (cl_pack w) (ce_urandom e) (Some c) len VPN_MSG_DATA
    (f_sid (cl_fsm w)) ip Hi) as (n & io1 & ps & b & -> & Hn & Hps & Hi1 & Hs1 & Hx1 & Hr1 & Hf1 & Eb & Hd);
    [left|apply Hw|apply He|done|apply (co_fsm _ Hw)|done|lia|done|].
  cbn [mbind option_bind]. destruct (Z.ltb_spec n 0); [lia|].
  destruct (vf_io_write_inv io1 held i (udp_fd io1) OP_UDP_SEND n (Some (f_dst (cl_fsm w))) Hi1) as (io2 & E2 & Hi2 & Hs2 & Hx2 & Hf2);
    [by left|].
  change (cl_fsm (with_cl_pack ps w1)) with (cl_fsm w). rewrite E2. cbn [mbind option_bind].
  exists (with_cl_pack ps w1), io2, IO_TASK_USE. split; [done|]. rewrite decide_True by done. split.
  { split; [by apply cl_ok_pack|]. split; [done|]. split; [done|]. split; [apply active_set|]. exists ip. split; [done|].
    eapply (write_replied io io1); [done|exact E2|exact Eb|lia|done]. }
  split; [congruence|]. split; [by transitivity io1|]. split; [done|].
  intros j Hj. pose proof (held_ne io i held j Hi Hj). by rewrite Hf2, Hf1.
Qed.

(** ** The rekey timer *)

(** The request in a borrowed task. *)
Lemma rekey_send_inv w io i held e :
  cl_ok w -> cl_env_ok e -> io_inv io (i :: held) ->
  let ctx := active_ctx w in
  exists ps io', rekey_send w io i e = Some (with_cl_pack ps w, io') /\ pack_state_ok ps /\ io_inv io' held /\
    same_io io io' /\ pool_idx io' = pool_idx io /\ (forall j, j ∈ held -> task_pool io' !! j = task_pool io !! j) /\
    replied io io' i (f_dst (cl_fsm w)) (Some ctx) VPN_MSG_REKEY_REQ (f_sid (cl_fsm w))
      (le_bytes 4 (htonl (k_id (next_key ctx))) ++ k_raw (next_key ctx)).
Proof.
  intros Hw He Hi ctx. pose proof (co_ctx w (active_ptr w) Hw) as Hsec. fold ctx in Hsec.
  assert (key_ok (next_key ctx)) as (Lraw & Oraw & _) by apply Hsec. unfold REKEY_KEY_SIZE in Lraw.
  unfold rekey_send. fold ctx.
  destruct (task_buf_held io _ i Hi) as (b & Eb & Hl & Hb); [left|]. rewrite Eb. cbn [mbind option_bind].
  destruct (put_le_fits HLEN 4 (htonl (k_id (next_key ctx))) b Hl Hb) as (b1 & E1 & Hl1 & Hb1); [unfold HLEN; lia|].
  rewrite E1. cbn [mbind option_bind].
  assert (get_bytes 0 REKEY_KEY_SIZE (k_raw (next_key ctx)) = Some (k_raw (next_key ctx))) as ->.
  { rewrite get_bytes_Some by (unfold REKEY_KEY_SIZE; lia). by rewrite drop_0, take_ge by (unfold REKEY_KEY_SIZE; lia). }
  cbn [mbind option_bind].
  destruct (put_ok (HLEN + 4) (k_raw (next_key ctx)) b1 Hl1 Hb1 Oraw) as (b2 & E2 & Hl2 & Hb2); [unfold HLEN; lia|].
  rewrite E2. cbn [mbind option_bind].
  destruct (fill_step io i held b2 Hi Hl2 Hb2) as (io1 & -> & Eb1 & Hi1 & Hs1 & Hx1 & Hr1 & Hf1). cbn [mbind option_bind].
  set (payload := le_bytes 4 (htonl (k_id (next_key ctx))) ++ k_raw (next_key ctx)).
  destruct (pack_task_delivers io1 (i :: held) i (cl_pack w) (ce_urandom e) (Some ctx) (4 + Z.of_nat REKEY_KEY_SIZE)
    VPN_MSG_REKEY_REQ (f_sid (cl_fsm w)) payload Hi1) as (n & io2 & ps & b3 & -> & Hn & Hps & Hi2 & Hs2 & Hx2 & Hr2 & Hf2 & Eb3 & Hd);
    [left|apply Hw|apply He|done|apply (co_fsm _ Hw)|done|unfold REKEY_KEY_SIZE; lia| |].
  { rewrite Eb1. cbn [mbind option_bind]. change (Z.to_nat (4 + Z.of_nat REKEY_KEY_SIZE)) with (4 + 32)%nat.
    pose proof (length_le_bytes 4 (htonl (k_id (next_key ctx)))) as L4.
    change (HLEN + 4)%nat with (HLEN + length (le_bytes 4 (htonl (k_id (next_key ctx)))))%nat in E2.
    rewrite (put_put_app _ _ _ _ _ E1) in E2.
    apply get_put_same in E2. by rewrite length_app, L4, Lraw in E2. }
  cbn [mbind option_bind].
  destruct (vf_io_write_inv io2 held i (udp_fd io2) OP_UDP_SEND n (Some (f_dst (cl_fsm w))) Hi2) as (io3 & E3 & Hi3 & Hs3 & Hx3 & Hf3);
    [by left|].
  change (cl_fsm (with_cl_pack ps w)) with (cl_fsm w). rewrite E3. cbn [mbind option_bind].
  exists ps, io3. split; [done|]. split; [done|]. split; [done|]. split; [transitivity io1; [done|]; by transitivity io2|].
  split; [congruence|]. split.
  - intros j Hj. pose proof (held_ne io i held j Hi Hj). by rewrite Hf3, Hf2, Hf1.
  - eapply (write_replied io io2); [congruence|exact E3|exact Eb3|lia|done].
Qed.

(** When the timer starts or repeats a request. *)
Definition rekey_init_due (c : vfast_sec_ctx_t) (now : Z) : bool :=
  negb (rekey_pending c) && ((REKEY_TIMEOUT_SEC <=? now - k_created_at (active_key c)) || (REKEY_DATA_THRESHOLD <=? k_bytes_processed (active_key c))).
Definition rekey_retry_due (c : vfast_sec_ctx_t) (m : vfast_rekey_mgr_t) (now : Z) : bool :=
  rekey_pending c && (retry_interval m <=? now - last_sent m).

(** The context after a request is started: a fresh next key under the next
    number. *)
Definition prepared (raw : list Z) (now : Z) (c : vfast_sec_ctx_t) : vfast_sec_ctx_t :=
  set_next_key {| k_raw := raw; k_id := u32 (k_id (active_key c) + 1); k_bytes_processed := 0; k_created_at := now |} true c.

(** The request for the context [c'] went out, or nothing could be sent. *)
Definition rekey_asked w io (c' : vfast_sec_ctx_t) (interval now : Z) w' io' : Prop :=
  active_ctx w' = c' /\ active_ptr w' = active_ptr w /\ cl_fsm w' = cl_fsm w /\ cl_vip w' = cl_vip w /\
  (((forall i, (i < length (task_pool io))%nat -> task_busy io i) /\ last_sent (cl_rekey w') = last_sent (cl_rekey w)) \/
   (last_sent (cl_rekey w') = now /\ retry_interval (cl_rekey w') = interval /\
    exists i, ~ task_busy io i /\ replied io io' i (f_dst (cl_fsm w)) (Some c') VPN_MSG_REKEY_REQ (f_sid (cl_fsm w))
      (le_bytes 4 (htonl (k_id (next_key c'))) ++ k_raw (next_key c')))).

Definition rekey_outcome w io (e : cl_env) w' io' : Prop :=
  let c := active_ctx w in
  if decide (f_state (cl_fsm w) <> ST_CONNECTED) then w' = w /\ io' = io
  else if rekey_init_due c (ce_time e) then
    (exists raw, vfast_crypto_fill_random (ce_getrandom e) REKEY_KEY_SIZE = Some (0, raw) /\ length raw = REKEY_KEY_SIZE /\ rekey_asked w io (prepared raw (ce_time e) c) 2 (ce_time e) w' io') \/
    ((forall raw, vfast_crypto_fill_random (ce_getrandom e) REKEY_KEY_SIZE <> Some (0, raw)) /\
     io' = io /\ cl_fsm w' = cl_fsm w /\ active_key (active_ctx w') = active_key c /\ rekey_pending (active_ctx w') = rekey_pending c)
  else if rekey_retry_due c (cl_rekey w) (ce_time e) then
    rekey_asked w io c (Z.min 32 (2 * retry_interval (cl_rekey w))) (ce_time e) w' io'
  else w' = w /\ io' = io.

Lemma backoff_double r : r ∈ backoff -> (if r <? 32 then r * 2 else r) ∈ backoff /\ (if r <? 32 then r * 2 else r) = Z.min 32 (2 * r).
Proof.
  intros Hr. assert (r = 2 \/ r = 4 \/ r = 8 \/ r = 16 \/ r = 32) as Hc.
  { unfold backoff in Hr. repeat (apply elem_of_cons in Hr as [->|Hr]; [tauto|]). by apply not_elem_of_nil in Hr. }
  split; [|destruct (Z.ltb_spec r 32); lia]. unfold backoff.
  destruct Hc as [->|[->|[->|[->| ->]]]]; cbn; repeat (try (by left); right).
Qed.

(** The tail of the timer: borrow a task and send. *)
Lemma rekey_ask_inv w io held n e (retry : bool) :
  cl_ok w -> cl_env_ok e -> io_inv io held -> io_budget io (S n) ->
  exists w' io',
    ('(t, io) ← vf_io_task io;
     match t with
     | None => Some (w, io)
     | Some i =>
         '(w, io) ← rekey_send w io i e;
         let m := set_sent (ce_time e) (cl_rekey w) in
         let m := if retry && (retry_interval m <? 32) then set_retry (retry_interval m * 2) m else m in
         Some (with_rekey m w, io)
     end) = Some (w', io') /\ cl_ok w' /\ io_inv io' held /\ io_budget io' n /\ same_io io io' /\
    (forall j, j ∈ held -> task_pool io' !! j = task_pool io !! j) /\
    rekey_asked w io (active_ctx w)
      (if retry then Z.min 32 (2 * retry_interval (cl_rekey w)) else retry_interval (cl_rekey w)) (ce_time e) w' io'.
Proof.
  intros Hw He Hi Hb. unfold vf_io_task.
  destruct (get_task_inv io held n Hi Hb) as (r & io1 & Eg & Hs1 & Hb1 & Hr). rewrite Eg. cbn [mbind option_bind].
  destruct r as [i|].
  2: { destruct Hr as (Hi1 & Hp1 & Hbusy). exists w, io1. split; [done|]. do 4 (split; [done|]).
    split; [intros j _; by rewrite Hp1|]. do 4 (split; [done|]). by left. }
  destruct Hr as (Hi1 & Hfree & t0 & _ & Hp1). pose proof (get_task_ring _ _ _ _ Eg) as Hr1.
  destruct (rekey_send_inv w io1 i held e Hw He Hi1) as (ps & io2 & -> & Hps & Hi2 & Hs2 & Hx2 & Hf2 & Hrep).
  cbn [mbind option_bind]. change (cl_rekey (with_cl_pack ps w)) with (cl_rekey w).
  pose proof (backoff_double _ (co_retry _ Hw)) as [Hback Hmin].
  set (m := if retry && _ then _ else _).
  assert (retry_interval m = (if retry then Z.min 32 (2 * retry_interval (cl_rekey w)) else retry_interval (cl_rekey w)) /\
    last_sent m = ce_time e /\ retry_interval m ∈ backoff) as (Em & El & Hm).
  { unfold m. destruct retry; cbn [andb]; [|split; [done|split; [done|apply Hw]]].
    change (retry_interval (set_sent _ _)) with (retry_interval (cl_rekey w)). rewrite <- Hmin.
    destruct (retry_interval (cl_rekey w) <? 32); done. }
  exists (with_rekey m (with_cl_pack ps w)), io2. split; [done|].
  split; [by apply cl_ok_rekey; [apply cl_ok_pack|]|]. split; [done|]. split; [by apply (budget_same io1)|].
  split; [by transitivity io1|]. split.
  { intros j Hj. rewrite Hf2 by done. rewrite Hp1, list_lookup_insert_ne; [done|]. intros ->. by destruct (held_ne io1 j held j Hi1 Hj). }
  do 4 (split; [done|]). right. split; [done|]. split; [done|]. exists i. split; [done|].
  unfold replied in *. by rewrite <- Hr1.
Qed.

Lemma rekey_timer_inv w io held n e :
  cl_ok w -> cl_env_ok e -> io_inv io held -> io_budget io (S n) ->
  exists w' io', vfast_rekey_timer_handler w io e = Some (w', io') /\ cl_ok w' /\ io_inv io' held /\ io_budget io' n /\
    same_io io io' /\ (forall j, j ∈ held -> task_pool io' !! j = task_pool io !! j) /\ rekey_outcome w io e w' io'.
Proof.
  intros Hw He Hi Hb. assert (io_budget io n) as Hbn by (eapply budget_le; [|rewrite <- (ii_size _ _ Hi); lia|exact Hb]; lia).
  unfold vfast_rekey_timer_handler, rekey_outcome, vf_fsm_is_connected. set (c := active_ctx w).
  case_bool_decide as Hc; cbn [negb].
  2: { destruct (decide (f_state (cl_fsm w) <> ST_CONNECTED)); [by exists w, io|tauto]. }
  destruct (decide (f_state (cl_fsm w) <> ST_CONNECTED)) as [Hd|_]; [by destruct Hd|]. fold (rekey_init_due c (ce_time e)). fold (rekey_retry_due c (cl_rekey w) (ce_time e)).
  destruct (rekey_init_due c (ce_time e)) eqn:Ei; cbn [orb negb].
  - assert (rekey_retry_due c (cl_rekey w) (ce_time e) = false) as ->.
    { unfold rekey_init_due, rekey_retry_due in *. destruct (rekey_pending c); [done|]. done. }
    assert (exists rc c', vf_rekey_prepare_next (ce_getrandom e) (ce_time e) c = Some (rc, c')) as (rc & c' & Ep).
    { unfold vf_rekey_prepare_next. destruct (ce_key _ He) as [[rc bs] ->]. cbn [mbind option_bind]. destruct (negb _); eauto. }
    rewrite Ep. cbn [mbind option_bind].
    pose proof (vf_rekey_prepare_next_ok _ _ _ _ _ (ce_calls _ He) (co_ctx w (active_ptr w) Hw) Ep) as Hc'.
    assert (cl_ok (set_ctx (active_ptr w) c' w)) as Hw1 by (by apply cl_ok_active).
    destruct (Z.eqb_spec rc 0) as [->|Hrc]; cbn [negb].
    + destruct (vf_rekey_prepare_next_success _ _ _ _ (ce_calls _ He) Ep) as (raw & Er & Lr & Or & Ec').
      set (w1 := with_rekey _ _). assert (cl_ok w1) as Hw1' by (apply cl_ok_rekey; [done|]; left).
      destruct (rekey_ask_inv w1 io held n e false Hw1' He Hi Hb) as (w' & io' & E & Hw' & Hi' & Hb' & Hs' & Hf' & Hask).
      exists w', io'. split; [exact E|]. do 5 (split; [done|]). left. exists raw. split; [done|]. split; [done|].
      assert (active_ctx w1 = prepared raw (ce_time e) c) as Ea by (unfold w1; rewrite Ec'; apply active_set).
      rewrite Ea in Hask. exact Hask.
    + exists (set_ctx (active_ptr w) c' w), io. do 6 (split; [done|]). right. split.
      { intros raw Er. unfold vf_rekey_prepare_next in Ep. rewrite Er in Ep. cbn [mbind option_bind Z.eqb negb] in Ep.
        apply (inj Some), pair_equal_spec in Ep as [Ep _]. by subst. }
      do 2 (split; [done|]). rewrite active_set. revert Ep. unfold vf_rekey_prepare_next.
      destruct (vfast_crypto_fill_random _ _) as [[rc' bs]|]; [|done]. cbn [mbind option_bind].
      destruct (negb _); intros E; apply (inj Some), pair_equal_spec in E as [E <-]; [done|by subst].
  - destruct (rekey_retry_due c (cl_rekey w) (ce_time e)) eqn:Er; cbn [orb negb]; [|by exists w, io].
    cbn [mbind option_bind Z.eqb negb].
    destruct (rekey_ask_inv w io held n e true Hw He Hi Hb) as (w' & io' & E & Hrest). by exists w', io'.
Qed.

(** ** The other thread *)

Lemma client_tick_inv w io held n e :
  cl_ok w -> urandom_ok (fe_urandom e) -> io_inv io held -> io_budget io (S n) ->
  exists w' io', client_tick w io e = Some (w', io') /\ cl_ok w' /\ io_inv io' held /\ io_budget io' n /\ same_io io io' /\
    (forall j, j ∈ held -> task_pool io' !! j = task_pool io !! j) /\
    same_session (cl_fsm w) (cl_fsm w') /\ same_peer (cl_fsm w) (cl_fsm w') /\ f_state (cl_fsm w') = (fsm_table (cl_fsm w) (fe_time e)).1 /\
    (forall type, (fsm_table (cl_fsm w) (fe_time e)).2 = Some type -> exists f1, fsm_sent (cl_fsm w) type e io io' f1) /\
    (forall b, ctx_at b w' = ctx_at b w) /\ active_ptr w' = active_ptr w /\ cl_os w' = cl_os w /\ cl_tun_name w' = cl_tun_name w.
Proof.
  intros Hw Hu Hi Hb. unfold client_tick.
  destruct (fsm_tick_inv (cl_fsm w) {| ps_seed := cl_seed w; ps_nonce := ps_nonce (cl_pack w) |} io held n e)
    as (f' & ps' & io' & -> & Hf & Hps & Hi' & Hb' & Hs' & Hses & Hpeer & Hfr & Hst & _ & _ & _ & _ & Hsent);
    [apply Hw|split; [apply Hw|apply (co_pack _ Hw)]|done|done|done|].
  cbn [mbind option_bind]. eexists _, io'. split; [done|]. split.
  { apply cl_ok_pack; [|split; [apply (co_pack _ Hw)|apply Hps]]. apply cl_ok_seed; [|apply Hps]. by apply cl_ok_fsm. }
  do 4 (split; [done|]). split; [done|]. split; [done|]. split; [done|]. split; [done|]. split; [by intros []|done].
Qed.
End client_rx.
