(* ===== verification/ClientRun.v ===== *)
(** The client under its event loop: the callbacks of
    src/src/vfast_client.c as [vf_io_run] of src/src/io.c runs them, with the
    turns of the state machine's thread between them. *)
From S2P Require Import Prelude HashTable Crypto Key Protocol Libc Io Payload Receive Fsm Sys Tun Client ClientRx.

Section client_run.
Context {R : Type} `{HR : IoUring R, HRL : !IoUringLaws R}.
(** What the surroundings answer at the [k]-th callback, and the turns the
    other thread takes after the [k]-th timer event. *)
Variable env : nat -> cl_env.
Variable turns : nat -> list fsm_env.

(** The client and the number of callbacks so far. *)
Definition client_world : Type := client * nat.

Definition run_on_udp (w : client_world) (io : vf_io_t R) (i : nat) (len : Z) : option (client_world * vf_io_t R * vf_task_state_t) :=
  let '(w, k) := w in '(w, io, st) ← client_on_udp w io i len (env k); Some (w, S k, io, st).
Definition run_on_tun (w : client_world) (io : vf_io_t R) (i : nat) (len : Z) : option (client_world * vf_io_t R * vf_task_state_t) :=
  let '(w, k) := w in '(w, io, st) ← client_on_tun w io i len (env k); Some (w, S k, io, st).
Definition run_on_timer (w : client_world) (io : vf_io_t R) : option (client_world * vf_io_t R) :=
  let '(w, k) := w in
  '(w, io) ← vfast_rekey_timer_handler w io (env k);
  '(w, io) ← foldM (fun '(w, io) e => client_tick w io e) (w, io) (turns k);
  Some (w, S k, io).
(** The MTU callback returns at once: its argument is the engine. *)
Definition run_on_pmtud (w : client_world) (io : vf_io_t R) (mtu : Z) : option (client_world * vf_io_t R) := Some (w, io).

Hypothesis envs_ok : forall k, cl_env_ok (env k).
Hypothesis turns_ok : forall k, Forall (fun e => urandom_ok (fe_urandom e)) (turns k).
(** At most [max_turns] turns fit between two timer events. *)
Variable max_turns : nat.
Hypothesis turns_max : forall k, (length (turns k) <= max_turns)%nat.

Definition client_world_ok (w : client_world) : Prop := cl_ok w.1.

(** A datagram that is not data. *)
Definition no_data (d : list Z) : Prop := udp_type d (Z.of_nat (length d)) <> Some VPN_MSG_DATA.

Lemma udp_type_take b len :
  length b = 2048%nat -> VPN_TNL_HLEN <= len <= BUF_SIZE ->
  udp_type (take (Z.to_nat len) b) len = udp_type b len.
Proof.
  intros Hl Hlen. unfold VPN_TNL_HLEN, BUF_SIZE in *. set (d := take (Z.to_nat len) b).
  assert (length d = Z.to_nat len) as Ld by (unfold d; rewrite length_take; lia).
  assert (agree (Z.to_nat len) d b) as Ha.
  { split; [lia|]. split; [lia|]. unfold d. by rewrite take_take, Nat.min_id. }
  unfold udp_type.
  destruct (vf_remove_header_obfs d len) as [d1|] eqn:E1.
  - destruct (vf_remove_header_obfs_agree (Z.to_nat len) d b len d1) as (b1 & -> & Ha1); [done|hlia|done|].
    cbn [mbind option_bind]. apply (agree_get_le (Z.to_nat len) d1 b1); [done|hlia].
  - destruct (vf_remove_header_obfs b len) as [b1|] eqn:E2; [|done].
    destruct (vf_remove_header_obfs_agree (Z.to_nat len) b d len b1) as (d1 & E & _); [by apply agree_sym|hlia|done|]. congruence.
Qed.

Lemma client_udp_cb_ok : data_cb_ok client_world_ok BUF_SIZE no_data run_on_udp.
Proof.
  intros [w k] io i res held n t Hw Hi Hb Hres Ht Hpre. unfold run_on_udp.
  destruct (held_lookup io _ i Hi) as (t' & Ht' & Hl & _); [left|]. rewrite Ht in Ht'. apply (inj Some) in Ht'. subst t'.
  destruct (client_on_udp_inv w io i held res (env k) (t_buf t)) as (w' & io' & st & -> & Hw' & Hx & Hs & Hi' & Hf);
    [done|done|done|unfold task_buf; by rewrite Ht|lia| |].
  { intros Hge Hty. exfalso. apply Hpre. change (Z.to_nat BUF_SIZE) with 2048%nat in Hl. rewrite length_take, Hl. unfold BUF_SIZE in Hres.
    rewrite Nat.min_l by lia. rewrite Z2Nat.id by lia. rewrite udp_type_take; [done|done|unfold BUF_SIZE; lia]. }
  cbn [mbind option_bind]. exists (w', S k), io', st. split; [done|]. split; [done|].
  split; [by eapply budget_same|]. done.
Qed.

Lemma client_tun_cb_ok mtu :
  mtu <= 1957 -> data_cb_ok client_world_ok (Z.max 0 (Z.min (BUF_SIZE - VPN_TNL_HLEN) mtu)) (fun _ => True) run_on_tun.
Proof.
  intros Hmtu [w k] io i res held n t Hw Hi Hb Hres Ht _. unfold run_on_tun.
  destruct (client_on_tun_inv w io i held res (env k)) as (w' & io' & st & -> & (Hw' & _) & Hx & Hs & Hi' & Hf);
    [done|done|done|lia|].
  cbn [mbind option_bind]. exists (w', S k), io', st. split; [done|]. split; [done|].
  split; [by eapply budget_same|]. done.
Qed.

Lemma turns_inv es w io held n :
  cl_ok w -> Forall (fun e => urandom_ok (fe_urandom e)) es -> io_inv io held -> io_budget io (length es + n) ->
  exists w' io', foldM (fun '(w, io) e => client_tick w io e) (w, io) es = Some (w', io') /\ cl_ok w' /\
    io_budget io' n /\ same_io io io' /\ io_inv io' held /\ (forall j, j ∈ held -> task_pool io' !! j = task_pool io !! j).
Proof.
  revert w io. induction es as [|e es IH]; intros w io Hw Hes Hi Hb; [by exists w, io|].
  apply Forall_cons_iff in Hes as [He Hes].
  destruct (client_tick_inv w io held (length es + n) e Hw He Hi Hb) as (w1 & io1 & E1 & Hw1 & Hi1 & Hb1 & Hs1 & Hf1 & _).
  destruct (IH w1 io1 Hw1 Hes Hi1 Hb1) as (w' & io' & E' & Hw' & Hb' & Hs' & Hi' & Hf').
  exists w', io'. cbn [foldM]. rewrite E1. cbn [mbind option_bind]. split; [done|]. split; [done|]. split; [done|].
  split; [by transitivity io1|]. split; [done|]. intros j Hj. by rewrite Hf', Hf1.
Qed.

Lemma client_timer_cb_ok : idle_cb_ok client_world_ok (S max_turns) run_on_timer.
Proof.
  intros [w k] io held n Hw Hi Hb. unfold run_on_timer.
  assert (io_budget io (S (length (turns k) + n))) as Hb0.
  { eapply budget_le; [|rewrite <- (ii_size _ _ Hi); lia|exact Hb]. specialize (turns_max k). lia. }
  destruct (rekey_timer_inv w io held (length (turns k) + n) (env k) Hw (envs_ok k) Hi Hb0)
    as (w1 & io1 & -> & Hw1 & Hi1 & Hb1 & Hs1 & Hf1 & _). cbn [mbind option_bind].
  destruct (turns_inv (turns k) w1 io1 held n Hw1 (turns_ok k) Hi1 Hb1) as (w2 & io2 & -> & Hw2 & Hb2 & Hs2 & Hi2 & Hf2).
  cbn [mbind option_bind]. exists (w2, S k), io2. split; [done|]. split; [done|]. split; [done|].
  split; [by transitivity io1|]. split; [done|]. intros j Hj. by rewrite Hf2, Hf1.
Qed.

Lemma client_pmtud_cb_ok mtu : idle_cb_ok client_world_ok 0 (fun w io => run_on_pmtud w io mtu).
Proof. intros w io held n Hw Hi Hb. by exists w, io. Qed.

(** C24 The client runs.  From an engine set up by [vf_io_init] with a TUN
    device whose MTU is at most 1957 and any client state that satisfies the
    invariant, every finite run of the event loop with the client's callbacks
    completes without undefined behaviour: whatever the datagrams that are not
    data contain, in every state of the machine, whatever the TUN device
    delivers, whenever the rekey timer fires and however the turns of the
    other thread fall between the timer events; afterwards the keys, the
    machine and the backoff are consistent, and every task belongs to at most
    one pending request, the loop's descriptors are those it started with, and [running] is
    cleared if a signal stopped the loop. *)
Theorem client_run_safe mtu w io u t size r now0 es :
  mtu <= 1957 -> 0 <= size -> ring_pending r = [] -> pool_idx io = 0 -> client_world_ok w ->
  let io0 := (vf_io_init io u t size true (inr r)).2 in
  (32 + Z.of_nat (run_cost (S max_turns) es)) * size < 2 ^ 31 ->
  (forall io1, vf_io_warm_up (set_running true io0) = Some io1 ->
     kernel_ok mtu no_data run_on_udp run_on_tun run_on_timer run_on_pmtud
       {| ls_world := w; ls_io := io1; ls_last_tick := now0; ls_last_stat := 0 |} es) ->
  exists s, vf_io_run run_on_udp run_on_tun run_on_timer run_on_pmtud w io0 now0 es = Some s /\
    client_world_ok (ls_world s) /\ io_inv (ls_io s) [] /\ udp_fd (ls_io s) = u /\ tun_fd (ls_io s) = t /\
    running (ls_io s) = running_after es.
Proof.
  intros Hmtu Hs Hr Hx Hw io0 Hb Hk.
  apply (vf_io_run_inv mtu no_data client_world_ok run_on_udp run_on_tun run_on_timer run_on_pmtud (S max_turns)
    client_udp_cb_ok (client_tun_cb_ok mtu Hmtu) client_timer_cb_ok client_pmtud_cb_ok w io u t size r now0 es); done.
Qed.
End client_run.

(** * Instance *)

Definition demo_agree : os := demo_os (fun _ => demo_reply 0 0).

(** A client that waits for the answer to its HELLO. *)
Definition demo_client : client :=
  {| cl_fsm := set_state ST_HELLO_WAIT demo_fsm; active_ptr := false; sec_ctx0 := demo_sec; sec_ctx1 := zero_sec_ctx; cl_vip := 0;
     cl_tun_name := str "vfast0" ++ replicate 10 0; cl_rekey := g_rekey_mgr; cl_pack := demo_state; cl_seed := LOCAL_SEED;
     cl_os := demo_agree |}.

Definition demo_cl_env (t : Z) : cl_env :=
  {| ce_time := t; ce_now_ms := 1000 * t; ce_urandom := None; ce_getrandom := [GrBytes (replicate 32 9)] |}.

Lemma demo_agree_ok : errnos_ok (os_kernel demo_agree).
Proof. intros n. cbn. lia. Qed.

Lemma demo_client_ok : cl_ok demo_client.
Proof.
  split; try by_compute; exact demo_agree_ok.
Qed.

Lemma demo_cl_env_ok t : cl_env_ok (demo_cl_env t).
Proof. split; [done|change (calls_ok [GrBytes (replicate 32 9)]); by_compute|by eexists]. Qed.

Lemma client_run_safe_witness :
  exists s, vf_io_run (run_on_udp (fun _ => demo_cl_env 130)) (run_on_tun (fun _ => demo_cl_env 130))
      (run_on_timer (fun _ => demo_cl_env 130) (fun _ => [demo_tick 130; demo_tick 131])) run_on_pmtud (demo_client, 0%nat)
      (vf_io_init (zero_io ring0) 3 4 4 true (inr ring0)).2 0 [demo_event] = Some s /\
    client_world_ok (ls_world s) /\ io_inv (ls_io s) [] /\ udp_fd (ls_io s) = 3 /\ tun_fd (ls_io s) = 4 /\ running (ls_io s) = true.
Proof.
  apply (client_run_safe (fun _ => demo_cl_env 130) (fun _ => [demo_tick 130; demo_tick 131]) (fun _ => demo_cl_env_ok _)
    ltac:(intros; repeat constructor) 2 ltac:(intros; cbn; lia) 1400
    (demo_client, 0%nat) (zero_io ring0) 3 4 4 ring0 0 [demo_event]);
    [lia|lia|reflexivity|reflexivity|exact demo_client_ok|vm_compute; reflexivity|].
  intros io1 E. split; [|done]. split; [done|]. split.
  - cbn [demo_event ev_batch]. constructor; [|constructor]. split; [|split].
    + cbn [co_data]. apply bytes_ok_replicate. unfold byte_ok. lia.
    + intros _. reflexivity.
    + cbn [co_sqe sq_req co_data]. split; [rewrite length_replicate; unfold BUF_SIZE; lia|].
      unfold no_data. by_compute.
  - cbn [ls_io]. rewrite (demo_warm_up io1 E).
    eexists. cbn [demo_event ev_batch fmap list_fmap co_sqe app]. apply Permutation_swap.
Defined.
