(* ===== verification/Handshake.v ===== *)
(** The client and the server together: connecting, and moving to a new key.
    Packets go through the network as [delivers] says; each side's handlers
    are those of src/src/vfast_client.c and src/src/vfast_server.c. *)
From S2P Require Import Prelude Crypto Key Protocol IpPool HashTable Libc Session User Io Payload Receive Fsm Sys Tun Stats.
From S2P Require Import Server ServerDemo ServerRx ServerData Client ClientRx ClientRun.

(** The client after an acknowledgement. *)
Definition rekeyed (now : Z) (w : client) : client := vfast_handle_new_key (with_fsm (set_rx now (cl_fsm w)) w).

(** Contexts with the same active key accept each other's packets. *)
Lemma same_key_accepts_type type a b :
  pack_plain_type type = false -> k_raw (active_key a) = k_raw (active_key b) -> k_id (active_key a) = k_id (active_key b) ->
  accepts (Some a) (Some b) type.
Proof.
  intros Hty Er Ei. right. exists a, b. do 3 (split; [done|]).
  unfold vf_rekey_get_decrypt_key, vf_rekey_get_keyid, vf_rekey_get_key. rewrite Ei, Er.
  rewrite u8_land. change 0xFF with (Z.ones 8). by rewrite Z.land_ones, Z.eqb_refl.
Qed.

(** * The client on packets of its server *)

Section client_packets.
Context {R : Type} `{HR : IoUring R, HRL : !IoUringLaws R}.
Implicit Types (io : vf_io_t R).

(** A delivered packet reaches the dispatch with its payload in place. *)
Lemma client_on_udp_delivered w io i held len e rb b ty sid payload t :
  cl_ok w -> io_inv io (i :: held) -> task_pool io !! i = Some t -> t_buf t = rb -> agree (Z.to_nat len) b rb -> word_ok 32 sid ->
  delivers b len (if ty =? VPN_MSG_HELLO then None else Some (active_ctx w)) ty sid payload ->
  exists io1 rb2 noise, (length noise < 32)%nat /\ length rb2 = 2048%nat /\
    get_bytes HLEN (length (payload ++ noise)) rb2 = Some (payload ++ noise) /\ task_buf i io1 = Some rb2 /\
    (io_inv io1 (i :: held) /\ same_io io io1 /\ pool_idx io1 = pool_idx io /\ ring io1 = ring io /\
     forall j, j ∈ held -> task_pool io1 !! j = task_pool io !! j) /\
    client_on_udp w io i len e =
      '(isuse, w', io') ← client_dispatch (with_fsm (set_rx (ce_time e) (cl_fsm w)) w) io1 sid ty i
                            (Some (Z.of_nat (length (payload ++ noise)))) rb2 (t_addr t) e;
      Some (w', io', if isuse : bool then IO_TASK_USE else IO_TASK_DONE).
Proof.
  intros Hw Hi Ht Hrb Ha Hsid Hd. unfold client_on_udp. rewrite Ht. cbn [mbind option_bind].
  assert (task_buf i io = Some rb) as Eb by (unfold task_buf; rewrite Ht; cbn; by rewrite Hrb).
  destruct (Z.ltb_spec len VPN_TNL_HLEN); [destruct Hd as [? _]; lia|]. rewrite Eb. cbn [mbind option_bind].
  destruct (deliver_stage io i held rb len b _ ty sid payload Hi Eb Ha Hd)
    as (rb1 & rb2 & noise & io1 & E1 & Esn & Ety & Hno & Eu & Eset & Eb1 & Ety2 & Ep & Lrb2 & Hst).
  rewrite E1. cbn [mbind option_bind]. rewrite Esn. cbn [mbind option_bind].
  assert (ntohl (htonl sid) = sid) as -> by (by apply (bswap_involutive 4)).
  rewrite Ety. cbn [mbind option_bind]. rewrite Eu. cbn [mbind option_bind]. rewrite Eset. cbn [mbind option_bind].
  rewrite Ety2. cbn [mbind option_bind]. exists io1, rb2, noise. split_and!; auto; apply Hst.
Qed.

(** The field at an offset inside a payload. *)
Lemma payload_field rb pl noise (o n : nat) x y z :
  get_bytes HLEN (length (pl ++ noise)) rb = Some (pl ++ noise) -> pl = x ++ y ++ z -> length x = o -> length y = n ->
  get_bytes (HLEN + o) n rb = Some y.
Proof.
  intros Hg -> Hx Hy. rewrite (get_bytes_sub HLEN o n _ rb _ Hg) by (rewrite !length_app; lia).
  f_equal. rewrite <- !app_assoc, drop_app_length' by done. by rewrite take_app_length' by done.
Qed.

Lemma payload_le rb pl noise (o n : nat) x v z :
  get_bytes HLEN (length (pl ++ noise)) rb = Some (pl ++ noise) -> pl = x ++ le_bytes n v ++ z -> length x = o ->
  word_ok (8 * Z.of_nat n) v -> get_le (HLEN + o) n rb = Some v.
Proof.
  intros Hg Hpl Hx Hv. unfold get_le.
  rewrite (payload_field rb pl noise o n x (le_bytes n v) z Hg Hpl Hx (length_le_bytes n v)). cbn.
  by rewrite le_val_bytes.
Qed.

(** The answer to HELLO. *)
Lemma client_hello_received w io i held len e rb b sid ts c t :
  cl_ok w -> io_inv io (i :: held) -> task_pool io !! i = Some t -> t_buf t = rb -> agree (Z.to_nat len) b rb -> word_ok 32 sid ->
  delivers b len None VPN_MSG_HELLO sid (hello_payload ts c) -> f_state (cl_fsm w) = ST_HELLO_WAIT -> length c = 16%nat ->
  word_ok 64 ts ->
  exists io', client_on_udp w io i len e =
    Some (with_fsm (set_state ST_AUTH_SEND (set_hello c ts (set_rx (ce_time e) (cl_fsm w)))) w, io', IO_TASK_DONE) /\
    io_inv io' (i :: held).
Proof.
  intros Hw Hi Ht Hrb Ha Hsid Hd Hst Lc Hts.
  destruct (client_on_udp_delivered w io i held len e rb b VPN_MSG_HELLO sid (hello_payload ts c) t)
    as (io1 & rb2 & noise & _ & _ & Hg & _ & (Hi1 & _) & ->); [done..|].
  exists io1. split; [|done]. unfold client_dispatch. cbn [Z.eqb VPN_MSG_HELLO VPN_MSG_DATA Pos.eqb].
  unfold client_handle_hello. cbn [cl_fsm with_fsm f_state set_rx]. rewrite Hst. rewrite bool_decide_eq_true_2 by done. cbn [negb].
  pose proof (length_le_bytes 8 (htonll ts)) as L8. pose proof (length_le_bytes 4 (htonl VF_S_OK)) as L4.
  pose proof (length_le_bytes 4 (htonl VF_DEFAULT_CAPS)) as L4'.
  assert (length (hello_payload ts c) = 32%nat) as Lp.
  { unfold hello_payload. rewrite !length_app, Lc, L8, L4, L4'. done. }
  destruct (Z.ltb_spec (Z.of_nat (length (hello_payload ts c ++ noise))) HELLO_RESP_SIZE) as [Hlt|_].
  { exfalso. rewrite length_app, Lp in Hlt. unfold HELLO_RESP_SIZE in Hlt. lia. }
  change HELLO_RESP_STATUS with (HLEN + 8)%nat. change HELLO_RESP_COOKIE with (HLEN + 16)%nat.
  change HELLO_RESP_SERVER_TS with (HLEN + 0)%nat.
  rewrite (payload_le rb2 _ noise 8 4 (le_bytes 8 (htonll ts)) (htonl VF_S_OK) (le_bytes 4 (htonl VF_DEFAULT_CAPS) ++ c) Hg)
    by (done || apply (bswap_ok 4)). cbn [mbind option_bind].
  change (ntohl (htonl VF_S_OK) =? VF_S_OK) with true. cbn [negb].
  rewrite (payload_field rb2 _ noise 16 16 (le_bytes 8 (htonll ts) ++ le_bytes 4 (htonl VF_S_OK) ++ le_bytes 4 (htonl VF_DEFAULT_CAPS)) c [] Hg)
    by (done || (unfold hello_payload; by rewrite <- !app_assoc, app_nil_r) || (rewrite !length_app, L8, L4, L4'; done)).
  cbn [mbind option_bind].
  rewrite (payload_le rb2 _ noise 0 8 [] (htonll ts) (le_bytes 4 (htonl VF_S_OK) ++ le_bytes 4 (htonl VF_DEFAULT_CAPS) ++ c) Hg)
    by (done || apply (bswap_ok 8)). cbn [mbind option_bind].
  assert (ntohll (htonll ts) = ts) as -> by (by apply (bswap_involutive 8)). done.
Qed.

(** The client after an authentication response. *)
Definition authenticated w (vip sid now : Z) (k : vfast_key_t) : client :=
  with_fsm (set_session sid (Some (active_ptr w)) (set_rx now (cl_fsm w)))
    (with_vip vip (set_ctx (active_ptr w) (install_key (k_raw k) (k_id k) sid now (active_ctx w)) w)).

(** The answer to the authentication request, when the kernel takes the
    address. *)
Lemma client_auth_received w io i held len e rb b sid vip k tk t o :
  cl_ok w -> io_inv io (i :: held) -> task_pool io !! i = Some t -> t_buf t = rb -> agree (Z.to_nat len) b rb -> word_ok 32 sid ->
  delivers b len (Some (active_ctx w)) VPN_MSG_AUTH_ACK sid (auth_payload vip k tk) -> f_state (cl_fsm w) = ST_AUTH_WAIT ->
  key_ok k -> word_ok 32 vip -> length tk = VF_TOKEN_LEN ->
  vf_tun_set_ip (Some (cl_tun_name w)) (Some (inet_ntop vip)) (Some VFAST_BROADCAST) (cl_os w) = Some (0, o) ->
  exists io', client_on_udp w io i len e =
    Some (with_fsm (set_state ST_CONNECTED (cl_fsm (authenticated w vip sid (ce_time e) k)))
            (with_os o (authenticated w vip sid (ce_time e) k)), io', IO_TASK_DONE) /\
    io_inv io' (i :: held).
Proof.
  intros Hw Hi Ht Hrb Ha Hsid Hd Hst (Lraw & _ & Hid & _) Hvip Ltk Eset. unfold REKEY_KEY_SIZE in Lraw. unfold VF_TOKEN_LEN in Ltk.
  destruct (client_on_udp_delivered w io i held len e rb b VPN_MSG_AUTH_ACK sid (auth_payload vip k tk) t)
    as (io1 & rb2 & noise & _ & _ & Hg & _ & (Hi1 & _) & ->); [done..|].
  exists io1. split; [|done]. unfold client_dispatch.
  cbn [Z.eqb VPN_MSG_AUTH_ACK VPN_MSG_DATA VPN_MSG_HELLO VPN_MSG_KEEPALIVE VPN_DPD_REQUEST VPN_MSG_REKEY_ACK Pos.eqb].
  unfold client_handle_auth. cbn [cl_fsm with_fsm f_state set_rx]. rewrite Hst. rewrite bool_decide_eq_true_2 by done. cbn [negb].
  set (f1 := le_bytes 4 (htonl VF_S_OK)) in *. set (f2 := le_bytes 4 vip) in *. set (f3 := le_bytes 4 (htonl (k_id k))) in *.
  set (f4 := le_bytes 4 (htonl 300)) in *.
  assert (length f1 = 4%nat /\ length f2 = 4%nat /\ length f3 = 4%nat /\ length f4 = 4%nat) as (L1 & L2 & L3 & L4)
    by (split_and!; apply length_le_bytes).
  assert (auth_payload vip k tk = f1 ++ f2 ++ tk ++ f3 ++ f4 ++ k_raw k) as Epl by done.
  assert (length (auth_payload vip k tk) = 64%nat) as Lp by (rewrite Epl, !length_app, L1, L2, L3, L4, Ltk, Lraw; done).
  destruct (Z.ltb_spec (Z.of_nat (length (auth_payload vip k tk ++ noise))) AUTH_RESP_SIZE) as [Hlt|_].
  { exfalso. rewrite length_app, Lp in Hlt. unfold AUTH_RESP_SIZE in Hlt. lia. }
  change AUTH_RESP_STATUS with (HLEN + 0)%nat. change AUTH_RESP_INIT_KEY with (HLEN + 32)%nat.
  change AUTH_RESP_KEY_ID with (HLEN + 24)%nat. change AUTH_RESP_VIP with (HLEN + 4)%nat. unfold REKEY_KEY_SIZE.
  rewrite (payload_le rb2 _ noise 0 4 [] (htonl VF_S_OK) (f2 ++ tk ++ f3 ++ f4 ++ k_raw k) Hg)
    by (done || apply (bswap_ok 4)). cbn [mbind option_bind].
  change (ntohl (htonl VF_S_OK) =? VF_S_OK) with true. cbn [negb].
  rewrite (payload_field rb2 _ noise 32 32 (f1 ++ f2 ++ tk ++ f3 ++ f4) (k_raw k) [] Hg)
    by (done || (rewrite Epl; by rewrite <- !app_assoc, app_nil_r) || (rewrite !length_app, L1, L2, L3, L4, Ltk; done)).
  cbn [mbind option_bind].
  rewrite (payload_le rb2 _ noise 24 4 (f1 ++ f2 ++ tk) (htonl (k_id k)) (f4 ++ k_raw k) Hg)
    by (done || apply (bswap_ok 4) || (rewrite Epl; by rewrite <- !app_assoc) || (rewrite !length_app, L1, L2, Ltk; done)).
  cbn [mbind option_bind].
  rewrite (payload_le rb2 _ noise 4 4 f1 vip (tk ++ f3 ++ f4 ++ k_raw k) Hg) by done. cbn [mbind option_bind].
  assert (ntohl (htonl (k_id k)) = k_id k) as -> by (by apply (bswap_involutive 4)).
  cbn [active_ptr with_fsm]. 
  change (cl_os _) with (cl_os w). change (cl_tun_name _) with (cl_tun_name w). rewrite Eset. cbn [mbind option_bind Z.eqb].
  done.
Qed.
End client_packets.

(** The text a credential field carries: the first sixty-three characters. *)
Lemma credential_text src n u :
  is_Some (strlen src) -> strncpy src n = Some u -> c_prefix (u ++ [0]) = take n (c_prefix src).
Proof.
  unfold c_prefix, cstr. revert src u. induction n as [|n IH]; intros src u Hs E.
  { apply (inj Some) in E. by subst u. }
  destruct src as [|c src]; [done|]. cbn in E, Hs |- *. destruct (Z.eqb_spec c 0) as [->|Hc].
  { apply (inj Some) in E. by subst u. }
  apply fmap_Some in E as (u' & E & ->). apply fmap_is_Some in Hs. specialize (IH src u' Hs E). cbn.
  destruct (Z.eqb_spec c 0); [done|]. destruct Hs as [k Hk]. rewrite Hk in IH |- *. cbn in IH |- *.
  destruct (strlen (u' ++ [0])) as [k'|] eqn:Ek'; cbn in IH |- *; [by rewrite IH|].
  assert (is_Some (strlen (u' ++ [0]))) as [? ?] by (by apply strlen_suffix; eexists). congruence.
Qed.

(** * The network *)

(** A datagram: a buffer of which the first [pk_len] bytes travel. *)
Record packet := { pk_buf : list Z; pk_len : Z }.

Section network.
Context {R : Type} `{HR : IoUring R, HRL : !IoUringLaws R}.

(** It waits in the submission queue for [dst]. *)
Definition posted (io : vf_io_t R) (dst : sockaddr_in) (p : packet) : Prop :=
  length (pk_buf p) = Z.to_nat BUF_SIZE /\ bytes_ok (pk_buf p) /\ 0 <= pk_len p <= BUF_SIZE /\
  exists i, sends io i (pk_len p) dst (pk_buf p).

(** It was received from [src] into task [i], which the loop holds. *)
Definition arrives (p : packet) (src : sockaddr_in) (io : vf_io_t R) (i : nat) (held : list nat) : Prop :=
  io_inv io (i :: held) /\
  exists t, task_pool io !! i = Some t /\ t_addr t = src /\ agree (Z.to_nat (pk_len p)) (pk_buf p) (t_buf t).

(** There is a task to send from, and a place in the queue. *)
Definition queue_room (io : vf_io_t R) : Prop := forall i, is_Some (ring_push (send_sqe i) (ring io)).
Definition task_room (io : vf_io_t R) : Prop := exists i, (i < length (task_pool io))%nat /\ ~ task_busy io i.

(** It carries [payload] to whoever receives it under [sec]. *)
Definition carries (p : packet) (sec : option vfast_sec_ctx_t) (type sid : Z) (payload : list Z) : Prop :=
  delivers (pk_buf p) (pk_len p) sec type sid payload.

Lemma replied_posted io0 io held i dst sec sec0 type sid payload :
  io_inv io held -> accepts sec sec0 type -> replied io0 io i dst sec type sid payload -> queue_room io0 ->
  exists p, posted io dst p /\ forall sec', accepts sec sec' type -> carries p sec' type sid payload.
Proof.
  unfold replied. intros Hi Hacc Hrep Hroom. destruct (Hroom i) as [r Er]. rewrite Er in Hrep. destruct Hrep as (_ & b & n & Hs & Hd).
  exists {| pk_buf := b; pk_len := n |}. split; [|done].
  destruct (Hd sec0 Hacc) as [Hn _]. destruct Hs as (Hq & t & Ht & Hop & <- & Hrest).
  assert (task_size t) as [Hl Hb].
  { pose proof (ii_bufs _ _ Hi) as Hbf. rewrite list.Forall_forall in Hbf. by apply Hbf, list_elem_of_lookup_2 with i. }
  split; [done|]. split; [done|]. split; [unfold VPN_TNL_HLEN in Hn; cbn; lia|]. exists i. split; [done|]. by exists t.
Qed.

(** A turn of the client's machine that sends. *)
Lemma tick_sends w (io : vf_io_t R) held n e type :
  cl_ok w -> urandom_ok (fe_urandom e) -> io_inv io held -> io_budget io (S n) -> task_room io -> queue_room io ->
  (fsm_table (cl_fsm w) (fe_time e)).2 = Some type -> pack_plain_type type = true ->
  exists w' io' p payload, client_tick w io e = Some (w', io') /\ cl_ok w' /\ io_inv io' held /\
    posted io' (f_dst (cl_fsm w)) p /\ fsm_payload_is (cl_fsm w) type e payload /\
    (forall sec, carries p sec type (f_sid (cl_fsm w)) payload) /\
    same_session (cl_fsm w) (cl_fsm w') /\ same_peer (cl_fsm w) (cl_fsm w') /\
    f_state (cl_fsm w') = (fsm_table (cl_fsm w) (fe_time e)).1 /\
    (forall b, ctx_at b w' = ctx_at b w) /\ active_ptr w' = active_ptr w /\ cl_os w' = cl_os w /\ cl_tun_name w' = cl_tun_name w.
Proof.
  intros Hw Hu Hi Hb (i0 & Hlt & Hfree) Hroom Hty Hplain.
  destruct (client_tick_inv w io held n e Hw Hu Hi Hb)
    as (w' & io' & E & Hw' & Hi' & _ & _ & _ & Hses & Hpeer & Hst & Hsent & Hctx & Hact & Hos & Hnm).
  destruct (Hsent type Hty) as (f1 & [(_ & Hbusy & _)|(_ & i & payload & _ & Hpl & Hrep & _)]); [by destruct (Hfree (Hbusy i0 Hlt))|].
  destruct (replied_posted io io' held i _ None None type _ _ Hi' ltac:(by left) Hrep Hroom) as (p & Hp & Hc).
  exists w', io', p, payload. do 5 (split; [done|]). split; [intros sec; apply Hc; by left|]. done.
Qed.
End network.

(** * Connecting *)

Section handshake.
Context {R : Type} `{HR : IoUring R, HRL : !IoUringLaws R}.
Context {T : Type} `{HT : HashTable Z T, HTL : !HashTableLaws Z T}.
Context {U : Type} `{HU : HashTable (list Z) U}.
Variable hmac_sha256 : list Z -> list Z -> list Z.
Variable rc_auth : list Z -> list Z -> rc_result.
Hypothesis hmac_ok : forall k m, length (hmac_sha256 k m) = 32%nat /\ bytes_ok (hmac_sha256 k m).

Implicit Types (sw : server T U) (io : vf_io_t R).

Lemma no_session_selected sw : selects sw 0 None None.
Proof. by split. Qed.

(** The server's answer to HELLO. *)
Lemma hello_answered sw m io i held p src e payload :
  sv_ok sw m -> env_ok e -> arrives p src io i held -> queue_room io ->
  carries p None VPN_MSG_HELLO 0 payload -> (8 <= length payload)%nat ->
  exists sw' io' q c, server_on_udp hmac_sha256 rc_auth sw io i (pk_len p) e = Some (sw', io', IO_TASK_USE) /\
    sv_ok sw' m /\ sv_ip_pool sw' = sv_ip_pool sw /\ master_key sw' = master_key sw /\
    vfast_generate_cookie hmac_sha256 src (master_key sw) = Some c /\ posted io' src q /\
    (forall sec, carries q sec VPN_MSG_HELLO 0 (hello_payload (e_now_ms e) c)).
Proof.
  intros Hw He (Hi & t & Ht & <- & Ha) Hroom Hd Hlen.
  destruct (server_on_udp_hello_inv hmac_sha256 rc_auth hmac_ok sw m io i held (pk_len p) e (t_buf t) (pk_buf p) None None 0 payload t)
    as (sw' & io' & st & E & (-> & (m' & Hw' & Em) & Hpool & _ & Hkey & c & Hc & Hrep) & _ & _ & Hi' & _);
    [done|done|done|done|done|done|by_compute|apply no_session_selected|done|done|].
  rewrite (Em eq_refl) in Hw'.
  destruct (replied_posted io io' held i _ None None VPN_MSG_HELLO _ _ Hi' ltac:(by left) Hrep Hroom) as (q & Hq & Hcar).
  exists sw', io', q, c. do 6 (split; [done|]). intros sec. apply Hcar. by left.
Qed.

(** The identifier [vfast_handle_auth] draws for the address. *)
Definition new_sid (vip : Z) (e : sv_env) : Z := vf_ss_generate_sid vip (e_sid_rnd e) (e_rand e).

(** What the server needs for admitting a request with the cookie's time
    [ts]: the age in range, an address [vip], credentials the login accepts,
    and an identifier that no session has. *)
Record admits sw (m : gmap Z vf_session_t) (e : sv_env) (ts vip : Z) (user pass : list Z) : Prop := {
  ad_old : 5000 <= ts <= e_now_ms e;
  ad_young : e_now_ms e <= ts + 300000 < 2 ^ 64;
  ad_vip : fst <$> vf_ip_pool_alloc (sv_ip_pool sw) = Some vip;
  ad_free : vip <> 0;
  ad_login : login_code rc_auth user pass (e_login e) = 0;
  ad_sid : forall v s, m !! v = Some s -> ss_sid s <> new_sid vip e
}.

Lemma alloc_word_ok sw m vip :
  sv_ok sw m -> fst <$> vf_ip_pool_alloc (sv_ip_pool sw) = Some vip -> vip <> 0 -> word_ok 32 vip.
Proof.
  intros Hw E Hnz. destruct (so_leased _ _ Hw) as (out & Hp & _).
  destruct (pool_alloc_inv _ _ Hp) as (ip & p' & E' & _ & _ & _ & _ & Hip). rewrite E' in E. apply (inj Some) in E. cbn in E. subst ip.
  destruct (Hip Hnz) as (_ & pos & _ & _ & ->). apply (bswap_ok 4).
Qed.

(** The server's answer to the authentication request. *)
Lemma auth_answered sw m io i held p src e ts c u pw vip :
  sv_ok sw m -> env_ok e -> arrives p src io i held -> queue_room io ->
  carries p None VPN_MSG_AUTH_REQ 0 (auth_request ts c u pw) ->
  length c = 16%nat -> length u = 64%nat -> length pw = 64%nat -> 0 ∈ u -> 0 ∈ pw ->
  vfast_generate_cookie hmac_sha256 src (master_key sw) = Some c -> admits sw m e ts vip (c_prefix u) (c_prefix pw) ->
  exists sw' io' q m' s tk, server_on_udp hmac_sha256 rc_auth sw io i (pk_len p) e = Some (sw', io', IO_TASK_USE) /\
    sv_ok sw' m' /\ m !! vip = None /\ m' = <[vip := s]> m /\ ss_vip s = vip /\ ss_sid s = new_sid vip e /\ ss_remote_addr s = src /\
    posted io' src q /\ length tk = VF_TOKEN_LEN /\
    (forall sec, carries q sec VPN_MSG_AUTH_ACK (new_sid vip e) (auth_payload vip (active_key (ss_sec_ctx s)) tk)).
Proof.
  intros Hw He (Hi & t & Ht & <- & Ha) Hroom Hd Lc Lu Lp Hu Hp Hc [Ha1 Ha2 Hv Hnz Hlog Hsid].
  destruct (server_on_udp_auth_inv hmac_sha256 rc_auth hmac_ok sw m io i held (pk_len p) e (t_buf t) (pk_buf p) 0 None ts c u pw t)
    as (sw' & io' & st & E & (_ & Ho) & _ & _ & Hi' & _);
    [done|done|done|done|done|done|by_compute|apply no_session_selected|done|unfold word_ok; lia|done..|].
  rewrite decide_True in Ho.
  2: { split; [done|]. cbn [af_ts]. rewrite !wrap_small by lia. lia. }
  destruct Ho as (vip' & Ev & _ & Ho). rewrite Hv in Ev. apply (inj Some) in Ev. subst vip'.
  rewrite decide_False in Ho by (intros [?|?]; congruence).
  destruct Ho as (-> & Hnone & k & m' & _ & Em & Hw' & x & tk & Hx & Hxs & Ltk & Hrep). fold (new_sid vip e) in *.
  destruct (replied_posted io io' held i _ None None VPN_MSG_AUTH_ACK _ _ Hi' ltac:(by left) Hrep Hroom) as (q & Hq & Hcar).
  assert (m' = <[vip := x]> m /\ ss_vip x = vip) as [Em' Ex].
  { unfold spec_update in Em. rewrite Hnone in Em. rewrite Em in Hx. apply lookup_insert_Some in Hx as [[Ex <-]|[_ Hx]]; [done|].
    by destruct (Hsid _ _ Hx). }
  exists sw', io', q, m', x, tk. split; [exact E|]. do 5 (split; [done|]).
  split.
  { rewrite Em in Hx. unfold spec_update in Hx. rewrite Hnone in Hx.
    apply lookup_insert_Some in Hx as [[_ <-]|[_ Hx]]; [done|]. by destruct (Hsid _ _ Hx). }
  do 2 (split; [done|]). intros sec. apply Hcar. by left.
Qed.

(** An engine that can send: a task is free, the queue has room. *)
Definition can_send io (held : list nat) : Prop := io_inv io held /\ io_budget io 1 /\ task_room io /\ queue_room io.

(** The client and a session hold the same tunnel: either accepts what the
    other seals. *)
Record linked (w : client) (s : vf_session_t) : Prop := {
  li_state : f_state (cl_fsm w) = ST_CONNECTED;
  li_sid : f_sid (cl_fsm w) = ss_sid s;
  li_vip : cl_vip w = ss_vip s;
  li_raw : k_raw (active_key (active_ctx w)) = k_raw (active_key (ss_sec_ctx s));
  li_id : k_id (active_key (active_ctx w)) = k_id (active_key (ss_sec_ctx s))
}.

Definition both_ways (c1 c2 : vfast_sec_ctx_t) : Prop :=
  accepts (Some c1) (Some c2) VPN_MSG_DATA /\ accepts (Some c2) (Some c1) VPN_MSG_DATA.

Lemma same_key_accepts c1 c2 :
  k_raw (active_key c1) = k_raw (active_key c2) -> k_id (active_key c1) = k_id (active_key c2) -> both_ways c1 c2.
Proof. intros Hr Hi. by split; apply same_key_accepts_type. Qed.

(** What the kernel is asked: the address on the interface of that name. *)
Definition address_set (o o' : os) (name : list Z) (vip : Z) : Prop :=
  exists nm fd m, ifr_set_name name = Some nm /\ inet_pton VFAST_BROADCAST = Some (Some m) /\
    os_log o' = ip_calls nm vip m fd ++ os_log o.

Lemma address_agreed w vip n :
  cl_ok w -> word_ok 32 vip -> strlen (cl_tun_name w) = Some n -> (n < IFNAMSIZ)%nat ->
  (forall k, 0 <= rp_ret (os_kernel (cl_os w) k)) ->
  exists o, vf_tun_set_ip (Some (cl_tun_name w)) (Some (inet_ntop vip)) (Some VFAST_BROADCAST) (cl_os w) = Some (0, o) /\
    address_set (cl_os w) o (cl_tun_name w) vip.
Proof.
  intros Hw Hv Hn Hlt Hk. assert (exists m, inet_pton VFAST_BROADCAST = Some (Some m)) as [m Hm] by (eexists; vm_compute; reflexivity).
  destruct (vf_tun_set_ip_agreed (cl_os w) (cl_tun_name w) n vip VFAST_BROADCAST m Hn Hlt Hv Hm Hk) as (rc & o & E & _ & _ & ->).
  destruct (vf_tun_set_ip_sets (cl_os w) (cl_tun_name w) vip VFAST_BROADCAST m (co_name _ Hw) Hv Hm (co_os _ Hw))
    as (rc & o' & E' & _ & _ & Hl). rewrite E in E'. apply (inj Some), pair_equal_spec in E' as [<- <-].
  exists o. split; [done|]. destruct (Hl eq_refl) as (nm & fd & Hnm & Hlog). by exists nm, fd, m.
Qed.

(** The cookie is sixteen bytes. *)
Lemma cookie_bytes sw m src c :
  sv_ok sw m -> vfast_generate_cookie hmac_sha256 src (master_key sw) = Some c -> length c = 16%nat /\ bytes_ok c.
Proof.
  intros _. unfold vfast_generate_cookie. destruct (get_bytes 0 16 (master_key sw)) as [k|]; [|done]. cbn [mbind option_bind].
  set (msg := _ ++ _ ++ k). destruct (hmac_ok k msg) as [Lh Oh]. rewrite get_bytes_Some by lia. intros E. apply (inj Some) in E. subst c.
  rewrite drop_0. split; [rewrite length_take; lia|by apply bytes_ok_take].
Qed.

(** The idle client greets. *)
Lemma client_greets w io held e :
  cl_ok w -> urandom_ok (fe_urandom e) -> can_send io held -> f_state (cl_fsm w) = ST_IDLE ->
  exists w' io' p payload, client_tick w io e = Some (w', io') /\ cl_ok w' /\ io_inv io' held /\ posted io' (f_dst (cl_fsm w)) p /\
    length payload = 8%nat /\ (forall sec, carries p sec VPN_MSG_HELLO (f_sid (cl_fsm w)) payload) /\
    f_state (cl_fsm w') = ST_HELLO_WAIT /\ f_sid (cl_fsm w') = f_sid (cl_fsm w) /\ same_peer (cl_fsm w) (cl_fsm w') /\
    cl_os w' = cl_os w /\ cl_tun_name w' = cl_tun_name w.
Proof.
  intros Hw Hu (Hi & Hb & Ht & Hr) Hst.
  destruct (tick_sends w io held 0 e VPN_MSG_HELLO Hw Hu Hi Hb Ht Hr) as
    (w' & io' & p & pl & E & Hw' & Hi' & Hp & (Hpl & _) & Hc & (Es & _) & Hpeer & Est & _ & _ & Eos & Enm);
    [unfold fsm_table; by rewrite Hst|done|].
  exists w', io', p, pl. do 4 (split; [done|]). split; [rewrite Hpl by done; apply length_le_bytes|]. split; [done|].
  split; [rewrite Est; unfold fsm_table; by rewrite Hst|done].
Qed.

(** With the cookie it asks to be authenticated. *)
Lemma client_requests w io held e c ts :
  cl_ok w -> urandom_ok (fe_urandom e) -> can_send io held -> f_state (cl_fsm w) = ST_AUTH_SEND -> f_cookie (cl_fsm w) = c ->
  server_ts (cl_fsm w) = ts ->
  exists w' io' p u pw, client_tick w io e = Some (w', io') /\ cl_ok w' /\ posted io' (f_dst (cl_fsm w)) p /\
    length u = 64%nat /\ length pw = 64%nat /\ 0 ∈ u /\ 0 ∈ pw /\
    c_prefix u = take 63 (c_prefix (user_name (cl_fsm w))) /\ c_prefix pw = take 63 (c_prefix (pass_word (cl_fsm w))) /\
    (forall sec, carries p sec VPN_MSG_AUTH_REQ (f_sid (cl_fsm w)) (auth_request ts c u pw)) /\
    f_state (cl_fsm w') = ST_AUTH_WAIT /\ cl_os w' = cl_os w /\ cl_tun_name w' = cl_tun_name w.
Proof.
  intros Hw Hu (Hi & Hb & Ht & Hr) Hst <- <-.
  destruct (tick_sends w io held 0 e VPN_MSG_AUTH_REQ Hw Hu Hi Hb Ht Hr) as
    (w' & io' & p & pl & E & Hw' & _ & Hp & (_ & _ & Hpl) & Hc & _ & _ & Est & _ & _ & Eos & Enm);
    [unfold fsm_table; by rewrite Hst|done|].
  destruct (Hpl eq_refl) as (u & pw & Eu & Ep & ->). destruct (co_fsm _ Hw) as (_ & _ & _ & _ & _ & _ & Hus & Hps).
  pose proof (strncpy_length _ _ _ Eu). pose proof (strncpy_length _ _ _ Ep).
  exists w', io', p, (u ++ [0]), (pw ++ [0]). do 3 (split; [done|]). do 2 (split; [rewrite length_app; cbn; lia|]).
  do 2 (split; [apply elem_of_app; right; left|]). do 2 (split; [by apply credential_text|]). split; [done|].
  split; [rewrite Est; unfold fsm_table; by rewrite Hst|done].
Qed.

(** The connected client. *)
Lemma client_connects w io i held p src e sid vip s tk n :
  cl_ok w -> arrives p src io i held -> word_ok 32 sid -> word_ok 32 vip -> key_ok (active_key (ss_sec_ctx s)) ->
  length tk = VF_TOKEN_LEN -> ss_sid s = sid -> ss_vip s = vip ->
  (forall sec, carries p sec VPN_MSG_AUTH_ACK sid (auth_payload vip (active_key (ss_sec_ctx s)) tk)) ->
  f_state (cl_fsm w) = ST_AUTH_WAIT -> strlen (cl_tun_name w) = Some n -> (n < IFNAMSIZ)%nat ->
  (forall k, 0 <= rp_ret (os_kernel (cl_os w) k)) ->
  exists w' io', client_on_udp w io i (pk_len p) e = Some (w', io', IO_TASK_DONE) /\
    linked w' s /\ both_ways (active_ctx w') (ss_sec_ctx s) /\ address_set (cl_os w) (cl_os w') (cl_tun_name w) vip.
Proof.
  intros Hw (Hi & t & Ht & _ & Ha) Hsid Hvip Hkey Ltk Es Ev Hd Hst Hn Hlt Hk.
  destruct (address_agreed w vip n Hw Hvip Hn Hlt Hk) as (o & Eo & Hset).
  destruct (client_auth_received w io i held (pk_len p) e (t_buf t) (pk_buf p) sid vip (active_key (ss_sec_ctx s)) tk t o)
    as (io' & E & _); [done..|apply Hd|done|done|done|done|done|].
  eexists _, io'. split; [exact E|]. unfold authenticated. set (w1 := set_ctx _ _ w).
  assert (active_ctx w1 = install_key (k_raw (active_key (ss_sec_ctx s))) (k_id (active_key (ss_sec_ctx s))) sid (ce_time e) (active_ctx w))
    as Ea by apply active_set.
  assert (k_raw (active_key (active_ctx w1)) = k_raw (active_key (ss_sec_ctx s)) /\
    k_id (active_key (active_ctx w1)) = k_id (active_key (ss_sec_ctx s))) as [Er Ei] by (by rewrite Ea).
  split; [by split|]. split; [by apply same_key_accepts|done].
Qed.

(** C25 The handshake ends in agreement.  A client that is idle and whose kernel
    accepts every call sends a HELLO; the server answers it without keeping
    anything, with a cookie for the address it came from; with this answer the
    client sends the authentication request; and the server, in whatever state
    it is by then (any server with the same master key), if the request is
    recent, an address is free, the login accepts the credentials and
    the identifier is new, enters one session, for the sender's address, and
    answers.  With that answer the client is connected to exactly that
    session: same identifier, same address, which it has put on the
    interface, same key and key number, so each opens what the other seals. *)
Theorem handshake_agreement w io held e0 n :
  cl_ok w -> urandom_ok (fe_urandom e0) -> can_send io held -> f_state (cl_fsm w) = ST_IDLE -> f_sid (cl_fsm w) = 0 ->
  strlen (cl_tun_name w) = Some n -> (n < IFNAMSIZ)%nat -> (forall k, 0 <= rp_ret (os_kernel (cl_os w) k)) ->
  exists w1 io1 p1, client_tick w io e0 = Some (w1, io1) /\ io_inv io1 held /\ posted io1 (f_dst (cl_fsm w)) p1 /\
  forall sw1 m1 sio1 i1 held1 src se1,
    sv_ok sw1 m1 -> env_ok se1 -> word_ok 64 (e_now_ms se1) -> arrives p1 src sio1 i1 held1 -> queue_room sio1 ->
  exists sw2 sio2 p2, server_on_udp hmac_sha256 rc_auth sw1 sio1 i1 (pk_len p1) se1 = Some (sw2, sio2, IO_TASK_USE) /\
    sv_ok sw2 m1 /\ posted sio2 src p2 /\
  forall io2 i2 held2 peer2 ce2, arrives p2 peer2 io2 i2 held2 ->
  exists w2 io2', client_on_udp w1 io2 i2 (pk_len p2) ce2 = Some (w2, io2', IO_TASK_DONE) /\
  forall io3 held3 e3, urandom_ok (fe_urandom e3) -> can_send io3 held3 ->
  exists w3 io3' p3, client_tick w2 io3 e3 = Some (w3, io3') /\ posted io3' (f_dst (cl_fsm w)) p3 /\
  forall sw4 m4 sio4 i4 held4 se4 vip,
    sv_ok sw4 m4 -> env_ok se4 -> master_key sw4 = master_key sw1 -> arrives p3 src sio4 i4 held4 -> queue_room sio4 ->
    admits sw4 m4 se4 (e_now_ms se1) vip (take 63 (c_prefix (user_name (cl_fsm w)))) (take 63 (c_prefix (pass_word (cl_fsm w)))) ->
  exists sw5 sio5 p4 s, server_on_udp hmac_sha256 rc_auth sw4 sio4 i4 (pk_len p3) se4 = Some (sw5, sio5, IO_TASK_USE) /\
    sv_ok sw5 (<[vip := s]> m4) /\ m4 !! vip = None /\ ss_remote_addr s = src /\ posted sio5 src p4 /\
  forall io5 i5 held5 peer5 ce5, arrives p4 peer5 io5 i5 held5 ->
  exists w5 io5', client_on_udp w3 io5 i5 (pk_len p4) ce5 = Some (w5, io5', IO_TASK_DONE) /\
    linked w5 s /\ both_ways (active_ctx w5) (ss_sec_ctx s) /\ address_set (cl_os w) (cl_os w5) (cl_tun_name w) vip.
Proof.
  intros Hw Hu Hsend Hst Hsid Hn Hlt Hk.
  destruct (client_greets w io held e0 Hw Hu Hsend Hst) as
    (w1 & io1 & p1 & pl1 & E1 & Hw1 & Hi1 & Hp1 & Lpl1 & Hc1 & Hst1 & Esid1 & (Ed1 & Eu1 & Epw1) & Eos1 & Enm1).
  exists w1, io1, p1. do 3 (split; [done|]).
  intros sw1 m1 sio1 i1 held1 src se1 Hsw1 He1 Hts Ha1 Hr1.
  destruct (hello_answered sw1 m1 sio1 i1 held1 p1 src se1 pl1 Hsw1 He1 Ha1 Hr1) as
    (sw2 & sio2 & p2 & c & E2 & Hsw2 & _ & _ & Hck & Hp2 & Hc2); [rewrite <- Hsid; apply Hc1|lia|].
  destruct (cookie_bytes sw1 m1 src c Hsw1 Hck) as [Lc Oc].
  exists sw2, sio2, p2. do 3 (split; [done|]).
  intros io2 i2 held2 peer2 ce2 (Hi2 & t2 & Ht2 & _ & Ha2).
  destruct (client_hello_received w1 io2 i2 held2 (pk_len p2) ce2 (t_buf t2) (pk_buf p2) 0 (e_now_ms se1) c t2)
    as (io2' & E3 & Hi2'); [done..|by_compute|apply Hc2|done|done|done|].
  set (w2 := with_fsm _ w1) in E3. exists w2, io2'. split; [done|].
  assert (cl_ok w2) as Hw2.
  { apply cl_ok_fsm; [done|]. apply fsm_ok_state, fsm_ok_hello; [apply fsm_ok_rx, Hw1|done..]. }
  intros io3 held3 e3 Hu3 Hsend3.
  destruct (client_requests w2 io3 held3 e3 c (e_now_ms se1) Hw2 Hu3 Hsend3 eq_refl eq_refl eq_refl) as
    (w3 & io3' & p3 & u & pw & E4 & Hw3 & Hp3 & Lu & Lpw & Hu0 & Hpw0 & Etu & Etp & Hc3 & Hst3 & Eos3 & Enm3).
  cbn [w2 cl_fsm with_fsm f_dst set_state set_hello set_rx f_sid user_name pass_word] in Hp3, Hc3, Etu, Etp.
  rewrite Ed1 in Hp3. rewrite Eu1 in Etu. rewrite Epw1 in Etp. rewrite Esid1, Hsid in Hc3.
  exists w3, io3', p3. do 2 (split; [done|]).
  intros sw4 m4 sio4 i4 held4 se4 vip Hsw4 He4 Emk Ha4 Hr4 Had. rewrite <- Etu, <- Etp in Had.
  destruct (auth_answered sw4 m4 sio4 i4 held4 p3 src se4 (e_now_ms se1) c u pw vip) as
    (sw5 & sio5 & p4 & m5 & s & tk & E5 & Hsw5 & Hno & -> & Esv & Ess & Esr & Hp4 & Ltk & Hc4);
    [done|done|done|done|apply Hc3|done..|by rewrite Emk|done|].
  exists sw5, sio5, p4, s. do 5 (split; [done|]).
  intros io5 i5 held5 peer5 ce5 Ha5. rewrite <- Eos1, <- Enm1. change (cl_os w1) with (cl_os w2). change (cl_tun_name w1) with (cl_tun_name w2).
  rewrite <- Eos3, <- Enm3. apply (client_connects w3 io5 i5 held5 p4 peer5 ce5 (new_sid vip se4) vip s tk n); try done.
  - apply generate_sid_ok, He4.
  - by apply (alloc_word_ok sw4 m4); [|apply (ad_vip _ _ _ _ _ _ _ Had)|apply (ad_free _ _ _ _ _ _ _ Had)].
  - assert (session_ok s) as [[Hk0 _] _]; [|done]. apply (so_sess _ _ Hsw5 vip). apply lookup_insert_eq.
  - rewrite Enm3. change (cl_tun_name w2) with (cl_tun_name w1). by rewrite Enm1.
  - intros k. rewrite Eos3. change (cl_os w2) with (cl_os w1). by rewrite Eos1.
Qed.

(** ** Moving to a new key *)

(** Whoever moved on to the next key still opens what the other seals. *)
Lemma grace_accepts a b :
  0 < k_id (active_key a) -> k_id (active_key a) + 1 < 2 ^ 32 -> k_id (active_key b) = k_id (active_key a) + 1 ->
  k_id (previous_key b) = k_id (active_key a) -> k_raw (previous_key b) = k_raw (active_key a) ->
  accepts (Some a) (Some b) VPN_MSG_DATA.
Proof.
  intros Hnz Hov Eb Epi Epr. right. exists a, b. do 3 (split; [done|]).
  unfold vf_rekey_get_decrypt_key, vf_rekey_get_keyid, vf_rekey_get_key. rewrite Eb, Epi, Epr, !u8_land, land_ff.
  pose proof (wire_kid_succ (k_id (active_key a))) as Hwk. rewrite wrap_small in Hwk by lia.
  rewrite (proj2 (Z.eqb_neq (k_id (active_key a) mod 256) _)), Z.eqb_refl, (proj2 (Z.eqb_neq (k_id (active_key a)) 0)); [done|lia|].
  intros Heq. symmetry in Heq. apply Hwk in Heq; [done|]. unfold word_ok. lia.
Qed.

(** An established tunnel: the client is connected to the session that its
    identifier selects. *)
Definition tunnel (w : client) (sw : server T U) (l : positive) (s : vf_session_t) : Prop :=
  linked w s /\ ss_sid s <> 0 /\ vf_ss_lookup_by_sid (sv_sessions sw) (ss_sid s) = Some (Some l) /\
  ss_heap (sv_sessions sw) !! l = Some s.

(** The client asks. *)
Lemma client_rekeys w io held e raw :
  cl_ok w -> cl_env_ok e -> can_send io held -> f_state (cl_fsm w) = ST_CONNECTED ->
  rekey_init_due (active_ctx w) (ce_time e) = true -> vfast_crypto_fill_random (ce_getrandom e) REKEY_KEY_SIZE = Some (0, raw) ->
  let c := prepared raw (ce_time e) (active_ctx w) in
  exists w' io' p, vfast_rekey_timer_handler w io e = Some (w', io') /\ cl_ok w' /\ io_inv io' held /\
    active_ctx w' = c /\ cl_fsm w' = cl_fsm w /\ cl_vip w' = cl_vip w /\ posted io' (f_dst (cl_fsm w)) p /\
    forall sec, accepts (Some c) sec VPN_MSG_REKEY_REQ ->
      carries p sec VPN_MSG_REKEY_REQ (f_sid (cl_fsm w)) (le_bytes 4 (htonl (k_id (next_key c))) ++ raw).
Proof.
  intros Hw He (Hi & Hb & (i0 & Hlt & Hfree) & Hroom) Hst Hdue Hraw c.
  destruct (rekey_timer_inv w io held 0 e Hw He Hi Hb) as (w' & io' & E & Hw' & Hi' & _ & _ & _ & Ho).
  unfold rekey_outcome in Ho. destruct (decide (f_state (cl_fsm w) <> ST_CONNECTED)); [done|]. rewrite Hdue in Ho.
  destruct Ho as [(raw' & Hraw' & _ & Hask)|(Hno & _)]; [|by destruct (Hno raw)].
  rewrite Hraw in Hraw'. injection Hraw' as <-. fold c in Hask.
  destruct Hask as (Hctx & _ & Hf & Hv & [[Hbusy _]|(_ & _ & i & _ & Hrep)]); [by destruct (Hfree (Hbusy i0 Hlt))|].
  destruct (replied_posted io io' held i _ (Some c) (Some c) VPN_MSG_REKEY_REQ _ _ Hi' ltac:(by apply same_key_accepts_type) Hrep Hroom) as (p & Hp & Hc).
  exists w', io', p. split_and!; auto.
Qed.

(** The server moves, and acknowledges under the old key. *)
Lemma rekey_answered w sw m io i held p src e l s raw c :
  sv_ok sw m -> env_ok e -> arrives p src io i held -> queue_room io -> tunnel w sw l s ->
  length raw = REKEY_KEY_SIZE -> k_id (active_key (ss_sec_ctx s)) + 1 < 2 ^ 32 ->
  active_key c = active_key (active_ctx w) -> k_id (next_key c) = k_id (active_key (ss_sec_ctx s)) + 1 ->
  (forall sec, accepts (Some c) sec VPN_MSG_REKEY_REQ ->
     carries p sec VPN_MSG_REKEY_REQ (f_sid (cl_fsm w)) (le_bytes 4 (htonl (k_id (next_key c))) ++ raw)) ->
  exists sw' io' q s', server_on_udp hmac_sha256 rc_auth sw io i (pk_len p) e = Some (sw', io', IO_TASK_DONE) /\
    (exists m', sv_ok sw' m') /\ io_inv io' held /\ ss_heap (sv_sessions sw') !! l = Some s' /\
    s' = set_sec_ctx (rotated raw (k_id (next_key c)) (e_time e) (add_processed (pk_len p) (ss_sec_ctx s))) s /\
    posted io' src q /\
    forall c', active_key c' = active_key c ->
      carries q (Some c') VPN_MSG_REKEY_ACK (ss_sid s) (le_bytes 4 (htonl (k_id (next_key c)))).
Proof.
  intros Hw He (Hi & t & Ht & <- & Ha) Hroom ([Hst Hsid Hvip Hr Hid] & Hne & Hsel & Hl) Lraw Hov Eact Enext Hd.
  destruct (heap_ok sw m l Hw) as (x & Hx & _ & [Hsec _] & _); [eauto|]. rewrite Hl in Hx. apply (inj Some) in Hx. subst x.
  destruct (server_on_udp_rekey_inv hmac_sha256 rc_auth sw m io i held (pk_len p) e (t_buf t) (pk_buf p) l s t (k_id (next_key c)) raw)
    as (sw' & io' & E & Hw' & Hl' & Hrep & Hi'); [done|done|done|done|done|done|done|done|done| |done| |lia|].
  { rewrite <- Hsid. apply Hd, same_key_accepts_type; [done|congruence..]. }
  { rewrite Enext. destruct Hsec as ((_ & _ & [? _] & _) & _). unfold word_ok. lia. }
  destruct (replied_posted io io' held i _ (Some (stage_next raw (k_id (next_key c)) (e_time e) (add_processed (pk_len p) (ss_sec_ctx s)))) (Some c) VPN_MSG_REKEY_ACK _ _ Hi' ltac:(apply same_key_accepts_type; cbn; congruence) Hrep Hroom) as (q & Hq & Hc).
  eexists sw', io', q, _. split; [exact E|]. do 2 (split; [done|]). split; [exact Hl'|]. do 2 (split; [done|]).
  intros c' Hc'. apply Hc, same_key_accepts_type; cbn; congruence.
Qed.

(** The acknowledgement. *)
Lemma client_rekeyed w io i held p src e sid payload :
  cl_ok w -> arrives p src io i held -> word_ok 32 sid ->
  carries p (Some (active_ctx w)) VPN_MSG_REKEY_ACK sid payload ->
  exists io', client_on_udp w io i (pk_len p) e =
    Some (rekeyed (ce_time e) w, io', IO_TASK_DONE) /\ io_inv io' (i :: held).
Proof.
  intros Hw (Hi & t & Ht & _ & Ha) Hsid Hd.
  destruct (client_on_udp_delivered w io i held (pk_len p) e (t_buf t) (pk_buf p) VPN_MSG_REKEY_ACK sid payload t)
    as (io1 & rb2 & noise & _ & _ & _ & _ & (Hi1 & _) & ->); [done..|]. by exists io1.
Qed.

(** C26 Rekeying ends in agreement.  When the timer of a connected client finds
    its key used up, it sends a request with a fresh key, still sealing and
    opening data under the old one; the server makes the fresh key the active
    one, keeps the old one for what is under way (so it goes on opening what
    the client seals), and acknowledges under the old key; with the
    acknowledgement the client moves too.  Both ends then have the fresh key
    under the next number, with the old key as the previous one, and the
    tunnel is the same. *)
Theorem rekey_agreement w io held e raw s0 :
  cl_ok w -> cl_env_ok e -> can_send io held -> linked w s0 ->
  rekey_init_due (active_ctx w) (ce_time e) = true -> vfast_crypto_fill_random (ce_getrandom e) REKEY_KEY_SIZE = Some (0, raw) ->
  k_id (active_key (active_ctx w)) + 1 < 2 ^ 32 ->
  exists w1 io1 p1, vfast_rekey_timer_handler w io e = Some (w1, io1) /\ io_inv io1 held /\ posted io1 (f_dst (cl_fsm w)) p1 /\
    linked w1 s0 /\ both_ways (active_ctx w1) (ss_sec_ctx s0) /\
  forall sw m sio i held' src se l s, sv_ok sw m -> env_ok se -> arrives p1 src sio i held' -> queue_room sio -> tunnel w sw l s ->
  exists sw1 sio1 p2 s1, server_on_udp hmac_sha256 rc_auth sw sio i (pk_len p1) se = Some (sw1, sio1, IO_TASK_DONE) /\
    (exists m1, sv_ok sw1 m1) /\ ss_heap (sv_sessions sw1) !! l = Some s1 /\ ss_vip s1 = ss_vip s /\ ss_sid s1 = ss_sid s /\
    posted sio1 src p2 /\ (k_id (active_key (active_ctx w)) <> 0 -> accepts (Some (active_ctx w1)) (Some (ss_sec_ctx s1)) VPN_MSG_DATA) /\
  forall io2 j held2 peer e2, arrives p2 peer io2 j held2 ->
  exists w2 io2', client_on_udp w1 io2 j (pk_len p2) e2 = Some (w2, io2', IO_TASK_DONE) /\
    linked w2 s1 /\ both_ways (active_ctx w2) (ss_sec_ctx s1) /\
    k_raw (active_key (active_ctx w2)) = raw /\ k_id (active_key (active_ctx w2)) = k_id (active_key (active_ctx w)) + 1 /\
    k_raw (previous_key (active_ctx w2)) = k_raw (active_key (active_ctx w)) /\
    k_raw (previous_key (ss_sec_ctx s1)) = k_raw (active_key (active_ctx w)).
Proof.
  intros Hw He Hsend [Hst Hsid Hvip Hr Hid] Hdue Hraw Hov.
  destruct (client_rekeys w io held e raw Hw He Hsend Hst Hdue Hraw) as (w1 & io1 & p1 & E1 & Hw1 & Hi1 & Hctx & Hf & Hv & Hp1 & Hc1).
  set (c := prepared _ _ _) in *. exists w1, io1, p1. do 3 (split; [done|]).
  assert (0 <= k_id (active_key (active_ctx w))) as Hpos by apply (co_ctx w (active_ptr w) Hw).
  assert (k_id (next_key c) = k_id (active_key (active_ctx w)) + 1) as Enext by (cbn; apply wrap_small; lia).
  split; [split; rewrite ?Hctx, ?Hf, ?Hv; done|]. split; [rewrite Hctx; by apply same_key_accepts|].
  intros sw m sio i held' src se l s Hsw Hse Ha Hroom Htun.
  destruct Htun as ([Hst' Hsid' Hvip' Hr' Hid'] & Hne & Hsel & Hl).
  assert (length raw = REKEY_KEY_SIZE) as Lraw.
  { by apply fill_random_spec in Hraw as (_ & _ & [[_ ?]|?]); [|done|apply He]. }
  destruct (rekey_answered w sw m sio i held' p1 src se l s raw c) as
    (sw1 & sio1 & p2 & s1 & E2 & Hsw1 & _ & Hl1 & Es1 & Hp2 & Hc2); [done|done|done|done|by repeat split|done|lia|done|lia|done|].
  assert (k_raw (active_key (ss_sec_ctx s1)) = raw /\ k_id (active_key (ss_sec_ctx s1)) = k_id (next_key c) /\
    k_raw (previous_key (ss_sec_ctx s1)) = k_raw (active_key (ss_sec_ctx s)) /\
    k_id (previous_key (ss_sec_ctx s1)) = k_id (active_key (ss_sec_ctx s)) /\ ss_vip s1 = ss_vip s /\ ss_sid s1 = ss_sid s)
    as (Er1 & Ei1 & Epr1 & Epi1 & Ev1 & Ess1) by (by rewrite Es1).
  exists sw1, sio1, p2, s1. do 6 (split; [done|]). split.
  { intros Hnz. rewrite Hctx. apply grace_accepts; change (active_key c) with (active_key (active_ctx w)); [lia|lia|congruence..]. }
  intros io2 j held2 peer e2 Ha2.
  destruct (client_rekeyed w1 io2 j held2 p2 peer e2 (ss_sid s) (le_bytes 4 (htonl (k_id (next_key c))))) as (io2' & E3 & _);
    [done|done| |rewrite Hctx; by apply Hc2|].
  { rewrite <- Hsid'. apply (co_fsm _ Hw). }
  eexists _, io2'. split; [exact E3|]. unfold rekeyed. set (w1' := with_fsm _ w1).
  destruct (vfast_handle_new_key_spec w1') as (_ & Ea & _ & Ef & Evv & _). change (active_ctx w1') with (active_ctx w1) in Ea. rewrite Hctx in Ea.
  assert (k_raw (active_key (active_ctx (vfast_handle_new_key w1'))) = raw /\
    k_id (active_key (active_ctx (vfast_handle_new_key w1'))) = k_id (next_key c) /\
    k_raw (previous_key (active_ctx (vfast_handle_new_key w1'))) = k_raw (active_key (active_ctx w))) as (Eb1 & Eb2 & Eb3) by (by rewrite Ea).
  split.
  { split; [rewrite Ef; cbn; by rewrite Hf|rewrite Ef; cbn; by rewrite Hf, Ess1|rewrite Evv; cbn; by rewrite Hv, Ev1|congruence..]. }
  split; [apply same_key_accepts; congruence|]. split_and!; congruence.
Qed.
End handshake.

(** * An acknowledgement nobody sent *)

Section forged.
Context {R : Type} `{HR : IoUring R, HRL : !IoUringLaws R}.
Implicit Types (io : vf_io_t R).

(** C27 An acknowledgement is believed whoever sent it.  Any datagram of at
    least the header's size whose type byte reads REKEY_ACK, whether or not
    its tag checks, makes the client commit the next key, in every state of
    its machine; when no request is pending (the next key is the zeroed one),
    the client seals from then on with the all-zero key, which anyone opens. *)
Theorem rekey_ack_forged w io i held len e t :
  cl_ok w -> io_inv io (i :: held) -> task_pool io !! i = Some t -> VPN_TNL_HLEN <= len <= BUF_SIZE ->
  udp_type (t_buf t) len = Some VPN_MSG_REKEY_ACK ->
  let w' := rekeyed (ce_time e) w in
  exists io', client_on_udp w io i len e = Some (w', io', IO_TASK_DONE) /\ io_inv io' (i :: held) /\
    active_key (active_ctx w') = next_key (active_ctx w) /\
    (next_key (active_ctx w) = zero_key ->
       vf_rekey_get_key (active_ctx w') = replicate 32 0 /\ accepts (Some (active_ctx w')) (Some zero_sec_ctx) VPN_MSG_DATA).
Proof.
  intros Hw Hi Ht Hlen Hty w'. unfold client_on_udp. rewrite Ht. cbn [mbind option_bind].
  destruct (Z.ltb_spec len VPN_TNL_HLEN); [lia|].
  assert (task_buf i io = Some (t_buf t)) as Eb by (unfold task_buf; by rewrite Ht). rewrite Eb. cbn [mbind option_bind].
  destruct (unpack_stage io i held len (t_buf t) (Some (active_ctx w)) Hi Eb)
    as (b1 & sn & r & b2 & io1 & ty & E1 & Esn & Ety & Eu & Eset & Eb2 & Ety2 & _ & _ & _ & Hi1 & _); [lia|].
  rewrite Hty in Ety. apply (inj Some) in Ety. subst ty.
  assert (get_le H_MSG_TYPE 1 b1 = Some VPN_MSG_REKEY_ACK) as Et1 by (unfold udp_type in Hty; by rewrite E1 in Hty).
  rewrite E1. cbn [mbind option_bind]. rewrite Esn. cbn [mbind option_bind]. rewrite Et1. cbn [mbind option_bind].
  change (VPN_MSG_REKEY_ACK =? VPN_MSG_HELLO) with false. cbn iota.
  rewrite Eu. cbn [mbind option_bind]. rewrite Eset. cbn [mbind option_bind]. rewrite Ety2. cbn [mbind option_bind].
  exists io1. split; [done|]. split; [done|].
  destruct (vfast_handle_new_key_spec (with_fsm (set_rx (ce_time e) (cl_fsm w)) w)) as (_ & Ea & _). fold (rekeyed (ce_time e) w) w' in Ea.
  change (active_ctx (with_fsm _ w)) with (active_ctx w) in Ea. rewrite Ea. split; [done|]. intros Hz. split.
  - unfold vf_rekey_get_key. cbn. by rewrite Hz.
  - apply same_key_accepts_type; cbn; [done|by rewrite Hz..].
Qed.
End forged.

(** * Instances *)

Lemma demo_queue_room (io : vf_io_t list_ring) : ring io = ring (demo_io 4) -> queue_room io.
Proof. intros E i. rewrite E. vm_compute. eauto. Qed.

Lemma demo_can_send : can_send (demo_io 4) [].
Proof.
  split; [apply demo_io_inv; lia|]. split; [split; by vm_compute|]. split; [|by apply demo_queue_room].
  exists 0%nat. split; [vm_compute; lia|]. intros (t & Ht & Hu). vm_compute in Ht. apply (inj Some) in Ht. by subst t.
Qed.

Lemma demo_arrives (io : vf_io_t list_ring) dst p : posted io dst p -> arrives p demo_addr (demo_rx (pk_buf p)) 0 [].
Proof.
  intros (Hl & Hb & Hn & _). change (Z.to_nat BUF_SIZE) with 2048%nat in Hl. unfold BUF_SIZE in Hn.
  split; [by apply demo_rx_inv|]. eexists. split; [apply demo_rx_task|]. split; [done|]. apply agree_refl. cbn [t_buf set_addr set_buf]. lia.
Qed.

Lemma demo_rx_room b : queue_room (demo_rx b).
Proof. by apply demo_queue_room. Qed.

Definition idle_client : client := with_fsm demo_fsm demo_client.

Lemma idle_client_ok : cl_ok idle_client.
Proof. apply cl_ok_fsm; [apply demo_client_ok|by_compute]. Qed.

Lemma demo_admits : admits demo_rc server0 ∅ (demo_env 10000 100) 10000 demo_vip (take 63 (c_prefix (user_name (cl_fsm idle_client))))
  (take 63 (c_prefix (pass_word (cl_fsm idle_client)))).
Proof.
  split; [cbn; lia|cbn; lia|by vm_compute|by vm_compute|by vm_compute|]. intros v s Hs. by rewrite lookup_empty in Hs.
Qed.

(** From nothing to a tunnel on both ends. *)
Lemma handshake_agreement_witness :
  exists w s (sw : server (list_table Z) (list_table (list Z))), sv_ok sw (<[demo_vip := s]> ∅) /\ ss_remote_addr s = demo_addr /\ linked w s /\ both_ways (active_ctx w) (ss_sec_ctx s) /\
    address_set (cl_os idle_client) (cl_os w) (cl_tun_name idle_client) demo_vip.
Proof.
  destruct (handshake_agreement demo_hmac demo_rc demo_hmac_ok idle_client (demo_io 4) [] (demo_tick 100) 6 idle_client_ok I demo_can_send
    eq_refl eq_refl eq_refl ltac:(by_compute) (fun k => Z.le_refl 0)) as (w1 & io1 & p1 & _ & _ & Hp1 & H1).
  destruct (H1 server0 ∅ (demo_rx (pk_buf p1)) 0%nat [] demo_addr (demo_env 10000 100) server0_ok (demo_env_ok _ _) ltac:(by_compute)
    (demo_arrives _ _ _ Hp1) (demo_rx_room _)) as (sw2 & sio2 & p2 & _ & _ & Hp2 & H2).
  destruct (H2 (demo_rx (pk_buf p2)) 0%nat [] demo_addr (demo_cl_env 100) (demo_arrives _ _ _ Hp2)) as (w2 & io2' & _ & H3).
  destruct (H3 (demo_io 4) [] (demo_tick 101) I demo_can_send) as (w3 & io3' & p3 & _ & Hp3 & H4).
  destruct (H4 server0 ∅ (demo_rx (pk_buf p3)) 0%nat [] (demo_env 10000 100) demo_vip server0_ok (demo_env_ok _ _) eq_refl
    (demo_arrives _ _ _ Hp3) (demo_rx_room _) demo_admits) as (sw5 & sio5 & p4 & s & _ & Hsw5 & _ & Hsr & Hp4 & H5).
  destruct (H5 (demo_rx (pk_buf p4)) 0%nat [] demo_addr (demo_cl_env 101) (demo_arrives _ _ _ Hp4)) as (w5 & io5' & _ & Hl & Hb & Ha).
  exists w5, s, sw5. split; [exact Hsw5|]. split; [exact Hsr|]. split; [exact Hl|]. split; [exact Hb|exact Ha].
Defined.

(** The client of [demo_session]. *)
Definition linked_client : client :=
  with_vip demo_vip (set_ctx false demo_sec1 (with_fsm (set_session demo_vsid (Some false) (set_state ST_CONNECTED demo_fsm)) demo_client)).

Lemma linked_client_ok : cl_ok linked_client.
Proof.
  apply cl_ok_vip. apply (cl_ok_active (with_fsm _ demo_client)); [|by_compute]. apply cl_ok_fsm; [apply demo_client_ok|by_compute].
Qed.

(** A tunnel whose key is five minutes old gets a new one. *)
Lemma rekey_agreement_witness :
  exists w s (sw : server (list_table Z) (list_table (list Z))), ss_heap (sv_sessions sw) !! 1%positive = Some s /\ linked w s /\
    both_ways (active_ctx w) (ss_sec_ctx s) /\ k_raw (active_key (active_ctx w)) = replicate 32 9 /\ k_id (active_key (active_ctx w)) = 2.
Proof.
  destruct (rekey_agreement demo_hmac demo_rc linked_client (demo_io 4) [] (demo_cl_env 400) (replicate 32 9) demo_session
    linked_client_ok (demo_cl_env_ok _) demo_can_send ltac:(by split) eq_refl eq_refl eq_refl) as (w1 & io1 & p1 & _ & _ & Hp1 & _ & _ & H1).
  destruct (H1 server1 demo_map (demo_rx (pk_buf p1)) 0%nat [] demo_addr (demo_env 7 400) 1%positive demo_session server1_ok (demo_env_ok _ _)
    (demo_arrives _ _ _ Hp1) (demo_rx_room _)) as (sw1 & sio1 & p2 & s1 & _ & _ & Hs1 & _ & _ & Hp2 & _ & H2).
  { split; [by split|]. split; [by_compute|apply server1_session]. }
  destruct (H2 (demo_rx (pk_buf p2)) 0%nat [] demo_addr (demo_cl_env 401) (demo_arrives _ _ _ Hp2)) as (w2 & io2 & _ & Hl & Hb & Hr & Hi & _).
  exists w2, s1, sw1. split; [exact Hs1|]. split; [exact Hl|]. split; [exact Hb|]. split; [exact Hr|exact Hi].
Defined.

(** A masked header of that type, and nothing else. *)
Definition forged_ack : list Z :=
  default [] (vf_apply_header_obfs (replicate 3 0 ++ [VPN_MSG_REKEY_ACK] ++ replicate 2044 0) 20).

Lemma rekey_ack_forged_witness :
  exists w' io', client_on_udp linked_client (demo_rx forged_ack) 0 20 (demo_cl_env 130) = Some (w', io', IO_TASK_DONE) /\
    vf_rekey_get_key (active_ctx w') = replicate 32 0 /\ accepts (Some (active_ctx w')) (Some zero_sec_ctx) VPN_MSG_DATA.
Proof.
  assert (length forged_ack = 2048%nat /\ bytes_ok forged_ack /\ udp_type forged_ack 20 = Some VPN_MSG_REKEY_ACK) as (Hl & Hb & Hty) by by_compute.
  destruct (rekey_ack_forged linked_client (demo_rx forged_ack) 0 [] 20 (demo_cl_env 130) _ linked_client_ok (demo_rx_inv _ Hl Hb) (demo_rx_task _))
    as (io' & E & _ & _ & Hz); [by_compute|exact Hty|].
  destruct (Hz eq_refl) as [Hk Ha]. eexists _, io'. split; [exact E|]. split; [exact Hk|exact Ha].
Defined.
