(* ===== verification/Text.v ===== *)
(** Characters and numbers as the C library reads and prints them, in the C
    locale.  A text is a list of bytes without its NUL. *)
From S2P Require Import Prelude Libc.

(** ** [ctype.h] and [strings.h] *)

Definition is_space (c : Z) : bool := (9 <=? c) && (c <=? 13) || (c =? 32).
Definition is_digit (c : Z) : bool := (48 <=? c) && (c <=? 57).
Definition to_lower (c : Z) : Z := if (65 <=? c) && (c <=? 90) then c + 32 else c.

(** [strcasecmp(a, b) == 0] *)
Definition strcaseeq (a b : list Z) : bool := bool_decide (to_lower <$> a = to_lower <$> b).

Fixpoint skip_space (s : list Z) : list Z :=
  match s with
  | c :: s' => if is_space c then skip_space s' else s
  | [] => []
  end.

(** What is in front of the first byte that satisfies [f], and the rest. *)
Fixpoint span_until (f : Z -> bool) (s : list Z) : list Z * list Z :=
  match s with
  | [] => ([], [])
  | c :: s' => if f c then ([], s) else let '(a, b) := span_until f s' in (c :: a, b)
  end.

(** ** Numbers *)

Definition digit_val (base c : Z) : option Z :=
  let v := if is_digit c then c - 48
           else let l := to_lower c in if (97 <=? l) && (l <=? 122) then l - 87 else base in
  if v <? base then Some v else None.

(** The number at the front of a text, its rest, and whether there was a
    digit. *)
Fixpoint digits (base acc : Z) (s : list Z) : Z * list Z :=
  match s with
  | c :: s' => match digit_val base c with Some d => digits base (base * acc + d) s' | None => (acc, s) end
  | [] => (acc, [])
  end.

Definition is_sign (c : Z) : bool := (c =? 45) || (c =? 43).

(** The sign, and the text behind it. *)
Definition read_sign (s : list Z) : Z * list Z :=
  match s with
  | c :: s' => if c =? 45 then (-1, s') else if c =? 43 then (1, s') else (1, s)
  | [] => (1, [])
  end.

(** [strtol(s, NULL, 10)]: the value is clamped to a [long]. *)
Definition strtol10 (s : list Z) : Z :=
  let '(sg, s) := read_sign (skip_space s) in
  Z.max (- 2 ^ 63) (Z.min (2 ^ 63 - 1) (sg * (digits 10 0 s).1)).

(** [atoi], glibc's cast of [strtol] to [int]. *)
Definition atoi (s : list Z) : Z := to_int32 (strtol10 s).

(** [strtoul(s, &end, 16)]: the value and the text from [end]; [end] is the
    start when there is no digit. *)
Definition strtoul16 (s : list Z) : Z * list Z :=
  let '(sg, t) := read_sign (skip_space s) in
  let t := match t with
           | 48 :: x :: c :: t' => if (to_lower x =? 120) && bool_decide (is_Some (digit_val 16 c)) then c :: t' else t
           | _ => t
           end in
  let '(v, rest) := digits 16 0 t in
  if (length rest =? length t)%nat then (0, s)
  else (if v <? 2 ^ 64 then u64 (sg * v) else 2 ^ 64 - 1, rest).

(** Decimal printing of up to twenty digits. *)
Fixpoint dec_loop (fuel : nat) (n : Z) (acc : list Z) : list Z :=
  match fuel with
  | O => acc
  | S fuel => let acc := 48 + n mod 10 :: acc in if n <? 10 then acc else dec_loop fuel (n / 10) acc
  end.
Definition dec (n : Z) : list Z := if n <? 0 then 45 :: dec_loop 20 (- n) [] else dec_loop 20 n [].

Definition hex_digit (d : Z) : Z := if d <? 10 then 48 + d else 87 + d.
(** [%08x] *)
Definition hex8 (n : Z) : list Z := (fun k => hex_digit (Z.land (Z.shiftr n (4 * k)) 15)) <$> [7; 6; 5; 4; 3; 2; 1; 0].

(** ** Lemmas *)

Lemma skip_space_front c s : is_space c = false -> skip_space (c :: s) = c :: s.
Proof. intros H. cbn. by rewrite H. Qed.

Lemma skip_space_length s : (length (skip_space s) <= length s)%nat.
Proof. induction s as [|c s IH]; [done|]. cbn. destruct (is_space c); cbn; lia. Qed.

Lemma span_until_app f a b :
  Forall (fun c => f c = false) a -> match b with [] => True | c :: _ => f c = true end ->
  span_until f (a ++ b) = (a, b).
Proof.
  intros Ha Hb. induction Ha as [|c a Hc _ IH]; cbn.
  - destruct b as [|c b]; [done|]. cbn. by rewrite Hb.
  - by rewrite Hc, IH.
Qed.

Lemma span_until_spec f s :
  let '(a, b) := span_until f s in s = a ++ b /\ Forall (fun c => f c = false) a /\ match b with [] => True | c :: _ => f c = true end.
Proof.
  induction s as [|c s IH]; [done|]. cbn. destruct (f c) eqn:E; [done|].
  destruct (span_until f s) as [a b]. destruct IH as (-> & Ha & Hb). split; [done|]. split; [by constructor|done].
Qed.

Definition decimal (s : list Z) : Prop := s <> [] /\ Forall (fun c => 48 <= c <= 57) s.

Lemma digit_val_10 c : 48 <= c <= 57 -> digit_val 10 c = Some (c - 48).
Proof.
  intros Hc. unfold digit_val, is_digit. destruct (Z.leb_spec 48 c); [|lia]. destruct (Z.leb_spec c 57); [|lia]. cbn.
  destruct (Z.ltb_spec (c - 48) 10); [done|lia].
Qed.

Lemma digits_app ds rest v :
  Forall (fun c => 48 <= c <= 57) ds -> match rest with [] => True | c :: _ => digit_val 10 c = None end ->
  digits 10 v (ds ++ rest) = (foldl (fun v c => 10 * v + (c - 48)) v ds, rest).
Proof.
  intros Hds Hr. revert v. induction Hds as [|c ds Hc _ IH]; intros v; cbn.
  - destruct rest as [|c rest]; [done|]. cbn. by rewrite Hr.
  - rewrite digit_val_10 by done. apply IH.
Qed.

(** What is printed reads back. *)
Lemma dec_loop_spec fuel n acc :
  0 <= n < 10 ^ Z.of_nat fuel -> (0 < fuel)%nat ->
  exists ds, dec_loop fuel n acc = ds ++ acc /\ decimal ds /\
    forall v, foldl (fun v c => 10 * v + (c - 48)) v ds = v * 10 ^ Z.of_nat (length ds) + n.
Proof.
  revert n acc. induction fuel as [|fuel IH]; intros n acc Hn Hf; [lia|]. cbn.
  pose proof (Z.mod_pos_bound n 10). destruct (Z.ltb_spec n 10).
  - exists [48 + n mod 10]. split; [done|]. split; [split; [done|]; constructor; [lia|constructor]|].
    intros v. cbn. rewrite Z.mod_small by lia. lia.
  - destruct fuel as [|fuel]; [change (10 ^ Z.of_nat 1) with 10 in Hn; lia|].
    rewrite (Nat2Z.inj_succ (S fuel)), Z.pow_succ_r in Hn by lia.
    destruct (IH (n / 10) (48 + n mod 10 :: acc)) as (ds & E & [Hne Hd] & Hv); [split; [apply Z.div_pos; lia|apply Z.div_lt_upper_bound; lia]|lia|].
    exists (ds ++ [48 + n mod 10]). rewrite E, <- app_assoc. split; [done|]. split.
    { split; [by destruct ds|]. apply list.Forall_app. split; [done|]. constructor; [lia|constructor]. }
    intros v. rewrite foldl_app, Hv, length_app. cbn [foldl length]. rewrite Nat2Z.inj_add. cbn [Z.of_nat].
    rewrite Z.pow_add_r by lia. change (10 ^ Z.pos (Pos.of_succ_nat 0)) with 10. pose proof (Z.div_mod n 10). lia.
Qed.

Lemma dec_spec n :
  0 <= n < 2 ^ 64 -> exists ds, dec n = ds /\ decimal ds /\ foldl (fun v c => 10 * v + (c - 48)) 0 ds = n.
Proof.
  intros Hn. unfold dec. destruct (Z.ltb_spec n 0); [lia|].
  destruct (dec_loop_spec 20 n []) as (ds & E & Hd & Hv); [|lia|].
  { split; [lia|]. eapply Z.lt_trans; [apply Hn|by vm_compute]. }
  exists ds. rewrite E, app_nil_r. split; [done|]. split; [done|]. by rewrite Hv.
Qed.

Lemma atoi_dec n rest :
  0 <= n < 2 ^ 31 -> match rest with [] => True | c :: _ => is_digit c = false end -> atoi (dec n ++ rest) = n.
Proof.
  intros Hn Hr. destruct (dec_spec n) as (ds & -> & [Hne Hd] & Hv); [lia|].
  unfold atoi, strtol10. destruct ds as [|c ds]; [done|]. assert (48 <= c <= 57) as Hc by apply (Forall_inv Hd). cbn [app].
  rewrite skip_space_front by (unfold is_space; lia). unfold read_sign.
  destruct (Z.eqb_spec c 45); [lia|]. destruct (Z.eqb_spec c 43); [lia|].
  change (c :: ds ++ rest) with ((c :: ds) ++ rest). rewrite digits_app; [|done|].
  2: { destruct rest as [|x rest]; [done|]. unfold digit_val. rewrite Hr. case_match; [|done].
    unfold is_digit in Hr. revert H. case_match; [|intros ?; exfalso; lia].
    unfold to_lower in *. repeat case_match; lia. }
  cbn [fst]. rewrite Hv. unfold to_int32. rewrite Z.max_r, Z.min_r, Z.mul_1_l by lia.
  rewrite Z.mod_small; lia.
Qed.
