(* ===== verification/Option.v ===== *)
(** The configuration (src/src/option.c, option.h): defaults, and the file. *)
From S2P Require Import Prelude Libc Text Sys.

Definition CONFIG_READ_LEN : nat := 1024.

Definition VPN_OPT_TUN_NAME : list Z := str "tun0".
Definition VPN_OPT_MTU : Z := 1400.
Definition VPN_OPT_RING_DEPTH : Z := 4096.
Definition VPN_OPT_POOL_SIZE : Z := 2048.
Definition VPN_OPT_UDP_BACKLOG : Z := 20.
Definition VPN_OPT_DEFAULT_PID_FILE : list Z := str "/var/run/vfast.pid".
Definition VPN_OPT_DEFAULT_FILE : list Z := str "./config.conf".
Definition VPN_OPT_DEFAULT_LOG_FILE : list Z := str "./vfast.log".
Definition VPN_OPT_DEFAULT_KEY_FILE : list Z := str "./vfast.key".
Definition VPN_OPT_REMOTE_HOST : list Z := str "127.0.0.1".
Definition VPN_OPT_REMOTE_PORT : Z := 9999.
Definition VPN_OPT_TUN_IP : list Z := str "10.0.0.1".
Definition VPN_OPT_POOL_NET : list Z := str "10.0.0.0".
Definition VPN_OPT_POOL_CAP : Z := 65536.
Definition VPN_OPT_LOCAL_PORT : Z := 9999.

(** [vpn_option_t]: character arrays as their bytes, allocated strings as
    their text, NULL as [None]. *)
Record vpn_option_t := Opt {
  opt_tun_name : list Z;
  opt_mtu : Z;
  opt_io_ring_depth : Z;
  opt_io_pool_size : Z;
  opt_disable_ipv6 : bool;
  opt_udp_backlog : Z;
  opt_daemonize : bool;
  opt_log_max_size : Z;
  opt_cfile : option (list Z);
  opt_logfile : option (list Z);
  opt_pidfile : option (list Z);
  opt_keyfile : option (list Z);
  opt_master_key : list Z;
  opt_remote_host : list Z;
  opt_remote_port : Z;
  opt_username : option (list Z);
  opt_password : list Z;
  opt_tun_ip : list Z;
  opt_pool_network : list Z;
  opt_pool_size : Z;
  opt_local_port : Z
}.

(** Assignments to the fields. *)
Definition set_tun_name (x : list Z) '(Opt _ b c d e f g h i j k l m n p q r s t u v) : vpn_option_t := Opt x b c d e f g h i j k l m n p q r s t u v.
Definition set_mtu (x : Z) '(Opt a _ c d e f g h i j k l m n p q r s t u v) : vpn_option_t := Opt a x c d e f g h i j k l m n p q r s t u v.
Definition set_io_ring_depth (x : Z) '(Opt a b _ d e f g h i j k l m n p q r s t u v) : vpn_option_t := Opt a b x d e f g h i j k l m n p q r s t u v.
Definition set_io_pool_size (x : Z) '(Opt a b c _ e f g h i j k l m n p q r s t u v) : vpn_option_t := Opt a b c x e f g h i j k l m n p q r s t u v.
Definition set_disable_ipv6 (x : bool) '(Opt a b c d _ f g h i j k l m n p q r s t u v) : vpn_option_t := Opt a b c d x f g h i j k l m n p q r s t u v.
Definition set_udp_backlog (x : Z) '(Opt a b c d e _ g h i j k l m n p q r s t u v) : vpn_option_t := Opt a b c d e x g h i j k l m n p q r s t u v.
Definition set_daemonize (x : bool) '(Opt a b c d e f _ h i j k l m n p q r s t u v) : vpn_option_t := Opt a b c d e f x h i j k l m n p q r s t u v.
Definition set_log_max_size (x : Z) '(Opt a b c d e f g _ i j k l m n p q r s t u v) : vpn_option_t := Opt a b c d e f g x i j k l m n p q r s t u v.
Definition set_logfile (x : option (list Z)) '(Opt a b c d e f g h i _ k l m n p q r s t u v) : vpn_option_t := Opt a b c d e f g h i x k l m n p q r s t u v.
Definition set_cfile (x : option (list Z)) '(Opt a b c d e f g h _ j k l m n p q r s t u v) : vpn_option_t := Opt a b c d e f g h x j k l m n p q r s t u v.
Definition set_pidfile (x : option (list Z)) '(Opt a b c d e f g h i j _ l m n p q r s t u v) : vpn_option_t := Opt a b c d e f g h i j x l m n p q r s t u v.
Definition set_keyfile (x : option (list Z)) '(Opt a b c d e f g h i j k _ m n p q r s t u v) : vpn_option_t := Opt a b c d e f g h i j k x m n p q r s t u v.
Definition set_remote_host (x : list Z) '(Opt a b c d e f g h i j k l m _ p q r s t u v) : vpn_option_t := Opt a b c d e f g h i j k l m x p q r s t u v.
Definition set_remote_port (x : Z) '(Opt a b c d e f g h i j k l m n _ q r s t u v) : vpn_option_t := Opt a b c d e f g h i j k l m n x q r s t u v.
Definition set_username (x : option (list Z)) '(Opt a b c d e f g h i j k l m n p _ r s t u v) : vpn_option_t := Opt a b c d e f g h i j k l m n p x r s t u v.
Definition set_password (x : list Z) '(Opt a b c d e f g h i j k l m n p q _ s t u v) : vpn_option_t := Opt a b c d e f g h i j k l m n p q x s t u v.
Definition set_tun_ip (x : list Z) '(Opt a b c d e f g h i j k l m n p q r _ t u v) : vpn_option_t := Opt a b c d e f g h i j k l m n p q r x t u v.
Definition set_pool_network (x : list Z) '(Opt a b c d e f g h i j k l m n p q r s _ u v) : vpn_option_t := Opt a b c d e f g h i j k l m n p q r s x u v.
Definition set_pool_size (x : Z) '(Opt a b c d e f g h i j k l m n p q r s t _ v) : vpn_option_t := Opt a b c d e f g h i j k l m n p q r s t x v.
Definition set_local_port (x : Z) '(Opt a b c d e f g h i j k l m n p q r s t u _) : vpn_option_t := Opt a b c d e f g h i j k l m n p q r s t u x.

(** ** Helpers *)

Definition yesnotoi (s : list Z) : Z := if strcaseeq s (str "yes") then 1 else if strcaseeq s (str "no") then 0 else -1.

(** Inside [s] no NUL occurs, so the terminator is found. *)
Definition is_valid_ipv4 (ip : list Z) : bool :=
  if bool_decide (ip = []) then false else match inet_pton (ip ++ [0]) with Some (Some _) => true | _ => false end.

(** [strncpy(dst, src, n)] into the array that held [old]. *)
Definition copy_into (n : nat) (src old : list Z) : option (list Z) :=
  bs ← strncpy (src ++ [0]) n; Some (bs ++ drop n old).
(** The same, with the last byte set to NUL. *)
Definition copy_term (size : nat) (src old : list Z) : option (list Z) :=
  bs ← copy_into (size - 1) src old; Some (take (size - 1) bs ++ [0]).

(** ** Operations *)

(** Over a structure whose bytes are those of [o]; the static one is zero. *)
Definition vf_option_init (opt : option vpn_option_t) : option (option vpn_option_t) :=
  match opt with
  | None => Some None
  | Some o =>
      tun_name ← copy_term IFNAMSIZ VPN_OPT_TUN_NAME (opt_tun_name o);
      remote_host ← copy_into 63 VPN_OPT_REMOTE_HOST (opt_remote_host o);
      tun_ip ← copy_into 31 VPN_OPT_TUN_IP (opt_tun_ip o);
      pool_network ← copy_into 31 VPN_OPT_POOL_NET (opt_pool_network o);
      Some (Some {| opt_tun_name := tun_name; opt_mtu := VPN_OPT_MTU; opt_io_ring_depth := VPN_OPT_RING_DEPTH;
        opt_io_pool_size := VPN_OPT_POOL_SIZE; opt_disable_ipv6 := true; opt_udp_backlog := VPN_OPT_UDP_BACKLOG;
        opt_daemonize := false; opt_log_max_size := opt_log_max_size o; opt_cfile := Some VPN_OPT_DEFAULT_FILE;
        opt_logfile := Some VPN_OPT_DEFAULT_LOG_FILE; opt_pidfile := Some VPN_OPT_DEFAULT_PID_FILE;
        opt_keyfile := Some VPN_OPT_DEFAULT_KEY_FILE; opt_master_key := opt_master_key o;
        opt_remote_host := remote_host; opt_remote_port := VPN_OPT_REMOTE_PORT; opt_username := None;
        opt_password := replicate 64 0; opt_tun_ip := tun_ip; opt_pool_network := pool_network;
        opt_pool_size := VPN_OPT_POOL_CAP; opt_local_port := VPN_OPT_LOCAL_PORT |})
  end.

(** [fgets(buf, n + 1, fp)] on the bytes that are left: what is stored before
    the NUL, and the rest. *)
Fixpoint fgets (n : nat) (s : list Z) : list Z * list Z :=
  match n, s with
  | S n', c :: s' => if c =? 10 then ([c], s') else let '(a, b) := fgets n' s' in (c :: a, b)
  | _, _ => ([], s)
  end.

(** The string in the buffer ends at the first NUL, which may come from the
    file. *)
Definition c_text (s : list Z) : list Z := (span_until (fun c => c =? 0) s).1.

(** The key and the value of a line; nothing when the line is skipped. *)
Definition conf_split (buf : list Z) : option (list Z * list Z) :=
  let p := skip_space (c_text buf) in
  match p with
  | [] => None
  | c :: _ =>
      if c =? 35 then None else
      let p := (span_until (fun c => (c =? 13) || (c =? 10)) p).1 in
      let '(first, rest) := span_until is_space p in
      match rest with
      | [] => None
      | _ :: rest => match skip_space rest with [] => None | second => Some (first, second) end
      end
  end.

(** The assignments.  [None]: a copy that is undefined; [Some None]: the
    [loaderr] label; [can_append] tells which files [fopen(f, "a")] opens. *)
Section conf.
Variable can_append : list Z -> bool.

Definition in_range (lo hi x : Z) : bool := (lo <=? x) && (x <=? hi).
(** Store [x], then fail unless it is acceptable. *)
Definition checked (ok : bool) (o : vpn_option_t) : option (option vpn_option_t) := Some (if ok then Some o else None).

Definition conf_set (first second : list Z) (o : vpn_option_t) : option (option vpn_option_t) :=
  let key k := strcaseeq first (str k) in
  let num := atoi second in
  if key "tunname" then x ← copy_term IFNAMSIZ second (opt_tun_name o); Some (Some (set_tun_name x o))
  else if key "tunip" then
    if negb (is_valid_ipv4 second) then Some None
    else x ← copy_term 32 second (opt_tun_ip o); Some (Some (set_tun_ip x o))
  else if key "mtu" then checked (in_range 576 9000 num) (set_mtu num o)
  else if key "disable-ipv6" then
    let val := yesnotoi second in checked (negb (val =? -1)) (set_disable_ipv6 (negb (val =? 0)) o)
  else if key "port" || key "local_port" then checked (in_range 1 65535 num) (set_local_port num o)
  else if key "remote-host" then
    if negb (is_valid_ipv4 second) then Some None
    else x ← copy_term 64 second (opt_remote_host o); Some (Some (set_remote_host x o))
  else if key "remote-port" then checked (in_range 1 65535 num) (set_remote_port num o)
  else if key "username" then Some (Some (set_username (Some second) o))
  else if key "password" then x ← copy_term 64 second (opt_password o); Some (Some (set_password x o))
  else if key "udp-backlog" then checked (1 <=? num) (set_udp_backlog num o)
  else if key "io-ring-depth" then
    checked ((1 <=? num) && (Z.land num (num - 1) =? 0)) (set_io_ring_depth num o)
  else if key "io-pool-size" then checked (in_range 1024 4096 num) (set_io_pool_size num o)
  else if key "pool-network" then x ← copy_into 31 second (opt_pool_network o); Some (Some (set_pool_network x o))
  else if key "pool-size" then checked (1 <=? num) (set_pool_size num o)
  else if key "daemonize" then
    let val := yesnotoi second in checked (negb (val =? -1)) (set_daemonize (negb (val =? 0)) o)
  else if key "log-max-size" then checked (in_range 5 4000 num) (set_log_max_size num o)
  else if key "logfile" then checked (bool_decide (second = []) || can_append second) (set_logfile (Some second) o)
  else if key "keyfile" then checked (bool_decide (second = []) || can_append second) (set_keyfile (Some second) o)
  else if key "pidfile" then Some (Some (set_pidfile (Some second) o))
  else Some (Some o).

(** The loop over the lines; [None] when the fuel runs out. *)
Fixpoint conf_loop (fuel : nat) (rest : list Z) (o : vpn_option_t) : option (option vpn_option_t) :=
  match fuel with
  | O => None
  | S fuel =>
      match rest with
      | [] => Some (Some o)
      | _ =>
          let '(buf, rest) := fgets CONFIG_READ_LEN rest in
          r ← match conf_split buf with
              | None => Some (Some o)
              | Some (first, second) => conf_set first second o
              end;
          match r with
          | None => Some None
          | Some o => conf_loop fuel rest o
          end
      end
  end.

(** The file's bytes, [None] when it cannot be opened.  [Some None]: the
    process exits with status 1. *)
Definition vf_option_conf (fuel : nat) (file : option (list Z)) (o : vpn_option_t) : option (option vpn_option_t) :=
  match file with
  | None => Some None
  | Some rest => conf_loop fuel rest o
  end.
End conf.

(** The strings it frees, in order. *)
Definition vf_option_clean (opt : option vpn_option_t) : list (list Z) :=
  match opt with
  | None => []
  | Some o => omap id [opt_logfile o; opt_pidfile o; opt_cfile o; opt_keyfile o; opt_username o]
  end.

(** * What a loaded configuration satisfies *)

(** A character array of [n] bytes whose last one is NUL. *)
Definition char_array (n : nat) (s : list Z) : Prop := exists t, s = t ++ [0] /\ S (length t) = n.

(** The text of an address, NUL included somewhere. *)
Definition address_text (s : list Z) : Prop := exists a, inet_pton s = Some (Some a).

Record opt_ok (o : vpn_option_t) : Prop := {
  oo_mtu : 576 <= opt_mtu o <= 9000;
  oo_depth : exists k, 0 <= k < 31 /\ opt_io_ring_depth o = 2 ^ k;
  oo_pool : 1024 <= opt_io_pool_size o <= 4096;
  oo_backlog : 1 <= opt_udp_backlog o < 2 ^ 31;
  oo_log : opt_log_max_size o = 0 \/ 5 <= opt_log_max_size o <= 4000;
  oo_ports : 1 <= opt_local_port o <= 65535 /\ 1 <= opt_remote_port o <= 65535;
  oo_cap : 1 <= opt_pool_size o < 2 ^ 31;
  oo_name : char_array IFNAMSIZ (opt_tun_name o);
  oo_host : char_array 64 (opt_remote_host o) /\ address_text (opt_remote_host o);
  oo_ip : char_array 32 (opt_tun_ip o) /\ address_text (opt_tun_ip o);
  oo_net : char_array 32 (opt_pool_network o);
  oo_password : char_array 64 (opt_password o);
  oo_key : length (opt_master_key o) = 32%nat
}.

Lemma to_int32_range x : - 2 ^ 31 <= to_int32 x < 2 ^ 31.
Proof. unfold to_int32. pose proof (Z.mod_pos_bound (x + 2 ^ 31) (2 ^ 32)). lia. Qed.

Lemma copy_into_total n src old :
  (n <= length old)%nat -> exists bs, copy_into n src old = Some (bs ++ drop n old) /\ strncpy (src ++ [0]) n = Some bs /\ length bs = n.
Proof.
  intros Hn. unfold copy_into. destruct (strncpy_is_Some (src ++ [0]) n) as [bs Hb].
  { left. apply strlen_suffix. by exists 0%nat. }
  exists bs. rewrite Hb. split; [done|]. split; [done|]. by apply strncpy_length in Hb.
Qed.

Lemma copy_term_total size src old :
  length old = size -> (0 < size)%nat ->
  exists bs, copy_term size src old = Some (bs ++ [0]) /\ strncpy (src ++ [0]) (size - 1) = Some bs /\ char_array size (bs ++ [0]).
Proof.
  intros Hl Hs. unfold copy_term. destruct (copy_into_total (size - 1) src old) as (bs & -> & Hb & Lb); [lia|].
  exists bs. cbn. rewrite take_app_length' by done. split; [done|]. split; [done|]. exists bs. split; [done|lia].
Qed.

Lemma char_array_length n s : char_array n s -> length s = n.
Proof. intros (t & -> & <-). rewrite length_app. cbn. lia. Qed.

(** An address that [inet_pton] accepts has at most fifteen characters. *)
Lemma pton_loop_length s octets cur r :
  pton_loop s octets cur = Some r -> (length octets <= 3)%nat -> match cur with Some x => 0 <= x | None => True end ->
  Z.of_nat (length s) <= 4 * (3 - Z.of_nat (length octets)) +
    match cur with Some x => if x <? 10 then 2 else if x <? 100 then 1 else 0 | None => 3 end.
Proof.
  revert octets cur. induction s as [|ch s IH]; intros octets cur E Hl Hc; cbn in E; [cbn [length]; repeat case_match; lia|].
  cbn [length]. rewrite Nat2Z.inj_succ. unfold char0, char_dot in E.
  destruct (Z.leb_spec 48 ch), (Z.leb_spec ch 57); cbn [andb] in E.
  1: { destruct cur as [x|].
    - destruct (Z.eqb_spec x 0); [done|]. destruct (Z.ltb_spec 255 (x * 10 + (ch - 48))); [done|].
      apply IH in E; [|done|lia]. revert E. repeat case_match; lia.
    - destruct (Z.ltb_spec 3 (Z.of_nat (length octets))); [done|]. apply IH in E; [|done|lia]. revert E. repeat case_match; lia. }
  all: destruct (ch =? 46); [|done]; destruct cur as [x|]; [|done];
    destruct (Z.leb_spec 3 (Z.of_nat (length octets))); [done|];
    apply IH in E; [|rewrite length_app; cbn; lia|done]; rewrite length_app in E; cbn [length] in E;
    revert E; repeat case_match; lia.
Qed.

(** So its copy is the same address. *)
Lemma address_copy second n bs :
  is_valid_ipv4 second = true -> (16 <= n)%nat -> strncpy (second ++ [0]) n = Some bs -> address_text (bs ++ [0]).
Proof.
  unfold is_valid_ipv4, address_text. case_bool_decide; [done|]. destruct (inet_pton (second ++ [0])) as [[a|]|] eqn:E; [|done..].
  intros _ Hn Hb. exists a. unfold inet_pton in *. destruct (strlen (second ++ [0])) as [k|] eqn:Ek; [|unfold cstr in E; by rewrite Ek in E].
  assert (exists t r, second ++ [0] = t ++ 0 :: r /\ Forall (fun c => c <> 0) t /\ length t = k) as (t & r & Et & Ht & Lt).
  { clear -Ek. revert k Ek. induction (second ++ [0]) as [|c l IH]; intros k Ek; [done|]. cbn in Ek. destruct (Z.eqb_spec c 0) as [->|Hc].
    - apply (inj Some) in Ek. subst k. by exists [], l.
    - apply fmap_Some in Ek as (k' & Ek & ->). destruct (IH k' Ek) as (t & r & -> & Ht & Lt). exists (c :: t), r. cbn.
      split; [done|]. split; [by constructor|lia]. }
  rewrite Et in E, Hb. rewrite cstr_app in E by done. cbn [mbind option_bind] in E.
  assert (length t <= 15)%nat as Hlt.
  { destruct (pton_loop t [] None) as [r'|] eqn:Er; [|done]. apply pton_loop_length in Er; cbn in *; lia. }
  rewrite strncpy_app in Hb by (done || lia). apply (inj Some) in Hb. subst bs.
  rewrite <- app_assoc. destruct (n - length t)%nat as [|d] eqn:Ed; [lia|]. cbn [replicate app]. by rewrite cstr_app.
Qed.

Lemma power_of_two x : 1 <= x -> Z.land x (x - 1) = 0 -> x = 2 ^ Z.log2 x.
Proof.
  intros Hx Hl. pose proof (Z.log2_spec x ltac:(lia)) as [Hlo Hhi]. destruct (decide (x = 2 ^ Z.log2 x)) as [|Hne]; [done|exfalso].
  assert (Z.testbit (Z.land x (x - 1)) (Z.log2 x) = true) as Hb.
  { rewrite Z.land_spec, Z.bit_log2 by lia. cbn.
    assert (Z.log2 (x - 1) = Z.log2 x) as <- by (apply Z.log2_unique; [apply Z.log2_nonneg|]; lia).
    apply Z.bit_log2. pose proof (Z.pow_pos_nonneg 2 (Z.log2 x) ltac:(lia) (Z.log2_nonneg x)). lia. }
  by rewrite Hl, Z.bits_0 in Hb.
Qed.

(** A line leaves the configuration in order, or fails. *)
Definition conf_keeps (r : option (option vpn_option_t)) : Prop :=
  exists x, r = Some x /\ forall o, x = Some o -> opt_ok o.

Lemma keeps_checked (ok : bool) o : (ok = true -> opt_ok o) -> conf_keeps (checked ok o).
Proof. intros H. eexists. split; [done|]. intros o' E. destruct ok; [|done]. apply (inj Some) in E. subst o'. by apply H. Qed.
Lemma keeps_loaderr : conf_keeps (Some None).
Proof. by eexists. Qed.
Lemma keeps_same o : opt_ok o -> conf_keeps (Some (Some o)).
Proof. intros H. eexists. split; [done|]. intros o' E. apply (inj Some) in E. by subst o'. Qed.

Lemma keeps_copy size second old (f : list Z -> vpn_option_t) :
  length old = size -> (0 < size)%nat ->
  (forall bs, strncpy (second ++ [0]) (size - 1) = Some bs -> char_array size (bs ++ [0]) -> opt_ok (f (bs ++ [0]))) ->
  conf_keeps (x ← copy_term size second old; Some (Some (f x))).
Proof.
  intros Hl Hs Hf. destruct (copy_term_total size second old Hl Hs) as (bs & -> & Hb & Hc). cbn [mbind option_bind].
  by apply keeps_same, Hf.
Qed.

Lemma in_range_spec lo hi x : in_range lo hi x = true -> lo <= x <= hi.
Proof. unfold in_range. intros [? ?]%andb_true_iff. lia. Qed.

Lemma conf_set_ok can_append first second o : opt_ok o -> conf_keeps (conf_set can_append first second o).
Proof.
  intros Ho. pose proof (to_int32_range (strtol10 second)) as Hr. fold (atoi second) in Hr.
  pose proof Ho as [Hm Hd Hp Hb Hg Hpo Hc Hn [Hh Hha] [Hi Hia] Hnet Hpw Hky]. unfold conf_set.
  destruct o; cbn in Hky, Hm, Hd, Hp, Hb, Hg, Hpo, Hc, Hn, Hh, Hha, Hi, Hia, Hnet, Hpw; cbn [set_mtu set_disable_ipv6 set_local_port set_remote_port
    set_username set_udp_backlog set_io_ring_depth set_io_pool_size set_pool_size set_daemonize set_log_max_size set_logfile set_keyfile set_pidfile].
  repeat match goal with |- conf_keeps (if strcaseeq _ _ then _ else _) => destruct (strcaseeq first _) | |- conf_keeps (if _ || _ then _ else _) => destruct (_ || _) end.
  all: try apply keeps_same, Ho.
  all: try (apply keeps_checked; intros Hok; try apply in_range_spec in Hok; split; cbn; tauto || (by auto) || lia).
  - apply keeps_copy; [by apply char_array_length|unfold IFNAMSIZ; lia|]. intros bs _ Hx. by split.
  - destruct (is_valid_ipv4 second) eqn:Ev; [|apply keeps_loaderr]. cbn [negb].
    apply keeps_copy; [by apply char_array_length|lia|]. intros bs Eb Hx. split; cbn; try done. split; [done|]. eapply address_copy; [done| |done]. lia.
  - destruct (is_valid_ipv4 second) eqn:Ev; [|apply keeps_loaderr]. cbn [negb].
    apply keeps_copy; [by apply char_array_length|lia|]. intros bs Eb Hx. split; cbn; try done. split; [done|]. eapply address_copy; [done| |done]. lia.
  - apply keeps_same. by split.
  - apply keeps_copy; [by apply char_array_length|lia|]. intros bs _ Hx. by split.
  - apply keeps_checked. intros Hok. apply andb_true_iff in Hok as [H1 H2]. split; cbn; try done.
    exists (Z.log2 (atoi second)). split; [|apply power_of_two; lia]. split; [apply Z.log2_nonneg|]. apply Z.log2_lt_pow2; lia.
  - cbn [opt_pool_network]. destruct (copy_into_total 31 second opt_pool_network0) as (bs & -> & _ & Lb); [apply char_array_length in Hnet; lia|]. cbn [mbind option_bind].
    apply keeps_same. split; cbn; try done. destruct Hnet as (t & -> & Lt). exists bs. rewrite drop_app_length' by lia. split; [done|lia].
  - apply keeps_same. by split.
Qed.

Lemma fgets_rest n s : (length (fgets n s).2 <= length s)%nat.
Proof.
  revert s. induction n as [|n IH]; intros [|c s]; [done..|]. cbn [fgets]. destruct (c =? 10); [cbn; lia|].
  specialize (IH s). destruct (fgets n s) as [a b]. cbn in *. lia.
Qed.

Lemma fgets_length n c s : (0 < n)%nat -> (length (fgets n (c :: s)).2 <= length s)%nat.
Proof.
  intros Hn. destruct n as [|n]; [lia|]. cbn [fgets]. destruct (c =? 10); [done|].
  pose proof (fgets_rest n s) as Hl. by destruct (fgets n s) as [a b].
Qed.

Lemma option_conf_total can_append file o fuel :
  opt_ok o -> (match file with Some rest => length rest | None => 0 end < fuel)%nat ->
  exists r, vf_option_conf can_append fuel file o = Some r /\ forall o', r = Some o' -> opt_ok o'.
Proof.
  intros Ho Hf. destruct file as [rest|]; [|by exists None]. unfold vf_option_conf. revert rest o Ho Hf.
  induction fuel as [|fuel IH]; intros rest o Ho Hf; [lia|]. cbn [conf_loop]. destruct rest as [|c rest].
  { exists (Some o). split; [done|]. intros o' E. apply (inj Some) in E. by subst o'. }
  pose proof (fgets_length CONFIG_READ_LEN c rest ltac:(unfold CONFIG_READ_LEN; lia)) as Hlen.
  destruct (fgets CONFIG_READ_LEN (c :: rest)) as [buf rest']. cbn [snd] in Hlen.
  assert (conf_keeps (match conf_split buf with None => Some (Some o) | Some (first, second) => conf_set can_append first second o end))
    as (x & -> & Hx) by (destruct (conf_split buf) as [[first second]|]; [by apply conf_set_ok|by apply keeps_same]).
  cbn [mbind option_bind]. destruct x as [o1|]; [|by exists None]. apply IH; [by apply Hx|cbn in Hf; lia].
Qed.

(** C29 A configuration file is loaded or refused, and what is loaded is in
    order.  Whatever bytes the file has (lines longer than the buffer, NULs,
    no newline at the end, numbers out of the range of an [int]), reading ends
    after at most as many lines as there are bytes, without undefined
    behaviour; and when the process does not exit, every number is in its
    range, the ring depth is a power of two, every character array is
    terminated within its bounds, the two addresses are addresses, and the
    master key has its 32 bytes.  The remote host is one of the two: option.h
    speaks of an address or a host name, and the code refuses a name. *)
Theorem vf_option_conf_ok can_append file o fuel :
  opt_ok o -> (match file with Some rest => length rest | None => 0 end < fuel)%nat ->
  exists r, vf_option_conf can_append fuel file o = Some r /\ forall o', r = Some o' -> opt_ok o'.
Proof. apply option_conf_total. Qed.

(** * Writing a configuration, and reading it *)

(** The values of all the keys. *)
Record config := {
  c_tunname : list Z; c_tunip : list Z; c_mtu : Z; c_noipv6 : bool; c_port : Z; c_host : list Z; c_rport : Z;
  c_user : list Z; c_pass : list Z; c_backlog : Z; c_depth : Z; c_iopool : Z; c_net : list Z; c_cap : Z;
  c_daemon : bool; c_logmax : Z; c_log : list Z; c_key : list Z; c_pid : list Z
}.

Definition yes_no (b : bool) : list Z := if b then str "yes" else str "no".

Definition conf_lines (c : config) : list (list Z * list Z) :=
  [(str "tunname", c_tunname c); (str "tunip", c_tunip c); (str "mtu", dec (c_mtu c));
   (str "disable-ipv6", yes_no (c_noipv6 c)); (str "port", dec (c_port c)); (str "remote-host", c_host c);
   (str "remote-port", dec (c_rport c)); (str "username", c_user c); (str "password", c_pass c);
   (str "udp-backlog", dec (c_backlog c)); (str "io-ring-depth", dec (c_depth c)); (str "io-pool-size", dec (c_iopool c));
   (str "pool-network", c_net c); (str "pool-size", dec (c_cap c)); (str "daemonize", yes_no (c_daemon c));
   (str "log-max-size", dec (c_logmax c)); (str "logfile", c_log c); (str "keyfile", c_key c); (str "pidfile", c_pid c)].

Definition conf_line (kv : list Z * list Z) : list Z := kv.1 ++ [32] ++ kv.2 ++ [10].
Definition print_conf (c : config) : list Z := concat (conf_line <$> conf_lines c).

(** What the structure holds after loading it over [o]. *)
Definition padded (n : nat) (t : list Z) : list Z := t ++ replicate (n - length t) 0.
Definition apply_config (c : config) (o : vpn_option_t) : vpn_option_t :=
  {| opt_tun_name := padded IFNAMSIZ (c_tunname c); opt_mtu := c_mtu c; opt_io_ring_depth := c_depth c;
     opt_io_pool_size := c_iopool c; opt_disable_ipv6 := c_noipv6 c; opt_udp_backlog := c_backlog c;
     opt_daemonize := c_daemon c; opt_log_max_size := c_logmax c; opt_cfile := opt_cfile o;
     opt_logfile := Some (c_log c); opt_pidfile := Some (c_pid c); opt_keyfile := Some (c_key c);
     opt_master_key := opt_master_key o; opt_remote_host := padded 64 (c_host c); opt_remote_port := c_rport c;
     opt_username := Some (c_user c); opt_password := padded 64 (c_pass c); opt_tun_ip := padded 32 (c_tunip c);
     opt_pool_network := padded 31 (c_net c) ++ drop 31 (opt_pool_network o); opt_pool_size := c_cap c; opt_local_port := c_port c |}.

(** A value that one line can carry. *)
Definition value_ok (n : nat) (v : list Z) : Prop :=
  is_space (hd 32 v) = false /\ Forall (fun c => c <> 0 /\ c <> 10 /\ c <> 13) v /\ (length v <= n)%nat.
Definition key_ok (k : list Z) : Prop :=
  hd 35 k <> 35 /\ Forall (fun c => c <> 0 /\ is_space c = false) k /\ (length k <= 20)%nat.

#[export] Instance key_ok_dec k : Decision (key_ok k).
Proof. unfold key_ok. apply _. Defined.
#[export] Instance value_ok_dec n v : Decision (value_ok n v).
Proof. unfold value_ok. apply _. Defined.

Record printable (can_append : list Z -> bool) (c : config) : Prop := {
  pc_name : value_ok 15 (c_tunname c);
  pc_ip : value_ok 31 (c_tunip c) /\ is_valid_ipv4 (c_tunip c) = true;
  pc_mtu : 576 <= c_mtu c <= 9000;
  pc_ports : 1 <= c_port c <= 65535 /\ 1 <= c_rport c <= 65535;
  pc_host : value_ok 63 (c_host c) /\ is_valid_ipv4 (c_host c) = true;
  pc_user : value_ok 1000 (c_user c);
  pc_pass : value_ok 63 (c_pass c);
  pc_backlog : 1 <= c_backlog c < 2 ^ 31;
  pc_depth : exists k, 0 <= k < 31 /\ c_depth c = 2 ^ k;
  pc_iopool : 1024 <= c_iopool c <= 4096;
  pc_net : value_ok 31 (c_net c);
  pc_cap : 1 <= c_cap c < 2 ^ 31;
  pc_logmax : 5 <= c_logmax c <= 4000;
  pc_files : value_ok 1000 (c_log c) /\ value_ok 1000 (c_key c) /\ value_ok 1000 (c_pid c);
  pc_append : can_append (c_log c) = true /\ can_append (c_key c) = true
}.

Lemma value_ok_le n m v : (n <= m)%nat -> value_ok n v -> value_ok m v.
Proof. intros H (? & ? & ?). split; [done|]. split; [done|lia]. Qed.

Lemma value_ok_number n : 0 <= n < 2 ^ 64 -> value_ok 1000 (dec n).
Proof.
  intros Hn. destruct (dec_spec n Hn) as (ds & E & [Hne Hd] & _).
  assert (length (dec n) <= 20)%nat as Hlen.
  { unfold dec. destruct (Z.ltb_spec n 0); [lia|]. clear. assert (forall f m acc, (length (dec_loop f m acc) <= f + length acc)%nat) as H.
    { induction f as [|f IH]; intros m acc; cbn; [done|]. destruct (m <? 10); cbn; [lia|]. etransitivity; [apply IH|]. cbn. lia. }
    apply (H 20%nat n []). }
  rewrite E in *. split; [|split; [|lia]].
  - destruct ds as [|c ds]; [done|]. assert (48 <= c <= 57) by apply (Forall_inv Hd). cbn [hd]. unfold is_space. lia.
  - eapply list.Forall_impl; [exact Hd|]. cbn. lia.
Qed.

Lemma span_until_all f a : Forall (fun c => f c = false) a -> span_until f a = (a, []).
Proof. intros H. rewrite <- (app_nil_r a) at 1. by apply span_until_app. Qed.

Lemma conf_split_line k v : key_ok k -> value_ok 1000 v -> conf_split (conf_line (k, v)) = Some (k, v).
Proof.
  intros (Hk & Hks & _) (Hv & Hvs & _). unfold conf_split, conf_line, c_text. cbn [fst snd].
  rewrite span_until_all.
  2: { repeat (apply Forall_app_2 || apply Forall_cons_2); try done; [eapply list.Forall_impl; [exact Hks|]|eapply list.Forall_impl; [exact Hvs|]]; cbn; intros; bool_cases; lia. }
  cbn [fst]. destruct k as [|x k]; [done|]. pose proof (Forall_inv Hks) as [_ Hx]. cbn [app]. rewrite skip_space_front by done.
  destruct (Z.eqb_spec x 35); [done|].
  change (x :: k ++ 32 :: v ++ [10]) with ((x :: k) ++ [32] ++ v ++ [10]). rewrite (app_assoc [32] v [10]), (app_assoc (x :: k)).
  rewrite (span_until_app _ ((x :: k) ++ [32] ++ v) [10]); [|rewrite !list.Forall_app; split_and!|done].
  2: { eapply list.Forall_impl; [exact Hks|]. cbn. intros c [_ Hc]. unfold is_space in Hc. destruct (Z.eqb_spec c 13), (Z.eqb_spec c 10); subst; done. }
  2: { by constructor. }
  2: { eapply list.Forall_impl; [exact Hvs|]. cbn. intros c Hc. destruct (Z.eqb_spec c 13), (Z.eqb_spec c 10); subst; tauto. }
  cbn [fst]. rewrite (span_until_app is_space (x :: k) ([32] ++ v)); [|eapply list.Forall_impl; [exact Hks|]; by intros ? []|done].
  cbn [app]. destruct v as [|y v]; [done|]. by rewrite skip_space_front.
Qed.

Lemma fgets_line n l rest :
  Forall (fun c => c <> 10) l -> (length l < n)%nat -> fgets n (l ++ [10] ++ rest) = (l ++ [10], rest).
Proof.
  intros Hl. revert n. induction Hl as [|c l Hc _ IH]; intros [|n] Hn; cbn in Hn; try lia; cbn [app fgets]; [done|].
  destruct (Z.eqb_spec c 10); [done|]. cbn in IH. by rewrite IH by lia.
Qed.

Section write_conf.
Variable can_append : list Z -> bool.

Fixpoint conf_apply (ls : list (list Z * list Z)) (o : vpn_option_t) : option (option vpn_option_t) :=
  match ls with
  | [] => Some (Some o)
  | kv :: ls => r ← conf_set can_append kv.1 kv.2 o; match r with None => Some None | Some o => conf_apply ls o end
  end.

Lemma conf_loop_lines ls fuel o :
  Forall (fun kv => key_ok kv.1 /\ value_ok 1000 kv.2) ls -> (length ls < fuel)%nat ->
  conf_loop can_append fuel (concat (conf_line <$> ls)) o = conf_apply ls o.
Proof.
  intros Hls. revert fuel o. induction Hls as [|[k v] ls [Hk Hv] _ IH]; intros fuel o Hf; (destruct fuel as [|fuel]; [cbn in Hf; lia|]); [done|].
  cbn [fst snd] in Hk, Hv. cbn [fmap list_fmap concat]. change (list_fmap _ _ conf_line ls) with (conf_line <$> ls). set (rest := concat (conf_line <$> ls)) in *.
  assert (fgets CONFIG_READ_LEN (conf_line (k, v) ++ rest) = (conf_line (k, v), rest)) as Eg.
  { unfold conf_line. cbn [fst snd]. destruct Hk as (_ & Hks & Lk), Hv as (_ & Hvs & Lv).
    rewrite !(app_assoc k), !(app_assoc (k ++ [32])), <- (app_assoc ((k ++ [32]) ++ v)). apply fgets_line; [|rewrite !length_app; unfold CONFIG_READ_LEN; cbn; lia].
    rewrite !list.Forall_app. split_and!; [|by constructor|].
    - eapply list.Forall_impl; [exact Hks|]. cbn. intros c [_ Hc] ->. done.
    - eapply list.Forall_impl; [exact Hvs|]. cbn. tauto. }
  destruct (conf_line (k, v) ++ rest) as [|x l] eqn:El; [by destruct k|]. cbn [conf_loop]. rewrite Eg.
  rewrite conf_split_line by done. cbn [conf_apply fst snd].
  destruct (conf_set can_append k v o) as [[o1|]|]; cbn [mbind option_bind]; [|done..]. apply IH. cbn in Hf. lia.
Qed.

Lemma value_ok_cstr n v : value_ok n v -> Forall (fun c => c <> 0) v.
Proof. intros (_ & H & _). eapply list.Forall_impl; [exact H|]. cbn. tauto. Qed.

Lemma copy_term_value n v old :
  value_ok (n - 1) v -> length old = n -> (0 < n)%nat -> copy_term n v old = Some (padded n v).
Proof.
  intros Hv Hl Hn. destruct (copy_term_total n v old Hl Hn) as (bs & -> & Hb & _). pose proof Hv as (_ & _ & Lv).
  rewrite strncpy_app in Hb by (done || by eapply value_ok_cstr). apply (inj Some) in Hb. subst bs. f_equal. unfold padded.
  rewrite <- app_assoc. f_equal. replace (n - length v)%nat with (n - 1 - length v + 1)%nat by lia. by rewrite replicate_add.
Qed.

Lemma copy_into_value n v old :
  value_ok n v -> (n <= length old)%nat -> copy_into n v old = Some (padded n v ++ drop n old).
Proof.
  intros Hv Hl. unfold copy_into. pose proof Hv as (_ & _ & Lv). by rewrite strncpy_app by (done || by eapply value_ok_cstr).
Qed.

Lemma in_range_true lo hi x : lo <= x <= hi -> in_range lo hi x = true.
Proof. intros H. unfold in_range. destruct (Z.leb_spec lo x); [|lia]. destruct (Z.leb_spec x hi); [done|lia]. Qed.

Lemma ring_depth_true x : (exists k, 0 <= k < 31 /\ x = 2 ^ k) -> (1 <=? x) && (Z.land x (x - 1) =? 0) = true.
Proof.
  intros (k & Hk & ->). pose proof (Z.pow_pos_nonneg 2 k). destruct (Z.leb_spec 1 (2 ^ k)); [|lia]. cbn [andb].
  rewrite Z.sub_1_r, <- Z.ones_equiv, Z.land_ones, Z.mod_same by lia. done.
Qed.

Lemma atoi_printed n : 0 <= n < 2 ^ 31 -> atoi (dec n) = n.
Proof. intros Hn. rewrite <- (app_nil_r (dec n)). by apply atoi_dec. Qed.

Lemma yesno_valid b : negb (yesnotoi (yes_no b) =? -1) = true.
Proof. by destruct b. Qed.
Lemma yesno_value b : negb (yesnotoi (yes_no b) =? 0) = b.
Proof. by destruct b. Qed.

Lemma positive_true x : 1 <= x -> (1 <=? x) = true.
Proof. apply Z.leb_le. Qed.

Lemma conf_apply_step kv ls o o' r :
  conf_set can_append kv.1 kv.2 o = Some (Some o') -> conf_apply ls o' = r -> conf_apply (kv :: ls) o = r.
Proof. intros E <-. cbn [conf_apply]. by rewrite E. Qed.

(** Evaluate the comparisons of a key with the names. *)
Ltac conf_key :=
  unfold conf_set; cbn [fst snd];
  repeat match goal with
  | |- context [strcaseeq ?a ?b] => let x := eval vm_compute in (strcaseeq a b) in change (strcaseeq a b) with x; cbn [orb]; cbn iota
  end.

Definition arrays_ok (o : vpn_option_t) : Prop :=
  length (opt_tun_name o) = IFNAMSIZ /\ length (opt_tun_ip o) = 32%nat /\ length (opt_remote_host o) = 64%nat /\
  length (opt_password o) = 64%nat /\ length (opt_pool_network o) = 32%nat.

Lemma conf_apply_lines c o : printable can_append c -> arrays_ok o -> conf_apply (conf_lines c) o = Some (Some (apply_config c o)).
Proof.
  intros [Hn [Hi Hiv] Hm [Hp Hrp] [Hh Hhv] Hu Hpw Hb Hd Hio Hnet Hcap Hlog (Hl & Hk & Hpid) (Al & Ak)] (L1 & L2 & L3 & L4 & L5).
  destruct o; cbn in L1, L2, L3, L4, L5. destruct Hd as (k & Hk31 & Ed). pose proof (Z.pow_lt_mono_r 2 k 31 ltac:(lia) ltac:(lia) ltac:(lia)).
  pose proof (Z.pow_pos_nonneg 2 k ltac:(lia) ltac:(lia)). unfold conf_lines.
  do 19 (eapply conf_apply_step;
    [conf_key; unfold checked;
     rewrite ?Hiv, ?Hhv, ?yesno_valid, ?yesno_value, ?atoi_printed, ?in_range_true, ?ring_depth_true, ?positive_true, ?Al, ?Ak, ?orb_true_r by (lia || eauto);
     cbn [negb opt_tun_name opt_tun_ip opt_remote_host opt_password opt_pool_network];
     rewrite ?copy_term_value, ?copy_into_value by (done || lia || (unfold IFNAMSIZ; lia)); cbn [mbind option_bind]; reflexivity
    |cbn [set_tun_name set_tun_ip set_mtu set_disable_ipv6 set_local_port set_remote_host set_remote_port set_username set_password
      set_udp_backlog set_io_ring_depth set_io_pool_size set_pool_network set_pool_size set_daemonize set_log_max_size set_logfile
      set_keyfile set_pidfile]]).
  done.
Qed.
End write_conf.

Lemma conf_lines_ok can_append c : printable can_append c -> Forall (fun kv => key_ok kv.1 /\ value_ok 1000 kv.2) (conf_lines c).
Proof.
  intros [Hn [Hi _] Hm [Hp Hrp] [Hh _] Hu Hpw Hb (k & Hk & Ed) Hio Hnet Hcap Hlog (Hl & Hky & Hpid) _].
  pose proof (Z.pow_lt_mono_r 2 k 31 ltac:(lia) ltac:(lia) ltac:(lia)). pose proof (Z.pow_pos_nonneg 2 k ltac:(lia) ltac:(lia)).
  unfold conf_lines. repeat (apply Forall_cons_2 || apply Forall_nil_2); (split; cbn [fst snd]; [by_compute|]);
    try (apply value_ok_number; lia); try (match goal with |- value_ok _ (yes_no ?b) => destruct b; by_compute end);
    (eapply value_ok_le; [|eassumption]; lia).
Qed.

(** C28 A configuration that is written out is read back.  Writing all nineteen
    keys, one line each, with values that fit their fields and are in range,
    and loading the file over any structure gives exactly the structure with
    these values: the strings padded with NULs, the numbers what their digits
    say, and only the name of the configuration file and the key as before. *)
Theorem vf_option_conf_print can_append c o fuel :
  printable can_append c -> arrays_ok o -> (19 < fuel)%nat ->
  vf_option_conf can_append fuel (Some (print_conf c)) o = Some (Some (apply_config c o)).
Proof.
  intros Hc Ho Hf. unfold vf_option_conf, print_conf. rewrite conf_loop_lines; [by apply conf_apply_lines|by apply (conf_lines_ok can_append)|done].
Qed.

(** * Instances *)

Definition zero_option : vpn_option_t :=
  {| opt_tun_name := replicate 16 0; opt_mtu := 0; opt_io_ring_depth := 0; opt_io_pool_size := 0; opt_disable_ipv6 := false;
     opt_udp_backlog := 0; opt_daemonize := false; opt_log_max_size := 0; opt_cfile := None; opt_logfile := None;
     opt_pidfile := None; opt_keyfile := None; opt_master_key := replicate 32 0; opt_remote_host := replicate 64 0;
     opt_remote_port := 0; opt_username := None; opt_password := replicate 64 0; opt_tun_ip := replicate 32 0;
     opt_pool_network := replicate 32 0; opt_pool_size := 0; opt_local_port := 0 |}.

(** The defaults are in order. *)
Definition default_option : vpn_option_t :=
  match vf_option_init (Some zero_option) with Some (Some o) => o | _ => zero_option end.

Lemma char_array_compute n s : S (length (take (n - 1) s)) = n -> take (n - 1) s ++ [0] = s -> char_array n s.
Proof. intros Hl Hs. by exists (take (n - 1) s). Qed.

Lemma default_option_ok : opt_ok default_option.
Proof.
  split; try (split; discriminate); try (apply char_array_compute; reflexivity).
  - exists 12. split; [lia|reflexivity].
  - split; [discriminate|reflexivity].
  - by left.
  - repeat split; discriminate.
  - split; [discriminate|reflexivity].
  - split; [by apply char_array_compute|]. eexists. vm_compute. reflexivity.
  - split; [by apply char_array_compute|]. eexists. vm_compute. reflexivity.
Qed.

Definition demo_config : config :=
  {| c_tunname := str "vfast0"; c_tunip := str "10.8.0.1"; c_mtu := 1300; c_noipv6 := false; c_port := 5887; c_host := str "192.0.2.1";
     c_rport := 5887; c_user := str "bob"; c_pass := str "secret word"; c_backlog := 4; c_depth := 256; c_iopool := 1024;
     c_net := str "10.8.0.0"; c_cap := 254; c_daemon := true; c_logmax := 10; c_log := str "a.log"; c_key := str "a.key"; c_pid := str "a.pid" |}.

Lemma demo_config_printable : printable (fun _ => true) demo_config.
Proof. split; try by_compute; try (vm_compute; done). exists 8. split; [lia|reflexivity]. Qed.

Lemma vf_option_conf_print_witness :
  vf_option_conf (fun _ => true) 20 (Some (print_conf demo_config)) default_option = Some (Some (apply_config demo_config default_option)).
Proof. apply (vf_option_conf_print (fun _ => true) demo_config default_option 20 demo_config_printable); [repeat split|lia]. Defined.

(** The number is read as an [int]: 2^32 + 1400 is a valid MTU. *)
Lemma vf_option_conf_ok_witness :
  exists o, vf_option_conf (fun _ => true) 40 (Some (str "mtu 4294968696 # comment")) default_option = Some (Some o) /\ opt_ok o /\ opt_mtu o = 1400.
Proof.
  destruct (vf_option_conf_ok (fun _ => true) (Some (str "mtu 4294968696 # comment")) default_option 40 default_option_ok) as (r & E & Hr); [vm_compute; lia|].
  exists (set_mtu 1400 default_option). assert (r = Some (set_mtu 1400 default_option)) as ->.
  { apply (inj Some). rewrite <- E. vm_compute. reflexivity. }
  split; [exact E|]. split; [by apply Hr|reflexivity].
Defined.
