(* ===== verification/Printf.v ===== *)
(** [printf] formats, as far as the source uses them: [%s], [%d], [%u], [%x],
    [%f] and [%%], with a width, a precision and the flags [-] and [0]. *)
From S2P Require Import Prelude Libc Text.

(** An argument: a string ([None] for NULL), an integer that has the type its
    conversion asks for, or a floating-point number, of which the text of its
    [%.2f] is all that is printed. *)
Inductive fmt_arg := AStr (s : option (list Z)) | ANum (n : Z) | AFloat (s : list Z).

Record fmt_spec := { sp_minus : bool; sp_zero : bool; sp_width : Z; sp_prec : option Z }.
Definition spec0 : fmt_spec := {| sp_minus := false; sp_zero := false; sp_width := 0; sp_prec := None |}.

Definition pad (sp : fmt_spec) (t : list Z) : list Z :=
  let n := (Z.to_nat (sp_width sp) - length t)%nat in
  if sp_minus sp then t ++ replicate n 32 else replicate n (if sp_zero sp then 48 else 32) ++ t.

(** Lower-case hexadecimal without leading zeros. *)
Fixpoint hex_loop (fuel : nat) (n : Z) (acc : list Z) : list Z :=
  match fuel with
  | O => acc
  | S fuel => let acc := hex_digit (n mod 16) :: acc in if n <? 16 then acc else hex_loop fuel (n / 16) acc
  end.
Definition hex (n : Z) : list Z := hex_loop 16 n [].

(** [None]: the format and the arguments do not fit, or a string is NULL. *)
Fixpoint format (sp : option fmt_spec) (f : list Z) (args : list fmt_arg) : option (list Z) :=
  match f with
  | [] => match sp with None => Some [] | Some _ => None end
  | c :: f =>
      match sp with
      | None => if c =? 37 then format (Some spec0) f args else (c ::.) <$> format None f args
      | Some sp =>
          if c =? 45 then
            format (Some {| sp_minus := true; sp_zero := sp_zero sp; sp_width := sp_width sp; sp_prec := sp_prec sp |}) f args
          else if c =? 46 then
            format (Some {| sp_minus := sp_minus sp; sp_zero := sp_zero sp; sp_width := sp_width sp; sp_prec := Some 0 |}) f args
          else if is_digit c then
            format (Some match sp_prec sp with
                         | Some p => {| sp_minus := sp_minus sp; sp_zero := sp_zero sp; sp_width := sp_width sp;
                                        sp_prec := Some (10 * p + (c - 48)) |}
                         | None => {| sp_minus := sp_minus sp; sp_zero := sp_zero sp || (c =? 48) && (sp_width sp =? 0);
                                      sp_width := 10 * sp_width sp + (c - 48); sp_prec := None |}
                         end) f args
          else if c =? 108 then format (Some sp) f args
          else if c =? 37 then (37 ::.) <$> format None f args
          else match args with
               | ANum n :: args =>
                   if c =? 42 then
                     format (Some {| sp_minus := sp_minus sp; sp_zero := sp_zero sp; sp_width := n; sp_prec := sp_prec sp |}) f args
                   else if (c =? 100) || (c =? 117) then (pad sp (dec n) ++.) <$> format None f args
                   else if c =? 120 then (pad sp (hex n) ++.) <$> format None f args
                   else None
               | AStr (Some s) :: args =>
                   if c =? 115 then
                     (pad sp match sp_prec sp with Some p => take (Z.to_nat p) s | None => s end ++.) <$> format None f args
                   else None
               | AFloat s :: args => if c =? 102 then (pad sp s ++.) <$> format None f args else None
               | _ => None
               end
      end
  end.

(** The text of [printf(f, args)]. *)
Definition sprintf (f : list Z) (args : list fmt_arg) : option (list Z) := format None f args.

(** What [snprintf] stores in an array of [size] bytes before the NUL. *)
Definition snprintf (size : nat) (f : list Z) (args : list fmt_arg) : option (list Z) := take (pred size) <$> sprintf f args.

Definition no_nul (s : list Z) : Prop := Forall (fun c => c <> 0) s.
#[export] Instance no_nul_dec s : Decision (no_nul s).
Proof. unfold no_nul. apply _. Defined.

Definition arg_no_nul (a : fmt_arg) : Prop :=
  match a with AStr (Some s) => no_nul s | AStr None => True | ANum n => True | AFloat s => no_nul s end.

Lemma no_nul_app a b : no_nul (a ++ b) <-> no_nul a /\ no_nul b.
Proof. apply list.Forall_app. Qed.
Lemma no_nul_take n s : no_nul s -> no_nul (take n s).
Proof. apply list.Forall_take. Qed.
Lemma no_nul_drop n s : no_nul s -> no_nul (drop n s).
Proof. apply list.Forall_drop. Qed.
Lemma no_nul_replicate n c : c <> 0 -> no_nul (replicate n c).
Proof. intros Hc. by apply list.Forall_replicate. Qed.

Lemma pad_no_nul sp t : no_nul t -> no_nul (pad sp t).
Proof.
  intros Ht. unfold pad. destruct (sp_minus sp), (sp_zero sp); apply no_nul_app; split; auto; by apply no_nul_replicate.
Qed.

Lemma dec_loop_no_nul fuel n acc : no_nul acc -> no_nul (dec_loop fuel n acc).
Proof.
  revert n acc. induction fuel as [|fuel IH]; intros n acc Ha; cbn; [done|].
  pose proof (Z.mod_pos_bound n 10). assert (no_nul (48 + n mod 10 :: acc)) by (constructor; [lia|done]).
  destruct (n <? 10); auto.
Qed.
Lemma dec_no_nul n : no_nul (dec n).
Proof. unfold dec. destruct (n <? 0); [constructor; [done|]|]; apply dec_loop_no_nul; constructor. Qed.

Lemma hex_loop_no_nul fuel n acc : no_nul acc -> no_nul (hex_loop fuel n acc).
Proof.
  revert n acc. induction fuel as [|fuel IH]; intros n acc Ha; cbn; [done|].
  pose proof (Z.mod_pos_bound n 16). assert (no_nul (hex_digit (n mod 16) :: acc)).
  { constructor; [|done]. unfold hex_digit. destruct (n mod 16 <? 10); lia. }
  destruct (n <? 16); auto.
Qed.
Lemma hex_no_nul n : no_nul (hex n).
Proof. apply hex_loop_no_nul. constructor. Qed.

(** What is printed has no NUL when the format and the strings have none. *)
Lemma format_no_nul sp f args t :
  format sp f args = Some t -> no_nul f -> Forall arg_no_nul args -> no_nul t.
Proof.
  revert sp args t. induction f as [|c f IH]; intros sp args t; cbn [format].
  { destruct sp; [done|]. intros [= <-] _ _. constructor. }
  intros E Hf Ha. apply Forall_cons_iff in Hf as [Hc Hf].
  assert (forall p sp args' t, (p ++.) <$> format sp f args' = Some t -> no_nul p -> Forall arg_no_nul args' -> no_nul t) as Hp.
  { intros p sp' args' t' (t0 & E0 & ->)%fmap_Some Hn Ha'. apply no_nul_app. split; [done|by eapply IH]. }
  destruct sp as [sp|].
  2: { destruct (c =? 37); [by eapply IH|]. apply fmap_Some in E as (t0 & E0 & ->). constructor; [done|by eapply IH]. }
  destruct (c =? 45); [by eapply IH|]. destruct (c =? 46); [by eapply IH|]. destruct (is_digit c); [by eapply IH|].
  destruct (c =? 108); [by eapply IH|]. destruct (c =? 37).
  { apply fmap_Some in E as (t0 & E0 & ->). constructor; [done|by eapply IH]. }
  destruct args as [|[[s|]|n|s] args]; try done; apply Forall_cons_iff in Ha as [Hs Ha]; cbn in Hs.
  - destruct (c =? 115); [|done]. apply (Hp _ _ _ _ E); [|done]. apply pad_no_nul. destruct (sp_prec sp); [by apply no_nul_take|done].
  - destruct (c =? 42); [by eapply IH|]. destruct (_ || _); [apply (Hp _ _ _ _ E); [apply pad_no_nul, dec_no_nul|done]|].
    destruct (c =? 120); [|done]. apply (Hp _ _ _ _ E); [apply pad_no_nul, hex_no_nul|done].
  - destruct (c =? 102); [|done]. apply (Hp _ _ _ _ E); [by apply pad_no_nul|done].
Qed.

Lemma sprintf_no_nul f args t : sprintf f args = Some t -> no_nul f -> Forall arg_no_nul args -> no_nul t.
Proof. apply format_no_nul. Qed.

(** Whether a format is defined depends on the kinds of its arguments only. *)
Inductive fmt_kind := KStr | KNull | KNum | KFloat.
Definition kind_of (a : fmt_arg) : fmt_kind :=
  match a with AStr (Some _) => KStr | AStr None => KNull | ANum _ => KNum | AFloat _ => KFloat end.

Fixpoint fmt_check (in_spec : bool) (f : list Z) (ks : list fmt_kind) : bool :=
  match f with
  | [] => negb in_spec
  | c :: f =>
      if in_spec then
        if (c =? 45) || (c =? 46) || is_digit c || (c =? 108) then fmt_check true f ks
        else if c =? 37 then fmt_check false f ks
        else match ks with
             | KNum :: ks => if c =? 42 then fmt_check true f ks else ((c =? 100) || (c =? 117) || (c =? 120)) && fmt_check false f ks
             | KStr :: ks => (c =? 115) && fmt_check false f ks
             | KFloat :: ks => (c =? 102) && fmt_check false f ks
             | _ => false
             end
      else if c =? 37 then fmt_check true f ks else fmt_check false f ks
  end.

Lemma fmt_check_format sp f args :
  fmt_check (match sp with Some _ => true | None => false end) f (kind_of <$> args) = true -> is_Some (format sp f args).
Proof.
  revert sp args. induction f as [|c f IH]; intros sp args; cbn [fmt_check format]; [by destruct sp|].
  assert (forall p args, fmt_check false f (kind_of <$> args) = true -> is_Some ((p ++.) <$> format None f args)) as Hp.
  { intros p a H. apply fmap_is_Some. by apply (IH None). }
  destruct sp as [sp|].
  2: { destruct (c =? 37); [by apply (IH (Some _))|]. intros H. apply fmap_is_Some. by apply (IH None). }
  destruct (c =? 45); [by apply (IH (Some _))|]. destruct (c =? 46); [by apply (IH (Some _))|].
  destruct (is_digit c); [by apply (IH (Some _))|]. destruct (c =? 108); [by apply (IH (Some _))|]. cbn [orb].
  destruct (c =? 37); [intros H; apply fmap_is_Some; by apply (IH None)|].
  destruct args as [|[[s|]|n|s] args]; try done; cbn [kind_of fmap list_fmap].
  - destruct (c =? 115); [|done]. apply Hp.
  - destruct (c =? 42); [by apply (IH (Some _))|]. destruct (_ || (c =? 117)); [apply Hp|]. destruct (c =? 120); [apply Hp|done].
  - destruct (c =? 102); [|done]. apply Hp.
Qed.

Ltac fmt_defined := apply fmt_check_format; vm_compute; reflexivity.

Example printf_ex1 : sprintf (str "%-5s|%5s|%.2s|%08x|%d") [AStr (Some (str "ab")); AStr (Some (str "cd")); AStr (Some (str "efg")); ANum 0x32076a9d; ANum (-40)]
  = Some (str "ab   |   cd|ef|32076a9d|-40").
Proof. reflexivity. Qed.
Example printf_ex2 s n : is_Some (sprintf (str "%-*s : %s%lu%%") [ANum 15; AStr (Some s); AStr (Some s); ANum n]).
Proof. fmt_defined. Qed.
