(* ===== verification/Log.v ===== *)
(** The log (log.c): levels, callbacks and the text of a record. *)
From S2P Require Import Prelude Libc Text Printf.

Definition MAX_CALLBACKS : nat := 32.
Definition level_strings : list (list Z) := [str "TRACE"; str "DEBUG"; str "INFO"; str "WARN"; str "ERROR"; str "FATAL"].

(** A function that takes records: the one for files, or one of the caller. *)
Inductive log_fn := FileCallback | UserCallback (n : nat).
Record Callback := { cb_fn : log_fn; cb_udata : Z; cb_level : Z }.

(** [lock_fn] is the lock's function with its argument; a slot of the array is
    free while its function is NULL. *)
Record log_state := { lock_fn : option (nat * Z); log_level : Z; log_quiet : bool; log_callbacks : list (option Callback) }.
Definition log_static : log_state := {| lock_fn := None; log_level := 0; log_quiet := false; log_callbacks := replicate MAX_CALLBACKS None |}.

Definition log_set_lock (fn : option (nat * Z)) (l : log_state) : log_state :=
  {| lock_fn := fn; log_level := log_level l; log_quiet := log_quiet l; log_callbacks := log_callbacks l |}.
Definition log_set_level (level : Z) (l : log_state) : log_state :=
  {| lock_fn := lock_fn l; log_level := level; log_quiet := log_quiet l; log_callbacks := log_callbacks l |}.
Definition log_set_quiet (enable : bool) (l : log_state) : log_state :=
  {| lock_fn := lock_fn l; log_level := log_level l; log_quiet := enable; log_callbacks := log_callbacks l |}.

Definition log_level_string (level : Z) : option (list Z) := if level <? 0 then None else level_strings !! Z.to_nat level.

(** The first free slot. *)
Fixpoint add_slot (cb : Callback) (slots : list (option Callback)) : option (list (option Callback)) :=
  match slots with
  | [] => None
  | None :: slots => Some (Some cb :: slots)
  | Some c :: slots => (Some c ::.) <$> add_slot cb slots
  end.
Definition log_add_callback (fn : log_fn) (udata level : Z) (l : log_state) : Z * log_state :=
  match add_slot {| cb_fn := fn; cb_udata := udata; cb_level := level |} (log_callbacks l) with
  | Some slots => (0, {| lock_fn := lock_fn l; log_level := log_level l; log_quiet := log_quiet l; log_callbacks := slots |})
  | None => (-1, l)
  end.
Definition log_add_fp (fp level : Z) : log_state -> Z * log_state := log_add_callback FileCallback fp level.

(** A record: its level, where it was made, the text of its format and
    arguments, and the time as [strftime] gives it, short and long. *)
Record log_event := { ev_level : Z; ev_file : list Z; ev_line : Z; ev_text : list Z; ev_clock : list Z; ev_date : list Z }.

(** What a record does: bytes for a stream, a call of the caller's function, or
    of its lock. *)
Inductive log_out := LWrite (fp : Z) (text : list Z) | LCall (n : nat) (udata : Z) | LLock (n : nat) (udata : Z) (lock : bool).

(** [time]: at most 15 or 63 bytes of it fit. *)
Definition record_text (time : list Z) (ev : log_event) : option (list Z) :=
  name ← log_level_string (ev_level ev);
  head ← sprintf (str "%s %-5s %s:%d: ") [AStr (Some time); AStr (Some name); AStr (Some (ev_file ev)); ANum (ev_line ev)];
  Some (head ++ ev_text ev ++ [10]).
Definition STDERR : Z := 2.
Definition stdout_callback (udata : Z) (ev : log_event) : option log_out := t ← record_text (ev_clock ev) ev; Some (LWrite udata t).
Definition file_callback (udata : Z) (ev : log_event) : option log_out := t ← record_text (ev_date ev) ev; Some (LWrite udata t).
Definition call_back (cb : Callback) (ev : log_event) : option log_out :=
  match cb_fn cb with FileCallback => file_callback (cb_udata cb) ev | UserCallback n => Some (LCall n (cb_udata cb)) end.

Definition lock (b : bool) (l : log_state) : list log_out := match lock_fn l with Some (n, u) => [LLock n u b] | None => [] end.

Fixpoint callbacks_loop (slots : list (option Callback)) (ev : log_event) : option (list log_out) :=
  match slots with
  | Some cb :: slots =>
      out ← (if cb_level cb <=? ev_level ev then x ← call_back cb ev; Some [x] else Some []);
      rest ← callbacks_loop slots ev;
      Some (out ++ rest)
  | _ => Some []
  end.
Definition log_log (ev : log_event) (l : log_state) : option (list log_out) :=
  err ← (if negb (log_quiet l) && (log_level l <=? ev_level ev) then x ← stdout_callback STDERR ev; Some [x] else Some []);
  out ← callbacks_loop (log_callbacks l) ev;
  Some (lock true l ++ err ++ out ++ lock false l).

(** * Proofs *)

(** The slots in use come first. *)
Definition log_wf (l : log_state) (cbs : list Callback) : Prop :=
  log_callbacks l = (Some <$> cbs) ++ replicate (MAX_CALLBACKS - length cbs) None /\ (length cbs <= MAX_CALLBACKS)%nat.

Lemma log_static_wf : log_wf log_static [].
Proof. split; [done|cbn; lia]. Qed.
Lemma log_set_wf l cbs : log_wf l cbs -> (forall fn, log_wf (log_set_lock fn l) cbs) /\ (forall v, log_wf (log_set_level v l) cbs) /\ (forall b, log_wf (log_set_quiet b l) cbs).
Proof. done. Qed.

Lemma add_slot_used cb cbs n : add_slot cb ((Some <$> cbs) ++ replicate n None) = match n with O => None | S n => Some ((Some <$> cbs ++ [cb]) ++ replicate n None) end.
Proof. induction cbs as [|c cbs IH]; [by destruct n|]. cbn [fmap list_fmap app add_slot]. rewrite IH. by destruct n. Qed.

(** A callback gets the next slot, and the 33rd is refused. *)
Theorem log_add_callback_exact fn udata level l cbs : log_wf l cbs ->
  let '(rc, l') := log_add_callback fn udata level l in
  if (length cbs <? MAX_CALLBACKS)%nat then rc = 0 /\ log_wf l' (cbs ++ [{| cb_fn := fn; cb_udata := udata; cb_level := level |}])
  else rc = -1 /\ l' = l.
Proof.
  intros [E Hl]. unfold log_add_callback. rewrite E, add_slot_used. destruct (Nat.ltb_spec (length cbs) MAX_CALLBACKS) as [Hlt|Hge].
  - destruct (MAX_CALLBACKS - length cbs)%nat as [|n] eqn:En; [lia|]. split; [done|]. split; [|rewrite length_app; cbn [length]; lia].
    cbn [log_callbacks]. rewrite length_app. cbn [length]. by replace (MAX_CALLBACKS - (length cbs + 1))%nat with n by lia.
  - by replace (MAX_CALLBACKS - length cbs)%nat with O by lia.
Qed.

(** The text of a record of a level that has a name. *)
Lemma record_text_ok time ev : 0 <= ev_level ev <= 5 -> exists name, log_level_string (ev_level ev) = Some name /\
  record_text time ev = Some (time ++ [32] ++ (name ++ replicate (5 - length name) 32) ++ [32] ++ ev_file ev ++ [58] ++ dec (ev_line ev) ++ [58; 32] ++ ev_text ev ++ [10]).
Proof.
  intros Hl. unfold record_text, log_level_string. rewrite (proj2 (Z.ltb_ge _ _)) by lia.
  destruct (lookup_lt_is_Some_2 level_strings (Z.to_nat (ev_level ev))) as [name E]; [cbn; lia|]. rewrite E. exists name. split; [done|]. cbn [mbind option_bind].
  assert (sprintf (str "%s %-5s %s:%d: ") [AStr (Some time); AStr (Some name); AStr (Some (ev_file ev)); ANum (ev_line ev)] =
    Some (time ++ 32 :: ((name ++ replicate (5 - length name) 32) ++ 32 :: (ev_file ev ++ 58 :: (dec (ev_line ev) ++ [58; 32]))))) as -> by reflexivity.
  cbn [mbind option_bind]. repeat progress (rewrite <- ?app_assoc; cbn [app]). done.
Qed.

(** What a callback does with a record whose text is [t]. *)
Definition delivered (t : list Z) (cb : Callback) : log_out :=
  match cb_fn cb with FileCallback => LWrite (cb_udata cb) t | UserCallback n => LCall n (cb_udata cb) end.

Lemma callbacks_loop_ok cbs n ev t : record_text (ev_date ev) ev = Some t ->
  callbacks_loop ((Some <$> cbs) ++ replicate n None) ev = Some (delivered t <$> filter (fun cb => cb_level cb <= ev_level ev) cbs).
Proof.
  intros Et. induction cbs as [|cb cbs IH]; [by destruct n|]. cbn [fmap list_fmap app callbacks_loop]. rewrite IH.
  assert (call_back cb ev = Some (delivered t cb)) as Ec by (unfold call_back, file_callback, delivered; destruct (cb_fn cb); [by rewrite Et|done]).
  destruct (Z.leb_spec (cb_level cb) (ev_level ev)); [rewrite Ec, filter_cons_True by done|rewrite filter_cons_False by lia]; done.
Qed.

(** A record goes to the error stream unless the log is quiet or its level too
    low, then to every callback whose level it reaches, in the order they were
    added, each with the time in its own form, and all of it between taking
    and releasing the lock, when there is one. *)
Theorem log_log_exact ev l cbs : log_wf l cbs -> 0 <= ev_level ev <= 5 ->
  exists t1 t2, record_text (ev_clock ev) ev = Some t1 /\ record_text (ev_date ev) ev = Some t2 /\
    log_log ev l = Some (lock true l ++ (if negb (log_quiet l) && (log_level l <=? ev_level ev) then [LWrite STDERR t1] else []) ++
      (delivered t2 <$> filter (fun cb => cb_level cb <= ev_level ev) cbs) ++ lock false l).
Proof.
  intros [Ec _] Hl. destruct (record_text_ok (ev_clock ev) ev Hl) as (name & _ & E1). destruct (record_text_ok (ev_date ev) ev Hl) as (name2 & _ & E2).
  eexists _, _. split; [exact E1|]. split; [exact E2|]. unfold log_log, stdout_callback. rewrite Ec, (callbacks_loop_ok _ _ _ _ E2), E1. by destruct (_ && _).
Qed.

(** The debug switch of the engine: with [LOG_INFO] nothing below it is
    written, with [LOG_TRACE] everything is. *)
Lemma log_filtered ev l : log_wf l [] -> 0 <= ev_level ev <= 5 -> lock_fn l = None -> log_quiet l = false ->
  exists t, log_log ev l = Some (if log_level l <=? ev_level ev then [LWrite STDERR t] else []).
Proof.
  intros Hw Hl Hk Hq. destruct (log_log_exact ev l [] Hw Hl) as (t1 & t2 & _ & _ & E). exists t1. rewrite E. unfold lock. rewrite Hk, Hq.
  cbn [negb andb]. by destruct (_ <=? _).
Qed.

Example log_demo :
  log_log {| ev_level := 3; ev_file := str "io.c"; ev_line := 42; ev_text := str "pool low"; ev_clock := str "10:00:00"; ev_date := str "2026-01-01 10:00:00" |}
    (log_add_fp 7 2 (log_set_level 4 log_static)).2 = Some [LWrite 7 (str "2026-01-01 10:00:00 WARN  io.c:42: pool low" ++ [10])].
Proof. reflexivity. Qed.
