(* ===== verification/Args.v ===== *)
(** The command line (src/src/cmd.c, [parse_args]): tokens in place, by
    pointers into the line, and the tokenizer this implements. *)
From S2P Require Import Prelude Libc Text Printf.

Definition MAX_ARG_COUNT : nat := 16.

(** ** The code.  The pointer [p] is an offset into [input]; each loop gets the
    bytes from [p] to the end of the object, and returns how far [p] moves.
    [None]: a read behind the object. *)

(** [while ( *p && isspace( *p)) p++] *)
Fixpoint ws_loop (s : list Z) : option nat :=
  match s with
  | [] => None
  | c :: s => if (c =? 0) || negb (is_space c) then Some O else S <$> ws_loop s
  end.

(** [while ( *p && !isspace( *p)) p++] *)
Fixpoint word_loop (s : list Z) : option nat :=
  match s with
  | [] => None
  | c :: s => if (c =? 0) || is_space c then Some O else S <$> word_loop s
  end.

(** The loop behind an opening quote, with the bytes it leaves behind. *)
Fixpoint quote_loop (in_quotes : bool) (s : list Z) : option (list Z * bool * nat) :=
  match s with
  | [] => None
  | c :: s' =>
      if negb (c =? 0) && (in_quotes || negb (is_space c)) then
        let '(in_quotes, c) := if c =? 34 then (false, 0) else (in_quotes, c) in
        '(s', q, n) ← quote_loop in_quotes s';
        Some (c :: s', q, S n)
      else Some (s, in_quotes, O)
  end.

(** The outer loop, [n] arguments before the array is full.  The result is the
    line, the pointers and [in_quotes]. *)
Fixpoint args_loop (n : nat) (input : list Z) (p : nat) (argv : list nat) (in_quotes : bool) {struct n}
    : option (list Z * list nat * bool) :=
  c ← input !! p;
  if c =? 0 then Some (input, argv, in_quotes) else
  match n with
  | O => Some (input, argv, in_quotes)
  | S n =>
      k ← ws_loop (drop p input);
      let p := (p + k)%nat in
      c ← input !! p;
      if c =? 0 then Some (input, argv, in_quotes) else
      if c =? 34 then
        let p := S p in
        '(rest, q, k) ← quote_loop true (drop p input);
        args_loop n (take p input ++ rest) (p + k) (argv ++ [p]) q
      else
        k ← word_loop (drop p input);
        let e := (p + k)%nat in
        c ← input !! e;
        if c =? 0 then args_loop n input e (argv ++ [p]) in_quotes
        else args_loop n (<[e := 0]> input) (S e) (argv ++ [p]) in_quotes
  end.

(** The return value, [argv] and the line afterwards. *)
Definition parse_args (input : list Z) : option (Z * list nat * list Z) :=
  '(input, argv, in_quotes) ← args_loop MAX_ARG_COUNT input 0 [] false;
  Some (if in_quotes : bool then -1 else 0, argv, input).

(** ** The tokenizer it implements, on the text of the line.  [None]: a quote is
    not closed. *)
Fixpoint tokens (n : nat) (s : list Z) : option (list (list Z)) :=
  match n with
  | O => Some []
  | S n =>
      match skip_space s with
      | [] => Some []
      | c :: s' =>
          if c =? 34 then
            let '(tok, rest) := span_until (fun c => c =? 34) s' in
            match rest with
            | [] => None
            | _ :: rest => (tok ::.) <$> tokens n (span_until is_space rest).2
            end
          else
            let '(tok, rest) := span_until is_space (c :: s') in
            (tok ::.) <$> tokens n (drop 1 rest)
      end
  end.

(** ** Lemmas *)

Lemma ws_loop_spec s r :
  no_nul s -> ws_loop (s ++ 0 :: r) = Some (length s - length (skip_space s))%nat /\ s = take (length s - length (skip_space s)) s ++ skip_space s.
Proof.
  induction 1 as [|c s Hc Hs [IH1 IH2]]; [done|]. cbn [app ws_loop skip_space].
  destruct (Z.eqb_spec c 0); [done|]. pose proof (skip_space_length s). destruct (is_space c); cbn [orb negb].
  - rewrite IH1. cbn [length]. replace (S (length s) - length (skip_space s))%nat with (S (length s - length (skip_space s))) by lia.
    split; [done|]. cbn [take app]. by f_equal.
  - by rewrite Nat.sub_diag.
Qed.

Lemma word_loop_spec s r :
  no_nul s -> word_loop (s ++ 0 :: r) = Some (length (span_until is_space s).1).
Proof.
  induction 1 as [|c s Hc Hs IH]; [done|]. cbn [app word_loop span_until].
  destruct (Z.eqb_spec c 0); [done|]. destruct (is_space c); [done|]. cbn [orb]. rewrite IH.
  by destruct (span_until is_space s).
Qed.

(** Behind the closing quote only the bytes up to the next blank are read, and
    quotes among them overwritten. *)
Lemma quote_loop_closed s r :
  no_nul s -> exists t, quote_loop false (s ++ 0 :: r) =
    Some (t ++ (span_until is_space s).2 ++ 0 :: r, false, length t) /\ length t = length (span_until is_space s).1.
Proof.
  induction 1 as [|c s Hc Hs (t & IH & IHl)]; [by exists []|]. cbn [app quote_loop span_until].
  destruct (Z.eqb_spec c 0); [done|]. destruct (is_space c) eqn:E; cbn [negb orb andb]; [by exists []|].
  destruct (span_until is_space s) as [a b] eqn:Es. cbn [fst snd] in *.
  exists ((if c =? 34 then 0 else c) :: t). destruct (c =? 34); rewrite IH; cbn; by rewrite IHl.
Qed.

Lemma quote_loop_open s r :
  no_nul s ->
  match span_until (fun c => c =? 34) s with
  | (_, []) => exists n, quote_loop true (s ++ 0 :: r) = Some (s ++ 0 :: r, true, n) /\ n = length s
  | (tok, _ :: rest) => exists t, quote_loop true (s ++ 0 :: r) =
      Some (tok ++ 0 :: t ++ (span_until is_space rest).2 ++ 0 :: r, false, S (length tok + length t)) /\
      length t = length (span_until is_space rest).1
  end.
Proof.
  induction 1 as [|c s Hc Hs IH]; [by exists 0%nat|]. cbn [app quote_loop span_until].
  destruct (Z.eqb_spec c 0); [done|]. cbn [negb orb andb]. destruct (Z.eqb_spec c 34) as [->|].
  - destruct (quote_loop_closed s r Hs) as (t & -> & Hl). by exists t.
  - destruct (span_until (fun c => c =? 34) s) as [tok [|q rest]].
    + destruct IH as (k & -> & ->). by exists (S (length s)).
    + destruct IH as (t & -> & Hl). by exists t.
Qed.

(** [p] points to the string [t]. *)
Definition points (input : list Z) (p : nat) (t : list Z) : Prop := no_nul t /\ exists z, drop p input = t ++ 0 :: z.

Lemma points_cstr input p t : points input p t -> cstr (drop p input) = Some t.
Proof. intros [Ht (z & ->)]. by apply cstr_app. Qed.

(** What lies before the pointer is not touched again. *)
Lemma points_pre pre t z input : take (length (pre ++ t ++ 0 :: z)) input = pre ++ t ++ 0 :: z -> no_nul t -> points input (length pre) t.
Proof.
  intros E Ht. split; [done|]. rewrite <- (take_drop (length (pre ++ t ++ 0 :: z)) input), E. eexists.
  by rewrite <- app_assoc, drop_app_length, <- app_assoc.
Qed.

Lemma take_app_prefix (a b l : list Z) : take (length (a ++ b)) l = a ++ b -> take (length a) l = a.
Proof.
  intros E. replace (length a) with (Nat.min (length a) (length (a ++ b))) at 1 by (rewrite length_app; lia).
  by rewrite <- take_take, E, take_app_length.
Qed.

Definition args_result (pre : list Z) (len : nat) (argv : list nat) (ts : option (list (list Z))) (res : option (list Z * list nat * bool)) : Prop :=
  exists input' ptrs, res = Some (input', argv ++ ptrs, bool_decide (ts = None)) /\
    length input' = len /\ take (length pre) input' = pre /\
    match ts with Some ts => Forall2 (points input') ptrs ts | None => True end.

(** One more token, at the end of [pre], in front of what the rest of the loop
    does. *)
Lemma args_result_cons pre tok z len argv ts res :
  no_nul tok ->
  args_result (pre ++ tok ++ 0 :: z) len (argv ++ [length pre]) ts res ->
  args_result pre len argv ((tok ::.) <$> ts) res.
Proof.
  intros Ht (input' & ptrs & -> & Hl & Ep & Hts). exists input', (length pre :: ptrs). rewrite <- app_assoc.
  split; [by destruct ts|]. split; [done|]. split; [by apply take_app_prefix in Ep|].
  destruct ts as [ts|]; [|done]. cbn. constructor; [by eapply points_pre|done].
Qed.

Lemma args_result_pre pre a len argv ts res : args_result (pre ++ a) len argv ts res -> args_result pre len argv ts res.
Proof. intros (input' & ptrs & E & Hl & Ep & Hts). exists input', ptrs. apply take_app_prefix in Ep. done. Qed.

Lemma args_result_end pre a s argv n :
  match n with O => True | S _ => skip_space s = [] end ->
  args_result pre (length (pre ++ a)) argv (tokens n s) (Some (pre ++ a, argv, false)).
Proof.
  intros Hn. exists (pre ++ a), []. rewrite app_nil_r. assert (tokens n s = Some []) as ->.
  { destruct n; [done|]. cbn [tokens]. by rewrite Hn. }
  split; [done|]. split; [done|]. split; [by rewrite take_app_length|constructor].
Qed.

Lemma args_loop_nul n input p argv q : input !! p = Some 0 -> args_loop n input p argv q = Some (input, argv, q).
Proof. intros E. destruct n; cbn [args_loop]; by rewrite E. Qed.

Lemma lookup_mid (a : list Z) x b : (a ++ x :: b) !! length a = Some x.
Proof. by rewrite lookup_app_r, Nat.sub_diag by lia. Qed.

(** What the outer loop gives from any pointer on. *)
Definition args_loop_correct (n : nat) : Prop := forall pre s r argv,
  no_nul s ->
  args_result pre (length (pre ++ s ++ 0 :: r)) argv (tokens n s) (args_loop n (pre ++ s ++ 0 :: r) (length pre) argv false).

Lemma args_loop_word n pre s r argv :
  args_loop_correct n -> no_nul s ->
  let '(tok, rest) := span_until is_space s in
  let input := pre ++ s ++ 0 :: r in
  let e := (length pre + length tok)%nat in
  args_result pre (length input) argv ((tok ::.) <$> tokens n (drop 1 rest))
    (c ← input !! e;
     if c =? 0 then args_loop n input e (argv ++ [length pre]) false
     else args_loop n (<[e := 0]> input) (S e) (argv ++ [length pre]) false).
Proof.
  intros IH Hs. pose proof (span_until_spec is_space s) as Hsp. destruct (span_until is_space s) as [tok rest].
  destruct Hsp as (-> & _ & Hr). apply no_nul_app in Hs as [Ht Hs]. cbn zeta.
  rewrite <- length_app. destruct rest as [|x rest].
  - rewrite app_nil_r, app_assoc, lookup_mid. cbn [mbind option_bind]. rewrite Z.eqb_refl.
    rewrite args_loop_nul by apply lookup_mid. apply args_result_cons with (z := r); [done|].
    rewrite <- app_assoc. cbn [drop].
    pose proof (args_result_end (pre ++ tok ++ 0 :: r) [] [] (argv ++ [length pre]) n) as H. rewrite app_nil_r in H.
    apply H. by destruct n.
  - apply Forall_cons_iff in Hs as [Hx Hs]. rewrite <- app_assoc. cbn [app]. rewrite app_assoc, lookup_mid. cbn [mbind option_bind].
    destruct (Z.eqb_spec x 0); [done|]. rewrite insert_app_r_alt, Nat.sub_diag by lia. cbn [insert list_insert drop].
    apply args_result_cons with (z := []); [done|].
    specialize (IH (pre ++ tok ++ [0]) rest r (argv ++ [length pre]) Hs).
    replace (length ((pre ++ tok) ++ x :: rest ++ 0 :: r)) with (length ((pre ++ tok ++ [0]) ++ rest ++ 0 :: r)) by (repeat (rewrite ?length_app; cbn [length app]); lia).
    replace ((pre ++ tok) ++ 0 :: rest ++ 0 :: r) with ((pre ++ tok ++ [0]) ++ rest ++ 0 :: r) by by rewrite <- !app_assoc.
    by replace (S (length (pre ++ tok))) with (length (pre ++ tok ++ [0])) by (repeat (rewrite ?length_app; cbn [length app]); lia).
Qed.

Lemma args_loop_quoted n pre s r argv :
  args_loop_correct n -> no_nul s ->
  let input := pre ++ s ++ 0 :: r in
  args_result pre (length input) argv
    (let '(tok, rest) := span_until (fun c => c =? 34) s in
     match rest with [] => None | _ :: rest => (tok ::.) <$> tokens n (span_until is_space rest).2 end)
    ('(rest, q, k) ← quote_loop true (s ++ 0 :: r);
     args_loop n (pre ++ rest) (length pre + k) (argv ++ [length pre]) q).
Proof.
  intros IH Hs. cbn zeta. pose proof (quote_loop_open s r Hs) as Hq. pose proof (span_until_spec (fun c => c =? 34) s) as Hsp.
  destruct (span_until _ s) as [tok [|q rest]].
  - destruct Hq as (k & -> & ->). cbn [mbind option_bind]. rewrite args_loop_nul.
    2: { rewrite <- length_app, app_assoc. apply lookup_mid. }
    exists (pre ++ s ++ 0 :: r), [length pre]. split; [done|]. split; [done|]. split; [by rewrite take_app_length|done].
  - destruct Hq as (t & -> & Ht). cbn [mbind option_bind]. destruct Hsp as (-> & _ & _).
    apply no_nul_app in Hs as [Hn Hs]. apply Forall_cons_iff in Hs as [_ Hs].
    apply args_result_cons with (z := t); [done|].
    pose proof (span_until_spec is_space rest) as Hsp. destruct (span_until is_space rest) as [a b]. cbn [fst snd] in *.
    destruct Hsp as (-> & _ & _). apply no_nul_app in Hs as [_ Hb].
    specialize (IH (pre ++ tok ++ 0 :: t) b r (argv ++ [length pre]) Hb).
    replace (pre ++ tok ++ 0 :: t ++ b ++ 0 :: r) with ((pre ++ tok ++ 0 :: t) ++ b ++ 0 :: r) by by rewrite <- !app_assoc.
    replace (length pre + S (length tok + length t))%nat with (length (pre ++ tok ++ 0 :: t)) by (repeat (rewrite ?length_app; cbn [length app]); lia).
    replace (length (pre ++ (tok ++ q :: a ++ b) ++ 0 :: r)) with (length ((pre ++ tok ++ 0 :: t) ++ b ++ 0 :: r)); [done|].
    rewrite !length_app. cbn. rewrite !length_app. cbn. lia.
Qed.

Lemma args_loop_spec n : args_loop_correct n.
Proof.
  induction n as [|n IH]; intros pre s r argv Hs.
  all: destruct s as [|c0 s0]; [rewrite args_loop_nul by apply lookup_mid; by apply args_result_end|].
  all: cbn [args_loop app]; rewrite lookup_mid; cbn [mbind option_bind]; assert (c0 <> 0) by (by apply (Forall_inv Hs));
    destruct (Z.eqb_spec c0 0); [done|].
  { by apply args_result_end. }
  rewrite drop_app_length. change (c0 :: s0 ++ 0 :: r) with ((c0 :: s0) ++ 0 :: r).
  revert Hs. generalize (c0 :: s0). intros s Hs. destruct (ws_loop_spec s r Hs) as [-> Es]. cbn [mbind option_bind].
  set (w := take _ s) in *. assert (length s - length (skip_space s) = length w)%nat as ->.
  { apply (f_equal length) in Es. rewrite length_app in Es. lia. }
  cbn [tokens]. rewrite Es in Hs. apply no_nul_app in Hs as [_ Hs].
  assert (pre ++ s ++ 0 :: r = pre ++ (w ++ skip_space s) ++ 0 :: r) as -> by by rewrite <- Es. clearbody w. clear Es.
  rewrite <- (app_assoc w), (app_assoc pre w), <- length_app. apply args_result_pre with (a := w). generalize (pre ++ w). clear pre. intros pre.
  destruct (skip_space s) as [|c s'] eqn:E2.
  { cbn [app]. rewrite lookup_mid. cbn [mbind option_bind]. rewrite Z.eqb_refl. by apply (args_result_end pre (0 :: r) [] argv 0). }
  cbn [app]. rewrite lookup_mid. cbn [mbind option_bind]. destruct (Z.eqb_spec c 0) as [|Hc]; [by apply Forall_inv in Hs|].
  destruct (Z.eqb_spec c 34) as [->|].
  - apply Forall_cons_iff in Hs as [_ Hs]. apply args_result_pre with (a := [34]).
    replace (pre ++ 34 :: s' ++ 0 :: r) with ((pre ++ [34]) ++ s' ++ 0 :: r) by by rewrite <- app_assoc.
    replace (S (length pre)) with (length (pre ++ [34])) by (rewrite length_app; cbn; lia).
    rewrite drop_app_length, take_app_length. by apply args_loop_quoted.
  - change (c :: s' ++ 0 :: r) with ((c :: s') ++ 0 :: r). rewrite drop_app_length, word_loop_spec by done. cbn [mbind option_bind].
    pose proof (args_loop_word n pre (c :: s') r argv IH Hs) as HW. by destruct (span_until is_space (c :: s')).
Qed.

Lemma span_until_no_nul f s : no_nul s -> no_nul (span_until f s).1 /\ no_nul (span_until f s).2.
Proof. intros Hs. pose proof (span_until_spec f s) as H. destruct (span_until f s) as [a b]. destruct H as (-> & _). by apply no_nul_app in Hs. Qed.

Lemma skip_space_no_nul s : no_nul s -> no_nul (skip_space s).
Proof. induction 1 as [|c s Hc Hs IH]; [constructor|]. cbn. destruct (is_space c); [done|by constructor]. Qed.

Lemma tokens_no_nul n s ts : no_nul s -> tokens n s = Some ts -> Forall no_nul ts.
Proof.
  revert s ts. induction n as [|n IH]; intros s ts Hs; cbn [tokens]; [intros [= <-]; constructor|].
  pose proof (skip_space_no_nul s Hs) as Hk. destruct (skip_space s) as [|c s']; [intros [= <-]; constructor|].
  apply Forall_cons_iff in Hk as [Hc Hk]. destruct (c =? 34).
  - destruct (span_until_no_nul (fun c => c =? 34) s' Hk) as [Ha Hb]. destruct (span_until _ s') as [tok [|q rest]]; [done|].
    intros (ts' & E & ->)%fmap_Some. constructor; [done|]. eapply IH; [|done].
    apply span_until_no_nul. by apply Forall_cons_iff in Hb as [_ Hb].
  - destruct (span_until_no_nul is_space (c :: s')) as [Ha Hb]; [by constructor|]. destruct (span_until _ (c :: s')) as [tok rest].
    intros (ts' & E & ->)%fmap_Some. constructor; [done|]. eapply IH; [|done]. by apply no_nul_drop.
Qed.

Lemma parse_args_spec s r :
  no_nul s ->
  exists rc argv input', parse_args (s ++ 0 :: r) = Some (rc, argv, input') /\ length input' = length (s ++ 0 :: r) /\
    match tokens MAX_ARG_COUNT s with
    | None => rc = -1
    | Some ts => rc = 0 /\ (length ts <= MAX_ARG_COUNT)%nat /\ mapM (fun p => cstr (drop p input')) argv = Some ts
    end.
Proof.
  intros Hs. destruct (args_loop_spec MAX_ARG_COUNT [] s r [] Hs) as (input' & ptrs & E & Hl & _ & Hts).
  unfold parse_args. cbn [app length] in E. cbn [app] in Hl. rewrite E. cbn [mbind option_bind]. eexists _, ptrs, input'. split; [done|]. split; [done|].
  assert (forall n s ts, tokens n s = Some ts -> (length ts <= n)%nat) as Hn.
  { clear. induction n as [|n IH]; intros s ts; cbn [tokens]; [intros [= <-]; done|].
    destruct (skip_space s) as [|c s']; [intros [= <-]; cbn; lia|].
    destruct (c =? 34); [destruct (span_until _ _) as [tok [|q rest]]; [done|]|destruct (span_until _ _) as [tok rest]];
      intros (ts' & E & ->)%fmap_Some; apply IH in E; cbn; lia. }
  destruct (tokens MAX_ARG_COUNT s) as [ts|] eqn:Et; [|done]. split; [done|]. split; [by apply Hn in Et|].
  apply mapM_Some. eapply list.Forall2_impl; [exact Hts|]. intros p t. apply points_cstr.
Qed.

(** C31 The in-place parser is the tokenizer.  On a line with its NUL, in an
    object with anything behind it, [parse_args] is defined; it fails just
    when a quote is left open among the first sixteen arguments; otherwise
    [argv] points to the tokens, one after another, inside a line of the same
    length: blanks separate, a quoted token holds blanks, and what sticks to
    the closing quote is dropped. *)
Theorem parse_args_tokens s r :
  no_nul s ->
  exists rc argv input', parse_args (s ++ 0 :: r) = Some (rc, argv, input') /\ length input' = length (s ++ 0 :: r) /\
    match tokens MAX_ARG_COUNT s with
    | None => rc = -1
    | Some ts => rc = 0 /\ (length ts <= MAX_ARG_COUNT)%nat /\ mapM (fun p => cstr (drop p input')) argv = Some ts
    end.
Proof. apply parse_args_spec. Qed.

Lemma parse_args_tokens_witness :
  no_nul (str " SET  logpkt on ") /\
  exists rc argv input', parse_args (str " SET  logpkt on " ++ 0 :: [7]) = Some (rc, argv, input') /\ rc = 0 /\
    mapM (fun p => cstr (drop p input')) argv = Some [str "SET"; str "logpkt"; str "on"].
Proof.
  split; [by_compute|]. destruct (parse_args_tokens (str " SET  logpkt on ") [7] ltac:(by_compute)) as (rc & argv & input' & E & _ & H).
  exists rc, argv, input'. split; [done|]. destruct H as (-> & _ & H). done.
Defined.
