(* ===== verification/Cmd.v ===== *)
(** The command framework (src/src/cmd.c, cmd.h): the response buffer, the
    command table, its dispatcher and its help. *)
From S2P Require Import Prelude Libc Text Printf HashTable Args.

Definition color (code : string) : list Z := 1 :: 27 :: str code ++ [2].
Arguments color _%_string_scope.
Definition C_GRAY : list Z := color "[90m".
Definition C_YELLOW : list Z := color "[1;33m".
Definition C_RESET : list Z := color "[0m".
Definition C_GREEN : list Z := color "[92m".
Definition C_CYAN : list Z := color "[96m".
Definition C_RED : list Z := color "[91m".

Definition MAX_RESP_BUF : nat := 4096.

(** * The response buffer *)

Record cmd_resp_t := { r_buf : list Z; r_size : nat; r_offset : nat }.
Definition resp_set (buf : list Z) (offset : nat) (r : cmd_resp_t) : cmd_resp_t :=
  {| r_buf := buf; r_size := r_size r; r_offset := offset |}.

(** [vsnprintf(buf + off, available, ...)] of a text: what the buffer holds
    afterwards, and the length of the text. *)
Definition vsnprintf (off available : nat) (t buf : list Z) : option (list Z * Z) :=
  match available with
  | O => Some (buf, Z.of_nat (length t))
  | S n => buf ← put_bytes off (take n t ++ [0]) buf; Some (buf, Z.of_nat (length t))
  end.

Definition cmd_resp_printf (r : cmd_resp_t) (fmt : list Z) (args : list fmt_arg) : option cmd_resp_t :=
  if (r_size r <=? r_offset r)%nat then Some r else
  let available := to_int32 (Z.of_nat (r_size r - r_offset r)) in
  if available <? 0 then None else
  t ← sprintf fmt args;
  '(buf, written) ← vsnprintf (r_offset r) (Z.to_nat available) t (r_buf r);
  Some (resp_set buf (if 0 <? written then (r_offset r + Z.to_nat (if written <? available then written else available - 1)%Z)%nat
                      else r_offset r) r).

Definition cmd_resp_printf_internal (r : cmd_resp_t) (fmt : list Z) (args : list fmt_arg) : option cmd_resp_t :=
  if (r_size r =? 0)%nat || (r_size r - 1 <=? r_offset r)%nat then Some r else
  let available := (r_size r - r_offset r)%nat in
  t ← sprintf fmt args;
  '(buf, n) ← vsnprintf (r_offset r) available t (r_buf r);
  if 0 <? n then
    let written := Z.to_nat n in
    let written := if (available <=? written)%nat then (available - 1)%nat else written in
    let offset := (r_offset r + written)%nat in
    buf ← put_bytes offset [0] buf;
    Some (resp_set buf offset r)
  else Some (resp_set buf (r_offset r) r).

Definition cmd_resp_print_raw (r : cmd_resp_t) (fmt : list Z) (args : list fmt_arg) : option cmd_resp_t :=
  cmd_resp_printf_internal r fmt args.

Definition cmd_resp_red (r : cmd_resp_t) (fmt : list Z) (args : list fmt_arg) : option cmd_resp_t :=
  r ← cmd_resp_print_raw r (str "%s") [AStr (Some C_RED)];
  r ← cmd_resp_printf_internal r fmt args;
  cmd_resp_print_raw r (str "%s") [AStr (Some C_RESET)].

Definition cmd_resp_green (r : cmd_resp_t) (fmt : list Z) (args : list fmt_arg) : option cmd_resp_t :=
  r ← cmd_resp_print_raw r (str "%s") [AStr (Some C_GREEN)];
  r ← cmd_resp_printf_internal r fmt args;
  cmd_resp_print_raw r (str "%s") [AStr (Some C_RESET)].

Definition cmd_resp_cyan (r : cmd_resp_t) (fmt : list Z) (args : list fmt_arg) : option cmd_resp_t :=
  r ← cmd_resp_print_raw r (str "%s") [AStr (Some C_CYAN)];
  r ← cmd_resp_printf_internal r fmt args;
  cmd_resp_print_raw r (str "%s") [AStr (Some C_RESET)].

(** * The command table *)

(** Texts without their NUL; [None] is NULL.  The array ends before the entry
    without a name. *)
Record cmd_entry_t (H : Type) := {
  ce_group : option (list Z); ce_name : list Z; ce_help : option (list Z); ce_usage : option (list Z);
  ce_min_argc : nat; ce_handler : option H
}.
Arguments ce_group {H}.
Arguments ce_name {H}.
Arguments ce_help {H}.
Arguments ce_usage {H}.
Arguments ce_min_argc {H}.
Arguments ce_handler {H}.

Definition in_group {H} (group : list Z) (e : cmd_entry_t H) : bool :=
  match ce_group e with Some g => strcaseeq g group | None => false end.
Definition is_root {H} (e : cmd_entry_t H) : bool := match ce_group e with Some _ => false | None => true end.

(** [argv[i]], a string.  The array has [argc] pointers. *)
Definition arg (argv : list (list Z)) (i : nat) : option (list Z) := p ← argv !! i; cstr p.

(** [s ? s : ""] *)
Definition or_empty (s : option (list Z)) : fmt_arg := AStr (Some (from_option id [] s)).

Definition COL1_WIDTH : Z := 15.
Definition COL2_WIDTH : Z := 30.

Section cmd.
Context {H : Type}.

(** ** Help *)

Definition help_usage (e : cmd_entry_t H) : option (list Z) :=
  match ce_group e with
  | Some g => snprintf 128 (str "(Usage: %s %s %s)") [AStr (Some g); AStr (Some (ce_name e)); or_empty (ce_usage e)]
  | None => snprintf 128 (str "(Usage: %s %s)") [AStr (Some (ce_name e)); or_empty (ce_usage e)]
  end.

(** The row of a sub-command in the global help. *)
Definition help_sub (parent : list Z) (r : cmd_resp_t) (e : cmd_entry_t H) : option cmd_resp_t :=
  if in_group parent e then
    sub_name_fmt ← snprintf 64 (str "  > %s") [AStr (Some (ce_name e))];
    sub_usage ← snprintf 128 (str "(Usage: %s %s %s)") [AStr (ce_group e); AStr (Some (ce_name e)); or_empty (ce_usage e)];
    cmd_resp_cyan r (str "%-*s %-*s %s" ++ [10])
      [ANum COL1_WIDTH; AStr (Some []); ANum COL2_WIDTH; AStr (Some sub_name_fmt); AStr (Some sub_usage)]
  else Some r.

Definition help_match (group : option (list Z)) (e : cmd_entry_t H) : bool :=
  match group with None => is_root e | Some g => in_group g e end.

Definition help_row (table : list (cmd_entry_t H)) (group : option (list Z)) (r : cmd_resp_t) (e : cmd_entry_t H)
    : option cmd_resp_t :=
  if help_match group e then
    usage_str ← help_usage e;
    r ← cmd_resp_green r (str "%-*s %-*s %s" ++ [10])
          [ANum COL1_WIDTH; AStr (Some (ce_name e)); ANum COL2_WIDTH; or_empty (ce_help e); AStr (Some usage_str)];
    match group with None => foldM (help_sub (ce_name e)) r table | Some _ => Some r end
  else Some r.

(** [found_any] is whether some row matched. *)
Definition cmd_group_help (table : option (list (cmd_entry_t H))) (group : option (list Z)) (r : cmd_resp_t)
    : option (Z * cmd_resp_t) :=
  match table with
  | None => Some (-1, r)
  | Some table =>
      r ← match group with
          | Some g => cmd_resp_printf r ([10] ++ C_GRAY ++ str "%-*s %-*s %s [ Group: %s ]" ++ C_RESET ++ [10; 10])
              [ANum COL1_WIDTH; AStr (Some (str "SUB-COMMAND")); ANum COL2_WIDTH; AStr (Some (str "DESCRIPTION"));
               AStr (Some (str "USAGE")); AStr (Some g)]
          | None => cmd_resp_printf r (C_GRAY ++ [10] ++ str "%-*s %-*s %s" ++ C_RESET ++ [10; 10])
              [ANum COL1_WIDTH; AStr (Some (str "COMMAND")); ANum COL2_WIDTH; AStr (Some (str "DESCRIPTION / SUB"));
               AStr (Some (str "USAGE"))]
          end;
      r ← foldM (help_row table group) r table;
      if existsb (help_match group) table then Some (0, r) else
      match group with
      | Some g => r ← cmd_resp_red r (str "ERR: Unknown group or command '%s'." ++ [10]) [AStr (Some g)]; Some (-1, r)
      | None => Some (-1, r)
      end
  end.

Definition cmd_handle_help (table : option (list (cmd_entry_t H))) (argv : list (list Z)) (r : cmd_resp_t)
    : option (Z * cmd_resp_t) :=
  '(_, r) ← (if (1 <? length argv)%nat then g ← arg argv 1; cmd_group_help table (Some g) r
             else cmd_group_help table None r);
  Some (0, r).

(** ** The dispatcher.  [ctx] tells whether the context is not NULL; [W] is
    what handlers change. *)
Context {W : Type} (call : H -> bool -> list (list Z) -> cmd_resp_t -> W -> option (Z * cmd_resp_t * W)).

(** A row that was found, with its handler and its arguments checked. *)
Definition cmd_invoke (e : cmd_entry_t H) (ctx : bool) (argv : list (list Z)) (r : cmd_resp_t) (w : W)
    : option (Z * cmd_resp_t * W) :=
  match ce_handler e with
  | None =>
      r ← cmd_resp_red r (str "ERR: Command '%s' has no executor. Try 'HELP %s' for details.")
            [AStr (Some (ce_name e)); AStr (Some (ce_name e))];
      Some (0, r, w)
  | Some h =>
      if (length argv <? ce_min_argc e)%nat then
        r ← cmd_resp_red r (str "ERR: Usage: %s %s") [AStr (Some (ce_name e)); AStr (ce_usage e)];
        Some (0, r, w)
      else call h ctx argv r w
  end.

(** The line and the response array, [None] for NULL, and the array's size.
    The result: the return value, the array, and what the handler changed. *)
Definition cmd_dispatch (table : option (list (cmd_entry_t H))) (ctx : bool) (input output : option (list Z)) (max_len : nat) (w : W)
    : option (Z * option (list Z) * W) :=
  match table, input, output with
  | Some table, Some input, Some buf =>
      if (max_len =? 0)%nat then Some (-1, output, w) else
      let resp := {| r_buf := buf; r_size := max_len; r_offset := 0 |} in
      '(rc, argv, input) ← parse_args input;
      if negb (rc =? 0) then
        r ← cmd_resp_red resp (str "ERR: Unbalanced quotes in command line") [];
        Some (-1, Some (r_buf r), w)
      else if (length argv =? 0)%nat then Some (-1, Some (r_buf resp), w) else
      let argv := (fun p => drop p input) <$> argv in
      name ← arg argv 0;
      match find (fun e => strcaseeq name (ce_name e)) table with
      | Some e => '(rc, r, w) ← cmd_invoke e ctx argv resp w; Some (rc, Some (r_buf r), w)
      | None =>
          r ← cmd_resp_red resp (str "ERR: Unknown command '%.32s'") [AStr (Some name)];
          Some (-1, Some (r_buf r), w)
      end
  | _, _, _ => Some (-1, output, w)
  end.
End cmd.

(** * Lemmas: every print appends, up to the size *)

Record resp_ok (r : cmd_resp_t) : Prop := {
  ro_len : length (r_buf r) = r_size r;
  ro_off : (r_offset r < r_size r)%nat;
  ro_size : Z.of_nat (r_size r) < 2 ^ 31;
  ro_nul : r_buf r !! r_offset r = Some 0;
  ro_text : no_nul (take (r_offset r) (r_buf r))
}.
Definition resp_text (r : cmd_resp_t) : list Z := take (r_offset r) (r_buf r).

(** [r'] is [r] with [t] printed. *)
Definition says (r r' : cmd_resp_t) (t : list Z) : Prop :=
  resp_ok r' /\ r_size r' = r_size r /\ resp_text r' = take (r_size r - 1) (resp_text r ++ t).

Lemma resp_text_length r : resp_ok r -> length (resp_text r) = r_offset r.
Proof. intros Hr. unfold resp_text. rewrite length_take, ro_len by done. pose proof (ro_off _ Hr). lia. Qed.

Lemma says_nil r : resp_ok r -> says r r [].
Proof.
  intros Hr. split; [done|]. split; [done|]. rewrite app_nil_r, take_ge; [done|].
  rewrite resp_text_length by done. pose proof (ro_off _ Hr). lia.
Qed.

Lemma says_trans r1 r2 r3 t u : says r1 r2 t -> says r2 r3 u -> says r1 r3 (t ++ u).
Proof.
  intros (H2 & S2 & T2) (H3 & S3 & T3). split; [done|]. split; [congruence|]. rewrite T3, T2, S2.
  set (n := (r_size r1 - 1)%nat). rewrite app_assoc. generalize (resp_text r1 ++ t). intros x.
  rewrite !take_app, length_take, take_take, Nat.min_id. f_equal.
  destruct (decide (length x <= n)%nat); [by rewrite Nat.min_r by lia|]. rewrite Nat.min_l by lia.
  by rewrite Nat.sub_diag, (proj2 (Nat.sub_0_le n (length x))) by lia.
Qed.

(** What [vsnprintf] leaves behind at the end of a text. *)
Lemma resp_append r t off :
  resp_ok r -> no_nul t ->
  off = (r_offset r + Nat.min (length t) (r_size r - r_offset r - 1))%nat ->
  exists buf, vsnprintf (r_offset r) (r_size r - r_offset r) t (r_buf r) = Some (buf, Z.of_nat (length t)) /\
    says r (resp_set buf off r) t.
Proof.
  intros Hr Ht ->. pose proof (ro_off _ Hr) as Ho. pose proof (ro_len _ Hr) as Hl. unfold vsnprintf.
  destruct (r_size r - r_offset r)%nat as [|n] eqn:E; [lia|]. set (u := take n t).
  assert (length u = Nat.min (length t) n) as Hu by (unfold u; rewrite length_take; lia).
  rewrite put_bytes_Some by (rewrite length_app; cbn; lia). cbn [mbind option_bind]. eexists. split; [done|].
  replace (S n - 1)%nat with n by lia. rewrite <- Hu.
  assert (length (take (r_offset r) (r_buf r)) = r_offset r) as Hto by (rewrite length_take; lia).
  set (rest := drop _ (r_buf r)).
  assert (take (r_offset r + length u) (take (r_offset r) (r_buf r) ++ (u ++ [0]) ++ rest) = take (r_offset r) (r_buf r) ++ u) as Htk.
  { rewrite <- app_assoc, app_assoc. replace (r_offset r + length u)%nat with (length (take (r_offset r) (r_buf r) ++ u)) by (rewrite length_app; lia).
    by rewrite take_app_length. }
  split; [constructor; cbn [resp_set r_buf r_size r_offset]|].
  - unfold rest. rewrite !length_app, length_drop, Hto. cbn. rewrite ?length_app. cbn. lia.
  - lia.
  - apply Hr.
  - rewrite <- app_assoc, app_assoc. replace (r_offset r + length u)%nat with (length (take (r_offset r) (r_buf r) ++ u)) by (rewrite length_app; lia).
    apply lookup_mid.
  - rewrite Htk. apply no_nul_app. split; [apply Hr|by apply no_nul_take].
  - split; [done|]. unfold resp_text at 1. cbn [resp_set r_buf r_offset]. rewrite Htk. unfold resp_text, u.
    rewrite take_app, Hto, take_take. f_equal; [f_equal; lia|f_equal; lia].
Qed.

Lemma cmd_resp_printf_says r f args t :
  resp_ok r -> sprintf f args = Some t -> no_nul t -> exists r', cmd_resp_printf r f args = Some r' /\ says r r' t.
Proof.
  intros Hr E Ht. pose proof (ro_off _ Hr). pose proof (ro_size _ Hr). unfold cmd_resp_printf.
  destruct (Nat.leb_spec (r_size r) (r_offset r)); [lia|].
  assert (to_int32 (Z.of_nat (r_size r - r_offset r)) = Z.of_nat (r_size r - r_offset r)) as ->.
  { unfold to_int32. rewrite Z.mod_small by lia. lia. }
  destruct (Z.ltb_spec (Z.of_nat (r_size r - r_offset r)) 0); [lia|]. rewrite E. cbn [mbind option_bind]. rewrite Nat2Z.id.
  destruct (resp_append r t _ Hr Ht eq_refl) as (buf & -> & Hs). cbn [mbind option_bind]. eexists. split; [done|].
  match goal with |- says _ (resp_set _ ?o _) _ => assert (o = r_offset r + Nat.min (length t) (r_size r - r_offset r - 1))%nat as -> end; [|done].
  destruct (Z.ltb_spec 0 (Z.of_nat (length t))); [|lia]. destruct (Z.ltb_spec (Z.of_nat (length t)) (Z.of_nat (r_size r - r_offset r))); lia.
Qed.

Lemma cmd_resp_printf_internal_says r f args t :
  resp_ok r -> sprintf f args = Some t -> no_nul t -> exists r', cmd_resp_printf_internal r f args = Some r' /\ says r r' t.
Proof.
  intros Hr E Ht. pose proof (ro_off _ Hr). unfold cmd_resp_printf_internal.
  destruct (Nat.eqb_spec (r_size r) 0); [lia|]. cbn [orb]. destruct (Nat.leb_spec (r_size r - 1) (r_offset r)).
  { exists r. split; [done|]. split; [done|]. split; [done|].
    rewrite take_app, resp_text_length by done. replace (r_size r - 1 - r_offset r)%nat with 0%nat by lia.
    rewrite take_0, app_nil_r, take_ge; [done|]. rewrite resp_text_length by done. lia. }
  rewrite E. cbn [mbind option_bind]. destruct (resp_append r t _ Hr Ht eq_refl) as (buf & -> & Hs). cbn [mbind option_bind].
  destruct (Z.ltb_spec 0 (Z.of_nat (length t))).
  - rewrite Nat2Z.id. match goal with |- context [put_bytes ?o _ _] => assert (o = r_offset r + Nat.min (length t) (r_size r - r_offset r - 1))%nat as -> end.
    { destruct (Nat.leb_spec (r_size r - r_offset r) (length t)); lia. }
    pose proof (ro_nul _ (proj1 Hs)) as Hn. cbn [resp_set r_buf r_offset] in Hn. set (o := (r_offset r + _)%nat) in *.
    assert (put_bytes o [0] buf = Some buf) as ->; [|by eexists].
    pose proof (lookup_lt_Some _ _ _ Hn). rewrite put_bytes_Some by (cbn; lia). f_equal. cbn [length app].
    by rewrite Nat.add_1_r, (take_drop_middle buf o 0).
  - eexists. split; [done|]. destruct t; [|cbn in *; lia]. cbn [length Nat.min] in Hs. by rewrite Nat.add_0_r in Hs.
Qed.

Lemma resp_cstr r : resp_ok r -> cstr (r_buf r) = Some (resp_text r).
Proof.
  intros Hr. rewrite <- (take_drop (r_offset r) (r_buf r)). pose proof (ro_nul _ Hr) as Hn.
  erewrite drop_S by done. apply cstr_app. apply Hr.
Qed.

(** The three stages of the coloured prints. *)
Lemma color_says c r f args t :
  resp_ok r -> no_nul c -> sprintf f args = Some t -> no_nul t ->
  exists r', (r ← cmd_resp_print_raw r (str "%s") [AStr (Some c)]; r ← cmd_resp_printf_internal r f args;
              cmd_resp_print_raw r (str "%s") [AStr (Some C_RESET)]) = Some r' /\ says r r' (c ++ t ++ C_RESET).
Proof.
  intros Hr Hc E Ht. unfold cmd_resp_print_raw.
  destruct (cmd_resp_printf_internal_says r (str "%s") [AStr (Some c)] c Hr) as (r1 & -> & S1); [|done|].
  { unfold sprintf, pad. cbn. by rewrite app_nil_r. }
  cbn [mbind option_bind]. destruct (cmd_resp_printf_internal_says r1 f args t (proj1 S1) E Ht) as (r2 & -> & S2).
  cbn [mbind option_bind].
  destruct (cmd_resp_printf_internal_says r2 (str "%s") [AStr (Some C_RESET)] C_RESET (proj1 S2)) as (r3 & -> & S3); [done|by_compute|].
  exists r3. split; [done|]. eapply says_trans; [exact S1|]. by eapply says_trans.
Qed.

Lemma cmd_resp_red_says r f args t :
  resp_ok r -> sprintf f args = Some t -> no_nul t -> exists r', cmd_resp_red r f args = Some r' /\ says r r' (C_RED ++ t ++ C_RESET).
Proof. intros. apply color_says; [done|by_compute|done..]. Qed.
Lemma cmd_resp_green_says r f args t :
  resp_ok r -> sprintf f args = Some t -> no_nul t -> exists r', cmd_resp_green r f args = Some r' /\ says r r' (C_GREEN ++ t ++ C_RESET).
Proof. intros. apply color_says; [done|by_compute|done..]. Qed.
Lemma cmd_resp_cyan_says r f args t :
  resp_ok r -> sprintf f args = Some t -> no_nul t -> exists r', cmd_resp_cyan r f args = Some r' /\ says r r' (C_CYAN ++ t ++ C_RESET).
Proof. intros. apply color_says; [done|by_compute|done..]. Qed.

(** A print of something, in bounds. *)
Definition prints (r : cmd_resp_t) (m : option cmd_resp_t) : Prop := exists r' t, m = Some r' /\ says r r' t.

Lemma prints_ret r : resp_ok r -> prints r (Some r).
Proof. intros Hr. exists r, []. split; [done|by apply says_nil]. Qed.

Lemma prints_bind r m f : prints r m -> (forall r', resp_ok r' -> prints r' (f r')) -> prints r (m ≫= f).
Proof.
  intros (r1 & t & -> & S1) Hf. destruct (Hf r1 (proj1 S1)) as (r2 & u & E & S2). exists r2, (t ++ u).
  split; [done|by eapply says_trans].
Qed.

(** The same in front of a computation with another result. *)
Lemma prints_then {A} r m (f : cmd_resp_t -> option A) (Q : option A -> Prop) :
  prints r m -> (forall r' t, says r r' t -> Q (f r')) -> Q (m ≫= f).
Proof. intros (r' & t & -> & Hs) HQ. by eapply HQ. Qed.

Lemma prints_foldM {A} (f : cmd_resp_t -> A -> option cmd_resp_t) l r :
  resp_ok r -> (forall r x, x ∈ l -> resp_ok r -> prints r (f r x)) -> prints r (foldM f r l).
Proof.
  revert r. induction l as [|x l IH]; intros r Hr Hf; cbn [foldM]; [by apply prints_ret|].
  apply prints_bind; [apply Hf; [left|done]|]. intros r' Hr'. apply IH; [done|]. intros r0 y Hy. apply Hf. by right.
Qed.

(** A format that is defined, without NULs in it or its strings. *)
Definition fmt_ok (f : list Z) (args : list fmt_arg) : Prop := is_Some (sprintf f args) /\ no_nul f /\ Forall arg_no_nul args.

Lemma fmt_ok_text f args : fmt_ok f args -> exists t, sprintf f args = Some t /\ no_nul t.
Proof. intros ([t E] & Hf & Ha). exists t. split; [done|]. by eapply sprintf_no_nul. Qed.

Lemma printf_prints r f args : resp_ok r -> fmt_ok f args -> prints r (cmd_resp_printf r f args).
Proof. intros Hr (t & E & Ht)%fmt_ok_text. destruct (cmd_resp_printf_says r f args t) as (r' & -> & Hs); [done..|]. by exists r', t. Qed.
Lemma red_prints r f args : resp_ok r -> fmt_ok f args -> prints r (cmd_resp_red r f args).
Proof. intros Hr (t & E & Ht)%fmt_ok_text. destruct (cmd_resp_red_says r f args t) as (r' & -> & Hs); [done..|]. by eexists r', _. Qed.
Lemma green_prints r f args : resp_ok r -> fmt_ok f args -> prints r (cmd_resp_green r f args).
Proof. intros Hr (t & E & Ht)%fmt_ok_text. destruct (cmd_resp_green_says r f args t) as (r' & -> & Hs); [done..|]. by eexists r', _. Qed.
Lemma cyan_prints r f args : resp_ok r -> fmt_ok f args -> prints r (cmd_resp_cyan r f args).
Proof. intros Hr (t & E & Ht)%fmt_ok_text. destruct (cmd_resp_cyan_says r f args t) as (r' & -> & Hs); [done..|]. by eexists r', _. Qed.

Create HintDb printing.
#[export] Hint Resolve printf_prints red_prints green_prints cyan_prints prints_ret : printing.

(** Discharges [fmt_ok] for a literal format. *)
Ltac fmt_ok := split; [fmt_defined|split; [first [by_compute|repeat constructor; done]|repeat (constructor; cbn [arg_no_nul]; try done); try by_compute]].

(** * Help prints, and never leaves the buffer *)

Definition text_opt_ok (t : option (list Z)) : Prop := match t with Some t => no_nul t | None => True end.
#[export] Instance text_opt_ok_dec t : Decision (text_opt_ok t).
Proof. destruct t; cbn; apply _. Defined.

(** A row the framework can print: a usage may only be missing where it is not
    needed. *)
Definition entry_ok {H} (e : cmd_entry_t H) : Prop :=
  no_nul (ce_name e) /\ text_opt_ok (ce_group e) /\ text_opt_ok (ce_help e) /\ text_opt_ok (ce_usage e) /\
  is_Some (ce_usage e).
#[export] Instance entry_ok_dec {H} (e : cmd_entry_t H) : Decision (entry_ok e).
Proof. unfold entry_ok. apply _. Defined.

Section cmd_proofs.
Context {H : Type}.
Implicit Type e : cmd_entry_t H.

Lemma or_empty_ok t : text_opt_ok t -> exists s, or_empty t = AStr (Some s) /\ no_nul s.
Proof. intros Ht. destruct t as [t|]; [by exists t|]. exists []. split; [done|constructor]. Qed.

Lemma snprintf_ok n f args : fmt_ok f args -> exists t, snprintf n f args = Some t /\ no_nul t.
Proof. intros (t & E & Ht)%fmt_ok_text. unfold snprintf. rewrite E. eexists. split; [done|]. by apply no_nul_take. Qed.

Lemma help_usage_ok e : entry_ok e -> exists t, help_usage e = Some t /\ no_nul t.
Proof.
  intros (Hn & Hg & _ & Hu & _). unfold help_usage. destruct (or_empty_ok _ Hu) as (u & -> & Hu').
  destruct (ce_group e) as [g|]; cbn in Hg; apply snprintf_ok; fmt_ok.
Qed.

Lemma help_sub_prints parent e r : entry_ok e -> resp_ok r -> prints r (help_sub parent r e).
Proof.
  intros (Hn & Hg & _ & Hu & _) Hr. unfold help_sub, in_group. destruct (or_empty_ok _ Hu) as (u & -> & Hu').
  destruct (ce_group e) as [g|]; [|by apply prints_ret]. cbn in Hg. destruct (strcaseeq g parent); [|by apply prints_ret].
  destruct (snprintf_ok 64 (str "  > %s") [AStr (Some (ce_name e))]) as (a & -> & Ha); [fmt_ok|]. cbn [mbind option_bind].
  destruct (snprintf_ok 128 (str "(Usage: %s %s %s)") [AStr (Some g); AStr (Some (ce_name e)); AStr (Some u)]) as (b & -> & Hb); [fmt_ok|].
  cbn [mbind option_bind]. apply cyan_prints; [done|fmt_ok].
Qed.

Lemma help_row_prints (table : list (cmd_entry_t H)) group e r :
  Forall entry_ok table -> entry_ok e -> resp_ok r -> prints r (help_row table group r e).
Proof.
  intros Ht He Hr. unfold help_row. destruct (help_match group e); [|by apply prints_ret].
  destruct (help_usage_ok e He) as (u & -> & Hu). cbn [mbind option_bind]. destruct He as (Hn & _ & Hh & _).
  destruct (or_empty_ok _ Hh) as (h & -> & Hh'). apply prints_bind; [apply green_prints; [done|fmt_ok]|].
  intros r' Hr'. destruct group; [by apply prints_ret|]. apply prints_foldM; [done|]. intros r0 x Hx Hr0.
  apply help_sub_prints; [|done]. rewrite list.Forall_forall in Ht. by apply Ht.
Qed.

(** Help is found just when some row belongs to the group. *)
Lemma cmd_group_help_prints (table : list (cmd_entry_t H)) group r :
  Forall entry_ok table -> text_opt_ok group -> resp_ok r ->
  exists r' t, cmd_group_help (Some table) group r = Some (if existsb (help_match group) table then 0 else -1, r') /\ says r r' t.
Proof.
  intros Ht Hg Hr. unfold cmd_group_help. set (hd := match group with Some _ => _ | None => _ end).
  assert (prints r hd) as Hhd by (destruct group; apply printf_prints; done || fmt_ok).
  destruct Hhd as (r1 & t1 & -> & S1). cbn [mbind option_bind].
  destruct (prints_foldM (help_row table group) table r1 (proj1 S1)) as (r2 & t2 & -> & S2).
  { intros r0 x Hx Hr0. apply help_row_prints; [done| |done]. rewrite list.Forall_forall in Ht. by apply Ht. }
  cbn [mbind option_bind]. pose proof (says_trans _ _ _ _ _ S1 S2) as S12.
  destruct (existsb _ table); [by eexists _, _|]. destruct group as [g|]; [|by eexists _, _].
  destruct (red_prints r2 (str "ERR: Unknown group or command '%s'." ++ [10]) [AStr (Some g)]) as (r3 & t3 & -> & S3); [apply S2|fmt_ok|].
  cbn [mbind option_bind]. eexists _, _. split; [done|]. by eapply says_trans.
Qed.

Lemma cmd_handle_help_prints (table : list (cmd_entry_t H)) argv ts r :
  Forall entry_ok table -> mapM cstr argv = Some ts -> Forall no_nul ts -> resp_ok r ->
  exists r' t, cmd_handle_help (Some table) argv r = Some (0, r') /\ says r r' t.
Proof.
  intros Ht Ha Hts Hr. unfold cmd_handle_help. destruct (Nat.ltb_spec 1 (length argv)) as [Hl|].
  - destruct (lookup_lt_is_Some_2 argv 1 Hl) as [p Hp]. apply mapM_Some in Ha.
    destruct (Forall2_lookup_l _ _ _ _ _ Ha Hp) as (g & Hg & Eg). unfold arg. rewrite Hp. cbn [mbind option_bind]. rewrite Eg. cbn [mbind option_bind].
    destruct (cmd_group_help_prints table (Some g) r) as (r' & t & -> & Hs); [done| |done|by eexists _, _].
    cbn. by eapply Forall_lookup_1.
  - destruct (cmd_group_help_prints table None r) as (r' & t & -> & Hs); [done..|]. by eexists _, _.
Qed.

(** * The dispatcher *)

Context {W : Type} (call : H -> bool -> list (list Z) -> cmd_resp_t -> W -> option (Z * cmd_resp_t * W)).

(** The response array holds [t], as much of it as fits. *)
Definition out_text (max_len : nat) (out : option (list Z)) (t : list Z) : Prop :=
  exists buf, out = Some buf /\ length buf = max_len /\ cstr buf = Some (take (max_len - 1) t).

Lemma says_out r0 r t : resp_ok r0 -> r_offset r0 = 0%nat -> says r0 r t -> out_text (r_size r0) (Some (r_buf r)) t.
Proof.
  intros H0 E (Hr & Es & Et). exists (r_buf r). split; [done|]. split; [by rewrite <- Es; apply ro_len|].
  rewrite resp_cstr, Et by done. unfold resp_text. by rewrite E, take_0.
Qed.

Definition in_red (t : list Z) : list Z := C_RED ++ t ++ C_RESET.

Lemma red_out r f args t :
  resp_ok r -> r_offset r = 0%nat -> sprintf f args = Some t -> no_nul t ->
  exists r', cmd_resp_red r f args = Some r' /\ out_text (r_size r) (Some (r_buf r')) (in_red t).
Proof.
  intros Hr E Ef Ht. destruct (cmd_resp_red_says r f args t Hr Ef Ht) as (r' & -> & Hs). exists r'. split; [done|]. by apply says_out.
Qed.

Lemma cmd_dispatch_spec table ctx s z buf max_len w :
  Forall entry_ok table -> no_nul s -> length buf = max_len -> buf !! 0%nat = Some 0 -> Z.of_nat max_len < 2 ^ 31 ->
  let res := cmd_dispatch call (Some table) ctx (Some (s ++ 0 :: z)) (Some buf) max_len w in
  let answers rc t := exists out, res = Some (rc, out, w) /\ out_text max_len out t in
  match tokens MAX_ARG_COUNT s with
  | None => answers (-1) (in_red (str "ERR: Unbalanced quotes in command line"))
  | Some [] => res = Some (-1, Some buf, w)
  | Some (name :: args) =>
      match find (fun e => strcaseeq name (ce_name e)) table with
      | None => answers (-1) (in_red (str "ERR: Unknown command '" ++ take 32 name ++ str "'"))
      | Some e =>
          match ce_handler e with
          | None => answers 0 (in_red (str "ERR: Command '" ++ ce_name e ++ str "' has no executor. Try 'HELP " ++ ce_name e ++ str "' for details."))
          | Some h =>
              if (S (length args) <? ce_min_argc e)%nat then
                answers 0 (in_red (str "ERR: Usage: " ++ ce_name e ++ str " " ++ from_option id [] (ce_usage e)))
              else exists argv, mapM cstr argv = Some (name :: args) /\
                res = ('(rc, r, w) ← call h ctx argv {| r_buf := buf; r_size := max_len; r_offset := 0 |} w; Some (rc, Some (r_buf r), w))
          end
      end
  end.
Proof.
  intros Ht Hs Hl H0 Hm. cbn zeta. assert (0 < max_len)%nat as Hpos by (rewrite <- Hl; by apply lookup_lt_Some in H0).
  set (r0 := {| r_buf := buf; r_size := max_len; r_offset := 0 |}).
  assert (resp_ok r0) as Hr by (by constructor; cbn; try constructor).
  unfold cmd_dispatch. destruct (Nat.eqb_spec max_len 0); [lia|].
  destruct (parse_args_spec s z Hs) as (rc & argv & input' & -> & _ & Htok). cbn [mbind option_bind]. fold r0.
  assert (forall ts, tokens MAX_ARG_COUNT s = Some ts -> Forall no_nul ts) as Hnn by (intros ts; by apply tokens_no_nul).
  destruct (tokens MAX_ARG_COUNT s) as [ts|].
  2: { subst rc. cbn [negb Z.eqb].
    destruct (red_out r0 (str "ERR: Unbalanced quotes in command line") [] _ Hr eq_refl eq_refl) as (r & -> & Ho); [by_compute|]. by eexists. }
  destruct Htok as (-> & _ & Ha). cbn [negb Z.eqb]. specialize (Hnn ts eq_refl).
  pose proof (length_mapM _ _ _ Ha) as Hlen. rewrite Hlen. destruct ts as [|name args]; [done|].
  cbn [length Nat.eqb]. set (av := (fun p => drop p input') <$> argv).
  assert (mapM cstr av = Some (name :: args)) as Hav by (apply mapM_Some, Forall2_fmap_l; by apply mapM_Some in Ha).
  assert (arg av 0 = Some name) as ->.
  { apply mapM_Some in Hav. inversion Hav as [|p ? ps ? Hp]. done. }
  cbn [mbind option_bind]. apply Forall_cons_iff in Hnn as [Hname _].
  destruct (find _ table) as [e|] eqn:Ef.
  2: { destruct (red_out r0 (str "ERR: Unknown command '%.32s'") [AStr (Some name)]
      (str "ERR: Unknown command '" ++ take 32 name ++ str "'") Hr eq_refl eq_refl) as (r & -> & Ho); [|by eexists].
    apply no_nul_app. split; [by_compute|]. apply no_nul_app. split; [by apply no_nul_take|by_compute]. }
  apply find_some in Ef as [He _]. rewrite list.Forall_forall in Ht. specialize (Ht e ltac:(by apply list_elem_of_In)).
  destruct Ht as (Hn & _ & _ & Hu & [u Eu]). unfold cmd_invoke. destruct (ce_handler e) as [h|].
  2: { destruct (red_out r0 (str "ERR: Command '%s' has no executor. Try 'HELP %s' for details.") [AStr (Some (ce_name e)); AStr (Some (ce_name e))]
      (str "ERR: Command '" ++ ce_name e ++ str "' has no executor. Try 'HELP " ++ ce_name e ++ str "' for details.") Hr eq_refl eq_refl) as (r & -> & Ho); [|by eexists].
    apply no_nul_app. split; [by_compute|]. apply no_nul_app. split; [done|]. apply no_nul_app. split; [by_compute|]. apply no_nul_app. split; [done|by_compute]. }
  assert (length av = S (length args)) as -> by (unfold av; by rewrite length_fmap).
  destruct (_ <? _)%nat; [|by exists av]. rewrite Eu in Hu |- *. cbn in Hu.
  assert (sprintf (str "ERR: Usage: %s %s") [AStr (Some (ce_name e)); AStr (Some u)] = Some (str "ERR: Usage: " ++ ce_name e ++ str " " ++ u)) as Es.
  { by rewrite <- (app_nil_r u) at 2. }
  destruct (red_out r0 _ _ _ Hr eq_refl Es) as (r & -> & Ho); [|by eexists].
  apply no_nul_app. split; [by_compute|]. apply no_nul_app. split; [done|]. apply no_nul_app. by split; [by_compute|].
Qed.
(** C32 The dispatcher does with a line what its tokens say.  A line with an open
    quote or an unknown command is answered with an error and fails; an empty
    one fails without an answer; a command without an executor or with too few
    arguments gets its error, and succeeds; any other is given to the executor of
    the first row of that name, whatever its case and whatever group the row is
    in, with the tokens as arguments and an empty response.  The answers fit the
    array, with their NUL. *)
Theorem cmd_dispatch_exact table ctx s z buf max_len w :
  Forall entry_ok table -> no_nul s -> length buf = max_len -> buf !! 0%nat = Some 0 -> Z.of_nat max_len < 2 ^ 31 ->
  let res := cmd_dispatch call (Some table) ctx (Some (s ++ 0 :: z)) (Some buf) max_len w in
  let answers rc t := exists out, res = Some (rc, out, w) /\ out_text max_len out t in
  match tokens MAX_ARG_COUNT s with
  | None => answers (-1) (in_red (str "ERR: Unbalanced quotes in command line"))
  | Some [] => res = Some (-1, Some buf, w)
  | Some (name :: args) =>
      match find (fun e => strcaseeq name (ce_name e)) table with
      | None => answers (-1) (in_red (str "ERR: Unknown command '" ++ take 32 name ++ str "'"))
      | Some e =>
          match ce_handler e with
          | None => answers 0 (in_red (str "ERR: Command '" ++ ce_name e ++ str "' has no executor. Try 'HELP " ++ ce_name e ++ str "' for details."))
          | Some h =>
              if (S (length args) <? ce_min_argc e)%nat then
                answers 0 (in_red (str "ERR: Usage: " ++ ce_name e ++ str " " ++ from_option id [] (ce_usage e)))
              else exists argv, mapM cstr argv = Some (name :: args) /\
                res = ('(rc, r, w) ← call h ctx argv {| r_buf := buf; r_size := max_len; r_offset := 0 |} w; Some (rc, Some (r_buf r), w))
          end
      end
  end.
Proof. apply cmd_dispatch_spec. Qed.
End cmd_proofs.

Definition demo_row : cmd_entry_t unit :=
  {| ce_group := Some (str "SET"); ce_name := str "ping"; ce_help := None; ce_usage := Some (str "<host>"); ce_min_argc := 2; ce_handler := Some () |}.
Definition demo_call (h : unit) (ctx : bool) (argv : list (list Z)) (r : cmd_resp_t) (w : Z) : option (Z * cmd_resp_t * Z) :=
  host ← arg argv 1; r ← cmd_resp_green r (str "pong %s") [AStr (Some host)]; Some (7, r, w + 1).

Lemma cmd_dispatch_exact_witness :
  Forall entry_ok [demo_row] /\ no_nul (str "PING") /\
  (exists out, cmd_dispatch demo_call (Some [demo_row]) true (Some (str "PING" ++ 0 :: [])) (Some (replicate 16 0)) 16 3 = Some (0, out, 3) /\
     out_text 16 out (in_red (str "ERR: Usage: " ++ str "ping" ++ str " " ++ str "<host>"))) /\
  exists argv, mapM cstr argv = Some [str "ping"; str "a b"] /\
    cmd_dispatch demo_call (Some [demo_row]) true (Some (str "ping " ++ 34 :: str "a b" ++ 34 :: 0 :: [])) (Some (replicate 32 0)) 32 3 =
    ('(rc, r, w) ← demo_call () true argv {| r_buf := replicate 32 0; r_size := 32; r_offset := 0 |} 3; Some (rc, Some (r_buf r), w)).
Proof.
  split; [by_compute|]. split; [by_compute|]. split.
  - exact (cmd_dispatch_exact demo_call [demo_row] true (str "PING") [] (replicate 16 0) 16 3 ltac:(by_compute) ltac:(by_compute)
      eq_refl eq_refl ltac:(lia)).
  - exact (cmd_dispatch_exact demo_call [demo_row] true (str "ping " ++ 34 :: str "a b" ++ [34]) [] (replicate 32 0) 32 3 ltac:(by_compute) ltac:(by_compute)
      eq_refl eq_refl ltac:(lia)).
Defined.
