(* ===== verification/Status.v ===== *)
(** What STATUS reports about the process (src/src/cmdengine.c): uptime, and
    what is read from the files of /proc, whose contents are an argument. *)
From S2P Require Import Prelude Libc Text Printf Option.

(** ** Uptime *)

Definition get_uptime_str (start now : Z) (len : nat) : option (list Z) :=
  let diff := now - start in
  let diff := if diff <? 0 then 0 else diff in
  snprintf len (str "%dd %dh %dm %ds")
    [ANum (to_int32 (diff / 86400)); ANum (diff mod 86400 / 3600); ANum (diff mod 3600 / 60); ANum (diff mod 60)].

(** ** Scanning a file line by line *)

(** [while (fgets(buf, 256, fp)) if (match) { ...; break; }]: the value at the
    first line that matches. *)
Fixpoint scan_lines (fuel : nat) (f : list Z -> option Z) (rest : list Z) : option Z :=
  match fuel, rest with
  | O, _ | _, [] => None
  | S fuel, _ =>
      let '(line, rest) := fgets 255 rest in
      match f (c_text line) with Some v => Some v | None => scan_lines fuel f rest end
  end.

(** The text from the first digit on; empty when there is none. *)
Definition from_digit (s : list Z) : list Z := (span_until is_digit s).2.

(** [strncmp(line, prefix, length) == 0] *)
Definition has_prefix (prefix s : list Z) : bool := bool_decide (take (length prefix) s = prefix).

(** The file's contents, [None] when it cannot be opened. *)
Definition get_thread_count (status : option (list Z)) : Z :=
  match status with
  | None => -1
  | Some s =>
      let f line :=
        if has_prefix (str "Threads:") line then
          let p := from_digit (drop 8 line) in Some (match p with [] => -1 | _ => atoi p end)
        else None in
      from_option id (-1) (scan_lines (length s) f s)
  end.

(** [strstr(s, needle)]: the text from the first occurrence on. *)
Fixpoint strstr (needle s : list Z) : option (list Z) :=
  if has_prefix needle s then Some s else match s with [] => None | _ :: s => strstr needle s end.

Definition get_memory_vm_rss_kb (status : option (list Z)) : Z :=
  match status with
  | None => -1
  | Some s =>
      let f line :=
        match strstr (str "VmRSS:") line with
        | Some m => let p := from_digit (drop 6 m) in Some (match p with [] => -1 | _ => strtol10 p end)
        | None => None
        end in
      from_option id (-1) (scan_lines (length s) f s)
  end.

(** The names in the directory, [None] when it cannot be opened. *)
Definition get_fd_count (entries : option (list (list Z))) : Z :=
  match entries with
  | None => -1
  | Some l =>
      let count := Z.of_nat (length (List.filter (fun name => match name with 46 :: _ => false | _ => true end) l)) in
      if 0 <? count then count - 1 else 0
  end.

(** ** Processor time *)

(** The directives of [sscanf] the source uses: a character skipped, a number
    skipped, an unsigned number stored, a literal, blanks. *)
Inductive scan_dir := DChar | DSkip | DNum | DLit (c : Z) | DSpace.

(** A number: blanks, a sign, digits; an unsigned one is clamped to 64 bits. *)
Definition scan_num (s : list Z) : option (Z * list Z) :=
  let '(sg, t) := read_sign (skip_space s) in
  match t with
  | c :: _ => if is_digit c then let '(v, rest) := digits 10 0 t in
                Some (if v <? 2 ^ 64 then u64 (sg * v) else 2 ^ 64 - 1, rest)
              else None
  | [] => None
  end.

(** The numbers stored until a directive fails. *)
Fixpoint sscanf (ds : list scan_dir) (s : list Z) : list Z :=
  match ds with
  | [] => []
  | DChar :: ds => match s with _ :: s => sscanf ds s | [] => [] end
  | DSkip :: ds => match scan_num s with Some (_, s) => sscanf ds s | None => [] end
  | DNum :: ds => match scan_num s with Some (v, s) => v :: sscanf ds s | None => [] end
  | DLit c :: ds => match s with x :: s => if x =? c then sscanf ds s else [] | [] => [] end
  | DSpace :: ds => sscanf ds (skip_space s)
  end.

(** The text behind the last occurrence of [c]. *)
Fixpoint after_last (c : Z) (s : list Z) : option (list Z) :=
  match s with
  | [] => None
  | x :: s => match after_last c s with Some t => Some t | None => if x =? c then Some s else None end
  end.

(** "%*c %*d %*d %*d %*d %*d %*u %*u %*u %*u %*u %lu %lu" *)
Definition STAT_DIRS : list scan_dir :=
  DChar :: concat (replicate 10 [DSpace; DSkip]) ++ [DSpace; DNum; DSpace; DNum].
(** "cpu %llu %llu %llu %llu %llu %llu %llu %llu" *)
Definition CPU_DIRS : list scan_dir := (DLit <$> str "cpu") ++ concat (replicate 8 [DSpace; DNum]).

Record cpu_occupy_t := { cpu_utime : Z; cpu_stime : Z; cpu_total : Z }.

(** The contents of /proc/self/stat and /proc/stat.  [Some None]: -1.
    [None]: a read behind the text, or of a variable that was not assigned. *)
Definition get_cpu_ticks_sample (self_stat stat : option (list Z)) : option (option cpu_occupy_t) :=
  match self_stat with
  | None | Some [] => Some None
  | Some s =>
      match after_last 41 (c_text (fgets 1023 s).1) with
      | None => Some None
      | Some q =>
          match q with
          | [] => None
          | _ :: q =>
              match sscanf STAT_DIRS q with
              | [u; st] =>
                  match stat with
                  | None | Some [] => Some None
                  | Some s =>
                      let vs := sscanf CPU_DIRS (c_text (fgets 1023 s).1) in
                      if (length vs <? 4)%nat then Some None else
                      if (length vs <? 8)%nat then None else
                      Some (Some {| cpu_utime := u; cpu_stime := st; cpu_total := u64 (foldr Z.add 0 vs) |})
                  end
              | _ => Some None
              end
          end
      end
  end.

(** The two samples are taken a tenth of a second apart.  [ratio p s] is the
    text of [((double)p / (double)s) * 100.0] under [%.2f]. *)
Definition get_cpu_usage_ratio (ratio : Z -> Z -> list Z) (s1 s2 : option (list Z) * option (list Z)) : option (list Z) :=
  let zero := str "0.00" in
  a ← get_cpu_ticks_sample s1.1 s1.2;
  match a with
  | None => Some zero
  | Some a =>
      b ← get_cpu_ticks_sample s2.1 s2.2;
      match b with
      | None => Some zero
      | Some b =>
          let process_delta := u64 (u64 (cpu_utime b + cpu_stime b) - u64 (cpu_utime a + cpu_stime a)) in
          let system_delta := u64 (cpu_total b - cpu_total a) in
          Some (if system_delta =? 0 then zero else ratio process_delta system_delta)
      end
  end.

(** ** Lemmas *)

(** The fuel is enough: each turn takes a byte. *)
Lemma scan_lines_fuel f n rest : (length rest <= n)%nat -> scan_lines n f rest = scan_lines (length rest) f rest.
Proof.
  revert rest. induction n as [n IH] using lt_wf_ind. intros rest Hn. destruct rest as [|c rest]; [by destruct n|].
  destruct n as [|n]; [cbn in Hn; lia|]. cbn [length]. cbn [scan_lines].
  pose proof (fgets_length 255 c rest ltac:(lia)) as Hl. destruct (fgets 255 (c :: rest)) as [line rest']. cbn [snd] in Hl.
  destruct (f (c_text line)); [done|]. cbn [length] in Hl, Hn. rewrite (IH n) by lia. symmetry. apply IH; lia.
Qed.

Lemma c_text_no_nul s : no_nul (c_text s).
Proof.
  unfold c_text. pose proof (span_until_spec (fun c => c =? 0) s) as H. destruct (span_until _ s) as [a b]. destruct H as (_ & H & _).
  eapply list.Forall_impl; [exact H|]. intros x Hx. by apply Z.eqb_neq.
Qed.

Lemma get_uptime_str_ok start now len : exists t, get_uptime_str start now len = Some t /\ no_nul t /\ (length t <= pred len)%nat.
Proof.
  unfold get_uptime_str. generalize (if now - start <? 0 then 0 else now - start). intros d. unfold snprintf.
  assert (is_Some (sprintf (str "%dd %dh %dm %ds")
    [ANum (to_int32 (d / 86400)); ANum (d mod 86400 / 3600); ANum (d mod 3600 / 60); ANum (d mod 60)])) as [t E] by fmt_defined.
  rewrite E. eexists. split; [done|]. split; [|rewrite length_take; lia]. apply no_nul_take. eapply sprintf_no_nul; [exact E|by_compute|].
  by repeat constructor.
Qed.

(** The texts of /proc/self/stat and /proc/stat a kernel of today prints: the
    line of the process does not end at the parenthesis that closes its name,
    so there is a byte two places behind it; and a first line that gives the
    times of the processor gives all eight.  Anything else is allowed: files
    that are missing or empty, a line without a parenthesis or with too few
    numbers, a first line with at most three. *)
Definition stat_documented (self_stat stat : option (list Z)) : Prop :=
  (forall s, self_stat = Some s -> list.last (c_text (fgets 1023 s).1) <> Some 41) /\
  (forall s, stat = Some s ->
     let n := length (sscanf CPU_DIRS (c_text (fgets 1023 s).1)) in (n < 4)%nat \/ (8 <= n)%nat).

Lemma after_last_nil c s : after_last c s = Some [] -> list.last s = Some c.
Proof.
  induction s as [|x s IH]; [done|]. cbn [after_last]. destruct (after_last c s) as [t|] eqn:Ea.
  - injection 1 as ->. specialize (IH eq_refl). destruct s; [done|]. exact IH.
  - destruct (Z.eqb_spec x c) as [->|]; [|done]. by injection 1 as ->.
Qed.

(** On such texts a sample is taken or refused, and nothing is read that was
    not written. *)
Lemma get_cpu_ticks_sample_defined self_stat stat :
  stat_documented self_stat stat -> is_Some (get_cpu_ticks_sample self_stat stat).
Proof.
  intros [Hs Hc]. unfold get_cpu_ticks_sample. destruct self_stat as [[|c s]|]; [done| |done]. specialize (Hs _ eq_refl).
  destruct (after_last _ _) as [[|x q]|] eqn:Ea; [by destruct Hs; apply after_last_nil| |done].
  destruct (sscanf STAT_DIRS q) as [|u [|st [|? ?]]]; [done..| |done].
  destruct stat as [[|c' s']|]; [done| |done]. specialize (Hc _ eq_refl). cbn zeta in Hc.
  destruct (Nat.ltb_spec (length (sscanf CPU_DIRS (c_text (fgets 1023 (c' :: s')).1))) 4); [done|].
  destruct (Nat.ltb_spec (length (sscanf CPU_DIRS (c_text (fgets 1023 (c' :: s')).1))) 8); [lia|]. done.
Qed.

Lemma get_cpu_usage_ratio_ok ratio s1 s2 :
  (forall p s, no_nul (ratio p s)) -> stat_documented s1.1 s1.2 -> stat_documented s2.1 s2.2 ->
  exists t, get_cpu_usage_ratio ratio s1 s2 = Some t /\ no_nul t.
Proof.
  intros Hr [a E1]%get_cpu_ticks_sample_defined [b E2]%get_cpu_ticks_sample_defined. unfold get_cpu_usage_ratio. rewrite E1. cbn [mbind option_bind].
  assert (no_nul (str "0.00")) by by_compute. destruct a as [a|]; [|eauto]. rewrite E2. cbn [mbind option_bind].
  destruct b as [b|]; [|eauto]. eexists. split; [done|]. by destruct (_ =? 0).
Qed.

Definition demo_status : list Z := str "Name: vfast" ++ [10] ++ str "VmRSS:    5120 kB" ++ [10] ++ str "Threads:  4" ++ [10].
Definition demo_self_stat : list Z := str "77 (v (f) x) S 1 77 77 0 -1 4194304 1 0 0 0 250 50 0 0 20 0" ++ [10].
Definition demo_stat (n : Z) : list Z := str "cpu  100 0 50 " ++ dec n ++ str " 10 0 0 0 0 0" ++ [10].

Example status_ex : (get_thread_count (Some demo_status), get_memory_vm_rss_kb (Some demo_status)) = (4, 5120).
Proof. reflexivity. Qed.
Example cpu_ex : get_cpu_ticks_sample (Some demo_self_stat) (Some (demo_stat 840))
  = Some (Some {| cpu_utime := 250; cpu_stime := 50; cpu_total := 1000 |}).
Proof. reflexivity. Qed.
Example uptime_ex : get_uptime_str 100 90161 64 = Some (str "1d 1h 1m 1s").
Proof. reflexivity. Qed.
(** A kernel that prints seven numbers makes the sum read a variable that was
    never assigned. *)
Example cpu_unassigned : get_cpu_ticks_sample (Some demo_self_stat) (Some (str "cpu 1 2 3 4 5 6 7" ++ [10])) = None.
Proof. reflexivity. Qed.
