(* ===== verification/CmdEngine.v ===== *)
(** The management commands (src/src/cmdengine.c): the engine's flags and
    counters, the command table, and the executors of its rows. *)
From S2P Require Import Prelude Libc Text Printf HashTable Key Session Sys Option Stats Args Cmd Status.

(** ** The engine *)

Record task_pool_stats := { tp_total : Z; tp_count : Z; tp_r_tun : Z; tp_r_udp : Z; tp_w_tun : Z; tp_w_udp : Z }.

(** [cmd_engine_t] *)
Record cmd_engine_t := {
  en_interval : Z; en_islogptk : bool; en_isdebug : bool; en_reass_stats : reass_stats; en_task_pool : task_pool_stats
}.

Definition cmdengine : cmd_engine_t :=
  {| en_interval := 1000; en_islogptk := false; en_isdebug := true;
     en_reass_stats := {| rs_rx_pkts := 0; rs_tx_pkts := 0; rs_drops := 0 |};
     en_task_pool := {| tp_total := 0; tp_count := 0; tp_r_tun := 0; tp_r_udp := 0; tp_w_tun := 0; tp_w_udp := 0 |} |}.

Definition set_islogptk (b : bool) (e : cmd_engine_t) : cmd_engine_t :=
  {| en_interval := en_interval e; en_islogptk := b; en_isdebug := en_isdebug e;
     en_reass_stats := en_reass_stats e; en_task_pool := en_task_pool e |}.
Definition set_isdebug (b : bool) (e : cmd_engine_t) : cmd_engine_t :=
  {| en_interval := en_interval e; en_islogptk := en_islogptk e; en_isdebug := b;
     en_reass_stats := en_reass_stats e; en_task_pool := en_task_pool e |}.

Definition cmd_islogpkt_enabled (e : cmd_engine_t) : bool := en_islogptk e.
Definition cmd_isdebug_enabled (e : cmd_engine_t) : bool := en_isdebug e.

Definition cmd_task_pool_set (total count r_tun r_udp w_tun w_udp : Z) (e : cmd_engine_t) : cmd_engine_t :=
  {| en_interval := en_interval e; en_islogptk := en_islogptk e; en_isdebug := en_isdebug e; en_reass_stats := en_reass_stats e;
     en_task_pool := {| tp_total := total; tp_count := count; tp_r_tun := r_tun; tp_r_udp := r_udp; tp_w_tun := w_tun; tp_w_udp := w_udp |} |}.

(** What commands change: the engine and the log's level. *)
Record mgmt := { mg_engine : cmd_engine_t; mg_log_level : Z }.
Definition LOG_TRACE : Z := 0.
Definition LOG_INFO : Z := 2.

(** What they read: [time(NULL)], the monotonic clock now and at the start (in
    seconds), [getpid], and /proc. *)
Record proc_env := {
  pe_time : Z; pe_monotonic : Z; pe_start : Z; pe_pid : Z;
  pe_status : option (list Z); pe_fds : option (list (list Z));
  pe_sample1 : option (list Z) * option (list Z); pe_sample2 : option (list Z) * option (list Z);
  pe_ratio : Z -> Z -> list Z
}.

(** ** The table *)

(** The functions the table names. *)
Inductive cmd_handler :=
| HStatus | HSet | HGet | HHelp | HSetLogpkt | HSetDebug
| HGetStats | HGetConfig | HGetSessions | HGetShow | HGetTasks.

Definition cmd_row (group : option string) (name help usage : string) (min_argc : nat) (h : option cmd_handler) : cmd_entry_t cmd_handler :=
  {| ce_group := str <$> group; ce_name := str name; ce_help := Some (str help); ce_usage := Some (str usage);
     ce_min_argc := min_argc; ce_handler := h |}.
Arguments cmd_row _ (_ _ _)%_string_scope _%_nat_scope _.

Definition cmd_table : list (cmd_entry_t cmd_handler) := [
  cmd_row None "STATUS" "show server status" "" 1 (Some HStatus);
  cmd_row None "SET" "set parameters" "<key> <val>" 1 (Some HSet);
  cmd_row None "GET" "get parameters" "<key>" 1 (Some HGet);
  cmd_row None "HELP" "command help" "[command]" 1 (Some HHelp);
  cmd_row None "EXIT" "exit the CLI" "" 1 None;
  cmd_row (Some "SET"%string) "interval" "Scan interval (ms)" "<val>" 3 None;
  cmd_row (Some "SET"%string) "logpkt" "print raw XDP packet info" "<1|0>" 3 (Some HSetLogpkt);
  cmd_row (Some "SET"%string) "debug" "enable/disable debug mode" "<1|0>" 3 (Some HSetDebug);
  cmd_row (Some "GET"%string) "pktstats" "get packet statistics" "" 2 (Some HGetStats);
  cmd_row (Some "GET"%string) "config" "get configuration" "" 2 (Some HGetConfig);
  cmd_row (Some "GET"%string) "session" "get session number" "" 2 (Some HGetSessions);
  cmd_row (Some "GET"%string) "show" "show session information" "<sid>" 3 (Some HGetShow);
  cmd_row (Some "GET"%string) "tasks" "show task pool status" "" 2 (Some HGetTasks)
].

(** ** Executors *)

(** The boolean spellings both setters accept. *)
Definition flag_value (v : list Z) : option bool :=
  if bool_decide (v = str "1") || strcaseeq v (str "on") || strcaseeq v (str "true") then Some true
  else if bool_decide (v = str "0") || strcaseeq v (str "off") || strcaseeq v (str "false") then Some false
  else None.

Definition enabled_text (b : bool) : fmt_arg := AStr (Some (str (if b then "ENABLED" else "DISABLED"))).

Definition set_engine (e : cmd_engine_t) (w : mgmt) : mgmt := {| mg_engine := e; mg_log_level := mg_log_level w |}.

Definition cmd_set_islogptk (ctx : bool) (argv : list (list Z)) (r : cmd_resp_t) (w : mgmt) : option (Z * cmd_resp_t * mgmt) :=
  if negb ctx then r ← cmd_resp_red r (str "ERR: System internal error: context is NULL.") []; Some (-1, r, w) else
  if (length argv <? 3)%nat then
    r ← cmd_resp_red r (str "ERR: Missing parameter. Usage: SET logpkt <1|0|on|off>") []; Some (0, r, w) else
  val_str ← arg argv 2;
  match flag_value val_str with
  | None =>
      r ← cmd_resp_red r (str "ERR: Invalid value '%s'. Expected: 1, 0, on, off, true, or false.") [AStr (Some val_str)];
      Some (0, r, w)
  | Some enable =>
      if eqb (en_islogptk (mg_engine w)) enable then
        r ← cmd_resp_green r (str "OK: Raw packet logging is already %s.") [enabled_text enable]; Some (0, r, w)
      else
        let w := set_engine (set_islogptk enable (mg_engine w)) w in
        r ← cmd_resp_green r (str "OK: Raw packet logging changed to %s.") [enabled_text enable]; Some (0, r, w)
  end.

Definition cmd_set_isdebug (ctx : bool) (argv : list (list Z)) (r : cmd_resp_t) (w : mgmt) : option (Z * cmd_resp_t * mgmt) :=
  if negb ctx then r ← cmd_resp_red r (str "ERR: System internal error: context is NULL.") []; Some (-1, r, w) else
  if (length argv <? 3)%nat then
    r ← cmd_resp_red r (str "ERR: Missing parameter. Usage: SET debug <1|0|on|off>") []; Some (0, r, w) else
  val_str ← arg argv 2;
  match flag_value val_str with
  | None =>
      r ← cmd_resp_red r (str "ERR: Invalid value '%s'. Expected: 1, 0, on, off, true, or false.") [AStr (Some val_str)];
      Some (0, r, w)
  | Some enable =>
      if eqb (en_isdebug (mg_engine w)) enable then
        r ← cmd_resp_green r (str "OK: Debug mode is already %s.") [enabled_text enable]; Some (0, r, w)
      else
        let w := {| mg_engine := set_isdebug enable (mg_engine w); mg_log_level := if enable then LOG_TRACE else LOG_INFO |} in
        r ← cmd_resp_green r (str "OK: Debug mode changed to %s.") [enabled_text enable]; Some (0, r, w)
  end.

(** One line of a report: name and value, coloured. *)
Definition ROW_D : list Z := str "  %s%-20s%s : %s%d%s" ++ [10].
Definition ROW_S : list Z := str "  %s%-20s%s : %s%s%s" ++ [10].
Definition ROW_LU : list Z := str "  %s%-20s%s : %s%lu%s" ++ [10].
Definition NL : list Z := [10].
Definition row_args (name : string) (v : fmt_arg) : list fmt_arg :=
  [AStr (Some C_GREEN); AStr (Some (str name)); AStr (Some C_RESET); AStr (Some C_YELLOW); v; AStr (Some C_RESET)].
Arguments row_args _%_string_scope _.

Definition cmd_get_reass_stats (ctx : bool) (argv : list (list Z)) (r : cmd_resp_t) (w : mgmt) : option (Z * cmd_resp_t * mgmt) :=
  if negb ctx then Some (-1, r, w) else
  if negb (length argv =? 2)%nat then
    r ← cmd_resp_red r (str "ERR: Unexpected arguments. Usage: GET reass") []; Some (0, r, w) else
  let s := en_reass_stats (mg_engine w) in
  r ← cmd_resp_printf r (NL ++ ROW_LU) (row_args "Reass-RX" (ANum (rs_rx_pkts s)));
  r ← cmd_resp_printf r ROW_LU (row_args "Reass-TX" (ANum (rs_tx_pkts s)));
  r ← cmd_resp_printf r ROW_LU (row_args "Reass-Drops" (ANum (rs_drops s)));
  Some (0, r, w).

Definition yes_no (b : bool) : fmt_arg := AStr (Some (str (if b then "yes" else "no"))).

Definition cmd_get_config (ctx : bool) (argv : list (list Z)) (r : cmd_resp_t) (w : mgmt) : option (Z * cmd_resp_t * mgmt) :=
  if negb ctx then Some (-1, r, w) else
  if negb (length argv =? 2)%nat then
    r ← cmd_resp_red r (str "ERR: Unexpected arguments. Usage: GET config") []; Some (-1, r, w) else
  let e := mg_engine w in
  r ← cmd_resp_printf r (NL ++ str "  %s%-20s%s : %s%d%s %sms%s" ++ NL)
        (row_args "interval" (ANum (en_interval e)) ++ [AStr (Some C_GRAY); AStr (Some C_RESET)]);
  r ← cmd_resp_printf r ROW_S (row_args "logpkt" (yes_no (en_islogptk e)));
  r ← cmd_resp_printf r ROW_S (row_args "debug" (yes_no (cmd_isdebug_enabled e)));
  Some (0, r, w).

Definition cmd_get_task_pool (ctx : bool) (argv : list (list Z)) (r : cmd_resp_t) (w : mgmt) : option (Z * cmd_resp_t * mgmt) :=
  if negb ctx then Some (-1, r, w) else
  if negb (length argv =? 2)%nat then
    r ← cmd_resp_red r (str "ERR: Unexpected arguments. Usage: GET tasks") []; Some (-1, r, w) else
  let t := en_task_pool (mg_engine w) in
  r ← cmd_resp_printf r (NL ++ ROW_D) (row_args "Total Tasks" (ANum (to_int32 (tp_total t))));
  r ← cmd_resp_printf r ROW_D (row_args "Active Tasks" (ANum (to_int32 (tp_count t))));
  r ← cmd_resp_printf r ROW_D (row_args "Read TUN" (ANum (to_int32 (tp_r_tun t))));
  r ← cmd_resp_printf r ROW_D (row_args "Read UDP" (ANum (to_int32 (tp_r_udp t))));
  r ← cmd_resp_printf r ROW_D (row_args "Write TUN" (ANum (to_int32 (tp_w_tun t))));
  r ← cmd_resp_printf r ROW_D (row_args "Write UDP" (ANum (to_int32 (tp_w_udp t))));
  Some (0, r, w).

Definition cmd_handle_status (e : proc_env) (argv : list (list Z)) (r : cmd_resp_t) (w : mgmt) : option (Z * cmd_resp_t * mgmt) :=
  if negb (length argv =? 1)%nat then
    r ← cmd_resp_red r (str "ERR: Unexpected arguments. Usage: STATUS") []; Some (0, r, w) else
  uptime_str ← get_uptime_str (pe_start e) (pe_monotonic e) 64;
  cpu_usage ← get_cpu_usage_ratio (pe_ratio e) (pe_sample1 e) (pe_sample2 e);
  r ← cmd_resp_printf r (NL ++ ROW_D) (row_args "PID" (ANum (pe_pid e)));
  r ← cmd_resp_printf r ROW_S (row_args "Uptime" (AStr (Some uptime_str)));
  r ← cmd_resp_printf r ROW_D (row_args "Threads" (ANum (get_thread_count (pe_status e))));
  r ← cmd_resp_printf r ROW_D (row_args "Open FDs" (ANum (get_fd_count (pe_fds e))));
  r ← cmd_resp_printf r (str "  %s%-20s%s : %s%.2f CPU-seconds%s" ++ NL) (row_args "CPU Usage" (AFloat cpu_usage));
  r ← cmd_resp_printf r (str "  %s%-20s%s : %s%ld KB%s" ++ NL) (row_args "Memory RSS" (ANum (get_memory_vm_rss_kb (pe_status e))));
  Some (0, r, w).

(** [ip_ntop] into an array of [size] bytes: the text it then holds. *)
Definition INET_ADDRSTRLEN : nat := 16.
Definition ip_ntop (ip_bin : Z) (size : nat) : option (list Z) :=
  if (size <? INET_ADDRSTRLEN)%nat then None else cstr (inet_ntop ip_bin).

Section engine.
Context {T : Type} `{HT : HashTable Z T}.

Definition cmd_get_sessions (st : sessions T) (ctx : bool) (argv : list (list Z)) (r : cmd_resp_t) (w : mgmt) : option (Z * cmd_resp_t * mgmt) :=
  if negb ctx then Some (-1, r, w) else
  if negb (length argv =? 2)%nat then
    r ← cmd_resp_red r (str "ERR: Unexpected arguments. Usage: GET session") []; Some (-1, r, w) else
  let n := vf_ss_get_total_count st in
  r ← cmd_resp_printf r (NL ++ str "  %s%-20s%s : %s%u%s %ssessions%s" ++ NL)
        (row_args "session number" (ANum n) ++ [AStr (Some C_GRAY); AStr (Some C_RESET)]);
  Some (0, r, w).

(** The number a SID argument stands for; nothing when it is not one. *)
Definition parse_sid (val_str : list Z) : option Z :=
  let '(v, rest) := strtoul16 val_str in
  if (length rest =? length val_str)%nat || match rest with [] => false | c :: _ => negb (is_space c) end then None
  else Some (u32 v).

Definition cmd_get_session_bysid (st : sessions T) (now : Z) (ctx : bool) (argv : list (list Z)) (r : cmd_resp_t) (w : mgmt)
    : option (Z * cmd_resp_t * mgmt) :=
  if negb ctx then Some (-1, r, w) else
  if (length argv <? 3)%nat then
    r ← cmd_resp_red r (str "ERR: Unexpected arguments. Usage: GET show <sid>") []; Some (0, r, w) else
  val_str ← arg argv 2;
  match parse_sid val_str with
  | None =>
      r ← cmd_resp_red r (str "ERR: Invalid SID format '%s'. Use hex (e.g., 0x32076a9d)" ++ NL) [AStr (Some val_str)];
      Some (-1, r, w)
  | Some sid =>
      l ← vf_ss_lookup_by_sid st sid;
      match l with
      | None =>
          r ← cmd_resp_printf r (C_RED ++ str "SID [" ++ C_RESET ++ C_YELLOW ++ str "0x%08x" ++ C_RESET ++ str "] " ++ C_RED ++
                                 str "not found" ++ C_RESET) [ANum sid];
          Some (0, r, w)
      | Some l =>
          s ← ss_heap st !! l;
          ip_buf ← ip_ntop (sin_addr (ss_remote_addr s)) INET_ADDRSTRLEN;
          let port := ntohs (sin_port (ss_remote_addr s)) in
          r ← cmd_resp_printf r NL [];
          r ← cmd_resp_printf r (str "  %s%-20s%s : %s0x%08x%s" ++ NL) (row_args "Sid" (ANum (ss_sid s)));
          vip_str ← ip_ntop (ss_vip s) INET_ADDRSTRLEN;
          r ← cmd_resp_printf r ROW_S (row_args "Vip" (AStr (Some vip_str)));
          endpoint ← snprintf 64 (str "%s:%d") [AStr (Some ip_buf); ANum port];
          r ← cmd_resp_printf r ROW_S (row_args "Remote" (AStr (Some endpoint)));
          let idle_sec := u64 (now - ss_last_seen s) in
          r ← cmd_resp_printf r (str "  %s%-20s%s : %s%llu%s%ss%s" ++ NL)
                [AStr (Some C_GREEN); AStr (Some (str "Active")); AStr (Some C_RESET); AStr (Some C_YELLOW); ANum idle_sec;
                 AStr (Some C_RESET); AStr (Some C_GRAY); AStr (Some C_RESET)];
          Some (0, r, w)
      end
  end.

(** ** The groups.  [call] is how a row's executor is called. *)
Section groups.
Context (call : cmd_handler -> bool -> list (list Z) -> cmd_resp_t -> mgmt -> option (Z * cmd_resp_t * mgmt)).

Definition find_sub (group : string) (sub : list Z) : option (cmd_entry_t cmd_handler) :=
  find (fun e => in_group (str group) e && strcaseeq sub (ce_name e)) cmd_table.
Arguments find_sub _%_string_scope _.

Definition cmd_handle_set (ctx : bool) (argv : list (list Z)) (r : cmd_resp_t) (w : mgmt) : option (Z * cmd_resp_t * mgmt) :=
  if (length argv <? 2)%nat then '(_, r) ← cmd_group_help (Some cmd_table) (Some (str "SET")) r; Some (0, r, w) else
  sub_cmd ← arg argv 1;
  match find_sub "SET" sub_cmd with
  | Some e =>
      match ce_handler e with
      | None => r ← cmd_resp_red r (str "ERR: SET %s logic is not implemented.") [AStr (Some sub_cmd)]; Some (0, r, w)
      | Some h =>
          if (length argv <? ce_min_argc e)%nat then
            r ← cmd_resp_red r (str "ERR: Usage: SET %s %s") [AStr (Some (ce_name e)); AStr (ce_usage e)]; Some (0, r, w)
          else call h ctx argv r w
      end
  | None =>
      r ← cmd_resp_red r (str "ERR: Unknown SET key '%s'. Use 'HELP SET' to see options.") [AStr (Some sub_cmd)]; Some (-1, r, w)
  end.

Definition cmd_handle_get (ctx : bool) (argv : list (list Z)) (r : cmd_resp_t) (w : mgmt) : option (Z * cmd_resp_t * mgmt) :=
  if negb ctx then Some (-1, r, w) else
  if (length argv <? 2)%nat then '(_, r) ← cmd_group_help (Some cmd_table) (Some (str "GET")) r; Some (0, r, w) else
  target_key ← arg argv 1;
  match find_sub "GET" target_key with
  | Some e =>
      match ce_handler e with
      | None => r ← cmd_resp_red r (str "ERR: GET %s logic is not implemented.") [AStr (Some target_key)]; Some (0, r, w)
      | Some h =>
          if (length argv <? ce_min_argc e)%nat then
            r ← cmd_resp_red r (str "ERR: Usage: GET %s %s") [AStr (Some (ce_name e)); or_empty (ce_usage e)]; Some (0, r, w)
          else call h ctx argv r w
      end
  | None =>
      r ← cmd_resp_red r (str "ERR: Unknown GET key '%s'. Use 'HELP GET' to list valid keys.") [AStr (Some target_key)]; Some (-1, r, w)
  end.
End groups.

(** A call through the table.  The two group executors call rows of their
    group, none of which is a group executor: one level is enough. *)
Fixpoint call_handler (depth : nat) (st : sessions T) (e : proc_env) (h : cmd_handler) (ctx : bool) (argv : list (list Z))
    (r : cmd_resp_t) (w : mgmt) {struct depth} : option (Z * cmd_resp_t * mgmt) :=
  match h with
  | HSet => match depth with O => None | S d => cmd_handle_set (call_handler d st e) ctx argv r w end
  | HGet => match depth with O => None | S d => cmd_handle_get (call_handler d st e) ctx argv r w end
  | HStatus => cmd_handle_status e argv r w
  | HHelp => '(rc, r) ← cmd_handle_help (Some cmd_table) argv r; Some (rc, r, w)
  | HSetLogpkt => cmd_set_islogptk ctx argv r w
  | HSetDebug => cmd_set_isdebug ctx argv r w
  | HGetStats => cmd_get_reass_stats ctx argv r w
  | HGetConfig => cmd_get_config ctx argv r w
  | HGetSessions => cmd_get_sessions st ctx argv r w
  | HGetShow => cmd_get_session_bysid st (pe_time e) ctx argv r w
  | HGetTasks => cmd_get_task_pool ctx argv r w
  end.
End engine.
Arguments find_sub _%_string_scope _.

(** ** What a line does to the engine, by its tokens *)

Definition set_effect (key v : list Z) (w : mgmt) : mgmt :=
  match flag_value v with
  | None => w
  | Some b =>
      if strcaseeq key (str "logpkt") then set_engine (set_islogptk b (mg_engine w)) w
      else if strcaseeq key (str "debug") then
        if eqb (en_isdebug (mg_engine w)) b then w
        else {| mg_engine := set_isdebug b (mg_engine w); mg_log_level := if b then LOG_TRACE else LOG_INFO |}
      else w
  end.

(** [SET key value], and [key anything value], since the dispatcher finds the
    rows of the group as well. *)
Definition mgmt_effect (ts : list (list Z)) (w : mgmt) : mgmt :=
  match ts with
  | name :: key :: v :: _ => set_effect (if strcaseeq name (str "SET") then key else name) v w
  | _ => w
  end.

(** ** Lemmas *)

Lemma strcaseeq_subst a b c : strcaseeq a b = true -> strcaseeq a c = strcaseeq b c.
Proof. unfold strcaseeq. intros E. apply bool_decide_eq_true in E. by rewrite E. Qed.

Lemma cmd_table_ok : Forall entry_ok cmd_table.
Proof. by_compute. Qed.

(** An executor that answers and leaves [w']. *)
Definition handled (r : cmd_resp_t) (w' : mgmt) (m : option (Z * cmd_resp_t * mgmt)) : Prop :=
  exists rc r' t, m = Some (rc, r', w') /\ says r r' t.

Lemma handled_ret r rc w : resp_ok r -> handled r w (Some (rc, r, w)).
Proof. intros Hr. exists rc, r, []. split; [done|by apply says_nil]. Qed.

Lemma handled_step r w' m f : prints r m -> (forall r', resp_ok r' -> handled r' w' (f r')) -> handled r w' (m ≫= f).
Proof.
  intros (r1 & t & -> & S1) Hf. destruct (Hf r1 (proj1 S1)) as (rc & r2 & u & E & S2). exists rc, r2, (t ++ u).
  split; [done|by eapply says_trans].
Qed.

(** A print of a literal format in front of the rest of an executor. *)
Ltac print_ok :=
  split; [fmt_defined|split; [first [by_compute|repeat constructor; done]|
    unfold row_args; cbn [app]; repeat (constructor; cbn [arg_no_nul]; try done); try by_compute]].
Ltac print_step :=
  apply handled_step; [first [apply printf_prints|apply red_prints|apply green_prints]; [assumption|print_ok]|intros ? ?].
Ltac print_all := repeat print_step; apply handled_ret; assumption.

(** The [i]-th argument. *)
Lemma arg_lookup argv ts i : mapM cstr argv = Some ts -> arg argv i = ts !! i.
Proof.
  intros Ha. apply mapM_Some in Ha. unfold arg. destruct (argv !! i) as [p|] eqn:E; cbn [mbind option_bind].
  - by destruct (Forall2_lookup_l _ _ _ _ _ Ha E) as (t & -> & Et).
  - apply lookup_ge_None in E. symmetry. apply lookup_ge_None. by rewrite <- (list.Forall2_length _ _ _ Ha).
Qed.

Section leaves.
Context (argv ts : list (list Z)) (Ha : mapM cstr argv = Some ts) (Hts : Forall no_nul ts).

Lemma cmd_set_islogptk_ok r w :
  resp_ok r ->
  handled r (match ts with _ :: _ :: v :: _ => set_effect (str "logpkt") v w | _ => w end) (cmd_set_islogptk true argv r w).
Proof.
  intros Hr. unfold cmd_set_islogptk. cbn [negb]. rewrite (length_mapM _ _ _ Ha).
  destruct ts as [|a [|b [|v l]]]; [print_all..|]. cbn [length Nat.ltb Nat.leb]. rewrite (arg_lookup _ _ 2 Ha). cbn [lookup list_lookup mbind option_bind].
  assert (no_nul v) as Hv by by (do 3 apply Forall_cons_iff in Hts as [? Hts]). unfold set_effect.
  destruct (flag_value v) as [b'|]; [|print_all]. change (strcaseeq (str "logpkt") (str "logpkt")) with true. cbn iota.
  destruct (eqb (en_islogptk (mg_engine w)) b') eqn:E.
  - apply eqb_prop in E. subst b'. replace (set_engine _ w) with w by by destruct w as [[] ?].
    destruct (en_islogptk (mg_engine w)); print_all.
  - destruct b'; print_all.
Qed.

Lemma cmd_set_isdebug_ok r w :
  resp_ok r ->
  handled r (match ts with _ :: _ :: v :: _ => set_effect (str "debug") v w | _ => w end) (cmd_set_isdebug true argv r w).
Proof.
  intros Hr. unfold cmd_set_isdebug. cbn [negb]. rewrite (length_mapM _ _ _ Ha).
  destruct ts as [|a [|b [|v l]]]; [print_all..|]. cbn [length Nat.ltb Nat.leb]. rewrite (arg_lookup _ _ 2 Ha). cbn [lookup list_lookup mbind option_bind].
  assert (no_nul v) as Hv by by (do 3 apply Forall_cons_iff in Hts as [? Hts]). unfold set_effect.
  destruct (flag_value v) as [b'|]; [|print_all]. change (strcaseeq (str "debug") (str "logpkt")) with false.
  change (strcaseeq (str "debug") (str "debug")) with true. cbn iota.
  destruct (eqb (en_isdebug (mg_engine w)) b'); destruct b'; print_all.
Qed.

Lemma cmd_get_reass_stats_ok r w : resp_ok r -> handled r w (cmd_get_reass_stats true argv r w).
Proof. intros Hr. unfold cmd_get_reass_stats. cbn [negb]. destruct (negb _); print_all. Qed.

Lemma cmd_get_config_ok r w : resp_ok r -> handled r w (cmd_get_config true argv r w).
Proof.
  intros Hr. unfold cmd_get_config. cbn [negb]. destruct (negb _); [print_all|].
  destruct (en_islogptk (mg_engine w)), (cmd_isdebug_enabled (mg_engine w)); print_all.
Qed.

Lemma cmd_get_task_pool_ok r w : resp_ok r -> handled r w (cmd_get_task_pool true argv r w).
Proof. intros Hr. unfold cmd_get_task_pool. cbn [negb]. destruct (negb _); print_all. Qed.

End leaves.

Lemma ip_ntop_ok ip : exists t, ip_ntop ip INET_ADDRSTRLEN = Some t /\ no_nul t.
Proof.
  unfold ip_ntop. cbn [Nat.ltb Nat.leb]. destruct (inet_ntop_text ip) as (s & -> & Hs & _). exists s. by rewrite cstr_app.
Qed.

(** What is read of the process and of /proc. *)
Definition proc_ok (e : proc_env) : Prop :=
  (forall p s, no_nul (pe_ratio e p s)) /\ stat_documented (pe_sample1 e).1 (pe_sample1 e).2 /\
  stat_documented (pe_sample2 e).1 (pe_sample2 e).2.

Lemma cmd_handle_status_ok e argv r w : proc_ok e -> resp_ok r -> handled r w (cmd_handle_status e argv r w).
Proof.
  intros (Hf & H1 & H2) Hr. unfold cmd_handle_status. destruct (negb _); [print_all|].
  destruct (get_uptime_str_ok (pe_start e) (pe_monotonic e) 64) as (u & -> & Hu & _). cbn [mbind option_bind].
  destruct (get_cpu_usage_ratio_ok (pe_ratio e) _ _ Hf H1 H2) as (c & -> & Hc). cbn [mbind option_bind]. print_all.
Qed.

Section engine_proofs.
Context {T : Type} `{HT : HashTable Z T, HTL : !HashTableLaws Z T}.
Implicit Type st : sessions T.

Lemma cmd_get_sessions_ok st argv r w : resp_ok r -> handled r w (cmd_get_sessions st true argv r w).
Proof. intros Hr. unfold cmd_get_sessions. cbn [negb]. destruct (negb _); print_all. Qed.

Lemma cmd_get_session_bysid_ok st now argv ts r w :
  ss_wf st -> mapM cstr argv = Some ts -> Forall no_nul ts -> resp_ok r ->
  handled r w (cmd_get_session_bysid st now true argv r w).
Proof.
  intros Hwf Ha Hts Hr. unfold cmd_get_session_bysid. cbn [negb]. rewrite (length_mapM _ _ _ Ha).
  destruct ts as [|a [|b [|v l]]]; [print_all..|]. cbn [length Nat.ltb Nat.leb]. rewrite (arg_lookup _ _ 2 Ha). cbn [lookup list_lookup mbind option_bind].
  assert (no_nul v) as Hv by by (do 3 apply Forall_cons_iff in Hts as [? Hts]).
  destruct (parse_sid v) as [sid|]; [|print_all]. destruct (lookup_by_sid_wf st sid Hwf) as (x & -> & Hx). cbn [mbind option_bind].
  destruct x as [x|]; [|print_all]. destruct Hx as (s & -> & _). cbn [mbind option_bind].
  destruct (ip_ntop_ok (sin_addr (ss_remote_addr s))) as (ip & -> & Hip). cbn [mbind option_bind].
  do 2 print_step. destruct (ip_ntop_ok (ss_vip s)) as (vip & -> & Hvip). cbn [mbind option_bind]. print_step.
  match goal with |- context [snprintf 64 ?f ?a] => destruct (snprintf_ok 64 f a) as (ep & -> & Hep); [print_ok|] end.
  cbn [mbind option_bind]. print_all.
Qed.

(** What an executor leaves, by the tokens of the line. *)
Definition handler_effect (h : cmd_handler) (ts : list (list Z)) (w : mgmt) : mgmt :=
  match ts with
  | _ :: key :: v :: _ =>
      match h with
      | HSet => set_effect key v w
      | HSetLogpkt => set_effect (str "logpkt") v w
      | HSetDebug => set_effect (str "debug") v w
      | _ => w
      end
  | _ => w
  end.

Definition is_group (h : cmd_handler) : bool := match h with HSet | HGet => true | _ => false end.

Context (st : sessions T) (e : proc_env) (Hst : ss_wf st) (He : proc_ok e).

Lemma leaf_ok d h argv ts r w :
  is_group h = false -> mapM cstr argv = Some ts -> Forall no_nul ts -> resp_ok r ->
  handled r (handler_effect h ts w) (call_handler d st e h true argv r w).
Proof.
  intros Hh Ha Hts Hr.
  assert (forall m, handled r w m -> match h with HSetLogpkt | HSetDebug => False | _ => True end -> handled r (handler_effect h ts w) m) as Hsame.
  { intros m Hm Hc. replace (handler_effect h ts w) with w; [done|]. destruct ts as [|? [|? [|? ?]]]; try done. by destruct h. }
  destruct h; try done; destruct d; cbn [call_handler]; try (apply Hsame; [|exact I]);
    auto using cmd_handle_status_ok, cmd_get_reass_stats_ok, cmd_get_config_ok, cmd_get_task_pool_ok, cmd_get_sessions_ok.
  1,2: destruct (cmd_handle_help_prints cmd_table argv ts r cmd_table_ok Ha Hts Hr) as (r' & t & -> & Hs); by eexists _, _, _.
  1,2: destruct (cmd_set_islogptk_ok argv ts Ha Hts r w Hr) as (rc & r' & t & -> & Hs); exists rc, r', t; split; [|done]; do 2 f_equal; by destruct ts as [|? [|? [|? ?]]].
  1,2: destruct (cmd_set_isdebug_ok argv ts Ha Hts r w Hr) as (rc & r' & t & -> & Hs); exists rc, r', t; split; [|done]; do 2 f_equal; by destruct ts as [|? [|? [|? ?]]].
  all: by eapply cmd_get_session_bysid_ok.
Qed.

Lemma find_set key :
  find_sub "SET" key =
    if strcaseeq key (str "interval") then Some (cmd_row (Some "SET"%string) "interval" "Scan interval (ms)" "<val>" 3 None)
    else if strcaseeq key (str "logpkt") then Some (cmd_row (Some "SET"%string) "logpkt" "print raw XDP packet info" "<1|0>" 3 (Some HSetLogpkt))
    else if strcaseeq key (str "debug") then Some (cmd_row (Some "SET"%string) "debug" "enable/disable debug mode" "<1|0>" 3 (Some HSetDebug))
    else None.
Proof. reflexivity. Qed.

Lemma set_effect_other key v w : strcaseeq key (str "logpkt") = false -> strcaseeq key (str "debug") = false -> set_effect key v w = w.
Proof. intros E1 E2. unfold set_effect. rewrite E1, E2. by destruct (flag_value v). Qed.

Lemma set_effect_subst a b v w : strcaseeq a b = true -> set_effect a v w = set_effect b v w.
Proof. intros E. unfold set_effect. by rewrite !(strcaseeq_subst _ _ _ E). Qed.

Lemma cmd_handle_set_ok argv ts r w :
  mapM cstr argv = Some ts -> Forall no_nul ts -> resp_ok r ->
  handled r (handler_effect HSet ts w) (cmd_handle_set (call_handler 0 st e) true argv r w).
Proof.
  intros Ha Hts Hr. unfold cmd_handle_set. rewrite (length_mapM _ _ _ Ha).
  destruct ts as [|name [|key ts']].
  1,2: destruct (cmd_group_help_prints cmd_table (Some (str "SET")) r cmd_table_ok ltac:(by_compute) Hr) as (r' & t & -> & Hs);
    by eexists _, _, _.
  cbn [length Nat.ltb Nat.leb]. rewrite (arg_lookup _ _ 1 Ha). cbn [lookup list_lookup mbind option_bind]. rewrite find_set.
  assert (no_nul key) as Hk by by (do 2 apply Forall_cons_iff in Hts as [? Hts]).
  destruct (strcaseeq key (str "interval")) eqn:E0.
  { replace (handler_effect HSet _ w) with w; [cbn [cmd_row ce_handler]; print_all|]. destruct ts' as [|v ?]; [done|]. cbn [handler_effect].
    rewrite (set_effect_subst _ _ _ _ E0). symmetry. by apply set_effect_other. }
  destruct (strcaseeq key (str "logpkt")) eqn:E1; [|destruct (strcaseeq key (str "debug")) eqn:E2].
  3: { replace (handler_effect HSet _ w) with w; [print_all|]. destruct ts' as [|v ?]; [done|]. symmetry. by apply set_effect_other. }
  all: cbn [cmd_row ce_handler ce_min_argc ce_name ce_usage]; destruct ts' as [|v ts']; [print_all|]; cbn [length Nat.ltb Nat.leb handler_effect].
  - rewrite (set_effect_subst _ _ _ _ E1). by apply (leaf_ok 0 HSetLogpkt _ (name :: key :: v :: ts')).
  - rewrite (set_effect_subst _ _ _ _ E2). by apply (leaf_ok 0 HSetDebug _ (name :: key :: v :: ts')).
Qed.

Lemma find_get key x :
  find_sub "GET" key = Some x ->
  exists h, ce_handler x = Some h /\ is_group h = false /\ (forall ts w, handler_effect h ts w = w) /\ entry_ok x.
Proof.
  intros [Hin Hp]%find_some. assert (Forall (fun x => in_group (str "GET") x = true -> exists h, ce_handler x = Some h /\
    is_group h = false /\ (forall ts w, handler_effect h ts w = w) /\ entry_ok x) cmd_table) as Hall.
  { unfold cmd_table. repeat constructor; try (intros E; vm_compute in E; discriminate E); intros _; eexists; (split; [reflexivity|]);
      (split; [done|]); (split; [by intros [|? [|? [|? ?]]] ?|by_compute]). }
  rewrite list.Forall_forall in Hall. apply Hall; [by apply list_elem_of_In|]. by apply andb_true_iff in Hp as [? _].
Qed.

Lemma cmd_handle_get_ok argv ts r w :
  mapM cstr argv = Some ts -> Forall no_nul ts -> resp_ok r ->
  handled r w (cmd_handle_get (call_handler 0 st e) true argv r w).
Proof.
  intros Ha Hts Hr. unfold cmd_handle_get. cbn [negb]. rewrite (length_mapM _ _ _ Ha).
  destruct ts as [|name [|key ts']].
  1,2: destruct (cmd_group_help_prints cmd_table (Some (str "GET")) r cmd_table_ok ltac:(by_compute) Hr) as (r' & t & -> & Hs);
    by eexists _, _, _.
  cbn [length Nat.ltb Nat.leb]. rewrite (arg_lookup _ _ 1 Ha). cbn [lookup list_lookup mbind option_bind].
  assert (no_nul key) as Hk by by (do 2 apply Forall_cons_iff in Hts as [? Hts]).
  destruct (find_sub "GET" key) as [x|] eqn:Ef; [|print_all].
  destruct (find_get _ _ Ef) as (h & -> & Hh & Heff & Hn & _ & _ & Hu & _).
  match goal with |- context [if ?b then _ else _] => destruct b end.
  - destruct (or_empty_ok _ Hu) as (u & -> & Hu'). print_all.
  - rewrite <- (Heff (name :: key :: ts') w) at 1. by apply leaf_ok.
Qed.

Lemma call_handler_ok h argv ts r w :
  mapM cstr argv = Some ts -> Forall no_nul ts -> resp_ok r ->
  handled r (handler_effect h ts w) (call_handler 1 st e h true argv r w).
Proof.
  intros Ha Hts Hr. destruct (is_group h) eqn:Eh; [|by apply leaf_ok]. destruct h; try done; cbn [call_handler].
  - by apply cmd_handle_set_ok.
  - replace (handler_effect HGet ts w) with w by by destruct ts as [|? [|? [|? ?]]]. by eapply cmd_handle_get_ok.
Qed.

Lemma mgmt_effect_other name args w :
  strcaseeq name (str "SET") = false -> strcaseeq name (str "logpkt") = false -> strcaseeq name (str "debug") = false ->
  mgmt_effect (name :: args) w = w.
Proof. intros E0 E1 E2. destruct args as [|key [|v args]]; [done..|]. unfold mgmt_effect. rewrite E0. by apply set_effect_other. Qed.

(** A row's executor has the effect of the line. *)
Lemma row_effect x name args w :
  x ∈ cmd_table -> strcaseeq name (ce_name x) = true ->
  mgmt_effect (name :: args) w = match ce_handler x with Some h => handler_effect h (name :: args) w | None => w end.
Proof.
  intros Hin. revert x Hin. set (P x := strcaseeq name (ce_name x) = true ->
    mgmt_effect (name :: args) w = match ce_handler x with Some h => handler_effect h (name :: args) w | None => w end).
  cut (Forall P cmd_table); [by rewrite list.Forall_forall|]. unfold cmd_table, P.
  repeat (constructor; [intros E; cbn [cmd_row ce_name ce_handler] in E |- *|]); [..|constructor].
  all: try (rewrite mgmt_effect_other by (rewrite (strcaseeq_subst _ _ _ E); reflexivity); by destruct args as [|? [|? ?]]).
  all: destruct args as [|key [|v args]]; [done..|]; unfold mgmt_effect; rewrite (strcaseeq_subst _ _ _ E); cbn [handler_effect].
  - reflexivity.
  - change (set_effect name v w = set_effect (str "logpkt") v w). by apply set_effect_subst.
  - change (set_effect name v w = set_effect (str "debug") v w). by apply set_effect_subst.
Qed.

Lemma no_row_effect name args w :
  find (fun x => strcaseeq name (ce_name x)) cmd_table = None -> mgmt_effect (name :: args) w = w.
Proof.
  intros Hf. pose proof (find_none _ _ Hf) as Hn. apply mgmt_effect_other.
  - apply (Hn (cmd_row None "SET" "set parameters" "<key> <val>" 1 (Some HSet))). cbn. tauto.
  - apply (Hn (cmd_row (Some "SET"%string) "logpkt" "print raw XDP packet info" "<1|0>" 3 (Some HSetLogpkt))). cbn. tauto.
  - apply (Hn (cmd_row (Some "SET"%string) "debug" "enable/disable debug mode" "<1|0>" 3 (Some HSetDebug))). cbn. tauto.
Qed.

(** A row that is too short for its arguments changes nothing. *)
Lemma short_effect x name args w :
  x ∈ cmd_table -> strcaseeq name (ce_name x) = true -> (S (length args) < ce_min_argc x)%nat -> mgmt_effect (name :: args) w = w.
Proof.
  intros Hin E Hl. assert (ce_min_argc x <= 3)%nat as Hm.
  { revert x Hin E Hl. assert (Forall (fun x => ce_min_argc x <= 3)%nat cmd_table) as H by by_compute. rewrite list.Forall_forall in H. intros x Hin _ _. by apply H. }
  destruct args as [|? [|? ?]]; [done..|cbn in Hl; lia].
Qed.

Definition empty_resp : cmd_resp_t := {| r_buf := replicate MAX_RESP_BUF 0; r_size := MAX_RESP_BUF; r_offset := 0 |}.
Lemma empty_resp_ok : resp_ok empty_resp.
Proof. constructor; [done|by apply Nat.ltb_lt|done..|constructor]. Qed.

Lemma mgmt_dispatch_spec s z w :
  no_nul s ->
  exists rc out,
    cmd_dispatch (call_handler 1 st e) (Some cmd_table) true (Some (s ++ 0 :: z)) (Some (replicate MAX_RESP_BUF 0)) MAX_RESP_BUF w
    = Some (rc, out, from_option (fun ts => mgmt_effect ts w) w (tokens MAX_ARG_COUNT s)) /\
    exists t, out_text MAX_RESP_BUF out t.
Proof.
  intros Hs. pose proof (cmd_dispatch_spec (call_handler 1 st e) cmd_table true s z _ MAX_RESP_BUF w cmd_table_ok Hs
    (length_replicate MAX_RESP_BUF 0) eq_refl eq_refl) as H. cbn zeta in H.
  pose proof (tokens_no_nul MAX_ARG_COUNT s) as Hnn. destruct (tokens MAX_ARG_COUNT s) as [[|name args]|]; cbn [from_option].
  - eexists _, _. split; [exact H|]. exists []. by exists (replicate MAX_RESP_BUF 0).
  - specialize (Hnn _ Hs eq_refl). destruct (find _ cmd_table) as [x|] eqn:Ef.
    2: { rewrite (no_row_effect name args w Ef). destruct H as (out & E & Ho). eexists _, _. split; [exact E|by eexists]. }
    pose proof Ef as [Hin Hm]%find_some. apply list_elem_of_In in Hin. pose proof (row_effect x name args w Hin Hm) as He'.
    destruct (ce_handler x) as [h|].
    2: { rewrite He'. destruct H as (out & E & Ho). eexists _, _. split; [exact E|by eexists]. }
    destruct (Nat.ltb_spec (S (length args)) (ce_min_argc x)).
    { rewrite (short_effect x) by done. destruct H as (out & E & Ho). eexists _, _. split; [exact E|by eexists]. }
    destruct H as (argv & Ha & ->). rewrite He'. change {| r_buf := _ |} with empty_resp.
    destruct (call_handler_ok h argv _ empty_resp w Ha Hnn empty_resp_ok) as (rc & r & t & -> & Hsays). cbn [mbind option_bind].
    eexists _, _. split; [done|]. exists t. exact (says_out empty_resp r t empty_resp_ok eq_refl Hsays).
  - destruct H as (out & E & Ho). eexists _, _. split; [exact E|by eexists].
Qed.

(** C33 A line on the management socket is served within bounds and does what it
    says.  Whatever the line, the dispatcher with the program's table is defined
    when the sessions are in order and the texts of /proc are as
    [stat_documented] says (the line of the process does not end at its last
    parenthesis, and the first line of /proc/stat gives all eight times or at
    most three; other texts, missing files included, are answered, those two
    are read out of bounds or unassigned): it fills the response of 4096 bytes with a text and its NUL, and of the
    engine and the log level changes what the tokens ask for and nothing else;
    in particular a line that cannot be parsed changes nothing. *)
Theorem mgmt_dispatch_exact s z w :
  no_nul s ->
  exists rc out,
    cmd_dispatch (call_handler 1 st e) (Some cmd_table) true (Some (s ++ 0 :: z)) (Some (replicate MAX_RESP_BUF 0)) MAX_RESP_BUF w
    = Some (rc, out, from_option (fun ts => mgmt_effect ts w) w (tokens MAX_ARG_COUNT s)) /\
    exists t, out_text MAX_RESP_BUF out t.
Proof. apply mgmt_dispatch_spec. Qed.
End engine_proofs.

Definition demo_proc : proc_env :=
  {| pe_time := 1000; pe_monotonic := 90161; pe_start := 100; pe_pid := 77; pe_status := Some demo_status;
     pe_fds := Some [str "."; str ".."; str "0"; str "1"; str "2"; str "3"];
     pe_sample1 := (Some demo_self_stat, Some (demo_stat 840)); pe_sample2 := (Some demo_self_stat, Some (demo_stat 940));
     pe_ratio := fun _ _ => str "0.00" |}.

Lemma demo_proc_ok : proc_ok demo_proc.
Proof.
  split; [|split; (split; [intros s [= <-]; by vm_compute|intros s [= <-]; right; vm_compute; lia])]. intros p s. change (no_nul (str "0.00")). by_compute. Qed.

Lemma mgmt_dispatch_exact_witness :
  no_nul (str "set LOGPKT on") /\ mgmt_effect [str "set"; str "LOGPKT"; str "on"] {| mg_engine := cmdengine; mg_log_level := LOG_INFO |} =
    {| mg_engine := set_islogptk true cmdengine; mg_log_level := LOG_INFO |} /\
  exists rc out,
    cmd_dispatch (call_handler 1 (vf_ss_init (T := list_table Z) ∅) demo_proc) (Some cmd_table) true (Some (str "set LOGPKT on" ++ 0 :: []))
      (Some (replicate MAX_RESP_BUF 0)) MAX_RESP_BUF {| mg_engine := cmdengine; mg_log_level := LOG_INFO |}
    = Some (rc, out, {| mg_engine := set_islogptk true cmdengine; mg_log_level := LOG_INFO |}) /\
    exists t, out_text MAX_RESP_BUF out t.
Proof.
  split; [by_compute|]. split; [reflexivity|].
  exact (mgmt_dispatch_exact _ demo_proc vf_ss_init_wf demo_proc_ok (str "set LOGPKT on") [] {| mg_engine := cmdengine; mg_log_level := LOG_INFO |} ltac:(by_compute)).
Defined.
