(* ===== verification/CmdNet.v ===== *)
(** The management socket (src/src/cmd.c): its messages, and the thread that
    serves them, over the system calls of Sys. *)
From S2P Require Import Prelude Libc Text Printf HashTable Key Session Sys Tun Udp Args Cmd Stats Option Status CmdEngine.

Definition AFUINX_MAGIC : Z := 0x56465354.
Definition AFUINX_VERSION : Z := 1.
Definition SOCKET_PATH : list Z := str "/tmp/vfast.sock".
Definition AF_UNIX : Z := 1.
Definition SOCK_STREAM : Z := 1.
Definition SIGPIPE : Z := 13.
Definition ENFILE : Z := 23.
Definition EMFILE : Z := 24.

(** [afuinx_header_t], packed. *)
Record afuinx_header_t := { ah_magic : Z; ah_type : Z; ah_version : Z; ah_length : Z }.
Definition AH_SIZE : nat := 12.
Definition hdr_bytes (h : afuinx_header_t) : list Z :=
  le_bytes 4 (ah_magic h) ++ le_bytes 2 (ah_type h) ++ le_bytes 2 (ah_version h) ++ le_bytes 4 (ah_length h).
Definition hdr_of (bs : list Z) : option afuinx_header_t :=
  m ← get_le 0 4 bs; t ← get_le 4 2 bs; v ← get_le 6 2 bs; l ← get_le 8 4 bs;
  Some {| ah_magic := m; ah_type := t; ah_version := v; ah_length := l |}.

(** ** Transport *)

(** [silenced] is the function's static variable. *)
Definition silence_sigpipe (silenced : bool) : sys () :=
  if silenced then mret () else (_ ← syscall_do (ScSigIgn SIGPIPE); mret ()).

(** [sun_path], 108 bytes. *)
Definition sun_path (path : list Z) : option (list Z) := p ← strncpy path 107; Some (p ++ [0]).

Definition cmd_transport_listen (silenced : bool) (path : list Z) : sys Z :=
  _ ← silence_sigpipe silenced;
  s ← syscall_do (ScSocket AF_UNIX SOCK_STREAM 0);
  let fd := rp_ret s in
  if fd <? 0 then mret (-1) else
  addr ← sys_opt (sun_path path);
  text ← sys_opt (cstr path);
  _ ← syscall_do (ScUnlink text);
  b ← syscall_do (ScBindUn fd addr);
  if rp_ret b <? 0 then _ ← syscall_do (ScClose fd); mret (-1) else
  l ← syscall_do (ScListen fd 16);
  if rp_ret l <? 0 then _ ← syscall_do (ScClose fd); mret (-1) else
  mret fd.

Definition cmd_transport_connect (silenced : bool) (path : list Z) : sys Z :=
  _ ← silence_sigpipe silenced;
  s ← syscall_do (ScSocket AF_UNIX SOCK_STREAM 0);
  let fd := rp_ret s in
  if fd <? 0 then mret (-1) else
  addr ← sys_opt (sun_path path);
  c ← syscall_do (ScConnectUn fd addr);
  if rp_ret c <? 0 then _ ← syscall_do (ScClose fd); mret (-1) else
  mret fd.

Definition cmd_transport_send (fd type : Z) (data : option (list Z)) (len : Z) : sys Z :=
  let hdr := {| ah_magic := AFUINX_MAGIC; ah_type := type; ah_version := AFUINX_VERSION; ah_length := len |} in
  h ← syscall_do (ScSend fd (hdr_bytes hdr));
  if negb (rp_ret h =? Z.of_nat AH_SIZE) then mret (-1) else
  match data with
  | Some data =>
      if 0 <? len then
        bs ← sys_opt (get_bytes 0 (Z.to_nat len) data);
        d ← syscall_do (ScSend fd bs);
        if negb (rp_ret d =? len) then mret (-1) else mret 0
      else mret 0
  | None => mret 0
  end.

(** The [n] bytes a call stored that returned [n]. *)
Definition stored (n : nat) (r : reply) : list Z := take n (rp_bytes r ++ replicate n 0).

Definition MS_2000 : list Z := le_bytes 8 2 ++ le_bytes 8 0.

(** The return value, the header when one was stored, and the payload: its
    block and its bytes with the NUL of [calloc]. *)
Definition cmd_transport_recv (fd : Z) : sys (Z * option afuinx_header_t * option (Z * list Z)) :=
  _ ← syscall_do (ScSetsockopt fd SO_RCVTIMEO MS_2000);
  r ← syscall_do (ScRecv fd (Z.of_nat AH_SIZE));
  if negb (rp_ret r =? Z.of_nat AH_SIZE) then mret (-1, None, None) else
  hdr ← sys_opt (hdr_of (stored AH_SIZE r));
  if negb (ah_magic hdr =? AFUINX_MAGIC) then mret (-1, Some hdr, None) else
  if 0 <? ah_length hdr then
    if Z.of_nat MAX_RESP_BUF <? ah_length hdr then mret (-1, Some hdr, None) else
    m ← syscall_do (ScMalloc (ah_length hdr + 1));
    if rp_ret m <? 0 then mret (-1, Some hdr, None) else
    d ← syscall_do (ScRecv fd (ah_length hdr));
    if negb (rp_ret d =? ah_length hdr) then
      _ ← syscall_do (ScFree (rp_ret m)); mret (-1, Some hdr, None)
    else mret (0, Some hdr, Some (rp_ret m, stored (Z.to_nat (ah_length hdr)) d ++ [0]))
  else mret (0, Some hdr, None).

(** ** The server thread *)

(** What meets the thread at the top of its loop: it goes on to [accept], and
    executors then find [x] around them; it finds [g_server_running] cleared; or
    it is cancelled in [accept] or [sleep], the cancellation points between
    enabling and disabling. *)
Inductive turn (X : Type) := TGo (x : X) | TStop | TCancel.
Arguments TGo {X}.
Arguments TStop {X}.
Arguments TCancel {X}.

(** How the thread is found after some turns. *)
Inductive worker_end := Running | Returned | Cancelled.

Section worker.
Context {X H W : Type} (call : X -> H -> bool -> list (list Z) -> cmd_resp_t -> W -> option (Z * cmd_resp_t * W)).
Context (table : option (list (cmd_entry_t H))).

(** The response to a payload. *)
Definition respond (x : X) (payload : option (list Z)) (w : W) : option (option (list Z) * W) :=
  let resp_buf := replicate MAX_RESP_BUF 0 in
  match table with
  | Some _ => '(_, out, w) ← cmd_dispatch (call x) table true payload (Some resp_buf) MAX_RESP_BUF w; Some (out, w)
  | None =>
      t ← snprintf MAX_RESP_BUF (str "ERR: Command table not registered.") [];
      b ← put_bytes 0 (t ++ [0]) resp_buf; Some (Some b, w)
  end.

(** One accepted connection. *)
Definition cmd_server_client (x : X) (cfd : Z) (w : W) : sys W :=
  _ ← syscall_do (ScSetsockopt cfd SO_RCVTIMEO MS_2000);
  _ ← syscall_do (ScSetsockopt cfd SO_SNDTIMEO MS_2000);
  '(rc, _, payload) ← cmd_transport_recv cfd;
  w ← (if rc =? 0 then
         '(out, w) ← sys_opt (respond x (snd <$> payload) w);
         text ← sys_opt (out ← out; cstr out);
         _ ← cmd_transport_send cfd 1 out (u32 (Z.of_nat (length text)));
         _ ← (match payload with Some (p, _) => (_ ← syscall_do (ScFree p); mret ()) | None => mret () end);
         mret w
       else mret w);
  _ ← syscall_do (ScClose cfd);
  mret w.

Fixpoint cmd_server_loop (turns : list (turn X)) (lfd : Z) (w : W) : sys (W * worker_end) :=
  match turns with
  | [] => mret (w, Running)
  | TStop :: _ => _ ← syscall_do (ScClose lfd); mret (w, Returned)
  | TCancel :: _ => mret (w, Cancelled)
  | TGo x :: turns =>
      a ← syscall_do (ScAccept lfd);
      let cfd := rp_ret a in
      if cfd <? 0 then
        if rp_errno a =? EINTR then cmd_server_loop turns lfd w else
        if (rp_errno a =? EMFILE) || (rp_errno a =? ENFILE) then
          _ ← syscall_do (ScSleep 1); cmd_server_loop turns lfd w
        else _ ← syscall_do (ScClose lfd); mret (w, Returned)
      else w ← cmd_server_client x cfd w; cmd_server_loop turns lfd w
  end.

(** [args] is the block of the thread's argument. *)
Definition cmd_server_worker (silenced : bool) (turns : list (turn X)) (args : Z) (w : W) : sys (W * worker_end) :=
  _ ← syscall_do (ScFree args);
  lfd ← cmd_transport_listen silenced (SOCKET_PATH ++ [0]);
  if lfd <? 0 then mret (w, Returned) else cmd_server_loop turns lfd w.
End worker.

(** The thread's number, 0 when there is none, and the block its argument is
    in, which is the thread's from then on. *)
Definition cmd_server_start : sys (Z * option Z) :=
  m ← syscall_do (ScMalloc 8);
  if rp_ret m <? 0 then mret (0, None) else
  t ← syscall_do ScThreadCreate;
  if negb (rp_ret t =? 0) then _ ← syscall_do (ScFree (rp_ret m)); mret (0, None) else
  mret (rp_val t, Some (rp_ret m)).

(** [g_server_running], the caller's number, and whether the thread was
    cancelled and waited for. *)
Definition cmd_server_stop (ptid : option Z) (g_server_running : bool) : bool * option Z * bool :=
  match ptid with
  | None => (g_server_running, None, false)
  | Some tid => if tid =? 0 then (g_server_running, Some tid, false) else (false, Some 0, true)
  end.

(** The clock is read, the table registered, the thread started. *)
Definition cmd_start_core (now_sec : Z) : sys (Z * option (list (cmd_entry_t cmd_handler)) * Z * option Z) :=
  '(tid, args) ← cmd_server_start;
  mret (now_sec, Some cmd_table, tid, args).

(** * Proofs *)

(** Calls were made; descriptors and blocks are as before. *)
Definition quiet (o o' : os) : Prop := os_same o o' /\ (os_clock o <= os_clock o')%nat.

Lemma quiet_refl o : quiet o o.
Proof. by split. Qed.
Lemma quiet_trans o1 o2 o3 : quiet o1 o2 -> quiet o2 o3 -> quiet o1 o3.
Proof. intros ([F1 H1] & C1) ([F2 H2] & C2). split; [split; congruence|lia]. Qed.
Lemma quiet_ticks c o o' : os_same o o' -> ticks c o o' -> quiet o o'.
Proof. intros Hs (_ & Hc & _). split; [done|lia]. Qed.
Lemma quiet_wf o o' : quiet o o' -> os_wf o -> os_wf o'.
Proof. intros ([_ Hh] & Hc) Hwf. unfold os_wf. rewrite Hh. eapply list.Forall_impl; [exact Hwf|]. cbn. lia. Qed.
Lemma quiet_fds o o' fd : quiet o o' -> fd ∈ os_fds o -> fd ∈ os_fds o'.
Proof. by intros ([-> _] & _). Qed.

(** A call on an open descriptor, and one on none, in front of the rest. *)
Lemma on_step {A} c fd (f : reply -> sys A) o Q :
  sc_fd c = Some fd -> sc_plain c = true -> fd ∈ os_fds o ->
  (forall o', quiet o o' -> fd ∈ os_fds o' -> ticks c o o' -> sys_ok (f (os_kernel o (os_clock o))) o' Q) ->
  sys_ok (syscall_do c ≫= f) o Q.
Proof.
  intros Hc Hp Hin Hf. apply sys_ok_bind, (sys_ok_on _ fd); [done..|]. intros o' Hs Ht.
  pose proof (quiet_ticks _ _ _ Hs Ht) as Hq. apply Hf; [done|by eapply quiet_fds|done].
Qed.

Lemma plain_step {A} c (f : reply -> sys A) o Q :
  match c with ScUsleep _ | ScUnlink _ | ScSleep _ | ScSigIgn _ | ScSigaction _ | ScThreadCreate | ScStat _ | ScRealpath _ => True | _ => False end ->
  (forall o', quiet o o' -> sys_ok (f (os_kernel o (os_clock o))) o' Q) -> sys_ok (syscall_do c ≫= f) o Q.
Proof.
  intros Hc Hf. apply sys_ok_bind, sys_ok_plain; [done|]. intros o' Hs Ht. apply Hf. by eapply quiet_ticks.
Qed.

(** Closing the descriptor that was opened last. *)
Lemma close_new_step {A} fd (f : reply -> sys A) o0 o Q :
  fd ∉ os_fds o0 -> os_fds o = fd :: os_fds o0 -> os_heap o = os_heap o0 -> (os_clock o0 <= os_clock o)%nat ->
  (forall r o', quiet o0 o' -> sys_ok (f r) o' Q) -> sys_ok (syscall_do (ScClose fd) ≫= f) o Q.
Proof.
  intros Hn Hf Hh Hc HQ. apply sys_ok_bind, sys_ok_close; [rewrite Hf; left|]. intros r o' Hf' Hh' (_ & Ht & _). apply HQ.
  split; [split; [by rewrite Hf', Hf, filter_fresh|congruence]|lia].
Qed.

(** [o'] is [o] with [fd] open. *)
Definition opened (o : os) (fd : Z) (o' : os) : Prop :=
  0 <= fd /\ fd ∉ os_fds o /\ os_fds o' = fd :: os_fds o /\ os_heap o' = os_heap o /\ (os_clock o <= os_clock o')%nat.

Lemma opened_quiet o fd o1 o2 : opened o fd o1 -> quiet o1 o2 -> opened o fd o2.
Proof. intros (H0 & Hn & Hf & Hh & Hc) ([Hf2 Hh2] & Hc2). split_and!; [done|done|congruence|congruence|lia]. Qed.
Lemma opened_in o fd o1 : opened o fd o1 -> fd ∈ os_fds o1.
Proof. intros (_ & _ & -> & _). left. Qed.
Lemma opened_close {A} o fd (f : reply -> sys A) o1 Q :
  opened o fd o1 -> (forall r o', quiet o o' -> sys_ok (f r) o' Q) -> sys_ok (syscall_do (ScClose fd) ≫= f) o1 Q.
Proof. intros (H0 & Hn & Hf & Hh & Hc). by apply close_new_step. Qed.

Lemma silence_step {A} b (f : () -> sys A) o Q :
  (forall o', quiet o o' -> sys_ok (f ()) o' Q) -> sys_ok (silence_sigpipe b ≫= f) o Q.
Proof.
  intros Hf. unfold silence_sigpipe. apply sys_ok_bind. destruct b; [apply sys_ok_ret, Hf, quiet_refl|].
  apply plain_step; [done|]. intros o' Hq. apply sys_ok_ret. auto.
Qed.

(** A listener, or no trace of one. *)
Definition listens (o : os) (fd : Z) (o' : os) : Prop := if fd <? 0 then quiet o o' else opened o fd o'.

Lemma listens_fail o o' : quiet o o' -> listens o (-1) o'.
Proof. done. Qed.

Lemma unix_socket b (f : reply -> sys Z) o :
  (forall s o', opened o (rp_ret s) o' -> sys_ok (f s) o' (listens o)) ->
  sys_ok (_ ← silence_sigpipe b; s ← syscall_do (ScSocket AF_UNIX SOCK_STREAM 0);
          if rp_ret s <? 0 then mret (-1) else f s) o (listens o).
Proof.
  intros Hs. apply silence_step. intros o1 Hq1. apply sys_ok_bind, sys_ok_opens; [done| |].
  { intros o2 r Hr Hs2 Ht2. destruct (Z.ltb_spec (rp_ret r) 0); [|lia]. apply sys_ok_ret, listens_fail.
    eapply quiet_trans; [done|by eapply quiet_ticks]. }
  intros r o2 Hr Hn _ Hf Hh (_ & Hc & _). destruct (Z.ltb_spec (rp_ret r) 0); [lia|]. apply Hs.
  destruct Hq1 as ([F1 H1] & C1). rewrite F1 in Hn, Hf. split_and!; [done|done|done|congruence|lia].
Qed.

(** A call on the new socket; the function closes it and gives up when it
    fails. *)
Lemma socket_call c fd (f : sys Z) o o' :
  sc_fd c = Some fd -> sc_plain c = true -> opened o fd o' ->
  (forall o', opened o fd o' -> sys_ok f o' (listens o)) ->
  sys_ok (r ← syscall_do c; if rp_ret r <? 0 then _ ← syscall_do (ScClose fd); mret (-1) else f) o' (listens o).
Proof.
  intros Hc Hp Ho Hf. apply (on_step _ fd); [done|done|by eapply opened_in|]. intros o1 Hq _ _.
  pose proof (opened_quiet _ _ _ _ Ho Hq) as Ho1. destruct (_ <? 0); [|by apply Hf].
  apply (opened_close o); [done|]. intros _ o2 Hq2. by apply sys_ok_ret, listens_fail.
Qed.

Lemma opened_ret o fd o' : opened o fd o' -> sys_ok (mret fd) o' (listens o).
Proof. intros Ho. apply sys_ok_ret. unfold listens. destruct (Z.ltb_spec fd 0); [|done]. by destruct Ho as [? _]; lia. Qed.

Lemma sun_path_ok s z : no_nul s -> exists p, sun_path (s ++ 0 :: z) = Some p /\ length p = 108%nat.
Proof.
  intros Hs. destruct (strncpy_is_Some (s ++ 0 :: z) 107) as [p Hp]; [left; by rewrite strlen_app|].
  unfold sun_path. rewrite Hp. eexists. split; [done|]. rewrite length_app, (strncpy_length _ _ _ Hp). done.
Qed.

Lemma cmd_transport_listen_ok b s z o : no_nul s -> sys_ok (cmd_transport_listen b (s ++ 0 :: z)) o (listens o).
Proof.
  intros Hs. apply unix_socket. intros r o1 Ho1. destruct (sun_path_ok s z Hs) as (p & -> & _).
  apply sys_ok_opt. rewrite cstr_app by done. apply sys_ok_opt.
  apply plain_step; [done|]. intros o2 Hq2. pose proof (opened_quiet _ _ _ _ Ho1 Hq2) as Ho2.
  apply socket_call; [done..|]. intros o3 Ho3. apply socket_call; [done..|]. intros o4. apply opened_ret.
Qed.

Lemma cmd_transport_connect_ok b s z o : no_nul s -> sys_ok (cmd_transport_connect b (s ++ 0 :: z)) o (listens o).
Proof.
  intros Hs. apply unix_socket. intros r o1 Ho1. destruct (sun_path_ok s z Hs) as (p & -> & _).
  apply sys_ok_opt. apply socket_call; [done..|]. intros o3. apply opened_ret.
Qed.

(** ** Messages *)

Lemma hdr_bytes_length h : length (hdr_bytes h) = AH_SIZE.
Proof. done. Qed.

Lemma hdr_of_Some bs : length bs = AH_SIZE -> is_Some (hdr_of bs).
Proof.
  intros Hl. unfold hdr_of, get_le. unfold AH_SIZE in Hl.
  do 4 (rewrite get_bytes_Some by lia; cbn [fmap option_fmap option_map mbind option_bind]). by eexists.
Qed.

Definition hdr_ok (h : afuinx_header_t) : Prop :=
  word_ok 32 (ah_magic h) /\ word_ok 16 (ah_type h) /\ word_ok 16 (ah_version h) /\ word_ok 32 (ah_length h).

Lemma hdr_roundtrip h : hdr_ok h -> hdr_of (hdr_bytes h) = Some h.
Proof.
  intros (Hm & Ht & Hv & Hl). unfold hdr_of, get_le, get_bytes. rewrite hdr_bytes_length. cbn [Nat.add].
  do 4 (rewrite decide_True by (unfold AH_SIZE; lia); cbn [fmap option_fmap option_map mbind option_bind]).
  unfold hdr_bytes. change (take 4 (drop 0 ?l)) with (take 4 l).
  assert (forall m t v l : list Z, length m = 4%nat -> length t = 2%nat -> length v = 2%nat -> length l = 4%nat ->
    take 4 (m ++ t ++ v ++ l) = m /\ take 2 (drop 4 (m ++ t ++ v ++ l)) = t /\ take 2 (drop 6 (m ++ t ++ v ++ l)) = v /\
    take 4 (drop 8 (m ++ t ++ v ++ l)) = l) as Hsplit.
  { intros m t v l. destruct m as [|? [|? [|? [|? [|]]]]], t as [|? [|? [|]]], v as [|? [|? [|]]], l as [|? [|? [|? [|? [|]]]]]; done. }
  destruct (Hsplit (le_bytes 4 (ah_magic h)) (le_bytes 2 (ah_type h)) (le_bytes 2 (ah_version h)) (le_bytes 4 (ah_length h)))
    as (-> & -> & -> & ->); [apply length_le_bytes..|].
  rewrite (le_val_bytes 4), (le_val_bytes 2), (le_val_bytes 2), (le_val_bytes 4) by done. by destruct h.
Qed.

Lemma stored_length n r : length (stored n r) = n.
Proof. unfold stored. rewrite length_take, length_app, length_replicate. lia. Qed.

Lemma stored_exact n r : length (rp_bytes r) = n -> stored n r = rp_bytes r.
Proof. intros Hl. unfold stored. by rewrite <- Hl, take_app_length. Qed.

Lemma cmd_transport_send_ok fd type data len o :
  fd ∈ os_fds o -> (forall bs, data = Some bs -> len <= Z.of_nat (length bs)) ->
  sys_ok (cmd_transport_send fd type data len) o (fun rc o' => quiet o o').
Proof.
  intros Hin Hl. unfold cmd_transport_send. apply (on_step _ fd); [done..|]. intros o1 Hq1 Hin1 _.
  destruct (negb _); [by apply sys_ok_ret|]. destruct data as [bs|]; [|by apply sys_ok_ret]. specialize (Hl bs eq_refl).
  destruct (0 <? len); [|by apply sys_ok_ret]. rewrite get_bytes_Some by lia. apply sys_ok_opt.
  apply (on_step _ fd); [done..|]. intros o2 Hq2 _ _. pose proof (quiet_trans _ _ _ Hq1 Hq2). by destruct (negb _); apply sys_ok_ret.
Qed.

(** What a receive leaves: a payload in a block of its own, or nothing. *)
Definition received (o : os) (x : Z * option afuinx_header_t * option (Z * list Z)) (o' : os) : Prop :=
  match x.2 with
  | None => quiet o o'
  | Some (p, bs) =>
      x.1.1 = 0 /\ os_fds o' = os_fds o /\ p ∉ os_heap o /\ os_heap o' = p :: os_heap o /\ (os_clock o <= os_clock o')%nat /\
      p < Z.of_nat (os_clock o') /\ exists body, bs = body ++ [0] /\ (length body <= MAX_RESP_BUF)%nat
  end.

Lemma received_nothing rc h o o' : quiet o o' -> received o (rc, h, None) o'.
Proof. done. Qed.

(** [malloc], with what it says about the block. *)
Lemma malloc_step {A} n (f : reply -> sys A) o Q :
  os_wf o ->
  (forall r o', rp_ret r < 0 -> quiet o o' -> sys_ok (f r) o' Q) ->
  (forall r o', 0 <= rp_ret r -> rp_ret r ∉ os_heap o -> os_heap o' = rp_ret r :: os_heap o -> os_fds o' = os_fds o ->
     rp_ret r < Z.of_nat (os_clock o') -> (os_clock o <= os_clock o')%nat -> sys_ok (f r) o' Q) ->
  sys_ok (syscall_do (ScMalloc n) ≫= f) o Q.
Proof.
  intros Hwf Hf Hs. apply sys_ok_bind. unfold sys_ok at 1, syscall_do. cbn [sc_fd]. set (r := os_kernel o (os_clock o)).
  destruct (Z.ltb_spec (rp_ret r) 0).
  - eexists _, _. do 3 (split; [done|]). apply Hf; [done|]. split; [done|cbn; lia].
  - eexists _, _. do 3 (split; [done|]). apply Hs; cbn [with_ret rp_ret os_clock os_heap os_fds]; try done; [lia| |lia|lia].
    intros Hin. unfold os_wf in Hwf. rewrite list.Forall_forall in Hwf. specialize (Hwf _ Hin). lia.
Qed.

(** Freeing the block that was allocated last. *)
Lemma free_step {A} p (f : reply -> sys A) o0 o Q :
  p ∉ os_heap o0 -> os_heap o = p :: os_heap o0 -> os_fds o = os_fds o0 -> (os_clock o0 <= os_clock o)%nat ->
  (forall r o', quiet o0 o' -> sys_ok (f r) o' Q) -> sys_ok (syscall_do (ScFree p) ≫= f) o Q.
Proof.
  intros Hn Hh Hf Hc HQ. apply sys_ok_bind, sys_ok_free; [rewrite Hh; left|]. intros r o' Hh' Hf' (_ & Ht & _). apply HQ.
  split; [split; [congruence|by rewrite Hh', Hh, filter_fresh]|lia].
Qed.

Lemma cmd_transport_recv_ok fd o : fd ∈ os_fds o -> os_wf o -> sys_ok (cmd_transport_recv fd) o (received o).
Proof.
  intros Hin Hwf. unfold cmd_transport_recv. apply (on_step _ fd); [done..|]. intros o1 Hq1 Hin1 _.
  apply (on_step _ fd); [done..|]. intros o2 Hq2 Hin2 _. pose proof (quiet_trans _ _ _ Hq1 Hq2) as Hq.
  destruct (negb _); [by apply sys_ok_ret, received_nothing|].
  destruct (hdr_of_Some (stored AH_SIZE (os_kernel o1 (os_clock o1))) (stored_length _ _)) as [hdr ->]. apply sys_ok_opt.
  destruct (negb _); [by apply sys_ok_ret, received_nothing|]. destruct (Z.ltb_spec 0 (ah_length hdr)); [|by apply sys_ok_ret, received_nothing].
  destruct (Z.ltb_spec (Z.of_nat MAX_RESP_BUF) (ah_length hdr)); [by apply sys_ok_ret, received_nothing|].
  apply malloc_step; [by eapply quiet_wf| |].
  { intros m o3 Hm Hq3. destruct (Z.ltb_spec (rp_ret m) 0); [|lia]. apply sys_ok_ret, received_nothing. by eapply quiet_trans. }
  intros m o3 Hm Hnp Hh Hf Hp Hc. destruct (Z.ltb_spec (rp_ret m) 0); [lia|].
  apply (on_step _ fd); [done|done|by rewrite Hf|]. intros o4 ([Hf4 Hh4] & Hc4) _ _. destruct Hq as ([Fq Hhq] & Cq).
  destruct (negb _).
  - apply (free_step _ _ o); [congruence|congruence|congruence|lia|]. intros _ o5 Hq5. by apply sys_ok_ret, received_nothing.
  - apply sys_ok_ret. cbn [received snd fst]. unfold received. cbn [fst snd]. split_and!; [done|congruence|congruence|congruence|lia|lia|].
    eexists. split; [done|]. rewrite stored_length. lia.
Qed.

(** ** The thread *)

Lemma terminated_split body : exists s z, no_nul s /\ body ++ [0] = s ++ 0 :: z.
Proof.
  induction body as [|c body (s & z & Hs & E)]; [exists [], []; split; [constructor|done]|]. destruct (decide (c = 0)) as [->|].
  - exists [], (body ++ [0]). split; [constructor|done].
  - exists (c :: s), z. split; [by constructor|]. cbn. by rewrite E.
Qed.

Section worker_proofs.
Context {X H W : Type} (call : X -> H -> bool -> list (list Z) -> cmd_resp_t -> W -> option (Z * cmd_resp_t * W)).
Context (table : option (list (cmd_entry_t H))) (P : W -> Prop) (good : X -> Prop).

(** What the thread needs of the commands: any line gets a text, and keeps
    [P]. *)
Definition responds : Prop := forall x payload w,
  good x -> P w -> (forall bs, payload = Some bs -> exists body, bs = body ++ [0]) ->
  exists buf w', respond call table x payload w = Some (Some buf, w') /\ length buf = MAX_RESP_BUF /\ is_Some (cstr buf) /\ P w'.

Context (Hresp : responds).

Lemma cmd_server_client_ok x cfd w o :
  good x -> P w -> cfd ∈ os_fds o -> os_wf o ->
  sys_ok (cmd_server_client call table x cfd w) o (fun w' o' => P w' /\ os_heap o' = os_heap o /\
    os_fds o' = filter (fun y => y <> cfd) (os_fds o) /\ (os_clock o <= os_clock o')%nat).
Proof.
  intros Hx Hw Hin Hwf. unfold cmd_server_client. apply (on_step _ cfd); [done|done|done|]. intros o1 Hq1 Hin1 _.
  apply (on_step _ cfd); [done|done|done|]. intros o2 Hq2 Hin2 _. pose proof (quiet_trans _ _ _ Hq1 Hq2) as Hq.
  apply sys_ok_bind. eapply sys_ok_mono; [|apply cmd_transport_recv_ok; [done|by eapply quiet_wf]].
  intros [[rc hdr] payload] o3 _ Hrec. apply sys_ok_bind.
  assert (forall w' o', P w' -> quiet o o' -> sys_ok (_ ← syscall_do (ScClose cfd); mret w') o' (fun w' o' => P w' /\ os_heap o' = os_heap o /\
    os_fds o' = filter (fun y => y <> cfd) (os_fds o) /\ (os_clock o <= os_clock o')%nat)) as Hclose.
  { intros w' o' Hw' ([Hf Hh] & Hc). apply sys_ok_bind, sys_ok_close; [by rewrite Hf|]. intros r o4 Hf4 Hh4 (_ & Hc4 & _).
    apply sys_ok_ret. split_and!; [done|congruence|congruence|lia]. }
  destruct (rc =? 0) eqn:Erc.
  2: { apply sys_ok_ret, Hclose; [done|]. destruct payload as [[p bs]|]; [|eapply quiet_trans; [exact Hq|exact Hrec]].
    destruct Hrec as [Hz _]. cbn in Hz. by rewrite Hz in Erc. }
  destruct (Hresp x (snd <$> payload) w Hx Hw) as (buf & w' & -> & Hl & [t Et] & Hw').
  { intros bs Ebs. destruct payload as [[p bs']|]; [|done]. cbn in Ebs. injection Ebs as <-. destruct Hrec as (_ & _ & _ & _ & _ & _ & body & Hb & _). by exists body. }
  apply sys_ok_opt. cbn [mbind option_bind]. rewrite Et. apply sys_ok_opt.
  assert (length t <= length buf)%nat as Ht.
  { unfold cstr in Et. destruct (strlen buf); [|done]. injection Et as <-. rewrite length_take. lia. }
  unfold MAX_RESP_BUF in Hl. apply sys_ok_bind.
  assert (cfd ∈ os_fds o3) as Hin3.
  { destruct payload as [[p bs]|]; [destruct Hrec as (_ & Hf3 & _); cbn in Hf3; by rewrite Hf3|]. exact (quiet_fds _ _ _ Hrec Hin2). }
  eapply sys_ok_mono; [|apply cmd_transport_send_ok; [done|]].
  2: { intros bs [= <-]. unfold wrap. rewrite Z.mod_small; lia. }
  intros rc4 o4 _ Hq4. apply sys_ok_bind. destruct payload as [[p bs]|].
  - destruct Hrec as (_ & Hf3 & Hnp & Hh3 & Hc3 & _). cbn [fst snd] in *. destruct Hq4 as ([Hf4 Hh4] & Hc4).
    apply (free_step _ _ o2); [done|congruence|congruence|lia|]. intros _ o5 Hq5. do 2 apply sys_ok_ret. apply Hclose; [done|]. eapply quiet_trans; [exact Hq|done].
  - do 2 apply sys_ok_ret. apply Hclose; [done|]. eapply quiet_trans; [exact Hq|]. eapply quiet_trans; [exact Hrec|done].
Qed.

Definition turn_good (t : turn X) : Prop := match t with TGo x => good x | _ => True end.

(** What the loop leaves of its listener. *)
Definition loop_left (o : os) (lfd : Z) (x : W * worker_end) (o' : os) : Prop :=
  P x.1 /\ match x.2 with Returned => quiet o o' | Running | Cancelled => opened o lfd o' end.

Lemma cmd_server_loop_ok turns lfd w o o' :
  Forall turn_good turns -> P w -> os_wf o -> opened o lfd o' ->
  sys_ok (cmd_server_loop call table turns lfd w) o' (loop_left o lfd).
Proof.
  intros Ht. revert w o'. induction Ht as [|t turns Htn _ IH]; intros w o' Hw Hwf Ho; cbn [cmd_server_loop]; [by apply sys_ok_ret|].
  assert (forall w o', P w -> opened o lfd o' -> sys_ok (_ ← syscall_do (ScClose lfd); mret (w, Returned)) o' (loop_left o lfd)) as Hend.
  { intros w' o1 Hw' Ho1. apply (opened_close o); [done|]. intros _ o2 Hq. by apply sys_ok_ret. }
  destruct t as [x| |]; [|by apply Hend|by apply sys_ok_ret].
  apply sys_ok_bind, sys_ok_accept; [by eapply opened_in| |].
  { intros o1 r Hr Hs Hti. pose proof (opened_quiet _ _ _ _ Ho (quiet_ticks _ _ _ Hs Hti)) as Ho1.
    destruct (Z.ltb_spec (rp_ret r) 0); [|lia]. destruct (_ =? EINTR); [by apply IH|]. destruct (_ || _); [|by apply Hend].
    apply plain_step; [done|]. intros o2 Hq2. apply IH; [done..|]. by eapply opened_quiet. }
  intros r o1 Hr Hn Hf Hh (_ & Hc & _). destruct (Z.ltb_spec (rp_ret r) 0); [lia|].
  destruct Ho as (Hl0 & Hnl & Hfl & Hhl & Hcl).
  apply sys_ok_bind. eapply sys_ok_mono; [|apply cmd_server_client_ok; [done|done|rewrite Hf; left|]].
  2: { unfold os_wf. rewrite Hh, Hhl. eapply list.Forall_impl; [exact Hwf|]. cbn. lia. }
  intros w' o2 _ (Hw' & Hh2 & Hf2 & Hc2). apply IH; [done|done|].
  split_and!; [done|done| |congruence|lia]. rewrite Hf2, Hf. by rewrite filter_fresh.
Qed.

Lemma cmd_server_worker_ok b turns args w o :
  Forall turn_good turns -> P w -> os_wf o -> args ∈ os_heap o ->
  sys_ok (cmd_server_worker call table b turns args w) o (fun x o' => P x.1 /\
    os_heap o' = filter (fun y => y <> args) (os_heap o) /\
    match x.2 with
    | Returned => os_fds o' = os_fds o
    | Running | Cancelled => exists lfd, lfd ∉ os_fds o /\ os_fds o' = lfd :: os_fds o
    end).
Proof.
  intros Ht Hw Hwf Hin. unfold cmd_server_worker. apply sys_ok_bind, sys_ok_free; [done|]. intros r o1 Hh1 Hf1 (_ & Hc1 & _).
  assert (os_wf o1) as Hwf1.
  { unfold os_wf. rewrite Hh1. apply list.Forall_forall. intros p [_ Hp]%list_elem_of_filter. unfold os_wf in Hwf.
    rewrite list.Forall_forall in Hwf. specialize (Hwf p Hp). lia. }
  apply sys_ok_bind. eapply sys_ok_mono; [|apply (cmd_transport_listen_ok b SOCKET_PATH []); by_compute].
  intros lfd o2 _ Hl. unfold listens in Hl. destruct (lfd <? 0).
  - apply sys_ok_ret. destruct Hl as ([Hf Hh] & _). cbn. split_and!; [done|congruence|congruence].
  - eapply sys_ok_mono; [|by eapply cmd_server_loop_ok]. intros [w' e] o3 _ [Hw' Hend]. cbn in *. split; [done|].
    destruct e; cbn in Hend.
    2: { destruct Hend as ([Hf Hh] & _). split; congruence. }
    all: destruct Hend as (_ & Hn & Hf & Hh & _); split; [congruence|]; exists lfd; by rewrite <- Hf1.
Qed.
End worker_proofs.

(** ** The program's management thread *)

Section management.
Context {T : Type} `{HT : HashTable Z T, HTL : !HashTableLaws Z T}.

(** What the executors find around them: the sessions and the process. *)
Definition mgmt_call (x : sessions T * proc_env) : cmd_handler -> bool -> list (list Z) -> cmd_resp_t -> mgmt -> option (Z * cmd_resp_t * mgmt) :=
  call_handler 1 x.1 x.2.
Definition mgmt_good (x : sessions T * proc_env) : Prop := ss_wf x.1 /\ proc_ok x.2.

(** The start, and the thread for some turns. *)
Definition management (now_sec : Z) (silenced : bool) (turns : list (turn (sessions T * proc_env))) (w : mgmt) : sys (mgmt * worker_end) :=
  '(_, table, _, args) ← cmd_start_core now_sec;
  match args with
  | None => mret (w, Returned)
  | Some args => cmd_server_worker mgmt_call table silenced turns args w
  end.

(** What belongs to the data plane. *)
Definition plane_kept (w0 w : mgmt) : Prop :=
  en_interval (mg_engine w) = en_interval (mg_engine w0) /\ en_reass_stats (mg_engine w) = en_reass_stats (mg_engine w0) /\
  en_task_pool (mg_engine w) = en_task_pool (mg_engine w0).

Lemma mgmt_effect_plane w0 w ts : plane_kept w0 w -> plane_kept w0 (mgmt_effect ts w).
Proof.
  intros Hw. destruct ts as [|name [|key [|v ts]]]; try done. unfold mgmt_effect, set_effect. destruct (flag_value v); [|done].
  by repeat case_match.
Qed.

Lemma mgmt_responds w0 : responds mgmt_call (Some cmd_table) (plane_kept w0) mgmt_good.
Proof.
  intros [st e] payload w [Hst He] Hw Hp. cbn in Hst, He. unfold respond. destruct payload as [bs|].
  2: { eexists _, _. split; [done|]. split; [by rewrite length_replicate|]. by split. }
  destruct (Hp bs eq_refl) as (body & ->). destruct (terminated_split body) as (s & z & Hs & ->).
  destruct (mgmt_dispatch_spec st e Hst He s z w Hs) as (rc & out & E & t & buf & -> & Hl & Hc).
  unfold mgmt_call. cbn [fst snd]. rewrite E. cbn [mbind option_bind]. eexists _, _. split; [done|]. split; [done|].
  split; [by rewrite Hc|]. destruct (tokens MAX_ARG_COUNT s); cbn; [by apply mgmt_effect_plane|done].
Qed.

(** C34 The management thread can be left to itself.  For every kernel, every
    sequence of clients, errors, stops and cancellations, and whatever bytes
    arrive on the socket, as long as at each command the sessions are in order
    and the texts of /proc are as [stat_documented] says (C33): the thread runs without a fault, frees every block it
    or its creator allocated, uses no descriptor that is not open, closes every
    connection, and leaves the data plane's counters alone.  It closes its
    listener when it returns; a thread that is cancelled in [accept], as
    [cmd_server_stop] does, leaves it open. *)
Theorem management_safe now_sec silenced turns w o :
  os_wf o -> Forall (turn_good mgmt_good) turns ->
  sys_ok (management now_sec silenced turns w) o (fun x o' =>
    plane_kept w x.1 /\ os_heap o' = os_heap o /\
    match x.2 with
    | Returned => os_fds o' = os_fds o
    | Running | Cancelled => exists lfd, lfd ∉ os_fds o /\ os_fds o' = lfd :: os_fds o
    end).
Proof.
  intros Hwf Ht. unfold management, cmd_start_core, cmd_server_start. apply sys_ok_bind, sys_ok_bind.
  apply malloc_step; [done| |].
  { intros m o1 Hm ([Hf Hh] & _). destruct (Z.ltb_spec (rp_ret m) 0); [|lia]. do 3 apply sys_ok_ret. done. }
  intros m o1 Hm Hnp Hh1 Hf1 Hp1 Hc1. destruct (Z.ltb_spec (rp_ret m) 0); [lia|].
  apply plain_step; [done|]. intros o2 ([Hf2 Hh2] & Hc2). destruct (negb _).
  { apply (free_step _ _ o); [done|congruence|congruence|lia|]. intros _ o3 ([Hf3 Hh3] & _). do 3 apply sys_ok_ret. done. }
  do 2 apply sys_ok_ret. eapply sys_ok_mono; [|eapply (cmd_server_worker_ok _ _ (plane_kept w)); [apply mgmt_responds|exact Ht|done| |rewrite Hh2, Hh1; left]].
  2: { unfold os_wf. rewrite Hh2, Hh1. constructor; [lia|]. eapply list.Forall_impl; [exact Hwf|]. cbn. lia. }
  intros x o3 _ (Hk & Hh3 & He). split; [done|]. rewrite Hh3, Hh2, Hh1, filter_fresh by done. split; [done|]. by rewrite Hf2, Hf1 in He.
Qed.
End management.

(** ** A message arrives as it was sent *)

(** The bytes written to [fd], in order. *)
Definition sent_bytes (fd : Z) (log : list syscall) : list Z :=
  concat (omap (fun c => match c with ScSend f bs => if f =? fd then Some bs else None | _ => None end) (rev log)).

(** The kernel hands [stream] to the two reads of a receive that starts at
    [o], and has memory for it. *)
Definition handed (o : os) (stream : list Z) : Prop :=
  let k i := os_kernel o (os_clock o + i)%nat in
  rp_ret (k 1%nat) = Z.of_nat AH_SIZE /\ rp_bytes (k 1%nat) = take AH_SIZE stream /\ 0 <= rp_ret (k 2%nat) /\
  rp_ret (k 3%nat) = Z.of_nat (length stream - AH_SIZE) /\ rp_bytes (k 3%nat) = drop AH_SIZE stream.

Lemma sent_bytes_cons fd c log :
  sent_bytes fd (c :: log) = sent_bytes fd log ++ match c with ScSend f bs => if f =? fd then bs else [] | _ => [] end.
Proof.
  unfold sent_bytes. cbn [rev]. rewrite omap_app, concat_app. f_equal. destruct c; try done. cbn [omap list_omap].
  destruct (_ =? _); cbn; by rewrite ?app_nil_r.
Qed.

(** A message of up to 4096 bytes that is written in full is received as it was
    sent: type, length and bytes, with a NUL behind them, in a new block. *)
Theorem cmd_message_roundtrip fd type data o :
  fd ∈ os_fds o -> word_ok 16 type -> (0 < length data <= MAX_RESP_BUF)%nat ->
  rp_ret (os_kernel o (os_clock o)) = Z.of_nat AH_SIZE -> rp_ret (os_kernel o (S (os_clock o))) = Z.of_nat (length data) ->
  exists o' stream, cmd_transport_send fd type (Some data) (Z.of_nat (length data)) o = Some (0, o') /\
    sent_bytes fd (os_log o') = sent_bytes fd (os_log o) ++ stream /\
    forall fd2 o2, fd2 ∈ os_fds o2 -> handed o2 stream ->
      exists p o2', cmd_transport_recv fd2 o2 =
        Some (0, Some {| ah_magic := AFUINX_MAGIC; ah_type := type; ah_version := AFUINX_VERSION; ah_length := Z.of_nat (length data) |},
              Some (p, data ++ [0]), o2').
Proof.
  intros Hin Hty Hl H1 H2. unfold MAX_RESP_BUF in Hl. set (hdr := {| ah_magic := AFUINX_MAGIC; ah_type := type; ah_version := AFUINX_VERSION; ah_length := Z.of_nat (length data) |}).
  assert (hdr_ok hdr) as Hh by (unfold hdr_ok, word_ok, hdr, AFUINX_MAGIC, AFUINX_VERSION in *; cbn; lia).
  unfold cmd_transport_send, mbind, sys_bind, syscall_do. cbn [sc_fd]. rewrite decide_True by done. fold hdr.
  rewrite H1, Z.eqb_refl. cbn [negb]. destruct (Z.ltb_spec 0 (Z.of_nat (length data))); [|lia].
  rewrite Nat2Z.id, get_bytes_Some by lia. cbn [sys_opt]. unfold sys_opt. cbn [sc_fd os_fds]. rewrite decide_True by done.
  cbn [os_kernel os_clock]. rewrite H2, Z.eqb_refl. cbn [negb].
  rewrite drop_0, take_ge by lia. eexists _, (hdr_bytes hdr ++ data). split; [done|]. cbn [os_log].
  split; [by rewrite !sent_bytes_cons, !Z.eqb_refl, <- app_assoc|].
  intros fd2 o2 Hin2 (R1 & B1 & R2 & R3 & B3). unfold cmd_transport_recv, mbind, sys_bind, syscall_do.
  rewrite length_app, hdr_bytes_length in R3. replace (AH_SIZE + length data - AH_SIZE)%nat with (length data) in R3 by lia.
  rewrite take_app_le, take_ge in B1 by (rewrite hdr_bytes_length; lia).
  rewrite drop_app_ge, hdr_bytes_length, Nat.sub_diag, drop_0 in B3 by (rewrite hdr_bytes_length; lia).
  rewrite Nat.add_1_r in R1, B1. replace (os_clock o2 + 2)%nat with (S (S (os_clock o2))) in R2 by lia.
  replace (os_clock o2 + 3)%nat with (S (S (S (os_clock o2)))) in R3, B3 by lia.
  cbn [sc_fd os_fds os_kernel os_clock]. rewrite decide_True by done. cbn [sc_fd os_fds os_kernel os_clock]. rewrite decide_True by done.
  rewrite R1, Z.eqb_refl. cbn [negb]. rewrite stored_exact by by rewrite B1. rewrite B1, (hdr_roundtrip hdr Hh). cbn [sys_opt]. unfold sys_opt.
  cbn [hdr ah_magic ah_length]. rewrite Z.eqb_refl. cbn [negb]. destruct (Z.ltb_spec 0 (Z.of_nat (length data))); [|lia].
  destruct (Z.ltb_spec (Z.of_nat MAX_RESP_BUF) (Z.of_nat (length data))); [unfold MAX_RESP_BUF in *; lia|].
  cbn [sc_fd os_fds os_kernel os_clock]. destruct (Z.ltb_spec (rp_ret (os_kernel o2 (S (S (os_clock o2))))) 0); [lia|].
  cbn [with_ret rp_ret]. match goal with |- context [?a <? 0] => destruct (Z.ltb_spec a 0); [lia|] end.
  cbn [sc_fd os_fds os_kernel os_clock]. rewrite decide_True by done. rewrite R3, Z.eqb_refl. cbn [negb].
  rewrite Nat2Z.id, stored_exact, B3 by by rewrite B3. by eexists _, _.
Qed.

(** ** Witnesses *)

Definition net_reply (ret : Z) (bs : list Z) : reply :=
  {| rp_ret := ret; rp_errno := 4; rp_val := 9; rp_bytes := bs; rp_addr := {| sin_addr := 0; sin_port := 0 |} |}.
Definition demo_net (k : nat -> reply) (fds : list Z) (clock : nat) : os :=
  {| os_kernel := k; os_clock := clock; os_fds := fds; os_heap := []; os_log := []; os_stale := [] |}.

Lemma cmd_message_roundtrip_witness :
  let data := str "GET config" in
  let k1 n := net_reply (match n with O => 12 | _ => 10 end) [] in
  let stream := hdr_bytes {| ah_magic := AFUINX_MAGIC; ah_type := 0; ah_version := AFUINX_VERSION; ah_length := 10 |} ++ data in
  let k2 n := match n with 1%nat => net_reply 12 (take 12 stream) | 3%nat => net_reply 10 (drop 12 stream) | _ => net_reply 0 [] end in
  (exists o', cmd_transport_send 5 0 (Some data) 10 (demo_net k1 [5] 0) = Some (0, o') /\ sent_bytes 5 (os_log o') = stream) /\
  exists p o2', cmd_transport_recv 7 (demo_net k2 [7] 0) =
    Some (0, Some {| ah_magic := AFUINX_MAGIC; ah_type := 0; ah_version := AFUINX_VERSION; ah_length := 10 |}, Some (p, data ++ [0]), o2').
Proof.
  intros data k1 stream k2.
  destruct (cmd_message_roundtrip 5 0 data (demo_net k1 [5] 0) ltac:(cbn; left) ltac:(by_compute) ltac:(vm_compute; lia) eq_refl eq_refl)
    as (o' & st & E & Es & Hr).
  assert (st = stream) as ->.
  { cbn [demo_net os_log] in Es. unfold sent_bytes at 2 in Es. cbn [rev omap list_omap concat app] in Es. rewrite <- Es.
    vm_compute in E. injection E as <-. reflexivity. }
  split; [by exists o'|]. apply (Hr 7 (demo_net k2 [7] 0)); [cbn; left|]. by split_and!.
Defined.

(** A client asks for the configuration, then the thread is cancelled. *)
Lemma management_safe_witness :
  let w := {| mg_engine := cmdengine; mg_log_level := LOG_INFO |} in
  let msg := hdr_bytes {| ah_magic := AFUINX_MAGIC; ah_type := 0; ah_version := AFUINX_VERSION; ah_length := 11 |} in
  let k n := match n with
             | 12%nat => net_reply 12 msg
             | 14%nat => net_reply 11 (str "SET debug 0")
             | _ => net_reply 0 [] end in
  let turns := [TGo (vf_ss_init (T := list_table Z) ∅, demo_proc); TCancel] in
  Forall (turn_good mgmt_good) turns /\
  sys_ok (management 100 false turns w) (demo_net k [0; 1; 2] 0) (fun x o' =>
    plane_kept w x.1 /\ os_heap o' = [] /\
    match x.2 with
    | Returned => os_fds o' = [0; 1; 2]
    | Running | Cancelled => exists lfd, lfd ∉ [0; 1; 2] /\ os_fds o' = lfd :: [0; 1; 2]
    end) /\
  match management 100 false turns w (demo_net k [0; 1; 2] 0) with
  | Some (w', Cancelled, o') => en_isdebug (mg_engine w') = false /\ mg_log_level w' = LOG_INFO /\ os_fds o' = [3; 0; 1; 2]
  | _ => False
  end.
Proof.
  intros w msg k turns. assert (Forall (turn_good mgmt_good) turns) as Hg.
  { constructor; [split; [apply vf_ss_init_wf|apply demo_proc_ok]|]. by repeat constructor. }
  split; [done|]. split; [|vm_compute; done].
  exact (management_safe 100 false turns w (demo_net k [0; 1; 2] 0) ltac:(constructor) Hg).
Defined.
