(* ===== verification/Lifecycle.v ===== *)
(** Start and end of both programs (src/src/vfast_server.c,
    src/src/vfast_client.c): the composition of what the other files model,
    over the system calls of Sys. *)
From S2P Require Import Prelude Libc Text Key HashTable Crypto Protocol IpPool Session User Io Payload Sys Tun Udp KeyFile Fsm Client ClientRun Option Cmd CmdEngine CmdNet.

Definition SIGINT : Z := 2.
Definition SIGTERM : Z := 15.

(** 0, or -1 at the first handler that cannot be set. *)
Definition vfast_setup_signals : sys Z :=
  a ← syscall_do (ScSigaction SIGINT);
  if rp_ret a <? 0 then mret (-1) else
  b ← syscall_do (ScSigaction SIGTERM);
  if rp_ret b <? 0 then mret (-1) else
  mret 0.

(** [close] on each. *)
Fixpoint close_all (fds : list Z) : sys unit :=
  match fds with
  | [] => mret ()
  | fd :: fds => _ ← syscall_do (ScClose fd); close_all fds
  end.

Definition set_master_key (x : list Z) '(Opt a b c d e f g h i j k l _ n p q r s t u v) : vpn_option_t :=
  Opt a b c d e f g h i j k l x n p q r s t u v.

Definition URANDOM : list Z := str "/dev/urandom".

Section lifecycle.
Context {R : Type} `{HR : IoUring R}.
Context {T : Type} `{HT : HashTable Z T}.
Context {U : Type} `{HU : HashTable (list Z) U}.

(** What libraries answer: libradcli and the lock in [vf_user_init],
    [inet_addr] of the pool's network and of the peer, [posix_memalign],
    [io_uring_queue_init], the monotonic clock, and for the client [getrandom]
    and [time]. *)
Record lib_answers := {
  la_users : init_env; la_pool_addr : Z; la_peer_addr : Z; la_mem : bool; la_queue : Z + R; la_now : Z;
  la_getrandom : list getrandom_result; la_time : Z
}.

(** [vf_user_init], with its [open] of /dev/urandom. *)
Definition user_init_os (e : init_env) : sys (bool * user_mgr U) :=
  if ie_lock e && ie_config e && ie_dictionary e then
    r ← syscall_do (ScOpen URANDOM (Z.lor O_RDONLY O_CLOEXEC) 0);
    let '(ok, m, _) := vf_user_init {| ie_lock := ie_lock e; ie_apath := ie_apath e; ie_config := ie_config e;
      ie_dictionary := ie_dictionary e; ie_urandom := rp_ret r |} in
    mret (ok, m)
  else let '(ok, m, _) := vf_user_init e in mret (ok, m).

(** [memset(&io, 0, sizeof(vf_io_t))], then [running] set. *)
Definition io_zero (r : R) : vf_io_t R :=
  {| ring := r; udp_fd := 0; tun_fd := 0; running := true; task_pool := []; pool_idx := 0; pool_size := 0; io_batch := 0;
     timer_cb := false; timer_interval_ms := 0; pmtud_cb := false; last_pmtud_check_ms := 0 |}.

(** ** The server *)

(** [vfserver], with the modules' own state. *)
Record vfserver := {
  vs_opt : vpn_option_t; vs_users : user_mgr U; vs_ip_pool : vpn_ip_pool_t; vs_sessions : sessions T;
  vs_tun : vpn_tun_ctx_t; vs_udp : option udp_conn_t; vs_io : vf_io_t R; vs_cmd_tid : Z
}.

(** The string of an option, with its NUL. *)
Definition opt_str (s : option (list Z)) : option (list Z) := (fun t => t ++ [0]) <$> s.

(** Besides the status and the state, the strings of the configuration that
    [vf_option_clean] freed; their pointers in [vs_opt] dangle. *)
Definition vfast_clean_server (s : vfserver) : sys (Z * list (list Z) * vfserver) :=
  '(closed, users) ← sys_opt (vf_user_uninit (vs_users s));
  close_all closed;;
  udp_close (vs_udp s);;
  tun ← vf_tun_destroy (Some (vs_tun s));
  sess ← sys_opt (vf_ss_destroy (vs_sessions s));
  let pool := vf_ip_pool_destroy (vs_ip_pool s) in
  let '(fds, io) := vf_io_exit (vs_io s) in
  close_all fds;;
  let '(_, tid, _) := cmd_server_stop (Some (vs_cmd_tid s)) true in
  let strings := vf_option_clean (Some (vs_opt s)) in
  mret (0, strings, {| vs_opt := vs_opt s; vs_users := users; vs_ip_pool := pool; vs_sessions := sess; vs_tun := default (vs_tun s) tun;
              vs_udp := None; vs_io := io; vs_cmd_tid := default 0 tid |}).

Definition vfast_init_server (a : lib_answers) (s : vfserver) : sys (Z * vfserver) :=
  let opt := vs_opt s in
  let io := io_zero (ring (vs_io s)) in
  let st users pool sess tun udp io tid := {| vs_opt := opt; vs_users := users; vs_ip_pool := pool; vs_sessions := sess;
    vs_tun := tun; vs_udp := udp; vs_io := io; vs_cmd_tid := tid |} in
  '(ok, users) ← user_init_os (la_users a);
  if negb ok then mret (-1, st users (vs_ip_pool s) (vs_sessions s) (vs_tun s) (vs_udp s) io (vs_cmd_tid s)) else
  '(rc, key) ← vfast_load_key (opt_str (opt_keyfile opt)) (Some (opt_master_key opt));
  let opt := default opt (k ← key; Some (set_master_key k opt)) in
  let st users pool sess tun udp io tid := {| vs_opt := opt; vs_users := users; vs_ip_pool := pool; vs_sessions := sess;
    vs_tun := tun; vs_udp := udp; vs_io := io; vs_cmd_tid := tid |} in
  if rc <? 0 then mret (-1, st users (vs_ip_pool s) (vs_sessions s) (vs_tun s) (vs_udp s) io (vs_cmd_tid s)) else
  rc ← vfast_setup_signals;
  if rc <? 0 then mret (-1, st users (vs_ip_pool s) (vs_sessions s) (vs_tun s) (vs_udp s) io (vs_cmd_tid s)) else
  '(rc, pool) ← sys_opt (vf_ip_pool_init (vs_ip_pool s) (la_pool_addr a) (u32 (opt_pool_size opt)));
  if negb (rc =? 0) then mret (-1, st users pool (vs_sessions s) (vs_tun s) (vs_udp s) io (vs_cmd_tid s)) else
  let sess := vf_ss_init ∅ in
  '(rc, tun) ← vf_tun_init (Some (vs_tun s)) (Some (opt_tun_name opt)) false;
  let tun := default (vs_tun s) tun in
  if rc <? 0 then mret (-1, st users pool sess tun (vs_udp s) io (vs_cmd_tid s)) else
  vf_tun_disable_ipv6 (opt_tun_name opt);;
  _ ← vf_tun_set_ip (Some (tun_ctx_name tun)) (Some (opt_tun_ip opt)) (Some VFAST_BROADCAST);
  _ ← vf_tun_set_status (Some (tun_ctx_name tun)) (opt_mtu opt) true;
  _ ← vf_set_nonblocking (tun_ctx_fd tun);
  udp ← udp_init_listener (opt_local_port opt) (opt_udp_backlog opt);
  match udp with
  | None => '(_, _, s) ← vfast_clean_server (st users pool sess tun None io (vs_cmd_tid s)); mret (-1, s)
  | Some c =>
      _ ← vf_set_nonblocking (uc_fd c);
      let '(_, io) := vf_io_init io (uc_fd c) (tun_ctx_fd tun) (opt_io_pool_size opt) (la_mem a) (la_queue a) in
      let io := vf_io_set_timer io 5000 true in
      let io := vf_io_set_pmtud_callback io true in
      '(_, _, tid, _) ← cmd_start_core (la_now a);
      mret (0, st users pool sess tun udp io tid)
  end.

(** ** The client *)

Record vfclient := {
  vc_opt : vpn_option_t; vc_client : client; vc_dst_addr : sockaddr_in; vc_tun : vpn_tun_ctx_t;
  vc_udp : option udp_conn_t; vc_io : vf_io_t R
}.

(** The status, and what is stored when it is 0. *)
Definition ip_pton (ip_str : option (list Z)) : option (Z * option Z) :=
  match ip_str with
  | None => Some (-1, None)
  | Some s => addr ← inet_pton s; Some (match addr with Some a => (0, Some a) | None => (-1, None) end)
  end.

(** [sin_addr] keeps what it held when the host is no address. *)
Definition vfast_init_sockaddr (opt : vpn_option_t) (old : sockaddr_in) : option sockaddr_in :=
  '(_, ip) ← ip_pton (Some (opt_remote_host opt));
  Some {| sin_addr := default (sin_addr old) ip; sin_port := htons (opt_remote_port opt) |}.

(** The strings freed, and the state. *)
Definition vfast_cleanup (s : vfclient) : sys (list (list Z) * vfclient) :=
  tun ← vf_tun_destroy (Some (vc_tun s));
  udp_close (vc_udp s);;
  let strings := vf_option_clean (Some (vc_opt s)) in
  mret (strings, {| vc_opt := vc_opt s; vc_client := vc_client s; vc_dst_addr := vc_dst_addr s; vc_tun := default (vc_tun s) tun;
          vc_udp := vc_udp s; vc_io := vc_io s |}).

Definition vfast_init_client (a : lib_answers) (s : vfclient) : sys (Z * vfclient) :=
  let io := io_zero (ring (vc_io s)) in
  dst ← sys_opt (vfast_init_sockaddr (vc_opt s) (vc_dst_addr s));
  cl ← sys_opt (vfast_init_secctx (la_getrandom a) (la_time a) (vc_client s));
  '(rc, key) ← vfast_load_key (opt_str (opt_keyfile (vc_opt s))) (Some (opt_master_key (vc_opt s)));
  let opt := default (vc_opt s) (k ← key; Some (set_master_key k (vc_opt s))) in
  let st tun udp io := {| vc_opt := opt; vc_client := cl; vc_dst_addr := dst; vc_tun := tun; vc_udp := udp; vc_io := io |} in
  if rc <? 0 then mret (-1, st (vc_tun s) (vc_udp s) io) else
  _ ← syscall_do (ScSigaction SIGINT);
  '(rc, tun) ← vf_tun_init (Some (vc_tun s)) (Some (opt_tun_name opt)) false;
  let tun := default (vc_tun s) tun in
  if rc <? 0 then mret (-1, st tun (vc_udp s) io) else
  vf_tun_disable_ipv6 (opt_tun_name opt);;
  _ ← vf_tun_set_status (Some (tun_ctx_name tun)) (opt_mtu opt) true;
  udp ← udp_init_listener 5887 (opt_udp_backlog opt);
  match udp with
  | None => mret (-1, st tun None io)
  | Some c =>
      _ ← udp_set_connect udp (la_peer_addr a) (opt_remote_port opt);
      let '(_, io) := vf_io_init io (uc_fd c) (tun_ctx_fd tun) (opt_io_pool_size opt) (la_mem a) (la_queue a) in
      let io := vf_io_set_timer io (poll_ms g_rekey_mgr) true in
      let io := vf_io_set_pmtud_callback io true in
      mret (0, st tun udp io)
  end.
End lifecycle.

(** * Proofs *)

(** ** Blocks keep their numbers below the clock *)

Definition keeps_wf {A} (m : sys A) : Prop := forall o x o', os_wf o -> m o = Some (x, o') -> os_wf o'.

Lemma wf_ret {A} (x : A) : keeps_wf (mret x).
Proof. intros o y o' Hwf [= <- <-]. done. Qed.
Lemma wf_ub {A} : keeps_wf (@sys_ub A).
Proof. done. Qed.
Lemma wf_opt {A} (x : option A) : keeps_wf (sys_opt x).
Proof. intros o y o' Hwf. unfold sys_opt. destruct x; [|done]. by intros [= <- <-]. Qed.
Lemma wf_bind {A B} (m : sys A) (f : A -> sys B) : keeps_wf m -> (forall x, keeps_wf (f x)) -> keeps_wf (m ≫= f).
Proof.
  intros Hm Hf o y o' Hwf. unfold mbind, sys_bind. destruct (m o) as [[x o1]|] eqn:E; [|done].
  apply Hf. by eapply Hm.
Qed.

Lemma wf_call c : keeps_wf (syscall_do c).
Proof.
  intros o x o' Hwf. unfold syscall_do, os_wf in *.
  assert (forall h, (forall p, p ∈ h -> p ∈ os_heap o) -> Forall (fun p => p < Z.of_nat (S (os_clock o))) h) as Hle.
  { intros h Hh. apply list.Forall_forall. intros p Hp. rewrite list.Forall_forall in Hwf. specialize (Hwf p (Hh p Hp)). lia. }
  assert (Forall (fun p => p < Z.of_nat (S (os_clock o))) (Z.of_nat (os_clock o) :: os_heap o)) as Hnew.
  { constructor; [lia|by apply Hle]. }
  assert (forall q, Forall (fun p => p < Z.of_nat (S (os_clock o))) (filter (fun p => p <> q) (os_heap o))) as Hfree.
  { intros q. apply Hle. intros p Hp. by apply list_elem_of_filter in Hp as [_ ?]. }
  specialize (Hle (os_heap o) (fun p Hp => Hp)).
  destruct c; cbn [sc_fd sc_opens andb]; repeat case_decide; repeat case_match; intros E; try discriminate E; injection E as <- <-; cbn; auto.
Qed.

Create HintDb os_wf.
#[export] Hint Resolve wf_ret wf_ub wf_opt wf_call : os_wf.

(** A computation built from calls. *)
Ltac wf_step :=
  match goal with
  | |- forall _, _ => intros ?
  | |- keeps_wf (mbind _ _) => apply wf_bind
  | |- keeps_wf (match ?x with _ => _ end) => destruct x
  | |- _ => solve [eauto with os_wf nocore]
  end.
Ltac wf := cbv zeta; repeat (wf_step; cbv zeta).

Lemma wf_load_key p k : keeps_wf (vfast_load_key p k).
Proof. unfold vfast_load_key. wf. Qed.
Lemma wf_nonblocking fd : keeps_wf (vf_set_nonblocking fd).
Proof. unfold vf_set_nonblocking. wf. Qed.
#[export] Hint Resolve wf_nonblocking : os_wf.
Lemma wf_tun_fail fd ret ctx : keeps_wf (tun_fail fd ret ctx).
Proof. unfold tun_fail. wf. Qed.
Lemma wf_cleanup sock ret : keeps_wf (cleanup sock ret).
Proof. unfold cleanup. wf. Qed.
#[export] Hint Resolve wf_tun_fail wf_cleanup : os_wf.
Lemma wf_tun_init ctx name mq : keeps_wf (vf_tun_init ctx name mq).
Proof. unfold vf_tun_init. wf. Qed.
Lemma wf_tun_ipv6 name : keeps_wf (vf_tun_disable_ipv6 name).
Proof. unfold vf_tun_disable_ipv6. wf. Qed.
Lemma wf_tun_ip n a m : keeps_wf (vf_tun_set_ip n a m).
Proof. unfold vf_tun_set_ip. wf. Qed.
Lemma wf_tun_status n m u : keeps_wf (vf_tun_set_status n m u).
Proof. unfold vf_tun_set_status. wf. Qed.
Lemma wf_udp_options fd mb : keeps_wf (udp_options fd mb).
Proof. unfold udp_options, set_opt. wf. Qed.
#[export] Hint Resolve wf_udp_options : os_wf.
Lemma wf_udp_init p mb : keeps_wf (udp_init_listener p mb).
Proof. unfold udp_init_listener. wf. Qed.
Lemma wf_udp_close c : keeps_wf (udp_close c).
Proof. unfold udp_close. wf. Qed.
Lemma wf_tun_destroy c : keeps_wf (vf_tun_destroy c).
Proof. unfold vf_tun_destroy. wf. Qed.
Lemma wf_start_core n : keeps_wf (cmd_start_core n).
Proof. unfold cmd_start_core, cmd_server_start. wf. Qed.
Lemma wf_signals : keeps_wf vfast_setup_signals.
Proof. unfold vfast_setup_signals. wf. Qed.
Lemma wf_users {U} `{HashTable (list Z) U} e : keeps_wf (user_init_os (U := U) e).
Proof. unfold user_init_os. wf. Qed.

(** ** Sequences of calls *)

(** The computation ends, with [Q] of its result. *)
Definition does {A} (m : sys A) (o : os) (Q : A -> os -> Prop) : Prop :=
  exists x o', m o = Some (x, o') /\ Q x o'.

Lemma does_ret {A} (x : A) o (Q : A -> os -> Prop) : Q x o -> does (mret x) o Q.
Proof. intros H. by exists x, o. Qed.

Lemma does_bind {A B} (m : sys A) (f : A -> sys B) o (Q : B -> os -> Prop) :
  does m o (fun x o' => does (f x) o' Q) -> does (m ≫= f) o Q.
Proof. intros (x & o1 & E & y & o2 & E2 & HQ). exists y, o2. unfold mbind, sys_bind. by rewrite E. Qed.

Lemma does_mono {A} (m : sys A) o (P Q : A -> os -> Prop) : does m o P -> (forall x o', P x o' -> Q x o') -> does m o Q.
Proof. intros (x & o' & E & HP) H. exists x, o'. auto. Qed.

Lemma does_eq {A} (m : sys A) o (Q : A -> os -> Prop) : does m o Q -> does m o (fun x o' => Q x o' /\ m o = Some (x, o')).
Proof. intros (x & o' & E & HQ). by exists x, o'. Qed.

Lemma does_opt {A B} (x : A) (f : A -> sys B) o (Q : B -> os -> Prop) :
  does (f x) o Q -> does (sys_opt (Some x) ≫= f) o Q.
Proof. done. Qed.

(** [o'] has these descriptors and blocks, and the stale calls [stale] more
    than [o]. *)
Record holds (o : os) (fds heap : list Z) (stale : list syscall) (o' : os) : Prop := {
  ho_fds : os_fds o' = fds;
  ho_heap : os_heap o' = heap;
  ho_stale : os_stale o' = stale ++ os_stale o;
  ho_kernel : os_kernel o' = os_kernel o;
  ho_wf : os_wf o'
}.

Lemma holds_refl o : os_wf o -> holds o (os_fds o) (os_heap o) [] o.
Proof. by split. Qed.

Lemma holds_same o fds heap stale o1 o2 :
  holds o fds heap stale o1 -> os_same o1 o2 -> os_stale o2 = os_stale o1 -> os_kernel o2 = os_kernel o1 -> os_wf o2 ->
  holds o fds heap stale o2.
Proof. intros [] [] ? ? ?. split; congruence || done. Qed.

(** A computation in front of the rest. *)
Lemma call_step {A B} (m : sys A) (f : A -> sys B) o (P : A -> os -> Prop) Q :
  os_wf o -> keeps_wf m -> sys_ok m o P ->
  (forall x o', os_wf o' -> os_kernel o' = os_kernel o -> os_stale o' = os_stale o -> P x o' -> does (f x) o' Q) ->
  does (m ≫= f) o Q.
Proof.
  intros Hwf Hm (x & o' & E & Hs & Hk & HP) Hf. apply does_bind. exists x, o'. split; [done|]. apply Hf; [|done..].
  by eapply Hm.
Qed.

(** One after which everything is as before. *)
Lemma quiet_step {A B} (m : sys A) (f : A -> sys B) o fds heap stale o1 P Q :
  holds o fds heap stale o1 -> keeps_wf m -> sys_ok m o1 P -> (forall x o', P x o' -> os_same o1 o') ->
  (forall x o', P x o' -> holds o fds heap stale o' -> does (f x) o' Q) -> does (m ≫= f) o1 Q.
Proof.
  intros Hh Hm Hok Hsame Hf. eapply call_step; [by eapply ho_wf|done|done|]. intros x o' Hw Hk Hs HP.
  apply Hf; [done|]. eapply holds_same; eauto.
Qed.

Lemma close_wf fd o o1 r : os_wf o -> syscall_do (ScClose fd) o = Some (r, o1) -> os_wf o1.
Proof. apply wf_call. Qed.

Lemma filter_gone (x : Z) (l : list Z) : x ∉ l -> filter (fun y => y <> x) l = l.
Proof. intros Hx. rewrite <- (filter_fresh x l) at 2 by done. by rewrite filter_cons_False by (intros H; by apply H). Qed.

Lemma filter_kept (x : Z) l : Forall (fun y => y <> x) l -> filter (fun y => y <> x) l = l.
Proof. intros H. apply filter_gone. intros Hin. rewrite list.Forall_forall in H. by apply (H x). Qed.

(** [close], of a descriptor that is open or not. *)
Lemma close_any_step {B} fd (f : reply -> sys B) o fds heap stale o1 Q :
  holds o fds heap stale o1 ->
  (forall r o', holds o (filter (fun x => x <> fd) fds) heap (if decide (fd ∈ fds) then stale else ScClose fd :: stale) o' ->
     does (f r) o' Q) ->
  does (syscall_do (ScClose fd) ≫= f) o1 Q.
Proof.
  intros [] Hf. apply does_bind. subst fds. destruct (decide (fd ∈ os_fds o1)) as [Hin|Hin].
  - destruct (sys_ok_close fd o1 (fun _ o' => os_fds o' = filter (fun x => x <> fd) (os_fds o1) /\ os_heap o' = os_heap o1) Hin)
      as (r & o' & E & Hs & Hk & HF & HH); [done|]. exists r, o'. split; [done|]. apply Hf. split; try congruence.
    by eapply close_wf.
  - eexists _, _. split; [unfold syscall_do; cbn [sc_fd]; by rewrite decide_False|]. apply Hf.
    split; cbn; [by rewrite filter_gone|done|by f_equal|done|]. eapply list.Forall_impl; [done|]. cbn. lia.
Qed.

(** ** The end of the server *)

Section server.
Context {R : Type} `{HR : IoUring R}.
Context {T : Type} `{HT : HashTable Z T, HTL : !HashTableLaws Z T}.
Context {U : Type} `{HU : HashTable (list Z) U, HUL : !HashTableLaws (list Z) U}.
Implicit Types (s : vfserver (R := R) (T := T) (U := U)).

(** The tables are in order, and libradcli's handle is not a destroyed one. *)
Record stoppable s : Prop := {
  st_users : um_sound (vs_users s);
  st_rh : um_rh (vs_users s) <> RhDestroyed;
  st_sessions : ss_wf (vs_sessions s)
}.

(** Nothing is left in the tables, and nothing in [s'] is a live handle. *)
Record stopped s' : Prop := {
  sd_users : um_heap (vs_users s') = ∅;
  sd_sessions : ss_models (vs_sessions s') ∅;
  sd_pool : bitmap (vs_ip_pool s') = None;
  sd_udp : vs_udp s' = None;
  sd_tun : tun_ctx_fd (vs_tun s') < 0;
  sd_io : task_pool (vs_io s') = [];
  sd_tid : vs_cmd_tid s' = 0
}.

(** ** Closing *)

(** A close, on the open descriptors and the stale calls so far. *)
Definition closed (x : list Z * list syscall) (fd : Z) : list Z * list syscall :=
  (filter (fun y => y <> fd) x.1, if decide (fd ∈ x.1) then x.2 else ScClose fd :: x.2).

(** [close_all], where what follows it is the rest of the handler. *)
Lemma close_all_step {B} fds (f : () -> sys B) o x heap o1 Q :
  holds o x.1 heap x.2 o1 ->
  (forall o', holds o (foldl closed x fds).1 heap (foldl closed x fds).2 o' -> does (f ()) o' Q) ->
  does (close_all fds ≫= f) o1 Q.
Proof.
  revert x o1. induction fds as [|fd fds IH]; intros x o1 Hh Hf; cbn [close_all].
  { apply does_bind, does_ret. by apply Hf. }
  apply does_bind. eapply close_any_step; [done|]. intros _ o2 Hh2.
  destruct (IH (closed x fd) o2 Hh2 Hf) as (y & o3 & E & HQ). unfold mbind, sys_bind in E.
  destruct (close_all fds o2) as [[[] o4]|] eqn:E2; [|done]. exists (), o4. split; [done|]. by exists y, o3.
Qed.

(** A guard on the sign. *)
Definition nonneg (fd : Z) : list Z := if 0 <=? fd then [fd] else [].

Definition udp_fds (c : option udp_conn_t) : list Z := match c with Some c => [uc_fd c] | None => [] end.
Definition udp_blocks (c : option udp_conn_t) (heap : list Z) : list Z :=
  match c with Some c => filter (fun p => p <> uc_block c) heap | None => heap end.

(** The connection's descriptor is open, its block allocated. *)
Definition udp_live (conn : option udp_conn_t) (fds heap : list Z) : Prop :=
  match conn with Some c => 0 <= uc_fd c /\ uc_fd c ∈ fds /\ uc_block c ∈ heap | None => True end.

Lemma udp_close_step {B} conn (f : () -> sys B) o x heap o1 Q :
  holds o x.1 heap x.2 o1 -> udp_live conn x.1 heap ->
  (forall o', holds o (foldl closed x (udp_fds conn)).1 (udp_blocks conn heap) (foldl closed x (udp_fds conn)).2 o' -> does (f ()) o' Q) ->
  does (udp_close conn ≫= f) o1 Q.
Proof.
  intros Hh Hl Hf. destruct conn as [c|]; [|by apply does_bind, does_ret, Hf]. destruct Hl as (H0 & Hin & Hb).
  pose proof Hh as [Hfd Hhp _ _ Hwf].
  assert (sys_ok (udp_close (Some c)) o1 (fun _ o' => os_fds o' = (closed x (uc_fd c)).1 /\ os_heap o' = filter (fun p => p <> uc_block c) heap)) as Hok.
  { unfold udp_close. destruct (Z.leb_spec 0 (uc_fd c)); [|lia].
    apply sys_ok_bind, sys_ok_bind, (sys_ok_on _ (uc_fd c)); [done|done|by rewrite Hfd|]. intros o2 [Hf2 Hh2] _.
    apply sys_ok_bind, sys_ok_close; [by rewrite Hf2, Hfd|]. intros r o3 Hf3 Hh3 _. apply sys_ok_ret.
    apply sys_ok_bind, sys_ok_free; [by rewrite Hh3, Hh2, Hhp|]. intros r' o4 Hh4 Hf4 _. apply sys_ok_ret.
    cbn. split; congruence. }
  eapply call_step; [done|apply wf_udp_close|exact Hok|]. intros [] o2 Hw2 Hk2 Hs2 [Hf2 Hh2]. apply Hf.
  destruct Hh. split; cbn; [done|done| |congruence|done]. rewrite decide_True by done. congruence.
Qed.

Lemma tun_destroy_step {B} t (f : option vpn_tun_ctx_t -> sys B) o x heap o1 Q :
  holds o x.1 heap x.2 o1 ->
  (forall t' o', tun_ctx_fd t' < 0 -> holds o (foldl closed x (nonneg (tun_ctx_fd t))).1 heap (foldl closed x (nonneg (tun_ctx_fd t))).2 o' ->
     does (f (Some t')) o' Q) ->
  does (vf_tun_destroy (Some t) ≫= f) o1 Q.
Proof.
  intros Hh Hf. unfold vf_tun_destroy, nonneg in *. apply does_bind, does_bind. destruct (Z.leb_spec 0 (tun_ctx_fd t)).
  - eapply close_any_step; [exact Hh|]. intros _ o2 Hh2. do 2 apply does_ret. by apply Hf.
  - do 2 apply does_ret. by apply Hf.
Qed.

(** ** What [vfast_clean_server] closes, in its order *)

Definition clean_fds s : list Z :=
  nonneg (um_urandom_fd (vs_users s)) ++ udp_fds (vs_udp s) ++ nonneg (tun_ctx_fd (vs_tun s)) ++
  nonneg (udp_fd (vs_io s)) ++ nonneg (tun_fd (vs_io s)).

Lemma vfast_clean_server_spec s o fds heap o1 :
  holds o fds heap [] o1 -> stoppable s ->
  udp_live (vs_udp s) (foldl closed (fds, []) (nonneg (um_urandom_fd (vs_users s)))).1 heap ->
  does (vfast_clean_server s) o1 (fun '(rc, strings, s') o' => rc = 0 /\ strings = vf_option_clean (Some (vs_opt s)) /\ stopped s' /\
    holds o (foldl closed (fds, []) (clean_fds s)).1 (udp_blocks (vs_udp s) heap) (foldl closed (fds, []) (clean_fds s)).2 o').
Proof.
  intros Hh [Hu Hr Hss] Hc. unfold vfast_clean_server, clean_fds. rewrite !foldl_app.
  destruct (vf_user_uninit_total (vs_users s) Hu Hr) as (users & -> & Hm). apply does_opt.
  eapply (close_all_step _ _ _ (fds, [])); [exact Hh|]. clear o1 Hh. intros o1 Hh.
  eapply udp_close_step; [exact Hh|exact Hc|]. clear o1 Hh. intros o1 Hh.
  eapply tun_destroy_step; [exact Hh|]. clear o1 Hh. intros tun o1 Ht Hh.
  destruct (vf_ss_destroy_refines (vs_sessions s) Hss) as (sess & -> & _ & Hss'). apply does_opt. cbn [vf_io_exit].
  eapply close_all_step; [exact Hh|]. clear o1 Hh. intros o1 Hh. rewrite foldl_app in Hh.
  destruct (cmd_server_stop (Some (vs_cmd_tid s)) true) as [[g tid] b] eqn:Et.
  apply does_ret. split; [done|]. split; [done|]. split; [|exact Hh]. split; cbn; try done.
  unfold cmd_server_stop in Et. destruct (Z.eqb_spec (vs_cmd_tid s) 0); by injection Et as _ <- _.
Qed.
(** ** The steps of the initialisation *)

Lemma user_init_ok e o :
  sys_ok (user_init_os (U := U) e) o (fun '(ok, m) o' =>
    if ok : bool then opened o (um_urandom_fd m) o' /\ um_sound m /\ um_rh m = RhLive else os_same o o').
Proof.
  unfold user_init_os, vf_user_init. destruct (ie_lock e), (ie_config e), (ie_dictionary e); cbn [andb negb ie_lock ie_config ie_dictionary ie_urandom]; try by apply sys_ok_ret.
  apply sys_ok_bind, sys_ok_opens; [done| |].
  - intros o' r Hr Hs _. destruct (Z.ltb_spec (rp_ret r) 0); [|lia]. cbn beta iota. by apply sys_ok_ret.
  - intros r o' H0 Hn _ Hf Hh (_ & Hc & _). destruct (Z.ltb_spec (rp_ret r) 0); [lia|]. cbn beta iota. apply sys_ok_ret. cbn.
    split_and!; [|apply table_sound_empty|done]. split_and!; [done..|lia].
Qed.

Lemma load_key_ok path key o :
  length key = CRYPTO_KEY_SIZE ->
  sys_ok (vfast_load_key (opt_str path) (Some key)) o (fun '(rc, k) o' => os_same o o' /\
    exists k', k = Some k' /\ length k' = CRYPTO_KEY_SIZE).
Proof.
  intros Hl. destruct path as [p|]; cbn [opt_str fmap option_fmap option_map].
  - eapply sys_ok_mono; [|apply vfast_load_key_spec; [apply strlen_app_zero|done]].
    intros [rc k] o' _ [Hs [[-> [->| ->]]|(-> & r & _ & _ & ->)]]; (split; [done|]); eexists; (split; [done|]); [done|apply length_replicate|].
    unfold read_into. rewrite length_app, length_drop, Hl, !length_take. unfold CRYPTO_KEY_SIZE. lia.
  - apply sys_ok_ret. split; [done|]. by exists key.
Qed.

Lemma signals_ok o : sys_ok vfast_setup_signals o (keeps o).
Proof.
  unfold vfast_setup_signals. apply plain_step; [done|]. intros o1 Hq1.
  destruct (_ <? 0); [apply sys_ok_ret; apply Hq1|]. apply plain_step; [done|]. intros o2 Hq2.
  destruct (_ <? 0); apply sys_ok_ret; by eapply quiet_trans.
Qed.

Lemma tun_ipv6_ok name o : is_Some (strlen name) -> sys_ok (vf_tun_disable_ipv6 name) o (keeps o).
Proof.
  intros Hn. unfold vf_tun_disable_ipv6. destruct (cstr_terminated name Hn) as [p ->]. apply sys_ok_opt.
  apply sys_ok_bind, sys_ok_opens; [done| |].
  - intros o' r Hr Hs _. destruct (Z.ltb_spec (rp_ret r) 0); [|lia]. by apply sys_ok_ret.
  - intros r o1 H0 Hn1 _ Hf Hh Ht. destruct (Z.ltb_spec (rp_ret r) 0); [lia|].
    apply on_step with (fd := rp_ret r); [done|done|rewrite Hf; left|]. intros o2 [[Hf2 Hh2] Hc2] _ _. destruct Ht as (_ & Hc & _).
    eapply (close_new_step _ _ o); [done|congruence|congruence|lia|]. intros _ o3 [Hs _]. by apply sys_ok_ret.
Qed.

Lemma start_core_ok now o :
  os_wf o ->
  sys_ok (cmd_start_core now) o (fun x o' => os_fds o' = os_fds o /\
    exists args, os_heap o' = args ++ os_heap o /\ Forall (fun p => p ∉ os_heap o) args).
Proof.
  intros Hwf. unfold cmd_start_core, cmd_server_start. apply sys_ok_bind. apply malloc_step; [done| |].
  { intros r o1 Hr [[Hf Hh] _]. destruct (Z.ltb_spec (rp_ret r) 0); [|lia]. do 2 apply sys_ok_ret. split; [done|]. by exists []. }
  intros r o1 Hr Hn Hh Hf Hc Hcc. destruct (Z.ltb_spec (rp_ret r) 0); [lia|]. apply plain_step; [done|]. intros o2 [[Hf2 Hh2] Hc2].
  destruct (rp_ret _ =? 0); cbn [negb].
  - do 2 apply sys_ok_ret. split; [congruence|]. exists [rp_ret r]. split; [by rewrite Hh2, Hh|]. by constructor.
  - eapply (free_step _ _ o); [done|congruence|congruence|lia|]. intros _ o3 [[Hf3 Hh3] _]. do 2 apply sys_ok_ret. split; [done|]. by exists [].
Qed.

(** The addresses are counted without wrapping around, or there is none. *)
Definition pool_fits (addr size : Z) : Prop := addr = INADDR_NONE \/ word_ok 32 addr /\ ntohl addr + size < 2 ^ 32.

Lemma pool_init_total p addr size :
  0 < size < 2 ^ 31 -> pool_fits addr size -> exists rc p', vf_ip_pool_init p addr size = Some (rc, p').
Proof.
  intros Hs Hf. destruct (decide (addr = INADDR_NONE)) as [->|Hn].
  - unfold vf_ip_pool_init. destruct (size =? 0); eauto.
  - destruct Hf as [?|[Hw Hr]]; [done|]. destruct (vf_ip_pool_init_inv p addr size Hw Hn Hs Hr) as (p' & -> & _). eauto.
Qed.

Lemma master_key_kept k c : opt_ok c -> length k = CRYPTO_KEY_SIZE ->
  let c' := set_master_key k c in
  opt_ok c' /\ opt_udp_backlog c' = opt_udp_backlog c /\ opt_pool_size c' = opt_pool_size c /\ opt_io_pool_size c' = opt_io_pool_size c.
Proof. intros Ho Hk. destruct Ho, c. by split_and!. Qed.

Lemma char_array_strlen n c : char_array n c -> is_Some (strlen c).
Proof. intros (t & -> & _). apply strlen_app_zero. Qed.

(** ** The initialised server *)

(** /dev/urandom, the device and the socket are open, each once; [args] is the
    management thread's block. *)
Definition server_up (o : os) s' (o' : os) : Prop :=
  exists c args, vs_udp s' = Some c /\
    let d := um_urandom_fd (vs_users s') in let t := tun_ctx_fd (vs_tun s') in let u := uc_fd c in
    udp_fd (vs_io s') = u /\ tun_fd (vs_io s') = t /\ 0 <= d /\ 0 <= t /\ 0 <= u /\
    (d ∉ os_fds o) /\ (t ∉ d :: os_fds o) /\ (u ∉ t :: d :: os_fds o) /\
    (uc_block c ∉ os_heap o) /\ Forall (fun p => p <> uc_block c) args /\
    holds o (u :: t :: d :: os_fds o) (args ++ uc_block c :: os_heap o) [] o'.

(** The state of a server that came up: the configuration with the key that
    was read, empty tables, the pool of the configured network, and the loop
    [vf_io_init] left. *)
Record server_ready (a : lib_answers (R := R)) s s' : Prop := {
  sr_opt : exists k, length k = CRYPTO_KEY_SIZE /\ vs_opt s' = set_master_key k (vs_opt s);
  sr_users : um_sound (vs_users s') /\ um_rh (vs_users s') = RhLive;
  sr_pool : exists p, vf_ip_pool_init p (la_pool_addr a) (opt_pool_size (vs_opt s)) = Some (0, vs_ip_pool s');
  sr_sessions : vs_sessions s' = vf_ss_init ∅;
  sr_io : exists io, pool_idx io = 0 /\ vs_io s' =
    (vf_io_init io (udp_fd (vs_io s')) (tun_fd (vs_io s')) (opt_io_pool_size (vs_opt s)) (la_mem a) (la_queue a)).2
}.

Lemma server_ready_stoppable a s s' : server_ready a s s' -> stoppable s'.
Proof.
  intros [_ [? Hr] _ Hs _]. split; [done|by rewrite Hr|]. rewrite Hs. apply vf_ss_init_wf.
Qed.

(** What is left when the initialisation fails: before the device is there,
    and without a socket. *)
Definition server_down (o : os) (o' : os) : Prop :=
  holds o (os_fds o) (os_heap o) [] o' \/ exists d, (d ∉ os_fds o) /\ holds o (d :: os_fds o) (os_heap o) [] o'.

(** What the initialisation asks of its surroundings. *)
Record server_start (a : lib_answers (R := R)) s (o : os) : Prop := {
  sb_opt : opt_ok (vs_opt s);
  sb_backlog : opt_udp_backlog (vs_opt s) < 2048;
  sb_pool : pool_fits (la_pool_addr a) (opt_pool_size (vs_opt s));
  sb_errnos : errnos_ok (os_kernel o);
  sb_wf : os_wf o;
  sb_stdin : 0 ∈ os_fds o
}.

(** The device that was opened is configured; what the calls answer does not
    matter. *)
Lemma tun_setup_step {B} name nm ip mtu t (f : sys B) o fds heap o1 Q :
  holds o fds heap [] o1 -> errnos_ok (os_kernel o) -> is_Some (strlen name) -> is_Some (strlen nm) -> is_Some (strlen ip) ->
  0 <= t -> t ∈ fds -> (forall o', holds o fds heap [] o' -> does f o' Q) ->
  does (vf_tun_disable_ipv6 name;;
        _ ← vf_tun_set_ip (Some nm) (Some ip) (Some VFAST_BROADCAST);
        _ ← vf_tun_set_status (Some nm) mtu true;
        _ ← vf_set_nonblocking t; f) o1 Q.
Proof.
  intros Hold He Hname Hnm Hip Ht0 Ht Hf.
  assert (forall o', holds o fds heap [] o' -> errnos_ok (os_kernel o') /\ t ∈ os_fds o') as Hx
    by (by intros o' [-> _ _ -> _]).
  eapply quiet_step; [exact Hold|apply wf_tun_ipv6|by apply tun_ipv6_ok|by intros ? ? ?|]. intros _ o2 _ Hold2. clear Hold; rename Hold2 into Hold.
  eapply quiet_step; [exact Hold|apply wf_tun_ip|apply tun_set_ip_done; [done|done|by eexists|by apply Hx]|by intros ? ? []|].
  intros _ o3 _ Hold3. clear Hold; rename Hold3 into Hold.
  eapply quiet_step; [exact Hold|apply wf_tun_status|apply tun_set_status_done; [done|by apply Hx]|by intros ? ? []|].
  intros _ o4 _ Hold4. clear Hold; rename Hold4 into Hold.
  eapply quiet_step; [exact Hold|apply wf_nonblocking|by apply set_nonblocking_ok; [done|apply Hx..]|by intros ? ? []|].
  intros _ o5 _ Hold5. by apply Hf.
Qed.

Lemma closed_in l1 l2 fd st : fd ∉ l1 ++ l2 -> closed (l1 ++ fd :: l2, st) fd = (l1 ++ l2, st).
Proof.
  intros Hn. unfold closed. cbn [fst snd]. rewrite decide_True by (apply elem_of_app; right; left).
  apply not_elem_of_app in Hn as [H1 H2]. by rewrite list.filter_app, filter_fresh, filter_gone.
Qed.

Lemma closed_stale l fd st : fd ∉ l -> closed (l, st) fd = (l, ScClose fd :: st).
Proof. intros Hn. unfold closed. cbn [fst snd]. by rewrite decide_False, filter_gone. Qed.

(** Each closed once, then the last two again. *)
Lemma closed_running fds d t u :
  d ∉ fds -> t ∉ d :: fds -> u ∉ t :: d :: fds ->
  foldl closed (u :: t :: d :: fds, []) [d; u; t; u; t] = (fds, [ScClose t; ScClose u]).
Proof.
  rewrite !not_elem_of_cons. intros Hd (Htd & Ht) (Hut & Hud & Hu). cbn [foldl].
  pose proof (closed_in [u; t] fds d []) as E1. pose proof (closed_in [] (t :: fds) u []) as E2. pose proof (closed_in [] fds t []) as E3.
  cbn [app] in E1, E2, E3. rewrite E1, E2, E3 by (rewrite ?not_elem_of_cons; auto). by rewrite !closed_stale.
Qed.

(** Zero is closed, twice. *)
Lemma closed_no_udp fds d t :
  0 ∈ fds -> d ∉ fds -> t ∉ d :: fds ->
  foldl closed (t :: d :: fds, []) [d; t; 0; 0] = (filter (fun x => x <> 0) fds, [ScClose 0]).
Proof.
  rewrite !not_elem_of_cons. intros H0 Hd (Htd & Ht). cbn [foldl].
  pose proof (closed_in [t] fds d []) as E1. pose proof (closed_in [] fds t []) as E2. cbn [app] in E1, E2.
  rewrite E1, E2 by (rewrite ?not_elem_of_cons; auto).
  unfold closed at 2. cbn [fst snd]. rewrite decide_True by done. apply closed_stale. intros [? _]%list_elem_of_filter. done.
Qed.

Lemma nonneg_in fd : 0 <= fd -> nonneg fd = [fd].
Proof. intros H. unfold nonneg. by destruct (Z.leb_spec 0 fd); [|lia]. Qed.

(** The end of a server without a socket: the zeroed event loop names
    descriptor 0. *)
Lemma clean_no_udp s o d t fds heap o1 :
  holds o (t :: d :: fds) heap [] o1 -> stoppable s ->
  um_urandom_fd (vs_users s) = d -> tun_ctx_fd (vs_tun s) = t -> vs_udp s = None -> udp_fd (vs_io s) = 0 -> tun_fd (vs_io s) = 0 ->
  0 <= d -> 0 <= t -> 0 ∈ fds -> d ∉ fds -> t ∉ d :: fds ->
  does (vfast_clean_server s) o1 (fun '(rc, _, s') o' => rc = 0 /\ stopped s' /\ holds o (filter (fun x => x <> 0) fds) heap [ScClose 0] o').
Proof.
  intros Hold Hst Ed Et Eu Ei1 Ei2 Hd0 Ht0 H0 Hd Ht. eapply does_mono; [eapply vfast_clean_server_spec; [done|done|by rewrite Eu]|].
  intros [[rc strings] s'] o' (-> & _ & Hs & Hh). split; [done|]. split; [done|]. unfold clean_fds in Hh.
  rewrite Ed, Et, Eu, Ei1, Ei2, !nonneg_in in Hh by done. cbn [udp_fds app] in Hh. by rewrite closed_no_udp in Hh.
Qed.

(** The end of a server that ran, whatever it did meanwhile. *)
Lemma clean_running s o c heap o1 :
  let d := um_urandom_fd (vs_users s) in let t := tun_ctx_fd (vs_tun s) in let u := uc_fd c in
  vs_udp s = Some c -> udp_fd (vs_io s) = u -> tun_fd (vs_io s) = t -> 0 <= d -> 0 <= t -> 0 <= u ->
  d ∉ os_fds o -> t ∉ d :: os_fds o -> u ∉ t :: d :: os_fds o -> uc_block c ∈ heap ->
  stoppable s -> holds o (u :: t :: d :: os_fds o) heap [] o1 ->
  does (vfast_clean_server s) o1 (fun '(rc, _, s') o' => rc = 0 /\ stopped s' /\
    holds o (os_fds o) (filter (fun p => p <> uc_block c) heap) [ScClose t; ScClose u] o').
Proof.
  intros d t u Eu Ei1 Ei2 Hd0 Ht0 Hu0 Hd Ht Hu Hb Hst Hold. eapply does_mono.
  { eapply vfast_clean_server_spec; [done|done|]. rewrite Eu, nonneg_in by done. split; [done|]. split; [|done]. cbn [foldl]. unfold closed. cbn [fst].
    apply list_elem_of_filter. split; [|left]. rewrite !not_elem_of_cons in Hu. tauto. }
  intros [[rc strings] s'] o' (-> & _ & Hs & Hh). split; [done|]. split; [done|]. unfold clean_fds in Hh.
  rewrite Eu, Ei1, Ei2, !nonneg_in in Hh by done. cbn [udp_fds app] in Hh. by rewrite closed_running in Hh.
Qed.

(** The rest, with a socket: [st] is the server's state around what is new. *)
Lemma server_attached (a : lib_answers (R := R)) u t size io (st : vf_io_t R -> Z -> vfserver (R := R) (T := T) (U := U)) o fds heap o1 Q :
  holds o fds heap [] o1 -> errnos_ok (os_kernel o) -> 0 <= u -> u ∈ fds ->
  pool_idx io = 0 ->
  (forall io' tid args o', udp_fd io' = u -> tun_fd io' = t ->
     (exists io0, pool_idx io0 = 0 /\ io' = (vf_io_init io0 u t size (la_mem a) (la_queue a)).2) ->
     Forall (fun p => p ∉ heap) args -> holds o fds (args ++ heap) [] o' -> Q (0, st io' tid) o') ->
  does (_ ← vf_set_nonblocking u;
        let '(_, io) := vf_io_init io u t size (la_mem a) (la_queue a) in
        let io := vf_io_set_timer io 5000 true in
        let io := vf_io_set_pmtud_callback io true in
        '(_, _, tid, _) ← cmd_start_core (la_now a);
        mret (0, st io tid)) o1 Q.
Proof.
  intros Hold He Hu Hin Hx HQ. pose proof Hold as [Hf Hh _ Hk _].
  eapply quiet_step; [exact Hold|apply wf_nonblocking|by apply set_nonblocking_ok; [|rewrite Hf|rewrite Hk]|by intros ? ? []|].
  intros _ o2 _ Hold2. clear Hf Hh Hk. pose proof Hold2 as [Hf Hh Hs Hk Hwf].
  destruct (vf_io_init io u t size (la_mem a) (la_queue a)) as [rc io1] eqn:Ei.
  set (io2 := vf_io_set_pmtud_callback (vf_io_set_timer io1 5000 true) true).
  assert (io2 = (vf_io_init (vf_io_set_pmtud_callback (vf_io_set_timer io 5000 true) true) u t size (la_mem a) (la_queue a)).2) as E2.
  { unfold io2, vf_io_init in *. destruct (la_mem a), (la_queue a); by injection Ei as _ <-. }
  assert (udp_fd io2 = u /\ tun_fd io2 = t) as [Eu Et].
  { rewrite E2. unfold vf_io_init. by destruct (la_mem a), (la_queue a). }
  eapply call_step; [done|apply wf_start_core|by apply start_core_ok|].
  intros [[[now' tab] tid] arg] o3 Hw3 Hk3 Hs3 (Hf3 & args & Hh3 & Hargs). apply does_ret. apply (HQ _ _ args); [done|done|by exists (vf_io_set_pmtud_callback (vf_io_set_timer io 5000 true) true)|by rewrite Hh in Hargs|].
  split; congruence.
Qed.

Lemma vfast_init_server_spec a s o :
  server_start a s o ->
  does (vfast_init_server a s) o (fun '(rc, s') o' =>
    (rc = 0 /\ server_ready a s s' /\ server_up o s' o') \/
    (rc = -1 /\ server_down o o') \/
    (rc = -1 /\ stopped s' /\ holds o (filter (fun x => x <> 0) (os_fds o)) (os_heap o) [ScClose 0] o')).
Proof.
  intros [Ho Hbl Hpf He Hwf H0]. pose proof (oo_key _ Ho) as Hkey. pose proof (holds_refl o Hwf) as Hh. unfold vfast_init_server.
  match goal with |- does _ _ ?q => set (Q := q) end.
  assert (forall s' o', server_down o o' -> does (mret (-1, s')) o' Q) as Hdown by (intros s' o' Hd; apply does_ret; right; left; auto).
  eapply call_step; [done|apply wf_users|apply user_init_ok|]. intros [[] users] o1 Hw1 Hk1 Hs1 Hu; cbn [negb].
  2: { apply Hdown. left. by eapply holds_same. }
  destruct Hu as ((Hd0 & Hdn & Hf1 & Hh1 & _) & Huw & Hrh). set (d := um_urandom_fd users) in *.
  assert (holds o (d :: os_fds o) (os_heap o) [] o1) as Hold by (by split).
  eapply (quiet_step _ _ o _ _ _ o1); [exact Hold|apply wf_load_key|by apply load_key_ok|by intros [] ? []|]. clear Hold.
  intros [rc key] o2 (_ & k & -> & Lk) Hold.
  assert (forall s' o', holds o (d :: os_fds o) (os_heap o) [] o' -> does (mret (-1, s')) o' Q) as Hfail.
  { intros s' o' Hh'. apply Hdown. right. eauto. }
  cbn [default mbind option_bind id]. destruct (master_key_kept k (vs_opt s) Ho Lk) as (Ho' & Hbl' & Hps' & Hio').
  set (opt := set_master_key k (vs_opt s)) in *.
  destruct (Z.ltb_spec rc 0); [by apply Hfail|]. 
  eapply quiet_step; [exact Hold|apply wf_signals|apply signals_ok|by intros ? ? ?|]. clear Hold. intros rc2 o3 _ Hold.
  destruct (Z.ltb_spec rc2 0); [by apply Hfail|].
  pose proof (oo_cap _ Ho') as Hcap. rewrite wrap_small by lia.
  destruct (pool_init_total (vs_ip_pool s) (la_pool_addr a) (opt_pool_size opt)) as (rc3 & pool & Epool); [lia|by rewrite Hps'|].
  rewrite Epool. apply does_opt. destruct (Z.eqb_spec rc3 0) as [->|_]; cbn [negb]; [|by apply Hfail]. rewrite Hps' in Epool.
  pose proof (char_array_strlen _ _ (oo_name _ Ho')) as Hname. pose proof (char_array_strlen _ _ (proj1 (oo_ip _ Ho'))) as Hip.
  assert (errnos_ok (os_kernel o3)) as He3 by (rewrite (ho_kernel _ _ _ _ _ Hold); done).
  eapply call_step; [by eapply ho_wf|apply wf_tun_init|by apply vf_tun_init_owns|].
  intros [rc4 tun] o4 Hw4 Hk4 Hs4 [Hh4 Htun]. cbn [fst snd] in Htun.
  destruct Htun as [(Hrc & -> & Hf4)|(-> & t & nm & -> & _ & Hnm & Ht0 & Htn & Hf4)].
  { destruct (Z.ltb_spec rc4 0); [|lia]. apply Hfail. by eapply holds_same. }
  cbn [default tun_ctx_name tun_ctx_fd Z.ltb Z.compare]. rewrite (ho_fds _ _ _ _ _ Hold) in Htn.
  assert (holds o (t :: d :: os_fds o) (os_heap o) [] o4) as Hold4.
  { destruct Hold. split; congruence. }
  clear Hold. rename Hold4 into Hold.
  eapply tun_setup_step; [exact Hold|done..|left|]. clear Hold. intros o5 Hold.
  eapply call_step; [by eapply ho_wf|apply wf_udp_init|apply udp_init_listener_owns; [by eapply ho_wf|by rewrite Hbl']|].
  intros [c|] o9 Hw9 Hk9 Hs9 Hudp.
  - destruct Hudp as (Hun & Hu0 & Hbn & Hf9 & Hh9). pose proof Hold as [Hf8 Hh8 Hs8 Hk8 _]. rewrite Hf8 in Hun, Hf9. rewrite Hh8 in Hbn, Hh9.
    eapply (server_attached a (uc_fd c) t _ _ (fun io tid => {| vs_io := io; vs_cmd_tid := tid |}) o _ _ o9);
      [split; [exact Hf9|exact Hh9|congruence|congruence|done]|done|done|left|done|].
    intros io tid args o' Eu Et (io0 & Ex & Eio) Hargs Hold'. left. split; [done|]. split.
    { split; cbn; [by exists k|done|by eexists|done|].
      exists io0. split; [done|]. cbn. by rewrite Eu, Et, Eio, Hio'. }
    exists c, args. split; [done|]. split_and!; try done.
    eapply list.Forall_impl; [exact Hargs|]. intros p Hp ->. apply Hp. left.
  - assert (holds o (t :: d :: os_fds o) (os_heap o) [] o9) as Hold9 by (by eapply holds_same).
    apply does_bind. eapply does_mono.
    { eapply (clean_no_udp _ _ d t); [exact Hold9|split; cbn; [done|congruence|apply vf_ss_init_wf]|done..]. }
    intros [[rc5 strings] s5] o10 (-> & Hst & Hold10). apply does_ret. by do 2 right.
Qed.

(** [s1] is the server some time after [s]: the handles are the same, the
    tables need not be. *)
Definition same_handles s s1 : Prop :=
  um_urandom_fd (vs_users s1) = um_urandom_fd (vs_users s) /\ tun_ctx_fd (vs_tun s1) = tun_ctx_fd (vs_tun s) /\
  vs_udp s1 = vs_udp s /\ udp_fd (vs_io s1) = udp_fd (vs_io s) /\ tun_fd (vs_io s1) = tun_fd (vs_io s).

(** From a valid configuration the initialisation ends, and so does the end
    of the program.  A server that came up and is stopped, whatever its tables
    hold by then, has every descriptor closed and every block freed that its
    initialisation took, but the management thread's, and its tables are
    empty; it closes the socket and the device a second time.  An
    initialisation that fails before the device is there leaves at most
    /dev/urandom open; one that gets no socket cleans up, and closes
    descriptor 0, which it never opened. *)
Theorem server_start_stop a s o :
  server_start a s o ->
  does (vfast_init_server a s) o (fun '(rc, s') o' =>
    (rc = 0 /\ stoppable s' /\ holds o (os_fds o') (os_heap o') [] o' /\ exists c, vs_udp s' = Some c /\ forall s1 o1,
       same_handles s' s1 -> stoppable s1 -> holds o (os_fds o') (os_heap o') [] o1 ->
       does (vfast_clean_server s1) o1 (fun '(rc, _, s2) o2 => rc = 0 /\ stopped s2 /\
         exists args, holds o (os_fds o) (args ++ os_heap o) [ScClose (tun_ctx_fd (vs_tun s')); ScClose (uc_fd c)] o2)) \/
    (rc = -1 /\ server_down o o') \/
    (rc = -1 /\ stopped s' /\ holds o (filter (fun x => x <> 0) (os_fds o)) (os_heap o) [ScClose 0] o')).
Proof.
  intros Hs. eapply does_mono; [by apply vfast_init_server_spec|]. intros [rc s'] o' [(-> & Hst%server_ready_stoppable & Hup)|[?|?]]; [left|auto..].
  split; [done|]. split; [done|]. destruct Hup as (c & args & Eu & Ei1 & Ei2 & Hd0 & Ht0 & Hu0 & Hd & Ht & Hu & Hb & Ha & Hold).
  split; [by destruct Hold|]. exists c. split; [done|]. intros s1 o1 (Ed1 & Et1 & Eu1 & Ei3 & Ei4) Hst1 Hold1.
  rewrite (ho_fds _ _ _ _ _ Hold), (ho_heap _ _ _ _ _ Hold) in Hold1. rewrite <- Ed1, <- Et1 in *.
  eapply does_mono; [eapply (clean_running s1 o c); try done; try congruence|].
  - apply elem_of_app. right. left.
  - intros [[rc2 strings] s2] o2 (-> & Hs2 & Hold2). split; [done|]. split; [done|]. exists args.
    by rewrite list.filter_app, filter_fresh, filter_kept in Hold2.
Qed.
End server.

(** ** The client *)

Section client.
Context {R : Type} `{HR : IoUring R}.
Implicit Types (s : vfclient (R := R)).

Lemma connect_ok c a port o : uc_fd c ∈ os_fds o -> sys_ok (udp_set_connect (Some c) a port) o (keeps o).
Proof.
  intros Hin. unfold udp_set_connect. destruct (_ || _); [by apply sys_ok_ret|].
  apply on_step with (fd := uc_fd c); [done..|]. intros o1 [Hs _] _ _. by apply sys_ok_ret.
Qed.
Lemma wf_connect c a port : keeps_wf (udp_set_connect c a port).
Proof. unfold udp_set_connect. wf. Qed.

Lemma init_sockaddr_total opt old : opt_ok opt -> is_Some (vfast_init_sockaddr opt old).
Proof.
  intros Ho. unfold vfast_init_sockaddr, ip_pton. destruct (inet_pton_total (opt_remote_host opt)) as [[a|] ->]; [|by eexists|by eexists].
  eapply char_array_strlen, (oo_host _ Ho).
Qed.

Lemma init_secctx_total calls now w :
  is_Some (vfast_crypto_fill_random calls REKEY_KEY_SIZE) -> is_Some (vfast_init_secctx calls now w).
Proof. intros [[rc bs] E]. unfold vfast_init_secctx, vf_rekey_init. rewrite E. by eexists. Qed.

(** What the initialisation asks of its surroundings; the client's state is
    what the program starts with. *)
Record client_start (a : lib_answers (R := R)) s (o : os) : Prop := {
  cb_opt : opt_ok (vc_opt s);
  cb_backlog : opt_udp_backlog (vc_opt s) < 2048;
  cb_random : is_Some (vfast_crypto_fill_random (la_getrandom a) REKEY_KEY_SIZE);
  cb_errnos : errnos_ok (os_kernel o);
  cb_wf : os_wf o;
  cb_stdin : 0 ∈ os_fds o;
  cb_tun : tun_ctx_fd (vc_tun s) = 0;
  cb_udp : vc_udp s = None
}.

(** The device and the socket are open. *)
Definition client_up (o : os) s' (o' : os) : Prop :=
  exists c, vc_udp s' = Some c /\ let t := tun_ctx_fd (vc_tun s') in let u := uc_fd c in
    udp_fd (vc_io s') = u /\ tun_fd (vc_io s') = t /\ 0 <= t /\ 0 <= u /\ (t ∉ os_fds o) /\ (u ∉ t :: os_fds o) /\
    (uc_block c ∉ os_heap o) /\ holds o (u :: t :: os_fds o) (uc_block c :: os_heap o) [] o'.

(** The device alone is, or nothing and its field still holds zero. *)
Definition client_down (o : os) s' (o' : os) : Prop :=
  vc_udp s' = None /\
  let t := tun_ctx_fd (vc_tun s') in
  (t = 0 /\ holds o (os_fds o) (os_heap o) [] o') \/ (0 <= t /\ (t ∉ os_fds o) /\ holds o (t :: os_fds o) (os_heap o) [] o').

(** What the initialisation leaves: the key of the file, the first session
    key, an engine [vf_io_init] set up, and a name for the device. *)
Record client_ready (a : lib_answers (R := R)) s s' : Prop := {
  cr_opt : exists k, length k = CRYPTO_KEY_SIZE /\ vc_opt s' = set_master_key k (vc_opt s);
  cr_keys : vfast_init_secctx (la_getrandom a) (la_time a) (vc_client s) = Some (vc_client s');
  cr_name : is_Some (strlen (tun_ctx_name (vc_tun s')));
  cr_io : exists io, pool_idx io = 0 /\ vc_io s' =
    (vf_io_init io (udp_fd (vc_io s')) (tun_fd (vc_io s')) (opt_io_pool_size (vc_opt s)) (la_mem a) (la_queue a)).2
}.

(** The rest, with a socket. *)
Lemma client_attached (a : lib_answers (R := R)) c t port size io (st : vf_io_t R -> vfclient (R := R)) o fds heap o1 Q :
  holds o fds heap [] o1 -> uc_fd c ∈ fds -> pool_idx io = 0 ->
  (forall io' o', udp_fd io' = uc_fd c -> tun_fd io' = t ->
     (exists io0, pool_idx io0 = 0 /\ io' = (vf_io_init io0 (uc_fd c) t size (la_mem a) (la_queue a)).2) ->
     holds o fds heap [] o' -> Q (0, st io') o') ->
  does (_ ← udp_set_connect (Some c) (la_peer_addr a) port;
        let '(_, io) := vf_io_init io (uc_fd c) t size (la_mem a) (la_queue a) in
        let io := vf_io_set_timer io (poll_ms g_rekey_mgr) true in
        let io := vf_io_set_pmtud_callback io true in
        mret (0, st io)) o1 Q.
Proof.
  intros Hold Hin Hx HQ.
  eapply quiet_step; [exact Hold|apply wf_connect|apply connect_ok; by rewrite (ho_fds _ _ _ _ _ Hold)|by intros ? ? ?|].
  intros _ o2 _ Hold2. destruct (vf_io_init io (uc_fd c) t size (la_mem a) (la_queue a)) as [rc io1] eqn:Ei. apply does_ret.
  set (io0 := vf_io_set_pmtud_callback (vf_io_set_timer io (poll_ms g_rekey_mgr) true) true).
  set (io2 := vf_io_set_pmtud_callback (vf_io_set_timer io1 (poll_ms g_rekey_mgr) true) true).
  assert (io2 = (vf_io_init io0 (uc_fd c) t size (la_mem a) (la_queue a)).2) as E2.
  { unfold io0, io2, vf_io_init in *. destruct (la_mem a), (la_queue a); by injection Ei as _ <-. }
  assert (udp_fd io2 = uc_fd c /\ tun_fd io2 = t) as [Eu Et] by (rewrite E2; unfold vf_io_init; by destruct (la_mem a), (la_queue a)).
  apply HQ; [done|done|by exists io0|done].
Qed.

Lemma sigaction_ok sg o : sys_ok (syscall_do (ScSigaction sg)) o (keeps o).
Proof. apply sys_ok_plain; [done|]. by intros. Qed.

Lemma vfast_init_client_spec a s o :
  client_start a s o ->
  does (vfast_init_client a s) o (fun '(rc, s') o' => (rc = 0 /\ client_ready a s s' /\ client_up o s' o') \/ (rc = -1 /\ client_down o s' o')).
Proof.
  intros [Ho Hbl Hr He Hwf H0 Hst Hsu]. pose proof (oo_key _ Ho) as Hkey. pose proof (holds_refl o Hwf) as Hold. unfold vfast_init_client.
  match goal with |- does _ _ ?q => set (Q := q) end.
  destruct (init_sockaddr_total (vc_opt s) (vc_dst_addr s) Ho) as [dst ->]. apply does_opt.
  destruct (init_secctx_total _ (la_time a) (vc_client s) Hr) as [cl Ecl]. rewrite Ecl. apply does_opt.
  eapply (quiet_step _ _ o _ _ _ o); [exact Hold|apply wf_load_key|by apply load_key_ok|by intros [] ? []|]. clear Hold.
  intros [rc key] o1 (_ & k & -> & Lk) Hold. cbn [default mbind option_bind id].
  destruct (master_key_kept k (vc_opt s) Ho Lk) as (Ho' & Hbl' & _ & Hpool). set (opt := set_master_key k (vc_opt s)) in *.
  assert (forall o' io, holds o (os_fds o) (os_heap o) [] o' ->
    does (mret (-1, {| vc_opt := opt; vc_client := cl; vc_dst_addr := dst; vc_tun := vc_tun s; vc_udp := vc_udp s; vc_io := io |})) o' Q) as Hfail.
  { intros o' io Hh. apply does_ret. right. split; [done|]. split; [done|]. left. done. }
  destruct (Z.ltb_spec rc 0); [by apply Hfail|].
  eapply quiet_step; [exact Hold|apply wf_call|apply sigaction_ok|by intros ? ? ?|]. clear Hold. intros _ o2 _ Hold.
  pose proof (char_array_strlen _ _ (oo_name _ Ho')) as Hname.
  assert (forall fds o', holds o fds (os_heap o) [] o' -> errnos_ok (os_kernel o')) as He' by (by intros fds o' [_ _ _ -> _]).
  eapply call_step; [by eapply ho_wf|apply wf_tun_init|apply vf_tun_init_owns; [done|by eapply He']|].
  intros [rc4 tun] o4 Hw4 Hk4 Hs4 [Hh4 Htun]. cbn [fst snd] in Htun. rewrite (ho_fds _ _ _ _ _ Hold), (ho_heap _ _ _ _ _ Hold) in *.
  destruct Htun as [(Hrc & -> & Hf4)|(-> & t & nm & -> & _ & Hnm & Ht0 & Htn & Hf4)].
  { destruct (Z.ltb_spec rc4 0); [|lia]. apply Hfail. destruct Hold. split; congruence. }
  cbn [default tun_ctx_name tun_ctx_fd Z.ltb Z.compare].
  assert (holds o (t :: os_fds o) (os_heap o) [] o4) as Hold4 by (destruct Hold; split; congruence). clear Hold.
  eapply quiet_step; [exact Hold4|apply wf_tun_ipv6|by apply tun_ipv6_ok|by intros ? ? ?|]. intros _ o5 _ Hold5.
  eapply quiet_step; [exact Hold5|apply wf_tun_status|apply tun_set_status_done; [done|by eapply He']|by intros ? ? []|]. intros _ o6 _ Hold6.
  eapply call_step; [by eapply ho_wf|apply wf_udp_init|apply udp_init_listener_owns; [by eapply ho_wf|by rewrite Hbl']|].
  intros [c|] o9 Hw9 Hk9 Hs9 Hudp.
  - destruct Hudp as (Hun & Hu0 & Hbn & Hf9 & Hh9). destruct Hold6 as [Hf6 Hh6 Hs6 Hk6 _]. rewrite Hf6 in Hun, Hf9. rewrite Hh6 in Hbn, Hh9.
    eapply (client_attached a c t _ _ _ (fun io => {| vc_io := io |}) o);
      [split; [exact Hf9|exact Hh9|congruence|congruence|done]|left|done|].
    intros io o' Eu Et Hio Hold'. left. split; [done|]. split; [|exists c; by split_and!].
    split; cbn [vc_opt vc_client vc_tun vc_io]; [by exists k|done|done|]. rewrite Eu, Et, <- Hpool. exact Hio.
  - apply does_ret. right. split; [done|]. split; [done|]. right. split_and!; [done..|]. by eapply holds_same.
Qed.
Lemma vfast_cleanup_spec s o fds heap o1 :
  holds o fds heap [] o1 -> udp_live (vc_udp s) (foldl closed (fds, []) (nonneg (tun_ctx_fd (vc_tun s)))).1 heap ->
  does (vfast_cleanup s) o1 (fun '(strings, s') o' => strings = vf_option_clean (Some (vc_opt s)) /\ tun_ctx_fd (vc_tun s') < 0 /\
    let x := foldl closed (fds, []) (nonneg (tun_ctx_fd (vc_tun s)) ++ udp_fds (vc_udp s)) in
    holds o x.1 (udp_blocks (vc_udp s) heap) x.2 o').
Proof.
  intros Hold Hl. unfold vfast_cleanup. rewrite foldl_app.
  eapply (tun_destroy_step _ _ _ (fds, [])); [exact Hold|]. intros t' o2 Ht Hold2.
  eapply udp_close_step; [exact Hold2|exact Hl|]. intros o3 Hold3. by apply does_ret.
Qed.

(** The cleanup after a start that succeeded, and after one that did not. *)
Lemma client_up_stops o s s1 o' o1 :
  client_up o s o' -> tun_ctx_fd (vc_tun s1) = tun_ctx_fd (vc_tun s) -> vc_udp s1 = vc_udp s ->
  holds o (os_fds o') (os_heap o') [] o1 ->
  does (vfast_cleanup s1) o1 (fun '(_, s2) o2 => tun_ctx_fd (vc_tun s2) < 0 /\ holds o (os_fds o) (os_heap o) [] o2).
Proof.
  intros (c & Eu & Ei1 & Ei2 & Ht0 & Hu0 & Ht & Hu & Hb & Hold) Et1 Eu1 Hold1. rewrite (ho_fds _ _ _ _ _ Hold), (ho_heap _ _ _ _ _ Hold) in Hold1.
  pose proof (closed_in [uc_fd c] (os_fds o) (tun_ctx_fd (vc_tun s)) []) as E1. pose proof (closed_in [] (os_fds o) (uc_fd c) []) as E2.
  rewrite not_elem_of_cons in Hu. cbn [app] in E1, E2.
  assert (closed (uc_fd c :: tun_ctx_fd (vc_tun s) :: os_fds o, []) (tun_ctx_fd (vc_tun s)) = (uc_fd c :: os_fds o, [])) as E1'
    by (apply E1; rewrite not_elem_of_cons; split; [by intros E; apply (proj1 Hu)|done]).
  eapply does_mono; [eapply vfast_cleanup_spec; [exact Hold1|]|].
  - rewrite Eu1, Eu, Et1, nonneg_in by done. cbn [foldl]. rewrite E1'. split_and!; [done|left|left].
  - intros [strings s2] o2 (_ & ? & Hh). split; [done|]. rewrite Eu1, Eu, Et1, nonneg_in in Hh by done. cbn [udp_fds app foldl udp_blocks] in Hh.
    rewrite E1', E2, filter_fresh in Hh by tauto. done.
Qed.

Lemma client_down_stops o s o' :
  client_down o s o' -> 0 ∈ os_fds o ->
  does (vfast_cleanup s) o' (fun '(_, s2) o2 => tun_ctx_fd (vc_tun s2) < 0 /\
    holds o (if decide (tun_ctx_fd (vc_tun s) = 0) then filter (fun x => x <> 0) (os_fds o) else os_fds o) (os_heap o) [] o2).
Proof.
  intros (Eu & Hd) H0. destruct Hd as [[Et Hold]|(Ht0 & Ht & Hold)];
    (eapply does_mono; [eapply vfast_cleanup_spec; [exact Hold|by rewrite Eu]|]); intros [strings s2] o2 (_ & ? & Hh); (split; [done|]);
    rewrite Eu, nonneg_in in Hh by lia; cbn [udp_fds app foldl udp_blocks] in Hh.
  - rewrite Et in *. unfold closed in Hh. cbn [fst snd] in Hh. by rewrite decide_True in Hh.
  - pose proof (closed_in [] (os_fds o) (tun_ctx_fd (vc_tun s)) [] Ht) as E. cbn [app] in E. rewrite E in Hh.
    rewrite decide_False; [done|]. intros E0. by rewrite E0 in Ht.
Qed.

(** From a valid configuration the client's initialisation ends, and so
    does its cleanup, which [main] calls at the end and after a failure.  A
    client that came up gives back exactly what its initialisation took.
    When the key file or the device is the failure, the descriptor of the
    device is still the zero the program starts with, and the cleanup closes
    the standard input; when it is the socket, nothing is left open. *)
Theorem client_start_stop a s o :
  client_start a s o ->
  does (vfast_init_client a s) o (fun '(rc, s') o' =>
    (rc = 0 /\ holds o (os_fds o') (os_heap o') [] o' /\ forall s1 o1, tun_ctx_fd (vc_tun s1) = tun_ctx_fd (vc_tun s') -> vc_udp s1 = vc_udp s' ->
       holds o (os_fds o') (os_heap o') [] o1 ->
       does (vfast_cleanup s1) o1 (fun '(_, s2) o2 => tun_ctx_fd (vc_tun s2) < 0 /\ holds o (os_fds o) (os_heap o) [] o2)) \/
    (rc = -1 /\ does (vfast_cleanup s') o' (fun '(_, s2) o2 => tun_ctx_fd (vc_tun s2) < 0 /\
       holds o (if decide (tun_ctx_fd (vc_tun s') = 0) then filter (fun x => x <> 0) (os_fds o) else os_fds o) (os_heap o) [] o2))).
Proof.
  intros Hs. eapply does_mono; [by apply vfast_init_client_spec|]. intros [rc s'] o' [(-> & _ & Hup)|(-> & Hd)].
  - left. split; [done|]. split; [by destruct Hup as (c & _ & _ & _ & _ & _ & _ & _ & _ & [])|]. intros s1 o1 ? ? ?. by eapply client_up_stops.
  - right. split; [done|]. apply client_down_stops; [done|apply Hs].
Qed.
End client.

(** * Instances: a kernel that agrees to everything, and one without a
    device *)

(** Call [r] reads the key, call [t] opens the device. *)
Definition demo_kernel (r t : nat) (tun : Z) (n : nat) : reply :=
  {| rp_ret := if (n =? r)%nat then 32 else if (n =? t)%nat then tun else 0; rp_errno := 16; rp_val := 0x8000; rp_bytes := replicate 32 7;
     rp_addr := {| sin_addr := 0; sin_port := 0 |} |}.

Definition demo_start (k : nat -> reply) : os :=
  {| os_kernel := k; os_clock := 0; os_fds := [0; 1; 2]; os_heap := []; os_log := []; os_stale := [] |}.

Definition demo_options : vpn_option_t := set_pool_size 256 default_option.

Lemma demo_options_ok : opt_ok demo_options.
Proof. destruct default_option_ok. by split. Qed.

Definition demo_answers : lib_answers :=
  {| la_users := {| ie_lock := true; ie_apath := true; ie_config := true; ie_dictionary := true; ie_urandom := 0 |};
     la_pool_addr := 0x0000080A; la_peer_addr := 0x0100007F; la_mem := true; la_queue := inr ring0; la_now := 100;
     la_getrandom := [GrBytes (replicate 32 9)]; la_time := 7 |}.

Definition demo_server : vfserver (R := list_ring) (T := list_table Z) (U := list_table (list Z)) :=
  {| vs_opt := demo_options;
     vs_users := {| um_urandom_fd := 0; um_rh := RhNull; um_heap := ∅; user_node := []; um_lock := false |};
     vs_ip_pool := {| start_ip := 0; IpPool.pool_size := 0; bitmap := None; next_hint := 0 |}; vs_sessions := vf_ss_init ∅;
     vs_tun := {| tun_ctx_fd := 0; tun_ctx_name := replicate 16 0 |}; vs_udp := None; vs_io := io_zero ring0; vs_cmd_tid := 0 |}.

Definition demo_vfclient : vfclient (R := list_ring) :=
  {| vc_opt := demo_options; vc_client := demo_client; vc_dst_addr := {| sin_addr := 0; sin_port := 0 |};
     vc_tun := {| tun_ctx_fd := 0; tun_ctx_name := replicate 16 0 |}; vc_udp := None; vc_io := io_zero ring0 |}.

Lemma demo_kernel_errnos r t x : errnos_ok (demo_kernel r t x).
Proof. by intros n _. Qed.

(** The server comes up with descriptors 3, 4 and 5 and is stopped. *)
Lemma server_start_stop_witness :
  let o := demo_start (demo_kernel 3 7 0) in
  server_start demo_answers demo_server o /\
  exists s' o' strings s2 o2, vfast_init_server demo_answers demo_server o = Some ((0, s'), o') /\ os_fds o' = [5; 4; 3; 0; 1; 2] /\
    vfast_clean_server s' o' = Some ((0, strings, s2), o2) /\ stopped s2 /\ os_fds o2 = [0; 1; 2] /\ os_stale o2 = [ScClose 4; ScClose 5].
Proof.
  intros o. assert (server_start demo_answers demo_server o) as Hs.
  { split; [apply demo_options_ok|reflexivity|right; vm_compute; by repeat split|apply demo_kernel_errnos|by constructor|left]. }
  split; [exact Hs|]. destruct (server_start_stop demo_answers demo_server o Hs) as ([rc s'] & o' & E & H).
  assert ((rc, os_fds o', tun_ctx_fd (vs_tun s'), uc_fd <$> vs_udp s') = (0, [5; 4; 3; 0; 1; 2], 4, Some 5)) as Er.
  { apply (inj Some). transitivity ((fun '((rc, s'), o') => (rc, os_fds o', tun_ctx_fd (vs_tun s'), uc_fd <$> vs_udp s'))
      <$> vfast_init_server demo_answers demo_server o); [by rewrite E|by vm_compute]. }
  injection Er as -> Ef Et Eu. destruct H as [(_ & Hst & Hold & c & Ec & H)|[(H & _)|(H & _)]]; [|discriminate H..].
  rewrite Ec in Eu. injection Eu as Eu. destruct (H s' o') as ([[rc2 strings] s2] & o2 & E2 & -> & Hs2 & args & Hold2); [by repeat split|done|done|].
  exists s', o', strings, s2, o2. rewrite Et, Eu in Hold2. destruct Hold2 as [Hf _ Hst2 _ _]. by split_and!.
Defined.

(** A client that comes up, and one without a device, which closes the
    standard input. *)
Lemma client_start_stop_witness :
  let o := demo_start (demo_kernel 2 5 0) in
  let o1 := demo_start (demo_kernel 2 5 (-1)) in
  client_start demo_answers demo_vfclient o /\ client_start demo_answers demo_vfclient o1 /\
  (exists s' o' strings s2 o2, vfast_init_client demo_answers demo_vfclient o = Some ((0, s'), o') /\ os_fds o' = [4; 3; 0; 1; 2] /\
    vfast_cleanup s' o' = Some ((strings, s2), o2) /\ os_fds o2 = [0; 1; 2] /\ os_heap o2 = []) /\
  (exists s' o' strings s2 o2, vfast_init_client demo_answers demo_vfclient o1 = Some ((-1, s'), o') /\ os_fds o' = [0; 1; 2] /\
    vfast_cleanup s' o' = Some ((strings, s2), o2) /\ os_fds o2 = [1; 2]).
Proof.
  intros o o1. assert (client_start demo_answers demo_vfclient o) as Hs.
  { split; [apply demo_options_ok|reflexivity|by eexists|apply demo_kernel_errnos|by constructor|left|done..]. }
  assert (client_start demo_answers demo_vfclient o1) as Hs1.
  { split; [apply demo_options_ok|reflexivity|by eexists|apply demo_kernel_errnos|by constructor|left|done..]. }
  do 2 (split; [done|]). split.
  - destruct (client_start_stop demo_answers demo_vfclient o Hs) as ([rc s'] & o' & E & H).
    assert ((rc, os_fds o') = (0, [4; 3; 0; 1; 2])) as Er.
    { apply (inj Some). transitivity ((fun '((rc, s'), o') => (rc, os_fds o')) <$> vfast_init_client demo_answers demo_vfclient o); [by rewrite E|by vm_compute]. }
    injection Er as -> Ef. destruct H as [(_ & Hold & H)|(H & _)]; [|discriminate H].
    destruct (H s' o' eq_refl eq_refl Hold) as ([strings s2] & o2 & E2 & _ & [Hf Hh _ _ _]). exists s', o', strings, s2, o2.
    split_and!; [exact E|exact Ef|exact E2|exact Hf|exact Hh].
  - destruct (client_start_stop demo_answers demo_vfclient o1 Hs1) as ([rc s'] & o' & E & H).
    assert ((rc, os_fds o', tun_ctx_fd (vc_tun s')) = (-1, [0; 1; 2], 0)) as Er.
    { apply (inj Some). transitivity ((fun '((rc, s'), o') => (rc, os_fds o', tun_ctx_fd (vc_tun s'))) <$> vfast_init_client demo_answers demo_vfclient o1); [by rewrite E|by vm_compute]. }
    injection Er as -> Ef Et. destruct H as [(H & _)|(_ & [strings s2] & o2 & E2 & _ & Hold)]; [discriminate H|].
    rewrite Et in Hold. destruct Hold as [Hf _ _ _ _]. exists s', o', strings, s2, o2.
    split_and!; [exact E|exact Ef|exact E2|exact Hf].
Defined.
