(* ===== verification/Program.v ===== *)
(** The server program (the [main] of src/src/vfast_server.c): configuration,
    initialisation, event loop, end. *)
From S2P Require Import Prelude Crypto Key Protocol IpPool HashTable Libc Text Session User Io Payload Receive Sys Tun Udp KeyFile Fsm Stats Server ServerDemo ServerRx ServerData Maintenance ServerRun Option Cmd CmdEngine CmdNet Lifecycle.

(** A computation in [option] that returned, taken apart. *)
Ltac opt_inv :=
  repeat match goal with
  | H : Some _ = Some _ |- _ => injection H; clear H; intros; subst
  | H : None = Some _ |- _ => discriminate H
  | H : (_ ≫= _) = Some _ |- _ => apply bind_Some in H as (? & ? & H)
  | H : match ?x with _ => _ end = Some _ |- _ => destruct x eqn:?
  end.

(** * What a run keeps *)

(** An invariant of the callbacks' state, where they return, is one of the
    run's. *)
Section keeps.
Context {R : Type} `{HR : IoUring R} {W : Type} (P : W -> Prop).
Context (on_udp_data on_tun_data : W -> vf_io_t R -> nat -> Z -> option (W * vf_io_t R * vf_task_state_t)).
Context (on_timer : W -> vf_io_t R -> option (W * vf_io_t R)).
Context (on_pmtud : W -> vf_io_t R -> Z -> option (W * vf_io_t R)).

Definition data_cb_keeps (cb : W -> vf_io_t R -> nat -> Z -> option (W * vf_io_t R * vf_task_state_t)) : Prop :=
  forall w io i res w' io' st, cb w io i res = Some (w', io', st) -> P w -> P w'.
Definition idle_cb_keeps (cb : W -> vf_io_t R -> option (W * vf_io_t R)) : Prop :=
  forall w io w' io', cb w io = Some (w', io') -> P w -> P w'.

Hypothesis Hudp : data_cb_keeps on_udp_data.
Hypothesis Htun : data_cb_keeps on_tun_data.
Hypothesis Htimer : idle_cb_keeps on_timer.
Hypothesis Hpmtud : forall mtu, idle_cb_keeps (fun w io => on_pmtud w io mtu).

Lemma foldM_keeps {A B} (f : A -> B -> option A) (I : A -> Prop) l a a' :
  (forall a b a', f a b = Some a' -> I a -> I a') -> foldM f a l = Some a' -> I a -> I a'.
Proof.
  intros Hf. revert a. induction l as [|x l IH]; intros a; cbn [foldM]; [by intros [= ->]|].
  intros (a1 & E & H)%bind_Some Ha. eauto.
Qed.

Lemma process_cqe_keeps a c a' : process_cqe on_udp_data on_tun_data a c = Some a' -> P a.1 -> P a'.1.
Proof. unfold process_cqe. destruct a as [w io]. cbn [fst]. intros E Hw. opt_inv; cbn [fst]; eauto. Qed.

Lemma vf_io_iter_keeps s e nx s' :
  vf_io_iter on_udp_data on_tun_data on_timer on_pmtud s e = Some (nx, s') -> P (ls_world s) -> P (ls_world s').
Proof.
  unfold vf_io_iter. intros (io & _ & E)%bind_Some Hw. apply bind_Some in E as ([w1 io1] & E1 & E).
  assert (P w1) as Hw1.
  { destruct (_ && _) in E1; [|by injection E1 as <- _]. apply bind_Some in E1 as ([w2 io2] & E2 & [= <- _]).
    eapply (foldM_keeps _ (fun a : W * vf_io_t R => P a.1)) in E2; [exact E2| |exact Hw].
    intros [w3 io3] mtu [w4 io4]. apply Hpmtud. }
  apply bind_Some in E as ([[w2 io2] tick] & E2 & E).
  assert (P w2) as Hw2.
  { destruct (_ && _ && _) in E2; [|by injection E2 as <- _ _]. apply bind_Some in E2 as ([w3 io3] & E3 & [= <- _ _]). eauto. }
  destruct (ev_ret e <? 0); [by injection E as _ <-|]. apply bind_Some in E as ([w3 io3] & E3 & [= _ <-]). cbn [ls_world].
  eapply (foldM_keeps _ (fun a : W * vf_io_t R => P a.1)) in E3; [exact E3|apply process_cqe_keeps|exact Hw2].
Qed.

Lemma vf_io_run_keeps w io now0 es s :
  vf_io_run on_udp_data on_tun_data on_timer on_pmtud w io now0 es = Some s -> P w -> P (ls_world s).
Proof.
  unfold vf_io_run. intros (io1 & _ & E)%bind_Some Hw.
  assert (forall s0, P (ls_world s0) -> vf_io_loop on_udp_data on_tun_data on_timer on_pmtud s0 es = Some s -> P (ls_world s)) as Hloop.
  { clear E. induction es as [|e es IH]; intros s0 Hs0; cbn [vf_io_loop]; [by intros [= <-]|].
    destruct (negb _); [by intros [= <-]|]. intros ([nx s1] & E & H)%bind_Some. apply vf_io_iter_keeps in E; [|done].
    assert (P (ls_world (after_signal e s1))) by (unfold after_signal; by destruct (ev_signal e)).
    destruct nx; [eauto|by injection H as <-]. }
  eapply Hloop; [|exact E]. done.
Qed.
End keeps.

(** ** The users' table *)

Section users.
Context {R : Type} `{HR : IoUring R}.
Context {T : Type} `{HT : HashTable Z T}.
Context {U : Type} `{HU : HashTable (list Z) U, HUL : !HashTableLaws (list Z) U}.
Variable hmac_sha256 : list Z -> list Z -> list Z.
Variable rc_auth : list Z -> list Z -> rc_result.
Implicit Types (w : server T U) (io : vf_io_t R).

(** The handle of /dev/urandom, that of libradcli, and the tokens. *)
Definition users_ok (fd : Z) w : Prop :=
  um_sound (sv_users w) /\ um_rh (sv_users w) = RhLive /\ um_urandom_fd (sv_users w) = fd.

Lemma users_login fd w u p tk e c m' tk' :
  vf_user_login rc_auth (sv_users w) u p tk e = Some (c, m', tk') -> users_ok fd w -> users_ok fd (with_users m' w).
Proof.
  intros E (Hs & Hr & Hf). destruct (vf_user_login_keeps _ _ _ _ _ _ _ _ _ E Hs) as (? & ? & ?). split_and!; cbn; congruence || done.
Qed.

Lemma with_sec_users l f w w' : with_sec l f w = Some w' -> sv_users w' = sv_users w.
Proof. unfold with_sec. intros (s & _ & [= <-])%bind_Some. done. Qed.

Lemma users_ok_eq fd w w' : sv_users w' = sv_users w -> users_ok fd w -> users_ok fd w'.
Proof. unfold users_ok. by intros ->. Qed.

(** Handlers other than the login's do not touch the table. *)
Lemma hello_users w io i plen src e u w' io' :
  vfast_handle_hello hmac_sha256 w io i plen src e = Some (u, w', io') -> sv_users w' = sv_users w.
Proof. unfold vfast_handle_hello. intros E. by opt_inv. Qed.
Lemma echo_users w io s sid i plen src e u w' io' :
  vfast_handle_echo w io s sid i plen src e = Some (u, w', io') -> sv_users w' = sv_users w.
Proof. unfold vfast_handle_echo. intros E. by opt_inv. Qed.
Lemma rekey_ack_users w s w' : vfast_handle_rekey_ack w s = Some w' -> sv_users w' = sv_users w.
Proof. unfold vfast_handle_rekey_ack. intros E. opt_inv; [by eapply with_sec_users|done]. Qed.
Lemma rekey_req_users w io s i plen src e w' io' :
  vfast_handle_rekey_req w io s i plen src e = Some (w', io') -> sv_users w' = sv_users w.
Proof.
  unfold vfast_handle_rekey_req. intros E. opt_inv; try done;
    repeat match goal with H : with_sec _ _ _ = Some _ |- _ => apply with_sec_users in H end; cbn in *; congruence.
Qed.

Lemma auth_err_users w vip io u w' io' : auth_err w vip io = Some (u, w', io') -> sv_users w' = sv_users w.
Proof. unfold auth_err. intros E. by opt_inv. Qed.

Lemma auth_users fd w io i plen src e u w' io' :
  vfast_handle_auth hmac_sha256 rc_auth w io i plen src e = Some (u, w', io') -> users_ok fd w -> users_ok fd w'.
Proof.
  unfold vfast_handle_auth. intros E Hw. destruct (plen <? _); [by injection E as _ <- _|].
  do 3 apply bind_Some in E as (? & _ & E). destruct (negb _); [by injection E as _ <- _|].
  apply bind_Some in E as (? & _ & E). destruct (_ || _); [by injection E as _ <- _|].
  apply bind_Some in E as ([vip pool] & _ & E). destruct (vip =? 0); [by apply auth_err_users in E; eapply users_ok_eq|].
  apply bind_Some in E as ([[rc users] tk] & El & E). apply (users_login fd (with_pool pool w)) in El; [|done].
  eapply users_ok_eq; [|exact El].
  destruct (negb _); [by injection E as _ <- _|]. clear El Hw.
  opt_inv; try done; match goal with H : auth_err _ _ _ = _ |- _ => apply auth_err_users in H; by rewrite H end.
Qed.

Lemma dispatch_users fd w io s sid ty i b plen src e u w' io' :
  server_dispatch hmac_sha256 rc_auth w io s sid ty i b plen src e = Some (u, w', io') -> users_ok fd w -> users_ok fd w'.
Proof.
  unfold server_dispatch. intros E Hw. destruct (ty =? VPN_MSG_DATA); [by opt_inv|].
  destruct (ty =? VPN_MSG_HELLO); [eapply users_ok_eq; [by eapply hello_users|done]|].
  destruct (ty =? VPN_MSG_AUTH_REQ); [by eapply auth_users|].
  destruct (ty =? VPN_MSG_KEEPALIVE); [eapply users_ok_eq; [by eapply echo_users|done]|].
  destruct (ty =? VPN_DPD_RESPONSE); [by opt_inv|].
  destruct (ty =? VPN_MSG_REKEY_ACK).
  { apply bind_Some in E as (w1 & E & [= _ <- _]). eapply users_ok_eq; [by eapply rekey_ack_users|done]. }
  destruct (ty =? VPN_MSG_REKEY_REQ); [|by injection E as _ <- _].
  apply bind_Some in E as ([w1 io1] & E & [= _ <- _]). eapply users_ok_eq; [by eapply rekey_req_users|done].
Qed.

Lemma on_udp_users fd w io i len e w' io' st :
  server_on_udp hmac_sha256 rc_auth w io i len e = Some (w', io', st) -> users_ok fd w -> users_ok fd w'.
Proof.
  unfold server_on_udp. intros (t & _ & E)%bind_Some Hw. destruct (len <? _); [by injection E as <- _ _|].
  do 3 apply bind_Some in E as (? & _ & E). apply bind_Some in E as ([s w1] & E1 & E).
  assert (users_ok fd w1) as Hw1 by (eapply users_ok_eq; [|exact Hw]; clear E Hw; opt_inv; by repeat case_match).
  apply bind_Some in E as (? & _ & E). apply bind_Some in E as ([r b] & _ & E). apply bind_Some in E as (? & _ & E).
  destruct r as [plen|]; [|by injection E as <- _ _].
  apply bind_Some in E as (w2 & E2 & E).
  assert (users_ok fd w2) as Hw2.
  { eapply users_ok_eq; [|exact Hw1]. destruct s; [by eapply with_sec_users|by injection E2 as <-]. }
  apply bind_Some in E as (ty & _ & E). apply bind_Some in E as ([[u w3] io3] & E3 & [= <- _ _]).
  by eapply dispatch_users in E3.
Qed.

Lemma on_tun_users fd w io i len e w' io' st :
  server_on_tun w io i len e = Some (w', io', st) -> users_ok fd w -> users_ok fd w'.
Proof. intros E. apply users_ok_eq. unfold server_on_tun in E. by opt_inv. Qed.

Lemma maintenance_users fd w io e w' io' :
  vfast_server_maintenance w io e = Some (w', io') -> users_ok fd w -> users_ok fd w'.
Proof.
  unfold vfast_server_maintenance. intros (nodes & _ & E)%bind_Some Hw.
  eapply (foldM_keeps _ (fun a : server T U * vf_io_t R => users_ok fd a.1)) in E; [exact E| |exact Hw].
  intros [w1 io1] nd [w2 io2] E1. apply users_ok_eq. unfold maintain_node in E1. by opt_inv.
Qed.
End users.

(** * The program *)

Definition char_dash : Z := 45.

(** What the first argument asks for: a configuration file, if it names one. *)
Inductive main_action := AVersion | AUsage | AKeygen | AConfig (file : option (list Z)).

(** [argv[1]] and on, each with its NUL; [keygen]: the server's program, which
    alone generates keys. *)
Definition main_args (keygen : bool) (argv : list (list Z)) : option main_action :=
  match argv with
  | [] => Some (AConfig None)
  | a :: _ =>
      s ← cstr a;
      let strcmp x := bool_decide (s = str x) in
      if strcmp "-v" || strcmp "--version" then Some AVersion
      else if strcmp "--help" || strcmp "-h" then Some AUsage
      else if keygen && (strcmp "-g" || strcmp "--keygen") then Some AKeygen
      else
        c0 ← a !! 0%nat;
        named ← (if negb (c0 =? char_dash) then Some true else c1 ← a !! 1%nat; Some (negb (c1 =? char_dash)));
        Some (AConfig (if named : bool then Some s else None))
  end.

(** [vf_get_absolute_path] (src/src/utils.c); the answer to [realpath] holds
    the path. *)
Definition vf_get_absolute_path (filename : list Z) : sys (option (list Z)) :=
  st ← syscall_do (ScStat filename);
  if negb (rp_ret st =? 0) then mret None else
  if negb (S_ISREG (rp_val st)) then mret None else
  r ← syscall_do (ScRealpath filename);
  if rp_ret r <? 0 then mret None else mret (Some (rp_bytes r)).

Section program.
Context {R : Type} `{HR : IoUring R}.
Context {T : Type} `{HT : HashTable Z T}.
Context {U : Type} `{HU : HashTable (list Z) U}.
Variable hmac_sha256 : list Z -> list Z -> list Z.
Variable rc_auth : list Z -> list Z -> rc_result.
(** What the surroundings answer at the [k]-th callback. *)
Variable env : nat -> sv_env.
(** The configuration files there are, and whether a file can be opened for
    appending. *)
Variable conf_file : list Z -> option (list Z).
Variable can_append : list Z -> bool.

#[local] Abbreviation server_state := (vfserver (R := R) (T := T) (U := U)).

(** Static storage: everything zero. *)
Definition vfserver_static (r : R) : server_state :=
  {| vs_opt := zero_option;
     vs_users := {| um_urandom_fd := 0; um_rh := RhNull; um_heap := ∅; user_node := ht_empty; um_lock := false |};
     vs_ip_pool := {| start_ip := 0; IpPool.pool_size := 0; bitmap := None; next_hint := 0 |};
     vs_sessions := vf_ss_init ∅; vs_tun := {| tun_ctx_fd := 0; tun_ctx_name := zero_name |};
     vs_udp := None; vs_io := io_zero r; vs_cmd_tid := 0 |}.

Definition with_opt (opt : vpn_option_t) (s : server_state) : server_state :=
  {| vs_opt := opt; vs_users := vs_users s; vs_ip_pool := vs_ip_pool s; vs_sessions := vs_sessions s; vs_tun := vs_tun s;
     vs_udp := vs_udp s; vs_io := vs_io s; vs_cmd_tid := vs_cmd_tid s |}.

(** The state the callbacks work on, and back. *)
Definition world_of (s : server_state) : server T U :=
  {| sv_sessions := vs_sessions s; sv_ip_pool := vs_ip_pool s; sv_users := vs_users s; master_key := opt_master_key (vs_opt s);
     sv_pack := {| ps_seed := LOCAL_SEED; ps_nonce := nonce_state0 |}; rx_pkts := 0; tx_pkts := 0; drops := 0;
     reass := {| rs_rx_pkts := 0; rs_tx_pkts := 0; rs_drops := 0 |} |}.
Definition after_run (s : server_state) (w : server T U) (io : vf_io_t R) : server_state :=
  {| vs_opt := vs_opt s; vs_users := sv_users w; vs_ip_pool := sv_ip_pool w; vs_sessions := sv_sessions w; vs_tun := vs_tun s;
     vs_udp := vs_udp s; vs_io := io; vs_cmd_tid := vs_cmd_tid s |}.

(** The defaults, the file named on the command line, and its contents; the
    inner [None]: the process exits. *)
Definition main_conf (cfile : option (list Z)) : option (option vpn_option_t) :=
  opt ← vf_option_init (Some zero_option);
  opt ← opt;
  let opt := match cfile with Some p => set_cfile (Some p) opt | None => opt end in
  let file := f ← opt_cfile opt; conf_file f in
  vf_option_conf can_append (S (length (default [] file))) file opt.

(** The initialised server until the loop ends. *)
Definition server_run (s : server_state) (now0 : Z) (es : list io_event) : option (loop_state (R := R) (W := server_world)) :=
  vf_io_run (run_on_udp hmac_sha256 rc_auth env) (run_on_tun env) (run_on_timer env) run_on_pmtud (world_of s, 0%nat) (vs_io s) now0 es.

(** [main]: the status the process exits with, none if the loop still runs
    after the events [es].  [entropy] and [tmp_key] are what generating a key
    finds. *)
Definition server_main (argv : list (list Z)) (entropy : option (list Z)) (tmp_key : list Z)
    (a : lib_answers) (r : R) (now0 : Z) (es : list io_event) : sys (option Z) :=
  act ← sys_opt (main_args true argv);
  match act with
  | AVersion => mret (Some 0)
  | AUsage => mret (Some 1)
  | AKeygen => '(rc, _) ← vfast_cmd_keygen entropy tmp_key; mret (Some rc)
  | AConfig file =>
      cfile ← match file with Some f => vf_get_absolute_path f | None => mret None end;
      conf ← sys_opt (main_conf cfile);
      match conf with
      | None => mret (Some 1)
      | Some opt =>
          '(rc, s) ← vfast_init_server a (with_opt opt (vfserver_static r));
          if rc <? 0 then mret (Some 1) else
          st ← sys_opt (server_run s now0 es);
          if negb (existsb stopping es) then mret None else
          '(_, _, _) ← vfast_clean_server (after_run s (ls_world st).1 (ls_io st));
          mret (Some 0)
      end
  end.
End program.

(** * Properties *)

Section program_proofs.
Context {R : Type} `{HR : IoUring R, HRL : !IoUringLaws R}.
Context {T : Type} `{HT : HashTable Z T, HTL : !HashTableLaws Z T}.
Context {U : Type} `{HU : HashTable (list Z) U, HUL : !HashTableLaws (list Z) U}.
Variable hmac_sha256 : list Z -> list Z -> list Z.
Variable rc_auth : list Z -> list Z -> rc_result.
Variable env : nat -> sv_env.
Variable conf_file : list Z -> option (list Z).
Variable can_append : list Z -> bool.
Hypothesis hmac_ok : forall k m, length (hmac_sha256 k m) = 32%nat /\ bytes_ok (hmac_sha256 k m).
Hypothesis envs_ok : forall k, env_ok (env k).
#[local] Abbreviation server_state := (vfserver (R := R) (T := T) (U := U)).
Implicit Types s : server_state.

Lemma main_args_total k argv : Forall (fun a => is_Some (strlen a)) argv -> is_Some (main_args k argv).
Proof.
  intros Ha. destruct argv as [|a argv]; [by eexists|]. apply Forall_cons_iff in Ha as [Ha _]. unfold main_args.
  destruct (cstr_terminated a Ha) as [c ->]. cbn [mbind option_bind]. cbv zeta.
  destruct (_ || _); [by eexists|]. destruct (_ || _); [by eexists|]. destruct (_ && _); [by eexists|].
  destruct a as [|c0 a]; [by destruct Ha|]. cbn [lookup list_lookup mbind option_bind].
  destruct (Z.eqb_spec c0 char_dash) as [->|]; cbn [negb mbind option_bind]; [|by eexists].
  destruct a as [|c1 a]; [by destruct Ha|]. by eexists.
Qed.

Lemma set_cfile_ok p c : opt_ok c -> opt_ok (set_cfile p c).
Proof. intros []. by destruct c. Qed.

Lemma main_conf_total p : exists r, main_conf conf_file can_append p = Some r /\ forall opt, r = Some opt -> opt_ok opt.
Proof.
  unfold main_conf. assert (vf_option_init (Some zero_option) = Some (Some default_option)) as -> by reflexivity.
  cbn [mbind option_bind]. apply option_conf_total.
  - destruct p; [apply set_cfile_ok|]; apply default_option_ok.
  - destruct (mbind _ _); cbn; lia.
Qed.

Lemma absolute_path_ok f o : sys_ok (vf_get_absolute_path f) o (keeps o).
Proof.
  unfold vf_get_absolute_path. apply plain_step; [done|]. intros o1 Hq1.
  destruct (negb _); [apply sys_ok_ret; apply Hq1|]. destruct (negb _); [apply sys_ok_ret; apply Hq1|].
  apply plain_step; [done|]. intros o2 Hq2. destruct (_ <? 0); apply sys_ok_ret; by eapply quiet_trans.
Qed.
Lemma wf_absolute_path f : keeps_wf (vf_get_absolute_path f).
Proof. unfold vf_get_absolute_path. wf. Qed.
Lemma wf_keygen e k : keeps_wf (vfast_cmd_keygen e k).
Proof. unfold vfast_cmd_keygen. wf. Qed.

(** An initialised server is one the callbacks work on. *)
Lemma ready_world a s s' :
  server_ready a s s' -> opt_ok (vs_opt s) -> pool_fits (la_pool_addr a) (opt_pool_size (vs_opt s)) ->
  world_ok (world_of s', 0%nat) /\ users_ok (um_urandom_fd (vs_users s')) (world_of s').
Proof.
  intros [(k & Lk & Eo) [Hum Hrh] (p & Ep) Es _] Ho Hfit. split; [|done]. exists ∅.
  assert (length (opt_master_key (vs_opt s')) = 32%nat) as Lm by (rewrite Eo; by destruct (vs_opt s)).
  split; cbn; rewrite ?Es; try done.
  - apply vf_ss_init_wf.
  - intros v x. rewrite lookup_empty. split; [done|]. intros (l & Hl & _). cbn in Hl. by rewrite lookup_empty in Hl.
  - destruct (decide (la_pool_addr a = INADDR_NONE)) as [E|Hne].
    { exfalso. unfold vf_ip_pool_init in Ep. rewrite E in Ep. by destruct (opt_pool_size (vs_opt s) =? 0). }
    destruct Hfit as [?|[Hw Hr]]; [done|]. pose proof (oo_cap _ Ho). destruct (vf_ip_pool_init_inv p (la_pool_addr a) (opt_pool_size (vs_opt s)) Hw Hne) as (p' & Ep' & Hinv & _); [lia|done|].
    rewrite Ep in Ep'. injection Ep' as ->. exists ∅. split; [done|]. intros v [x Hx]. by rewrite lookup_empty in Hx.
  - rewrite Lm. lia.
  - by_compute.
Qed.

(** The callbacks keep the handles. *)
Definition handles_ok (fd : Z) (w : server_world (T := T) (U := U)) : Prop := users_ok fd w.1.

Lemma run_udp_keeps fd : data_cb_keeps (handles_ok fd) (run_on_udp (R := R) hmac_sha256 rc_auth env).
Proof.
  intros [w k] io i res [w' k'] io' st E. unfold run_on_udp in E. apply bind_Some in E as ([[w1 io1] st1] & E & [= <- _ _ _]).
  by eapply on_udp_users.
Qed.
Lemma run_tun_keeps fd : data_cb_keeps (handles_ok fd) (run_on_tun (R := R) env).
Proof.
  intros [w k] io i res [w' k'] io' st E. unfold run_on_tun in E. apply bind_Some in E as ([[w1 io1] st1] & E & [= <- _ _ _]).
  by eapply on_tun_users.
Qed.
Lemma run_timer_keeps fd : idle_cb_keeps (handles_ok fd) (run_on_timer (R := R) env).
Proof.
  intros [w k] io [w' k'] io' E. unfold run_on_timer in E. apply bind_Some in E as ([w1 io1] & E & [= <- _ _]).
  by eapply maintenance_users.
Qed.
Lemma run_pmtud_keeps fd mtu : idle_cb_keeps (handles_ok fd) (fun w io => run_on_pmtud (R := R) w io mtu).
Proof.
  intros w io w' io' E. unfold run_on_pmtud in E. apply bind_Some in E as (a & _ & E). apply bind_Some in E as (io1 & _ & [= <- _]). done.
Qed.

(** The run of an initialised server ends as [server_run_safe] says, and its
    handles are the ones it started with. *)
Lemma server_run_total a r s0 s mtu now0 es :
  server_ready a s0 s -> opt_ok (vs_opt s0) -> pool_fits (la_pool_addr a) (opt_pool_size (vs_opt s0)) ->
  la_mem a = true -> la_queue a = inr r -> ring_pending r = [] -> mtu <= 1957 ->
  (32 + Z.of_nat (run_cost 64 es)) * opt_io_pool_size (vs_opt s0) < 2 ^ 31 ->
  (forall io1, vf_io_warm_up (set_running true (vs_io s)) = Some io1 ->
     kernel_ok mtu control_packet (run_on_udp hmac_sha256 rc_auth env) (run_on_tun env) (run_on_timer env) run_on_pmtud
       {| ls_world := (world_of s, 0%nat); ls_io := io1; ls_last_tick := now0; ls_last_stat := 0 |} es) ->
  exists st, server_run hmac_sha256 rc_auth env s now0 es = Some st /\
    same_handles s (after_run s (ls_world st).1 (ls_io st)) /\ stoppable (after_run s (ls_world st).1 (ls_io st)).
Proof.
  intros Hs Ho Hfit Hmem Hq Hr Hmtu Hb Hk. destruct (ready_world a s0 s Hs Ho Hfit) as [Hw Hu].
  destruct (sr_io _ _ _ Hs) as (io & Hx & Eio). rewrite Hmem, Hq in Eio.
  remember (udp_fd (vs_io s)) as u eqn:Eu. remember (tun_fd (vs_io s)) as t eqn:Et. unfold server_run. rewrite Eio in Hk |- *.
  pose proof (oo_pool _ Ho).
  destruct (vf_io_run_inv mtu control_packet world_ok (run_on_udp hmac_sha256 rc_auth env) (run_on_tun env) (run_on_timer env) run_on_pmtud 64
    (run_on_udp_ok hmac_sha256 rc_auth env hmac_ok envs_ok) (run_on_tun_ok env envs_ok mtu Hmtu) (run_on_timer_ok env envs_ok) run_on_pmtud_ok
    (world_of s, 0%nat) io u t (opt_io_pool_size (vs_opt s0)) r now0 es) as (st & E & Hw' & _ & Eu' & Et' & _); [lia|done|done|done|done|done|].
  exists st. split; [exact E|].
  eapply (vf_io_run_keeps (handles_ok (um_urandom_fd (vs_users s)))) in E as (Hsound & Hrh & Hfd);
    [|apply run_udp_keeps|apply run_tun_keeps|apply run_timer_keeps|apply run_pmtud_keeps|exact Hu].
  - split; [by split_and!; cbn; congruence|]. split; [exact Hsound|cbn; congruence|]. destruct Hw' as [m Hw']. apply Hw'.
Qed.

(** What the program asks of its surroundings: descriptor 0 is open, calls
    that fail set [errno], the loop gets its memory and its ring; a
    configuration the files can give has a device MTU the packet buffers can
    hold, a buffer of less than two gigabytes, and addresses that do not wrap
    around; and the kernel keeps to its side while the loop runs. *)
Record main_start (a : lib_answers (R := R)) (r : R) (now0 : Z) (es : list io_event) (o : os) : Prop := {
  ms_errnos : errnos_ok (os_kernel o);
  ms_wf : os_wf o;
  ms_stdin : 0 ∈ os_fds o;
  ms_mem : la_mem a = true;
  ms_queue : exists q, la_queue a = inr q /\ ring_pending q = [];
  ms_conf : forall p opt, main_conf conf_file can_append p = Some (Some opt) ->
    opt_mtu opt <= 1957 /\ opt_udp_backlog opt < 2048 /\ pool_fits (la_pool_addr a) (opt_pool_size opt) /\
    (32 + Z.of_nat (run_cost 64 es)) * opt_io_pool_size opt < 2 ^ 31;
  ms_kernel : forall p opt s io1, main_conf conf_file can_append p = Some (Some opt) ->
    server_ready a (with_opt opt (vfserver_static r)) s -> vf_io_warm_up (set_running true (vs_io s)) = Some io1 ->
    kernel_ok (opt_mtu opt) control_packet (run_on_udp hmac_sha256 rc_auth env) (run_on_tun env) (run_on_timer env) run_on_pmtud
      {| ls_world := (world_of s, 0%nat); ls_io := io1; ls_last_tick := now0; ls_last_stat := 0 |} es
}.

(** The configuration the command line leads to: none if it is refused. *)
Definition configured (file : option (list Z)) (o : os) (conf : option vpn_option_t) (o1 : os) : Prop :=
  exists cfile, match file with Some f => vf_get_absolute_path f | None => mret None end o = Some (cfile, o1) /\
    main_conf conf_file can_append cfile = Some conf.

(** The initialisation from that configuration answered [rc]. *)
Definition initialised (a : lib_answers (R := R)) (r : R) (file : option (list Z)) (o : os) (rc : Z) (o2 : os) : Prop :=
  exists opt o1 s, configured file o (Some opt) o1 /\
    vfast_init_server a (with_opt (T := T) (U := U) opt (vfserver_static r)) o1 = Some ((rc, s), o2).

(** How the process ends, for what the command line asks: the status, and what
    is left of what it took; no status while it serves, with /dev/urandom, the
    device and the socket open. *)
Inductive main_end (entropy : option (list Z)) (tmp_key : list Z) (a : lib_answers (R := R)) (r : R) (es : list io_event) (o : os)
    : main_action -> option Z -> os -> Prop :=
| ME_version : main_end entropy tmp_key a r es o AVersion (Some 0) o
| ME_usage : main_end entropy tmp_key a r es o AUsage (Some 1) o
| ME_keygen rc k o' : vfast_cmd_keygen entropy tmp_key o = Some ((rc, k), o') -> rc = 0 \/ rc = 1 ->
    holds o (os_fds o) (os_heap o) [] o' -> main_end entropy tmp_key a r es o AKeygen (Some rc) o'
| ME_refused file o' : configured file o None o' -> holds o (os_fds o) (os_heap o) [] o' ->
    main_end entropy tmp_key a r es o (AConfig file) (Some 1) o'
| ME_failed file rc o' : initialised a r file o rc o' -> rc < 0 -> holds o (os_fds o) (os_heap o) [] o' ->
    main_end entropy tmp_key a r es o (AConfig file) (Some 1) o'
| ME_early file rc fd o' : initialised a r file o rc o' -> rc < 0 -> fd ∉ os_fds o -> holds o (fd :: os_fds o) (os_heap o) [] o' ->
    main_end entropy tmp_key a r es o (AConfig file) (Some 1) o'
| ME_no_socket file rc o' : initialised a r file o rc o' -> rc < 0 ->
    holds o (filter (fun x => x <> 0) (os_fds o)) (os_heap o) [ScClose 0] o' ->
    main_end entropy tmp_key a r es o (AConfig file) (Some 1) o'
| ME_served file o1 t u args o' : initialised a r file o 0 o1 -> existsb stopping es = true ->
    holds o (os_fds o) (args ++ os_heap o) [ScClose t; ScClose u] o' -> main_end entropy tmp_key a r es o (AConfig file) (Some 0) o'
| ME_serving file d t u blocks o' : initialised a r file o 0 o' -> existsb stopping es = false ->
    d ∉ os_fds o -> t ∉ d :: os_fds o -> u ∉ t :: d :: os_fds o ->
    holds o (u :: t :: d :: os_fds o) (blocks ++ os_heap o) [] o' -> main_end entropy tmp_key a r es o (AConfig file) None o'.

(** From a configuration on: initialisation, loop, end. *)
Lemma serve_ends entropy tmp_key a r now0 es o file p opt o1 :
  main_start a r now0 es o -> configured file o (Some opt) o1 -> main_conf conf_file can_append p = Some (Some opt) -> opt_ok opt ->
  holds o (os_fds o) (os_heap o) [] o1 ->
  does ('(rc, s) ← vfast_init_server a (with_opt opt (vfserver_static r));
        if rc <? 0 then mret (Some 1) else
        st ← sys_opt (server_run hmac_sha256 rc_auth env s now0 es);
        if negb (existsb stopping es) then mret None else
        '(_, _, _) ← vfast_clean_server (after_run s (ls_world st).1 (ls_io st));
        mret (Some 0)) o1 (main_end entropy tmp_key a r es o (AConfig file)).
Proof.
  intros [He Hwf H0 Hmem (q & Hq & Hqp) Hconf Hker] Hcfg Hp Ho Hold. destruct (Hconf p opt Hp) as (Hmtu & Hbl & Hfit & Hcost).
  pose proof Hold as [Hf Hh Hs Hk Hw1]. cbn in Hs.
  assert (forall fds heap st o2, holds o1 fds heap st o2 -> holds o fds heap st o2) as Hbase.
  { intros fds heap st o2 [? ? Hs2 ? ?]. split; congruence. }
  apply does_bind. eapply does_mono; [apply does_eq, vfast_init_server_spec; split; cbn [vs_opt with_opt]; try done; by rewrite ?Hk, ?Hf|].
  intros [rc s] o2 [Hout Einit].
  assert (initialised a r file o rc o2) as Hinit by (by exists opt, o1, s).
  destruct Hout as [(-> & Hready & Hup)|[(-> & Hdown)|(-> & _ & Hh2)]]; cbn [Z.ltb Z.compare].
  - destruct (server_run_total a q _ s (opt_mtu opt) now0 es Hready Ho Hfit Hmem Hq Hqp Hmtu Hcost) as (st & -> & Hsame & Hstop).
    { intros io1 E. by eapply Hker. }
    apply does_opt. destruct Hup as (c & args & Eu & Ei1 & Ei2 & Hd0 & Ht0 & Hu0 & Hd & Ht & Hu & Hb & Ha & Hold2).
    destruct Hsame as (Ed1 & Et1 & Eu1 & Ei3 & Ei4). set (s1 := after_run s _ _) in *. rewrite <- Ed1, <- Et1 in *.
    destruct (existsb stopping es) eqn:Estop; cbn [negb].
    2: { apply does_ret. eapply (ME_serving _ _ _ _ _ _ _ _ _ _ (args ++ [uc_block c])); [done|done|rewrite <- Hf; eassumption..|].
         apply Hbase. by rewrite <- Hf, <- Hh, <- app_assoc. }
    apply does_bind. eapply does_mono; [eapply (clean_running s1 o1 c); try done; try congruence|].
    + apply elem_of_app. right. left.
    + intros [[rc2 strings] s2] o3 (_ & _ & Hold3). apply does_ret. apply (ME_served _ _ _ _ _ _ _ o2 (tun_ctx_fd (vs_tun s1)) (uc_fd c) args); [done|done|].
      rewrite list.filter_app, filter_fresh, filter_kept in Hold3 by done. rewrite Hf, Hh in Hold3. by apply Hbase.
  - apply does_ret. destruct Hdown as [Hd|(d & Hd & Hh2)]; [eapply ME_failed; [exact Hinit|done|]|apply (ME_early _ _ _ _ _ _ _ (-1) d); [done|done|by rewrite <- Hf|]];
      apply Hbase; congruence.
  - apply does_ret. eapply ME_no_socket; [exact Hinit|done|]. apply Hbase. by rewrite <- Hf, <- Hh.
Qed.

(** C37 The server program, from its command line to its exit.  For every
    command line, it returns, or serves until a signal or a failed wait stops
    its loop, without undefined behaviour.  What it does is what the first
    argument asks: a request for the version ends with status 0, one for help
    with status 1, both without a system call; a key is generated as
    [vfast_cmd_keygen_exact] says, whose status is the program's.  With a
    configuration, status 1 means that the configuration was refused or the
    initialisation from it failed; status 0 that the initialisation succeeded
    and the loop served until it was stopped; and otherwise it is still
    serving.  After status 0 every descriptor the program opened is closed and
    every block is freed, but the management thread's block, and the only
    calls on a closed descriptor are the second closes of the device and the
    socket.  A program that fails leaves at most /dev/urandom open, or, when
    it got no socket, has closed descriptor 0.

    The surroundings are those of [main_start]: descriptor 0 is open, failing
    calls set [errno], the memory of the loop and its ring are there (the
    program does not look at what [vf_io_init] answers), and each
    configuration the files can give has an MTU of at most 1957, a receive
    buffer whose size fits an [int] (a backlog below 2048), a pool whose last
    address is below 2^32, and a task pool small enough for the number of
    events; the kernel completes only what is pending ([kernel_ok]), and
    datagrams are those of [control_packet].  What the management
    thread opens (its listener, see [management_safe]) is not counted, and
    neither are the strings of the configuration and the blocks of sessions
    and users, which are freed in their own models ([vf_option_clean],
    [vf_ss_destroy], [vf_user_uninit]). *)
Theorem server_main_ends argv entropy tmp_key a r now0 es o :
  Forall (fun x => is_Some (strlen x)) argv -> length tmp_key = CRYPTO_KEY_SIZE -> main_start a r now0 es o ->
  exists act, main_args true argv = Some act /\
    does (server_main hmac_sha256 rc_auth env conf_file can_append argv entropy tmp_key a r now0 es) o (main_end entropy tmp_key a r es o act).
Proof.
  intros Hargv Hkey Hs. pose proof (holds_refl o (ms_wf _ _ _ _ _ Hs)) as Hold. unfold server_main.
  destruct (main_args_total true argv Hargv) as [act ->]. exists act. split; [done|]. apply does_opt. destruct act as [| | |file].
  - apply does_ret, ME_version.
  - apply does_ret, ME_usage.
  - destruct (keygen_same entropy tmp_key o Hkey) as ([rc k] & o1 & E & Hst & Hk & [Hsame Hrc]). apply does_bind. exists (rc, k), o1.
    split; [exact E|]. apply does_ret. eapply ME_keygen; [exact E|exact Hrc|].
    eapply holds_same; [exact Hold|done..|]. eapply wf_keygen; [by apply Hs|exact E].
  - assert (sys_ok (match file with Some f => vf_get_absolute_path f | None => mret None end) o (keeps o)) as (cfile & o1 & E & Hst & Hk & Hsame).
    { destruct file; [apply absolute_path_ok|by apply sys_ok_ret]. }
    assert (holds o (os_fds o) (os_heap o) [] o1) as Hold1.
    { eapply holds_same; [exact Hold|done..|]. eapply (wf_bind _ mret); [|by intros x; apply wf_ret|by apply Hs|unfold mbind, sys_bind; rewrite E; reflexivity].
      destruct file; [apply wf_absolute_path|apply wf_ret]. }
    apply does_bind. exists cfile, o1. split; [exact E|]. destruct (main_conf_total cfile) as (conf & Ec & Hok). rewrite Ec. apply does_opt.
    assert (configured file o conf o1) as Hcfg by (by exists cfile).
    destruct conf as [opt|]; [|by apply does_ret, ME_refused]. eapply serve_ends; [exact Hs|exact Hcfg|exact Ec|by apply Hok|exact Hold1].
Qed.
End program_proofs.

(** * Instance: a server without arguments that a signal stops *)

Definition demo_interrupt : io_event := {| ev_ret := -1; ev_now := 5; ev_icmp := []; ev_signal := true; ev_batch := [] |}.

Definition demo_file : list Z := str "pool-size 256
io-pool-size 1024".

Lemma demo_main_start :
  main_start (T := list_table Z) (U := list_table (list Z)) demo_hmac demo_rc (fun _ => demo_env 7 130) (fun _ => Some demo_file) (fun _ => true)
    demo_answers ring0 0 [demo_interrupt] (demo_start (demo_kernel 3 7 0)).
Proof.
  split; [apply demo_kernel_errnos|by constructor|left|done|by eexists| |].
  - intros p opt E.
    assert ((opt_mtu opt, opt_udp_backlog opt, opt_pool_size opt, opt_io_pool_size opt) = (1400, 20, 256, 1024)) as [= -> -> -> ->].
    { destruct p; vm_compute in E; injection E as <-; reflexivity. }
    split_and!; [lia|lia|right; vm_compute; by repeat split|by_compute].
  - intros p opt s io1 _ _ _. split; [|done]. split; [done|]. split; [constructor|]. exists (ring_pending (ring io1)). reflexivity.
Qed.

Lemma server_main_ends_witness :
  let cf := fun _ : list Z => Some demo_file in let ca := fun _ : list Z => true in
  let m := server_main (T := list_table Z) (U := list_table (list Z)) demo_hmac demo_rc (fun _ => demo_env 7 130) cf
    ca [] None (replicate 32 0) demo_answers ring0 0 [demo_interrupt] in
  let o := demo_start (demo_kernel 3 7 0) in
  exists rc o', m o = Some (rc, o') /\
    main_end (T := list_table Z) (U := list_table (list Z)) cf ca None (replicate 32 0) demo_answers ring0 [demo_interrupt] o (AConfig None) rc o' /\
    (rc, os_fds o', os_stale o') = (Some 0, [0; 1; 2], [ScClose 4; ScClose 5]).
Proof.
  intros cf ca m o.
  destruct (server_main_ends (T := list_table Z) (U := list_table (list Z)) demo_hmac demo_rc (fun _ => demo_env 7 130) cf ca
    demo_hmac_ok (fun _ => demo_env_ok _ _) [] None (replicate 32 0) demo_answers ring0 0 [demo_interrupt] o) as (act & Ea & rc & o' & E & H);
    [by constructor|reflexivity|apply demo_main_start|].
  injection Ea as <-.
  change (m o = Some (rc, o')) in E. exists rc, o'. split; [exact E|]. split; [exact H|].
  apply (inj Some). transitivity ((fun '(rc, o') => (rc, os_fds o', os_stale o')) <$> m o); [by rewrite E|by vm_compute].
Defined.
