(* ===== verification/ClientProgram.v ===== *)
(** The client program (the [main] of src/src/vfast_client.c): configuration,
    initialisation, event loop with the state machine's thread, end. *)
From S2P Require Import Prelude Crypto Key Protocol HashTable Libc Text Io Payload Receive Sys Tun Udp KeyFile Fsm Client ClientRx ClientRun Option Cmd CmdEngine CmdNet Lifecycle Program.

Section client_program.
Context {R : Type} `{HR : IoUring R}.
(** What the surroundings answer at the [k]-th callback, and the other
    thread's turns after the [k]-th timer event. *)
Variable env : nat -> cl_env.
Variable turns : nat -> list fsm_env.
(** The configuration files there are, and whether a file can be opened for
    appending. *)
Variable conf_file : list Z -> option (list Z).
Variable can_append : list Z -> bool.

(** Static storage. *)
Definition fsm_static : vfast_fsm_t :=
  {| f_state := ST_IDLE; f_sid := 0; last_rx_time := 0; last_tx_hello := 0; last_tx_auth := 0; last_tx_keep := 0;
     f_dst := {| sin_addr := 0; sin_port := 0 |}; f_sec := None; f_next_seq := 0; pass_word := []; user_name := [];
     f_cookie := replicate 16 0; server_ts := 0 |}.
Definition vfclient_static (r : R) (o : os) (opt : vpn_option_t) : vfclient (R := R) :=
  {| vc_opt := opt;
     vc_client := {| cl_fsm := fsm_static; active_ptr := false; sec_ctx0 := zero_sec_ctx; sec_ctx1 := zero_sec_ctx; cl_vip := 0;
       cl_tun_name := zero_name; cl_rekey := g_rekey_mgr; cl_pack := {| ps_seed := LOCAL_SEED; ps_nonce := nonce_state0 |};
       cl_seed := LOCAL_SEED; cl_os := o |};
     vc_dst_addr := {| sin_addr := 0; sin_port := 0 |}; vc_tun := {| tun_ctx_fd := 0; tun_ctx_name := zero_name |};
     vc_udp := None; vc_io := io_zero r |}.

(** The state the callbacks work on: with the machine [vf_fsm_init] set up,
    the device's name, and the system as the initialisation left it.  A NULL
    user name, which the thread will copy, counts as undefined here. *)
Definition client_world_of (s : vfclient (R := R)) (now : Z) (o : os) : option client :=
  let opt := vc_opt s in
  user ← opt_username opt;
  sip ← inet_pton (opt_remote_host opt);
  let '(_, f) := vf_fsm_init false (user ++ [0]) (opt_password opt) (Some sip) (opt_remote_port opt) now (cl_fsm (vc_client s)) in
  let w := vc_client s in
  Some {| cl_fsm := f; active_ptr := active_ptr w; sec_ctx0 := sec_ctx0 w; sec_ctx1 := sec_ctx1 w; cl_vip := cl_vip w;
          cl_tun_name := tun_ctx_name (vc_tun s); cl_rekey := cl_rekey w; cl_pack := cl_pack w; cl_seed := cl_seed w; cl_os := o |}.

(** The initialised client until the loop ends. *)
Definition client_serve (s : vfclient (R := R)) (now now0 : Z) (es : list io_event) : sys (vfclient (R := R)) := fun o =>
  w ← client_world_of s now o;
  st ← vf_io_run (run_on_udp env) (run_on_tun env) (run_on_timer env turns) run_on_pmtud (w, 0%nat) (vc_io s) now0 es;
  let w := (ls_world st).1 in
  Some ({| vc_opt := vc_opt s; vc_client := w; vc_dst_addr := vc_dst_addr s; vc_tun := vc_tun s; vc_udp := vc_udp s;
           vc_io := ls_io st |}, cl_os w).

(** [main]: the status the process exits with, none if it has not after the
    events [es].  [vf_fsm_pthread_join] returns when the thread does, which
    is when [running] is cleared. *)
Definition client_main (argv : list (list Z)) (a : lib_answers (R := R)) (r : R) (now0 : Z) (es : list io_event) : sys (option Z) :=
  act ← sys_opt (main_args false argv);
  match act with
  | AVersion => mret (Some 0)
  | AUsage | AKeygen => mret (Some 1)
  | AConfig file =>
      cfile ← match file with Some f => vf_get_absolute_path f | None => mret None end;
      conf ← sys_opt (main_conf conf_file can_append cfile);
      match conf with
      | None => mret (Some 1)
      | Some opt =>
          '(rc, s) ← (fun o => vfast_init_client a (vfclient_static r o opt) o);
          if rc <? 0 then _ ← vfast_cleanup s; mret (Some 1) else
          s ← client_serve s (la_time a) now0 es;
          if running (vc_io s) then mret None else
          _ ← vfast_cleanup s;
          mret (Some 0)
      end
  end.
End client_program.

(** * The device's name and the system, through the callbacks *)

(** Only the answer to the login changes the system. *)
Definition same_dev (w w' : client) : Prop := cl_tun_name w' = cl_tun_name w /\ cl_os w' = cl_os w.

#[export] Instance same_dev_preorder : PreOrder same_dev.
Proof. split; [by intros w|]. intros a b c [? ?] [? ?]. split; congruence. Qed.

Lemma set_ctx_dev b c w : same_dev w (set_ctx b c w).
Proof. by destruct b. Qed.

Section device.
Context {R : Type} `{HR : IoUring R}.
Implicit Types (w : client) (io : vf_io_t R).

Lemma hello_dev w payload b w' : client_handle_hello w payload b = Some w' -> same_dev w w'.
Proof. unfold client_handle_hello. intros E. by opt_inv. Qed.

Lemma dpd_dev w io i src e u w' io' : client_handle_dpd w io i src e = Some (u, w', io') -> same_dev w w'.
Proof. unfold client_handle_dpd. intros E. by opt_inv. Qed.

Lemma new_key_dev w : same_dev w (vfast_handle_new_key w).
Proof. unfold vfast_handle_new_key. by destruct (active_ptr w). Qed.

Lemma rekey_send_dev w io i e w' io' : rekey_send w io i e = Some (w', io') -> same_dev w w'.
Proof. unfold rekey_send. intros E. by opt_inv. Qed.

Lemma rekey_timer_dev w io e w' io' : vfast_rekey_timer_handler w io e = Some (w', io') -> same_dev w w'.
Proof.
  unfold vfast_rekey_timer_handler. intros E. destruct (negb _); [by injection E as <- _|]. destruct (negb _); [by injection E as <- _|].
  apply bind_Some in E as ([rc w1] & E1 & E).
  assert (same_dev w w1) as H1.
  { destruct (negb _ && _) in E1; [|by injection E1 as _ <-]. clear E. apply bind_Some in E1 as ([rc1 c] & _ & [= _ <-]).
    destruct (negb (rc1 =? 0)); [apply set_ctx_dev|exact (set_ctx_dev (active_ptr w) c w)]. }
  destruct (negb (rc =? 0)); [by injection E as <- _|]. apply bind_Some in E as ([[i|] io1] & _ & E); [|by injection E as <- _].
  apply bind_Some in E as ([w2 io2] & E2 & [= <- _]). apply rekey_send_dev in E2. by transitivity w1.
Qed.

Lemma tick_dev w io e w' io' : client_tick w io e = Some (w', io') -> same_dev w w'.
Proof. unfold client_tick. intros E. by opt_inv. Qed.

Lemma turns_dev es w io w' io' : foldM (fun '(w, io) e => client_tick w io e) (w, io) es = Some (w', io') -> same_dev w w'.
Proof.
  intros E. apply (foldM_keeps _ (fun a : client * vf_io_t R => same_dev w a.1)) in E; [done| |done].
  intros [w1 io1] e [w2 io2] E1 H. apply tick_dev in E1. by transitivity w1.
Qed.
End device.

(** What the program opened is open, nothing else. *)
Section open.
Context {R : Type} `{HR : IoUring R}.
Variable o0 : os.
Variable fds heap nm : list Z.
Hypothesis Herr : errnos_ok (os_kernel o0).
Hypothesis Hnm : is_Some (strlen nm).

Definition dev_ok (w : client) : Prop := cl_tun_name w = nm /\ holds o0 fds heap [] (cl_os w).

Lemma dev_same w w' : same_dev w w' -> dev_ok w -> dev_ok w'.
Proof. unfold dev_ok. by intros [-> ->]. Qed.

Lemma auth_dev w sid payload b e w' : client_handle_auth w sid payload b e = Some w' -> dev_ok w -> dev_ok w'.
Proof.
  unfold client_handle_auth. intros E Hw. destruct (negb _); [by injection E as <-|]. destruct payload as [plen|]; [|by injection E as <-].
  destruct (plen <? _); [by injection E as <-|]. apply bind_Some in E as (st & _ & E). destruct (negb _); [by injection E as <-|].
  do 3 apply bind_Some in E as (? & _ & E). cbv zeta in E. apply bind_Some in E as ([rc o'] & Eip & E).
  match type of Eip with vf_tun_set_ip (Some (cl_tun_name ?w1)) _ _ _ = _ => assert (dev_ok w1) as Hw1; [|set (w2 := w1) in *] end.
  { apply (dev_same w); [|exact Hw]. exact (set_ctx_dev (active_ptr w) _ w). }
  destruct Hw1 as [En Hold].
  assert (holds o0 fds heap [] o') as Hold'.
  { rewrite En in Eip. destruct (tun_set_ip_done (cl_os w2) (Some nm) (Some (inet_ntop x1)) (Some VFAST_BROADCAST))
      as (rc1 & o1 & E1 & Hs & Hk & [Hsame _]); [done|apply inet_ntop_terminated|vm_compute; by eexists|by rewrite (ho_kernel _ _ _ _ _ Hold)|].
    rewrite E1 in Eip. injection Eip as _ <-. eapply holds_same; [exact Hold|done..|]. eapply wf_tun_ip; [|exact E1]. apply Hold. }
  destruct (rc =? 0); injection E as <-; by split.
Qed.

Lemma client_dispatch_dev w io sid ty i payload b src e u w' (io' : vf_io_t R) :
  client_dispatch w io sid ty i payload b src e = Some (u, w', io') -> dev_ok w -> dev_ok w'.
Proof.
  unfold client_dispatch. intros E Hw. destruct (ty =? VPN_MSG_DATA); [by opt_inv|].
  destruct (ty =? VPN_MSG_HELLO).
  { apply bind_Some in E as (w1 & E & [= _ <- _]). eapply dev_same; [by eapply hello_dev|done]. }
  destruct (ty =? VPN_MSG_KEEPALIVE); [by opt_inv|].
  destruct (ty =? VPN_DPD_REQUEST); [eapply dev_same; [by eapply dpd_dev|done]|].
  destruct (ty =? VPN_MSG_REKEY_ACK); [injection E as _ <- _; eapply dev_same; [apply new_key_dev|done]|].
  destruct (ty =? VPN_MSG_AUTH_ACK); [|by injection E as _ <- _].
  apply bind_Some in E as (w1 & E & [= _ <- _]). by eapply auth_dev.
Qed.

Lemma client_on_udp_dev w io i len e w' (io' : vf_io_t R) st :
  client_on_udp w io i len e = Some (w', io', st) -> dev_ok w -> dev_ok w'.
Proof.
  unfold client_on_udp. intros (t & _ & E)%bind_Some Hw. destruct (len <? _); [by injection E as <- _ _|].
  do 4 apply bind_Some in E as (? & _ & E). apply bind_Some in E as ([payload b] & _ & E).
  do 2 apply bind_Some in E as (? & _ & E). apply bind_Some in E as ([[u w1] io1] & E & [= <- _ _]).
  by apply client_dispatch_dev in E.
Qed.

Lemma client_on_tun_dev w io i len e w' (io' : vf_io_t R) st :
  client_on_tun w io i len e = Some (w', io', st) -> same_dev w w'.
Proof.
  unfold client_on_tun. intros E. destruct (negb _); [by injection E as <- _ _|]. apply bind_Some in E as ([[n io1] ps] & _ & E).
  destruct (n <? 0); [injection E as <- _ _; exact (set_ctx_dev (active_ptr w) _ w)|].
  apply bind_Some in E as (io2 & _ & [= <- _ _]). exact (set_ctx_dev (active_ptr w) _ w).
Qed.

Variable env : nat -> cl_env.
Variable turns : nat -> list fsm_env.

Definition run_dev_ok (w : client_world) : Prop := dev_ok w.1.

Lemma client_udp_keeps : data_cb_keeps run_dev_ok (run_on_udp (R := R) env).
Proof.
  intros [w k] io i res [w' k'] io' st E. unfold run_on_udp in E. apply bind_Some in E as ([[w1 io1] st1] & E & [= <- _ _ _]).
  by eapply client_on_udp_dev.
Qed.
Lemma client_tun_keeps : data_cb_keeps run_dev_ok (run_on_tun (R := R) env).
Proof.
  intros [w k] io i res [w' k'] io' st E. unfold run_on_tun in E. apply bind_Some in E as ([[w1 io1] st1] & E & [= <- _ _ _]).
  apply dev_same. by eapply client_on_tun_dev.
Qed.
Lemma client_timer_keeps : idle_cb_keeps run_dev_ok (run_on_timer (R := R) env turns).
Proof.
  intros [w k] io [w' k'] io' E. unfold run_on_timer in E. apply bind_Some in E as ([w1 io1] & E1 & E).
  apply bind_Some in E as ([w2 io2] & E2 & [= <- _ _]). apply dev_same. apply rekey_timer_dev in E1. apply turns_dev in E2. by transitivity w1.
Qed.
Lemma client_pmtud_keeps mtu : idle_cb_keeps run_dev_ok (fun w io => run_on_pmtud (R := R) w io mtu).
Proof. by intros w io w' io' [= <- _]. Qed.
End open.

(** * Properties *)

Section client_proofs.
Context {R : Type} `{HR : IoUring R, HRL : !IoUringLaws R}.
Variable env : nat -> cl_env.
Variable turns : nat -> list fsm_env.
Variable conf_file : list Z -> option (list Z).
Variable can_append : list Z -> bool.
Hypothesis envs_ok : forall k, cl_env_ok (env k).
Hypothesis turns_ok : forall k, Forall (fun e => urandom_ok (fe_urandom e)) (turns k).
Variable max_turns : nat.
Hypothesis turns_max : forall k, (length (turns k) <= max_turns)%nat.

(** An initialised client is one the callbacks work on. *)
Implicit Types s : vfclient (R := R).

Lemma ready_client a r o opt s user o1 :
  client_ready a (vfclient_static r o opt) s -> opt_ok opt -> calls_ok (la_getrandom a) -> errnos_ok (os_kernel o1) ->
  opt_username opt = Some user -> bytes_ok user -> bytes_ok (opt_password opt) ->
  exists w, client_world_of s (la_time a) o1 = Some w /\ cl_ok w /\ cl_tun_name w = tun_ctx_name (vc_tun s) /\ cl_os w = o1.
Proof.
  intros [(k & Lk & Eo) Ek Hn _] Ho Hc He Eu Hu Hp.
  assert (opt_username (vc_opt s) = Some user /\ opt_password (vc_opt s) = opt_password opt /\ opt_remote_host (vc_opt s) = opt_remote_host opt)
    as (Eu' & Ep & Eh) by (rewrite Eo; by destruct opt).
  unfold client_world_of. rewrite Eu', Eh, Ep. cbn [mbind option_bind].
  destruct (inet_pton_total (opt_remote_host opt)) as [sip ->]; [eapply char_array_strlen, (oo_host _ Ho)|]. cbn [mbind option_bind vf_fsm_init].
  eexists. split; [done|]. split; [|done].
  unfold vfast_init_secctx in Ek. apply bind_Some in Ek as (c & Ec & Ew). injection Ew as Ew.
  assert (sec_ok c) as Hsec by (eapply vf_rekey_init_ok; [exact Hc|by apply word_ok_0|exact Ec]).
  split; cbn; rewrite <- ?Ew; cbn; try done; try by_compute.
  - split; [by apply word_ok_0|]. split; [done|]. split; [change (bytes_ok (replicate 16 0)); by_compute|]. split; [by apply word_ok_0|].
    split; [apply list.Forall_app; split; [done|by_compute]|]. split; [done|].
    split; [apply strlen_app_zero|eapply char_array_strlen, (oo_password _ Ho)].
Qed.

(** What the program asks of its surroundings, as for the server; and a
    configuration gives a user name. *)
Record client_main_start (a : lib_answers (R := R)) (r : R) (now0 : Z) (es : list io_event) (o : os) : Prop := {
  cm_errnos : errnos_ok (os_kernel o);
  cm_wf : os_wf o;
  cm_stdin : 0 ∈ os_fds o;
  cm_mem : la_mem a = true;
  cm_queue : exists q, la_queue a = inr q /\ ring_pending q = [];
  cm_random : calls_ok (la_getrandom a) /\ is_Some (vfast_crypto_fill_random (la_getrandom a) REKEY_KEY_SIZE);
  cm_conf : forall p opt, main_conf conf_file can_append p = Some (Some opt) ->
    opt_mtu opt <= 1957 /\ opt_udp_backlog opt < 2048 /\ (32 + Z.of_nat (run_cost (S max_turns) es)) * opt_io_pool_size opt < 2 ^ 31 /\
    bytes_ok (opt_password opt) /\ exists user, opt_username opt = Some user /\ bytes_ok user;
  cm_kernel : forall p opt s w o1 o2 io1, main_conf conf_file can_append p = Some (Some opt) ->
    client_ready a (vfclient_static r o1 opt) s -> client_world_of s (la_time a) o2 = Some w ->
    vf_io_warm_up (set_running true (vc_io s)) = Some io1 ->
    kernel_ok (opt_mtu opt) no_data (run_on_udp env) (run_on_tun env) (run_on_timer env turns) run_on_pmtud
      {| ls_world := (w, 0%nat); ls_io := io1; ls_last_tick := now0; ls_last_stat := 0 |} es
}.

(** The initialisation from the configuration the command line leads to
    answered [rc]. *)
Definition client_initialised (a : lib_answers (R := R)) (r : R) (file : option (list Z)) (o : os) (rc : Z) (o2 : os) : Prop :=
  exists opt o1 s, configured conf_file can_append file o (Some opt) o1 /\
    vfast_init_client a (vfclient_static r o1 opt) o1 = Some ((rc, s), o2).

(** How the process ends, for what the command line asks: the status, and what
    is left of what it took; none while it serves, or when it waits for a
    thread that does not end. *)
Inductive client_end (a : lib_answers (R := R)) (r : R) (es : list io_event) (o : os) : main_action -> option Z -> os -> Prop :=
| CE_version : client_end a r es o AVersion (Some 0) o
| CE_usage act : act = AUsage \/ act = AKeygen -> client_end a r es o act (Some 1) o
| CE_refused file o' : configured conf_file can_append file o None o' -> holds o (os_fds o) (os_heap o) [] o' ->
    client_end a r es o (AConfig file) (Some 1) o'
| CE_failed file rc o1 o' : client_initialised a r file o rc o1 -> rc < 0 -> holds o (os_fds o) (os_heap o) [] o' ->
    client_end a r es o (AConfig file) (Some 1) o'
| CE_no_device file rc o1 o' : client_initialised a r file o rc o1 -> rc < 0 ->
    holds o (filter (fun x => x <> 0) (os_fds o)) (os_heap o) [] o' -> client_end a r es o (AConfig file) (Some 1) o'
| CE_served file o1 o' : client_initialised a r file o 0 o1 -> existsb stopping es = true -> running_after es = false ->
    holds o (os_fds o) (os_heap o) [] o' -> client_end a r es o (AConfig file) (Some 0) o'
| CE_serving file o1 t u b o' : client_initialised a r file o 0 o1 -> existsb stopping es = false -> t ∉ os_fds o -> u ∉ t :: os_fds o ->
    holds o (u :: t :: os_fds o) (b :: os_heap o) [] o' -> client_end a r es o (AConfig file) None o'
| CE_joining file o1 t u b o' : client_initialised a r file o 0 o1 -> existsb stopping es = true -> running_after es = true ->
    t ∉ os_fds o -> u ∉ t :: os_fds o ->
    holds o (u :: t :: os_fds o) (b :: os_heap o) [] o' -> client_end a r es o (AConfig file) None o'.

Lemma running_after_stopping es : running_after es = false -> existsb stopping es = true.
Proof.
  induction es as [|e es IH]; [done|]. cbn [running_after existsb]. unfold stopping at 1. destruct (ev_signal e); [done|].
  destruct (fatal e); [done|]. exact IH.
Qed.

(** The loop of an initialised client, to its end. *)
Lemma client_serve_total a r now0 es o p opt o1 s o2 t u blk :
  client_main_start a r now0 es o -> main_conf conf_file can_append p = Some (Some opt) -> opt_ok opt ->
  client_ready a (vfclient_static r o1 opt) s -> udp_fd (vc_io s) = u -> tun_fd (vc_io s) = t ->
  holds o (u :: t :: os_fds o) (blk :: os_heap o) [] o2 ->
  does (client_serve env turns s (la_time a) now0 es) o2 (fun s' o' => vc_tun s' = vc_tun s /\ vc_udp s' = vc_udp s /\
    running (vc_io s') = running_after es /\ holds o (u :: t :: os_fds o) (blk :: os_heap o) [] o').
Proof.
  intros [He Hwf H0 Hmem (q & Hq & Hqp) [Hcalls _] Hconf Hker] Hp Ho Hready Eu Et Hold.
  destruct (Hconf p opt Hp) as (Hmtu & _ & Hcost & Hpw & user & Euser & Hus).
  destruct (ready_client a r o1 opt s user o2 Hready Ho Hcalls) as (w & Ew & Hw & En & Eo); [by rewrite (ho_kernel _ _ _ _ _ Hold)|done..|].
  destruct (cr_io _ _ _ Hready) as (io & Hx & Eio). rewrite Hmem, Hq, Eu, Et in Eio. cbn [vc_opt vfclient_static] in Eio. pose proof (oo_pool _ Ho).
  assert (forall io1, vf_io_warm_up (set_running true (vc_io s)) = Some io1 -> kernel_ok (opt_mtu opt) no_data (run_on_udp env) (run_on_tun env)
    (run_on_timer env turns) run_on_pmtud {| ls_world := (w, 0%nat); ls_io := io1; ls_last_tick := now0; ls_last_stat := 0 |} es) as Hk
    by (intros io1; by eapply Hker).
  unfold client_serve, does. rewrite Ew. cbn [mbind option_bind]. rewrite Eio in Hk |- *.
  destruct (vf_io_run_inv (opt_mtu opt) no_data client_world_ok (run_on_udp env) (run_on_tun env) (run_on_timer env turns) run_on_pmtud (S max_turns)
    (client_udp_cb_ok env envs_ok) (client_tun_cb_ok env envs_ok (opt_mtu opt) Hmtu) (client_timer_cb_ok env turns envs_ok turns_ok max_turns turns_max)
    client_pmtud_cb_ok (w, 0%nat) io u t (opt_io_pool_size opt) q now0 es) as (st & E & _ & _ & _ & _ & Er); [lia|done|done|done|done|done|].
  rewrite E. cbn [mbind option_bind]. eexists _, _. split; [reflexivity|]. do 2 (split; [done|]). split; [exact Er|].
  eapply (vf_io_run_keeps (run_dev_ok o (u :: t :: os_fds o) (blk :: os_heap o) (tun_ctx_name (vc_tun s)))) in E; [by destruct E| | | | |].
  - apply client_udp_keeps; [done|apply Hready].
  - apply client_tun_keeps.
  - apply client_timer_keeps.
  - intros mtu. apply client_pmtud_keeps.
  - split; [done|]. cbn [fst]. by rewrite Eo.
Qed.

(** From a configuration on: initialisation, loop, end. *)
Lemma client_serve_ends a r now0 es o file p opt o1 :
  client_main_start a r now0 es o -> configured conf_file can_append file o (Some opt) o1 -> main_conf conf_file can_append p = Some (Some opt) -> opt_ok opt ->
  holds o (os_fds o) (os_heap o) [] o1 ->
  does ('(rc, s) ← (fun o => vfast_init_client a (vfclient_static r o opt) o);
        if rc <? 0 then _ ← vfast_cleanup s; mret (Some 1) else
        s ← client_serve env turns s (la_time a) now0 es;
        if running (vc_io s) then mret None else
        _ ← vfast_cleanup s;
        mret (Some 0)) o1 (client_end a r es o (AConfig file)).
Proof.
  intros Hs Hcfg Hp Ho Hold. destruct (cm_conf _ _ _ _ _ Hs p opt Hp) as (_ & Hbl & _). pose proof Hold as [Hf Hh Hst Hk Hw1]. cbn in Hst.
  assert (forall fds heap st o2, holds o1 fds heap st o2 -> holds o fds heap st o2) as Hbase.
  { intros fds heap st o2 [? ? Hs2 ? ?]. split; congruence. }
  assert (client_start a (vfclient_static r o1 opt) o1) as Hcs.
  { destruct Hs as [? ? ? _ _ [_ ?] _ _]. split; try done; by rewrite ?Hk, ?Hf. }
  apply does_bind. eapply (does_mono (vfast_init_client a (vfclient_static r o1 opt))); [apply does_eq, vfast_init_client_spec, Hcs|].
  intros [rc s] o2 [Hout Einit].
  assert (client_initialised a r file o rc o2) as Hinit by (by exists opt, o1, s).
  destruct Hout as [(-> & Hready & Hup)|(-> & Hdown)]; cbn [Z.ltb Z.compare].
  - pose proof Hup as (c & Ec & Eu & Et & Ht0 & Hu0 & Htn & Hun & Hbn & Hold2). rewrite Hf in Hun, Htn, Hold2. rewrite Hh in Hold2.
    apply does_bind. eapply does_mono; [eapply client_serve_total; [exact Hs|exact Hp|exact Ho|exact Hready|exact Eu|exact Et|by apply Hbase]|].
    intros s1 o3 (Et1 & Eu1 & Er & Hold3). rewrite Er. destruct (running_after es) eqn:Era.
    + apply does_ret. destruct (existsb stopping es) eqn:Est; [by eapply CE_joining|by eapply CE_serving].
    + apply does_bind. eapply does_mono; [eapply client_up_stops; [exact Hup|by rewrite Et1|by rewrite Eu1|]|].
      * rewrite (ho_fds _ _ _ _ _ Hold2), (ho_heap _ _ _ _ _ Hold2). destruct Hold3. split; congruence.
      * intros [strings s2] o4 [_ Hold4]. apply does_ret. eapply CE_served; [exact Hinit|by apply running_after_stopping|done|]. rewrite <- Hf, <- Hh. by apply Hbase.
  - apply does_bind. eapply does_mono; [apply client_down_stops; [exact Hdown|by apply Hcs]|]. intros [strings s2] o3 [_ Hold3]. apply does_ret.
    rewrite Hf, Hh in Hold3. destruct (decide _); [eapply CE_no_device|eapply CE_failed]; try exact Hinit; try done; by apply Hbase.
Qed.

(** C38 The client program, from its command line to its exit.  For every
    command line, it returns, or serves, without undefined behaviour, and does
    what the first argument asks: a request for the version ends with status
    0, one for help with status 1, both without a system call.  With a
    configuration, status 1 means that the configuration was refused or the
    initialisation from it failed, and status 0 that the initialisation
    succeeded and a signal stopped the loop.  A client that a signal stops has
    closed every descriptor it opened and freed every block; one that fails
    leaves nothing open, but has closed the standard input when the key file
    or the device was the failure.  When a failed wait ends the loop, nothing
    has cleared [running], and the program waits, with the device and the
    socket open, for a thread that does not end.

    The surroundings are those of [client_main_start]: descriptor 0 is open,
    failing calls set [errno], the random source answers, the memory of the
    loop and its ring are there (the program does not look at what
    [vf_io_init] answers), and each configuration the files can give has an
    MTU of at most 1957, a receive buffer whose size fits an [int] (a backlog
    below 2048), a task pool small enough for the number of events, and a user
    name; the kernel completes only what is pending ([kernel_ok]), and
    datagrams are not data packets, as in [client_run_safe].  The
    strings of the configuration, which [vf_option_clean] frees, are not
    counted among the blocks. *)
Theorem client_main_ends argv a r now0 es o :
  Forall (fun x => is_Some (strlen x)) argv -> client_main_start a r now0 es o ->
  exists act, main_args false argv = Some act /\
    does (client_main env turns conf_file can_append argv a r now0 es) o (client_end a r es o act).
Proof.
  intros Hargv Hs. pose proof (holds_refl o (cm_wf _ _ _ _ _ Hs)) as Hold. unfold client_main.
  destruct (main_args_total false argv Hargv) as [act ->]. exists act. split; [done|]. apply does_opt.
  destruct act as [| | |file]; [apply does_ret, CE_version|apply does_ret, CE_usage; auto..|].
  assert (sys_ok (match file with Some f => vf_get_absolute_path f | None => mret None end) o (keeps o)) as (cfile & o1 & E & Hst & Hk & Hsame).
  { destruct file; [apply absolute_path_ok|by apply sys_ok_ret]. }
  assert (holds o (os_fds o) (os_heap o) [] o1) as Hold1.
  { eapply holds_same; [exact Hold|done..|]. eapply (wf_bind _ mret); [|by intros x; apply wf_ret|by apply Hs|unfold mbind, sys_bind; rewrite E; reflexivity].
    destruct file; [apply wf_absolute_path|apply wf_ret]. }
  apply does_bind. exists cfile, o1. split; [exact E|]. destruct (main_conf_total conf_file can_append cfile) as (conf & Ec & Hok). rewrite Ec. apply does_opt.
  assert (configured conf_file can_append file o conf o1) as Hcfg by (by exists cfile).
  destruct conf as [opt|]; [|by apply does_ret, CE_refused]. eapply client_serve_ends; [exact Hs|exact Hcfg|exact Ec|by apply Hok|exact Hold1].
Qed.

End client_proofs.

(** * Instances: a client that a signal stops, and one whose loop fails *)

Definition demo_broken : io_event := {| ev_ret := -5; ev_now := 5; ev_icmp := []; ev_signal := false; ev_batch := [] |}.

Definition demo_client_file : list Z := str "username bob
io-pool-size 1024".

Lemma demo_client_main_start e :
  ev_ret e < 0 -> ev_batch e = [] ->
  client_main_start (fun _ => demo_cl_env 130) (fun _ => [demo_tick 130]) (fun _ => Some demo_client_file) (fun _ => true) 1
    demo_answers ring0 0 [e] (demo_start (demo_kernel 2 5 0)).
Proof.
  intros Hret Hb. split; [apply demo_kernel_errnos|by constructor|left|done|by eexists| | |].
  - split; [by_compute|by eexists].
  - intros p opt E.
    assert ((opt_mtu opt, opt_udp_backlog opt, opt_io_pool_size opt, opt_username opt, opt_password opt) = (1400, 20, 1024, Some (str "bob"), replicate 64 0))
      as [= -> -> -> -> ->].
    { destruct p; vm_compute in E; injection E as <-; reflexivity. }
    unfold run_cost, event_cost. cbn [foldr]. rewrite Hb. split_and!; [lia|lia|by_compute|by_compute|]. eexists. split; [done|by_compute].
  - intros p opt s w o1 o2 io1 _ _ _ _. split; [|by intros nx s' _]. split; [by rewrite Hb|]. rewrite Hb. split; [constructor|].
    exists (ring_pending (ring io1)). reflexivity.
Qed.

Lemma client_main_ends_witness :
  let cf := fun _ : list Z => Some demo_client_file in let ca := fun _ : list Z => true in
  let m e := client_main (fun _ => demo_cl_env 130) (fun _ => [demo_tick 130]) cf ca [] demo_answers ring0 0 [e] in
  let o := demo_start (demo_kernel 2 5 0) in
  (exists rc o', m demo_interrupt o = Some (rc, o') /\ client_end cf ca demo_answers ring0 [demo_interrupt] o (AConfig None) rc o' /\ (rc, os_fds o') = (Some 0, [0; 1; 2])) /\
  (exists rc o', m demo_broken o = Some (rc, o') /\ client_end cf ca demo_answers ring0 [demo_broken] o (AConfig None) rc o' /\ (rc, os_fds o') = (None, [4; 3; 0; 1; 2])).
Proof.
  intros cf ca m o.
  assert (forall e, ev_ret e < 0 -> ev_batch e = [] -> exists rc o', m e o = Some (rc, o') /\ client_end cf ca demo_answers ring0 [e] o (AConfig None) rc o') as H.
  { intros e Hret Hb. destruct (client_main_ends (fun _ => demo_cl_env 130) (fun _ => [demo_tick 130]) cf ca
      (fun _ => demo_cl_env_ok _) ltac:(intros; repeat constructor) 1 ltac:(intros; cbn; lia) [] demo_answers ring0 0 [e] o) as (act & Ea & H);
      [by constructor|by apply demo_client_main_start|]. injection Ea as <-. exact H. }
  split; [destruct (H demo_interrupt eq_refl eq_refl) as (rc & o' & E & He)|destruct (H demo_broken eq_refl eq_refl) as (rc & o' & E & He)];
    exists rc, o'; (split; [exact E|split; [exact He|]]); apply (inj Some).
  - transitivity ((fun '(rc, o') => (rc, os_fds o')) <$> m demo_interrupt o); [by rewrite E|by vm_compute].
  - transitivity ((fun '(rc, o') => (rc, os_fds o')) <$> m demo_broken o); [by rewrite E|by vm_compute].
Defined.
