(* ===== verification/Reflex.v ===== *)
(** The console (src/src/vfreflex.c): completion, hints, and a request to the
    engine.  The loop is in Console. *)
From S2P Require Import Prelude Libc Text Printf HashTable Args Sys Udp Cmd CmdEngine CmdNet.

(** * Words and prefixes *)

Definition SPACE : Z := 32.

(** [strtok] with the delimiter " ": the next token and what is behind it. *)
Fixpoint skip_delim (s : list Z) : list Z :=
  match s with
  | c :: s' => if c =? SPACE then skip_delim s' else s
  | [] => []
  end.
Definition strtok (s : list Z) : option (list Z * list Z) :=
  match skip_delim s with
  | [] => None
  | s => let '(t, r) := span_until (fun c => c =? SPACE) s in Some (t, drop 1 r)
  end.

(** [strncasecmp(a, b, n) == 0] *)
Definition strncaseeq (n : nat) (a b : list Z) : bool := bool_decide (to_lower <$> take n a = to_lower <$> take n b).

(** * The table *)

Record cli_ui := { ui_name : list Z; ui_hint : list Z; ui_subs : option (list (list Z)) }.

Definition set_subs : list (list Z) := [str "interval"; str "logpkt"; str "debug"].
Definition get_subs : list (list Z) := [str "config"; str "pktstats"; str "session"; str "show"; str "tasks"].
Definition help_subs : list (list Z) := [str "SET"; str "GET"].

Definition cli_ui_data : list cli_ui := [
  {| ui_name := str "SET"; ui_hint := str " <key> <value>"; ui_subs := Some set_subs |};
  {| ui_name := str "GET"; ui_hint := str " <key>"; ui_subs := Some get_subs |};
  {| ui_name := str "STATUS"; ui_hint := str " (Check server health)"; ui_subs := None |};
  {| ui_name := str "HELP"; ui_hint := str " [command]"; ui_subs := Some help_subs |};
  {| ui_name := str "EXIT"; ui_hint := str " (Close console)"; ui_subs := None |}
].

(** * Completion *)

(** The list, and how many additions were asked for: the [k]-th finds memory
    or not. *)
Record linenoiseCompletions := { lc_cvec : list (list Z); lc_asked : nat }.

Section completion.
Variable mem : nat -> bool.

Definition linenoiseAddCompletion (lc : linenoiseCompletions) (s : list Z) : linenoiseCompletions :=
  {| lc_cvec := if mem (lc_asked lc) then lc_cvec lc ++ [s] else lc_cvec lc; lc_asked := S (lc_asked lc) |}.

Definition complete_primary (buf : list Z) (lc : linenoiseCompletions) : linenoiseCompletions :=
  foldl (fun lc e => if strncaseeq (length buf) buf (ui_name e) then linenoiseAddCompletion lc (ui_name e) else lc) lc cli_ui_data.

(** The sub-commands of the first entry that has any and the name. *)
Definition complete_subs (name sub_prefix : list Z) (subs : list (list Z)) (lc : linenoiseCompletions) : option linenoiseCompletions :=
  foldM (fun lc s =>
    if strncaseeq (length sub_prefix) sub_prefix s then
      full_line ← snprintf 128 (str "%s %s") [AStr (Some name); AStr (Some s)];
      Some (linenoiseAddCompletion lc full_line)
    else Some lc) lc subs.

Fixpoint complete_sub (primary sub_prefix : list Z) (data : list cli_ui) (lc : linenoiseCompletions) : option linenoiseCompletions :=
  match data with
  | [] => Some lc
  | e :: data =>
      match ui_subs e with
      | Some subs => if strcaseeq primary (ui_name e) then complete_subs (ui_name e) sub_prefix subs lc
                     else complete_sub primary sub_prefix data lc
      | None => complete_sub primary sub_prefix data lc
      end
  end.

(** At most two tokens are kept. *)
Definition two_tokens (buf : list Z) : list (list Z) :=
  match strtok buf with
  | None => []
  | Some (a, r) => match strtok r with None => [a] | Some (b, _) => [a; b] end
  end.

(** [dup]: whether [strdup] found memory, on whose NULL [strtok] is undefined.
    So are the byte in front of an empty line, and [strcasecmp] of the NULL a
    line of spaces leaves. *)
Definition completion_callback (dup : bool) (buf : option (list Z)) (lc : linenoiseCompletions) : option linenoiseCompletions :=
  match buf with None => Some lc | Some buf =>
  if negb dup then None else
  s ← cstr buf;
  let tokens := two_tokens s in
  at_word ← (if (length tokens <=? 1)%nat then
               match length s with
               | O => None
               | S n => c ← s !! n; Some (negb (c =? SPACE))
               end
             else Some false);
  if at_word : bool then Some (complete_primary s lc) else
  primary ← tokens !! 0%nat;
  complete_sub primary (default [] (tokens !! 1%nat)) cli_ui_data lc
  end.
End completion.

(** * Hints: the colour, whether it is bold, and the text or NULL *)

Definition hint_text (s : list Z) : option (list Z) :=
  let '(cmd, rest) := span_until (fun c => c =? SPACE) s in
  match rest with
  | _ :: _ =>
      let cmd_len := length cmd in
      ui_hint <$> find (fun e => strncaseeq cmd_len s (ui_name e) && (length (ui_name e) =? cmd_len)%nat) cli_ui_data
  | [] => ui_hint <$> find (fun e => strcaseeq s (ui_name e)) cli_ui_data
  end.

Definition hints_callback (buf : option (list Z)) : option (Z * Z * option (list Z)) :=
  match buf with
  | None => Some (90, 0, None)
  | Some buf => s ← cstr buf; Some (90, 0, match s with [] => None | _ => hint_text s end)
  end.

(** * A request *)

(** What the console shows for a line. *)
Inductive reflex_out := OText (t : list Z) | ONoEngine.

(** [silenced]: whether an earlier connection disabled SIGPIPE. *)
Definition reflex_request (silenced : bool) (line : list Z) : sys (list reflex_out) :=
  s ← sys_opt (cstr line);
  fd ← cmd_transport_connect silenced (SOCKET_PATH ++ [0]);
  if 0 <=? fd then
    _ ← cmd_transport_send fd 0 (Some line) (u32 (Z.of_nat (length s)));
    '(rc, _, res) ← cmd_transport_recv fd;
    out ← (if rc =? 0 then
             match res with
             | Some (p, bs) => t ← sys_opt (cstr bs); _ ← syscall_do (ScFree p); mret [OText t]
             | None => mret []
             end
           else mret []);
    _ ← syscall_do (ScClose fd);
    mret out
  else mret [ONoEngine].

(** * What is offered *)

(** The words of a line. *)
Fixpoint split_spaces (s : list Z) : list (list Z) :=
  match s with
  | [] => [[]]
  | c :: s =>
      if c =? SPACE then [] :: split_spaces s
      else match split_spaces s with w :: ws => (c :: w) :: ws | [] => [[c]] end
  end.
Definition words (s : list Z) : list (list Z) := filter (fun w => w <> []) (split_spaces s).

(** [p] begins [l], whatever the case of the letters. *)
Definition begins (p l : list Z) : Prop := (to_lower <$> p) `prefix_of` (to_lower <$> l).
#[export] Instance begins_dec p l : Decision (begins p l).
Proof. unfold begins. apply _. Defined.

(** The commands, and the lines of a command and a sub-command. *)
Definition commands : list (list Z) := ui_name <$> cli_ui_data.
Definition command_lines (e : cli_ui) : list (list Z) := (fun s => ui_name e ++ SPACE :: s) <$> default [] (ui_subs e).
Definition lines2 : list (list Z) := concat (command_lines <$> cli_ui_data).

Definition offered (s : list Z) : option (list (list Z)) :=
  match words s with
  | [] => None
  | [w] => if bool_decide (s !! pred (length s) = Some SPACE) then Some (filter (begins (w ++ [SPACE])) lines2) else Some (filter (begins s) commands)
  | w :: v :: _ => Some (filter (begins (w ++ SPACE :: v)) lines2)
  end.

(** Those of [l] whose addition finds memory, the first being the [k]-th. *)
Fixpoint kept (mem : nat -> bool) (k : nat) (l : list (list Z)) : list (list Z) :=
  match l with
  | [] => []
  | x :: l => if mem k then x :: kept mem (S k) l else kept mem (S k) l
  end.

(** The engine has an executor for the line, or at least a row: a command, a
    key of SET or GET, or the help of a group. *)
Definition known (l : list Z) : bool :=
  match tokens MAX_ARG_COUNT l with
  | Some [c] => existsb (fun e => is_root e && strcaseeq c (ce_name e)) cmd_table
  | Some [c; k] =>
      if strcaseeq c (str "HELP") then existsb (in_group k) cmd_table
      else existsb (fun e => in_group c e && strcaseeq k (ce_name e)) cmd_table
  | _ => false
  end.

(** * Proofs *)

Lemma strcaseeq_spec a b : strcaseeq a b = true <-> to_lower <$> a = to_lower <$> b.
Proof. apply bool_decide_eq_true. Qed.

Lemma strncaseeq_begins p l : strncaseeq (length p) p l = bool_decide (begins p l).
Proof.
  unfold strncaseeq, begins. apply bool_decide_ext. rewrite take_ge by done. rewrite fmap_take. split.
  - intros ->. apply prefix_take.
  - intros [k ->]. by rewrite take_app_length' by by rewrite length_fmap.
Qed.

Lemma strncaseeq_whole s l : strncaseeq (length s) s l && (length l =? length s)%nat = strcaseeq s l.
Proof.
  rewrite strncaseeq_begins. apply eq_true_iff_eq. rewrite andb_true_iff, bool_decide_eq_true, Nat.eqb_eq, strcaseeq_spec. unfold begins. split.
  - intros [[k E] Hl]. rewrite E. destruct k as [|x k]; [by rewrite app_nil_r|]. apply (f_equal length) in E.
    rewrite length_app, !length_fmap in E. cbn in E. lia.
  - intros E. rewrite E. split; [done|]. apply (f_equal length) in E. by rewrite !length_fmap in E.
Qed.

Lemma to_lower_space c : to_lower c = SPACE <-> c = SPACE.
Proof. unfold to_lower, SPACE. destruct (_ && _) eqn:E; [|done]. bool_cases. lia. Qed.

Lemma no_space_lower (w : list Z) : SPACE ∉ w -> SPACE ∉ (to_lower <$> w).
Proof. intros Hw (c & Hc%symmetry%(proj1 (to_lower_space c)) & Hin)%list_elem_of_fmap. rewrite Hc in Hin. by apply Hw. Qed.

(** A prefix with a space decides the word in front of it. *)
Lemma prefix_space (a b v s : list Z) : SPACE ∉ a -> SPACE ∉ b -> (a ++ SPACE :: v) `prefix_of` (b ++ SPACE :: s) <-> a = b /\ v `prefix_of` s.
Proof.
  revert b. induction a as [|x a IH]; intros [|y b] Ha Hb; cbn [app]; rewrite ?not_elem_of_cons in *.
  - split; [by intros H%prefix_cons_inv_2|]. intros [_ H]. by apply prefix_cons.
  - split; [|by intros [? _]]. intros H%prefix_cons_inv_1. by destruct Hb.
  - split; [|by intros [? _]]. intros H%prefix_cons_inv_1. by destruct Ha.
  - split.
    + intros H. pose proof (prefix_cons_inv_1 _ _ _ _ H) as ->. apply prefix_cons_inv_2, IH in H as [-> ?]; by try apply Ha || apply Hb.
    + intros [[= -> ->] ?]. apply prefix_cons, IH; by try apply Ha || apply Hb.
Qed.

Lemma begins_line (w v n s : list Z) : SPACE ∉ w -> SPACE ∉ n -> begins (w ++ SPACE :: v) (n ++ SPACE :: s) <-> strcaseeq w n = true /\ begins v s.
Proof.
  intros Hw Hn. unfold begins. rewrite !fmap_app, !fmap_cons, strcaseeq_spec. change (to_lower SPACE) with SPACE.
  apply prefix_space; by apply no_space_lower.
Qed.

(** ** Tokens are words *)

Lemma filter_nil_all {A} (Q : A -> Prop) `{!forall x, Decision (Q x)} (l : list A) : (forall x, x ∈ l -> ~ Q x) -> filter Q l = [].
Proof.
  induction l as [|x l IH]; intros Hl; [done|]. rewrite filter_cons_False by (apply Hl; left). apply IH. intros y Hy. apply Hl. by right.
Qed.

Lemma words_space s : words (SPACE :: s) = words s.
Proof. done. Qed.

Lemma span_split s :
  let '(t, r) := span_until (fun c => c =? SPACE) s in
  exists ws, split_spaces s = t :: ws /\ words (drop 1 r) = filter (fun w => w <> []) ws.
Proof.
  induction s as [|c s IH]; [by exists []|]. cbn [span_until split_spaces]. destruct (c =? SPACE); [by exists (split_spaces s)|].
  destruct (span_until _ s) as [t r]. destruct IH as (ws & -> & E). by exists ws.
Qed.

Lemma strtok_words s :
  match words s with [] => strtok s = None | w :: ws => exists r, strtok s = Some (w, r) /\ words r = ws end.
Proof.
  induction s as [|c s IH]; [done|]. destruct (Z.eqb_spec c SPACE) as [->|Hc].
  - rewrite words_space. exact IH.
  - clear IH. unfold words, strtok. cbn [split_spaces skip_delim]. apply Z.eqb_neq in Hc. rewrite Hc. cbn [span_until]. rewrite Hc.
    pose proof (span_split s) as H. destruct (span_until _ s) as [t r]. destruct H as (ws & -> & E).
    rewrite filter_cons_True by done. by exists (drop 1 r).
Qed.

Lemma two_tokens_words s : two_tokens s = take 2 (words s).
Proof.
  unfold two_tokens. pose proof (strtok_words s) as H. destruct (words s) as [|w ws]; [by rewrite H|]. destruct H as (r & -> & Hr).
  pose proof (strtok_words r) as H. rewrite Hr in H. destruct ws as [|v ws]; [by rewrite H|]. by destruct H as (r2 & -> & _).
Qed.

Lemma words_no_space s : Forall (fun w => SPACE ∉ w) (words s).
Proof.
  assert (Forall (fun w => SPACE ∉ w) (split_spaces s)) as H.
  2: { apply list.Forall_forall. intros w [_ Hw]%list_elem_of_filter. rewrite list.Forall_forall in H. by apply H. }
  induction s as [|c s IH]; cbn [split_spaces]; [constructor; [apply not_elem_of_nil|done]|].
  destruct (Z.eqb_spec c SPACE); [constructor; [apply not_elem_of_nil|done]|].
  destruct (split_spaces s) as [|w ws]; [constructor; [|done]; rewrite not_elem_of_cons; split; [done|apply not_elem_of_nil]|]. apply Forall_cons_iff in IH as [Hw Hws].
  constructor; [rewrite not_elem_of_cons; by split|done].
Qed.

Lemma words_none s : words s = [] <-> Forall (fun c => c = SPACE) s.
Proof.
  induction s as [|c s IH]; [by split|]. rewrite Forall_cons_iff, <- IH. destruct (Z.eqb_spec c SPACE) as [->|Hc].
  - rewrite words_space. tauto.
  - split; [|by intros [? _]]. unfold words. cbn [split_spaces]. apply Z.eqb_neq in Hc. rewrite Hc.
    destruct (split_spaces s); by rewrite filter_cons_True.
Qed.

(** ** Additions *)

Section additions.
Variable mem : nat -> bool.

Definition adds (l : list (list Z)) (lc : linenoiseCompletions) : linenoiseCompletions := foldl (linenoiseAddCompletion mem) lc l.

Lemma adds_app l1 l2 lc : adds (l1 ++ l2) lc = adds l2 (adds l1 lc).
Proof. apply foldl_app. Qed.

Lemma adds_kept l lc : lc_cvec (adds l lc) = lc_cvec lc ++ kept mem (lc_asked lc) l.
Proof.
  unfold adds. revert lc. induction l as [|x l IH]; intros lc; cbn [foldl kept]; [by rewrite app_nil_r|]. rewrite IH.
  cbn [linenoiseAddCompletion lc_cvec lc_asked]. destruct (mem _); [by rewrite <- app_assoc|done].
Qed.

Lemma complete_primary_adds buf lc : complete_primary mem buf lc = adds (filter (begins buf) commands) lc.
Proof.
  unfold complete_primary, commands. generalize cli_ui_data. intros data. revert lc. induction data as [|e data IH]; intros lc; [done|].
  cbn [foldl fmap list_fmap]. rewrite strncaseeq_begins, IH. case_bool_decide; [by rewrite filter_cons_True|by rewrite filter_cons_False].
Qed.

Definition line_fits (name s : list Z) : Prop := (length (name ++ SPACE :: s) <= 127)%nat.

Lemma complete_subs_adds name v subs lc :
  Forall (line_fits name) subs ->
  complete_subs mem name v subs lc = Some (adds ((fun s => name ++ SPACE :: s) <$> filter (begins v) subs) lc).
Proof.
  unfold complete_subs. intros Hfit. revert lc. induction Hfit as [|s subs Hs Hfit IH]; intros lc; [done|]. cbn [foldM].
  rewrite strncaseeq_begins. case_bool_decide; [rewrite filter_cons_True by done|rewrite filter_cons_False by done; apply IH].
  assert (snprintf 128 (str "%s %s") [AStr (Some name); AStr (Some s)] = Some (name ++ SPACE :: s)) as ->; [|apply IH].
  transitivity (Some (take 127 (name ++ (SPACE :: s ++ [])))); [reflexivity|]. rewrite app_nil_r, take_ge by apply Hs. done.
Qed.

(** The entries' names are different words, and the lines fit. *)
Definition data_ok (data : list cli_ui) : Prop :=
  NoDup ((fun e => to_lower <$> ui_name e) <$> data) /\
  Forall (fun e => SPACE ∉ ui_name e /\ Forall (line_fits (ui_name e)) (default [] (ui_subs e))) data.

Lemma lines_of_other w v e :
  SPACE ∉ w -> SPACE ∉ ui_name e -> strcaseeq w (ui_name e) = false -> filter (begins (w ++ SPACE :: v)) (command_lines e) = [].
Proof.
  intros Hw Hn Hne. apply filter_nil_all. intros l (s & -> & _)%list_elem_of_fmap. rewrite begins_line by done. intros [E _]. by rewrite Hne in E.
Qed.

Lemma complete_sub_adds w v data lc :
  SPACE ∉ w -> data_ok data ->
  complete_sub mem w v data lc = Some (adds (filter (begins (w ++ SPACE :: v)) (concat (command_lines <$> data))) lc).
Proof.
  intros Hw. revert lc. induction data as [|e data IH]; intros lc [Hnd Hd]; [done|]. cbn [fmap list_fmap] in Hnd.
  apply list.NoDup_cons in Hnd as [Hnew Hnd]. apply Forall_cons_iff in Hd as [[Hn Hfit] Hd]. cbn [complete_sub fmap list_fmap concat].
  rewrite list.filter_app. destruct (ui_subs e) as [subs|] eqn:Es.
  - destruct (strcaseeq w (ui_name e)) eqn:E; [|rewrite lines_of_other by done; by apply IH].
    assert (filter (begins (w ++ SPACE :: v)) (concat (command_lines <$> data)) = []) as ->.
    { apply filter_nil_all. intros l Hl. apply list_elem_of_In, in_concat in Hl as (ls & Hin%list_elem_of_In & Hl%list_elem_of_In).
      apply list_elem_of_fmap in Hin as (e2 & -> & Hin).
      apply list_elem_of_fmap in Hl as (s & -> & _). rewrite list.Forall_forall in Hd. rewrite begins_line by (done || by apply Hd).
      rewrite strcaseeq_spec in *. intros [E2 _]. apply Hnew, list_elem_of_fmap. exists e2. split; [congruence|done]. }
    rewrite app_nil_r. rewrite complete_subs_adds by done. do 2 f_equal. unfold command_lines. rewrite Es. cbn [default id].
    clear - Hw Hn E. induction subs as [|s subs IH]; [done|]. cbn [fmap list_fmap].
    destruct (decide (begins v s)); [rewrite !filter_cons_True by (try done; by apply begins_line); by rewrite fmap_cons, IH|].
    rewrite !filter_cons_False by (try done; rewrite begins_line by done; tauto). exact IH.
  - unfold command_lines at 1. rewrite Es. by apply IH.
Qed.
End additions.

Lemma cli_ui_data_ok : data_ok cli_ui_data.
Proof. unfold data_ok, line_fits. split; by_compute. Qed.

Lemma offered_known s ls : offered s = Some ls -> Forall (fun l => known l = true) ls.
Proof.
  assert (Forall (fun l => known l = true) commands /\ Forall (fun l => known l = true) lines2) as [H1 H2] by (split; by_compute).
  assert (forall p l, Forall (fun x => known x = true) l -> Forall (fun x => known x = true) (filter (begins p) l)) as Hf.
  { intros p l Hl. apply list.Forall_forall. intros x [_ Hx]%list_elem_of_filter. rewrite list.Forall_forall in Hl. by apply Hl. }
  unfold offered. intros E. destruct (words s) as [|w [|v ws]]; [done| |]; [case_bool_decide|]; apply (inj Some) in E as <-; by apply Hf.
Qed.

Lemma completion_spec mem s z :
  no_nul s ->
  completion_callback mem true (Some (s ++ 0 :: z)) {| lc_cvec := []; lc_asked := 0 |} =
    (fun ls => adds mem ls {| lc_cvec := []; lc_asked := 0 |}) <$> offered s.
Proof.
  intros Hs. unfold completion_callback, offered. cbn [negb]. rewrite (cstr_app s z Hs). cbn [mbind option_bind]. rewrite two_tokens_words.
  pose proof (words_no_space s) as Hw. destruct (words s) as [|w ws] eqn:E.
  - cbn [take length]. apply words_none in E. destruct (decide (s = [])) as [->|Hne]; [done|].
    destruct (length s) as [|n] eqn:El; [by apply nil_length_inv in El|].
    destruct (lookup_lt_is_Some_2 s n) as [c Hc]; [lia|]. rewrite Hc. rewrite list.Forall_lookup in E. by rewrite (E n c Hc).
  - apply Forall_cons_iff in Hw as [Hw Hws]. destruct (length s) as [|n] eqn:El; [by apply nil_length_inv in El; subst|].
    cbn [pred]. destruct (lookup_lt_is_Some_2 s n) as [c Hc]; [lia|]. rewrite Hc.
    assert (forall v, complete_sub mem w v cli_ui_data {| lc_cvec := []; lc_asked := 0 |} =
      Some (adds mem (filter (begins (w ++ SPACE :: v)) lines2) {| lc_cvec := []; lc_asked := 0 |})) as Hsub
      by (intros v; by rewrite complete_sub_adds by (done || apply cli_ui_data_ok)).
    destruct ws as [|v ws]; cbn [take length Nat.leb mbind option_bind].
    + destruct (Z.eqb_spec c SPACE) as [->|Hne]; cbn [negb].
      * rewrite bool_decide_true by done. cbn [lookup list_lookup default mbind option_bind]. apply Hsub.
      * rewrite bool_decide_false by congruence. by rewrite complete_primary_adds.
    + rewrite take_0. cbn [length Nat.leb lookup list_lookup default id mbind option_bind]. apply Hsub.
Qed.

(** C39 The console completes to what can be meant, and to what the engine
    knows.  On a line with a word the completion is defined, and its list, as
    far as memory reaches, is: for a first word that is being typed, the
    commands that begin like the line, whatever the case; and otherwise the
    lines of a command and a sub-command that begin like the first two words,
    in the order of the tables.  Each is a command, a key of SET or GET or a
    group of the engine's own table.  On a line of spaces, or on none, the
    completion is undefined. *)
Theorem completion_callback_exact mem s z :
  no_nul s ->
  let lc0 := {| lc_cvec := []; lc_asked := 0 |} in
  match words s with
  | [] => completion_callback mem true (Some (s ++ 0 :: z)) lc0 = None
  | _ => exists ls lc, offered s = Some ls /\ completion_callback mem true (Some (s ++ 0 :: z)) lc0 = Some lc /\ lc_cvec lc = kept mem 0 ls /\
      Forall (fun l => known l = true) ls
  end.
Proof.
  intros Hs lc0. unfold lc0. rewrite completion_spec by done. pose proof (offered_known s) as Hk.
  destruct (offered s) as [ls|] eqn:E; unfold offered in E; destruct (words s) as [|w [|v ws]] eqn:Ew; try done; try by case_bool_decide.
  all: exists ls; eexists; (split; [done|]); (split; [done|]); (split; [by rewrite adds_kept|by apply Hk]).
Qed.

Lemma span_until_whole f s : let '(a, b) := span_until f s in s = a ++ b.
Proof. induction s as [|c s IH]; [done|]. cbn [span_until]. destruct (f c); [done|]. destruct (span_until f s). by rewrite IH. Qed.

(** The hint of the command the line begins with, in any case. *)
Lemma hints_callback_spec s z :
  no_nul s -> s <> [] ->
  hints_callback (Some (s ++ 0 :: z)) =
    Some (90, 0, ui_hint <$> find (fun e => strcaseeq (span_until (fun c => c =? SPACE) s).1 (ui_name e)) cli_ui_data).
Proof.
  intros Hs Hne. unfold hints_callback. rewrite (cstr_app s z Hs). cbn [mbind option_bind]. destruct s as [|c s']; [done|].
  set (s := c :: s') in *. unfold hint_text. pose proof (span_until_whole (fun c => c =? SPACE) s) as E. destruct (span_until _ s) as [a b]. cbn [fst].
  destruct b as [|x b]; [by rewrite E, app_nil_r|]. do 3 f_equal.
  assert (forall e, strncaseeq (length a) s (ui_name e) = strncaseeq (length a) a (ui_name e)) as Ea.
  { intros e. unfold strncaseeq. by rewrite E, take_app_length, (take_ge a) by done. }
  induction cli_ui_data as [|e data IH]; [done|]. cbn [find]. rewrite Ea, strncaseeq_whole. destruct (strcaseeq _ _); [done|exact IH].
Qed.

(** ** A request *)

Lemma fetched_text (bs : list Z) : (exists t, bs = t ++ [0]) -> exists t, cstr bs = Some t /\ no_nul t.
Proof.
  intros [t ->]. destruct (terminated_split t) as (s & z & Hs & ->). exists s. split; [by apply cstr_app|done].
Qed.

Definition out_ok (x : reflex_out) : Prop := match x with OText t => no_nul t | ONoEngine => True end.

Lemma reflex_request_ok silenced line z o :
  no_nul line -> os_wf o ->
  sys_ok (reflex_request silenced (line ++ 0 :: z)) o (fun out o' => quiet o o' /\ (length out <= 1)%nat /\ Forall out_ok out).
Proof.
  intros Hl Hwf. unfold reflex_request. rewrite cstr_app by done. apply sys_ok_opt, sys_ok_bind.
  eapply sys_ok_mono; [|apply (cmd_transport_connect_ok _ _ [])]; [|by_compute]. intros fd o1 _ H1. unfold listens in H1.
  destruct (Z.leb_spec 0 fd), (Z.ltb_spec fd 0); [lia| |apply sys_ok_ret; split_and!; [done|cbn; lia|by repeat constructor]|lia].
  pose proof (opened_in _ _ _ H1) as Hin. assert (os_wf o1) as Hwf1.
  { destruct H1 as (_ & _ & _ & Hh & Hc). unfold os_wf. rewrite Hh. eapply list.Forall_impl; [exact Hwf|]. cbn. lia. }
  apply sys_ok_bind. eapply sys_ok_mono; [|apply cmd_transport_send_ok; [done|]].
  2: { intros bs [= <-]. rewrite length_app. cbn [length]. unfold wrap. pose proof (Z.mod_le (Z.of_nat (length line)) (2 ^ 32)). lia. }
  intros src o2 _ Hq2. cbn in Hq2. apply sys_ok_bind.
  eapply sys_ok_mono; [|apply cmd_transport_recv_ok; [by eapply quiet_fds|by eapply quiet_wf]]. intros [[rc hdr] res] o3 _ Hrec.
  apply sys_ok_bind. pose proof (opened_quiet _ _ _ _ H1 Hq2) as H2.
  assert (forall out o4, opened o fd o4 -> (length out <= 1)%nat -> Forall out_ok out ->
    sys_ok (_ ← syscall_do (ScClose fd); mret out) o4 (fun out o' => quiet o o' /\ (length out <= 1)%nat /\ Forall out_ok out)) as Hclose.
  { intros out o4 Ho4 Hlen Hout. apply (opened_close o fd); [done|]. intros _ o5 Hq5. by apply sys_ok_ret. }
  destruct res as [[p bs]|].
  - destruct Hrec as (Erc & Hf3 & Hnp & Hh3 & Hc3 & _ & body & -> & _). cbn in Erc. rewrite Erc. cbn [Z.eqb].
    destruct (fetched_text (body ++ [0])) as (t & -> & Ht); [by exists body|]. apply sys_ok_opt.
    apply (free_step p _ o2); [done|done|done|done|]. intros _ o4 Hq4. apply sys_ok_ret, Hclose; [by eapply opened_quiet|done|by constructor].
  - assert (opened o fd o3) as H3 by (by eapply opened_quiet). destruct (rc =? 0); apply sys_ok_ret, Hclose; by (done || cbn; lia || constructor).
Qed.

(** * Instances *)

(** What [get S] and [s] complete to; a line of spaces is undefined. *)
Lemma completion_callback_exact_witness :
  let run s := completion_callback (fun _ => true) true (Some (s ++ [0])) {| lc_cvec := []; lc_asked := 0 |} in
  (exists lc, run (str "get S") = Some lc /\ lc_cvec lc = [str "GET session"; str "GET show"]) /\
  (exists lc, run (str "s") = Some lc /\ lc_cvec lc = [str "SET"; str "STATUS"]) /\ run (str " ") = None.
Proof.
  intros run. split; [|split].
  - destruct (completion_callback_exact (fun _ => true) (str "get S") [] ltac:(by_compute)) as (ls & lc & E & Ec & Hk & _).
    exists lc. split; [exact Ec|]. rewrite Hk. vm_compute in E. injection E as <-. reflexivity.
  - destruct (completion_callback_exact (fun _ => true) (str "s") [] ltac:(by_compute)) as (ls & lc & E & Ec & Hk & _).
    exists lc. split; [exact Ec|]. rewrite Hk. vm_compute in E. injection E as <-. reflexivity.
  - exact (completion_callback_exact (fun _ => true) (str " ") [] ltac:(by_compute)).
Defined.
