(* ===== verification/Sends.v ===== *)
(** What a computation over the system says to its peers: its calls that reach
    for a peer, with the answers of the kernel, in order. *)
From S2P Require Import Prelude Libc Text Printf Sys Cmd CmdNet Reflex.

(** A socket was asked for, a connection to a path, or bytes were sent; [r] is
    what the kernel returned. *)
Inductive event := EvSocket (r : Z) | EvConnect (path : list Z) (r : Z) | EvSend (data : list Z) (r : Z).

Definition event_of (c : syscall) (r : Z) : list event :=
  match c with
  | ScSocket _ _ _ => [EvSocket r]
  | ScConnectUn _ path => [EvConnect path r]
  | ScSend _ bs => [EvSend bs r]
  | _ => []
  end.

(** The events of these calls, the first of which is the [n]-th the kernel
    [k] answers. *)
Fixpoint events (k : nat -> reply) (n : nat) (calls : list syscall) : list event :=
  match calls with
  | [] => []
  | c :: calls => event_of c (rp_ret (k n)) ++ events k (S n) calls
  end.

Lemma events_app k n a b : events k n (a ++ b) = events k n a ++ events k (n + length a) b.
Proof.
  revert n. induction a as [|c a IH]; intros n; cbn [app events length]; [by rewrite Nat.add_0_r|].
  by rewrite IH, <- app_assoc, Nat.add_succ_comm.
Qed.

(** From [o] to [o'] the calls have the events [T]. *)
Definition spoken (T : list event -> Prop) (o o' : os) : Prop :=
  exists new, os_log o' = new ++ os_log o /\ os_kernel o' = os_kernel o /\ os_clock o' = (os_clock o + length new)%nat /\
    T (events (os_kernel o) (os_clock o) (rev new)).

Lemma spoken_nil (T : list event -> Prop) o : T [] -> spoken T o o.
Proof. intros H. exists []. split; [done|]. split; [done|]. split; [cbn; lia|done]. Qed.
Lemma spoken_mono (T U : list event -> Prop) o o' : (forall s, T s -> U s) -> spoken T o o' -> spoken U o o'.
Proof. intros H (new & ? & ? & ? & HT). exists new. auto. Qed.
Lemma spoken_trans (T U V : list event -> Prop) o o1 o2 :
  (forall a b, T a -> U b -> V (a ++ b)) -> spoken T o o1 -> spoken U o1 o2 -> spoken V o o2.
Proof.
  intros H (n1 & L1 & K1 & C1 & T1) (n2 & L2 & K2 & C2 & T2). exists (n2 ++ n1).
  split; [by rewrite L2, L1, app_assoc|]. split; [congruence|]. split; [rewrite length_app; lia|].
  rewrite rev_app_distr, events_app, length_rev, <- K1, <- C1. rewrite K1 at 1. auto.
Qed.

(** Whenever [m] ends without a call on a closed descriptor, its result and its
    events are in [T]. *)
Definition says {A} (m : sys A) (T : A -> list event -> Prop) : Prop :=
  forall o x o', m o = Some (x, o') -> exists stale, os_stale o' = stale ++ os_stale o /\ (stale = [] -> spoken (T x) o o').
Definition silent {A} (m : sys A) : Prop := says m (fun _ s => s = []).

Lemma says_ret {A} (x : A) (T : A -> list event -> Prop) : T x [] -> says (mret x) T.
Proof. intros H o y o' [= <- <-]. exists []. split; [done|]. intros _. by apply spoken_nil. Qed.
Lemma says_opt {A} (x : option A) (T : A -> list event -> Prop) : (forall y, T y []) -> says (sys_opt x) T.
Proof. intros H o y o' E. unfold sys_opt in E. destruct x; [|done]. injection E as <- <-. exists []. split; [done|]. intros _. by apply spoken_nil. Qed.
Lemma says_bind {A B} (m : sys A) (f : A -> sys B) (T : A -> list event -> Prop) (U : A -> B -> list event -> Prop) (V : B -> list event -> Prop) :
  says m T -> (forall x, says (f x) (U x)) -> (forall x y a b, T x a -> U x y b -> V y (a ++ b)) -> says (m ≫= f) V.
Proof.
  intros Hm Hf Hv o y o' E. unfold mbind, sys_bind in E. destruct (m o) as [[x o1]|] eqn:E1; [|done].
  destruct (Hm o x o1 E1) as (s1 & L1 & T1). destruct (Hf x o1 y o' E) as (s2 & L2 & T2). exists (s2 ++ s1).
  rewrite L2, L1, app_assoc. split; [done|]. intros [-> ->]%app_eq_nil. eapply spoken_trans; [intros a b; apply (Hv x)|by apply T1|by apply T2].
Qed.
Lemma says_mono {A} (m : sys A) (T U : A -> list event -> Prop) : says m T -> (forall x s, T x s -> U x s) -> says m U.
Proof. intros Hm H o x o' E. destruct (Hm o x o' E) as (s & L & HT). exists s. split; [done|]. intros Hs. eapply spoken_mono; [apply H|by apply HT]. Qed.
Lemma says_silent {A B} (m : sys A) (f : A -> sys B) (T : B -> list event -> Prop) : silent m -> (forall x, says (f x) T) -> says (m ≫= f) T.
Proof. intros Hm Hf. eapply says_bind; [exact Hm|exact Hf|]. by intros x y a b ->. Qed.

Lemma says_some {A B} (x : A) (f : A -> sys B) T : says (f x) T -> says (sys_opt (Some x) ≫= f) T.
Proof. done. Qed.

(** A call is logged, and its answer is the kernel's, but for the number of a
    new descriptor or block. *)
Lemma says_call c :
  says (syscall_do c) (fun x s => exists r, s = event_of c r /\ (rp_ret x < 0 <-> r < 0) /\
    (match c with ScSocket _ _ _ | ScOpen _ _ _ | ScMalloc _ | ScAccept _ => True | _ => rp_ret x = r end)).
Proof.
  intros o x o' E. unfold syscall_do in E. set (r := os_kernel o (os_clock o)) in *.
  assert (forall fds heap st (P : Prop), Some (r, {| os_kernel := os_kernel o; os_clock := S (os_clock o); os_fds := fds; os_heap := heap; os_log := c :: os_log o; os_stale := st |}) = Some (x, o') ->
    x = r /\ os_log o' = [c] ++ os_log o /\ os_kernel o' = os_kernel o /\ os_clock o' = S (os_clock o) /\ os_stale o' = st) as Hsame.
  { intros fds heap st _ [= <- <-]. done. }
  assert (forall y fds heap st, Some (y, {| os_kernel := os_kernel o; os_clock := S (os_clock o); os_fds := fds; os_heap := heap; os_log := c :: os_log o; os_stale := st |}) = Some (x, o') ->
    x = y /\ os_log o' = [c] ++ os_log o /\ os_kernel o' = os_kernel o /\ os_clock o' = S (os_clock o) /\ os_stale o' = st) as Hnext.
  { intros y fds heap st [= <- <-]. done. }
  assert (forall (T : list event -> Prop), os_log o' = [c] ++ os_log o -> os_kernel o' = os_kernel o -> os_clock o' = S (os_clock o) ->
    T (event_of c (rp_ret r)) -> spoken T o o') as Hspk.
  { intros T Hl Hk Hc HT. exists [c]. split; [done|]. split; [done|]. split; [cbn; lia|]. cbn [rev app events]. by rewrite app_nil_r. }
  pose proof (proj1 (lowest_free_fresh (os_fds o))) as Hfd. fold (new_fd (os_fds o)) in Hfd.
  destruct (sc_fd c) as [fd|] eqn:Efd.
  - case_decide as Hin.
    + assert (c <> ScAccept fd \/ c = ScAccept fd) as [Hac| ->] by (destruct c; try (left; congruence); by right; cbn in Efd; injection Efd as ->).
      * assert (exists fds heap, Some (r, {| os_kernel := os_kernel o; os_clock := S (os_clock o); os_fds := fds; os_heap := heap; os_log := c :: os_log o; os_stale := os_stale o |}) = Some (x, o')) as (fds & heap & E').
        { destruct c; try (by eexists _, _). cbn in Efd. injection Efd as ->. by destruct Hac. }
        destruct (Hnext _ _ _ _ E') as (-> & Hl & Hk & Hc & Hs). exists []. split; [done|]. intros _. apply Hspk; [done..|]. exists (rp_ret r). split; [done|]. split; [done|]. by destruct c.
      * destruct (Z.ltb_spec (rp_ret r) 0); destruct (Hnext _ _ _ _ E) as (-> & Hl & Hk & Hc & Hs); (exists []; split; [done|]; intros _; apply Hspk; [done..|]; exists (rp_ret r); split; [done|]; split; [|done]); [done|cbn; lia].
    + destruct (Hnext _ _ _ _ E) as (-> & Hl & Hk & Hc & Hs). exists [c]. by split.
  - assert (exists y fds heap, Some (y, {| os_kernel := os_kernel o; os_clock := S (os_clock o); os_fds := fds; os_heap := heap; os_log := c :: os_log o; os_stale := os_stale o |}) = Some (x, o') /\
      (rp_ret y < 0 <-> rp_ret r < 0) /\ match c with ScSocket _ _ _ | ScOpen _ _ _ | ScMalloc _ | ScAccept _ => True | _ => y = r end) as (y & fds & heap & E' & Hy & Hc).
    { destruct c; try discriminate Efd; cbn [sc_opens andb negb] in E; try (by eexists r, _, _);
        try (destruct (Z.ltb_spec (rp_ret r) 0); cbn [negb] in E; eexists _, _, _; (split; [exact E|]; split; [cbn; lia|done])).
      case_decide; [by eexists r, _, _|done]. }
    destruct (Hnext _ _ _ _ E') as (-> & Hl & Hk & Hck & Hs). exists []. split; [done|]. intros _. apply Hspk; [done..|]. exists (rp_ret r). split; [done|]. split; [done|].
    destruct c; try done; by subst y.
Qed.

Lemma says_send fd bs : says (syscall_do (ScSend fd bs)) (fun x s => s = [EvSend bs (rp_ret x)]).
Proof. eapply says_mono; [apply says_call|]. by intros x s (r & -> & _ & ->). Qed.
Lemma silent_call c : (forall r, event_of c r = []) -> silent (syscall_do c).
Proof. intros Hc. eapply says_mono; [apply says_call|]. intros x s (r & -> & _). apply Hc. Qed.

(** Step through a computation that says nothing. *)
Ltac silence :=
  repeat lazymatch goal with
  | |- silent _ => unfold silent
  | |- says (mret _) _ => apply says_ret
  | |- says (sys_opt _) _ => apply says_opt
  | |- says (_ ≫= _) _ => apply says_silent; [|intros ?]
  | |- says (syscall_do _) _ => apply silent_call; done
  | |- says (if ?b then _ else _) _ => destruct b
  | |- says (match ?x with _ => _ end) _ => destruct x
  end; try done.

Lemma says_both {A} (m : sys A) T o Q : says m T -> sys_ok m o Q ->
  sys_ok m o (fun x o' => Q x o' /\ spoken (T x) o o').
Proof.
  intros Hm (x & o' & E & Hs & Hk & HQ). exists x, o'. split; [done|]. split; [done|]. split; [done|]. split; [done|].
  destruct (Hm o x o' E) as (st & Hst & H). apply H. rewrite Hs in Hst. apply (f_equal length) in Hst. rewrite length_app in Hst.
  destruct st; [done|cbn in Hst; lia].
Qed.

(** ** A request *)

Definition request_header (line : list Z) : list Z :=
  hdr_bytes {| ah_magic := AFUINX_MAGIC; ah_type := 0; ah_version := AFUINX_VERSION; ah_length := Z.of_nat (length line) |}.

(** [SOCKET_PATH] in the 108 bytes of [sun_path]. *)
Definition ENGINE_PATH : list Z := take 107 SOCKET_PATH ++ replicate (107 - length SOCKET_PATH) 0 ++ [0].

(** A request is a socket; if there is one, a connection to the engine's
    path; if that is accepted, the header; and if the kernel took the whole
    header, the line.  Nothing else. *)
Definition connection (r q : Z) (s : list event) : list event :=
  EvSocket r :: (if r <? 0 then [] else EvConnect ENGINE_PATH q :: (if q <? 0 then [] else s)).
Definition asked (line : list Z) (s : list event) : Prop :=
  exists r q n n', s = connection r q (EvSend (request_header line) n :: (if n =? Z.of_nat AH_SIZE then [EvSend line n'] else [])).

Lemma connect_says b :
  says (cmd_transport_connect b (SOCKET_PATH ++ [0])) (fun fd s => exists r q,
    forall t, (if 0 <=? fd then s ++ t else s) = connection r q t).
Proof.
  unfold cmd_transport_connect, silence_sigpipe. apply says_silent; [silence|]. intros _.
  eapply (says_bind _ _ _ (fun x fd s => exists q, (rp_ret x < 0 -> fd < 0 /\ s = []) /\
    (0 <= rp_ret x -> forall t, (if 0 <=? fd then s ++ t else s) =
       EvConnect ENGINE_PATH q :: (if q <? 0 then [] else t)))); [apply says_call| |].
  - intros x. destruct (Z.ltb_spec (rp_ret x) 0) as [Hx|Hx].
    { apply says_ret. exists 0. split; [done|lia]. }
    assert (sun_path (SOCKET_PATH ++ [0]) = Some ENGINE_PATH) as -> by reflexivity.
    apply says_some. eapply (says_bind _ _ _ (fun c fd s => s = [] /\ (if decide (rp_ret c < 0) then fd < 0 else 0 <= fd))); [apply says_call| |].
    + intros c. destruct (Z.ltb_spec (rp_ret c) 0).
      * silence. by rewrite decide_True.
      * apply says_ret. rewrite decide_False by lia. done.
    + intros c fd a s (q & -> & _ & <-) [-> Hfd]. rewrite app_nil_r. exists (rp_ret c). split; [lia|]. intros _ t. cbn [event_of app].
      case_decide; destruct (Z.leb_spec 0 fd); try lia; destruct (Z.ltb_spec (rp_ret c) 0); try lia; done.
  - intros x fd a s (r & -> & Hr & _) (q & Hneg & Hpos). exists r, q. intros t. unfold connection. cbn [event_of app].
    destruct (Z.ltb_spec r 0).
    + destruct Hneg as [Hfd ->]; [by apply Hr|]. by destruct (Z.leb_spec 0 fd); [lia|].
    + rewrite <- Hpos by (destruct (Z.lt_ge_cases (rp_ret x) 0) as [Hl|]; [apply Hr in Hl; lia|done]). by destruct (0 <=? fd).
Qed.
Lemma recv_silent fd : silent (cmd_transport_recv fd).
Proof. unfold cmd_transport_recv. silence. Qed.

Lemma send_says fd line z : line <> [] ->
  says (cmd_transport_send fd 0 (Some (line ++ 0 :: z)) (Z.of_nat (length line)))
    (fun _ s => exists n n', s = EvSend (request_header line) n :: (if n =? Z.of_nat AH_SIZE then [EvSend line n'] else [])).
Proof.
  intros Hne. unfold cmd_transport_send.
  eapply (says_bind _ _ _ (fun h _ s => exists n', s = if rp_ret h =? Z.of_nat AH_SIZE then [EvSend line n'] else [])); [apply says_send| |].
  - intros h. destruct (rp_ret h =? _); cbn [negb]; [|by apply says_ret; exists 0]. assert (0 < Z.of_nat (length line)) as Hl by (destruct line; [done|cbn; lia]).
    rewrite (proj2 (Z.ltb_lt _ _) Hl), Nat2Z.id, get_bytes_Some by (rewrite length_app; lia). rewrite drop_0, take_app_length.
    apply says_some. eapply (says_bind _ _ _ (fun _ _ s => s = [])); [apply says_send|by intros d; silence|]. intros d y a b -> ->. by exists (rp_ret d).
  - intros h y a b -> (n' & ->). by exists (rp_ret h), n'.
Qed.

Lemma request_says silenced line : no_nul line -> line <> [] -> Z.of_nat (length line) < 2 ^ 32 ->
  says (reflex_request silenced (line ++ [0])) (fun _ => asked line).
Proof.
  intros Hl Hne H32. unfold reflex_request. rewrite (cstr_app line []) by done. apply says_some.
  eapply (says_bind _ _ _ (fun fd _ s => if 0 <=? fd then exists n n', s = EvSend (request_header line) n :: (if n =? Z.of_nat AH_SIZE then [EvSend line n'] else []) else s = [])); [apply connect_says| |].
  - intros fd. destruct (0 <=? fd); [|by apply says_ret]. rewrite wrap_small by lia.
    eapply (says_bind _ _ _ (fun _ _ s => s = [])); [by apply send_says| |intros x y a b H ->; by rewrite app_nil_r].
    intros _. apply says_silent; [apply recv_silent|]. intros [[rc h] res]. silence.
  - intros fd y a b (r & q & H). destruct (0 <=? fd).
    + intros (n & n' & ->). exists r, q, n, n'. apply H.
    + intros ->. rewrite app_nil_r. exists r, q, 0, 0. apply H.
Qed.
