(* ===== verification/Request.v ===== *)
(** A request, at both ends: the console asks, the management thread serves,
    and the console shows what the engine said. *)
From S2P Require Import Prelude Libc Text Printf HashTable Session Args Sys Udp Cmd CmdEngine CmdNet Reflex.

(** * Calls that succeed *)

(** A call was made. *)
Definition tick (c : syscall) (o : os) : os :=
  {| os_kernel := os_kernel o; os_clock := S (os_clock o); os_fds := os_fds o; os_heap := os_heap o; os_log := c :: os_log o; os_stale := os_stale o |}.
Definition with_fds (fds : list Z) (o : os) : os :=
  {| os_kernel := os_kernel o; os_clock := os_clock o; os_fds := fds; os_heap := os_heap o; os_log := os_log o; os_stale := os_stale o |}.
Definition with_heap (heap : list Z) (o : os) : os :=
  {| os_kernel := os_kernel o; os_clock := os_clock o; os_fds := os_fds o; os_heap := heap; os_log := os_log o; os_stale := os_stale o |}.

(** The answer to the [i]-th call from now. *)
Definition answer (o : os) (i : nat) : reply := os_kernel o (os_clock o + i)%nat.

Lemma sys_step {A B} (m : sys A) (f : A -> sys B) o x o' : m o = Some (x, o') -> (m ≫= f) o = f x o'.
Proof. unfold mbind, sys_bind. by intros ->. Qed.
Lemma call_on c fd o : sc_fd c = Some fd -> sc_plain c = true -> fd ∈ os_fds o -> syscall_do c o = Some (answer o 0, tick c o).
Proof. intros Hc Hp Hin. unfold syscall_do, answer. rewrite Hc, decide_True, Nat.add_0_r by done. by destruct c. Qed.
Lemma call_close fd o : fd ∈ os_fds o -> syscall_do (ScClose fd) o = Some (answer o 0, with_fds (filter (fun x => x <> fd) (os_fds o)) (tick (ScClose fd) o)).
Proof. intros Hin. unfold syscall_do, answer. cbn [sc_fd]. by rewrite decide_True, Nat.add_0_r. Qed.
Lemma call_malloc n o : 0 <= rp_ret (answer o 0) ->
  syscall_do (ScMalloc n) o = Some (with_ret (Z.of_nat (os_clock o)) 0 (answer o 0), with_heap (Z.of_nat (os_clock o) :: os_heap o) (tick (ScMalloc n) o)).
Proof. unfold answer, syscall_do. rewrite Nat.add_0_r. intros H. cbn [sc_fd]. by rewrite (proj2 (Z.ltb_ge _ _) H). Qed.
Lemma call_free p o : p ∈ os_heap o -> syscall_do (ScFree p) o = Some (answer o 0, with_heap (filter (fun x => x <> p) (os_heap o)) (tick (ScFree p) o)).
Proof. intros Hin. unfold syscall_do, answer. cbn [sc_fd]. by rewrite decide_True, Nat.add_0_r. Qed.
Lemma call_socket d t p o : 0 <= rp_ret (answer o 0) ->
  syscall_do (ScSocket d t p) o = Some (with_ret (new_fd (os_fds o)) 0 (answer o 0), with_fds (new_fd (os_fds o) :: os_fds o) (tick (ScSocket d t p) o)).
Proof. unfold answer, syscall_do. rewrite Nat.add_0_r. intros H. cbn [sc_fd sc_opens andb]. by rewrite (proj2 (Z.ltb_ge _ _) H). Qed.

(** * Messages *)

Definition message (type : Z) (text : list Z) : list Z :=
  hdr_bytes {| ah_magic := AFUINX_MAGIC; ah_type := type; ah_version := AFUINX_VERSION; ah_length := Z.of_nat (length text) |} ++ text.

(** The kernel takes a message, from its [i]-th call on, as a whole. *)
Definition takes (o : os) (i : nat) (text : list Z) : Prop :=
  rp_ret (answer o i) = Z.of_nat AH_SIZE /\ (text <> [] -> rp_ret (answer o (S i)) = Z.of_nat (length text)).
(** It hands one over, and has memory for it. *)
Definition hands (o : os) (i : nat) (type : Z) (text : list Z) : Prop :=
  let m := message type text in
  rp_ret (answer o i) = Z.of_nat AH_SIZE /\ rp_bytes (answer o i) = take AH_SIZE m /\
  (text <> [] -> 0 <= rp_ret (answer o (i + 1)) /\ rp_ret (answer o (i + 2)) = Z.of_nat (length text) /\ rp_bytes (answer o (i + 2)) = drop AH_SIZE m).

(** The calls of a send and of a receive. *)
Definition send_log (fd type : Z) (text : list Z) : list syscall :=
  match text with [] => [] | _ => [ScSend fd text] end ++ [ScSend fd (take AH_SIZE (message type text))].
Definition calls (log : list syscall) (o : os) : os :=
  {| os_kernel := os_kernel o; os_clock := (length log + os_clock o)%nat; os_fds := os_fds o; os_heap := os_heap o; os_log := log ++ os_log o; os_stale := os_stale o |}.

Lemma message_split type text : take AH_SIZE (message type text) =
  hdr_bytes {| ah_magic := AFUINX_MAGIC; ah_type := type; ah_version := AFUINX_VERSION; ah_length := Z.of_nat (length text) |} /\ drop AH_SIZE (message type text) = text.
Proof.
  unfold message. set (h := hdr_bytes _). assert (length h = AH_SIZE) as <- by apply hdr_bytes_length. by rewrite take_app_length, drop_app_length.
Qed.

Lemma send_whole fd type text rest o : fd ∈ os_fds o -> takes o 0 text ->
  cmd_transport_send fd type (Some (text ++ rest)) (Z.of_nat (length text)) o = Some (0, calls (send_log fd type text) o).
Proof.
  intros Hin [H0 H1]. unfold cmd_transport_send. pose proof (proj1 (message_split type text)) as Eh. rewrite <- Eh.
  rewrite (sys_step _ _ _ _ _ (call_on (ScSend fd _) fd o eq_refl eq_refl Hin)), H0, Z.eqb_refl. cbn [negb].
  destruct text as [|b text]; [done|]. set (t := b :: text) in *. assert (0 < Z.of_nat (length t)) as Hl by (cbn; lia).
  rewrite (proj2 (Z.ltb_lt _ _) Hl), Nat2Z.id, get_bytes_Some by (rewrite length_app; lia). rewrite drop_0, take_app_length.
  rewrite (sys_step _ _ _ t (tick (ScSend fd (take AH_SIZE (message type t))) o) eq_refl).
  rewrite (sys_step _ _ _ _ _ (call_on (ScSend fd t) fd (tick _ o) eq_refl eq_refl Hin)).
  assert (answer (tick (ScSend fd (take AH_SIZE (message type t))) o) 0 = answer o 1) as -> by (unfold answer; cbn; f_equal; lia).
  rewrite H1 by done. by rewrite Z.eqb_refl.
Qed.

Definition recv_log (fd : Z) (text : list Z) : list syscall :=
  match text with [] => [] | _ => [ScRecv fd (Z.of_nat (length text)); ScMalloc (Z.of_nat (length text) + 1)] end ++
  [ScRecv fd (Z.of_nat AH_SIZE); ScSetsockopt fd SO_RCVTIMEO MS_2000].
(** The block of a text that is received from now on. *)
Definition recv_block (o : os) : Z := Z.of_nat (os_clock o + 2).
Definition received_text (o : os) (text : list Z) : option (Z * list Z) := match text with [] => None | _ => Some (recv_block o, text ++ [0]) end.
Definition after_recv (fd : Z) (text : list Z) (o : os) : os :=
  with_heap (match text with [] => os_heap o | _ => recv_block o :: os_heap o end) (calls (recv_log fd text) o).

Lemma recv_whole fd type text o : fd ∈ os_fds o -> word_ok 16 type -> (length text <= MAX_RESP_BUF)%nat -> hands o 1 type text ->
  exists hdr, cmd_transport_recv fd o = Some (0, Some hdr, received_text o text, after_recv fd text o).
Proof.
  intros Hin Hty Hl (R1 & B1 & R2). destruct (message_split type text) as [Eh Et]. rewrite Eh in B1. rewrite Et in R2.
  set (hdr := {| ah_magic := AFUINX_MAGIC; ah_type := type; ah_version := AFUINX_VERSION; ah_length := Z.of_nat (length text) |}) in *.
  assert (hdr_ok hdr) as Hh by (unfold hdr_ok, word_ok, hdr, AFUINX_MAGIC, AFUINX_VERSION, MAX_RESP_BUF in *; cbn; lia).
  exists hdr. unfold cmd_transport_recv. rewrite (sys_step _ _ _ _ _ (call_on (ScSetsockopt fd SO_RCVTIMEO MS_2000) fd o eq_refl eq_refl Hin)).
  set (o1 := tick (ScSetsockopt fd SO_RCVTIMEO MS_2000) o). rewrite (sys_step _ _ _ _ _ (call_on (ScRecv fd (Z.of_nat AH_SIZE)) fd o1 eq_refl eq_refl Hin)).
  set (o2 := tick _ o1). assert (forall i, answer o1 i = answer o (S i)) as A1 by (intros i; unfold answer; cbn; f_equal; lia).
  assert (forall i, answer o2 i = answer o (S (S i))) as A2 by (intros i; unfold answer; cbn; f_equal; lia).
  rewrite A1, R1, Z.eqb_refl. cbn [negb]. rewrite stored_exact by (rewrite B1; apply hdr_bytes_length). rewrite B1, (hdr_roundtrip hdr Hh).
  rewrite (sys_step (sys_opt (Some hdr)) _ o2 hdr o2 eq_refl). cbn [hdr ah_magic ah_length]. rewrite Z.eqb_refl. cbn [negb].
  destruct text as [|b text']; [reflexivity|]. set (text := b :: text') in *. assert (0 < Z.of_nat (length text)) as Hl0 by (cbn; lia).
  rewrite (proj2 (Z.ltb_lt _ _) Hl0), (proj2 (Z.ltb_ge _ _)) by (unfold MAX_RESP_BUF in *; lia). destruct (R2 ltac:(done)) as (M & R3 & B3).
  rewrite (sys_step _ _ _ _ _ (call_malloc (Z.of_nat (length text) + 1) o2 ltac:(rewrite A2; exact M))). cbn [with_ret rp_ret].
  rewrite (proj2 (Z.ltb_ge _ _)) by lia.
  set (o3 := with_heap _ _). rewrite (sys_step _ _ _ _ _ (call_on (ScRecv fd (Z.of_nat (length text))) fd o3 eq_refl eq_refl Hin)).
  assert (answer o3 0 = answer o 3) as -> by (unfold answer; cbn; f_equal; lia). cbn [Nat.add] in R3, B3. rewrite R3, Z.eqb_refl. cbn [negb].
  rewrite Nat2Z.id, stored_exact, B3 by by rewrite B3. unfold received_text, after_recv, recv_block. cbn [text]. fold text.
  replace (os_clock o + 2)%nat with (os_clock o2) by (cbn; lia). reflexivity.
Qed.

Lemma cstr_inv (buf t : list Z) : cstr buf = Some t -> exists z, no_nul t /\ buf = t ++ 0 :: z.
Proof.
  unfold cstr. revert t. induction buf as [|c buf IH]; intros t E; [done|]. cbn [strlen] in E. destruct (Z.eqb_spec c 0) as [->|Hc].
  - injection E as <-. exists buf. split; [constructor|done].
  - destruct (strlen buf) as [n|]; [|done]. cbn in E. injection E as <-. destruct (IH (take n buf) eq_refl) as (z & Hn & Eb). exists z.
    split; [by constructor|]. cbn. by rewrite Eb at 1.
Qed.

(** ** What was said *)

Lemma sent_app fd log1 log2 : sent_bytes fd (log1 ++ log2) = sent_bytes fd log2 ++ sent_bytes fd log1.
Proof. unfold sent_bytes. by rewrite rev_app_distr, omap_app, concat_app. Qed.
Lemma sent_send fd type text : sent_bytes fd (send_log fd type text) = message type text.
Proof.
  rewrite <- (take_drop AH_SIZE (message type text)), (proj2 (message_split type text)). unfold send_log, sent_bytes.
  destruct text as [|b t]; cbn; rewrite ?Z.eqb_refl; cbn; by rewrite ?app_nil_r.
Qed.
Lemma sent_recv fd fd' text : sent_bytes fd (recv_log fd' text) = [].
Proof. by destruct text. Qed.

(** * The server's end *)

Section served.
Context {X H W : Type} (call : X -> H -> bool -> list (list Z) -> cmd_resp_t -> W -> option (Z * cmd_resp_t * W)).
Context (table : option (list (cmd_entry_t H))).

Lemma client_served x cfd s t buf w w' o :
  respond call table x (Some (s ++ [0])) w = Some (Some buf, w') -> cstr buf = Some t -> length buf = MAX_RESP_BUF ->
  s <> [] -> (length s <= MAX_RESP_BUF)%nat -> cfd ∈ os_fds o -> os_wf o -> hands o 3 0 s -> takes o 6 t ->
  exists o', cmd_server_client call table x cfd w o = Some (w', o') /\ os_fds o' = filter (fun y => y <> cfd) (os_fds o) /\
    os_heap o' = os_heap o /\ sent_bytes cfd (os_log o') = sent_bytes cfd (os_log o) ++ message 1 t.
Proof.
  intros Er Et Hb Hs Hls Hin Hwf Hh Htk. destruct (cstr_inv buf t Et) as (z & Hnt & Ebuf). unfold cmd_server_client.
  rewrite (sys_step _ _ _ _ _ (call_on (ScSetsockopt cfd SO_RCVTIMEO MS_2000) cfd o eq_refl eq_refl Hin)). set (o1 := tick _ o).
  rewrite (sys_step _ _ _ _ _ (call_on (ScSetsockopt cfd SO_SNDTIMEO MS_2000) cfd o1 eq_refl eq_refl Hin)). set (o2 := tick _ o1).
  assert (forall i, answer o2 i = answer o (S (S i))) as A2 by (intros i; unfold answer; cbn; f_equal; lia).
  destruct (recv_whole cfd 0 s o2 Hin ltac:(by_compute) Hls) as (hdr & E).
  { unfold hands in *. by rewrite !A2. }
  rewrite (sys_step _ _ _ _ _ E). cbn [Z.eqb].
  assert (received_text o2 s = Some (recv_block o2, s ++ [0])) as -> by by destruct s. set (p := recv_block o2). set (o3 := after_recv cfd s o2).
  assert (os_heap o3 = p :: os_heap o) as Hh3 by (unfold o3, after_recv; by destruct s).
  assert (forall i, answer o3 i = answer o (6 + i)) as A3 by (intros i; unfold answer, o3, after_recv; cbn; destruct s; [done|]; cbn; f_equal; lia).
  assert (length t < MAX_RESP_BUF)%nat as Hlt by (rewrite Ebuf, length_app in Hb; cbn [length] in Hb; lia). assert (Z.of_nat MAX_RESP_BUF < 2 ^ 32) as H32 by (by vm_compute).
  set (o4 := calls (send_log cfd 1 t) o3). set (o5 := with_heap (filter (fun x => x <> p) (os_heap o4)) (tick (ScFree p) o4)).
  assert (p ∉ os_heap o) as Hp.
  { intros Hp. unfold os_wf in Hwf. rewrite list.Forall_forall in Hwf. specialize (Hwf p Hp). unfold p, recv_block in Hwf. cbn in Hwf. lia. }
  assert (cfd ∈ os_fds o3 /\ os_fds o3 = os_fds o) as [Hin3 Hf3] by (by unfold o3, after_recv).
  exists (with_fds (filter (fun y => y <> cfd) (os_fds o)) (tick (ScClose cfd) o5)). split; [|split; [done|split]].
  - etrans; [eapply sys_step|].
    { cbn [snd fmap option_fmap option_map]. rewrite Er. rewrite (sys_step _ _ _ (Some buf, w') o3 eq_refl). cbn [mbind option_bind]. rewrite Et.
      rewrite (sys_step _ _ _ t o3 eq_refl). rewrite wrap_small by lia. rewrite Ebuf.
      rewrite (sys_step _ _ _ _ _ (send_whole cfd 1 t (0 :: z) o3 Hin3 ltac:(unfold takes; rewrite !A3; exact Htk))).
      etrans; [eapply sys_step; rewrite (sys_step _ _ _ _ _ (call_free p o4 ltac:(cbn [o4 calls os_heap]; rewrite Hh3; left))); reflexivity|]. reflexivity. }
    cbn beta. fold o5. rewrite (sys_step _ _ _ _ _ (call_close cfd o5 Hin3)). done.
  - change (filter (fun x => x <> p) (os_heap o3) = os_heap o). by rewrite Hh3, filter_fresh.
  - change (sent_bytes cfd (ScClose cfd :: ScFree p :: send_log cfd 1 t ++ recv_log cfd s ++ ScSetsockopt cfd SO_SNDTIMEO MS_2000 :: ScSetsockopt cfd SO_RCVTIMEO MS_2000 :: os_log o) =
      sent_bytes cfd (os_log o) ++ message 1 t).
    rewrite !sent_bytes_cons, !sent_app, !sent_bytes_cons, !app_nil_r, sent_recv, sent_send, app_nil_r. done.
Qed.
End served.

(** * The console's end *)

Definition connect_path : list Z := default [] (sun_path (SOCKET_PATH ++ [0])).
Definition connect_log (silenced : bool) (fd : Z) : list syscall :=
  [ScConnectUn fd connect_path; ScSocket AF_UNIX SOCK_STREAM 0] ++ if silenced then [] else [ScSigIgn SIGPIPE].
Definition connect_calls (silenced : bool) : nat := if silenced then 2 else 3.

Lemma connect_whole silenced o :
  0 <= rp_ret (answer o (connect_calls silenced - 2)) -> 0 <= rp_ret (answer o (connect_calls silenced - 1)) ->
  let fd := new_fd (os_fds o) in
  cmd_transport_connect silenced (SOCKET_PATH ++ [0]) o = Some (fd, with_fds (fd :: os_fds o) (calls (connect_log silenced fd) o)).
Proof.
  intros H1 H2 fd. unfold cmd_transport_connect.
  assert (exists o1, silence_sigpipe silenced o = Some ((), o1) /\ o1 = calls (if silenced then [] else [ScSigIgn SIGPIPE]) o) as (o1 & E1 & Eo1).
  { unfold silence_sigpipe. destruct silenced; [exists o; by destruct o|]. by eexists. }
  rewrite (sys_step _ _ _ _ _ E1). assert (forall i, answer o1 i = answer o (connect_calls silenced - 2 + i)) as A1.
  { intros i. rewrite Eo1. unfold answer, connect_calls. destruct silenced; [done|]. cbn. f_equal. lia. }
  rewrite (sys_step _ _ _ _ _ (call_socket AF_UNIX SOCK_STREAM 0 o1 ltac:(by rewrite A1, Nat.add_0_r))). cbn [with_ret rp_ret].
  assert (new_fd (os_fds o1) = fd) as -> by by rewrite Eo1. destruct (lowest_free_fresh (os_fds o)) as [Hfd _]. fold fd in Hfd.
  rewrite (proj2 (Z.ltb_ge _ _) Hfd). rewrite (sys_step _ _ _ connect_path _ eq_refl). set (o2 := with_fds _ _).
  rewrite (sys_step _ _ _ _ _ (call_on (ScConnectUn fd connect_path) fd o2 eq_refl eq_refl ltac:(left))).
  assert (answer o2 0 = answer o (connect_calls silenced - 1)) as -> by (unfold answer, connect_calls, o2; rewrite Eo1; destruct silenced; cbn; f_equal; lia).
  rewrite (proj2 (Z.ltb_ge _ _) H2). unfold o2. rewrite Eo1. by destruct silenced.
Qed.

(** What is shown of an answer. *)
Definition shown (t : list Z) : list reflex_out := match t with [] => [] | _ => [OText t] end.

(** A kernel that connects the console to its engine, takes the line and hands
    over the answer. *)
Definition connects (o : os) (silenced : bool) (s t : list Z) : Prop :=
  let n := connect_calls silenced in
  0 <= rp_ret (answer o (n - 2)) /\ 0 <= rp_ret (answer o (n - 1)) /\ takes o n s /\ hands o (n + 3) 1 t.

Lemma request_shown silenced s t o :
  no_nul s -> s <> [] -> (length s <= MAX_RESP_BUF)%nat -> no_nul t -> (length t <= MAX_RESP_BUF)%nat -> os_wf o -> connects o silenced s t ->
  exists o', reflex_request silenced (s ++ [0]) o = Some (shown t, o') /\ os_same o o' /\
    sent_bytes (new_fd (os_fds o)) (os_log o') = sent_bytes (new_fd (os_fds o)) (os_log o) ++ message 0 s.
Proof.
  intros Hs Hne Hls Ht Hlt Hwf (H1 & H2 & Htk & Hh). unfold reflex_request. rewrite (cstr_app s []) by done.
  rewrite (sys_step _ _ _ s o eq_refl), (sys_step _ _ _ _ _ (connect_whole silenced o H1 H2)). set (fd := new_fd (os_fds o)).
  destruct (lowest_free_fresh (os_fds o)) as [Hfd Hnew]. fold fd in Hfd, Hnew. rewrite (proj2 (Z.leb_le _ _) Hfd).
  set (o1 := with_fds _ _). set (n := connect_calls silenced) in *.
  assert (forall i, answer o1 i = answer o (n + i)) as A1 by (intros i; unfold answer, o1, n, connect_calls; destruct silenced; cbn; f_equal; lia).
  assert (Z.of_nat MAX_RESP_BUF < 2 ^ 32) as H32 by (by vm_compute). rewrite wrap_small by lia.
  rewrite (sys_step _ _ _ _ _ (send_whole fd 0 s [0] o1 ltac:(left) ltac:(unfold takes; rewrite !A1, !Nat.add_0_r, Nat.add_1_r; exact Htk))).
  set (o2 := calls _ o1). assert (forall i, answer o2 i = answer o (n + 2 + i)) as A2.
  { intros i. replace (n + 2 + i)%nat with (n + (2 + i))%nat by lia. rewrite <- A1. unfold o2, answer. destruct s; [done|]. cbn. f_equal. lia. }
  destruct (recv_whole fd 1 t o2 ltac:(left) ltac:(by_compute) Hlt) as (hdr & E).
  { unfold hands in *. rewrite !A2. by replace (n + 2 + 1)%nat with (n + 3)%nat by lia; replace (n + 2 + (1 + 1))%nat with (n + 3 + 1)%nat by lia;
      replace (n + 2 + (1 + 2))%nat with (n + 3 + 2)%nat by lia. }
  rewrite (sys_step _ _ _ _ _ E). cbn [Z.eqb]. set (o3 := after_recv fd t o2).
  assert (os_fds o3 = fd :: os_fds o) as Hf3 by done.
  assert (exists o4, (out ← match received_text o2 t with
      | Some (p, bs) => t ← sys_opt (cstr bs); _ ← syscall_do (ScFree p); mret [OText t]
      | None => mret [] end; _ ← syscall_do (ScClose fd); mret out) o3 = Some (shown t, o4) /\ os_same o o4 /\ sent_bytes fd (os_log o4) = sent_bytes fd (os_log o3))
    as (o4 & E4 & Hs4 & Hl4).
  { destruct t as [|b t']; [|set (t := b :: t') in *].
    - cbn [received_text shown]. rewrite (sys_step _ _ _ [] o3 eq_refl), (sys_step _ _ _ _ _ (call_close fd o3 ltac:(left))). eexists. split; [reflexivity|].
      split; [split; [by apply filter_fresh|done]|]. cbn [os_log with_fds tick]. by rewrite sent_bytes_cons, app_nil_r.
    - set (p := recv_block o2). assert (received_text o2 t = Some (p, t ++ [0])) as -> by done. assert (shown t = [OText t]) as -> by done.
      assert (p ∉ os_heap o) as Hp.
      { intros Hp. unfold os_wf in Hwf. rewrite list.Forall_forall in Hwf. specialize (Hwf p Hp). unfold p, recv_block in Hwf. cbn in Hwf. lia. }
      set (o4 := with_heap (filter (fun x => x <> p) (os_heap o3)) (tick (ScFree p) o3)).
      exists (with_fds (filter (fun x => x <> fd) (fd :: os_fds o)) (tick (ScClose fd) o4)). split; [|split].
      + etrans; [eapply sys_step|].
        { rewrite (cstr_app t []) by done. rewrite (sys_step _ _ _ t o3 eq_refl), (sys_step _ _ _ _ _ (call_free p o3 ltac:(left))). reflexivity. }
        cbn beta. fold o4. by rewrite (sys_step _ _ _ _ _ (call_close fd o4 ltac:(left))).
      + split; [by apply filter_fresh|]. change (filter (fun x => x <> p) (p :: os_heap o) = os_heap o). by apply filter_fresh.
      + cbn [os_log with_fds tick with_heap o4]. by rewrite !sent_bytes_cons, !app_nil_r. }
  exists o4. split; [exact E4|]. split; [done|]. rewrite Hl4.
  change (sent_bytes fd (recv_log fd t ++ send_log fd 0 s ++ connect_log silenced fd ++ os_log o) = sent_bytes fd (os_log o) ++ message 0 s).
  assert (sent_bytes fd (connect_log silenced fd) = []) as Hc by by destruct silenced. by rewrite !sent_app, Hc, sent_recv, sent_send, !app_nil_r.
Qed.

(** * Both ends *)

Section engine.
Context {T : Type} `{HT : HashTable Z T, HTL : !HashTableLaws Z T}.

(** C35 A line that is typed is served, and its answer is shown.  For every line
    of up to 4096 bytes there is one text: the engine's dispatcher produces it
    and makes of the engine what the line's tokens ask for; the management
    thread, on a connection that brings the line and takes the answer, has that
    effect, says the text and nothing else, closes the connection and frees the
    line; and the console, connected to a kernel that takes the line and brings
    that text, says the line and nothing else, shows the text, or nothing when
    it is empty, and leaves no socket open and no block behind. *)
Theorem request_served (x : sessions T * proc_env) w s :
  mgmt_good x -> no_nul s -> s <> [] -> (length s <= MAX_RESP_BUF)%nat ->
  let w' := from_option (fun ts => mgmt_effect ts w) w (tokens MAX_ARG_COUNT s) in
  exists t, no_nul t /\ (exists buf, respond mgmt_call (Some cmd_table) x (Some (s ++ [0])) w = Some (Some buf, w') /\ cstr buf = Some t) /\
    (forall cfd o, cfd ∈ os_fds o -> os_wf o -> hands o 3 0 s -> takes o 6 t ->
      exists o', cmd_server_client mgmt_call (Some cmd_table) x cfd w o = Some (w', o') /\ os_fds o' = filter (fun y => y <> cfd) (os_fds o) /\
        os_heap o' = os_heap o /\ sent_bytes cfd (os_log o') = sent_bytes cfd (os_log o) ++ message 1 t) /\
    (forall silenced o, os_wf o -> connects o silenced s t ->
      exists o', reflex_request silenced (s ++ [0]) o = Some (shown t, o') /\ os_same o o' /\
        sent_bytes (new_fd (os_fds o)) (os_log o') = sent_bytes (new_fd (os_fds o)) (os_log o) ++ message 0 s).
Proof.
  intros [Hst He] Hs Hne Hl w'. destruct x as [st e]. cbn [fst snd] in Hst, He.
  destruct (mgmt_dispatch_spec st e Hst He s [] w Hs) as (rc & out & E & t & buf & -> & Hlb & Hc).
  assert (respond mgmt_call (Some cmd_table) (st, e) (Some (s ++ [0])) w = Some (Some buf, w')) as Er by (unfold respond, mgmt_call; cbn [fst snd]; by rewrite E).
  destruct (cstr_inv buf _ Hc) as (z & Hnt & Eb). set (t' := take (MAX_RESP_BUF - 1) t) in *.
  assert (length t' <= MAX_RESP_BUF)%nat as Hlt by (rewrite <- Hlb, Eb, length_app; lia).
  exists t'. split; [done|]. split; [by exists buf|]. split.
  - intros cfd o Hin Hwf Hh Htk. by eapply client_served.
  - intros silenced o Hwf Hcn. by apply request_shown.
Qed.
End engine.

(** * Instances *)

Definition demo_line : list Z := str "SET debug 0".
Definition demo_engine : mgmt := {| mg_engine := cmdengine; mg_log_level := LOG_INFO |}.
Definition demo_around : sessions (list_table Z) * proc_env := (vf_ss_init (T := list_table Z) ∅, demo_proc).
Definition demo_answer : list Z := 1 :: 27 :: str "[92m" ++ 2 :: str "OK: Debug mode changed to DISABLED." ++ 1 :: 27 :: str "[0m" ++ [2].

(** The console switches the debug log off. *)
Lemma request_served_witness :
  let server n := match n with
                  | 3%nat => net_reply 12 (take 12 (message 0 demo_line)) | 5%nat => net_reply 11 demo_line
                  | 6%nat => net_reply 12 [] | 7%nat => net_reply (Z.of_nat (length demo_answer)) [] | _ => net_reply 0 [] end in
  let console n := match n with
                   | 3%nat => net_reply 12 [] | 4%nat => net_reply 11 [] | 6%nat => net_reply 12 (take 12 (message 1 demo_answer))
                   | 8%nat => net_reply (Z.of_nat (length demo_answer)) demo_answer | _ => net_reply 0 [] end in
  exists o1 o2,
    cmd_server_client mgmt_call (Some cmd_table) demo_around 7 demo_engine (demo_net server [7] 0) =
      Some ({| mg_engine := set_isdebug false cmdengine; mg_log_level := LOG_INFO |}, o1) /\
    os_fds o1 = [] /\ sent_bytes 7 (os_log o1) = message 1 demo_answer /\
    reflex_request false (demo_line ++ [0]) (demo_net console [0; 1; 2] 0) = Some ([OText demo_answer], o2) /\
    os_same (demo_net console [0; 1; 2] 0) o2 /\ sent_bytes 3 (os_log o2) = message 0 demo_line.
Proof.
  intros server console.
  destruct (request_served demo_around demo_engine demo_line) as (t & _ & (buf & Er & Ec) & Hs & Hc).
  - split; [apply vf_ss_init_wf|apply demo_proc_ok].
  - by_compute.
  - done.
  - by apply (bool_decide_unpack _).
  - assert (t = demo_answer) as ->.
    { apply (inj Some). rewrite <- Ec. transitivity (match respond mgmt_call (Some cmd_table) demo_around (Some (demo_line ++ [0])) demo_engine with Some (Some b, _) => cstr b | _ => None end);
        [by rewrite Er|by vm_compute]. }
    destruct (Hs 7 (demo_net server [7] 0)) as (o1 & E1 & Hf1 & _ & Hl1).
    { left. } { constructor. } { split; [reflexivity|split; [reflexivity|intros _; split; [vm_compute; discriminate|split; reflexivity]]]. } { split; [|intros _]; reflexivity. }
    destruct (Hc false (demo_net console [0; 1; 2] 0)) as (o2 & E2 & Hs2 & Hl2).
    { constructor. }
    { split; [vm_compute; discriminate|split; [vm_compute; discriminate|split; [split; [|intros _]; reflexivity|]]].
      split; [reflexivity|split; [reflexivity|intros _; split; [vm_compute; discriminate|split; reflexivity]]]. }
    exists o1, o2. split; [exact E1|]. split; [exact Hf1|]. split; [exact Hl1|]. split; [exact E2|]. split; [exact Hs2|exact Hl2].
Defined.
