(* ===== verification/Utf8.v ===== *)
(** UTF-8 in the line editor (src/src/linenoise.c): lengths, decoding, the
    clusters the cursor moves by, and how many columns they take. *)
From S2P Require Import Prelude.

(** * The bytes of a character *)

Definition utf8ByteLen (c : Z) : nat :=
  if Z.land c 0x80 =? 0 then 1%nat else
  if Z.land c 0xE0 =? 0xC0 then 2%nat else
  if Z.land c 0xF0 =? 0xE0 then 3%nat else
  if Z.land c 0xF8 =? 0xF0 then 4%nat else 1%nat.

(** The code point at a pointer and its length; [None]: a byte behind the
    object is read. *)
Definition utf8DecodeChar (s : list Z) : option (Z * nat) :=
  p ← s !! 0%nat;
  let tail n := b ← s !! n; Some (Z.land b 0x3F) in
  if Z.land p 0x80 =? 0 then Some (p, 1%nat) else
  if Z.land p 0xE0 =? 0xC0 then
    a ← tail 1%nat;
    Some (Z.lor (Z.shiftl (Z.land p 0x1F) 6) a, 2%nat) else
  if Z.land p 0xF0 =? 0xE0 then
    a ← tail 1%nat; b ← tail 2%nat;
    Some (Z.lor (Z.lor (Z.shiftl (Z.land p 0x0F) 12) (Z.shiftl a 6)) b, 3%nat) else
  if Z.land p 0xF8 =? 0xF0 then
    a ← tail 1%nat; b ← tail 2%nat; c ← tail 3%nat;
    Some (Z.lor (Z.lor (Z.lor (Z.shiftl (Z.land p 0x07) 18) (Z.shiftl a 12)) (Z.shiftl b 6)) c, 4%nat) else
  Some (p, 1%nat).

Definition in_range (lo hi cp : Z) : bool := (lo <=? cp) && (cp <=? hi).

Definition isVariationSelector (cp : Z) : bool := (cp =? 0xFE0E) || (cp =? 0xFE0F).
Definition isSkinToneModifier (cp : Z) : bool := in_range 0x1F3FB 0x1F3FF cp.
Definition isZWJ (cp : Z) : bool := cp =? 0x200D.
Definition isRegionalIndicator (cp : Z) : bool := in_range 0x1F1E6 0x1F1FF cp.
Definition isCombiningMark (cp : Z) : bool :=
  in_range 0x0300 0x036F cp || in_range 0x1AB0 0x1AFF cp || in_range 0x1DC0 0x1DFF cp || in_range 0x20D0 0x20FF cp || in_range 0xFE20 0xFE2F cp.
Definition isGraphemeExtend (cp : Z) : bool := isVariationSelector cp || isSkinToneModifier cp || isZWJ cp || isCombiningMark cp.

Definition cont (b : Z) : bool := Z.land b 0xC0 =? 0x80.

(** The scan for the start byte: at most four bytes back, and not past the
    start. *)
Fixpoint prev_start (buf : list Z) (pos i : nat) : option nat :=
  match i with
  | O => Some O
  | S i =>
      if (0 <? i)%nat && (pos - i <? 4)%nat then b ← buf !! i; if cont b then prev_start buf pos i else Some i
      else Some i
  end.
Definition utf8DecodePrev (buf : list Z) (pos : nat) : option (Z * nat) :=
  match pos with
  | O => Some (0, O)
  | _ => i ← prev_start buf pos pos; '(cp, _) ← utf8DecodeChar (drop i buf); Some (cp, (pos - i)%nat)
  end.

(** * Clusters *)

Fixpoint prev_loop (fuel : nat) (buf : list Z) (cp : Z) (total curpos : nat) : option nat :=
  if (curpos =? 0)%nat then Some total else
  match fuel with
  | O => None
  | S fuel =>
      '(prevcp, prevlen) ← utf8DecodePrev buf curpos;
      if (prevlen =? 0)%nat then Some total else
      if isZWJ prevcp then
        let total := (total + prevlen)%nat in let curpos := (curpos - prevlen)%nat in
        '(prevcp, prevlen) ← utf8DecodePrev buf curpos;
        if (prevlen =? 0)%nat then Some total else
        prev_loop fuel buf prevcp (total + prevlen) (curpos - prevlen)
      else if isGraphemeExtend cp then prev_loop fuel buf prevcp (total + prevlen) (curpos - prevlen)
      else if isRegionalIndicator cp && isRegionalIndicator prevcp then Some (total + prevlen)%nat
      else Some total
  end.
Definition utf8PrevCharLen (buf : list Z) (pos : nat) : option nat :=
  match pos with
  | O => Some O
  | _ =>
      '(cp, cplen) ← utf8DecodePrev buf pos;
      if (cplen =? 0)%nat then Some O else
      prev_loop pos buf cp cplen (pos - cplen)
  end.

Fixpoint next_loop (fuel : nat) (buf : list Z) (isRI : bool) (total curpos len : nat) : option nat :=
  if (len <=? curpos)%nat then Some total else
  match fuel with
  | O => None
  | S fuel =>
      '(nextcp, nextlen) ← utf8DecodeChar (drop curpos buf);
      if isZWJ nextcp && (curpos + nextlen <? len)%nat then
        let total := (total + nextlen)%nat in let curpos := (curpos + nextlen)%nat in
        '(_, nextlen) ← utf8DecodeChar (drop curpos buf);
        next_loop fuel buf isRI (total + nextlen) (curpos + nextlen) len
      else if isGraphemeExtend nextcp then next_loop fuel buf isRI (total + nextlen) (curpos + nextlen) len
      else if isRI && isRegionalIndicator nextcp then next_loop fuel buf false (total + nextlen) (curpos + nextlen) len
      else Some total
  end.
Definition utf8NextCharLen (buf : list Z) (pos len : nat) : option nat :=
  if (len <=? pos)%nat then Some O else
  '(cp, cplen) ← utf8DecodeChar (drop pos buf);
  next_loop (len - pos) buf (isRegionalIndicator cp) cplen (pos + cplen) len.

(** * Columns *)

Definition wide (cp : Z) : bool :=
  (0x1100 <=? cp) &&
  ((cp <=? 0x115F) || (cp =? 0x2329) || (cp =? 0x232A) || in_range 0x231A 0x231B cp || in_range 0x23E9 0x23F3 cp ||
   in_range 0x23F8 0x23FA cp || in_range 0x25AA 0x25AB cp || in_range 0x25B6 0x25C0 cp || in_range 0x25FB 0x25FE cp ||
   in_range 0x2600 0x26FF cp || in_range 0x2700 0x27BF cp || in_range 0x2934 0x2935 cp || in_range 0x2B05 0x2B07 cp ||
   in_range 0x2B1B 0x2B1C cp || (cp =? 0x2B50) || (cp =? 0x2B55) || (in_range 0x2E80 0xA4CF cp && negb (cp =? 0x303F)) ||
   in_range 0xAC00 0xD7A3 cp || in_range 0xF900 0xFAFF cp || in_range 0xFE10 0xFE1F cp || in_range 0xFE30 0xFE6F cp ||
   in_range 0xFF00 0xFF60 cp || in_range 0xFFE0 0xFFE6 cp || in_range 0x1F1E6 0x1F1FF cp || in_range 0x1F300 0x1F64F cp ||
   in_range 0x1F680 0x1F6FF cp || in_range 0x1F900 0x1F9FF cp || in_range 0x1FA00 0x1FAFF cp || in_range 0x20000 0x2FFFF cp).
Definition utf8CharWidth (cp : Z) : nat :=
  if (cp <? 32) || (0x7F <=? cp) && (cp <? 0xA0) then 0%nat else
  if isCombiningMark cp then 0%nat else
  if isVariationSelector cp then 0%nat else
  if isSkinToneModifier cp then 0%nat else
  if isZWJ cp then 0%nat else
  if wide cp then 2%nat else 1%nat.

Fixpoint width_loop (fuel : nat) (s : list Z) (i len : nat) (after_zwj : bool) (width : nat) : option nat :=
  if (len <=? i)%nat then Some width else
  match fuel with
  | O => None
  | S fuel =>
      '(cp, clen) ← utf8DecodeChar (drop i s);
      let width := if after_zwj then width else (width + utf8CharWidth cp)%nat in
      width_loop fuel s (i + clen) len (isZWJ cp) width
  end.
Definition utf8StrWidth (s : list Z) (len : nat) : option nat := width_loop len s 0 len false 0.

Definition utf8SingleCharWidth (s : list Z) (len : nat) : option nat :=
  match len with
  | O => Some O
  | _ => '(cp, _) ← utf8DecodeChar s; Some (utf8CharWidth cp)
  end.

(** * Characters

    A character is a start byte with the continuation bytes it announces; a
    text is a list of characters. *)

Definition char_ok (c : list Z) : Prop :=
  match c with b :: cs => cont b = false /\ length c = utf8ByteLen b /\ Forall (fun b => cont b = true) cs | [] => False end.
#[export] Instance char_ok_dec c : Decision (char_ok c).
Proof. destruct c; cbn; apply _. Defined.
Definition code_point (c : list Z) : Z := default 0 (fst <$> utf8DecodeChar c).

(** The [n] bytes of a code point. *)
Definition encode (cp : Z) : list Z :=
  let tail k := Z.lor 0x80 (Z.land (Z.shiftr cp k) 0x3F) in
  if cp <? 0x80 then [cp] else
  if cp <? 0x800 then [Z.lor 0xC0 (Z.shiftr cp 6); tail 0] else
  if cp <? 0x10000 then [Z.lor 0xE0 (Z.shiftr cp 12); tail 6; tail 0] else
  [Z.lor 0xF0 (Z.shiftr cp 18); tail 12; tail 6; tail 0].

Lemma utf8ByteLen_range b : (1 <= utf8ByteLen b <= 4)%nat.
Proof. unfold utf8ByteLen. repeat case_match; lia. Qed.

Lemma char_length c : char_ok c -> (1 <= length c <= 4)%nat.
Proof. destruct c as [|b cs]; [done|]. intros (_ & -> & _). apply utf8ByteLen_range. Qed.

Lemma chars_length l : Forall char_ok l -> (length l <= length (concat l))%nat.
Proof. induction 1 as [|c l Hc _ IH]; [done|]. cbn. rewrite length_app. pose proof (char_length c Hc). lia. Qed.

(** Decoding reads the character and nothing else. *)
Lemma decode_char c rest : char_ok c -> utf8DecodeChar (c ++ rest) = Some (code_point c, length c).
Proof.
  destruct c as [|b cs]; [done|]. intros (_ & Hl & _). unfold code_point, utf8ByteLen in *. unfold utf8DecodeChar. cbn in Hl |- *.
  repeat case_match; (destruct cs as [|? [|? [|? [|]]]]; cbn in Hl; try done).
Qed.

Lemma decode_at pre c rest : char_ok c -> utf8DecodeChar (drop (length pre) (pre ++ c ++ rest)) = Some (code_point c, length c).
Proof. rewrite drop_app_length. apply decode_char. Qed.

Lemma prev_start_ok pre b cs rest k :
  cont b = false -> Forall (fun b => cont b = true) cs -> (length cs <= 3)%nat -> (k <= length cs)%nat ->
  prev_start (pre ++ (b :: cs) ++ rest) (length pre + S (length cs)) (S (length pre + k)) = Some (length pre).
Proof.
  intros Hb Hcs Hl. induction k as [|k IH]; intros Hk; cbn [prev_start].
  - rewrite Nat.add_0_r. case_match; [|done]. rewrite lookup_app_r, Nat.sub_diag by lia. cbn. by rewrite Hb.
  - replace (0 <? length pre + S k)%nat with true by (symmetry; apply Nat.ltb_lt; lia).
    replace (length pre + S (length cs) - (length pre + S k) <? 4)%nat with true by (symmetry; apply Nat.ltb_lt; lia). cbn [andb].
    rewrite lookup_app_r by lia. replace (length pre + S k - length pre)%nat with (S k) by lia. cbn [app lookup list_lookup].
    destruct (lookup_lt_is_Some_2 cs k ltac:(lia)) as [x Hx]. rewrite (lookup_app_l_Some _ _ _ _ Hx). cbn [mbind option_bind].
    rewrite (list.Forall_lookup_1 _ _ _ _ Hcs Hx). replace (length pre + S k)%nat with (S (length pre + k)) by lia. apply IH. lia.
Qed.

Lemma decode_prev pre c rest : char_ok c -> utf8DecodePrev (pre ++ c ++ rest) (length pre + length c) = Some (code_point c, length c).
Proof.
  intros Hc. destruct c as [|b cs]; [done|]. pose proof (char_length _ Hc) as Hl. pose proof Hc as (Hb & _ & Hcs). cbn [length] in *.
  pose proof (prev_start_ok pre b cs rest (length cs) Hb Hcs ltac:(lia) ltac:(lia)) as E.
  replace (S (length pre + length cs)) with (length pre + S (length cs))%nat in E by lia. unfold utf8DecodePrev.
  destruct (length pre + S (length cs))%nat as [|n] eqn:En; [lia|]. rewrite E. cbn [mbind option_bind].
  rewrite (decode_at pre (b :: cs) rest Hc). cbn [mbind option_bind]. do 2 f_equal. lia.
Qed.

(** ** Clusters of characters *)

(** How many of the characters in front, the nearest first, belong to the
    cluster of one with the code point [cp]. *)
Fixpoint prev_ext (cp : Z) (rl : list (list Z)) : nat :=
  match rl with
  | [] => O
  | p :: rl =>
      let pcp := code_point p in
      if isZWJ pcp then match rl with q :: rl => S (S (prev_ext (code_point q) rl)) | [] => 1%nat end
      else if isGraphemeExtend cp then S (prev_ext pcp rl)
      else if isRegionalIndicator cp && isRegionalIndicator pcp then 1%nat else O
  end.
Definition prev_chars (rl : list (list Z)) : nat := match rl with c :: rl => S (prev_ext (code_point c) rl) | [] => O end.

Fixpoint next_ext (isRI : bool) (r : list (list Z)) : nat :=
  match r with
  | [] => O
  | c :: r =>
      let cp := code_point c in
      match r with
      | d :: r' =>
          if isZWJ cp then S (S (next_ext isRI r'))
          else if isGraphemeExtend cp then S (next_ext isRI r)
          else if isRI && isRegionalIndicator cp then S (next_ext false r) else O
      | [] => if isGraphemeExtend cp then 1%nat else if isRI && isRegionalIndicator cp then 1%nat else O
      end
  end.
Definition next_chars (r : list (list Z)) : nat := match r with c :: r => S (next_ext (isRegionalIndicator (code_point c)) r) | [] => O end.

(** The text in front of the cursor, the nearest character first. *)
Definition front (rl : list (list Z)) : list Z := concat (rev rl).

Lemma front_cons c rl : front (c :: rl) = front rl ++ c.
Proof. unfold front. cbn [rev]. rewrite concat_app. cbn. by rewrite app_nil_r. Qed.
Lemma front_length rl : length (front rl) = length (concat rl).
Proof. induction rl as [|c rl IH]; [done|]. rewrite front_cons. cbn. rewrite !length_app. lia. Qed.

Lemma prev_decode c rl rest : char_ok c ->
  utf8DecodePrev (front (c :: rl) ++ rest) (length (front (c :: rl))) = Some (code_point c, length c) /\
  (length (front (c :: rl)) - length c)%nat = length (front rl) /\ length (front (c :: rl)) <> O /\ (length c =? 0)%nat = false.
Proof.
  intros Hc. pose proof (char_length c Hc). rewrite front_cons, <- app_assoc, length_app. split; [by apply decode_prev|].
  split; [lia|]. split; [lia|]. apply Nat.eqb_neq. lia.
Qed.

Lemma prev_loop_ok fuel : forall rl cp total rest,
  (length rl <= fuel)%nat -> Forall char_ok rl ->
  prev_loop fuel (front rl ++ rest) cp total (length (front rl)) = Some (total + length (concat (take (prev_ext cp rl) rl)))%nat.
Proof.
  induction fuel as [fuel IH] using lt_wf_ind. intros rl cp total rest Hf Hrl. destruct rl as [|p rl]; [cbn; rewrite Nat.add_0_r; by destruct fuel|].
  destruct fuel as [|fuel]; cbn [length] in Hf; [lia|]. apply list.Forall_cons in Hrl as [Hp Hrl].
  destruct (prev_decode p rl rest Hp) as (E1 & E2 & E3 & E4). cbn [prev_loop prev_ext]. rewrite (proj2 (Nat.eqb_neq _ _) E3), E1. cbn [mbind option_bind].
  rewrite E4, E2. rewrite front_cons, <- app_assoc. destruct (isZWJ (code_point p)).
  - destruct rl as [|q rl]; [cbn; by rewrite app_nil_r|]. apply list.Forall_cons in Hrl as [Hq Hrl]. cbn [length] in Hf.
    destruct (prev_decode q rl (p ++ rest) Hq) as (E1' & E2' & E3' & E4'). rewrite E1'. cbn [mbind option_bind]. rewrite E4', E2'.
    rewrite front_cons, <- app_assoc. rewrite IH by (done || lia). f_equal. cbn [take concat]. rewrite !length_app. lia.
  - destruct (isGraphemeExtend cp); [rewrite IH by (done || lia); f_equal; cbn [take concat]; rewrite length_app; lia|].
    destruct (isRegionalIndicator cp && _); cbn [take concat]; rewrite ?take_0, ?length_app; cbn [concat length]; f_equal; lia.
Qed.

Lemma prev_char_ok rl rest : Forall char_ok rl ->
  utf8PrevCharLen (front rl ++ rest) (length (front rl)) = Some (length (concat (take (prev_chars rl) rl))).
Proof.
  intros Hrl. destruct rl as [|c rl]; [done|]. apply list.Forall_cons in Hrl as [Hc Hrl].
  destruct (prev_decode c rl rest Hc) as (E1 & E2 & E3 & E4). unfold utf8PrevCharLen. destruct (length (front (c :: rl))) as [|n] eqn:En; [done|].
  rewrite E1. cbn [mbind option_bind]. rewrite E4, E2. rewrite front_cons, <- app_assoc.
  rewrite prev_loop_ok; [cbn [prev_chars take concat]; by rewrite length_app| |done].
  pose proof (chars_length rl Hrl). rewrite (front_length rl) in E2. pose proof (char_length c Hc). lia.
Qed.

Lemma next_loop_ok fuel : forall r isRI pre total rest,
  (length r <= fuel)%nat -> Forall char_ok r ->
  next_loop fuel (pre ++ concat r ++ rest) isRI total (length pre) (length pre + length (concat r)) =
  Some (total + length (concat (take (next_ext isRI r) r)))%nat.
Proof.
  induction fuel as [fuel IH] using lt_wf_ind. intros r isRI pre total rest Hf Hr. destruct r as [|c r].
  { cbn. rewrite !Nat.add_0_r. destruct fuel; cbn; by rewrite Nat.leb_refl. }
  destruct fuel as [|fuel]; cbn [length] in Hf; [lia|]. apply list.Forall_cons in Hr as [Hc Hr]. pose proof (char_length c Hc) as Hlc.
  cbn [next_loop next_ext concat]. rewrite length_app. rewrite (proj2 (Nat.leb_gt _ _)) by lia. rewrite <- app_assoc, (decode_at pre c _ Hc). cbn [mbind option_bind].
  assert (forall b t, next_loop fuel (pre ++ c ++ concat r ++ rest) b t (length pre + length c) (length pre + (length c + length (concat r))) =
    Some (t + length (concat (take (next_ext b r) r)))%nat) as Hstep.
  { intros b t. specialize (IH fuel ltac:(lia) r b (pre ++ c) t rest ltac:(lia) Hr). rewrite length_app, <- app_assoc, <- Nat.add_assoc in IH. exact IH. }
  destruct r as [|d r].
  - cbn [concat length] in *. rewrite Nat.add_0_r, Nat.ltb_irrefl, andb_false_r. rewrite app_nil_l in *. rewrite Nat.add_0_r in Hstep.
    destruct (isGraphemeExtend (code_point c)); [rewrite Hstep; cbn [take concat]; rewrite length_app; f_equal; cbn; lia|].
    destruct (isRI && _); [rewrite Hstep; cbn [take concat]; rewrite length_app; f_equal; cbn; lia|]. cbn. by rewrite Nat.add_0_r.
  - pose proof Hr as [Hd Hr']%list.Forall_cons. pose proof (char_length d Hd) as Hld.
    replace (length pre + length c <? length pre + (length c + length (concat (d :: r))))%nat with true
      by (symmetry; apply Nat.ltb_lt; cbn [concat]; rewrite length_app; lia). rewrite andb_true_r.
    destruct (isZWJ (code_point c)).
    + cbn [concat] in *. pose proof (decode_at (pre ++ c) d (concat r ++ rest) Hd) as E. rewrite length_app, <- !app_assoc in E. rewrite <- !app_assoc, E. cbn [mbind option_bind].
      specialize (IH fuel ltac:(lia) r isRI (pre ++ c ++ d) (total + length c + length d)%nat rest). cbn [length] in Hf. specialize (IH ltac:(lia) Hr').
      rewrite !length_app, <- !app_assoc in IH. rewrite !length_app. replace (length pre + length c + length d)%nat with (length pre + (length c + length d))%nat by lia.
      replace (length pre + (length c + (length d + length (concat r))))%nat with (length pre + (length c + length d) + length (concat r))%nat by lia.
      rewrite IH. f_equal. cbn [take concat]. rewrite !length_app. lia.
    + destruct (isGraphemeExtend (code_point c)); [rewrite Hstep; f_equal; cbn [take concat]; rewrite !length_app; lia|].
      destruct (isRI && _); [rewrite Hstep; f_equal; cbn [take concat]; rewrite !length_app; lia|]. cbn. by rewrite Nat.add_0_r.
Qed.

Lemma next_char_ok pre r rest : Forall char_ok r ->
  utf8NextCharLen (pre ++ concat r ++ rest) (length pre) (length pre + length (concat r)) = Some (length (concat (take (next_chars r) r))).
Proof.
  intros Hr. unfold utf8NextCharLen. destruct r as [|c r]; [cbn; by rewrite Nat.add_0_r, Nat.leb_refl|]. apply list.Forall_cons in Hr as [Hc Hr].
  pose proof (char_length c Hc) as Hl. cbn [concat]. rewrite length_app. rewrite (proj2 (Nat.leb_gt _ _)) by lia. rewrite <- app_assoc, (decode_at pre c _ Hc).
  cbn [mbind option_bind]. pose proof (chars_length r Hr). pose proof (next_loop_ok (length pre + (length c + length (concat r)) - length pre) r
    (isRegionalIndicator (code_point c)) (pre ++ c) (length c) rest ltac:(lia) Hr) as E.
  rewrite length_app, <- app_assoc, <- Nat.add_assoc in E. rewrite E. f_equal. cbn [next_chars take concat]. by rewrite length_app.
Qed.

(** ** Columns of a text *)

Fixpoint cols_from (after_zwj : bool) (r : list (list Z)) : nat :=
  match r with
  | [] => O
  | c :: r => ((if after_zwj then 0 else utf8CharWidth (code_point c)) + cols_from (isZWJ (code_point c)) r)%nat
  end.
Definition columns (r : list (list Z)) : nat := cols_from false r.

Lemma width_loop_ok fuel : forall r pre z w rest,
  (length r <= fuel)%nat -> Forall char_ok r ->
  width_loop fuel (pre ++ concat r ++ rest) (length pre) (length pre + length (concat r)) z w = Some (w + cols_from z r)%nat.
Proof.
  induction fuel as [|fuel IH]; intros r pre z w rest Hf Hr.
  { destruct r; cbn in Hf; [|lia]. cbn. by rewrite !Nat.add_0_r, Nat.leb_refl. }
  destruct r as [|c r]; [cbn; by rewrite !Nat.add_0_r, Nat.leb_refl|]. apply list.Forall_cons in Hr as [Hc Hr]. cbn [length] in Hf.
  pose proof (char_length c Hc) as Hl. cbn [width_loop concat]. rewrite length_app, (proj2 (Nat.leb_gt _ _)) by lia.
  rewrite <- app_assoc, (decode_at pre c _ Hc). cbn [mbind option_bind]. specialize (IH r (pre ++ c) (isZWJ (code_point c))
    (if z then w else w + utf8CharWidth (code_point c))%nat rest ltac:(lia) Hr).
  rewrite length_app, <- app_assoc, <- Nat.add_assoc in IH. rewrite IH. f_equal. cbn [cols_from]. destruct z; lia.
Qed.

Lemma str_width_ok r rest : Forall char_ok r -> utf8StrWidth (concat r ++ rest) (length (concat r)) = Some (columns r).
Proof. intros Hr. apply (width_loop_ok (length (concat r)) r [] false 0 rest); [by apply chars_length|done]. Qed.

(** The first character decides what [utf8SingleCharWidth] says. *)
Lemma single_width_ok c r rest n : char_ok c -> n <> O -> utf8SingleCharWidth (c ++ r ++ rest) n = Some (utf8CharWidth (code_point c)).
Proof. intros Hc Hn. destruct n; [done|]. cbn [utf8SingleCharWidth]. rewrite decode_char by done. done. Qed.

(** ** Encoding *)

(** A statement about the numbers below [n], by computation. *)
Lemma below_forall (P : Z -> bool) n : forallb P (seqZ 0 n) = true -> forall x, 0 <= x < n -> P x = true.
Proof. intros H x Hx. rewrite forallb_forall in H. apply H, list_elem_of_In, elem_of_seqZ. lia. Qed.

Lemma tail_byte x : 0 <= x < 64 -> cont (Z.lor 0x80 x) = true /\ Z.land (Z.lor 0x80 x) 0x3F = x.
Proof.
  intros Hx. pose proof (below_forall (fun x => cont (Z.lor 0x80 x) && (Z.land (Z.lor 0x80 x) 0x3F =? x)) 64 ltac:(by vm_compute) x Hx) as H.
  apply andb_true_iff in H as [H1 H2%Z.eqb_eq]. done.
Qed.

(** The start bytes of two, three and four. *)
Definition lead_ok (lead mask : Z) (n : nat) (x : Z) : bool :=
  negb (cont (Z.lor lead x)) && (utf8ByteLen (Z.lor lead x) =? n)%nat && (Z.land (Z.lor lead x) mask =? x).
Lemma lead_byte lead mask n x : lead_ok lead mask n x = true ->
  cont (Z.lor lead x) = false /\ utf8ByteLen (Z.lor lead x) = n /\ Z.land (Z.lor lead x) mask = x.
Proof. intros [[H1%negb_true_iff H2%Nat.eqb_eq]%andb_true_iff H3%Z.eqb_eq]%andb_true_iff. done. Qed.

Lemma split_bits a k : 0 <= k -> Z.lor (Z.shiftl (Z.shiftr a k) k) (Z.land a (Z.ones k)) = a.
Proof.
  intros Hk. apply Z.bits_inj'. intros n Hn. rewrite Z.lor_spec, Z.land_spec, Z.testbit_ones, Z.shiftl_spec by lia.
  destruct (Z.ltb_spec n k).
  - rewrite (Z.testbit_neg_r _ (n - k)) by lia. replace (0 <=? n) with true by (symmetry; apply Z.leb_le; lia). cbn. by rewrite andb_true_r.
  - rewrite Z.shiftr_spec by lia. rewrite Z.sub_add, !andb_false_r, orb_false_r. done.
Qed.
Lemma split_six a : Z.lor (Z.shiftl (Z.shiftr a 6) 6) (Z.land a 0x3F) = a.
Proof. by apply (split_bits a 6). Qed.
Lemma low_six a : 0 <= Z.land a 0x3F < 64.
Proof. change 0x3F with (Z.ones 6). rewrite Z.land_ones by lia. apply Z.mod_pos_bound. lia. Qed.
Lemma shiftr_below a k n : 0 <= k -> 0 <= a < n * 2 ^ k -> 0 <= Z.shiftr a k < n.
Proof.
  intros Hk Ha. rewrite Z.shiftr_div_pow2 by lia. pose proof (Z.pow_pos_nonneg 2 k). split; [apply Z.div_pos; lia|]. apply Z.div_lt_upper_bound; lia.
Qed.

Lemma decode_two p a : utf8ByteLen p = 2%nat -> code_point [p; a] = Z.lor (Z.shiftl (Z.land p 0x1F) 6) (Z.land a 0x3F).
Proof. unfold utf8ByteLen, code_point, utf8DecodeChar. cbn. intros H. by repeat case_match. Qed.
Lemma decode_three p a b : utf8ByteLen p = 3%nat ->
  code_point [p; a; b] = Z.lor (Z.lor (Z.shiftl (Z.land p 0x0F) 12) (Z.shiftl (Z.land a 0x3F) 6)) (Z.land b 0x3F).
Proof. unfold utf8ByteLen, code_point, utf8DecodeChar. cbn. intros H. by repeat case_match. Qed.
Lemma decode_four p a b c : utf8ByteLen p = 4%nat ->
  code_point [p; a; b; c] = Z.lor (Z.lor (Z.lor (Z.shiftl (Z.land p 0x07) 18) (Z.shiftl (Z.land a 0x3F) 12)) (Z.shiftl (Z.land b 0x3F) 6)) (Z.land c 0x3F).
Proof. unfold utf8ByteLen, code_point, utf8DecodeChar. cbn. intros H. by repeat case_match. Qed.

Lemma shift_lor a b : Z.lor (Z.shiftl a 12) (Z.shiftl b 6) = Z.shiftl (Z.lor (Z.shiftl a 6) b) 6.
Proof. by rewrite Z.shiftl_lor, Z.shiftl_shiftl. Qed.
Lemma split_twelve a : Z.lor (Z.lor (Z.shiftl (Z.shiftr a 12) 12) (Z.shiftl (Z.land (Z.shiftr a 6) 0x3F) 6)) (Z.land a 0x3F) = a.
Proof.
  replace (Z.shiftr a 12) with (Z.shiftr (Z.shiftr a 6) 6) by (by rewrite Z.shiftr_shiftr). by rewrite shift_lor, !split_six.
Qed.
Lemma split_eighteen a : Z.lor (Z.lor (Z.lor (Z.shiftl (Z.shiftr a 18) 18) (Z.shiftl (Z.land (Z.shiftr a 12) 0x3F) 12))
  (Z.shiftl (Z.land (Z.shiftr a 6) 0x3F) 6)) (Z.land a 0x3F) = a.
Proof.
  pose proof (split_twelve (Z.shiftr a 6)) as H. rewrite !Z.shiftr_shiftr in H by lia. change (6 + 12) with 18 in H. change (6 + 6) with 12 in H.
  apply (f_equal (fun x => Z.shiftl x 6)) in H. rewrite !Z.shiftl_lor, !Z.shiftl_shiftl in H by lia.
  etransitivity; [|apply split_six]. f_equal. exact H.
Qed.

(** Every code point is what its encoding decodes to. *)
Lemma encode_ok cp : 0 <= cp < 2 ^ 21 -> char_ok (encode cp) /\ code_point (encode cp) = cp.
Proof.
  intros Hcp. unfold encode. rewrite Z.shiftr_0_r. destruct (tail_byte _ (low_six cp)) as [T1 T1']. destruct (tail_byte _ (low_six (Z.shiftr cp 6))) as [T2 T2'].
  destruct (tail_byte _ (low_six (Z.shiftr cp 12))) as [T3 T3'].
  destruct (Z.ltb_spec cp 0x80); [|destruct (Z.ltb_spec cp 0x800); [|destruct (Z.ltb_spec cp 0x10000)]].
  - pose proof (below_forall (fun x => negb (cont x) && (utf8ByteLen x =? 1)%nat && bool_decide (code_point [x] = x)) 128 ltac:(by vm_compute) cp ltac:(lia)) as Hx.
    apply andb_true_iff in Hx as [[H1%negb_true_iff H2%Nat.eqb_eq]%andb_true_iff H3%bool_decide_eq_true]. split; [|done]. cbn. by rewrite H2.
  - destruct (lead_byte _ _ _ _ (below_forall (lead_ok 0xC0 0x1F 2) 32 ltac:(by vm_compute) (Z.shiftr cp 6) ltac:(apply shiftr_below; lia))) as (L1 & L2 & L3).
    split; [cbn; rewrite L2; by repeat constructor|]. rewrite decode_two, L3, T1' by done. apply split_six.
  - destruct (lead_byte _ _ _ _ (below_forall (lead_ok 0xE0 0x0F 3) 16 ltac:(by vm_compute) (Z.shiftr cp 12) ltac:(apply shiftr_below; lia))) as (L1 & L2 & L3).
    split; [cbn; rewrite L2; by repeat constructor|]. rewrite decode_three, L3, T1', T2' by done. apply split_twelve.
  - destruct (lead_byte _ _ _ _ (below_forall (lead_ok 0xF0 0x07 4) 8 ltac:(by vm_compute) (Z.shiftr cp 18) ltac:(apply shiftr_below; lia))) as (L1 & L2 & L3).
    split; [cbn; rewrite L2; by repeat constructor|]. rewrite decode_four, L3, T1', T2', T3' by done. apply split_eighteen.
Qed.
