(* ===== verification/Linenoise.v ===== *)
(** The line editor (src/src/linenoise.c) in the mode the console uses it: one
    line, nothing masked.  The functions are in the order of the source. *)
From S2P Require Import Prelude Libc Text Printf Utf8.

(** * The terminal and the history

    [t_in] is what each [read] of one byte from the terminal returns: a byte,
    or -1, with or without EAGAIN; after the last, the end of the input.
    [t_out] is what was written, newest last.  [history] has no slots that
    are not in use; allocation succeeds. *)

Inductive rd := RByte (c : Z) | RError (again : bool).
Record con := { t_in : list rd; t_out : list (list Z); history : list (list Z); history_max_len : nat }.

Definition ln (A : Type) : Type := con -> option (A * con).
#[export] Instance ln_ret : MRet ln := fun A x c => Some (x, c).
#[export] Instance ln_bind : MBind ln := fun A B f m c => match m c with Some (x, c) => f x c | None => None end.
#[global] Typeclasses Opaque ln.

Definition ln_ub {A} : ln A := fun _ => None.
Definition ln_opt {A} (x : option A) : ln A := fun c => match x with Some x => Some (x, c) | None => None end.

Definition set_history (h : list (list Z)) (c : con) : con :=
  {| t_in := t_in c; t_out := t_out c; history := h; history_max_len := history_max_len c |}.
Definition get_history : ln (list (list Z)) := fun c => Some (history c, c).
Definition put_history (h : list (list Z)) : ln () := fun c => Some ((), set_history h c).

(** A difference of two [size_t]; one that wraps is a count no copy can have. *)
Definition usub (a b : nat) : option nat := if (b <=? a)%nat then Some (a - b)%nat else None.

Definition LINENOISE_DEFAULT_HISTORY_MAX_LEN : nat := 100.
Definition LINENOISE_MAX_LINE : nat := 4096.
Definition unsupported_term : list (list Z) := [str "dumb"; str "cons25"; str "emacs"].

Definition esc (s : list Z) : list Z := 27 :: 91 :: s.

(** ** The state of an edited line *)

Record linenoiseState := {
  in_completion : bool; completion_idx : nat; l_buf : list Z; l_buflen : nat; l_prompt : list Z; l_pos : nat; l_len : nat;
  l_cols : Z; history_index : Z
}.
Definition set_line (b : list Z) (pos len : nat) (l : linenoiseState) : linenoiseState :=
  {| in_completion := in_completion l; completion_idx := completion_idx l; l_buf := b; l_buflen := l_buflen l; l_prompt := l_prompt l;
     l_pos := pos; l_len := len; l_cols := l_cols l; history_index := history_index l |}.
Definition set_pos (pos : nat) (l : linenoiseState) : linenoiseState := set_line (l_buf l) pos (l_len l) l.
Definition set_completion (inc : bool) (idx : nat) (l : linenoiseState) : linenoiseState :=
  {| in_completion := inc; completion_idx := idx; l_buf := l_buf l; l_buflen := l_buflen l; l_prompt := l_prompt l; l_pos := l_pos l;
     l_len := l_len l; l_cols := l_cols l; history_index := history_index l |}.
Definition set_index (i : Z) (l : linenoiseState) : linenoiseState :=
  {| in_completion := in_completion l; completion_idx := completion_idx l; l_buf := l_buf l; l_buflen := l_buflen l; l_prompt := l_prompt l;
     l_pos := l_pos l; l_len := l_len l; l_cols := l_cols l; history_index := i |}.

(** The callbacks, on the memory of the line: the completions, and a hint with
    its colour and weight. *)
Definition completer := list Z -> option (list (list Z)).
Definition hinter := list Z -> option (Z * Z * option (list Z)).

Section editor.
(** Whether the [n]-th write succeeds; the bytes of arrays on the stack that
    nothing was stored in. *)
Variables (write_ok : nat -> bool) (junk : Z).

Definition write (bs : list Z) : ln bool := fun c =>
  Some (write_ok (length (t_out c)),
        {| t_in := t_in c; t_out := t_out c ++ [bs]; history := history c; history_max_len := history_max_len c |}).

(** [read(fd, &c, 1)] *)
Inductive got := Got (c : Z) | Eof | Err (again : bool).
Definition read1 : ln got := fun c =>
  let rest r := {| t_in := r; t_out := t_out c; history := history c; history_max_len := history_max_len c |} in
  match t_in c with
  | [] => Some (Eof, c)
  | RByte b :: r => Some (Got b, rest r)
  | RError a :: r => Some (Err a, rest r)
  end.

(** * Low level terminal handling *)

Fixpoint cursor_loop (fuel : nat) (acc : list Z) : ln (list Z) :=
  match fuel with
  | O => mret acc
  | S fuel => r ← read1; match r with Got 82 | Eof | Err _ => mret acc | Got c => cursor_loop fuel (acc ++ [c]) end
  end.

(** [sscanf(s, "%d;%d", &rows, &cols) == 2], of which the second counts. *)
Definition scan_int (s : list Z) : option (Z * list Z) :=
  let s := skip_space s in
  let '(sg, s) := read_sign s in
  match s with
  | c :: _ => if is_digit c then let '(v, r) := digits 10 0 s in Some (to_int32 (Z.max (- 2 ^ 63) (Z.min (2 ^ 63 - 1) (sg * v))), r) else None
  | [] => None
  end.
Definition scan_report (s : list Z) : option Z :=
  '(_, r) ← scan_int s;
  match r with
  | 59 :: r => '(cols, _) ← scan_int r; Some cols
  | _ => None
  end.

(** -1 on error. *)
Definition getCursorPosition : ln Z :=
  ok ← write (esc (str "6n"));
  if negb (ok : bool) then mret (-1) else
  b ← cursor_loop 31 [];
  match b with
  | 27 :: 91 :: r => mret (default (-1) (scan_report r))
  | _ => mret (-1)
  end.

Definition query_columns : ln Z :=
  start ← getCursorPosition;
  if start =? -1 then mret 80 else
  ok ← write (esc (str "999C"));
  if negb (ok : bool) then mret 80 else
  cols ← getCursorPosition;
  if cols =? -1 then mret 80 else
  if start <? cols then
    seq ← ln_opt (snprintf 32 (esc (str "%dD")) [ANum (cols - start)]);
    _ ← write seq;
    mret cols
  else mret cols.

(** [cols_env] is the text of LINENOISE_COLS, [ws] the width TIOCGWINSZ gives,
    if it does.  The caller stores the result in a [size_t]. *)
Definition getColumns (cols_env : option (list Z)) (ws : option Z) : ln Z :=
  match cols_env with
  | Some s => mret (atoi s)
  | None => match ws with Some n => if n =? 0 then query_columns else mret n | None => query_columns end
  end.

Definition linenoiseClearScreen : ln () := _ ← write (esc (str "H") ++ esc (str "2J")); mret ().

(** * Drawing *)

(** Dropping characters of a hint that does not fit. *)
Fixpoint hint_cut (fuel : nat) (hint : list Z) (hintlen i w : nat) (maxwidth : Z) : option nat :=
  if (hintlen <=? i)%nat then Some i else
  match fuel with
  | O => None
  | S fuel =>
      clen ← utf8NextCharLen hint i hintlen;
      cwidth ← utf8SingleCharWidth (drop i hint) clen;
      if maxwidth <? Z.of_nat (w + cwidth) then Some i else hint_cut fuel hint hintlen (i + clen) (w + cwidth) maxwidth
  end.

(** What is appended to the output. *)
Definition refreshShowHints (hints : option hinter) (b : list Z) (len : nat) (pwidth : nat) (cols : Z) : option (list Z) :=
  bufwidth ← utf8StrWidth b len;
  match hints with
  | None => Some []
  | Some hc =>
      if Z.of_nat (pwidth + bufwidth) <? cols then
        '(color, bold, hint) ← hc b;
        match hint with
        | None => Some []
        | Some hint =>
            hintwidth ← utf8StrWidth (hint ++ [0]) (length hint);
            let maxwidth := cols - Z.of_nat (pwidth + bufwidth) in
            hintlen ← (if maxwidth <? Z.of_nat hintwidth then hint_cut (length hint) (hint ++ [0]) (length hint) 0 0 maxwidth else Some (length hint));
            let color := if (bold =? 1) && (color =? -1) then 37 else color in
            let coloured := negb (color =? -1) || negb (bold =? 0) in
            seq ← (if coloured then snprintf 64 (esc (str "%d;%d;49m")) [ANum bold; ANum color] else Some []);
            text ← get_bytes 0 hintlen (hint ++ [0]);
            Some (seq ++ text ++ if coloured then esc (str "0m") else [])
        end
      else Some []
  end.

(** The two trimming loops.  Columns are [size_t]; a round that removes nothing
    is followed by another like it, so a run that needs more rounds than there
    are bytes never ends. *)
Fixpoint trim_left (fuel : nat) (pwidth cols : Z) (s : list Z) (len : nat) (poscol lencol : Z) : option (list Z * nat * Z * Z) :=
  if u64 (pwidth + poscol) <? cols then Some (s, len, poscol, lencol) else
  match fuel with
  | O => None
  | S fuel =>
      clen ← utf8NextCharLen s 0 len;
      cwidth ← utf8SingleCharWidth s clen;
      len ← usub len clen;
      trim_left fuel pwidth cols (drop clen s) len (u64 (poscol - Z.of_nat cwidth)) (u64 (lencol - Z.of_nat cwidth))
  end.
Fixpoint trim_right (fuel : nat) (pwidth cols : Z) (s : list Z) (len : nat) (lencol : Z) : option nat :=
  if u64 (pwidth + lencol) <=? cols then Some len else
  match fuel with
  | O => None
  | S fuel =>
      clen ← utf8PrevCharLen s len;
      cwidth ← utf8SingleCharWidth (drop (len - clen) s) clen;
      trim_right fuel pwidth cols s (len - clen) (u64 (lencol - Z.of_nat cwidth))
  end.

(** The bytes of one refresh. *)
Definition single_line (hints : option hinter) (l : linenoiseState) : option (list Z) :=
  let plen := length (l_prompt l) in
  pwidth ← utf8StrWidth (l_prompt l ++ [0]) plen;
  poscol ← utf8StrWidth (l_buf l) (l_pos l);
  lencol ← utf8StrWidth (l_buf l) (l_len l);
  '(s, len, poscol, lencol) ← trim_left (S (l_len l)) (Z.of_nat pwidth) (l_cols l) (l_buf l) (l_len l) (Z.of_nat poscol) (Z.of_nat lencol);
  len ← trim_right (S len) (Z.of_nat pwidth) (l_cols l) s len lencol;
  text ← get_bytes 0 len s;
  hint ← refreshShowHints hints (l_buf l) (l_len l) pwidth (l_cols l);
  seq ← snprintf 64 (13 :: esc (str "%dC")) [ANum (to_int32 (poscol + Z.of_nat pwidth))];
  Some ([13] ++ l_prompt l ++ text ++ hint ++ esc (str "0K") ++ seq).
Definition refreshSingleLine (hints : option hinter) (l : linenoiseState) : ln () :=
  bs ← ln_opt (single_line hints l);
  _ ← write bs;
  mret ().
Definition refreshLine : option hinter -> linenoiseState -> ln () := refreshSingleLine.

(** * Completion *)

(** The line as if the completion were the text. *)
Definition refreshLineWithCompletion (hints : option hinter) (l : linenoiseState) (cvec : list (list Z)) : ln () :=
  match cvec !! completion_idx l with
  | Some c => refreshLine hints (set_line (c ++ [0]) (length c) (length c) l)
  | None => refreshLine hints l
  end.

(** [snprintf(ls->buf, ls->buflen, "%s", c)], which returns the whole length. *)
Definition store_completion (c : list Z) (l : linenoiseState) : option linenoiseState :=
  b ← put_bytes 0 (take (pred (l_buflen l)) c ++ [0]) (l_buf l);
  Some (set_line b (length c) (length c) l).

(** The key, or 0 when it was used up. *)
Definition completeLine (hints : option hinter) (complete : completer) (l : linenoiseState) (c : Z) : ln (linenoiseState * Z) :=
  cvec ← ln_opt (complete (l_buf l));
  let n := length cvec in
  match cvec with
  | [] => mret (set_completion false (completion_idx l) l, 0)
  | _ =>
      '(l, c) ← (if c =? 9 then
                   if in_completion l then mret (set_completion true ((completion_idx l + 1) mod (n + 1)) l, 0)
                   else mret (set_completion true 0 l, 0)
                 else if c =? 27 then
                   _ ← (if (completion_idx l <? n)%nat then refreshLine hints l else mret ());
                   mret (set_completion false (completion_idx l) l, 0)
                 else
                   l ← ln_opt (match cvec !! completion_idx l with Some t => store_completion t l | None => Some l end);
                   mret (set_completion false (completion_idx l) l, c));
      _ ← (if in_completion l && (completion_idx l <? n)%nat then refreshLineWithCompletion hints l cvec else refreshLine hints l);
      mret (l, c)
  end.

(** * Editing *)

Definition memmove (b : list Z) (dst src n : nat) : option (list Z) := bs ← get_bytes src n b; put_bytes dst bs b.

(** [false]: the write failed. *)
Definition linenoiseEditInsert (hints : option hinter) (l : linenoiseState) (c : list Z) : ln (linenoiseState * bool) :=
  let clen := length c in
  if (l_len l + clen <=? l_buflen l)%nat then
    if (l_len l =? l_pos l)%nat then
      b ← ln_opt (put_bytes (l_pos l) c (l_buf l));
      b ← ln_opt (put_bytes (l_len l + clen) [0] b);
      let l := set_line b (l_pos l + clen) (l_len l + clen) l in
      pwidth ← ln_opt (utf8StrWidth (l_prompt l ++ [0]) (length (l_prompt l)));
      width ← ln_opt (utf8StrWidth (l_buf l) (l_len l));
      if (Z.of_nat (pwidth + width) <? l_cols l) && (match hints with None => true | Some _ => false end) then
        ok ← write c;
        mret (l, ok)
      else _ ← refreshLine hints l; mret (l, true)
    else
      n ← ln_opt (usub (l_len l) (l_pos l));
      b ← ln_opt (memmove (l_buf l) (l_pos l + clen) (l_pos l) n);
      b ← ln_opt (put_bytes (l_pos l) c b);
      b ← ln_opt (put_bytes (l_len l + clen) [0] b);
      let l := set_line b (l_pos l + clen) (l_len l + clen) l in
      _ ← refreshLine hints l;
      mret (l, true)
  else mret (l, true).

(** Drawing, and the state. *)
Definition redrawn (hints : option hinter) (l : linenoiseState) : ln linenoiseState := _ ← refreshLine hints l; mret l.

Definition linenoiseEditMoveLeft (hints : option hinter) (l : linenoiseState) : ln linenoiseState :=
  if (0 <? l_pos l)%nat then
    n ← ln_opt (utf8PrevCharLen (l_buf l) (l_pos l));
    redrawn hints (set_pos (l_pos l - n) l)
  else mret l.
Definition linenoiseEditMoveRight (hints : option hinter) (l : linenoiseState) : ln linenoiseState :=
  if (l_pos l =? l_len l)%nat then mret l else
    n ← ln_opt (utf8NextCharLen (l_buf l) (l_pos l) (l_len l));
    redrawn hints (set_pos (l_pos l + n) l).
Definition linenoiseEditMoveHome (hints : option hinter) (l : linenoiseState) : ln linenoiseState :=
  if (l_pos l =? 0)%nat then mret l else redrawn hints (set_pos 0 l).
Definition linenoiseEditMoveEnd (hints : option hinter) (l : linenoiseState) : ln linenoiseState :=
  if (l_pos l =? l_len l)%nat then mret l else redrawn hints (set_pos (l_len l) l).

(** [prev]: LINENOISE_HISTORY_PREV. *)
Definition linenoiseEditHistoryNext (hints : option hinter) (l : linenoiseState) (prev : bool) : ln linenoiseState :=
  h ← get_history;
  let n := Z.of_nat (length h) in
  if n <=? 1 then mret l else
  text ← ln_opt (cstr (l_buf l));
  if n - 1 - history_index l <? 0 then ln_ub else
  _ ← ln_opt (h !! Z.to_nat (n - 1 - history_index l));
  let h := <[Z.to_nat (n - 1 - history_index l) := text]> h in
  _ ← put_history h;
  let i := to_int32 (history_index l + if prev then 1 else -1) in
  if i <? 0 then mret (set_index 0 l) else
  if n <=? i then mret (set_index (n - 1) l) else
  entry ← ln_opt (h !! Z.to_nat (n - 1 - i));
  bs ← ln_opt (strncpy (entry ++ [0]) (l_buflen l));
  b ← ln_opt (put_bytes 0 bs (l_buf l));
  last ← ln_opt (usub (l_buflen l) 1);
  b ← ln_opt (put_bytes last [0] b);
  len ← ln_opt (strlen b);
  redrawn hints (set_line b len len (set_index i l)).

Definition linenoiseEditDelete (hints : option hinter) (l : linenoiseState) : ln linenoiseState :=
  if (0 <? l_len l)%nat && (l_pos l <? l_len l)%nat then
    clen ← ln_opt (utf8NextCharLen (l_buf l) (l_pos l) (l_len l));
    n ← ln_opt (usub (l_len l) (l_pos l + clen));
    b ← ln_opt (memmove (l_buf l) (l_pos l) (l_pos l + clen) n);
    b ← ln_opt (put_bytes (l_len l - clen) [0] b);
    redrawn hints (set_line b (l_pos l) (l_len l - clen) l)
  else mret l.

Definition linenoiseEditBackspace (hints : option hinter) (l : linenoiseState) : ln linenoiseState :=
  if (0 <? l_pos l)%nat && (0 <? l_len l)%nat then
    clen ← ln_opt (utf8PrevCharLen (l_buf l) (l_pos l));
    n ← ln_opt (usub (l_len l) (l_pos l));
    b ← ln_opt (memmove (l_buf l) (l_pos l - clen) (l_pos l) n);
    b ← ln_opt (put_bytes (l_len l - clen) [0] b);
    redrawn hints (set_line b (l_pos l - clen) (l_len l - clen) l)
  else mret l.

(** The two loops: back over characters whose last byte is a space, or not. *)
Fixpoint word_back (fuel : nat) (space : bool) (b : list Z) (pos : nat) : option nat :=
  match pos with
  | O => Some O
  | S p =>
      c ← b !! p;
      if Bool.eqb (c =? 32) space then
        match fuel with
        | O => None
        | S fuel => n ← utf8PrevCharLen b pos; word_back fuel space b (pos - n)
        end
      else Some pos
  end.
Definition linenoiseEditDeletePrevWord (hints : option hinter) (l : linenoiseState) : ln linenoiseState :=
  p ← ln_opt (word_back (l_pos l) true (l_buf l) (l_pos l));
  pos ← ln_opt (word_back p false (l_buf l) p);
  n ← ln_opt (usub (l_len l + 1) (l_pos l));
  b ← ln_opt (memmove (l_buf l) pos (l_pos l) n);
  redrawn hints (set_line b pos (l_len l - (l_pos l - pos)) l).

(** ctrl-t *)
Definition swap_chars (hints : option hinter) (l : linenoiseState) : ln linenoiseState :=
  if (0 <? l_pos l)%nat && (l_pos l <? l_len l)%nat then
    prevlen ← ln_opt (utf8PrevCharLen (l_buf l) (l_pos l));
    currlen ← ln_opt (utf8NextCharLen (l_buf l) (l_pos l) (l_len l));
    let prevstart := (l_pos l - prevlen)%nat in
    cur ← ln_opt (get_bytes (l_pos l) currlen (l_buf l));
    tmp ← ln_opt (put_bytes 0 cur (replicate 32 junk));
    b ← ln_opt (memmove (l_buf l) (prevstart + currlen) prevstart prevlen);
    cur ← ln_opt (get_bytes 0 currlen tmp);
    b ← ln_opt (put_bytes prevstart cur b);
    let pos := if (l_pos l + currlen <=? l_len l)%nat then (l_pos l + currlen)%nat else l_pos l in
    redrawn hints (set_line b pos (l_len l) l)
  else mret l.

(** * The history *)

Definition linenoiseHistoryAdd (line : list Z) : ln () :=
  c ← (fun c => Some (c, c));
  if (history_max_len c =? 0)%nat then mret () else
  let h := history c in
  if bool_decide (h !! pred (length h) = Some line) then mret () else
  put_history ((if (length h =? history_max_len c)%nat then drop 1 h else h) ++ [line]).

(** [history_len--; free(history[history_len])]; with no entry a pointer in
    front of the array is freed. *)
Definition drop_entry : ln () :=
  h ← get_history;
  match h with [] => ln_ub | _ => put_history (removelast h) end.

Definition linenoiseHistorySetMaxLen (n : Z) : ln bool := fun c =>
  if n <? 1 then Some (false, c) else
  Some (true, {| t_in := t_in c; t_out := t_out c; history := drop (length (history c) - Z.to_nat n) (history c); history_max_len := Z.to_nat n |}).

(** A file's bytes, and the lines [fgets] makes of them: up to a newline or as
    many bytes as fit. *)
Definition linenoiseHistorySave (h : list (list Z)) : list Z := concat ((fun e => e ++ [10]) <$> h).
Fixpoint fgets (n : nat) (s : list Z) : list Z * list Z :=
  match n, s with
  | S n, c :: s => if c =? 10 then ([10], s) else let '(a, r) := fgets n s in (c :: a, r)
  | _, _ => ([], s)
  end.
(** The text of the line up to its first CR, or else LF, or NUL. *)
Definition history_line (b : list Z) : list Z :=
  let '(t, _) := span_until (fun c => c =? 0) b in
  let '(a, r) := span_until (fun c => c =? 13) t in
  match r with [] => (span_until (fun c => c =? 10) t).1 | _ => a end.
Fixpoint load_loop (fuel : nat) (s : list Z) : ln () :=
  match s with
  | [] => mret ()
  | _ =>
      match fuel with
      | O => ln_ub
      | S fuel =>
          let '(b, r) := fgets (LINENOISE_MAX_LINE - 1) s in
          _ ← linenoiseHistoryAdd (history_line b);
          load_loop fuel r
      end
  end.
Definition linenoiseHistoryLoad (file : option (list Z)) : ln Z :=
  match file with
  | None => mret (-1)
  | Some s => _ ← load_loop (length s) s; mret 0
  end.

(** * One key *)

Inductive fed := FMore (l : linenoiseState) | FLine (s : list Z) | FNull.

Definition more (m : ln linenoiseState) : ln fed := l ← m; mret (FMore l).

(** An escape sequence; a byte that does not come leaves what is on the
    stack. *)
Definition seq_byte (r : got) : option Z := match r with Got c => Some c | Eof => Some junk | Err _ => None end.
Definition feed_escape (hints : option hinter) (l : linenoiseState) : ln fed :=
  r0 ← read1;
  match seq_byte r0 with
  | None => mret (FMore l)
  | Some s0 =>
      r1 ← read1;
      match seq_byte r1 with
      | None => mret (FMore l)
      | Some s1 =>
          if s0 =? 91 then
            if (48 <=? s1) && (s1 <=? 57) then
              r2 ← read1;
              match seq_byte r2 with
              | None => mret (FMore l)
              | Some s2 => if (s2 =? 126) && (s1 =? 51) then more (linenoiseEditDelete hints l) else mret (FMore l)
              end
            else if s1 =? 65 then more (linenoiseEditHistoryNext hints l true)
            else if s1 =? 66 then more (linenoiseEditHistoryNext hints l false)
            else if s1 =? 67 then more (linenoiseEditMoveRight hints l)
            else if s1 =? 68 then more (linenoiseEditMoveLeft hints l)
            else if s1 =? 72 then more (linenoiseEditMoveHome hints l)
            else if s1 =? 70 then more (linenoiseEditMoveEnd hints l)
            else mret (FMore l)
          else if s0 =? 79 then
            if s1 =? 72 then more (linenoiseEditMoveHome hints l)
            else if s1 =? 70 then more (linenoiseEditMoveEnd hints l)
            else mret (FMore l)
          else mret (FMore l)
      end
  end.

(** The rest of a character: the loop stops at the first byte that does not
    come. *)
Fixpoint read_rest (n : nat) : ln (list Z) :=
  match n with
  | O => mret []
  | S n => r ← read1; match r with Got c => cs ← read_rest n; mret (c :: cs) | _ => mret (replicate (S n) junk) end
  end.
Definition feed_char (hints : option hinter) (l : linenoiseState) (c : Z) : ln fed :=
  cs ← read_rest (utf8ByteLen c - 1);
  '(l, ok) ← linenoiseEditInsert hints l (c :: cs);
  mret (if ok : bool then FMore l else FNull).

Definition feed_enter (hints : option hinter) (l : linenoiseState) : ln fed :=
  _ ← drop_entry;
  _ ← (match hints with Some _ => refreshLine None l | None => mret () end);
  s ← ln_opt (cstr (l_buf l));
  mret (FLine (s ++ [0])).

(** The [switch]. *)
Definition feed_key (hints : option hinter) (l : linenoiseState) (c : Z) : ln fed :=
  if c =? 13 then feed_enter hints l
  else if c =? 3 then mret FNull
  else if (c =? 127) || (c =? 8) then more (linenoiseEditBackspace hints l)
  else if c =? 4 then
    if (0 <? l_len l)%nat then more (linenoiseEditDelete hints l)
    else _ ← drop_entry; mret FNull
  else if c =? 20 then more (swap_chars hints l)
  else if c =? 2 then more (linenoiseEditMoveLeft hints l)
  else if c =? 6 then more (linenoiseEditMoveRight hints l)
  else if c =? 16 then more (linenoiseEditHistoryNext hints l true)
  else if c =? 14 then more (linenoiseEditHistoryNext hints l false)
  else if c =? 27 then feed_escape hints l
  else if c =? 21 then
    b ← ln_opt (put_bytes 0 [0] (l_buf l));
    more (redrawn hints (set_line b 0 0 l))
  else if c =? 11 then
    b ← ln_opt (put_bytes (l_pos l) [0] (l_buf l));
    more (redrawn hints (set_line b (l_pos l) (l_pos l) l))
  else if c =? 1 then more (linenoiseEditMoveHome hints l)
  else if c =? 5 then more (linenoiseEditMoveEnd hints l)
  else if c =? 12 then _ ← linenoiseClearScreen; more (redrawn hints l)
  else if c =? 23 then more (linenoiseEditDeletePrevWord hints l)
  else feed_char hints l c.

Definition linenoiseEditFeed (hints : option hinter) (complete : option completer) (l : linenoiseState) : ln fed :=
  r ← read1;
  match r with
  | Err again => mret (if again then FMore l else FNull)
  | Eof => mret FNull
  | Got c =>
      match complete with
      | Some cb =>
          if in_completion l || (c =? 9) then
            '(l, c) ← completeLine hints cb l c;
            if c =? 0 then mret (FMore l) else feed_key hints l c
          else feed_key hints l c
      | None => feed_key hints l c
      end
  end.

(** * A line *)

(** The environment: whether standard input is a terminal (and whether the
    raw mode can be set), TERM, LINENOISE_ASSUME_TTY, LINENOISE_COLS, the
    window size, and what the variables on the stack hold before anything is
    stored in them. *)
Record env := {
  e_tty : bool; e_raw_ok : bool; e_term : option (list Z); e_assume : bool; e_cols : option (list Z); e_ws : option Z;
  e_stack : list Z; e_junk_cols : Z; e_junk_index : Z
}.

Definition isUnsupportedTerm (e : env) : bool :=
  match e_term e with Some t => existsb (strcaseeq t) unsupported_term | None => false end.

(** A failed start leaves the state half initialised. *)
Definition linenoiseEditStart (e : env) (b : list Z) (buflen : nat) (prompt : list Z) : ln (Z * linenoiseState) :=
  let l := {| in_completion := false; completion_idx := 0; l_buf := b; l_buflen := buflen; l_prompt := prompt; l_pos := 0; l_len := 0;
              l_cols := e_junk_cols e; history_index := e_junk_index e |} in
  if negb (e_assume e || e_raw_ok e) then mret (-1, l) else
  cols ← getColumns (e_cols e) (e_ws e);
  b ← ln_opt (put_bytes 0 [0] b);
  let l := {| in_completion := false; completion_idx := 0; l_buf := b; l_buflen := buflen - 1; l_prompt := prompt; l_pos := 0; l_len := 0;
              l_cols := u64 cols; history_index := 0 |} in
  if negb (e_tty e || e_assume e) then mret (0, l) else
  _ ← linenoiseHistoryAdd [];
  ok ← write prompt;
  mret (if ok : bool then 0 else -1, l).

Definition linenoiseEditStop : ln () := _ ← write [10]; mret ().

(** A line of any length from a file or a pipe: the array is doubled when it is
    full. *)
Fixpoint noTTY_loop (fuel : nat) (line : list Z) (maxlen : nat) : ln (option (list Z)) :=
  match fuel with
  | O => ln_ub
  | S fuel =>
      let maxlen := if (length line =? maxlen)%nat then ((if (maxlen =? 0)%nat then 16 else maxlen) * 2)%nat else maxlen in
      r ← read1;
      let eof := match r with Got _ => false | _ => true end in
      if eof && (length line =? 0)%nat then mret None else
      if (maxlen <=? length line)%nat then ln_ub else
      match r with
      | Got c => if c =? 10 then mret (Some (line ++ [0])) else noTTY_loop fuel (line ++ [c]) maxlen
      | _ => mret (Some (line ++ [0]))
      end
  end.
Definition linenoiseNoTTY : ln (option (list Z)) := fun c => noTTY_loop (S (length (t_in c))) [] 0 c.

(** Until the line is finished; a round reads something. *)
Fixpoint edit_loop (fuel : nat) (hints : option hinter) (complete : option completer) (l : linenoiseState) : ln (option (list Z)) :=
  match fuel with
  | O => ln_ub
  | S fuel =>
      r ← linenoiseEditFeed hints complete l;
      match r with FMore l => edit_loop fuel hints complete l | FLine s => mret (Some s) | FNull => mret None end
  end.
Definition linenoiseBlockingEdit (hints : option hinter) (complete : option completer) (e : env) (b : list Z) (buflen : nat) (prompt : list Z)
    : ln (option (list Z)) :=
  if (buflen =? 0)%nat then mret None else
  '(_, l) ← linenoiseEditStart e b buflen prompt;
  n ← (fun c => Some (S (length (t_in c)), c));
  r ← edit_loop n hints complete l;
  _ ← linenoiseEditStop;
  mret r.

(** The line a dumb terminal gives. *)
Fixpoint fgets_loop (n : nat) (acc : list Z) : ln (list Z) :=
  match n with
  | O => mret acc
  | S n => r ← read1; match r with Got c => if c =? 10 then mret (acc ++ [10]) else fgets_loop n (acc ++ [c]) | _ => mret acc end
  end.
Fixpoint strip_end (rs : list Z) : list Z :=
  match rs with c :: rs' => if (c =? 10) || (c =? 13) then strip_end rs' else rs | [] => [] end.

Definition linenoise (hints : option hinter) (complete : option completer) (e : env) (prompt : list Z) : ln (option (list Z)) :=
  if negb (e_tty e || e_assume e) then linenoiseNoTTY
  else if isUnsupportedTerm e then
    _ ← write prompt;
    b ← fgets_loop (LINENOISE_MAX_LINE - 1) [];
    match b with
    | [] => mret None
    | _ => s ← ln_opt (cstr (b ++ [0])); mret (Some (rev (strip_end (rev s)) ++ [0]))
    end
  else linenoiseBlockingEdit hints complete e (e_stack e) LINENOISE_MAX_LINE prompt.
End editor.
