(* ===== verification/LineDraw.v ===== *)
(** Drawing in the line editor: on a text without joiners and flags, in a
    terminal wider than the prompt, a refresh stays inside the line and ends. *)
From S2P Require Import Prelude Libc Text Printf Utf8 Linenoise.

(** A character of such a text: it is not NUL, a joiner or half of a flag. *)
Definition text_char (c : list Z) : Prop :=
  char_ok c /\ no_nul c /\ isZWJ (code_point c) = false /\ isRegionalIndicator (code_point c) = false.
#[export] Instance text_char_dec c : Decision (text_char c).
Proof. unfold text_char. apply _. Defined.
Definition is_text (r : list (list Z)) : Prop := Forall text_char r.

Lemma text_chars r : is_text r -> Forall char_ok r.
Proof. intros H. eapply list.Forall_impl; [exact H|]. by intros c []. Qed.
Lemma text_no_nul r : is_text r -> no_nul (concat r).
Proof. induction 1 as [|c r (_ & Hc & _) _ IH]; [constructor|]. cbn. by apply list.Forall_app. Qed.
Lemma is_text_app a b : is_text (a ++ b) <-> is_text a /\ is_text b.
Proof. apply list.Forall_app. Qed.
Lemma is_text_drop n r : is_text r -> is_text (drop n r).
Proof. apply list.Forall_drop. Qed.
Lemma is_text_take n r : is_text r -> is_text (take n r).
Proof. apply list.Forall_take. Qed.
Lemma in_rev_iff {A} (x : A) l : x ∈ rev l <-> x ∈ l.
Proof. by rewrite !list_elem_of_In, <- in_rev. Qed.
Lemma is_text_rev r : is_text (rev r) <-> is_text r.
Proof. unfold is_text. rewrite !list.Forall_forall. split; intros H x Hx; apply H; [by rewrite in_rev_iff|by rewrite in_rev_iff in Hx]. Qed.

(** ** Clusters and columns of a text *)

Definition extends (c : list Z) : bool := isGraphemeExtend (code_point c).
Definition cwidth (c : list Z) : nat := utf8CharWidth (code_point c).

Lemma extends_width c : text_char c -> extends c = true -> cwidth c = 0%nat.
Proof.
  intros (_ & _ & HZ & _). unfold extends, isGraphemeExtend, cwidth, utf8CharWidth. intros H. rewrite HZ in H |- *.
  destruct (isCombiningMark _), (isVariationSelector _), (isSkinToneModifier _); try done; by case_match.
Qed.

Lemma columns_cons c r : is_text (c :: r) -> columns (c :: r) = (cwidth c + columns r)%nat.
Proof. intros [(_ & _ & HZ & _) _]%list.Forall_cons. unfold columns. cbn [cols_from]. by rewrite HZ. Qed.
Lemma columns_app a b : is_text (a ++ b) -> columns (a ++ b) = (columns a + columns b)%nat.
Proof.
  induction a as [|c a IH]; [done|]. intros H. rewrite <- app_comm_cons, !columns_cons; [|apply is_text_app in H; apply H|done].
  apply list.Forall_cons in H as [_ H]. rewrite IH by done. lia.
Qed.
Lemma columns_extends r : is_text r -> Forall (fun c => extends c = true) r -> columns r = 0%nat.
Proof.
  induction r as [|c r IH]; [done|]. intros H [Hc Hr]%list.Forall_cons. rewrite columns_cons by done. apply list.Forall_cons in H as [Ht H].
  rewrite (extends_width c Ht Hc). by apply IH.
Qed.
Lemma columns_bound r : (columns r <= 2 * length r)%nat.
Proof.
  unfold columns. generalize false. induction r as [|c r IH]; intros z; cbn; [lia|]. specialize (IH (isZWJ (code_point c))).
  assert (utf8CharWidth (code_point c) <= 2)%nat by (unfold utf8CharWidth; repeat case_match; lia). destruct z; lia.
Qed.

(** The cluster at the cursor: a character and what extends it. *)
Lemma next_ext_text isRI r : is_text r -> Forall (fun c => extends c = true) (take (next_ext isRI r) r).
Proof.
  intros H. induction r as [|c r IH]; [constructor|]. pose proof H as [(_ & _ & HZ & HR) Hr]%list.Forall_cons. specialize (IH Hr).
  cbn [next_ext]. fold (extends c). rewrite HZ, HR, andb_false_r. destruct (extends c) eqn:E; destruct r; cbn [take]; try constructor; try done.
Qed.
Lemma next_chars_text c r : is_text (c :: r) -> columns (take (next_chars (c :: r)) (c :: r)) = cwidth c.
Proof.
  intros H. cbn [next_chars take]. pose proof H as [Hc Hr]%list.Forall_cons.
  rewrite columns_cons by (constructor; [done|by apply is_text_take]). rewrite (columns_extends _ (is_text_take _ _ Hr) (next_ext_text _ r Hr)). lia.
Qed.

(** The one in front of it, the nearest character first: what extends
    something, and the character it extends. *)
Lemma prev_ext_text rl c : is_text (c :: rl) ->
  exists n, prev_ext (code_point c) rl = n /\ Forall (fun c => extends c = true) (take n (c :: rl)) /\ (n <= length rl)%nat.
Proof.
  revert c. induction rl as [|p rl IH]; intros c H; [exists O; split; [done|]; split; [constructor|done]|].
  pose proof H as [Hc Hr]%list.Forall_cons. pose proof Hr as [(_ & _ & HZ & HR) Hr']%list.Forall_cons. cbn [prev_ext]. rewrite HZ, HR, andb_false_r.
  fold (extends c). destruct (extends c) eqn:E.
  - destruct (IH p Hr) as (n & -> & Hn & Hl). exists (S n). split; [done|]. split; [constructor; done|cbn; lia].
  - exists O. split; [done|]. split; [constructor|lia].
Qed.
Lemma prev_chars_text c rl : is_text (c :: rl) ->
  exists a b d, c :: rl = a ++ b :: d /\ prev_chars (c :: rl) = length (a ++ [b]) /\ columns (rev (a ++ [b])) = cwidth b.
Proof.
  intros H. destruct (prev_ext_text rl c H) as (n & En & Hn & Hl). cbn [prev_chars]. rewrite En.
  destruct (lookup_lt_is_Some_2 (c :: rl) n ltac:(cbn; lia)) as [b Hb]. exists (take n (c :: rl)), b, (drop (S n) (c :: rl)).
  pose proof (take_drop_middle _ _ _ Hb) as E. split; [done|]. split; [rewrite length_app, length_take; cbn [length]; lia|].
  assert (is_text (take n (c :: rl) ++ [b])) as Ht.
  { rewrite <- E in H. apply is_text_app in H as [H1 [H2 _]%list.Forall_cons]. apply is_text_app. split; [done|]. by constructor. }
  rewrite rev_app_distr. cbn [rev app]. rewrite columns_cons.
  - rewrite (columns_extends (rev _)); [lia| |].
    + apply is_text_rev. by apply is_text_app in Ht as [? _].
    + apply list.Forall_forall. intros x Hx. rewrite in_rev_iff in Hx. by eapply list.Forall_forall in Hn.
  - pose proof Ht as Ht'. rewrite <- is_text_rev, rev_app_distr in Ht'. exact Ht'.
Qed.

(** ** Trimming *)

Lemma concat_take_drop n (r : list (list Z)) : concat r = concat (take n r) ++ concat (drop n r).
Proof. by rewrite <- concat_app, take_drop. Qed.
Lemma length_concat_split n (r : list (list Z)) : length (concat r) = (length (concat (take n r)) + length (concat (drop n r)))%nat.
Proof. by rewrite (concat_take_drop n r) at 1; rewrite length_app. Qed.

Lemma usub_add a b : usub (a + b) a = Some b.
Proof. unfold usub. rewrite (proj2 (Nat.leb_le _ _)) by lia. f_equal. lia. Qed.

Lemma cluster_front c f b : is_text (c :: f ++ b) ->
  columns (take (next_chars (c :: f ++ b)) (c :: f)) = cwidth c.
Proof.
  intros H. cbn [next_chars take]. set (n := next_ext _ _). pose proof H as [Hc Hr]%list.Forall_cons. pose proof (next_ext_text (isRegionalIndicator (code_point c)) _ Hr) as He.
  fold n in He. rewrite take_app in He. apply list.Forall_app in He as [He _]. apply is_text_app in Hr as [Hf _].
  rewrite columns_cons by (constructor; [done|by apply is_text_take]). rewrite (columns_extends _ (is_text_take _ _ Hf) He). lia.
Qed.

Lemma trim_left_ok fuel : forall f b rest pw cols,
  is_text (f ++ b) -> (length f <= fuel)%nat -> 0 <= pw < cols -> pw + 2 * Z.of_nat (length (f ++ b)) < 2 ^ 64 ->
  exists p f' b', f ++ b = p ++ f' ++ b' /\ pw + Z.of_nat (columns f') < cols /\
    trim_left fuel pw cols (concat (f ++ b) ++ rest) (length (concat (f ++ b))) (Z.of_nat (columns f)) (Z.of_nat (columns (f ++ b))) =
    Some (concat (f' ++ b') ++ rest, length (concat (f' ++ b')), Z.of_nat (columns f'), Z.of_nat (columns (f' ++ b'))).
Proof.
  induction fuel as [|fuel IH]; intros f b rest pw cols Ht Hf Hpw Hb.
  { destruct f; cbn in Hf; [|lia]. exists [], [], b. split; [done|]. change (columns []) with 0%nat. cbn [trim_left Z.of_nat]. split; [lia|].
    rewrite wrap_small by lia. destruct (Z.ltb_spec (pw + Z.of_nat 0) cols); [done|lia]. }
  pose proof (columns_bound f) as Hcf. pose proof (columns_bound (f ++ b)) as Hcb. rewrite length_app in Hcb, Hb.
  cbn [trim_left]. rewrite wrap_small by lia. destruct (Z.ltb_spec (pw + Z.of_nat (columns f)) cols) as [Hlt|Hge].
  { exists [], f, b. done. }
  destruct f as [|c f]; [cbn in Hge; lia|]. rewrite <- app_comm_cons in *. set (r := c :: f ++ b) in *. set (n := next_chars r).
  pose proof (text_chars _ Ht) as Hch. pose proof (next_char_ok [] r rest Hch) as En. cbn [app length] in En. rewrite Nat.add_0_l in En. rewrite En. cbn [mbind option_bind].
  fold n. pose proof Ht as [Hc _]%list.Forall_cons. pose proof (char_length c (proj1 Hc)) as Hlc.
  assert (length (concat (take n r)) <> O) as Hn0 by (unfold n, r; cbn [next_chars take concat]; rewrite length_app; lia).
  assert (concat r ++ rest = c ++ concat (f ++ b) ++ rest) as Ers by (unfold r; cbn [concat]; by rewrite <- app_assoc).
  assert (utf8SingleCharWidth (concat r ++ rest) (length (concat (take n r))) = Some (cwidth c)) as -> by (rewrite Ers; exact (single_width_ok c (concat (f ++ b)) rest _ (proj1 Hc) Hn0)).
  cbn [mbind option_bind].
  rewrite (length_concat_split n r), usub_add. cbn [mbind option_bind]. rewrite (concat_take_drop n r), <- app_assoc, drop_app_length.
  assert (columns (take n (c :: f)) = cwidth c) as Ecl by (by apply cluster_front).
  assert (is_text ((c :: f) ++ b)) as Htf by exact Ht. apply is_text_app in Htf as [Htf _].
  assert (columns (c :: f) = cwidth c + columns (drop n (c :: f)))%nat as E1.
  { rewrite <- Ecl, <- columns_app; rewrite take_drop; done. }
  assert (columns r = cwidth c + columns (drop n r))%nat as E2.
  { rewrite <- (next_chars_text c (f ++ b)) by done. fold r n. rewrite <- columns_app; rewrite take_drop; done. }
  rewrite E1, E2, !Nat2Z.inj_add. replace (Z.of_nat (cwidth c) + Z.of_nat (columns (drop n (c :: f))) - Z.of_nat (cwidth c)) with (Z.of_nat (columns (drop n (c :: f)))) by lia.
  replace (Z.of_nat (cwidth c) + Z.of_nat (columns (drop n r)) - Z.of_nat (cwidth c)) with (Z.of_nat (columns (drop n r))) by lia.
  cbn [length] in *. change (length r) with (S (length (f ++ b))) in *. rewrite !wrap_small by lia.
  assert (drop n r = drop n (c :: f) ++ drop (n - length (c :: f)) b) as Ed by (unfold r; change (c :: f ++ b) with ((c :: f) ++ b); apply drop_app).
  rewrite Ed. destruct (IH (drop n (c :: f)) (drop (n - length (c :: f)) b) rest pw cols) as (p & f' & b' & E & Hlt & ->).
  - rewrite <- Ed. by apply is_text_drop.
  - rewrite length_drop. cbn [length]. assert (1 <= n)%nat by (unfold n, r; cbn [next_chars]; lia). lia.
  - done.
  - rewrite <- Ed, length_drop. unfold r. cbn [length]. rewrite length_app. lia.
  - exists (take n r ++ p), f', b'. split; [|done]. by rewrite <- app_assoc, <- E, <- Ed, take_drop.
Qed.

Lemma front_app a b : front (a ++ b) = front b ++ front a.
Proof. unfold front. by rewrite rev_app_distr, concat_app. Qed.

Lemma trim_right_ok fuel : forall rl rest pw cols,
  is_text rl -> (length rl <= fuel)%nat -> 0 <= pw < cols -> pw + 2 * Z.of_nat (length rl) < 2 ^ 64 ->
  exists p rl', rl = p ++ rl' /\ pw + Z.of_nat (columns (rev rl')) <= cols /\
    trim_right fuel pw cols (front rl ++ rest) (length (front rl)) (Z.of_nat (columns (rev rl))) = Some (length (front rl')).
Proof.
  induction fuel as [|fuel IH]; intros rl rest pw cols Ht Hf Hpw Hb.
  { destruct rl; cbn in Hf; [|lia]. exists [], []. split; [done|]. change (columns (rev [])) with 0%nat. cbn [trim_right]. split; [lia|].
    rewrite wrap_small by lia. destruct (Z.leb_spec (pw + Z.of_nat 0) cols); [done|lia]. }
  pose proof (columns_bound (rev rl)) as Hc. rewrite length_rev in Hc. cbn [trim_right]. rewrite wrap_small by lia.
  destruct (Z.leb_spec (pw + Z.of_nat (columns (rev rl))) cols) as [Hle|Hgt]; [by exists [], rl|].
  destruct rl as [|c rl]; [cbn in Hgt; lia|]. destruct (prev_chars_text c rl Ht) as (a & b & d & E & En & Ew). rewrite E in *.
  assert (a ++ b :: d = (a ++ [b]) ++ d) as E' by (by rewrite <- app_assoc). rewrite E' in *.
  pose proof (prev_char_ok ((a ++ [b]) ++ d) rest (text_chars _ Ht)) as Ep. rewrite En, take_app_length in Ep. rewrite Ep. cbn [mbind option_bind].
  apply is_text_app in Ht as [Htab Htd]. pose proof Htab as [_ [Htb _]%list.Forall_cons]%is_text_app.
  rewrite (front_app (a ++ [b]) d), <- (app_assoc (front d)). rewrite <- (front_length (a ++ [b])), length_app, Nat.add_sub, drop_app_length.
  pose proof (char_length b (proj1 Htb)) as Hlb. rewrite (front_app a [b]). change (front [b]) with (b ++ []). rewrite app_nil_r, <- (app_assoc b).
  rewrite (single_width_ok b (front a) rest _ (proj1 Htb)) by (rewrite length_app; lia). cbn [mbind option_bind]. fold (cwidth b).
  rewrite (rev_app_distr (a ++ [b]) d), columns_app by (rewrite <- rev_app_distr, is_text_rev; by apply is_text_app). rewrite Ew.
  replace (Z.of_nat (columns (rev d) + cwidth b) - Z.of_nat (cwidth b)) with (Z.of_nat (columns (rev d))) by lia.
  pose proof (columns_bound (rev d)) as Hcd. rewrite length_rev in Hcd. rewrite !length_app in Hb, Hf. cbn [length] in Hb, Hf. rewrite wrap_small by lia.
  destruct (IH d (b ++ front a ++ rest) pw cols Htd ltac:(lia) Hpw ltac:(lia)) as (p & rl' & -> & Hle & ->).
  exists ((a ++ [b]) ++ p), rl'. split; [by rewrite <- !app_assoc|done].
Qed.

(** ** A refresh *)

(** The hint of every line is a text. *)
Definition hinter_ok (hc : hinter) : Prop := forall s rest, no_nul s ->
  exists color bold h, hc (s ++ 0 :: rest) = Some (color, bold, h) /\ match h with Some t => exists r, is_text r /\ t = concat r | None => True end.
Definition hints_ok (hints : option hinter) : Prop := match hints with Some hc => hinter_ok hc | None => True end.

Lemma hint_cut_ok fuel : forall r pre rest w maxw,
  (length r <= fuel)%nat -> is_text r ->
  exists i, hint_cut fuel (pre ++ concat r ++ rest) (length pre + length (concat r)) (length pre) w maxw = Some i /\ (i <= length pre + length (concat r))%nat.
Proof.
  induction fuel as [|fuel IH]; intros r pre rest w maxw Hf Ht.
  { destruct r; cbn in Hf; [|lia]. exists (length pre). cbn. rewrite Nat.add_0_r, Nat.leb_refl. done. }
  destruct r as [|c r]; [exists (length pre); cbn; by rewrite Nat.add_0_r, Nat.leb_refl|]. pose proof Ht as [Hc Hr]%list.Forall_cons.
  pose proof (char_length c (proj1 Hc)) as Hlc. set (n := next_chars (c :: r)). assert (1 <= n)%nat as Hn by (unfold n; cbn [next_chars]; lia).
  assert (length (concat (take n (c :: r))) <> O) as Hn0 by (destruct n; [lia|]; cbn [take concat]; rewrite length_app; lia).
  cbn [hint_cut]. rewrite (proj2 (Nat.leb_gt _ _)) by (cbn [concat]; rewrite length_app; lia). rewrite (next_char_ok pre _ rest (text_chars _ Ht)). fold n.
  cbn [mbind option_bind]. rewrite drop_app_length. cbn [concat]. rewrite <- app_assoc. rewrite (single_width_ok c (concat r) rest _ (proj1 Hc)) by done.
  cbn [mbind option_bind]. destruct (maxw <? _); [exists (length pre); split; [done|lia]|].
  destruct (IH (drop n (c :: r)) (pre ++ concat (take n (c :: r))) rest (w + utf8CharWidth (code_point c))%nat maxw) as (i & E & Hi).
  - rewrite length_drop. cbn [length] in *. lia.
  - by apply is_text_drop.
  - rewrite <- app_assoc in E. rewrite (app_assoc (concat (take n _))), <- concat_take_drop in E. rewrite length_app, <- Nat.add_assoc, <- length_concat_split in E, Hi.
    exists i. split; [|exact Hi]. cbn [concat] in E. rewrite <- app_assoc in E. exact E.
Qed.

Lemma snprintf_some n f args : fmt_check false f (kind_of <$> args) = true -> exists s, snprintf n f args = Some s.
Proof. intros H. destruct (fmt_check_format None f args H) as [s E]. unfold snprintf, sprintf. rewrite E. by eexists. Qed.

Lemma show_hints_ok hints r rest pw cols : hints_ok hints -> is_text r ->
  exists bs, refreshShowHints hints (concat r ++ 0 :: rest) (length (concat r)) pw cols = Some bs.
Proof.
  intros Hh Ht. unfold refreshShowHints. rewrite (str_width_ok r _ (text_chars _ Ht)). cbn [mbind option_bind].
  destruct hints as [hc|]; [|by eexists]. destruct (_ <? cols); [|by eexists].
  destruct (Hh (concat r) rest (text_no_nul r Ht)) as (color & bold & h & -> & Hhint). cbn [mbind option_bind]. destruct h as [t|]; [|by eexists].
  destruct Hhint as (hr & Hhr & ->). rewrite (str_width_ok hr _ (text_chars _ Hhr)). cbn [mbind option_bind].
  assert (forall mw, exists i, hint_cut (length (concat hr)) (concat hr ++ [0]) (length (concat hr)) 0 0 mw = Some i /\ (i <= length (concat hr))%nat) as Hcut.
  { intros mw. apply (hint_cut_ok (length (concat hr)) hr [] [0] 0 mw); [by apply chars_length, text_chars|done]. }
  set (mw := cols - _).
  assert (exists i, (if mw <? Z.of_nat (columns hr) then hint_cut (length (concat hr)) (concat hr ++ [0]) (length (concat hr)) 0 0 mw else Some (length (concat hr))) = Some i
    /\ (i <= length (concat hr))%nat) as (i & -> & Hi).
  { destruct (mw <? _); [apply Hcut|]. eexists. split; [done|lia]. }
  cbn [mbind option_bind]. set (col := if (bold =? 1) && (color =? -1) then 37 else color).
  assert (exists s, (if negb (col =? -1) || negb (bold =? 0) then snprintf 64 (esc (str "%d;%d;49m")) [ANum bold; ANum col] else Some []) = Some s) as (s & ->).
  { destruct (_ || _); [by apply snprintf_some|by eexists]. }
  cbn [mbind option_bind]. rewrite get_bytes_Some by (rewrite length_app; cbn [length]; lia). cbn [mbind option_bind]. by eexists.
Qed.

(** The terminal: wider than the prompt, which is a text. *)
Record wide_term (l : linenoiseState) : Prop := {
  wt_prompt : exists p, is_text p /\ l_prompt l = concat p /\ Z.of_nat (columns p) < l_cols l /\ Z.of_nat (length p) < 2 ^ 32;
  wt_cols : l_cols l < 2 ^ 64
}.

Lemma front_rev rl : front rl = concat (rev rl).
Proof. done. Qed.

Lemma single_line_ok hints l f b rest :
  wide_term l -> hints_ok hints -> is_text (f ++ b) -> l_buf l = concat (f ++ b) ++ 0 :: rest -> l_pos l = length (concat f) ->
  l_len l = length (concat (f ++ b)) -> Z.of_nat (length (f ++ b)) < 2 ^ 32 -> exists bs, single_line hints l = Some bs.
Proof.
  intros [(p & Hp & Ep & Hw & Hpl) Hcols] Hh Ht Eb Epos Elen Hn. unfold single_line. rewrite Ep, (str_width_ok p _ (text_chars _ Hp)). cbn [mbind option_bind].
  rewrite Eb, Epos, Elen. pose proof Ht as [Htf Htb]%is_text_app. 
  assert (utf8StrWidth (concat (f ++ b) ++ 0 :: rest) (length (concat f)) = Some (columns f)) as ->.
  { rewrite concat_app, <- app_assoc. by apply str_width_ok, text_chars. }
  cbn [mbind option_bind]. rewrite (str_width_ok (f ++ b) _ (text_chars _ Ht)). cbn [mbind option_bind].
  assert (length f <= S (length (concat (f ++ b))))%nat as Hf.
  { pose proof (chars_length f (text_chars _ Htf)). rewrite concat_app, length_app. lia. }
  pose proof (columns_bound p) as Hcp.
  destruct (trim_left_ok (S (length (concat (f ++ b)))) f b (0 :: rest) (Z.of_nat (columns p)) (l_cols l) Ht Hf ltac:(lia) ltac:(lia)) as (q & f' & b' & Eq & Hlt & ->).
  cbn [mbind option_bind]. assert (is_text (f' ++ b')) as Ht' by (rewrite Eq in Ht; by apply is_text_app in Ht as [_ ?]).
  assert (length (f' ++ b') <= length (f ++ b))%nat as Hn1 by (rewrite Eq, !length_app; lia).
  destruct (trim_right_ok (S (length (concat (f' ++ b')))) (rev (f' ++ b')) (0 :: rest) (Z.of_nat (columns p)) (l_cols l)) as (q' & rl' & Eq' & Hle & Etr).
  { by apply is_text_rev. }
  { rewrite length_rev. pose proof (chars_length _ (text_chars _ Ht')). lia. }
  { lia. }
  { rewrite length_rev. lia. }
  rewrite front_rev, rev_involutive in Etr. rewrite Etr. cbn [mbind option_bind].
  rewrite get_bytes_Some.
  2: { rewrite length_app. apply (f_equal (rev (A := list Z))) in Eq'. rewrite rev_involutive, rev_app_distr in Eq'. rewrite Eq', concat_app, front_rev, length_app. lia. }
  cbn [mbind option_bind]. destruct (show_hints_ok hints (f ++ b) rest (columns p) (l_cols l) Hh Ht) as [hs Ehs].
  rewrite Ehs. cbn [mbind option_bind]. edestruct snprintf_some as [s Es]; [|rewrite Es; by eexists]. by vm_compute.
Qed.

(** ** A terminal no wider than the prompt

    Once the line is used up a round of the first loop changes nothing. *)
Lemma trim_left_stuck fuel : forall pw cols rest, 0 <= cols <= pw -> pw < 2 ^ 64 -> trim_left fuel pw cols (0 :: rest) 0 0 0 = None.
Proof.
  induction fuel as [|fuel IH]; intros pw cols rest Hc Hpw; cbn [trim_left]; rewrite Z.add_0_r, wrap_small by lia;
    (destruct (Z.ltb_spec pw cols); [lia|]); [done|].
  cbn [utf8NextCharLen mbind option_bind Nat.leb utf8SingleCharWidth usub Nat.sub drop]. change (u64 (0 - Z.of_nat 0)) with 0. by apply IH.
Qed.
