(* ===== verification/LineEdit.v ===== *)
(** An abstract line editor: the characters in front of the cursor and behind
    it, and the lines of the history. *)
From S2P Require Import Prelude Libc Text Utf8 Linenoise LineDraw.

(** * The editor *)

(** The text in front of the cursor, the nearest character first, and the text
    behind it; the completion on show; the history, the current line last,
    and how far back the user went. *)
Record zed := { z_front : list (list Z); z_back : list (list Z); z_compl : option nat; z_hist : list (list (list Z)); z_index : nat }.
Definition z_line (f b : list (list Z)) (z : zed) : zed :=
  {| z_front := f; z_back := b; z_compl := z_compl z; z_hist := z_hist z; z_index := z_index z |}.
Definition z_show (k : option nat) (z : zed) : zed :=
  {| z_front := z_front z; z_back := z_back z; z_compl := k; z_hist := z_hist z; z_index := z_index z |}.
Definition z_text (z : zed) : list (list Z) := rev (z_front z) ++ z_back z.
Definition z_bytes (z : zed) : nat := length (concat (z_text z)).

(** The bytes a line may have. *)
Definition CAPACITY : nat := LINENOISE_MAX_LINE - 1.

Definition z_insert (c : list Z) (z : zed) : zed :=
  if (z_bytes z + length c <=? CAPACITY)%nat then z_line (c :: z_front z) (z_back z) z else z.
Definition z_left (z : zed) : zed :=
  let n := prev_chars (z_front z) in z_line (drop n (z_front z)) (rev (take n (z_front z)) ++ z_back z) z.
Definition z_right (z : zed) : zed :=
  let n := next_chars (z_back z) in z_line (rev (take n (z_back z)) ++ z_front z) (drop n (z_back z)) z.
Definition z_home (z : zed) : zed := z_line [] (z_text z) z.
Definition z_end (z : zed) : zed := z_line (rev (z_text z)) [] z.
Definition z_delete (z : zed) : zed := z_line (z_front z) (drop (next_chars (z_back z)) (z_back z)) z.
Definition z_backspace (z : zed) : zed := z_line (drop (prev_chars (z_front z)) (z_front z)) (z_back z) z.
Fixpoint back_over (fuel : nat) (space : bool) (rl : list (list Z)) : list (list Z) :=
  match fuel, rl with
  | S fuel, c :: _ => if Bool.eqb (bool_decide (c = [32])) space then back_over fuel space (drop (prev_chars rl) rl) else rl
  | _, _ => rl
  end.
Definition z_word (z : zed) : zed :=
  let f := back_over (length (z_front z)) true (z_front z) in z_line (back_over (length f) false f) (z_back z) z.
(** The array on the stack has room for 32 bytes. *)
Definition z_swap (z : zed) : option zed :=
  match z_front z, z_back z with
  | _ :: _, _ :: _ =>
      let n := prev_chars (z_front z) in
      let m := next_chars (z_back z) in
      if (length (concat (take m (z_back z))) <=? 32)%nat
      then Some (z_line (take n (z_front z) ++ rev (take m (z_back z)) ++ drop n (z_front z)) (drop m (z_back z)) z)
      else None
  | _, _ => Some z
  end.
(** A line as long as the buffer does not come back whole. *)
Definition z_history (prev : bool) (z : zed) : option zed :=
  let n := length (z_hist z) in
  if (n <=? 1)%nat then Some z else
  let h := <[(n - 1 - z_index z)%nat := z_text z]> (z_hist z) in
  let at_index i := {| z_front := z_front z; z_back := z_back z; z_compl := z_compl z; z_hist := h; z_index := i |} in
  if prev then
    if (S (z_index z) <? n)%nat then e ← h !! (n - 1 - S (z_index z))%nat;
      if (length (concat e) <? CAPACITY)%nat then Some (z_line (rev e) [] (at_index (S (z_index z)))) else None
    else Some (at_index (n - 1)%nat)
  else
    match z_index z with
    | O => Some (at_index O)
    | S i => e ← h !! (n - 1 - i)%nat; if (length (concat e) <? CAPACITY)%nat then Some (z_line (rev e) [] (at_index i)) else None
    end.

(** * The representation *)

Record line_rep (l : linenoiseState) (z : zed) : Prop := {
  lr_buf : exists rest, l_buf l = concat (z_text z) ++ 0 :: rest;
  lr_size : length (l_buf l) = S (l_buflen l);
  lr_buflen : l_buflen l = CAPACITY;
  lr_pos : l_pos l = length (front (z_front z));
  lr_len : l_len l = z_bytes z;
  lr_text : is_text (z_text z);
  lr_compl : match z_compl z with Some i => in_completion l = true /\ completion_idx l = i | None => in_completion l = false end;
  lr_index : history_index l = Z.of_nat (z_index z) /\ (z_index z < Nat.max 1 (length (z_hist z)))%nat;
  lr_term : wide_term l
}.

(** The terminal's input and the history stay as they are. *)
Definition ed_quiet (c c' : con) : Prop := t_in c' = t_in c /\ history c' = history c /\ history_max_len c' = history_max_len c.

Lemma z_concat z : concat (z_text z) = front (z_front z) ++ concat (z_back z).
Proof. unfold z_text. by rewrite concat_app. Qed.
Lemma z_bytes_eq z : z_bytes z = (length (front (z_front z)) + length (concat (z_back z)))%nat.
Proof. unfold z_bytes. by rewrite z_concat, length_app. Qed.
Lemma text_front z : is_text (z_text z) -> is_text (z_front z) /\ is_text (z_back z).
Proof. intros [H1 H2]%is_text_app. rewrite is_text_rev in H1. done. Qed.

(** ** Memory *)

Lemma put_over (a bs x y : list Z) : length x = length bs -> put_bytes (length a) bs (a ++ x ++ y) = Some (a ++ bs ++ y).
Proof.
  intros Hx. rewrite put_bytes_Some by (rewrite !length_app; lia). rewrite take_app_length. do 3 f_equal.
  rewrite app_assoc, drop_app_length' by (rewrite length_app; lia). done.
Qed.
Lemma get_mid (a m y : list Z) : get_bytes (length a) (length m) (a ++ m ++ y) = Some m.
Proof. rewrite get_bytes_Some by (rewrite !length_app; lia). by rewrite drop_app_length, take_app_length. Qed.

(** Any bytes of a length are so many bytes and the rest. *)
Lemma split_len (s : list Z) n : (n <= length s)%nat -> exists x y, s = x ++ y /\ length x = n.
Proof. intros Hn. exists (take n s), (drop n s). split; [by rewrite take_drop|]. rewrite length_take. lia. Qed.

(** The text [t] is moved down over [m]; the terminator is stored. *)
Lemma close_gap (a m t rest : list Z) :
  exists rest' b, memmove (a ++ m ++ t ++ 0 :: rest) (length a) (length a + length m) (length t) = Some b /\
    put_bytes (length a + length t) [0] b = Some (a ++ t ++ 0 :: rest') /\ length rest' = (length m + length rest)%nat.
Proof.
  unfold memmove. pose proof (get_mid (a ++ m) t (0 :: rest)) as E. rewrite <- app_assoc, length_app in E. rewrite E. cbn [mbind option_bind].
  destruct (split_len (m ++ t ++ 0 :: rest) (length t)) as (x & y & Exy & Hx); [rewrite !length_app; lia|].
  assert (length y = length m + S (length rest))%nat as Hy by (apply (f_equal length) in Exy; rewrite !length_app in Exy; cbn [length] in Exy; lia).
  destruct y as [|y0 y]; cbn [length] in Hy; [lia|]. exists y, (a ++ t ++ y0 :: y). rewrite Exy. split; [by apply put_over|]. split; [|lia].
  pose proof (put_over (a ++ t) [0] [y0] y eq_refl) as E2. rewrite length_app, <- !app_assoc in E2. exact E2.
Qed.

(** The same with the terminator among what is moved. *)
Lemma close_gap_nul (a m t rest : list Z) :
  exists rest', memmove (a ++ m ++ t ++ 0 :: rest) (length a) (length a + length m) (length t + 1) = Some (a ++ t ++ 0 :: rest') /\
    length rest' = (length m + length rest)%nat.
Proof.
  unfold memmove. pose proof (get_mid (a ++ m) (t ++ [0]) rest) as E. rewrite <- !app_assoc, !length_app in E. cbn [length app] in E. rewrite E. cbn [mbind option_bind].
  destruct (split_len (m ++ t ++ 0 :: rest) (length t + 1)) as (x & y & Exy & Hx); [rewrite !length_app; cbn [length]; lia|].
  exists y. rewrite Exy. split.
  - rewrite put_over by (rewrite length_app; cbn [length]; lia). by rewrite <- app_assoc.
  - apply (f_equal length) in Exy. rewrite !length_app in Exy. cbn [length] in Exy. lia.
Qed.

(** [c] is put in between. *)
Lemma open_gap (a t rest c : list Z) : (length c <= length rest)%nat ->
  exists rest' b b', memmove (a ++ t ++ 0 :: rest) (length a + length c) (length a) (length t) = Some b /\ put_bytes (length a) c b = Some b' /\
    put_bytes (length a + length t + length c) [0] b' = Some (a ++ c ++ t ++ 0 :: rest') /\ length rest' = (length rest - length c)%nat.
Proof.
  intros Hc. unfold memmove. rewrite get_mid. cbn [mbind option_bind].
  destruct (split_len (t ++ 0 :: rest) (length c)) as (x & y & Exy & Hx); [rewrite length_app; cbn [length]; lia|].
  assert (length y = length t + S (length rest) - length c)%nat as Hy by (apply (f_equal length) in Exy; rewrite !length_app in Exy; cbn [length] in Exy; lia).
  destruct (split_len y (length t)) as (u & v & -> & Hu); [lia|]. rewrite length_app in Hy. destruct v as [|v0 v]; cbn [length] in Hy; [lia|].
  exists v, (a ++ x ++ t ++ v0 :: v), (a ++ c ++ t ++ v0 :: v). rewrite Exy. split.
  { pose proof (put_over (a ++ x) t u (v0 :: v) Hu) as E. rewrite length_app, <- !app_assoc, Hx in E. exact E. }
  split; [by apply put_over|]. split; [|lia].
  pose proof (put_over (a ++ c ++ t) [0] [v0] v eq_refl) as E. rewrite !length_app, <- !app_assoc in E.
  replace (length a + length t + length c)%nat with (length a + (length c + length t))%nat by lia. exact E.
Qed.

Lemma append_mem (a rest c : list Z) : (length c <= length rest)%nat ->
  exists rest' b, put_bytes (length a) c (a ++ 0 :: rest) = Some b /\ put_bytes (length a + length c) [0] b = Some (a ++ c ++ 0 :: rest') /\
    length rest' = (length rest - length c)%nat.
Proof.
  intros Hc. destruct (split_len (0 :: rest) (length c)) as (x & y & Exy & Hx); [cbn [length]; lia|].
  assert (length y = S (length rest) - length c)%nat as Hy by (apply (f_equal length) in Exy; rewrite !length_app in Exy; cbn [length] in Exy; lia).
  destruct y as [|y0 y]; cbn [length] in Hy; [lia|]. exists y, (a ++ c ++ y0 :: y). rewrite Exy. split; [by apply put_over|]. split; [|lia].
  pose proof (put_over (a ++ c) [0] [y0] y eq_refl) as E. rewrite length_app, <- !app_assoc in E. exact E.
Qed.

(** Two neighbours change places. *)
Lemma swap_mem (a p q y : list Z) :
  exists b, memmove (a ++ p ++ q ++ y) (length a + length q) (length a) (length p) = Some b /\ put_bytes (length a) q b = Some (a ++ q ++ p ++ y).
Proof.
  unfold memmove. rewrite get_mid. cbn [mbind option_bind].
  destruct (split_len (p ++ q) (length q)) as (x & u & Exu & Hx); [rewrite length_app; lia|].
  assert (length u = length p) as Hu by (apply (f_equal length) in Exu; rewrite !length_app in Exu; lia).
  exists (a ++ x ++ p ++ y). rewrite (app_assoc p), Exu, <- app_assoc. split.
  - pose proof (put_over (a ++ x) p u y Hu) as E. rewrite length_app, <- !app_assoc, Hx in E. exact E.
  - by apply put_over.
Qed.

(** ** Steps of the monad *)

Lemma ln_opt_step {A B} (x : option A) v (f : A -> ln B) c : x = Some v -> (ln_opt x ≫= f) c = f v c.
Proof. by intros ->. Qed.
Lemma ln_step {A B} (m : ln A) (f : A -> ln B) c v c' : m c = Some (v, c') -> (m ≫= f) c = f v c'.
Proof. unfold mbind, ln_bind. by intros ->. Qed.

Lemma ed_quiet_refl c : ed_quiet c c.
Proof. done. Qed.
Lemma ed_quiet_trans c1 c2 c3 : ed_quiet c1 c2 -> ed_quiet c2 c3 -> ed_quiet c1 c3.
Proof. unfold ed_quiet. intuition congruence. Qed.

(** * The operations *)

Section operations.
Context (write_ok : nat -> bool) (junk : Z) (hints : option hinter) (Hhints : hints_ok hints) (hmax : nat).

Lemma rep_line l z f b m pos len :
  line_rep l z -> is_text (z_text (z_line f b z)) -> (exists rest, m = concat (z_text (z_line f b z)) ++ 0 :: rest) -> length m = length (l_buf l) ->
  pos = length (front f) -> len = z_bytes (z_line f b z) -> line_rep (set_line m pos len l) (z_line f b z).
Proof.
  intros [H1 H2 H3 H4 H5 H6 H7 H8 [H9 H10]] Ht Hm Hl -> ->. split; [exact Hm|cbn; by rewrite Hl|exact H3|done|done|exact Ht|exact H7|exact H8|by split].
Qed.

Lemma rep_bytes l z : line_rep l z -> (z_bytes z <= CAPACITY)%nat.
Proof.
  intros Hr. destruct (lr_buf _ _ Hr) as [rest E]. pose proof (lr_size _ _ Hr) as Hs. rewrite (lr_buflen _ _ Hr), E, length_app in Hs. cbn [length] in Hs.
  unfold z_bytes. lia.
Qed.

Lemma refresh_ok h l z c : hints_ok h -> line_rep l z -> exists c', refreshLine write_ok h l c = Some ((), c') /\ ed_quiet c c'.
Proof.
  intros Hh Hr. destruct (lr_buf _ _ Hr) as [rest E].
  destruct (single_line_ok h l (rev (z_front z)) (z_back z) rest) as [bs Ebs].
  - apply Hr.
  - done.
  - apply Hr.
  - exact E.
  - rewrite <- front_rev. apply Hr.
  - apply Hr.
  - pose proof (rep_bytes l z Hr) as Hb. pose proof (chars_length _ (text_chars _ (lr_text _ _ Hr))) as Hl. unfold z_bytes in Hb. fold (z_text z).
    assert (Z.of_nat CAPACITY < 2 ^ 32) by (by vm_compute). lia.
  - unfold refreshLine, refreshSingleLine. rewrite (ln_opt_step _ _ _ _ Ebs). by eexists.
Qed.

Lemma redrawn_ok l z c : line_rep l z -> exists c', redrawn write_ok hints l c = Some (l, c') /\ ed_quiet c c'.
Proof.
  intros Hr. destruct (refresh_ok hints l z c Hhints Hr) as (c' & E & Hq). exists c'. unfold redrawn. by rewrite (ln_step _ _ _ _ _ E).
Qed.

(** What it means that an operation on the state does what one on the text
    does. *)
Definition does (op : ln linenoiseState) (z' : zed) (c : con) : Prop := exists l' c', op c = Some (l', c') /\ line_rep l' z' /\ ed_quiet c c'.

Lemma does_redrawn l z c : line_rep l z -> does (redrawn write_ok hints l) z c.
Proof. intros Hr. destruct (redrawn_ok l z c Hr) as (c' & E & Hq). exists l, c'. done. Qed.
Lemma ed_does_opt {A} (x : option A) v f z c : x = Some v -> does (f v) z c -> does (ln_opt x ≫= f) z c.
Proof. by intros ->. Qed.
Lemma ed_does_ret l z c : line_rep l z -> does (mret l) z c.
Proof. intros Hr. exists l, c. done. Qed.

Lemma rep_pos l z f b : line_rep l z -> concat (z_text (z_line f b z)) = concat (z_text z) -> is_text (z_text (z_line f b z)) ->
  line_rep (set_pos (length (front f)) l) (z_line f b z).
Proof.
  intros Hr Hc Ht. apply rep_line; [done|done|rewrite Hc; apply Hr|done|done|]. unfold z_bytes. rewrite Hc. apply Hr.
Qed.

Lemma front_split n f : front f = front (drop n f) ++ front (take n f).
Proof. by rewrite <- front_app, take_drop. Qed.

Lemma z_left_text z : z_text (z_left z) = z_text z.
Proof.
  unfold z_text. cbn [z_left z_front z_back z_line]. rewrite app_assoc, <- rev_app_distr. by rewrite take_drop.
Qed.
Lemma z_right_text z : z_text (z_right z) = z_text z.
Proof. unfold z_text. cbn [z_right z_front z_back z_line]. by rewrite rev_app_distr, rev_involutive, <- app_assoc, take_drop. Qed.
Lemma z_home_text z : z_text (z_home z) = z_text z.
Proof. done. Qed.
Lemma z_end_text z : z_text (z_end z) = z_text z.
Proof. unfold z_text. cbn [z_end z_front z_back z_line]. by rewrite rev_involutive, app_nil_r. Qed.

(** The cluster in front of the cursor. *)
Lemma prev_len l z : line_rep l z -> utf8PrevCharLen (l_buf l) (l_pos l) = Some (length (front (take (prev_chars (z_front z)) (z_front z)))).
Proof.
  intros Hr. destruct (lr_buf _ _ Hr) as [rest ->]. rewrite (lr_pos _ _ Hr), z_concat, <- app_assoc, prev_char_ok; [by rewrite front_length|].
  apply text_chars. by apply (text_front z), Hr.
Qed.
(** The one behind it. *)
Lemma next_len l z : line_rep l z -> utf8NextCharLen (l_buf l) (l_pos l) (l_len l) = Some (length (concat (take (next_chars (z_back z)) (z_back z)))).
Proof.
  intros Hr. destruct (lr_buf _ _ Hr) as [rest ->]. rewrite (lr_pos _ _ Hr), (lr_len _ _ Hr), z_concat, z_bytes_eq, <- app_assoc, next_char_ok; [done|].
  apply text_chars. by apply (text_front z), Hr.
Qed.

Lemma front_length_split n f : length (front f) = (length (front (drop n f)) + length (front (take n f)))%nat.
Proof. by rewrite (front_split n f) at 1; rewrite length_app. Qed.

Lemma move_left_ok l z c : line_rep l z -> does (linenoiseEditMoveLeft write_ok hints l) (z_left z) c.
Proof.
  intros Hr. unfold linenoiseEditMoveLeft. pose proof (lr_pos _ _ Hr) as Hpos. destruct (Nat.ltb_spec 0 (l_pos l)) as [Hp|Hp].
  - apply (ed_does_opt _ _ _ _ _ (prev_len l z Hr)), does_redrawn. rewrite Hpos. set (n := prev_chars (z_front z)).
    rewrite (front_length_split n (z_front z)), Nat.add_sub. apply rep_pos; [done|by f_equal; apply z_left_text|]. change (is_text (z_text (z_left z))). rewrite z_left_text. apply Hr.
  - apply ed_does_ret. assert (z_left z = z) as ->; [|done]. destruct z as [[|ch f] b k h i]; [done|]. cbn [z_front] in Hpos.
    destruct (text_front _ (lr_text _ _ Hr)) as [[Hc _]%list.Forall_cons _]. pose proof (char_length ch (proj1 Hc)). rewrite front_cons, length_app in Hpos. lia.
Qed.

Lemma move_right_ok l z c : line_rep l z -> does (linenoiseEditMoveRight write_ok hints l) (z_right z) c.
Proof.
  intros Hr. unfold linenoiseEditMoveRight. pose proof (lr_pos _ _ Hr) as Hpos. pose proof (lr_len _ _ Hr) as Hlen. rewrite z_bytes_eq in Hlen.
  destruct (Nat.eqb_spec (l_pos l) (l_len l)) as [Hp|Hp].
  - apply ed_does_ret. assert (z_right z = z) as ->; [|done]. destruct z as [f [|ch b] k h i]; [done|]. cbn [z_back z_front concat] in *.
    destruct (text_front _ (lr_text _ _ Hr)) as [_ [Hc _]%list.Forall_cons]. pose proof (char_length ch (proj1 Hc)). rewrite length_app in Hlen. lia.
  - apply (ed_does_opt _ _ _ _ _ (next_len l z Hr)), does_redrawn. rewrite Hpos. set (n := next_chars (z_back z)).
    replace (length (front (z_front z)) + length (concat (take n (z_back z))))%nat with (length (front (rev (take n (z_back z)) ++ z_front z))).
    + apply rep_pos; [done|by f_equal; apply z_right_text|]. change (is_text (z_text (z_right z))). rewrite z_right_text. apply Hr.
    + rewrite front_app, length_app. f_equal. by rewrite front_rev, rev_involutive.
Qed.

Lemma move_home_ok l z c : line_rep l z -> does (linenoiseEditMoveHome write_ok hints l) (z_home z) c.
Proof.
  intros Hr. unfold linenoiseEditMoveHome. assert (line_rep (set_pos 0 l) (z_home z)) as Hr'.
  { apply (rep_pos l z [] (z_text z)); [done|done|]. apply Hr. }
  destruct (Nat.eqb_spec (l_pos l) 0) as [Hp|Hp]; [|by apply does_redrawn]. apply ed_does_ret. rewrite <- Hp in Hr'. by destruct l.
Qed.
Lemma move_end_ok l z c : line_rep l z -> does (linenoiseEditMoveEnd write_ok hints l) (z_end z) c.
Proof.
  intros Hr. unfold linenoiseEditMoveEnd. assert (line_rep (set_pos (l_len l) l) (z_end z)) as Hr'.
  { rewrite (lr_len _ _ Hr). unfold z_bytes. rewrite <- (rev_involutive (z_text z)) at 1. rewrite <- front_rev.
    apply (rep_pos l z (rev (z_text z)) []); [done|by f_equal; apply z_end_text|]. change (is_text (z_text (z_end z))). rewrite z_end_text. apply Hr. }
  destruct (Nat.eqb_spec (l_pos l) (l_len l)) as [Hp|Hp]; [|by apply does_redrawn]. apply ed_does_ret. rewrite <- Hp in Hr'. by destruct l.
Qed.

(** A line of the representation, and its buffer in three parts. *)
Lemma rep_parts l z : line_rep l z -> exists rest,
  l_buf l = front (z_front z) ++ concat (z_back z) ++ 0 :: rest /\ (length rest = CAPACITY - z_bytes z)%nat.
Proof.
  intros Hr. destruct (lr_buf _ _ Hr) as [rest E]. pose proof (lr_size _ _ Hr) as Hs. rewrite (lr_buflen _ _ Hr), E, length_app in Hs. cbn [length] in Hs.
  exists rest. rewrite E, z_concat, <- app_assoc. split; [done|]. unfold z_bytes. lia.
Qed.

(** The new contents of the buffer. *)
Lemma rep_edit l z f b rest : line_rep l z -> is_text f -> is_text b ->
  length (front f ++ concat b ++ 0 :: rest) = length (l_buf l) ->
  line_rep (set_line (front f ++ concat b ++ 0 :: rest) (length (front f)) (length (front f) + length (concat b)) l) (z_line f b z).
Proof.
  intros Hr Hf Hb Hl. apply rep_line; try done.
  - unfold z_text. cbn [z_line z_front z_back]. apply is_text_app. by rewrite is_text_rev.
  - exists rest. by rewrite z_concat, <- app_assoc.
  - by rewrite z_bytes_eq.
Qed.

Lemma back_nil l z : line_rep l z -> l_len l = l_pos l -> z_back z = [].
Proof.
  intros Hr E. rewrite (lr_len _ _ Hr), (lr_pos _ _ Hr), z_bytes_eq in E. destruct (text_front _ (lr_text _ _ Hr)) as [_ Hb].
  pose proof (chars_length _ (text_chars _ Hb)). apply nil_length_inv. lia.
Qed.

Lemma insert_ok l z ch c : hints <> None -> line_rep l z -> text_char ch ->
  exists l' c', linenoiseEditInsert write_ok hints l ch c = Some ((l', true), c') /\ line_rep l' (z_insert ch z) /\ ed_quiet c c'.
Proof.
  intros Hsome Hr Hch. unfold linenoiseEditInsert, z_insert. rewrite (lr_buflen _ _ Hr). pose proof (lr_len _ _ Hr) as Hlen. rewrite Hlen.
  destruct (Nat.leb_spec (z_bytes z + length ch) CAPACITY) as [Hfit|]; [|by exists l, c].
  destruct (rep_parts l z Hr) as (rest & Eb & Hrest). destruct (text_front _ (lr_text _ _ Hr)) as [Hf Hbk]. pose proof (lr_pos _ _ Hr) as Hpos.
  assert (is_text (ch :: z_front z)) as Hf' by (by constructor). pose proof (z_bytes_eq z) as Hzb.
  assert (forall m rest', m = front (ch :: z_front z) ++ concat (z_back z) ++ 0 :: rest' -> (length rest' = length rest - length ch)%nat ->
    line_rep (set_line m (length (front (z_front z)) + length ch) (z_bytes z + length ch) l) (z_line (ch :: z_front z) (z_back z) z)) as Hnew.
  { intros m rest' -> Hr'. replace (length (front (z_front z)) + length ch)%nat with (length (front (ch :: z_front z))) by (by rewrite front_cons, length_app).
    replace (z_bytes z + length ch)%nat with (length (front (ch :: z_front z)) + length (concat (z_back z)))%nat by (rewrite front_cons, length_app; lia).
    apply rep_edit; try done. rewrite Eb, front_cons, !length_app. cbn [length]. lia. }
  rewrite Hpos. destruct (Nat.eqb_spec (z_bytes z) (length (front (z_front z)))) as [He|He].
  - assert (z_back z = []) as Hnil by (apply (back_nil l z Hr); by rewrite Hlen, Hpos). rewrite Hnil in *. cbn [concat app] in Eb, Hnew.
    destruct (append_mem (front (z_front z)) rest ch ltac:(lia)) as (rest' & b & E1 & E2 & Hr').
    rewrite Eb, (ln_opt_step _ _ _ _ E1). rewrite <- He in E2. rewrite (ln_opt_step _ _ _ _ E2).
    assert (front (z_front z) ++ ch ++ 0 :: rest' = front (ch :: z_front z) ++ 0 :: rest') as Em by (by rewrite front_cons, <- app_assoc).
    specialize (Hnew _ rest' Em Hr').
    match goal with |- context [set_line ?m ?p ?n l] => assert (line_rep (set_line m p n l) (z_line (ch :: z_front z) [] z)) as Hl' by exact Hnew; set (l' := set_line m p n l) in * end.
    destruct (lr_term _ _ Hl') as [(p & Hp & Ep & _) _]. rewrite (ln_opt_step _ (columns p)) by (rewrite Ep; by apply str_width_ok, text_chars).
    destruct (lr_buf _ _ Hl') as [rest2 Eb2]. rewrite (ln_opt_step _ (columns (z_text (z_line (ch :: z_front z) [] z))))
      by (rewrite Eb2, (lr_len _ _ Hl'); by apply str_width_ok, text_chars, Hl').
    assert (match hints with None => true | Some _ => false end = false) as -> by (by destruct hints). rewrite andb_false_r.
    destruct (refresh_ok hints l' _ c Hhints Hl') as (c' & E & Hq). rewrite (ln_step _ _ _ _ _ E). by exists l', c'.
  - assert (usub (z_bytes z) (length (front (z_front z))) = Some (length (concat (z_back z)))) as Eu by (rewrite Hzb; apply usub_add).
    rewrite (ln_opt_step _ _ _ _ Eu), Eb.
    destruct (open_gap (front (z_front z)) (concat (z_back z)) rest ch ltac:(lia)) as (rest' & b & b' & E1 & E2 & E3 & Hr').
    rewrite (ln_opt_step _ _ _ _ E1), (ln_opt_step _ _ _ _ E2). rewrite <- Hzb in E3. rewrite (ln_opt_step _ _ _ _ E3).
    specialize (Hnew _ rest' ltac:(by rewrite front_cons, <- app_assoc) Hr').
    match goal with |- context [set_line ?m ?p ?n l] => set (l' := set_line m p n l) in * end.
    destruct (refresh_ok hints l' _ c Hhints Hnew) as (c' & E & Hq). rewrite (ln_step _ _ _ _ _ E). by exists l', c'.
Qed.

Lemma front_nil_iff rl : is_text rl -> length (front rl) = 0%nat -> rl = [].
Proof. intros Ht Hl. rewrite front_length in Hl. pose proof (chars_length _ (text_chars _ Ht)). apply nil_length_inv. lia. Qed.
Lemma back_nil_iff r : is_text r -> length (concat r) = 0%nat -> r = [].
Proof. intros Ht Hl. pose proof (chars_length _ (text_chars _ Ht)). apply nil_length_inv. lia. Qed.

(** Taking [mid] out of the buffer. *)
Lemma take_out l z f b mid rest c :
  line_rep l z -> is_text f -> is_text b -> l_buf l = front f ++ mid ++ concat b ++ 0 :: rest ->
  exists b1 b2, memmove (l_buf l) (length (front f)) (length (front f) + length mid) (length (concat b)) = Some b1 /\
    put_bytes (length (front f) + length (concat b)) [0] b1 = Some b2 /\
    does (redrawn write_ok hints (set_line b2 (length (front f)) (length (front f) + length (concat b)) l)) (z_line f b z) c.
Proof.
  intros Hr Hf Hb E. destruct (close_gap (front f) mid (concat b) rest) as (rest' & b1 & E1 & E2 & Hl). rewrite E. do 2 eexists.
  split; [exact E1|]. split; [exact E2|]. apply does_redrawn. apply rep_edit; try done. rewrite E, !length_app. cbn [length]. lia.
Qed.

Lemma line_delete_ok l z c : line_rep l z -> does (linenoiseEditDelete write_ok hints l) (z_delete z) c.
Proof.
  intros Hr. unfold linenoiseEditDelete. destruct (text_front _ (lr_text _ _ Hr)) as [Hf Hb]. destruct (rep_parts l z Hr) as (rest & Eb & _).
  pose proof (lr_pos _ _ Hr) as Hpos. pose proof (lr_len _ _ Hr) as Hlen. rewrite z_bytes_eq in Hlen. destruct (Nat.ltb_spec (l_pos l) (l_len l)) as [Hlt|Hge].
  - rewrite (proj2 (Nat.ltb_lt _ _)) by lia. cbn [andb]. apply (ed_does_opt _ _ _ _ _ (next_len l z Hr)). set (n := next_chars (z_back z)).
    pose proof (length_concat_split n (z_back z)) as Hsplit. apply (ed_does_opt _ (length (concat (drop n (z_back z))))).
    { rewrite Hlen, Hpos, Hsplit, (Nat.add_assoc (length (front (z_front z)))). apply usub_add. }
    rewrite (concat_take_drop n (z_back z)), <- app_assoc in Eb.
    destruct (take_out l z (z_front z) (drop n (z_back z)) _ rest c Hr Hf (is_text_drop _ _ Hb) Eb) as (b1 & b2 & E1 & E2 & Hd).
    rewrite Hpos. apply (ed_does_opt _ _ _ _ _ E1).
    replace (l_len l - length (concat (take n (z_back z))))%nat with (length (front (z_front z)) + length (concat (drop n (z_back z))))%nat by lia.
    apply (ed_does_opt _ _ _ _ _ E2), Hd.
  - rewrite andb_false_r. apply ed_does_ret. assert (z_back z = []) as Hn by (apply back_nil_iff; [done|lia]). unfold z_delete. rewrite Hn. destruct z. cbn in *. by rewrite Hn in Hr.
Qed.

Lemma line_backspace_ok l z c : line_rep l z -> does (linenoiseEditBackspace write_ok hints l) (z_backspace z) c.
Proof.
  intros Hr. unfold linenoiseEditBackspace. destruct (text_front _ (lr_text _ _ Hr)) as [Hf Hb]. destruct (rep_parts l z Hr) as (rest & Eb & _).
  pose proof (lr_pos _ _ Hr) as Hpos. pose proof (lr_len _ _ Hr) as Hlen. rewrite z_bytes_eq in Hlen. destruct (Nat.ltb_spec 0 (l_pos l)) as [Hlt|Hge].
  - rewrite (proj2 (Nat.ltb_lt _ _)) by lia. cbn [andb]. apply (ed_does_opt _ _ _ _ _ (prev_len l z Hr)). set (n := prev_chars (z_front z)).
    pose proof (front_length_split n (z_front z)) as Hsplit. apply (ed_does_opt _ (length (concat (z_back z)))).
    { rewrite Hlen, Hpos. apply usub_add. }
    rewrite (front_split n (z_front z)), <- app_assoc in Eb.
    destruct (take_out l z (drop n (z_front z)) (z_back z) _ rest c Hr (is_text_drop _ _ Hf) Hb Eb) as (b1 & b2 & E1 & E2 & Hd).
    rewrite Hpos, Hsplit, Nat.add_sub. apply (ed_does_opt _ _ _ _ _ E1).
    replace (l_len l - length (front (take n (z_front z))))%nat with (length (front (drop n (z_front z))) + length (concat (z_back z)))%nat by lia.
    apply (ed_does_opt _ _ _ _ _ E2), Hd.
  - apply ed_does_ret. assert (z_front z = []) as Hn by (apply front_nil_iff; [done|lia]). unfold z_backspace. rewrite Hn. destruct z. cbn in *. by rewrite Hn in Hr.
Qed.

(** The last byte of a character is a space when the character is one. *)
Lemma last_byte_space ch : char_ok ch -> exists x, ch !! pred (length ch) = Some x /\ (x =? 32) = bool_decide (ch = [32]).
Proof.
  destruct ch as [|b cs]; [done|]. intros (Hb & Hl & Hcs). destruct cs as [|b1 cs _] using rev_ind.
  - exists b. split; [done|]. destruct (Z.eqb_spec b 32) as [->|Hne]; [done|]. rewrite bool_decide_eq_false_2; [done|]. by intros [= ?].
  - cbn [length pred]. rewrite length_app. cbn [length]. exists b1. split.
    + rewrite lookup_cons_ne_0 by lia. cbn [pred]. rewrite lookup_app_r by lia. by replace (pred (length cs + 1) - length cs)%nat with O by lia.
    + apply list.Forall_app in Hcs as [_ [H1 _]%list.Forall_cons]. rewrite bool_decide_eq_false_2; [|by destruct cs].
      destruct (Z.eqb_spec b1 32) as [->|]; [by vm_compute in H1|done].
Qed.

Lemma back_over_suffix fuel space : forall rl, exists p, rl = p ++ back_over fuel space rl.
Proof.
  induction fuel as [|fuel IH]; intros rl; [by exists []|]. destruct rl as [|ch rl]; [by exists []|]. cbn [back_over]. destruct (Bool.eqb _ _); [|by exists []].
  destruct (IH (drop (prev_chars (ch :: rl)) (ch :: rl))) as [p E]. exists (take (prev_chars (ch :: rl)) (ch :: rl) ++ p). rewrite <- app_assoc, <- E. by rewrite take_drop.
Qed.

Lemma word_back_ok space n : forall fuel rl rest, is_text rl -> (length rl <= fuel)%nat -> (length rl <= n)%nat ->
  word_back fuel space (front rl ++ rest) (length (front rl)) = Some (length (front (back_over n space rl))).
Proof.
  induction n as [|n IH]; intros fuel rl rest Ht Hf Hn.
  { destruct rl; cbn in Hn; [|lia]. by destruct fuel. }
  destruct rl as [|ch rl]; [by destruct fuel|]. destruct fuel as [|fuel]; cbn [length] in Hf, Hn; [lia|]. pose proof Ht as [Hch Hrl]%list.Forall_cons.
  pose proof (char_length ch (proj1 Hch)) as Hl. destruct (last_byte_space ch (proj1 Hch)) as (x & Ex & Hx).
  pose proof (prev_char_ok (ch :: rl) rest (text_chars _ Ht)) as Ep. set (k := prev_chars (ch :: rl)) in *. set (fr := front (ch :: rl)) in *.
  destruct (length fr) as [|p] eqn:El; [unfold fr in El; rewrite front_cons, length_app in El; lia|]. cbn [word_back].
  assert ((fr ++ rest) !! p = Some x) as ->.
  { unfold fr in *. rewrite front_cons, length_app in El. rewrite front_cons, <- app_assoc. rewrite lookup_app_r by lia.
    replace (p - length (front rl))%nat with (pred (length ch)) by lia. by apply lookup_app_l_Some. }
  cbn [mbind option_bind]. rewrite Hx. cbn [back_over]. destruct (Bool.eqb _ space); [|fold fr; by rewrite El].
  rewrite Ep. cbn [mbind option_bind]. fold k. rewrite <- El, <- front_length. unfold fr. rewrite (front_length_split k (ch :: rl)), Nat.add_sub.
  rewrite (front_split k (ch :: rl)), <- app_assoc. apply IH; [by apply is_text_drop| |]; rewrite length_drop; unfold k; cbn [prev_chars length]; lia.
Qed.

Lemma delete_word_ok l z c : line_rep l z -> does (linenoiseEditDeletePrevWord write_ok hints l) (z_word z) c.
Proof.
  intros Hr. unfold linenoiseEditDeletePrevWord, z_word. destruct (text_front _ (lr_text _ _ Hr)) as [Hf Hb]. destruct (rep_parts l z Hr) as (rest & Eb & _).
  pose proof (lr_pos _ _ Hr) as Hpos. pose proof (lr_len _ _ Hr) as Hlen. rewrite z_bytes_eq in Hlen.
  pose proof (chars_length _ (text_chars _ Hf)) as Hfl. rewrite <- front_length in Hfl.
  set (f1 := back_over (length (z_front z)) true (z_front z)). set (f2 := back_over (length f1) false f1).
  destruct (back_over_suffix (length (z_front z)) true (z_front z)) as [p1 E1]. fold f1 in E1. destruct (back_over_suffix (length f1) false f1) as [p2 E2]. fold f2 in E2.
  assert (is_text f1) as Hf1 by (rewrite E1 in Hf; by apply is_text_app in Hf as [_ ?]).
  assert (is_text f2) as Hf2 by (rewrite E2 in Hf1; by apply is_text_app in Hf1 as [_ ?]).
  pose proof (chars_length _ (text_chars _ Hf1)) as Hf1l. rewrite <- front_length in Hf1l.
  apply (ed_does_opt _ (length (front f1))). { rewrite Eb, Hpos. by apply word_back_ok. }
  apply (ed_does_opt _ (length (front f2))). { rewrite Eb, E1, front_app, <- app_assoc. by apply word_back_ok. }
  apply (ed_does_opt _ (length (concat (z_back z)) + 1)%nat). { rewrite Hlen, Hpos. rewrite <- (Nat.add_assoc (length (front (z_front z)))). apply usub_add. }
  assert (z_front z = (p1 ++ p2) ++ f2) as Ez by (by rewrite <- app_assoc, <- E2). rewrite Ez, front_app, <- app_assoc in Eb. rewrite Ez, front_app, length_app in Hpos, Hlen.
  destruct (close_gap_nul (front f2) (front (p1 ++ p2)) (concat (z_back z)) rest) as (rest' & Em & Hrest).
  apply (ed_does_opt _ (front f2 ++ concat (z_back z) ++ 0 :: rest')). { by rewrite Eb, Hpos. }
  apply does_redrawn. replace (l_len l - (l_pos l - length (front f2)))%nat with (length (front f2) + length (concat (z_back z)))%nat by lia.
  apply rep_edit; try done. rewrite Eb, !length_app. cbn [length]. lia.
Qed.

Lemma kill_line_ok l z c : line_rep l z ->
  does (b ← ln_opt (put_bytes 0 [0] (l_buf l)); redrawn write_ok hints (set_line b 0 0 l)) (z_line [] [] z) c.
Proof.
  intros Hr. destruct (rep_parts l z Hr) as (rest & Eb & _). destruct (l_buf l) as [|x m] eqn:E; [by destruct (front (z_front z)), (concat (z_back z))|].
  apply (ed_does_opt _ (0 :: m)); [exact (put_over [] [0] [x] m eq_refl)|]. apply does_redrawn.
  apply (rep_edit l z [] [] m); [done|constructor|constructor|]. by rewrite E.
Qed.
Lemma kill_end_ok l z c : line_rep l z ->
  does (b ← ln_opt (put_bytes (l_pos l) [0] (l_buf l)); redrawn write_ok hints (set_line b (l_pos l) (l_pos l) l)) (z_line (z_front z) [] z) c.
Proof.
  intros Hr. destruct (rep_parts l z Hr) as (rest & Eb & _). destruct (text_front _ (lr_text _ _ Hr)) as [Hf Hb]. pose proof (lr_pos _ _ Hr) as Hpos.
  destruct (concat (z_back z) ++ 0 :: rest) as [|x m] eqn:E; [by destruct (concat (z_back z))|].
  apply (ed_does_opt _ (front (z_front z) ++ 0 :: m)). { rewrite Eb, Hpos. exact (put_over _ [0] [x] m eq_refl). }
  apply does_redrawn. rewrite Hpos. pose proof (rep_edit l z (z_front z) [] m Hr Hf ltac:(constructor)) as Hn. cbn [concat length app] in Hn. rewrite Nat.add_0_r in Hn.
  apply Hn. by rewrite Eb, !length_app.
Qed.

Lemma swap_ok l z z' c : line_rep l z -> z_swap z = Some z' -> does (swap_chars write_ok junk hints l) z' c.
Proof.
  intros Hr. unfold swap_chars, z_swap. destruct (text_front _ (lr_text _ _ Hr)) as [Hf Hb]. destruct (rep_parts l z Hr) as (rest & Eb & _).
  pose proof (lr_pos _ _ Hr) as Hpos. pose proof (lr_len _ _ Hr) as Hlen. rewrite z_bytes_eq in Hlen.
  destruct (Nat.ltb_spec 0 (l_pos l)) as [Hp|Hp].
  2: { intros Hz. assert (z_front z = []) as Hn by (apply front_nil_iff; [done|lia]). rewrite Hn in Hz. injection Hz as <-. by apply ed_does_ret. }
  destruct (Nat.ltb_spec (l_pos l) (l_len l)) as [Hq|Hq].
  2: { intros Hz. assert (z_back z = []) as Hn by (apply back_nil_iff; [done|lia]). rewrite Hn in Hz. destruct (z_front z); injection Hz as <-; by apply ed_does_ret. }
  cbn [andb]. assert (z_front z <> []) as Hnf by (intros E; rewrite E in Hpos; cbn in Hpos; lia).
  assert (z_back z <> []) as Hnb by (intros E; rewrite E in Hlen; cbn [concat length] in Hlen; lia).
  destruct (z_front z) as [|cf f] eqn:Ef; [done|]. destruct (z_back z) as [|cb b] eqn:Ebk; [done|]. rewrite <- Ef, <- Ebk in *. clear Ef Ebk Hnf Hnb.
  set (n := prev_chars (z_front z)). set (m := next_chars (z_back z)).
  destruct (Nat.leb_spec (length (concat (take m (z_back z)))) 32) as [H32|]; [|done]. intros [= <-].
  apply (ed_does_opt _ _ _ _ _ (prev_len l z Hr)). apply (ed_does_opt _ _ _ _ _ (next_len l z Hr)). fold n m.
  rewrite (front_split n (z_front z)), (concat_take_drop m (z_back z)), <- !app_assoc in Eb. rewrite (front_length_split n (z_front z)) in Hpos, Hlen.
  rewrite (length_concat_split m (z_back z)) in Hlen.
  set (A := front (drop n (z_front z))) in *. set (P := front (take n (z_front z))) in *. set (Q := concat (take m (z_back z))) in *. set (Y := concat (drop m (z_back z))) in *.
  replace (l_pos l - length P)%nat with (length A) by lia.
  apply (ed_does_opt _ Q). { rewrite Eb, Hpos. pose proof (get_mid (A ++ P) Q (Y ++ 0 :: rest)) as E. rewrite length_app, <- app_assoc in E. exact E. }
  destruct (split_len (replicate 32 junk) (length Q)) as (x & y & Exy & Hx); [by rewrite length_replicate|].
  apply (ed_does_opt _ (Q ++ y)). { rewrite Exy. exact (put_over [] Q x y Hx). }
  destruct (swap_mem A P Q (Y ++ 0 :: rest)) as (b1 & E1 & E2). apply (ed_does_opt _ b1). { by rewrite Eb. }
  apply (ed_does_opt _ Q). { exact (get_mid [] Q y). }
  apply (ed_does_opt _ _ _ _ _ E2). rewrite (proj2 (Nat.leb_le _ _)) by lia. apply does_redrawn.
  assert (front (take n (z_front z) ++ rev (take m (z_back z)) ++ drop n (z_front z)) = A ++ Q ++ P) as Efr.
  { rewrite !front_app, <- app_assoc. by rewrite (front_rev (rev _)), rev_involutive. }
  pose proof (rep_edit l z (take n (z_front z) ++ rev (take m (z_back z)) ++ drop n (z_front z)) (drop m (z_back z)) rest Hr) as Hn.
  rewrite Efr, <- !app_assoc in Hn. fold Y in Hn.
  replace (l_pos l + length Q)%nat with (length (A ++ Q ++ P)) by (rewrite !length_app; lia).
  replace (l_len l) with (length (A ++ Q ++ P) + length Y)%nat by (rewrite !length_app; lia). apply Hn.
  - apply is_text_app. split; [by apply is_text_take|]. apply is_text_app. split; [by apply is_text_rev, is_text_take|by apply is_text_drop].
  - by apply is_text_drop.
  - rewrite Eb, !length_app. lia.
Qed.

(** ** The history *)

Definition lines_of (h : list (list (list Z))) : list (list Z) := (fun e => concat e) <$> h.
Definition hist_rep (c : con) (z : zed) : Prop :=
  history c = lines_of (z_hist z) /\ Forall is_text (z_hist z) /\ (length (z_hist z) <= hmax)%nat /\ history_max_len c = hmax.
Definition does_h (op : ln linenoiseState) (z' : zed) (c : con) : Prop :=
  exists l' c', op c = Some (l', c') /\ line_rep l' z' /\ hist_rep c' z' /\ t_in c' = t_in c.

Lemma quiet_hist c c' z z' : ed_quiet c c' -> hist_rep c z -> z_hist z' = z_hist z -> hist_rep c' z'.
Proof. intros (_ & Hh & Hm) Hc Hz. unfold hist_rep in *. by rewrite Hh, Hm, Hz. Qed.
Lemma does_does_h op z z' c : does op z' c -> hist_rep c z -> z_hist z' = z_hist z -> does_h op z' c.
Proof.
  intros (l' & c' & E & Hr & Hq) Hc Hz. exists l', c'. split; [done|]. split; [done|]. split; [by eapply quiet_hist|apply Hq].
Qed.

Definition z_at (h : list (list (list Z))) (i : nat) (z : zed) : zed :=
  {| z_front := z_front z; z_back := z_back z; z_compl := z_compl z; z_hist := h; z_index := i |}.

Lemma rep_at l z h i : line_rep l z -> length h = length (z_hist z) -> (i < length (z_hist z))%nat -> line_rep (set_index (Z.of_nat i) l) (z_at h i z).
Proof.
  intros [H1 H2 H3 H4 H5 H6 H7 H8 [H9 H10]] Hh Hi. split; try done. cbn [history_index set_index z_index z_at z_hist]. split; [done|]. rewrite Hh. lia.
Qed.

(** A line of the history in the buffer. *)
Lemma load_line l z h i e c :
  line_rep l z -> length h = length (z_hist z) -> (i < length (z_hist z))%nat -> is_text e -> (length (concat e) < CAPACITY)%nat ->
  exists bs b1 b2, strncpy (concat e ++ [0]) (l_buflen l) = Some bs /\ put_bytes 0 bs (l_buf l) = Some b1 /\ usub (l_buflen l) 1 = Some (CAPACITY - 1)%nat /\
    put_bytes (CAPACITY - 1) [0] b1 = Some b2 /\ strlen b2 = Some (length (concat e)) /\
    does (redrawn write_ok hints (set_line b2 (length (concat e)) (length (concat e)) (set_index (Z.of_nat i) l))) (z_line (rev e) [] (z_at h i z)) c.
Proof.
  intros Hr Hh Hi He Hlen. pose proof (rep_at l z h i Hr Hh Hi) as Hr'. pose proof (lr_size _ _ Hr) as Hs. rewrite (lr_buflen _ _ Hr) in *.
  pose proof (text_no_nul e He) as Hnn. set (t := concat e) in *.
  assert (strncpy (t ++ [0]) CAPACITY = Some (t ++ replicate (CAPACITY - length t) 0)) as E1 by (apply (strncpy_app t []); [done|lia]).
  destruct (split_len (l_buf l) CAPACITY) as (x & y & Exy & Hx); [lia|]. rewrite Exy, length_app in Hs.
  destruct (CAPACITY - length t)%nat as [|k] eqn:Ek; [lia|]. set (y' := replicate k 0 ++ y).
  exists (t ++ replicate (S k) 0), ((t ++ replicate (S k) 0) ++ y), (t ++ 0 :: y'). split; [done|]. split; [|split; [|split; [|split]]].
  - rewrite Exy. apply (put_over []). rewrite Hx, length_app, length_replicate. lia.
  - unfold usub. by rewrite (proj2 (Nat.leb_le _ _)) by lia.
  - rewrite replicate_S_end, <- !app_assoc, (app_assoc t). replace (CAPACITY - 1)%nat with (length (t ++ replicate k 0)) by (rewrite length_app, length_replicate; lia).
    rewrite (put_over _ [0] [0] y eq_refl). rewrite <- app_assoc. unfold y'. do 2 f_equal. change ([0] ++ y) with (0 :: y). clear.
    induction k as [|k IH]; [done|]. cbn. by rewrite IH.
  - by apply strlen_app.
  - apply does_redrawn. pose proof (rep_edit (set_index (Z.of_nat i) l) (z_at h i z) (rev e) [] y' Hr') as Hn.
    rewrite front_rev, rev_involutive in Hn. cbn [concat length app] in Hn. rewrite Nat.add_0_r in Hn. apply Hn.
    + by apply is_text_rev.
    + constructor.
    + cbn [set_index l_buf]. rewrite Exy. fold t. rewrite !length_app. unfold y'. cbn [length]. rewrite length_app, length_replicate. lia.
Qed.

Lemma history_ok l z z' prev c : Z.of_nat hmax < 2 ^ 31 - 1 -> line_rep l z -> hist_rep c z -> z_history prev z = Some z' -> does_h (linenoiseEditHistoryNext write_ok hints l prev) z' c.
Proof.
  intros Hhmax Hr Hc. pose proof Hc as (Hh & Ht & Hn' & Hm). assert (Z.of_nat (length (z_hist z)) < 2 ^ 31 - 1) as Hn by lia.
  unfold linenoiseEditHistoryNext, z_history. unfold does_h. rewrite (ln_step get_history _ c (history c) c eq_refl).
  rewrite Hh. unfold lines_of. rewrite length_fmap. set (n := length (z_hist z)) in *. destruct (Nat.leb_spec n 1) as [H1|H1].
  { rewrite (proj2 (Z.leb_le _ _)) by lia. intros [= <-]. exists l, c. done. }
  rewrite (proj2 (Z.leb_gt _ _)) by lia. destruct (lr_buf _ _ Hr) as [rest Eb]. destruct (lr_index _ _ Hr) as [Ei Hi]. fold n in Hi.
  assert (cstr (l_buf l) = Some (concat (z_text z))) as Ecs by (rewrite Eb; apply cstr_app, text_no_nul, Hr). rewrite (ln_opt_step _ _ _ _ Ecs).
  assert ((Z.of_nat n - 1 - history_index l <? 0) = false) as -> by (rewrite Ei; apply Z.ltb_ge; lia).
  assert (Z.to_nat (Z.of_nat n - 1 - history_index l) = n - 1 - z_index z)%nat as -> by lia.
  destruct (lookup_lt_is_Some_2 (z_hist z) (n - 1 - z_index z)%nat ltac:(lia)) as [old Eold].
  rewrite (ln_opt_step _ (concat old)) by (by rewrite list_lookup_fmap, Eold). rewrite <- list_fmap_insert.
  set (h := <[(n - 1 - z_index z)%nat := z_text z]> (z_hist z)). fold (lines_of h).
  assert (length h = n) as Hhl by (unfold h; by rewrite length_insert). assert (Forall is_text h) as Hht by (apply list.Forall_insert; [done|apply Hr]).
  set (c1 := set_history (lines_of h) c). rewrite (ln_step (put_history (lines_of h)) _ c () c1 eq_refl).
  assert (forall i, (i < n)%nat -> line_rep (set_index (Z.of_nat i) l) (z_at h i z)) as Hat by (intros i Hin; by apply rep_at).
  assert (forall z1, z_hist z1 = h -> hist_rep c1 z1) as Hc1 by (intros z1 E; unfold hist_rep; rewrite E, Hhl; done).
  assert (forall i, (i < n)%nat -> forall e, h !! (n - 1 - i)%nat = Some e -> (length (concat e) < CAPACITY)%nat ->
    exists l' c', (entry ← ln_opt (lines_of h !! Z.to_nat (Z.of_nat n - 1 - Z.of_nat i));
      bs ← ln_opt (strncpy (entry ++ [0]) (l_buflen l)); b ← ln_opt (put_bytes 0 bs (l_buf l)); last ← ln_opt (usub (l_buflen l) 1);
      b ← ln_opt (put_bytes last [0] b); len ← ln_opt (strlen b); redrawn write_ok hints (set_line b len len (set_index (Z.of_nat i) l))) c1 = Some (l', c') /\
      line_rep l' (z_line (rev e) [] (z_at h i z)) /\ hist_rep c' (z_line (rev e) [] (z_at h i z)) /\ t_in c' = t_in c) as Hload.
  { intros i Hin e Ee Hel. destruct (load_line l z h i e c1 Hr Hhl Hin) as (bs & b1 & b2 & E1 & E2 & E3 & E4 & E5 & (l' & c' & E6 & Hr' & (Hq1 & Hq2 & Hq3))); [|done|].
    { by eapply list.Forall_lookup_1. }
    replace (Z.to_nat (Z.of_nat n - 1 - Z.of_nat i)) with (n - 1 - i)%nat by lia. rewrite (ln_opt_step _ (concat e)) by (unfold lines_of; by rewrite list_lookup_fmap, Ee).
    rewrite (ln_opt_step _ _ _ _ E1), (ln_opt_step _ _ _ _ E2), (ln_opt_step _ _ _ _ E3), (ln_opt_step _ _ _ _ E4), (ln_opt_step _ _ _ _ E5).
    exists l', c'. split; [done|]. split; [done|]. split; [|by rewrite Hq1]. destruct (Hc1 (z_at h i z) eq_refl) as (? & ? & ? & ?). split; [by rewrite Hq2|]. by rewrite Hq3. }
  fold h. destruct prev.
  - rewrite Ei, to_int32_small by lia. replace (Z.of_nat (z_index z) + 1) with (Z.of_nat (S (z_index z))) by lia. rewrite (proj2 (Z.ltb_ge _ _)) by lia.
    destruct (Nat.ltb_spec (S (z_index z)) n) as [Hlt|Hge].
    + rewrite (proj2 (Z.leb_gt _ _)) by lia. destruct (h !! (n - 1 - S (z_index z))%nat) as [e|] eqn:Ee; [|done]. cbn [mbind option_bind].
      destruct (Nat.ltb_spec (length (concat e)) CAPACITY) as [Hel|]; [|done]. intros [= <-]. apply (Hload (S (z_index z)) Hlt e Ee Hel).
    + rewrite (proj2 (Z.leb_le _ _)) by lia. intros [= <-]. exists (set_index (Z.of_nat n - 1) l), c1. split; [done|].
      replace (Z.of_nat n - 1) with (Z.of_nat (n - 1)) by lia. split; [by apply Hat; lia|]. split; [by apply Hc1|done].
  - rewrite Ei. destruct (z_index z) as [|i] eqn:Ez.
    + rewrite to_int32_small by lia. cbn. intros [= <-]. exists (set_index 0 l), c1. split; [done|]. split; [apply (Hat 0%nat); lia|]. split; [by apply Hc1|done].
    + rewrite to_int32_small by lia. replace (Z.of_nat (S i) + -1) with (Z.of_nat i) by lia. rewrite (proj2 (Z.ltb_ge _ _)) by lia. rewrite (proj2 (Z.leb_gt _ _)) by lia.
      destruct (h !! (n - 1 - i)%nat) as [e|] eqn:Ee; [|done]. cbn [mbind option_bind]. destruct (Nat.ltb_spec (length (concat e)) CAPACITY) as [Hel|]; [|done]. intros [= <-].
      apply (Hload i ltac:(lia) e Ee Hel).
Qed.
End operations.
