(* ===== verification/LineKeys.v ===== *)
(** The keys of the line editor: what each does to the text, and that the
    bytes a terminal sends for it have that effect. *)
From S2P Require Import Prelude Libc Text Printf Utf8 Linenoise LineDraw LineEdit.

(** * Keys *)

Inductive key :=
| KChar (c : list Z) | KEnter | KInterrupt | KBackspace | KEof | KSwap | KLeft | KRight | KUp | KDown | KHome | KEnd | KDelete
| KKillLine | KKillEnd | KClear | KWord | KTab | KEscape.

(** A character that is not one of the keys. *)
Definition typable (c : list Z) : Prop :=
  text_char c /\ c ∉ [[1]; [2]; [3]; [4]; [5]; [6]; [8]; [9]; [11]; [12]; [13]; [14]; [16]; [20]; [21]; [23]; [27]; [127]].
#[export] Instance typable_dec c : Decision (typable c).
Proof. unfold typable. apply _. Defined.

(** The byte sequences of a key. *)
Definition key_seqs (k : key) : list (list Z) :=
  match k with
  | KChar c => if decide (typable c) then [c] else []
  | KEnter => [[13]]
  | KInterrupt => [[3]]
  | KBackspace => [[127]; [8]]
  | KEof => [[4]]
  | KSwap => [[20]]
  | KLeft => [[2]; [27; 91; 68]]
  | KRight => [[6]; [27; 91; 67]]
  | KUp => [[16]; [27; 91; 65]]
  | KDown => [[14]; [27; 91; 66]]
  | KHome => [[1]; [27; 91; 72]; [27; 79; 72]]
  | KEnd => [[5]; [27; 91; 70]; [27; 79; 70]]
  | KDelete => [[27; 91; 51; 126]]
  | KKillLine => [[21]]
  | KKillEnd => [[11]]
  | KClear => [[12]]
  | KWord => [[23]]
  | KTab => [[9]]
  | KEscape => [[27]]
  end.

(** Still editing; a line, or none, and the history that is left. *)
Inductive zres := ZMore (z : zed) | ZDone (line : list (list Z)) (h : list (list (list Z))) | ZQuit (h : list (list (list Z))).

Section spec.
(** The completions of a line; [None]: the callback has none to give, not even
    the empty list, for it is undefined there. *)
Variable cs : list Z -> option (list (list (list Z))).

Definition zmove (z : zed) (k : key) : option zed :=
  match k with
  | KChar c => Some (z_insert c z)
  | KBackspace => Some (z_backspace z)
  | KSwap => z_swap z
  | KLeft => Some (z_left z)
  | KRight => Some (z_right z)
  | KUp => z_history true z
  | KDown => z_history false z
  | KHome => Some (z_home z)
  | KEnd => Some (z_end z)
  | KDelete => Some (z_delete z)
  | KKillLine => Some (z_line [] [] z)
  | KKillEnd => Some (z_line (z_front z) [] z)
  | KClear => Some z
  | KWord => Some (z_word z)
  | _ => None
  end.
Definition zkey (z : zed) (k : key) : option zres :=
  match k with
  | KEnter => match z_hist z with [] => None | h => Some (ZDone (z_text z) (removelast h)) end
  | KInterrupt => Some (ZQuit (z_hist z))
  | KEof =>
      if (0 <? z_bytes z)%nat then Some (ZMore (z_delete z))
      else match z_hist z with [] => None | h => Some (ZQuit (removelast h)) end
  | _ => z ← zmove z k; Some (ZMore z)
  end.

(** With completions on show TAB goes to the next, one past the last being the
    line itself, and escape back to the line; the other keys accept what is
    shown.  A sequence that starts with an escape is an escape and then
    characters. *)
Definition zstep (z : zed) (kb : key * list Z) : option zres :=
  let '(k, bs) := kb in
  match z_compl z with
  | None =>
      match k with
      | KTab => v ← cs (concat (z_text z)); Some (ZMore (match v with [] => z | _ => z_show (Some O) z end))
      | KEscape => None
      | _ => zkey z k
      end
  | Some i =>
      v ← cs (concat (z_text z));
      match v with
      | [] => None
      | _ =>
          match k, bs with
          | KTab, _ => Some (ZMore (z_show (Some ((i + 1) mod (length v + 1)))%nat z))
          | _, 27 :: rest => Some (ZMore (foldl (fun z b => z_insert [b] z) (z_show None z) rest))
          | _, _ =>
              zkey (z_show None (match v !! i with Some t => z_line (rev t) [] z | None => z end)) k
          end
      end
  end.

(** The first line of a sequence of keys, and the keys behind it. *)
Fixpoint zrun (z : zed) (ks : list (key * list Z)) : option (zres * list (key * list Z)) :=
  match ks with
  | [] => None
  | kb :: ks => r ← zstep z kb; match r with ZMore z => zrun z ks | _ => Some (r, ks) end
  end.
End spec.

#[export] Instance key_eq_dec : EqDecision key.
Proof. solve_decision. Defined.

Definition keys_ok (ks : list (key * list Z)) : Prop := Forall (fun kb => kb.2 ∈ key_seqs kb.1) ks.
Definition key_bytes (ks : list (key * list Z)) : list Z := concat ks.*2.

(** A callback and what it offers. *)
Definition completer_ok (complete : completer) (cs : list Z -> option (list (list (list Z)))) : Prop :=
  forall t, no_nul t -> (forall rest, complete (t ++ 0 :: rest) = lines_of <$> cs t) /\ 
  (forall v, cs t = Some v -> Forall (fun e => is_text e /\ (length (concat e) < CAPACITY)%nat) v).

Lemma char_key ch bs : bs ∈ key_seqs (KChar ch) -> bs = ch /\ typable ch.
Proof. cbn [key_seqs]. case_decide as Hty; [by intros ->%list_elem_of_singleton|by intros ?%not_elem_of_nil]. Qed.

(** * The bytes of a key *)

Section keys.
Context (write_ok : nat -> bool) (junk : Z) (hc : hinter) (Hhc : hinter_ok hc) (hmax : nat) (Hhmax : Z.of_nat hmax < 2 ^ 31 - 1).
Context (complete : completer) (cs : list Z -> option (list (list (list Z)))) (Hcomp : completer_ok complete cs).

Let hints := Some hc.
Let Hhints : hints_ok hints := Hhc.
Let feed := linenoiseEditFeed write_ok junk hints (Some complete).
Let fkey := feed_key write_ok junk hints.

(** Reading one byte. *)
Definition con_in (r : list rd) (c : con) : con :=
  {| t_in := r; t_out := t_out c; history := history c; history_max_len := history_max_len c |}.
Lemma read1_byte b r c : t_in c = RByte b :: r -> read1 c = Some (Got b, con_in r c).
Proof. unfold read1. by intros ->. Qed.

(** A line that comes back. *)
Definition typed_ok (line : list (list Z)) : Prop := is_text line /\ (length (concat line) <= CAPACITY)%nat.

(** The history, between lines. *)
Definition hist_kept (h : list (list (list Z))) (c : con) : Prop :=
  history c = lines_of h /\ Forall is_text h /\ (length h <= hmax)%nat /\ history_max_len c = hmax.

(** What a result of the model says of one of the editor, with [r] left of the
    input. *)
Definition fed_ok (x : fed) (c' : con) (y : zres) (r : list rd) : Prop :=
  t_in c' = r /\
  match x, y with
  | FMore l', ZMore z' => line_rep l' z' /\ hist_rep hmax c' z'
  | FLine s, ZDone line h => s = concat line ++ [0] /\ typed_ok line /\ hist_kept h c'
  | FNull, ZQuit h => hist_kept h c'
  | _, _ => False
  end.

Lemma more_ok m z' c : does_h hmax m z' c -> exists x c', more m c = Some (x, c') /\ fed_ok x c' (ZMore z') (t_in c).
Proof.
  intros (l' & c' & E & Hr & Hh & Hi). exists (FMore l'), c'. unfold more. rewrite (ln_step _ _ _ _ _ E). split; [done|]. split; [done|]. done.
Qed.
Lemma more_does m z z' c : does m z' c -> hist_rep hmax c z -> z_hist z' = z_hist z -> exists x c', more m c = Some (x, c') /\ fed_ok x c' (ZMore z') (t_in c).
Proof. intros Hd Hh Hz. apply more_ok. by eapply does_does_h. Qed.

Lemma read_rest_ok bs : forall r c, t_in c = (RByte <$> bs) ++ r -> read_rest junk (length bs) c = Some (bs, con_in r c).
Proof.
  induction bs as [|b bs IH]; intros r c Hi; cbn [length read_rest].
  - cbn in Hi. subst r. by destruct c.
  - rewrite (ln_step _ _ _ _ _ (read1_byte b _ c Hi)). rewrite (ln_step _ _ _ _ _ (IH r (con_in ((RByte <$> bs) ++ r) c) eq_refl)). done.
Qed.

(** A character that is typed. *)
Lemma char_fed l z b bs r c : line_rep l z -> hist_rep hmax c z -> text_char (b :: bs) -> t_in c = (RByte <$> bs) ++ r ->
  exists x c', feed_char write_ok junk hints l b c = Some (x, c') /\ fed_ok x c' (ZMore (z_insert (b :: bs) z)) r.
Proof.
  intros Hr Hh Ht Hi. unfold feed_char. pose proof (proj1 Ht) as (_ & Hl & _). cbn [length] in Hl. rewrite <- Hl. cbn [Nat.sub]. rewrite Nat.sub_0_r.
  rewrite (ln_step _ _ _ _ _ (read_rest_ok bs r c Hi)).
  destruct (insert_ok write_ok hints Hhints l z (b :: bs) (con_in r c) ltac:(done) Hr Ht) as (l' & c' & E & Hr' & Hq).
  rewrite (ln_step _ _ _ _ _ E). exists (FMore l'), c'. split; [done|]. split; [apply Hq|]. split; [done|].
  eapply quiet_hist; [done|exact Hh|]. by unfold z_insert; case_match.
Qed.

Lemma typable_feed l b bs : typable (b :: bs) -> fkey l b = feed_char write_ok junk hints l b.
Proof.
  intros [Ht Hn]. assert (forall x, [x] ∈ [[1]; [2]; [3]; [4]; [5]; [6]; [8]; [9]; [11]; [12]; [13]; [14]; [16]; [20]; [21]; [23]; [27]; [127]] ->
    utf8ByteLen x = 1%nat -> (b =? x) = false) as Hx.
  { intros x Hin Hl. apply Z.eqb_neq. intros ->. apply Hn. destruct (proj1 Ht) as (_ & E & _). rewrite Hl in E. destruct bs; [done|discriminate]. }
  unfold fkey, feed_key. rewrite !Hx; [done|..]; first [done | by (repeat (try (apply list_elem_of_here); apply list_elem_of_further))].
Qed.

Lemma drop_entry_ok z c h0 h : hist_rep hmax c z -> z_hist z = h0 :: h ->
  exists c', drop_entry c = Some ((), c') /\ t_in c' = t_in c /\ hist_kept (removelast (h0 :: h)) c'.
Proof.
  intros (H1 & H2 & H3 & H4) E. rewrite E in H1, H2, H3. exists (set_history (lines_of (removelast (h0 :: h))) c). rewrite removelast_firstn_len. split; [|split; [done|split]].
  - unfold drop_entry. rewrite (ln_step get_history _ c (history c) c eq_refl), H1. unfold lines_of. cbn [fmap list_fmap].
    change (concat h0 :: list_fmap _ _ _ h) with ((fun e => concat e) <$> h0 :: h). unfold put_history. do 3 f_equal.
    rewrite removelast_firstn_len, fmap_take. cbn [length]. by rewrite length_fmap.
  - done.
  - split; [by apply list.Forall_take|]. split; [rewrite length_take; lia|done].
Qed.

(** ** Every key but the two of the completion *)

Definition fed_as (l : linenoiseState) (b : Z) (c : con) (y : zres) (r : list rd) : Prop :=
  exists x c', fkey l b c = Some (x, c') /\ fed_ok x c' y r.

Lemma fed_more l b c z' r m c1 : fkey l b c = more m c1 -> does_h hmax m z' c1 -> t_in c1 = r -> fed_as l b c (ZMore z') r.
Proof. intros E Hd <-. unfold fed_as. rewrite E. by apply more_ok. Qed.

(** The operation behind a key. *)
Definition key_op (l : linenoiseState) (k : key) : ln linenoiseState :=
  match k with
  | KBackspace => linenoiseEditBackspace write_ok hints l
  | KSwap => swap_chars write_ok junk hints l
  | KLeft => linenoiseEditMoveLeft write_ok hints l
  | KRight => linenoiseEditMoveRight write_ok hints l
  | KUp => linenoiseEditHistoryNext write_ok hints l true
  | KDown => linenoiseEditHistoryNext write_ok hints l false
  | KHome => linenoiseEditMoveHome write_ok hints l
  | KEnd => linenoiseEditMoveEnd write_ok hints l
  | KDelete => linenoiseEditDelete write_ok hints l
  | KKillLine => b ← ln_opt (put_bytes 0 [0] (l_buf l)); redrawn write_ok hints (set_line b 0 0 l)
  | KKillEnd => b ← ln_opt (put_bytes (l_pos l) [0] (l_buf l)); redrawn write_ok hints (set_line b (l_pos l) (l_pos l) l)
  | KClear => _ ← linenoiseClearScreen write_ok; redrawn write_ok hints l
  | KWord => linenoiseEditDeletePrevWord write_ok hints l
  | _ => ln_ub
  end.

Lemma key_op_ok l z k z' c : line_rep l z -> hist_rep hmax c z -> zmove z k = Some z' -> match k with KChar _ => False | _ => True end -> does_h hmax (key_op l k) z' c.
Proof.
  intros Hr Hh Hz Hk. pose proof (does_does_h hmax (key_op l k) z z' c) as Hd.
  destruct k; cbn [zmove key_op] in *; try discriminate; try done; try (injection Hz as <-).
  - apply Hd; [by apply line_backspace_ok|done|done].
  - apply Hd; [by eapply swap_ok|done|]. unfold z_swap in Hz. repeat case_match; simplify_eq; done.
  - apply Hd; [by apply move_left_ok|done|done].
  - apply Hd; [by apply move_right_ok|done|done].
  - by eapply history_ok.
  - by eapply history_ok.
  - apply Hd; [by apply move_home_ok|done|done].
  - apply Hd; [by apply move_end_ok|done|done].
  - apply Hd; [by apply line_delete_ok|done|done].
  - apply Hd; [by apply kill_line_ok|done|done].
  - apply Hd; [by apply kill_end_ok|done|done].
  - apply Hd; [|done|done]. destruct (redrawn_ok write_ok hints Hhints l z
      {| t_in := t_in c; t_out := t_out c ++ [esc (str "H") ++ esc (str "2J")]; history := history c; history_max_len := history_max_len c |} Hr) as (c' & E & Hq).
    exists l, c'. done.
  - apply Hd; [by apply delete_word_ok|done|done].
Qed.

(** How the switch gets there: at once, or after the bytes of a sequence. *)
Lemma key_dispatch l k b bs r c : b :: bs ∈ key_seqs k -> t_in c = (RByte <$> bs) ++ r ->
  match k with KChar _ | KEnter | KInterrupt | KEof | KTab | KEscape => False | _ => True end ->
  exists c1, fkey l b c = more (key_op l k) c1 /\ t_in c1 = r /\ history c1 = history c /\ history_max_len c1 = history_max_len c.
Proof.
  intros Hk Hi Hn. assert (c = con_in ((RByte <$> bs) ++ r) c) as Ec by (rewrite <- Hi; by destruct c).
  exists (con_in r c). split; [|done].
  destruct k; try done; apply list_elem_of_In in Hk; cbn in Hk; repeat destruct Hk as [[= <- <-]|Hk]; try done; cbn in Ec.
  all: rewrite Ec; cbn; try reflexivity; unfold more, mbind, ln_bind, ln_opt; by destruct (put_bytes _ _ _).
Qed.

Lemma line_of_rep l z : line_rep l z -> cstr (l_buf l) = Some (concat (z_text z)).
Proof. intros Hr. destruct (lr_buf _ _ Hr) as [rest ->]. apply cstr_app, text_no_nul, Hr. Qed.

Lemma enter_fed l z h0 h c : line_rep l z -> hist_rep hmax c z -> z_hist z = h0 :: h ->
  fed_as l 13 c (ZDone (z_text z) (removelast (h0 :: h))) (t_in c).
Proof.
  intros Hr Hh Ez. destruct (drop_entry_ok z c h0 h Hh Ez) as (c1 & E & Hi1 & Hk). unfold fed_as, fkey, feed_key. cbn [Z.eqb Pos.eqb]. unfold feed_enter. rewrite (ln_step _ _ _ _ _ E).
  unfold hints. destruct (refresh_ok write_ok None l z c1 I Hr) as (c' & E' & Hi & Hc & Hm).
  rewrite (ln_step _ _ _ _ _ E'), (ln_opt_step _ _ _ _ (line_of_rep l z Hr)). eexists _, c'. split; [done|]. split; [by rewrite Hi|]. split; [done|]. split; [split; [apply Hr|by apply (rep_bytes l)]|]. unfold hist_kept. by rewrite Hc, Hm.
Qed.

Lemma eof_fed l z y c : line_rep l z -> hist_rep hmax c z -> zkey z KEof = Some y -> fed_as l 4 c y (t_in c).
Proof.
  intros Hr Hh. unfold zkey. rewrite <- (lr_len _ _ Hr). destruct (Nat.ltb_spec 0 (l_len l)) as [Hl|Hl].
  - intros [= <-]. eapply fed_more; [|by eapply does_does_h; [by apply line_delete_ok| |]|done].
    unfold fkey, feed_key. cbn [Z.eqb Pos.eqb orb]. by rewrite (proj2 (Nat.ltb_lt _ _) Hl).
  - destruct (z_hist z) as [|h0 h] eqn:Ez; [done|]. intros [= <-]. destruct (drop_entry_ok z c h0 h Hh Ez) as (c1 & E & Hi1 & Hk).
    unfold fed_as, fkey, feed_key. cbn [Z.eqb Pos.eqb orb]. rewrite (proj2 (Nat.ltb_ge _ _) Hl), (ln_step _ _ _ _ _ E). by eexists _, _.
Qed.

(** The bytes of a key do to the state what the key does to the text. *)
Lemma key_fed l z k b bs r c y : line_rep l z -> hist_rep hmax c z -> b :: bs ∈ key_seqs k -> t_in c = (RByte <$> bs) ++ r -> zkey z k = Some y ->
  fed_as l b c y r.
Proof.
  intros Hr Hh Hk Hi Hy.
  assert (forall k', match k with KChar _ | KEnter | KInterrupt | KEof | KTab | KEscape => False | _ => True end -> k' = k -> fed_as l b c y r) as Hop.
  { intros k' Hn _. assert (exists z', zmove z k = Some z' /\ y = ZMore z') as (z' & Hz & ->).
    { destruct k; try done; unfold zkey in Hy; destruct (zmove z _) as [z'|] eqn:E; try discriminate; injection Hy as <-; by exists z'. }
    destruct (key_dispatch l k b bs r c Hk Hi Hn) as (c1 & E & Hi1 & Hc1 & Hm1). eapply fed_more; [exact E| |done].
    apply (key_op_ok l z); [done| |done|by destruct k]. unfold hist_rep. by rewrite Hc1, Hm1. }
  destruct k; try (by eapply Hop); clear Hop; try discriminate; [apply char_key in Hk as [<- Hty]|apply list_elem_of_In in Hk; cbn in Hk; destruct Hk as [[= Ec]|[]]..].
  - injection Hy as <-. unfold fed_as. rewrite (typable_feed l b bs) by done. apply char_fed; [done|done|apply Hty|done].
  - subst. cbn in Hi, Hy. destruct (z_hist z) as [|h0 h] eqn:Ez; [done|]. injection Hy as <-. rewrite <- Hi. by apply enter_fed.
  - subst. cbn in Hi. injection Hy as <-. exists FNull, c. done.
  - subst. cbn in Hi. rewrite <- Hi. by apply (eof_fed l z).
Qed.

(** ** Completions *)

Lemma rep_completion l z inc i k : line_rep l z -> match k with Some j => inc = true /\ i = j | None => inc = false end ->
  line_rep (set_completion inc i l) (z_show k z).
Proof. by intros [H1 H2 H3 H4 H5 H6 H7 H8 [H9 H10]] Hk. Qed.
Lemma hist_show c z k : hist_rep hmax c z -> hist_rep hmax c (z_show k z).
Proof. done. Qed.

(** The offer for the line in the buffer. *)
Lemma offer_ok l z v : line_rep l z -> cs (concat (z_text z)) = Some v ->
  complete (l_buf l) = Some (lines_of v) /\ Forall (fun e => is_text e /\ (length (concat e) < CAPACITY)%nat) v.
Proof.
  intros Hr E. destruct (lr_buf _ _ Hr) as [rest ->]. destruct (Hcomp (concat (z_text z)) (text_no_nul _ (lr_text _ _ Hr))) as [H1 H2].
  split; [|by apply H2]. by rewrite H1, E.
Qed.

Lemma show_ok l z v c : line_rep l z -> Forall (fun e => is_text e /\ (length (concat e) < CAPACITY)%nat) v ->
  exists c', refreshLineWithCompletion write_ok hints l (lines_of v) c = Some ((), c') /\ ed_quiet c c'.
Proof.
  intros Hr Hv. unfold refreshLineWithCompletion, lines_of. rewrite list_lookup_fmap. destruct (v !! completion_idx l) as [e|] eqn:Ee; cbn [fmap option_fmap option_map]; [|by eapply refresh_ok].
  destruct (list.Forall_lookup_1 _ _ _ _ Hv Ee) as [He Hl].
  destruct (single_line_ok hints (set_line (concat e ++ [0]) (length (concat e)) (length (concat e)) l) e [] []) as [bs Ebs]; rewrite ?app_nil_r; try done.
  - destruct (lr_term _ _ Hr) as [? ?]. by split.
  - pose proof (chars_length _ (text_chars _ He)). assert (Z.of_nat CAPACITY < 2 ^ 32) by (by vm_compute). lia.
  - unfold refreshLine, refreshSingleLine. rewrite (ln_opt_step _ _ _ _ Ebs). by eexists.
Qed.

(** Accepting the completion on show. *)
Lemma accept_ok l z e : line_rep l z -> is_text e -> (length (concat e) < CAPACITY)%nat ->
  exists l', store_completion (concat e) l = Some l' /\ line_rep l' (z_line (rev e) [] z).
Proof.
  intros Hr He Hl. unfold store_completion. pose proof (lr_size _ _ Hr) as Hs. rewrite (lr_buflen _ _ Hr) in *. rewrite take_ge by lia.
  destruct (split_len (l_buf l) (length (concat e ++ [0]))) as (x & y & Exy & Hx); [rewrite length_app; cbn [length]; lia|].
  assert (put_bytes 0 (concat e ++ [0]) (l_buf l) = Some ((concat e ++ [0]) ++ y)) as -> by (rewrite Exy; by apply (put_over [])).
  cbn [mbind option_bind]. eexists. split; [done|]. rewrite <- app_assoc. apply rep_line; [done| | | |by rewrite front_rev, rev_involutive|].
  - unfold z_text. cbn. by rewrite rev_involutive, app_nil_r.
  - unfold z_text. cbn. rewrite rev_involutive, app_nil_r. by eexists.
  - rewrite length_app in Hx. rewrite Exy, !length_app. cbn [length] in *. lia.
  - unfold z_bytes, z_text. cbn. by rewrite rev_involutive, app_nil_r.
Qed.

(** What a round of the editor does with a byte that goes to the completion. *)
Lemma tab_ok l z y c : line_rep l z -> hist_rep hmax c z -> zstep cs z (KTab, [9]) = Some y ->
  exists l' c', completeLine write_ok hints complete l 9 c = Some ((l', 0), c') /\ fed_ok (FMore l') c' y (t_in c).
Proof.
  intros Hr Hh Hz. assert (exists v, cs (concat (z_text z)) = Some v) as [v Ev].
  { unfold zstep in Hz. destruct (cs (concat (z_text z))) as [v|]; [by exists v|]. by destruct (z_compl z). }
  destruct (offer_ok l z v Hr Ev) as [Eo Hv]. unfold completeLine. rewrite (ln_opt_step _ _ _ _ Eo).
  destruct v as [|e v].
  - cbn. eexists _, c. split; [done|]. split; [done|]. unfold zstep in Hz. rewrite Ev in Hz. pose proof (lr_compl _ _ Hr) as Hc.
    destruct (z_compl z) eqn:Ez; [done|]. cbn in Hz. injection Hz as <-. split; [|done].
    pose proof (rep_completion l z false (completion_idx l) None Hr eq_refl) as Hr'. unfold z_show in Hr'. rewrite <- Ez in Hr'. by destruct z.
  - unfold lines_of. cbn [fmap list_fmap Z.eqb Pos.eqb]. set (idx := match z_compl z with Some i => ((i + 1) mod (length (e :: v) + 1))%nat | None => O end).
    assert (y = ZMore (z_show (Some idx) z)) as ->.
    { unfold zstep in Hz. rewrite Ev in Hz. unfold idx. destruct (z_compl z); cbn in Hz; by injection Hz as <-. }
    pose proof (rep_completion l z true idx (Some idx) Hr (conj eq_refl eq_refl)) as Hr'.
    destruct (show_ok (set_completion true idx l) _ (e :: v) c Hr' Hv) as (c' & E & Hq).
    assert (exists c'', (if (idx <? length (lines_of (e :: v)))%nat then refreshLineWithCompletion write_ok hints (set_completion true idx l) (lines_of (e :: v))
      else refreshLine write_ok hints (set_completion true idx l)) c = Some ((), c'') /\ ed_quiet c c'') as (c'' & E' & Hq').
    { destruct (_ <? _)%nat; [by exists c'|]. exact (refresh_ok write_ok hints _ _ c Hhints Hr'). }
    exists (set_completion true idx l), c''. split; [|split; [apply Hq'|split; [done|by eapply quiet_hist]]].
    assert (forall b : bool, in_completion l = b -> ((if b then mret (set_completion true ((completion_idx l + 1) mod (length (lines_of (e :: v)) + 1)) l, 0)
      else mret (set_completion true 0 l, 0)) : ln (linenoiseState * Z)) c = Some ((set_completion true idx l, 0), c)) as Hb.
    { intros b Eb. pose proof (lr_compl _ _ Hr) as Hcp. unfold idx, lines_of. rewrite length_fmap. destruct (z_compl z).
      - destruct Hcp as [Hcp ->]. rewrite Eb in Hcp. by rewrite Hcp.
      - rewrite Eb in Hcp. by rewrite Hcp. }
    specialize (Hb _ eq_refl). unfold lines_of in Hb, E'. cbn [fmap list_fmap] in Hb, E'. rewrite (ln_step _ _ _ _ _ Hb). cbn [in_completion set_completion completion_idx andb].
    by rewrite (ln_step _ _ _ _ _ E').
Qed.

Lemma cancel_ok l z i e v c : line_rep l z -> z_compl z = Some i -> cs (concat (z_text z)) = Some (e :: v) ->
  exists l' c', completeLine write_ok hints complete l 27 c = Some ((l', 0), c') /\ line_rep l' (z_show None z) /\ ed_quiet c c'.
Proof.
  intros Hr Ez Ev. destruct (offer_ok l z _ Hr Ev) as [Eo Hv]. unfold completeLine. rewrite (ln_opt_step _ _ _ _ Eo). unfold lines_of. cbn [fmap list_fmap Z.eqb Pos.eqb].
  set (n := length (_ :: _)). pose proof (rep_completion l z false (completion_idx l) None Hr eq_refl) as Hr'.
  assert (exists c1, ((if (completion_idx l <? n)%nat then refreshLine write_ok hints l else mret ()) : ln ()) c = Some ((), c1) /\ ed_quiet c c1) as (c1 & E1 & H1).
  { destruct (_ <? _)%nat; [exact (refresh_ok write_ok hints l z c Hhints Hr)|by exists c]. }
  destruct (refresh_ok write_ok hints _ _ c1 Hhints Hr') as (c2 & E2 & H2). exists (set_completion false (completion_idx l) l), c2.
  split; [|split; [done|by eapply ed_quiet_trans]]. etrans; [eapply ln_step; rewrite (ln_step _ _ _ _ _ E1); reflexivity|]. cbn [mret ln_ret in_completion set_completion andb].
  by rewrite (ln_step _ _ _ _ _ E2).
Qed.

Definition accepted (v : list (list (list Z))) (i : nat) (z : zed) : zed := z_show None (match v !! i with Some t => z_line (rev t) [] z | None => z end).

Lemma other_ok l z i e v b c : line_rep l z -> z_compl z = Some i -> cs (concat (z_text z)) = Some (e :: v) -> b <> 9 -> b <> 27 ->
  exists l' c', completeLine write_ok hints complete l b c = Some ((l', b), c') /\ line_rep l' (accepted (e :: v) i z) /\ ed_quiet c c'.
Proof.
  intros Hr Ez Ev H9 H27. destruct (offer_ok l z _ Hr Ev) as [Eo Hv]. unfold completeLine. rewrite (ln_opt_step _ _ _ _ Eo). destruct (lines_of (e :: v)) as [|x w] eqn:Ew; [done|]. rewrite <- Ew.
  rewrite (proj2 (Z.eqb_neq _ _) H9), (proj2 (Z.eqb_neq _ _) H27). pose proof (lr_compl _ _ Hr) as Hc. rewrite Ez in Hc. destruct Hc as [_ ->].
  unfold lines_of. rewrite list_lookup_fmap.
  assert (exists l', match (fun e => concat e) <$> (e :: v) !! i with Some t => store_completion t l | None => Some l end = Some l' /\
    line_rep l' (match (e :: v) !! i with Some t => z_line (rev t) [] z | None => z end)) as (l' & El & Hl).
  { destruct ((e :: v) !! i) as [t|] eqn:Et; cbn [fmap option_fmap option_map]; [|by exists l].
    destruct (list.Forall_lookup_1 _ _ _ _ Hv Et) as [Ht Htl]. by apply accept_ok. }
  pose proof (rep_completion l' _ false (completion_idx l') None Hl eq_refl) as Hr'. destruct (refresh_ok write_ok hints _ _ c Hhints Hr') as (c2 & E2 & H2).
  eexists _, c2. split; [|by split].
  etrans; [eapply ln_step; rewrite (ln_opt_step _ _ _ _ El); reflexivity|]. cbn [mret ln_ret in_completion set_completion andb].
  by rewrite (ln_step _ _ _ _ _ E2).
Qed.

(** ** A round of the editor *)

Lemma tail_typable k bs : 27 :: bs ∈ key_seqs k -> (forall c, k <> KChar c) -> Forall (fun b => typable [b]) bs.
Proof.
  intros Hk Hn. destruct k; try (by destruct (Hn _ eq_refl)); apply list_elem_of_In in Hk; cbn in Hk; repeat destruct Hk as [[= <-]|Hk]; try done;
    repeat (apply list.Forall_cons_2 || apply list.Forall_nil_2); by apply (bool_decide_unpack _).
Qed.

Lemma hist_in r c z : hist_rep hmax c z -> hist_rep hmax (con_in r c) z.
Proof. done. Qed.
Lemma key_first k b bs : b :: bs ∈ key_seqs k -> b <> 0 /\ (k <> KTab -> b <> 9) /\ (b = 27 -> forall ch, k <> KChar ch).
Proof.
  intros Hk. destruct k; try (apply list_elem_of_In in Hk; cbn in Hk; by repeat destruct Hk as [[= <- <-]|Hk]).
  apply char_key in Hk as [<- [Ht Hn]]. destruct Ht as ((_ & Hl & _) & Hnn & _). apply list.Forall_cons in Hnn as [H0 _]. split; [done|]. split.
  - intros _ ->. apply Hn. destruct bs; [|discriminate]. by apply (bool_decide_unpack _).
  - intros ->. exfalso. apply Hn. destruct bs; [|discriminate]. by apply (bool_decide_unpack _).
Qed.

(** A key with no completion on show. *)
Lemma feed_plain l z k b bs r c y : line_rep l z -> hist_rep hmax c z -> z_compl z = None -> b :: bs ∈ key_seqs k -> k <> KTab -> zkey z k = Some y ->
  t_in c = RByte b :: (RByte <$> bs) ++ r -> exists x c', feed l c = Some (x, c') /\ fed_ok x c' y r.
Proof.
  intros Hr Hh Ez Hk Hn Hy Hi. unfold feed, linenoiseEditFeed. rewrite (ln_step _ _ _ _ _ (read1_byte b _ c Hi)).
  pose proof (lr_compl _ _ Hr) as Hc. rewrite Ez in Hc. rewrite Hc. cbn [orb].
  destruct (key_first k b bs Hk) as (_ & H9 & _). rewrite (proj2 (Z.eqb_neq b 9)) by auto. by apply (key_fed l z k b bs r).
Qed.

(** Completions on show: nothing of the key is left, or all of it. *)
Lemma feed_tab l z r c y : line_rep l z -> hist_rep hmax c z -> zstep cs z (KTab, [9]) = Some y -> t_in c = RByte 9 :: r ->
  exists x c', feed l c = Some (x, c') /\ fed_ok x c' y r.
Proof.
  intros Hr Hh Hz Hi. unfold feed, linenoiseEditFeed. rewrite (ln_step _ _ _ _ _ (read1_byte 9 _ c Hi)). cbn [Z.eqb Pos.eqb]. rewrite orb_true_r.
  destruct (tab_ok l z y (con_in r c) Hr (hist_in r c z Hh) Hz) as (l' & c' & E & Hf). rewrite (ln_step _ _ _ _ _ E). by exists (FMore l'), c'.
Qed.
Lemma feed_cancel l z i e v r c : line_rep l z -> hist_rep hmax c z -> z_compl z = Some i -> cs (concat (z_text z)) = Some (e :: v) -> t_in c = RByte 27 :: r ->
  exists x c', feed l c = Some (x, c') /\ fed_ok x c' (ZMore (z_show None z)) r.
Proof.
  intros Hr Hh Ez Ev Hi. unfold feed, linenoiseEditFeed. rewrite (ln_step _ _ _ _ _ (read1_byte 27 _ c Hi)).
  pose proof (lr_compl _ _ Hr) as Hc. rewrite Ez in Hc. destruct Hc as [-> _]. cbn [orb].
  destruct (cancel_ok l z i e v (con_in r c) Hr Ez Ev) as (l' & c' & E & Hr' & Hq). rewrite (ln_step _ _ _ _ _ E).
  exists (FMore l'), c'. split; [done|]. split; [apply Hq|]. split; [done|]. by eapply quiet_hist.
Qed.
Lemma feed_accept l z i e v k b bs r c y : line_rep l z -> hist_rep hmax c z -> z_compl z = Some i -> cs (concat (z_text z)) = Some (e :: v) ->
  b :: bs ∈ key_seqs k -> k <> KTab -> b <> 27 -> zkey (accepted (e :: v) i z) k = Some y -> t_in c = RByte b :: (RByte <$> bs) ++ r ->
  exists x c', feed l c = Some (x, c') /\ fed_ok x c' y r.
Proof.
  intros Hr Hh Ez Ev Hk Hn H27 Hy Hi. unfold feed, linenoiseEditFeed. rewrite (ln_step _ _ _ _ _ (read1_byte b _ c Hi)).
  pose proof (lr_compl _ _ Hr) as Hc. rewrite Ez in Hc. destruct Hc as [-> _]. cbn [orb].
  destruct (key_first k b bs Hk) as (H0 & H9 & _). specialize (H9 Hn).
  destruct (other_ok l z i e v b (con_in ((RByte <$> bs) ++ r) c) Hr Ez Ev H9 H27) as (l' & c' & E & Hr' & Hq). rewrite (ln_step _ _ _ _ _ E).
  assert (hist_rep hmax c' (accepted (e :: v) i z)) as Hh2.
  { eapply quiet_hist; [done|exact Hh|]. unfold accepted. by destruct ((e :: v) !! i). }
  pose proof (proj1 Hq) as Hi'.
  rewrite (proj2 (Z.eqb_neq b 0)) by done. by apply (key_fed l' (accepted (e :: v) i z) k b bs r).
Qed.

(** ** The loop *)

Definition loop (n : nat) := edit_loop write_ok junk n hints (Some complete).
Definition goes_on (n : nat) (x : fed) (c : con) : option (option (list Z) * con) :=
  match x with FMore l => loop n l c | FLine s => Some (Some s, c) | FNull => Some (None, c) end.
Lemma loop_step n l c x c' : feed l c = Some (x, c') -> loop (S n) l c = goes_on n x c'.
Proof. intros E. unfold loop. cbn [edit_loop]. rewrite (ln_step _ _ _ _ _ E). by destruct x. Qed.

(** So many single characters. *)
Lemma loop_chars bs : forall n l z r c, line_rep l z -> hist_rep hmax c z -> z_compl z = None -> Forall (fun b => typable [b]) bs ->
  t_in c = (RByte <$> bs) ++ r -> (length bs <= n)%nat ->
  exists l' c', loop n l c = loop (n - length bs) l' c' /\ fed_ok (FMore l') c' (ZMore (foldl (fun z b => z_insert [b] z) z bs)) r.
Proof.
  induction bs as [|b bs IH]; intros n l z r c Hr Hh Ez Hb Hi Hn.
  { exists l, c. cbn [length] in *. rewrite Nat.sub_0_r. done. }
  apply list.Forall_cons in Hb as [Hb Hbs]. destruct n as [|n]; [cbn in Hn; lia|]. cbn [length] in Hn.
  destruct (feed_plain l z (KChar [b]) b [] ((RByte <$> bs) ++ r) c (ZMore (z_insert [b] z)) Hr Hh Ez) as (x & c' & E & Hi' & Hf); try done.
  { cbn [key_seqs]. rewrite decide_True by done. apply list_elem_of_here. }
  destruct x as [l'| |]; try done. destruct Hf as [Hr' Hh']. rewrite (loop_step _ _ _ _ _ E). cbn [goes_on foldl length Nat.sub].
  apply IH; [done|done|by unfold z_insert; case_match|done|done|lia].
Qed.

(** A key takes at most as many rounds as it has bytes. *)
Lemma loop_key n l z k bs r c y : line_rep l z -> hist_rep hmax c z -> bs ∈ key_seqs k -> zstep cs z (k, bs) = Some y -> t_in c = (RByte <$> bs) ++ r ->
  (length bs <= n)%nat -> exists x c' m, loop n l c = goes_on m x c' /\ fed_ok x c' y r /\ (n - length bs <= m)%nat.
Proof.
  intros Hr Hh Hk Hz Hi Hn.
  assert (exists b t, bs = b :: t) as (b & t & ->).
  { destruct bs as [|b t]; [|by eexists _, _]. exfalso. destruct k; try (apply list_elem_of_In in Hk; cbn in Hk; by repeat destruct Hk as [Hk|Hk]).
    apply char_key in Hk as [<- [[[] _] _]]. }
  cbn [length] in *. destruct n as [|n]; [lia|]. destruct (key_first k b t Hk) as (_ & _ & H27).
  assert ((exists x c', feed l c = Some (x, c') /\ fed_ok x c' y r) -> exists x c' m, loop (S n) l c = goes_on m x c' /\ fed_ok x c' y r /\ (S n - S (length t) <= m)%nat) as Hone.
  { intros (x & c' & E & Hf). exists x, c', n. rewrite (loop_step _ _ _ _ _ E). split; [done|]. split; [done|lia]. }
  destruct (decide (k = KTab)) as [->|Hnt].
  { apply list_elem_of_In in Hk. destruct Hk as [[= <- <-]|[]]. apply Hone. by apply (feed_tab l z r c). }
  unfold zstep in Hz. destruct (z_compl z) as [i|] eqn:Ez.
  2: { apply Hone. apply (feed_plain l z k b t r c); try done. by destruct k. }
  destruct (cs (concat (z_text z))) as [[|e v]|] eqn:Ev; try done. cbn [mbind option_bind] in Hz. destruct (decide (b = 27)) as [->|Hb].
  - assert (y = ZMore (foldl (fun z b => z_insert [b] z) (z_show None z) t)) as -> by (destruct k; try done; by injection Hz as <-).
    destruct (feed_cancel l z i e v ((RByte <$> t) ++ r) c) as (x & c' & E & Hi' & Hf); try done. destruct x as [l'| |]; try done. destruct Hf as [Hr' Hh'].
    destruct (loop_chars t n l' (z_show None z) r c') as (l2 & c2 & E2 & Hf2); try done; [by eapply tail_typable, H27|lia|].
    exists (FMore l2), c2, (n - length t)%nat. rewrite (loop_step _ _ _ _ _ E). cbn [goes_on]. split; [done|]. split; [done|lia].
  - apply Hone. apply (feed_accept l z i e v k b t r c); try done.
    unfold accepted. revert Hz. clear -Hb Hnt. destruct k; try done; destruct b as [|p|p]; try done; repeat (destruct p as [p|p|]; try done).
Qed.

(** The line the keys make, or none. *)
Definition z_result (y : zres) : option (list Z) := match y with ZDone line _ => Some (concat line ++ [0]) | _ => None end.
Definition z_typed (y : zres) : list (list Z) := match y with ZDone line _ => line | _ => [] end.
Definition z_kept (y : zres) : list (list (list Z)) := match y with ZMore z => z_hist z | ZDone _ h | ZQuit h => h end.

Lemma loop_ok ks : forall n l z r c y ks', line_rep l z -> hist_rep hmax c z -> keys_ok ks -> zrun cs z ks = Some (y, ks') ->
  t_in c = (RByte <$> key_bytes ks) ++ r -> (length (key_bytes ks) <= n)%nat ->
  exists c', loop n l c = Some (z_result y, c') /\ typed_ok (z_typed y) /\ hist_kept (z_kept y) c' /\ t_in c' = (RByte <$> key_bytes ks') ++ r.
Proof.
  induction ks as [|[k bs] ks IH]; intros n l z r c y ks' Hr Hh Hk Hz Hi Hn; [done|]. apply list.Forall_cons in Hk as [Hk Hks]. cbn [fst snd] in Hk.
  cbn [zrun] in Hz. destruct (zstep cs z (k, bs)) as [y1|] eqn:E1; [|done]. cbn [mbind option_bind] in Hz.
  unfold key_bytes in Hi, Hn. cbn [fmap list_fmap snd concat] in Hi, Hn. fold (key_bytes ks) in Hi, Hn. rewrite fmap_app, <- app_assoc in Hi. rewrite length_app in Hn.
  destruct (loop_key n l z k bs _ c y1 Hr Hh Hk E1 Hi ltac:(lia)) as (x & c' & m & El & [Hi' Hf] & Hm). rewrite El.
  destruct x as [l'|s|], y1 as [z'|line h|h]; try done; cbn [goes_on].
  - destruct Hf as [Hr' Hh']. apply (IH m l' z'); try done. lia.
  - destruct Hf as (-> & Ht & Hkept). injection Hz as <- <-. by exists c'.
  - injection Hz as <- <-. exists c'. split; [done|]. split; [split; [constructor|cbn; lia]|done].
Qed.
End keys.
