(* ===== verification/LineSession.v ===== *)
(** A line from the terminal: the whole of [linenoise] on the keys of a user,
    with the callbacks of the console. *)
From S2P Require Import Prelude Libc Text Printf Utf8 Linenoise LineDraw LineEdit LineKeys Reflex.

(** * A line begins *)

(** The history with an empty current line: the oldest line makes room, and a
    line that is empty already is used again. *)
Definition z_history_add (hmax : nat) (e : list (list Z)) (h : list (list (list Z))) : list (list (list Z)) :=
  if (hmax =? 0)%nat then h else
  if bool_decide ((fun e => concat e) <$> h !! pred (length h) = Some (concat e)) then h else
  (if (length h =? hmax)%nat then drop 1 h else h) ++ [e].
Definition z_start (hmax : nat) (h : list (list (list Z))) : zed :=
  {| z_front := []; z_back := []; z_compl := None; z_hist := z_history_add hmax [] h; z_index := 0 |}.

(** The width that is known without asking the terminal. *)
Definition known_width (e : env) : option Z :=
  match e_cols e with
  | Some s => Some (atoi s)
  | None => n ← e_ws e; if n =? 0 then None else Some n
  end.

(** A terminal the editor runs in, and a prompt that leaves room in it. *)
Record terminal (e : env) (prompt : list Z) : Prop := {
  tm_tty : e_tty e || e_assume e = true;
  tm_raw : e_assume e || e_raw_ok e = true;
  tm_term : isUnsupportedTerm e = false;
  tm_stack : length (e_stack e) = LINENOISE_MAX_LINE;
  tm_room : exists w p, known_width e = Some w /\ is_text p /\ prompt = concat p /\ Z.of_nat (columns p) < u64 w /\ Z.of_nat (length p) < 2 ^ 32
}.

Lemma z_history_add_length hmax e h : (length h <= hmax)%nat -> (length (z_history_add hmax e h) <= hmax)%nat.
Proof.
  intros H. unfold z_history_add. destruct (Nat.eqb_spec hmax 0); [done|]. case_bool_decide; [done|].
  destruct (Nat.eqb_spec (length h) hmax); rewrite length_app, ?length_drop; cbn [length]; lia.
Qed.

Lemma history_add_ok hmax e h c : is_text e -> hist_kept hmax h c ->
  exists c', linenoiseHistoryAdd (concat e) c = Some ((), c') /\ hist_kept hmax (z_history_add hmax e h) c' /\ t_in c' = t_in c.
Proof.
  intros He (H1 & H2 & H3 & H4). unfold linenoiseHistoryAdd. rewrite (ln_step (fun c => Some (c, c)) _ c c c eq_refl). rewrite H4.
  pose proof (z_history_add_length hmax e h H3) as Hl. unfold z_history_add in *. destruct (hmax =? 0)%nat; [by exists c|].
  rewrite H1. unfold lines_of. rewrite length_fmap, list_lookup_fmap. case_bool_decide; [by exists c|].
  eexists. split; [done|]. split; [|done]. split; [|split; [|by split]].
  - cbn [set_history history]. unfold lines_of. rewrite fmap_app. destruct (length h =? hmax)%nat; [by rewrite fmap_drop|done].
  - apply list.Forall_app. split; [|by repeat constructor]. destruct (length h =? hmax)%nat; [by apply list.Forall_drop|done].
Qed.

Section session.
Context (write_ok : nat -> bool) (junk : Z) (hc : hinter) (complete : completer) (hmax : nat).

Lemma start_ok e prompt h c : terminal e prompt -> Z.of_nat hmax < 2 ^ 31 - 1 -> hist_kept hmax h c ->
  exists rc l c', linenoiseEditStart write_ok e (e_stack e) LINENOISE_MAX_LINE prompt c = Some ((rc, l), c') /\
    line_rep l (z_start hmax h) /\ hist_rep hmax c' (z_start hmax h) /\ t_in c' = t_in c.
Proof.
  intros [Htty Hraw Hterm Hst (w & p & Hw & Hp & -> & Hr & Hpl)] Hm Hk. unfold linenoiseEditStart. rewrite Hraw. cbn [negb].
  assert (getColumns write_ok (e_cols e) (e_ws e) c = Some (w, c)) as Ec.
  { unfold getColumns, known_width in *. destruct (e_cols e); [by injection Hw as <-|]. destruct (e_ws e) as [n|]; [|done]. cbn [mbind option_bind] in Hw.
    destruct (n =? 0); [done|by injection Hw as <-]. }
  rewrite (ln_step _ _ _ _ _ Ec). destruct (e_stack e) as [|x b] eqn:Eb; [discriminate|].
  rewrite (ln_opt_step _ _ _ _ (put_over [] [0] [x] b eq_refl)). rewrite Htty. cbn [negb].
  destruct (history_add_ok hmax [] h c ltac:(constructor) Hk) as (c1 & E1 & (K1 & K2 & K3 & K4) & Hi). cbn [concat] in E1. rewrite (ln_step _ _ _ _ _ E1).
  eexists _, _, _. split; [reflexivity|]. split; [|split; [|exact Hi]].
  - split; try done; cbn [set_line l_buf l_buflen l_prompt l_pos l_len l_cols history_index z_start z_text z_front z_back z_hist z_index rev app].
    + by exists b.
    + by constructor.
    + split; [done|]. lia.
    + split; [|cbn; by apply Z.mod_pos_bound]. by exists p.
  - by split.
Qed.

Lemma linenoise_keys cs e prompt h ks rest y ks' c :
  hinter_ok hc -> completer_ok complete cs -> terminal e prompt -> Z.of_nat hmax < 2 ^ 31 - 1 -> hist_kept hmax h c ->
  keys_ok ks -> zrun cs (z_start hmax h) ks = Some (y, ks') -> t_in c = (RByte <$> key_bytes ks) ++ rest ->
  exists c', linenoise write_ok junk (Some hc) (Some complete) e prompt c = Some (z_result y, c') /\
    typed_ok (z_typed y) /\ hist_kept hmax (z_kept y) c' /\ t_in c' = (RByte <$> key_bytes ks') ++ rest.
Proof.
  intros Hhc Hcomp He Hm Hk Hks Hz Hi. unfold linenoise, linenoiseBlockingEdit. rewrite (tm_tty _ _ He), (tm_term _ _ He). cbn [negb Nat.eqb LINENOISE_MAX_LINE].
  destruct (start_ok e prompt h c He Hm Hk) as (rc & l & c1 & E1 & Hr & Hh & Hi1). rewrite (ln_step _ _ _ _ _ E1).
  rewrite (ln_step _ _ c1 (S (length (t_in c1))) c1 eq_refl). rewrite Hi1, Hi.
  destruct (loop_ok write_ok junk hc Hhc hmax Hm complete cs Hcomp ks (S (length ((RByte <$> key_bytes ks) ++ rest))) l _ rest c1 y ks' Hr Hh Hks Hz) as (c2 & E2 & Ht2 & Hk2 & Hi2).
  - by rewrite Hi1.
  - rewrite length_app, length_fmap. lia.
  - unfold loop in E2. rewrite (ln_step _ _ _ _ _ E2). unfold linenoiseEditStop. eexists. split; [reflexivity|]. done.
Qed.

(** C36 A line that is typed is the line that comes back.  On a terminal wider
    than the prompt, whatever the writes do, the editor takes the bytes of the
    keys a user presses and returns what an editor of characters makes of
    them: characters of UTF-8, the cursor's moves by whole characters,
    deletion of characters and words, swapping, the lines of the history that
    are gone through and changed, and the completions that are shown, accepted
    or taken back.  The call ends with the first key that ends the line, reads
    nothing behind it and stays in the 4096 bytes of its array.  The history
    it leaves is without the entry for the line being edited when the line is
    entered or the input ends (ctrl-d on an empty line); the interrupt key
    (ctrl-c) leaves that entry in the history, as the source does.  The
    characters, typed and shown, are those of UTF-8 but NUL, joiners and
    regional indicators ([text_char]), which the editor joins across
    characters; and the lines of the history that are gone to and the
    completions have less than 4095 bytes, which longer ones are cut to. *)
Theorem linenoise_edits cs e prompt h ks rest y ks' c :
  hinter_ok hc -> completer_ok complete cs -> terminal e prompt -> Z.of_nat hmax < 2 ^ 31 - 1 -> hist_kept hmax h c ->
  keys_ok ks -> zrun cs (z_start hmax h) ks = Some (y, ks') -> t_in c = (RByte <$> key_bytes ks) ++ rest ->
  exists c', linenoise write_ok junk (Some hc) (Some complete) e prompt c = Some (z_result y, c') /\
    hist_kept hmax (z_kept y) c' /\ t_in c' = (RByte <$> key_bytes ks') ++ rest.
Proof.
  intros Hhc Hcomp He Hm Hk Hks Hz Hi. destruct (linenoise_keys cs e prompt h ks rest y ks' c Hhc Hcomp He Hm Hk Hks Hz Hi) as (c' & E & _ & Hk' & Hi').
  by exists c'.
Qed.
End session.

(** * The console *)

(** A text of ASCII, character by character. *)
Definition ascii (s : list Z) : list (list Z) := (fun c => [c]) <$> s.
Definition ascii_byte (c : Z) : bool := (1 <=? c) && (c <=? 127).

Lemma concat_ascii s : concat (ascii s) = s.
Proof. unfold ascii. induction s as [|c s IH]; [done|]. cbn [fmap list_fmap concat app]. by f_equal. Qed.
Lemma ascii_text s : forallb ascii_byte s = true -> is_text (ascii s).
Proof.
  intros H. apply list.Forall_fmap, list.Forall_forall. intros c Hc. rewrite forallb_forall in H. specialize (H c ltac:(by apply list_elem_of_In)). unfold ascii_byte in H. bool_cases.
  cbn [compose]. assert (forallb (fun c => bool_decide (text_char [c])) (seqZ 1 127) = true) as Hall by (by vm_compute).
  rewrite forallb_forall in Hall. apply (bool_decide_eq_true_1 _), Hall. apply list_elem_of_In, elem_of_seqZ. lia.
Qed.

Definition console_hints : hinter := fun b => hints_callback (Some b).
Definition console_complete (mem : nat -> bool) : completer := fun b =>
  lc_cvec <$> completion_callback mem true (Some b) {| lc_cvec := []; lc_asked := 0 |}.
Definition console_offer (mem : nat -> bool) (t : list Z) : option (list (list (list Z))) := (fun ls => ascii <$> kept mem 0 ls) <$> offered t.

Lemma console_hints_ok : hinter_ok console_hints.
Proof.
  intros s rest Hs. destruct (decide (s = [])) as [->|Hne]; [by exists 90, 0, None|]. unfold console_hints. rewrite hints_callback_spec by done.
  eexists _, _, _. split; [done|]. destruct (find _ cli_ui_data) as [e|] eqn:Ef; [|done]. apply find_some in Ef as [Hin _].
  assert (Forall (fun e => forallb ascii_byte (ui_hint e) = true) cli_ui_data) as H by by_compute. rewrite list.Forall_forall in H.
  exists (ascii (ui_hint e)). split; [apply ascii_text, H; by apply list_elem_of_In|by rewrite concat_ascii].
Qed.

(** What is offered is short. *)
Definition offer_fits (l : list Z) : Prop := forallb ascii_byte l = true /\ (length l < CAPACITY)%nat.
Lemma kept_sub mem l : forall k x, x ∈ kept mem k l -> x ∈ l.
Proof.
  induction l as [|y l IH]; intros k x Hx; [done|]. cbn [kept] in Hx. apply list.elem_of_cons. destruct (mem k); [|right; by eapply IH].
  apply list.elem_of_cons in Hx as [->|Hx]; [by left|right; by eapply IH].
Qed.
Lemma offered_fits s ls : offered s = Some ls -> Forall offer_fits ls.
Proof.
  assert (forall l, forallb (fun x => forallb ascii_byte x && (length x <? 100)%nat) l = true -> Forall offer_fits l) as Hb.
  { intros l H. apply list.Forall_forall. intros x Hx. rewrite forallb_forall in H. specialize (H x ltac:(by apply list_elem_of_In)). apply andb_true_iff in H as [H1 H2].
    split; [done|]. apply Nat.ltb_lt in H2. assert (100 < CAPACITY)%nat by (unfold CAPACITY, LINENOISE_MAX_LINE; lia). lia. }
  assert (Forall offer_fits commands /\ Forall offer_fits lines2) as [H1 H2] by (split; apply Hb; by vm_compute).
  assert (forall p l, Forall offer_fits l -> Forall offer_fits (filter (begins p) l)) as Hf.
  { intros p l Hl. apply list.Forall_forall. intros x [_ Hx]%list_elem_of_filter. rewrite list.Forall_forall in Hl. by apply Hl. }
  unfold offered. intros E. destruct (words s) as [|w [|v ws]]; [done| |]; [case_bool_decide|]; apply (inj Some) in E as <-; by apply Hf.
Qed.

Lemma console_complete_ok mem : completer_ok (console_complete mem) (console_offer mem).
Proof.
  intros t Ht. split.
  - intros rest. unfold console_complete, console_offer. rewrite completion_spec by done. destruct (offered t) as [ls|]; [|done]. cbn [fmap option_fmap option_map]. f_equal.
    rewrite adds_kept. cbn [lc_cvec lc_asked app]. unfold lines_of. symmetry. generalize (kept mem 0 ls). intros l. induction l as [|x l IH]; [done|]. cbn [fmap list_fmap]. f_equal; [apply concat_ascii|exact IH].
  - unfold console_offer. intros v Ev. destruct (offered t) as [ls|] eqn:Eo; [|done]. injection Ev as <-. apply list.Forall_fmap, list.Forall_forall. intros x Hx%kept_sub.
    pose proof (offered_fits t ls Eo) as Hf. rewrite list.Forall_forall in Hf. destruct (Hf x Hx) as [H1 H2]. cbn [compose]. rewrite concat_ascii. split; [by apply ascii_text|done].
Qed.

(** ** Typing *)

(** What is typed and then ended with enter comes back. *)
Lemma typed_line cs z t : z_compl z = None -> z_front z = [] -> z_back z = [] -> z_hist z <> [] -> (length (concat t) <= CAPACITY)%nat ->
  zrun cs z (((fun c => (KChar c, c)) <$> t) ++ [(KEnter, [13])]) = Some (ZDone t (removelast (z_hist z)), []).
Proof.
  assert (forall t z, z_compl z = None -> z_back z = [] -> z_hist z <> [] -> (z_bytes z + length (concat t) <= CAPACITY)%nat ->
    zrun cs z (((fun c => (KChar c, c)) <$> t) ++ [(KEnter, [13])]) = Some (ZDone (z_text z ++ t) (removelast (z_hist z)), [])) as H.
  { clear t z. intros t. induction t as [|c t IH]; intros z Hc Hb Hh Hl.
    - cbn. rewrite Hc, app_nil_r. by destruct (z_hist z).
    - cbn [concat] in Hl. rewrite length_app in Hl. cbn [fmap list_fmap app zrun zstep]. rewrite Hc. cbn [zkey zmove mbind option_bind].
      unfold z_insert. rewrite (proj2 (Nat.leb_le _ _)) by lia. rewrite IH; try done.
      + unfold z_text. cbn [z_line z_front z_back rev concat]. rewrite Hb, !app_nil_r. by rewrite <- app_assoc.
      + unfold z_bytes, z_text in *. cbn [z_line z_front z_back rev]. rewrite Hb, app_nil_r in *. rewrite concat_app, length_app. cbn [concat]. rewrite app_nil_r. lia. }
  intros Hc Hf Hb Hh Hl. rewrite H; try done.
  - unfold z_text. by rewrite Hf, Hb.
  - unfold z_bytes, z_text. rewrite Hf, Hb. exact Hl.
Qed.

(** ** Input that is not a terminal *)

Section piped.
Context (write_ok : nat -> bool) (junk : Z).

(** The array has room for the line and, behind it, the NUL. *)
Lemma grown (line : list Z) maxlen : (length line <= maxlen)%nat ->
  let maxlen' := if (length line =? maxlen)%nat then ((if (maxlen =? 0)%nat then 16 else maxlen) * 2)%nat else maxlen in (length line < maxlen')%nat.
Proof. intros H. cbn zeta. destruct (Nat.eqb_spec (length line) maxlen), (Nat.eqb_spec maxlen 0); lia. Qed.

(** A line of any length, up to its newline or the end of the input. *)
Lemma noTTY_ok s : forall fuel line maxlen r c, (length line <= maxlen)%nat -> (length s < fuel)%nat -> 10 ∉ s -> t_in c = (RByte <$> s) ++ r ->
  match r with [] | RByte 10 :: _ | RError _ :: _ => True | _ => False end ->
  noTTY_loop fuel line maxlen c = Some
    (match line ++ s, r with [], ([] | RError _ :: _) => None | _, _ => Some (line ++ s ++ [0]) end, con_in (drop 1 r) c).
Proof.
  induction s as [|b s IH]; intros fuel line maxlen r c Hl Hf Hs Hi Hr; (destruct fuel as [|fuel]; [cbn in Hf; lia|]); cbn [noTTY_loop].
  all: pose proof (grown line maxlen Hl) as Hg; cbn zeta in Hg; apply Nat.leb_gt in Hg.
  - cbn [fmap list_fmap app] in Hi. rewrite app_nil_r. destruct r as [|[x|a] r].
    + assert (read1 c = Some (Eof, con_in [] c)) as E by (unfold read1; rewrite Hi; destruct c; cbn in Hi; by subst). rewrite (ln_step _ _ _ _ _ E). cbn [andb].
      destruct (Nat.eqb_spec (length line) 0) as [H0|H0]; [by apply nil_length_inv in H0 as ->|]. rewrite Hg. by destruct line.
    + rewrite (ln_step _ _ _ _ _ (read1_byte x r c Hi)). assert (x = 10) as -> by (destruct x as [|p|p]; try done; repeat (destruct p as [p|p|]; try done)). cbn [andb].
      rewrite Hg. cbn. by destruct line.
    + assert (read1 c = Some (Err a, con_in r c)) as E by (unfold read1; rewrite Hi; done). rewrite (ln_step _ _ _ _ _ E). cbn [andb].
      destruct (Nat.eqb_spec (length line) 0) as [H0|H0]; [by apply nil_length_inv in H0 as ->|]. rewrite Hg. by destruct line.
  - apply list.not_elem_of_cons in Hs as [Hb Hs]. cbn [fmap list_fmap app] in Hi. rewrite (ln_step _ _ _ _ _ (read1_byte b _ c Hi)). cbn [andb].
    rewrite Hg, (proj2 (Z.eqb_neq _ _)) by done. apply Nat.leb_gt in Hg. cbn [length] in Hf.
    rewrite (IH fuel (line ++ [b]) _ r (con_in ((RByte <$> s) ++ r) c)); try done; [|rewrite length_app; cbn [length]; lia|lia].
    rewrite <- !app_assoc. cbn [app]. by destruct line.
Qed.

Lemma linenoise_piped hints complete e prompt s r c :
  e_tty e || e_assume e = false -> 10 ∉ s -> t_in c = (RByte <$> s) ++ r -> match r with [] | RByte 10 :: _ | RError _ :: _ => True | _ => False end ->
  linenoise write_ok junk hints complete e prompt c =
    Some (match s, r with [], ([] | RError _ :: _) => None | _, _ => Some (s ++ [0]) end, con_in (drop 1 r) c).
Proof.
  intros He Hs Hi Hr. unfold linenoise, linenoiseNoTTY. rewrite He. cbn [negb]. rewrite (noTTY_ok s _ [] 0 r c); try done. rewrite Hi, length_app, length_fmap. lia.
Qed.
End piped.

(** ** The history in a file *)

(** A line a file can hold: no NUL, no end of line, and shorter than the buffer. *)
Definition file_line (s : list Z) : Prop := Forall (fun c => c <> 0 /\ c <> 10 /\ c <> 13) s /\ (length s < LINENOISE_MAX_LINE - 1)%nat.

Lemma file_fgets s r n : 10 ∉ s -> (length s < n)%nat -> fgets n (s ++ 10 :: r) = (s ++ [10], r).
Proof.
  revert n. induction s as [|c s IH]; intros [|n] Hs Hn; cbn [length] in Hn; try lia; [done|]. apply list.not_elem_of_cons in Hs as [Hc Hs]. cbn [app fgets].
  rewrite (proj2 (Z.eqb_neq _ _)) by done. by rewrite IH by (done || lia).
Qed.
Lemma span_none f (s : list Z) : Forall (fun c => f c = false) s -> span_until f s = (s, []).
Proof. induction 1 as [|c s Hc _ IH]; [done|]. cbn [span_until]. by rewrite Hc, IH. Qed.
Lemma span_at f (s r : list Z) x : Forall (fun c => f c = false) s -> f x = true -> span_until f (s ++ x :: r) = (s, x :: r).
Proof. intros Hs Hx. induction Hs as [|c s Hc _ IH]; cbn [app span_until]; [by rewrite Hx|]. by rewrite Hc, IH. Qed.
Lemma history_line_ok s : Forall (fun c => c <> 0 /\ c <> 10 /\ c <> 13) s -> history_line (s ++ [10]) = s.
Proof.
  intros Hs. unfold history_line.
  rewrite (span_none (fun c => c =? 0)) by (apply list.Forall_app; split; [eapply Forall_impl; [|exact Hs]; intros c (?&?&?); lia|by repeat constructor]).
  rewrite (span_none (fun c => c =? 13)) by (apply list.Forall_app; split; [eapply Forall_impl; [|exact Hs]; intros c (?&?&?); lia|by repeat constructor]).
  rewrite span_at; [done| |done]. eapply Forall_impl; [|exact Hs]. intros c (?&?&?). cbn. lia.
Qed.

(** [linenoiseHistoryAdd] on the lines of the history. *)
Definition line_add (hmax : nat) (h : list (list Z)) (s : list Z) : list (list Z) :=
  if (hmax =? 0)%nat then h else
  if bool_decide (h !! pred (length h) = Some s) then h else (if (length h =? hmax)%nat then drop 1 h else h) ++ [s].
Lemma line_add_ok s c : linenoiseHistoryAdd s c = Some ((), set_history (line_add (history_max_len c) (history c) s) c).
Proof.
  unfold linenoiseHistoryAdd. rewrite (ln_step (fun c => Some (c, c)) _ c c c eq_refl). unfold line_add. destruct (_ =? 0)%nat; [by destruct c|].
  case_bool_decide; [by destruct c|done].
Qed.

(** A file that was written is read back line by line. *)
Lemma load_save h : forall c fuel, Forall file_line h -> (length (linenoiseHistorySave h) <= fuel)%nat ->
  load_loop fuel (linenoiseHistorySave h) c = Some ((), set_history (foldl (line_add (history_max_len c)) (history c) h) c).
Proof.
  unfold linenoiseHistorySave. induction h as [|s h IH]; intros c fuel Hh Hf; [destruct fuel; by destruct c|].
  apply list.Forall_cons in Hh as [[Hs Hl] Hh]. cbn [fmap list_fmap concat] in *. rewrite !length_app in Hf. cbn [length] in Hf. rewrite <- app_assoc. cbn [app].
  destruct fuel as [|fuel]; [lia|]. destruct (s ++ 10 :: concat ((fun e => e ++ [10]) <$> h)) as [|x y] eqn:Exy; [by destruct s|]. cbn [load_loop]. rewrite <- Exy.
  rewrite file_fgets; [|intros Hin; rewrite list.Forall_forall in Hs; by destruct (Hs 10 Hin) as (_ & ? & _)|done]. rewrite history_line_ok by done.
  rewrite (ln_step _ _ _ _ _ (line_add_ok s c)), IH by (done || lia). done.
Qed.

(** Lines no two neighbours of which are the same. *)
Fixpoint distinct_neighbours (h : list (list Z)) : Prop :=
  match h with a :: (b :: _) as r => a <> b /\ distinct_neighbours r | _ => True end.

Lemma add_all hmax h : forall h0, (length h0 + length h <= hmax)%nat -> distinct_neighbours h -> (forall s, h0 !! pred (length h0) = Some s -> h !! 0%nat <> Some s) ->
  foldl (line_add hmax) h0 h = h0 ++ h.
Proof.
  induction h as [|s h IH]; intros h0 Hl Hd Hs; [by rewrite app_nil_r|]. cbn [length foldl] in *.
  assert (line_add hmax h0 s = h0 ++ [s]) as ->.
  { unfold line_add. rewrite (proj2 (Nat.eqb_neq _ _)) by lia. rewrite bool_decide_false; [by rewrite (proj2 (Nat.eqb_neq _ _)) by lia|].
    intros E. by apply (Hs s). }
  rewrite IH; [by rewrite <- app_assoc|rewrite length_app; cbn [length]; lia|by destruct h; [|apply Hd]|].
  intros t. rewrite length_app, Nat.add_1_r, lookup_app_r, Nat.sub_diag by (cbn; lia). intros [= <-] E. destruct h as [|t h]; [done|]. injection E as ->. by destruct Hd.
Qed.

(** The history of one run is that of the next. *)
Theorem history_file_roundtrip h c : Forall file_line h -> distinct_neighbours h -> (length h <= history_max_len c)%nat -> history c = [] ->
  linenoiseHistoryLoad (Some (linenoiseHistorySave h)) c = Some (0, set_history h c).
Proof.
  intros Hh Hd Hl H0. unfold linenoiseHistoryLoad. rewrite (ln_step _ _ _ _ _ (load_save h c _ Hh ltac:(done))). rewrite H0, add_all; try done.
Qed.

(** * Instances *)

Definition demo_env : env :=
  {| e_tty := true; e_raw_ok := true; e_term := Some (str "xterm"); e_assume := false; e_cols := None; e_ws := Some 40;
     e_stack := replicate LINENOISE_MAX_LINE 204; e_junk_cols := 0; e_junk_index := 0 |}.
Definition demo_con (ks : list (key * list Z)) (rest : list rd) (h : list (list Z)) : con :=
  {| t_in := (RByte <$> key_bytes ks) ++ rest; t_out := []; history := h; history_max_len := LINENOISE_DEFAULT_HISTORY_MAX_LEN |}.

Lemma demo_terminal : terminal demo_env (str "reflex> ").
Proof.
  split; try done. exists 40, (ascii (str "reflex> ")). split; [done|]. split; [by apply ascii_text|]. split; [by vm_compute|]. split; by vm_compute.
Qed.

(** "g", which completes to GET; a space, which accepts it; an accented letter,
    the arrow back and the delete key; "s", and the second of its
    completions. *)
Definition demo_keys : list (key * list Z) :=
  [(KChar [103], [103]); (KTab, [9]); (KChar [32], [32]); (KChar [195; 169], [195; 169]); (KLeft, [27; 91; 68]); (KDelete, [27; 91; 51; 126]);
   (KChar [115], [115]); (KTab, [9]); (KTab, [9]); (KEnter, [13])].

Lemma linenoise_edits_witness :
  exists c', linenoise (fun n => negb (n =? 3)%nat) 0 (Some console_hints) (Some (console_complete (fun _ => true))) demo_env (str "reflex> ")
      (demo_con demo_keys [RByte 113] [str "STATUS"]) = Some (Some (str "GET show" ++ [0]), c') /\
    hist_kept LINENOISE_DEFAULT_HISTORY_MAX_LEN [ascii (str "STATUS")] c' /\ t_in c' = [RByte 113].
Proof.
  destruct (linenoise_edits (fun n => negb (n =? 3)%nat) 0 console_hints (console_complete (fun _ => true)) LINENOISE_DEFAULT_HISTORY_MAX_LEN
    (console_offer (fun _ => true)) demo_env (str "reflex> ") [ascii (str "STATUS")] demo_keys [RByte 113] (ZDone (ascii (str "GET show")) [ascii (str "STATUS")]) []
    (demo_con demo_keys [RByte 113] [str "STATUS"])) as (c' & E & Hk & Hi).
  - apply console_hints_ok.
  - apply console_complete_ok.
  - apply demo_terminal.
  - by vm_compute.
  - split; [done|]. split; [apply list.Forall_cons_2; [by apply ascii_text|by constructor]|]. split; [by vm_compute; repeat constructor|done].
  - by_compute.
  - by vm_compute.
  - done.
  - exists c'. exact (conj E (conj Hk Hi)).
Defined.
