(* ===== verification/Console.v ===== *)
(** The console as a program (vfreflex.c's [main]): the editor reads lines from
    the terminal, requests go to the engine, and the history to its file. *)
From S2P Require Import Prelude Libc Text Printf Args Sys Udp Cmd CmdNet Reflex Sends Utf8 Linenoise LineDraw LineEdit LineKeys LineSession.

(** * Two machines

    A step of the console is one of the terminal or one of the system. *)

Definition console (A : Type) : Type := con -> sys (A * con).
#[export] Instance console_ret : MRet console := fun A x c => mret (x, c).
#[export] Instance console_bind : MBind console := fun A B f m c => m c ≫= fun '(x, c) => f x c.
#[global] Typeclasses Opaque console.

Definition tty {A} (m : ln A) : console A := fun c => sys_opt (m c).
Definition engine {A} (m : sys A) : console A := fun c => x ← m; mret (x, c).
Definition con_opt {A} (x : option A) : console A := fun c => x ← sys_opt x; mret (x, c).

Definition REFLEX_PROMPT : list Z := str "reflex> ".

(** * The program *)

Section program.
(** Whether a write succeeds, what is on the stack, whether memory is found
    for a completion, whether the history file can be opened when so many
    writes were made, and the environment. *)
Variables (write_ok : nat -> bool) (junk : Z) (mem : nat -> bool) (save_ok : nat -> bool) (e : env).

(** [linenoiseHistorySave] to the file whose contents are [file]. *)
Definition save_history (file : option (list Z)) : console (option (list Z)) :=
  tty (fun c => Some (if save_ok (length (t_out c)) then Some (linenoiseHistorySave (history c)) else file, c)).

Definition leaves (s : list Z) : bool := strcaseeq s (str "exit") || strcaseeq s (str "quit").

(** [silenced]: whether an earlier connection disabled SIGPIPE; [out]: what was
    shown. *)
Fixpoint reflex_loop (fuel : nat) (silenced : bool) (out : list reflex_out) (file : option (list Z)) : console (list reflex_out * option (list Z)) :=
  match fuel with
  | O => fun _ => sys_ub
  | S fuel =>
      r ← tty (linenoise write_ok junk (Some console_hints) (Some (console_complete mem)) e REFLEX_PROMPT);
      match r with
      | None => mret (out, file)
      | Some line =>
          s ← con_opt (cstr line);
          match s with
          | [] => reflex_loop fuel silenced out file
          | _ =>
              if leaves s then mret (out, file) else
              x ← engine (reflex_request silenced line);
              _ ← tty (linenoiseHistoryAdd s);
              file ← save_history file;
              reflex_loop fuel true (out ++ x) file
          end
      end
  end.

(** The status, what was shown, and the history file.  A call of the editor
    that is not the last reads something. *)
Definition reflex_main (file : option (list Z)) : console (Z * list reflex_out * option (list Z)) :=
  _ ← tty (linenoiseHistoryLoad file);
  n ← tty (fun c => Some (S (length (t_in c)), c));
  '(out, file) ← reflex_loop n false [] file;
  mret (0, out, file).
End program.

(** * What is typed *)

Section typed.
Variables (cs : list Z -> option (list (list (list Z)))) (hmax : nat).

(** The lines that are requests, each with the history it leaves; the history
    and the keys at the end. *)
Fixpoint typed (fuel : nat) (h : list (list (list Z))) (ks : list (key * list Z))
    : option (list (list (list Z) * list (list (list Z))) * list (list (list Z)) * list (key * list Z)) :=
  match fuel with
  | O => None
  | S fuel =>
      '(y, ks) ← zrun cs (z_start hmax h) ks;
      match y with
      | ZMore _ => None
      | ZQuit h => Some ([], h, ks)
      | ZDone line h =>
          if bool_decide (line = []) then typed fuel h ks
          else if leaves (concat line) then Some ([], h, ks)
          else
            let h := z_history_add hmax line h in
            '(ls, h', ks) ← typed fuel h ks;
            Some ((line, h) :: ls, h', ks)
      end
  end.
End typed.

(** The history a file of lines gives, and the file after these requests. *)
Definition loaded (hmax : nat) (h : list (list (list Z))) : list (list (list Z)) := foldl (fun h e => z_history_add hmax e h) [] h.
Definition last_saved (file : option (list Z)) (ls : list (list (list Z) * list (list (list Z)))) : option (list Z) :=
  foldl (fun _ x => Some (linenoiseHistorySave (lines_of x.2))) file ls.

(** * Proofs *)

Lemma tty_step {A B} (m : ln A) (f : A -> console B) c o x c' Q : m c = Some (x, c') -> sys_ok (f x c') o Q -> sys_ok ((tty m ≫= f) c) o Q.
Proof. intros E H. unfold mbind, console_bind, tty. by rewrite E. Qed.
Lemma con_opt_step {A B} (x : A) (f : A -> console B) c o Q : sys_ok (f x c) o Q -> sys_ok ((con_opt (Some x) ≫= f) c) o Q.
Proof. done. Qed.
Lemma engine_step {A B} (m : sys A) (f : A -> console B) c o P Q : sys_ok m o P ->
  (forall x o', os_kernel o' = os_kernel o -> P x o' -> sys_ok (f x c) o' Q) -> sys_ok ((engine m ≫= f) c) o Q.
Proof.
  intros Hm Hf. unfold mbind at 1, console_bind at 1, engine. apply sys_ok_bind, sys_ok_bind. eapply sys_ok_mono; [|exact Hm].
  intros x o' Hk Hx. apply sys_ok_ret. by apply Hf.
Qed.

(** A line takes at least one key. *)
Lemma zrun_suffix cs ks : forall z y ks', zrun cs z ks = Some (y, ks') -> exists k pre, ks = k :: pre ++ ks'.
Proof.
  induction ks as [|k ks IH]; intros z y ks' H; [done|]. cbn [zrun] in H. destruct (zstep cs z k) as [[z'|line h|h]|]; try done; cbn [mbind option_bind] in H.
  - destruct (IH z' y ks' H) as (k' & pre & ->). by exists k, (k' :: pre).
  - injection H as <- <-. by exists k, [].
  - injection H as <- <-. by exists k, [].
Qed.
Lemma key_nonempty k bs : bs ∈ key_seqs k -> bs <> [].
Proof.
  intros Hk ->. destruct k; try (apply list_elem_of_In in Hk; cbn in Hk; by repeat destruct Hk as [Hk|Hk]). apply char_key in Hk as [<- [[[] _] _]].
Qed.
Lemma zrun_bytes cs z ks y ks' : keys_ok ks -> zrun cs z ks = Some (y, ks') -> keys_ok ks' /\ (length (key_bytes ks') < length (key_bytes ks))%nat.
Proof.
  intros Hk Hz. destruct (zrun_suffix cs ks z y ks' Hz) as ([k bs] & pre & ->). apply list.Forall_cons in Hk as [Hb Hk]. apply list.Forall_app in Hk as [_ Hk]. split; [done|].
  apply key_nonempty in Hb. unfold key_bytes. cbn [fmap list_fmap snd concat]. rewrite fmap_app, concat_app, !length_app. destruct bs; [done|]. cbn [length]. lia.
Qed.

(** The history of the file is read back. *)
Lemma load_texts hmax h : forall h0 c, Forall is_text h -> hist_kept hmax h0 c ->
  hist_kept hmax (foldl (fun h e => z_history_add hmax e h) h0 h) (set_history (foldl (line_add (history_max_len c)) (history c) (lines_of h)) c).
Proof.
  induction h as [|t h IH]; intros h0 c Ht Hk; [by destruct c|]. apply list.Forall_cons in Ht as [Ht Hts].
  destruct (history_add_ok hmax t h0 c Ht Hk) as (c1 & E1 & Hk1 & Hi1). rewrite line_add_ok in E1. injection E1 as <-. exact (IH _ _ Hts Hk1).
Qed.
Lemma load_ok hmax h c : Forall is_text h -> Forall file_line (lines_of h) -> hist_kept hmax [] c ->
  exists c', linenoiseHistoryLoad (Some (linenoiseHistorySave (lines_of h))) c = Some (0, c') /\ hist_kept hmax (loaded hmax h) c' /\ t_in c' = t_in c.
Proof.
  intros Ht Hf Hk. eexists. split; [|split; [exact (load_texts hmax h [] c Ht Hk)|done]].
  unfold linenoiseHistoryLoad. by rewrite (ln_step _ _ _ _ _ (load_save (lines_of h) c _ Hf ltac:(done))).
Qed.

Section console.
Context (write_ok : nat -> bool) (junk : Z) (mem save_ok : nat -> bool) (e : env) (He : terminal e REFLEX_PROMPT).
Context (hmax : nat) (Hmax : Z.of_nat hmax < 2 ^ 31 - 1).

Let cs := console_offer mem.
Let loop := reflex_loop write_ok junk mem save_ok e.

(** A call of the editor, and what follows it. *)
Lemma line_step {B} (f : option (list Z) -> console B) h ks rest y ks' c o Q :
  hist_kept hmax h c -> keys_ok ks -> zrun cs (z_start hmax h) ks = Some (y, ks') -> t_in c = (RByte <$> key_bytes ks) ++ rest ->
  (forall c', typed_ok (z_typed y) -> hist_kept hmax (z_kept y) c' -> t_in c' = (RByte <$> key_bytes ks') ++ rest -> sys_ok (f (z_result y) c') o Q) ->
  sys_ok ((tty (linenoise write_ok junk (Some console_hints) (Some (console_complete mem)) e REFLEX_PROMPT) ≫= f) c) o Q.
Proof.
  intros Hk Hks Hz Hi H.
  destruct (linenoise_keys write_ok junk console_hints (console_complete mem) hmax cs e REFLEX_PROMPT h ks rest y ks' c console_hints_ok (console_complete_ok mem) He Hmax Hk Hks Hz Hi)
    as (c' & E & Ht & Hk' & Hi'). eapply tty_step; [exact E|]. by apply H.
Qed.

(** What is said for so many lines. *)
Definition requests (lines : list (list Z)) (s : list event) : Prop := exists ts, s = concat ts /\ Forall2 asked lines ts.

(** Nothing more is said. *)
Lemma requests_nil o : spoken (requests []) o o.
Proof. apply spoken_nil. by exists []. Qed.
Lemma requests_cons line lines o o1 o2 :
  spoken (asked line) o o1 -> spoken (requests lines) o1 o2 -> spoken (requests (line :: lines)) o o2.
Proof.
  apply spoken_trans. intros s b H1 (ts & -> & H2). exists (s :: ts). split; [done|by constructor].
Qed.

Definition loop_post (o : os) (n : nat) (file : option (list Z)) (ls : list (list (list Z) * list (list (list Z)))) (h' : list (list (list Z)))
    (r : list rd) (x : list reflex_out * option (list Z) * con) (o' : os) : Prop :=
  let '(out, file', c') := x in
  quiet o o' /\ (length out <= n + length ls)%nat /\ Forall out_ok out /\ hist_kept hmax h' c' /\ t_in c' = r /\
  ((forall k, save_ok k = true) -> file' = last_saved file ls) /\
  spoken (requests ((fun x => concat x.1) <$> ls)) o o'.

Lemma reflex_loop_ok n : forall fuel silenced out file h ks ls h' ks' rest c o,
  hist_kept hmax h c -> keys_ok ks -> typed cs hmax n h ks = Some (ls, h', ks') -> t_in c = (RByte <$> key_bytes ks) ++ rest ->
  (length (key_bytes ks) < fuel)%nat -> os_wf o -> Forall out_ok out ->
  sys_ok (loop fuel silenced out file c) o (loop_post o (length out) file ls h' ((RByte <$> key_bytes ks') ++ rest)).
Proof.
  induction n as [|n IH]; intros fuel silenced out file h ks ls h' ks' rest c o Hk Hks Ht Hi Hf Hwf Hout; [done|]. cbn [typed] in Ht.
  destruct (zrun cs (z_start hmax h) ks) as [[y ks1]|] eqn:Ez; [|done]. cbn [mbind option_bind] in Ht.
  destruct (zrun_bytes cs _ ks y ks1 Hks Ez) as [Hks1 Hlt]. destruct fuel as [|fuel]; [lia|]. unfold loop. cbn [reflex_loop].
  apply (line_step _ h ks rest y ks1); [done|done|exact Ez|done|]. intros c1 Htx Hk1 Hi1.
  destruct y as [z|line h1|h1]; [done| |].
  2: { injection Ht as <- <- <-. cbn [z_result]. apply sys_ok_ret. split; [apply quiet_refl|]. split; [cbn; lia|]. do 4 (split; [done|]). apply requests_nil. }
  destruct Htx as [Htx Hcap]. cbn [z_result z_typed z_kept] in *. assert (Z.of_nat CAPACITY < 2 ^ 32) as Hc32 by (by vm_compute). rewrite (cstr_app _ []) by by apply text_no_nul. apply con_opt_step.
  case_bool_decide as Hne.
  { subst line. cbn [concat]. apply (IH fuel silenced out file h1 ks1); try done. lia. }
  destruct (concat line) as [|b t] eqn:El.
  { exfalso. apply Hne. apply nil_length_inv. pose proof (chars_length _ (text_chars _ Htx)) as Hc. rewrite El in Hc. cbn in Hc. lia. }
  rewrite <- El in *. destruct (leaves (concat line)).
  { injection Ht as <- <- <-. apply sys_ok_ret. split; [apply quiet_refl|]. split; [cbn; lia|]. do 4 (split; [done|]). apply requests_nil. }
  destruct (typed cs hmax n (z_history_add hmax line h1) ks1) as [[[ls1 h2] ks2]|] eqn:Et; [|done]. cbn [mbind option_bind] in Ht. injection Ht as <- <- <-.
  eapply engine_step; [apply says_both; [apply request_says; [by apply text_no_nul|by rewrite El|lia]|apply (reflex_request_ok silenced (concat line) []); [by apply text_no_nul|done]]|].
  intros x o1 _ ((Hq & Hx & Hox) & Hsaid). destruct (history_add_ok hmax line h1 c1 Htx Hk1) as (c2 & E2 & Hk2 & Hi2). eapply tty_step; [exact E2|].
  unfold save_history. eapply tty_step; [reflexivity|].
  eapply sys_ok_mono; [|apply (IH fuel true (out ++ x) (if save_ok (length (t_out c2)) then Some (linenoiseHistorySave (history c2)) else file)
    (z_history_add hmax line h1) ks1 ls1 h2 ks2 rest c2 o1); try done].
  - intros [[out' file'] c'] o2 _ (Hq2 & Hlen & Ho & Hk3 & Hi3 & Hfile & Hreq). rewrite length_app in Hlen.
    split; [by eapply quiet_trans|]. split; [cbn [length]; lia|]. split; [done|]. split; [done|]. split; [done|]. split.
    + intros Hs. rewrite Hfile, Hs by done. unfold last_saved. cbn [foldl snd]. by rewrite (proj1 Hk2).
    + by eapply requests_cons.
  - by rewrite Hi2.
  - lia.
  - by eapply quiet_wf.
  - by apply list.Forall_app.
Qed.

(** C40 The console, from the keys to the requests.  On a terminal wider than its
    prompt, started with no history file or with one of lines of text, the
    console takes the bytes of the keys a user presses (of characters without
    joiners and regional indicators, in lines of less than 4096 bytes, as in
    C36), whatever the kernel and the engine answer, and ends with status 0 at
    a line [exit] or [quit] or a key that ends the input.  For every line of
    the user that is not empty, in order, it makes one request, and nothing
    else: it asks for a socket; if it gets one, it connects to the engine's
    path; if and only if that succeeds, it sends the header with the length of
    the line; and if and only if the kernel took the whole header, it sends
    the line.  At most one thing is shown for each line, a text without a NUL
    or that there is no engine; sockets are closed and blocks freed; no byte
    behind the last key is read; and the history file, when it can be written,
    has the history as of the last request. *)
Theorem console_typed saved n ks ls h' ks' rest c o :
  let file := (fun h => linenoiseHistorySave (lines_of h)) <$> saved in
  let h0 := default [] saved in
  Forall is_text h0 -> Forall file_line (lines_of h0) -> hist_kept hmax [] c -> os_wf o ->
  keys_ok ks -> t_in c = (RByte <$> key_bytes ks) ++ rest -> typed cs hmax n (loaded hmax h0) ks = Some (ls, h', ks') ->
  sys_ok (reflex_main write_ok junk mem save_ok e file c) o (fun '(rc, out, file', c') o' =>
    rc = 0 /\ os_same o o' /\ spoken (requests ((fun x => concat x.1) <$> ls)) o o' /\
    (length out <= length ls)%nat /\ Forall out_ok out /\ t_in c' = (RByte <$> key_bytes ks') ++ rest /\
    ((forall k, save_ok k = true) -> file' = last_saved file ls)).
Proof.
  intros file h0 Ht Hf Hk Hwf Hks Hi Hz.
  assert (exists rc c1, linenoiseHistoryLoad file c = Some (rc, c1) /\ hist_kept hmax (loaded hmax h0) c1 /\ t_in c1 = t_in c) as (rc & c1 & E1 & Hk1 & Hi1).
  { unfold file, h0 in *. destruct saved as [h|]; [|by exists (-1), c]. destruct (load_ok hmax h c Ht Hf Hk) as (c1 & H). by exists 0, c1. }
  unfold reflex_main. eapply tty_step; [exact E1|]. eapply tty_step; [reflexivity|]. rewrite Hi1, Hi.
  unfold mbind, console_bind. apply sys_ok_bind. eapply sys_ok_mono.
  2: { apply (reflex_loop_ok n _ false [] file (loaded hmax h0) ks ls h' ks' rest c1 o); try done; [by rewrite Hi1|]. rewrite length_app, length_fmap. lia. }
  intros [[out file'] c2] o2 _ ([Hs _] & Hl & Ho & _ & Hi2 & Hfile & Hreq). apply sys_ok_ret. done.
Qed.
End console.

(** * Instances *)

(** An empty line; the line of the history file; "h", completed; and "quit". *)
Definition demo_typed : list (key * list Z) :=
  let ch b := (KChar [b], [b]) in
  [(KEnter, [13]); (KUp, [27; 91; 65]); (KEnter, [13]); ch 104; (KTab, [9]); (KEnter, [13]); ch 113; ch 117; ch 105; ch 116; (KEnter, [13]); ch 120].

(** The engine answers the first request, and is gone at the second. *)
Lemma console_typed_witness :
  let k n := match n with
             | 3%nat => net_reply 12 [] | 4%nat => net_reply 6 []
             | 6%nat => net_reply 12 (hdr_bytes {| ah_magic := AFUINX_MAGIC; ah_type := 0; ah_version := AFUINX_VERSION; ah_length := 2 |})
             | 8%nat => net_reply 2 (str "OK") | 12%nat => net_reply (-1) []
             | _ => net_reply 0 [] end in
  let o := demo_net k [0; 1; 2] 0 in
  exists out c' o', reflex_main (fun _ => true) 0 (fun _ => true) (fun _ => true) demo_env (Some (str "STATUS" ++ [10])) (demo_con demo_typed [] []) o =
      Some (0, out, Some (str "STATUS" ++ [10] ++ str "HELP" ++ [10]), c', o') /\
    os_fds o' = [0; 1; 2] /\ (length out <= 2)%nat /\ Forall out_ok out /\ t_in c' = [RByte 120] /\
    spoken (requests [str "STATUS"; str "HELP"]) o o'.
Proof.
  intros k o. set (l1 := ascii (str "STATUS")). set (l2 := ascii (str "HELP")).
  destruct (console_typed (fun _ => true) 0 (fun _ => true) (fun _ => true) demo_env demo_terminal LINENOISE_DEFAULT_HISTORY_MAX_LEN ltac:(by vm_compute)
    (Some [l1]) 5 demo_typed [(l1, [l1]); (l2, [l1; l2])] [l1; l2] [(KChar [120], [120])] [] (demo_con demo_typed [] []) o)
    as ([[[rc out] file'] c'] & o' & E & _ & _ & Hrc & [Hfd _] & Hreq & Hl & Ho & Hi & Hfile).
  - apply list.Forall_cons_2; [by apply ascii_text|by constructor].
  - subst l1. by_compute.
  - split; [done|]. split; [by constructor|]. split; [cbn; lia|done].
  - by constructor.
  - by_compute.
  - done.
  - by vm_compute.
  - exists out, c', o'. rewrite Hfile, Hrc in E by done. split; [exact E|]. split; [exact Hfd|]. split; [exact Hl|]. split; [exact Ho|]. split; [exact Hi|exact Hreq].
Defined.
